(* ===== verification/_CoqProject ===== *)
-Q . S2P
Prelude.v
Queue.v
PageAlloc.v
Timer.v
Clock.v
Heap.v
Thread.v
Sem.v
CStr.v
Printf.v
Msgport.v
Signal.v
Pbuf.v
Inet.v
PbufPool.v
Fsm.v
Vj.v
Md5.v
Arp.v
Ether.v
Iovec.v
Tcp.v
TcpBase.v
TcpRecv.v
TcpSend.v
TcpStream.v
TcpConn.v
TcpWire.v
Ip.v
IpBase.v
IpWire.v
IpFwd.v
IpFlow.v
IpCtl.v
TcpIp.v
Ppp.v
PppFrame.v
PppVj.v
Inflate.v
InflateHuft.v
InflateTree.v
InflateBuild.v
InflateSpec.v
InflateBits.v
InflateCodes.v
InflateRun.v
Gunzip.v
