(* ===== verification/Prelude.v ===== *)
(** * Netbas (Jicama) OS kernel: verification library

    A shallow embedding of the core of the kernel under src/ (a small C kernel
    for 32-bit processors): memory, time, threads and their means of
    communication, the C library they use, the network up to TCP and UDP, and the
    decompressor for files.

    ** The program and the files

    The allocators are at the bottom.  The page allocator gives the kernel heap
    its memory; queues, threads, ports, semaphores and packet buffers live in the
    heap.  The timer interrupt advances the timer wheel; its timers end sleeps.
    Threads sleep on wait queues, which semaphores and message ports build on;
    signals make sleeping threads ready.  The network keeps packets in chains of
    buffers, over which it computes checksums; PPP negotiates a link with one
    automaton per control protocol, puts packets into frames and compresses the
    headers of TCP on it.  IP
    finds the interface for a packet, passes on what is for other hosts, and gives
    what is for this one to the sockets, to ICMP, which answers, or to TCP.  TCP
    turns what the applications write into segments, resends what is not
    acknowledged, and puts the segments that arrive back into order.

    - [Prelude] (this file): outcomes of kernel code and their monad, machine
      integers, reachability, generic lemmas and tactics.
    - [Queue]: the intrusive queues of sys/sys/queue.h.  [Tailq] and [Blist] are
      the macros on a memory of link fields; the representation predicates
      [is_tailq] and [is_list] relate it to lists.
    - [PageAlloc]: cpu/i386/mm/page.c, the pool of physical pages.  [pgstate] is
      the static data of the file.
    - [Timer]: the timer wheel of core/driver/char/timer.c; [Clock]: the calendar
      functions of that file and the clock chip of cpu/i386/dev/rtc.c.
    - [Heap]: core/mm/vm.c, heaps of size classes.
    - [Thread]: core/kernel/thread.c, schedule.c and system.c.  [kst] is the run
      list, the wait queues, the table of threads and the armed sleep timers.
    - [Sem]: the semaphores of core/kernel/user_thread.c; [Msgport]:
      core/ipc/msgport.c and thread_msg.c; [Signal]: core/ipc/signal.c and
      cpu/i386/kernel/signal.c.  Each has the thread state inside its own.
    - [CStr]: core/lib/string.c, conv.c and strtok.c on a memory of bytes;
      [Printf]: core/lib/snprintf.c and kprintf.c on that memory.
    - [Pbuf]: net/pbuf.c, packet buffers; [PbufPool]: who owns a buffer of the
      pool; [Inet]: the checksum of net/inet.c and the byte order of net/misc.c.
    - [Iovec]: the transfer vectors of the socket calls and memmove, in net/misc.c,
      on the memory of [CStr].
    - [Fsm]: net/ppp/fsm.c, with the callbacks of a protocol as parameters;
      [Vj]: net/ppp/vj.c; [Md5]: net/ppp/md5.c.  PPP is an option of the build
      (PPP_SUPPORT and the like in net/makefile).
    - [Arp]: net/arp.c, the table of neighbours and the packets that wait for an
      address; [Ether]: the sending and receiving of packets in net/ether.c.  Both
      work on the packets of [Pbuf], and their theorems use [PbufPool].
    - [Tcp]: net/tcp.c, tcp_input.c and tcp_output.c.  [pcb] is a control block,
      [tcp] all of them with the three lists and the static data, [net] what TCP
      sees of its surroundings: routes, the answers of the allocator and of the
      callbacks, the packets sent and the calls made.  [TcpBase]: sequence numbers,
      queues of segments, what each function leaves alone; [TcpRecv]: reassembly;
      [TcpSend]: the queues of the sender; [TcpStream]: two hosts and the packets
      between them; [TcpConn]: all connections of a host, their lists and states;
      [TcpWire]: checksum, options and retransmission timer.
    - [Ip]: net/ip.c, icmp.c, udp.c, raw.c, netif.c, nf_hook.c and the route of
      route.c.  [ipst] is the lists of interfaces, filters and control blocks with
      the static data, the answers of drivers and sockets still to come, and the
      log of what happened to each packet; a packet [ipkt] is the memory of its
      first buffer with the position and length of the data, and the data of the
      others; tcp_input is a parameter of [ip_input].  [IpBase]: headers in memory and
      their checksum; [IpWire]: a datagram from one host to another; [IpFwd]:
      forwarding and ICMP; [IpFlow]: who releases a packet; [IpCtl]: the interfaces
      and control blocks along all runs; [TcpIp]: the segments of [Tcp] in the
      packets of [Ip].
    - [Ppp]: net/ppp/ppp.c, the frames on a serial line.  [ppp] is the control block
      of a unit, [penv] what it sees of its surroundings: the time, the answers of
      the buffer pool, of the device and of the thread that takes packets over, the
      bytes written and the packets handed over.  The header compression is the
      class [Compression].  [PppFrame]: the check sequence, escapes, frames and a
      link between two units, for any compression with the law [Lossless]; [PppVj]:
      [Vj] on the bytes of packets, as an instance of both.
    - [Inflate]: core/inflate.c and gunzip.c.  [hmem] is the memory of the decoding
      tables, [gz] the static data: the input, the bit buffer, the window and what
      was written.  What huft_build finds in its uninitialised array is an argument,
      [junk].  [InflateSpec]: the format of RFC 1951 and 1952, as what a list of
      blocks is in bits and what data it stands for.  [InflateHuft], [InflateTree] and
      [InflateBuild]: the tables, from the reversed codes to huft_build as a whole;
      [InflateBits]: the bit buffer; [InflateCodes]: symbols, the window and copies;
      [InflateRun]: blocks and streams; [Gunzip]: files.

    ** How the code is modelled

    A function of the source is a definition of the same name.  What it reads and
    writes of the static data and of memory is passed in and out; what it can do
    besides returning is an [outcome].  Integers are [Z], reduced to their width
    with [u8], [u16], [u32] and [s32] where the code stores or computes them.
    Pointers are numbers, NULL is 0, and structures are found in maps or lists; an
    access to a structure that is not there is a [Fault].  The kernel runs on one
    processor and the modelled functions with interrupts off, so that a function
    is one step; one that gives up the processor is split where it calls
    schedule.  What other code supplies (the address kmalloc returned, a callback,
    the packets of a peer) is an argument.

    ** What the theorems show

    - Queues: disciplined runs of the macros refine list operations.
    - Pages: no page is handed out twice while one is kept in reserve; what the
      last page and get_pages do instead.
    - Timers: a timer fires at its tick and not before, through all cascades;
      arming keeps the wheel well formed.
    - Clock: a time set is the time read; the conversions are the Gregorian
      calendar's, with the dates on which they are not.
    - Heap: blocks held are apart and inside the heap along all runs; kcalloc
      clears its block and nothing else.
    - Threads: schedule ends, and picks the first ready thread with the most ticks;
      wake-ups are in order; a sleep and its wake-up restore the thread.
    - Semaphores: never more holders than units, in runs without expiry; what
      expiry, destruction and the untimed lock do.
    - Ports: a port is a bounded FIFO queue, and lookups are exact.
    - Signals: only pending and unmasked signals are delivered.
    - C library: strstr and the conversions against their specifications; the exact
      bytes strncpy and snprintf write.
    - Packet buffers: no buffer is lost or shared along all runs; allocation and
      partial copies are exact.  The checksum is that of RFC 1071, however the
      data are split.
    - Transfer vectors: what is scattered is gathered again, byte for byte; memmove
      copies overlapping ranges.
    - PPP: the automaton is the table of RFC 1661; it tells the upper layer up and
      down alternately, and gives up on a silent peer.  Compression followed by
      decompression is the identity.  Packets sent on a link arrive as they were,
      with any of the compressions and with characters that the line inserts, when
      there are buffers; a damaged frame is dropped, if the damage is at most two
      adjacent bytes; the table of the check sequence is that of RFC 1662.  Frames
      that bring the receiver down are theorems of [PppVj].  The digest of a message handed over in pieces
      is that of RFC 1321.
    - Ethernet: the table of neighbours keeps what was heard most recently; no packet
      that waits for an address is lost or released twice; a request and its reply
      make an address known; packets go out with the right header.
    - TCP: between two hosts whose packets are lost, repeated and reordered a stream
      arrives as it was written, without gaps or repetition; streams are shorter
      than 2^31 - 2^17 bytes, and a write that runs out of memory half way is
      excluded.  Reassembly is for segments cut at fixed places, as this sender cuts
      them; what other senders can cause are theorems of [TcpRecv].  Nothing is sent
      outside the window.  Connections move along the arrows of RFC 793 and are on
      the list of their state; a segment finds its connection.  IP carries what is
      sent to the TCP of the receiver, which accepts its checksum; the loops over options and ports and the
      table of the backoff have the ends the theorems name.
    - IP: a datagram that udp_send hands to a driver reaches the socket of its port
      on the other host, byte for byte, after padding and trimming.  Forwarding and
      echo replies, which change a packet in place, leave its checksums right, with
      the exceptions stated.  A packet that arrives is released, sent or handed to a
      socket once, or left to the caller, if no filter drops packets.  The lists and
      fields of interfaces and control blocks stay well formed along all runs, and a
      socket bound to port 0 gets a port, and the datagrams for it, for itself.
    - Decompression: a file in the format of RFC 1952 with stored blocks, the fixed
      codes, or complete codes of the blocks' own gives back exactly its data, and
      the memory of all tables.  The tables huft_build makes decode every code of a set
      that a block can have, a set with too many codes is refused, and a copy is right
      also when it overlaps itself or wraps around.  What damaged files cause, and the
      sets for which the tables are wrong, are theorems of [Gunzip].

    A theorem about the code's limits says exactly where they are; those that
    contradict a comment, a standard or the evident intent are theorems too.

    ** Fuel

    Loops that are not structural carry fuel, and each theorem that a function
    returns is about the fuel the definitions give.  Loops over a string have one
    more than the number of mapped bytes, and loops over a chain of buffers or a
    list one more than the number of structures: a loop that goes on has left the
    memory.  The loop over the years of _gmtime has one iteration per 365 days, the
    one over the months 11.  [schedule] has 102 passes, which its own guard
    cannot exceed.  Draining a slot of the wheel and catching up on ticks take the
    fuel as an argument; the theorems say how much is enough.  [split_loop] has two
    turns more than a queue of segments may hold, after which tcp_enqueue gives up;
    [tcp_new_port] and [udp_new_port] one more than there are control blocks; the options of a segment
    are at most 40 bytes, and [parse_loop] takes its fuel as an argument because a
    length can make it turn for ever.  [inflate] takes a bound on the blocks and on the
    symbols of a block: as every symbol has at least one bit, the number of bits of the
    file is enough; a code of 16 bits goes through at most 17 tables.

    ** Not modelled

    - Page tables and memory maps, context switch, traps, system call entry and
      stack frames of user code: register and hardware level code.  Creation and
      exit of threads and processes and waitpid depend on them.
    - Program loaders, the file system client and the emulation of Linux calls:
      requests to server programs, over the modelled ports.
    - Packets, shared memory, select and ptrace (core/ipc): not yet.
    - Device framework, terminals, device drivers and the debugger: input and
      output.
    - Sockets, DHCP and DNS (net/), the requests of ioctl that configure
      interfaces, the loopback and the Ethernet thread, and the option negotiation
      and authentication of PPP: not yet; the options are callbacks of [Fsm].  Of
      the PPP link: its thread, closing it, and routes.  Of IP: filters that change packets, and callbacks that do more than
      answer.  Of TCP: the reference counts of the buffers of a segment (segments
      are values in [Tcp]), and callbacks that do more than write, acknowledge and
      register functions.
    - drv/ (loadable modules and imported packages) and the ports to other
      processors (cpu/arm, amd64, mips32, xen32): apart from the kernel proper.
    - core/mm/alloc.c is compiled out.  Functions that only print, and spin locks,
      are left out. *)

From stdpp Require Export base gmap list numbers strings.
From Stdlib Require Export ZArith Lia.

Declare Scope kernel_scope.
Delimit Scope kernel_scope with K.
#[global] Open Scope Z_scope.

(** ** Outcomes of kernel code

    [Ok a]: the code returned [a].  [Panic]: a failed [ASSERT] or a call of
    [panic()].  [Fault]: a dereference of NULL or of an address outside the
    object it should point into.  [OutOfFuel]: the bound on the number of
    iterations of a loop of the model was too small. *)
Inductive outcome (A : Type) : Type :=
  | Ok (a : A)
  | Panic
  | Fault
  | OutOfFuel.
Arguments Ok {A} a.
Arguments Panic {A}.
Arguments Fault {A}.
Arguments OutOfFuel {A}.

#[global] Instance outcome_ret : MRet outcome := @Ok.
#[global] Instance outcome_bind : MBind outcome := fun A B f m =>
  match m with
  | Ok a => f a
  | Panic => Panic
  | Fault => Fault
  | OutOfFuel => OutOfFuel
  end.

#[global] Instance outcome_eq_dec {A} `{EqDecision A} : EqDecision (outcome A).
Proof. solve_decision. Defined.

(** [from_opt o] reads through a pointer: a missing object is a fault. *)
Definition from_opt {A} (o : option A) : outcome A :=
  match o with Some a => Ok a | None => Fault end.

(** [kassert b] is the kernel's ASSERT macro. *)
Definition kassert (b : bool) : outcome unit := if b then Ok tt else Panic.

Lemma bind_Ok {A B} (a : A) (f : A -> outcome B) : mbind f (Ok a) = f a.
Proof. reflexivity. Qed.

Lemma bind_Ok_inv {A B} (m : outcome A) (f : A -> outcome B) b :
  mbind f m = Ok b -> exists a, m = Ok a /\ f a = Ok b.
Proof. destruct m; cbn; naive_solver. Qed.

Lemma from_opt_Ok {A} (o : option A) a : from_opt o = Ok a <-> o = Some a.
Proof. destruct o; cbn; split; intros; simplify_eq; done. Qed.

(** [inv_ok] decomposes every [bind ... = Ok _] hypothesis. *)
Ltac inv_ok :=
  repeat match goal with
    | H : mbind _ _ = Ok _ |- _ =>
        let a := fresh "a" in let H1 := fresh "Hb" in let H2 := fresh "Hk" in
        apply bind_Ok_inv in H; destruct H as (a & H1 & H2)
    | H : from_opt _ = Ok _ |- _ => apply from_opt_Ok in H
    | H : Ok _ = Ok _ |- _ => injection H as H; subst
    | H : (_, _) = (_, _) |- _ => injection H as ?; subst
    | H : Panic = Ok _ |- _ => discriminate H
    | H : Fault = Ok _ |- _ => discriminate H
    | H : OutOfFuel = Ok _ |- _ => discriminate H
    end.

(** ** Machine integers *)

Definition u8 (x : Z) : Z := x mod 2 ^ 8.
Definition u16 (x : Z) : Z := x mod 2 ^ 16.
Definition u32 (x : Z) : Z := x mod 2 ^ 32.

(** A 32-bit pattern read as a signed [int] or [long]. *)
Definition s32 (x : Z) : Z :=
  let y := x mod 2 ^ 32 in if y <? 2 ^ 31 then y else y - 2 ^ 32.

Lemma u8_range x : 0 <= u8 x < 2 ^ 8.
Proof. apply Z.mod_pos_bound; lia. Qed.

Lemma u16_range x : 0 <= u16 x < 2 ^ 16.
Proof. apply Z.mod_pos_bound; lia. Qed.

Lemma u32_range x : 0 <= u32 x < 2 ^ 32.
Proof. apply Z.mod_pos_bound; lia. Qed.

Lemma s32_range x : - 2 ^ 31 <= s32 x < 2 ^ 31.
Proof.
  unfold s32. pose proof (Z.mod_pos_bound x (2 ^ 32) ltac:(lia)).
  destruct (Z.ltb_spec (x mod 2 ^ 32) (2 ^ 31)); lia.
Qed.

Lemma u32_small x : 0 <= x < 2 ^ 32 -> u32 x = x.
Proof. intros. by apply Z.mod_small. Qed.

Lemma u16_small x : 0 <= x < 2 ^ 16 -> u16 x = x.
Proof. intros. by apply Z.mod_small. Qed.

Lemma u8_small x : 0 <= x < 2 ^ 8 -> u8 x = x.
Proof. intros. by apply Z.mod_small. Qed.

Lemma u32_of_s32 x : u32 (s32 x) = u32 x.
Proof.
  unfold u32, s32. destruct (x mod 2 ^ 32 <? 2 ^ 31); [by rewrite Z.mod_mod by lia|].
  replace (x mod 2 ^ 32 - 2 ^ 32) with (x mod 2 ^ 32 + (-1) * 2 ^ 32) by lia. by rewrite Z.mod_add, Z.mod_mod by lia.
Qed.

(** Sums may be converted at each step or at the end. *)
Lemma s32_add_s32 x y : s32 (s32 x + y) = s32 (x + y).
Proof.
  assert ((s32 x + y) mod 2 ^ 32 = (x + y) mod 2 ^ 32) as E; [|by unfold s32 at 1; rewrite E].
  rewrite <- Z.add_mod_idemp_l by lia. pose proof (u32_of_s32 x) as Eu. unfold u32 in Eu. rewrite Eu. by rewrite Z.add_mod_idemp_l by lia.
Qed.

Lemma s32_small x : - 2 ^ 31 <= x < 2 ^ 31 -> s32 x = x.
Proof.
  intros. unfold s32. destruct (decide (0 <= x)).
  - rewrite Z.mod_small by lia. destruct (Z.ltb_spec x (2 ^ 31)); lia.
  - rewrite <- (Z.mod_add x 1 (2 ^ 32)) by lia.
    rewrite Z.mod_small by lia.
    destruct (Z.ltb_spec (x + 1 * 2 ^ 32) (2 ^ 31)); lia.
Qed.

Lemma u32_u32 x : u32 (u32 x) = u32 x.
Proof. unfold u32. by rewrite Z.mod_mod by lia. Qed.

Lemma lor_add x y n : 0 <= n -> 0 <= y < 2 ^ n -> Z.lor (x * 2 ^ n) y = x * 2 ^ n + y.
Proof.
  intros Hn Hy. symmetry. apply Z.add_nocarry_lor. apply Z.bits_inj'. intros k Hk.
  rewrite Z.land_spec, Z.bits_0. destruct (Z.ltb_spec k n).
  - by rewrite Z.mul_pow2_bits_low.
  - rewrite <- (Z.mod_small y (2 ^ n)) by done. rewrite Z.mod_pow2_bits_high by lia. apply andb_false_r.
Qed.

(** The number with the four bytes [b3] .. [b0]. *)
Lemma lor_four_bytes b0 b1 b2 b3 : 0 <= b0 < 256 -> 0 <= b1 < 256 -> 0 <= b2 < 256 ->
  Z.lor (Z.lor (Z.lor (b3 * 2 ^ 24) (b2 * 2 ^ 16)) (b1 * 2 ^ 8)) b0 = b3 * 2 ^ 24 + b2 * 2 ^ 16 + b1 * 2 ^ 8 + b0.
Proof.
  intros. rewrite (lor_add b3 (b2 * 2 ^ 16)) by lia.
  replace (b3 * 2 ^ 24 + b2 * 2 ^ 16) with ((b3 * 256 + b2) * 2 ^ 16) by lia.
  rewrite (lor_add _ (b1 * 2 ^ 8)) by lia.
  replace ((b3 * 256 + b2) * 2 ^ 16 + b1 * 2 ^ 8) with (((b3 * 256 + b2) * 256 + b1) * 2 ^ 8) by lia.
  rewrite lor_add by lia. lia.
Qed.

Create HintDb kernel.
Create Rewrite HintDb kernel.
#[export] Hint Resolve u8_range u16_range u32_range s32_range : kernel.
#[export] Hint Rewrite u32_u32 : kernel.

(** ** Error numbers (sys/errno.h); the kernel's constants are negative *)
Definition ENOENT : Z := -2.
Definition ECHILD : Z := -10.
Definition EAGAIN : Z := -11.
Definition ENOMEM : Z := -12.
Definition EBUSY : Z := -16.
Definition EINVAL : Z := -22.

(** NULL pointers. *)
Definition NULL : Z := 0.

(** ** Lists *)

Lemma elem_of_mid {A} (x : A) l1 l2 : x ∈ l1 ++ x :: l2.
Proof. rewrite elem_of_app. right. left. Qed.
#[export] Hint Resolve elem_of_mid : kernel.

(** [list_del x l] drops the first occurrence of [x]. *)
Fixpoint list_del (x : Z) (l : list Z) : list Z :=
  match l with
  | [] => []
  | y :: l' => if decide (x = y) then l' else y :: list_del x l'
  end.

Lemma list_del_notin x l : x ∉ l -> list_del x l = l.
Proof.
  induction l as [|y l IH]; cbn; [done|]. intros Hx.
  case_decide; [set_solver|]. f_equal. apply IH. set_solver.
Qed.

Lemma list_del_middle x l1 l2 :
  x ∉ l1 -> list_del x (l1 ++ x :: l2) = l1 ++ l2.
Proof.
  induction l1 as [|y l1 IH]; cbn; intros Hx.
  - by case_decide.
  - case_decide; [set_solver|]. f_equal. apply IH. set_solver.
Qed.

Lemma list_del_sublist x l : list_del x l `sublist_of` l.
Proof.
  induction l as [|y l IH]; cbn; [done|]. case_decide.
  - by apply sublist_cons.
  - by apply sublist_skip.
Qed.

Lemma list_del_NoDup x l : NoDup l -> NoDup (list_del x l).
Proof.
  intros Hl. eapply sublist_NoDup; [done|apply list_del_sublist].
Qed.

Lemma elem_of_list_del x y l : y ∈ list_del x l -> y ∈ l.
Proof.
  intros H. eapply sublist_subseteq; [apply (list_del_sublist x)|done].
Qed.

Lemma elem_of_list_del_ne x y l : x <> y -> y ∈ list_del x l <-> y ∈ l.
Proof.
  intros Hne. induction l as [|z l IH]; cbn; [done|].
  case_decide; set_solver.
Qed.

Lemma NoDup_list_del_notin x l : NoDup l -> x ∉ list_del x l.
Proof.
  induction l as [|y l IH]; cbn; [set_solver|].
  intros [Hy Hl]%NoDup_cons. case_decide; [by subst|]. set_solver.
Qed.

Lemma length_list_del x l :
  x ∈ l -> length l = S (length (list_del x l)).
Proof.
  induction l as [|y l IH]; cbn; [set_solver|]. intros Hx.
  case_decide; [done|]. cbn. f_equal. apply IH. set_solver.
Qed.

#[export] Hint Resolve list_del_NoDup : kernel.

(** ** C arrays: lists read and written at a [Z] index, with a fault outside *)

Definition aget {A} (l : list A) (i : Z) : outcome A :=
  if 0 <=? i then from_opt (l !! Z.to_nat i) else Fault.

Definition aset {A} (l : list A) (i : Z) (x : A) : outcome (list A) :=
  if (0 <=? i) && (i <? Z.of_nat (length l)) then Ok (<[Z.to_nat i := x]> l) else Fault.

Lemma aget_Ok {A} (l : list A) i x :
  aget l i = Ok x <-> 0 <= i /\ l !! Z.to_nat i = Some x.
Proof.
  unfold aget. destruct (Z.leb_spec 0 i); [rewrite from_opt_Ok|]; naive_solver lia.
Qed.

Lemma aget_is_Ok {A} (l : list A) i :
  0 <= i < Z.of_nat (length l) -> exists x, aget l i = Ok x.
Proof.
  intros Hi. destruct (lookup_lt_is_Some_2 l (Z.to_nat i)) as [x Hx]; [lia|].
  exists x. rewrite aget_Ok. split; [lia|done].
Qed.

Lemma aget_bound {A} (l : list A) i x :
  aget l i = Ok x -> 0 <= i < Z.of_nat (length l).
Proof. rewrite aget_Ok. intros [? ?%lookup_lt_Some]. lia. Qed.

Lemma aset_Ok {A} (l : list A) i x :
  0 <= i < Z.of_nat (length l) -> aset l i x = Ok (<[Z.to_nat i := x]> l).
Proof.
  intros Hi. unfold aset. destruct (Z.leb_spec 0 i), (Z.ltb_spec i (Z.of_nat (length l)));
    cbn; lia || done.
Qed.

Lemma aset_Ok_inv {A} (l l' : list A) i x :
  aset l i x = Ok l' -> 0 <= i < Z.of_nat (length l) /\ l' = <[Z.to_nat i := x]> l.
Proof.
  unfold aset. destruct (Z.leb_spec 0 i), (Z.ltb_spec i (Z.of_nat (length l)));
    cbn; intros; naive_solver lia.
Qed.

Lemma aset_length {A} (l l' : list A) i x : aset l i x = Ok l' -> length l' = length l.
Proof. intros [_ ->]%aset_Ok_inv. apply length_insert. Qed.

Lemma aget_aset_eq {A} (l l' : list A) i x : aset l i x = Ok l' -> aget l' i = Ok x.
Proof.
  intros [Hi ->]%aset_Ok_inv. rewrite aget_Ok. split; [lia|].
  apply list_lookup_insert_eq. lia.
Qed.

Lemma aget_aset_ne {A} (l l' : list A) i j x :
  aset l i x = Ok l' -> i <> j -> aget l' j = aget l j.
Proof.
  intros [Hi ->]%aset_Ok_inv Hne. unfold aget.
  destruct (Z.leb_spec 0 j); [|done]. rewrite list_lookup_insert_ne by lia. done.
Qed.

Lemma aget_aset {A} (l l' : list A) i j x :
  aset l i x = Ok l' -> aget l' j = if decide (i = j) then Ok x else aget l j.
Proof. intros. case_decide; [subst; by eapply aget_aset_eq|by eapply aget_aset_ne]. Qed.

#[global] Arguments aget : simpl never.
#[global] Arguments aset : simpl never.

(** ** Reachability: the reflexive-transitive closure of a step relation *)
Section Reach.
Context {St : Type} (step : St -> St -> Prop).

Inductive reach : St -> St -> Prop :=
  | reach_refl s : reach s s
  | reach_step s1 s2 s3 : reach s1 s2 -> step s2 s3 -> reach s1 s3.

(** Rule induction packaged for invariants. *)
Lemma reach_invariant (Inv : St -> Prop) s0 s :
  Inv s0 -> (forall a b, Inv a -> step a b -> Inv b) ->
  reach s0 s -> Inv s.
Proof. intros H0 Hs. induction 1; eauto. Qed.
End Reach.

(** A run that returns a state with a decidable property, from its evaluation. *)
Lemma ok_such_that {A} (P : A -> Prop) `{!forall x, Decision (P x)} (m : outcome A) :
  match m with Ok x => bool_decide (P x) | _ => false end = true -> exists x, m = Ok x /\ P x.
Proof.
  destruct m as [x| | |]; intros Hm; try done. exists x. split; [done|].
  by apply bool_decide_eq_true in Hm.
Qed.
