(* ===== verification/Queue.v ===== *)
(** * Intrusive queues: the TAILQ and LIST macros of sys/sys/queue.h

    The kernel threads every thread, message, semaphore, message port, shared
    memory area and interrupt handler on an intrusive doubly linked queue.
    [Tailq] and [Blist] model the macros on a memory of heads and link fields,
    with a [struct type **] as the address of a next cell.  The representation
    predicates [is_tailq] and [is_list] relate that memory to a Rocq list, and
    the refinement theorems show that each macro implements a list operation
    and leaves every disjoint queue alone.  The other components of the library
    use the list operations. *)

From S2P Require Import Prelude.

(** The address of a cell holding a [struct type *]: NULL, the first-element
    cell of queue head [q], or the next cell of element [e]. *)
Inductive link :=
  | LNull
  | LHead (q : Z)
  | LNext (e : Z).

#[global] Instance link_eq_dec : EqDecision link.
Proof. solve_decision. Defined.

Module Tailq.

Record tqhead := MkHead { tqh_first : Z; tqh_last : link }.
Record tqent := MkEnt { tqe_next : Z; tqe_prev : link }.

(** One field (run_lists, wait_lists, buf_lists, ...) of all the elements, and
    the heads that are linked through it. *)
Record tqmem := MkMem { heads : gmap Z tqhead; ents : gmap Z tqent }.

Definition set_head (m : tqmem) (q : Z) (h : tqhead) : tqmem :=
  MkMem (<[q := h]> (heads m)) (ents m).
Definition set_ent (m : tqmem) (e : Z) (x : tqent) : tqmem :=
  MkMem (heads m) (<[e := x]> (ents m)).

(** [*a = v] *)
Definition write_cell (m : tqmem) (a : link) (v : Z) : outcome tqmem :=
  match a with
  | LNull => Fault
  | LHead q => h ← from_opt (heads m !! q);
               Ok (set_head m q (MkHead v (tqh_last h)))
  | LNext e => x ← from_opt (ents m !! e);
               Ok (set_ent m e (MkEnt v (tqe_prev x)))
  end.

Definition TAILQ_INIT (m : tqmem) (q : Z) : tqmem :=
  set_head m q (MkHead NULL (LHead q)).

Definition TAILQ_FIRST (m : tqmem) (q : Z) : outcome Z :=
  h ← from_opt (heads m !! q); Ok (tqh_first h).

Definition TAILQ_EMPTY (m : tqmem) (q : Z) : outcome bool :=
  h ← from_opt (heads m !! q); Ok (tqh_first h =? NULL).

Definition TAILQ_NEXT (m : tqmem) (e : Z) : outcome Z :=
  x ← from_opt (ents m !! e); Ok (tqe_next x).

Definition TAILQ_ENTRY_EMPTY (m : tqmem) (e : Z) : outcome bool :=
  x ← from_opt (ents m !! e);
  Ok ((tqe_next x =? NULL) && bool_decide (tqe_prev x = LNull)).

Definition TAILQ_ENTRY_INIT (m : tqmem) (e : Z) : tqmem :=
  set_ent m e (MkEnt NULL LNull).

Definition TAILQ_INSERT_HEAD (m : tqmem) (q e : Z) : outcome tqmem :=
  h ← from_opt (heads m !! q);
  x ← from_opt (ents m !! e);
  let m := set_ent m e (MkEnt (tqh_first h) (tqe_prev x)) in
  m ← (if tqh_first h =? NULL
       then Ok (set_head m q (MkHead (tqh_first h) (LNext e)))
       else f ← from_opt (ents m !! tqh_first h);
            Ok (set_ent m (tqh_first h) (MkEnt (tqe_next f) (LNext e))));
  m ← write_cell m (LHead q) e;
  x ← from_opt (ents m !! e);
  Ok (set_ent m e (MkEnt (tqe_next x) (LHead q))).

Definition TAILQ_INSERT_TAIL (m : tqmem) (q e : Z) : outcome tqmem :=
  h ← from_opt (heads m !! q);
  x ← from_opt (ents m !! e);
  let m := set_ent m e (MkEnt NULL (tqe_prev x)) in
  let m := set_ent m e (MkEnt NULL (tqh_last h)) in
  m ← write_cell m (tqh_last h) e;
  h ← from_opt (heads m !! q);
  Ok (set_head m q (MkHead (tqh_first h) (LNext e))).

(** First statement of TAILQ_REMOVE: the successor [n] of the element, or the
    tail pointer of the head, gets the element's back link [pv]. *)
Definition remove_back (m : tqmem) (q n : Z) (pv : link) : outcome tqmem :=
  if n =? NULL
  then h ← from_opt (heads m !! q);
       Ok (set_head m q (MkHead (tqh_first h) pv))
  else x ← from_opt (ents m !! n);
       Ok (set_ent m n (MkEnt (tqe_next x) pv)).

Definition TAILQ_REMOVE (m : tqmem) (q e : Z) : outcome tqmem :=
  x ← from_opt (ents m !! e);
  m ← remove_back m q (tqe_next x) (tqe_prev x);
  x ← from_opt (ents m !! e);
  write_cell m (tqe_prev x) (tqe_next x).

(** TAILQ_FOREACH: the elements in the order the loop visits them, with at
    most [fuel] iterations. *)
Fixpoint foreach_from (fuel : nat) (m : tqmem) (p : Z) : outcome (list Z) :=
  match fuel with
  | O => if p =? NULL then Ok [] else OutOfFuel
  | S fuel =>
      if p =? NULL then Ok []
      else n ← TAILQ_NEXT m p; l ← foreach_from fuel m n; Ok (p :: l)
  end.

Definition TAILQ_FOREACH (fuel : nat) (m : tqmem) (q : Z) : outcome (list Z) :=
  p ← TAILQ_FIRST m q; foreach_from fuel m p.

(** [lseg m prev p l last q]: starting at pointer [p], found in cell [prev],
    the elements [l] are linked in both directions; [last] is the address of
    the cell that follows them and [q] the pointer in it. *)
Fixpoint lseg (m : gmap Z tqent) (prev : link) (p : Z) (l : list Z)
    (last : link) (q : Z) : Prop :=
  match l with
  | [] => p = q /\ prev = last
  | x :: l' =>
      p = x /\ x <> NULL /\
      exists n, m !! x = Some (MkEnt n prev) /\ lseg m (LNext x) n l' last q
  end.

Definition is_tailq (m : tqmem) (q : Z) (l : list Z) : Prop :=
  NoDup l /\ exists f last,
    heads m !! q = Some (MkHead f last) /\
    lseg (ents m) (LHead q) f l last NULL.

Lemma lseg_insert_ne m e x prev p l last q :
  e ∉ l -> lseg m prev p l last q -> lseg (<[e := x]> m) prev p l last q.
Proof.
  revert prev p. induction l as [|y l IH]; cbn; [done|].
  intros prev p He (-> & Hy & n & Hn & Hs). split_and!; [done..|].
  exists n. split; [|apply IH; set_solver].
  rewrite lookup_insert_ne; [done|set_solver].
Qed.

Lemma lseg_app m prev p l1 l2 last q :
  lseg m prev p (l1 ++ l2) last q <->
  exists mid mp, lseg m prev p l1 mid mp /\ lseg m mid mp l2 last q.
Proof.
  revert prev p. induction l1 as [|y l1 IH]; cbn; intros prev p.
  - split; [by exists prev, p|]. by intros (? & ? & [-> ->] & H).
  - split.
    + intros (-> & Hy & n & Hn & (mid & mp & H1 & H2)%IH).
      exists mid, mp. naive_solver.
    + intros (mid & mp & (-> & Hy & n & Hn & H1) & H2). split_and!; [done..|].
      exists n. split; [done|]. apply IH. eauto.
Qed.

Lemma lseg_elem m prev p l last q x :
  lseg m prev p l last q -> x ∈ l -> exists e, m !! x = Some e /\ x <> NULL.
Proof.
  revert prev p. induction l as [|y l IH]; cbn; [set_solver|].
  intros prev p (-> & Hy & n & Hn & Hs) [->|Hx]%elem_of_cons; eauto.
Qed.

Lemma lseg_elem_prev m prev p l last q x e :
  lseg m prev p l last q -> x ∈ l -> prev <> LNull -> m !! x = Some e ->
  tqe_prev e <> LNull.
Proof.
  revert prev p. induction l as [|y l IH]; cbn; [set_solver|].
  intros prev p (-> & Hy & n & Hn & Hs) [->|Hx]%elem_of_cons Hp He.
  - by simplify_eq.
  - eapply IH; eauto.
Qed.

(** The cell after a segment is the starting cell or a next cell in it. *)
Lemma lseg_last m prev p l last q :
  lseg m prev p l last q ->
  (l = [] /\ last = prev /\ p = q) \/
  exists l' y pr, l = l' ++ [y] /\ last = LNext y /\
    m !! y = Some (MkEnt q pr) /\ lseg m prev p l' pr y.
Proof.
  destruct l as [|y l' _] using rev_ind; cbn; [naive_solver|].
  intros (mid & mp & H1 & (-> & Hy & n & Hn & -> & <-))%lseg_app.
  right. exists l', y, mid. done.
Qed.

(** Changing the pointer in the cell that follows a segment. *)
Lemma lseg_set_last m prev p l y pr q' :
  y ∉ l -> y <> NULL -> lseg m prev p l pr y ->
  lseg (<[y := MkEnt q' pr]> m) prev p (l ++ [y]) (LNext y) q'.
Proof.
  intros Hy Hy0 Hs. apply lseg_app. exists pr, y. split.
  - by apply lseg_insert_ne.
  - cbn. split_and!; [done..|]. exists q'. by rewrite lookup_insert_eq.
Qed.

(** Changing the cell a segment starts from. *)
Lemma lseg_set_first m prev prev' x e l last q :
  x ∉ l -> lseg m prev x (x :: l) last q -> m !! x = Some e ->
  lseg (<[x := MkEnt (tqe_next e) prev']> m) prev' x (x :: l) last q.
Proof.
  cbn. intros Hx (_ & Hx0 & n & Hn & Hs) He. simplify_eq/=.
  split_and!; [done..|]. exists n. rewrite lookup_insert_eq.
  split; [done|]. by apply lseg_insert_ne.
Qed.

(** A queue is framed by updates of other heads and of foreign elements. *)
Lemma is_tailq_set_head m q q' h l :
  q <> q' -> is_tailq m q' l -> is_tailq (set_head m q h) q' l.
Proof.
  intros Hq (Hn & f & last & Hh & Hs). split; [done|]. exists f, last.
  cbn. by rewrite lookup_insert_ne.
Qed.

Lemma is_tailq_set_ent m e x q' l :
  e ∉ l -> is_tailq m q' l -> is_tailq (set_ent m e x) q' l.
Proof.
  intros He (Hn & f & last & Hh & Hs). split; [done|]. exists f, last.
  split; [done|]. by apply lseg_insert_ne.
Qed.

Lemma TAILQ_INIT_spec m q : is_tailq (TAILQ_INIT m q) q [].
Proof.
  split; [constructor|]. exists NULL, (LHead q). cbn.
  by rewrite lookup_insert_eq.
Qed.

Lemma foreach_from_spec m prev p l last fuel :
  lseg (ents m) prev p l last NULL -> (length l <= fuel)%nat ->
  foreach_from fuel m p = Ok l.
Proof.
  revert prev p l. induction fuel as [|fuel IH]; intros prev p l Hs Hf.
  - destruct l; cbn in *; [|lia]. by destruct Hs as [-> _].
  - destruct l as [|x l]; cbn in *; [by destruct Hs as [-> _]|].
    destruct Hs as (-> & Hx & n & Hn & Hs).
    destruct (Z.eqb_spec x NULL); [done|]. unfold TAILQ_NEXT. rewrite Hn.
    cbn. erewrite IH; [done|exact Hs|lia].
Qed.

(** A change of queue [q] that touches only its head, its elements [l] and
    [e]: every queue that shares none of them is unchanged. *)
Definition frames (q : Z) (l : list Z) (e : Z) (m m' : tqmem) : Prop :=
  forall q' l', q' <> q -> e ∉ l' -> l ## l' ->
    is_tailq m q' l' -> is_tailq m' q' l'.

Lemma insert_tail_ok m q l e x :
  is_tailq m q l -> e ∉ l -> e <> NULL -> ents m !! e = Some x ->
  exists m', TAILQ_INSERT_TAIL m q e = Ok m' /\
    is_tailq m' q (l ++ [e]) /\ frames q l e m m'.
Proof.
  intros (Hnd & f & last & Hh & Hs) He He0 Hx.
  assert (NoDup (l ++ [e])) as Hnd'.
  { apply NoDup_app. split_and!; [done| |apply NoDup_singleton]. set_solver. }
  unfold TAILQ_INSERT_TAIL. rewrite Hh. cbn. rewrite Hx. cbn.
  unfold set_ent; cbn. rewrite insert_insert_eq.
  destruct (lseg_last _ _ _ _ _ _ Hs)
    as [(-> & -> & ->)|(l' & y & pr & -> & -> & Hy & Hs')]; cbn.
  - rewrite Hh. cbn. rewrite lookup_insert_eq. cbn.
    eexists; split; [done|]. split.
    + split; [done|]. exists e, (LNext e). cbn. rewrite lookup_insert_eq.
      split; [done|]. split_and!; [done..|]. exists NULL.
      by rewrite lookup_insert_eq.
    + intros q' l' Hq Hel _ Hq'.
      apply (is_tailq_set_head _ q _ (MkHead e (LNext e))), (is_tailq_set_ent _ e
        (MkEnt NULL (LHead q))) in Hq'; [|done..].
      destruct Hq' as (Hn & f' & last' & Hh' & Hs2). split; [done|].
      exists f', last'. cbn in *. rewrite lookup_insert_ne in Hh' |- * by done.
      split; [|done]. by rewrite lookup_insert_ne.
  - rewrite lookup_insert_ne by set_solver. rewrite Hy. cbn.
    rewrite Hh. cbn. eexists; split; [done|]. split.
    + split; [done|]. exists f, (LNext e). cbn. rewrite lookup_insert_eq.
      split; [done|]. apply lseg_app. exists (LNext y), e. split.
      * apply NoDup_app in Hnd as (_ & Hyl & _).
        apply lseg_set_last; [set_solver| |].
        -- destruct (lseg_elem _ _ _ _ _ _ y Hs) as (? & _ & ?); set_solver.
        -- apply lseg_insert_ne; [set_solver|done].
      * cbn. split_and!; [done..|]. exists NULL.
        rewrite lookup_insert_ne by set_solver. by rewrite lookup_insert_eq.
    + intros q' l1 Hq Hel Hd Hq'.
      apply (is_tailq_set_head _ q _ (MkHead f (LNext e))); [done|].
      apply (is_tailq_set_ent _ y (MkEnt e pr)); [set_solver|].
      by apply (is_tailq_set_ent _ e).
Qed.

Lemma remove_back_ok m q f last mid n l2 e :
  heads m !! q = Some (MkHead f last) -> NoDup l2 ->
  lseg (ents m) (LNext e) n l2 last NULL ->
  exists m' last', remove_back m q n mid = Ok m' /\
    heads m' !! q = Some (MkHead f last') /\
    (forall y, y ∉ l2 -> ents m' !! y = ents m !! y) /\
    (forall l p, l ## l2 -> lseg (ents m) (LHead q) p l mid e ->
       lseg (ents m') (LHead q) p l mid e) /\
    lseg (ents m') mid n l2 last' NULL /\
    (forall q' l', q' <> q -> l2 ## l' -> is_tailq m q' l' -> is_tailq m' q' l').
Proof.
  intros Hh Hnd Hs2. unfold remove_back. destruct l2 as [|z l2]; cbn in Hs2.
  - destruct Hs2 as [-> <-]. cbn. rewrite Hh. cbn. do 2 eexists. split; [done|].
    cbn. rewrite lookup_insert_eq. split_and!; try done.
    intros q' l' Hq ? ?. by apply is_tailq_set_head.
  - destruct Hs2 as (-> & Hz & n' & Hz' & Hs2). apply NoDup_cons in Hnd as [Hzl _].
    destruct (Z.eqb_spec z NULL); [done|]. rewrite Hz'. cbn.
    do 2 eexists. split; [done|]. cbn. split_and!; [done| | | | | |].
    + intros y Hy. apply lookup_insert_ne. set_solver.
    + intros l p Hl Hls. apply lseg_insert_ne; [|done]. set_solver.
    + done.
    + done.
    + exists n'. rewrite lookup_insert_eq. split; [done|].
      by apply lseg_insert_ne.
    + intros q' l' Hq ? ?. apply is_tailq_set_ent; [set_solver|done].
Qed.

(** The links of the removed element keep their stale values. *)
Lemma remove_ok m q l1 l2 e x :
  is_tailq m q (l1 ++ e :: l2) -> ents m !! e = Some x ->
  exists m', TAILQ_REMOVE m q e = Ok m' /\
    is_tailq m' q (l1 ++ l2) /\ ents m' !! e = Some x /\
    frames q (l1 ++ e :: l2) e m m'.
Proof.
  intros (Hnd & f & last & Hh & Hs) Hx.
  apply NoDup_app in Hnd as (Hn1 & Hd & [He2 Hn2]%NoDup_cons).
  assert (NoDup (l1 ++ l2)) as Hnd' by (apply NoDup_app; set_solver).
  apply lseg_app in Hs as (mid & mp & Hs1 & (-> & He0 & n & Hn & Hs2)).
  simplify_eq/=. unfold TAILQ_REMOVE. rewrite Hn. cbn.
  destruct (remove_back_ok m q f last mid n l2 e)
    as (m1 & last1 & -> & Hh1 & Hen & Hl1 & Hs2' & Hfr); [done..|].
  cbn. rewrite Hen, Hn by done. cbn.
  apply Hl1 in Hs1; [|set_solver].
  destruct (lseg_last _ _ _ _ _ _ Hs1)
    as [(-> & -> & ->)|(l' & y & pr & -> & -> & Hy & Hs')]; cbn.
  - rewrite Hh1. cbn. eexists; split; [done|]. split_and!.
    + split; [done|]. exists n, last1. cbn. by rewrite lookup_insert_eq.
    + cbn. by rewrite Hen.
    + intros q' l' Hq ? ? ?. apply is_tailq_set_head; [done|].
      apply Hfr; set_solver.
  - rewrite Hy. cbn. eexists; split; [done|]. split_and!.
    + split; [done|]. exists f, last1. cbn. split; [done|].
      apply NoDup_app in Hn1 as (_ & Hyl & _). rewrite <- (assoc (++)).
      apply lseg_app. exists pr, y.
      split; [apply lseg_insert_ne; [set_solver|done]|].
      cbn. split_and!; [done| |].
      * destruct (lseg_elem _ _ _ _ _ _ y Hs1) as (? & _ & ?); set_solver.
      * exists n. rewrite lookup_insert_eq. split; [done|].
        apply lseg_insert_ne; [set_solver|done].
    + cbn. rewrite lookup_insert_ne by set_solver. by rewrite Hen.
    + intros q' l1 Hq ? ? ?. apply is_tailq_set_ent; [set_solver|].
      apply Hfr; set_solver.
Qed.

Lemma insert_head_ok m q l e x :
  is_tailq m q l -> e ∉ l -> e <> NULL -> ents m !! e = Some x ->
  exists m', TAILQ_INSERT_HEAD m q e = Ok m' /\
    is_tailq m' q (e :: l) /\ frames q l e m m'.
Proof.
  intros (Hnd & f & last & Hh & Hs) He He0 Hx.
  unfold TAILQ_INSERT_HEAD. rewrite Hh. cbn. rewrite Hx. cbn.
  destruct l as [|y l]; cbn in Hs.
  - destruct Hs as [-> <-]. cbn. rewrite lookup_insert_eq. cbn.
    rewrite lookup_insert_eq. cbn. eexists; split; [done|]. split.
    + split; [by apply NoDup_singleton|]. exists e, (LNext e). cbn.
      rewrite lookup_insert_eq. split; [done|]. split_and!; [done..|].
      exists NULL. by rewrite lookup_insert_eq.
    + intros q' l' Hq Hel Hd Hq'. apply is_tailq_set_ent; [done|].
      do 2 (apply is_tailq_set_head; [done|]). by apply is_tailq_set_ent.
  - destruct Hs as (-> & Hy & n & Hn & Hs). apply NoDup_cons in Hnd as [Hyl Hl].
    destruct (Z.eqb_spec y NULL); [done|].
    rewrite lookup_insert_ne by set_solver. rewrite Hn. cbn. rewrite Hh. cbn.
    rewrite lookup_insert_ne by set_solver. rewrite lookup_insert_eq. cbn.
    eexists; split; [done|]. split.
    + split; [by repeat constructor; set_solver|]. exists e, last. cbn.
      rewrite lookup_insert_eq. split; [done|]. split_and!; [done..|].
      exists y. rewrite lookup_insert_eq. split; [done|].
      split_and!; [done..|]. exists n.
      rewrite lookup_insert_ne by set_solver. rewrite lookup_insert_eq.
      split; [done|]. do 3 (apply lseg_insert_ne; [set_solver|]). done.
    + intros q' l' Hq Hel Hd Hq'. apply is_tailq_set_ent; [done|].
      apply is_tailq_set_head; [done|].
      apply is_tailq_set_ent; [set_solver|]. by apply is_tailq_set_ent.
Qed.

(** *** Sequences of macros against a map of lists *)

Inductive tq_op :=
  | OpInit (q : Z)
  | OpInsertHead (q e : Z)
  | OpInsertTail (q e : Z)
  | OpRemove (q e : Z).

Definition run_op (m : tqmem) (o : tq_op) : outcome tqmem :=
  match o with
  | OpInit q => Ok (TAILQ_INIT m q)
  | OpInsertHead q e => TAILQ_INSERT_HEAD m q e
  | OpInsertTail q e => TAILQ_INSERT_TAIL m q e
  | OpRemove q e => TAILQ_REMOVE m q e
  end.

(** No queue of the map holds [e]. *)
Definition unlinked (e : Z) (A : gmap Z (list Z)) : Prop :=
  map_Forall (fun _ l => e ∉ l) A.

#[global] Instance unlinked_dec e A : Decision (unlinked e A).
Proof. apply _. Defined.

(** The abstract operation; [None] when the caller breaks the discipline of
    the macros (inserting a linked element, removing one that is not there,
    initialising a queue in use). *)
Definition abs_op (A : gmap Z (list Z)) (o : tq_op) : option (gmap Z (list Z)) :=
  match o with
  | OpInit q =>
      match A !! q with Some (_ :: _) => None | _ => Some (<[q := []]> A) end
  | OpInsertHead q e =>
      l ← A !! q;
      if decide (e <> NULL /\ unlinked e A) then Some (<[q := e :: l]> A) else None
  | OpInsertTail q e =>
      l ← A !! q;
      if decide (e <> NULL /\ unlinked e A) then Some (<[q := l ++ [e]]> A) else None
  | OpRemove q e =>
      l ← A !! q;
      if decide (e ∈ l) then Some (<[q := list_del e l]> A) else None
  end.

(** [dm]: the elements whose link field exists. *)
Definition sim (m : tqmem) (A : gmap Z (list Z)) : Prop :=
  (forall q l, A !! q = Some l -> is_tailq m q l) /\
  (forall q1 q2 l1 l2, q1 <> q2 -> A !! q1 = Some l1 -> A !! q2 = Some l2 ->
     l1 ## l2).

(** The element an operation links must have a link field. *)
Definition op_mem (m : tqmem) (o : tq_op) : Prop :=
  match o with
  | OpInsertHead _ e | OpInsertTail _ e => is_Some (ents m !! e)
  | _ => True
  end.

Lemma sim_update m m' A q l e l' :
  sim m A -> A !! q = Some l -> frames q l e m m' -> is_tailq m' q l' ->
  (e ∈ l \/ unlinked e A) -> (forall x, x ∈ l' -> x = e \/ x ∈ l) ->
  sim m' (<[q := l']> A).
Proof.
  intros [HA Hd] Hq Hf Hq' He Hsub. split.
  - intros q1 l1. destruct (decide (q1 = q)) as [->|Hne].
    + rewrite lookup_insert_eq. by intros [= <-].
    + rewrite lookup_insert_ne by done. intros Hl1. apply Hf; auto.
      * destruct He as [He|He]; [|by eapply He].
        specialize (Hd q1 q l1 l Hne Hl1 Hq). set_solver.
      * by eapply Hd; [| |exact Hl1]; [by apply not_eq_sym|].
  - assert (forall q1 l1, q1 <> q -> A !! q1 = Some l1 -> l' ## l1) as Hl'.
    { intros q1 l1 Hne Hl1. specialize (Hd q1 q l1 l Hne Hl1 Hq).
      intros x [->|Hx]%Hsub Hx1; [|set_solver].
      destruct He as [He|He]; [set_solver|]. by eapply He. }
    intros q1 q2 l1 l2 Hne. destruct (decide (q1 = q)) as [->|H1].
    + rewrite lookup_insert_eq, lookup_insert_ne by done. naive_solver.
    + rewrite lookup_insert_ne by done. destruct (decide (q2 = q)) as [->|H2].
      * rewrite lookup_insert_eq. intros Hl1 [= <-].
        specialize (Hl' q1 l1 H1 Hl1). set_solver.
      * rewrite lookup_insert_ne by done. by apply Hd.
Qed.

Lemma sim_step m A o A' :
  sim m A -> op_mem m o -> abs_op A o = Some A' ->
  exists m', run_op m o = Ok m' /\ sim m' A'.
Proof.
  intros Hsim Hmem Ho. pose proof Hsim as [HA Hd].
  destruct o as [q|q e|q e|q e]; cbn in Ho, Hmem |- *.
  - exists (TAILQ_INIT m q). split; [done|]. split.
    + intros q1 l1. destruct (A !! q) as [[|]|] eqn:Hq; simplify_eq;
        (destruct (decide (q1 = q)) as [->|Hne];
         [rewrite lookup_insert_eq; intros [= <-]; apply TAILQ_INIT_spec
         |rewrite lookup_insert_ne by done; intros; apply is_tailq_set_head; auto]).
    + intros q1 q2 l1 l2 Hne. assert (A' = <[q := []]> A) as ->.
      { by destruct (A !! q) as [[|]|]; simplify_eq. }
      destruct (decide (q1 = q)) as [->|H1]; [rewrite lookup_insert_eq; set_solver|].
      destruct (decide (q2 = q)) as [->|H2].
      * rewrite lookup_insert_ne, lookup_insert_eq by done. set_solver.
      * rewrite !lookup_insert_ne by done. by apply Hd.
  - destruct (A !! q) as [l|] eqn:Hq; cbn in Ho; [|done].
    case_decide as He; simplify_eq. destruct He as [He0 He], Hmem as [x Hx].
    destruct (insert_head_ok m q l e x) as (m' & -> & Hq' & Hf); eauto.
    exists m'. split; [done|]. eapply sim_update; eauto. set_solver.
  - destruct (A !! q) as [l|] eqn:Hq; cbn in Ho; [|done].
    case_decide as He; simplify_eq. destruct He as [He0 He], Hmem as [x Hx].
    destruct (insert_tail_ok m q l e x) as (m' & -> & Hq' & Hf); eauto.
    exists m'. split; [done|]. eapply sim_update; eauto. set_solver.
  - destruct (A !! q) as [l|] eqn:Hq; cbn in Ho; [|done].
    case_decide as He; simplify_eq. pose proof (HA _ _ Hq) as Hl.
    apply list_elem_of_split in He as (l1 & l2 & ->).
    destruct Hl as (Hnd & f & last & Hh & Hs).
    destruct (lseg_elem _ _ _ _ _ _ e Hs) as (x & Hx & _); [set_solver|].
    destruct (remove_ok m q l1 l2 e x) as (m' & -> & Hq' & _ & Hf); eauto.
    exists m'. split; [done|]. apply NoDup_app in Hnd as (_ & Hnd & _).
    rewrite list_del_middle by set_solver.
    eapply sim_update; eauto; set_solver.
Qed.

Lemma foreach_ok m q l fuel :
  is_tailq m q l -> (length l <= fuel)%nat -> TAILQ_FOREACH fuel m q = Ok l.
Proof.
  intros (_ & f & last & Hh & Hs) Hf. unfold TAILQ_FOREACH, TAILQ_FIRST.
  rewrite Hh. cbn. by eapply foreach_from_spec.
Qed.

Fixpoint run_ops (m : tqmem) (os : list tq_op) : outcome tqmem :=
  match os with [] => Ok m | o :: os => m ← run_op m o; run_ops m os end.

Fixpoint abs_ops (A : gmap Z (list Z)) (os : list tq_op) : option (gmap Z (list Z)) :=
  match os with [] => Some A | o :: os => A ← abs_op A o; abs_ops A os end.

Lemma write_cell_ents m a v m' e :
  write_cell m a v = Ok m' -> is_Some (ents m !! e) -> is_Some (ents m' !! e).
Proof.
  destruct a; cbn; intros H He; inv_ok; cbn; [done|].
  rewrite lookup_insert_is_Some'. by right.
Qed.

Ltac via_write_cell :=
  match goal with
  | H : write_cell _ _ _ = Ok _ |- _ => eapply write_cell_ents; [exact H|]; clear H
  end.

(** No macro takes a link field away. *)
Lemma run_op_ents m o m' e :
  run_op m o = Ok m' -> is_Some (ents m !! e) -> is_Some (ents m' !! e).
Proof.
  destruct o as [q|q x|q x|q x]; cbn; intros H He.
  - by inv_ok.
  - unfold TAILQ_INSERT_HEAD in H. inv_ok. cbn. rewrite lookup_insert_is_Some'.
    right. via_write_cell.
    destruct (tqh_first a =? NULL); inv_ok; cbn; rewrite ?lookup_insert_is_Some'; tauto.
  - unfold TAILQ_INSERT_TAIL in H. inv_ok. cbn.
    via_write_cell. cbn. rewrite !lookup_insert_is_Some'. tauto.
  - unfold TAILQ_REMOVE, remove_back in H. inv_ok.
    via_write_cell.
    destruct (tqe_next a =? NULL); inv_ok; cbn; rewrite ?lookup_insert_is_Some'; tauto.
Qed.

Lemma op_mem_step m o m' o' :
  run_op m o = Ok m' -> op_mem m o' -> op_mem m' o'.
Proof. intros H. destruct o'; cbn; eauto using run_op_ents. Qed.

(** C13: any sequence of TAILQ_INIT / INSERT_HEAD / INSERT_TAIL / REMOVE that
    respects the queue discipline runs without a fault on the linked memory,
    keeps every queue well linked, and a TAILQ_FOREACH over a queue then
    visits exactly the elements of the list the abstract operations give, in
    order. *)
Theorem tailq_refines_lists m A os A' :
  sim m A -> Forall (op_mem m) os -> abs_ops A os = Some A' ->
  exists m', run_ops m os = Ok m' /\ sim m' A' /\
    forall q l, A' !! q = Some l -> TAILQ_FOREACH (length l) m' q = Ok l.
Proof.
  revert m A. induction os as [|o os IH]; intros m A Hsim Hmem Ho; cbn in Ho.
  - simplify_eq. exists m. split_and!; [done..|]. intros q l Hl.
    apply foreach_ok; [by apply Hsim|lia].
  - destruct (abs_op A o) as [A1|] eqn:HA; cbn in Ho; [|done].
    apply Forall_cons in Hmem as [Ho1 Hos].
    destruct (sim_step m A o A1) as (m1 & Hm1 & Hs1); [done..|].
    destruct (IH m1 A1) as (m' & Hr & Hs' & Hl); [done| |done|].
    { eapply Forall_impl; [exact Hos|]. intros o' Ho'. by eapply op_mem_step. }
    exists m'. cbn. rewrite Hm1. done.
Qed.

Definition demo_mem : tqmem :=
  MkMem ∅ (<[7 := MkEnt NULL LNull]> (<[8 := MkEnt NULL LNull]>
    {[9 := MkEnt NULL LNull]})).

Lemma tailq_refines_lists_witness :
  exists m', run_ops demo_mem
      [OpInit 1; OpInsertTail 1 7; OpInsertTail 1 8; OpInsertHead 1 9; OpRemove 1 7]
    = Ok m' /\ TAILQ_FOREACH 2 m' 1 = Ok [9; 8].
Proof.
  destruct (tailq_refines_lists demo_mem ∅
    [OpInit 1; OpInsertTail 1 7; OpInsertTail 1 8; OpInsertHead 1 9; OpRemove 1 7]
    {[1 := [9; 8]]}) as (m' & H1 & _ & H3).
  - split; [intros q l H; by rewrite lookup_empty in H|].
    intros q1 q2 l1 l2 _ H. by rewrite lookup_empty in H.
  - repeat constructor; eexists; vm_compute; reflexivity.
  - vm_compute. reflexivity.
  - exists m'. split; [exact H1|]. apply (H3 1 [9; 8]). vm_compute. reflexivity.
Defined.

(** An element that is on a queue never looks unlinked to TAILQ_ENTRY_EMPTY,
    and TAILQ_ENTRY_INIT makes any element look unlinked. *)
Lemma entry_empty_linked m q l e :
  is_tailq m q l -> e ∈ l -> TAILQ_ENTRY_EMPTY m e = Ok false.
Proof.
  intros (_ & f & last & Hh & Hs) He.
  destruct (lseg_elem _ _ _ _ _ _ e Hs He) as ([n pv] & Hx & _).
  unfold TAILQ_ENTRY_EMPTY. rewrite Hx. cbn.
  assert (pv <> LNull) by (eapply (lseg_elem_prev _ _ _ _ _ _ e (MkEnt n pv)); eauto; done).
  rewrite bool_decide_eq_false_2 by done. by rewrite andb_false_r.
Qed.

Lemma entry_empty_init m e : TAILQ_ENTRY_EMPTY (TAILQ_ENTRY_INIT m e) e = Ok true.
Proof.
  unfold TAILQ_ENTRY_EMPTY. cbn. by rewrite lookup_insert_eq.
Qed.

End Tailq.

(** ** LIST: a head with a first pointer only *)
Module Blist.
Import Tailq.

(** le_next and le_prev have the shape of a tail queue entry. *)
Record lmem := MkL { lh_first : gmap Z Z; lents : gmap Z tqent }.

Definition lset_ent (m : lmem) (e : Z) (x : tqent) : lmem :=
  MkL (lh_first m) (<[e := x]> (lents m)).

Definition lwrite_cell (m : lmem) (a : link) (v : Z) : outcome lmem :=
  match a with
  | LNull => Fault
  | LHead q => _ ← from_opt (lh_first m !! q);
               Ok (MkL (<[q := v]> (lh_first m)) (lents m))
  | LNext e => x ← from_opt (lents m !! e);
               Ok (lset_ent m e (MkEnt v (tqe_prev x)))
  end.

Definition LIST_INIT (m : lmem) (q : Z) : lmem :=
  MkL (<[q := NULL]> (lh_first m)) (lents m).

Definition LIST_EMPTY (m : lmem) (q : Z) : outcome bool :=
  f ← from_opt (lh_first m !! q); Ok (f =? NULL).

Definition LIST_INSERT_HEAD (m : lmem) (q e : Z) : outcome lmem :=
  f ← from_opt (lh_first m !! q);
  x ← from_opt (lents m !! e);
  let m := lset_ent m e (MkEnt f (tqe_prev x)) in
  m ← (if f =? NULL then Ok m
       else y ← from_opt (lents m !! f);
            Ok (lset_ent m f (MkEnt (tqe_next y) (LNext e))));
  m ← lwrite_cell m (LHead q) e;
  x ← from_opt (lents m !! e);
  Ok (lset_ent m e (MkEnt (tqe_next x) (LHead q))).

Definition LIST_REMOVE (m : lmem) (e : Z) : outcome lmem :=
  x ← from_opt (lents m !! e);
  m ← (if tqe_next x =? NULL then Ok m
       else y ← from_opt (lents m !! tqe_next x);
            Ok (lset_ent m (tqe_next x) (MkEnt (tqe_next y) (tqe_prev x))));
  x ← from_opt (lents m !! e);
  lwrite_cell m (tqe_prev x) (tqe_next x).

Definition is_list (m : lmem) (q : Z) (l : list Z) : Prop :=
  NoDup l /\ exists f last,
    lh_first m !! q = Some f /\ lseg (lents m) (LHead q) f l last NULL.

Lemma LIST_INIT_ok m q : is_list (LIST_INIT m q) q [].
Proof.
  split; [constructor|]. exists NULL, (LHead q). cbn. by rewrite lookup_insert_eq.
Qed.

Lemma list_insert_head_ok m q l e x :
  is_list m q l -> e ∉ l -> e <> NULL -> lents m !! e = Some x ->
  exists m', LIST_INSERT_HEAD m q e = Ok m' /\ is_list m' q (e :: l).
Proof.
  intros (Hnd & f & last & Hh & Hs) He He0 Hx.
  unfold LIST_INSERT_HEAD. rewrite Hh. cbn. rewrite Hx. cbn.
  destruct l as [|y l]; cbn in Hs.
  - destruct Hs as [-> <-]. cbn. rewrite Hh. cbn. rewrite lookup_insert_eq. cbn.
    eexists; split; [done|]. split; [by apply NoDup_singleton|].
    exists e, (LNext e). cbn. rewrite lookup_insert_eq. split; [done|].
    split_and!; [done..|]. exists NULL. by rewrite lookup_insert_eq.
  - destruct Hs as (-> & Hy & n & Hn & Hs). apply NoDup_cons in Hnd as [Hyl Hl].
    destruct (Z.eqb_spec y NULL); [done|].
    rewrite lookup_insert_ne by set_solver. rewrite Hn. cbn. rewrite Hh. cbn.
    rewrite lookup_insert_ne by set_solver. rewrite lookup_insert_eq. cbn.
    eexists; split; [done|]. split; [by repeat constructor; set_solver|].
    exists e, last. cbn. rewrite lookup_insert_eq. split; [done|].
    split_and!; [done..|]. exists y. rewrite lookup_insert_eq. split; [done|].
    split_and!; [done..|]. exists n.
    rewrite lookup_insert_ne by set_solver. rewrite lookup_insert_eq.
    split; [done|]. do 3 (apply lseg_insert_ne; [set_solver|]). done.
Qed.

(** LIST_REMOVE needs no head: it finds the list through the back link. *)
Lemma list_remove_ok m q l1 l2 e :
  is_list m q (l1 ++ e :: l2) ->
  exists m', LIST_REMOVE m e = Ok m' /\ is_list m' q (l1 ++ l2).
Proof.
  intros (Hnd & f & last & Hh & Hs).
  apply NoDup_app in Hnd as (Hn1 & Hd & [He2 Hn2]%NoDup_cons).
  assert (NoDup (l1 ++ l2)) as Hnd' by (apply NoDup_app; set_solver).
  apply lseg_app in Hs as (mid & mp & Hs1 & (-> & He0 & n & Hn & Hs2)).
  (* the memory as a tail queue memory, to reuse [remove_back_ok] *)
  destruct (remove_back_ok (MkMem {[q := MkHead f last]} (lents m)) q f last mid n l2 e)
    as (m1 & last1 & Hm1 & _ & Hen & Hl1 & Hs2' & _); [|done|exact Hs2|];
    [apply lookup_singleton_eq|].
  apply Hl1 in Hs1; [|set_solver].
  assert (exists m2, (if n =? NULL then Ok m
       else y ← from_opt (lents m !! n); Ok (lset_ent m n (MkEnt (tqe_next y) mid)))
     = Ok m2 /\ lents m2 = ents m1 /\ lh_first m2 = lh_first m)
    as (m2 & Hm2 & E1 & E2).
  { unfold remove_back in Hm1. cbn in Hm1. destruct (n =? NULL).
    - eexists. inv_ok. done.
    - inv_ok. exists (lset_ent m n (MkEnt (tqe_next a) mid)). by rewrite Hb. }
  unfold LIST_REMOVE. rewrite Hn. cbn. cbn in Hm2. rewrite Hm2. cbn.
  rewrite E1, Hen by done. cbn. rewrite Hn. cbn.
  destruct (lseg_last _ _ _ _ _ _ Hs1)
    as [(-> & -> & ->)|(l' & y & pr & -> & -> & Hy & Hs')]; cbn.
  - rewrite E2, Hh. cbn. eexists; split; [done|]. split; [done|].
    exists n, last1. cbn. rewrite lookup_insert_eq, E1. done.
  - rewrite E1, Hy. cbn. eexists; split; [done|]. split; [done|].
    exists f, last1. cbn. rewrite E2, E1. split; [done|].
    apply NoDup_app in Hn1 as (_ & Hyl & _). rewrite <- (assoc (++)).
    apply lseg_app. exists pr, y.
    split; [apply lseg_insert_ne; [set_solver|done]|].
    cbn. split_and!; [done| |].
    + destruct (lseg_elem _ _ _ _ _ _ y Hs1) as (? & _ & ?); set_solver.
    + exists n. rewrite lookup_insert_eq. split; [done|].
      apply lseg_insert_ne; [set_solver|done].
Qed.

(** LIST_INSERT_HEAD puts the element in front of the list and LIST_REMOVE
    takes out exactly the element it is given, wherever it stands, without
    knowing the list's head; neither faults on a well-linked list. *)
Theorem list_insert_remove_roundtrip m q l1 l2 e x :
  is_list m q (l1 ++ l2) -> e ∉ l1 ++ l2 -> e <> NULL -> lents m !! e = Some x ->
  (exists m1, LIST_INSERT_HEAD m q e = Ok m1 /\ is_list m1 q (e :: l1 ++ l2) /\
     exists m2, LIST_REMOVE m1 e = Ok m2 /\ is_list m2 q (l1 ++ l2)) /\
  (forall y l2', l2 = y :: l2' ->
     exists m3, LIST_REMOVE m y = Ok m3 /\ is_list m3 q (l1 ++ l2')).
Proof.
  intros Hl He He0 Hx. split.
  - destruct (list_insert_head_ok m q (l1 ++ l2) e x) as (m1 & H1 & Hm1); [done..|].
    exists m1. split_and!; [done..|]. by apply (list_remove_ok m1 q []).
  - intros y l2' ->. by apply list_remove_ok.
Qed.

Lemma list_insert_remove_roundtrip_witness :
  exists m1, LIST_INSERT_HEAD (MkL {[1 := NULL]} {[5 := MkEnt NULL LNull]}) 1 5 = Ok m1
    /\ is_list m1 1 [5].
Proof.
  destruct (list_insert_remove_roundtrip
    (MkL {[1 := NULL]} {[5 := MkEnt NULL LNull]}) 1 [] [] 5 (MkEnt NULL LNull))
    as [(m1 & H1 & H2 & _) _].
  - split; [constructor|]. exists NULL, (LHead 1). split; vm_compute; done.
  - apply not_elem_of_nil.
  - done.
  - reflexivity.
  - exists m1. split; assumption.
Defined.

End Blist.
