(* ===== verification/PageAlloc.v ===== *)
(** * The physical page allocator (cpu/i386/mm/page.c)

    Free pages form a doubly linked list threaded through the array
    [phy_usable_map] by index, with a reference count per page.  [pgstate] is
    the file's static data.  [wf st fl] relates a state to the abstract free
    list [fl]: get_page dequeues at its head, free_page enqueues at its tail.
    Interrupts are off in every operation, so each is one atomic step. *)

From S2P Require Import Prelude.

Definition HOLE_NULL : Z := -1.
Definition PAGE_SIZE : Z := 4096.

(** PTOB(x): page number to byte offset. *)
Definition PTOB (x : Z) : Z := u32 (Z.shiftl x 12).

Record pgmaps_struct := MkPg { count : Z; prev_hole : Z; next_hole : Z }.

Record pgstate := MkSt {
  phy_usable_map : list pgmaps_struct;
  PHI_BLOCKS : Z;
  hole_head_pos : Z;
  hole_tail_pos : Z;
  hole_max : Z;
  LOW_MEM : Z;
  HIGH_MEM : Z }.

Definition set_map (st : pgstate) (m : list pgmaps_struct) : pgstate :=
  MkSt m (PHI_BLOCKS st) (hole_head_pos st) (hole_tail_pos st) (hole_max st)
    (LOW_MEM st) (HIGH_MEM st).
Definition set_hole_head (st : pgstate) (h : Z) : pgstate :=
  MkSt (phy_usable_map st) (PHI_BLOCKS st) h (hole_tail_pos st) (hole_max st)
    (LOW_MEM st) (HIGH_MEM st).
Definition set_hole_tail (st : pgstate) (t : Z) : pgstate :=
  MkSt (phy_usable_map st) (PHI_BLOCKS st) (hole_head_pos st) t (hole_max st)
    (LOW_MEM st) (HIGH_MEM st).

(** [phy_usable_map[i].count = c] and the like. *)
Definition put_count (m : list pgmaps_struct) (i c : Z) : outcome (list pgmaps_struct) :=
  e ← aget m i; aset m i (MkPg c (prev_hole e) (next_hole e)).
Definition put_prev (m : list pgmaps_struct) (i p : Z) : outcome (list pgmaps_struct) :=
  e ← aget m i; aset m i (MkPg (count e) p (next_hole e)).
Definition put_next (m : list pgmaps_struct) (i n : Z) : outcome (list pgmaps_struct) :=
  e ← aget m i; aset m i (MkPg (count e) (prev_hole e) n).

#[global] Arguments put_count : simpl never.
#[global] Arguments put_prev : simpl never.
#[global] Arguments put_next : simpl never.

(** MAP_NR(addr): the unsigned difference shifted, stored in an [int]. *)
Definition MAP_NR (st : pgstate) (addr : Z) : Z :=
  s32 (Z.shiftr (u32 (addr - LOW_MEM st)) 12).

Definition CHECK_PHY_PAGE (st : pgstate) (page : Z) : Z :=
  if (page <? LOW_MEM st) || (HIGH_MEM st <=? page) then -1 else 0.

(** The loop of memory_slot_init from block [i]; [fuel] is PHI_BLOCKS - i. *)
Fixpoint slot_init_loop (fuel : nat) (m : list pgmaps_struct) (i : Z)
    : outcome (list pgmaps_struct) :=
  match fuel with
  | O => Ok m
  | S fuel => m ← aset m i (MkPg 0 (i - 1) (i + 1)); slot_init_loop fuel m (i + 1)
  end.

(** [start] is the memory the map is placed in.  hole_head_pos is not written:
    it keeps its value, 0 at boot. *)
Definition memory_slot_init (st : pgstate) (start : list pgmaps_struct) (size : Z)
    : outcome (Z * pgstate) :=
  m ← aset start 0 (MkPg 0 HOLE_NULL 1);
  m ← slot_init_loop (Z.to_nat (size - 1)) m 1;
  m ← put_next m (size - 1) HOLE_NULL;
  Ok (size, MkSt m size (hole_head_pos st) (size - 1) (size - 1)
              (LOW_MEM st) (HIGH_MEM st)).

(** Loop of get_pages_index from index [i]; [fuel] is PHI_BLOCKS - i. *)
Fixpoint gpi_loop (fuel : nat) (m : list pgmaps_struct) (i cnt start x : Z)
    : outcome (Z * Z) :=
  match fuel with
  | O => Ok (cnt, start)
  | S fuel =>
      e ← aget m i;
      if negb (count e =? 0) then gpi_loop fuel m (i + 1) 0 0 x
      else if negb (prev_hole e =? i - 1) then gpi_loop fuel m (i + 1) 0 0 x
      else if negb (next_hole e =? i + 1) then gpi_loop fuel m (i + 1) 0 0 x
      else
        let start := if start =? 0 then i else start in
        let cnt := cnt + 1 in
        if cnt =? x then Ok (cnt, start)
        else gpi_loop fuel m (i + 1) cnt start x
  end.

Definition get_pages_index (st : pgstate) (x : Z) : outcome Z :=
  '(cnt, start) ← gpi_loop (Z.to_nat (PHI_BLOCKS st - 1)) (phy_usable_map st) 1 0 0 x;
  if negb (cnt =? x) then Ok 0 else Ok start.

(** Body of the loop of get_pages for index [i], then the loop
    [for (i = s; i < counts; i++)]. *)
Definition get_pages_mark (st : pgstate) (i : Z) : outcome pgstate :=
  e ← aget (phy_usable_map st) i;
  let st := set_hole_head st (next_hole e) in
  m ← put_prev (phy_usable_map st) i HOLE_NULL;
  m ← put_count m i 1;
  Ok (set_map st m).

Fixpoint get_pages_loop (fuel : nat) (st : pgstate) (i : Z) : outcome pgstate :=
  match fuel with
  | O => Ok st
  | S fuel => st ← get_pages_mark st i; get_pages_loop fuel st (i + 1)
  end.

Definition get_pages (st : pgstate) (counts : Z) : outcome (Z * pgstate) :=
  if counts =? 0 then Ok (NULL, st)
  else
    s ← get_pages_index st counts;
    if s =? 0 then Ok (NULL, st)
    else
      st ← get_pages_loop (Z.to_nat (counts - s)) st s;
      Ok (u32 (PTOB s + LOW_MEM st), st).

Definition get_page (st : pgstate) : outcome (Z * pgstate) :=
  if hole_head_pos st =? hole_tail_pos st then
    let st := set_hole_head st 0 in
    m ← put_count (phy_usable_map st) (hole_head_pos st) 1;
    let st := set_map st m in
    Ok (u32 (PTOB (hole_tail_pos st) + LOW_MEM st), st)
  else if hole_head_pos st =? HOLE_NULL then Panic
  else
    let tmp := hole_head_pos st in
    e ← aget (phy_usable_map st) tmp;
    let st := set_hole_head st (next_hole e) in
    m ← put_prev (phy_usable_map st) (hole_head_pos st) HOLE_NULL;
    m ← put_count m tmp 1;
    let st := set_map st m in
    Ok (u32 (PTOB tmp + LOW_MEM st), st).

(** Append [idx] to the free list (the [count-- == 1] branch). *)
Definition link_free (st : pgstate) (idx : Z) : outcome pgstate :=
  if hole_head_pos st =? HOLE_NULL then
    let st := set_hole_tail (set_hole_head st idx) idx in
    m ← put_next (phy_usable_map st) (hole_head_pos st) HOLE_NULL;
    m ← put_prev m (hole_head_pos st) HOLE_NULL;
    Ok (set_map st m)
  else
    m ← put_next (phy_usable_map st) (hole_tail_pos st) idx;
    m ← put_prev m idx (hole_tail_pos st);
    m ← put_next m idx HOLE_NULL;
    Ok (set_hole_tail (set_map st m) idx).

Definition free_page (st : pgstate) (addr : Z) : outcome (Z * pgstate) :=
  let idx := MAP_NR st addr in
  if negb (CHECK_PHY_PAGE st addr =? 0) then Ok (-1, st)
  else if hole_max st <? idx then Ok (-1, st)
  else
    e ← aget (phy_usable_map st) idx;
    if count e =? 0 then Ok (-1, st)
    else
      m ← put_count (phy_usable_map st) idx (count e - 1);
      let st := set_map st m in
      st ← (if count e =? 1 then link_free st idx else Ok st);
      Ok (0, st).

Fixpoint free_pages_loop (fuel : nat) (st : pgstate) (ptr i : Z) : outcome pgstate :=
  match fuel with
  | O => Ok st
  | S fuel =>
      '(_, st) ← free_page st (u32 (ptr + PAGE_SIZE * i));
      free_pages_loop fuel st ptr (i + 1)
  end.

Definition free_pages (st : pgstate) (ptr counts : Z) : outcome pgstate :=
  free_pages_loop (Z.to_nat counts) st ptr 0.

(** ** The abstract free list *)

(** The blocks [l] are free, linked forward and backward; [p] precedes them. *)
Fixpoint chain (m : list pgmaps_struct) (p : Z) (l : list Z) : Prop :=
  match l with
  | [] => True
  | x :: l' =>
      aget m x = Ok (MkPg 0 p (default HOLE_NULL (head l'))) /\ chain m x l'
  end.

Record wf (st : pgstate) (fl : list Z) : Prop := {
  wf_nodup : NoDup fl;
  wf_head : head fl = Some (hole_head_pos st);
  wf_tail : last fl = Some (hole_tail_pos st);
  wf_chain : chain (phy_usable_map st) HOLE_NULL fl;
  wf_used : forall i e, aget (phy_usable_map st) i = Ok e -> i ∉ fl -> 0 < count e;
  wf_blocks : Z.of_nat (length (phy_usable_map st)) = PHI_BLOCKS st;
  wf_max : hole_max st = PHI_BLOCKS st - 1;
  wf_low : 0 <= LOW_MEM st /\ LOW_MEM st mod PAGE_SIZE = 0;
  wf_high : LOW_MEM st + PAGE_SIZE * PHI_BLOCKS st <= 2 ^ 32 }.

(** The physical address of block [i]. *)
Definition page_addr (st : pgstate) (i : Z) : Z := LOW_MEM st + PAGE_SIZE * i.

Lemma PTOB_page st i :
  0 <= i -> 0 <= LOW_MEM st -> page_addr st i < 2 ^ 32 ->
  u32 (PTOB i + LOW_MEM st) = page_addr st i.
Proof.
  unfold PTOB, page_addr, PAGE_SIZE. intros. rewrite Z.shiftl_mul_pow2 by lia.
  unfold u32. rewrite (Z.mod_small (i * 2 ^ 12)) by lia.
  rewrite Z.mod_small by lia. lia.
Qed.

Lemma MAP_NR_page st i off :
  0 <= i < 2 ^ 20 -> 0 <= off < PAGE_SIZE -> MAP_NR st (page_addr st i + off) = i.
Proof.
  unfold MAP_NR, page_addr, PAGE_SIZE. intros.
  replace (LOW_MEM st + 4096 * i + off - LOW_MEM st) with (4096 * i + off) by lia.
  rewrite u32_small by lia. rewrite Z.shiftr_div_pow2 by lia.
  replace ((4096 * i + off) / 2 ^ 12) with i.
  - apply s32_small. lia.
  - apply (Z.div_unique _ _ _ off); lia.
Qed.

Lemma put_count_ok m i e c :
  aget m i = Ok e -> exists m', put_count m i c = Ok m' /\ length m' = length m /\
    aget m' i = Ok (MkPg c (prev_hole e) (next_hole e)) /\
    forall j, i <> j -> aget m' j = aget m j.
Proof.
  intros He. unfold put_count. rewrite He. cbn.
  eexists. rewrite aset_Ok by eauto using aget_bound. split; [done|].
  split; [apply length_insert|]. split.
  - eapply aget_aset_eq, aset_Ok. eauto using aget_bound.
  - intros j Hj. eapply aget_aset_ne; [|done]. apply aset_Ok. eauto using aget_bound.
Qed.

Lemma put_prev_ok m i e p :
  aget m i = Ok e -> exists m', put_prev m i p = Ok m' /\ length m' = length m /\
    aget m' i = Ok (MkPg (count e) p (next_hole e)) /\
    forall j, i <> j -> aget m' j = aget m j.
Proof.
  intros He. unfold put_prev. rewrite He. cbn.
  eexists. rewrite aset_Ok by eauto using aget_bound. split; [done|].
  split; [apply length_insert|]. split.
  - eapply aget_aset_eq, aset_Ok. eauto using aget_bound.
  - intros j Hj. eapply aget_aset_ne; [|done]. apply aset_Ok. eauto using aget_bound.
Qed.

Lemma put_next_ok m i e n :
  aget m i = Ok e -> exists m', put_next m i n = Ok m' /\ length m' = length m /\
    aget m' i = Ok (MkPg (count e) (prev_hole e) n) /\
    forall j, i <> j -> aget m' j = aget m j.
Proof.
  intros He. unfold put_next. rewrite He. cbn.
  eexists. rewrite aset_Ok by eauto using aget_bound. split; [done|].
  split; [apply length_insert|]. split.
  - eapply aget_aset_eq, aset_Ok. eauto using aget_bound.
  - intros j Hj. eapply aget_aset_ne; [|done]. apply aset_Ok. eauto using aget_bound.
Qed.

(** [upd op] runs an update of one map entry in the goal. *)
Ltac upd lem :=
  let m' := fresh "m" in let L := fresh "Hlen" in
  let E := fresh "Heq" in let N := fresh "Hne" in
  edestruct lem as (m' & -> & L & E & N); [eassumption|cbn [mbind outcome_bind]].

Lemma chain_frame m m' p l :
  (forall x, x ∈ l -> aget m' x = aget m x) -> chain m p l -> chain m' p l.
Proof.
  revert p. induction l as [|x l IH]; cbn; [done|]. intros p Hx [Hm Hc].
  split; [rewrite Hx by set_solver; done|]. apply IH; set_solver.
Qed.

Lemma chain_elem m p l x :
  chain m p l -> x ∈ l -> exists e, aget m x = Ok e /\ count e = 0.
Proof.
  revert p. induction l as [|y l IH]; cbn; [set_solver|].
  intros p [Hm Hc] [->|Hx]%elem_of_cons; [eexists; split; [done|done]|eauto].
Qed.

(** Linking a block behind the last one. *)
Lemma chain_extend m m' p l t idx :
  chain m p (l ++ [t]) ->
  (forall x, x ∈ l -> aget m' x = aget m x) ->
  (forall e, aget m t = Ok e -> aget m' t = Ok (MkPg (count e) (prev_hole e) idx)) ->
  aget m' idx = Ok (MkPg 0 t HOLE_NULL) ->
  chain m' p (l ++ [t; idx]).
Proof.
  revert p. induction l as [|x l IH]; cbn.
  - intros p [Ht _] _ Hu Hi. split_and!; [|done..]. by apply Hu in Ht.
  - intros p [Hx Hc] Hl Hu Hi. split.
    + rewrite Hl by set_solver. rewrite Hx. by destruct l.
    + apply IH; set_solver.
Qed.

Lemma wf_in_range st fl x :
  wf st fl -> x ∈ fl -> 0 <= x < PHI_BLOCKS st.
Proof.
  intros W Hx. destruct (chain_elem _ _ _ _ (wf_chain _ _ W) Hx) as (e & He & _).
  apply aget_bound in He. pose proof (wf_blocks _ _ W). lia.
Qed.

(** get_page on a free list of two blocks or more: the head block, with its
    count set; every other reference count is unchanged. *)
Lemma get_page_ok st a b fl :
  wf st (a :: b :: fl) ->
  exists st', get_page st = Ok (page_addr st a, st') /\ wf st' (b :: fl) /\
    (exists e, aget (phy_usable_map st') a = Ok e /\ count e = 1) /\
    (forall i e, i <> a -> aget (phy_usable_map st) i = Ok e ->
       exists e', aget (phy_usable_map st') i = Ok e' /\ count e' = count e).
Proof.
  intros W. pose proof (wf_in_range _ _ a W ltac:(set_solver)) as Ra.
  destruct W as [Hnd Hh Ht Hc Hu Hb Hm [Hl0 Hl] Hg]. cbn in Hh. simplify_eq.
  apply NoDup_cons in Hnd as [Hab Hnd]. destruct Hc as (Ha & Hb' & Hc). cbn in Ha.
  unfold get_page.
  destruct (Z.eqb_spec (hole_head_pos st) (hole_tail_pos st)) as [E|_].
  { cbn in Ht. rewrite E in Hab. destruct Hab. apply last_Some_elem_of.
    exact Ht. }
  destruct (Z.eqb_spec (hole_head_pos st) HOLE_NULL); [unfold HOLE_NULL in *; lia|].
  apply not_elem_of_cons in Hab as [Hab Hafl].
  apply NoDup_cons in Hnd as [Hbfl Hnd].
  rewrite Ha. cbn. upd put_prev_ok.
  assert (aget m (hole_head_pos st) = Ok (MkPg 0 HOLE_NULL b)) as Ha'
    by (rewrite Hne by congruence; exact Ha).
  upd put_count_ok. cbn in *. eexists. split.
  { f_equal. f_equal. apply PTOB_page; unfold page_addr, PAGE_SIZE in *; lia. }
  split; [|split].
  - constructor; cbn; try done; try lia.
    + by apply NoDup_cons.
    + split; [rewrite Hne0 by done; done|].
      eapply chain_frame; [|exact Hc]. intros x Hx.
      rewrite Hne0, Hne; [done|intros <-; done..].
    + intros i e He [Hib Hi]%not_elem_of_cons.
      destruct (decide (i = hole_head_pos st)) as [->|].
      * rewrite Heq0 in He. by simplify_eq.
      * rewrite Hne0, Hne in He by congruence. apply (Hu i); [done|].
        by rewrite !not_elem_of_cons.
  - eexists. by split.
  - intros i e Hi He. destruct (decide (i = b)) as [->|].
    + cbn. rewrite Hne0 by done. rewrite Hb' in He. simplify_eq. eauto.
    + cbn. rewrite Hne0, Hne by done. eauto.
Qed.

(** Every error path of free_page returns -1 and changes nothing. *)
Lemma free_page_refused st fl addr :
  wf st fl ->
  (addr < LOW_MEM st \/ HIGH_MEM st <= addr) \/
  (LOW_MEM st <= addr < HIGH_MEM st /\ addr < 2 ^ 32 /\
   (PHI_BLOCKS st <= MAP_NR st addr \/
    (exists i off, addr = page_addr st i + off /\ 0 <= off < PAGE_SIZE /\ i ∈ fl))) ->
  free_page st addr = Ok (-1, st).
Proof.
  intros W H. unfold free_page, CHECK_PHY_PAGE.
  destruct (Z.ltb_spec addr (LOW_MEM st)), (Z.leb_spec (HIGH_MEM st) addr);
    cbn; [done..|].
  destruct H as [?|(? & ? & [Hi|(i & off & -> & Hoff & Hi)])]; [lia| |].
  - rewrite (wf_max _ _ W). destruct (Z.ltb_spec (PHI_BLOCKS st - 1) (MAP_NR st addr)); [done|lia].
  - pose proof (wf_in_range _ _ _ W Hi). pose proof (wf_high _ _ W).
    pose proof (wf_low _ _ W). rewrite MAP_NR_page by (unfold PAGE_SIZE in *; lia).
    destruct (hole_max st <? i); [done|].
    destruct (chain_elem _ _ _ _ (wf_chain _ _ W) Hi) as (e & -> & Hc). cbn.
    by rewrite Hc.
Qed.

Lemma wf_not_free st fl i e :
  wf st fl -> aget (phy_usable_map st) i = Ok e -> 0 < count e -> i ∉ fl.
Proof.
  intros W He Hc Hi. destruct (chain_elem _ _ _ _ (wf_chain _ _ W) Hi) as (e' & He' & ?).
  rewrite He in He'. simplify_eq. lia.
Qed.

(** Appending block [i], whose count has just dropped to 0, to the free list. *)
Lemma link_free_ok st fl i e m :
  wf st fl -> aget (phy_usable_map st) i = Ok e -> count e = 1 ->
  put_count (phy_usable_map st) i 0 = Ok m ->
  exists st', link_free (set_map st m) i = Ok st' /\ wf st' (fl ++ [i]) /\
    (forall j e, j <> i -> aget (phy_usable_map st) j = Ok e ->
       exists e', aget (phy_usable_map st') j = Ok e' /\ count e' = count e).
Proof.
  intros W He Hc Hm. pose proof (wf_not_free _ _ _ _ W He ltac:(lia)) as Hi.
  destruct (put_count_ok _ _ _ 0 He) as (m0 & Hm0 & Hlen0 & Heq0 & Hne0).
  rewrite Hm in Hm0. simplify_eq.
  pose proof (wf_in_range _ _ (hole_head_pos st) W) as Hr.
  destruct W as [Hnd Hh Ht Hch Hu Hb Hmx Hl Hg].
  destruct fl as [|f0 fl0] using rev_ind; [done|]. clear IHfl0.
  rewrite last_snoc in Ht. simplify_eq.
  assert (hole_head_pos st ∈ fl0 ++ [hole_tail_pos st]) as Hin.
  { by apply head_Some_elem_of. }
  unfold link_free. cbn.
  destruct (Z.eqb_spec (hole_head_pos st) HOLE_NULL) as [E|_];
    [specialize (Hr Hin); unfold HOLE_NULL in E; lia|].
  destruct (chain_elem _ _ _ (hole_tail_pos st) Hch) as (et & Het & Het0); [set_solver|].
  assert (i <> hole_tail_pos st) as Hit by set_solver.
  rewrite <- Hne0 in Het by done. rename Hm into Hput. upd put_next_ok.
  rewrite <- Hne in Heq0 by done. upd put_prev_ok. cbn in *. upd put_next_ok. cbn in *.
  eexists. split; [done|]. cbn.
  assert (forall j, j <> i -> j <> hole_tail_pos st ->
    aget m2 j = aget (phy_usable_map st) j) as Hsame.
  { intros j ? ?. rewrite Hne2, Hne1, Hne, Hne0 by congruence. done. }
  split.
  - constructor; cbn; rewrite ?last_snoc; try done.
    + apply NoDup_app. split_and!; [done|set_solver|apply NoDup_singleton].
    + rewrite <- Hh. by destruct fl0.
    + rewrite <- (assoc (++)). apply (chain_extend (phy_usable_map st)); [done| | |done].
      * intros x Hx. apply Hsame; [set_solver|]. apply NoDup_app in Hnd. set_solver.
      * intros e' He'. rewrite Hne2, Hne1 by congruence.
        rewrite Hne0, He' in Het by done. by simplify_eq.
    + intros j ej Hj [Hjf Hji]%not_elem_of_app. rewrite Hsame in Hj by set_solver.
      by apply (Hu j).
    + lia.
  - intros j ej Hj Hej. destruct (decide (j = hole_tail_pos st)) as [->|].
    + rewrite Hne2, Hne1 by congruence. rewrite Hne0, Hej in Het by done.
      simplify_eq. eauto.
    + rewrite Hsame by done. eauto.
Qed.

Lemma free_page_ok st fl i e :
  wf st fl -> aget (phy_usable_map st) i = Ok e -> 0 < count e ->
  page_addr st i < HIGH_MEM st ->
  exists st', free_page st (page_addr st i) = Ok (0, st') /\
    wf st' (if count e =? 1 then fl ++ [i] else fl) /\
    (exists e', aget (phy_usable_map st') i = Ok e' /\ count e' = count e - 1) /\
    (forall j e, j <> i -> aget (phy_usable_map st) j = Ok e ->
       exists e', aget (phy_usable_map st') j = Ok e' /\ count e' = count e).
Proof.
  intros W He Hc Hhi. pose proof (aget_bound _ _ _ He) as Hi.
  pose proof (wf_blocks _ _ W). pose proof (wf_high _ _ W). pose proof (wf_low _ _ W).
  pose proof (wf_not_free _ _ _ _ W He Hc) as Hni.
  unfold free_page, CHECK_PHY_PAGE.
  destruct (Z.ltb_spec (page_addr st i) (LOW_MEM st)),
    (Z.leb_spec (HIGH_MEM st) (page_addr st i)); cbn; try (unfold page_addr, PAGE_SIZE in *; lia).
  replace (page_addr st i) with (page_addr st i + 0) by lia.
  rewrite MAP_NR_page by (unfold PAGE_SIZE in *; lia). rewrite (wf_max _ _ W).
  destruct (Z.ltb_spec (PHI_BLOCKS st - 1) i); [lia|].
  rewrite He. cbn. destruct (Z.eqb_spec (count e) 0); [lia|].
  destruct (put_count_ok _ _ _ (count e - 1) He) as (m & Hm & Hlen & Heq & Hne).
  rewrite Hm. cbn. destruct (Z.eqb_spec (count e) 1) as [E1|E1]; cbn.
  - rewrite E1 in Hm. change (1 - 1) with 0 in Hm.
    destruct (link_free_ok st fl i e m W He E1 Hm) as (st' & -> & W' & Hoth).
    cbn. exists st'. split_and!; [done..| |done].
    destruct (chain_elem _ _ _ i (wf_chain _ _ W')) as (e' & ? & ?); [set_solver|].
    exists e'. split; [done|lia].
  - eexists. split; [done|]. cbn. split_and!.
    + destruct W as [Hnd Hh Ht Hch Hu Hb Hmx Hl Hg]. constructor; cbn; try done.
      * eapply chain_frame; [|exact Hch]. intros x Hx. apply Hne. by intros <-.
      * intros j ej Hj Hjf. destruct (decide (i = j)) as [<-|].
        -- rewrite Heq in Hj. simplify_eq. cbn. lia.
        -- rewrite Hne in Hj by done. by apply (Hu j).
      * lia.
    + eauto.
    + intros j ej Hj Hej. rewrite Hne by congruence. eauto.
Qed.

(** ** The state memory_slot_init leaves *)

Definition slot_init_entry (size i : Z) : pgmaps_struct :=
  MkPg 0 (i - 1) (if i =? size - 1 then HOLE_NULL else i + 1).

Lemma slot_init_loop_ok fuel m i :
  0 <= i -> i + Z.of_nat fuel <= Z.of_nat (length m) ->
  exists m', slot_init_loop fuel m i = Ok m' /\ length m' = length m /\
    (forall j, i <= j < i + Z.of_nat fuel -> aget m' j = Ok (MkPg 0 (j - 1) (j + 1))) /\
    (forall j, j < i -> aget m' j = aget m j).
Proof.
  revert m i. induction fuel as [|fuel IH]; intros m i Hi Hl; cbn.
  - exists m. split_and!; [done..| |done]. intros; lia.
  - pose proof (aset_Ok m i (MkPg 0 (i - 1) (i + 1)) ltac:(lia)) as Hs.
    rewrite Hs. cbn. pose proof (aset_length _ _ _ _ Hs) as HL.
    destruct (IH (<[Z.to_nat i := MkPg 0 (i - 1) (i + 1)]> m) (i + 1))
      as (m' & -> & Hlen & Hin & Hout); [lia|lia|].
    exists m'. split_and!; [done|lia| |].
    + intros j Hj. destruct (decide (j = i)) as [->|]; [|apply Hin; lia].
      rewrite Hout by lia. eapply aget_aset_eq; eauto.
    + intros j Hj. rewrite Hout by lia. eapply aget_aset_ne; [exact Hs|lia].
Qed.

Lemma memory_slot_init_ok st start size :
  Z.of_nat (length start) = size -> 1 <= size ->
  exists m, memory_slot_init st start size =
      Ok (size, MkSt m size (hole_head_pos st) (size - 1) (size - 1) (LOW_MEM st) (HIGH_MEM st))
    /\ Z.of_nat (length m) = size
    /\ forall i, 0 <= i < size -> aget m i = Ok (slot_init_entry size i).
Proof.
  intros Hl Hs. unfold memory_slot_init.
  pose proof (aset_Ok start 0 (MkPg 0 HOLE_NULL 1) ltac:(lia)) as H0.
  rewrite H0. cbn [mbind outcome_bind].
  pose proof (aset_length _ _ _ _ H0) as HL0.
  pose proof (aget_aset_eq _ _ _ _ H0) as Hg0.
  destruct (slot_init_loop_ok (Z.to_nat (size - 1)) (<[Z.to_nat 0 := MkPg 0 HOLE_NULL 1]> start) 1)
    as (m & -> & Hlen & Hin & Hout); [lia|lia|]. cbn [mbind outcome_bind].
  assert (forall i, 0 <= i < size -> aget m i = Ok (MkPg 0 (i - 1) (i + 1))) as Hm.
  { intros i Hi. destruct (decide (i = 0)) as [->|]; [|apply Hin; lia].
    rewrite Hout by lia. exact Hg0. }
  destruct (put_next_ok m (size - 1) _ HOLE_NULL (Hm (size - 1) ltac:(lia)))
    as (m' & -> & Hlen' & Heq & Hne).
  cbn. exists m'. split_and!; [done|lia|]. intros i Hi. unfold slot_init_entry.
  destruct (Z.eqb_spec i (size - 1)) as [->|]; [done|].
  rewrite Hne by congruence. by apply Hm.
Qed.

Lemma chain_init m a n size :
  0 <= a -> a + Z.of_nat n = size ->
  (forall i, a <= i < size -> aget m i = Ok (slot_init_entry size i)) ->
  chain m (a - 1) (seqZ a (Z.of_nat n)).
Proof.
  revert a. induction n as [|n IH]; intros a Ha Hn Hm; [done|].
  rewrite seqZ_cons by lia. cbn [chain].
  replace (Z.pred (Z.of_nat (S n))) with (Z.of_nat n) by lia. split.
  - rewrite Hm by lia. unfold slot_init_entry.
    destruct (Z.eqb_spec a (size - 1)).
    + destruct n; [done|lia].
    + destruct n; [lia|]. rewrite seqZ_cons by lia. done.
  - replace a with (Z.succ a - 1) at 1 by lia. apply IH; [lia..|].
    intros i Hi. apply Hm. lia.
Qed.

(** What boot code must provide for the page pool. *)
Definition boot_ok (st : pgstate) (start : list pgmaps_struct) (size : Z) : Prop :=
  Z.of_nat (length start) = size /\ 1 <= size /\ hole_head_pos st = 0 /\
  0 <= LOW_MEM st /\ LOW_MEM st mod PAGE_SIZE = 0 /\
  LOW_MEM st + PAGE_SIZE * size <= 2 ^ 32.

Lemma memory_slot_init_wf st start size :
  boot_ok st start size ->
  exists st', memory_slot_init st start size = Ok (size, st') /\ wf st' (seqZ 0 size) /\
    PHI_BLOCKS st' = size /\ LOW_MEM st' = LOW_MEM st /\ HIGH_MEM st' = HIGH_MEM st.
Proof.
  intros (Hl & Hs & Hh & Hlo & Hlm & Hhi).
  destruct (memory_slot_init_ok st start size Hl Hs) as (m & -> & Hlen & Hm).
  eexists. split; [done|]. split; [|done]. constructor; cbn; try done.
  - apply NoDup_seqZ.
  - rewrite Hh, seqZ_cons by lia. done.
  - replace size with (Z.of_nat (S (Z.to_nat (size - 1)))) at 1 by lia.
    rewrite seqZ_S, last_snoc. f_equal. lia.
  - rewrite <- (Z2Nat.id size) by lia.
    apply (chain_init m 0 (Z.to_nat size) size); [lia..|]. intros; apply Hm; lia.
  - intros i e He Hi. apply aget_bound in He. destruct Hi. apply elem_of_seqZ. lia.
Qed.

(** ** Sequences of calls

    A configuration is the allocator's state and the addresses handed out and
    not yet given back.  A caller takes a page while at least two are free,
    and frees only pages it holds. *)
Inductive pg_step : pgstate * list Z -> pgstate * list Z -> Prop :=
  | step_get st held addr st' :
      Z.of_nat (length held) + 2 <= PHI_BLOCKS st ->
      get_page st = Ok (addr, st') -> pg_step (st, held) (st', addr :: held)
  | step_free st held addr st' :
      addr ∈ held -> free_page st addr = Ok (0, st') ->
      pg_step (st, held) (st', list_del addr held).

(** The held pages are exactly the blocks outside the free list. *)
Definition pg_inv (low size : Z) (c : pgstate * list Z) : Prop :=
  let '(st, held) := c in
  exists fl, wf st fl /\ PHI_BLOCKS st = size /\ LOW_MEM st = low /\
    Z.of_nat (length fl) + Z.of_nat (length held) = size /\ NoDup held /\
    forall a, a ∈ held -> exists i e, a = low + PAGE_SIZE * i /\
      aget (phy_usable_map st) i = Ok e /\ count e = 1.

Lemma get_page_fields st a b fl st' addr :
  wf st (a :: b :: fl) -> get_page st = Ok (addr, st') ->
  PHI_BLOCKS st' = PHI_BLOCKS st /\ LOW_MEM st' = LOW_MEM st.
Proof.
  intros W H. unfold get_page in H.
  destruct (hole_head_pos st =? hole_tail_pos st); inv_ok; [done|].
  destruct (hole_head_pos st =? HOLE_NULL); [done|]. inv_ok. done.
Qed.

Lemma free_page_fields st addr st' r :
  free_page st addr = Ok (r, st') ->
  PHI_BLOCKS st' = PHI_BLOCKS st /\ LOW_MEM st' = LOW_MEM st /\
  (r = 0 -> LOW_MEM st <= addr < HIGH_MEM st).
Proof.
  unfold free_page, CHECK_PHY_PAGE, link_free.
  destruct (Z.ltb_spec addr (LOW_MEM st)), (Z.leb_spec (HIGH_MEM st) addr); cbn;
    intros Hf; try (inv_ok; split_and!; done).
  destruct (hole_max st <? _); [inv_ok; done|]. inv_ok.
  destruct (count a =? 0); [inv_ok; done|]. inv_ok.
  destruct (count a =? 1); [|inv_ok; done].
  destruct (_ =? HOLE_NULL); inv_ok; done.
Qed.

(** Two held pages of the free list's complement force two free blocks. *)
Lemma pg_inv_step low size c c' :
  pg_inv low size c -> pg_step c c' -> pg_inv low size c'.
Proof.
  intros Hinv Hst. destruct Hst as [st held addr st' Hroom Hg|st held addr st' Ha Hf];
    destruct Hinv as (fl & W & <- & <- & Hlen & Hnd & Hheld).
  - destruct fl as [|a [|b fl]]; [cbn in Hlen; lia..|].
    destruct (get_page_ok _ _ _ _ W) as (st1 & Hg1 & W1 & (ea & Hea & Hca) & Hoth).
    rewrite Hg1 in Hg. simplify_eq.
    destruct (get_page_fields _ _ _ _ _ _ W Hg1) as [E1 E2].
    exists (b :: fl). split_and!; [done..|cbn in *; lia| |].
    + apply NoDup_cons. split; [|done]. intros (i & e & Heq & He & Hc)%Hheld.
      unfold page_addr in Heq.
      assert (i = a) as -> by (unfold PAGE_SIZE in Heq; lia).
      eapply (wf_not_free _ _ a e W); [done|lia|left].
    + intros x [->|(i & e & -> & He & Hc)%Hheld]%elem_of_cons.
      * exists a, ea. done.
      * destruct (decide (i = a)) as [->|]; [by eauto 10|].
        destruct (Hoth i e) as (e' & ? & ?); [done..|]. exists i, e'. split_and!; [done..|lia].
  - destruct (Hheld _ Ha) as (i & e & -> & He & Hc).
    destruct (free_page_fields _ _ _ _ Hf) as (E1 & E2 & Hhi).
    destruct (free_page_ok st fl i e W He ltac:(lia)) as (st1 & Hf1 & W1 & _ & Hoth).
    { unfold page_addr. specialize (Hhi eq_refl). lia. }
    unfold page_addr in Hf1. rewrite Hf in Hf1. simplify_eq.
    rewrite Hc in W1. cbn in W1. exists (fl ++ [i]). rewrite E1, E2.
    pose proof (length_list_del _ _ Ha).
    split_and!; [done..|rewrite length_app; cbn; lia|by apply list_del_NoDup|].
    intros x Hx. pose proof (NoDup_list_del_notin (LOW_MEM st + PAGE_SIZE * i) _ Hnd).
    destruct (Hheld x) as (j & ej & -> & Hej & Hcj); [by eapply elem_of_list_del|].
    destruct (Hoth j ej) as (e' & ? & ?); [by intros ->|done|].
    exists j, e'. split_and!; [done..|lia].
Qed.

Lemma pg_inv_init st start size st' :
  boot_ok st start size -> memory_slot_init st start size = Ok (size, st') ->
  pg_inv (LOW_MEM st) size (st', []).
Proof.
  intros Hb Hi. destruct (memory_slot_init_wf _ _ _ Hb) as (st1 & Hi1 & W & E1 & E2 & E3).
  rewrite Hi in Hi1. simplify_eq. exists (seqZ 0 (PHI_BLOCKS st1)).
  destruct Hb as (_ & ? & _).
  split_and!; [done..| |constructor|intros a; by rewrite elem_of_nil].
  rewrite length_seqZ. cbn. lia.
Qed.

(** C8: after boot, along every sequence of get_page and free_page calls that
    keeps at least one page in reserve, get_page succeeds, returns a page of
    the pool that nobody holds, and no page is ever held twice. *)
Theorem get_page_no_double_allocation st0 start size st1 st held :
  boot_ok st0 start size -> memory_slot_init st0 start size = Ok (size, st1) ->
  reach pg_step (st1, []) (st, held) ->
  NoDup held /\
  (Z.of_nat (length held) + 2 <= size ->
   exists addr st', get_page st = Ok (addr, st') /\ addr ∉ held /\
     LOW_MEM st0 <= addr < LOW_MEM st0 + PAGE_SIZE * size).
Proof.
  intros Hb Hi Hr.
  assert (pg_inv (LOW_MEM st0) size (st, held)) as (fl & W & <- & E2 & Hlen & Hnd & Hheld).
  { eapply (reach_invariant pg_step); [by eapply pg_inv_init|apply pg_inv_step|done]. }
  split; [done|]. intros Hroom. destruct fl as [|a [|b fl]]; [cbn in Hlen; lia..|].
  destruct (get_page_ok _ _ _ _ W) as (st' & Hg & _).
  pose proof (wf_in_range _ _ a W ltac:(left)) as Ha.
  exists (page_addr st a), st'. split; [done|]. unfold page_addr, PAGE_SIZE in *.
  rewrite E2. split; [|lia]. intros (i & e & Heq & He & Hc)%Hheld.
  assert (i = a) as -> by lia.
  eapply (wf_not_free _ _ a e W); [done|lia|left].
Qed.

Definition demo_pool : pgstate := MkSt [] 0 0 0 0 0x400000 0x404000.
Definition demo_map : list pgmaps_struct := replicate 4 (MkPg 0 0 0).
Definition demo_booted : pgstate :=
  match memory_slot_init demo_pool demo_map 4 with Ok (_, st) => st | _ => demo_pool end.

Lemma get_page_no_double_allocation_witness :
  exists addr st', get_page demo_booted = Ok (addr, st') /\ addr ∉ ([] : list Z).
Proof.
  destruct (get_page_no_double_allocation demo_pool demo_map 4 demo_booted demo_booted [])
    as [_ H].
  - repeat split; vm_compute; congruence.
  - vm_compute. reflexivity.
  - apply reach_refl.
  - destruct H as (addr & st' & H1 & H2 & _); [cbn; lia|]. exists addr, st'. split; assumption.
Defined.

(** free_page on each of its branches.  An address outside the pool, a
    block index past the map or an already free block is refused with -1 and
    no change; otherwise one reference is dropped, and only when it was the
    last one does the block join the tail of the free list. *)
Theorem free_page_branches st fl :
  wf st fl ->
  (forall addr, addr < LOW_MEM st \/ HIGH_MEM st <= addr ->
     free_page st addr = Ok (-1, st)) /\
  (forall i, i ∈ fl -> page_addr st i < HIGH_MEM st ->
     free_page st (page_addr st i) = Ok (-1, st)) /\
  (forall i e, aget (phy_usable_map st) i = Ok e -> 0 < count e ->
     page_addr st i < HIGH_MEM st ->
     exists st', free_page st (page_addr st i) = Ok (0, st') /\
       wf st' (if count e =? 1 then fl ++ [i] else fl) /\
       exists e', aget (phy_usable_map st') i = Ok e' /\ count e' = count e - 1).
Proof.
  intros W. split_and!.
  - intros addr Ha. eapply free_page_refused; eauto.
  - intros i Hi Hhi. pose proof (wf_in_range _ _ _ W Hi). pose proof (wf_high _ _ W).
    eapply free_page_refused; [done|]. right. unfold page_addr, PAGE_SIZE in *.
    split_and!; [lia..|]. right. exists i, 0. split_and!; [lia..|done].
  - intros i e He Hc Hhi. destruct (free_page_ok st fl i e) as (st' & ? & ? & ? & _); eauto.
Qed.

Lemma free_page_branches_witness :
  free_page demo_booted 0 = Ok (-1, demo_booted) /\
  free_page demo_booted 0x401000 = Ok (-1, demo_booted).
Proof.
  destruct (memory_slot_init_wf demo_pool demo_map 4) as (st & Hi & W & _).
  { repeat split; vm_compute; congruence. }
  vm_compute in Hi. injection Hi as <-.
  destruct (free_page_branches demo_booted (seqZ 0 4) W) as (H1 & H2 & _).
  split; [apply H1; left; vm_compute; reflexivity|].
  apply (H2 1); [apply elem_of_seqZ; lia|vm_compute; reflexivity].
Defined.

(** the last free page.  When one block [a] (not block 0) is left,
    get_page hands it out without counting it: it marks block 0 instead and
    leaves the head of the free list at 0.  The page cannot be freed again,
    and the next get_page hands out block 0, although it is in use. *)
Theorem get_page_last_block_reuses_block_0 st a e0 :
  wf st [a] -> a <> 0 -> page_addr st a < HIGH_MEM st ->
  aget (phy_usable_map st) 0 = Ok e0 -> 0 <= next_hole e0 < PHI_BLOCKS st ->
  0 < count e0 /\
  exists st1, get_page st = Ok (page_addr st a, st1) /\
    free_page st1 (page_addr st a) = Ok (-1, st1) /\
    exists st2, get_page st1 = Ok (page_addr st 0, st2).
Proof.
  intros W Ha Hhi He0 Hn. split.
  { eapply (wf_used _ _ W); [done|]. rewrite list_elem_of_singleton. congruence. }
  pose proof (wf_in_range _ _ a W ltac:(left)) as Hra.
  pose proof (wf_tail _ _ W) as Ht. pose proof (wf_head _ _ W) as Hh. cbn in Ht, Hh.
  injection Ht as Ht. injection Hh as Hh. destruct (wf_chain _ _ W) as [Hca _].
  pose proof (wf_low _ _ W) as [Hl0 _]. pose proof (wf_high _ _ W) as Hhg.
  pose proof (wf_blocks _ _ W) as Hb.
  unfold get_page at 1. rewrite <- Ht, <- Hh, Z.eqb_refl. cbn.
  destruct (put_count_ok _ _ _ 1 He0) as (m & -> & Hlen & Heq & Hne). cbn.
  rewrite <- Ht, PTOB_page by (unfold page_addr, PAGE_SIZE in *; lia).
  eexists. split; [done|]. split.
  - unfold free_page, CHECK_PHY_PAGE. cbn -[Z.ltb Z.leb].
    destruct (Z.ltb_spec (page_addr st a) (LOW_MEM st)),
      (Z.leb_spec (HIGH_MEM st) (page_addr st a)); cbn; [done..|].
    replace (page_addr st a) with (page_addr st a + 0) by lia.
    pose proof (MAP_NR_page st a 0) as E. unfold MAP_NR in E |- *. cbn.
    rewrite E by (unfold PAGE_SIZE in *; lia).
    destruct (hole_max st <? a); [done|]. rewrite Hne by congruence. by rewrite Hca.
  - unfold get_page. cbn -[Z.eqb]. rewrite <- Ht. destruct (Z.eqb_spec 0 a); [lia|].
    change (0 =? HOLE_NULL) with false. cbn.
    rewrite Heq. cbn.
    assert (exists en, aget m (next_hole e0) = Ok en) as [en Hen]
      by (apply aget_is_Ok; lia).
    destruct (put_prev_ok _ _ _ HOLE_NULL Hen) as (m1 & -> & Hl1 & Heq1 & Hne1). cbn.
    assert (exists ez, aget m1 0 = Ok ez) as [ez Hez] by (apply aget_is_Ok; lia).
    destruct (put_count_ok _ _ _ 1 Hez) as (m2 & -> & _). cbn.
    eexists. rewrite PTOB_page by (unfold page_addr, PAGE_SIZE in *; lia). done.
Qed.

(** The pool of two pages after one get_page. *)
Definition demo_last : pgstate :=
  MkSt [MkPg 1 HOLE_NULL 1; MkPg 0 HOLE_NULL HOLE_NULL] 2 1 1 1 0x400000 0x402000.

Lemma get_page_last_block_reuses_block_0_witness :
  exists st1, get_page demo_last = Ok (0x401000, st1) /\
    exists st2, get_page st1 = Ok (0x400000, st2).
Proof.
  destruct (get_page_last_block_reuses_block_0 demo_last 1 (MkPg 1 HOLE_NULL 1))
    as (_ & st1 & H1 & _ & H2).
  - constructor; try (vm_compute; congruence).
    + apply NoDup_singleton.
    + split; [vm_compute; reflexivity|done].
    + intros i e He Hi. pose proof (aget_bound _ _ _ He) as Hr. cbn in Hr.
      assert (i = 0 \/ i = 1) as [-> | ->] by lia; [|destruct Hi; left].
      vm_compute in He. injection He as <-. reflexivity.
    + split; vm_compute; congruence.
  - lia.
  - vm_compute. reflexivity.
  - vm_compute. reflexivity.
  - cbn. lia.
  - exists st1. split; assumption.
Defined.

(** ** get_pages *)

Lemma gpi_loop_boot fuel m size i x :
  (forall j, 0 <= j < size -> aget m j = Ok (slot_init_entry size j)) ->
  1 <= i <= x -> x <= size - 2 -> Z.of_nat fuel = size - i ->
  gpi_loop fuel m i (i - 1) (if i =? 1 then 0 else 1) x = Ok (x, 1).
Proof.
  intros Hm. revert i. induction fuel as [|fuel IH]; intros i Hi Hx Hf; [lia|].
  cbn [gpi_loop]. rewrite Hm by lia. cbn -[Z.eqb]. unfold slot_init_entry. cbn -[Z.eqb].
  destruct (Z.eqb_spec i (size - 1)); [lia|].
  rewrite !Z.eqb_refl. cbn -[Z.eqb].
  replace (if (if i =? 1 then 0 else 1) =? 0 then i else if i =? 1 then 0 else 1) with 1
    by (destruct (Z.eqb_spec i 1); cbn; lia).
  destruct (Z.eqb_spec (i - 1 + 1) x) as [E|]; [by rewrite E|].
  pose proof (IH (i + 1) ltac:(lia) Hx ltac:(lia)) as IH'.
  destruct (Z.eqb_spec (i + 1) 1); [lia|].
  by replace (i - 1 + 1) with (i + 1 - 1) by lia.
Qed.

Lemma get_pages_loop_boot fuel st size i :
  1 <= i -> i + Z.of_nat fuel <= size - 1 ->
  (forall j, i <= j < size -> aget (phy_usable_map st) j = Ok (slot_init_entry size j)) ->
  exists st', get_pages_loop fuel st i = Ok st' /\
    (fuel <> O -> hole_head_pos st' = i + Z.of_nat fuel) /\
    (forall j, i + Z.of_nat fuel <= j < size ->
       aget (phy_usable_map st') j = Ok (slot_init_entry size j)) /\
    hole_tail_pos st' = hole_tail_pos st /\ LOW_MEM st' = LOW_MEM st.
Proof.
  revert st i. induction fuel as [|fuel IH]; intros st i Hi Hf Hm.
  - exists st. cbn. split_and!; [done|done| |done..]. intros; apply Hm; lia.
  - cbn [get_pages_loop]. unfold get_pages_mark. rewrite Hm by lia. cbn.
    destruct (put_prev_ok _ _ _ HOLE_NULL (Hm i ltac:(lia))) as (m1 & -> & L1 & E1 & N1).
    cbn. destruct (put_count_ok _ _ _ 1 E1) as (m2 & -> & L2 & E2 & N2). cbn.
    edestruct (IH (set_map (set_hole_head st (next_hole (slot_init_entry size i))) m2) (i + 1))
      as (st' & Hl & Hh & Hm' & Ht & Hlo); [lia|lia| |].
    { intros j Hj. cbn. rewrite N2, N1 by lia. apply Hm. lia. }
    exists st'. unfold slot_init_entry in Hl at 1. cbn in Hl.
    split_and!.
    + exact Hl.
    + intros _. destruct fuel as [|fuel]; [|rewrite Hh by done; lia].
      cbn in Hl. injection Hl as <-. cbn.
      destruct (Z.eqb_spec i (size - 1)); lia.
    + intros j Hj. apply Hm'. lia.
    + done.
    + done.
Qed.

(** get_pages marks the blocks [s .. counts-1] instead of
    [s .. s+counts-1].  At boot, where the run found starts at block 1, the
    kernel heap it returns has one page too many: the very next get_page hands
    out a page inside it.  Later, whenever the run starts at or after block
    [counts], nothing is reserved at all and the state does not change. *)
Theorem get_pages_reserves_too_few st0 start size st1 :
  boot_ok st0 start size -> memory_slot_init st0 start size = Ok (size, st1) ->
  (forall k, 2 <= k <= size - 2 ->
     exists base st2 p st3, get_pages st1 k = Ok (base, st2) /\
       get_page st2 = Ok (p, st3) /\ base <= p < base + PAGE_SIZE * k) /\
  (forall st counts s, 0 < counts <= s -> get_pages_index st counts = Ok s ->
     get_pages st counts = Ok (u32 (PTOB s + LOW_MEM st), st)).
Proof.
  intros Hboot Hi. split.
  2: { intros st counts s Hs Hx. unfold get_pages.
       destruct (Z.eqb_spec counts 0); [lia|]. rewrite Hx. cbn [mbind outcome_bind].
       destruct (Z.eqb_spec s 0); [lia|].
       by replace (Z.to_nat (counts - s)) with O by lia. }
  intros k Hk. destruct Hboot as (Hlen & Hs & Hh & Hlo & Hmod & Hhi).
  destruct (memory_slot_init_ok st0 start size Hlen Hs) as (m & Hi' & Hlm & Hm).
  rewrite Hi in Hi'. injection Hi' as ->. set (st1 := MkSt _ _ _ _ _ _ _).
  pose proof (gpi_loop_boot (Z.to_nat (size - 1)) m size 1 k Hm
    ltac:(lia) ltac:(lia) ltac:(lia)) as Hg.
  change (1 - 1) with 0 in Hg. change (if 1 =? 1 then 0 else 1) with 0 in Hg.
  destruct (get_pages_loop_boot (Z.to_nat (k - 1)) st1 size 1)
    as (st2 & Hl & Hhd & Hm2 & Ht2 & Hlo2); [lia|lia|intros; apply Hm; lia|].
  assert (get_pages st1 k = Ok (page_addr st1 1, st2)) as Hgp.
  { unfold get_pages, get_pages_index. destruct (Z.eqb_spec k 0); [lia|].
    change (PHI_BLOCKS st1) with size. change (phy_usable_map st1) with m.
    rewrite Hg. cbn [mbind outcome_bind]. rewrite Z.eqb_refl. cbn -[get_pages_loop st1].
    rewrite Hl. cbn [mbind outcome_bind].
    rewrite Hlo2, PTOB_page by (unfold page_addr, PAGE_SIZE in *; cbn; lia). done. }
  assert (exists st3, get_page st2 = Ok (page_addr st1 k, st3)) as [st3 Hg3].
  { unfold get_page. rewrite Ht2, (Hhd ltac:(lia)).
    destruct (Z.eqb_spec (1 + Z.of_nat (Z.to_nat (k - 1))) (hole_tail_pos st1)); [cbn in *; lia|].
    destruct (Z.eqb_spec (1 + Z.of_nat (Z.to_nat (k - 1))) HOLE_NULL); [unfold HOLE_NULL in *; lia|].
    replace (1 + Z.of_nat (Z.to_nat (k - 1))) with k in * by lia.
    rewrite Hm2 by lia. cbn [mbind outcome_bind set_hole_head hole_head_pos phy_usable_map].
    replace (next_hole (slot_init_entry size k)) with (k + 1)
      by (cbn -[Z.eqb]; destruct (Z.eqb_spec k (size - 1)); lia).
    destruct (put_prev_ok _ _ _ HOLE_NULL (Hm2 (k + 1) ltac:(lia))) as (m3 & -> & L3 & E3 & N3).
    cbn [mbind outcome_bind].
    assert (aget m3 k = Ok (slot_init_entry size k)) as Hk3 by (rewrite N3 by lia; apply Hm2; lia).
    destruct (put_count_ok _ _ _ 1 Hk3) as (m4 & -> & _). cbn [mbind outcome_bind].
    eexists. cbn [set_map set_hole_head LOW_MEM]. rewrite Hlo2, PTOB_page; [done|lia|done|].
    unfold page_addr, PAGE_SIZE in *; cbn; lia. }
  exists (page_addr st1 1), st2, (page_addr st1 k), st3. split_and!; [done..| |];
    unfold page_addr, PAGE_SIZE; lia.
Qed.

Definition demo_pool8 : pgstate := MkSt [] 0 0 0 0 0x400000 0x408000.
Definition demo_map8 : list pgmaps_struct := replicate 8 (MkPg 0 0 0).

Definition demo_booted8 : pgstate :=
  match memory_slot_init demo_pool8 demo_map8 8 with Ok (_, st) => st | _ => demo_pool8 end.

Lemma get_pages_reserves_too_few_witness :
  exists base st2 p st3,
    get_pages demo_booted8 4 = Ok (base, st2) /\
    get_page st2 = Ok (p, st3) /\ base <= p < base + PAGE_SIZE * 4.
Proof.
  destruct (get_pages_reserves_too_few demo_pool8 demo_map8 8 demo_booted8) as [H _].
  - repeat split; vm_compute; congruence.
  - vm_compute. reflexivity.
  - apply H. lia.
Defined.
