(* ===== verification/Timer.v ===== *)
(** * Kernel timers (core/driver/char/timer.c, sys/jicama/timer.h)

    Timers hang on a hierarchical wheel of five vectors: [tv1] has 256 slots of
    one tick, [tv2] .. [tv5] have 64 slots of 2^8, 2^14, 2^20 and 2^26 ticks.
    run_timer_list fires the current slot of [tv1] on every tick and, when
    [tv1] wraps, cascades the current slots of the higher vectors down.  A slot
    (a circular list with a sentinel) is the list of its timers.  All tick
    arithmetic is modulo 2^32. *)

From S2P Require Import Prelude.

Definition HZ : Z := 1000.

(** msec2ticks and ticks2msec on a 32-bit time_t. *)
Definition msec2ticks (msec : Z) : Z := u32 (msec * HZ) / 1000.
Definition ticks2msec (t : Z) : Z := u32 (t * 1000) / HZ.

Definition TVN_BITS : Z := 6.
Definition TVR_BITS : Z := 8.
Definition TVN_MASK : Z := 63.
Definition TVR_MASK : Z := 255.

(** A timer without its link, which the slots hold; 0 is a NULL handler. *)
Record timer := MkTimer { active : bool; expires : Z; handler : Z; arg : Z }.

(** The file's static data: [ticks], [timer_ticks], the [index] of each of the
    five vectors, the slots [(vector, index)], the timers; and, for the
    theorems, the log of handler calls [(timer_ticks, timer)]. *)
Record wheel := MkWheel {
  ticks : Z;
  timer_ticks : Z;
  tvindex : gmap Z Z;
  vec : gmap (Z * Z) (list Z);
  timers : gmap Z timer;
  fired : list (Z * Z) }.

Definition slot (w : wheel) (s : Z * Z) : list Z := default [] (vec w !! s).
Definition index (w : wheel) (n : Z) : Z := default 0 (tvindex w !! n).

Definition set_vec (w : wheel) (v : gmap (Z * Z) (list Z)) : wheel :=
  MkWheel (ticks w) (timer_ticks w) (tvindex w) v (timers w) (fired w).
Definition set_index (w : wheel) (n i : Z) : wheel :=
  MkWheel (ticks w) (timer_ticks w) (<[n := i]> (tvindex w)) (vec w) (timers w) (fired w).
Definition set_timer (w : wheel) (t : Z) (x : timer) : wheel :=
  MkWheel (ticks w) (timer_ticks w) (tvindex w) (vec w) (<[t := x]> (timers w)) (fired w).
Definition set_timer_ticks (w : wheel) (n : Z) : wheel :=
  MkWheel (ticks w) n (tvindex w) (vec w) (timers w) (fired w).
Definition log_fired (w : wheel) (t : Z) : wheel :=
  MkWheel (ticks w) (timer_ticks w) (tvindex w) (vec w) (timers w)
    (fired w ++ [(timer_ticks w, t)]).

(** The slot attach_timer chooses at [now] for expiry [e]; [cur] is tv1.index. *)
Definition choose_slot (now cur e : Z) : Z * Z :=
  let idx := u32 (e - now) in
  if idx <? 2 ^ TVR_BITS then (1, Z.land e TVR_MASK)
  else if idx <? Z.shiftl 1 (TVR_BITS + TVN_BITS)
       then (2, Z.land (Z.shiftr e TVR_BITS) TVN_MASK)
  else if idx <? Z.shiftl 1 (TVR_BITS + 2 * TVN_BITS)
       then (3, Z.land (Z.shiftr e (TVR_BITS + TVN_BITS)) TVN_MASK)
  else if idx <? Z.shiftl 1 (TVR_BITS + 3 * TVN_BITS)
       then (4, Z.land (Z.shiftr e (TVR_BITS + 2 * TVN_BITS)) TVN_MASK)
  else if s32 idx <? 0 then (1, cur)
  else (5, Z.land (Z.shiftr e (TVR_BITS + 3 * TVN_BITS)) TVN_MASK).

Definition timer_slot (w : wheel) (x : timer) : Z * Z :=
  choose_slot (timer_ticks w) (index w 1) (expires x).

(** Link the timer at the tail of its slot. *)
Definition attach_timer (w : wheel) (t : Z) : outcome wheel :=
  x ← from_opt (timers w !! t);
  let s := timer_slot w x in
  let w := set_vec w (<[s := slot w s ++ [t]]> (vec w)) in
  Ok (set_timer w t (MkTimer true (expires x) (handler x) (arg x))).

(** The timer's link is taken out of whichever slot holds it. *)
Definition detach_timer (w : wheel) (t : Z) : outcome (Z * wheel) :=
  x ← from_opt (timers w !! t);
  if negb (active x) then Ok (0, w)
  else
    let w := set_vec w (list_del t <$> vec w) in
    Ok (1, set_timer w t (MkTimer false (expires x) (handler x) (arg x))).

Definition init_timers (w : wheel) : wheel :=
  set_vec w (list_to_map
    (((fun i => ((1, i), [])) <$> seqZ 0 256) ++
     ((fun i => ((2, i), [])) <$> seqZ 0 64) ++ ((fun i => ((3, i), [])) <$> seqZ 0 64) ++
     ((fun i => ((4, i), [])) <$> seqZ 0 64) ++ ((fun i => ((5, i), [])) <$> seqZ 0 64))).

(** The timer part of clock_init. *)
Definition clock_init (w : wheel) : wheel :=
  init_timers (MkWheel 0 (timer_ticks w) (tvindex w) (vec w) (timers w) (fired w)).

Definition get_unix_sec (upsince : Z) (w : wheel) : Z := u32 (upsince + ticks w / HZ).
Definition startup_ticks (w : wheel) : Z := ticks w.

Definition init_timer (w : wheel) (t h a : Z) : wheel :=
  set_timer w t (MkTimer false 0 h a).

Definition set_expires (w : wheel) (t e : Z) : outcome wheel :=
  x ← from_opt (timers w !! t);
  Ok (set_timer w t (MkTimer (active x) e (handler x) (arg x))).

Definition install_timer (w : wheel) (t msec : Z) : outcome wheel :=
  w ← set_expires w t (u32 (ticks w + msec2ticks msec));
  x ← from_opt (timers w !! t);
  if active x then Ok w else attach_timer w t.

Definition remove_timer (w : wheel) (t : Z) : outcome (Z * wheel) := detach_timer w t.

Definition restart_timer (w : wheel) (t msec : Z) : outcome (Z * wheel) :=
  w ← set_expires w t (u32 (ticks w + msec2ticks msec));
  '(rc, w) ← detach_timer w t;
  w ← attach_timer w t;
  Ok (rc, w).

Definition mod_timer (w : wheel) (t e : Z) : outcome (Z * wheel) :=
  w ← set_expires w t (u32 (ticks w + e));
  '(rc, w) ← detach_timer w t;
  w ← attach_timer w t;
  Ok (rc, w).

(** cascade_timers walks the current slot, re-attaching every timer, then
    empties it.  Were a timer re-attached to the slot being walked, the C loop
    would meet it again: the model faults there. *)
Fixpoint cascade_loop (w : wheel) (head : Z * Z) (l : list Z) : outcome wheel :=
  match l with
  | [] => Ok w
  | t :: l =>
      x ← from_opt (timers w !! t);
      if decide (timer_slot w x = head) then Fault
      else w ← attach_timer w t; cascade_loop w head l
  end.

Definition cascade_timers (w : wheel) (n : Z) : outcome wheel :=
  let head := (n, index w n) in
  w ← cascade_loop w head (slot w head);
  let w := set_vec w (<[head := []]> (vec w)) in
  Ok (set_index w n (Z.land (index w n + 1) TVN_MASK)).

(** [do cascade_timers(tvecs[n]) while (tvecs[n]->index == 1 && ++n < NOOF_TVECS)]
    over the vectors [ns] from the current one up. *)
Fixpoint cascade_up (w : wheel) (ns : list Z) : outcome wheel :=
  match ns with
  | [] => Ok w
  | n :: ns =>
      w ← cascade_timers w n;
      if index w n =? 1 then cascade_up w ns else Ok w
  end.

Section RunTimerList.
(** What a handler does to the timers, given its function and argument. *)
Context (run_handler : Z -> Z -> wheel -> wheel).

(** The inner [while (1)]: fire the head of the current slot until it is empty. *)
Fixpoint drain (fuel : nat) (w : wheel) : outcome wheel :=
  match slot w (1, index w 1) with
  | [] => Ok w
  | t :: _ =>
      match fuel with
      | O => OutOfFuel
      | S fuel =>
          x ← from_opt (timers w !! t);
          '(_, w) ← detach_timer w t;
          let w := log_fired w t in
          let w := if handler x =? 0 then w else run_handler (handler x) (arg x) w in
          drain fuel w
      end
  end.

(** One iteration of the outer loop: process tick [timer_ticks]. *)
Definition run_tick (fuel : nat) (w : wheel) : outcome wheel :=
  w ← (if index w 1 =? 0 then cascade_up w [2; 3; 4; 5] else Ok w);
  w ← drain fuel w;
  let w := set_timer_ticks w (u32 (timer_ticks w + 1)) in
  Ok (set_index w 1 (Z.land (index w 1 + 1) TVR_MASK)).

(** [n] bounds the ticks processed, [fuel] the handlers run in one tick. *)
Fixpoint run_timer_list (n fuel : nat) (w : wheel) : outcome wheel :=
  if 0 <=? s32 (ticks w - timer_ticks w) then
    match n with
    | O => OutOfFuel
    | S n => w ← run_tick fuel w; run_timer_list n fuel w
    end
  else Ok w.

(** The timer part of clock_handler: KATOMIC_INC(ticks), then run_timer_list. *)
Definition clock_tick (n fuel : nat) (w : wheel) : outcome wheel :=
  run_timer_list n fuel (MkWheel (u32 (ticks w + 1)) (timer_ticks w) (tvindex w)
                           (vec w) (timers w) (fired w)).
End RunTimerList.

(** ** Invariant of the wheel *)

(** log2 of the ticks per slot of vector [n] >= 2. *)
Definition sh (n : Z) : Z := TVR_BITS + (n - 2) * TVN_BITS.

(** Expiries vector [n] may hold, as a distance from [timer_ticks]. *)
Definition span (n : Z) : Z := if n =? 5 then 2 ^ 31 else 2 ^ (sh n + 6).

(** [p n] is 1 once the slot of vector [n] that starts at tick [T] has been
    cascaded, 0 before.  A timer of [tv1] sits in the slot of its expiry, or in
    the current one when it is overdue; a timer of a higher vector sits in the
    slot of its expiry, whose first tick is not past. *)
Definition slot_ok (T : Z) (p : Z -> Z) (s : Z * Z) (e : Z) : Prop :=
  let '(n, i) := s in
  (n = 1 /\ ((u32 (e - T) < 256 /\ i = e mod 256) \/
             (2 ^ 31 <= u32 (e - T) /\ i = T mod 256))) \/
  (2 <= n <= 5 /\ i = (e / 2 ^ sh n) mod 64 /\ u32 (e - T) < span n /\
   e mod 2 ^ sh n + p n <= u32 (e - T)).

Record winv (p : Z -> Z) (w : wheel) : Prop := {
  wi_ticks : 0 <= timer_ticks w < 2 ^ 32;
  wi_index1 : index w 1 = timer_ticks w mod 256;
  wi_index : forall n, 2 <= n <= 5 ->
    index w n = (timer_ticks w / 2 ^ sh n +
      (if timer_ticks w mod 2 ^ sh n =? 0 then p n else 1)) mod 64;
  wi_slot : forall s t, t ∈ slot w s -> exists x, timers w !! t = Some x /\
    active x = true /\ 0 <= expires x < 2 ^ 32 /\ slot_ok (timer_ticks w) p s (expires x);
  wi_nodup : forall s, NoDup (slot w s);
  wi_unique : forall s1 s2 t, t ∈ slot w s1 -> t ∈ slot w s2 -> s1 = s2;
  wi_active : forall t x, timers w !! t = Some x -> active x = true ->
    exists s, t ∈ slot w s }.

Definition before : Z -> Z := fun _ => 0.
Definition after : Z -> Z := fun _ => 1.

Lemma level_cases n : 2 <= n <= 5 -> n = 2 \/ n = 3 \/ n = 4 \/ n = 5.
Proof. lia. Qed.

(** Case analysis on a vector number, with the powers of two evaluated. *)
Ltac levels H :=
  apply level_cases in H; destruct H as [-> | [-> | [-> | ->]]];
  unfold span, sh, TVR_BITS, TVN_BITS in *; cbn [Z.eqb Pos.eqb] in *;
  repeat match goal with
    | |- context [2 ^ ?e] => let v := eval vm_compute in (2 ^ e) in
        progress change (2 ^ e) with v
    | H : context [2 ^ ?e] |- _ => let v := eval vm_compute in (2 ^ e) in
        progress change (2 ^ e) with v in H
    end.

Ltac divlia := unfold u32 in *; Z.to_euclidean_division_equations; lia.

Lemma land_mask6 x : Z.land x TVN_MASK = x mod 64.
Proof. apply (Z.land_ones x 6). lia. Qed.
Lemma land_mask8 x : Z.land x TVR_MASK = x mod 256.
Proof. apply (Z.land_ones x 8). lia. Qed.

Lemma s32_neg d : 0 <= d < 2 ^ 32 -> (s32 d <? 0) = (2 ^ 31 <=? d).
Proof.
  intros Hd. unfold s32. rewrite Z.mod_small by lia.
  destruct (Z.ltb_spec d (2 ^ 31)), (Z.leb_spec (2 ^ 31) d); lia.
Qed.

(** attach_timer's choice as a function of the distance. *)
Lemma choose_slot_cases now cur e :
  let d := u32 (e - now) in
  choose_slot now cur e =
    if d <? 256 then (1, e mod 256)
    else if d <? 2 ^ 14 then (2, (e / 2 ^ sh 2) mod 64)
    else if d <? 2 ^ 20 then (3, (e / 2 ^ sh 3) mod 64)
    else if d <? 2 ^ 26 then (4, (e / 2 ^ sh 4) mod 64)
    else if 2 ^ 31 <=? d then (1, cur)
    else (5, (e / 2 ^ sh 5) mod 64).
Proof.
  intros d. unfold choose_slot. fold d. rewrite s32_neg by apply u32_range.
  rewrite !land_mask6, land_mask8, !Z.shiftr_div_pow2 by (unfold TVR_BITS, TVN_BITS; lia). reflexivity.
Qed.

Lemma choose_slot_ok T p e :
  0 <= e < 2 ^ 32 -> (forall n, p n <= 1) ->
  slot_ok T p (choose_slot T (T mod 256) e) e.
Proof.
  intros He Hp. rewrite choose_slot_cases. cbv zeta.
  assert (forall n, 2 <= n <= 5 -> e mod 2 ^ sh n + p n <= 2 ^ sh n) as Hm.
  { intros n Hn. pose proof (Hp n). levels Hn; divlia. }
  destruct (Z.ltb_spec (u32 (e - T)) 256); [left; auto|].
  destruct (Z.ltb_spec (u32 (e - T)) (2 ^ 14)).
  { right. specialize (Hm 2 ltac:(lia)). change (span 2) with (2 ^ 14).
    change (2 ^ sh 2) with 256 in *. split_and!; lia. }
  destruct (Z.ltb_spec (u32 (e - T)) (2 ^ 20)).
  { right. specialize (Hm 3 ltac:(lia)). change (span 3) with (2 ^ 20).
    change (2 ^ sh 3) with (2 ^ 14) in *. split_and!; lia. }
  destruct (Z.ltb_spec (u32 (e - T)) (2 ^ 26)).
  { right. specialize (Hm 4 ltac:(lia)). change (span 4) with (2 ^ 26).
    change (2 ^ sh 4) with (2 ^ 20) in *. split_and!; lia. }
  destruct (Z.leb_spec (2 ^ 31) (u32 (e - T))); [left; auto|].
  right. specialize (Hm 5 ltac:(lia)). change (span 5) with (2 ^ 31).
  change (2 ^ sh 5) with (2 ^ 26) in *. split_and!; lia.
Qed.

(** The slot of vector [n] that starts at [T] holds expiries of the next
    [2 ^ sh n] ticks only, which go to lower vectors; the others keep clear. *)
Lemma cascaded_distance T n e p :
  2 <= n <= 5 -> 0 <= T < 2 ^ 32 -> 0 <= e < 2 ^ 32 -> T mod 2 ^ sh n = 0 -> p n = 0 ->
  slot_ok T p (n, (T / 2 ^ sh n) mod 64) e -> u32 (e - T) < 2 ^ sh n.
Proof.
  intros Hn HT He Hm Hp [[? _]|(_ & Hi & Hd & Hr)]; [lia|]. rewrite Hp in Hr.
  clear Hp. levels Hn; divlia.
Qed.

Lemma kept_slot_ok T n i e :
  2 <= n <= 5 -> 0 <= T < 2 ^ 32 -> 0 <= e < 2 ^ 32 -> T mod 2 ^ sh n = 0 ->
  i <> (T / 2 ^ sh n) mod 64 -> e mod 2 ^ sh n <= u32 (e - T) ->
  i = (e / 2 ^ sh n) mod 64 -> e mod 2 ^ sh n + 1 <= u32 (e - T).
Proof. intros Hn HT He Hm Hi Hr Hj. levels Hn; divlia. Qed.

Lemma choose_slot_lower T n e :
  2 <= n <= 5 -> u32 (e - T) < 2 ^ sh n ->
  (choose_slot T (T mod 256) e).1 < n.
Proof.
  intros Hn Hd. rewrite choose_slot_cases. cbv zeta. levels Hn;
    repeat case_match; cbn; rewrite ?Z.ltb_ge, ?Z.ltb_lt, ?Z.leb_le in *; lia.
Qed.

(** *** Moves of timers between slots *)

(** The slot timer [t] of [w] is attached to. *)
Definition tslot (w : wheel) (t : Z) : Z * Z :=
  match timers w !! t with Some x => timer_slot w x | None => (0, 0) end.

Lemma slot_insert w s l s' :
  slot (set_vec w (<[s := l]> (vec w))) s' = if decide (s = s') then l else slot w s'.
Proof.
  unfold slot; cbn. case_decide; [subst; by rewrite lookup_insert_eq|].
  by rewrite lookup_insert_ne.
Qed.

Lemma attach_active w t x :
  timers w !! t = Some x -> active x = true ->
  attach_timer w t =
    Ok (set_vec w (<[timer_slot w x := slot w (timer_slot w x) ++ [t]]> (vec w))).
Proof.
  intros Ht Ha. unfold attach_timer. rewrite Ht. cbn. f_equal. unfold set_timer, set_vec; cbn.
  f_equal. apply insert_id. rewrite Ht. destruct x; cbn in *. by subst.
Qed.

(** Without a re-attachment to [head], the walk appends to each slot the
    timers of the list that belong there, in order. *)
Lemma cascade_loop_spec head l w :
  (forall t, t ∈ l -> exists x, timers w !! t = Some x /\ active x = true) ->
  (forall t, t ∈ l -> tslot w t <> head) ->
  exists v, cascade_loop w head l = Ok (set_vec w v) /\
    forall s, slot (set_vec w v) s = slot w s ++ filter (fun t => tslot w t = s) l.
Proof.
  revert w. induction l as [|t l IH]; intros w Hl Hh.
  { exists (vec w). split; [by destruct w|]. intros s.
    unfold slot; cbn. by rewrite app_nil_r. }
  destruct (Hl t ltac:(set_solver)) as (x & Hx & Ha).
  pose proof (Hh t ltac:(set_solver)) as Hs. unfold tslot in Hs. rewrite Hx in Hs.
  cbn [cascade_loop]. rewrite Hx. cbn [from_opt mbind outcome_bind].
  rewrite decide_False by done. rewrite (attach_active _ _ x) by done.
  cbn [mbind outcome_bind]. set (w1 := set_vec _ _).
  destruct (IH w1) as (v & Hv & Hf).
  { intros t' Ht'. apply Hl. set_solver. }
  { intros t' Ht'. apply Hh. set_solver. }
  exists v. split; [done|]. intros s. change (slot (set_vec w1 v) s = slot w s ++
    filter (fun t => tslot w t = s) (t :: l)). rewrite Hf. unfold w1 at 1. rewrite slot_insert.
  change (filter (fun t => tslot w1 t = s) l) with (filter (fun t => tslot w t = s) l).
  assert (tslot w t = timer_slot w x) as Ht by (unfold tslot; by rewrite Hx).
  rewrite filter_cons, Ht.
  destruct (decide (timer_slot w x = s)) as [<-|]; [|done]. by rewrite <- app_assoc.
Qed.

Lemma index_set w n i m : index (set_index w n i) m = if decide (n = m) then i else index w m.
Proof.
  unfold index; cbn. case_decide; [subst; by rewrite lookup_insert_eq|].
  by rewrite lookup_insert_ne.
Qed.

(** What cascading vector [n] does to the slots, and to nothing else. *)
Lemma cascade_timers_spec w n :
  let head := (n, index w n) in
  (forall t, t ∈ slot w head -> exists x, timers w !! t = Some x /\ active x = true) ->
  (forall t, t ∈ slot w head -> tslot w t <> head) ->
  exists v, cascade_timers w n =
      Ok (set_index (set_vec w v) n (Z.land (index w n + 1) TVN_MASK)) /\
    forall s, slot (set_vec w v) s =
      if decide (s = head) then []
      else slot w s ++ filter (fun t => tslot w t = s) (slot w head).
Proof.
  intros head Ha Hs. destruct (cascade_loop_spec head _ _ Ha Hs) as (v & Hv & Hf).
  exists (<[head := []]> v). unfold cascade_timers. fold head. rewrite Hv.
  split; [done|]. intros s. specialize (Hf s). unfold slot in *; cbn in *.
  case_decide; [subst; by rewrite lookup_insert_eq|]. by rewrite lookup_insert_ne.
Qed.

(** Everything but the slots and the indices is the same. *)
Definition same_timers (w w' : wheel) : Prop :=
  timers w' = timers w /\ timer_ticks w' = timer_ticks w /\ ticks w' = ticks w /\
  fired w' = fired w.

(** Vectors below [n] have been cascaded. *)
Definition upto (n : Z) : Z -> Z := fun m => if m <? n then 1 else 0.

Lemma slot_ok_relax T p q s e :
  0 <= T < 2 ^ 32 -> 0 <= e < 2 ^ 32 ->
  (forall m, 2 <= m <= 5 -> p m = q m \/ (p m = 0 /\ q m = 1 /\ T mod 2 ^ sh m <> 0)) ->
  slot_ok T p s e -> slot_ok T q s e.
Proof.
  destruct s as [n i]. intros HT He Hpq [H|(Hn & Hi & Hd & Hr)]; [by left|].
  right. split_and!; [lia..|done|done|].
  destruct (Hpq n Hn) as [<-|(Hp & -> & Hne)]; [done|].
  rewrite Hp in Hr. clear Hpq Hp. levels Hn; divlia.
Qed.

Lemma winv_relax p q w :
  (forall m, 2 <= m <= 5 ->
     p m = q m \/ (p m = 0 /\ q m = 1 /\ timer_ticks w mod 2 ^ sh m <> 0)) ->
  winv p w -> winv q w.
Proof.
  intros Hpq [HT H1 Hi Hs Hn Hu Ha]. split; try done.
  - intros n Hn'. rewrite Hi by done. destruct (Hpq n Hn') as [->|(_ & _ & Hne)]; [done|].
    by rewrite (proj2 (Z.eqb_neq _ _) Hne).
  - intros s t (x & ? & ? & ? & ?)%Hs. exists x. split_and!; try done; try lia.
    eapply slot_ok_relax; eauto.
Qed.

Lemma winv_head p w n :
  winv p w -> 2 <= n <= 5 -> timer_ticks w mod 2 ^ sh n = 0 -> p n = 0 ->
  index w n = (timer_ticks w / 2 ^ sh n) mod 64.
Proof.
  intros W Hn Hm Hp. rewrite (wi_index _ _ W) by done. rewrite Hm, Hp. cbn.
  by rewrite Z.add_0_r.
Qed.

(** The current slot moves down, and only there. *)
Lemma head_moves_down p w n t :
  winv p w -> 2 <= n <= 5 -> timer_ticks w mod 2 ^ sh n = 0 -> p n = 0 ->
  t ∈ slot w (n, index w n) -> (tslot w t).1 < n.
Proof.
  intros W Hn Hm Hp Ht. destruct (wi_slot _ _ W _ _ Ht) as (x & Hx & _ & He & Hok).
  unfold tslot, timer_slot. rewrite Hx, (wi_index1 _ _ W).
  apply choose_slot_lower; [done|].
  rewrite (winv_head p) in Hok by done. eapply cascaded_distance; eauto using wi_ticks.
Qed.

Lemma kept_ok p w n s x :
  winv p w -> 2 <= n <= 5 -> timer_ticks w mod 2 ^ sh n = 0 -> p n = 0 ->
  s <> (n, index w n) -> 0 <= expires x < 2 ^ 32 ->
  slot_ok (timer_ticks w) p s (expires x) ->
  slot_ok (timer_ticks w) (fun m => if m =? n then 1 else p m) s (expires x).
Proof.
  intros W Hn Hm Hp Hs He Hok. destruct s as [m i].
  destruct Hok as [?|(Hm' & Hi & Hd & Hr)]; [by left|]. right. split_and!; [lia..|done|done|].
  destruct (Z.eqb_spec m n) as [->|]; [|done].
  rewrite Hp, Z.add_0_r in Hr. eapply (kept_slot_ok _ n i); eauto using wi_ticks.
  intros ->. apply Hs. by rewrite (winv_head p).
Qed.

Lemma cascade_slots_inv p w n v :
  winv p w -> 2 <= n <= 5 -> timer_ticks w mod 2 ^ sh n = 0 -> p n = 0 ->
  (forall s, slot (set_vec w v) s =
      if decide (s = (n, index w n)) then []
      else slot w s ++ filter (fun t => tslot w t = s) (slot w (n, index w n))) ->
  forall s t, t ∈ slot (set_vec w v) s <->
    s <> (n, index w n) /\ (t ∈ slot w s \/ t ∈ slot w (n, index w n) /\ tslot w t = s).
Proof.
  intros W Hn Hm Hp Hv s t. rewrite Hv. case_decide.
  - rewrite elem_of_nil. naive_solver.
  - rewrite elem_of_app, list_elem_of_filter. naive_solver.
Qed.

Lemma cascade_winv p w n :
  winv p w -> 2 <= n <= 5 -> timer_ticks w mod 2 ^ sh n = 0 -> p n = 0 ->
  (forall m, p m <= 1) ->
  exists w', cascade_timers w n = Ok w' /\ same_timers w w' /\
    winv (fun m => if m =? n then 1 else p m) w' /\
    index w' n = (timer_ticks w / 2 ^ sh n + 1) mod 64.
Proof.
  intros W Hn Hm Hp Hp1. pose proof (winv_head p w n W Hn Hm Hp) as Hidx.
  set (head := (n, index w n)).
  assert (forall t, t ∈ slot w head -> tslot w t <> head) as Hne.
  { intros t Ht Heq. pose proof (head_moves_down p w n t W Hn Hm Hp Ht) as Hlt.
    rewrite Heq in Hlt. cbn in Hlt. lia. }
  destruct (cascade_timers_spec w n) as (v & Hc & Hv); [|done|].
  { intros t (x & ? & ? & _)%(wi_slot _ _ W). eauto. }
  pose proof (cascade_slots_inv p w n v W Hn Hm Hp Hv) as Hin. fold head in Hin, Hv.
  exists (set_index (set_vec w v) n (Z.land (index w n + 1) TVN_MASK)).
  assert (Z.land (index w n + 1) TVN_MASK = (timer_ticks w / 2 ^ sh n + 1) mod 64) as Hnew.
  { rewrite land_mask6, Hidx. by rewrite Zplus_mod_idemp_l. }
  split; [done|]. split; [done|]. rewrite index_set, decide_True by done. split; [|done].
  pose proof W as [HT H1 Hi Hs Hnd Hu Ha]. split.
  - done.
  - rewrite index_set, decide_False by lia. done.
  - intros m Hm'. rewrite index_set. cbn. destruct (Z.eqb_spec m n) as [->|].
    + rewrite decide_True by done. rewrite Hm. done.
    + rewrite decide_False by done. by apply Hi.
  - intros s t [Hsh [Ht|[Ht Hts]]]%Hin; destruct (Hs _ _ Ht) as (x & Hx & Hax & He & Hok);
      exists x; split_and!; try done; try lia.
    + by apply (kept_ok p w n).
    + rewrite <- Hts. unfold tslot, timer_slot. rewrite Hx, H1.
      apply (choose_slot_ok (timer_ticks w)); [done|]. intros m. case_match; [lia|apply Hp1].
  - intros s. change (NoDup (slot (set_vec w v) s)). rewrite Hv. case_decide; [constructor|].
    apply NoDup_app. split_and!; [done| |by apply NoDup_filter].
    intros t Ht [_ Ht']%list_elem_of_filter. eauto.
  - intros s1 s2 t [Hn1 Ht1]%Hin [Hn2 Ht2]%Hin.
    destruct Ht1 as [Ht1|[Ht1 Hs1]], Ht2 as [Ht2|[Ht2 Hs2]];
      [by eauto|destruct Hn1; by eauto|destruct Hn2; by eauto|congruence].
  - intros t x Hx Hax. destruct (Ha t x Hx Hax) as [s Ht].
    destruct (decide (s = head)) as [->|].
    + exists (tslot w t). apply Hin. split; [by apply Hne|]. by right.
    + exists s. apply Hin. auto.
Qed.

(** The cascades due at a tick leave every vector cascaded. *)
Lemma cascade_up_winv k : forall n w,
  2 <= n -> n + Z.of_nat k = 6 ->
  winv (upto n) w -> (n <= 5 -> timer_ticks w mod 2 ^ sh n = 0) ->
  exists w', cascade_up w (seqZ n (Z.of_nat k)) = Ok w' /\ same_timers w w' /\ winv after w'.
Proof.
  induction k as [|k IH]; intros n w Hn Hk W Hm.
  { exists w. split; [done|]. split; [done|]. eapply winv_relax; [|done].
    intros m ?. left. unfold upto, after. destruct (Z.ltb_spec m n); lia. }
  rewrite seqZ_cons by lia. replace (Z.pred (Z.of_nat (S k))) with (Z.of_nat k) by lia.
  specialize (Hm ltac:(lia)).
  destruct (cascade_winv (upto n) w n) as (w1 & Hc & Hsame & W1 & Hi);
    [done|lia|done|unfold upto; by rewrite Z.ltb_irrefl|
     intros m; unfold upto; case_match; lia|].
  cbn [cascade_up]. rewrite Hc. cbn [mbind outcome_bind].
  pose proof Hsame as (Ht1 & Ht2 & Ht3 & Ht4).
  pose proof (wi_ticks _ _ W) as HT.
  assert (n <= 4 -> index w1 n = 1 <-> timer_ticks w mod 2 ^ sh (n + 1) = 0) as Hnext.
  { intros Hn4. rewrite Hi. clear - Hn Hn4 Hm HT.
    assert (n = 2 \/ n = 3 \/ n = 4) as [->|[->| ->]] by lia;
      unfold sh, TVR_BITS, TVN_BITS in *; cbn in *; split; divlia. }
  destruct (Z.eqb_spec (index w1 n) 1) as [H1|H1].
  - destruct (IH (Z.succ n) w1) as (w2 & Hw2 & (? & ? & ? & ?) & W2); try lia.
    + eapply winv_relax; [|exact W1]. intros m _. left. unfold upto.
      destruct (Z.eqb_spec m n), (Z.ltb_spec m n), (Z.ltb_spec m (Z.succ n)); lia.
    + intros ?. rewrite Ht2. apply Hnext; [lia|done].
    + exists w2. split; [done|]. split; [|done]. unfold same_timers. by split_and!; etrans.
  - exists w1. split; [done|]. split; [done|]. eapply winv_relax; [|exact W1].
    intros m Hm5. rewrite Ht2. unfold upto, after.
    destruct (Z.eqb_spec m n), (Z.ltb_spec m n); try lia.
    right. split_and!; try lia. intros Hmm. apply H1, Hnext; [lia|].
    clear - Hmm Hn Hm5 n0 H HT. assert (n + 1 <= m) by lia.
    assert (n = 2 \/ n = 3 \/ n = 4) as [->|[->| ->]] by lia; levels Hm5;
      unfold sh, TVR_BITS, TVN_BITS in *; cbn in *; divlia.
Qed.

(** *** Arming and disarming *)

Lemma slot_detach w t s :
  slot (set_vec w (list_del t <$> vec w)) s = list_del t (slot w s).
Proof. unfold slot; cbn. rewrite lookup_fmap. by destruct (vec w !! s). Qed.

(** Taking [t] out of its slot and marking it inactive, whatever its expiry. *)
Lemma detached_winv p w t x' :
  winv p w -> active x' = false ->
  winv p (set_timer (set_vec w (list_del t <$> vec w)) t x').
Proof.
  intros [HT H1 Hi Hs Hnd Hu Ha] Hx'.
  assert (forall s t', t' ∈ list_del t (slot w s) -> t' ∈ slot w s /\ t' <> t) as Hdel.
  { intros s t' Ht'. split; [by eapply elem_of_list_del|]. intros ->.
    by apply (NoDup_list_del_notin t (slot w s)). }
  split; try done; unfold set_timer, slot at 1; cbn; fold (slot w).
  - intros s t'. change (t' ∈ slot (set_vec w (list_del t <$> vec w)) s -> exists x,
      <[t := x']> (timers w) !! t' = Some x /\ active x = true /\
      0 <= expires x < 2 ^ 32 /\ slot_ok (timer_ticks w) p s (expires x)).
    rewrite slot_detach. intros [Ht' Hne]%Hdel. rewrite lookup_insert_ne by done. by apply Hs.
  - intros s. change (NoDup (slot (set_vec w (list_del t <$> vec w)) s)).
    rewrite slot_detach. by apply list_del_NoDup.
  - intros s1 s2 t'. change (t' ∈ slot (set_vec w (list_del t <$> vec w)) s1 ->
      t' ∈ slot (set_vec w (list_del t <$> vec w)) s2 -> s1 = s2).
    rewrite !slot_detach. intros [? _]%Hdel [? _]%Hdel. eauto.
  - intros t' x Hx Hax. destruct (decide (t = t')) as [<-|Hne].
    { rewrite lookup_insert_eq in Hx. naive_solver congruence. }
    rewrite lookup_insert_ne in Hx by done. destruct (Ha _ _ Hx Hax) as [s Ht'].
    exists s. change (t' ∈ slot (set_vec w (list_del t <$> vec w)) s).
    rewrite slot_detach. by apply elem_of_list_del_ne.
Qed.

Lemma inactive_not_linked p w t x s :
  winv p w -> timers w !! t = Some x -> active x = false -> t ∉ slot w s.
Proof. intros W Hx Hax (x' & Hx' & ? & _)%(wi_slot _ _ W). congruence. Qed.

Lemma attach_winv p w t x :
  winv p w -> (forall n, p n <= 1) ->
  timers w !! t = Some x -> active x = false -> 0 <= expires x < 2 ^ 32 ->
  exists w', attach_timer w t = Ok w' /\ winv p w' /\
    timers w' = <[t := MkTimer true (expires x) (handler x) (arg x)]> (timers w) /\
    timer_ticks w' = timer_ticks w /\ ticks w' = ticks w /\ fired w' = fired w /\
    forall s, slot w' s = if decide (timer_slot w x = s) then slot w s ++ [t] else slot w s.
Proof.
  intros W Hp Hx Hax He. pose proof (inactive_not_linked p w t x) as Hnot.
  unfold attach_timer. rewrite Hx. cbn [from_opt mbind outcome_bind].
  set (v := <[timer_slot w x := _]> (vec w)). eexists. split; [done|].
  assert (forall s, slot (set_vec w v) s =
    if decide (timer_slot w x = s) then slot w s ++ [t] else slot w s) as Hv.
  { intros s. unfold v. rewrite slot_insert. by case_decide; subst. }
  assert (forall s t', t' ∈ slot (set_vec w v) s ->
    t' ∈ slot w s \/ t' = t /\ s = timer_slot w x) as Hin.
  { intros s t'. rewrite Hv. case_decide; [|auto].
    rewrite elem_of_app, list_elem_of_singleton. naive_solver. }
  split; [|done]. pose proof W as [HT H1 Hi Hs Hnd Hu Ha]. split; try done; cbn [timers set_timer].
  - intros s t' [Ht'|[-> ->]]%Hin.
    + rewrite lookup_insert_ne; [by apply Hs|]. intros <-. by eapply Hnot.
    + rewrite lookup_insert_eq. eexists. split; [done|]. split; [done|]. split; [done|].
      unfold timer_slot. rewrite H1. by apply (choose_slot_ok (timer_ticks w)).
  - intros s. change (NoDup (slot (set_vec w v) s)). rewrite Hv. case_decide; [|done].
    apply NoDup_app. split_and!; [done| |apply NoDup_singleton].
    intros t' Ht' ->%list_elem_of_singleton. by eapply Hnot.
  - intros s1 s2 t' [H3|[-> ->]]%Hin [H4|[H5 H6]]%Hin; subst; try done; [by eauto|..];
      exfalso; eapply Hnot; eauto.
  - intros t' x' Hx' Hax'. change (exists s, t' ∈ slot (set_vec w v) s).
    destruct (decide (t = t')) as [<-|Hne].
    + exists (timer_slot w x). rewrite Hv, decide_True by done. set_solver.
    + rewrite lookup_insert_ne in Hx' by done. destruct (Ha _ _ Hx' Hax') as [s ?].
      exists s. rewrite Hv. case_decide; set_solver.
Qed.

(** *** A tick *)

(** What the timer code expects of handlers: they leave the wheel well formed,
    do not touch armed timers, and arm timers for later ticks only. *)
Class HandlerOk (run : Z -> Z -> wheel -> wheel) : Prop := {
  h_inv : forall h a w, winv after w -> winv after (run h a w);
  h_ticks : forall h a w, timer_ticks (run h a w) = timer_ticks w /\
    ticks (run h a w) = ticks w /\ fired (run h a w) = fired w;
  h_current : forall h a w, winv after w ->
    slot (run h a w) (1, index w 1) = slot w (1, index w 1);
  h_armed : forall h a w t x, timers w !! t = Some x -> active x = true ->
    timers (run h a w) !! t = Some x }.

(** Handlers that only wake threads do not touch the wheel. *)
#[export] Instance noop_handler_ok : HandlerOk (fun _ _ w => w).
Proof. by split. Qed.

Section Ticks.
Context (run_handler : Z -> Z -> wheel -> wheel) {HH : HandlerOk run_handler}.

Lemma h_index h a w : winv after w -> index (run_handler h a w) 1 = index w 1.
Proof.
  intros W. rewrite (wi_index1 _ _ (h_inv h a w W)), (wi_index1 _ _ W).
  by destruct (h_ticks h a w) as (-> & _).
Qed.

(** One turn of the inner loop, up to the recursive call. *)
Definition fire1 (w : wheel) (t : Z) (x : timer) : wheel :=
  let w1 := log_fired (set_timer (set_vec w (list_del t <$> vec w)) t
              (MkTimer false (expires x) (handler x) (arg x))) t in
  if handler x =? 0 then w1 else run_handler (handler x) (arg x) w1.

Lemma fire1_ok w t l x :
  winv after w -> slot w (1, index w 1) = t :: l ->
  timers w !! t = Some x -> active x = true ->
  let w' := fire1 w t x in
  winv after w' /\ slot w' (1, index w' 1) = l /\ timer_ticks w' = timer_ticks w /\
  ticks w' = ticks w /\ fired w' = fired w ++ [(timer_ticks w, t)] /\
  (forall t' x', t' <> t -> timers w !! t' = Some x' -> active x' = true ->
     timers w' !! t' = Some x').
Proof.
  intros W Hl Hx Hax w'. unfold w', fire1.
  set (w1 := log_fired _ t).
  assert (winv after w1) as W1.
  { pose proof (detached_winv after w t (MkTimer false (expires x) (handler x) (arg x)) W eq_refl)
      as [? ? ? ? ? ? ?]. by split. }
  assert (slot w1 (1, index w 1) = l) as Hl1.
  { change (slot w1 (1, index w 1)) with
      (slot (set_vec w (list_del t <$> vec w)) (1, index w 1)).
    rewrite slot_detach, Hl. cbn. by rewrite decide_True. }
  assert (forall t' x', t' <> t -> timers w !! t' = Some x' -> active x' = true ->
     timers w1 !! t' = Some x') as Hx1.
  { intros t' x' Hne Hx' _. cbn. by rewrite lookup_insert_ne. }
  destruct (handler x =? 0); [done|].
  destruct (h_ticks (handler x) (arg x) w1) as (H1 & H2 & H3).
  split_and!; try done.
  - by apply h_inv.
  - rewrite h_index by done. by rewrite h_current.
  - intros t' x' Hne Hx' Hax'. apply h_armed; auto.
Qed.

(** The inner loop fires the whole current slot, in order, once. *)
Lemma drain_ok l : forall w,
  winv after w -> slot w (1, index w 1) = l ->
  exists w', (forall fuel, (length l <= fuel)%nat -> drain run_handler fuel w = Ok w') /\
    winv after w' /\ slot w' (1, index w' 1) = [] /\ timer_ticks w' = timer_ticks w /\
    ticks w' = ticks w /\ fired w' = fired w ++ ((timer_ticks w,.) <$> l) /\
    (forall t x, t ∉ l -> timers w !! t = Some x -> active x = true ->
       timers w' !! t = Some x).
Proof.
  induction l as [|t l IH]; intros w W Hl.
  { exists w. split_and!; try done; [|by rewrite app_nil_r].
    intros [|fuel] _; cbn; by rewrite Hl. }
  destruct (wi_slot _ _ W (1, index w 1) t) as (x & Hx & Hax & _); [rewrite Hl; left|].
  destruct (fire1_ok w t l x W Hl Hx Hax) as (W1 & Hl1 & HT & Htk & Hf & Hrest).
  destruct (IH _ W1 Hl1) as (w' & Hd & W' & Hl' & HT' & Htk' & Hf' & Hrest').
  exists w'. split_and!; try done; try congruence.
  - intros [|fuel] Hfuel; cbn in Hfuel; [lia|]. cbn [drain]. rewrite Hl, Hx.
    cbn [from_opt mbind outcome_bind]. unfold detach_timer. rewrite Hx.
    cbn [from_opt mbind outcome_bind]. rewrite Hax. cbn [negb].
    cbn [from_opt mbind outcome_bind]. apply Hd. lia.
  - rewrite Hf', Hf, HT. cbn. by rewrite <- app_assoc.
  - intros t' x' [Hne Hnin]%not_elem_of_cons Hx' Hax'. by eauto.
Qed.

(** The step to the next tick. *)
Lemma slot_ok_next T s e :
  0 <= T < 2 ^ 32 -> 0 <= e < 2 ^ 32 -> s <> (1, T mod 256) ->
  slot_ok T after s e -> slot_ok (u32 (T + 1)) before s e.
Proof.
  intros HT He Hs. destruct s as [n i]. unfold after, before.
  intros [(-> & [[Hd Hi]|[Hd Hi]])|(Hn & Hi & Hd & Hr)].
  - left. split; [done|]. left. split; [|done].
    assert (e mod 256 <> T mod 256) by congruence. divlia.
  - congruence.
  - right. split_and!; try lia; try done; levels Hn; divlia.
Qed.

Lemma tick_advance w :
  winv after w -> slot w (1, index w 1) = [] ->
  winv before (set_index (set_timer_ticks w (u32 (timer_ticks w + 1))) 1
                 (Z.land (index w 1 + 1) TVR_MASK)).
Proof.
  intros [HT H1 Hi Hs Hnd Hu Ha] Hempty. split; try done.
  - apply u32_range.
  - rewrite index_set, decide_True by done. rewrite land_mask8, H1. cbn. divlia.
  - intros n Hn. rewrite index_set, decide_False by lia.
    change (index (set_timer_ticks w (u32 (timer_ticks w + 1))) n) with (index w n).
    rewrite Hi by done. cbn. unfold after, before. clear - HT Hn.
    destruct (Z.eqb_spec (timer_ticks w mod 2 ^ sh n) 0),
      (Z.eqb_spec (u32 (timer_ticks w + 1) mod 2 ^ sh n) 0); levels Hn; divlia.
  - intros s t Ht. destruct (Hs s t Ht) as (x & ? & ? & ? & ?). exists x.
    split_and!; try done; try lia. apply slot_ok_next; try done.
    intros ->. change (t ∈ slot w (1, timer_ticks w mod 256)) in Ht.
    rewrite <- H1, Hempty in Ht. by apply elem_of_nil in Ht.
Qed.

(** Expired at tick [T]: now, or (by the signed comparison) in the past. *)
Definition due (T e : Z) : Prop := u32 (e - T) = 0 \/ 2 ^ 31 <= u32 (e - T).

Lemma current_slot_iff_due T s e :
  0 <= T < 2 ^ 32 -> 0 <= e < 2 ^ 32 -> slot_ok T after s e ->
  s = (1, T mod 256) <-> due T e.
Proof.
  intros HT He. destruct s as [n i]. unfold after, due.
  intros [(-> & [[Hd Hi]|[Hd Hi]])|(Hn & Hi & Hd & Hr)].
  - split; [intros [= ->]; divlia|]. intros [?|?]; [|divlia]. f_equal. divlia.
  - split; [auto|]. intros _. by f_equal.
  - split; [intros [=]; lia|]. levels Hn; divlia.
Qed.

(** One tick fires exactly the timers due, each once, and keeps the others. *)
Lemma run_tick_ok w :
  winv before w -> exists N w' l,
    (forall fuel, (N <= fuel)%nat -> run_tick run_handler fuel w = Ok w') /\
    winv before w' /\ timer_ticks w' = u32 (timer_ticks w + 1) /\ ticks w' = ticks w /\
    fired w' = fired w ++ ((timer_ticks w,.) <$> l) /\
    forall t x, timers w !! t = Some x -> active x = true ->
      (t ∈ l <-> due (timer_ticks w) (expires x)) /\
      (t ∉ l -> timers w' !! t = Some x).
Proof.
  intros W. pose proof (wi_ticks _ _ W) as HT.
  assert (exists w1, (if index w 1 =? 0 then cascade_up w [2; 3; 4; 5] else Ok w) = Ok w1 /\
    same_timers w w1 /\ winv after w1) as (w1 & Hc & (Ht & HT1 & Htk & Hf) & W1).
  { rewrite (wi_index1 _ _ W). destruct (Z.eqb_spec (timer_ticks w mod 256) 0) as [H0|H0].
    - apply (cascade_up_winv 4 2); try done. eapply winv_relax; [|exact W].
      intros m Hm. left. unfold upto, before. destruct (Z.ltb_spec m 2); lia.
    - exists w. split; [done|]. split; [done|]. eapply winv_relax; [|exact W].
      intros m Hm. right. split_and!; try done. clear - H0 HT Hm. levels Hm; divlia. }
  destruct (drain_ok _ w1 W1 eq_refl) as (w2 & Hd & W2 & Hl & HT2 & Htk2 & Hf2 & Hrest).
  set (l := slot w1 (1, index w1 1)) in *.
  exists (length l). eexists. exists l. split_and!.
  - intros fuel Hfuel. unfold run_tick. rewrite Hc. cbn [mbind outcome_bind].
    rewrite Hd by done. cbn [mbind outcome_bind]. reflexivity.
  - by apply (tick_advance w2).
  - cbn. by rewrite HT2, HT1.
  - cbn. by rewrite Htk2, Htk.
  - cbn. by rewrite Hf2, Hf, HT1.
  - intros t x Hx Hax. rewrite <- Ht in Hx. split; [|intros; by apply Hrest].
    destruct (wi_active _ _ W1 t x Hx Hax) as [s Hs].
    destruct (wi_slot _ _ W1 s t Hs) as (x' & Hx' & _ & He & Hok). simplify_eq.
    rewrite <- HT1. rewrite <- (current_slot_iff_due _ s) by (eauto using wi_ticks; done).
    rewrite <- (wi_index1 _ _ W1). unfold l. split; [|by intros <-].
    intros Hs'. by apply (wi_unique _ _ W1 _ _ t).
Qed.

Lemma s32_diff T t : 0 <= s32 (t - T) -> u32 (t - T) = s32 (t - T) /\
  u32 (T + s32 (t - T)) = u32 t.
Proof. unfold s32. destruct (Z.ltb_spec ((t - T) mod 2 ^ 32) (2 ^ 31)); divlia. Qed.

Lemma s32_diff_next T t k :
  s32 (t - T) = Z.of_nat (S k) -> s32 (t - u32 (T + 1)) = Z.of_nat k.
Proof.
  intros H. pose proof (s32_range (t - T)). unfold s32 in *.
  destruct (Z.ltb_spec ((t - T) mod 2 ^ 32) (2 ^ 31)),
    (Z.ltb_spec ((t - u32 (T + 1)) mod 2 ^ 32) (2 ^ 31)); divlia.
Qed.

(** What a run over [k] + 1 ticks did to the timers armed at its start. *)
Definition ran (k : Z) (w w' : wheel) (log : list (Z * Z)) : Prop :=
  forall t x, timers w !! t = Some x -> active x = true ->
    let d := u32 (expires x - timer_ticks w) in
    d < 2 ^ 31 ->
    if d <=? k then exists l1 l2, log = l1 ++ (expires x, t) :: l2 /\ t ∉ l1.*2
    else timers w' !! t = Some x /\ t ∉ log.*2.

Lemma winv_expires p w t x :
  winv p w -> timers w !! t = Some x -> active x = true -> 0 <= expires x < 2 ^ 32.
Proof.
  intros W Hx Hax. destruct (wi_active _ _ W t x Hx Hax) as [s Hs].
  destruct (wi_slot _ _ W s t Hs) as (x' & Hx' & _ & He & _). by simplify_eq.
Qed.

Lemma ran_tick w w1 w' l log k :
  winv before w -> 0 <= k -> timer_ticks w1 = u32 (timer_ticks w + 1) ->
  (forall t x, timers w !! t = Some x -> active x = true ->
      (t ∈ l <-> due (timer_ticks w) (expires x)) /\ (t ∉ l -> timers w1 !! t = Some x)) ->
  (k = 0 /\ w' = w1 /\ log = [] \/ 0 < k /\ ran (k - 1) w1 w' log) ->
  ran k w w' (((timer_ticks w,.) <$> l) ++ log).
Proof.
  intros W Hk HT1 Hl Hlog t x Hx Hax d Hd. pose proof (winv_expires _ _ _ _ W Hx Hax) as He.
  pose proof (wi_ticks _ _ W) as HT. destruct (Hl t x Hx Hax) as [Hin Hkeep].
  assert (((timer_ticks w,.) <$> l).*2 = l) as Hsnd.
  { clear. induction l; cbn; [done|by f_equal]. }
  destruct (decide (d = 0)) as [Hd0|Hd0].
  { destruct (Z.leb_spec d k); [|lia].
    destruct (list_elem_of_split_l l t) as (l1 & l2 & -> & Hn1); [apply Hin; by left|].
    exists ((timer_ticks w,.) <$> l1), (((timer_ticks w,.) <$> l2) ++ log).
    replace (expires x) with (timer_ticks w) by (unfold d in Hd0; divlia).
    rewrite fmap_app, <- app_assoc. split; [done|]. intros Hin1. apply Hn1.
    clear - Hin1. induction l1; cbn in *; [done|]. apply elem_of_cons in Hin1 as [->|];
      [left|right; auto]. }
  assert (t ∉ l) as Hnl. { rewrite Hin. unfold due. fold d. lia. }
  assert (u32 (expires x - timer_ticks w1) = d - 1) as Hd1.
  { rewrite HT1. unfold d in *. divlia. }
  pose proof (u32_range (expires x - timer_ticks w)) as Hdr. fold d in Hdr.
  destruct Hlog as [(-> & -> & ->)|[Hk0 Hran]].
  - destruct (Z.leb_spec d 0); [lia|]. rewrite app_nil_r, Hsnd. auto.
  - specialize (Hran t x (Hkeep Hnl) Hax). cbv zeta in Hran. rewrite Hd1 in Hran.
    specialize (Hran ltac:(lia)).
    destruct (Z.leb_spec (d - 1) (k - 1)), (Z.leb_spec d k); try lia.
    + destruct Hran as (l1 & l2 & -> & Hn1). exists (((timer_ticks w,.) <$> l) ++ l1), l2.
      rewrite <- app_assoc. split; [done|]. rewrite fmap_app, Hsnd, elem_of_app. tauto.
    + rewrite fmap_app, Hsnd, elem_of_app. tauto.
Qed.

Lemma run_timer_list_ok k : forall w,
  winv before w -> s32 (ticks w - timer_ticks w) = Z.of_nat k ->
  exists N w' log,
    (forall fuel, (N <= fuel)%nat -> run_timer_list run_handler (S k) fuel w = Ok w') /\
    winv before w' /\ timer_ticks w' = u32 (ticks w + 1) /\ fired w' = fired w ++ log /\
    ran (Z.of_nat k) w w' log.
Proof.
  induction k as [|k IH]; intros w W Hk;
    destruct (run_tick_ok w W) as (N & w1 & l & Hrun & W1 & HT1 & Htk1 & Hf1 & Hl).
  - exists N, w1, ((timer_ticks w,.) <$> l). rewrite <- (app_nil_r (_ <$> l)).
    pose proof (s32_diff (timer_ticks w) (ticks w) ltac:(lia)) as [Hu Hu'].
    assert (timer_ticks w1 = u32 (ticks w + 1)) as HT1'.
    { rewrite HT1. rewrite Hk in *. divlia. }
    split_and!; try done; [|by rewrite app_nil_r|eapply ran_tick; eauto; lia].
    intros fuel Hfuel. cbn [run_timer_list]. rewrite Hk. cbn [Z.of_nat].
    rewrite Hrun by done. cbn [mbind outcome_bind Z.leb Z.compare]. cbn [run_timer_list].
    assert (s32 (ticks w1 - timer_ticks w1) = -1) as ->; [|done].
    rewrite Htk1, HT1'. rewrite <- (s32_small (-1)) by lia. unfold s32.
    replace ((ticks w - u32 (ticks w + 1)) mod 2 ^ 32) with (-1 mod 2 ^ 32); [done|divlia].
  - destruct (IH w1 W1) as (N' & w' & log & Hrun' & W' & HT' & Hf' & Hran').
    { rewrite Htk1, HT1. by apply s32_diff_next. }
    exists (N `max` N')%nat, w', (((timer_ticks w,.) <$> l) ++ log). split_and!; try done.
    + intros fuel Hfuel. cbn [run_timer_list]. rewrite Hk.
      rewrite (proj2 (Z.leb_le 0 _)) by lia. rewrite Hrun by lia.
      cbn [mbind outcome_bind]. apply Hrun'. lia.
    + by rewrite HT', Htk1.
    + by rewrite Hf', Hf1, app_assoc.
    + eapply ran_tick; eauto; [lia|]. right. split; [lia|].
      by replace (Z.of_nat (S k) - 1) with (Z.of_nat k) by lia.
Qed.
End Ticks.

(** *** From boot *)

(** The static data as the loader leaves it: all zero. *)
Definition bss : wheel := MkWheel 0 0 ∅ ∅ ∅ [].

Lemma slot_init_timers w s : slot (init_timers w) s = [].
Proof.
  unfold slot, init_timers; cbn [vec set_vec].
  match goal with |- default [] (list_to_map ?l !! s) = [] => set (lst := l) end.
  destruct (list_to_map lst !! s) as [l|] eqn:Hl; [|done].
  apply elem_of_list_to_map_2 in Hl. unfold lst in Hl.
  rewrite !elem_of_app, !list_elem_of_fmap in Hl. naive_solver.
Qed.

Lemma boot_winv : winv before (clock_init bss).
Proof.
  unfold clock_init, bss; cbn. split; try done.
  - intros s t. rewrite slot_init_timers. by intros ?%elem_of_nil.
  - intros s. rewrite slot_init_timers. constructor.
  - intros s1 s2 t. rewrite slot_init_timers. by intros ?%elem_of_nil.
Qed.

(** Writing to a timer that is not armed. *)
Lemma inactive_winv p w t x' :
  winv p w -> (forall x, timers w !! t = Some x -> active x = false) ->
  active x' = false -> winv p (set_timer w t x').
Proof.
  intros [HT H1 Hi Hs Hnd Hu Ha] Ht Hx'. split; try done; cbn.
  - intros s t' Ht'. destruct (Hs s t' Ht') as (x & Hx & Hax & ?). exists x.
    rewrite lookup_insert_ne; [done|]. intros <-. naive_solver congruence.
  - intros t' x Hx Hax. destruct (decide (t = t')) as [<-|].
    + rewrite lookup_insert_eq in Hx. naive_solver congruence.
    + rewrite lookup_insert_ne in Hx by done. by apply (Ha t' x).
Qed.

(** The outcome of arming [t] for expiry [e]. *)
Definition armed (p : Z -> Z) (w w' : wheel) (t e : Z) (x : timer) : Prop :=
  winv p w' /\ timers w' = <[t := MkTimer true e (handler x) (arg x)]> (timers w) /\
  timer_ticks w' = timer_ticks w /\ ticks w' = ticks w /\ fired w' = fired w.

Lemma detach_attach_armed p w t e x :
  winv p w -> (forall n, p n <= 1) -> timers w !! t = Some x -> 0 <= e < 2 ^ 32 ->
  exists w',
    ('(rc, w) ← detach_timer (set_timer w t (MkTimer (active x) e (handler x) (arg x))) t;
     w ← attach_timer w t; Ok (rc, w)) = Ok (if active x then 1 else 0, w') /\
    armed p w w' t e x.
Proof.
  intros W Hp Hx He. set (x0 := MkTimer (active x) e (handler x) (arg x)).
  set (x1 := MkTimer false e (handler x) (arg x)).
  assert (exists w1, detach_timer (set_timer w t x0) t = Ok (if active x then 1 else 0, w1) /\
    winv p w1 /\ timers w1 = <[t := x1]> (timers w) /\ timer_ticks w1 = timer_ticks w /\
    ticks w1 = ticks w /\ fired w1 = fired w) as (w1 & Hd & W1 & Ht1 & HT1 & Htk1 & Hf1).
  { unfold detach_timer. cbn [timers set_timer]. rewrite lookup_insert_eq.
    cbn [from_opt mbind outcome_bind active x0]. destruct (active x) eqn:Hax; cbn [negb].
    - exists (set_timer (set_vec w (list_del t <$> vec w)) t x1). split_and!; try done.
      + unfold set_timer, set_vec; cbn. by rewrite insert_insert_eq.
      + by apply detached_winv.
    - exists (set_timer w t x1). split_and!; try done.
      apply inactive_winv; naive_solver. }
  rewrite Hd. cbn [mbind outcome_bind].
  destruct (attach_winv p w1 t x1) as (w2 & Ha & W2 & Ht2 & HT2 & Htk2 & Hf2 & _); try done.
  { by rewrite Ht1, lookup_insert_eq. }
  rewrite Ha. exists w2. split; [done|]. split_and!; try done; try congruence.
  rewrite Ht2, Ht1. by rewrite insert_insert_eq.
Qed.

Lemma mod_timer_ok p w t x e :
  winv p w -> (forall n, p n <= 1) -> timers w !! t = Some x ->
  exists w', mod_timer w t e = Ok (if active x then 1 else 0, w') /\
    armed p w w' t (u32 (ticks w + e)) x.
Proof.
  intros W Hp Hx. unfold mod_timer, set_expires. rewrite Hx.
  cbn [from_opt mbind outcome_bind]. apply detach_attach_armed; auto with kernel.
Qed.

(** whatever the state of the wheel, mod_timer succeeds, returns 1 exactly
    when the timer was armed, keeps the wheel well formed and leaves the timer
    armed for tick [ticks + e] (mod 2^32) and every other timer as it was. *)
Theorem mod_timer_arms p w t x e :
  winv p w -> (forall n, p n <= 1) -> timers w !! t = Some x ->
  exists w', mod_timer w t e = Ok (if active x then 1 else 0, w') /\
    armed p w w' t (u32 (ticks w + e)) x.
Proof. apply mod_timer_ok. Qed.

Lemma mod_timer_arms_witness :
  exists w', mod_timer (init_timer (clock_init bss) 7 1 2) 7 300 = Ok (0, w') /\
    armed before (init_timer (clock_init bss) 7 1 2) w' 7 300 (MkTimer false 0 1 2).
Proof.
  apply (mod_timer_arms before (init_timer (clock_init bss) 7 1 2) 7
           (MkTimer false 0 1 2) 300).
  - apply inactive_winv; [apply boot_winv|done|done].
  - done.
  - reflexivity.
Defined.

(** C12: run_timer_list catches up in [ticks - timer_ticks + 1] iterations.  A
    timer armed for one of the ticks processed fires, the first time at exactly
    that tick; any other timer armed less than 2^31 ticks ahead does not fire
    and stays armed for its tick.  The wheel is well formed at the end, so the
    same holds of the next run. *)
Theorem run_timer_list_fires_on_time run `{!HandlerOk run} w k :
  winv before w -> s32 (ticks w - timer_ticks w) = Z.of_nat k ->
  exists N w' log,
    (forall fuel, (N <= fuel)%nat -> run_timer_list run (S k) fuel w = Ok w') /\
    winv before w' /\ timer_ticks w' = u32 (ticks w + 1) /\ fired w' = fired w ++ log /\
    forall t x, timers w !! t = Some x -> active x = true ->
      let d := u32 (expires x - timer_ticks w) in
      d < 2 ^ 31 ->
      if d <=? Z.of_nat k then exists l1 l2, log = l1 ++ (expires x, t) :: l2 /\ t ∉ l1.*2
      else timers w' !! t = Some x /\ t ∉ log.*2.
Proof. by apply run_timer_list_ok. Qed.

(** A wheel 600 ticks behind with timer 7 armed for tick 300 and 8 for 5000. *)
Definition late_wheel : wheel :=
  MkWheel 600 0 ∅ {[(2, 1) := [7]; (2, 19) := [8]]}
    {[7 := MkTimer true 300 1 2; 8 := MkTimer true 5000 1 2]} [].

Lemma late_wheel_slot s : slot late_wheel s =
  if decide (s = (2, 1)) then [7] else if decide (s = (2, 19)) then [8] else [].
Proof.
  unfold slot, late_wheel; cbn [vec]. repeat case_decide; subst; try reflexivity.
  rewrite lookup_insert_ne by done. by rewrite lookup_singleton_ne.
Qed.

Lemma late_wheel_winv : winv before late_wheel.
Proof.
  split; try done; unfold before.
  - intros s t. rewrite late_wheel_slot. repeat case_decide; subst;
      rewrite ?list_elem_of_singleton, ?elem_of_nil; [intros ->..|done];
      (eexists; split; [reflexivity|]; split_and!; cbn; try lia; try done);
      right; vm_compute; intuition congruence.
  - intros s. rewrite late_wheel_slot. repeat case_decide; auto using NoDup_singleton, NoDup_nil_2.
  - intros s1 s2 t. rewrite !late_wheel_slot. repeat case_decide; subst;
      rewrite ?list_elem_of_singleton, ?elem_of_nil; intros; congruence || done.
  - intros t x. unfold late_wheel; cbn [timers]. rewrite lookup_insert_Some, lookup_singleton_Some.
    intros [[<- <-]|[_ [<- <-]]] _; [exists (2, 1)|exists (2, 19)];
      rewrite late_wheel_slot; vm_compute; by left.
Qed.

Lemma run_timer_list_fires_on_time_witness :
  exists N w' log,
    (forall fuel, (N <= fuel)%nat ->
       run_timer_list (fun _ _ w => w) 601 fuel late_wheel = Ok w') /\
    fired w' = log /\ (exists l1 l2, log = l1 ++ (300, 7) :: l2 /\ 7 ∉ l1.*2) /\
    timers w' !! 8 = Some (MkTimer true 5000 1 2) /\ 8 ∉ log.*2.
Proof.
  destruct (run_timer_list_fires_on_time (fun _ _ w => w) late_wheel 600)
    as (N & w' & log & Hrun & _ & _ & Hf & Hall); [apply late_wheel_winv|reflexivity|].
  exists N, w', log. split; [exact Hrun|]. split; [exact Hf|]. split.
  - exact (Hall 7 (MkTimer true 300 1 2) eq_refl eq_refl ltac:(vm_compute; congruence)).
  - exact (Hall 8 (MkTimer true 5000 1 2) eq_refl eq_refl ltac:(vm_compute; congruence)).
Defined.

(** on a timer that is already armed, install_timer rewrites the expiry but
    leaves the timer in the slot of the old one: a timer of [tv1] still fires at
    the old tick, one of a higher vector waits for its slot to be cascaded. *)
Theorem install_timer_active_keeps_slot w t x msec :
  timers w !! t = Some x -> active x = true ->
  exists w', install_timer w t msec = Ok w' /\
    (forall s, slot w' s = slot w s) /\
    timers w' !! t = Some (MkTimer true (u32 (ticks w + msec2ticks msec)) (handler x) (arg x)).
Proof.
  intros Hx Hax. unfold install_timer, set_expires. rewrite Hx.
  cbn [from_opt mbind outcome_bind timers set_timer]. rewrite lookup_insert_eq.
  cbn [from_opt mbind outcome_bind active]. rewrite Hax.
  eexists. split; [done|]. split; [done|]. cbn. by rewrite lookup_insert_eq.
Qed.

(** A timer of [tv1] armed for tick 100 ... *)
Definition near_wheel : wheel :=
  MkWheel 100 0 ∅ {[(1, 100) := [9]]} {[9 := MkTimer true 100 1 2]} [].

(** ... is asked for 4000 ms from tick 100 on and still fires at tick 100. *)
Lemma install_timer_active_keeps_slot_witness :
  (exists w', install_timer near_wheel 9 4000 = Ok w' /\
    (forall s, slot w' s = slot near_wheel s) /\
    timers w' !! 9 = Some (MkTimer true 4100 1 2)) /\
  (w ← install_timer near_wheel 9 4000; w' ← run_timer_list (fun _ _ w => w) 101 2 w;
   Ok (fired w')) = Ok [(100, 9)].
Proof.
  split; [|vm_compute; reflexivity].
  apply (install_timer_active_keeps_slot near_wheel 9 (MkTimer true 100 1 2) 4000);
    reflexivity.
Defined.

(** msec2ticks is exact up to 4294967 ms (71.6 minutes, where the 32-bit
    product overflows) and off for every longer delay; ticks2msec alike. *)
Theorem msec2ticks_exact_iff m :
  0 <= m < 2 ^ 32 ->
  (msec2ticks m = m <-> m <= 4294967) /\ (ticks2msec m = m <-> m <= 4294967) /\
  msec2ticks m <= 4294967.
Proof. intros Hm. unfold msec2ticks, ticks2msec, HZ. divlia. Qed.

Lemma msec2ticks_exact_iff_witness :
  (msec2ticks 4294968 = 4294968 <-> 4294968 <= 4294967) /\
  (ticks2msec 4294968 = 4294968 <-> 4294968 <= 4294967) /\ msec2ticks 4294968 <= 4294967.
Proof. apply (msec2ticks_exact_iff 4294968). lia. Defined.
