(* ===== verification/Clock.v ===== *)
(** * Calendar time (core/driver/char/timer.c, cpu/i386/dev/rtc.c, sys/jicama/kernel.h)

    Conversions between Unix time and calendar dates, and the battery-backed
    clock: set_time breaks a Unix time down and writes it in BCD to the CMOS
    registers; get_unix_time reads them back and recombines them.  The CMOS
    clock is modelled as a register file that holds what was written, between
    two updates of its own; [unsigned long] is 32 bits wide. *)

From S2P Require Import Prelude.

(** struct tm, without the time-zone name, which no code writes. *)
Record tm := MkTm { sec : Z; min : Z; hour : Z; day : Z; month : Z; year : Z;
  dayofweek : Z; yday : Z; isdst : Z; gmtoff : Z }.

Definition MINUTE : Z := 60.
Definition HOUR : Z := MINUTE * 60.
Definition DAY : Z := HOUR * 24.
Definition YEAR : Z := DAY * 365.

(** The static table [month]: seconds before each month of a leap year. *)
Definition month_table : list Z :=
  [0; DAY * 31; DAY * 60; DAY * 91; DAY * 121; DAY * 152; DAY * 182; DAY * 213;
   DAY * 244; DAY * 274; DAY * 305; DAY * 335].

(** [century] is what get_gmtoff reads. *)
Definition to_unix_time (century : Z) (time : tm) : outcome Z :=
  let n := if gmtoff time <? 0 then century else gmtoff time in
  let y := u32 (year time + n * 100 - 1970) in
  let ret := u32 (y * YEAR + DAY * (u32 (y + 1) / 4)) in
  m ← aget month_table (month time - 1);
  let ret := u32 (ret + m) in
  let ret := if (2 <? month time) && negb (u32 (y + 2) mod 4 =? 0)
             then u32 (ret - DAY) else ret in
  let ret := u32 (ret + DAY * (day time - 1)) in
  let ret := u32 (ret + HOUR * hour time) in
  let ret := u32 (ret + MINUTE * min time) in
  Ok (u32 (ret + sec time)).

Definition YEAR0 : Z := 1900.
Definition EPOCH_YR : Z := 1970.
Definition SECS_DAY : Z := 24 * 60 * 60.
Definition LEAPYEAR (y : Z) : bool :=
  (y mod 4 =? 0) && (negb (y mod 100 =? 0) || (y mod 400 =? 0)).
Definition YEARSIZE (y : Z) : Z := if LEAPYEAR y then 366 else 365.
Definition ytab (leap : bool) : list Z :=
  if leap then [31; 29; 31; 30; 31; 30; 31; 31; 30; 31; 30; 31]
  else [31; 28; 31; 30; 31; 30; 31; 31; 30; 31; 30; 31].

(** The two loops of _gmtime. *)
Fixpoint gmtime_years (fuel : nat) (dayno y : Z) : outcome (Z * Z) :=
  if YEARSIZE y <=? dayno then
    match fuel with
    | O => OutOfFuel
    | S fuel => gmtime_years fuel (dayno - YEARSIZE y) (y + 1)
    end
  else Ok (dayno, y).

Fixpoint gmtime_months (fuel : nat) (leap : bool) (dayno m : Z) : outcome (Z * Z) :=
  len ← aget (ytab leap) m;
  if len <=? dayno then
    match fuel with
    | O => OutOfFuel
    | S fuel => gmtime_months fuel leap (dayno - len) (m + 1)
    end
  else Ok (dayno, m).

(** Year, month and day of the month (all as stored) of day [dayno]. *)
Definition gmtime_date (dayno : Z) : outcome (Z * Z * Z) :=
  '(d, y) ← gmtime_years (Z.to_nat (dayno / 365)) dayno EPOCH_YR;
  '(d, m) ← gmtime_months 11 (LEAPYEAR y) d 0;
  Ok (y - YEAR0, m, d + 1).

(** [tmbuf] is the caller's buffer: its [day] keeps the value it had. *)
Definition _gmtime (time : Z) (tmbuf : tm) : outcome tm :=
  let dayclock := time mod SECS_DAY in
  let dayno := time / SECS_DAY in
  '(y, m, d) ← gmtime_date dayno;
  Ok (MkTm (dayclock mod 60) (dayclock mod 3600 / 60) (dayclock / 3600) (day tmbuf) m y
        ((dayno + 4) mod 7) d 0 (gmtoff tmbuf)).

(** unix_time2tm: the last assignment is to [sec] again. *)
Definition unix_time2tm (timeval : Z) (t : tm) : tm :=
  let s := timeval mod 60 in
  let timeval := timeval / 60 in
  let m := timeval mod 60 in
  let timeval := timeval / 60 in
  MkTm (timeval mod 24) m (hour t) (day t) (month t) (year t) (dayofweek t) (yday t)
    (isdst t) (gmtoff t).

(** ** The other conversion: unix_time *)

Definition s16 (x : Z) : Z :=
  let y := x mod 2 ^ 16 in if y <? 2 ^ 15 then y else y - 2 ^ 16.

Definition b2z (b : bool) : Z := if b then 1 else 0.

(** C division truncates: [Z.quot], [Z.rem].  [short] results of the
    subtractions wrap. *)
Definition days_between_dates (start_year start_day end_year end_day : Z) : Z :=
  let start_year := s16 start_year in
  let end_year := s16 end_year in
  let fourcents := s16 (Z.quot end_year 400 - Z.quot start_year 400) in
  let centuries := s16 (Z.quot end_year 100 - Z.quot start_year 100 - fourcents * 4) in
  let fouryears := s16 (Z.quot end_year 4 - Z.quot start_year 4 -
                        fourcents * 100 - centuries * 25) in
  let years := s16 (end_year - start_year - 400 * fourcents - 100 * centuries -
                    4 * fouryears) in
  let days := (365 * 400 + 97) * fourcents in
  let days := days + (365 * 100 + 24) * centuries in
  let days := days + (365 * 4 + 1) * fouryears in
  let days := days + 365 * years in
  let days := days + (end_day - start_day) in
  let days := if (Z.rem end_year 4 =? 0) && (60 <=? end_day)
    then days + 1 - b2z (Z.rem end_year 100 =? 0) + b2z (Z.rem end_year 400 =? 0)
    else days in
  let days := if 0 <=? end_year
    then days + 1 - b2z (Z.rem end_year 4 =? 0) + b2z (Z.rem end_year 100 =? 0)
           - b2z (Z.rem end_year 400 =? 0)
    else days in
  if 0 <? start_year then days - 1 else days.

Definition days_to_date : list Z :=
  [0; 31; 59; 90; 120; 151; 181; 212; 243; 273; 304; 334].

Definition unix_time (year month date hour min sec : Z) : outcome Z :=
  if (11 <? month) || (30 <? date) then Ok 0
  else
    dtd ← aget days_to_date month;
    let day := u16 (date + dtd) in
    let r := u32 (days_between_dates 1970 0 year day) in
    let r := u32 (u32 (r * 24) + hour) in
    let r := u32 (u32 (r * 60) + min) in
    Ok (u32 (u32 (r * 60) + sec)).

(** ** The CMOS clock *)

Definition BCD2BIN (var : Z) : Z := Z.land (Z.shiftr var 4) 15 * 10 + Z.land var 15.
Definition BIN2BCD (var : Z) : Z := Z.shiftl (Z.quot var 10) 4 + Z.rem var 10.

(** The registers, a byte each. *)
Notation cmos := (gmap Z Z).

Definition T_SECOND : Z := 0.
Definition T_MINUTE : Z := 2.
Definition T_HOUR : Z := 4.
Definition T_DAYOFWEEK : Z := 6.
Definition T_DAYOFMONTH : Z := 7.
Definition T_MONTH : Z := 8.
Definition T_YEAR : Z := 9.
Definition T_CENTURY : Z := 50.

Definition cmos_read (c : cmos) (pos : Z) : Z := default 0 (c !! pos).
Definition write_cmos_reg (c : cmos) (reg val : Z) : cmos := <[reg := u8 val]> c.
Definition write_bcd_cmos_reg (c : cmos) (reg val : Z) : cmos :=
  let val := u8 val in
  write_cmos_reg c reg (u8 (Z.shiftl (val / 10) 4 + val mod 10)).

Definition set_cmos_time (c : cmos) (t : tm) : cmos :=
  let c := write_bcd_cmos_reg c 9 (Z.rem (year t) 100) in
  let c := write_bcd_cmos_reg c 50 (Z.quot (year t + 1900) 100) in
  let c := write_bcd_cmos_reg c 8 (month t + 1) in
  let c := write_bcd_cmos_reg c 7 (yday t) in
  let c := write_bcd_cmos_reg c 4 (hour t) in
  let c := write_bcd_cmos_reg c 2 (min t) in
  write_bcd_cmos_reg c 0 (sec t).

(** [tm0] is the uninitialised local of set_time. *)
Definition set_time (tm0 : tm) (c : cmos) (tv_sec : Z) : outcome cmos :=
  t ← _gmtime tv_sec tm0;
  Ok (set_cmos_time c t).

Definition get_gmtoff (c : cmos) : Z := BCD2BIN (cmos_read c T_CENTURY).

Definition get_date (c : cmos) (t : tm) : tm :=
  MkTm (sec t) (min t) (hour t) (BCD2BIN (cmos_read c T_DAYOFMONTH))
    (BCD2BIN (cmos_read c T_MONTH)) (BCD2BIN (cmos_read c T_YEAR))
    (BCD2BIN (cmos_read c T_DAYOFWEEK)) (yday t) (isdst t)
    (BCD2BIN (cmos_read c T_CENTURY)).

Definition get_time (c : cmos) (t : tm) : tm :=
  MkTm (BCD2BIN (cmos_read c T_SECOND)) (BCD2BIN (cmos_read c T_MINUTE))
    (BCD2BIN (cmos_read c T_HOUR)) (day t) (month t) (year t) (dayofweek t) (yday t)
    (isdst t) (gmtoff t).

Definition do_gettime (c : cmos) (t : tm) : tm := get_time c (get_date c t).

Definition get_unix_time (c : cmos) : outcome Z :=
  let t := do_gettime c (MkTm 0 0 0 0 0 0 0 0 0 0) in
  to_unix_time (get_gmtoff c) t.

(** ** Correctness *)

(** Days from 1970-01-01 to January 1 of year [y] in the Gregorian calendar. *)
Definition ydays (y : Z) : Z :=
  365 * (y - 1970) + (y - 1969) / 4 - (y - 1901) / 100 + (y - 1601) / 400.

(** Days of the year before month [m] (from 0). *)
Definition mdays (leap : bool) (m : Z) : Z :=
  foldr Z.add 0 (take (Z.to_nat m) (ytab leap)).

Ltac divlia := Z.to_euclidean_division_equations; lia.

Lemma YEARSIZE_spec y : ydays (y + 1) = ydays y + YEARSIZE y.
Proof.
  unfold ydays, YEARSIZE, LEAPYEAR.
  destruct (Z.eqb_spec (y mod 4) 0), (Z.eqb_spec (y mod 100) 0),
    (Z.eqb_spec (y mod 400) 0); cbn [andb orb negb]; divlia.
Qed.

Lemma YEARSIZE_bounds y : 365 <= YEARSIZE y <= 366.
Proof. unfold YEARSIZE. case_match; lia. Qed.

(** The year loop ends within [n / 365] turns, in the year of day [n]. *)
Lemma gmtime_years_ok fuel : forall n y0,
  0 <= n -> n / 365 <= Z.of_nat fuel ->
  exists d y, gmtime_years fuel n y0 = Ok (d, y) /\ y0 <= y /\
    0 <= d < YEARSIZE y /\ n = ydays y - ydays y0 + d.
Proof.
  induction fuel as [|fuel IH]; intros n y0 Hn Hf; cbn [gmtime_years];
    pose proof (YEARSIZE_bounds y0) as Hy;
    (destruct (Z.leb_spec (YEARSIZE y0) n); [|exists n, y0; split_and!; lia || done]).
  - divlia.
  - destruct (IH (n - YEARSIZE y0) (y0 + 1)) as (d & y & -> & H1 & H2 & H3);
      [lia|divlia|]. exists d, y. split_and!; [done|lia..|].
    pose proof (YEARSIZE_spec y0). lia.
Qed.

(** The month loop, checked on every day of the two kinds of year. *)
Definition month_check (leap : bool) (n : Z) : bool :=
  match gmtime_months 11 leap n 0 with
  | Ok (d, m) => (0 <=? m) && (m <=? 11) && (0 <=? d) && (d <=? 30) && (n =? mdays leap m + d)
  | _ => false
  end.

Lemma month_check_all leap :
  forallb (month_check leap) (seqZ 0 (if leap then 366 else 365)) = true.
Proof. destruct leap; vm_compute; reflexivity. Qed.

Lemma gmtime_months_ok (leap : bool) n :
  0 <= n < (if leap then 366 else 365) ->
  exists d m, gmtime_months 11 leap n 0 = Ok (d, m) /\ 0 <= m <= 11 /\ 0 <= d <= 30 /\
    n = mdays leap m + d.
Proof.
  intros Hn. pose proof (month_check_all leap) as Hall. rewrite forallb_forall in Hall.
  assert (month_check leap n = true) as Hc.
  { apply Hall. rewrite <- list_elem_of_In. apply elem_of_seqZ. case_match; lia. }
  unfold month_check in Hc. destruct (gmtime_months 11 leap n 0) as [[d m]| | |]; try done.
  exists d, m. rewrite !andb_true_iff, !Z.leb_le, Z.eqb_eq in Hc. intuition lia.
Qed.

Lemma gmtime_date_ok n :
  0 <= n -> exists y m d, gmtime_date n = Ok (y - 1900, m, d) /\ 1970 <= y /\ 0 <= m <= 11 /\
    1 <= d <= 31 /\ n = ydays y + mdays (LEAPYEAR y) m + (d - 1) /\ ydays y <= n < ydays (y + 1).
Proof.
  intros Hn. unfold gmtime_date.
  destruct (gmtime_years_ok (Z.to_nat (n / 365)) n EPOCH_YR) as (d & y & -> & Hy & Hd & Heq);
    [done|rewrite Z2Nat.id; [lia|divlia]|]. unfold EPOCH_YR in *.
  cbn [mbind outcome_bind].
  destruct (gmtime_months_ok (LEAPYEAR y) d) as (d' & m & -> & Hm & Hd' & Heq').
  { unfold YEARSIZE in Hd. by destruct (LEAPYEAR y). }
  cbn [mbind outcome_bind]. exists y, m, (d' + 1).
  change (ydays 1970) with 0 in Heq. rewrite YEARSIZE_spec. split_and!; done || lia.
Qed.

Lemma sod_split r :
  0 <= r < 86400 -> 0 <= r / 3600 <= 23 /\ 0 <= r mod 3600 / 60 <= 59 /\ 0 <= r mod 60 <= 59 /\
  r = 3600 * (r / 3600) + 60 * (r mod 3600 / 60) + r mod 60.
Proof.
  intros Hr. assert (r mod 60 = (r mod 3600) mod 60) as -> by divlia.
  pose proof (Z.div_mod r 3600 ltac:(lia)). pose proof (Z.mod_pos_bound r 3600 ltac:(lia)).
  set (q := r / 3600) in *. set (m := r mod 3600) in *. clearbody q m. divlia.
Qed.

(** _gmtime terminates on every 32-bit time and computes the Gregorian
    date: hours, minutes and seconds in range, month from 0, the day of the
    month from 1 -- stored in [yday], while [day] keeps the caller's value --
    whose day and second counts add up to the time. *)
Theorem gmtime_gregorian t buf :
  0 <= t -> exists r, _gmtime t buf = Ok r /\
    let y := year r + 1900 in
    1970 <= y /\ 0 <= month r <= 11 /\ 1 <= yday r <= 31 /\ 0 <= hour r <= 23 /\
    0 <= min r <= 59 /\ 0 <= sec r <= 59 /\ day r = day buf /\
    dayofweek r = (t / 86400 + 4) mod 7 /\
    t = 86400 * (ydays y + mdays (LEAPYEAR y) (month r) + (yday r - 1)) +
        3600 * hour r + 60 * min r + sec r.
Proof.
  intros Ht. unfold _gmtime, SECS_DAY.
  destruct (gmtime_date_ok (t / (24 * 60 * 60))) as (y & m & d & -> & Hy & Hm & Hd & Heq & _);
    [divlia|]. cbn [mbind outcome_bind]. eexists. split; [done|].
  cbn [year month yday hour min sec day dayofweek].
  replace (y - 1900 + 1900) with y by lia. change (24 * 60 * 60) with 86400 in *.
  destruct (sod_split (t mod 86400)) as (? & ? & ? & Hs); [divlia|].
  pose proof (Z.div_mod t 86400 ltac:(lia)).
  rewrite <- Heq. split_and!; done || lia.
Qed.

Lemma gmtime_gregorian_witness :
  exists r, _gmtime 951782400 (MkTm 0 0 0 0 0 0 0 0 0 0) = Ok r /\
    let y := year r + 1900 in
    1970 <= y /\ 0 <= month r <= 11 /\ 1 <= yday r <= 31 /\ 0 <= hour r <= 23 /\
    0 <= min r <= 59 /\ 0 <= sec r <= 59 /\ day r = 0 /\
    dayofweek r = (951782400 / 86400 + 4) mod 7 /\
    951782400 = 86400 * (ydays y + mdays (LEAPYEAR y) (month r) + (yday r - 1)) +
        3600 * hour r + 60 * min r + sec r.
Proof. apply gmtime_gregorian. lia. Defined.

(** BCD registers read back. *)
Lemma bcd_roundtrip v :
  0 <= v <= 99 -> BCD2BIN (u8 (u8 (Z.shiftl (u8 v / 10) 4 + u8 v mod 10))) = v.
Proof.
  intros Hv. assert (forallb (fun v =>
    BCD2BIN (u8 (u8 (Z.shiftl (u8 v / 10) 4 + u8 v mod 10))) =? v) (seqZ 0 100) = true) as Hall
    by (vm_compute; reflexivity).
  rewrite forallb_forall in Hall. apply Z.eqb_eq, Hall. rewrite <- list_elem_of_In.
  apply elem_of_seqZ. lia.
Qed.

Lemma read_write_eq c r v : 0 <= v <= 99 -> BCD2BIN (cmos_read (write_bcd_cmos_reg c r v) r) = v.
Proof.
  intros Hv. unfold cmos_read, write_bcd_cmos_reg, write_cmos_reg.
  rewrite lookup_insert_eq. by apply bcd_roundtrip.
Qed.

Lemma read_write_ne c r r' v :
  r <> r' -> cmos_read (write_bcd_cmos_reg c r v) r' = cmos_read c r'.
Proof. intros. unfold cmos_read, write_bcd_cmos_reg, write_cmos_reg. by rewrite lookup_insert_ne. Qed.

(** The calendar fields set_cmos_time writes are those do_gettime reads. *)
Lemma cmos_roundtrip c t t0 :
  0 <= sec t <= 59 -> 0 <= min t <= 59 -> 0 <= hour t <= 23 -> 1 <= yday t <= 31 ->
  0 <= month t <= 11 -> 0 <= year t < 8100 ->
  do_gettime (set_cmos_time c t) t0 =
    MkTm (sec t) (min t) (hour t) (yday t) (month t + 1) (year t mod 100)
      (BCD2BIN (cmos_read c T_DAYOFWEEK)) (yday t0) (isdst t0) ((year t + 1900) / 100).
Proof.
  intros. unfold do_gettime, get_time, get_date.
  cbn [day month year dayofweek yday isdst gmtoff sec min hour].
  unfold set_cmos_time. rewrite Z.rem_mod_nonneg, Z.quot_div_nonneg by lia.
  f_equal; rewrite ?read_write_ne by done; try (apply read_write_eq; divlia); done.
Qed.

(** Until 2100 every fourth year is a leap year, as to_unix_time has it. *)
Lemma ydays_julian y : 1970 <= y <= 2100 -> ydays y = 365 * (y - 1970) + (y - 1969) / 4.
Proof. intros. unfold ydays. divlia. Qed.

Lemma LEAPYEAR_julian y : 1970 <= y <= 2099 -> LEAPYEAR y = (y mod 4 =? 0).
Proof.
  intros. unfold LEAPYEAR.
  destruct (Z.eqb_spec (y mod 4) 0), (Z.eqb_spec (y mod 100) 0),
    (Z.eqb_spec (y mod 400) 0); cbn [andb orb negb]; divlia.
Qed.

(** The month table against the calendar's. *)
Lemma month_table_mdays leap m :
  0 <= m <= 11 -> aget month_table m =
    Ok (DAY * (mdays leap m + (if (2 <=? m) && negb leap then 1 else 0))).
Proof.
  intros Hm. assert (m ∈ seqZ 0 12) as Hin by (apply elem_of_seqZ; lia).
  assert (forallb (fun m => bool_decide (aget month_table m =
    Ok (DAY * (mdays leap m + (if (2 <=? m) && negb leap then 1 else 0))))) (seqZ 0 12) = true)
    as Hall by (destruct leap; vm_compute; reflexivity).
  rewrite forallb_forall in Hall. specialize (Hall m). rewrite <- list_elem_of_In in Hall.
  by apply Hall, bool_decide_eq_true in Hin.
Qed.

Lemma mdays_bounds leap m : 0 <= mdays leap m <= 366.
Proof.
  unfold mdays. generalize (Z.to_nat m) as n. intros n.
  do 12 (destruct n as [|n]; [destruct leap; vm_compute; split; congruence|]).
  rewrite take_ge by (destruct leap; cbn; lia). destruct leap; vm_compute; split; congruence.
Qed.

Lemma to_unix_time_ok century t :
  0 <= gmtoff t -> let y := year t + gmtoff t * 100 in 1970 <= y <= 2099 ->
  1 <= month t <= 12 -> 1 <= day t <= 31 -> 0 <= hour t <= 23 -> 0 <= min t <= 59 ->
  0 <= sec t <= 59 ->
  to_unix_time century t = Ok (86400 * (ydays y + mdays (LEAPYEAR y) (month t - 1) + (day t - 1))
    + 3600 * hour t + 60 * min t + sec t).
Proof.
  intros Hg y Hy Hm Hd Hh Hmi Hs. unfold to_unix_time.
  destruct (Z.ltb_spec (gmtoff t) 0); [lia|].
  replace (year t + gmtoff t * 100 - 1970) with (y - 1970) by lia.
  rewrite (u32_small (y - 1970)), (u32_small (y - 1970 + 1)), (u32_small (y - 1970 + 2)) by lia.
  rewrite (month_table_mdays (LEAPYEAR y)) by lia. cbn [mbind outcome_bind]. f_equal.
  pose proof (mdays_bounds (LEAPYEAR y) (month t - 1)) as Hb.
  rewrite LEAPYEAR_julian, ydays_julian in * by lia. clearbody y.
  replace (y - 1970 + 1) with (y - 1969) by lia.
  assert ((y - 1970 + 2) mod 4 = y mod 4) as -> by divlia.
  assert (0 <= (y - 1969) / 4 <= 32) by divlia. set (q := (y - 1969) / 4) in *. clearbody q.
  set (md := mdays _ _) in *. clearbody md. unfold YEAR, DAY, HOUR, MINUTE in *.
  replace (2 <? month t) with (2 <=? month t - 1) by
    (destruct (Z.ltb_spec 2 (month t)), (Z.leb_spec 2 (month t - 1)); lia).
  destruct ((2 <=? month t - 1) && negb (y mod 4 =? 0));
    repeat match goal with |- context [u32 ?a] =>
      lazymatch a with context [u32 _] => fail | _ => rewrite (u32_small a) by lia end end;
    lia.
Qed.

(** C37: the battery-backed clock keeps the time: whatever the registers and the
    stack held before, set_time succeeds and get_unix_time then reads the time
    set, for every time before 2100-01-01; on 2100-03-01, not a leap year, it
    reads one day more. *)
Theorem set_time_get_unix_time c tm0 t :
  0 <= t < 4102444800 ->
  (exists c', set_time tm0 c t = Ok c' /\ get_unix_time c' = Ok t) /\
  (c' ← set_time tm0 c 4107542400; get_unix_time c') = Ok (4107542400 + 86400).
Proof.
  intros Ht. split.
  - unfold set_time, _gmtime, SECS_DAY. change (24 * 60 * 60) with 86400.
    destruct (gmtime_date_ok (t / 86400)) as (y & m & d & -> & Hy & Hm & Hd & Heq & Hyy);
      [divlia|]. cbn [mbind outcome_bind]. eexists. split; [done|].
    assert (y <= 2099) as Hy'.
    { assert (t / 86400 < ydays 2100) by (change (ydays 2100) with 47482; divlia).
      assert (2100 <= y -> ydays 2100 <= ydays y) by (unfold ydays; divlia). lia. }
    destruct (sod_split (t mod 86400)) as (? & ? & ? & Hs); [divlia|].
    unfold get_unix_time. rewrite cmos_roundtrip;
      cbn [sec min hour day month year yday gmtoff dayofweek isdst]; try lia.
    rewrite to_unix_time_ok; cbn [sec min hour day month year yday gmtoff];
      replace (y - 1900 + 1900) with y by lia; [|divlia..].
    assert ((y - 1900) mod 100 + y / 100 * 100 = y) as -> by divlia.
    replace (m + 1 - 1) with m by lia. f_equal.
    pose proof (Z.div_mod t 86400 ltac:(lia)). rewrite <- Heq. lia.
  - unfold set_time, _gmtime. change (gmtime_date (4107542400 / SECS_DAY)) with
      (gmtime_date 47541). assert (gmtime_date 47541 = Ok (200, 2, 1)) as -> by (vm_compute; done).
    cbn [mbind outcome_bind]. unfold get_unix_time. rewrite cmos_roundtrip;
      cbn [sec min hour day month year yday gmtoff dayofweek isdst];
      [vm_compute; reflexivity|vm_compute; split; congruence..].
Qed.

Lemma set_time_get_unix_time_witness :
  (exists c', set_time (MkTm 9 9 9 9 9 9 9 9 9 9) {[6 := 3]} 1234567890 = Ok c' /\
     get_unix_time c' = Ok 1234567890) /\
  (c' ← set_time (MkTm 9 9 9 9 9 9 9 9 9 9) {[6 := 3]} 4107542400; get_unix_time c') =
    Ok (4107542400 + 86400).
Proof. apply set_time_get_unix_time. lia. Defined.

Lemma s16_small x : - 2 ^ 15 <= x < 2 ^ 15 -> s16 x = x.
Proof.
  intros Hx. unfold s16. destruct (Z.ltb_spec (x mod 2 ^ 16) (2 ^ 15));
    Z.to_euclidean_division_equations; lia.
Qed.

(** Days between 1970-01-01 and day [d] of year [y] as days_between_dates
    counts them, [d] taken from a year without February 29. *)
Lemma days_between_dates_ok y d :
  1970 <= y <= 2099 -> 0 <= d <= 364 ->
  days_between_dates 1970 0 y d = ydays y + d + (if LEAPYEAR y && (60 <=? d) then 1 else 0).
Proof.
  intros Hy Hd. rewrite ydays_julian, LEAPYEAR_julian by lia. unfold days_between_dates.
  rewrite (s16_small 1970), (s16_small y) by lia.
  rewrite !Z.rem_mod_nonneg, !Z.quot_div_nonneg by lia.
  change (1970 / 400) with 4. change (1970 / 100) with 19. change (1970 / 4) with 492.
  assert (y / 400 = (if y <? 2000 then 4 else 5)) as -> by (case_match eqn:E; divlia).
  assert (y / 100 = (if y <? 2000 then 19 else 20)) as -> by (case_match eqn:E; divlia).
  assert ((y mod 100 =? 0) = (y =? 2000)) as ->
    by (destruct (Z.eqb_spec (y mod 100) 0), (Z.eqb_spec y 2000); divlia).
  assert ((y mod 400 =? 0) = (y =? 2000)) as ->
    by (destruct (Z.eqb_spec (y mod 400) 0), (Z.eqb_spec y 2000); divlia).
  pose proof (Z.div_mod y 4 ltac:(lia)) as Hdm. pose proof (Z.mod_pos_bound y 4 ltac:(lia)).
  assert ((y - 1969) / 4 = y / 4 - 493 + (if y mod 4 =? 0 then 0 else 1)) as ->
    by (destruct (Z.eqb_spec (y mod 4) 0); divlia).
  set (q := y / 4) in *. set (r := y mod 4) in *. clearbody q r.
  destruct (Z.ltb_spec y 2000); rewrite !s16_small by (rewrite ?s16_small by lia; lia);
    destruct (Z.eqb_spec r 0), (Z.eqb_spec y 2000), (Z.leb_spec 60 d), (Z.leb_spec 0 y);
    cbn [andb b2z Z.ltb Z.compare]; lia.
Qed.

Lemma days_to_date_mdays leap m :
  0 <= m <= 11 -> exists v, aget days_to_date m = Ok v /\ 0 <= v <= 334 /\
    mdays leap m = v + (if leap && (2 <=? m) then 1 else 0) /\
    (m = 0 -> v = 0) /\ (m = 1 -> v = 31) /\ (m = 2 -> v = 59) /\ (2 < m -> 90 <= v).
Proof.
  intros Hm. assert (exists n : nat, m = Z.of_nat n /\ (n < 12)%nat) as (n & -> & Hn)
    by (exists (Z.to_nat m); lia).
  do 12 (destruct n as [|n]; [eexists; split; [reflexivity|];
    destruct leap; (split; [lia|]); (split; [reflexivity|lia])|]). lia.
Qed.

(** unix_time, with month and date counted from 0, is the Gregorian count
    of seconds for every date of 1970 .. 2099 except March 1 of a leap year,
    which it puts on February 29; with a month above 11 or a date above 30 it
    returns 0. *)
Theorem unix_time_march_1 y m d h mi s :
  1970 <= y <= 2099 -> 0 <= m <= 11 -> 0 <= d <= 30 -> 
  (exists len, ytab (LEAPYEAR y) !! Z.to_nat m = Some len /\ d < len) ->
  0 <= h <= 23 -> 0 <= mi <= 59 -> 0 <= s <= 59 ->
  unix_time y m d h mi s =
    Ok (86400 * (ydays y + mdays (LEAPYEAR y) m + d
                 - (if LEAPYEAR y && (m =? 2) && (d =? 0) then 1 else 0))
        + 3600 * h + 60 * mi + s) /\
  (forall m' d', 11 < m' \/ 30 < d' -> unix_time y m' d' h mi s = Ok 0).
Proof.
  intros Hy Hm Hd Hlen Hh Hmi Hs. split; cycle 1.
  { intros m' d' Hbad. unfold unix_time.
    destruct (Z.ltb_spec 11 m'), (Z.ltb_spec 30 d'); done || lia. }
  unfold unix_time. destruct (Z.ltb_spec 11 m), (Z.ltb_spec 30 d); try lia. cbn [orb].
  destruct (days_to_date_mdays (LEAPYEAR y) m Hm) as (v & -> & Hv & -> & Hv0 & Hv1 & Hv2 & Hv3).
  cbn [mbind outcome_bind].
  assert (m = 1 -> d <= 28) as Hfeb.
  { intros ->. destruct Hlen as (len & Hlen & Hd'). destruct (LEAPYEAR y);
      injection Hlen as <-; lia. }
  unfold u16. rewrite (Z.mod_small (d + v)) by lia.
  rewrite days_between_dates_ok by lia.
  assert (0 <= ydays y <= 47117) as Hyd.
  { rewrite ydays_julian by lia. divlia. }
  assert (ydays y + (d + v) + (if LEAPYEAR y && (60 <=? d + v) then 1 else 0) =
    ydays y + (v + (if LEAPYEAR y && (2 <=? m) then 1 else 0)) + d
    - (if LEAPYEAR y && (m =? 2) && (d =? 0) then 1 else 0)) as ->.
  { destruct (LEAPYEAR y); cbn [andb]; [|lia].
    destruct (Z.leb_spec 60 (d + v)), (Z.leb_spec 2 m), (Z.eqb_spec m 2), (Z.eqb_spec d 0);
      cbn [andb]; lia. }
  set (n := _ + d - _). assert (0 <= n <= 47117 + 366) as Hn.
  { unfold n. destruct (LEAPYEAR y), (Z.leb_spec 2 m), (Z.eqb_spec m 2), (d =? 0);
      cbn [andb]; lia. }
  clearbody n. f_equal.
  repeat match goal with |- context [u32 ?a] =>
    lazymatch a with context [u32 _] => fail | _ => rewrite (u32_small a) by lia end end.
  lia.
Qed.

(** 2024-03-01 comes out as 2024-02-29. *)
Lemma unix_time_march_1_witness :
  unix_time 2024 2 0 12 0 0 =
    Ok (86400 * (ydays 2024 + mdays (LEAPYEAR 2024) 2 + 0 - 1) + 3600 * 12 + 60 * 0 + 0) /\
  (forall m' d', 11 < m' \/ 30 < d' -> unix_time 2024 m' d' 12 0 0 = Ok 0).
Proof.
  apply (unix_time_march_1 2024 2 0 12 0 0); try lia.
  exists 31. split; [reflexivity|lia].
Defined.
