(* ===== verification/Heap.v ===== *)
(** * Kernel heap (core/mm/vm.c, sys/arch/x86/paging.h)

    A heap is a run of pages carved from the bottom up ([heap_base_ptr]) into
    chunks, each owned by one of the size classes ([bins]); a table with one
    [heap_page] per page, at the start of the heap's memory, says which.  Freed
    blocks are threaded, through their first word, on the free list of their
    bin.  [mem] is the words of memory the lists run through.  Writes through a
    NULL page pointer, which raw_alloc makes when the heap is exhausted, are
    faults.  The messages the code prints are left out, the spin lock too. *)

From S2P Require Import Prelude.

Definition PAGE_SIZE : Z := 4096.
Definition PAGE_ALIGN (x : Z) : Z := Z.land (u32 (x + (PAGE_SIZE - 1))) (Z.lnot (PAGE_SIZE - 1)).
Definition ALIGN (x : Z) : Z := Z.land (u32 (x + 3)) (Z.lnot 3).

(** Bit fields of 5, 9, 2 and 16 bits. *)
Record heap_page := MkPage { bin_index : Z; free_items : Z; cleaning : Z; in_use : Z }.

Record heap_bin := MkBin { element_size : Z; grow_size : Z; alloc_count : Z;
  free_list : Z; free_count : Z; raw_list : Z; raw_count : Z }.

(** [heap_alloc_table] is the memory at the start of the heap, as an array. *)
Record heap_list := MkHeap {
  heap_alloc_table : list heap_page;
  heap_base_ptr : Z; user_base_ptr : Z; heap_base : Z; heap_size : Z; mode : Z;
  bins : list heap_bin; BIN_COUNT : Z }.

Notation memory := (gmap Z Z).
Definition load (m : memory) (a : Z) : Z := default 0 (m !! a).

Definition new_bin (eg : Z * Z) : heap_bin := MkBin eg.1 eg.2 0 0 0 0 0.

Definition kbins : list heap_bin := new_bin <$>
  [(16, PAGE_SIZE); (32, PAGE_SIZE); (64, PAGE_SIZE); (128, PAGE_SIZE); (256, PAGE_SIZE);
   (512, PAGE_SIZE); (1024, PAGE_SIZE); (2048, PAGE_SIZE); (PAGE_SIZE, PAGE_SIZE);
   (0x1000, 0x1000); (0x2000, 0x2000); (0x3000, 0x3000); (0x4000, 0x4000);
   (0x5000, 0x5000); (0x6000, 0x6000); (0x7000, 0x7000); (0x8000, 0x8000);
   (0x9000, 0x9000); (0xa000, 0xa000); (0xb000, 0xb000); (0xc000, 0xc000);
   (0xd000, 0xd000); (0xe000, 0xe000); (0xf000, 0xf000); (0x10000, 0x10000);
   (0x100000, 0x100000); (0x200000, 0x200000); (0x400000, 0x400000)].

Definition ubins : list heap_bin := new_bin <$>
  [(128, PAGE_SIZE); (256, PAGE_SIZE); (512, PAGE_SIZE); (1024, PAGE_SIZE);
   (2048, PAGE_SIZE); (PAGE_SIZE, PAGE_SIZE);
   (0x1000, 0x1000); (0x2000, 0x2000); (0x3000, 0x3000); (0x4000, 0x4000);
   (0x5000, 0x5000); (0x6000, 0x6000); (0x7000, 0x7000); (0x8000, 0x8000);
   (0x9000, 0x9000); (0xa000, 0xa000); (0xb000, 0xb000); (0xc000, 0xc000);
   (0xd000, 0xd000); (0xe000, 0xe000); (0xf000, 0xf000); (0x10000, 0x10000);
   (0x100000, 0x100000); (0x200000, 0x200000); (0x300000, 0x300000);
   (0x400000, 0x400000)].

Definition set_table (h : heap_list) (t : list heap_page) : heap_list :=
  MkHeap t (heap_base_ptr h) (user_base_ptr h) (heap_base h) (heap_size h) (mode h)
    (bins h) (BIN_COUNT h).
Definition set_bins (h : heap_list) (b : list heap_bin) : heap_list :=
  MkHeap (heap_alloc_table h) (heap_base_ptr h) (user_base_ptr h) (heap_base h)
    (heap_size h) (mode h) b (BIN_COUNT h).
Definition set_base_ptr (h : heap_list) (p : Z) : heap_list :=
  MkHeap (heap_alloc_table h) p (user_base_ptr h) (heap_base h) (heap_size h) (mode h)
    (bins h) (BIN_COUNT h).

(** The table is zeroed for the [heap_size / PAGE_SIZE] pages it describes. *)
Definition heap_init (h : heap_list) (kernel_addr logical_addr new_heap_size kernel_mode : Z)
    : heap_list :=
  let page_entries := PAGE_SIZE / 4 in
  let new := if kernel_mode =? 0 then ubins else kbins in
  let size := u32 (new_heap_size - PAGE_SIZE) in
  let base := u32 (logical_addr + PAGE_ALIGN (size / page_entries)) in
  MkHeap (replicate (Z.to_nat (size / PAGE_SIZE)) (MkPage 0 0 0 0))
    base logical_addr base size kernel_mode
    (new ++ drop (length new) (bins h)) (Z.of_nat (length new)).

(** The index in the table, or NULL. *)
Definition get_page_cb (h : heap_list) (address : Z) : option Z :=
  if (address <? heap_base h) || (u32 (heap_base h + heap_size h) <=? address) then None
  else Some ((address - heap_base h) / PAGE_SIZE).

(** raw_alloc's loop over the pages of the new chunk. *)
Fixpoint raw_mark (fuel : nat) (h : heap_list) (index addr new_heap_ptr : Z)
    : outcome heap_list :=
  if addr <? new_heap_ptr then
    match fuel with
    | O => OutOfFuel
    | S fuel =>
        i ← from_opt (get_page_cb h addr);
        page ← aget (heap_alloc_table h) i;
        b ← aget (bins h) index;
        let items := if (index <? BIN_COUNT h) && (element_size b <? PAGE_SIZE)
                     then PAGE_SIZE / element_size b else 1 in
        t ← aset (heap_alloc_table h) i (MkPage (index mod 2 ^ 5) (items mod 2 ^ 9)
                                           (cleaning page) 0);
        raw_mark fuel (set_table h t) index (u32 (addr + PAGE_SIZE)) new_heap_ptr
    end
  else Ok h.

(** The loop has at most [size / PAGE_SIZE + 1] turns: an overgrown heap is
    reported but not refused. *)
Definition raw_alloc (h : heap_list) (size index : Z) : outcome (Z * heap_list) :=
  let new_heap_ptr := u32 (heap_base_ptr h + PAGE_ALIGN size) in
  let retval := heap_base_ptr h in
  h ← raw_mark (Z.to_nat (size / PAGE_SIZE + 1)) h index (heap_base_ptr h) new_heap_ptr;
  Ok (retval, set_base_ptr h new_heap_ptr).

(** The first of the first [BIN_COUNT] bins that fits, or [BIN_COUNT]. *)
Fixpoint find_bin (l : list heap_bin) (size : Z) : Z :=
  match l with
  | [] => 0
  | b :: l => if size <=? element_size b then 0 else 1 + find_bin l size
  end.

(** [page[i].free_items--; page[i].in_use++] for [n] pages from [i] on. *)
Fixpoint take_pages (n : nat) (t : list heap_page) (i : Z) : outcome (list heap_page) :=
  match n with
  | O => Ok t
  | S n =>
      p ← aget t i;
      t ← aset t i (MkPage (bin_index p) ((free_items p - 1) mod 2 ^ 9) (cleaning p)
                      ((in_use p + 1) mod 2 ^ 16));
      take_pages n t (i + 1)
  end.

(** The choice of an address: from the free list, else from the raw chunk of
    the bin, growing the heap when that is empty. *)
Definition bin_take (h : heap_list) (m : memory) (idx : Z) : outcome (Z * heap_list) :=
  b ← aget (bins h) idx;
  if negb (free_list b =? 0) then
    let b' := MkBin (element_size b) (grow_size b) (alloc_count b) (load m (free_list b))
                (u32 (free_count b - 1)) (raw_list b) (raw_count b) in
    l ← aset (bins h) idx b';
    Ok (free_list b, set_bins h l)
  else
    '(rl, rc, h) ← (if raw_count b =? 0 then
        '(p, h) ← raw_alloc h (grow_size b) idx;
        Ok (p, grow_size b / element_size b, h)
      else Ok (raw_list b, raw_count b, h));
    let b' := MkBin (element_size b) (grow_size b) (alloc_count b) (free_list b)
                (free_count b) (u32 (rl + element_size b)) (u32 (rc - 1)) in
    l ← aset (bins h) idx b';
    Ok (rl, set_bins h l).

Definition kcache_alloc (h : heap_list) (m : memory) (size : Z) : outcome (Z * heap_list) :=
  let idx := find_bin (take (Z.to_nat (BIN_COUNT h)) (bins h)) size in
  if idx =? BIN_COUNT h then Ok (NULL, h)
  else
    '(address, h) ← bin_take h m idx;
    b ← aget (bins h) idx;
    l ← aset (bins h) idx (MkBin (element_size b) (grow_size b) (u32 (alloc_count b + 1))
           (free_list b) (free_count b) (raw_list b) (raw_count b));
    let h := set_bins h l in
    match get_page_cb h address with
    | None => Ok (NULL, h)
    | Some i =>
        t ← take_pages (Z.to_nat (1 `max` (element_size b / PAGE_SIZE))) (heap_alloc_table h) i;
        Ok (address, set_table h t)
    end.

Definition slab_malloc_specifier (h : heap_list) (m : memory) (address size : Z)
    : outcome (Z * heap_list) := kcache_alloc h m size.

(** slab_free's loop over the pages of the block: drops one use of each page
    still used, and tells whether none is left in use. *)
Fixpoint drop_pages (n : nat) (t : list heap_page) (i : Z) (need_release : bool)
    : outcome (list heap_page * bool) :=
  match n with
  | O => Ok (t, need_release)
  | S n =>
      p ← aget t i;
      if in_use p =? 0 then drop_pages n t (i + 1) need_release
      else
        let p' := MkPage (bin_index p)
                    (if in_use p =? 1 then (free_items p + 1) mod 2 ^ 9 else free_items p)
                    (cleaning p) (in_use p - 1) in
        t ← aset t i p';
        drop_pages n t (i + 1) (need_release && (in_use p =? 1))
  end.

(** [user_space] translates the address the link is written at. *)
Definition slab_free (h : heap_list) (m : memory) (address user_space : Z)
    : outcome (Z * heap_list * memory) :=
  if address =? NULL then Ok (-1, h, m)
  else
    match get_page_cb h address with
    | None => Ok (-1, h, m)
    | Some i =>
        page ← aget (heap_alloc_table h) i;
        b ← aget (bins h) (bin_index page);
        '(t, need_release) ← drop_pages (Z.to_nat (element_size b / PAGE_SIZE))
                               (heap_alloc_table h) i true;
        let h := set_table h t in
        if negb need_release then Ok (0, h, m)
        else
          l ← aset (bins h) (bin_index page)
                (MkBin (element_size b) (grow_size b) (u32 (alloc_count b - 1)) address
                   (u32 (free_count b + 1)) (raw_list b) (raw_count b));
          Ok (1, set_bins h l, <[u32 (address + user_space) := free_list b]> m)
    end.

Definition slab_get_size (h : heap_list) (address : Z) : outcome Z :=
  if address =? NULL then Ok 0
  else
    match get_page_cb h address with
    | None => Ok 0
    | Some i =>
        page ← aget (heap_alloc_table h) i;
        b ← aget (bins h) (bin_index page);
        Ok (element_size b)
    end.

(** ** The kernel's heap: kernel_heap_list and the memory *)

Record kheap := MkK { kernel_heap_list : heap_list; kmem : memory }.

Definition zero_heap : heap_list :=
  MkHeap [] 0 0 0 0 0 (replicate 32 (MkBin 0 0 0 0 0 0 0)) 0.

Definition kernel_heap_init (k : kheap) (kernel_addr new_heap_size : Z) : kheap :=
  MkK (heap_init zero_heap kernel_addr kernel_addr new_heap_size 1) (kmem k).

(** SLAB_ATOMIC, SLAB_GETPAGE and the default do the same. *)
Definition kmalloc (k : kheap) (size flag : Z) : outcome (Z * kheap) :=
  '(a, h) ← kcache_alloc (kernel_heap_list k) (kmem k) size;
  Ok (a, MkK h (kmem k)).

Definition ksize (k : kheap) (address : Z) : outcome Z :=
  slab_get_size (kernel_heap_list k) address.

Definition kfree (k : kheap) (address : Z) : outcome (Z * kheap) :=
  '(rc, h, m) ← slab_free (kernel_heap_list k) (kmem k) address 0;
  Ok (rc, MkK h m).

Definition mm_malloc (k : kheap) (clicks : Z) : outcome (Z * kheap) := kmalloc k clicks 0.
Definition mm_free (k : kheap) (base clicks : Z) : outcome kheap :=
  '(_, k) ← kfree k base; Ok k.

(** kcalloc's loop [while (q > p) *--q = 0] over the [n] words below [q]. *)
Fixpoint zero_down (n : nat) (m : memory) (q : Z) : memory :=
  match n with
  | O => m
  | S n => zero_down n (<[q - 4 := 0]> m) (q - 4)
  end.

Definition kcalloc (k : kheap) (elsize : Z) : outcome (Z * kheap) :=
  let size := ALIGN elsize in
  '(p, k) ← mm_malloc k size;
  if p =? NULL then Ok (NULL, k)
  else Ok (p, MkK (kernel_heap_list k) (zero_down (Z.to_nat (size / 4)) (kmem k) (p + size))).

(** ** Heaps of processes; [base] is the base of the process's data segment *)

Definition user_malloc (h : heap_list) (m : memory) (size flag : Z) : outcome (Z * heap_list) :=
  kcache_alloc h m size.
Definition user_specifier_malloc (h : heap_list) (m : memory) (address size : Z)
    : outcome (Z * heap_list) := slab_malloc_specifier h m address size.
Definition user_free (base : Z) (h : heap_list) (m : memory) (address : Z)
    : outcome (Z * heap_list * memory) := slab_free h m address base.
Definition user_heap_init (base : Z) (h : heap_list) (logical_addr new_heap_size : Z)
    : heap_list :=
  heap_init h (u32 (base + logical_addr)) logical_addr new_heap_size 0.

(** ** Invariant *)

Section Invariant.
(** Element and chunk sizes of the bins. *)
Context (sizes : list (Z * Z)).

Definition esize (i : Z) : Z := match sizes !! Z.to_nat i with Some s => s.1 | None => 0 end.
Definition gsize (i : Z) : Z := match sizes !! Z.to_nat i with Some s => s.2 | None => 0 end.
Definition is_bin (i : Z) : Prop := 0 <= i < Z.of_nat (length sizes).

(** Small elements divide a page; the others are a whole number of pages. *)
Definition size_ok (s : Z * Z) : Prop :=
  (16 <= s.1 < 4096 /\ 4096 mod s.1 = 0 /\ s.2 = 4096) \/
  (4096 <= s.1 <= 2 ^ 22 /\ s.1 mod 4096 = 0 /\ s.2 = s.1).

(** The blocks carved so far, with their bins; those in use; the free lists. *)
Context (blk : Z -> option Z) (live : gset Z) (fl : Z -> list Z).

(** A free list, through memory. *)
Fixpoint chain (m : memory) (p : Z) (l : list Z) : Prop :=
  match l with
  | [] => p = 0
  | a :: l => p = a /\ a <> 0 /\ chain m (load m a) l
  end.

Definition disjoint_from (a n b k : Z) : Prop := a + n <= b \/ b + k <= a.

Definition page_of (h : heap_list) (a : Z) : Z := (a - heap_base h) / 4096.

(** Pages the table has for a block of bin [i]. *)
Definition npages (i : Z) : Z := 1 `max` (esize i / 4096).

(** The geometry: where the blocks are, and that the table knows their bins. *)
Record geom (h : heap_list) : Prop := {
  ge_base : 0 < heap_base h /\ heap_base h mod 4096 = 0;
  ge_ptr : heap_base h <= heap_base_ptr h <= heap_base h + heap_size h /\
    heap_base_ptr h mod 4096 = 0;
  ge_end : heap_base h + heap_size h < 2 ^ 32 - 2 ^ 23;
  ge_table : heap_size h / 4096 = Z.of_nat (length (heap_alloc_table h));
  ge_count : BIN_COUNT h = Z.of_nat (length sizes);
  ge_blk : forall a i, blk a = Some i -> is_bin i /\ heap_base h <= a /\
    a + esize i <= heap_base_ptr h /\ a mod (4096 `min` esize i) = 0;
  ge_page : forall a i k, blk a = Some i -> 0 <= k < npages i ->
    exists p, aget (heap_alloc_table h) (page_of h a + k) = Ok p /\ bin_index p = i;
  ge_sep : forall a i b j, blk a = Some i -> blk b = Some j -> a <> b ->
    disjoint_from a (esize i) b (esize j) }.

(** A bin: its sizes, its free list, and what is left of its last chunk. *)
Record bin_ok (m : memory) (i : Z) (b : heap_bin) : Prop := {
  bo_esize : element_size b = esize i;
  bo_gsize : grow_size b = gsize i;
  bo_chain : chain m (free_list b) (fl i);
  bo_free : forall a, a ∈ fl i -> blk a = Some i /\ a ∉ live;
  bo_nodup : NoDup (fl i);
  bo_count : 0 <= raw_count b /\ (4096 <= esize i -> raw_count b = 0);
  bo_raw : forall k, 0 <= k < raw_count b ->
    blk (raw_list b + k * esize i) = Some i /\ raw_list b + k * esize i ∉ live /\
    raw_list b + k * esize i ∉ fl i }.

Record hinv (h : heap_list) (m : memory) : Prop := {
  hi_geom : geom h;
  hi_bins : forall i, is_bin i -> exists b, aget (bins h) i = Ok b /\ bin_ok m i b;
  hi_live : forall a, a ∈ live -> exists i, blk a = Some i;
  hi_used : forall a i k, blk a = Some i -> 4096 <= esize i -> 0 <= k < npages i ->
    exists p, aget (heap_alloc_table h) (page_of h a + k) = Ok p /\
      in_use p = (if bool_decide (a ∈ live) then 1 else 0) }.
End Invariant.

Section Proofs.
Context (sizes : list (Z * Z)).
Hypothesis Hsizes : Forall size_ok sizes.
Hypothesis Hlen : (length sizes <= 32)%nat.

Notation esize := (esize sizes).
Notation gsize := (gsize sizes).
Notation is_bin := (is_bin sizes).
Notation npages := (npages sizes).

Lemma bin_size_ok i : is_bin i -> size_ok (esize i, gsize i).
Proof.
  intros Hi. unfold Heap.is_bin in Hi. unfold Heap.esize, Heap.gsize.
  destruct (lookup_lt_is_Some_2 sizes (Z.to_nat i)) as [[e g] Hs]; [lia|]. rewrite Hs.
  by apply (Forall_lookup_1 _ _ _ _ Hsizes Hs).
Qed.

(** *** The page table *)

(** [f] on [n] pages from [i] on: the common shape of the loops over pages. *)
Fixpoint upd_range (f : heap_page -> heap_page) (n : nat) (t : list heap_page) (i : Z)
    : outcome (list heap_page) :=
  match n with
  | O => Ok t
  | S n => p ← aget t i; t ← aset t i (f p); upd_range f n t (i + 1)
  end.

Definition in_range (i n j : Z) : bool := (i <=? j) && (j <? i + n).

Lemma in_range_spec i n j : in_range i n j = true <-> i <= j < i + n.
Proof. unfold in_range. rewrite andb_true_iff, Z.leb_le, Z.ltb_lt. done. Qed.

Lemma in_range_S i n j :
  in_range i (Z.of_nat (S n)) j = bool_decide (i = j) || in_range (i + 1) (Z.of_nat n) j.
Proof.
  unfold in_range. case_bool_decide; destruct (Z.leb_spec i j), (Z.leb_spec (i + 1) j),
    (Z.ltb_spec j (i + Z.of_nat (S n))), (Z.ltb_spec j (i + 1 + Z.of_nat n)); done || lia.
Qed.

Lemma upd_range_ok f n : forall t i,
  0 <= i -> i + Z.of_nat n <= Z.of_nat (length t) ->
  exists t', upd_range f n t i = Ok t' /\ length t' = length t /\
    forall j p, aget t j = Ok p ->
      aget t' j = Ok (if in_range i (Z.of_nat n) j then f p else p).
Proof.
  induction n as [|n IH]; intros t i Hi Hn; cbn [upd_range].
  { exists t. split_and!; try done. intros j p Hj. rewrite Hj.
    destruct (in_range _ _ _) eqn:Hr; [|done]. apply in_range_spec in Hr. lia. }
  destruct (aget_is_Ok t i) as [p0 Hp0]; [lia|]. rewrite Hp0. cbn [mbind outcome_bind].
  assert (aset t i (f p0) = Ok (<[Z.to_nat i := f p0]> t)) as Ha by (apply aset_Ok; lia).
  rewrite Ha. cbn [mbind outcome_bind]. set (t1 := <[_ := _]> t) in *.
  pose proof (aset_length _ _ _ _ Ha) as Hl1.
  destruct (IH t1 (i + 1)) as (t' & Ht' & Hl & Hall); [lia..|].
  exists t'. split; [done|]. split; [congruence|]. intros j p Hj.
  specialize (Hall j). rewrite (aget_aset _ _ _ j _ Ha) in Hall.
  rewrite in_range_S.
  destruct (decide (i = j)) as [<-|Hne].
  - rewrite Hp0 in Hj. injection Hj as <-. rewrite (Hall _ eq_refl).
    rewrite bool_decide_eq_true_2 by done. cbn [orb].
    destruct (in_range (i + 1) (Z.of_nat n) i) eqn:Hr; [|done].
    apply in_range_spec in Hr. lia.
  - rewrite bool_decide_eq_false_2 by done. cbn [orb]. by apply Hall.
Qed.

Definition take_page (p : heap_page) : heap_page :=
  MkPage (bin_index p) ((free_items p - 1) mod 2 ^ 9) (cleaning p) ((in_use p + 1) mod 2 ^ 16).

Lemma take_pages_upd n : forall t i, take_pages n t i = upd_range take_page n t i.
Proof.
  induction n as [|n IH]; intros t i; [done|]. cbn [take_pages upd_range].
  destruct (aget t i) as [p| | |]; [|done..]. cbn [mbind outcome_bind]. fold (take_page p).
  destruct (aset t i (take_page p)); [|done..]. apply IH.
Qed.

Definition drop_page (p : heap_page) : heap_page :=
  MkPage (bin_index p) ((free_items p + 1) mod 2 ^ 9) (cleaning p) 0.

Lemma drop_pages_upd n : forall t i,
  (forall k, 0 <= k < Z.of_nat n -> exists p, aget t (i + k) = Ok p /\ in_use p = 1) ->
  drop_pages n t i true = (t' ← upd_range drop_page n t i; Ok (t', true)).
Proof.
  induction n as [|n IH]; intros t i Hp; [done|]. cbn [drop_pages upd_range].
  destruct (Hp 0) as (p0 & Hp0 & Hu0); [lia|]. rewrite Z.add_0_r in Hp0. rewrite Hp0.
  cbn [mbind outcome_bind]. rewrite Hu0. cbn [Z.eqb Pos.eqb andb]. fold (drop_page p0).
  change (1 - 1) with 0. fold (drop_page p0).
  destruct (aset t i (drop_page p0)) as [t1| | |] eqn:Ha; [|done..]. cbn [mbind outcome_bind].
  apply IH. intros k Hk. rewrite (aget_aset _ _ _ _ _ Ha), decide_False by lia.
  replace (i + 1 + k) with (i + (k + 1)) by lia. apply Hp. lia.
Qed.

(** *** Geometry *)

Lemma size_cases i : is_bin i ->
  (16 <= esize i < 4096 /\ 4096 mod esize i = 0 /\ gsize i = 4096 /\ npages i = 1) \/
  (4096 <= esize i <= 2 ^ 22 /\ esize i mod 4096 = 0 /\ gsize i = esize i /\
   npages i * 4096 = esize i).
Proof.
  intros Hi. destruct (bin_size_ok i Hi) as [(H1 & H2 & H3)|(H1 & H2 & H3)]; cbn in *;
    [left|right]; split_and!; try lia; unfold Heap.npages.
  - rewrite Z.div_small by lia. done.
  - Z.to_euclidean_division_equations; lia.
Qed.

Ltac divlia := unfold page_of in *; Z.to_euclidean_division_equations; lia.

Lemma geom_page_cb blk h a i :
  geom sizes blk h -> blk a = Some i -> get_page_cb h a = Some (page_of h a).
Proof.
  intros G Ha. destruct (ge_blk _ _ _ G a i Ha) as (Hi & H1 & H2 & _).
  pose proof (size_cases i Hi). pose proof (ge_ptr _ _ _ G). pose proof (ge_end _ _ _ G).
  pose proof (ge_base _ _ _ G).
  unfold get_page_cb. rewrite (u32_small (heap_base h + _)) by lia.
  destruct (Z.ltb_spec a (heap_base h)), (Z.leb_spec (heap_base h + heap_size h) a); try lia.
  done.
Qed.

Lemma geom_nonnull blk h a i : geom sizes blk h -> blk a = Some i -> 0 < a < 2 ^ 32.
Proof.
  intros G Ha. destruct (ge_blk _ _ _ G a i Ha) as (Hi & H1 & H2 & _).
  pose proof (size_cases i Hi). pose proof (ge_ptr _ _ _ G). pose proof (ge_end _ _ _ G).
  pose proof (ge_base _ _ _ G). lia.
Qed.

(** The pages of a block of whole pages are its own. *)
Lemma pages_apart blk h a i b j k l :
  geom sizes blk h -> blk a = Some i -> blk b = Some j -> a <> b -> 4096 <= esize j ->
  0 <= k < npages i -> 0 <= l < npages j -> page_of h a + k <> page_of h b + l.
Proof.
  intros G Ha Hb Hne Hbig Hk Hl Heq.
  destruct (ge_page _ _ _ G a i k Ha Hk) as (p & Hp & <-).
  destruct (ge_page _ _ _ G b j l Hb Hl) as (p' & Hp' & <-).
  rewrite Heq, Hp' in Hp. injection Hp as ->.
  pose proof (ge_sep _ _ _ G _ _ _ _ Ha Hb Hne) as Hsep. unfold disjoint_from in Hsep.
  destruct (ge_blk _ _ _ G _ _ Ha) as (Hi & H1 & H2 & H3).
  destruct (ge_blk _ _ _ G _ _ Hb) as (_ & H4 & H5 & H6).
  destruct (size_cases _ Hi) as [?|(H7 & H8 & _ & H9)]; [lia|].
  rewrite Z.min_l in H3, H6 by lia. pose proof (ge_base _ _ _ G).
  clear - H1 H2 H3 H4 H5 H6 H7 H8 H9 Hk Hl Heq Hsep H. divlia.
Qed.

(** A block fits its pages. *)
Lemma page_of_bounds blk h a i :
  geom sizes blk h -> blk a = Some i ->
  0 <= page_of h a /\ page_of h a + npages i <= Z.of_nat (length (heap_alloc_table h)).
Proof.
  intros G Ha. pose proof (ge_page _ _ _ G a i) as Hp.
  destruct (ge_blk _ _ _ G _ _ Ha) as (Hi & H1 & H2 & H3).
  assert (1 <= npages i) as Hn by (unfold Heap.npages; lia).
  destruct (Hp 0 Ha) as (p & Hp1%aget_bound & _); [lia|].
  destruct (Hp (npages i - 1) Ha) as (p' & Hp2%aget_bound & _); [lia|]. lia.
Qed.

(** *** Allocation *)

(** [a] is carved, but neither in use nor on a list nor in a raw chunk. *)
Definition transit (blk : Z -> option Z) (live : gset Z) (fl : Z -> list Z) (h : heap_list)
    (a i : Z) : Prop :=
  blk a = Some i /\ a ∉ live /\ (forall j, is_bin j -> a ∉ fl j) /\
  forall j b k, is_bin j -> aget (bins h) j = Ok b -> 0 <= k < raw_count b ->
    a <> raw_list b + k * esize j.

(** Only the sizes, the lists and the counts of raw elements matter. *)
Definition same_lists (b b' : heap_bin) : Prop :=
  element_size b' = element_size b /\ grow_size b' = grow_size b /\
  free_list b' = free_list b /\ raw_list b' = raw_list b /\ raw_count b' = raw_count b.

Lemma bin_ok_same blk live fl m i b b' :
  same_lists b b' -> bin_ok sizes blk live fl m i b -> bin_ok sizes blk live fl m i b'.
Proof.
  intros (H1 & H2 & H3 & H4 & H5) [? ? ? ? ? ? ?].
  split; try done; rewrite ?H1, ?H2, ?H3, ?H4, ?H5; done.
Qed.

(** The last steps of kcache_alloc: [a] goes into use. *)
Lemma mark_live blk live fl h m a i t' bins' b b' :
  hinv sizes blk live fl h m -> transit blk live fl h a i ->
  aget (bins h) i = Ok b -> same_lists b b' -> aset (bins h) i b' = Ok bins' ->
  take_pages (Z.to_nat (npages i)) (heap_alloc_table h) (page_of h a) = Ok t' ->
  hinv sizes blk ({[a]} ∪ live) fl (set_table (set_bins h bins') t') m.
Proof.
  intros [G Hb Hl Hu] (Ha & Hnl & Hnf & Hnr) Hbi Hsame Hset Ht.
  destruct (page_of_bounds _ _ _ _ G Ha) as [Hp0 Hp1].
  assert (0 <= npages i) as Hn by (unfold Heap.npages; lia).
  rewrite take_pages_upd in Ht.
  destruct (upd_range_ok take_page (Z.to_nat (npages i)) (heap_alloc_table h) (page_of h a))
    as (t'' & Ht'' & Hlen' & Hall); [lia..|]. rewrite Ht'' in Ht. injection Ht as ->.
  rewrite Z2Nat.id in Hall by done. split.
  - destruct G as [? ? ? Htab ? ? Hpage ?]. split; try done; cbn.
    + by rewrite Hlen'.
    + intros a' i' k Ha' Hk. destruct (Hpage a' i' k Ha' Hk) as (p & Hp & <-).
      eexists. split; [by apply Hall|]. by destruct (in_range _ _ _).
  - intros j Hj. cbn. rewrite (aget_aset _ _ _ _ _ Hset). destruct (Hb j Hj) as (bj & Hbj & Bj).
    assert (bin_ok sizes blk ({[a]} ∪ live) fl m j bj) as Bj'.
    { destruct Bj as [? ? ? Hf ? ? Hr]. split; try done.
      - intros x Hx. destruct (Hf x Hx). split; [done|].
        intros [->%elem_of_singleton|]%elem_of_union; [by eapply Hnf|done].
      - intros k Hk. destruct (Hr k Hk) as (? & ? & ?). split; [done|]. split; [|done].
        intros [?%elem_of_singleton|]%elem_of_union; [by eapply Hnr|done]. }
    case_decide; [subst|by eauto]. rewrite Hbi in Hbj. injection Hbj as ->.
    eauto using bin_ok_same.
  - intros x [->%elem_of_singleton|]%elem_of_union; eauto.
  - intros x j k Hx Hbig Hk. destruct (Hu x j k Hx Hbig Hk) as (p & Hp & Hup). cbn.
    eexists. split; [by apply Hall|]. change (page_of _ x) with (page_of h x).
    destruct (decide (x = a)) as [->|Hne].
    + rewrite bool_decide_eq_true_2 by set_solver. rewrite bool_decide_eq_false_2 in Hup by done.
      rewrite Ha in Hx. injection Hx as ->.
      rewrite (proj2 (in_range_spec _ _ _)) by lia. cbn. by rewrite Hup.
    + assert (in_range (page_of h a) (npages i) (page_of h x + k) = false) as ->.
      { apply not_true_iff_false. rewrite in_range_spec. intros Hr.
        eapply (pages_apart blk h a i x j (page_of h x + k - page_of h a) k); eauto; lia. }
      rewrite Hup. repeat case_bool_decide; set_solver.
Qed.

Lemma geom_same blk h h' :
  heap_alloc_table h' = heap_alloc_table h -> heap_base_ptr h' = heap_base_ptr h ->
  heap_base h' = heap_base h -> heap_size h' = heap_size h -> BIN_COUNT h' = BIN_COUNT h ->
  geom sizes blk h -> geom sizes blk h'.
Proof.
  intros H1 H2 H3 H4 H5 [? ? ? ? ? ? ? ?].
  split; unfold page_of; rewrite ?H1, ?H2, ?H3, ?H4, ?H5; done.
Qed.

Definition upd_fl (fl : Z -> list Z) (i : Z) (l : list Z) : Z -> list Z :=
  fun j => if decide (i = j) then l else fl j.

(** Taking the head of the free list. *)
Lemma take_free blk live fl h m i b :
  hinv sizes blk live fl h m -> is_bin i -> aget (bins h) i = Ok b -> free_list b <> 0 ->
  exists l h', fl i = free_list b :: l /\ bin_take h m i = Ok (free_list b, h') /\
    hinv sizes blk live (upd_fl fl i l) h' m /\
    transit blk live (upd_fl fl i l) h' (free_list b) i /\
    heap_base_ptr h' = heap_base_ptr h.
Proof.
  intros [G Hb Hl Hu] Hi Hbi Hne. unfold bin_take. rewrite Hbi. cbn [mbind outcome_bind].
  rewrite (proj2 (Z.eqb_neq _ _) Hne). cbn [negb].
  destruct (Hb i Hi) as (b0 & Hb0 & B). rewrite Hbi in Hb0. injection Hb0 as <-.
  pose proof B as [He Hg Hc Hf Hnd Hct Hr]. destruct (fl i) as [|a l] eqn:Hfl; [done|].
  destruct Hc as (Heq & _ & Hc). subst a. apply NoDup_cons in Hnd as [Hnd1 Hnd2].
  destruct (Hf (free_list b)) as [Hba Hna]; [left|].
  rewrite aset_Ok by (by eapply aget_bound). cbn [mbind outcome_bind].
  set (b' := MkBin _ _ _ _ _ _ _). set (l' := <[_ := b']> (bins h)).
  assert (aset (bins h) i b' = Ok l') as Hset by (apply aset_Ok; by eapply aget_bound).
  exists l, (set_bins h l'). split; [done|]. split; [done|].
  assert (forall j, aget l' j = if decide (i = j) then Ok b' else aget (bins h) j) as Hl'
    by (intros; by eapply aget_aset).
  split; [split|split; [|done]].
  - by apply (geom_same blk h).
  - intros j Hj. cbn. rewrite Hl'. unfold upd_fl. destruct (Hb j Hj) as (bj & Hbj & Bj).
    destruct (decide (i = j)) as [<-|Hij].
    + exists b'. split; [done|]. split; cbn; rewrite ?decide_True by done; try done.
      * intros x Hx. apply Hf. by right.
      * intros k Hk. destruct (Hr k Hk) as (? & ? & ?). split_and!; try done. set_solver.
    + exists bj. split; [done|]. destruct Bj. split; rewrite ?decide_False by done; done.
  - done.
  - done.
  - split; [done|]. split; [done|]. unfold upd_fl. split.
    + intros j Hj. case_decide; [by subst|]. intros Hx. destruct (Hb j Hj) as (bj & _ & Bj).
      destruct (bo_free _ _ _ _ _ _ _ Bj _ Hx). congruence.
    + cbn. intros j bj k Hj Hbj Hk Heq. rewrite Hl' in Hbj.
      assert (exists bj0, aget (bins h) j = Ok bj0 /\ raw_list bj = raw_list bj0 /\
        raw_count bj = raw_count bj0) as (bj0 & Hbj0 & H1 & H2).
      { case_decide; [|by eauto]. injection Hbj as <-. exists b. by subst. }
      destruct (Hb j Hj) as (bj1 & Hbj1 & Bj). rewrite Hbj0 in Hbj1. injection Hbj1 as <-.
      rewrite H2 in Hk. destruct (bo_raw _ _ _ _ _ _ _ Bj k Hk) as (Hblk & _ & Hnf).
      rewrite <- H1, <- Heq in *. rewrite Hba in Hblk. injection Hblk as <-.
      apply Hnf. rewrite Hfl. by left.
Qed.

(** The bin without its raw chunk. *)
Definition no_raw (b : heap_bin) : heap_bin :=
  MkBin (element_size b) (grow_size b) (alloc_count b) (free_list b) (free_count b) 0 0.

(** Carving the first of the [rc] raw elements at [rl]. *)
Lemma carve blk live fl h m i b rl rc l' :
  geom sizes blk h -> is_bin i ->
  (forall j, is_bin j -> i <> j ->
     exists bj, aget (bins h) j = Ok bj /\ bin_ok sizes blk live fl m j bj) ->
  bin_ok sizes blk live fl m i (no_raw b) ->
  0 < rc -> (4096 <= esize i -> rc = 1) ->
  (forall k, 0 <= k < rc -> blk (rl + k * esize i) = Some i /\
     rl + k * esize i ∉ live /\ rl + k * esize i ∉ fl i) ->
  (forall a, a ∈ live -> exists j, blk a = Some j) ->
  (forall a j k, blk a = Some j -> 4096 <= esize j -> 0 <= k < npages j ->
    exists p, aget (heap_alloc_table h) (page_of h a + k) = Ok p /\
      in_use p = (if bool_decide (a ∈ live) then 1 else 0)) ->
  aset (bins h) i (MkBin (element_size b) (grow_size b) (alloc_count b) (free_list b)
    (free_count b) (u32 (rl + element_size b)) (u32 (rc - 1))) = Ok l' ->
  hinv sizes blk live fl (set_bins h l') m /\ transit blk live fl (set_bins h l') rl i.
Proof.
  intros G Hi Hb [He Hg Hc Hf Hnd _ _] Hrc Hbig Hraw Hl Hu Hset. cbn in *.
  pose proof (size_cases i Hi) as Hsz. set (b' := MkBin _ _ _ _ _ _ _) in *.
  destruct (Hraw 0) as (Hrl & Hnl & Hnf); [lia|]. rewrite Z.mul_0_l, Z.add_0_r in *.
  assert (rl + esize i < 2 ^ 32 /\ 0 < rl) as [Hlt Hpos].
  { destruct (ge_blk _ _ _ G _ _ Hrl) as (_ & H1 & H2 & _).
    pose proof (ge_ptr _ _ _ G). pose proof (ge_end _ _ _ G). pose proof (ge_base _ _ _ G). lia. }
  assert (rc < 2 ^ 32) as Hrc2.
  { destruct (Hraw (rc - 1)) as [H1 _]; [lia|]. apply (geom_nonnull _ _ _ _ G) in H1. nia. }
  assert (raw_list b' = rl + esize i /\ raw_count b' = rc - 1) as [Hrl' Hrc'].
  { cbn. rewrite He. rewrite !u32_small by lia. done. }
  assert (forall j, aget l' j = if decide (i = j) then Ok b' else aget (bins h) j) as Hl'
    by (intros; by eapply aget_aset).
  assert (forall k, rl + esize i + k * esize i = rl + (k + 1) * esize i) as Hk1 by lia.
  split; [split|].
  - by apply (geom_same blk h).
  - intros j Hj. cbn. rewrite Hl'. case_decide as Hij; [subst j|by apply Hb].
    exists b'. split; [done|]. split; try done; rewrite ?Hrl', ?Hrc'.
    + split; [lia|]. intros ?. rewrite Hbig by done. done.
    + intros k Hk. rewrite Hk1. apply Hraw. lia.
  - done.
  - done.
  - split_and!; try done.
    + intros j Hj Hx. destruct (decide (i = j)) as [<-|Hij]; [done|].
      destruct (Hb j Hj Hij) as (bj & _ & Bj). destruct (bo_free _ _ _ _ _ _ _ Bj _ Hx). congruence.
    + cbn. intros j bj k Hj Hbj Hk Heq. rewrite Hl' in Hbj. case_decide as Hij.
      * subst j. injection Hbj as <-. rewrite Hrl', Hrc' in *. nia.
      * destruct (Hb j Hj Hij) as (bj' & Hbj' & Bj). rewrite Hbj' in Hbj. injection Hbj as ->.
        destruct (bo_raw _ _ _ _ _ _ _ Bj k Hk) as [H1 _]. congruence.
Qed.

Lemma bin_ok_no_raw blk live fl m i b :
  bin_ok sizes blk live fl m i b -> bin_ok sizes blk live fl m i (no_raw b).
Proof. intros [? ? ? ? ? ? ?]. split; try done; cbn; lia. Qed.

Lemma take_raw blk live fl h m i b :
  hinv sizes blk live fl h m -> is_bin i -> aget (bins h) i = Ok b -> free_list b = 0 ->
  raw_count b <> 0 ->
  exists h', bin_take h m i = Ok (raw_list b, h') /\ hinv sizes blk live fl h' m /\
    transit blk live fl h' (raw_list b) i /\ heap_base_ptr h' = heap_base_ptr h.
Proof.
  intros [G Hb Hl Hu] Hi Hbi Hfl Hrc. unfold bin_take. rewrite Hbi. cbn [mbind outcome_bind].
  rewrite Hfl. cbn [Z.eqb negb]. rewrite (proj2 (Z.eqb_neq _ _) Hrc).
  destruct (Hb i Hi) as (b0 & Hb0 & B). rewrite Hbi in Hb0. injection Hb0 as <-.
  pose proof (bo_count _ _ _ _ _ _ _ B) as [Hc0 Hcb].
  cbn [mbind outcome_bind]. rewrite aset_Ok by (by eapply aget_bound). cbn [mbind outcome_bind].
  eexists. split; [done|].
  match goal with |- ?A /\ ?B /\ _ => cut (A /\ B); [by intros [? ?]|] end. rewrite <- Hfl.
  eapply (carve blk live fl h m i b (raw_list b) (raw_count b)); try done.
  - intros j Hj _. by apply Hb.
  - by apply bin_ok_no_raw.
  - lia.
  - intros ?. lia.
  - apply B.
  - apply aset_Ok. by eapply aget_bound.
Qed.

(** *** Growing the heap *)

Definition mark (i items : Z) (p : heap_page) : heap_page :=
  MkPage (i mod 2 ^ 5) (items mod 2 ^ 9) (cleaning p) 0.

Lemma raw_mark_upd n : forall fuel h i b addr,
  (n <= fuel)%nat -> aget (bins h) i = Ok b ->
  0 <= heap_base h <= addr -> (addr - heap_base h) mod 4096 = 0 ->
  addr + 4096 * Z.of_nat n <= heap_base h + heap_size h -> heap_base h + heap_size h < 2 ^ 32 ->
  raw_mark fuel h i addr (addr + 4096 * Z.of_nat n) =
    (t ← upd_range (mark i (if (i <? BIN_COUNT h) && (element_size b <? PAGE_SIZE)
                     then PAGE_SIZE / element_size b else 1)) n (heap_alloc_table h)
           (page_of h addr);
     Ok (set_table h t)).
Proof.
  induction n as [|n IH]; intros fuel h i b addr Hf Hbi Hlo Hal Hhi Hend.
  { destruct fuel; cbn [raw_mark upd_range Z.of_nat mbind outcome_bind];
      rewrite Z.mul_0_r, Z.add_0_r, Z.ltb_irrefl; by destruct h. }
  destruct fuel as [|fuel]; [lia|]. cbn [raw_mark upd_range].
  rewrite (proj2 (Z.ltb_lt addr _)) by lia. unfold get_page_cb. rewrite (u32_small (heap_base h + _)) by lia.
  rewrite (proj2 (Z.ltb_ge addr _)) by lia. rewrite (proj2 (Z.leb_gt _ addr)) by lia.
  cbn [orb from_opt mbind outcome_bind]. change ((addr - heap_base h) / PAGE_SIZE) with
    (page_of h addr). destruct (aget (heap_alloc_table h) (page_of h addr)) as [p| | |]; [|done..].
  cbn [mbind outcome_bind]. rewrite Hbi. cbn [mbind outcome_bind].
  match goal with |- context [mark i ?it p] => set (items := it); fold (mark i items p) end.
  destruct (aset (heap_alloc_table h) (page_of h addr) (mark i items p)) as [t| | |]; [|done..].
  cbn [mbind outcome_bind]. rewrite (u32_small (addr + PAGE_SIZE)) by (unfold PAGE_SIZE; lia).
  replace (addr + 4096 * Z.of_nat (S n)) with (addr + PAGE_SIZE + 4096 * Z.of_nat n)
    by (unfold PAGE_SIZE; lia).
  rewrite (IH fuel (set_table h t) i b (addr + PAGE_SIZE));
    cbn [heap_base heap_size bins set_table]; unfold PAGE_SIZE; try lia; try done; try divlia.
  cbn [heap_alloc_table BIN_COUNT set_table]. unfold items, PAGE_SIZE.
  replace (page_of (set_table h t) (addr + 4096)) with (page_of h addr + 1)
    by (unfold page_of; cbn; divlia). done.
Qed.

Lemma PAGE_ALIGN_id g : 0 <= g <= 2 ^ 22 -> g mod 4096 = 0 -> PAGE_ALIGN g = g.
Proof.
  intros Hg Hm. unfold PAGE_ALIGN, PAGE_SIZE. rewrite u32_small by lia.
  rewrite <- Z.ldiff_land. change (4096 - 1) with (Z.ones 12). rewrite Z.ldiff_ones_r by lia.
  rewrite Z.shiftl_mul_pow2, Z.shiftr_div_pow2 by lia. change (Z.ones 12) with 4095.
  change (2 ^ 12) with 4096. Z.to_euclidean_division_equations; lia.
Qed.

(** The blocks after the heap has grown by [g] bytes from [p] for bin [i]. *)
Definition grown (blk : Z -> option Z) (p g i : Z) : Z -> option Z := fun a =>
  if bool_decide (p <= a < p + g /\ (a - p) mod esize i = 0) then Some i else blk a.

Lemma grown_cases blk p g i a j :
  grown blk p g i a = Some j ->
  (p <= a < p + g /\ (a - p) mod esize i = 0 /\ j = i) \/ blk a = Some j.
Proof. unfold grown. case_bool_decide; [|auto]. intros [= <-]. left. tauto. Qed.

Lemma grown_old blk h i a j :
  geom sizes blk h -> blk a = Some j ->
  grown blk (heap_base_ptr h) (gsize i) i a = Some j.
Proof.
  intros G Ha. unfold grown. rewrite bool_decide_eq_false_2; [done|].
  destruct (ge_blk _ _ _ G _ _ Ha) as (Hj & _ & H & _). pose proof (size_cases j Hj). lia.
Qed.

(** Arithmetic of a new block. *)
Lemma grown_new_block i p a :
  is_bin i -> p mod 4096 = 0 -> p <= a < p + gsize i -> (a - p) mod esize i = 0 ->
  a + esize i <= p + gsize i /\ a mod (4096 `min` esize i) = 0 /\
  (4096 <= esize i -> a = p).
Proof.
  intros Hi Hp Ha Hm. destruct (size_cases i Hi) as [(H1 & H2 & H3 & _)|(H1 & H2 & H3 & _)].
  - rewrite Z.min_r by lia. rewrite H3 in *. set (e := esize i) in *. clearbody e.
    apply Z.mod_divide in H2 as [q Hq]; [|lia]. apply Z.mod_divide in Hm as [r Hr]; [|lia].
    apply Z.mod_divide in Hp as [s Hs]; [|lia]. assert (r < q) by nia.
    split_and!; [nia| |lia].
    apply Z.mod_divide; [lia|]. exists (r + s * q).
    rewrite Z.mul_add_distr_r, <- Z.mul_assoc, <- Hq. lia.
  - rewrite Z.min_l by lia. rewrite H3 in *.
    assert (a = p) as ->; [|split_and!; lia].
    rewrite Z.mod_small in Hm by lia. lia.
Qed.

Lemma grown_sep i p a b :
  is_bin i -> p <= a -> p <= b -> (a - p) mod esize i = 0 -> (b - p) mod esize i = 0 ->
  a <> b -> disjoint_from a (esize i) b (esize i).
Proof.
  intros Hi Ha Hb Hma Hmb Hne. pose proof (size_cases i Hi) as Hsz. unfold disjoint_from.
  set (e := esize i) in *. clearbody e.
  apply Z.mod_divide in Hma as [q Hq]; [|lia]. apply Z.mod_divide in Hmb as [r Hr]; [|lia].
  assert (q < r \/ r < q) as [?|?] by nia; [left|right]; nia.
Qed.

Lemma grow_geom blk h i items n t :
  geom sizes blk h -> is_bin i -> gsize i = 4096 * Z.of_nat n ->
  heap_base_ptr h + gsize i <= heap_base h + heap_size h ->
  upd_range (mark i items) n (heap_alloc_table h) (page_of h (heap_base_ptr h)) = Ok t ->
  let blk' := grown blk (heap_base_ptr h) (gsize i) i in
  let h' := set_base_ptr (set_table h t) (heap_base_ptr h + gsize i) in
  geom sizes blk' h' /\
  (forall a j k, blk a = Some j -> 0 <= k < npages j ->
     aget t (page_of h a + k) = aget (heap_alloc_table h) (page_of h a + k)) /\
  (4096 <= esize i -> forall k, 0 <= k < npages i ->
     exists p, aget t (page_of h (heap_base_ptr h) + k) = Ok p /\ in_use p = 0).
Proof.
  intros G Hi Hn Hroom Ht blk' h'. pose proof G as [Hbase Hptr Hend Htab Hcnt Hblk Hpage Hsep].
  pose proof (size_cases i Hi) as Hsz. set (p := heap_base_ptr h) in *.
  assert (0 <= page_of h p) as Hp0 by divlia.
  assert (page_of h p + Z.of_nat n <= Z.of_nat (length (heap_alloc_table h))) as Hp1.
  { rewrite <- Htab. clear - Hroom Hn Hbase Hptr. divlia. }
  destruct (upd_range_ok (mark i items) n (heap_alloc_table h) (page_of h p) Hp0 Hp1)
    as (t' & Ht' & Hlen' & Hall). rewrite Ht' in Ht. injection Ht as ->.
  assert (forall a j k, blk a = Some j -> 0 <= k < npages j ->
    aget t (page_of h a + k) = aget (heap_alloc_table h) (page_of h a + k)) as Hold.
  { intros a j k Ha Hk. destruct (Hpage a j k Ha Hk) as (q & Hq & _).
    rewrite (Hall _ _ Hq), Hq. destruct (in_range _ _ _) eqn:Hr; [|done].
    apply in_range_spec in Hr. destruct (Hblk a j Ha) as (Hj & H1 & H2 & H3).
    pose proof (size_cases j Hj) as Hszj.
    clear - Hr Hk H1 H2 H3 Hszj Hbase Hptr. exfalso. fold p in H2, Hptr.
    destruct Hszj as [(? & ? & ? & Hnp)|(? & ? & ? & Hnp)]; rewrite ?Hnp in *.
    - assert (k = 0) as -> by lia. divlia.
    - rewrite Z.min_l in H3 by lia. divlia. }
  assert (forall k, 0 <= k < Z.of_nat n -> exists q, aget t (page_of h p + k) = Ok q /\
    bin_index q = i /\ in_use q = 0) as Hnew.
  { intros k Hk. destruct (aget_is_Ok (heap_alloc_table h) (page_of h p + k)) as [q Hq]; [lia|].
    exists (mark i items q). rewrite (Hall _ _ Hq), (proj2 (in_range_spec _ _ _)) by lia.
    split_and!; try done. cbn. apply Z.mod_small. unfold Heap.is_bin in Hi. lia. }
  split; [split|split; [done|]]; cbn [heap_base heap_size heap_base_ptr heap_alloc_table
    BIN_COUNT set_base_ptr set_table h']; try done.
  - split; [lia|]. destruct Hptr as [_ Hm]. rewrite Hn.
    rewrite Z.mul_comm, Z_mod_plus_full. done.
  - by rewrite Hlen'.
  - intros a j [(Ha & Hm & ->)|Ha]%grown_cases.
    + destruct (grown_new_block i p a Hi (proj2 Hptr) Ha Hm) as (? & ? & _).
      split_and!; try done; lia.
    + destruct (Hblk a j Ha) as (? & ? & ? & ?). split_and!; try done. lia.
  - intros a j k Ha Hk. change (page_of h' a) with (page_of h a).
    apply grown_cases in Ha as [(Ha & Hm & ->)|Ha]; [|by rewrite (Hold a j); eauto].
    destruct (Hnew (page_of h a + k - page_of h p)) as (q & Hq & Hqi & _).
    + destruct (grown_new_block i p a Hi (proj2 Hptr) Ha Hm) as (H1 & H2 & H3).
      clear - H1 H2 H3 Hk Hsz Ha Hn Hbase Hptr.
      destruct Hsz as [(? & ? & ? & Hnp)|(? & ? & ? & Hnp)]; rewrite ?Hnp in *.
      * assert (k = 0) as -> by lia. divlia.
      * rewrite H3 by lia. lia.
    + exists q. by replace (page_of h a + k) with
        (page_of h p + (page_of h a + k - page_of h p)) by lia.
  - intros a j b l Ha Hb Hne.
    apply grown_cases in Ha as [(Ha & Hma & ->)|Ha], Hb as [(Hb & Hmb & ->)|Hb]; eauto.
    + apply (grown_sep i p); lia || done.
    + right. destruct (Hblk b l Hb) as (_ & _ & ? & _). fold p in H. lia.
    + left. destruct (Hblk a j Ha) as (_ & _ & ? & _). fold p in H. lia.
  - intros Hbig k Hk. destruct (Hnew k) as (q & ? & _ & ?); [lia|]. eauto.
Qed.

Lemma bin_ok_mono blk blk' live fl m i b :
  (forall a j, blk a = Some j -> blk' a = Some j) ->
  bin_ok sizes blk live fl m i b -> bin_ok sizes blk' live fl m i b.
Proof.
  intros Hm [? ? ? Hf ? ? Hr]. split; try done.
  - intros a Ha. destruct (Hf a Ha). auto.
  - intros k Hk. destruct (Hr k Hk) as (? & ? & ?). auto.
Qed.

Lemma take_grow blk live fl h m i b :
  hinv sizes blk live fl h m -> is_bin i -> aget (bins h) i = Ok b -> free_list b = 0 ->
  raw_count b = 0 -> heap_base_ptr h + gsize i <= heap_base h + heap_size h ->
  exists h', let blk' := grown blk (heap_base_ptr h) (gsize i) i in
    bin_take h m i = Ok (heap_base_ptr h, h') /\ hinv sizes blk' live fl h' m /\
    transit blk' live fl h' (heap_base_ptr h) i /\
    heap_base_ptr h' = heap_base_ptr h + gsize i.
Proof.
  intros [G Hb Hl Hu] Hi Hbi Hfl Hrc Hroom. unfold bin_take. rewrite Hbi.
  cbn [mbind outcome_bind]. rewrite Hfl, Hrc. cbn [Z.eqb negb].
  destruct (Hb i Hi) as (b0 & Hb0 & B). rewrite Hbi in Hb0. injection Hb0 as <-.
  pose proof (size_cases i Hi) as Hsz. set (p := heap_base_ptr h).
  set (n := Z.to_nat (gsize i / 4096)).
  assert (gsize i = 4096 * Z.of_nat n /\ gsize i <= 2 ^ 22 /\ gsize i mod 4096 = 0)
    as (Hn & Hg22 & Hgm).
  { unfold n. rewrite Z2Nat.id by (apply Z.div_pos; lia).
    destruct Hsz as [(_ & _ & -> & _)|(? & ? & -> & _)]; [done|].
    split_and!; try lia. Z.to_euclidean_division_equations; lia. }
  pose proof (ge_ptr _ _ _ G) as Hptr. pose proof (ge_end _ _ _ G) as Hend.
  pose proof (ge_base _ _ _ G) as Hbase.
  unfold raw_alloc. rewrite (bo_gsize _ _ _ _ _ _ _ B).
  rewrite PAGE_ALIGN_id by lia. rewrite u32_small by lia. fold p.
  replace (p + gsize i) with (p + 4096 * Z.of_nat n) by lia.
  erewrite (raw_mark_upd n) by
    (eauto; try (unfold PAGE_SIZE, p, n in *; divlia); lia).
  match goal with |- context [mark i ?it] => set (items := it) end.
  assert (page_of h p + Z.of_nat n <= Z.of_nat (length (heap_alloc_table h))) as Hp1.
  { rewrite <- (ge_table _ _ _ G). clear - Hroom Hn Hbase Hptr. unfold p. divlia. }
  destruct (upd_range_ok (mark i items) n (heap_alloc_table h) (page_of h p))
    as (t & Ht & _); [divlia|done|].
  rewrite Ht. cbn [mbind outcome_bind].
  destruct (grow_geom blk h i items n t G Hi Hn Hroom Ht) as (G' & Hold & Hnew).
  fold p in G', Hold, Hnew.
  replace (p + 4096 * Z.of_nat n) with (p + gsize i) by lia.
  set (h1 := set_base_ptr (set_table h t) (p + gsize i)) in *.
  rewrite aset_Ok by (by eapply aget_bound). cbn [mbind outcome_bind].
  eexists. split; [done|].
  match goal with |- ?A /\ ?B /\ _ => cut (A /\ B); [by intros [? ?]|] end.
  pose proof (fun a j => grown_old blk h i a j G) as Hmono. fold p in Hmono.
  assert (forall a, a ∈ live \/ a ∈ fl i -> a < p) as Hlow.
  { intros a Ha. assert (exists j, blk a = Some j) as [j Hj].
    { destruct Ha as [Ha|Ha]; [by apply Hl|]. exists i. by apply (bo_free _ _ _ _ _ _ _ B). }
    destruct (ge_blk _ _ _ G _ _ Hj) as (Hj' & _ & Hle & _).
    pose proof (size_cases j Hj'). fold p in Hle. lia. }
  match goal with |- context [MkBin ?e ?g ?c ?f ?fc ?rl ?rc] =>
    replace (MkBin e g c f fc rl rc) with (MkBin (element_size b) (grow_size b) (alloc_count b)
      (free_list b) (free_count b) (u32 (p + element_size b)) (u32 (gsize i / esize i - 1)))
    by (rewrite (bo_esize _ _ _ _ _ _ _ B), (bo_gsize _ _ _ _ _ _ _ B), Hfl; done) end.
  assert (0 < gsize i / esize i /\ (4096 <= esize i -> gsize i / esize i = 1) /\
    esize i * (gsize i / esize i) <= gsize i) as (Hq1 & Hq2 & Hq3).
  { destruct Hsz as [(? & Hdiv & -> & _)|(? & ? & -> & _)].
    - split_and!; try lia; [apply Z.div_str_pos; lia|apply Z.mul_div_le; lia].
    - rewrite Z.div_same by lia. split_and!; lia. }
  eapply (carve _ live fl h1 m i b p (gsize i / esize i)); try done.
  - intros j Hj _. destruct (Hb j Hj) as (bj & Hbj & Bj). exists bj. split; [done|].
    by eapply bin_ok_mono.
  - eapply bin_ok_mono; [done|]. by apply bin_ok_no_raw.
  - intros k Hk. split_and!.
    + unfold grown. rewrite bool_decide_eq_true_2; [done|].
      assert (k * esize i + esize i <= gsize i) by nia. split; [nia|].
      replace (p + k * esize i - p) with (k * esize i) by lia. by apply Z_mod_mult.
    + intros Ha. specialize (Hlow _ (or_introl Ha)). nia.
    + intros Ha. specialize (Hlow _ (or_intror Ha)). nia.
  - intros a Ha. destruct (Hl a Ha) as [j Hj]. eauto.
  - intros a j k Ha Hbig Hk. change (page_of h1 a) with (page_of h a).
    change (heap_alloc_table h1) with t.
    apply grown_cases in Ha as [(Ha & Hma & ->)|Ha].
    + destruct (grown_new_block i p a Hi (proj2 Hptr) Ha Hma) as (_ & _ & Heq).
      rewrite (Heq Hbig) in *. destruct (Hnew Hbig k Hk) as (q & Hq & Hq').
      exists q. split; [done|]. rewrite bool_decide_eq_false_2; [done|].
      intros Hin. specialize (Hlow _ (or_introl Hin)). lia.
    + rewrite (Hold a j k Ha Hk). by apply Hu with j.
  - apply aset_Ok. by eapply aget_bound.
Qed.

(** *** kcache_alloc *)

Lemma find_bin_spec l size :
  let i := find_bin l size in
  0 <= i <= Z.of_nat (length l) /\
  (i < Z.of_nat (length l) -> exists b, aget l i = Ok b /\ size <= element_size b) /\
  (i = Z.of_nat (length l) -> forall b, b ∈ l -> element_size b < size).
Proof.
  induction l as [|b l IH]; cbn [find_bin length].
  { cbv zeta. split_and!; try lia. intros _ b. by rewrite elem_of_nil. }
  destruct (Z.leb_spec size (element_size b)); cbv zeta in *.
  - split_and!; try lia. intros _. by exists b.
  - destruct IH as (H1 & H2 & H3). split_and!; try lia.
    + intros Hi. destruct H2 as (b' & [Hb' Hl]%aget_Ok & Hs); [lia|]. exists b'.
      rewrite aget_Ok. split; [|done]. split; [lia|].
      replace (Z.to_nat (1 + find_bin l size)) with (S (Z.to_nat (find_bin l size))) by lia. done.
    + intros Hi b' [->|Hb']%elem_of_cons; [done|]. apply H3; [lia|done].
Qed.

Lemma bins_take blk live fl h m j :
  hinv sizes blk live fl h m -> is_bin j ->
  aget (take (Z.to_nat (BIN_COUNT h)) (bins h)) j = aget (bins h) j.
Proof.
  intros [G _ _ _] Hj. rewrite (ge_count _ _ _ G), Nat2Z.id. unfold Heap.is_bin in Hj.
  unfold aget. rewrite lookup_take_lt by lia. done.
Qed.

Lemma bins_length blk live fl h m :
  hinv sizes blk live fl h m ->
  length (take (Z.to_nat (BIN_COUNT h)) (bins h)) = length sizes.
Proof.
  intros [G Hb _ _]. rewrite (ge_count _ _ _ G), Nat2Z.id, length_take.
  destruct (decide (length sizes = 0%nat)) as [->|]; [done|].
  destruct (Hb (Z.of_nat (length sizes) - 1)) as (b & Hbb%aget_bound & _);
    [unfold Heap.is_bin|]; lia.
Qed.

Lemma find_bin_cases blk live fl h m size :
  hinv sizes blk live fl h m ->
  let i := find_bin (take (Z.to_nat (BIN_COUNT h)) (bins h)) size in
  (i = BIN_COUNT h /\ forall j, is_bin j -> esize j < size) \/
  (i <> BIN_COUNT h /\ is_bin i /\ size <= esize i).
Proof.
  intros Hh. cbv zeta.
  pose proof (find_bin_spec (take (Z.to_nat (BIN_COUNT h)) (bins h)) size) as (H1 & H2 & H3).
  rewrite (bins_length _ _ _ _ _ Hh) in *. set (i := find_bin _ size) in *.
  rewrite (ge_count _ _ _ (hi_geom _ _ _ _ _ _ Hh)).
  assert (forall j, is_bin j -> exists b, b ∈ take (Z.to_nat (BIN_COUNT h)) (bins h) /\
    aget (take (Z.to_nat (BIN_COUNT h)) (bins h)) j = Ok b /\ element_size b = esize j) as Hb.
  { intros j Hj. destruct (hi_bins _ _ _ _ _ _ Hh j Hj) as (b & Hb & B).
    rewrite <- (bins_take _ _ _ _ _ _ Hh Hj) in Hb. exists b.
    split_and!; [|done|by apply (bo_esize _ _ _ _ _ _ _ B)].
    apply aget_Ok in Hb as [_ Hb]. by eapply list_elem_of_lookup_2. }
  destruct (decide (i = Z.of_nat (length sizes))) as [Heq|Hne]; [left|right].
  - split; [done|]. intros j Hj. destruct (Hb j Hj) as (b & Hin & _ & <-). by apply H3.
  - assert (is_bin i) as Hi by (unfold Heap.is_bin; lia). split; [lia|]. split; [done|].
    destruct (H2 ltac:(lia)) as (b & Hbi & Hs). destruct (Hb i Hi) as (b' & _ & Hbi' & <-).
    congruence.
Qed.

Lemma find_bin_serves blk live fl h m size :
  hinv sizes blk live fl h m -> (exists i, is_bin i /\ size <= esize i) ->
  let i := find_bin (take (Z.to_nat (BIN_COUNT h)) (bins h)) size in
  i <> BIN_COUNT h /\ is_bin i /\ size <= esize i.
Proof.
  intros Hh (i & Hi & Hs). destruct (find_bin_cases _ _ _ _ _ size Hh) as [[_ Hno]|]; [|done].
  specialize (Hno i Hi). lia.
Qed.

(** The bin has an element left, or the heap has room for a chunk. *)
Definition can_take (h : heap_list) (i : Z) : Prop :=
  forall b, aget (bins h) i = Ok b -> free_list b = 0 -> raw_count b = 0 ->
  heap_base_ptr h + gsize i <= heap_base h + heap_size h.

Lemma bin_take_ok blk live fl h m i :
  hinv sizes blk live fl h m -> is_bin i -> can_take h i ->
  exists a h' blk' fl', bin_take h m i = Ok (a, h') /\ hinv sizes blk' live fl' h' m /\
    transit blk' live fl' h' a i /\ (forall x j, blk x = Some j -> blk' x = Some j) /\
    (forall l, fl i = a :: l -> fl' i = l) /\ (fl i <> [] -> head (fl i) = Some a).
Proof.
  intros Hh Hi Hroom. destruct (hi_bins _ _ _ _ _ _ Hh i Hi) as (b & Hbi & B).
  pose proof (bo_chain _ _ _ _ _ _ _ B) as Hc.
  destruct (decide (free_list b = 0)) as [Hfl|Hfl].
  - assert (fl i = []) as Hnil. { destruct (fl i); [done|]. destruct Hc as (? & ? & _). congruence. }
    rewrite Hnil. destruct (decide (raw_count b = 0)) as [Hrc|Hrc].
    + destruct (take_grow _ _ _ _ _ _ _ Hh Hi Hbi Hfl Hrc (Hroom b Hbi Hfl Hrc)) as (h' & ? & ? & ? & _).
      eexists _, h', _, fl. split_and!; try done. intros x j. apply grown_old, Hh.
    + destruct (take_raw _ _ _ _ _ _ _ Hh Hi Hbi Hfl Hrc) as (h' & ? & ? & ? & _).
      by exists (raw_list b), h', blk, fl.
  - destruct (take_free _ _ _ _ _ _ _ Hh Hi Hbi Hfl) as (l & h' & Hl & ? & ? & ? & _).
    exists (free_list b), h', blk, (upd_fl fl i l). rewrite Hl. split_and!; try done.
    unfold upd_fl. rewrite decide_True by done. naive_solver.
Qed.

Lemma kcache_alloc_ok blk live fl h m size :
  hinv sizes blk live fl h m -> (exists i, is_bin i /\ size <= esize i) ->
  let i := find_bin (take (Z.to_nat (BIN_COUNT h)) (bins h)) size in
  can_take h i ->
  exists a h' blk' fl', kcache_alloc h m size = Ok (a, h') /\
    hinv sizes blk' ({[a]} ∪ live) fl' h' m /\ blk' a = Some i /\ a ∉ live /\
    size <= esize i /\ (forall x j, blk x = Some j -> blk' x = Some j) /\
    (fl i <> [] -> head (fl i) = Some a).
Proof.
  intros Hh Hsize i Hroom. destruct (find_bin_serves _ _ _ _ _ _ Hh Hsize) as (Hne & Hi & Hle).
  fold i in Hne, Hi, Hle. unfold kcache_alloc. fold i. rewrite (proj2 (Z.eqb_neq _ _) Hne).
  destruct (bin_take_ok _ _ _ _ _ _ Hh Hi Hroom) as
    (a & h1 & blk' & fl' & -> & Hh1 & Ht & Hmono & _ & Hhead).
  cbn [mbind outcome_bind]. destruct (hi_bins _ _ _ _ _ _ Hh1 i Hi) as (b & Hbi & B).
  rewrite Hbi. cbn [mbind outcome_bind]. rewrite aset_Ok by (by eapply aget_bound).
  cbn [mbind outcome_bind]. pose proof Ht as (Hblk & Hnl & _).
  set (b' := MkBin _ _ _ _ _ _ _). set (bins' := <[_ := b']> (bins h1)).
  change (get_page_cb (set_bins h1 bins') a) with (get_page_cb h1 a).
  rewrite (geom_page_cb blk' h1 a i) by (apply Hh1 || done).
  rewrite (bo_esize _ _ _ _ _ _ _ B). change (1 `max` (esize i / PAGE_SIZE)) with (npages i).
  change (heap_alloc_table (set_bins h1 bins')) with (heap_alloc_table h1).
  destruct (page_of_bounds _ _ _ _ (hi_geom _ _ _ _ _ _ Hh1) Hblk) as [Hp0 Hp1].
  assert (exists t, take_pages (Z.to_nat (npages i)) (heap_alloc_table h1) (page_of h1 a) = Ok t)
    as [t Htp].
  { rewrite take_pages_upd. destruct (upd_range_ok take_page (Z.to_nat (npages i))
      (heap_alloc_table h1) (page_of h1 a)) as (t & Ht' & _); [done|unfold Heap.npages in *; lia|].
    eauto. }
  rewrite Htp. cbn [mbind outcome_bind].
  eexists a, _, blk', fl'. split; [done|]. split_and!; try done.
  eapply (mark_live blk' live fl' h1 m a i t bins' b b'); try done.
  apply aset_Ok. by eapply aget_bound.
Qed.

(** A heap without room faults: what was returned was taken within the heap. *)
Lemma raw_mark_room n : forall fuel h i addr h',
  0 <= heap_base h <= addr -> addr <= heap_base h + heap_size h ->
  (addr - heap_base h) mod 4096 = 0 ->
  heap_size h / 4096 = Z.of_nat (length (heap_alloc_table h)) ->
  addr + 4096 * Z.of_nat n < 2 ^ 32 ->
  raw_mark fuel h i addr (addr + 4096 * Z.of_nat n) = Ok h' ->
  addr + 4096 * Z.of_nat n <= heap_base h + heap_size h.
Proof.
  induction n as [|n IH]; intros fuel h i addr h' Hlo Hle Hal Htab Hmax Hok; [lia|].
  destruct fuel as [|fuel]; cbn [raw_mark] in Hok;
    rewrite (proj2 (Z.ltb_lt addr _)) in Hok by lia; [done|].
  apply bind_Ok_inv in Hok as (pi & Hb%from_opt_Ok & Hok).
  apply bind_Ok_inv in Hok as (pg & Hb0 & Hok). apply bind_Ok_inv in Hok as (b & _ & Hok).
  apply bind_Ok_inv in Hok as (t & Hb2 & Hk2).
  assert (addr + 4096 <= heap_base h + heap_size h) as Hnext.
  { unfold get_page_cb in Hb. destruct (_ || _); [done|]. injection Hb as <-.
    apply aget_bound in Hb0. unfold PAGE_SIZE in Hb0. rewrite <- Htab in Hb0.
    clear - Hb0 Hlo Hal. Z.to_euclidean_division_equations; lia. }
  pose proof (aset_length _ _ _ _ Hb2) as Hl2.
  rewrite (u32_small (addr + PAGE_SIZE)) in Hk2 by (unfold PAGE_SIZE; lia).
  replace (addr + 4096 * Z.of_nat (S n)) with (addr + PAGE_SIZE + 4096 * Z.of_nat n) in *
    by (unfold PAGE_SIZE; lia).
  apply IH in Hk2; cbn [heap_base heap_size heap_alloc_table set_table] in *;
    unfold PAGE_SIZE in *; try lia. clear - Hal. Z.to_euclidean_division_equations; lia.
Qed.

Lemma bin_take_room blk live fl h m i r :
  hinv sizes blk live fl h m -> is_bin i -> bin_take h m i = Ok r -> can_take h i.
Proof.
  intros Hh Hi Hok b Hbi Hfl Hrc. destruct (hi_bins _ _ _ _ _ _ Hh i Hi) as (b' & Hb' & B).
  rewrite Hbi in Hb'. injection Hb' as <-. pose proof (size_cases i Hi) as Hsz.
  unfold bin_take in Hok. rewrite Hbi in Hok. cbn [mbind outcome_bind] in Hok.
  rewrite Hfl, Hrc in Hok. cbn [Z.eqb negb] in Hok. unfold raw_alloc in Hok.
  rewrite (bo_gsize _ _ _ _ _ _ _ B) in Hok.
  assert (gsize i mod 4096 = 0 /\ 0 <= gsize i <= 2 ^ 22) as [Hgm Hg].
  { destruct Hsz as [(? & ? & -> & _)|(? & ? & -> & _)]; [|lia]. split; [done|lia]. }
  pose proof (hi_geom _ _ _ _ _ _ Hh) as [Hbase Hptr Hend Htab _ _ _ _].
  rewrite PAGE_ALIGN_id in Hok by lia. rewrite (u32_small (heap_base_ptr h + _)) in Hok by lia.
  assert (gsize i = 4096 * Z.of_nat (Z.to_nat (gsize i / 4096))) as Hn.
  { rewrite Z2Nat.id by (apply Z.div_pos; lia).
    clear - Hgm Hg. Z.to_euclidean_division_equations; lia. }
  set (n := Z.to_nat (gsize i / 4096)) in *. inv_ok.
  replace (heap_base_ptr h + gsize i) with (heap_base_ptr h + 4096 * Z.of_nat n) in * by lia.
  match goal with H : raw_mark _ _ _ _ _ = Ok _ |- _ => apply raw_mark_room in H end; try lia.
  clear - Hbase Hptr. Z.to_euclidean_division_equations; lia.
Qed.

(** *** slab_free *)

Lemma freelist_frame m x v l : forall p, x ∉ l -> chain m p l -> chain (<[x := v]> m) p l.
Proof.
  induction l as [|a l IH]; intros p Hx; [done|]. apply not_elem_of_cons in Hx as [Hne Hx].
  intros (-> & Ha & Hc). cbn. split_and!; try done. unfold load at 1.
  rewrite lookup_insert_ne by done. by apply IH.
Qed.

(** A write to a block in use does not touch the lists. *)
Lemma hinv_write blk live fl h m a i x v :
  hinv sizes blk live fl h m -> a ∈ live -> blk a = Some i -> a <= x < a + esize i ->
  hinv sizes blk live fl h (<[x := v]> m).
Proof.
  intros [G Hb Hl Hu] Ha Hai Hx. split; try done. intros j Hj.
  destruct (Hb j Hj) as (b & Hbj & [? ? Hc Hf ? ? ?]). exists b. split; [done|].
  split; try done. apply freelist_frame; [|done]. intros Hin. destruct (Hf x Hin) as [Hxj Hnl].
  assert (a <> x) as Hne by (intros ->; done).
  pose proof (ge_sep _ _ _ G _ _ _ _ Hai Hxj Hne) as Hs.
  destruct (ge_blk _ _ _ G _ _ Hxj) as (Hj' & _). pose proof (size_cases j Hj').
  unfold disjoint_from in Hs. lia.
Qed.

(** The block leaves use: table and bins as slab_free leaves them. *)
Lemma unmark_live blk live fl h m a i t' bins' b b' :
  hinv sizes blk live fl h m -> a ∈ live -> blk a = Some i -> aget (bins h) i = Ok b ->
  element_size b' = element_size b -> grow_size b' = grow_size b -> free_list b' = a ->
  raw_list b' = raw_list b -> raw_count b' = raw_count b -> aset (bins h) i b' = Ok bins' ->
  length t' = length (heap_alloc_table h) ->
  (forall j p, aget (heap_alloc_table h) j = Ok p -> exists p', aget t' j = Ok p' /\
     bin_index p' = bin_index p /\
     in_use p' = if in_range (page_of h a) (esize i / 4096) j then 0 else in_use p) ->
  hinv sizes blk (live ∖ {[a]}) (upd_fl fl i (a :: fl i)) (set_bins (set_table h t') bins')
    (<[a := free_list b]> m).
Proof.
  intros [G Hb Hl Hu] Ha Hai Hbi E1 E2 E3 E4 E5 Hset Hlen' Hall.
  destruct (ge_blk _ _ _ G _ _ Hai) as (Hi & _).
  pose proof (geom_nonnull _ _ _ _ G Hai) as Ha0.
  destruct (Hb i Hi) as (b0 & Hb0 & B). rewrite Hbi in Hb0. injection Hb0 as <-.
  assert (forall j, is_bin j -> a ∉ fl j) as Hnf.
  { intros j Hj Hin. destruct (Hb j Hj) as (bj & _ & Bj).
    by destruct (bo_free _ _ _ _ _ _ _ Bj a Hin). }
  assert (a ∉ live ∖ {[a]}) as Hna
    by (rewrite elem_of_difference, elem_of_singleton; tauto).
  assert (forall x, x ∉ live -> x ∉ live ∖ {[a]}) as Hnd'
    by (intros x Hx; rewrite elem_of_difference; tauto).
  split.
  - destruct G as [? ? ? Htab ? ? Hpage ?]. split; try done; cbn.
    + by rewrite Hlen'.
    + intros x j k Hx Hk. destruct (Hpage x j k Hx Hk) as (p & Hp & <-).
      destruct (Hall _ _ Hp) as (p' & ? & ? & _). eauto.
  - intros j Hj. cbn. rewrite (aget_aset _ _ _ _ _ Hset).
    destruct (Hb j Hj) as (bj & Hbj & Bj). unfold upd_fl.
    destruct (decide (i = j)) as [<-|Hij].
    + exists b'. split; [done|]. destruct B as [He Hg Hc Hf Hnd Hct Hr].
      split; rewrite ?decide_True by done; rewrite ?E1, ?E2, ?E3, ?E4, ?E5; try done.
      * cbn. split_and!; try done; [lia|]. unfold load at 1. rewrite lookup_insert_eq.
        apply freelist_frame; auto.
      * intros x [->|Hx]%elem_of_cons; [split; [done|apply Hna]|].
        destruct (Hf x Hx). split; [done|by apply Hnd'].
      * constructor; auto.
      * intros k Hk. destruct (Hr k Hk) as (Hrk & ? & ?). split_and!; [done|by apply Hnd'|].
        apply not_elem_of_cons. split; [|done]. intros Heq. rewrite Heq in *. done.
    + exists bj. split; [done|]. destruct Bj as [He Hg Hc Hf Hnd Hct Hr].
      split; rewrite ?decide_False by done; try done.
      * apply freelist_frame; auto.
      * intros x Hx. destruct (Hf x Hx). split; [done|by apply Hnd'].
      * intros k Hk. destruct (Hr k Hk) as (? & ? & ?). split_and!; [done|by apply Hnd'|done].
  - intros x [Hx _]%elem_of_difference. by apply Hl.
  - intros x j k Hx Hbig Hk. destruct (Hu x j k Hx Hbig Hk) as (p & Hp & Hup). cbn.
    destruct (Hall _ _ Hp) as (p' & Hp' & _ & Hu'). exists p'. split; [done|]. rewrite Hu'.
    destruct (decide (x = a)) as [->|Hne].
    + rewrite (bool_decide_eq_false_2 (a ∈ _)) by apply Hna. rewrite Hai in Hx. injection Hx as <-.
      pose proof (size_cases i Hi) as Hsz.
      assert (1 <= esize i / 4096) by (apply Z.div_le_lower_bound; lia).
      rewrite (proj2 (in_range_spec _ _ _)); [done|]. unfold Heap.npages in Hk. lia.
    + assert (in_range (page_of h a) (esize i / 4096) (page_of h x + k) = false) as ->.
      { apply not_true_iff_false. rewrite in_range_spec. intros Hr.
        eapply (pages_apart blk h a i x j (page_of h x + k - page_of h a) k); eauto; try lia.
        unfold Heap.npages. lia. }
      rewrite Hup. assert (bool_decide (x ∈ live ∖ {[a]}) = bool_decide (x ∈ live)) as ->;
        [|done]. apply bool_decide_ext. rewrite elem_of_difference, elem_of_singleton. tauto.
Qed.

Lemma slab_free_ok blk live fl h m a :
  hinv sizes blk live fl h m -> a ∈ live ->
  exists h' m' i, blk a = Some i /\ slab_free h m a 0 = Ok (1, h', m') /\
    hinv sizes blk (live ∖ {[a]}) (upd_fl fl i (a :: fl i)) h' m' /\
    heap_base_ptr h' = heap_base_ptr h /\ heap_base h' = heap_base h /\
    heap_size h' = heap_size h /\ BIN_COUNT h' = BIN_COUNT h /\
    element_size <$> bins h' = element_size <$> bins h.
Proof.
  intros Hh Ha. pose proof Hh as [G Hb Hl Hu]. destruct (Hl a Ha) as [i Hai].
  pose proof (geom_nonnull _ _ _ _ G Hai) as Ha0. destruct (ge_blk _ _ _ G _ _ Hai) as (Hi & _).
  destruct (Hb i Hi) as (b & Hbi & B). pose proof (size_cases i Hi) as Hsz.
  unfold slab_free. rewrite (proj2 (Z.eqb_neq a NULL)) by (unfold NULL; lia).
  rewrite (geom_page_cb _ _ _ _ G Hai).
  destruct (ge_page _ _ _ G a i 0 Hai) as (p & Hp & Hpi); [unfold Heap.npages; lia|].
  rewrite Z.add_0_r in Hp. rewrite Hp. cbn [mbind outcome_bind]. rewrite Hpi, Hbi.
  cbn [mbind outcome_bind]. rewrite (bo_esize _ _ _ _ _ _ _ B). unfold PAGE_SIZE.
  destruct (page_of_bounds _ _ _ _ G Hai) as [Hp0 Hp1].
  set (n := Z.to_nat (esize i / 4096)).
  assert (Z.of_nat n = esize i / 4096) as Hn by (apply Z2Nat.id, Z.div_pos; lia).
  assert (drop_pages n (heap_alloc_table h) (page_of h a) true =
    (t' ← upd_range drop_page n (heap_alloc_table h) (page_of h a); Ok (t', true))) as Hd.
  { apply drop_pages_upd. intros k Hk. destruct (Hu a i k Hai) as (q & Hq & Hqu).
    - clear - Hk Hn Hsz. destruct Hsz as [(? & _)|(? & _)]; [|lia].
      rewrite Z.div_small in Hn by lia. lia.
    - unfold Heap.npages. lia.
    - exists q. split; [done|]. by rewrite bool_decide_eq_true_2 in Hqu. }
  destruct (upd_range_ok drop_page n (heap_alloc_table h) (page_of h a)) as
    (t & Ht & Hlt & Hall); [done|unfold Heap.npages in Hp1; lia|].
  rewrite Ht in Hd. cbn [mbind outcome_bind] in Hd. rewrite Hd. cbn [mbind outcome_bind negb].
  rewrite aset_Ok by (by eapply aget_bound). cbn [mbind outcome_bind].
  rewrite Z.add_0_r, (u32_small a) by lia.
  eexists _, _, i. split; [done|]. split; [done|].
  split; [|split_and!; try done]; cycle 1.
  { cbn. rewrite list_fmap_insert. apply list_insert_id. apply aget_Ok in Hbi as [_ Hbi].
    rewrite list_lookup_fmap, Hbi. cbn. by rewrite (bo_esize _ _ _ _ _ _ _ B). }
  match goal with |- context [<[_ := ?x]> (bins _)] =>
    eapply (unmark_live blk live fl h m a i t _ b x) end; try done.
  - cbn. by rewrite (bo_esize _ _ _ _ _ _ _ B).
  - apply aset_Ok. by eapply aget_bound.
  - intros j q Hq. exists (if in_range (page_of h a) (Z.of_nat n) j then drop_page q else q).
    split; [by apply Hall|]. rewrite Hn. by destruct (in_range _ _ _).
Qed.

(** Every outcome of kcache_alloc that is not a fault. *)
Lemma kcache_alloc_run blk live fl h m size a h' :
  hinv sizes blk live fl h m -> kcache_alloc h m size = Ok (a, h') ->
  (a = NULL /\ h' = h /\ forall i, is_bin i -> esize i < size) \/
  (a <> NULL /\ a ∉ live /\ exists blk' fl' i, hinv sizes blk' ({[a]} ∪ live) fl' h' m /\
     blk' a = Some i /\ size <= esize i /\ forall x j, blk x = Some j -> blk' x = Some j).
Proof.
  intros Hh Hok.
  destruct (find_bin_cases _ _ _ _ _ size Hh) as [[Heq Hno]|(Hne & Hi & Hs)].
  { left. unfold kcache_alloc in Hok. rewrite (proj2 (Z.eqb_eq _ _) Heq) in Hok.
    injection Hok as <- <-. done. }
  right. assert (can_take h (find_bin (take (Z.to_nat (BIN_COUNT h)) (bins h)) size)) as Hc.
  { unfold kcache_alloc in Hok. rewrite (proj2 (Z.eqb_neq _ _) Hne) in Hok.
    apply bind_Ok_inv in Hok as (r & Hr & _). by eapply bin_take_room. }
  destruct (kcache_alloc_ok _ _ _ _ _ size Hh) as
    (a' & h1 & blk' & fl' & Hok' & Hh1 & Hblk & Hnl & _ & Hm & _); [by eauto|done|].
  rewrite Hok in Hok'. injection Hok' as <- <-. split_and!; [|done|by eauto 10].
  pose proof (geom_nonnull _ _ _ _ (hi_geom _ _ _ _ _ _ Hh1) Hblk). unfold NULL. lia.
Qed.

Lemma slab_get_size_ok blk live fl h m a i :
  hinv sizes blk live fl h m -> blk a = Some i -> slab_get_size h a = Ok (esize i).
Proof.
  intros [G Hb _ _] Hai. pose proof (geom_nonnull _ _ _ _ G Hai) as Ha0.
  destruct (ge_blk _ _ _ G _ _ Hai) as (Hi & _). destruct (Hb i Hi) as (b & Hbi & B).
  unfold slab_get_size. rewrite (proj2 (Z.eqb_neq a NULL)) by (unfold NULL; lia).
  rewrite (geom_page_cb _ _ _ _ G Hai).
  destruct (ge_page _ _ _ G a i 0 Hai) as (p & Hp & Hpi); [unfold Heap.npages; lia|].
  rewrite Z.add_0_r in Hp. rewrite Hp. cbn [mbind outcome_bind]. rewrite Hpi, Hbi.
  cbn [mbind outcome_bind]. by rewrite (bo_esize _ _ _ _ _ _ _ B).
Qed.

Lemma raw_mark_fault n : forall fuel h i b addr,
  aget (bins h) i = Ok b -> 0 <= heap_base h <= addr ->
  addr <= heap_base h + heap_size h -> (addr - heap_base h) mod 4096 = 0 ->
  heap_size h / 4096 = Z.of_nat (length (heap_alloc_table h)) ->
  addr + 4096 * Z.of_nat n < 2 ^ 32 -> (n <= fuel)%nat ->
  heap_base h + heap_size h < addr + 4096 * Z.of_nat n ->
  raw_mark fuel h i addr (addr + 4096 * Z.of_nat n) = Fault.
Proof.
  induction n as [|n IH]; intros fuel h i b addr Hbi Hlo Hle Hal Htab Hmax Hf Hno; [lia|].
  destruct fuel as [|fuel]; [lia|]. cbn [raw_mark].
  rewrite (proj2 (Z.ltb_lt addr _)) by lia.
  unfold get_page_cb. rewrite (u32_small (heap_base h + _)) by lia.
  rewrite (proj2 (Z.ltb_ge addr _)) by lia. cbn [orb].
  destruct (Z.leb_spec (heap_base h + heap_size h) addr) as [Hge|Hlt]; [done|].
  cbn [from_opt mbind outcome_bind].
  change ((addr - heap_base h) / PAGE_SIZE) with ((addr - heap_base h) / 4096).
  destruct (decide (addr + 4096 <= heap_base h + heap_size h)) as [Hin|Hout].
  - destruct (aget_is_Ok (heap_alloc_table h) ((addr - heap_base h) / 4096)) as [p Hp].
    { rewrite <- Htab. clear - Hin Hlo. Z.to_euclidean_division_equations; lia. }
    rewrite Hp. cbn [mbind outcome_bind]. rewrite Hbi. cbn [mbind outcome_bind].
    rewrite aset_Ok by (by eapply aget_bound). cbn [mbind outcome_bind].
    rewrite (u32_small (addr + PAGE_SIZE)) by (unfold PAGE_SIZE; lia).
    replace (addr + 4096 * Z.of_nat (S n)) with (addr + PAGE_SIZE + 4096 * Z.of_nat n)
      by (unfold PAGE_SIZE; lia).
    eapply IH; cbn [bins heap_base heap_size heap_alloc_table set_table];
      try exact Hbi; unfold PAGE_SIZE; try lia.
    + clear - Hal. Z.to_euclidean_division_equations; lia.
    + rewrite length_insert. done.
  - assert (aget (heap_alloc_table h) ((addr - heap_base h) / 4096) = Fault) as ->; [|done].
    unfold aget. rewrite (proj2 (Z.leb_le 0 _)) by (apply Z.div_pos; lia).
    rewrite lookup_ge_None_2; [done|].
    assert (heap_size h / 4096 <= (addr - heap_base h) / 4096); [|lia].
    clear - Hout Hal Hlo. Z.to_euclidean_division_equations; lia.
Qed.

Lemma bin_take_fault blk live fl h m i b :
  hinv sizes blk live fl h m -> is_bin i -> aget (bins h) i = Ok b -> free_list b = 0 ->
  raw_count b = 0 -> heap_base h + heap_size h < heap_base_ptr h + gsize i ->
  bin_take h m i = Fault.
Proof.
  intros Hh Hi Hbi Hfl Hrc Hno. destruct (hi_bins _ _ _ _ _ _ Hh i Hi) as (b' & Hb' & B).
  rewrite Hbi in Hb'. injection Hb' as <-. pose proof (size_cases i Hi) as Hsz.
  unfold bin_take. rewrite Hbi. cbn [mbind outcome_bind].
  rewrite Hfl, Hrc. cbn [Z.eqb negb]. unfold raw_alloc. rewrite (bo_gsize _ _ _ _ _ _ _ B).
  assert (gsize i mod 4096 = 0 /\ 0 <= gsize i <= 2 ^ 22) as [Hgm Hg].
  { destruct Hsz as [(? & ? & -> & _)|(? & ? & -> & _)]; [|lia]. split; [done|lia]. }
  pose proof (hi_geom _ _ _ _ _ _ Hh) as [Hbase Hptr Hend Htab _ _ _ _].
  rewrite PAGE_ALIGN_id by lia. rewrite (u32_small (heap_base_ptr h + _)) by lia.
  assert (gsize i = 4096 * Z.of_nat (Z.to_nat (gsize i / 4096))) as Hn.
  { rewrite Z2Nat.id by (apply Z.div_pos; lia).
    clear - Hgm Hg. Z.to_euclidean_division_equations; lia. }
  set (n := Z.to_nat (gsize i / 4096)) in *.
  replace (heap_base_ptr h + gsize i) with (heap_base_ptr h + 4096 * Z.of_nat n) by lia.
  rewrite (raw_mark_fault n _ h i b); try done; try lia.
  - clear - Hbase Hptr. Z.to_euclidean_division_equations; lia.
  - unfold n, PAGE_SIZE. assert (0 <= gsize i / 4096) by (apply Z.div_pos; lia). lia.
Qed.
End Proofs.

(** ** The kernel heap *)

Definition ksizes : list (Z * Z) := (fun b => (element_size b, grow_size b)) <$> kbins.

Lemma ksizes_ok : Forall size_ok ksizes.
Proof.
  unfold ksizes, kbins, size_ok. cbn. unfold PAGE_SIZE.
  repeat (constructor; [cbn; lia || (left; split_and!; [lia..|reflexivity|reflexivity]) ||
    (right; split_and!; [lia..|reflexivity|reflexivity])|]). constructor.
Qed.

Lemma ksizes_len : (length ksizes <= 32)%nat.
Proof. cbn. lia. Qed.

Definition kinv := hinv ksizes.

Lemma PAGE_ALIGN_mod x : PAGE_ALIGN x mod 4096 = 0 /\ 0 <= PAGE_ALIGN x.
Proof.
  unfold PAGE_ALIGN, PAGE_SIZE. rewrite <- Z.ldiff_land. change (4096 - 1) with (Z.ones 12).
  rewrite Z.ldiff_ones_r by lia. rewrite Z.shiftl_mul_pow2, Z.shiftr_div_pow2 by lia.
  change (2 ^ 12) with 4096. pose proof (u32_range (x + Z.ones 12)).
  split; [apply Z_mod_mult|]. Z.to_euclidean_division_equations; lia.
Qed.

(** Where kernel_heap_init puts a heap of [n] bytes at [addr]. *)
Definition heap_start (addr n : Z) : Z := addr + PAGE_ALIGN ((n - 4096) / 1024).
Definition heap_end (addr n : Z) : Z := heap_start addr n + (n - 4096).

Definition good_region (addr n : Z) : Prop :=
  0 < addr /\ addr mod 4096 = 0 /\ 4096 <= n /\ n mod 4096 = 0 /\
  heap_end addr n < 2 ^ 32 - 2 ^ 23.

Lemma kernel_heap_init_inv k addr n :
  good_region addr n ->
  let k' := kernel_heap_init k addr n in
  kinv (fun _ => None) ∅ (fun _ => []) (kernel_heap_list k') (kmem k') /\
  heap_base (kernel_heap_list k') = heap_start addr n /\
  heap_size (kernel_heap_list k') = n - 4096.
Proof.
  intros (Ha & Ham & Hn & Hnm & Hend). unfold heap_end, heap_start in *.
  destruct (PAGE_ALIGN_mod ((n - 4096) / 1024)) as [Hpm Hp0].
  cbn [kernel_heap_init kernel_heap_list kmem]. unfold heap_init. cbn [Z.eqb].
  change (n - PAGE_SIZE) with (n - 4096). change (PAGE_SIZE / 4) with 1024.
  rewrite (u32_small (n - 4096)) by lia.
  rewrite (u32_small (addr + _)) by lia. split; [|done]. split.
  - split; cbn [heap_base heap_size heap_base_ptr heap_alloc_table BIN_COUNT]; try done.
    + split; [lia|]. rewrite Z.add_mod, Ham, Hpm by lia. done.
    + split; [lia|]. rewrite Z.add_mod, Ham, Hpm by lia. done.
    + rewrite length_replicate, Z2Nat.id; [done|]. apply Z.div_pos; unfold PAGE_SIZE; lia.
  - intros i Hi. unfold is_bin in Hi. cbn [bins].
    destruct (lookup_lt_is_Some_2 kbins (Z.to_nat i)) as [b Hb]; [cbn in *; lia|].
    exists b. split.
    { apply aget_Ok. split; [lia|]. by apply lookup_app_l_Some. }
    assert (ksizes !! Z.to_nat i = Some (element_size b, grow_size b)) as Hs.
    { unfold ksizes. by rewrite list_lookup_fmap, Hb. }
    assert (free_list b = 0 /\ raw_count b = 0) as [Hf Hr].
    { apply list_elem_of_lookup_2 in Hb. unfold kbins in Hb.
      apply list_elem_of_fmap in Hb as (eg & -> & _). done. }
    split; try done.
    + unfold esize. by rewrite Hs.
    + unfold gsize. by rewrite Hs.
    + by intros a ?%elem_of_nil.
    + constructor.
    + rewrite Hr. done.
    + rewrite Hr. lia.
  - by intros a ?%elem_of_empty.
  - done.
Qed.

(** *** The heap's place does not change *)

Lemma raw_mark_frame fuel : forall h i a n h',
  raw_mark fuel h i a n = Ok h' -> heap_base h' = heap_base h /\ heap_size h' = heap_size h.
Proof.
  induction fuel as [|fuel IH]; intros h i a n h'; cbn [raw_mark];
    destruct (a <? n); intros H; inv_ok; try done.
  match goal with H : raw_mark _ _ _ _ _ = Ok _ |- _ => by apply IH in H end.
Qed.

Lemma bin_take_frame h m i a h' :
  bin_take h m i = Ok (a, h') -> heap_base h' = heap_base h /\ heap_size h' = heap_size h.
Proof.
  unfold bin_take. intros H. inv_ok. destruct (negb _); inv_ok; [done|].
  destruct (raw_count _ =? 0); inv_ok; [|done].
  unfold raw_alloc in *. inv_ok. cbn in *. by eapply raw_mark_frame.
Qed.

Lemma kcache_alloc_frame h m size a h' :
  kcache_alloc h m size = Ok (a, h') ->
  heap_base h' = heap_base h /\ heap_size h' = heap_size h.
Proof.
  unfold kcache_alloc. destruct (_ =? BIN_COUNT h); intros H; inv_ok; [done|].
  destruct a0 as [x h1]. apply bin_take_frame in Hb. inv_ok.
  destruct (get_page_cb _ _); inv_ok; done.
Qed.

(** *** Runs of the kernel heap

    [L] records the blocks the kernel holds, with the sizes it asked for. *)
Inductive heap_step : kheap * gmap Z Z -> kheap * gmap Z Z -> Prop :=
  | step_kmalloc k L size flag a k' :
      0 <= size -> kmalloc k size flag = Ok (a, k') -> a <> NULL ->
      heap_step (k, L) (k', <[a := size]> L)
  | step_kmalloc_null k L size flag k' :
      kmalloc k size flag = Ok (NULL, k') -> heap_step (k, L) (k', L)
  | step_kfree k L a rc k' :
      is_Some (L !! a) -> kfree k a = Ok (rc, k') -> heap_step (k, L) (k', delete a L)
  | step_write k L a size x v :
      L !! a = Some size -> a <= x < a + size ->
      heap_step (k, L) (MkK (kernel_heap_list k) (<[x := v]> (kmem k)), L).

(** The invariant of the runs from a heap of [n] bytes at [addr]. *)
Definition run_inv (addr n : Z) (s : kheap * gmap Z Z) : Prop :=
  let '(k, L) := s in
  heap_base (kernel_heap_list k) = heap_start addr n /\
  heap_size (kernel_heap_list k) = n - 4096 /\
  exists blk fl, kinv blk (dom L) fl (kernel_heap_list k) (kmem k) /\
    forall a size, L !! a = Some size -> 0 <= size /\
      exists i, blk a = Some i /\ size <= esize ksizes i.

Lemma run_inv_step addr n s s' : run_inv addr n s -> heap_step s s' -> run_inv addr n s'.
Proof.
  intros Hinv Hstep. destruct Hstep as [k L size flag a k' Hs Hok Ha|k L size flag k' Hok|
    k L a rc k' Ha Hok|k L a size x v Ha Hx]; destruct Hinv as (Hb & Hsz & blk & fl & K & HL).
  - unfold kmalloc in Hok. apply bind_Ok_inv in Hok as ([a' h'] & Hok & [= <- <-]).
    destruct (kcache_alloc_frame _ _ _ _ _ Hok) as [Hb' Hs'].
    destruct (kcache_alloc_run _ ksizes_ok ksizes_len _ _ _ _ _ _ _ _ K Hok) as
      [[? _]|(_ & Hnl & blk' & fl' & i & K' & Hai & Hle & Hm)]; [done|].
    split; [cbn; congruence|]. split; [cbn; congruence|]. exists blk', fl'.
    rewrite dom_insert_L. split; [done|]. intros x sx [[<- <-]|[Hne Hx]]%lookup_insert_Some.
    + eauto.
    + destruct (HL x sx Hx) as (? & j & ? & ?). eauto.
  - unfold kmalloc in Hok. apply bind_Ok_inv in Hok as ([a' h'] & Hok & [= -> <-]).
    destruct (kcache_alloc_run _ ksizes_ok ksizes_len _ _ _ _ _ _ _ _ K Hok) as
      [(_ & -> & _)|[? _]]; [|done]. split; [done|]. split; [done|]. by exists blk, fl.
  - unfold kfree in Hok. apply bind_Ok_inv in Hok as ([[rc' h'] m'] & Hok & [= <- <-]).
    destruct (slab_free_ok _ ksizes_ok ksizes_len _ _ _ _ _ a K) as
      (h1 & m1 & i & Hai & Hok' & K' & _ & Hb' & Hs' & _); [by apply elem_of_dom|].
    rewrite Hok in Hok'. injection Hok' as -> -> ->.
    split; [cbn; congruence|]. split; [cbn; congruence|]. eexists blk, _.
    rewrite dom_delete_L. split; [exact K'|]. intros x sx [_ Hx]%lookup_delete_Some. eauto.
  - split; [done|]. split; [done|]. exists blk, fl. split; [|done]. cbn.
    destruct (HL a size Ha) as (_ & i & Hai & Hle).
    eapply hinv_write; eauto using ksizes_ok, ksizes_len; [by apply elem_of_dom_2 in Ha|lia].
Qed.

Lemma run_inv_reach addr n k s :
  good_region addr n -> reach heap_step (kernel_heap_init k addr n, ∅) s -> run_inv addr n s.
Proof.
  intros Hg. apply reach_invariant; [|by apply run_inv_step].
  destruct (kernel_heap_init_inv k addr n Hg) as (K & Hb & Hs).
  split; [done|]. split; [done|]. exists (fun _ => None), (fun _ => []).
  rewrite dom_empty_L. split; [done|]. intros a size. by rewrite lookup_empty.
Qed.

Lemma kbin_for size : size <= 2 ^ 22 -> exists i, is_bin ksizes i /\ size <= esize ksizes i.
Proof. intros. exists 27. split; [unfold is_bin; cbn; lia|]. by change (esize ksizes 27) with (2 ^ 22). Qed.

(** Two blocks with their sizes, [s] and [t] bytes, do not overlap. *)
Definition no_overlap (a s b t : Z) : Prop := a + s <= b \/ b + t <= a.

Lemma run_inv_blocks addr n k L :
  good_region addr n -> run_inv addr n (k, L) ->
  (forall a s, L !! a = Some s -> heap_start addr n <= a /\ a + s <= heap_end addr n) /\
  (forall a s b t, L !! a = Some s -> L !! b = Some t -> a <> b -> no_overlap a s b t).
Proof.
  intros Hg (Hb & Hs & blk & fl & K & HL). pose proof (hi_geom _ _ _ _ _ _ K) as G. split.
  - intros a s Ha. destruct (HL a s Ha) as (_ & i & Hai & Hle).
    destruct (ge_blk _ _ _ G _ _ Hai) as (_ & H1 & H2 & _). pose proof (ge_ptr _ _ _ G).
    unfold heap_end. lia.
  - intros a s b t Ha Hb' Hne. destruct (HL a s Ha) as (_ & i & Hai & Hle).
    destruct (HL b t Hb') as (_ & j & Hbj & Hle').
    pose proof (ge_sep _ _ _ G _ _ _ _ Hai Hbj Hne) as Hsep.
    unfold disjoint_from, no_overlap in *. lia.
Qed.

Lemma run_inv_kmalloc addr n k L size flag :
  good_region addr n -> run_inv addr n (k, L) -> 0 <= size <= 2 ^ 22 ->
  heap_base_ptr (kernel_heap_list k) + 2 ^ 22 <= heap_end addr n ->
  exists a k', kmalloc k size flag = Ok (a, k') /\ a <> NULL /\ L !! a = None /\
    forall b t, L !! b = Some t -> no_overlap a size b t.
Proof.
  intros Hg Hinv Hsize Hroom. pose proof Hinv as (Hb & Hs & blk & fl & K & HL).
  pose proof (kbin_for size ltac:(lia)) as Hbin.
  destruct (kcache_alloc_ok _ ksizes_ok ksizes_len _ _ _ _ _ size K Hbin)
    as (a & h' & blk' & fl' & Hok & K' & Hai & Hnl & _).
  { intros b Hbi _ _. destruct (find_bin_serves _ ksizes_len _ _ _ _ _ size K Hbin) as (_ & Hi & _).
    pose proof (size_cases _ ksizes_ok ksizes_len _ Hi). unfold heap_end in Hroom. lia. }
  assert (kmalloc k size flag = Ok (a, MkK h' (kmem k))) as Hkm
    by (unfold kmalloc; by rewrite Hok).
  assert (a <> NULL) as Hnn.
  { pose proof (geom_nonnull _ ksizes_ok ksizes_len _ _ _ _ (hi_geom _ _ _ _ _ _ K') Hai).
    unfold NULL. lia. }
  eexists a, _. split; [exact Hkm|]. split; [done|]. split; [by apply not_elem_of_dom|].
  assert (run_inv addr n (MkK h' (kmem k), <[a := size]> L)) as Hinv'.
  { eapply run_inv_step; [exact Hinv|]. eapply step_kmalloc; eauto. lia. }
  intros b t Hbt. assert (a <> b) as Hne.
  { intros ->. apply Hnl. by apply elem_of_dom_2 in Hbt. }
  apply (proj2 (run_inv_blocks _ _ _ _ Hg Hinv') a size b t); [by rewrite lookup_insert_eq| |done].
  by rewrite lookup_insert_ne.
Qed.

Lemma run_inv_kfree addr n k L a s :
  run_inv addr n (k, L) -> L !! a = Some s ->
  (exists k', kfree k a = Ok (1, k')) /\ exists z, ksize k a = Ok z /\ s <= z.
Proof.
  intros (Hb & Hs & blk & fl & K & HL) Ha.
  destruct (slab_free_ok _ ksizes_ok ksizes_len _ _ _ _ _ a K) as
    (h1 & m1 & i & Hai & Hok & _); [by apply elem_of_dom_2 in Ha|].
  split; [unfold kfree; rewrite Hok; by eexists|]. destruct (HL a s Ha) as (_ & j & Haj & Hle).
  exists (esize ksizes j). split; [|done]. by apply (slab_get_size_ok _ ksizes_ok ksizes_len _ _ _ _ _ _ _ K).
Qed.

(** C9: safety of the kernel heap.  In every state reached from
    kernel_heap_init by kmalloc, kfree of a block held, and writes inside blocks
    held, the blocks held lie within the heap and do not overlap; kmalloc of up
    to 4 MB, with 4 MB of the heap not yet carved, returns a block nobody holds,
    apart from all others and of the size asked; kfree of a block held succeeds
    and ksize gives at least the size asked. *)
Theorem kernel_heap_safety addr n k0 k L :
  good_region addr n -> reach heap_step (kernel_heap_init k0 addr n, ∅) (k, L) ->
  (forall a s, L !! a = Some s -> heap_start addr n <= a /\ a + s <= heap_end addr n) /\
  (forall a s b t, L !! a = Some s -> L !! b = Some t -> a <> b -> no_overlap a s b t) /\
  (forall size flag, 0 <= size <= 2 ^ 22 ->
     heap_base_ptr (kernel_heap_list k) + 2 ^ 22 <= heap_end addr n ->
     exists a k', kmalloc k size flag = Ok (a, k') /\ a <> NULL /\ L !! a = None /\
       forall b t, L !! b = Some t -> no_overlap a size b t) /\
  (forall a s, L !! a = Some s ->
     (exists k', kfree k a = Ok (1, k')) /\ exists z, ksize k a = Ok z /\ s <= z).
Proof.
  intros Hg Hreach. pose proof (run_inv_reach _ _ _ _ Hg Hreach) as Hinv.
  destruct (run_inv_blocks _ _ _ _ Hg Hinv) as [H1 H2]. split_and!; try done.
  - intros. by eapply run_inv_kmalloc.
  - intros. by eapply run_inv_kfree.
Qed.

Lemma kernel_heap_safety_witness :
  let k0 := kernel_heap_init (MkK zero_heap ∅) 0x1000000 0x1800000 in
  exists a k, kmalloc k0 100 0 = Ok (a, k) /\ a <> NULL /\
    (exists a' k', kmalloc k 5000 0 = Ok (a', k') /\ no_overlap a' 5000 a 100) /\
    exists k', kfree k a = Ok (1, k').
Proof.
  intros k0. assert (good_region 0x1000000 0x1800000) as Hg
    by (unfold good_region; split_and!; vm_compute; done).
  destruct (kernel_heap_safety _ _ (MkK zero_heap ∅) k0 ∅ Hg (reach_refl _ _)) as (_ & _ & Hm & _).
  destruct (Hm 100 0) as (a & k & Hok & Ha & _); [lia|vm_compute; done|].
  exists a, k. split; [done|]. split; [done|].
  destruct (kernel_heap_safety _ _ (MkK zero_heap ∅) k {[a := 100]} Hg) as (_ & _ & Hm' & Hf).
  { eapply reach_step; [apply reach_refl|]. by eapply (step_kmalloc k0 ∅ 100 0 a k). }
  split.
  - destruct (Hm' 5000 0) as (a' & k' & Hok' & _ & _ & Hno); [lia| |].
    + assert (kmalloc k0 100 0 = Ok (a, k) -> heap_base_ptr (kernel_heap_list k) = 16805888) as Hp.
      { destruct (kmalloc k0 100 0) as [[a1 k1]| | |] eqn:E; [|done..]. intros [= -> ->].
        assert (match kmalloc k0 100 0 with Ok (_, k1) =>
          heap_base_ptr (kernel_heap_list k1) =? 16805888 | _ => false end = true) as Hc
          by (vm_compute; reflexivity). rewrite E in Hc. by apply Z.eqb_eq in Hc. }
      rewrite (Hp Hok). vm_compute. done.
    + exists a', k'. split; [done|]. apply Hno. apply lookup_singleton_eq.
  - apply (Hf a 100). apply lookup_singleton_eq.
Defined.

(** an exhausted heap is not refused.  When the size class asked for has no
    element left and the heap no room for another chunk, kmalloc does not
    return NULL: the page lookup yields NULL and is written through. *)
Theorem kmalloc_exhausted_faults addr n k0 k L size flag i b :
  good_region addr n -> reach heap_step (kernel_heap_init k0 addr n, ∅) (k, L) ->
  let h := kernel_heap_list k in
  i = find_bin (take (Z.to_nat (BIN_COUNT h)) (bins h)) size -> size <= 2 ^ 22 ->
  aget (bins h) i = Ok b -> free_list b = 0 -> raw_count b = 0 ->
  heap_end addr n < heap_base_ptr h + grow_size b ->
  kmalloc k size flag = Fault.
Proof.
  intros Hg Hreach h -> Hsize Hbi Hfl Hrc Hno.
  destruct (run_inv_reach _ _ _ _ Hg Hreach) as (Hb & Hs & blk & fl & K & HL).
  destruct (find_bin_serves _ ksizes_len _ _ _ _ _ size K (kbin_for size Hsize)) as (Hne & Hi & _).
  fold h in Hne, Hi, Hb, Hs. destruct (hi_bins _ _ _ _ _ _ K _ Hi) as (b' & Hb' & B).
  fold h in Hb'. rewrite Hbi in Hb'. injection Hb' as <-.
  unfold kmalloc, kcache_alloc. fold h. rewrite (proj2 (Z.eqb_neq _ _) Hne).
  rewrite (bin_take_fault _ ksizes_ok ksizes_len _ _ _ h _ _ b K Hi Hbi Hfl Hrc); [done|].
  rewrite <- (bo_gsize _ _ _ _ _ _ _ B). unfold heap_end in Hno. lia.
Qed.

Lemma kmalloc_exhausted_faults_witness :
  let k0 := MkK zero_heap ∅ in
  kmalloc (kernel_heap_init k0 0x1000000 0x2000) 0x2000 0 = Fault.
Proof.
  intros k0. eapply (kmalloc_exhausted_faults 0x1000000 0x2000 k0 _ ∅ 0x2000 0 10);
    [|apply reach_refl|..]; try reflexivity; vm_compute; done.
Defined.

Lemma PAGE_ALIGN_up x : 0 <= x < 2 ^ 31 -> PAGE_ALIGN x = (x + 4095) / 4096 * 4096.
Proof.
  intros Hx. unfold PAGE_ALIGN, PAGE_SIZE. rewrite u32_small by lia.
  rewrite <- Z.ldiff_land. change (4096 - 1) with (Z.ones 12). rewrite Z.ldiff_ones_r by lia.
  rewrite Z.shiftl_mul_pow2, Z.shiftr_div_pow2 by lia. done.
Qed.

(** kernel_heap_init leaves one page for the table, which needs four bytes
    per page of the heap: a heap of more than 4 MB + 4 KB ends beyond the memory
    it was given, and only such a heap does. *)
Theorem heap_overruns_iff k addr n :
  good_region addr n -> n < 2 ^ 31 ->
  let h := kernel_heap_list (kernel_heap_init k addr n) in
  addr + n < heap_base h + heap_size h <-> 4 * 2 ^ 20 + 4096 < n.
Proof.
  intros Hg Hn h. destruct (kernel_heap_init_inv k addr n Hg) as (_ & Hb & Hs).
  fold h in Hb, Hs. rewrite Hb, Hs. destruct Hg as (_ & _ & Hn0 & Hnm & _).
  unfold heap_start. rewrite PAGE_ALIGN_up by
    (clear - Hn Hn0; Z.to_euclidean_division_equations; lia).
  clear - Hn Hn0 Hnm. Z.to_euclidean_division_equations; lia.
Qed.

(** The default heap of 24 MB. *)
Lemma heap_overruns_iff_witness :
  let h := kernel_heap_list (kernel_heap_init (MkK zero_heap ∅) 0x1000000 0x1800000) in
  (0x1000000 + 0x1800000 < heap_base h + heap_size h <-> 4 * 2 ^ 20 + 4096 < 0x1800000) /\
  heap_base h + heap_size h - (0x1000000 + 0x1800000) = 20480.
Proof.
  intros h. split; [|vm_compute; reflexivity].
  apply (heap_overruns_iff (MkK zero_heap ∅) 0x1000000 0x1800000); [|lia].
  unfold good_region; split_and!; vm_compute; done.
Defined.

(** *** kcalloc *)

Lemma zero_down_spec n : forall m q x,
  load (zero_down n m q) x =
    if bool_decide (q - 4 * Z.of_nat n <= x < q /\ (q - x) mod 4 = 0) then 0 else load m x.
Proof.
  induction n as [|n IH]; intros m q x; cbn [zero_down].
  { rewrite bool_decide_eq_false_2; [done|lia]. }
  rewrite IH. unfold load at 1. set (b1 := bool_decide _). set (b2 := bool_decide _).
  destruct (decide (x = q - 4)) as [->|Hne].
  - rewrite lookup_insert_eq. unfold b2. rewrite bool_decide_eq_true_2; [by destruct b1|].
    split; [lia|]. by replace (q - (q - 4)) with 4 by lia.
  - rewrite lookup_insert_ne by done. assert (b1 = b2) as ->; [|done].
    apply bool_decide_ext. clear - Hne.
    split; intros [? ?]; (split; [|]); Z.to_euclidean_division_equations; lia.
Qed.

Lemma ALIGN_up x : 0 <= x < 2 ^ 31 -> ALIGN x = (x + 3) / 4 * 4.
Proof.
  intros Hx. unfold ALIGN. rewrite u32_small by lia. rewrite <- Z.ldiff_land.
  change 3 with (Z.ones 2) at 2. rewrite Z.ldiff_ones_r by lia.
  rewrite Z.shiftl_mul_pow2, Z.shiftr_div_pow2 by lia. done.
Qed.

(** kcalloc returns, with 4 MB of the heap not yet carved, a block nobody
    holds, of the size rounded up to a word, all of whose words are zero; no
    other word of memory changes. *)
Theorem kcalloc_zeroes addr n k0 k L elsize :
  good_region addr n -> reach heap_step (kernel_heap_init k0 addr n, ∅) (k, L) ->
  0 <= elsize <= 2 ^ 22 - 4 -> heap_base_ptr (kernel_heap_list k) + 2 ^ 22 <= heap_end addr n ->
  exists a k', kcalloc k elsize = Ok (a, k') /\ a <> NULL /\ L !! a = None /\
    elsize <= ALIGN elsize /\
    (forall b t, L !! b = Some t -> no_overlap a (ALIGN elsize) b t) /\
    forall x, load (kmem k') x =
      if bool_decide (a <= x < a + ALIGN elsize /\ (x - a) mod 4 = 0) then 0
      else load (kmem k) x.
Proof.
  intros Hg Hreach He Hroom. pose proof (run_inv_reach _ _ _ _ Hg Hreach) as Hinv.
  pose proof (ALIGN_up elsize ltac:(lia)) as Hal.
  assert (elsize <= ALIGN elsize <= 2 ^ 22) as Hs
    by (rewrite Hal; clear - He; Z.to_euclidean_division_equations; lia).
  destruct (run_inv_kmalloc _ _ _ _ (ALIGN elsize) 0 Hg Hinv) as (a & k' & Hok & Ha & HL & Hno);
    [lia|done|].
  unfold kcalloc, mm_malloc. rewrite Hok. cbn [mbind outcome_bind].
  rewrite (proj2 (Z.eqb_neq a NULL) Ha). eexists a, _. split_and!; try done; [lia|].
  assert (kmem k' = kmem k) as Hm
    by (unfold kmalloc in Hok; apply bind_Ok_inv in Hok as ([] & _ & [= <- <-]); done).
  intros x. cbn [kmem]. rewrite zero_down_spec, Hm.
  assert (4 * Z.of_nat (Z.to_nat (ALIGN elsize / 4)) = ALIGN elsize) as H4.
  { rewrite Z2Nat.id by (apply Z.div_pos; lia). rewrite Hal. rewrite Z.div_mul by lia. lia. }
  rewrite H4. assert (bool_decide (a + ALIGN elsize - ALIGN elsize <= x < a + ALIGN elsize /\
    (a + ALIGN elsize - x) mod 4 = 0) = bool_decide (a <= x < a + ALIGN elsize /\ (x - a) mod 4 = 0))
    as ->; [|done]. apply bool_decide_ext. rewrite Hal. set (q := (elsize + 3) / 4). clearbody q.
  clear. split; intros [? ?]; (split; [lia|]); Z.to_euclidean_division_equations; lia.
Qed.

Lemma kcalloc_zeroes_witness :
  let k0 := kernel_heap_init (MkK zero_heap {[16801800 := 7]}) 0x1000000 0x1800000 in
  exists a k', kcalloc k0 30 = Ok (a, k') /\ a <> NULL /\ (∅ : gmap Z Z) !! a = None /\
    30 <= ALIGN 30 /\ (forall b t, (∅ : gmap Z Z) !! b = Some t -> no_overlap a (ALIGN 30) b t) /\
    forall x, load (kmem k') x =
      if bool_decide (a <= x < a + ALIGN 30 /\ (x - a) mod 4 = 0) then 0 else load (kmem k0) x.
Proof.
  intros k0. apply (kcalloc_zeroes 0x1000000 0x1800000 (MkK zero_heap {[16801800 := 7]}) k0 ∅ 30);
    [|apply reach_refl|lia|vm_compute; done].
  unfold good_region; split_and!; vm_compute; done.
Defined.
