(* ===== verification/Thread.v ===== *)
(** * Threads, the scheduler and wait queues
    (core/kernel/thread.c, core/kernel/system.c, core/kernel/schedule.c, sys/jicama/thread.h)

    The kernel runs one processor; the code below runs with interrupts off, so
    each function is one step.  A function that gives up the processor is split
    at its call of schedule(): the part before it and the part the thread runs
    when it is resumed.  The run list, the wait queues and the list of threads
    are lists of thread addresses; each TAILQ_ENTRY keeps the flag that
    TAILQ_ENTRY_EMPTY tests.  Inserting a thread that is on a list already, or
    removing one that is not on it, corrupts the links and is a fault (the
    discipline under which the macros refine lists, Queue.v). *)

From S2P Require Import Prelude Timer.

Definition TS_READY : Z := 1.
Definition TS_WAITING : Z := 2.
Definition TS_DEAD : Z := 4.
Definition TS_IOPENDING : Z := 240.
Definition INFINITE : Z := 2 ^ 32 - 1.
Definition MAX_PID : Z := 20000.
Definition MAX_PRIO : Z := 50.
Definition CPU_THREAD_RROI : Z := HZ / 10.
Definition NIL_THREAD : Z := 0.

(** The scheduling fields of struct tcb; [valid] is that the magic number is
    set, [run_linked], [wait_linked], [chain_linked] that the entry is not empty,
    [plink] the process. *)
Record tcb := MkTcb { tid : Z; ptid : Z; valid : bool; sleep_timer : Z; sticks : Z;
  tticks : Z; tprio : Z; timeout_signaled : Z; plink : Z; tstate : Z; msgport_id : Z;
  run_linked : bool; wait_linked : bool; chain_linked : bool }.

Definition set_tstate (x : tcb) (v : Z) : tcb :=
  MkTcb (tid x) (ptid x) (valid x) (sleep_timer x) (sticks x) (tticks x) (tprio x)
    (timeout_signaled x) (plink x) v (msgport_id x) (run_linked x) (wait_linked x) (chain_linked x).
Definition set_tticks (x : tcb) (v : Z) : tcb :=
  MkTcb (tid x) (ptid x) (valid x) (sleep_timer x) (sticks x) v (tprio x)
    (timeout_signaled x) (plink x) (tstate x) (msgport_id x) (run_linked x) (wait_linked x) (chain_linked x).
Definition set_tprio (x : tcb) (v : Z) : tcb :=
  MkTcb (tid x) (ptid x) (valid x) (sleep_timer x) (sticks x) (tticks x) v
    (timeout_signaled x) (plink x) (tstate x) (msgport_id x) (run_linked x) (wait_linked x) (chain_linked x).
Definition set_signaled (x : tcb) (v : Z) : tcb :=
  MkTcb (tid x) (ptid x) (valid x) (sleep_timer x) (sticks x) (tticks x) (tprio x)
    v (plink x) (tstate x) (msgport_id x) (run_linked x) (wait_linked x) (chain_linked x).
Definition set_sleep_timer (x : tcb) (v : Z) : tcb :=
  MkTcb (tid x) (ptid x) (valid x) v (sticks x) (tticks x) (tprio x)
    (timeout_signaled x) (plink x) (tstate x) (msgport_id x) (run_linked x) (wait_linked x) (chain_linked x).
Definition set_run_linked (x : tcb) (v : bool) : tcb :=
  MkTcb (tid x) (ptid x) (valid x) (sleep_timer x) (sticks x) (tticks x) (tprio x)
    (timeout_signaled x) (plink x) (tstate x) (msgport_id x) v (wait_linked x) (chain_linked x).
Definition set_wait_linked (x : tcb) (v : bool) : tcb :=
  MkTcb (tid x) (ptid x) (valid x) (sleep_timer x) (sticks x) (tticks x) (tprio x)
    (timeout_signaled x) (plink x) (tstate x) (msgport_id x) (run_linked x) v (chain_linked x).

(** The part of struct process threads use: its threads and their number. *)
Record process := MkProc { ntcb : Z; phead : list Z }.

Record kst := MkKst {
  tcbs : gmap Z tcb;
  thread_run_list : list Z;
  thread_list : list Z;
  next_pid : Z;
  current_tcb : Z;
  idle_task : Z;
  bill_proc : Z;
  waitqs : gmap Z (list Z);
  procs : gmap Z process;
  whl : wheel }.

Definition set_tcbs (k : kst) (v : gmap Z tcb) : kst :=
  MkKst v (thread_run_list k) (thread_list k) (next_pid k) (current_tcb k) (idle_task k)
    (bill_proc k) (waitqs k) (procs k) (whl k).
Definition set_run (k : kst) (v : list Z) : kst :=
  MkKst (tcbs k) v (thread_list k) (next_pid k) (current_tcb k) (idle_task k)
    (bill_proc k) (waitqs k) (procs k) (whl k).
Definition set_thread_list (k : kst) (v : list Z) : kst :=
  MkKst (tcbs k) (thread_run_list k) v (next_pid k) (current_tcb k) (idle_task k)
    (bill_proc k) (waitqs k) (procs k) (whl k).
Definition set_next_pid (k : kst) (v : Z) : kst :=
  MkKst (tcbs k) (thread_run_list k) (thread_list k) v (current_tcb k) (idle_task k)
    (bill_proc k) (waitqs k) (procs k) (whl k).
Definition set_current_thread (k : kst) (v : Z) : kst :=
  MkKst (tcbs k) (thread_run_list k) (thread_list k) (next_pid k) v (idle_task k)
    (bill_proc k) (waitqs k) (procs k) (whl k).
Definition set_bill (k : kst) (v : Z) : kst :=
  MkKst (tcbs k) (thread_run_list k) (thread_list k) (next_pid k) (current_tcb k) (idle_task k)
    v (waitqs k) (procs k) (whl k).
Definition set_waitqs (k : kst) (v : gmap Z (list Z)) : kst :=
  MkKst (tcbs k) (thread_run_list k) (thread_list k) (next_pid k) (current_tcb k) (idle_task k)
    (bill_proc k) v (procs k) (whl k).
Definition set_procs (k : kst) (v : gmap Z process) : kst :=
  MkKst (tcbs k) (thread_run_list k) (thread_list k) (next_pid k) (current_tcb k) (idle_task k)
    (bill_proc k) (waitqs k) v (whl k).
Definition set_whl (k : kst) (v : wheel) : kst :=
  MkKst (tcbs k) (thread_run_list k) (thread_list k) (next_pid k) (current_tcb k) (idle_task k)
    (bill_proc k) (waitqs k) (procs k) v.

(** Reading and writing through a thread pointer. *)
Definition getT (k : kst) (t : Z) : outcome tcb := from_opt (tcbs k !! t).
Definition putT (k : kst) (t : Z) (x : tcb) : kst := set_tcbs k (<[t := x]> (tcbs k)).

Definition waitq (k : kst) (q : Z) : list Z := default [] (waitqs k !! q).
Definition put_waitq (k : kst) (q : Z) (l : list Z) : kst := set_waitqs k (<[q := l]> (waitqs k)).

(** Insertion and removal under the discipline of Queue.v. *)
Definition q_insert_tail (l : list Z) (x : Z) : outcome (list Z) :=
  if decide (x ∈ l) then Fault else Ok (l ++ [x]).
Definition q_remove (l : list Z) (x : Z) : outcome (list Z) :=
  if decide (x ∈ l) then Ok (list_del x l) else Fault.
Definition on_waitq (k : kst) (t : Z) : bool :=
  bool_decide (map_Exists (fun _ l => t ∈ l) (waitqs k)).

Definition get_pid (k : kst) : Z * kst :=
  let p := u32 (next_pid k + 1) in
  let p := if p <? MAX_PID then p else 1 in
  (p, set_next_pid k p).

(** LIST_FOREACH over the threads. *)
Fixpoint find_tid (m : gmap Z tcb) (l : list Z) (id : Z) : outcome Z :=
  match l with
  | [] => Ok NIL_THREAD
  | t :: l => x ← from_opt (m !! t); if tid x =? id then Ok t else find_tid m l id
  end.
Definition find_thread_byid (k : kst) (id : Z) : outcome Z := find_tid (tcbs k) (thread_list k) id.

(** Compares tids, as the loop over the run list does. *)
Definition find_thread_on_runlist (k : kst) (t : Z) : outcome bool :=
  match thread_run_list k with
  | [] => Ok false
  | l =>
      x ← getT k t;
      r ← find_tid (tcbs k) l (tid x);
      Ok (negb (r =? NIL_THREAD))
  end.

(** [a] is what kcalloc returned: zeroed memory, or NULL. *)
Definition alloc_tcb (k : kst) (a : Z) : Z * kst :=
  if a =? 0 then (NIL_THREAD, k)
  else
    let '(p, k) := get_pid k in
    let k := putT k a (MkTcb p 0 false 0 0 0 0 0 0 0 0 false false false) in
    (a, set_thread_list k (a :: thread_list k)).

Definition free_tcb (k : kst) (t : Z) : outcome kst :=
  if t =? 0 then Panic
  else l ← q_remove (thread_list k) t; Ok (set_thread_list k l).

Definition thread_ready (k : kst) (t : Z) : outcome (Z * kst) :=
  if t =? NIL_THREAD then Ok (-1, k)
  else
    x ← getT k t;
    if negb (valid x) then Ok (-1, k)
    else if run_linked x then Ok (-1, k)
    else if tstate x =? TS_DEAD then Ok (-1, k)
    else
      _ ← kassert (negb (plink x =? 0));
      let x := set_tstate (set_tticks x (4 `max` tticks x)) TS_READY in
      l ← q_insert_tail (thread_run_list k) t;
      Ok (0, set_run (putT k t (set_run_linked x true)) l).

(** ** Sleep timers *)

(** The memory of the alarm timer goes back to the heap. *)
Definition free_timer (w : wheel) (at_ : Z) : wheel :=
  MkWheel (ticks w) (timer_ticks w) (tvindex w) (vec w) (delete at_ (timers w)) (fired w).

Definition free_sleep_timer (k : kst) (t sig : Z) : outcome kst :=
  x ← getT k t;
  let at_ := sleep_timer x in
  if at_ =? 0 then Ok k
  else
    '(_, w) ← remove_timer (whl k) at_;
    Ok (putT (set_whl k (free_timer w at_)) t (set_sleep_timer (set_signaled x sig) 0)).

(** The handler of a sleep timer. *)
Definition thread_sleep_timer (k : kst) (t : Z) : outcome kst :=
  '(_, k) ← thread_ready k t;
  free_sleep_timer k t 1.

(** What run_timer_list does with an expired sleep timer. *)
Definition sleep_timer_expires (k : kst) (at_ : Z) : outcome kst :=
  y ← from_opt (timers (whl k) !! at_);
  '(_, w) ← detach_timer (whl k) at_;
  thread_sleep_timer (set_whl k w) (arg y).

(** [at_] is what kmalloc returned for the alarm timer: it is only called for a
    finite timeout. The handler of the timer is thread_sleep_timer, as 1. *)
Definition thread_unready (k : kst) (t timeout at_ : Z) : outcome (Z * kst) :=
  _ ← kassert (negb (t =? NIL_THREAD));
  x ← getT k t;
  _ ← kassert (negb (plink x =? 0));
  if negb (valid x) then Ok (-1, k)
  else if t =? idle_task k then Panic
  else
    k ← free_sleep_timer k t 0;
    let s_ticks := if timeout =? INFINITE then INFINITE else msec2ticks timeout in
    x ← getT k t;
    let x := set_tticks (set_tstate x TS_WAITING) (4 `max` tticks x) in
    l ← (if run_linked x then q_remove (thread_run_list k) t else Ok (thread_run_list k));
    let x := set_signaled (set_run_linked x false) (-1) in
    let k := set_run (putT k t x) l in
    if negb (timeout =? INFINITE) then
      if at_ =? 0 then Ok (-1, k)
      else
        '(_, w) ← mod_timer (init_timer (whl k) at_ 1 t) at_ s_ticks;
        Ok (0, putT (set_whl k w) t (set_sleep_timer x at_))
    else Ok (0, k).

(** thread_wait up to its call of schedule, and after it. *)
Definition thread_wait_begin (k : kst) (t timeout at_ : Z) : outcome (Z * kst) :=
  x ← getT k t;
  if negb (valid x) then Ok (-1, k) else thread_unready k t timeout at_.
Definition thread_wait_end (k : kst) (t : Z) : outcome Z :=
  x ← getT k t; Ok (if timeout_signaled x =? -1 then -1 else 0).

Definition thread_prio_nice (k : kst) (id newprio : Z) : outcome (Z * kst) :=
  t ← find_thread_byid k id;
  x ← getT k t;
  if negb (valid x) then Ok (-1, k)
  else if MAX_PRIO <? newprio then Ok (0, k)
  else if t =? NIL_THREAD then Ok (0, k)
  else Ok (1, putT k t (set_tprio x newprio)).

Definition set_thread_priority (k : kst) (id prio : Z) : outcome kst :=
  t ← find_thread_byid k id;
  if t =? NIL_THREAD then Ok k
  else x ← getT k t; Ok (putT k t (set_tprio x (s32 (tprio x + prio)))).

Definition main_thread (k : kst) (rp : Z) : outcome Z :=
  p ← from_opt (procs k !! rp);
  match phead p with [] => Panic | t :: _ => Ok t end.

(** ** Threads of a process *)

Definition add_thread (k : kst) (rp t : Z) : outcome kst :=
  _ ← kassert (negb (rp =? 0));
  _ ← kassert (negb (t =? NIL_THREAD));
  x ← getT k t;
  p ← from_opt (procs k !! rp);
  l ← q_insert_tail (phead p) t;
  let x := MkTcb (tid x) (ptid x) (valid x) (sleep_timer x) (sticks x) (tticks x) (tprio x)
    (timeout_signaled x) (plink x) (tstate x) (msgport_id x) (run_linked x) (wait_linked x) true in
  Ok (set_procs (putT k t x) (<[rp := MkProc (u32 (ntcb p + 1)) l]> (procs k))).

(** CHECK_THREAD_VAILD returns -1, which as a bool is true. *)
Definition remove_thread (k : kst) (rp t : Z) : outcome (bool * kst) :=
  p ← from_opt (procs k !! rp);
  if ntcb p =? 0 then Ok (false, k)
  else
    x ← getT k t;
    if negb (valid x) then Ok (true, k)
    else
      l ← q_remove (phead p) t;
      Ok (true, set_procs k (<[rp := MkProc (u32 (ntcb p - 1)) l]> (procs k))).

(** ** Wait queues *)

Definition thread_waitq_empty (k : kst) (q : Z) : bool := bool_decide (waitq k q = []).
Definition thread_waitq_init (k : kst) (q : Z) : kst := put_waitq k q [].

Definition thread_wakeup (k : kst) (q : Z) : outcome (Z * kst) :=
  match waitq k q with
  | [] => Ok (-1, k)
  | t :: l =>
      x ← getT k t;
      let k := putT (put_waitq k q l) t (set_signaled (set_wait_linked x false) 0) in
      '(_, k) ← thread_ready k t;
      Ok (0, k)
  end.

(** [max] = -1 wakes all.  Each turn shortens the queue: its length bounds the
    turns that wake. *)
Fixpoint wakeup_loop (fuel : nat) (k : kst) (q max : Z) : outcome kst :=
  if negb (max =? -1) && (max =? 0) then Ok k
  else
    match fuel with
    | O => OutOfFuel
    | S fuel =>
        let max := if max =? -1 then max else max - 1 in
        '(rc, k) ← thread_wakeup k q;
        if rc =? 0 then wakeup_loop fuel k q max else Ok k
    end.
Definition thread_wakeup_all (k : kst) (q max : Z) : outcome kst :=
  wakeup_loop (S (length (waitq k q))) k q max.

(** thread_sleep_on_timeout up to its call of schedule, and after it.  The
    result of thread_unready is not tested. *)
Definition sleep_on_begin (k : kst) (q timeout at_ : Z) : outcome kst :=
  let t := current_tcb k in
  '(_, k) ← thread_unready k t timeout at_;
  if on_waitq k t then Fault
  else
    x ← getT k t;
    Ok (put_waitq (putT k t (set_wait_linked x true)) q (waitq k q ++ [t])).
Definition sleep_on_end (k : kst) (q t : Z) : outcome (Z * kst) :=
  x ← getT k t;
  if timeout_signaled x =? -1 then
    l ← q_remove (waitq k q) t;
    Ok (-1, put_waitq k q l)
  else Ok (0, k).

(** ** The scheduler *)

(** One pass over the run list: [i] counts the threads met over all passes,
    [run_tims] the most ticks seen, [pick] the thread that has them. *)
Fixpoint sched_scan (m : gmap Z tcb) (idle : Z) (l : list Z) (i run_tims pick : Z)
    : outcome (Z * Z * Z) :=
  match l with
  | [] => Ok (i, run_tims, pick)
  | t :: l =>
      _ ← kassert (negb (t =? idle));
      if 100 <? i then Panic
      else
        x ← from_opt (m !! t);
        _ ← kassert (0 <? tid x);
        if negb (tstate x =? TS_READY) then sched_scan m idle l (i + 1) run_tims pick
        else sched_scan m idle l (i + 1) (tticks x `max` run_tims)
               (if run_tims <? tticks x then t else pick)
  end.

Fixpoint sched_recharge (m : gmap Z tcb) (l : list Z) : outcome (gmap Z tcb) :=
  match l with
  | [] => Ok m
  | t :: l =>
      x ← from_opt (m !! t);
      _ ← kassert (0 <? tid x);
      sched_recharge (if negb (tstate x =? TS_DEAD)
                      then <[t := set_tticks x (u32 (tticks x / 2 + tprio x))]> m else m) l
  end.

(** The [while (1)]; at most 102 passes, as [i] grows by one at least. *)
Fixpoint sched_loop (fuel : nat) (k : kst) (i : Z) : outcome (Z * kst) :=
  match thread_run_list k with
  | [] => Ok (NIL_THREAD, k)
  | _ =>
      match fuel with
      | O => OutOfFuel
      | S fuel =>
          '(i, run_tims, pick) ← sched_scan (tcbs k) (idle_task k) (thread_run_list k) i 0 NIL_THREAD;
          if negb (run_tims =? 0) then Ok (pick, k)
          else
            m ← sched_recharge (tcbs k) (thread_run_list k);
            sched_loop fuel (set_tcbs k m) i
      end
  end.

(** schedule: the thread switched to becomes the current one. *)
Definition schedule (k : kst) : outcome (Z * kst) :=
  '(pick, k) ← sched_loop 102 k 0;
  let pick := if pick =? NIL_THREAD then idle_task k else pick in
  x ← getT k pick;
  _ ← kassert (negb (plink x =? 0));
  let k := set_bill k pick in
  if pick =? current_tcb k then Ok (pick, k)
  else
    _ ← kassert (tid x <? MAX_PID);
    Ok (pick, set_current_thread k pick).

(** ** lock_schedule and friends: the flag isneed_schdule *)
Definition lock_schedule (flag : Z) : Z * Z := (flag, 0).
Definition set_schedule (flag val : Z) : Z := val.
Definition unlock_schedule (flag : Z) : Z := set_schedule flag 1.
Definition scheduleable (flag : Z) : bool := negb (flag =? 0).

(** ** The scheduler's choice *)

(** The threads of the run list can be looked at: none is the idle thread. *)
Definition runnable (m : gmap Z tcb) (idle : Z) (l : list Z) : Prop :=
  forall t, t ∈ l -> t <> idle /\ exists x, m !! t = Some x /\ 0 < tid x.

Definition ready (m : gmap Z tcb) (t c : Z) : Prop :=
  exists x, m !! t = Some x /\ tstate x = TS_READY /\ tticks x = c.

Lemma scan_ok m idle l : forall i rt pk,
  runnable m idle l -> i + Z.of_nat (length l) <= 101 ->
  exists rt' pk', sched_scan m idle l i rt pk = Ok (i + Z.of_nat (length l), rt', pk').
Proof.
  induction l as [|t l IH]; intros i rt pk Hl Hi; cbn [sched_scan].
  { exists rt, pk. cbn. by rewrite Z.add_0_r. }
  cbn [length] in Hi. destruct (Hl t ltac:(left)) as (Hne & x & Hx & Htid).
  rewrite (proj2 (Z.eqb_neq t idle) Hne). cbn [negb kassert mbind outcome_bind].
  rewrite (proj2 (Z.ltb_ge 100 i)) by lia. rewrite Hx. cbn [from_opt mbind outcome_bind].
  rewrite (proj2 (Z.ltb_lt 0 (tid x)) Htid). cbn [kassert mbind outcome_bind].
  replace (i + Z.of_nat (length (t :: l))) with (i + 1 + Z.of_nat (length l)) by (cbn; lia).
  assert (runnable m idle l) by (intros t' ?; apply Hl; by right).
  destruct (negb _); apply IH; done || lia.
Qed.

Lemma scan_spec m idle l : forall i rt pk i' rt' pk',
  sched_scan m idle l i rt pk = Ok (i', rt', pk') ->
  i' = i + Z.of_nat (length l) /\ rt <= rt' /\
  (forall t c, t ∈ l -> ready m t c -> c <= rt') /\
  ((rt' = rt /\ pk' = pk) \/
   (rt < rt' /\ exists l1 l2, l = l1 ++ pk' :: l2 /\ ready m pk' rt' /\
      forall t c, t ∈ l1 -> ready m t c -> c < rt')).
Proof.
  induction l as [|t l IH]; intros i rt pk i' rt' pk' Hs; cbn [sched_scan] in Hs.
  { inv_ok. split; [cbn; lia|]. split; [done|]. split; [by intros t c ?%elem_of_nil|by left]. }
  apply bind_Ok_inv in Hs as (u1 & _ & Hs). destruct (100 <? i); [done|].
  apply bind_Ok_inv in Hs as (x & Hx%from_opt_Ok & Hs).
  apply bind_Ok_inv in Hs as (u2 & _ & Hs). cbn [length].
  destruct (Z.eqb_spec (tstate x) TS_READY) as [Hr|Hr]; cbn [negb] in Hs.
  - destruct (IH _ _ _ _ _ _ Hs) as (-> & Hle & Hmax & Hpick).
    split_and!; [lia|lia| |].
    + intros t' c [->|Ht']%elem_of_cons Hc; [|by eapply Hmax].
      destruct Hc as (x' & Hx' & _ & <-). rewrite Hx in Hx'. injection Hx' as <-. lia.
    + destruct Hpick as [[-> ->]|(Hlt & l1 & l2 & -> & Hrd & Hl1)].
      * destruct (Z.ltb_spec rt (tticks x)); [right|left; split; [lia|done]].
        rewrite Z.max_l by lia. split; [lia|]. exists [], l.
        split_and!; [done|by exists x|by intros ? ? ?%elem_of_nil].
      * right. split; [lia|]. exists (t :: l1), l2. split_and!; [done|done|].
        intros t' c [->|Ht']%elem_of_cons Hc; [|by eapply Hl1].
        destruct Hc as (x' & Hx' & _ & <-). rewrite Hx in Hx'. injection Hx' as <-. lia.
  - destruct (IH _ _ _ _ _ _ Hs) as (-> & Hle & Hmax & Hpick).
    assert (forall c, ~ ready m t c) as Hno.
    { intros c (x' & Hx' & Hr' & _). congruence. }
    split_and!; [lia|lia| |].
    + intros t' c [->|Ht']%elem_of_cons Hc; [by destruct (Hno c)|by eapply Hmax].
    + destruct Hpick as [[-> ->]|(Hlt & l1 & l2 & -> & Hrd & Hl1)]; [by left|right].
      split; [done|]. exists (t :: l1), l2. split_and!; [done|done|].
      intros t' c [->|Ht']%elem_of_cons Hc; [by destruct (Hno c)|by eapply Hl1].
Qed.

Lemma scan_bound m idle l : forall i rt pk i' rt' pk',
  sched_scan m idle l i rt pk = Ok (i', rt', pk') -> i <= 101 -> i' <= 101.
Proof.
  induction l as [|t l IH]; intros i rt pk i' rt' pk' Hs Hi; cbn [sched_scan] in Hs.
  { by inv_ok. }
  apply bind_Ok_inv in Hs as (u1 & _ & Hs). destruct (Z.ltb_spec 100 i); [done|].
  apply bind_Ok_inv in Hs as (x & _ & Hs). apply bind_Ok_inv in Hs as (u2 & _ & Hs).
  destruct (negb _); apply IH in Hs; lia.
Qed.

(** A pass over more threads than the counter allows. *)
Lemma scan_panic m idle l : forall i rt pk,
  runnable m idle l -> 0 <= i <= 101 -> 101 < i + Z.of_nat (length l) ->
  sched_scan m idle l i rt pk = Panic.
Proof.
  induction l as [|t l IH]; intros i rt pk Hl Hi Hlen; cbn [sched_scan length] in *; [lia|].
  destruct (Hl t ltac:(left)) as (Hne & x & Hx & Htid).
  rewrite (proj2 (Z.eqb_neq t idle) Hne). cbn [negb kassert mbind outcome_bind].
  destruct (Z.ltb_spec 100 i); [done|]. rewrite Hx. cbn [from_opt mbind outcome_bind].
  rewrite (proj2 (Z.ltb_lt 0 (tid x)) Htid). cbn [kassert mbind outcome_bind].
  assert (runnable m idle l) by (intros t' ?; apply Hl; by right).
  destruct (negb _); apply IH; done || lia.
Qed.

(** *** Recharging *)

Definition recharged (x : tcb) : tcb :=
  if tstate x =? TS_DEAD then x else set_tticks x (u32 (tticks x / 2 + tprio x)).

Lemma recharge_ok idle l : forall m,
  NoDup l -> runnable m idle l ->
  exists m', sched_recharge m l = Ok m' /\
    forall t, m' !! t = if decide (t ∈ l) then recharged <$> m !! t else m !! t.
Proof.
  induction l as [|t l IH]; intros m Hnd Hl; cbn [sched_recharge].
  { exists m. split; [done|]. intros t. rewrite decide_False; [done|]. apply not_elem_of_nil. }
  apply NoDup_cons in Hnd as [Hnt Hnd]. destruct (Hl t ltac:(left)) as (Hne & x & Hx & Htid).
  rewrite Hx. cbn [from_opt mbind outcome_bind].
  rewrite (proj2 (Z.ltb_lt 0 (tid x)) Htid). cbn [kassert mbind outcome_bind].
  set (m1 := if negb (tstate x =? TS_DEAD) then _ else m).
  assert (forall t', m1 !! t' = if decide (t = t') then Some (recharged x) else m !! t') as Hm1.
  { intros t'. unfold m1, recharged. destruct (tstate x =? TS_DEAD); cbn [negb].
    - case_decide; [by subst|done].
    - case_decide; [subst; by rewrite lookup_insert_eq|by rewrite lookup_insert_ne]. }
  destruct (IH m1 Hnd) as (m' & Hm' & Hall).
  { intros t' Ht'. destruct (Hl t') as (? & x' & ? & ?); [by right|]. split; [done|].
    rewrite Hm1, decide_False by (by intros ->). eauto. }
  exists m'. split; [done|]. intros t'. rewrite Hall, Hm1.
  destruct (decide (t = t')) as [<-|Hne'].
  - rewrite decide_False by done. rewrite decide_True by left. by rewrite Hx.
  - destruct (decide (t' ∈ l)); [rewrite decide_True by (by right)|rewrite decide_False]; try done.
    rewrite not_elem_of_cons. done.
Qed.

(** schedule always comes to an end. *)
Lemma sched_loop_fuel fuel : forall k i,
  102 <= Z.of_nat fuel + i -> i <= 101 -> sched_loop fuel k i <> OutOfFuel.
Proof.
  induction fuel as [|fuel IH]; intros k i Hf Hi; cbn [sched_loop];
    destruct (thread_run_list k) as [|t l] eqn:Hl; try done.
  - lia.
  - destruct (sched_scan (tcbs k) (idle_task k) (t :: l) i 0 NIL_THREAD) as [[[i' rt] pk]| | |]
      eqn:Hs; cbn [mbind outcome_bind]; try done.
    + destruct (negb (rt =? 0)); [done|].
      destruct (sched_recharge _ _) as [m| | |] eqn:Hr; cbn [mbind outcome_bind]; try done.
      * pose proof (scan_bound _ _ _ _ _ _ _ _ _ Hs Hi). apply scan_spec in Hs as (-> & _).
        cbn [length] in *. apply IH; lia.
      * exfalso. clear - Hr. revert Hr. generalize (tcbs k) as m. generalize (t :: l) as l'.
        induction l' as [|t' l' IH]; intros m; cbn [sched_recharge]; [done|].
        destruct (m !! t') as [x|]; [|done]. cbn [from_opt mbind outcome_bind].
        destruct (0 <? tid x); cbn [kassert mbind outcome_bind]; [apply IH|done].
    + exfalso. clear - Hs. revert Hs. generalize i as j, 0 as rt, NIL_THREAD as pk.
      induction (t :: l) as [|t' l' IH]; intros j rt pk; cbn [sched_scan]; [done|].
      destruct (negb (t' =? idle_task k)); cbn [kassert mbind outcome_bind]; [|done].
      destruct (100 <? j); [done|]. destruct (tcbs k !! t') as [x|]; [|done].
      cbn [from_opt mbind outcome_bind]. destruct (0 <? tid x); cbn [kassert mbind outcome_bind];
        [destruct (negb _); apply IH|done].
Qed.

(** What schedule relies on of the threads on the run list. *)
Record sane (k : kst) : Prop := {
  sa_nodup : NoDup (thread_run_list k);
  sa_run : runnable (tcbs k) (idle_task k) (thread_run_list k);
  sa_tcb : forall t x, t ∈ thread_run_list k -> tcbs k !! t = Some x ->
    plink x <> 0 /\ tid x < MAX_PID /\ 0 <= tticks x;
  sa_null : NIL_THREAD ∉ thread_run_list k }.

(** [t] is the first READY thread of [l] with the most ticks, [c] > 0. *)
Definition best (m : gmap Z tcb) (l : list Z) (t c : Z) : Prop :=
  0 < c /\ ready m t c /\ (forall t' c', t' ∈ l -> ready m t' c' -> c' <= c) /\
  exists l1 l2, l = l1 ++ t :: l2 /\ forall t' c', t' ∈ l1 -> ready m t' c' -> c' < c.

Lemma scan_best m idle l i i' rt pk :
  sched_scan m idle l i 0 NIL_THREAD = Ok (i', rt, pk) -> rt <> 0 -> best m l pk rt.
Proof.
  intros Hs Hrt. destruct (scan_spec _ _ _ _ _ _ _ _ _ Hs) as (_ & Hle & Hmax & Hp).
  destruct Hp as [[? _]|(Hlt & l1 & l2 & Hl & Hr & Hl1)]; [lia|].
  split; [lia|]. split; [done|]. split; [done|]. by exists l1, l2.
Qed.

(** One pass with a READY thread that has ticks left. *)
Lemma sched_loop_now fuel k i t c :
  runnable (tcbs k) (idle_task k) (thread_run_list k) ->
  i + Z.of_nat (length (thread_run_list k)) <= 101 ->
  t ∈ thread_run_list k -> ready (tcbs k) t c -> 0 < c ->
  exists pick c', sched_loop (S fuel) k i = Ok (pick, k) /\
    best (tcbs k) (thread_run_list k) pick c'.
Proof.
  intros Hrun Hi Ht Hr Hc. cbn [sched_loop].
  destruct (scan_ok _ _ _ i 0 NIL_THREAD Hrun Hi) as (rt & pk & Hs).
  destruct (scan_spec _ _ _ _ _ _ _ _ _ Hs) as (_ & Hle & Hmax & _).
  specialize (Hmax t c Ht Hr). rewrite Hs.
  destruct (thread_run_list k) as [|t0 l] eqn:Hl; [by apply elem_of_nil in Ht|].
  cbn [mbind outcome_bind]. rewrite (proj2 (Z.eqb_neq rt 0)) by lia. cbn [negb].
  exists pk, rt. split; [done|]. eapply scan_best; [done|lia].
Qed.

(** One pass in which every READY thread is out of ticks. *)
Lemma sched_loop_recharge fuel k i :
  thread_run_list k <> [] -> NoDup (thread_run_list k) ->
  runnable (tcbs k) (idle_task k) (thread_run_list k) ->
  i + Z.of_nat (length (thread_run_list k)) <= 101 ->
  (forall t c, t ∈ thread_run_list k -> ready (tcbs k) t c -> c = 0) ->
  exists m, sched_loop (S fuel) k i =
      sched_loop fuel (set_tcbs k m) (i + Z.of_nat (length (thread_run_list k))) /\
    forall t, m !! t = if decide (t ∈ thread_run_list k) then recharged <$> tcbs k !! t
                       else tcbs k !! t.
Proof.
  intros Hne Hnd Hrun Hi Hz. destruct (recharge_ok _ _ _ Hnd Hrun) as (m & Hm & Hall).
  exists m. split; [|done]. cbn [sched_loop].
  destruct (scan_ok _ _ _ i 0 NIL_THREAD Hrun Hi) as (rt & pk & Hs).
  destruct (scan_spec _ _ _ _ _ _ _ _ _ Hs) as (_ & Hle & _ & Hp). rewrite Hs, Hm.
  assert (rt = 0) as ->.
  { destruct Hp as [[-> _]|(Hlt & l1 & l2 & Hl & Hr & _)]; [done|].
    rewrite (Hz pk rt); [done| |done]. rewrite Hl. apply elem_of_mid. }
  destruct (thread_run_list k) as [|t0 l]; done.
Qed.

Lemma recharged_tid x : tid (recharged x) = tid x.
Proof. unfold recharged. by case_match. Qed.

Lemma runnable_recharged m m' idle l :
  (forall t, m' !! t = if decide (t ∈ l) then recharged <$> m !! t else m !! t) ->
  runnable m idle l -> runnable m' idle l.
Proof.
  intros Hm Hr t Ht. destruct (Hr t Ht) as (? & x & Hx & ?). split; [done|].
  exists (recharged x). rewrite Hm, decide_True, Hx by done. by rewrite recharged_tid.
Qed.

#[local] Opaque sched_loop.

(** The tail of schedule: switching to a thread of the run list. *)
Lemma switch_ok k k1 pick :
  sched_loop 102 k 0 = Ok (pick, k1) -> pick ∈ thread_run_list k1 ->
  NIL_THREAD ∉ thread_run_list k1 ->
  (forall x, tcbs k1 !! pick = Some x -> plink x <> 0 /\ tid x < MAX_PID) ->
  is_Some (tcbs k1 !! pick) ->
  exists k', schedule k = Ok (pick, k') /\ current_tcb k' = pick /\ tcbs k' = tcbs k1 /\
    thread_run_list k' = thread_run_list k1 /\ bill_proc k' = pick.
Proof.
  intros Hl Hp Hnull Hx [x Hpx]. unfold schedule. rewrite Hl. cbn [mbind outcome_bind].
  rewrite (proj2 (Z.eqb_neq pick NIL_THREAD)) by (by intros ->). unfold getT. rewrite Hpx.
  cbn [from_opt mbind outcome_bind]. destruct (Hx x Hpx) as [Hpl Htid].
  rewrite (proj2 (Z.eqb_neq (plink x) 0) Hpl). cbn [negb kassert mbind outcome_bind].
  destruct (Z.eqb_spec pick (current_tcb (set_bill k1 pick))) as [Heq|Hne].
  - eexists. split; [done|]. by rewrite <- Heq.
  - rewrite (proj2 (Z.ltb_lt _ _) Htid). cbn [kassert mbind outcome_bind]. by eexists.
Qed.

(** Two passes: the first recharges, the second picks. *)
Lemma recharge_pick k (t : Z) x :
  thread_run_list k <> [] -> NoDup (thread_run_list k) ->
  runnable (tcbs k) (idle_task k) (thread_run_list k) ->
  2 * Z.of_nat (length (thread_run_list k)) <= 101 ->
  (forall t c, t ∈ thread_run_list k -> ready (tcbs k) t c -> c = 0) ->
  t ∈ thread_run_list k -> tcbs k !! t = Some x -> tstate x = TS_READY -> 0 < tprio x < 2 ^ 31 ->
  exists pick c k1, sched_loop 102 k 0 = Ok (pick, k1) /\
    best (tcbs k1) (thread_run_list k) pick c /\ thread_run_list k1 = thread_run_list k /\
    forall t, tcbs k1 !! t = if decide (t ∈ thread_run_list k) then recharged <$> tcbs k !! t
                             else tcbs k !! t.
Proof.
  intros Hne Hnd Hrun Hlen Hz Ht Hx Hr Hp. change 102%nat with (S 101) at 1.
  assert (tticks x = 0) as Htk by (apply (Hz t); [done|by exists x]).
  assert (exists n, n = 100%nat) as [n Hn] by (by eexists). change 101%nat with (S 100).
  rewrite <- Hn.
  destruct (sched_loop_recharge (S n) k 0 Hne Hnd Hrun ltac:(lia) Hz) as (m & -> & Hm).
  assert (recharged x = set_tticks x (tprio x)) as Hrx.
  { unfold recharged. rewrite Hr. cbn [Z.eqb]. rewrite Htk. f_equal.
    change (0 / 2) with 0. rewrite u32_small by lia. lia. }
  assert (ready m t (tprio x)) as Hrd.
  { exists (recharged x). rewrite Hm, decide_True, Hx by done. split; [done|]. by rewrite Hrx. }
  destruct (sched_loop_now n (set_tcbs k m) (0 + Z.of_nat (length (thread_run_list k))) t
    (tprio x)) as (pick & c & -> & Hbest); cbn [tcbs thread_run_list idle_task set_tcbs];
    [by eapply runnable_recharged|lia|done|done|lia|].
  by exists pick, c, (set_tcbs k m).
Qed.

(** C14: with at most 50 threads on the run list, one of them READY with ticks
    left or a priority, schedule does not fail: it makes current the first READY
    thread that has the most ticks.  The tick counts are those before the call
    if some READY thread had ticks left; otherwise, and only then, every live
    thread was recharged to half its ticks plus its priority. *)
Theorem schedule_picks_best k t x :
  sane k -> Z.of_nat (length (thread_run_list k)) <= 50 ->
  t ∈ thread_run_list k -> tcbs k !! t = Some x -> tstate x = TS_READY ->
  (0 < tticks x \/ 0 < tprio x < 2 ^ 31) ->
  exists pick c k', schedule k = Ok (pick, k') /\ current_tcb k' = pick /\
    best (tcbs k') (thread_run_list k) pick c /\
    (tcbs k' = tcbs k \/
     (forall t c, t ∈ thread_run_list k -> ready (tcbs k) t c -> c = 0) /\
     forall t, tcbs k' !! t = if decide (t ∈ thread_run_list k) then recharged <$> tcbs k !! t
                              else tcbs k !! t).
Proof.
  intros [Hnd Hrun Htcb Hnull] Hlen Ht Hx Hr Hgo.
  destruct (scan_ok _ _ _ 0 0 NIL_THREAD Hrun ltac:(lia)) as (rt & pk & Hs).
  destruct (scan_spec _ _ _ _ _ _ _ _ _ Hs) as (_ & Hle & Hmax & Hp).
  assert (forall t c, ready (tcbs k) t c -> t ∈ thread_run_list k -> 0 <= c) as Hnn.
  { intros t' c (x' & Hx' & _ & <-) Hin. by destruct (Htcb t' x' Hin Hx') as (_ & _ & ?). }
  destruct (decide (rt = 0)) as [->|Hrt].
  - assert (forall t c, t ∈ thread_run_list k -> ready (tcbs k) t c -> c = 0) as Hz.
    { intros t' c Hin Hrd. specialize (Hmax t' c Hin Hrd). specialize (Hnn t' c Hrd Hin). lia. }
    assert (tticks x = 0) as Htk by (apply (Hz t); [done|by exists x]).
    assert (thread_run_list k <> []) as Hne.
    { intros Hnil. rewrite Hnil in Ht. by apply elem_of_nil in Ht. }
    destruct (recharge_pick k t x) as (pick & c & k1 & Hok & Hbest & Hl1 & Hm); try done; [lia|lia|].
    assert (pick ∈ thread_run_list k) as Hin.
    { destruct Hbest as (_ & _ & _ & l1 & l2 & -> & _). apply elem_of_mid. }
    apply switch_ok in Hok as (k' & Hk' & Hc & Htc & _).
    + exists pick, c, k'. rewrite Htc. split_and!; [done..|right; auto].
    + by rewrite Hl1.
    + by rewrite Hl1.
    + intros x' Hx'. rewrite Hm, decide_True in Hx' by done.
      apply fmap_Some in Hx' as (x0 & Hx0 & ->). destruct (Htcb pick x0 Hin Hx0) as (? & ? & _).
      unfold recharged. by case_match.
    + rewrite Hm, decide_True by done. destruct (Hrun pick Hin) as (_ & x0 & -> & _). by eexists.
  - destruct Hp as [[? _]|(Hlt & l1 & l2 & Hl & Hrd & _)]; [lia|].
    assert (pk ∈ thread_run_list k) as Hpk by (rewrite Hl; apply elem_of_mid).
    destruct (sched_loop_now 101 k 0 pk rt Hrun ltac:(lia) Hpk Hrd Hlt) as (pick & c & Hok & Hbest).
    assert (pick ∈ thread_run_list k) as Hin.
    { destruct Hbest as (_ & _ & _ & l3 & l4 & -> & _). apply elem_of_mid. }
    apply switch_ok in Hok as (k' & Hk' & Hc & Htc & _); [|done|done|..].
    + exists pick, c, k'. rewrite Htc. split_and!; [done..|left; auto].
    + intros x' Hx'. destruct (Htcb pick x' Hin Hx') as (? & ? & _). done.
    + destruct (Hrun pick Hin) as (_ & x0 & -> & _). by eexists.
Qed.

(** A kernel with READY threads at the given addresses, without ticks. *)
Definition mk_ready (id prio : Z) : tcb :=
  MkTcb id 0 true 0 0 0 prio 0 1 TS_READY 0 true false true.
Definition sample (l : list Z) : kst :=
  MkKst (list_to_map ((fun t => (t, mk_ready t 100)) <$> l)) l l 128 1 1 1 ∅ ∅
    (clock_init bss).

Lemma sample_lookup l t : t ∈ l -> tcbs (sample l) !! t = Some (mk_ready t 100).
Proof.
  intros Ht. cbn. destruct (list_to_map _ !! t) as [x|] eqn:E.
  - apply elem_of_list_to_map_2, list_elem_of_fmap in E as (t' & [= -> ->] & _). done.
  - apply not_elem_of_list_to_map_2 in E. destruct E. apply list_elem_of_fmap.
    exists (t, mk_ready t 100). split; [done|]. apply list_elem_of_fmap. eauto.
Qed.

Lemma sample_runnable l :
  Forall (fun t => 1 < t) l -> runnable (tcbs (sample l)) (idle_task (sample l)) l.
Proof.
  intros Hl t Ht. rewrite Forall_forall in Hl. specialize (Hl t Ht).
  split; [cbn; lia|]. exists (mk_ready t 100). split; [by apply sample_lookup|]. cbn. lia.
Qed.

Lemma schedule_picks_best_witness :
  exists pick c k', schedule (sample [200; 300]) = Ok (pick, k') /\ current_tcb k' = pick /\
    best (tcbs k') [200; 300] pick c /\
    (tcbs k' = tcbs (sample [200; 300]) \/
     (forall t c, t ∈ [200; 300] -> ready (tcbs (sample [200; 300])) t c -> c = 0) /\
     forall t, tcbs k' !! t = if decide (t ∈ [200; 300])
       then recharged <$> tcbs (sample [200; 300]) !! t else tcbs (sample [200; 300]) !! t).
Proof.
  apply (schedule_picks_best (sample [200; 300]) 300 (mk_ready 300 100)).
  - split.
    + apply (bool_decide_unpack _). vm_compute. exact I.
    + apply sample_runnable. repeat constructor; lia.
    + intros t x Ht. rewrite sample_lookup by done. intros [= <-]. cbn.
      unfold MAX_PID. cbn in Ht. split_and!; [lia| |lia].
      rewrite !elem_of_cons, elem_of_nil in Ht. lia.
    + apply (bool_decide_unpack _). vm_compute. exact I.
  - cbn. lia.
  - apply (bool_decide_unpack _). vm_compute. exact I.
  - reflexivity.
  - reflexivity.
  - right. cbn. lia.
Defined.

(** C38: schedule always comes to an end: whatever the state of the run list, it
    returns, panics or faults within 102 passes. *)
Theorem schedule_terminates k : schedule k <> OutOfFuel.
Proof.
  unfold schedule. destruct (sched_loop 102 k 0) as [[pick k1]| | |] eqn:E; try done.
  - cbn [mbind outcome_bind]. unfold getT. destruct (tcbs k1 !! _) as [x|]; [|done].
    cbn [from_opt mbind outcome_bind].
    destruct (negb _); cbn [kassert mbind outcome_bind]; [|done].
    destruct (_ =? current_tcb _); [done|].
    destruct (tid x <? MAX_PID); done.
  - by apply sched_loop_fuel in E.
Qed.

(** the loop guard of schedule counts threads over all its passes: with more
    than 50 threads on the run list and every READY one out of ticks, or with
    more than 101 in any case, schedule panics. *)
Theorem schedule_panics_on_many_threads k :
  NoDup (thread_run_list k) -> runnable (tcbs k) (idle_task k) (thread_run_list k) ->
  let n := Z.of_nat (length (thread_run_list k)) in
  101 < n \/
  (50 < n /\ forall t c, t ∈ thread_run_list k -> ready (tcbs k) t c -> c = 0) ->
  schedule k = Panic.
Proof.
  intros Hnd Hrun n Hn. assert (exists f, f = 100%nat) as [f Hf] by (by eexists).
  unfold schedule. change 102%nat with (S (S 100)). rewrite <- Hf.
  assert (sched_loop (S (S f)) k 0 = Panic) as ->; [|done].
  assert (forall f k i, runnable (tcbs k) (idle_task k) (thread_run_list k) -> 0 <= i <= 101 ->
    101 < i + Z.of_nat (length (thread_run_list k)) -> sched_loop (S f) k i = Panic) as Hpanic.
  { intros f' k' i Hrun' Hi Hlong. cbn [sched_loop].
    rewrite (scan_panic _ _ _ i 0 NIL_THREAD Hrun' Hi Hlong).
    destruct (thread_run_list k'); [cbn in Hlong; lia|done]. }
  destruct (decide (101 < n)) as [Hbig|Hsmall]; [apply Hpanic; [done|lia|done]|].
  destruct Hn as [?|[Hn Hz]]; [lia|].
  assert (thread_run_list k <> []) as Hne.
  { intros Hnil. unfold n in Hn. rewrite Hnil in Hn. cbn in Hn. lia. }
  destruct (sched_loop_recharge (S f) k 0 Hne Hnd Hrun ltac:(lia) Hz) as (m & -> & Hm).
  apply Hpanic; cbn [tcbs thread_run_list idle_task set_tcbs]; [|lia|lia].
  by eapply runnable_recharged.
Qed.

Lemma schedule_panics_on_many_threads_witness : schedule (sample (seqZ 200 51)) = Panic.
Proof.
  apply schedule_panics_on_many_threads.
  - apply NoDup_seqZ.
  - apply sample_runnable. apply Forall_forall. intros t Ht%elem_of_seqZ. lia.
  - right. change (thread_run_list (sample (seqZ 200 51))) with (seqZ 200 51).
    split; [rewrite length_seqZ; lia|]. intros t c Ht (x & Hx & _ & <-).
    rewrite sample_lookup in Hx by done. injection Hx as <-. reflexivity.
Defined.

(** thread ids.  get_pid yields ids in 1 .. MAX_PID - 1, the next one up each
    time, but it does not look at the ids in use: after MAX_PID - 1 it starts
    again at 1, the id proc_setup gives to the init thread. *)
Theorem get_pid_wraps_to_init k :
  0 <= next_pid k < MAX_PID ->
  let '(p, k') := get_pid k in
  1 <= p < MAX_PID /\ next_pid k' = p /\ tcbs k' = tcbs k /\
  p = (if next_pid k =? MAX_PID - 1 then 1 else next_pid k + 1).
Proof.
  intros Hp. unfold get_pid, MAX_PID in *. rewrite u32_small by lia.
  destruct (Z.ltb_spec (next_pid k + 1) 20000), (Z.eqb_spec (next_pid k) (20000 - 1));
    cbn; split_and!; done || lia.
Qed.

Lemma get_pid_wraps_to_init_witness :
  let k := set_next_pid (sample [200]) 19999 in
  let '(p, k') := get_pid k in
  1 <= p < MAX_PID /\ next_pid k' = p /\ tcbs k' = tcbs k /\ p = 1.
Proof.
  intros k. apply (get_pid_wraps_to_init k). cbn. unfold MAX_PID. lia.
Defined.

(** ** Wait queues *)

(** A thread thread_ready will accept. *)
Definition asleep (k : kst) (t : Z) : Prop :=
  t <> NIL_THREAD /\ t ∉ thread_run_list k /\
  exists x, tcbs k !! t = Some x /\ valid x = true /\ run_linked x = false /\
    tstate x <> TS_DEAD /\ plink x <> 0.

(** The record of a thread just made ready. *)
Definition made_ready (x : tcb) : tcb :=
  set_run_linked (set_tstate (set_tticks x (4 `max` tticks x)) TS_READY) true.

Lemma thread_ready_ok k t x :
  asleep k t -> tcbs k !! t = Some x ->
  thread_ready k t = Ok (0, set_run (putT k t (made_ready x)) (thread_run_list k ++ [t])).
Proof.
  intros (Ht & Hnr & x' & Hx' & Hv & Hl & Hd & Hp) Hx. rewrite Hx in Hx'. injection Hx' as <-.
  unfold thread_ready. rewrite (proj2 (Z.eqb_neq _ _) Ht). unfold getT. rewrite Hx.
  cbn [from_opt mbind outcome_bind]. rewrite Hv, Hl. cbn [negb].
  rewrite (proj2 (Z.eqb_neq _ _) Hd), (proj2 (Z.eqb_neq _ _) Hp). cbn [negb kassert mbind outcome_bind].
  unfold q_insert_tail. rewrite decide_False by done. done.
Qed.

(** The record of a thread thread_wakeup has woken. *)
Definition woken (x : tcb) : tcb := made_ready (set_signaled (set_wait_linked x false) 0).

Lemma thread_wakeup_ok k q t l x :
  waitq k q = t :: l -> asleep k t -> tcbs k !! t = Some x ->
  thread_wakeup k q = Ok (0, set_run (putT (put_waitq k q l) t (woken x))
                             (thread_run_list k ++ [t])).
Proof.
  intros Hq (Ht & Hnr & x' & Hx' & Hv & Hl & Hd & Hp) Hx.
  rewrite Hx in Hx'. injection Hx' as <-. unfold thread_wakeup. rewrite Hq. unfold getT.
  rewrite Hx. cbn [from_opt mbind outcome_bind].
  set (k1 := putT _ t _). rewrite (thread_ready_ok k1 t (set_signaled (set_wait_linked x false) 0)).
  - cbn [mbind outcome_bind]. do 2 f_equal. unfold set_run, putT, put_waitq, k1, set_tcbs; cbn.
    by rewrite insert_insert_eq.
  - split_and!; try done. exists (set_signaled (set_wait_linked x false) 0).
    cbn. rewrite lookup_insert_eq. done.
  - cbn. by rewrite lookup_insert_eq.
Qed.

Lemma waitq_put k q l q' : waitq (put_waitq k q l) q' = if decide (q = q') then l else waitq k q'.
Proof.
  unfold waitq; cbn. case_decide; [subst; by rewrite lookup_insert_eq|by rewrite lookup_insert_ne].
Qed.

(** What waking the threads [l] of queue [q] changes. *)
Definition woke (k k' : kst) (q : Z) (l : list Z) : Prop :=
  thread_run_list k' = thread_run_list k ++ l /\
  (forall q', q' <> q -> waitq k' q' = waitq k q') /\
  (forall t, tcbs k' !! t = if decide (t ∈ l) then woken <$> tcbs k !! t else tcbs k !! t).

Lemma wakeup_loop_step fuel k q max t l :
  waitq k q = t :: l -> asleep k t -> max <> 0 ->
  exists k1, wakeup_loop (S fuel) k q max =
      wakeup_loop fuel k1 q (if max =? -1 then max else max - 1) /\
    waitq k1 q = l /\ woke k k1 q [t].
Proof.
  intros Hq Ha Hmax. pose proof Ha as (_ & _ & x & Hx & _). cbn [wakeup_loop].
  rewrite (proj2 (Z.eqb_neq _ _) Hmax), andb_false_r.
  rewrite (thread_wakeup_ok k q t l x Hq Ha Hx). cbn [mbind outcome_bind Z.eqb].
  eexists. split; [done|]. split.
  - unfold set_run, putT, set_tcbs, waitq; cbn. by rewrite lookup_insert_eq.
  - split; [done|]. split.
    + intros q' Hq'. unfold set_run, putT, set_tcbs, waitq; cbn. by rewrite lookup_insert_ne.
    + intros t'. cbn. destruct (decide (t = t')) as [<-|Hne].
      * rewrite lookup_insert_eq, decide_True by left. by rewrite Hx.
      * rewrite lookup_insert_ne, decide_False by (try done; rewrite list_elem_of_singleton; congruence).
        done.
Qed.

Lemma woke_trans k k1 k2 q t l :
  woke k k1 q [t] -> woke k1 k2 q l -> t ∉ l -> woke k k2 q (t :: l).
Proof.
  intros (R1 & Q1 & T1) (R2 & Q2 & T2) Hn. split; [rewrite R2, R1; by rewrite <- app_assoc|].
  split; [intros q' ?; by rewrite Q2, Q1|]. intros t'. rewrite T2, T1.
  destruct (decide (t' = t)) as [->|Hne].
  - rewrite (decide_False (P := t ∈ l)) by done. rewrite !decide_True by left. done.
  - rewrite (decide_False (P := t' ∈ [t])) by (by rewrite list_elem_of_singleton).
    destruct (decide (t' ∈ l)); [rewrite decide_True by (by right)|rewrite decide_False]; try done.
    rewrite not_elem_of_cons. done.
Qed.

Lemma asleep_woke k k1 q t t' :
  woke k k1 q [t] -> t' <> t -> asleep k t' -> asleep k1 t'.
Proof.
  intros (R1 & _ & T1) Hne (H0 & Hr & Hx). split; [done|]. rewrite R1, T1.
  rewrite decide_False by (by rewrite list_elem_of_singleton). split; [|done].
  rewrite elem_of_app, list_elem_of_singleton. tauto.
Qed.

Lemma woke_nil k q : woke k k q [].
Proof.
  split; [by rewrite app_nil_r|]. split; [done|]. intros t.
  rewrite decide_False; [done|apply not_elem_of_nil].
Qed.

Lemma wakeup_loop_ok l : forall fuel k q max,
  waitq k q = l -> (length l < fuel)%nat -> NoDup l -> (forall t, t ∈ l -> asleep k t) -> -1 <= max ->
  let n := if max =? -1 then length l else (Z.to_nat max `min` length l)%nat in
  exists k', wakeup_loop fuel k q max = Ok k' /\ waitq k' q = drop n l /\ woke k k' q (take n l).
Proof.
  induction l as [|t l IH]; intros fuel k q max Hq Hf Hnd Hl Hmax n.
  - exists k. assert (n = 0%nat) as -> by (unfold n; case_match; cbn; lia).
    split; [|split; [done|apply woke_nil]].
    destruct fuel; [cbn in Hf; lia|]. cbn [wakeup_loop]. destruct (negb _ && _); [done|].
    unfold thread_wakeup. rewrite Hq. done.
  - destruct (decide (max = 0)) as [->|Hne0].
    { exists k. cbn. split; [by destruct fuel|]. split; [done|]. apply woke_nil. }
    destruct fuel as [|fuel]; [cbn in Hf; lia|]. cbn [length] in *.
    apply NoDup_cons in Hnd as [Hnt Hnd].
    destruct (wakeup_loop_step fuel k q max t l Hq) as (k1 & -> & Hq1 & W1);
      [apply Hl; left|done|].
    destruct (IH fuel k1 q (if max =? -1 then max else max - 1) Hq1) as (k' & Hk' & Hq' & W');
      [lia|done| |case_match; lia|].
    { intros t' Ht'. eapply asleep_woke; [done|by intros ->|]. apply Hl. by right. }
    exists k'. split; [done|].
    set (max' := if max =? -1 then max else max - 1) in *.
    assert (n = S (if max' =? -1 then length l else (Z.to_nat max' `min` length l)%nat)) as ->.
    { unfold n, max'. destruct (Z.eqb_spec max (-1)) as [->|]; [done|].
      destruct (Z.eqb_spec (max - 1) (-1)); lia. }
    split; [done|]. cbn [take]. eapply woke_trans; [done|done|]. intros Hin. apply Hnt.
    eapply sublist_subseteq; [apply sublist_take|done].
Qed.

(** thread_wakeup_all wakes, in the order they went to sleep, the first
    [max] threads of the queue, or all of them for -1: they leave the queue, go
    to the tail of the run list in that order, READY with at least 4 ticks and no
    timeout pending; no other thread or queue changes. *)
Theorem thread_wakeup_all_fifo k q max :
  NoDup (waitq k q) -> (forall t, t ∈ waitq k q -> asleep k t) -> -1 <= max ->
  let l := waitq k q in
  let n := if max =? -1 then length l else (Z.to_nat max `min` length l)%nat in
  exists k', thread_wakeup_all k q max = Ok k' /\ waitq k' q = drop n l /\
    thread_run_list k' = thread_run_list k ++ take n l /\
    (forall q', q' <> q -> waitq k' q' = waitq k q') /\
    forall t, tcbs k' !! t = if decide (t ∈ take n l) then woken <$> tcbs k !! t else tcbs k !! t.
Proof.
  intros Hnd Ha Hmax l n. unfold thread_wakeup_all.
  destruct (wakeup_loop_ok l (S (length l)) k q max) as (k' & ? & ? & ? & ? & ?); try done; [lia|].
  exists k'. done.
Qed.

(** Three threads asleep on queue 7. *)
Definition sleepers : kst :=
  let x t := MkTcb t 0 true 0 0 1 100 (-1) 1 TS_WAITING 0 false true true in
  MkKst {[10 := x 10; 20 := x 20; 30 := x 30]} [] [30; 20; 10] 128 1 1 1
    {[7 := [10; 20; 30]]} ∅ (clock_init bss).

Lemma thread_wakeup_all_fifo_witness :
  exists k', thread_wakeup_all sleepers 7 2 = Ok k' /\ waitq k' 7 = [30] /\
    thread_run_list k' = [10; 20] /\
    (forall q', q' <> 7 -> waitq k' q' = waitq sleepers q') /\
    forall t, tcbs k' !! t = if decide (t ∈ [10; 20]) then woken <$> tcbs sleepers !! t
                             else tcbs sleepers !! t.
Proof.
  apply (thread_wakeup_all_fifo sleepers 7 2).
  - apply (bool_decide_unpack _). vm_compute. exact I.
  - change (waitq sleepers 7) with [10; 20; 30]. intros t.
    rewrite !elem_of_cons, elem_of_nil. intros [->|[->|[->|[]]]];
      (split; [done|]; split; [apply not_elem_of_nil|]; eexists; split; [reflexivity|done]).
  - lia.
Defined.

(** ** Going to sleep *)

(** A running thread that may sleep: on the run list, without a sleep timer. *)
Record may_sleep (k : kst) (t : Z) (x : tcb) : Prop := {
  ms_cur : current_tcb k = t;
  ms_tcb : tcbs k !! t = Some x;
  ms_ok : t <> NIL_THREAD /\ t <> idle_task k /\ valid x = true /\ plink x <> 0;
  ms_run : run_linked x = true /\ t ∈ thread_run_list k /\ NoDup (thread_run_list k);
  ms_timer : sleep_timer x = 0 }.

(** The record of a thread thread_unready has taken off the run list. *)
Definition unreadied (x : tcb) : tcb :=
  set_signaled (set_run_linked (set_tticks (set_tstate x TS_WAITING) (4 `max` tticks x)) false) (-1).

Lemma not_on_waitq k t q : on_waitq k t = false -> t ∉ waitq k q.
Proof.
  intros Hn%bool_decide_eq_false Hin. apply Hn. unfold waitq in Hin.
  destruct (waitqs k !! q) as [l|] eqn:E; [|by apply elem_of_nil in Hin]. by exists q, l.
Qed.

Lemma on_waitq_in k q t : t ∈ waitq k q -> on_waitq k t = true.
Proof.
  intros Ht. destruct (on_waitq k t) eqn:E; [done|]. by destruct (not_on_waitq k t q E).
Qed.

Lemma unready_begin k t x timeout at_ :
  may_sleep k t x ->
  let k1 := set_run (putT k t (unreadied x)) (list_del t (thread_run_list k)) in
  thread_unready k t timeout at_ =
    if timeout =? INFINITE then Ok (0, k1)
    else if at_ =? 0 then Ok (-1, k1)
    else '(_, w) ← mod_timer (init_timer (whl k) at_ 1 t) at_ (msec2ticks timeout);
         Ok (0, putT (set_whl k1 w) t (set_sleep_timer (unreadied x) at_)).
Proof.
  intros [Hc Hx (H0 & Hi & Hv & Hp) (Hl & Hr & Hnd) Htm] k1. unfold thread_unready, getT.
  rewrite (proj2 (Z.eqb_neq _ _) H0). cbn [negb kassert mbind outcome_bind]. rewrite Hx.
  cbn [from_opt mbind outcome_bind]. rewrite (proj2 (Z.eqb_neq _ _) Hp).
  cbn [negb kassert mbind outcome_bind]. rewrite Hv. cbn [negb].
  rewrite (proj2 (Z.eqb_neq _ _) Hi). unfold free_sleep_timer, getT. rewrite Hx.
  cbn [from_opt mbind outcome_bind]. rewrite Htm. cbn [Z.eqb mbind outcome_bind]. rewrite Hx.
  cbn [from_opt mbind outcome_bind run_linked set_tticks set_tstate]. rewrite Hl.
  unfold q_remove. rewrite decide_True by done. cbn [mbind outcome_bind].
  destruct (timeout =? INFINITE); cbn [negb]; [done|]. destruct (at_ =? 0); done.
Qed.

(** a thread that sleeps on a queue without a timeout is off the run list and
    last on the queue; once the queue is woken it is READY on the run list and
    off the queue, and thread_sleep_on returns 0 to it. *)
Theorem sleep_wakeup_roundtrip k q t x :
  may_sleep k t x -> on_waitq k t = false -> tstate x <> TS_DEAD ->
  NoDup (waitq k q) -> (forall t', t' ∈ waitq k q -> asleep k t') ->
  exists k1 k2, sleep_on_begin k q INFINITE 0 = Ok k1 /\
    waitq k1 q = waitq k q ++ [t] /\ t ∉ thread_run_list k1 /\
    thread_wakeup_all k1 q (-1) = Ok k2 /\ waitq k2 q = [] /\
    thread_run_list k2 = list_del t (thread_run_list k) ++ waitq k q ++ [t] /\
    (exists x', tcbs k2 !! t = Some x' /\ tstate x' = TS_READY) /\
    sleep_on_end k2 q t = Ok (0, k2).
Proof.
  intros Hms Hw Hd Hnd Has. pose proof Hms as [Hc Hx (H0 & Hi & Hv & Hp) (Hl & Hr & Hndr) _].
  unfold sleep_on_begin. rewrite Hc, (unready_begin k t x INFINITE 0 Hms).
  rewrite Z.eqb_refl. cbn [mbind outcome_bind].
  match goal with |- context [on_waitq ?k' t] => change (on_waitq k' t) with (on_waitq k t) end.
  rewrite Hw. unfold getT. cbn [tcbs set_run putT set_tcbs]. rewrite lookup_insert_eq.
  cbn [from_opt mbind outcome_bind].
  set (k1 := put_waitq _ q _).
  assert (waitq k1 q = waitq k q ++ [t]) as Hq1.
  { unfold k1. rewrite waitq_put, decide_True by done. done. }
  assert (forall t', tcbs k1 !! t' = if decide (t = t') then Some (set_wait_linked (unreadied x) true)
    else tcbs k !! t') as Ht1.
  { intros t'. unfold k1; cbn. case_decide; [subst; by rewrite lookup_insert_eq|].
    by rewrite !lookup_insert_ne. }
  assert (t ∉ waitq k q) as Hnq by (by apply not_on_waitq).
  assert (t ∉ thread_run_list k1) as Hnr by (by apply NoDup_list_del_notin).
  destruct (wakeup_loop_ok (waitq k1 q) (S (length (waitq k1 q))) k1 q (-1)) as
    (k2 & Hk2 & Hq2 & R2 & _ & T2); [done|lia| | |lia|].
  - rewrite Hq1. apply NoDup_app. split_and!; [done| |apply NoDup_singleton].
    intros t' Ht' ->%list_elem_of_singleton. done.
  - rewrite Hq1. intros t' [Ht'| ->%list_elem_of_singleton]%elem_of_app.
    + destruct (Has t' Ht') as (? & Hnr' & x' & Hx'). split; [done|]. split.
      * intros Hin. apply Hnr'. by apply (elem_of_list_del t t' (thread_run_list k)).
      * exists x'. rewrite Ht1, decide_False by (by intros ->). done.
    + split; [done|]. split; [done|]. exists (set_wait_linked (unreadied x) true).
      rewrite Ht1, decide_True by done. done.
  - cbn [Z.eqb Pos.eqb] in *. rewrite firstn_all, Hq1 in *. rewrite drop_all in Hq2.
    assert (tcbs k2 !! t = Some (woken (set_wait_linked (unreadied x) true))) as Htt.
    { rewrite T2, decide_True by apply elem_of_mid. by rewrite Ht1, decide_True. }
    exists k1, k2. split_and!; try done.
    + unfold thread_wakeup_all. by rewrite Hq1.
    + by eexists.
    + unfold sleep_on_end, getT. by rewrite Htt.
Qed.

(** A kernel whose thread 200 runs. *)
Definition running : kst := set_current_thread (sample [200; 300]) 200.

Lemma running_may_sleep : may_sleep running 200 (mk_ready 200 100).
Proof.
  split; try reflexivity; [by split_and!|]. split; [done|]. split; [left|].
  apply (bool_decide_unpack _). vm_compute. exact I.
Qed.

Lemma sleep_wakeup_roundtrip_witness :
  exists k1 k2, sleep_on_begin running 5 INFINITE 0 = Ok k1 /\
    waitq k1 5 = waitq running 5 ++ [200] /\ 200 ∉ thread_run_list k1 /\
    thread_wakeup_all k1 5 (-1) = Ok k2 /\ waitq k2 5 = [] /\
    thread_run_list k2 = list_del 200 [200; 300] ++ waitq running 5 ++ [200] /\
    (exists x', tcbs k2 !! 200 = Some x' /\ tstate x' = TS_READY) /\
    sleep_on_end k2 5 200 = Ok (0, k2).
Proof.
  apply (sleep_wakeup_roundtrip running 5 200 (mk_ready 200 100) running_may_sleep).
  - reflexivity.
  - done.
  - constructor.
  - intros t Ht. by apply elem_of_nil in Ht.
Defined.

(** The timer of a sleeping thread expires. *)
Lemma sleep_timer_expires_ok k t x at_ e h :
  asleep k t -> tcbs k !! t = Some x -> sleep_timer x = at_ -> at_ <> 0 ->
  timers (whl k) !! at_ = Some (MkTimer true e h t) ->
  exists k2, sleep_timer_expires k at_ = Ok k2 /\
    tcbs k2 !! t = Some (set_sleep_timer (set_signaled (made_ready x) 1) 0) /\
    thread_run_list k2 = thread_run_list k ++ [t] /\ waitqs k2 = waitqs k /\
    current_tcb k2 = current_tcb k /\ idle_task k2 = idle_task k.
Proof.
  intros Ha Hx Hst Hat Htm. unfold sleep_timer_expires. rewrite Htm.
  cbn [from_opt mbind outcome_bind arg]. unfold detach_timer. rewrite Htm.
  cbn [from_opt mbind outcome_bind active negb expires handler arg].
  set (w1 := set_timer _ at_ _). unfold thread_sleep_timer.
  rewrite (thread_ready_ok (set_whl k w1) t x) by done. cbn [mbind outcome_bind].
  unfold free_sleep_timer, getT. cbn [tcbs set_run putT set_tcbs set_whl].
  rewrite lookup_insert_eq. cbn [from_opt mbind outcome_bind].
  change (sleep_timer (made_ready x)) with (sleep_timer x). rewrite Hst.
  rewrite (proj2 (Z.eqb_neq _ _) Hat). unfold remove_timer, detach_timer.
  cbn [whl set_run putT set_tcbs set_whl timers w1 set_timer]. rewrite lookup_insert_eq.
  cbn [from_opt mbind outcome_bind active negb]. eexists. split; [done|].
  split_and!; try done. cbn. by rewrite lookup_insert_eq.
Qed.

(** A sleep with a timeout, and the expiry of its timer. *)
Lemma sleep_times_out k q t x timeout at_ :
  may_sleep k t x -> on_waitq k t = false -> tstate x <> TS_DEAD -> timeout <> INFINITE -> at_ <> 0 ->
  winv before (whl k) -> timers (whl k) !! at_ = None ->
  exists k1 k2, sleep_on_begin k q timeout at_ = Ok k1 /\ sleep_timer_expires k1 at_ = Ok k2 /\
    sleep_on_end k2 q t = Ok (0, k2) /\ waitqs k2 = <[q := waitq k q ++ [t]]> (waitqs k) /\
    (exists x', may_sleep k2 t x' /\ tstate x' = TS_READY).
Proof.
  intros Hms Hw Hd Hto Hat W Hfresh.
  pose proof Hms as [Hc Hx (H0 & Hi & Hv & Hp) (Hl & Hr & Hndr) _].
  unfold sleep_on_begin at 1. rewrite Hc, (unready_begin k t x timeout at_ Hms).
  rewrite (proj2 (Z.eqb_neq _ _) Hto), (proj2 (Z.eqb_neq _ _) Hat).
  set (w0 := init_timer (whl k) at_ 1 t).
  assert (winv before w0) as W0 by (apply inactive_winv; [done|by rewrite Hfresh|done]).
  destruct (mod_timer_ok before w0 at_ (MkTimer false 0 1 t) (msec2ticks timeout)) as
    (w & -> & _ & Htm & _); [done|done|by apply lookup_insert_eq|].
  cbn [mbind outcome_bind handler arg] in *.
  match goal with |- context [on_waitq ?k' t] => change (on_waitq k' t) with (on_waitq k t) end.
  rewrite Hw. unfold getT at 1. cbn [tcbs set_whl set_run putT set_tcbs].
  rewrite insert_insert_eq, lookup_insert_eq. cbn [from_opt mbind outcome_bind].
  set (x1 := set_wait_linked (set_sleep_timer (unreadied x) at_) true).
  set (k1 := put_waitq _ q _).
  assert (tcbs k1 !! t = Some x1) as Hx1 by (apply lookup_insert_eq).
  assert (t ∉ thread_run_list k1) as Hnr1 by (by apply NoDup_list_del_notin).
  assert (timers (whl k1) !! at_ = Some (MkTimer true (u32 (ticks w0 + msec2ticks timeout)) 1 t))
    as Hat1 by (change (whl k1) with w; by rewrite Htm, lookup_insert_eq).
  assert (asleep k1 t) as Ha1 by (split; [done|]; split; [done|]; exists x1; done).
  destruct (sleep_timer_expires_ok k1 t x1 at_ _ 1 Ha1 Hx1 eq_refl Hat Hat1)
    as (k2 & Hk2 & Hx2 & Hr2 & Hq2 & Hc2 & Hi2).
  exists k1, k2. split_and!; [done|done| |by rewrite Hq2|].
  - unfold sleep_on_end, getT. rewrite Hx2. done.
  - exists (set_sleep_timer (set_signaled (made_ready x1) 1) 0). split; [|done].
    split; [by rewrite Hc2|exact Hx2|by rewrite Hi2| |done].
    rewrite Hr2. split_and!; [done|apply elem_of_mid|].
    apply NoDup_app. split_and!; [by apply list_del_NoDup| |apply NoDup_singleton].
    intros t' Ht' ->%list_elem_of_singleton. done.
Qed.

(** a sleep that ends by its timer is not undone.  The timer makes the thread
    READY and sets timeout_signaled to 1, so thread_sleep_on_timeout returns 0,
    as for a wake-up, and the thread stays on the wait queue: a later wake-up is
    spent on it, and the next sleep of the thread inserts it a second time. *)
Theorem sleep_timeout_leaves_thread_queued k q t x timeout at_ :
  may_sleep k t x -> on_waitq k t = false -> tstate x <> TS_DEAD -> timeout <> INFINITE -> at_ <> 0 ->
  winv before (whl k) -> timers (whl k) !! at_ = None ->
  exists k1 k2, sleep_on_begin k q timeout at_ = Ok k1 /\ sleep_timer_expires k1 at_ = Ok k2 /\
    sleep_on_end k2 q t = Ok (0, k2) /\ t ∈ waitq k2 q /\
    (exists x', tcbs k2 !! t = Some x' /\ tstate x' = TS_READY) /\ t ∈ thread_run_list k2 /\
    forall q', sleep_on_begin k2 q' INFINITE 0 = Fault.
Proof.
  intros Hms Hw Hd Hto Hat W Hfresh.
  destruct (sleep_times_out k q t x timeout at_) as (k1 & k2 & H1 & H2 & H3 & Hq & x' & Hms' & Hr);
    try done.
  assert (t ∈ waitq k2 q) as Ht.
  { unfold waitq. rewrite Hq, lookup_insert_eq. apply elem_of_mid. }
  pose proof Hms' as [Hc Hx _ (_ & Hin & _) _].
  exists k1, k2. split_and!; try done; [by exists x'|]. intros q'.
  unfold sleep_on_begin. rewrite Hc, (unready_begin k2 t x' INFINITE 0 Hms').
  rewrite Z.eqb_refl. cbn [mbind outcome_bind].
  match goal with |- context [on_waitq ?k' t] => change (on_waitq k' t) with (on_waitq k2 t) end.
  by rewrite (on_waitq_in k2 q t Ht).
Qed.

Lemma sleep_timeout_leaves_thread_queued_witness :
  exists k1 k2, sleep_on_begin running 5 100 4096 = Ok k1 /\
    sleep_timer_expires k1 4096 = Ok k2 /\ sleep_on_end k2 5 200 = Ok (0, k2) /\
    200 ∈ waitq k2 5 /\
    (exists x', tcbs k2 !! 200 = Some x' /\ tstate x' = TS_READY) /\ 200 ∈ thread_run_list k2 /\
    forall q', sleep_on_begin k2 q' INFINITE 0 = Fault.
Proof.
  apply (sleep_timeout_leaves_thread_queued running 5 200 (mk_ready 200 100) 100 4096
    running_may_sleep); [reflexivity|done|done|done|apply boot_winv|reflexivity].
Defined.
