(* ===== verification/Sem.v ===== *)
(** * Semaphores (core/kernel/user_thread.c)

    A semaphore is a counter and a wait queue, named by its address [a], which
    is also the name of its wait queue in the thread state.  A lock that sleeps
    is split at the call of schedule (Thread.v): [None] says that the caller
    gave up the processor.  The name of a semaphore is stored but never read,
    and is left out. *)

From S2P Require Import Prelude Timer Thread.

Record user_semaphore := MkSem { sem_flags : Z; sem_id : Z; counter : Z }.
#[global] Instance user_semaphore_eq_dec : EqDecision user_semaphore.
Proof. solve_decision. Defined.

Record sst := MkS {
  ks : kst;
  sems : gmap Z user_semaphore;
  g_sem_list : list Z;
  last_semaphore_id : Z }.

Definition set_ks (s : sst) (k : kst) : sst := MkS k (sems s) (g_sem_list s) (last_semaphore_id s).
Definition put_sem (s : sst) (a : Z) (x : user_semaphore) : sst :=
  MkS (ks s) (<[a := x]> (sems s)) (g_sem_list s) (last_semaphore_id s).

(** KATOMIC_INC and KATOMIC_DEC of a semaphore's counter. *)
Definition add_counter (s : sst) (a d : Z) : outcome sst :=
  x ← from_opt (sems s !! a);
  Ok (put_sem s a (MkSem (sem_flags x) (sem_id x) (s32 (counter x + d)))).

Definition user_thread_init (s : sst) : sst := MkS (ks s) (sems s) [] 54.

Fixpoint find_sem (m : gmap Z user_semaphore) (l : list Z) (id : Z) : outcome Z :=
  match l with
  | [] => Ok NULL
  | a :: l => x ← from_opt (m !! a); if sem_id x =? id then Ok a else find_sem m l id
  end.
Definition find_semaphore_by_id (s : sst) (id : Z) : outcome Z := find_sem (sems s) (g_sem_list s) id.

(** [a] is what kcalloc returned. *)
Definition create_semaphore (s : sst) (a flags init_val : Z) : Z * sst :=
  if a =? NULL then (NULL, s)
  else
    let s := MkS (thread_waitq_init (ks s) a) (<[a := MkSem flags (last_semaphore_id s) init_val]> (sems s))
               (g_sem_list s) (s32 (last_semaphore_id s + 1)) in
    (a, s).

Definition create_sem (s : sst) (a flags init_val : Z) : outcome (Z * sst) :=
  let '(p, s) := create_semaphore s a flags init_val in
  if p =? NULL then Ok (ENOMEM, s)
  else
    x ← from_opt (sems s !! p);
    Ok (sem_id x, MkS (ks s) (sems s) (p :: g_sem_list s) (last_semaphore_id s)).

(** The semaphore's memory is freed. *)
Definition destroy_semaphore (s : sst) (a : Z) : outcome (Z * sst) :=
  if a =? NULL then Ok (-1, s)
  else
    _ ← from_opt (sems s !! a);
    k ← thread_wakeup_all (ks s) a (-1);
    Ok (0, MkS k (delete a (sems s)) (g_sem_list s) (last_semaphore_id s)).

Definition destroy_sem (s : sst) (id : Z) : outcome (Z * sst) :=
  a ← find_semaphore_by_id s id;
  if a =? NULL then Ok (ENOENT, s)
  else
    l ← q_remove (g_sem_list s) a;
    destroy_semaphore (MkS (ks s) (sems s) l (last_semaphore_id s)) a.

Definition trylock_semaphore (s : sst) (a : Z) : outcome (Z * sst) :=
  if a =? NULL then Ok (ENOENT, s)
  else
    x ← from_opt (sems s !! a);
    if counter x <=? 0 then Ok (-1, s)
    else s ← add_counter s a (-1); Ok (0, s).

Definition lock_semaphore_begin (s : sst) (a : Z) : outcome (option Z * sst) :=
  if a =? NULL then Ok (Some ENOENT, s)
  else
    x ← from_opt (sems s !! a);
    if counter x <=? 0 then k ← sleep_on_begin (ks s) a INFINITE 0; Ok (None, set_ks s k)
    else s ← add_counter s a (-1); Ok (Some 0, s).

(** The result of thread_sleep_on is not tested. *)
Definition lock_semaphore_end (s : sst) (a t : Z) : outcome (Z * sst) :=
  '(_, k) ← sleep_on_end (ks s) a t;
  s ← add_counter (set_ks s k) a (-1);
  Ok (0, s).

Definition lock_semaphore_timeout_begin (s : sst) (a timeout at_ : Z) : outcome (option Z * sst) :=
  if timeout =? INFINITE then lock_semaphore_begin s a
  else if a =? NULL then Ok (Some (-1), s)
  else
    s ← add_counter s a (-1);
    x ← from_opt (sems s !! a);
    if 0 <=? counter x then Ok (Some 0, s)
    else k ← sleep_on_begin (ks s) a timeout at_; Ok (None, set_ks s k).
Definition lock_semaphore_timeout_end (s : sst) (a t : Z) : outcome (Z * sst) :=
  '(err, k) ← sleep_on_end (ks s) a t;
  let s := set_ks s k in
  if err =? 0 then Ok (0, s) else s ← add_counter s a 1; Ok (-1, s).

Definition lock_sem_begin (s : sst) (id : Z) : outcome (option Z * sst) :=
  a ← find_semaphore_by_id s id;
  if a =? NULL then Ok (Some EINVAL, s) else lock_semaphore_begin s a.
Definition lock_sem_timeout_begin (s : sst) (id timeout at_ : Z) : outcome (option Z * sst) :=
  a ← find_semaphore_by_id s id;
  lock_semaphore_timeout_begin s a timeout at_.

Definition unlock_semaphore (s : sst) (a : Z) : outcome (Z * sst) :=
  _ ← from_opt (sems s !! a);
  '(_, k) ← thread_wakeup (ks s) a;
  s ← add_counter (set_ks s k) a 1;
  Ok (0, s).
Definition unlock_sem (s : sst) (id : Z) : outcome (Z * sst) :=
  a ← find_semaphore_by_id s id;
  if a =? NULL then Ok (EINVAL, s) else unlock_semaphore s a.

Definition unlock_semaphore_ex (s : sst) (a max : Z) : outcome (Z * sst) :=
  _ ← from_opt (sems s !! a);
  k ← thread_wakeup_all (ks s) a max;
  s ← add_counter (set_ks s k) a 1;
  Ok (0, s).
Definition unlock_sem_ex (s : sst) (id max : Z) : outcome (Z * sst) :=
  a ← find_semaphore_by_id s id;
  if a =? NULL then Ok (EINVAL, s) else unlock_semaphore_ex s a max.

Definition thread_yield (s : sst) : outcome sst := '(_, k) ← schedule (ks s); Ok (set_ks s k).

(** ** Effect of the operations on a semaphore *)

(** The counter and the queue of semaphore [a]. *)
Definition sem_is (s : sst) (a c : Z) (q : list Z) : Prop :=
  (exists x, sems s !! a = Some x /\ counter x = c) /\ waitq (ks s) a = q.

Lemma add_counter_Ok s a d s' :
  add_counter s a d = Ok s' -> ks s' = ks s /\
  exists x, sems s !! a = Some x /\
    sems s' = <[a := MkSem (sem_flags x) (sem_id x) (s32 (counter x + d))]> (sems s).
Proof. unfold add_counter. intros H. inv_ok. cbn. eauto. Qed.

Lemma thread_ready_waitqs k t rc k' : thread_ready k t = Ok (rc, k') -> waitqs k' = waitqs k.
Proof.
  unfold thread_ready. intros H. destruct (t =? NIL_THREAD); inv_ok; [done|].
  destruct (negb (valid a)); inv_ok; [done|]. destruct (run_linked a); inv_ok; [done|].
  destruct (tstate a =? TS_DEAD); inv_ok; done.
Qed.

Lemma thread_wakeup_waitqs k q rc k' :
  thread_wakeup k q = Ok (rc, k') ->
  (waitq k q = [] /\ k' = k) \/
  exists t l, waitq k q = t :: l /\ waitqs k' = <[q := l]> (waitqs k).
Proof.
  unfold thread_wakeup. destruct (waitq k q) as [|t l] eqn:Hq; intros H; inv_ok; [by left|].
  right. exists t, l. split; [done|]. destruct a0 as [rc' k1].
  apply thread_ready_waitqs in Hb0. inv_ok. by rewrite Hb0.
Qed.

Lemma free_sleep_timer_waitqs k t sig k' :
  free_sleep_timer k t sig = Ok k' -> waitqs k' = waitqs k /\ current_tcb k' = current_tcb k.
Proof.
  unfold free_sleep_timer. intros H. inv_ok. destruct (sleep_timer a =? 0); inv_ok; [done|].
  destruct a0 as [rc w]. by inv_ok.
Qed.

Lemma thread_unready_waitqs k t timeout at_ rc k' :
  thread_unready k t timeout at_ = Ok (rc, k') ->
  waitqs k' = waitqs k /\ current_tcb k' = current_tcb k.
Proof.
  unfold thread_unready. intros H. apply bind_Ok_inv in H as (u1 & _ & H).
  apply bind_Ok_inv in H as (x & _ & H). apply bind_Ok_inv in H as (u2 & _ & H).
  destruct (negb (valid x)); [by inv_ok|]. destruct (t =? idle_task k); [done|].
  apply bind_Ok_inv in H as (k1 & Hf & H). apply free_sleep_timer_waitqs in Hf as [Hw Hc].
  apply bind_Ok_inv in H as (x1 & _ & H). apply bind_Ok_inv in H as (l & _ & H).
  destruct (negb (timeout =? INFINITE)); [|by inv_ok].
  destruct (at_ =? 0); [by inv_ok|]. apply bind_Ok_inv in H as ([rc' w] & _ & H). by inv_ok.
Qed.

Lemma sleep_on_begin_waitqs k q timeout at_ k' :
  sleep_on_begin k q timeout at_ = Ok k' -> waitq k' q = waitq k q ++ [current_tcb k].
Proof.
  unfold sleep_on_begin. intros H. apply bind_Ok_inv in H as ([rc k1] & Hu & H).
  apply thread_unready_waitqs in Hu as [Hw Hc]. destruct (on_waitq k1 (current_tcb k)); [done|].
  inv_ok. rewrite waitq_put, decide_True by done. unfold waitq. by rewrite Hw.
Qed.

(** lock_semaphore takes the semaphore when it wakes up without looking at
    the counter again: whatever its value, the lock is granted and the counter
    drops.  A thread that locks between the wake-up and the resumption of the
    sleeper holds the semaphore together with it. *)
Theorem lock_semaphore_end_unconditional s a t x y :
  sems s !! a = Some x -> tcbs (ks s) !! t = Some y -> timeout_signaled y = 0 ->
  exists s', lock_semaphore_end s a t = Ok (0, s') /\
    sems s' !! a = Some (MkSem (sem_flags x) (sem_id x) (s32 (counter x - 1))).
Proof.
  intros Hx Hy Hs. unfold lock_semaphore_end, sleep_on_end, getT. rewrite Hy.
  cbn [from_opt mbind outcome_bind]. rewrite Hs. cbn [Z.eqb].
  cbn [mbind outcome_bind]. unfold add_counter. cbn [sems set_ks]. rewrite Hx.
  cbn [from_opt mbind outcome_bind]. eexists. split; [done|].
  cbn. by rewrite lookup_insert_eq.
Qed.

(** Threads 200, 300 and 400, and a semaphore at 64 with one unit. *)
Definition three : sst :=
  (create_semaphore (MkS (sample [200; 300; 400]) ∅ [] 54) 64 0 1).2.

Definition as_thread (t : Z) (s : sst) : sst := set_ks s (set_current_thread (ks s) t).

(** 200 locks; 300 blocks; 200 unlocks, waking 300; 400 locks. *)
Definition stolen : outcome sst :=
  '(r1, s) ← lock_semaphore_begin (as_thread 200 three) 64;
  '(r2, s) ← lock_semaphore_begin (as_thread 300 s) 64;
  '(_, s) ← unlock_semaphore (as_thread 200 s) 64;
  '(r3, s) ← lock_semaphore_begin (as_thread 400 s) 64;
  if decide (r1 = Some 0 /\ r2 = None /\ r3 = Some 0) then Ok (as_thread 300 s) else Panic.

Lemma lock_semaphore_end_unconditional_witness :
  exists s s', stolen = Ok s /\ lock_semaphore_end s 64 300 = Ok (0, s') /\
    sems s' !! 64 = Some (MkSem 0 54 (-1)).
Proof.
  destruct (ok_such_that (fun s => sems s !! 64 = Some (MkSem 0 54 0) /\
    timeout_signaled <$> tcbs (ks s) !! 300 = Some 0) stolen) as (s & E & Hx & Ht);
    [vm_compute; reflexivity|].
  apply fmap_Some in Ht as (y & Hy & Hs).
  destruct (lock_semaphore_end_unconditional s 64 300 _ y Hx Hy (eq_sym Hs)) as (s' & Hs' & Hx').
  exists s, s'. split; [exact E|]. split; [exact Hs'|exact Hx'].
Defined.

(** destroying a semaphore wakes the threads that sleep in lock_semaphore,
    which then count down the counter in the memory that has been freed. *)
Theorem destroyed_semaphore_used_after_free s a t s1 y :
  a <> NULL -> destroy_semaphore s a = Ok (0, s1) ->
  tcbs (ks s1) !! t = Some y -> timeout_signaled y = 0 ->
  lock_semaphore_end s1 a t = Fault.
Proof.
  intros Ha Hd Hy Hs. unfold destroy_semaphore in Hd. rewrite (proj2 (Z.eqb_neq _ _) Ha) in Hd.
  inv_ok. cbn in *. unfold lock_semaphore_end, sleep_on_end, getT. cbn [ks]. rewrite Hy.
  cbn [from_opt mbind outcome_bind]. rewrite Hs. cbn [Z.eqb mbind outcome_bind].
  unfold add_counter. cbn. by rewrite lookup_delete_eq.
Qed.

(** 200 holds the semaphore, 300 sleeps in lock_semaphore. *)
Definition contended : outcome sst :=
  '(_, s) ← lock_semaphore_begin (as_thread 200 three) 64;
  '(_, s) ← lock_semaphore_begin (as_thread 300 s) 64;
  Ok s.

Lemma destroyed_semaphore_used_after_free_witness :
  exists s s1, contended = Ok s /\ destroy_semaphore s 64 = Ok (0, s1) /\
    lock_semaphore_end s1 64 300 = Fault.
Proof.
  destruct (ok_such_that (fun r => r.2.1 = 0 /\
    timeout_signaled <$> tcbs (ks r.2.2) !! 300 = Some 0)
    (s ← contended; r ← destroy_semaphore s 64; Ok (s, r))) as ([s [rc s1]] & E & Hrc & Ht);
    [vm_compute; reflexivity|].
  cbn [fst snd] in Hrc, Ht. subst rc.
  apply bind_Ok_inv in E as (s' & Es & E). apply bind_Ok_inv in E as (r & Er & E).
  injection E as -> ->. apply fmap_Some in Ht as (y & Hy & Hs). exists s, s1.
  split; [exact Es|]. split; [exact Er|].
  apply (destroyed_semaphore_used_after_free s 64 300 s1 y); [discriminate|exact Er|exact Hy|exact (eq_sym Hs)].
Defined.

(** lock_semaphore_timeout grants the lock when its time runs out.  The expiry
    of the sleep timer is not told apart from a wake-up, so the call returns 0
    with no unit released, keeps the counter down and leaves the thread on the
    semaphore's queue. *)
Theorem timed_lock_granted_on_timeout s a t x y timeout at_ :
  a <> NULL -> sems s !! a = Some x -> - 2 ^ 31 < counter x <= 0 ->
  may_sleep (ks s) t y -> on_waitq (ks s) t = false -> tstate y <> TS_DEAD ->
  timeout <> INFINITE -> at_ <> 0 ->
  winv before (whl (ks s)) -> timers (whl (ks s)) !! at_ = None ->
  exists s1 k2, lock_semaphore_timeout_begin s a timeout at_ = Ok (None, s1) /\
    sleep_timer_expires (ks s1) at_ = Ok k2 /\
    lock_semaphore_timeout_end (set_ks s1 k2) a t = Ok (0, set_ks s1 k2) /\
    sem_is (set_ks s1 k2) a (counter x - 1) (waitq (ks s) a ++ [t]).
Proof.
  intros Ha Hx Hc Hms Hw Hd Hto Hat W Hf.
  destruct (sleep_times_out (ks s) a t y timeout at_) as (k1 & k2 & H1 & H2 & H3 & Hq & _); try done.
  unfold lock_semaphore_timeout_begin, add_counter.
  rewrite (proj2 (Z.eqb_neq _ _) Hto), (proj2 (Z.eqb_neq _ _) Ha), Hx.
  cbn [from_opt mbind outcome_bind put_sem sems ks]. rewrite lookup_insert_eq.
  cbn [from_opt mbind outcome_bind counter]. rewrite (s32_small (counter x + -1)) by lia.
  rewrite (proj2 (Z.leb_gt _ _)) by lia. rewrite H1. cbn [mbind outcome_bind].
  eexists _, k2. split; [done|]. split; [done|]. split.
  - unfold lock_semaphore_timeout_end. cbn [ks set_ks]. by rewrite H3.
  - split.
    + cbn. rewrite lookup_insert_eq. eexists. split; [done|]. cbn. lia.
    + unfold waitq. cbn. by rewrite Hq, lookup_insert_eq.
Qed.

(** A semaphore at 64 with no unit, thread 200 running. *)
Definition none_left : sst := as_thread 200 (create_semaphore (MkS (sample [200; 300]) ∅ [] 54) 64 0 0).2.

Lemma timed_lock_granted_on_timeout_witness :
  exists s1 k2, lock_semaphore_timeout_begin none_left 64 100 4096 = Ok (None, s1) /\
    sleep_timer_expires (ks s1) 4096 = Ok k2 /\
    lock_semaphore_timeout_end (set_ks s1 k2) 64 200 = Ok (0, set_ks s1 k2) /\
    sem_is (set_ks s1 k2) 64 (0 - 1) (waitq (ks none_left) 64 ++ [200]).
Proof.
  apply (timed_lock_granted_on_timeout none_left 64 200 (MkSem 0 54 0) (mk_ready 200 100) 100 4096);
    [discriminate|reflexivity|done| |reflexivity|done|done|done|apply boot_winv|reflexivity].
  destruct running_may_sleep as [H1 H2 H3 H4 H5]. split; assumption.
Defined.

(** ** Who holds a semaphore

    A run of threads over semaphore [a] that lock with a timeout that does not
    expire, try to lock, and unlock what they hold.  The second component lists
    the holders: a thread that took a unit, or to which an unlock handed one. *)
Inductive sem_step (a : Z) : sst * list Z -> sst * list Z -> Prop :=
  | step_switch s H t : sem_step a (s, H) (as_thread t s, H)
  | step_try s H s' : trylock_semaphore s a = Ok (0, s') -> sem_step a (s, H) (s', current_tcb (ks s) :: H)
  | step_try_fails s H s' : trylock_semaphore s a = Ok (-1, s') -> sem_step a (s, H) (s', H)
  | step_lock s H timeout at_ s' :
      timeout <> INFINITE -> lock_semaphore_timeout_begin s a timeout at_ = Ok (Some 0, s') ->
      sem_step a (s, H) (s', current_tcb (ks s) :: H)
  | step_wait s H timeout at_ s' :
      timeout <> INFINITE -> Z.of_nat (length (waitq (ks s) a)) < 2 ^ 31 - 1 ->
      lock_semaphore_timeout_begin s a timeout at_ = Ok (None, s') ->
      sem_step a (s, H) (s', H)
  | step_resume s H t s' :
      lock_semaphore_timeout_end s a t = Ok (0, s') -> sem_step a (s, H) (s', H)
  | step_unlock s H s' :
      current_tcb (ks s) ∈ H -> unlock_semaphore s a = Ok (0, s') ->
      sem_step a (s, H) (s', take 1 (waitq (ks s) a) ++ list_del (current_tcb (ks s)) H).

(** Units are held, free or owed to a sleeper. *)
Definition sem_inv (a init : Z) (w : sst * list Z) : Prop :=
  exists c q, sem_is w.1 a c q /\ c = init - Z.of_nat (length w.2) - Z.of_nat (length q) /\
    Z.of_nat (length q) = Z.max 0 (- c) /\ - 2 ^ 31 < c.

Lemma add_counter_is s a d s' c q :
  add_counter s a d = Ok s' -> sem_is s a c q -> - 2 ^ 31 <= c + d < 2 ^ 31 -> sem_is s' a (c + d) q.
Proof.
  intros H [(x & Hx & <-) Hq] Hr. apply add_counter_Ok in H as (Hk & x' & Hx' & Hs). simplify_eq.
  split; [|by rewrite Hk]. rewrite Hs, lookup_insert_eq. eexists. split; [done|]. cbn.
  by rewrite s32_small.
Qed.

Lemma timed_begin_inv s a timeout at_ r s' c q :
  timeout <> INFINITE -> lock_semaphore_timeout_begin s a timeout at_ = Ok (r, s') ->
  sem_is s a c q -> - 2 ^ 31 < c < 2 ^ 31 -> r = Some (-1) \/
  (0 < c /\ r = Some 0 /\ sem_is s' a (c - 1) q) \/
  (c <= 0 /\ r = None /\ sem_is s' a (c - 1) (q ++ [current_tcb (ks s)])).
Proof.
  unfold lock_semaphore_timeout_begin. intros Hto H Hs Hc.
  rewrite (proj2 (Z.eqb_neq _ _) Hto) in H. destruct (a =? NULL); [inv_ok; by left|right].
  apply bind_Ok_inv in H as (s1 & Ha & H). apply bind_Ok_inv in H as (x & Hx & H).
  pose proof (add_counter_is _ _ _ _ _ _ Ha Hs ltac:(lia)) as [(x' & Hx' & Hcx) Hq'].
  apply add_counter_Ok in Ha as [Hk _]. rewrite Hx' in Hx. injection Hx as ->. rewrite Hcx in H.
  destruct (Z.leb_spec 0 (c + -1)); [left|right].
  - injection H as <- <-. split; [lia|]. split; [done|]. split; [exists x; split; [done|lia]|done].
  - apply bind_Ok_inv in H as (k & Hk' & H). injection H as <- <-. split; [lia|]. split; [done|].
    split; [exists x; split; [done|lia]|]. cbn.
    by rewrite (sleep_on_begin_waitqs _ _ _ _ _ Hk'), Hq', Hk.
Qed.

Lemma timed_end_inv s a t s' c q :
  lock_semaphore_timeout_end s a t = Ok (0, s') -> sem_is s a c q -> sem_is s' a c q.
Proof.
  unfold lock_semaphore_timeout_end, sleep_on_end. intros H Hs.
  apply bind_Ok_inv in H as ([err k] & He & H). apply bind_Ok_inv in He as (x & _ & He).
  destruct (timeout_signaled x =? -1).
  - apply bind_Ok_inv in He as (l & _ & He). injection He as <- <-. cbn [Z.eqb] in H.
    apply bind_Ok_inv in H as (s1 & _ & H). discriminate H.
  - injection He as <- <-. injection H as <-. exact Hs.
Qed.

Lemma unlock_inv s a s' c q :
  unlock_semaphore s a = Ok (0, s') -> sem_is s a c q -> - 2 ^ 31 <= c < 2 ^ 31 - 1 ->
  sem_is s' a (c + 1) (drop 1 q).
Proof.
  unfold unlock_semaphore. intros H [Hx Hq] Hc. apply bind_Ok_inv in H as (x & _ & H).
  apply bind_Ok_inv in H as ([rc k] & Hw & H). apply bind_Ok_inv in H as (s1 & Ha & H).
  injection H as <-. apply (add_counter_is _ _ _ _ c _ Ha); [|lia]. split; [exact Hx|].
  cbn [ks set_ks]. apply thread_wakeup_waitqs in Hw as [[Hn ->]|(t & l & Hn & Hk)].
  - by rewrite Hn in Hq; subst q.
  - rewrite Hn in Hq. subst q. unfold waitq. by rewrite Hk, lookup_insert_eq.
Qed.

Lemma trylock_inv s a rc s' c q :
  trylock_semaphore s a = Ok (rc, s') -> sem_is s a c q -> - 2 ^ 31 < c < 2 ^ 31 ->
  (rc = 0 /\ 0 < c /\ sem_is s' a (c - 1) q) \/ (rc <> 0 /\ s' = s).
Proof.
  unfold trylock_semaphore. intros H Hs Hc. destruct (a =? NULL); [inv_ok; by right|].
  apply bind_Ok_inv in H as (x & Hx & H). pose proof Hs as [(x' & Hx' & <-) _].
  rewrite Hx' in Hx. injection Hx as ->. destruct (Z.leb_spec (counter x) 0).
  - injection H as <- <-. by right.
  - apply bind_Ok_inv in H as (s1 & Ha & H). injection H as <- <-. left. split_and!; [done|done|].
    by apply (add_counter_is _ _ _ _ _ _ Ha Hs); lia.
Qed.

Lemma sem_step_inv a init w w' :
  0 <= init < 2 ^ 31 -> sem_inv a init w -> sem_step a w w' -> sem_inv a init w'.
Proof.
  intros Hi (c & q & Hs & Hc & Hq & Hlo) Hst.
  destruct Hst as [s H t|s H s' E|s H s' E|s H to at_ s' Hto E|s H to at_ s' Hto Hl E|s H t s' E|s H s' Hin E];
    cbn [fst snd] in *.
  - exists c, q. by split_and!.
  - destruct (trylock_inv _ _ _ _ _ _ E Hs) as [(_ & Hp & Hs')|[? _]]; [lia| |done].
    exists (c - 1), q. cbn. split_and!; [done|lia..].
  - destruct (trylock_inv _ _ _ _ _ _ E Hs) as [(? & _)|[_ ->]]; [lia|done|].
    exists c, q. by split_and!.
  - destruct (timed_begin_inv _ _ _ _ _ _ _ _ Hto E Hs) as [?|[(Hp & _ & Hs')|(_ & ? & _)]];
      [lia|done| |done]. exists (c - 1), q. cbn. split_and!; [done|lia..].
  - destruct (timed_begin_inv _ _ _ _ _ _ _ _ Hto E Hs) as [?|[(_ & ? & _)|(Hp & _ & Hs')]];
      [lia|done|done|]. destruct Hs as [_ Hwq]. rewrite Hwq in Hl.
    exists (c - 1), (q ++ [current_tcb (ks s)]). cbn. rewrite length_app. cbn.
    split_and!; [done|lia..].
  - exists c, q. split_and!; [by eapply timed_end_inv|done..].
  - pose proof (length_list_del _ _ Hin). destruct Hs as [Hx Hwq].
    assert (sem_is s' a (c + 1) (drop 1 q)) by (eapply unlock_inv; [done|by split|lia]).
    exists (c + 1), (drop 1 q). cbn [fst snd]. rewrite Hwq, length_app, length_take, length_drop.
    split_and!; [done|lia..].
Qed.

(** C15: used through lock_semaphore_timeout (with timeouts that do not expire),
    trylock_semaphore and unlock_semaphore, a semaphore created with [init]
    units has at most [init] holders in every reachable state, and while a
    thread sleeps on it all the units are held: none is lost or left idle. *)
Theorem semaphore_holders_bounded a init s0 s H :
  0 <= init < 2 ^ 31 -> sem_is s0 a init [] -> reach (sem_step a) (s0, []) (s, H) ->
  Z.of_nat (length H) <= init /\
  (waitq (ks s) a <> [] -> Z.of_nat (length H) = init).
Proof.
  intros Hi H0 Hr. assert (sem_inv a init (s, H)) as (c & q & [_ Hs] & Hc & Hq & _).
  { eapply reach_invariant; [|intros w w' Hw Hst; by eapply sem_step_inv|exact Hr].
    exists init, []. cbn. split_and!; [done|lia..]. }
  cbn [fst snd] in *. rewrite Hs. split; [lia|]. intros Hn. destruct q; [done|]. cbn in Hq, Hc. lia.
Qed.

(** 200 takes the unit; 300 waits; 200 unlocks, which hands the unit to 300; 400 waits. *)
Definition handover : outcome (sst * list (option Z)) :=
  '(r1, s) ← lock_semaphore_timeout_begin (as_thread 200 three) 64 100 4096;
  '(r2, s) ← lock_semaphore_timeout_begin (as_thread 300 s) 64 100 8192;
  '(_, s) ← unlock_semaphore (as_thread 200 s) 64;
  '(r3, s) ← lock_semaphore_timeout_begin (as_thread 400 s) 64 100 12288;
  Ok (s, [r1; r2; r3]).

Lemma semaphore_holders_bounded_witness :
  exists s, reach (sem_step 64) (three, []) (s, [300]) /\ waitq (ks s) 64 = [400] /\
    Z.of_nat (length [300]) = 1.
Proof.
  destruct (ok_such_that (fun r => waitq (ks r.1) 64 = [400] /\ r.2 = [Some 0; None; None]) handover)
    as ([s rs] & E & Hq & Hrs); [vm_compute; reflexivity|]. cbn [fst snd] in Hq, Hrs. subst rs.
  unfold handover in E. apply bind_Ok_inv in E as ([r1 s1] & E1 & E).
  apply bind_Ok_inv in E as ([r2 s2] & E2 & E). apply bind_Ok_inv in E as ([r3 s3] & E3 & E).
  apply bind_Ok_inv in E as ([r4 s4] & E4 & E). injection E as <- -> -> ->.
  assert (three_is : sem_is three 64 1 []) by (split; [exists (MkSem 0 54 1)|]; split; reflexivity).
  pose proof (timed_begin_inv (as_thread 200 three) 64 100 4096 _ _ 1 [] ltac:(discriminate) E1 three_is ltac:(lia))
    as [Hd|[(_ & _ & [Hx1 Hq1])|(? & _)]]; [discriminate Hd| |lia].
  pose proof (timed_begin_inv (as_thread 300 s1) 64 100 8192 _ _ _ [] ltac:(discriminate) E2 (conj Hx1 Hq1) ltac:(lia))
    as [Hd|[(_ & Hd & _)|(_ & _ & [Hx2 Hq2])]]; [discriminate Hd|discriminate Hd|].
  assert (r3 = 0) as ->.
  { clear -E3. unfold unlock_semaphore in E3. apply bind_Ok_inv in E3 as (? & _ & E3).
    apply bind_Ok_inv in E3 as ([? ?] & _ & E3). apply bind_Ok_inv in E3 as (? & _ & E3).
    by injection E3. }
  destruct (unlock_inv (as_thread 200 s2) _ _ _ _ E3 (conj Hx2 Hq2) ltac:(lia)) as [Hx3 Hq3].
  assert (reach (sem_step 64) (three, []) (s4, [300])) as Hr.
  { eapply reach_step; [|apply (step_wait 64 (as_thread 400 s3) _ 100 12288); [done| |exact E4]].
    2: { change (ks (as_thread 400 s3)) with (set_current_thread (ks s3) 400).
         change (waitq (set_current_thread (ks s3) 400) 64) with (waitq (ks s3) 64). by rewrite Hq3. }
    eapply reach_step; [|apply step_switch].
    assert ([300] = take 1 (waitq (ks (as_thread 200 s2)) 64) ++ list_del 200 [200]) as ->.
    { change (waitq (ks (as_thread 200 s2)) 64) with (waitq (ks s2) 64). by rewrite Hq2. }
    eapply reach_step; [|apply (step_unlock 64 (as_thread 200 s2) [200] s3); [left|exact E3]].
    eapply reach_step; [|apply step_switch].
    eapply reach_step; [|apply (step_wait 64 (as_thread 300 s1) _ 100 8192); [done| |exact E2]].
    2: { change (waitq (ks (as_thread 300 s1)) 64) with (waitq (ks s1) 64). by rewrite Hq1. }
    eapply reach_step; [|apply step_switch].
    eapply reach_step; [|apply (step_lock 64 (as_thread 200 three) [] 100 4096 s1); [done|exact E1]].
    eapply reach_step; [apply reach_refl|apply step_switch]. }
  exists s4. split; [exact Hr|]. split; [exact Hq|].
  refine (proj2 (semaphore_holders_bounded 64 1 three s4 [300] ltac:(lia) three_is Hr) _).
  rewrite Hq. discriminate.
Defined.
