(* ===== verification/CStr.v ===== *)
(** * C strings (core/lib/string.c, core/lib/conv.c, core/lib/strtok.c)

    Memory is a map from addresses to bytes (0..255); an access to an address
    that is not mapped is a fault.  A plain [char] is signed ([schar]).  The
    loops that run up to a terminator have a fuel of one more than the number of
    mapped bytes: each iteration looks at a new address, so a loop that is still
    running then has met an unmapped one. *)

From S2P Require Import Prelude.

Notation cmem := (gmap Z Z).

Definition ld (m : cmem) (p : Z) : outcome Z := from_opt (m !! p).
Definition st (m : cmem) (p b : Z) : outcome cmem := _ ← from_opt (m !! p); Ok (<[p := b]> m).
Definition fuel (m : cmem) : nat := S (size m).

Definition schar (b : Z) : Z := if b <? 128 then b else b - 256.

(** ** Character classes (sys/ansi.h) *)

Definition isdigit (c : Z) : bool := (48 <=? c) && (c <=? 57).
Definition isxdigit (c : Z) : bool :=
  isdigit c || ((97 <=? c) && (c <=? 102)) || ((65 <=? c) && (c <=? 70)).

(** The table __tolower_tab: the identity but for A..Z. *)
Definition tolower (c : Z) : Z :=
  let b := Z.land c 255 in if (65 <=? b) && (b <=? 90) then b + 32 else b.

(** ** Numbers *)

(** [base] is 2..16; digits[base-1] is the last digit of the base. *)
Definition isnumber (c base : Z) : bool :=
  let last := if base <=? 10 then 48 + (base - 1) else 65 + (base - 11) in
  (48 <=? c) && (c <=? last).

Definition tonumber (c : Z) : Z :=
  if (48 <=? c) && (c <=? 57) then c - 48
  else if (65 <=? c) && (c <=? 70) then c - 65 + 10
  else if (97 <=? c) && (c <=? 102) then c - 97 + 10
  else c.

Definition todigit (c : Z) : Z :=
  if (0 <=? c) && (c <=? 9) then c + 48
  else if (10 <=? c) && (c <=? 15) then c + 65 - 10
  else c.

Fixpoint hex2num_loop (n : nat) (m : cmem) (str i num : Z) : outcome Z :=
  match n with
  | O => OutOfFuel
  | S n =>
      c ← ld m (str + i);
      if isxdigit (schar c)
      then hex2num_loop n m str (i + 1) (s32 (num + (num * 16 + tonumber (schar c))))
      else Ok num
  end.
Definition hex2num (m : cmem) (str : Z) : outcome Z := hex2num_loop (fuel m) m str 0 0.

Fixpoint strlen_loop (n : nat) (m : cmem) (s count : Z) : outcome Z :=
  match n with
  | O => OutOfFuel
  | S n => c ← ld m s; if c =? 0 then Ok count else strlen_loop n m (s + 1) (u32 (count + 1))
  end.
Definition strlen (m : cmem) (s : Z) : outcome Z := strlen_loop (fuel m) m s 0.

Fixpoint atoi_loop (n : nat) (m : cmem) (str i res : Z) : outcome Z :=
  match n with
  | O => OutOfFuel
  | S n =>
      l ← strlen m str;
      if i <? l then
        c ← ld m (str + i);
        if isdigit (schar c) then atoi_loop n m str (i + 1) (u32 (res * 10 + schar c - 48))
        else Ok res
      else Ok res
  end.
Definition atoi (m : cmem) (str : Z) : outcome Z := atoi_loop (fuel m) m str 0 0.

(** The position of [c] among 0..9a..f, else among 0..9A..F, else -1. *)
Definition hex_offset (c : Z) : Z :=
  if isdigit c then c - 48
  else if (97 <=? c) && (c <=? 102) then c - 97 + 10
  else if (65 <=? c) && (c <=? 70) then c - 65 + 10
  else -1.

Fixpoint hex2int_loop (n : nat) (m : cmem) (str len i num : Z) : outcome Z :=
  match n with
  | O => OutOfFuel
  | S n =>
      if i <? len then
        c ← ld m (str + i);
        let t := hex_offset (schar c) in
        if 0 <=? t then hex2int_loop n m str len (i + 1) (s32 (num * 16 + t)) else Ok num
      else Ok num
  end.
Definition hex2int (m : cmem) (str : Z) : outcome Z :=
  len ← strlen m str; hex2int_loop (fuel m) m str len 0 0.

Definition INT_MAX : Z := 2147483647.

(** Skip the leading zeros. *)
Fixpoint skip_zeros (n : nat) (m : cmem) (s : Z) : outcome Z :=
  match n with
  | O => OutOfFuel
  | S n => c ← ld m s; if c =? 48 then skip_zeros n m (s + 1) else Ok s
  end.

(** Convert the digits; [None] is the early return. *)
Fixpoint strtoi_loop (n : nat) (m : cmem) (s base result : Z) (overflow : bool)
    : outcome (option (Z * Z * bool)) :=
  match n with
  | O => OutOfFuel
  | S n =>
      c ← ld m s;
      if isnumber (schar c) base then
        let value := tonumber (schar c) in
        if (base <? value) || (value <? 0) then Ok None
        else
          let r := s32 (s32 (result * base) + value) in
          strtoi_loop n m (s + 1) base r (overflow || (r <? result))
      else Ok (Some (s, result, overflow))
  end.

(** The result and what is stored through scan_end, when anything is. *)
Definition strtoi (m : cmem) (s base : Z) : outcome (Z * option Z) :=
  c ← ld m s;
  let sign := if c =? 45 then -1 else 1 in
  let s := if (c =? 45) || (c =? 43) then s + 1 else s in
  s ← skip_zeros (fuel m) m s;
  r ← strtoi_loop (fuel m) m s base 0 false;
  match r with
  | None => Ok (0, None)
  | Some (s, result, overflow) =>
      let res := if (overflow : bool) then INT_MAX else result in
      Ok (s32 (res * sign), Some s)
  end.

Definition hexch2int (h : Z) : Z :=
  if (97 <=? h) && (h <=? 102) then h - 97 + 10
  else if (65 <=? h) && (h <=? 70) then h - 65 + 10
  else h - 48.

(** The digits of [digit], last one first, as str2 receives them ([/] and [%]
    truncate towards zero).  An [int] has at most ten digits, so str2 (16 bytes)
    and the 8-bit index are large enough. *)
Fixpoint int_digits (n : nat) (digit : Z) : list Z :=
  match n with
  | O => []
  | S n => if digit =? 0 then [] else u8 (Z.rem digit 10 + 48) :: int_digits n (Z.quot digit 10)
  end.

Fixpoint write_list (m : cmem) (p : Z) (l : list Z) : outcome cmem :=
  match l with
  | [] => Ok m
  | b :: l => m ← st m p b; write_list m (p + 1) l
  end.

Definition int2str (m : cmem) (d str1 : Z) : outcome (Z * cmem) :=
  m ← (if negb (d =? 0) then write_list m str1 (rev (int_digits 16 d) ++ [0])
       else write_list m str1 [48; 0]);
  Ok (str1, m).

Definition conv2 (norm w : Z) : Z :=
  if negb (norm =? 0) then Z.land w 65535
  else Z.lor (Z.shiftl (Z.land w 255) 8) (Z.land (Z.shiftr w 8) 255).

(** A 32-bit pattern. *)
Definition conv4 (norm x : Z) : Z :=
  if negb (norm =? 0) then x
  else
    let lo := conv2 0 (Z.land x 65535) in
    let hi := conv2 0 (Z.land (Z.shiftr x 16) 65535) in
    s32 (Z.lor (Z.shiftl lo 16) hi).

Fixpoint swap_char_loop (n : nat) (m : cmem) (p i : Z) : outcome cmem :=
  match n with
  | O => OutOfFuel
  | S n =>
      b ← ld m (p + (i + 1));
      if b =? 0 then Ok m
      else
        temp ← ld m (p + i);
        m ← st m (p + i) b;
        m ← st m (p + (i + 1)) temp;
        swap_char_loop n m p (i + 2)
  end.
Definition swap_char (m : cmem) (toswap : Z) : outcome cmem := swap_char_loop (fuel m) m toswap 0.

(** ** Copying and filling *)

Fixpoint strcpy_loop (n : nat) (m : cmem) (d s : Z) : outcome (cmem * Z) :=
  match n with
  | O => OutOfFuel
  | S n =>
      c ← ld m s;
      if c =? 0 then Ok (m, d) else m ← st m d c; strcpy_loop n m (d + 1) (s + 1)
  end.
Definition strcpy (m : cmem) (src_char add_char : Z) : outcome (Z * cmem) :=
  '(m, d) ← strcpy_loop (fuel m) m src_char add_char;
  m ← st m d 0;
  Ok (src_char, m).

Fixpoint strncpy_loop (n : nat) (m : cmem) (d s i nr : Z) : outcome (cmem * Z) :=
  match n with
  | O => OutOfFuel
  | S n =>
      c ← ld m s;
      if negb (c =? 0) && (i <? nr)
      then m ← st m d c; strncpy_loop n m (d + 1) (s + 1) (i + 1) nr
      else Ok (m, d)
  end.
Definition strncpy (m : cmem) (src_char add_char nr : Z) : outcome (Z * cmem) :=
  '(m, d) ← strncpy_loop (fuel m) m src_char add_char 0 nr;
  m ← st m d 0;
  Ok (src_char, m).

Fixpoint strend_loop (n : nat) (m : cmem) (s : Z) : outcome Z :=
  match n with
  | O => OutOfFuel
  | S n => c ← ld m s; if c =? 0 then Ok s else strend_loop n m (s + 1)
  end.
Definition strcat (m : cmem) (src_char add_char : Z) : outcome (Z * cmem) :=
  d ← strend_loop (fuel m) m src_char;
  '(m, d) ← strcpy_loop (fuel m) m d add_char;
  m ← st m d 0;
  Ok (src_char, m).

Fixpoint fill_loop (n : nat) (m : cmem) (p c : Z) : outcome cmem :=
  match n with
  | O => Ok m
  | S n => m ← st m p c; fill_loop n m (p + 1) c
  end.
Definition memset (m : cmem) (b c len : Z) : outcome (Z * cmem) :=
  m ← fill_loop (Z.to_nat len) m b (u8 c); Ok (b, m).
Definition bzero (m : cmem) (buf sz : Z) : outcome cmem := fill_loop (Z.to_nat sz) m buf 0.
Definition be_zero (m : cmem) (s len : Z) : outcome cmem :=
  if len <=? 0 then Ok m else fill_loop (Z.to_nat len) m s 0.

Fixpoint memcpy_loop (n : nat) (m : cmem) (d s : Z) : outcome cmem :=
  match n with
  | O => Ok m
  | S n => b ← ld m s; m ← st m d b; memcpy_loop n m (d + 1) (s + 1)
  end.
Definition memcpy (m : cmem) (dst_ptr src_ptr count : Z) : outcome (Z * cmem) :=
  m ← memcpy_loop (Z.to_nat count) m dst_ptr src_ptr; Ok (dst_ptr, m).

(** ** Comparing *)

Fixpoint strcmp_loop (n : nat) (m : cmem) (s1 s2 i : Z) : outcome Z :=
  match n with
  | O => OutOfFuel
  | S n =>
      a ← ld m (s1 + i);
      b ← ld m (s2 + i);
      if (a =? 0) && (b =? 0) then Ok 0
      else if schar a <? schar b then Ok (-1)
      else if schar b <? schar a then Ok 1
      else strcmp_loop n m s1 s2 (i + 1)
  end.
Definition strcmp (m : cmem) (s1 s2 : Z) : outcome Z :=
  if (s1 =? NULL) || (s2 =? NULL) then Ok 1 else strcmp_loop (fuel m) m s1 s2 0.

(** The loop condition reads s2[i] only when s1[i] is 0, and reads both before
    it compares [i] with [len]. *)
Fixpoint strncmp_loop (n : nat) (m : cmem) (s1 s2 i len : Z) : outcome Z :=
  match n with
  | O => OutOfFuel
  | S n =>
      a ← ld m (s1 + i);
      both ← (if a =? 0 then b ← ld m (s2 + i); Ok (b =? 0) else Ok false);
      if (both : bool) then Ok 0
      else if negb (i <? len) then Ok 0
      else
        b ← ld m (s2 + i);
        if schar a <? schar b then Ok (-1)
        else if schar b <? schar a then Ok 1
        else strncmp_loop n m s1 s2 (i + 1) len
  end.
Definition strncmp (m : cmem) (s1 s2 len : Z) : outcome Z :=
  if (s1 =? NULL) || (s2 =? NULL) then Ok 1 else strncmp_loop (fuel m) m s1 s2 0 len.

Fixpoint stricmp_loop (n : nat) (m : cmem) (s1 s2 : Z) : outcome Z :=
  match n with
  | O => OutOfFuel
  | S n =>
      a ← ld m s1;
      b ← ld m s2;
      if negb (a =? 0) && negb (b =? 0) && (tolower a =? tolower b)
      then stricmp_loop n m (s1 + 1) (s2 + 1)
      else Ok (tolower a - tolower b)
  end.
Definition stricmp (m : cmem) (s1 s2 : Z) : outcome Z := stricmp_loop (fuel m) m s1 s2.

Definition lower_char (c : Z) : Z := if (c <=? 90) && (65 <=? c) then c + 97 - 65 else c.

Fixpoint mystricmp_loop (n : nat) (m : cmem) (s1 s2 : Z) : outcome Z :=
  match n with
  | O => OutOfFuel
  | S n =>
      a ← ld m s1;
      b ← ld m s2;
      let f := lower_char (schar a) in
      let l := lower_char (schar b) in
      if negb (f =? 0) && (f =? l) then mystricmp_loop n m (s1 + 1) (s2 + 1) else Ok (f - l)
  end.
Definition mystricmp (m : cmem) (s1 s2 : Z) : outcome Z := mystricmp_loop (fuel m) m s1 s2.

(** The count is decremented before it is tested: 0 stands for 2^32. *)
Fixpoint strnicmp_loop (n : nat) (m : cmem) (s1 s2 count : Z) : outcome Z :=
  match n with
  | O => OutOfFuel
  | S n =>
      a ← ld m s1;
      b ← ld m s2;
      let f := lower_char a in
      let l := lower_char b in
      let count := u32 (count - 1) in
      if negb (count =? 0) && negb (f =? 0) && (f =? l)
      then strnicmp_loop n m (s1 + 1) (s2 + 1) count else Ok (f - l)
  end.
Definition strnicmp (m : cmem) (s1 s2 count : Z) : outcome Z := strnicmp_loop (fuel m) m s1 s2 count.

Fixpoint memcmp_loop (n : nat) (m : cmem) (p q : Z) : outcome Z :=
  match n with
  | O => Ok 0
  | S n =>
      a ← ld m p;
      b ← ld m q;
      if negb (a =? b) then Ok (a - b) else memcmp_loop n m (p + 1) (q + 1)
  end.
Definition memcmp (m : cmem) (left_p right_p count : Z) : outcome Z :=
  memcmp_loop (Z.to_nat count) m left_p right_p.

(** ** Searching *)

Fixpoint strchr_loop (n : nat) (m : cmem) (p c : Z) : outcome Z :=
  match n with
  | O => OutOfFuel
  | S n =>
      b ← ld m p;
      if schar b =? c then Ok p
      else if negb (b =? 0) then strchr_loop n m (p + 1) c else Ok NULL
  end.
Definition strchr (m : cmem) (p c : Z) : outcome Z := strchr_loop (fuel m) m p c.
Definition strfind (m : cmem) (p c : Z) : outcome Z := strchr_loop (fuel m) m p c.

Fixpoint strstr_loop (n : nat) (m : cmem) (s1 s2 st_len : Z) : outcome Z :=
  match n with
  | O => OutOfFuel
  | S n =>
      a ← ld m s1;
      b ← ld m s2;
      differ ← (if negb (a =? b) then Ok true
                else r ← strncmp m s1 s2 st_len; Ok (negb (r =? 0)));
      if (differ : bool) then if a =? 0 then Ok NULL else strstr_loop n m (s1 + 1) s2 st_len
      else Ok s1
  end.
Definition strstr (m : cmem) (s1 s2 : Z) : outcome Z :=
  st_len ← strlen m s2;
  if st_len =? 0 then Ok s1 else strstr_loop (fuel m) m s1 s2 st_len.

(** Is [c] among the characters of the string at [scan]? *)
Fixpoint scan_loop (n : nat) (m : cmem) (scan c : Z) : outcome bool :=
  match n with
  | O => OutOfFuel
  | S n =>
      b ← ld m scan;
      if b =? 0 then Ok false else if c =? b then Ok true else scan_loop n m (scan + 1) c
  end.
Fixpoint strscn_loop (n : nat) (m : cmem) (s pattern : Z) : outcome Z :=
  match n with
  | O => OutOfFuel
  | S n =>
      c ← ld m s;
      if c =? 0 then Ok NULL
      else
        hit ← scan_loop (fuel m) m pattern c;
        if (hit : bool) then Ok s else strscn_loop n m (s + 1) pattern
  end.
Definition strscn (m : cmem) (s pattern : Z) : outcome Z := strscn_loop (fuel m) m s pattern.

(** Backwards from the last character; the result is one before [path] when
    there is no slash. *)
Fixpoint basename_loop (n : nat) (m : cmem) (path fname : Z) : outcome Z :=
  match n with
  | O => OutOfFuel
  | S n =>
      if path <=? fname then
        c ← ld m fname;
        if c =? 47 then Ok (fname + 1) else basename_loop n m path (fname - 1)
      else Ok fname
  end.
Definition basename (m : cmem) (path : Z) : outcome Z :=
  len ← strlen m path; basename_loop (fuel m) m path (path + len - 1).

Definition dirname (m : cmem) (path : Z) : outcome (Z * cmem) :=
  fname ← basename m path;
  m ← st m (fname - 1) 0;
  Ok (path, m).

(** ** strtok, with its static variable [last] *)

(** [cont]: skip the characters that are in [delim]; the character after them
    and the address behind it. *)
Fixpoint strtok_span (n : nat) (m : cmem) (s delim : Z) : outcome (Z * Z) :=
  match n with
  | O => OutOfFuel
  | S n =>
      c ← ld m s;
      hit ← scan_loop (fuel m) m delim c;
      if (hit : bool) then strtok_span n m (s + 1) delim else Ok (c, s + 1)
  end.

(** Up to a character of [delim], its terminator included. *)
Fixpoint strtok_scan (n : nat) (m : cmem) (s delim : Z) : outcome (cmem * Z) :=
  match n with
  | O => OutOfFuel
  | S n =>
      c ← ld m s;
      let s := s + 1 in
      hit ← scan_loop (fuel m) m delim c;
      if c =? 0 then Ok (m, NULL)
      else if (hit : bool) then m ← st m (s - 1) 0; Ok (m, s)
      else strtok_scan n m s delim
  end.

(** The token, the memory and the new [last]. *)
Definition strtok (m : cmem) (last s delim : Z) : outcome (Z * cmem * Z) :=
  let s := if s =? NULL then last else s in
  if s =? NULL then Ok (NULL, m, last)
  else
    '(c, s) ← strtok_span (fuel m) m s delim;
    if c =? 0 then Ok (NULL, m, NULL)
    else
      '(m, l) ← strtok_scan (fuel m) m s delim;
      Ok (s - 1, m, l).

(** ** Strings in memory *)

(** The bytes [l] are at [p], and the string [s] (nonzero bytes) is at [p]. *)
Fixpoint bytes_at (m : cmem) (p : Z) (l : list Z) : Prop :=
  match l with
  | [] => True
  | b :: l => m !! p = Some b /\ bytes_at m (p + 1) l
  end.
Definition char_ok (b : Z) : Prop := 0 < b < 256.
Definition str_at (m : cmem) (p : Z) (s : list Z) : Prop :=
  Forall char_ok s /\ bytes_at m p (s ++ [0]).

Lemma bytes_at_lookup m p l : bytes_at m p l <->
  forall i, 0 <= i < Z.of_nat (length l) -> m !! (p + i) = l !! Z.to_nat i.
Proof.
  revert p. induction l as [|b l IH]; intros p; cbn [bytes_at length]; [split; [intros _ i ?; lia|done]|].
  rewrite IH. split.
  - intros [Hp Hl] i Hi. destruct (decide (i = 0)) as [->|]; [by rewrite Z.add_0_r|].
    replace (p + i) with (p + 1 + (i - 1)) by lia. rewrite Hl by lia.
    by replace (Z.to_nat i) with (S (Z.to_nat (i - 1))) by lia.
  - intros H. split.
    + specialize (H 0 ltac:(lia)). by rewrite Z.add_0_r in H.
    + intros i Hi. replace (p + 1 + i) with (p + (i + 1)) by lia. rewrite H by lia.
      by replace (Z.to_nat (i + 1)) with (S (Z.to_nat i)) by lia.
Qed.

Lemma bytes_at_app m p l1 l2 :
  bytes_at m p (l1 ++ l2) <-> bytes_at m p l1 /\ bytes_at m (p + Z.of_nat (length l1)) l2.
Proof.
  revert p. induction l1 as [|b l IH]; intros p; cbn [bytes_at length app].
  - rewrite Z.add_0_r. tauto.
  - rewrite IH. replace (p + 1 + Z.of_nat (length l)) with (p + Z.of_nat (S (length l))) by lia. tauto.
Qed.

(** Only the bytes from [p], [n] of them, differ. *)
Definition same_outside (m m' : cmem) (p n : Z) : Prop :=
  forall q, ~ (p <= q < p + n) -> m' !! q = m !! q.

Lemma bytes_at_frame m m' p n q l :
  bytes_at m q l -> same_outside m m' p n ->
  q + Z.of_nat (length l) <= p \/ p + n <= q -> bytes_at m' q l.
Proof.
  rewrite !bytes_at_lookup. intros Hl Hs Hd i Hi. rewrite Hs by lia. by apply Hl.
Qed.

(** The bytes of a mapped range are among those of the memory. *)
Lemma bytes_at_size m p l : bytes_at m p l -> (length l <= size m)%nat.
Proof.
  intros Hl. rewrite <- size_dom.
  assert (list_to_set (seqZ p (Z.of_nat (length l))) ⊆ dom m) as Hs.
  { intros q Hq. apply elem_of_list_to_set, elem_of_seqZ in Hq. apply elem_of_dom.
    rewrite bytes_at_lookup in Hl. specialize (Hl (q - p) ltac:(lia)).
    replace (p + (q - p)) with q in Hl by lia. rewrite Hl. apply lookup_lt_is_Some. lia. }
  apply subseteq_size in Hs. rewrite size_list_to_set in Hs by apply NoDup_seqZ.
  rewrite length_seqZ in Hs. lia.
Qed.

Lemma str_at_fuel m p s : str_at m p s -> (length s < fuel m)%nat.
Proof.
  intros [_ Hs]. apply bytes_at_size in Hs. rewrite length_app in Hs. cbn in Hs. unfold fuel. lia.
Qed.

Lemma str_at_cons m p b s : str_at m p (b :: s) <-> char_ok b /\ m !! p = Some b /\ str_at m (p + 1) s.
Proof. unfold str_at. cbn [app bytes_at]. rewrite Forall_cons. tauto. Qed.

Lemma str_at_nil m p : str_at m p [] <-> m !! p = Some 0.
Proof. unfold str_at. cbn. split; [tauto|]. intros. split; [constructor|done]. Qed.

Lemma str_at_suffix m p s1 s2 :
  str_at m p (s1 ++ s2) -> str_at m (p + Z.of_nat (length s1)) s2.
Proof.
  intros [Hf Hb]. apply Forall_app in Hf as [_ Hf]. rewrite <- app_assoc in Hb.
  apply bytes_at_app in Hb as [_ Hb]. done.
Qed.

Lemma ld_Some m p b : m !! p = Some b -> ld m p = Ok b.
Proof. unfold ld. by intros ->. Qed.

Lemma st_mapped m p b : is_Some (m !! p) -> st m p b = Ok (<[p := b]> m).
Proof. unfold st. by intros [x ->]. Qed.

Lemma strlen_loop_ok n m p s c :
  str_at m p s -> (length s < n)%nat -> 0 <= c -> c + Z.of_nat (length s) < 2 ^ 32 ->
  strlen_loop n m p c = Ok (c + Z.of_nat (length s)).
Proof.
  revert n p c. induction s as [|b s IH]; intros [|n] p c Hs Hn Hc Hl; cbn [length] in *; try lia;
    cbn [strlen_loop].
  - apply str_at_nil in Hs. rewrite (ld_Some _ _ _ Hs). cbn. f_equal. lia.
  - apply str_at_cons in Hs as (Hb & Hp & Hs). rewrite (ld_Some _ _ _ Hp). cbn [mbind outcome_bind].
    unfold char_ok in Hb. rewrite (proj2 (Z.eqb_neq b 0)) by lia. rewrite (u32_small (c + 1)) by lia.
    rewrite IH by (done || lia). f_equal. lia.
Qed.

Lemma strlen_ok m p s :
  str_at m p s -> Z.of_nat (length s) < 2 ^ 32 -> strlen m p = Ok (Z.of_nat (length s)).
Proof. intros Hs Hl. apply (strlen_loop_ok _ _ _ _ 0); [done|by apply (str_at_fuel m p)|lia..]. Qed.

Lemma strncpy_loop_ok n m d s i nr str :
  str_at m s str -> (length str < n)%nat -> 0 <= i ->
  (forall j, 0 <= j <= Z.min (Z.of_nat (length str)) (nr - i) -> is_Some (m !! (d + j))) ->
  d + Z.min (Z.of_nat (length str)) (nr - i) < s \/ s + Z.of_nat (length str) < d ->
  let l := take (Z.to_nat (nr - i)) str in
  exists m', strncpy_loop n m d s i nr = Ok (m', d + Z.of_nat (length l)) /\
    bytes_at m' d l /\ same_outside m m' d (Z.of_nat (length l)).
Proof.
  revert n m d s i. induction str as [|b str IH]; intros [|n] m d s i Hs Hn Hi Hm Hd l;
    cbn [length] in *; try lia; cbn [strncpy_loop].
  - apply str_at_nil in Hs. rewrite (ld_Some _ _ _ Hs). cbn [mbind outcome_bind Z.eqb negb andb].
    subst l. rewrite take_nil. exists m. cbn. rewrite Z.add_0_r. done.
  - apply str_at_cons in Hs as (Hb & Hp & Hs). rewrite (ld_Some _ _ _ Hp). cbn [mbind outcome_bind].
    unfold char_ok in Hb. rewrite (proj2 (Z.eqb_neq b 0)) by lia. cbn [negb andb].
    destruct (Z.ltb_spec i nr) as [Hlt|Hge]; subst l.
    + rewrite st_mapped by (rewrite <- (Z.add_0_r d); apply Hm; lia). cbn [mbind outcome_bind].
      replace (Z.to_nat (nr - i)) with (S (Z.to_nat (nr - (i + 1)))) by lia. cbn [take length].
      destruct (IH n (<[d:=b]> m) (d + 1) (s + 1) (i + 1)) as (m' & Hr & Hb' & Ho); [|lia|lia| |lia|].
      * destruct Hs as [Hf Hs]. split; [done|]. apply (bytes_at_frame m _ d 1); [done| |].
        { intros q Hq. apply lookup_insert_ne. lia. }
        { rewrite length_app. cbn. lia. }
      * intros j Hj. replace (d + 1 + j) with (d + (j + 1)) by lia.
        rewrite lookup_insert_ne by lia. apply Hm. lia.
      * exists m'. rewrite Hr. split; [do 2 f_equal; lia|]. split.
        { cbn. split; [|done]. rewrite Ho by lia. apply lookup_insert_eq. }
        { intros q Hq. rewrite Ho by lia. apply lookup_insert_ne. lia. }
    + replace (Z.to_nat (nr - i)) with O by lia. exists m. cbn. rewrite Z.add_0_r. done.
Qed.

(** the kernel's strncpy copies at most [nr] characters and then always
    stores a terminator, so it writes min(strlen, nr) + 1 bytes and changes no
    other: a source of [nr] characters or more makes it write one byte past a
    buffer of [nr] bytes. *)
Theorem strncpy_terminates_past_end m d s nr str :
  str_at m s str -> 0 <= nr ->
  let k := Z.min (Z.of_nat (length str)) nr in
  (forall j, 0 <= j <= k -> is_Some (m !! (d + j))) ->
  d + k < s \/ s + Z.of_nat (length str) < d ->
  exists m', strncpy m d s nr = Ok (d, m') /\
    bytes_at m' d (take (Z.to_nat nr) str ++ [0]) /\ same_outside m m' d (k + 1) /\
    (nr <= Z.of_nat (length str) -> m' !! (d + nr) = Some 0).
Proof.
  intros Hs Hnr k Hm Hd. unfold strncpy.
  destruct (strncpy_loop_ok (fuel m) m d s 0 nr str) as (m' & -> & Hb & Ho);
    [done|by apply (str_at_fuel m s)|lia|rewrite Z.sub_0_r; done..|].
  rewrite Z.sub_0_r in *. cbn [mbind outcome_bind]. set (l := take (Z.to_nat nr) str) in *.
  assert (Z.of_nat (length l) = k) as Hl by (unfold l, k; rewrite length_take; lia). rewrite Hl in *.
  rewrite st_mapped by (rewrite Ho by lia; apply Hm; lia). cbn [mbind outcome_bind].
  assert (same_outside m' (<[d + k := 0]> m') (d + k) 1) as Hk
    by (intros q Hq; apply lookup_insert_ne; lia).
  exists (<[d + k := 0]> m'). split; [done|]. split; [apply bytes_at_app; split|split].
  - apply (bytes_at_frame m' _ (d + k) 1); [done|done|lia].
  - rewrite Hl. cbn. split; [apply lookup_insert_eq|done].
  - intros q Hq. rewrite Hk by lia. apply Ho. lia.
  - intros Hge. replace nr with k by lia. apply lookup_insert_eq.
Qed.

(** A memory with the string abc at 100 and bytes 7 from 200 to 207. *)
Definition abc : cmem :=
  list_to_map ([(100, 97); (101, 98); (102, 99); (103, 0)] ++ ((fun p => (p, 7)) <$> seqZ 200 8)).

Lemma abc_at : str_at abc 100 [97; 98; 99].
Proof. split; [repeat constructor; done|]. repeat split. Qed.

Lemma strncpy_terminates_past_end_witness :
  exists m', strncpy abc 200 100 3 = Ok (200, m') /\ bytes_at m' 200 [97; 98; 99; 0] /\
    same_outside abc m' 200 (3 + 1) /\ (3 <= 3 -> m' !! 203 = Some 0).
Proof.
  apply (strncpy_terminates_past_end abc 200 100 3 [97; 98; 99] abc_at); [lia| |cbn; lia].
  intros j Hj. cbn in Hj. assert (j = 0 \/ j = 1 \/ j = 2 \/ j = 3) as [-> | [-> | [-> | ->]]] by lia;
    by eexists.
Defined.

(** Copying upwards is right also when the destination overlaps the source from below. *)
Lemma memcpy_loop_ok bs : forall m d s, bytes_at m s bs -> (forall j, 0 <= j < Z.of_nat (length bs) -> is_Some (m !! (d + j))) ->
  d <= s \/ s + Z.of_nat (length bs) <= d ->
  exists m', memcpy_loop (length bs) m d s = Ok m' /\ bytes_at m' d bs /\ same_outside m m' d (Z.of_nat (length bs)).
Proof.
  induction bs as [|b bs IH]; intros m d s Hs Hm Hd; cbn [length memcpy_loop] in *; [by exists m|].
  destruct Hs as [Hb Hs]. rewrite (ld_Some _ _ _ Hb). cbn [mbind outcome_bind].
  rewrite st_mapped by (rewrite <- (Z.add_0_r d); apply Hm; lia). cbn [mbind outcome_bind].
  destruct (IH (<[d:=b]> m) (d + 1) (s + 1)) as (m' & -> & Hb' & Ho); [| |lia|].
  - apply (bytes_at_frame m _ d 1); [done| |lia]. intros q Hq. apply lookup_insert_ne. lia.
  - intros j Hj. replace (d + 1 + j) with (d + (j + 1)) by lia. rewrite lookup_insert_ne by lia. apply Hm. lia.
  - exists m'. split; [done|]. split.
    + split; [rewrite Ho by lia; apply lookup_insert_eq|done].
    + intros q Hq. rewrite Ho by lia. apply lookup_insert_ne. lia.
Qed.

Lemma memcpy_ok m d s bs :
  bytes_at m s bs -> (forall j, 0 <= j < Z.of_nat (length bs) -> is_Some (m !! (d + j))) ->
  d + Z.of_nat (length bs) <= s \/ s + Z.of_nat (length bs) <= d ->
  exists m', memcpy m d s (Z.of_nat (length bs)) = Ok (d, m') /\ bytes_at m' d bs /\
    same_outside m m' d (Z.of_nat (length bs)).
Proof.
  intros Hs Hm Hd. unfold memcpy. rewrite Nat2Z.id.
  destruct (memcpy_loop_ok bs m d s Hs Hm) as (m' & -> & H); [lia|]. by exists m'.
Qed.

Lemma bytes_at_sub m p l i n : bytes_at m p l -> (i <= length l)%nat ->
  bytes_at m (p + Z.of_nat i) (take n (drop i l)).
Proof.
  intros H Hi. rewrite <- (take_drop i l) in H. apply bytes_at_app in H as [_ H].
  rewrite length_take_le in H by done. rewrite <- (take_drop n (drop i l)) in H.
  by apply bytes_at_app in H as [H _].
Qed.

(** ** Comparing and searching *)

Lemma schar_inj a b : 0 <= a < 256 -> 0 <= b < 256 -> schar a = schar b -> a = b.
Proof. unfold schar. repeat case_match; intros; try lia. Qed.

Lemma strncmp_loop_ok n m s1 s2 i len a b :
  str_at m (s1 + i) a -> str_at m (s2 + i) b -> (length a < n)%nat ->
  exists r, strncmp_loop n m s1 s2 i len = Ok r /\
    (r = 0 <-> take (Z.to_nat (len - i)) a = take (Z.to_nat (len - i)) b).
Proof.
  revert n i b. induction a as [|x a IH]; intros [|n] i b Ha Hb Hn; cbn [length] in *; try lia;
    cbn [strncmp_loop].
  - apply str_at_nil in Ha. rewrite (ld_Some _ _ _ Ha). cbn [mbind outcome_bind Z.eqb].
    destruct b as [|y b]; [apply str_at_nil in Hb as Hy|apply str_at_cons in Hb as (Hc & Hy & _)];
      rewrite (ld_Some _ _ _ Hy); cbn [mbind outcome_bind Z.eqb]; [by exists 0|].
    unfold char_ok in Hc. rewrite (proj2 (Z.eqb_neq y 0)) by lia.
    destruct (Z.ltb_spec i len) as [Hlt|Hge]; cbn [negb].
    + replace (Z.to_nat (len - i)) with (S (Z.to_nat (len - i - 1))) by lia. cbn [take].
      change (schar 0) with 0. assert (schar y <> 0) by (unfold schar; case_match; lia).
      destruct (Z.ltb_spec 0 (schar y)); [by exists (-1)|].
      destruct (Z.ltb_spec (schar y) 0); [by exists 1|lia].
    + exists 0. by replace (Z.to_nat (len - i)) with O by lia.
  - apply str_at_cons in Ha as (Hcx & Hx & Ha). rewrite (ld_Some _ _ _ Hx).
    cbn [mbind outcome_bind]. unfold char_ok in Hcx. rewrite (proj2 (Z.eqb_neq x 0)) by lia.
    cbn [mbind outcome_bind]. destruct (Z.ltb_spec i len) as [Hlt|Hge]; cbn [negb];
      [|exists 0; by replace (Z.to_nat (len - i)) with O by lia].
    replace (Z.to_nat (len - i)) with (S (Z.to_nat (len - (i + 1)))) by lia.
    destruct b as [|y b]; [apply str_at_nil in Hb as Hy|apply str_at_cons in Hb as (Hc & Hy & Hb)];
      rewrite (ld_Some _ _ _ Hy); cbn [mbind outcome_bind take].
    + change (schar 0) with 0. assert (schar x <> 0) by (unfold schar; case_match; lia).
      destruct (Z.ltb_spec (schar x) 0); [by exists (-1)|].
      destruct (Z.ltb_spec 0 (schar x)); [by exists 1|lia].
    + unfold char_ok in Hc. destruct (Z.ltb_spec (schar x) (schar y));
        [exists (-1); split; [done|]; split; [done|intros [=]; subst; lia]|].
      destruct (Z.ltb_spec (schar y) (schar x));
        [exists 1; split; [done|]; split; [done|intros [=]; subst; lia]|].
      assert (x = y) as -> by (apply schar_inj; lia).
      destruct (IH n (i + 1) b) as (r & -> & Hr); [by rewrite Z.add_assoc..|lia|].
      exists r. split; [done|]. rewrite Hr. split; [by intros ->|by intros [=]].
Qed.

Lemma strncmp_ok m s1 s2 len a b :
  s1 <> NULL -> s2 <> NULL -> str_at m s1 a -> str_at m s2 b ->
  exists r, strncmp m s1 s2 len = Ok r /\ (r = 0 <-> take (Z.to_nat len) a = take (Z.to_nat len) b).
Proof.
  intros H1 H2 Ha Hb. unfold strncmp. rewrite (proj2 (Z.eqb_neq _ _) H1), (proj2 (Z.eqb_neq _ _) H2).
  cbn [orb]. replace (Z.to_nat len) with (Z.to_nat (len - 0)) by (f_equal; lia).
  apply (strncmp_loop_ok _ _ _ _ _ _ a b); [by rewrite Z.add_0_r..|by apply (str_at_fuel m s1)].
Qed.

Lemma take_length_prefix (b a : list Z) : take (length b) a = b <-> b `prefix_of` a.
Proof.
  split; [intros <-; apply prefix_take|]. intros [k ->]. by rewrite take_app_length.
Qed.

Lemma strstr_loop_ok n m s1 s2 a b :
  0 < s1 -> s2 <> NULL -> str_at m s1 a -> str_at m s2 b -> b <> [] -> (length a < n)%nat ->
  exists r, strstr_loop n m s1 s2 (Z.of_nat (length b)) = Ok r /\
    ((r = NULL /\ forall j, ~ b `prefix_of` drop j a) \/
     exists i, r = s1 + Z.of_nat i /\ b `prefix_of` drop i a /\
       forall j, (j < i)%nat -> ~ b `prefix_of` drop j a).
Proof.
  revert n s1. induction a as [|x a IH]; intros [|n] s1 H1 H2 Ha Hb Hnb Hn; cbn [length] in *;
    try lia; cbn [strstr_loop]; destruct b as [|y b]; try done;
    pose proof Hb as (Hcy & Hy & _)%str_at_cons; unfold char_ok in Hcy.
  - apply str_at_nil in Ha. rewrite (ld_Some _ _ _ Ha), (ld_Some _ _ _ Hy).
    cbn [mbind outcome_bind]. rewrite (proj2 (Z.eqb_neq 0 y)) by lia. cbn [negb mbind outcome_bind Z.eqb].
    exists NULL. split; [done|]. left. split; [done|]. intros j Hj. rewrite drop_nil in Hj.
    by apply prefix_nil_inv in Hj.
  - pose proof Ha as (Hcx & Hx & Ha')%str_at_cons. unfold char_ok in Hcx.
    rewrite (ld_Some _ _ _ Hx), (ld_Some _ _ _ Hy). cbn [mbind outcome_bind].
    destruct (strncmp_ok m s1 s2 (Z.of_nat (length (y :: b))) (x :: a) (y :: b)) as (r & Hr & Hr0);
      [unfold NULL; lia|done..|].
    rewrite Nat2Z.id, (take_ge (y :: b)), take_length_prefix in Hr0 by lia.
    set (differ := if negb (x =? y) then _ else _).
    assert (differ = Ok (bool_decide (~ (y :: b) `prefix_of` (x :: a)))) as ->.
    { unfold differ. destruct (Z.eqb_spec x y) as [->|Hne]; cbn [negb].
      - rewrite Hr. cbn. f_equal. destruct (Z.eqb_spec r 0) as [E|E]; cbn [negb];
          symmetry; [apply bool_decide_eq_false|apply bool_decide_eq_true]; tauto.
      - rewrite bool_decide_eq_true_2; [done|]. intros ?%prefix_cons_inv_1. by subst. }
    cbn [mbind outcome_bind]. case_bool_decide as Hp.
    + rewrite (proj2 (Z.eqb_neq x 0)) by lia.
      destruct (IH n (s1 + 1)) as (r' & -> & Hr'); [lia|done..|lia|]. exists r'. split; [done|].
      destruct Hr' as [[-> Hall]|(i & -> & Hi & Hj)]; [left|right].
      * split; [done|]. intros [|j]; [done|]. apply Hall.
      * exists (S i). split; [lia|]. split; [done|]. intros [|j] Hlt; [done|]. apply Hj. lia.
    + exists s1. split; [done|]. right. exists 0%nat. split; [lia|].
      split; [exact Hp|lia].
Qed.

(** strstr returns the first occurrence of a string in another, and NULL
    exactly when there is none. *)
Theorem strstr_first_occurrence m s1 s2 a b :
  0 < s1 -> 0 < s2 -> str_at m s1 a -> str_at m s2 b -> Z.of_nat (length b) < 2 ^ 32 ->
  exists r, strstr m s1 s2 = Ok r /\
    ((r = NULL /\ forall j, ~ b `prefix_of` drop j a) \/
     exists i, r = s1 + Z.of_nat i /\ b `prefix_of` drop i a /\
       forall j, (j < i)%nat -> ~ b `prefix_of` drop j a).
Proof.
  intros H1 H2 Ha Hb Hl. unfold strstr. rewrite (strlen_ok m s2 b) by done. cbn [mbind outcome_bind].
  destruct b as [|y b]; cbn [length].
  - exists s1. split; [done|]. right. exists 0%nat. split; [lia|]. split; [apply prefix_nil|lia].
  - rewrite (proj2 (Z.eqb_neq _ 0)) by lia.
    apply (strstr_loop_ok _ _ _ _ _ (y :: b)); try done; [unfold NULL; lia|by apply (str_at_fuel m s1)].
Qed.

(** aabab at 100 and ab at 200. *)
Definition haystack : cmem := list_to_map
  [(100, 97); (101, 97); (102, 98); (103, 97); (104, 98); (105, 0); (200, 97); (201, 98); (202, 0)].

Lemma strstr_first_occurrence_witness :
  strstr haystack 100 200 = Ok 101 /\
  exists r, strstr haystack 100 200 = Ok r /\
    ((r = NULL /\ forall j, ~ [97; 98] `prefix_of` drop j [97; 97; 98; 97; 98]) \/
     exists i, r = 100 + Z.of_nat i /\ [97; 98] `prefix_of` drop i [97; 97; 98; 97; 98] /\
       forall j, (j < i)%nat -> ~ [97; 98] `prefix_of` drop j [97; 97; 98; 97; 98]).
Proof.
  split; [vm_compute; reflexivity|].
  apply (strstr_first_occurrence haystack 100 200); [lia|lia| | |done];
    (split; [repeat constructor; done|repeat split]).
Defined.

(** ** Decimal numbers *)

Lemma write_list_ok m p l :
  (forall j, 0 <= j < Z.of_nat (length l) -> is_Some (m !! (p + j))) ->
  exists m', write_list m p l = Ok m' /\ bytes_at m' p l /\ same_outside m m' p (Z.of_nat (length l)).
Proof.
  revert m p. induction l as [|b l IH]; intros m p Hm; cbn [length write_list] in *; [by exists m|].
  rewrite st_mapped by (rewrite <- (Z.add_0_r p); apply Hm; lia). cbn [mbind outcome_bind].
  destruct (IH (<[p:=b]> m) (p + 1)) as (m' & -> & Hb & Ho).
  { intros j Hj. replace (p + 1 + j) with (p + (j + 1)) by lia. rewrite lookup_insert_ne by lia.
    apply Hm. lia. }
  exists m'. split; [done|]. split.
  - split; [|done]. rewrite Ho by lia. apply lookup_insert_eq.
  - intros q Hq. rewrite Ho by lia. apply lookup_insert_ne. lia.
Qed.

Definition is_dec (c : Z) : Prop := 48 <= c <= 57.

(** The value of decimal digits, the last one first. *)
Definition dec_value (l : list Z) : Z := fold_right (fun c r => r * 10 + (c - 48)) 0 l.

Lemma int_digits_ok n d :
  0 <= d < 10 ^ Z.of_nat n -> Forall is_dec (int_digits n d) /\ dec_value (int_digits n d) = d.
Proof.
  revert d. induction n as [|n IH]; intros d Hd; cbn [int_digits].
  - cbn in *. split; [constructor|lia].
  - destruct (Z.eqb_spec d 0) as [->|Hne]; [split; [constructor|done]|].
    rewrite Z.rem_mod_nonneg, Z.quot_div_nonneg by lia.
    pose proof (Z.mod_pos_bound d 10 ltac:(lia)). rewrite u8_small by lia.
    destruct (IH (d / 10)) as [IH1 IH2].
    { rewrite Nat2Z.inj_succ, Z.pow_succ_r in Hd by lia. split; [apply Z.div_pos; lia|].
      apply Z.div_lt_upper_bound; lia. }
    split; [constructor; [unfold is_dec; lia|done]|].
    unfold dec_value in *. cbn. rewrite IH2. pose proof (Z.div_mod d 10). lia.
Qed.

Lemma int_digits_length n k d :
  0 <= d < 10 ^ Z.of_nat k -> (length (int_digits n d) <= k)%nat.
Proof.
  revert k d. induction n as [|n IH]; intros k d Hd; cbn [int_digits length]; [lia|].
  destruct (Z.eqb_spec d 0) as [->|Hne]; cbn [length]; [lia|].
  destruct k as [|k]; [cbn in Hd; lia|]. rewrite Z.quot_div_nonneg by lia.
  rewrite Nat2Z.inj_succ, Z.pow_succ_r in Hd by lia. apply le_n_S, IH.
  split; [apply Z.div_pos; lia|apply Z.div_lt_upper_bound; lia].
Qed.

Lemma atoi_loop_ok n m p pre ds res :
  str_at m p (pre ++ ds) -> Z.of_nat (length (pre ++ ds)) < 2 ^ 32 -> Forall is_dec ds ->
  (length ds < n)%nat ->
  atoi_loop n m p (Z.of_nat (length pre)) (u32 res)
  = Ok (u32 (fold_left (fun r c => r * 10 + (c - 48)) ds res)).
Proof.
  revert n pre res. induction ds as [|c ds IH]; intros [|n] pre res Hs Hl Hd Hn; cbn [length] in *;
    try lia; cbn [atoi_loop]; rewrite (strlen_ok m p _ Hs Hl); cbn [mbind outcome_bind];
    rewrite length_app in *.
  - by rewrite (proj2 (Z.ltb_ge _ _)) by (cbn; lia).
  - cbn [length] in *. rewrite (proj2 (Z.ltb_lt _ _)) by lia.
    pose proof (str_at_suffix _ _ _ _ Hs) as (_ & Hc & _)%str_at_cons.
    rewrite (ld_Some _ _ _ Hc). cbn [mbind outcome_bind]. apply Forall_cons in Hd as [Hdc Hd].
    unfold is_dec in Hdc. replace (schar c) with c by (unfold schar; case_match; lia).
    assert (isdigit c = true) as -> by (unfold isdigit; apply andb_true_iff; lia).
    cbn [fold_left]. replace (Z.of_nat (length pre) + 1) with (Z.of_nat (length (pre ++ [c])))
      by (rewrite length_app; cbn; lia).
    replace (u32 (u32 res * 10 + c - 48)) with (u32 (res * 10 + (c - 48))).
    + apply IH; rewrite <- ?app_assoc; [done|rewrite length_app; cbn; lia|done|lia].
    + unfold u32. rewrite <- Z.add_sub_assoc. rewrite <- (Zplus_mod_idemp_l (res mod 2 ^ 32 * 10)).
      rewrite Zmult_mod_idemp_l. by rewrite Zplus_mod_idemp_l.
Qed.

(** int2str prints every non-negative [int] as decimal digits that atoi reads
    back as the number; it writes only the digits and the terminator. *)
Theorem atoi_int2str_roundtrip m d p :
  0 <= d < 2 ^ 31 -> (forall j, 0 <= j < 11 -> is_Some (m !! (p + j))) ->
  exists m', int2str m d p = Ok (p, m') /\ atoi m' p = Ok d /\ same_outside m m' p 11.
Proof.
  intros Hd Hm. unfold int2str. set (ds := if d =? 0 then [48] else rev (int_digits 16 d)).
  replace (if negb (d =? 0) then _ else _) with (write_list m p (ds ++ [0]))
    by (unfold ds; by destruct (d =? 0)).
  assert (Forall is_dec ds /\ fold_left (fun r c => r * 10 + (c - 48)) ds 0 = d /\
    (length ds <= 10)%nat) as (Hdec & Hval & Hlen).
  { unfold ds. destruct (Z.eqb_spec d 0) as [->|Hne].
    - split_and!; [constructor; [unfold is_dec; lia|constructor]|done|cbn; lia].
    - destruct (int_digits_ok 16 d ltac:(cbn; lia)) as [H1 H2]. split_and!.
      + by apply Forall_rev.
      + rewrite <- fold_left_rev_right, rev_involutive. exact H2.
      + rewrite length_rev. apply int_digits_length. cbn. lia. }
  destruct (write_list_ok m p (ds ++ [0])) as (m' & -> & Hb & Ho).
  { rewrite length_app. cbn. intros j Hj. apply Hm. lia. }
  rewrite length_app in Ho. cbn in Ho. cbn [mbind outcome_bind]. exists m'. split; [done|].
  assert (str_at m' p ds) as Hs.
  { split; [|done]. eapply Forall_impl; [exact Hdec|]. unfold is_dec, char_ok. lia. }
  split.
  - unfold atoi. change 0 with (u32 0) at 2. change 0 with (Z.of_nat (length (@nil Z))) at 1.
    rewrite (atoi_loop_ok _ m' p [] ds 0); [|done|cbn; lia|done|by apply (str_at_fuel m' p)].
    rewrite Hval, u32_small by lia. done.
  - intros q Hq. apply Ho. lia.
Qed.

Lemma atoi_int2str_roundtrip_witness :
  exists m', int2str (list_to_map ((fun p => (p, 7)) <$> seqZ 200 11)) 2026 200 = Ok (200, m') /\
    atoi m' 200 = Ok 2026 /\
    same_outside (list_to_map ((fun p => (p, 7)) <$> seqZ 200 11)) m' 200 11.
Proof.
  apply (atoi_int2str_roundtrip _ 2026 200); [lia|]. intros j Hj.
  apply elem_of_dom. rewrite dom_list_to_map_L. apply elem_of_list_to_set.
  apply list_elem_of_fmap. exists (200 + j, 7). split; [done|]. apply list_elem_of_fmap.
  exists (200 + j). split; [done|]. apply elem_of_seqZ. lia.
Defined.

(** ** Path names *)

Lemma basename_loop_ok n m path s1 s2 :
  str_at m path (s1 ++ s2) -> (length s1 < n)%nat ->
  (47 ∉ s1 -> basename_loop n m path (path + Z.of_nat (length s1) - 1) = Ok (path - 1)) /\
  (forall d b, s1 = d ++ 47 :: b -> 47 ∉ b ->
    basename_loop n m path (path + Z.of_nat (length s1) - 1) = Ok (path + Z.of_nat (length d) + 1)).
Proof.
  revert n s2. induction s1 as [|c s1 IH] using rev_ind; intros [|n] s2 Hs Hn; cbn [length] in *;
    try lia; cbn [basename_loop].
  - rewrite (proj2 (Z.leb_gt _ _)) by lia. split; [intros _; f_equal; lia|].
    intros d b Hd. by destruct d.
  - rewrite length_app in *. cbn [length] in *. rewrite (proj2 (Z.leb_le _ _)) by lia.
    rewrite <- app_assoc in Hs. pose proof (str_at_suffix _ _ _ _ Hs) as (_ & Hc & _)%str_at_cons.
    replace (path + Z.of_nat (length s1 + 1) - 1) with (path + Z.of_nat (length s1)) by lia.
    rewrite (ld_Some _ _ _ Hc). cbn [mbind outcome_bind].
    destruct (IH n ([c] ++ s2) Hs ltac:(lia)) as [IH1 IH2]. destruct (Z.eqb_spec c 47) as [->|Hne].
    + split; [intros Hn47; destruct Hn47; apply elem_of_mid|]. intros d b Hd Hb.
      destruct b as [|z b _] using rev_ind.
      * apply app_inj_tail in Hd as [-> _]. done.
      * rewrite app_comm_cons, app_assoc in Hd. apply app_inj_tail in Hd as [_ <-].
        destruct Hb. apply elem_of_mid.
    + split; [intros H47; apply IH1; intros ?; apply H47, elem_of_app; by left|].
      intros d b Hd Hb. destruct b as [|z b _] using rev_ind.
      * by apply app_inj_tail in Hd as [_ ?].
      * rewrite app_comm_cons, app_assoc in Hd. apply app_inj_tail in Hd as [Hd <-].
        apply (IH2 d b Hd). intros ?. apply Hb, elem_of_app. by left.
Qed.

(** basename returns what follows the last slash; of a path without a slash it
    returns the address one before the path, and dirname of such a path writes
    two bytes before it. *)
Theorem basename_underruns m path s :
  str_at m path s -> Z.of_nat (length s) < 2 ^ 32 ->
  (forall d b, s = d ++ 47 :: b -> 47 ∉ b -> basename m path = Ok (path + Z.of_nat (length d) + 1)) /\
  (47 ∉ s -> basename m path = Ok (path - 1) /\
    dirname m path = (m' ← st m (path - 2) 0; Ok (path, m'))).
Proof.
  intros Hs Hl. unfold dirname, basename. rewrite (strlen_ok m path s) by done.
  cbn [mbind outcome_bind]. pose proof (str_at_fuel m path s Hs) as Hf.
  destruct (basename_loop_ok (fuel m) m path s []) as [H1 H2]; [by rewrite app_nil_r|done|].
  split; [exact H2|]. intros H47. rewrite H1 by done. cbn [mbind outcome_bind].
  by replace (path - 1 - 1) with (path - 2) by lia.
Qed.

Lemma basename_underruns_witness : basename abc 100 = Ok 99.
Proof.
  apply (basename_underruns abc 100 [97; 98; 99] abc_at); [done|]. apply (bool_decide_unpack _). exact I.
Defined.

(** hex2num multiplies by 17 where hex2int multiplies by 16. *)
Example hex2num_not_hex2int :
  let m := list_to_map [(100, 49); (101, 48); (102, 0)] : cmem in
  hex2int m 100 = Ok 16 /\ hex2num m 100 = Ok 17.
Proof. vm_compute. done. Qed.

(** isnumber takes the characters between 9 and A for digits of base 16, and the
    small letters not. *)
Example isnumber_base16 : isnumber 58 16 = true /\ isnumber 97 16 = false.
Proof. done. Qed.
