(* ===== verification/Printf.v ===== *)
(** * Formatted printing (core/lib/snprintf.c, core/lib/kprintf.c)

    do_printf walks a format string in memory and calls a function for each
    character it prints.  The variable arguments are the 32-bit words va_arg
    takes from the stack; taking one too many is a fault.  The function's state
    is [St], from which [mem_of] gives the memory that format and strings are
    read from: vsprintf writes into the memory it reads. *)

From S2P Require Import Prelude CStr.

Definition PR_LJ : Z := 1.
Definition PR_CA : Z := 2.
Definition PR_SG : Z := 4.
Definition PR_32 : Z := 8.
Definition PR_16 : Z := 16.
Definition PR_WS : Z := 32.
Definition PR_LZ : Z := 64.
Definition PR_FP : Z := 128.
Definition PR_BUFLEN : Z := 16.

Definition flag (flags f : Z) : bool := negb (Z.land flags f =? 0).

(** The conversion loop of DO_NUM.  The digits go to the local array [buf] from
    its end: [n] bytes are left in it, and [acc] is what where points to.  The
    remainder is that of the 64-bit number, the quotient that of its low word. *)
Fixpoint num_digits (n : nat) (num radix : Z) (caps : bool) (acc : list Z) : outcome (list Z) :=
  match n with
  | O => Fault
  | S n =>
      let temp := num mod radix in
      let d := if temp <? 10 then temp + 48 else if caps then temp - 10 + 65 else temp - 10 + 97 in
      let num := u32 num / radix in
      if num =? 0 then Ok (d :: acc) else num_digits n num radix caps (d :: acc)
  end.

(** What where points to: the local array, or a string argument. *)
Inductive chars := InBuf (l : list Z) | At (p : Z).

Section DoPrintf.
Context {St : Type} (fn : Z -> St -> outcome St) (mem_of : St -> cmem) (maxbytes : Z).

(** The result of printing: whether to go on (else do_printf returns), the count
    and the function's state. *)
Notation printed := (bool * Z * St)%type.

Definition andthen (m : outcome printed) (k : Z -> St -> outcome printed) : outcome printed :=
  '(go, count, s) ← m; if (go : bool) then k count s else Ok (false, count, s).

(** [count] is unsigned, so [maxbytes] is compared as unsigned. *)
Definition emit (c count : Z) (s : St) : outcome printed :=
  if count <? u32 maxbytes then s ← fn c s; Ok (true, u32 (count + 1), s)
  else Ok (false, count, s).

Fixpoint emit_list (l : list Z) (count : Z) (s : St) : outcome printed :=
  match l with
  | [] => Ok (true, count, s)
  | c :: l => andthen (emit c count s) (emit_list l)
  end.

Fixpoint emit_at (n : nat) (p count : Z) (s : St) : outcome printed :=
  match n with
  | O => OutOfFuel
  | S n =>
      c ← ld (mem_of s) p;
      if c =? 0 then Ok (true, count, s) else andthen (emit c count s) (emit_at n (p + 1))
  end.

Definition emit_chars (w : chars) (count : Z) (s : St) : outcome printed :=
  match w with
  | InBuf l => emit_list (filter (fun c => c <> 0) l) count s
  | At p => emit_at (fuel (mem_of s)) p count s
  end.

Definition pad (c n count : Z) (s : St) : outcome printed :=
  emit_list (replicate (Z.to_nat n) c) count s.

(** From EMIT2. *)
Definition EMIT2 (flags given_wd actual_wd : Z) (w : chars) (count : Z) (s : St) : outcome printed :=
  let lz := flag flags PR_LZ in
  let right := negb (flag flags PR_LJ) in
  andthen (if right then pad (if lz then 48 else 32) (given_wd - actual_wd) count s
           else Ok (true, count, s)) (fun count s =>
  let given_wd := if right && (actual_wd <? given_wd) then actual_wd else given_wd in
  andthen (if flag flags PR_WS && negb lz then emit 45 count s else Ok (true, count, s)) (fun count s =>
  andthen (emit_chars w count s) (fun count s =>
  pad 32 (if given_wd <? actual_wd then 0 else given_wd - actual_wd) count s))).

(** From EMIT. *)
Definition EMIT (flags given_wd : Z) (w : chars) (count : Z) (s : St) : outcome printed :=
  len ← (match w with InBuf l => Ok (Z.of_nat (length l)) | At p => strlen (mem_of s) p end);
  let actual_wd := if flag flags PR_WS then len + 1 else len in
  andthen (if flag flags PR_WS && flag flags PR_LZ then emit 45 count s else Ok (true, count, s))
    (EMIT2 flags given_wd actual_wd w).

(** va_arg. *)
Definition va_arg (args : list Z) : outcome (Z * list Z) :=
  match args with [] => Fault | a :: args => Ok (a, args) end.

(** The number of DO_NUM as the 64-bit word it is stored in. *)
Definition load_num (flags w : Z) : Z :=
  if flag flags PR_32 then u32 w
  else if flag flags PR_16 then
    if flag flags PR_SG then (if u16 w <? 2 ^ 15 then u16 w else u16 w - 2 ^ 16) mod 2 ^ 64 else u16 w
  else if flag flags PR_SG then s32 w mod 2 ^ 64
  else u32 w.

Definition DO_NUM (flags given_wd radix : Z) (args : list Z) (count : Z) (s : St)
    : outcome (printed * list Z) :=
  '(w, args) ← va_arg args;
  let num := load_num flags w in
  let neg := flag flags PR_SG && (num <? 0) in
  let flags := if neg then Z.lor flags PR_WS else flags in
  let num := if neg then - num else num in
  l ← num_digits 15 num radix (flag flags PR_CA) [];
  r ← EMIT flags given_wd (InBuf l) count s;
  Ok (r, args).

(** The scanner's variables. *)
Record pst := MkP {
  fmt : Z; state : Z; flags : Z; given_wd : Z; count : Z; args : list Z; out : St }.

(** The end of the switch: [default]. *)
Definition reset (p : pst) : pst := MkP (fmt p) 0 0 0 (count p) (args p) (out p).
Definition set_state (p : pst) (v : Z) : pst :=
  MkP (fmt p) v (flags p) (given_wd p) (count p) (args p) (out p).
Definition set_flags (p : pst) (v : Z) : pst :=
  MkP (fmt p) (state p) v (given_wd p) (count p) (args p) (out p).
Definition set_wd (p : pst) (v : Z) : pst :=
  MkP (fmt p) (state p) (flags p) v (count p) (args p) (out p).
Definition next (p : pst) : pst :=
  MkP (fmt p + 1) (state p) (flags p) (given_wd p) (count p) (args p) (out p).
Definition set_out (p : pst) (c : Z) (s : St) (a : list Z) : pst :=
  MkP (fmt p) (state p) (flags p) (given_wd p) c a s.

(** After a conversion: fall into [default], or return. *)
Definition finish (p : pst) (m : outcome (printed * list Z)) : outcome (bool * pst) :=
  '(go, count, s, a) ← m; Ok (go, reset (set_out p count s a)).

(** STATE 4: the conversion character. *)
Definition state4 (p : pst) : outcome (bool * pst) :=
  c ← ld (mem_of (out p)) (fmt p);
  let num fl radix := finish p (DO_NUM fl (given_wd p) radix (args p) (count p) (out p)) in
  if c =? 88 then num (Z.lor (flags p) PR_CA) 16
  else if (c =? 120) || (c =? 112) || (c =? 110) then num (flags p) 16
  else if (c =? 100) || (c =? 105) then num (Z.lor (flags p) PR_SG) 10
  else if c =? 117 then num (flags p) 10
  else if c =? 111 then num (flags p) 8
  else if c =? 99 then
    finish p ('(w, args) ← va_arg (args p);
      r ← EMIT2 (Z.ldiff (flags p) PR_LZ) (given_wd p) 1 (InBuf [u8 w]) (count p) (out p);
      Ok (r, args))
  else if c =? 115 then
    finish p ('(w, args) ← va_arg (args p);
      r ← EMIT (Z.ldiff (flags p) PR_LZ) (given_wd p) (At w) (count p) (out p);
      Ok (r, args))
  else Ok (true, reset p).

(** STATE 3: the modifiers. *)
Definition state3 (p : pst) : outcome (bool * pst) :=
  c ← ld (mem_of (out p)) (fmt p);
  if c =? 70 then Ok (true, set_flags p (Z.lor (flags p) PR_FP))
  else if c =? 78 then Ok (true, p)
  else if c =? 108 then Ok (true, set_flags p (Z.lor (flags p) PR_32))
  else if c =? 104 then Ok (true, set_flags p (Z.lor (flags p) PR_16))
  else state4 (set_state p (state p + 1)).

(** STATE 2: the field width. *)
Definition state2 (p : pst) : outcome (bool * pst) :=
  c ← ld (mem_of (out p)) (fmt p);
  if (48 <=? c) && (c <=? 57) then Ok (true, set_wd p (u32 (10 * given_wd p + (c - 48))))
  else state3 (set_state p (state p + 1)).

(** STATE 1: the flags. *)
Definition state1 (p : pst) : outcome (bool * pst) :=
  c ← ld (mem_of (out p)) (fmt p);
  if c =? 37 then
    '(go, count, s) ← emit c (count p) (out p);
    Ok (go, reset (set_out p count s (args p)))
  else if c =? 45 then
    Ok (true, if flag (flags p) PR_LJ then reset p else set_flags p (Z.lor (flags p) PR_LJ))
  else
    let p := set_state p (state p + 1) in
    let p := if c =? 48 then next (set_flags p (Z.lor (flags p) PR_LZ)) else p in
    state2 p.

(** STATE 0: awaiting a percent sign. *)
Definition state0 (p : pst) : outcome (bool * pst) :=
  c ← ld (mem_of (out p)) (fmt p);
  if negb (c =? 37) then
    '(go, count, s) ← emit c (count p) (out p);
    Ok (go, set_out p count s (args p))
  else state1 (next (set_state p (state p + 1))).

Definition switch (p : pst) : outcome (bool * pst) :=
  if state p =? 0 then state0 p
  else if state p =? 1 then state1 p
  else if state p =? 2 then state2 p
  else if state p =? 3 then state3 p
  else if state p =? 4 then state4 p
  else Ok (true, reset p).

Fixpoint do_printf_loop (n : nat) (p : pst) : outcome (Z * St) :=
  match n with
  | O => OutOfFuel
  | S n =>
      c ← ld (mem_of (out p)) (fmt p);
      if c =? 0 then Ok (count p, out p)
      else
        '(go, p) ← switch p;
        if (go : bool) then do_printf_loop n (next p) else Ok (count p, out p)
  end.

Definition do_printf (f : Z) (a : list Z) (s : St) : outcome (Z * St) :=
  do_printf_loop (fuel (mem_of s)) (MkP f 0 0 0 0 a s).
End DoPrintf.

(** ** Printing into memory (core/lib/kprintf.c) *)

Definition vsprintf_help (c : Z) (s : cmem * Z) : outcome (cmem * Z) :=
  m ← st s.1 s.2 (u8 c); Ok (m, s.2 + 1).

Definition vsprintf (m : cmem) (buf max fmt : Z) (args : list Z) : outcome (Z * cmem) :=
  '(rv, s) ← do_printf vsprintf_help fst max fmt args (m, buf);
  m ← st s.1 (buf + rv) 0;
  Ok (rv, m).

Definition sprintf (m : cmem) (buf fmt : Z) (args : list Z) : outcome (Z * cmem) :=
  vsprintf m buf 4096 fmt args.

Definition snprintf (m : cmem) (buf len fmt : Z) (args : list Z) : outcome (Z * cmem) :=
  vsprintf m buf len fmt args.

(** The read buffer of a /proc entry. *)
Record proc_read := MkPR { read_buffer : Z; read_size : Z; read_pos : Z }.

Definition pprintf (m : cmem) (pf : proc_read) (fmt : Z) (args : list Z)
    : outcome (Z * cmem * proc_read) :=
  if read_buffer pf =? NULL then Ok (0, m, pf)
  else
    let left := s32 (read_size pf - read_pos pf) in
    '(rv, m) ← vsprintf m (read_buffer pf + read_pos pf) left fmt args;
    Ok (rv, m, MkPR (read_buffer pf) (read_size pf) (s32 (read_pos pf + rv))).

(** Printing that only collects the characters, as to a terminal. *)
Definition collect (c : Z) (s : cmem * list Z) : outcome (cmem * list Z) := Ok (s.1, s.2 ++ [c]).

(** ** Bounds

    [I count s]: what holds after [count] characters, kept by each call of [fn]. *)
Section Bounds.
Context {St : Type} (fn : Z -> St -> outcome St) (mem_of : St -> cmem) (maxbytes : Z).
Context (I : Z -> St -> Prop).
Hypothesis fn_keeps : forall c count s s',
  0 <= count < u32 maxbytes -> I count s -> fn c s = Ok s' -> I (count + 1) s'.

Definition inv (count : Z) (s : St) : Prop := 0 <= count <= u32 maxbytes /\ I count s.

(** A printing step keeps the invariant. *)
Definition keeps (f : Z -> St -> outcome (bool * Z * St)) : Prop :=
  forall count s go count' s', inv count s -> f count s = Ok (go, count', s') -> inv count' s'.

Lemma keeps_andthen f g :
  keeps f -> keeps g -> keeps (fun count s => andthen (f count s) g).
Proof.
  intros Hf Hg count s go count' s' Hi H. unfold andthen in H.
  apply bind_Ok_inv in H as ([[go1 c1] s1] & H1 & H). pose proof (Hf _ _ _ _ _ Hi H1).
  destruct go1; [by eapply Hg|]. by injection H as <- <- <-.
Qed.

Lemma keeps_ret go : keeps (fun count s => Ok (go, count, s)).
Proof. intros count s go' count' s' Hi H. by injection H as <- <- <-. Qed.

Lemma keeps_emit c : keeps (emit fn maxbytes c).
Proof.
  intros count s go count' s' [Hc Hi] H. unfold emit in H.
  destruct (Z.ltb_spec count (u32 maxbytes)); [|injection H as <- <- <-; by split].
  apply bind_Ok_inv in H as (s1 & H1 & H). injection H as <- <- <-.
  pose proof (u32_range maxbytes). rewrite u32_small by lia. split; [lia|]. eapply fn_keeps; [|done|done]. lia.
Qed.

Lemma keeps_if (b : bool) f g : keeps f -> keeps g -> keeps (fun count s => if b then f count s else g count s).
Proof. by destruct b. Qed.

Lemma keeps_emit_list l : keeps (emit_list fn maxbytes l).
Proof.
  induction l as [|c l IH]; [apply keeps_ret|]. apply (keeps_andthen _ _ (keeps_emit c) IH).
Qed.

Lemma keeps_emit_at n p : keeps (emit_at fn mem_of maxbytes n p).
Proof.
  revert p. induction n as [|n IH]; intros p count s go count' s' Hi H; [done|].
  cbn in H. apply bind_Ok_inv in H as (c & _ & H). destruct (c =? 0).
  - by injection H as <- <- <-.
  - eapply (keeps_andthen _ _ (keeps_emit c) (IH (p + 1))); done.
Qed.

Lemma keeps_emit_chars w : keeps (emit_chars fn mem_of maxbytes w).
Proof. destruct w; intros count s; [apply keeps_emit_list|apply keeps_emit_at]. Qed.

Lemma keeps_EMIT2 fl g a w : keeps (EMIT2 fn mem_of maxbytes fl g a w).
Proof.
  apply (keeps_andthen (fun count s => if negb (flag fl PR_LJ) then _ else _));
    [apply keeps_if; [apply keeps_emit_list|apply keeps_ret]|].
  apply (keeps_andthen (fun count s => if flag fl PR_WS && negb (flag fl PR_LZ) then _ else _));
    [apply keeps_if; [apply keeps_emit|apply keeps_ret]|].
  apply (keeps_andthen (fun count s => emit_chars _ _ _ w count s)); [apply keeps_emit_chars|].
  apply keeps_emit_list.
Qed.

Lemma keeps_EMIT fl g w : keeps (EMIT fn mem_of maxbytes fl g w).
Proof.
  intros count s go count' s' Hi H. unfold EMIT in H. apply bind_Ok_inv in H as (len & _ & H).
  refine (keeps_andthen (fun count s => if flag fl PR_WS && flag fl PR_LZ then
    emit fn maxbytes 45 count s else Ok (true, count, s)) _ _ _ _ _ _ _ _ Hi H);
    [apply keeps_if; [apply keeps_emit|apply keeps_ret]|apply keeps_EMIT2].
Qed.

(** A scanner step keeps it. *)
Definition good (p : pst (St := St)) : Prop := inv (count p) (out p).

Lemma finish_good p m go p' :
  (forall r go c s a, m = Ok (r, a) -> r = (go, c, s) -> inv c s) ->
  finish p m = Ok (go, p') -> good p'.
Proof.
  intros Hm H. unfold finish in H. apply bind_Ok_inv in H as ([[[go1 c] s] a] & H1 & H).
  injection H as <- <-. by eapply Hm.
Qed.

Lemma DO_NUM_keeps fl g r a count s go c s' a' :
  inv count s -> DO_NUM fn mem_of maxbytes fl g r a count s = Ok ((go, c, s'), a') -> inv c s'.
Proof.
  intros Hi H. unfold DO_NUM in H. apply bind_Ok_inv in H as ([w a1] & _ & H).
  apply bind_Ok_inv in H as (l & _ & H). apply bind_Ok_inv in H as (q & Hq & H).
  injection H as -> ->. by eapply keeps_EMIT.
Qed.

Lemma state4_good p go p' : good p -> state4 fn mem_of maxbytes p = Ok (go, p') -> good p'.
Proof.
  intros Hg H. unfold state4 in H. apply bind_Ok_inv in H as (c & _ & H).
  repeat match type of H with (if ?b then _ else _) = _ => destruct b end;
    try (eapply finish_good; [|exact H]; intros r go1 c1 s1 a1 Hr ->).
  all: try (by eapply DO_NUM_keeps).
  - apply bind_Ok_inv in Hr as ([w a] & _ & Hr). apply bind_Ok_inv in Hr as (q & Hq & Hr).
    injection Hr as -> ->. by eapply keeps_EMIT2.
  - apply bind_Ok_inv in Hr as ([w a] & _ & Hr). apply bind_Ok_inv in Hr as (q & Hq & Hr).
    injection Hr as -> ->. by eapply keeps_EMIT.
  - by injection H as <- <-.
Qed.

Lemma state3_good p go p' : good p -> state3 fn mem_of maxbytes p = Ok (go, p') -> good p'.
Proof.
  intros Hg H. unfold state3 in H. apply bind_Ok_inv in H as (c & _ & H).
  repeat match type of H with (if ?b then _ else _) = _ => destruct b end;
    try (by injection H as <- <-). by apply state4_good in H.
Qed.

Lemma state2_good p go p' : good p -> state2 fn mem_of maxbytes p = Ok (go, p') -> good p'.
Proof.
  intros Hg H. unfold state2 in H. apply bind_Ok_inv in H as (c & _ & H).
  destruct (_ && _); [by injection H as <- <-|]. by apply state3_good in H.
Qed.

Lemma state1_good p go p' : good p -> state1 fn mem_of maxbytes p = Ok (go, p') -> good p'.
Proof.
  intros Hg H. unfold state1 in H. apply bind_Ok_inv in H as (c & _ & H). destruct (c =? 37).
  - apply bind_Ok_inv in H as ([[go1 c1] s1] & H1 & H). injection H as <- <-. by eapply keeps_emit.
  - destruct (c =? 45); [injection H as <- <-; by destruct (flag _ _)|].
    apply state2_good in H; [done|]. by destruct (c =? 48).
Qed.

Lemma switch_good p go p' : good p -> switch fn mem_of maxbytes p = Ok (go, p') -> good p'.
Proof.
  intros Hg H. unfold switch in H. destruct (state p =? 0).
  { unfold state0 in H. apply bind_Ok_inv in H as (c & _ & H). destruct (negb (c =? 37)).
    - apply bind_Ok_inv in H as ([[go1 c1] s1] & H1 & H). injection H as <- <-. by eapply keeps_emit.
    - by apply state1_good in H. }
  destruct (state p =? 1); [by apply state1_good in H|].
  destruct (state p =? 2); [by apply state2_good in H|].
  destruct (state p =? 3); [by apply state3_good in H|].
  destruct (state p =? 4); [by apply state4_good in H|]. by injection H as <- <-.
Qed.

Lemma do_printf_loop_good n p count' s' :
  good p -> do_printf_loop fn mem_of maxbytes n p = Ok (count', s') -> inv count' s'.
Proof.
  revert p. induction n as [|n IH]; intros p Hg H; [done|]. cbn in H.
  apply bind_Ok_inv in H as (c & _ & H). destruct (c =? 0); [by injection H as <- <-|].
  apply bind_Ok_inv in H as ([go p1] & H1 & H). apply switch_good in H1; [|done].
  destruct go; [by apply IH in H|]. by injection H as <- <-.
Qed.

Lemma do_printf_inv f a s count' s' :
  I 0 s -> do_printf fn mem_of maxbytes f a s = Ok (count', s') -> inv count' s'.
Proof.
  intros Hi H. eapply do_printf_loop_good; [|exact H]. pose proof (u32_range maxbytes).
  split; [cbn; lia|done].
Qed.
End Bounds.

(** C39: snprintf, whatever the format and the arguments, prints at most [len]
    characters, returns their number and stores the terminator behind them; no
    other byte changes.  When it prints [len] characters the terminator is the
    byte after a buffer of [len] bytes. *)
Theorem snprintf_bounds m buf len fmt args rv m' :
  snprintf m buf len fmt args = Ok (rv, m') ->
  0 <= rv <= u32 len /\ m' !! (buf + rv) = Some 0 /\ same_outside m m' buf (rv + 1).
Proof.
  unfold snprintf, vsprintf. intros H. apply bind_Ok_inv in H as ([rv1 [m1 p1]] & H1 & H).
  apply bind_Ok_inv in H as (m2 & H2 & H). injection H as <- <-.
  apply (do_printf_inv _ _ _ (fun c s => s.2 = buf + c /\ same_outside m s.1 buf c)) in H1
    as [Hr [Hp Ho]].
  - unfold st in H2. apply bind_Ok_inv in H2 as (x & _ & H2). injection H2 as <-. cbn in *.
    split; [done|]. split; [apply lookup_insert_eq|]. intros q Hq.
    rewrite lookup_insert_ne by lia. apply Ho. lia.
  - intros c count [m2' p2] s' Hc [Hp Ho] Hf. unfold vsprintf_help, st in Hf. cbn [fst snd] in *.
    apply bind_Ok_inv in Hf as (m3 & Hm3 & Hf). apply bind_Ok_inv in Hm3 as (x & _ & Hm3).
    injection Hm3 as <-. injection Hf as <-. cbn. split; [lia|]. intros q Hq.
    rewrite lookup_insert_ne by lia. apply Ho. lia.
  - cbn. split; [lia|]. intros q _. done.
Qed.

Lemma snprintf_bounds_witness :
  exists m', snprintf abc 200 3 100 [] = Ok (3, m') /\ m' !! 203 = Some 0 /\
    same_outside abc m' 200 4.
Proof.
  destruct (ok_such_that (fun r => r.1 = 3) (snprintf abc 200 3 100 [])) as ([rv m'] & E & Hrv);
    [vm_compute; reflexivity|]. cbn in Hrv. subst rv. exists m'. split; [exact E|].
  exact (proj2 (snprintf_bounds abc 200 3 100 [] 3 m' E)).
Defined.

(** ** Decimal numbers *)

Lemma num_digits_ok n num caps acc k :
  0 <= num -> num mod 10 = u32 num mod 10 -> u32 num < 10 ^ Z.of_nat k -> (0 < k <= n)%nat ->
  exists l, num_digits n num 10 caps acc = Ok (l ++ acc) /\ Forall is_dec l /\
    (forall r, fold_left (fun r c => r * 10 + (c - 48)) l r = r * 10 ^ Z.of_nat (length l) + u32 num) /\
    (0 < length l <= k)%nat.
Proof.
  revert num acc k. induction n as [|n IH]; intros num acc k H0 Hm Hk Hkn; [lia|]. cbn [num_digits].
  pose proof (Z.mod_pos_bound num 10 ltac:(lia)). pose proof (u32_range num).
  rewrite (proj2 (Z.ltb_lt (num mod 10) 10)) by lia.
  assert (is_dec (num mod 10 + 48)) by (unfold is_dec; lia).
  pose proof (Z.div_mod (u32 num) 10 ltac:(lia)).
  destruct (Z.eqb_spec (u32 num / 10) 0) as [Hz|Hnz].
  - exists [num mod 10 + 48]. split; [done|]. split; [by rewrite Forall_singleton|].
    split; [intros r; cbn; lia|cbn; lia].
  - assert (0 <= u32 num / 10 < 2 ^ 32) as Hq
      by (split; [apply Z.div_pos; lia|apply Z.div_lt_upper_bound; lia]).
    destruct k as [|k]; [lia|]. rewrite Nat2Z.inj_succ, Z.pow_succ_r in Hk by lia.
    assert (u32 num / 10 < 10 ^ Z.of_nat k) as Hk' by (apply Z.div_lt_upper_bound; lia).
    destruct (IH (u32 num / 10) ((num mod 10 + 48) :: acc) k) as (l & -> & Hd & Hv & Hl);
      rewrite ?(u32_small (u32 num / 10)) by done; try lia.
    { destruct k; [cbn in Hk'; lia|lia]. }
    rewrite (u32_small (u32 num / 10)) in Hv by done.
    exists (l ++ [num mod 10 + 48]). rewrite <- app_assoc. split; [done|].
    split; [apply Forall_app; split; [done|by apply Forall_singleton]|].
    rewrite length_app. split; [|cbn [length]; lia]. intros r. rewrite fold_left_app, Hv. cbn [fold_left length].
    rewrite Nat2Z.inj_add, Z.pow_add_r by lia. cbn. lia.
Qed.

Lemma help_dec c m p :
  is_dec c -> is_Some (m !! p) -> vsprintf_help c (m, p) = Ok (<[p := c]> m, p + 1).
Proof.
  unfold is_dec, vsprintf_help. intros Hc Hm. cbn [fst snd]. rewrite u8_small by lia.
  by rewrite st_mapped.
Qed.

Lemma emit_list_writes l max count m p :
  Forall is_dec l -> 0 <= count -> count + Z.of_nat (length l) <= u32 max ->
  (forall j, 0 <= j < Z.of_nat (length l) -> is_Some (m !! (p + j))) ->
  exists m', emit_list vsprintf_help max l count (m, p)
      = Ok (true, count + Z.of_nat (length l), (m', p + Z.of_nat (length l))) /\
    bytes_at m' p l /\ same_outside m m' p (Z.of_nat (length l)).
Proof.
  revert count m p. induction l as [|c l IH]; intros count m p Hd Hc Hmax Hm; cbn [length] in *.
  { exists m. cbn. rewrite !Z.add_0_r. done. }
  apply Forall_cons in Hd as [Hcd Hd]. cbn [emit_list]. unfold andthen, emit.
  rewrite (proj2 (Z.ltb_lt _ _)) by lia.
  rewrite help_dec by (done || rewrite <- (Z.add_0_r p); apply Hm; lia). cbn [mbind outcome_bind].
  pose proof (u32_range max). rewrite (u32_small (count + 1)) by lia.
  destruct (IH (count + 1) (<[p:=c]> m) (p + 1)) as (m' & -> & Hb & Ho); [done|lia..| |].
  { intros j Hj. replace (p + 1 + j) with (p + (j + 1)) by lia. rewrite lookup_insert_ne by lia.
    apply Hm. lia. }
  exists m'. split; [do 2 f_equal; [f_equal; lia|f_equal; lia]|]. split.
  - split; [|done]. rewrite Ho by lia. apply lookup_insert_eq.
  - intros q Hq. rewrite Ho by lia. apply lookup_insert_ne. lia.
Qed.

(** The first digit comes from the 64-bit number, the others from its low word;
    in base 10 they agree. *)
Lemma s64_mod_10 w : (s32 w mod 2 ^ 64) mod 10 = u32 (s32 w mod 2 ^ 64) mod 10 /\
  u32 (s32 w mod 2 ^ 64) = u32 w.
Proof.
  pose proof (s32_range w) as Hr. assert (u32 (s32 w mod 2 ^ 64) = u32 w) as Hu.
  { unfold u32. rewrite <- Znumtheory.Zmod_div_mod by (done || (exists (2 ^ 32); done)).
    unfold s32. set (y := w mod 2 ^ 32). destruct (y <? 2 ^ 31); [apply Z.mod_mod; lia|].
    replace (y - 2 ^ 32) with (y + (-1) * 2 ^ 32) by lia. rewrite Z.mod_add by lia.
    apply Z.mod_mod. lia. }
  split; [|done]. rewrite Hu. destruct (decide (0 <= s32 w)) as [Hp|Hn].
  - rewrite <- Hu, (Z.mod_small (s32 w) (2 ^ 64)) by lia. by rewrite u32_small by lia.
  - rewrite <- (Z.mod_add (s32 w) 1 (2 ^ 64)) by lia. rewrite (Z.mod_small (_ + _)) by lia.
    assert (u32 w = s32 w + 2 ^ 32) as ->.
    { rewrite <- Hu. rewrite <- (Z.mod_add (s32 w) 1 (2 ^ 64)) by lia.
      rewrite (Z.mod_small (_ + _)) by lia. unfold u32.
      replace (s32 w + 1 * 2 ^ 64) with (s32 w + 2 ^ 32 + (2 ^ 32 - 1) * 2 ^ 32) by lia.
      rewrite Z.mod_add by lia. apply Z.mod_small. lia. }
    replace (s32 w + 1 * 2 ^ 64) with (s32 w + 2 ^ 32 + 1844674406941458432 * 10) by lia.
    by rewrite Z.mod_add by lia.
Qed.

Lemma dec_nonzero l : Forall is_dec l -> filter (fun c => c <> 0) l = l.
Proof.
  induction 1 as [|c l Hc _ IH]; [done|]. rewrite filter_cons_True by (unfold is_dec in Hc; lia).
  by rewrite IH.
Qed.

Lemma EMIT_plain max l count m p :
  Forall is_dec l -> l <> [] ->
  EMIT vsprintf_help fst max PR_SG 0 (InBuf l) count (m, p) =
  '(go, c, s) ← emit_list vsprintf_help max l count (m, p); Ok (go, c, s).
Proof.
  intros Hd Hl. unfold EMIT, EMIT2, andthen, pad, emit_chars.
  change (flag PR_SG PR_WS) with false. change (flag PR_SG PR_LZ) with false.
  change (flag PR_SG PR_LJ) with false. cbn [mbind outcome_bind andb negb].
  assert (0 < Z.of_nat (length l)) by (destruct l; cbn; [done|lia]).
  replace (Z.to_nat (0 - Z.of_nat (length l))) with O by lia.
  rewrite (proj2 (Z.ltb_ge (Z.of_nat (length l)) 0)) by lia.
  rewrite (proj2 (Z.ltb_lt 0 (Z.of_nat (length l)))) by lia. rewrite dec_nonzero by done.
  cbn [replicate emit_list mbind outcome_bind Z.to_nat].
  destruct (emit_list _ _ _ _ _) as [[[[] c] s]| | |]; done.
Qed.

Lemma DO_NUM_dec max w m buf :
  10 <= u32 max -> (forall j, 0 <= j < 10 -> is_Some (m !! (buf + j))) ->
  exists l m', DO_NUM vsprintf_help fst max PR_SG 0 10 [w] 0 (m, buf)
      = Ok ((true, Z.of_nat (length l), (m', buf + Z.of_nat (length l))), []) /\
    Forall is_dec l /\ fold_left (fun r c => r * 10 + (c - 48)) l 0 = u32 w /\ (0 < length l <= 10)%nat /\
    bytes_at m' buf l /\ same_outside m m' buf (Z.of_nat (length l)).
Proof.
  intros Hmax Hm. destruct (s64_mod_10 w) as [H10 Hu]. pose proof (u32_range w).
  set (num := s32 w mod 2 ^ 64) in *.
  assert (0 <= num) by (unfold num; apply Z.mod_pos_bound; lia).
  destruct (num_digits_ok 15 num (flag PR_SG PR_CA) [] 10) as (l & Hl & Hd & Hv & Hlen);
    [done|done|rewrite Hu; cbn; lia|lia|].
  rewrite Hu in Hv. specialize (Hv 0).
  destruct (emit_list_writes l max 0 m buf) as (m' & He & Hb & Ho); [done|lia|lia|intros; apply Hm; lia|].
  exists l, m'. unfold DO_NUM, va_arg. cbn [mbind outcome_bind].
  change (load_num PR_SG w) with num. rewrite (proj2 (Z.ltb_ge num 0)) by lia. rewrite andb_false_r.
  rewrite Hl. cbn [mbind outcome_bind]. rewrite app_nil_r, EMIT_plain; [|done|].
  - rewrite He. cbn [mbind outcome_bind]. split_and!; try done; lia.
  - intros ->. cbn in Hlen. lia.
Qed.

Lemma switch_d max m buf f w :
  ld m f = Ok 37 -> ld m (f + 1) = Ok 100 ->
  switch vsprintf_help fst max (MkP f 0 0 0 0 [w] (m, buf)) =
  finish (MkP (f + 1) 4 0 0 0 [w] (m, buf)) (DO_NUM vsprintf_help fst max PR_SG 0 10 [w] 0 (m, buf)).
Proof.
  intros H0 H1. unfold switch, state0. cbn -[state1 DO_NUM Z.add]. rewrite H0.
  cbn -[state1 DO_NUM Z.add]. unfold state1. cbn -[state2 DO_NUM Z.add]. rewrite H1.
  cbn -[state2 DO_NUM Z.add]. unfold state2. cbn -[state3 DO_NUM Z.add]. rewrite H1.
  cbn -[state3 DO_NUM Z.add]. unfold state3. cbn -[state4 DO_NUM Z.add]. rewrite H1.
  cbn -[state4 DO_NUM Z.add]. unfold state4. cbn -[DO_NUM Z.add]. rewrite H1. reflexivity.
Qed.

(** sprintf of percent-d writes the decimal digits of the argument read as an
    unsigned number, which atoi reads back: the sign test is made on an unsigned
    variable, so a negative [d] is printed as 2^32 + d. *)
Theorem sprintf_d_prints_unsigned m buf f w :
  str_at m f [37; 100] -> buf + 11 <= f \/ f + 3 <= buf ->
  (forall j, 0 <= j < 11 -> is_Some (m !! (buf + j))) ->
  exists rv m', sprintf m buf f [w] = Ok (rv, m') /\ 0 < rv <= 10 /\
    atoi m' buf = Ok (u32 w) /\ same_outside m m' buf (rv + 1).
Proof.
  intros Hf Hd Hm. pose proof Hf as [_ Hfb]. pose proof (bytes_at_size _ _ _ Hfb) as Hsz.
  cbn in Hsz, Hfb. destruct Hfb as (Hf0 & Hf1 & Hf2 & _).
  destruct (DO_NUM_dec 4096 w m buf) as (l & m1 & Hn & Hdec & Hv & Hlen & Hb & Ho);
    [done|intros; apply Hm; lia|].
  set (n := Z.of_nat (length l)) in *.
  assert (do_printf vsprintf_help fst 4096 f [w] (m, buf) = Ok (n, (m1, buf + n))) as Hp.
  { unfold do_printf, fuel. change (fst (m, buf)) with m. destruct (size m) as [|[|sz]]; [lia..|].
    apply ld_Some in Hf0, Hf1.
    cbn -[switch Z.add]. rewrite Hf0. cbn -[switch Z.add].
    rewrite (switch_d 4096 m buf f w Hf0 Hf1), Hn. cbn -[Z.add].
    rewrite (ld_Some m1 (f + 1 + 1) 0); [done|]. rewrite Ho by lia. done. }
  unfold sprintf, vsprintf. rewrite Hp. cbn [mbind outcome_bind fst].
  rewrite st_mapped by (rewrite Ho by lia; apply Hm; lia). cbn [mbind outcome_bind].
  set (m2 := <[buf + n := 0]> m1).
  assert (str_at m2 buf l) as Hs.
  { split; [eapply Forall_impl; [exact Hdec|]; unfold is_dec, char_ok; lia|].
    apply bytes_at_app. split; [|split; [apply lookup_insert_eq|done]].
    apply (bytes_at_frame m1 _ (buf + n) 1); [done| |lia].
    intros q Hq. apply lookup_insert_ne. lia. }
  exists n, m2. split; [done|]. split; [|split].
  - lia.
  - unfold atoi. change 0 with (u32 0) at 2. change 0 with (Z.of_nat (length (@nil Z))) at 1.
    rewrite (atoi_loop_ok _ m2 buf [] l 0); [|done|cbn; lia|done|by apply (str_at_fuel m2 buf)].
    by rewrite Hv, u32_u32.
  - intros q Hq. unfold m2. rewrite lookup_insert_ne by lia. apply Ho. lia.
Qed.

(** Percent-d at 100, twelve bytes from 200. *)
Definition fmt_d : cmem :=
  list_to_map ([(100, 37); (101, 100); (102, 0)] ++ ((fun p => (p, 7)) <$> seqZ 200 12)).

Lemma sprintf_d_prints_unsigned_witness :
  exists rv m', sprintf fmt_d 200 100 [-1] = Ok (rv, m') /\ 0 < rv <= 10 /\
    atoi m' 200 = Ok (u32 (-1)) /\ same_outside fmt_d m' 200 (rv + 1).
Proof.
  apply (sprintf_d_prints_unsigned fmt_d 200 100 (-1)).
  - split; [repeat constructor; done|repeat split].
  - lia.
  - intros j Hj. apply elem_of_dom. unfold fmt_d. rewrite dom_list_to_map_L. apply elem_of_list_to_set.
    rewrite fmap_app. apply elem_of_app. right. apply list_elem_of_fmap. exists (200 + j, 7).
    split; [done|]. apply list_elem_of_fmap. exists (200 + j). split; [done|]. apply elem_of_seqZ. lia.
Defined.

(** A format that ends in a percent sign: the scanner steps over the terminator
    and prints what follows it in memory. *)
Example trailing_percent_overruns :
  do_printf collect fst 4096 100 []
    (list_to_map [(100, 37); (101, 0); (102, 88); (103, 89); (104, 0)], []) =
  Ok (2, (list_to_map [(100, 37); (101, 0); (102, 88); (103, 89); (104, 0)], [88; 89])).
Proof. vm_compute. reflexivity. Qed.
