(* ===== verification/Msgport.v ===== *)
(** * Message ports (core/ipc/msgport.c, core/ipc/thread_msg.c)

    A port is named by the address of its control block, which also names its
    wait queue in the thread state.  Names are the characters of a C string; a
    name that does not fit the 20 bytes of port_name with its terminator makes
    strncpy write past the array, a fault.  A receive that sleeps is split at
    the call of schedule (Thread.v).  The addresses kcalloc returns are
    arguments; a message is the bytes copied in, [size] of them. *)

From S2P Require Import Prelude Thread.

Definition MAX_PORTNAME_LEN : Z := 20.
Definition MSGPORT_LIMIT_NUM : Z := 1024.
Definition MSG_BUFSZ : Z := 8092.
Definition PORT_COUNT : Z := 8.

Record msg_buf := MkMsg { mcode : Z; msize : Z; mbuf : list Z }.

Record msgwait := MkMcb { limit : Z; current : Z; port_name : list Z; qh : list msg_buf; port_no : Z }.

Record mst := MkM {
  mk : kst;
  mcbs : gmap Z msgwait;
  mcb_qh : list Z;
  last_port : Z;
  g_anPortTable : list Z }.

Definition set_mk (s : mst) (k : kst) : mst :=
  MkM k (mcbs s) (mcb_qh s) (last_port s) (g_anPortTable s).
Definition put_mcb (s : mst) (a : Z) (x : msgwait) : mst :=
  MkM (mk s) (<[a := x]> (mcbs s)) (mcb_qh s) (last_port s) (g_anPortTable s).
Definition set_queue (x : msgwait) (cur : Z) (q : list msg_buf) : msgwait :=
  MkMcb (limit x) cur (port_name x) q (port_no x).

Definition thread_msg_init (s : mst) : mst :=
  MkM (mk s) (mcbs s) [] 18 (replicate (Z.to_nat PORT_COUNT) (-1)).

(** LIST_FOREACH over the ports up to the first that satisfies [p]. *)
Fixpoint find_port (m : gmap Z msgwait) (l : list Z) (p : msgwait -> bool) : outcome Z :=
  match l with
  | [] => Ok NULL
  | a :: l => x ← from_opt (m !! a); if p x then Ok a else find_port m l p
  end.

Definition find_msgport_byid (s : mst) (no : Z) : outcome Z :=
  find_port (mcbs s) (mcb_qh s) (fun x => port_no x =? no).

(** strcmp is 0 exactly for equal names. *)
Definition find_msgport_byname (s : mst) (name : list Z) : outcome Z :=
  find_port (mcbs s) (mcb_qh s) (fun x => bool_decide (port_name x = name)).

Definition msgport_set_limit (s : mst) (port lim : Z) : outcome (Z * mst) :=
  a ← find_msgport_byid s port;
  if a =? NULL then Ok (-1, s)
  else
    x ← from_opt (mcbs s !! a);
    Ok (0, put_mcb s a (MkMcb lim (current x) (port_name x) (qh x) (port_no x))).

(** [name] is the name given, or the one snprintf made of the thread's name and
    last_port when none was; [a] is what kcalloc returned. *)
Definition create_msgport (s : mst) (pthread : Z) (name : list Z) (a : Z) : outcome (Z * mst) :=
  if pthread =? NULL then Ok (-2, s)
  else
    p ← find_msgport_byname s name;
    if negb (p =? NULL) then Ok (-1, s)
    else if a =? NULL then Ok (-3, s)
    else if MAX_PORTNAME_LEN <=? Z.of_nat (length name) then Fault
    else
      let x := MkMcb MSGPORT_LIMIT_NUM 0 name [] (last_port s) in
      Ok (last_port s, MkM (thread_waitq_init (mk s) a) (<[a := x]> (mcbs s)) (a :: mcb_qh s)
                         (s32 (last_port s + 1)) (g_anPortTable s)).

(** The control block and the messages are freed; the threads on the wait queue
    are not looked at. *)
Definition msgport_destroy (s : mst) (port : Z) : outcome (Z * mst) :=
  a ← find_msgport_byid s port;
  if a =? NULL then Ok (-1, s)
  else
    l ← q_remove (mcb_qh s) a;
    Ok (0, MkM (mk s) (delete a (mcbs s)) l (last_port s) (g_anPortTable s)).

Definition connect_msgport (s : mst) (pname : list Z) : outcome Z :=
  a ← find_msgport_byname s pname;
  x ← from_opt (mcbs s !! a);
  Ok (port_no x).

(** Up to the call of schedule. *)
Definition msgport_wait_begin (s : mst) (port : Z) : outcome mst :=
  a ← find_msgport_byid s port;
  _ ← from_opt (mcbs s !! a);
  k ← sleep_on_begin (mk s) a INFINITE 0;
  Ok (set_mk s k).

(** [data]: the bytes at [va]; [b]: what kcalloc returned. *)
Definition msgport_send (s : mst) (port code : Z) (data : list Z) (count b : Z) : outcome (Z * mst) :=
  if MSG_BUFSZ <? count then Ok (-1, s)
  else
    a ← find_msgport_byid s port;
    if a =? NULL then Ok (0, s)
    else
      x ← from_opt (mcbs s !! a);
      if limit x <=? current x then
        '(_, k) ← thread_wakeup (mk s) a;
        Ok (-1, set_mk s k)
      else if b =? NULL then Ok (-1, s)
      else if Z.of_nat (length data) <? count then Fault
      else
        let m := MkMsg code count (take (Z.to_nat count) data) in
        let s := put_mcb s a (set_queue x (u32 (current x + 1)) (qh x ++ [m])) in
        '(_, k) ← thread_wakeup (mk s) a;
        Ok (count, set_mk s k).

(** What a receive returns: the result, and the code and the bytes it stored
    when it took a message. *)
Notation received := (Z * option (Z * list Z))%type.

(** msgport_pend once msgport_pend2 has returned 1. *)
Definition pend_take (s : mst) (a count : Z) : outcome (received * mst) :=
  x ← from_opt (mcbs s !! a);
  match qh x with
  | [] => Ok ((-1, None), s)
  | m :: q =>
      let nbytes := s32 (if msize m <? count then msize m else count) in
      let bytes := if 0 <? nbytes then take (Z.to_nat nbytes) (mbuf m) else [] in
      Ok ((nbytes, Some (mcode m, bytes)), put_mcb s a (set_queue x (u32 (current x - 1)) q))
  end.

(** msgport_pend2 and msgport_pend up to the call of schedule; [inr a]: the
    thread sleeps on port [a]. *)
Definition msgport_pend_begin (s : mst) (port kbuf count timeout at_ : Z)
    : outcome ((received + Z) * mst) :=
  if kbuf =? NULL then Ok (inl (0, None), s)
  else
    a ← find_msgport_byid s port;
    if a =? NULL then Ok (inl (0, None), s)
    else
      x ← from_opt (mcbs s !! a);
      if negb (bool_decide (qh x = [])) then '(r, s) ← pend_take s a count; Ok (inl r, s)
      else if timeout =? 0 then Ok (inl (-1, None), s)
      else
        k ← sleep_on_begin (mk s) a timeout at_;
        Ok (inr a, set_mk s k).

(** The rest, when the thread is resumed. *)
Definition msgport_pend_end (s : mst) (a t count : Z) : outcome (received * mst) :=
  '(ret, k) ← sleep_on_end (mk s) a t;
  let s := set_mk s k in
  if negb (ret =? 0) then Ok ((-1, None), s)
  else
    x ← from_opt (mcbs s !! a);
    if negb (bool_decide (qh x = [])) then pend_take s a count else Ok ((-1, None), s).

(** ** Public ports *)

(** The table is read; the wait for an entry to be set is split at thread_wait:
    [inr w] is a call that waits with [w] seconds left. *)
Definition get_public_port_begin (s : mst) (nId nFlags waitsecs at_ : Z) : outcome ((Z + Z) * mst) :=
  if (nId <? 0) || (PORT_COUNT <=? nId) then Ok (inl (- EINVAL), s)
  else
    p ← aget (g_anPortTable s) nId;
    if negb (nFlags =? 0) && (p =? -1) then
      '(_, k) ← thread_wait_begin (mk s) (current_tcb (mk s)) 1000 at_;
      Ok (inr waitsecs, set_mk s k)
    else Ok (inl p, s).
Definition get_public_port_resume (s : mst) (nId : Z) (has_timeout : bool) (waitsecs at_ : Z)
    : outcome ((Z + Z) * mst) :=
  p ← aget (g_anPortTable s) nId;
  if has_timeout && (waitsecs =? 0) then Ok (inl p, s)
  else
    let waitsecs := if has_timeout then u32 (waitsecs - 1) else waitsecs in
    if p =? -1 then
      '(_, k) ← thread_wait_begin (mk s) (current_tcb (mk s)) 1000 at_;
      Ok (inr waitsecs, set_mk s k)
    else Ok (inl p, s).

Definition msgport_set_public_port (s : mst) (nId nPort : Z) : outcome (Z * mst) :=
  if (nId <? 0) || (PORT_COUNT <=? nId) then Ok (EINVAL, s)
  else
    l ← aset (g_anPortTable s) nId nPort;
    Ok (0, MkM (mk s) (mcbs s) (mcb_qh s) (last_port s) l).

(** ** Messages of a thread (thread_msg.c) *)

Definition post_thread_message (s : mst) (t : Z) (data : list Z) (count b : Z) : outcome (Z * mst) :=
  x ← getT (mk s) t;
  if msgport_id x <? 0 then Ok (-1, s) else msgport_send s (msgport_id x) 0 data count b.

Definition get_thread_msgport (s : mst) (t : Z) : outcome Z := x ← getT (mk s) t; Ok (msgport_id x).

Definition get_thread_message_begin (s : mst) (t kbuf count timeout at_ : Z)
    : outcome ((received + Z) * mst) :=
  x ← getT (mk s) t;
  if msgport_id x <? 0 then Ok (inl (-1, None), s)
  else msgport_pend_begin s (msgport_id x) kbuf count timeout at_.

(** ** The table of ports *)

Definition msg_ok (m : msg_buf) : Prop :=
  msize m = Z.of_nat (length (mbuf m)) /\ msize m <= MSG_BUFSZ.

Record mcb_ok (last : Z) (x : msgwait) : Prop := {
  ok_no : 18 <= port_no x < last;
  ok_name : Z.of_nat (length (port_name x)) < MAX_PORTNAME_LEN;
  ok_limit : 0 <= limit x < 2 ^ 32;
  ok_current : current x = Z.of_nat (length (qh x)) /\ current x < 2 ^ 32;
  ok_msgs : Forall msg_ok (qh x) }.

(** The listed ports are the live ones, with distinct numbers and names. *)
Record ports_wf (s : mst) : Prop := {
  wf_nodup : NoDup (mcb_qh s);
  wf_live : forall a, a ∈ mcb_qh s <-> is_Some (mcbs s !! a);
  wf_null : NULL ∉ mcb_qh s;
  wf_uniq : forall a b x y, mcbs s !! a = Some x -> mcbs s !! b = Some y ->
    port_no x = port_no y \/ port_name x = port_name y -> a = b;
  wf_last : 18 <= last_port s < 2 ^ 31;
  wf_mcb : forall a x, mcbs s !! a = Some x -> mcb_ok (last_port s) x }.

Lemma find_port_spec m l p :
  (forall a, a ∈ l -> is_Some (m !! a)) ->
  exists r, find_port m l p = Ok r /\
    ((r = NULL /\ forall a x, a ∈ l -> m !! a = Some x -> p x = false) \/
     (r ∈ l /\ exists x, m !! r = Some x /\ p x = true)).
Proof.
  induction l as [|a l IH]; intros Hl; cbn.
  - exists NULL. split; [done|]. left. split; [done|]. intros a x Ha. by apply elem_of_nil in Ha.
  - destruct (Hl a ltac:(left)) as [x Hx]. rewrite Hx. cbn [from_opt mbind outcome_bind].
    destruct (p x) eqn:Hp.
    + exists a. split; [done|]. right. split; [left|eauto].
    + destruct IH as (r & -> & Hr); [intros b Hb; apply Hl; by right|]. exists r. split; [done|].
      destruct Hr as [[-> Hn]|[Hin Hx']]; [left|right; split; [by right|done]].
      split; [done|]. intros b y Hb Hy. apply elem_of_cons in Hb as [->|Hb]; [congruence|eauto].
Qed.

Section Wf.
Context (s : mst) (W : ports_wf s).

Lemma find_byid_spec no :
  exists r, find_msgport_byid s no = Ok r /\
    ((r = NULL /\ forall a x, mcbs s !! a = Some x -> port_no x <> no) \/
     (r <> NULL /\ r ∈ mcb_qh s /\ exists x, mcbs s !! r = Some x /\ port_no x = no)).
Proof.
  destruct (find_port_spec (mcbs s) (mcb_qh s) (fun x => port_no x =? no)) as (r & Hr & Hc);
    [intros a; by apply (wf_live s W)|]. exists r. split; [done|].
  destruct Hc as [[-> Hn]|(Hin & x & Hx & Hp)]; [left|right].
  - split; [done|]. intros a x Hx. apply Z.eqb_neq, (Hn a); [|done]. apply (wf_live s W). eauto.
  - split; [intros ->; by apply (wf_null s W)|]. split; [done|]. exists x. split; [done|].
    by apply Z.eqb_eq.
Qed.

Lemma find_byname_spec name :
  exists r, find_msgport_byname s name = Ok r /\
    ((r = NULL /\ forall a x, mcbs s !! a = Some x -> port_name x <> name) \/
     (r <> NULL /\ r ∈ mcb_qh s /\ exists x, mcbs s !! r = Some x /\ port_name x = name)).
Proof.
  destruct (find_port_spec (mcbs s) (mcb_qh s) (fun x => bool_decide (port_name x = name)))
    as (r & Hr & Hc); [intros a; by apply (wf_live s W)|]. exists r. split; [done|].
  destruct Hc as [[-> Hn]|(Hin & x & Hx & Hp)]; [left|right].
  - split; [done|]. intros a x Hx. apply (bool_decide_eq_false _), (Hn a); [|done].
    apply (wf_live s W). eauto.
  - split; [intros ->; by apply (wf_null s W)|]. split; [done|]. exists x. split; [done|].
    by apply bool_decide_eq_true in Hp.
Qed.

Lemma wf_set_mk k : ports_wf (set_mk s k).
Proof. destruct W. by split. Qed.

Lemma wf_put a x x' :
  mcbs s !! a = Some x -> port_no x' = port_no x -> port_name x' = port_name x ->
  mcb_ok (last_port s) x' -> ports_wf (put_mcb s a x').
Proof.
  intros Hx Hno Hname Hok. destruct W as [Hnd Hlive Hnull Huniq Hlast Hmcb]. split; cbn; try done.
  - intros b. rewrite Hlive, lookup_insert_is_Some'. split; [auto|]. intros [<-|?]; eauto.
  - intros b c y z Hb Hc He.
    assert (exists y', mcbs s !! b = Some y' /\ port_no y' = port_no y /\ port_name y' = port_name y)
      as (y' & Hy' & Hyn & Hym).
    { destruct (decide (a = b)) as [<-|]; [rewrite lookup_insert_eq in Hb; simplify_eq; eauto|].
      rewrite lookup_insert_ne in Hb by done. eauto. }
    assert (exists z', mcbs s !! c = Some z' /\ port_no z' = port_no z /\ port_name z' = port_name z)
      as (z' & Hz' & Hzn & Hzm).
    { destruct (decide (a = c)) as [<-|]; [rewrite lookup_insert_eq in Hc; simplify_eq; eauto|].
      rewrite lookup_insert_ne in Hc by done. eauto. }
    apply (Huniq b c y' z'); [done|done|]. by rewrite Hyn, Hzn, Hym, Hzm.
  - intros b y Hb. apply lookup_insert_Some in Hb as [[<- <-]|[_ Hb]]; [done|eauto].
Qed.

Lemma create_wf t name a rc s' :
  mcbs s !! a = None -> last_port s < 2 ^ 31 - 1 -> create_msgport s t name a = Ok (rc, s') -> ports_wf s'.
Proof.
  unfold create_msgport. intros Hfresh Hlt H. destruct (t =? NULL); [by injection H as <- <-|].
  destruct (find_byname_spec name) as (r & Hr & Hc). rewrite Hr in H. cbn [mbind outcome_bind] in H.
  destruct (Z.eqb_spec r NULL) as [Hr0|]; cbn [negb] in H; [|by injection H as <- <-].
  destruct Hc as [[_ Hn]|[? _]]; [|done].
  destruct (Z.eqb_spec a NULL) as [|Ha]; [by injection H as <- <-|].
  destruct (Z.leb_spec MAX_PORTNAME_LEN (Z.of_nat (length name))) as [|Hlen]; [done|].
  injection H as <- <-. destruct W as [Hnd Hlive Hnull Huniq Hlast Hmcb].
  rewrite s32_small by lia.
  assert (a ∉ mcb_qh s) by (rewrite Hlive, Hfresh; by intros [? ?]). split; cbn.
  - by constructor.
  - intros b. rewrite elem_of_cons, Hlive, lookup_insert_is_Some'. split; intros [|]; auto.
  - rewrite not_elem_of_cons. split; [|done]. intros E. by symmetry in E.
  - intros b c y z Hb Hc He. apply lookup_insert_Some in Hb as [[<- <-]|[Hab Hb]];
      apply lookup_insert_Some in Hc as [[<- <-]|[Hac Hc]]; cbn in He; try done.
    + pose proof (ok_no _ _ (Hmcb c z Hc)). destruct He as [He|He]; [lia|]. symmetry in He.
      by destruct (Hn c z Hc).
    + pose proof (ok_no _ _ (Hmcb b y Hb)). destruct He as [He|He]; [lia|].
      by destruct (Hn b y Hb).
    + eauto.
  - lia.
  - intros b y Hb. apply lookup_insert_Some in Hb as [[<- <-]|[Hab Hb]].
    + split; cbn; try done; lia.
    + destruct (Hmcb b y Hb) as [Hno ? ? ? ?]. split; try done; lia.
Qed.

Lemma destroy_wf port rc s' : msgport_destroy s port = Ok (rc, s') -> ports_wf s'.
Proof.
  unfold msgport_destroy. intros H. apply bind_Ok_inv in H as (a & _ & H).
  destruct (a =? NULL); [by injection H as <- <-|]. unfold q_remove in H.
  destruct (decide (a ∈ mcb_qh s)) as [Hin|]; [|done]. cbn in H. injection H as <- <-.
  destruct W as [Hnd Hlive Hnull Huniq Hlast Hmcb]. split; cbn; try done.
  - by apply list_del_NoDup.
  - intros b. rewrite lookup_delete_is_Some, <- Hlive. split.
    + intros Hb. split; [|by eapply elem_of_list_del]. intros ->. by apply NoDup_list_del_notin in Hb.
    + intros [Hne Hb]. apply elem_of_list_del_ne; done.
  - intros Hb. by apply elem_of_list_del in Hb.
  - intros b c y z [_ Hb]%lookup_delete_Some [_ Hc]%lookup_delete_Some. eauto.
  - intros b y [_ Hb]%lookup_delete_Some. eauto.
Qed.
End Wf.

Lemma wf_unset_mk s k : ports_wf (set_mk s k) -> ports_wf s.
Proof. intros []. by split. Qed.

(** ** Effect of sending and receiving *)

Lemma send_effect s port code data count b rc s' :
  ports_wf s -> 0 <= count -> msgport_send s port code data count b = Ok (rc, s') ->
  (exists k, s' = set_mk s k /\
    (rc = -1 /\ (MSG_BUFSZ < count \/ b = NULL \/ exists a x, mcbs s !! a = Some x /\ port_no x = port /\ limit x <= current x) \/
     (rc = 0 /\ forall a x, mcbs s !! a = Some x -> port_no x <> port))) \/
  (exists k a x, mcbs s !! a = Some x /\ port_no x = port /\ rc = count /\ count <= MSG_BUFSZ /\
    count <= Z.of_nat (length data) /\ current x < limit x /\ b <> NULL /\
    s' = set_mk (put_mcb s a (set_queue x (current x + 1)
           (qh x ++ [MkMsg code count (take (Z.to_nat count) data)]))) k).
Proof.
  unfold msgport_send. intros W Hc H. destruct (Z.ltb_spec MSG_BUFSZ count) as [|Hsz].
  { injection H as <- <-. left. exists (mk s). split; [by destruct s|left; auto]. }
  destruct (find_byid_spec s W port) as (a & Ha & Hcase). rewrite Ha in H.
  cbn [mbind outcome_bind] in H. destruct (Z.eqb_spec a NULL) as [Ha0|Ha0].
  { injection H as <- <-. left. exists (mk s). split; [by destruct s|].
    destruct Hcase as [[_ Hn]|[? _]]; [|done]. by right. }
  destruct Hcase as [[? _]|(_ & _ & x & Hx & Hno)]; [done|]. rewrite Hx in H.
  cbn [from_opt mbind outcome_bind] in H. destruct (Z.leb_spec (limit x) (current x)) as [|Hlim].
  { apply bind_Ok_inv in H as ([r k] & _ & H). injection H as <- <-. left. exists k. split; [done|]. left. split; [done|]. right. right. by exists a, x. }
  destruct (Z.eqb_spec b NULL); [injection H as <- <-; left; exists (mk s); split; [by destruct s|left; auto]|].
  destruct (Z.ltb_spec (Z.of_nat (length data)) count) as [|Hd]; [done|].
  apply bind_Ok_inv in H as ([r k] & _ & H). injection H as <- <-. right.
  pose proof (ok_limit _ _ (wf_mcb s W a x Hx)). destruct (ok_current _ _ (wf_mcb s W a x Hx)).
  rewrite u32_small by lia. exists k, a, x. split_and!; done || lia.
Qed.

(** A message taken: the room of the receiver's buffer, the result, and the code and
    the bytes stored. *)
Record receipt := MkReceipt { room : Z; result : Z; rcode : Z; rbytes : list Z }.

Definition receipt_of (count : Z) (v : received) : option receipt := (fun g => MkReceipt count v.1 g.1 g.2) <$> v.2.

(** [m] was received as [g]: its code, and as many of its bytes as there was room for. *)
Definition taken_as (m : msg_buf) (g : receipt) : Prop :=
  result g = Z.min (msize m) (room g) /\ rcode g = mcode m /\ rbytes g = take (Z.to_nat (result g)) (mbuf m).

Lemma pend_take_effect s a x count r s' :
  ports_wf s -> 0 <= count -> mcbs s !! a = Some x -> pend_take s a count = Ok (r, s') ->
  (qh x = [] /\ s' = s /\ receipt_of count r = None) \/
  (exists m q g, qh x = m :: q /\ receipt_of count r = Some g /\ room g = count /\ taken_as m g /\
    s' = put_mcb s a (set_queue x (current x - 1) q)).
Proof.
  unfold pend_take. intros W Hc Hx H. rewrite Hx in H. cbn [from_opt mbind outcome_bind] in H.
  destruct (qh x) as [|m q] eqn:Hq; injection H as <- <-; [by left|]. right.
  destruct (ok_current _ _ (wf_mcb s W a x Hx)) as [Hcur Hlt]. rewrite Hq in Hcur. cbn in Hcur.
  pose proof (ok_msgs _ _ (wf_mcb s W a x Hx)) as Hm. rewrite Hq in Hm. apply Forall_cons in Hm as [[Hm1 Hm2] _]. unfold MSG_BUFSZ in Hm2.
  assert (s32 (if msize m <? count then msize m else count) = Z.min (msize m) count) as ->
    by (destruct (Z.ltb_spec (msize m) count); rewrite s32_small by lia; lia).
  rewrite u32_small by lia. eexists m, q, _. split_and!; try done.
  split; [done|]. split; [done|]. cbn. destruct (Z.ltb_spec 0 (Z.min (msize m) count)); [done|]. by rewrite Z2Nat.nonpos by done.
Qed.

Lemma send_wf s port code data count b rc s' :
  ports_wf s -> 0 <= count -> msgport_send s port code data count b = Ok (rc, s') -> ports_wf s'.
Proof.
  intros W Hc H. destruct (send_effect _ _ _ _ _ _ _ _ W Hc H)
    as [(k & -> & _)|(k & a & x & Hx & Hno & _ & Hsz & Hd & Hlim & _ & ->)]; [by apply wf_set_mk|].
  apply wf_set_mk, (wf_put s W a x); try done. destruct (wf_mcb s W a x Hx) as [H1 H2 H3 [H4 H5] H6].
  split; cbn; try done.
  - rewrite length_app. cbn. lia.
  - apply Forall_app. split; [done|]. apply Forall_singleton. split; cbn; [|done].
    rewrite length_take. lia.
Qed.

Lemma pend_take_wf s a x count r s' :
  ports_wf s -> 0 <= count -> mcbs s !! a = Some x -> pend_take s a count = Ok (r, s') -> ports_wf s'.
Proof.
  intros W Hc Hx H. destruct (pend_take_effect _ _ _ _ _ _ W Hc Hx H)
    as [(_ & -> & _)|(m & q & g & Hq & _ & _ & _ & ->)]; [done|].
  apply (wf_put s W a x); try done. destruct (wf_mcb s W a x Hx) as [H1 H2 H3 [H4 H5] H6].
  rewrite Hq in *. cbn in H4. apply Forall_cons in H6 as [_ H6]. split; cbn; try done. lia.
Qed.

(** A receive takes a message at once, takes none, or sleeps. *)
Lemma pend_begin_cases s port kbuf count timeout at_ r s' :
  ports_wf s -> msgport_pend_begin s port kbuf count timeout at_ = Ok (r, s') ->
  (exists a x v, mcbs s !! a = Some x /\ port_no x = port /\ r = inl v /\ pend_take s a count = Ok (v, s')) \/
  (exists k, s' = set_mk s k /\ (forall v, r = inl v -> v.2 = None) /\
    (kbuf <> NULL -> forall a x, mcbs s !! a = Some x -> port_no x = port -> qh x = [])).
Proof.
  unfold msgport_pend_begin. intros W H.
  assert (s = set_mk s (mk s)) as Hs by (by destruct s). destruct (Z.eqb_spec kbuf NULL).
  { injection H as <- <-. right. exists (mk s). split; [done|]. split; [by intros v [= <-]|done]. }
  destruct (find_byid_spec s W port) as (a & Ha & Hcase). rewrite Ha in H.
  cbn [mbind outcome_bind] in H. destruct (Z.eqb_spec a NULL).
  { injection H as <- <-. right. exists (mk s). split; [done|]. split; [by intros v [= <-]|].
    destruct Hcase as [[_ Hn]|[? _]]; [|done]. intros _ b y Hy E. by destruct (Hn b y Hy). }
  destruct Hcase as [[? _]|(_ & _ & x & Hx & Hno)]; [done|]. rewrite Hx in H.
  cbn [from_opt mbind outcome_bind] in H. destruct (bool_decide_reflect (qh x = [])) as [Hq|]; cbn [negb] in H.
  - assert (kbuf <> NULL -> forall a x, mcbs s !! a = Some x -> port_no x = port -> qh x = []) as He.
    { intros _ b y Hy E. assert (b = a) as -> by (apply (wf_uniq s W b a y x); [done|done|left; congruence]). congruence. }
    right. destruct (timeout =? 0).
    + injection H as <- <-. exists (mk s). split; [done|]. split; [by intros v [= <-]|done].
    + apply bind_Ok_inv in H as (k & _ & H). injection H as <- <-. by exists k.
  - apply bind_Ok_inv in H as ([v s1] & Hv & H). injection H as <- <-. left. exists a, x, v. done.
Qed.

Lemma pend_end_cases s a t count r s' :
  ports_wf s -> msgport_pend_end s a t count = Ok (r, s') ->
  (exists k x, mcbs s !! a = Some x /\ pend_take (set_mk s k) a count = Ok (r, s')) \/
  (exists k, s' = set_mk s k /\ r.2 = None).
Proof.
  unfold msgport_pend_end. intros W H. apply bind_Ok_inv in H as ([ret k] & _ & H).
  destruct (negb (ret =? 0)); [injection H as <- <-; right; by exists k|].
  apply bind_Ok_inv in H as (x & Hx & H). apply from_opt_Ok in Hx. destruct (negb _).
  - left. by exists k, x.
  - injection H as <- <-. right. by exists k.
Qed.

(** ** Runs of the message system

    A state carries what was sent through port [no] (the sends that were
    accepted) and what was received from it, oldest first.  Port [no] is not
    destroyed; anything may happen to the threads and to the other ports. *)
Notation world := (mst * list msg_buf * list receipt)%type.

Definition is_port (s : mst) (no a : Z) : bool :=
  match mcbs s !! a with Some x => port_no x =? no | None => false end.

Definition note {A} (b : bool) (o : option A) (l : list A) : list A :=
  match o with Some g => if b then l ++ [g] else l | None => l end.

Inductive port_step (no : Z) : world -> world -> Prop :=
  | st_create s S G t name a rc s' :
      mcbs s !! a = None -> last_port s < 2 ^ 31 - 1 ->
      create_msgport s t name a = Ok (rc, s') -> port_step no (s, S, G) (s', S, G)
  | st_destroy s S G port rc s' :
      port <> no -> msgport_destroy s port = Ok (rc, s') -> port_step no (s, S, G) (s', S, G)
  | st_limit s S G port lim rc s' :
      0 <= lim < 2 ^ 32 -> msgport_set_limit s port lim = Ok (rc, s') ->
      port_step no (s, S, G) (s', S, G)
  | st_send s S G port code data count b rc s' :
      0 <= count -> msgport_send s port code data count b = Ok (rc, s') ->
      port_step no (s, S, G)
        (s', note (port =? no) (if rc =? -1 then None
                                else Some (MkMsg code count (take (Z.to_nat count) data))) S, G)
  | st_recv s S G port kbuf count timeout at_ v s' :
      0 <= count -> msgport_pend_begin s port kbuf count timeout at_ = Ok (inl v, s') ->
      port_step no (s, S, G) (s', S, note (port =? no) (receipt_of count v) G)
  | st_sleep s S G port kbuf count timeout at_ a s' :
      msgport_pend_begin s port kbuf count timeout at_ = Ok (inr a, s') ->
      port_step no (s, S, G) (s', S, G)
  | st_resume s S G a t count v s' :
      0 <= count -> msgport_pend_end s a t count = Ok (v, s') ->
      port_step no (s, S, G) (s', S, note (is_port s no a) (receipt_of count v) G)
  | st_threads s S G k : port_step no (s, S, G) (set_mk s k, S, G).

(** What was received came in the order it was sent; the rest is queued. *)
Definition fifo_inv (no : Z) (w : world) : Prop :=
  let '(s, sent, got) := w in
  ports_wf s /\ exists a x taken, mcbs s !! a = Some x /\ port_no x = no /\
    sent = taken ++ qh x /\ Forall2 taken_as taken got.

(** An update of one port that leaves the queue of the others alone. *)
Lemma fifo_other no s S G b y y' :
  fifo_inv no (s, S, G) -> mcbs s !! b = Some y -> port_no y <> no ->
  ports_wf (put_mcb s b y') -> fifo_inv no (put_mcb s b y', S, G).
Proof.
  intros [_ (a & x & tk & Hx & Hno & HS & HG)] Hy Hne W. split; [done|]. exists a, x, tk.
  split; [|done]. cbn. rewrite lookup_insert_ne; [done|]. intros ->. congruence.
Qed.

Lemma fifo_set_mk no s S G k : fifo_inv no (s, S, G) -> fifo_inv no (set_mk s k, S, G).
Proof. intros [W H]. split; [by apply wf_set_mk|exact H]. Qed.

Lemma fifo_create no s S G t name a rc s' :
  fifo_inv no (s, S, G) -> mcbs s !! a = None -> last_port s < 2 ^ 31 - 1 ->
  create_msgport s t name a = Ok (rc, s') -> fifo_inv no (s', S, G).
Proof.
  intros [W (a0 & x & tk & Hx & Hno & HS & HG)] Hf Hl H. split; [by eapply create_wf|].
  exists a0, x, tk. split; [|done]. unfold create_msgport in H.
  destruct (t =? NULL); [by injection H as <- <-|]. apply bind_Ok_inv in H as (p & _ & H).
  destruct (negb (p =? NULL)); [by injection H as <- <-|].
  destruct (a =? NULL); [by injection H as <- <-|]. destruct (_ <=? _); [done|].
  injection H as <- <-. cbn. rewrite lookup_insert_ne; [done|]. congruence.
Qed.

Lemma fifo_destroy no s S G port rc s' :
  fifo_inv no (s, S, G) -> port <> no -> msgport_destroy s port = Ok (rc, s') -> fifo_inv no (s', S, G).
Proof.
  intros [W (a0 & x & tk & Hx & Hno & HS & HG)] Hne H. split; [by eapply destroy_wf|].
  exists a0, x, tk. split; [|done]. unfold msgport_destroy in H.
  destruct (find_byid_spec s W port) as (a & Ha & Hc). rewrite Ha in H. cbn [mbind outcome_bind] in H.
  destruct (Z.eqb_spec a NULL); [by injection H as <- <-|].
  destruct Hc as [[? _]|(_ & _ & y & Hy & Hyn)]; [done|].
  apply bind_Ok_inv in H as (l & _ & H). injection H as <- <-. cbn.
  rewrite lookup_delete_ne; [done|]. congruence.
Qed.

Lemma fifo_limit no s S G port lim rc s' :
  fifo_inv no (s, S, G) -> 0 <= lim < 2 ^ 32 -> msgport_set_limit s port lim = Ok (rc, s') ->
  fifo_inv no (s', S, G).
Proof.
  intros Hi Hl H. pose proof Hi as [W (a0 & x & tk & Hx & Hno & HS & HG)]. unfold msgport_set_limit in H.
  apply bind_Ok_inv in H as (a & _ & H). destruct (a =? NULL); [by injection H as <- <-|].
  apply bind_Ok_inv in H as (y & Hy & H). apply from_opt_Ok in Hy. injection H as <- <-.
  assert (ports_wf (put_mcb s a (MkMcb lim (current y) (port_name y) (qh y) (port_no y)))) as W'.
  { apply (wf_put s W a y); try done. by destruct (wf_mcb s W a y Hy). }
  destruct (decide (port_no y = no)) as [E|]; [|by eapply fifo_other].
  assert (a = a0) as -> by (apply (wf_uniq s W a a0 y x); [done|done|left; congruence]).
  simplify_eq. split; [done|]. eexists a0, _, tk. cbn. rewrite lookup_insert_eq. by split_and!.
Qed.

Lemma fifo_send no s S G port code data count b rc s' :
  fifo_inv no (s, S, G) -> 0 <= count -> msgport_send s port code data count b = Ok (rc, s') ->
  fifo_inv no (s', note (port =? no) (if rc =? -1 then None
                                else Some (MkMsg code count (take (Z.to_nat count) data))) S, G).
Proof.
  intros Hi Hc H. pose proof Hi as [W (a0 & x & tk & Hx & Hno & HS & HG)].
  pose proof (send_wf _ _ _ _ _ _ _ _ W Hc H) as W'.
  destruct (send_effect _ _ _ _ _ _ _ _ W Hc H)
    as [(k & -> & Hrc)|(k & a & y & Hy & <- & -> & _ & _ & _ & _ & ->)].
  - destruct Hrc as [[-> _]|[-> Hn]]; [by apply fifo_set_mk|]. cbn.
    destruct (Z.eqb_spec port no) as [->|]; [by destruct (Hn a0 x Hx)|by apply fifo_set_mk].
  - rewrite (proj2 (Z.eqb_neq count (-1))) by lia. cbn. destruct (Z.eqb_spec (port_no y) no) as [E|E].
    + assert (a = a0) as -> by (apply (wf_uniq s W a a0 y x); [done|done|left; congruence]).
      simplify_eq. split; [done|]. eexists a0, _, tk. cbn. rewrite lookup_insert_eq.
      split_and!; try done. cbn. by rewrite app_assoc.
    + apply fifo_set_mk. eapply fifo_other; [done..|]. by apply wf_unset_mk in W'.
Qed.

Lemma fifo_take no s S G a x count v s' :
  fifo_inv no (s, S, G) -> 0 <= count -> mcbs s !! a = Some x -> pend_take s a count = Ok (v, s') ->
  fifo_inv no (s', S, note (port_no x =? no) (receipt_of count v) G).
Proof.
  intros Hi Hc Hx H. pose proof Hi as [W (a0 & x0 & tk & Hx0 & Hno & HS & HG)].
  pose proof (pend_take_wf _ _ _ _ _ _ W Hc Hx H) as W'.
  destruct (pend_take_effect _ _ _ _ _ _ W Hc Hx H)
    as [(_ & -> & ->)|(m & q & g & Hq & -> & _ & Htk & ->)]; [done|]. cbn.
  destruct (Z.eqb_spec (port_no x) no) as [E|E]; [|by eapply fifo_other].
  assert (a = a0) as -> by (apply (wf_uniq s W a a0 x x0); [done|done|left; congruence]).
  simplify_eq. split; [done|]. eexists a0, _, (tk ++ [m]). cbn. rewrite lookup_insert_eq.
  split_and!; try done; [by rewrite Hq, <- app_assoc|]. apply Forall2_app; [done|]. constructor; [done|constructor].
Qed.

Lemma port_step_fifo no w w' : fifo_inv no w -> port_step no w w' -> fifo_inv no w'.
Proof.
  intros Hi Hst. destruct Hst as [s S G t name a rc s' Hf Hl H|s S G port rc s' Hne H
    |s S G port lim rc s' Hl H|s S G port code data count b rc s' Hc H
    |s S G port kbuf count timeout at_ v s' Hc H|s S G port kbuf count timeout at_ a s' H
    |s S G a t count v s' Hc H|s S G k].
  - by eapply fifo_create.
  - by eapply fifo_destroy.
  - by eapply fifo_limit.
  - by eapply fifo_send.
  - pose proof Hi as [W _]. destruct (pend_begin_cases _ _ _ _ _ _ _ _ W H)
      as [(a & x & v' & Hx & <- & [= <-] & Ht)|(k & -> & Hv & _)]; [by eapply fifo_take|].
    unfold receipt_of. rewrite (Hv v eq_refl). by apply fifo_set_mk.
  - pose proof Hi as [W _]. destruct (pend_begin_cases _ _ _ _ _ _ _ _ W H)
      as [(? & ? & ? & _ & _ & ? & _)|(k & -> & _)]; [done|]. by apply fifo_set_mk.
  - pose proof Hi as [W _]. destruct (pend_end_cases _ _ _ _ _ _ W H) as [(k & x & Hx & Ht)|(k & -> & E)].
    + unfold is_port. rewrite Hx. eapply fifo_take; [by apply fifo_set_mk|exact Hc|exact Hx|exact Ht].
    + unfold receipt_of. rewrite E. by apply fifo_set_mk.
  - by apply fifo_set_mk.
Qed.

(** A port that holds the messages [q] takes another one exactly if they are fewer than
    its limit and there is memory; and hands out the oldest. *)
Definition takes (s : mst) (no lim : Z) (q : list msg_buf) : Prop :=
  (forall code data count b rc s', 0 <= count -> msgport_send s no code data count b = Ok (rc, s') ->
     exists a x, mcbs s' !! a = Some x /\ port_no x = no /\ limit x = lim /\
       (Z.of_nat (length q) < lim /\ count <= MSG_BUFSZ /\ b <> NULL /\ rc = count /\ qh x = q ++ [MkMsg code count (take (Z.to_nat count) data)] \/
        (lim <= Z.of_nat (length q) \/ MSG_BUFSZ < count \/ b = NULL) /\ rc = -1 /\ qh x = q)) /\
  (forall kbuf count timeout at_ r s', kbuf <> NULL -> 0 <= count -> msgport_pend_begin s no kbuf count timeout at_ = Ok (r, s') ->
     exists a x, mcbs s' !! a = Some x /\ port_no x = no /\ limit x = lim /\
       match q with
       | [] => qh x = [] /\ forall v, r = inl v -> v.2 = None
       | m :: q' => qh x = q' /\ exists v g, r = inl v /\ receipt_of count v = Some g /\ taken_as m g
       end).

Lemma send_takes s no a x code data count b rc s' : ports_wf s -> mcbs s !! a = Some x -> port_no x = no -> 0 <= count ->
  msgport_send s no code data count b = Ok (rc, s') -> exists a' x', mcbs s' !! a' = Some x' /\ port_no x' = no /\ limit x' = limit x /\
    (Z.of_nat (length (qh x)) < limit x /\ count <= MSG_BUFSZ /\ b <> NULL /\ rc = count /\ qh x' = qh x ++ [MkMsg code count (take (Z.to_nat count) data)] \/
     (limit x <= Z.of_nat (length (qh x)) \/ MSG_BUFSZ < count \/ b = NULL) /\ rc = -1 /\ qh x' = qh x).
Proof.
  intros W Hx Hno Hc H. destruct (ok_current _ _ (wf_mcb s W a x Hx)) as [Hcur _].
  assert (forall b y, mcbs s !! b = Some y -> port_no y = no -> b = a) as Hu by (intros c y Hy E; apply (wf_uniq s W c a y x); [done|done|left; congruence]).
  destruct (send_effect _ _ _ _ _ _ _ _ W Hc H) as [(k & -> & [[-> Hr]|[_ Hn]])|(k & c & y & Hy & Hyn & -> & Hsz & _ & Hlim & Hb & ->)].
  - exists a, x. split_and!; try done. right. split; [|done]. destruct Hr as [?|[?|(c & y & Hy & E & Hl)]]; [auto..|]. left.
    rewrite (Hu c y Hy E) in Hy. rewrite Hx in Hy. injection Hy as <-. lia.
  - by destruct (Hn a x Hx).
  - pose proof (Hu c y Hy Hyn) as ->. rewrite Hx in Hy. injection Hy as <-. eexists a, _. cbn. rewrite lookup_insert_eq. split_and!; try done. left.
    split_and!; try done. lia.
Qed.

Lemma port_takes s no a x : ports_wf s -> mcbs s !! a = Some x -> port_no x = no -> takes s no (limit x) (qh x).
Proof.
  intros W Hx Hno. split; [intros; by eapply send_takes|]. intros kbuf count timeout at_ r s' Hk Hc H.
  destruct (pend_begin_cases _ _ _ _ _ _ _ _ W H) as [(c & y & v & Hy & E & -> & Ht)|(k & -> & Hv & He)].
  - assert (c = a) as -> by (apply (wf_uniq s W c a y x); [done|done|left; congruence]). rewrite Hx in Hy. injection Hy as <-.
    destruct (pend_take_effect _ _ _ _ _ _ W Hc Hx Ht) as [(Hq & -> & Hr)|(m & q & g & Hq & Hg & _ & Htk & ->)]; rewrite Hq.
    + exists a, x. split_and!; try done. intros v' [= <-]. unfold receipt_of in Hr. by destruct (v.2).
    + eexists a, _. cbn. rewrite lookup_insert_eq. split_and!; try done. by exists v, g.
  - exists a, x. rewrite (He Hk a x Hx Hno). by split_and!.
Qed.

(** C11: a message port is a bounded FIFO.  Along every run of creations, destructions of
    other ports, changes of limits, sends and receives, from a table in which port [no]
    is empty, the messages received from the port are, in order, the messages whose send
    was accepted: each with its code and as many of its bytes as the receiver's buffer has
    room for, the number of which is the result; the others are queued in order, and
    [current] is their number.  A send of at most 8092 bytes is accepted exactly if fewer
    messages than the limit are queued and there is memory, and returns -1 otherwise; a
    receive gets the oldest queued message, or none if there is none. *)
Theorem msgport_fifo no s0 s sent got a0 x0 :
  ports_wf s0 -> mcbs s0 !! a0 = Some x0 -> port_no x0 = no -> qh x0 = [] ->
  reach (port_step no) (s0, [], []) (s, sent, got) ->
  exists a x taken, mcbs s !! a = Some x /\ port_no x = no /\ sent = taken ++ qh x /\
    Forall2 taken_as taken got /\ current x = Z.of_nat (length (qh x)) /\ takes s no (limit x) (qh x).
Proof.
  intros W Hx Hno Hq Hr. assert (fifo_inv no (s, sent, got)) as [W' (a & x & tk & Ha & Hn & HS & HG)].
  { eapply reach_invariant; [|intros w w' Hw Hst; by eapply port_step_fifo|exact Hr].
    split; [done|]. exists a0, x0, []. rewrite Hq. by split_and!. }
  exists a, x, tk. split_and!; try done; [apply (ok_current _ _ (wf_mcb s W' a x Ha))|by eapply port_takes].
Qed.

Lemma port_step_wf no w w' : ports_wf w.1.1 -> port_step no w w' -> ports_wf w'.1.1.
Proof.
  intros W Hst. destruct Hst as [s S G t name a rc s' Hf Hl H|s S G port rc s' Hne H
    |s S G port lim rc s' Hl H|s S G port code data count b rc s' Hc H
    |s S G port kbuf count timeout at_ v s' Hc H|s S G port kbuf count timeout at_ a s' H
    |s S G a t count v s' Hc H|s S G k]; cbn [fst] in *.
  - by eapply create_wf.
  - by eapply destroy_wf.
  - unfold msgport_set_limit in H. apply bind_Ok_inv in H as (a & _ & H).
    destruct (a =? NULL); [by injection H as <- <-|]. apply bind_Ok_inv in H as (y & Hy & H).
    apply from_opt_Ok in Hy. injection H as <- <-. apply (wf_put s W a y); try done.
    by destruct (wf_mcb s W a y Hy).
  - by eapply send_wf.
  - destruct (pend_begin_cases _ _ _ _ _ _ _ _ W H)
      as [(a & x & v' & Hx & _ & _ & Ht)|(k & -> & _)]; [by eapply pend_take_wf|by apply wf_set_mk].
  - destruct (pend_begin_cases _ _ _ _ _ _ _ _ W H)
      as [(? & ? & ? & _ & _ & ? & _)|(k & -> & _)]; [done|by apply wf_set_mk].
  - destruct (pend_end_cases _ _ _ _ _ _ W H) as [(k & x & Hx & Ht)|(k & -> & _)]; [|by apply wf_set_mk].
    eapply pend_take_wf; [by apply wf_set_mk|exact Hc|exact Hx|exact Ht].
  - by apply wf_set_mk.
Qed.

(** The table after thread_msg_init. *)
Definition no_ports (k : kst) : mst := thread_msg_init (MkM k ∅ [] 0 []).

Lemma no_ports_wf k : ports_wf (no_ports k).
Proof.
  split; cbn; try done.
  - constructor.
  - intros a. rewrite lookup_empty. split; [by intros ?%elem_of_nil|by intros [? ?]].
  - apply not_elem_of_nil.
Qed.

(** from the initial table, along every run of port operations, live ports have
    distinct numbers and names, and a lookup by number or by name ends without a
    fault and finds a port exactly when there is one. *)
Theorem port_lookup_unique k s S G no name :
  reach (port_step (-1)) (no_ports k, [], []) (s, S, G) ->
  (forall a b x y, mcbs s !! a = Some x -> mcbs s !! b = Some y ->
    port_no x = port_no y \/ port_name x = port_name y -> a = b) /\
  (exists r, find_msgport_byid s no = Ok r /\
    (r = NULL <-> forall a x, mcbs s !! a = Some x -> port_no x <> no)) /\
  (exists r, find_msgport_byname s name = Ok r /\
    (r = NULL <-> forall a x, mcbs s !! a = Some x -> port_name x <> name)).
Proof.
  intros Hr. assert (ports_wf s) as W.
  { change s with (s, S, G).1.1. eapply (reach_invariant _ (fun w => ports_wf w.1.1));
      [|intros w w' Hw Hst; by eapply port_step_wf|exact Hr]. apply no_ports_wf. }
  split; [by apply wf_uniq|]. split.
  - destruct (find_byid_spec s W no) as (r & Hr' & Hc). exists r. split; [done|].
    destruct Hc as [[-> Hn]|(Hn & _ & x & Hx & Hp)]; [done|]. split; [done|].
    intros Hall. by destruct (Hall r x Hx).
  - destruct (find_byname_spec s W name) as (r & Hr' & Hc). exists r. split; [done|].
    destruct Hc as [[-> Hn]|(Hn & _ & x & Hx & Hp)]; [done|]. split; [done|].
    intros Hall. by destruct (Hall r x Hx).
Qed.

(** One port named p is made, a message sent to it, a part of it received. *)
Definition one_port : mst := MkM (thread_waitq_init (sample [200]) 64)
  {[64 := MkMcb MSGPORT_LIMIT_NUM 0 [112] [] 18]} [64] 19 (replicate 8 (-1)).

Lemma one_port_made : create_msgport (no_ports (sample [200])) 200 [112] 64 = Ok (18, one_port).
Proof. reflexivity. Qed.

Lemma port_lookup_unique_witness :
  exists r, find_msgport_byname one_port [112] = Ok r /\
    (r = NULL <-> forall a x, mcbs one_port !! a = Some x -> port_name x <> [112]).
Proof.
  refine (proj2 (proj2 (port_lookup_unique (sample [200]) one_port [] [] 18 [112] _))).
  eapply reach_step; [apply reach_refl|].
  apply (st_create _ _ _ _ 200 [112] 64 18); [reflexivity|reflexivity|exact one_port_made].
Defined.

Definition sent_one : mst :=
  put_mcb one_port 64 (MkMcb MSGPORT_LIMIT_NUM 1 [112] [MkMsg 7 3 [1; 2; 3]] 18).

Lemma msgport_fifo_witness :
  exists a x taken, mcbs one_port !! a = Some x /\ port_no x = 18 /\
    [MkMsg 7 3 [1; 2; 3]] = taken ++ qh x /\ Forall2 taken_as taken [MkReceipt 2 2 7 [1; 2]] /\
    current x = Z.of_nat (length (qh x)) /\ takes one_port 18 (limit x) (qh x).
Proof.
  apply (msgport_fifo 18 one_port one_port _ _ 64 (MkMcb MSGPORT_LIMIT_NUM 0 [112] [] 18));
    [|reflexivity|reflexivity|reflexivity|].
  - by apply (create_wf _ (no_ports_wf (sample [200])) 200 [112] 64 18 one_port).
  - eapply reach_step; [eapply reach_step; [apply reach_refl|]|].
    + apply (st_send 18 one_port [] [] 18 7 [1; 2; 3] 3 4096 3 sent_one); [done|reflexivity].
    + apply (st_recv 18 sent_one _ [] 18 8192 2 0 0 (2, Some (7, [1; 2]))); [done|reflexivity].
Defined.

(** connect_msgport does not test what the lookup by name returned. *)
Lemma connect_msgport_absent s pname :
  ports_wf s -> (forall a x, mcbs s !! a = Some x -> port_name x <> pname) ->
  connect_msgport s pname = Fault.
Proof.
  intros W Hn. unfold connect_msgport. destruct (find_byname_spec s W pname) as (r & -> & Hc).
  destruct Hc as [[-> _]|(_ & _ & x & Hx & Hp)]; [|by destruct (Hn r x Hx)].
  cbn [mbind outcome_bind]. destruct (mcbs s !! NULL) as [x|] eqn:E; [|done].
  destruct (wf_null s W). apply (wf_live s W). eauto.
Qed.

(** A thread that slept on a port reads its freed control block when the port was
    destroyed meanwhile. *)
Lemma pend_after_destroy_faults s a t count y :
  mcbs s !! a = None -> tcbs (mk s) !! t = Some y -> timeout_signaled y = 0 ->
  msgport_pend_end s a t count = Fault.
Proof.
  intros Ha Hy Hs. unfold msgport_pend_end, sleep_on_end, getT. rewrite Hy.
  cbn [from_opt mbind outcome_bind]. rewrite Hs. cbn [Z.eqb mbind outcome_bind negb mcbs set_mk].
  by rewrite Ha.
Qed.

(** The error constants are negative: a bad public port id is answered with 22,
    which is a valid port number. *)
Example bad_public_port_is_22 s : get_public_port_begin s 8 0 0 0 = Ok (inl 22, s).
Proof. reflexivity. Qed.
