(* ===== verification/Signal.v ===== *)
(** * Signals (core/ipc/signal.c, cpu/i386/kernel/signal.c)

    The signal state of each thread is a set of pending signals, a mask (32-bit
    words; signal n is bit n-1) and the table of its 32 handlers.  Handler 0 is
    SIG_DFL and 1 is SIG_IGN.  The user stack frame process_signal builds is
    recorded as an event: the signal, its handler and the saved mask. *)

From S2P Require Import Prelude Thread.

Definition NSIG : Z := 32.
Definition SIGKILL : Z := 9.
Definition SIGCHLD : Z := 17.
Definition SIGSTOP : Z := 19.
Definition SIG_DFL : Z := 0.
Definition SIG_IGN : Z := 1.
Definition SANOMASK : Z := 2 ^ 30.
Definition SAONESHOT : Z := 2 ^ 31.

Definition sigisvalid (signo : Z) : bool := (0 <? signo) && (signo <=? NSIG).

Record sigaction := MkSa { sa_flags : Z; sa_handler : Z; sa_mask : Z; restorer : Z }.

Record sigst := MkSig { signal_bits : Z; signal_mask : Z; sigactions : list sigaction }.

Record gst := MkG { gk : kst; sigs : gmap Z sigst; sig_procs : Z }.

Definition put_sig (g : gst) (t : Z) (x : sigst) : gst := MkG (gk g) (<[t := x]> (sigs g)) (sig_procs g).

Definition sigbit (signo : Z) : Z := Z.shiftl 1 (signo - 1).

Definition set_bits (x : sigst) (b : Z) : sigst := MkSig b (signal_mask x) (sigactions x).
Definition set_mask (x : sigst) (b : Z) : sigst := MkSig (signal_bits x) b (sigactions x).
Definition set_acts (x : sigst) (l : list sigaction) : sigst := MkSig (signal_bits x) (signal_mask x) l.

Definition contain (bits a : Z) : bool := negb (Z.land bits (sigbit a) =? 0).
Definition sig_invalid (bits : Z) : bool := contain bits SIGKILL || contain bits SIGSTOP.
Definition sigmaskempty (x : sigst) : bool := signal_bits x =? 0.
Definition sigclear (x : sigst) : sigst := MkSig 0 0 (sigactions x).
Definition maskedsig (x : sigst) : Z := Z.land (signal_bits x) (signal_mask x).
Definition unmaskedsig (x : sigst) : Z := Z.ldiff (signal_bits x) (signal_mask x).

(** The thread is made ready, whatever it waits for. *)
Definition sigaddset (g : gst) (t signo : Z) : outcome (Z * gst) :=
  _ ← kassert (negb (t =? NIL_THREAD));
  if negb (sigisvalid signo) then Ok (EINVAL, g)
  else
    x ← from_opt (sigs g !! t);
    let g := put_sig g t (set_bits x (Z.lor (signal_bits x) (sigbit signo))) in
    '(_, k) ← thread_ready (gk g) t;
    Ok (0, MkG k (sigs g) (sig_procs g)).

Definition sigmaskset (x : sigst) (signo : Z) : Z * sigst :=
  if negb (sigisvalid signo) then (EINVAL, x)
  else (0, set_mask x (Z.lor (signal_mask x) (sigbit signo))).
Definition sigmaskdel (x : sigst) (signo : Z) : Z * sigst :=
  if negb (sigisvalid signo) then (EINVAL, x)
  else (0, set_mask x (Z.ldiff (signal_mask x) (sigbit signo))).
Definition sigdelset (x : sigst) (signo : Z) : Z * sigst :=
  if negb (sigisvalid signo) then (EINVAL, x)
  else (0, set_bits x (Z.ldiff (signal_bits x) (sigbit signo))).

Definition sendsig (g : gst) (t signo : Z) : outcome gst :=
  '(_, g) ← sigaddset g t signo;
  Ok (MkG (gk g) (sigs g) (s32 (sig_procs g + 1))).

(** The lowest signal of a set, 0 if there is none. *)
Fixpoint signo_loop (n : nat) (i sig : Z) : Z :=
  match n with
  | O => 0
  | S n => if negb (Z.land sig 1 =? 0) then i else signo_loop n (i + 1) (Z.shiftr sig 1)
  end.
Definition signo (sig : Z) : Z := signo_loop (Z.to_nat NSIG) 1 sig.

Definition sigrecv (x : sigst) : Z := signo (unmaskedsig x).

(** EINVAL, returned as a bool, is true. *)
Definition sigmasked (x : sigst) (signo : Z) : bool :=
  if negb (sigisvalid signo) then true
  else negb (Z.land (signal_mask x) (sigbit signo) =? 0).

(** ** Default actions *)

Inductive action := Ignore | Terminate | Coredump | Sigwakeup | Proc_stop.
#[global] Instance action_eq_dec : EqDecision action.
Proof. solve_decision. Defined.

(** The table has 32 entries, 30 of them initialised. *)
Definition sigdefaulthandler : list (option action) :=
  (Some <$> [Ignore; Terminate; Terminate; Coredump; Coredump; Coredump; Coredump; Ignore;
    Coredump; Terminate; Terminate; Coredump; Terminate; Terminate; Sigwakeup; Terminate;
    Terminate; Ignore; Ignore; Proc_stop; Proc_stop; Proc_stop; Proc_stop; Terminate;
    Ignore; Coredump; Coredump; Terminate; Ignore; Ignore]) ++ [None; None].

Definition sigisignore (signo : Z) : outcome bool :=
  a ← aget sigdefaulthandler signo; Ok (bool_decide (a = Some Ignore)).

Definition sigdefault_ponit (signo : Z) : outcome (option action) :=
  if negb (sigisvalid signo) then Ok None else aget sigdefaulthandler signo.

(** ** Setting handlers, on the current thread *)

Definition checkpending (x : sigst) (sa : sigaction) (signo : Z) : outcome sigst :=
  if sa_handler sa =? SIG_IGN then
    if signo =? SIGCHLD then Ok x else Ok (sigdelset x signo).2
  else if sa_handler sa =? SIG_DFL then
    ign ← sigisignore signo;
    if negb (ign : bool) then Ok x else Ok (sigdelset x signo).2
  else Ok x.

(** The mask of the thread is emptied too. *)
Definition signal_setup (x : sigst) (signo func fuc2 : Z) : outcome (Z * sigst) :=
  if negb (sigisvalid signo) || (signo =? SIGKILL) || (signo =? SIGSTOP) then Ok (EINVAL, x)
  else
    sa ← aget (sigactions x) signo;
    let sa' := MkSa (Z.lor SAONESHOT SANOMASK) func 0 fuc2 in
    l ← aset (sigactions x) signo sa';
    x ← checkpending (MkSig (signal_bits x) 0 l) sa' signo;
    Ok (sa_handler sa, x).

(** The result, what is stored through old_act and the caller's new_act. *)
Definition sigaction_setup (x : sigst) (signo : Z) (new_act : option sigaction) (old_act : bool)
    : outcome (Z * option sigaction * option sigaction * sigst) :=
  if negb (sigisvalid signo) || (signo =? SIGKILL) || (signo =? SIGSTOP)
  then Ok (EINVAL, None, new_act, x)
  else
    sa ← aget (sigactions x) signo;
    let old := if old_act then Some sa else None in
    match new_act with
    | None => Ok (0, old, None, x)
    | Some new =>
        l ← aset (sigactions x) signo new;
        let new' := if negb (Z.land (sa_flags new) SANOMASK =? 0)
                    then MkSa (sa_flags new) (sa_handler new) 0 (restorer new) else new in
        x ← checkpending (set_acts x l) new signo;
        Ok (0, old, Some new', x)
    end.

(** ** Delivery (process_signal) *)

(** A default action run, the children reaped, or a frame built for a handler. *)
Inductive event := Default (signo : Z) (a : action) | Reap | Frame (signo entry mask : Z).

(** How process_signal ends: it returns, or a default action ends the thread
    (do_stop_current_thread, which does not come back). *)
Inductive sigend := Returns (ret : Z) | Exits (signo : Z).

(** [user]: the thread was interrupted in user mode. *)
Fixpoint process_loop (n : nat) (x : sigst) (user : bool) (ret : Z) (evs : list event)
    : outcome (sigend * list event * sigst) :=
  match n with
  | O => OutOfFuel
  | S n =>
      let signo := sigrecv x in
      if signo <=? 0 then Ok (Returns ret, evs, x)
      else
        let x := (sigdelset x signo).2 in
        if sigmasked x signo && negb (signo =? SIGKILL) && negb (signo =? SIGSTOP)
        then process_loop n x user ret evs
        else
          sa ← aget (sigactions x) signo;
          if sa_handler sa =? SIG_DFL then
            d ← aget sigdefaulthandler signo;
            a ← from_opt d;
            let evs := evs ++ [Default signo a] in
            if decide (a = Ignore) then process_loop n x user 0 evs else Ok (Exits signo, evs, x)
          else if negb user then Ok (Returns ret, evs, x)
          else if sa_handler sa =? SIG_IGN then
            if negb (signo =? SIGCHLD) then process_loop n x user ret evs
            else process_loop n x user ret (evs ++ [Reap])
          else
            let sa' := if negb (Z.land (sa_flags sa) SAONESHOT =? 0)
                       then MkSa (sa_flags sa) SIG_DFL (sa_mask sa) (restorer sa) else sa in
            l ← aset (sigactions x) signo sa';
            Ok (Returns 1, evs ++ [Frame signo (sa_handler sa) (signal_mask x)], set_acts x l)
  end.

(** Each turn takes a pending signal: 33 turns are enough. *)
Definition process_signal (k : kst) (x : sigst) (t : Z) (user : bool)
    : outcome (sigend * list event * sigst) :=
  _ ← kassert (negb (t =? NIL_THREAD));
  if t =? idle_task k then Ok (Returns (-1), [], x)
  else if unmaskedsig x =? 0 then Ok (Returns (-1), [], x)
  else process_loop 33 x user (-1) [].

(** ** Bits *)

Lemma testbit_one j i : 0 <= j -> 0 <= i -> Z.testbit (Z.shiftl 1 j) i = bool_decide (i = j).
Proof.
  intros Hj Hi. rewrite Z.shiftl_1_l, Z.pow2_bits_eqb by done.
  destruct (Z.eqb_spec j i); case_bool_decide; done.
Qed.

Lemma land_bit a j : 0 <= j -> (Z.land a (Z.shiftl 1 j) =? 0) = negb (Z.testbit a j).
Proof.
  intros Hj. destruct (Z.testbit a j) eqn:E; cbn.
  - apply Z.eqb_neq. intros H. apply (f_equal (fun z => Z.testbit z j)) in H.
    rewrite Z.land_spec, testbit_one, Z.bits_0, bool_decide_eq_true_2, E in H by done. done.
  - apply Z.eqb_eq, Z.bits_inj'. intros i Hi. rewrite Z.land_spec, testbit_one, Z.bits_0 by done.
    case_bool_decide; [subst; by rewrite E|by rewrite andb_false_r].
Qed.

Lemma signo_loop_spec n i sig :
  (signo_loop n i sig = 0 /\ forall j, 0 <= j < Z.of_nat n -> Z.testbit sig j = false) \/
  (i <= signo_loop n i sig < i + Z.of_nat n /\ Z.testbit sig (signo_loop n i sig - i) = true /\
   forall j, 0 <= j < signo_loop n i sig - i -> Z.testbit sig j = false).
Proof.
  revert i sig. induction n as [|n IH]; intros i sig; [left; split; [done|lia]|]. cbn [signo_loop].
  change (Z.land sig 1) with (Z.land sig (Z.shiftl 1 0)). rewrite land_bit by lia. rewrite negb_involutive.
  destruct (Z.testbit sig 0) eqn:E.
  - right. rewrite Z.sub_diag. split; [lia|]. split; [done|lia].
  - assert (forall j, 0 <= j -> Z.testbit (Z.shiftr sig 1) j = Z.testbit sig (j + 1)) as Hs
      by (intros; by apply Z.shiftr_spec).
    destruct (IH (i + 1) (Z.shiftr sig 1)) as [[-> Hn]|(Hr & Ht & Hn)]; [left|right].
    + split; [done|]. intros j Hj. destruct (decide (j = 0)) as [->|]; [done|].
      replace j with (j - 1 + 1) by lia. rewrite <- Hs by lia. apply Hn. lia.
    + set (r := signo_loop n (i + 1) (Z.shiftr sig 1)) in *. split; [lia|]. split.
      * rewrite Hs in Ht by lia. by replace (r - i) with (r - (i + 1) + 1) by lia.
      * intros j Hj. destruct (decide (j = 0)) as [->|]; [done|].
        replace j with (j - 1 + 1) by lia. rewrite <- Hs by lia. apply Hn. lia.
Qed.

(** Signal [n] is pending and not masked. *)
Definition deliverable (x : sigst) (n : Z) : Prop :=
  1 <= n <= NSIG /\ Z.testbit (signal_bits x) (n - 1) = true /\ Z.testbit (signal_mask x) (n - 1) = false.

Lemma sigrecv_spec x :
  (sigrecv x = 0 /\ forall n, ~ deliverable x n) \/
  (deliverable x (sigrecv x) /\ forall n, deliverable x n -> sigrecv x <= n).
Proof.
  assert (forall n, 1 <= n -> Z.testbit (unmaskedsig x) (n - 1) = true <->
    Z.testbit (signal_bits x) (n - 1) = true /\ Z.testbit (signal_mask x) (n - 1) = false) as Hu.
  { intros n Hn. unfold unmaskedsig. rewrite Z.ldiff_spec, andb_true_iff, negb_true_iff. done. }
  unfold sigrecv, signo, NSIG.
  destruct (signo_loop_spec (Z.to_nat 32) 1 (unmaskedsig x)) as [[-> Hn]|(Hr & Ht & Hn)]; [left|right].
  - split; [done|]. intros n (Hr & Hb & Hm). unfold NSIG in Hr. specialize (Hn (n - 1) ltac:(lia)).
    rewrite (proj2 (Hu n ltac:(lia))) in Hn; done.
  - set (r := signo_loop _ _ _) in *. split; [split; [unfold NSIG; lia|by apply Hu; [lia|]]|].
    intros n (Hr' & Hb & Hm). destruct (decide (r <= n)); [done|]. exfalso.
    specialize (Hn (n - 1) ltac:(lia)). rewrite (proj2 (Hu n ltac:(lia))) in Hn; done.
Qed.

Lemma sigdelset_deliverable x n m :
  1 <= n <= NSIG -> deliverable (sigdelset x n).2 m <-> deliverable x m /\ m <> n.
Proof.
  intros Hn. unfold sigdelset, sigisvalid, NSIG in *.
  rewrite (proj2 (Z.ltb_lt 0 n)), (proj2 (Z.leb_le n 32)) by lia. cbn [negb andb snd].
  unfold deliverable, NSIG. cbn. split.
  - intros (Hm & Hb & Hk). rewrite Z.ldiff_spec in Hb. apply andb_true_iff in Hb as [Hb Hd].
    split; [done|]. intros ->. unfold sigbit in Hd. rewrite testbit_one in Hd by lia.
    by rewrite bool_decide_eq_true_2 in Hd.
  - intros [(Hm & Hb & Hk) Hne]. split; [done|]. split; [|done].
    rewrite Z.ldiff_spec, Hb. unfold sigbit. rewrite testbit_one by lia.
    by rewrite bool_decide_eq_false_2 by lia.
Qed.

Lemma sigdelset_bits x n j :
  1 <= n <= NSIG -> 0 <= j -> j <> n - 1 ->
  Z.testbit (signal_bits (sigdelset x n).2) j = Z.testbit (signal_bits x) j.
Proof.
  intros Hn Hj Hne. unfold sigdelset, sigisvalid, NSIG in *.
  rewrite (proj2 (Z.ltb_lt 0 n)), (proj2 (Z.leb_le n 32)) by lia. cbn [negb andb snd signal_bits set_bits].
  rewrite Z.ldiff_spec. unfold sigbit. rewrite testbit_one by lia.
  rewrite bool_decide_eq_false_2 by lia. by rewrite andb_true_r.
Qed.

Lemma sigdelset_same x n :
  signal_mask (sigdelset x n).2 = signal_mask x /\ sigactions (sigdelset x n).2 = sigactions x.
Proof. unfold sigdelset. by destruct (negb _). Qed.

Lemma deliverable_not_masked x n : deliverable x n -> sigmasked (sigdelset x n).2 n = false.
Proof.
  intros (Hn & _ & Hm). unfold sigmasked, sigisvalid. unfold NSIG in *.
  rewrite (proj2 (Z.ltb_lt 0 n)), (proj2 (Z.leb_le n 32)) by lia. cbn [negb andb].
  rewrite (proj1 (sigdelset_same x n)). unfold sigbit. rewrite land_bit by lia.
  by rewrite Hm.
Qed.

(** ** What process_signal does with the pending signals *)

Definition ev_signo (ev : event) : Z :=
  match ev with Default n _ => n | Reap => SIGCHLD | Frame n _ _ => n end.

(** From [x], the events [evs] and the end [e] with state [x'] concern unmasked
    pending signals only; what is masked stays pending; and when no handler was
    entered and the thread goes on in user mode nothing deliverable is left. *)
Record served (user : bool) (x : sigst) (e : sigend) (evs : list event) (x' : sigst) : Prop := {
  sv_mask : signal_mask x' = signal_mask x;
  sv_masked : forall j, 0 <= j -> Z.testbit (signal_mask x) j = true ->
    Z.testbit (signal_bits x') j = Z.testbit (signal_bits x) j;
  sv_sub : forall n, deliverable x' n -> deliverable x n;
  sv_evs : forall ev, ev ∈ evs -> deliverable x (ev_signo ev);
  sv_exit : forall n, e = Exits n -> deliverable x n;
  sv_all : forall r, e = Returns r -> r <> 1 -> user = true -> forall n, ~ deliverable x' n }.

Lemma served_taken user x n e evs evs0 x' :
  deliverable x n -> (forall ev, ev ∈ evs0 -> ev_signo ev = n) ->
  served user (sigdelset x n).2 e evs x' -> served user x e (evs0 ++ evs) x'.
Proof.
  intros Hn H0 [H1 H2 H3 H4 H5 H6]. pose proof Hn as (Hr & Hb & Hm).
  destruct (sigdelset_same x n) as [Hmask _].
  assert (forall m, deliverable (sigdelset x n).2 m -> deliverable x m) as Hd
    by (intros m Hd; by apply (sigdelset_deliverable x n m Hr)).
  split; eauto; [congruence| |].
  - intros j Hj Hjm. rewrite H2 by (done || congruence). apply sigdelset_bits; [done|done|].
    intros ->. congruence.
  - intros ev Hev. apply elem_of_app in Hev as [Hev|Hev]; [by rewrite (H0 ev Hev)|eauto].
Qed.

Lemma served_end user x n e evs x' :
  deliverable x n -> signal_mask x' = signal_mask x -> signal_bits x' = signal_bits (sigdelset x n).2 ->
  (forall ev, ev ∈ evs -> ev_signo ev = n) -> (forall m, e = Exits m -> m = n) ->
  (forall r, e = Returns r -> r <> 1 -> user = false) -> served user x e evs x'.
Proof.
  intros Hn Hm Hb Hev He Hr. pose proof Hn as (Hr1 & _ & Hmn). split; try done.
  - intros j Hj Hjm. rewrite Hb. apply sigdelset_bits; [done|done|]. intros ->. congruence.
  - intros m (Hm1 & Hm2 & Hm3). apply (sigdelset_deliverable x n m Hr1).
    split; [done|]. split; [by rewrite <- Hb|]. rewrite (proj1 (sigdelset_same x n)). congruence.
  - intros ev Hin. by rewrite (Hev ev Hin).
  - intros m ->. by rewrite (He m eq_refl).
  - intros r -> Hne Hu. by rewrite (Hr r eq_refl Hne) in Hu.
Qed.

Lemma sole {A} (P : A -> Prop) a : P a -> forall x, x ∈ [a] -> P x.
Proof. by intros Ha x ->%list_elem_of_singleton. Qed.

Lemma default_listed r : 1 <= r < 30 -> exists a, aget sigdefaulthandler r = Ok (Some a).
Proof.
  intros Hr. unfold aget. rewrite (proj2 (Z.leb_le 0 r)) by lia.
  assert (Forall (fun i => exists a, sigdefaulthandler !! i = Some (Some a)) (seq 0 30)) as H
    by (repeat constructor; by eexists).
  rewrite Forall_forall in H. destruct (H (Z.to_nat r)) as [a ->]; [apply elem_of_seq; lia|].
  by exists a.
Qed.

Lemma process_loop_ok n x user ret evs lo :
  length (sigactions x) = 32%nat -> (forall m, deliverable x m -> lo < m < 30) ->
  0 <= lo <= 32 -> 33 - lo <= Z.of_nat n -> ret <> 1 ->
  exists e new x', process_loop n x user ret evs = Ok (e, evs ++ new, x') /\ served user x e new x'.
Proof.
  revert x ret evs lo. induction n as [|n IH]; intros x ret evs lo Hlen Hlo Hr Hn Hret; [lia|].
  cbn [process_loop]. destruct (sigrecv_spec x) as [[-> Hnone]|[Hd Hmin]].
  { exists (Returns ret), [], x. rewrite app_nil_r. split; [done|]. split; try done.
    intros ev Hev. by apply elem_of_nil in Hev. }
  set (r := sigrecv x) in *. pose proof (Hlo r Hd) as Hrr. pose proof Hd as (Hr1 & _ & _).
  rewrite (proj2 (Z.leb_gt r 0)) by lia. rewrite deliverable_not_masked by done. cbn [andb].
  destruct (sigdelset_same x r) as [Hm1 Ha1]. set (x1 := (sigdelset x r).2) in *.
  assert (forall ret evs evs0, ret <> 1 -> (forall ev, ev ∈ evs0 -> ev_signo ev = r) ->
    exists e new x', process_loop n x1 user ret (evs ++ evs0) = Ok (e, evs ++ new, x')
    /\ served user x e new x') as Hgo.
  { intros ret' evs' evs0 Hret' H0. destruct (IH x1 ret' (evs' ++ evs0) r) as (e & new & x' & He & Hs);
      [congruence| |lia|lia|done|].
    - intros m Hm. apply (sigdelset_deliverable x r m Hr1) in Hm as [Hm Hne].
      pose proof (Hlo m Hm). pose proof (Hmin m Hm). lia.
    - exists e, (evs0 ++ new), x'. rewrite He, app_assoc. split; [done|]. by apply (served_taken user x r). }
  destruct (lookup_lt_is_Some_2 (sigactions x1) (Z.to_nat r)) as [sa Hsa]; [rewrite Ha1; lia|].
  assert (aget (sigactions x1) r = Ok sa) as -> by (by apply aget_Ok; split; [lia|]).
  cbn [mbind outcome_bind]. destruct (sa_handler sa =? SIG_DFL).
  { destruct (default_listed r ltac:(lia)) as [a ->]. cbn [mbind outcome_bind from_opt].
    destruct (decide (a = Ignore)); [apply Hgo; [lia|by apply sole]|].
    eexists _, _, _. split; [done|]. apply (served_end user x r); try done; [by apply sole|congruence]. }
  destruct user; cbn [negb].
  2: { exists (Returns ret), [], x1. rewrite app_nil_r. split; [done|].
       apply (served_end false x r); try done. intros ev Hev. by apply elem_of_nil in Hev. }
  destruct (sa_handler sa =? SIG_IGN).
  { destruct (Z.eqb_spec r SIGCHLD) as [E|E]; cbn [negb].
    - apply Hgo; [done|]. by apply sole.
    - destruct (Hgo ret evs [] Hret) as (e & new & x' & He & Hs);
        [intros ev Hev; by apply elem_of_nil in Hev|]. rewrite app_nil_r in He. by exists e, new, x'. }
  set (sa' := if negb _ then _ else _). unfold aset.
  rewrite (proj2 (Z.leb_le 0 r)), (proj2 (Z.ltb_lt r (Z.of_nat (length (sigactions x1)))))
    by (rewrite ?Ha1; lia). cbn [andb mbind outcome_bind].
  eexists _, _, _. split; [done|]. apply (served_end true x r); try done; [by apply sole|congruence].
Qed.

(** C40: process_signal ends, and delivers only signals that are pending and not
    masked, for threads that are not the idle one and whose deliverable signals
    are below 30: what is masked stays pending, also SIGKILL and SIGSTOP, which the
    code means to deliver
    masked or not; and when it returns to user mode without having entered a
    handler, no deliverable signal is left. *)
Theorem process_signal_respects_mask k x t user :
  t <> NIL_THREAD -> length (sigactions x) = 32%nat -> 0 <= signal_bits x < 2 ^ 32 ->
  (forall m, deliverable x m -> m < 30) -> t <> idle_task k ->
  exists e evs x', process_signal k x t user = Ok (e, evs, x') /\ served user x e evs x'.
Proof.
  intros Ht Hlen Hb Hm Hi. unfold process_signal.
  rewrite (proj2 (Z.eqb_neq _ _) Ht), (proj2 (Z.eqb_neq _ _) Hi). cbn [kassert negb mbind outcome_bind].
  destruct (Z.eqb_spec (unmaskedsig x) 0) as [E|_].
  - exists (Returns (-1)), [], x. split; [done|]. split; try done.
    + intros ev Hev. by apply elem_of_nil in Hev.
    + intros _ _ _ _ n (Hn & Hn1 & Hn2). apply (f_equal (fun z => Z.testbit z (n - 1))) in E.
      unfold unmaskedsig in E. by rewrite Z.ldiff_spec, Hn1, Hn2, Z.bits_0 in E.
  - destruct (process_loop_ok 33 x user (-1) [] 0) as (e & new & x' & He & Hs); [done| |lia|lia|lia|].
    + intros m Hd. pose proof Hd as [? _]. specialize (Hm m Hd). lia.
    + by exists e, new, x'.
Qed.

(** SIGKILL pending and masked, signal 10 pending with a handler. *)
Definition masked_kill : sigst :=
  MkSig (sigbit 9 + sigbit 10) (sigbit 9) (replicate 10 (MkSa 0 0 0 0) ++ MkSa 0 4096 0 0 :: replicate 21 (MkSa 0 0 0 0)).

Lemma process_signal_respects_mask_witness :
  process_signal (sample [200]) masked_kill 200 true =
    Ok (Returns 1, [Frame 10 4096 (sigbit 9)], set_bits masked_kill (sigbit 9)) /\
  exists e evs x', process_signal (sample [200]) masked_kill 200 true = Ok (e, evs, x') /\
    served true masked_kill e evs x'.
Proof.
  split; [vm_compute; reflexivity|].
  apply (process_signal_respects_mask (sample [200]) masked_kill 200 true); [done|done|done| |done].
  intros m (Hm & Hb & Hk). unfold NSIG in Hm. apply Z.lt_nge. intros Hge.
  assert (m = 30 \/ m = 31 \/ m = 32) as [-> | [-> | ->]] by lia; vm_compute in Hb; discriminate Hb.
Defined.

(** The uninitialised entries are called when signals 30 and 31 have no handler,
    and signal 32, which sigisvalid lets through, is beyond the tables. *)
Example signal_31_calls_null user :
  process_signal (sample [200]) (MkSig (sigbit 31) 0 (replicate 32 (MkSa 0 0 0 0))) 200 user = Fault.
Proof. by destruct user. Qed.

Example signal_32_out_of_range x :
  length (sigactions x) = 32%nat -> signal_setup x 32 4096 0 = Fault.
Proof.
  intros H. unfold signal_setup, aget. cbn [negb sigisvalid orb Z.eqb].
  cbn -[Z.to_nat lookup]. rewrite lookup_ge_None_2 by lia. done.
Qed.
