(* ===== verification/Pbuf.v ===== *)
(** * Packet buffers (net/pbuf.c, sys/net/pbuf.h)

    Buffers are structures at addresses, linked by [next]; their data are bytes of
    a memory shared with the rest of the system (CStr.v).  The address kmalloc
    returned is an argument of the operations that allocate; the bytes of a fresh
    block are 0, fields that are written before they are read start as 0.  kfree
    takes the structure away: a later access to it is a fault.  Loops along a
    chain have the number of structures as fuel. *)

From S2P Require Import Prelude CStr.

Definition PBUF_TRANSPORT_HLEN : Z := 20.
Definition PBUF_IP_HLEN : Z := 20.
Definition PBUF_LINK_HLEN : Z := 14.
Definition PBUF_TRANSPORT : Z := 0.
Definition PBUF_IP : Z := 1.
Definition PBUF_LINK : Z := 2.
Definition PBUF_RAW : Z := 3.
Definition PBUF_RW : Z := 0.
Definition PBUF_RO : Z := 1.
Definition PBUF_POOL : Z := 2.
Definition PBUF_FLAG_RW : Z := 0.
Definition PBUF_FLAG_RO : Z := 1.
Definition PBUF_FLAG_POOL : Z := 2.
Definition PBUF_POOL_SIZE : Z := 128.
Definition PBUF_POOL_BUFSIZE : Z := 128.
Definition ENOSPC : Z := -28.

(** sizeof(struct pbuf). *)
Definition SZ : Z := 24.

Record pbuf := MkPb {
  next : Z; flags : Z; ref : Z; payload : Z; tot_len : Z; len : Z; size : Z }.

Definition set_next (x : pbuf) (v : Z) : pbuf :=
  MkPb v (flags x) (ref x) (payload x) (tot_len x) (len x) (size x).
Definition set_ref (x : pbuf) (v : Z) : pbuf :=
  MkPb (next x) (flags x) v (payload x) (tot_len x) (len x) (size x).
Definition set_tot (x : pbuf) (v : Z) : pbuf :=
  MkPb (next x) (flags x) (ref x) (payload x) v (len x) (size x).
Definition set_len (x : pbuf) (v : Z) : pbuf :=
  MkPb (next x) (flags x) (ref x) (payload x) (tot_len x) v (size x).

Record stats_pbuf := MkStats {
  avail : Z; used : Z; smax : Z; serr : Z; alloc_locked : Z; refresh_locked : Z; rwbufs : Z }.

Notation store := (gmap Z pbuf).

Record nst := MkN {
  pbs : store;
  nmem : cmem;
  pbuf_pool : Z;
  alloc_cache : Z;
  free_cache : Z;
  free_lock : Z;
  alloc_lock : Z;
  stat : stats_pbuf }.

Definition set_pbs (s : nst) (m : store) : nst :=
  MkN m (nmem s) (pbuf_pool s) (alloc_cache s) (free_cache s) (free_lock s) (alloc_lock s) (stat s).
Definition set_nmem (s : nst) (m : cmem) : nst :=
  MkN (pbs s) m (pbuf_pool s) (alloc_cache s) (free_cache s) (free_lock s) (alloc_lock s) (stat s).
Definition set_pool (s : nst) (v : Z) : nst :=
  MkN (pbs s) (nmem s) v (alloc_cache s) (free_cache s) (free_lock s) (alloc_lock s) (stat s).
Definition set_acache (s : nst) (v : Z) : nst :=
  MkN (pbs s) (nmem s) (pbuf_pool s) v (free_cache s) (free_lock s) (alloc_lock s) (stat s).
Definition set_fcache (s : nst) (v : Z) : nst :=
  MkN (pbs s) (nmem s) (pbuf_pool s) (alloc_cache s) v (free_lock s) (alloc_lock s) (stat s).
Definition set_stat (s : nst) (v : stats_pbuf) : nst :=
  MkN (pbs s) (nmem s) (pbuf_pool s) (alloc_cache s) (free_cache s) (free_lock s) (alloc_lock s) v.

Definition getp (s : nst) (p : Z) : outcome pbuf := from_opt (pbs s !! p).
Definition putp (s : nst) (p : Z) (x : pbuf) : nst := set_pbs s (<[p := x]> (pbs s)).

Definition count_used (x : stats_pbuf) (d : Z) : stats_pbuf :=
  MkStats (avail x) (u32 (used x + d)) (smax x) (serr x) (alloc_locked x) (refresh_locked x) (rwbufs x).
Definition count_max (x : stats_pbuf) : stats_pbuf :=
  MkStats (avail x) (used x) (smax x `max` used x) (serr x) (alloc_locked x) (refresh_locked x) (rwbufs x).
Definition count_err (x : stats_pbuf) : stats_pbuf :=
  MkStats (avail x) (used x) (smax x) (u32 (serr x + 1)) (alloc_locked x) (refresh_locked x) (rwbufs x).
Definition count_alock (x : stats_pbuf) : stats_pbuf :=
  MkStats (avail x) (used x) (smax x) (serr x) (u32 (alloc_locked x + 1)) (refresh_locked x) (rwbufs x).
Definition count_rlock (x : stats_pbuf) : stats_pbuf :=
  MkStats (avail x) (used x) (smax x) (serr x) (alloc_locked x) (u32 (refresh_locked x + 1)) (rwbufs x).
Definition count_rw (x : stats_pbuf) (d : Z) : stats_pbuf :=
  MkStats (avail x) (used x) (smax x) (serr x) (alloc_locked x) (refresh_locked x) (u32 (rwbufs x + d)).

(** The bytes of a fresh block. *)
Fixpoint map_zeros (n : nat) (m : cmem) (p : Z) : cmem :=
  match n with O => m | S n => <[p := 0]> (map_zeros n m (p + 1)) end.

(** ** The pool *)

(** The set-up loop: [n] buffers from [p]; the last one has no successor. *)
Fixpoint pool_init (n : nat) (m : store) (p : Z) : store :=
  match n with
  | O => m
  | S n' =>
      let q := p + PBUF_POOL_BUFSIZE + SZ in
      <[p := MkPb (if decide (n' = O) then NULL else q) 0 0 (p + SZ) PBUF_POOL_BUFSIZE
               PBUF_POOL_BUFSIZE PBUF_POOL_BUFSIZE]> (pool_init n' m q)
  end.

(** [a] is what kmalloc returned; it is not tested. *)
Definition pbuf_init (s : nst) (a : Z) : outcome nst :=
  if a =? NULL then Fault
  else
    let t := stat s in
    Ok (MkN (pool_init (Z.to_nat PBUF_POOL_SIZE) (pbs s) a)
          (map_zeros (Z.to_nat (PBUF_POOL_SIZE * (PBUF_POOL_BUFSIZE + SZ))) (nmem s) a)
          a (alloc_cache s) (free_cache s) 0 0
          (MkStats PBUF_POOL_SIZE (used t) (smax t) (serr t) (alloc_locked t) (refresh_locked t) (rwbufs t))).

Definition pbuf_pool_alloc (s : nst) : outcome (Z * nst) :=
  '(p, s) ← (
    if negb (alloc_cache s =? NULL) then
      x ← getp s (alloc_cache s); Ok (alloc_cache s, set_acache s (next x))
    else if negb (free_lock s =? 0) then Ok (NULL, set_stat s (count_alock (stat s)))
    else if pbuf_pool s =? NULL then Ok (NULL, s)
    else x ← getp s (pbuf_pool s); Ok (pbuf_pool s, set_pool s (next x)));
  if p =? NULL then Ok (NULL, s)
  else Ok (p, set_stat s (count_max (count_used (stat s) 1))).

(** The last buffer of the chain at [p]. *)
Fixpoint last_of (n : nat) (m : store) (p : Z) : outcome Z :=
  match n with
  | O => OutOfFuel
  | S n => x ← from_opt (m !! p); if next x =? NULL then Ok p else last_of n m (next x)
  end.

(** The number of buffers of the chain at [p]. *)
Fixpoint clen (n : nat) (m : store) (p : Z) : outcome Z :=
  if p =? NULL then Ok 0
  else match n with
       | O => OutOfFuel
       | S n => x ← from_opt (m !! p); r ← clen n m (next x); Ok (1 + r)
       end.

Definition cfuel (s : nst) : nat := S (base.size (pbs s)).

Definition link_last (s : nst) (h t : Z) : outcome nst :=
  q ← last_of (cfuel s) (pbs s) h;
  x ← getp s q;
  Ok (putp s q (set_next x t)).

Definition pbuf_pool_free (s : nst) (p : Z) : outcome nst :=
  n ← clen (cfuel s) (pbs s) p;
  let s := set_stat s (count_used (stat s) (- n)) in
  if alloc_cache s =? NULL then Ok (set_acache s p) else link_last s (alloc_cache s) p.

(** ** Allocation *)

Definition layer_offset (layer : Z) : outcome Z :=
  if layer =? PBUF_TRANSPORT then Ok (PBUF_TRANSPORT_HLEN + PBUF_IP_HLEN + PBUF_LINK_HLEN)
  else if layer =? PBUF_IP then Ok (PBUF_IP_HLEN + PBUF_LINK_HLEN)
  else if layer =? PBUF_LINK then Ok PBUF_LINK_HLEN
  else if layer =? PBUF_RAW then Ok 0
  else Panic.

(** The loop that allocates the tail behind [r]; [None]: out of buffers. Each
    turn takes a buffer: PBUF_POOL_SIZE + 1 turns are enough. *)
Fixpoint alloc_tail (n : nat) (s : nst) (p r rsize : Z) : outcome (option Z * nst) :=
  if rsize <=? 0 then Ok (Some r, s)
  else
    match n with
    | O => OutOfFuel
    | S n =>
        '(q, s) ← pbuf_pool_alloc s;
        if q =? NULL then
          s ← pbuf_pool_free (set_stat s (count_err (stat s))) p;
          Ok (None, s)
        else
          y ← getp s q;
          x ← getp s r;
          let l := if PBUF_POOL_BUFSIZE <? rsize then PBUF_POOL_BUFSIZE else rsize in
          let s := putp s r (set_next x q) in
          let s := putp s q (MkPb NULL PBUF_FLAG_POOL 1 (q + SZ) (tot_len y) l (size y)) in
          alloc_tail n s p q (rsize - PBUF_POOL_BUFSIZE)
    end.

Definition alloc_pool (s : nst) (offset sz : Z) : outcome (Z * nst) :=
  '(p, s) ← pbuf_pool_alloc s;
  if p =? NULL then Ok (NULL, set_stat s (count_err (stat s)))
  else
    x ← getp s p;
    let room := PBUF_POOL_BUFSIZE - offset in
    let l := if room <? sz then room else sz in
    let s := putp s p (MkPb NULL PBUF_FLAG_POOL (ref x) (p + SZ + offset) sz l (size x)) in
    '(r, s) ← alloc_tail (S (Z.to_nat PBUF_POOL_SIZE)) s p p (sz - l);
    match r with
    | None => Ok (NULL, s)
    | Some r =>
        y ← getp s r;
        let s := putp s r (set_next y NULL) in
        x ← getp s p;
        Ok (p, putp s p (set_ref x 1))
    end.

Definition pbuf_alloc (s : nst) (layer sz flag a : Z) : outcome (Z * nst) :=
  offset ← layer_offset layer;
  if flag =? PBUF_POOL then alloc_pool s offset sz
  else if flag =? PBUF_RW then
    if a =? NULL then Ok (NULL, s)
    else
      let s := set_nmem s (map_zeros (Z.to_nat (SZ + sz + offset)) (nmem s) a) in
      let s := set_stat s (count_rw (stat s) 1) in
      Ok (a, putp s a (MkPb NULL PBUF_FLAG_RW 1 (a + SZ + offset) sz sz sz))
  else if flag =? PBUF_RO then
    if a =? NULL then Ok (NULL, s)
    else Ok (a, putp s a (MkPb NULL PBUF_FLAG_RO 1 NULL sz sz sz))
  else Panic.

Definition pbuf_refresh (s : nst) : outcome nst :=
  if free_cache s =? NULL then Ok s
  else if alloc_lock s =? 0 then
    s ← (if pbuf_pool s =? NULL then Ok (set_pool s (free_cache s))
         else link_last s (pbuf_pool s) (free_cache s));
    Ok (set_fcache s NULL)
  else Ok (set_stat s (count_rlock (stat s))).

(** ** Releasing *)

(** The loop of pbuf_free that gives a whole chain back; the count. *)
Fixpoint free_chain (n : nat) (s : nst) (p count : Z) : outcome (Z * nst) :=
  if p =? NULL then Ok (count, s)
  else
    match n with
    | O => OutOfFuel
    | S n =>
        x ← getp s p;
        let q := next x in
        let s :=
          if flags x =? PBUF_FLAG_POOL then
            let s := putp s p (MkPb (free_cache s) (flags x) (ref x) (p + SZ) PBUF_POOL_BUFSIZE
                                 PBUF_POOL_BUFSIZE (size x)) in
            set_stat (set_fcache s p) (count_used (stat s) (-1))
          else if flags x =? PBUF_FLAG_RO then set_pbs s (delete p (pbs s))
          else set_stat (set_pbs s (delete p (pbs s))) (count_rw (stat s) (-1)) in
        free_chain n s q (count + 1)
    end.

(** Only the count of references of the first buffer is looked at. *)
Definition pbuf_free (s : nst) (p : Z) : outcome (Z * nst) :=
  if p =? NULL then Ok (0, s)
  else
    x ← getp s p;
    let r := u16 (ref x - 1) in
    let s := putp s p (set_ref x r) in
    '(count, s) ← (if r =? 0 then free_chain (cfuel s) s p 0 else Ok (0, s));
    s ← pbuf_refresh s;
    Ok (count, s).

(** Step over the buffers that stay: the last one and what is left for it. *)
Fixpoint step_over (n : nat) (m : store) (q rsize : Z) : outcome (Z * Z) :=
  match n with
  | O => OutOfFuel
  | S n =>
      x ← from_opt (m !! q);
      if len x <? rsize then step_over n m (next x) (rsize - len x) else Ok (q, rsize)
  end.

(** The buffers behind the end go to the free cache. *)
Fixpoint drop_tail (n : nat) (s : nst) (q : Z) : outcome nst :=
  if q =? NULL then Ok s
  else
    match n with
    | O => OutOfFuel
    | S n =>
        x ← getp s q;
        let s := putp s q (set_next x (free_cache s)) in
        drop_tail n (set_stat (set_fcache s q) (count_used (stat s) (-1))) (next x)
    end.

Definition pbuf_realloc (s : nst) (p sz : Z) : outcome nst :=
  x ← getp s p;
  if tot_len x <=? sz then Ok s
  else
    s ← (
      if (flags x =? PBUF_FLAG_POOL) || (flags x =? PBUF_FLAG_RW) then
        '(q, rsize) ← step_over (cfuel s) (pbs s) p sz;
        y ← getp s q;
        let s := putp s q (set_next (set_len y rsize) NULL) in
        if flags x =? PBUF_FLAG_POOL then drop_tail (cfuel s) s (next y)
        else '(_, s) ← pbuf_free s (next y); Ok s
      else if flags x =? PBUF_FLAG_RO then Ok (putp s p (set_len x sz))
      else Ok s);
    x ← getp s p;
    pbuf_refresh (putp s p (set_tot x sz)).

(** ** Adjusting and chaining *)

Definition pbuf_header (s : nst) (p header_size : Z) : outcome (Z * nst) :=
  x ← getp s p;
  let pay := payload x - header_size in
  if pay <? p + SZ then Ok (ENOSPC, s)
  else Ok (0, putp s p (MkPb (next x) (flags x) (ref x) pay (s32 (tot_len x + header_size))
                          (s32 (len x + header_size)) (size x))).

Definition pbuf_clen (s : nst) (p : Z) : outcome Z := clen (cfuel s) (pbs s) p.

Definition pbuf_spare (s : nst) (p : Z) : outcome Z :=
  x ← getp s p; Ok (p + SZ + size x - (payload x + len x)).

Definition pbuf_ref (s : nst) (p : Z) : outcome nst :=
  if p =? NULL then Ok s else x ← getp s p; Ok (putp s p (set_ref x (u16 (ref x + 1)))).

Definition pbuf_chain (s : nst) (h t : Z) : outcome nst :=
  if t =? NULL then Ok s
  else
    s ← link_last s h t;
    x ← getp s h;
    y ← getp s t;
    Ok (putp s h (set_tot x (s32 (tot_len x + tot_len y)))).

Definition pbuf_dechain (s : nst) (p : Z) : outcome (Z * nst) :=
  x ← getp s p;
  let q := next x in
  s ← (if negb (q =? NULL) then
         y ← getp s q; Ok (putp s q (set_tot y (s32 (tot_len x - len x))))
       else Ok s);
  x ← getp s p;
  Ok (q, putp s p (set_next (set_tot x (len x)) NULL)).

(** ** Copying *)

Fixpoint dup_loop (n : nat) (s : nst) (ptr p : Z) : outcome nst :=
  if p =? NULL then Ok s
  else
    match n with
    | O => OutOfFuel
    | S n =>
        x ← getp s p;
        '(_, m) ← memcpy (nmem s) ptr (payload x) (len x);
        dup_loop n (set_nmem s m) (ptr + len x) (next x)
    end.

Definition pbuf_dup (s : nst) (layer p a : Z) : outcome (Z * nst) :=
  x ← getp s p;
  '(q, s) ← pbuf_alloc s layer (tot_len x) PBUF_RW a;
  if q =? NULL then Ok (NULL, s)
  else
    y ← getp s q;
    s ← dup_loop (cfuel s) s (payload y) p;
    Ok (q, s).

Definition pbuf_linearize (s : nst) (layer p a : Z) : outcome (Z * nst) :=
  x ← getp s p;
  if next x =? NULL then Ok (p, s)
  else
    '(q, s) ← pbuf_dup s layer p a;
    if q =? NULL then Ok (NULL, s) else '(_, s) ← pbuf_free s p; Ok (q, s).

Definition pbuf_cow (s : nst) (layer p a : Z) : outcome (Z * nst) :=
  x ← getp s p;
  if ref x =? 1 then Ok (p, s)
  else
    '(q, s) ← pbuf_dup s layer p a;
    if q =? NULL then Ok (NULL, s) else '(_, s) ← pbuf_free s p; Ok (q, s).

(** The loop of pbuf_copy_partial: memory, bytes copied.  All quantities are
    16 bits wide. *)
Fixpoint copy_loop (n : nat) (s : nst) (p dataptr l offset left total : Z) : outcome (Z * nst) :=
  if (l =? 0) || (p =? NULL) then Ok (total, s)
  else
    match n with
    | O => OutOfFuel
    | S n =>
        x ← getp s p;
        if negb (offset =? 0) && (len x <=? offset) then
          copy_loop n s (next x) dataptr l (u16 (offset - len x)) left total
        else
          let c := u16 (len x - offset) in
          let c := if l <? c then l else c in
          '(_, m) ← memcpy (nmem s) (dataptr + left) (payload x + offset) c;
          copy_loop n (set_nmem s m) (next x) dataptr (u16 (l - c)) 0 (u16 (left + c)) (u16 (total + c))
    end.

Definition pbuf_copy_partial (s : nst) (buf dataptr l offset : Z) : outcome (Z * nst) :=
  if (buf =? NULL) || (dataptr =? NULL) then Ok (0, s)
  else copy_loop (cfuel s) s buf dataptr l offset 0 0.

(** ** Chains

    [seg m p l q]: the buffers [l], linked from [p], lead to [q]. *)
Fixpoint seg (m : store) (p : Z) (l : list Z) (q : Z) : Prop :=
  match l with
  | [] => p = q
  | a :: l => p = a /\ a <> NULL /\ exists x, m !! a = Some x /\ seg m (next x) l q
  end.
Notation chain m p l := (seg m p l NULL).

Lemma seg_app m p l1 l2 q : seg m p (l1 ++ l2) q <-> exists r, seg m p l1 r /\ seg m r l2 q.
Proof.
  revert p. induction l1 as [|a l1 IH]; intros p; cbn.
  - split; [intros H; by exists p|intros (r & -> & H); done].
  - setoid_rewrite IH. split.
    + intros (-> & Ha & x & Hx & r & H1 & H2). exists r. eauto 10.
    + intros (r & (-> & Ha & x & Hx & H1) & H2). eauto 10.
Qed.

Lemma seg_snoc m p l a x q :
  seg m p l a -> a <> NULL -> m !! a = Some x -> next x = q -> seg m p (l ++ [a]) q.
Proof. intros H Ha Hx <-. apply seg_app. exists a. split; [done|]. cbn. eauto 10. Qed.

Lemma seg_frame m m' p l q :
  (forall a, a ∈ l -> m' !! a = m !! a) -> seg m p l q -> seg m' p l q.
Proof.
  revert p. induction l as [|a l IH]; intros p Hf; cbn; [done|].
  intros (-> & Ha & x & Hx & H). split; [done|]. split; [done|]. exists x.
  rewrite Hf by left. split; [done|]. apply IH; [|done]. intros b Hb. apply Hf. by right.
Qed.

Lemma seg_put m p l q a x : a ∉ l -> seg m p l q -> seg (<[a := x]> m) p l q.
Proof. intros Ha. apply seg_frame. intros b Hb. apply lookup_insert_ne. by intros ->. Qed.

Lemma seg_del m p l q a : a ∉ l -> seg m p l q -> seg (delete a m) p l q.
Proof. intros Ha. apply seg_frame. intros b Hb. apply lookup_delete_ne. by intros ->. Qed.

(** Writing a field other than [next]. *)
Lemma seg_put_same m p l q a x y :
  m !! a = Some x -> next y = next x -> seg m p l q -> seg (<[a := y]> m) p l q.
Proof.
  intros Hx Hn. revert p. induction l as [|b l IH]; intros p; cbn; [done|].
  intros (-> & Hb & z & Hz & H). split; [done|]. split; [done|].
  destruct (decide (a = b)) as [<-|Hne].
  - exists y. rewrite lookup_insert_eq, Hn. split; [done|]. simplify_eq. by apply IH.
  - exists z. rewrite lookup_insert_ne by done. split; [done|]. by apply IH.
Qed.

Lemma seg_mapped m p l q a : seg m p l q -> a ∈ l -> a <> NULL /\ is_Some (m !! a).
Proof.
  revert p. induction l as [|b l IH]; intros p; cbn; [by intros _ ?%elem_of_nil|].
  intros (-> & Hb & x & Hx & H) Ha. apply elem_of_cons in Ha as [->|Ha]; [eauto|by eapply IH].
Qed.

Lemma chain_nil m l : chain m NULL l -> l = [].
Proof. destruct l; [done|]. intros (H & Hn & _). by subst. Qed.

Lemma chain_cons m p l : p <> NULL -> chain m p l ->
  exists x l', l = p :: l' /\ m !! p = Some x /\ chain m (next x) l'.
Proof. destruct l as [|a l]; [by intros ? ?|]. intros _ (-> & _ & x & Hx & H). eauto. Qed.

Lemma chain_inj m p l1 l2 : chain m p l1 -> chain m p l2 -> l1 = l2.
Proof.
  revert p l2. induction l1 as [|a l1 IH]; intros p l2; cbn.
  - intros -> H. by apply chain_nil in H.
  - intros (-> & Ha & x & Hx & H1) H2. apply chain_cons in H2 as (y & l' & -> & Hy & H2); [|done].
    simplify_eq. f_equal. by eapply IH.
Qed.

Lemma chain_NoDup m p l : chain m p l -> NoDup l.
Proof.
  revert p. induction l as [|a l IH]; intros p H; [constructor|]. cbn in H.
  destruct H as (-> & Ha & x & Hx & H). constructor; [|by eapply IH]. intros Hin.
  apply list_elem_of_split in Hin as (l1 & l2 & ->). pose proof H as H'.
  apply seg_app in H' as (r & _ & H2). pose proof H2 as (-> & _).
  assert (chain m a (a :: l1 ++ a :: l2)) as H1 by (cbn; eauto 10).
  pose proof (chain_inj _ _ _ _ H1 H2) as E. apply (f_equal length) in E.
  rewrite length_cons, length_app in E. cbn in E. lia.
Qed.

Lemma seg_size (m : store) (l : list Z) :
  NoDup l -> (forall a, a ∈ l -> is_Some (m !! a)) -> (length l <= base.size m)%nat.
Proof.
  intros Hnd Hl. rewrite <- size_dom, <- (size_list_to_set (C := gset Z) l Hnd).
  apply subseteq_size. intros a Ha. apply elem_of_list_to_set in Ha. apply elem_of_dom. auto.
Qed.

Lemma chain_fuel s p l : chain (pbs s) p l -> (length l < cfuel s)%nat.
Proof.
  intros H. unfold cfuel. apply Nat.lt_succ_r, seg_size; [by eapply chain_NoDup|].
  intros a Ha. by eapply seg_mapped.
Qed.

Lemma clen_ok n m p l : chain m p l -> (length l <= n)%nat -> clen n m p = Ok (Z.of_nat (length l)).
Proof.
  revert n p. induction l as [|a l IH]; intros n p H Hn.
  - cbn in H. subst p. destruct n; done.
  - destruct H as (-> & Ha & x & Hx & H). destruct n as [|n]; [cbn in Hn; lia|]. cbn [clen].
    rewrite (proj2 (Z.eqb_neq _ _) Ha), Hx. cbn [from_opt mbind outcome_bind].
    rewrite (IH n) by (done || cbn in Hn; lia). cbn [mbind outcome_bind length]. f_equal. lia.
Qed.

Lemma last_of_ok n m p l z :
  chain m p (l ++ [z]) -> (length l < n)%nat -> last_of n m p = Ok z.
Proof.
  revert n p. induction l as [|a l IH]; intros [|n] p H Hn; cbn [length] in Hn; try lia; cbn [last_of].
  - destruct H as (-> & Hz & x & Hx & H). rewrite Hx. cbn in H |- *. by rewrite H.
  - destruct H as (-> & Ha & x & Hx & H). rewrite Hx. cbn [from_opt mbind outcome_bind].
    assert (next x <> NULL) as Hnx.
    { intros E. rewrite E in H. apply chain_nil in H. by destruct l. }
    rewrite (proj2 (Z.eqb_neq _ _) Hnx). apply IH; [done|lia].
Qed.

(** Linking a chain behind another. *)
Lemma link_last_ok s h t l z l2 :
  chain (pbs s) h (l ++ [z]) -> chain (pbs s) t l2 -> (forall a, a ∈ l ++ [z] -> a ∉ l2) ->
  exists x, pbs s !! z = Some x /\ link_last s h t = Ok (putp s z (set_next x t)) /\
    chain (<[z := set_next x t]> (pbs s)) h ((l ++ [z]) ++ l2).
Proof.
  intros H H2 Hd. destruct (seg_mapped _ _ _ _ z H) as [Hz [x Hx]]; [apply elem_of_mid|].
  exists x. split; [done|]. pose proof (chain_NoDup _ _ _ H) as Hnd.
  pose proof (chain_fuel _ _ _ H) as Hf. rewrite length_app in Hf. cbn in Hf.
  unfold link_last. rewrite (last_of_ok _ _ _ l z H) by lia. cbn [mbind outcome_bind].
  unfold getp. rewrite Hx. cbn [from_opt mbind outcome_bind]. split; [done|].
  apply seg_app in H as (r & Hl & Hr). pose proof Hr as (-> & _).
  apply seg_app. exists t. split; [|apply seg_put; [|done]; apply Hd, elem_of_mid].
  eapply seg_snoc; [apply seg_put; [|exact Hl]| |by apply lookup_insert_eq|done]; [|done].
  intros Hin. apply NoDup_app in Hnd as (_ & Hnd & _). apply (Hnd z Hin). left.
Qed.

(** ** Contents

    Buffer [a] holds the bytes [bs]; a chain holds the concatenation. *)
Definition holds1 (s : nst) (a : Z) (bs : list Z) : Prop :=
  exists x, pbs s !! a = Some x /\ len x = Z.of_nat (length bs) /\ bytes_at (nmem s) (payload x) bs.
Notation holds s := (Forall2 (holds1 s)).

(** The bytes of the buffers [l] are apart from the [n] bytes at [p]. *)
Definition apart (s : nst) (l : list Z) (p n : Z) : Prop :=
  forall a x, a ∈ l -> pbs s !! a = Some x -> payload x + len x <= p \/ p + n <= payload x.

Lemma holds_frame s m l bss p n :
  holds s l bss -> same_outside (nmem s) m p n -> apart s l p n -> holds (set_nmem s m) l bss.
Proof.
  intros H Ho. induction H as [|a bs l bss (x & Hx & Hl & Hb) _ IH]; intros Ha; [done|].
  constructor; [|apply IH; intros b y Hb' Hy; apply (Ha b y); [by right|done]].
  exists x. split; [done|]. split; [done|]. eapply bytes_at_frame; [exact Hb|exact Ho|].
  rewrite <- Hl. apply (Ha a x); [left|done].
Qed.

Lemma apart_tail s a l p n : apart s (a :: l) p n -> apart s l p n.
Proof. intros Ha b y Hb Hy. apply (Ha b y); [by right|done]. Qed.

Lemma take_drop_app_skip {A} (i n : nat) (l1 l2 : list A) :
  (length l1 <= i)%nat -> take n (drop i (l1 ++ l2)) = take n (drop (i - length l1) l2).
Proof. intros H. by rewrite drop_app_ge. Qed.

Lemma take_drop_app_use {A} (i n : nat) (l1 l2 : list A) :
  (i <= length l1)%nat ->
  take n (drop i (l1 ++ l2)) =
  take (n `min` (length l1 - i)) (drop i l1) ++ take (n - n `min` (length l1 - i)) l2.
Proof.
  intros H. rewrite drop_app_le by done. destruct (decide (n <= length l1 - i)%nat).
  - rewrite Nat.min_l, Nat.sub_diag, take_0, app_nil_r by done. apply take_app_le.
    by rewrite length_drop.
  - rewrite Nat.min_r by lia. rewrite take_app_ge by (rewrite length_drop; lia).
    rewrite length_drop. by rewrite (take_ge (drop i l1)) by (rewrite length_drop; lia).
Qed.

Lemma copy_loop_ok n s p l bss dst k off left total :
  chain (pbs s) p l -> holds s l bss -> (length l <= n)%nat ->
  apart s l (dst + left) k -> (forall j, 0 <= j < k -> is_Some (nmem s !! (dst + left + j))) ->
  Forall (fun bs => Z.of_nat (length bs) < 2 ^ 16) bss ->
  0 <= k -> 0 <= off < 2 ^ 16 -> 0 <= left -> left + k < 2 ^ 16 -> 0 <= total -> total + k < 2 ^ 16 ->
  let got := take (Z.to_nat k) (drop (Z.to_nat off) (concat bss)) in
  exists m, copy_loop n s p dst k off left total = Ok (total + Z.of_nat (length got), set_nmem s m) /\
    bytes_at m (dst + left) got /\ same_outside (nmem s) m (dst + left) (Z.of_nat (length got)).
Proof.
  revert n s p bss k off left total. induction l as [|a l IH];
    intros n s p bss k off left total Hc Hh Hn Ha Hm Hlen Hk Hoff Hl Hlk Ht Htk got.
  { cbn in Hc. subst p. apply Forall2_nil_inv_l in Hh. subst bss got. cbn [concat].
    rewrite drop_nil, take_nil. exists (nmem s). destruct n; cbn; rewrite ?orb_true_r, Z.add_0_r;
      (split; [by destruct s|done]). }
  destruct n as [|n]; [cbn in Hn; lia|]. pose proof Hc as (-> & Hnull & x & Hx & Hc').
  apply Forall2_cons_inv_l in Hh as (bs & bss' & (x' & Hx' & Hlx & Hb) & Hh & ->).
  rewrite Hx in Hx'. injection Hx' as <-.
  apply Forall_cons in Hlen as [Hlb Hlen]. cbn [copy_loop].
  rewrite (proj2 (Z.eqb_neq _ _) Hnull), orb_false_r.
  destruct (Z.eqb_spec k 0) as [->|Hk0].
  { exists (nmem s). subst got. rewrite take_0. cbn. rewrite Z.add_0_r. split; [by destruct s|done]. }
  unfold getp. rewrite Hx. cbn [from_opt mbind outcome_bind].
  destruct (negb (off =? 0) && (len x <=? off)) eqn:Eskip.
  - apply andb_true_iff in Eskip as [_ Hle%Z.leb_le]. rewrite (u16_small (off - len x)) by lia.
    subst got. cbn [concat]. rewrite take_drop_app_skip by lia.
    replace (Z.to_nat off - length bs)%nat with (Z.to_nat (off - len x)) by lia.
    apply IH; try done; try lia; [cbn in Hn; lia|by eapply apart_tail].
  - assert (off <= len x) as Hle.
    { apply andb_false_iff in Eskip as [E|E%Z.leb_gt]; [|lia]. apply negb_false_iff, Z.eqb_eq in E. lia. }
    rewrite (u16_small (len x - off)) by lia.
    set (c := if k <? len x - off then k else len x - off).
    assert (c = Z.of_nat (Z.to_nat k `min` (length bs - Z.to_nat off))) as Hcv.
    { unfold c. destruct (Z.ltb_spec k (len x - off)); lia. }
    set (part := take (Z.to_nat k `min` (length bs - Z.to_nat off)) (drop (Z.to_nat off) bs)).
    assert (Z.of_nat (length part) = c) as Hlp
      by (unfold part; rewrite length_take, length_drop; lia).
    assert (0 <= c <= k /\ c <= len x - off) as Hcr by (unfold c; destruct (Z.ltb_spec k (len x - off)); lia).
    assert (got = part ++ take (Z.to_nat (k - c)) (concat bss')) as Hgot.
    { unfold got, part. cbn [concat]. rewrite take_drop_app_use by lia. do 2 f_equal. lia. }
    pose proof (Ha a x ltac:(left) Hx) as Hax.
    destruct (memcpy_ok (nmem s) (dst + left) (payload x + off) part) as (m1 & Hcp & Hb1 & Ho1).
    { unfold part. replace off with (Z.of_nat (Z.to_nat off)) at 1 by lia. apply bytes_at_sub; [done|lia]. }
    { intros j Hj. apply Hm. lia. }
    { lia. }
    rewrite Hlp in *. rewrite Hcp. cbn [mbind outcome_bind].
    rewrite (u16_small (k - c)), (u16_small (left + c)), (u16_small (total + c)) by lia.
    assert (apart s l (dst + left) c) as Hap.
    { intros b y Hb' Hy. destruct (Ha b y ltac:(by right) Hy); lia. }
    destruct (IH n (set_nmem s m1) (next x) bss' (k - c) 0 (left + c) (total + c)) as (m & He & Hbm & Hom);
      try done; try lia.
    + by eapply holds_frame.
    + cbn in Hn. lia.
    + intros b y Hb' Hy. destruct (Ha b y ltac:(by right) Hy); lia.
    + intros j Hj. cbn. replace (dst + (left + c) + j) with (dst + left + (c + j)) by lia.
      rewrite Ho1 by lia. apply Hm. lia.
    + change (Z.to_nat 0) with O in *. rewrite drop_0 in *.
      exists m. rewrite He, Hgot, length_app. split; [do 2 f_equal; lia|].
      cbn in Hom. split.
      * apply bytes_at_app. rewrite Hlp. replace (dst + left + c) with (dst + (left + c)) by lia.
        split; [|done]. eapply bytes_at_frame; [exact Hb1|exact Hom|lia].
      * intros q Hq. rewrite Hom by lia. apply Ho1. lia.
Qed.

(** pbuf_copy_partial copies exactly the bytes [offset .. offset + l) of a
    packet that exist, wherever they lie in its chain of buffers, returns their
    number and changes no other byte. *)
Theorem pbuf_copy_partial_copies s p l bss dst k off :
  p <> NULL -> chain (pbs s) p l -> holds s l bss -> 0 < dst ->
  apart s l dst k -> (forall j, 0 <= j < k -> is_Some (nmem s !! (dst + j))) ->
  Forall (fun bs => Z.of_nat (length bs) < 2 ^ 16) bss -> 0 <= k < 2 ^ 16 -> 0 <= off < 2 ^ 16 ->
  let got := take (Z.to_nat k) (drop (Z.to_nat off) (concat bss)) in
  exists m, pbuf_copy_partial s p dst k off = Ok (Z.of_nat (length got), set_nmem s m) /\
    bytes_at m dst got /\ same_outside (nmem s) m dst (Z.of_nat (length got)).
Proof.
  intros Hp Hc Hh Hdst Ha Hm Hlen Hk Hoff got. unfold pbuf_copy_partial.
  rewrite (proj2 (Z.eqb_neq _ _) Hp), (proj2 (Z.eqb_neq dst NULL)) by (unfold NULL; lia). cbn [orb].
  pose proof (chain_fuel s p l Hc).
  destruct (copy_loop_ok (cfuel s) s p l bss dst k off 0 0) as (m & He & Hb & Ho);
    rewrite ?Z.add_0_r in *; try done; try lia. by exists m.
Qed.

(** Two linked buffers with the bytes 1 2 3 and 4 5, and room at 3000. *)
Definition two_bufs : nst := MkN
  (list_to_map [(64, MkPb 128 0 1 1000 5 3 3); (128, MkPb 0 0 1 2000 2 2 2)])
  (list_to_map [(1000, 1); (1001, 2); (1002, 3); (2000, 4); (2001, 5); (3000, 9); (3001, 9); (3002, 9)])
  NULL NULL NULL 0 0 (MkStats 128 0 0 0 0 0 2).

Lemma two_bufs_chain : chain (pbs two_bufs) 64 [64; 128].
Proof. split; [done|]. split; [done|]. eexists. split; [reflexivity|]. cbn. eauto 10. Qed.

Lemma two_bufs_holds : holds two_bufs [64; 128] [[1; 2; 3]; [4; 5]].
Proof. repeat constructor; (eexists; split; [reflexivity|repeat split]). Qed.

Lemma pbuf_copy_partial_copies_witness :
  exists m, pbuf_copy_partial two_bufs 64 3000 3 2 = Ok (3, set_nmem two_bufs m) /\
    bytes_at m 3000 [3; 4; 5] /\ same_outside (nmem two_bufs) m 3000 3.
Proof.
  apply (pbuf_copy_partial_copies two_bufs 64 [64; 128] [[1; 2; 3]; [4; 5]] 3000 3 2);
    [done|exact two_bufs_chain|exact two_bufs_holds|lia| | |by repeat constructor|lia|lia].
  - intros a x Ha Hx. apply elem_of_cons in Ha as [->|Ha%list_elem_of_singleton]; [|subst a];
      vm_compute in Hx; injection Hx as <-; cbn; lia.
  - intros j Hj. assert (j = 0 \/ j = 1 \/ j = 2) as [-> | [-> | ->]] by lia; by eexists.
Defined.
