(* ===== verification/Inet.v ===== *)
(** * Internet checksum and byte order (net/inet.c, net/misc.c)

    The checksum functions run over the bytes of memory, a chain of packet
    buffers (Pbuf.v) for two of them; [acc] is a 32-bit unsigned long.  The
    reference is the one's complement sum of RFC 1071 over the bytes. *)

From S2P Require Import Prelude CStr Pbuf.

(** ** Byte order (net/misc.c) *)

Definition htons (n : Z) : Z :=
  Z.lor (Z.shiftl (Z.land n 255) 8) (Z.shiftr (Z.land n 65280) 8).
Definition ntohs (n : Z) : Z :=
  Z.lor (Z.shiftl (Z.land n 255) 8) (Z.shiftr (Z.land n 65280) 8).
Definition htonl (n : Z) : Z :=
  Z.lor (Z.lor (Z.lor (Z.shiftl (Z.land n 255) 24) (Z.shiftl (Z.land n 65280) 8))
           (Z.shiftr (Z.land n 16711680) 8)) (Z.shiftr (Z.land n 4278190080) 24).
Definition ntohl (n : Z) : Z :=
  Z.lor (Z.lor (Z.lor (Z.shiftl (Z.land n 255) 24) (Z.shiftl (Z.land n 65280) 8))
           (Z.shiftr (Z.land n 16711680) 8)) (Z.shiftr (Z.land n 4278190080) 24).

(** ** The checksum functions (net/inet.c) *)

(** acc = (acc >> 16) + (acc & 0xFFFF) *)
Definition fold16 (acc : Z) : Z := Z.shiftr acc 16 + Z.land acc 65535.

(** The words of [l] bytes at [p], and the odd byte. *)
Fixpoint chksum_loop (n : nat) (m : cmem) (p l acc : Z) : outcome Z :=
  if 1 <? l then
    match n with
    | O => OutOfFuel
    | S n =>
        lo ← ld m p;
        hi ← ld m (p + 1);
        chksum_loop n m (p + 2) (l - 2) (u32 (acc + Z.lor lo (Z.shiftl hi 8)))
    end
  else if l =? 1 then b ← ld m p; Ok (u32 (acc + b))
  else Ok acc.

Definition chksum (m : cmem) (dataptr l : Z) : outcome Z :=
  acc ← chksum_loop (Z.to_nat l) m dataptr l 0;
  let acc := fold16 acc in
  Ok (if negb (Z.land acc 4294901760 =? 0) then fold16 acc else acc).

(** while (acc >> 16) acc = (acc & 0xFFFF) + (acc >> 16): a 32-bit number needs
    two turns. *)
Fixpoint fold_loop (n : nat) (acc : Z) : outcome Z :=
  if Z.shiftr acc 16 =? 0 then Ok acc
  else match n with O => OutOfFuel | S n => fold_loop n (fold16 acc) end.

(** ((acc & 0xFF) << 8) | ((acc & 0xFF00) >> 8) *)
Definition swap16 (acc : Z) : Z := Z.lor (Z.shiftl (Z.land acc 255) 8) (Z.shiftr (Z.land acc 65280) 8).

Fixpoint chain_sum (n : nat) (s : nst) (q acc : Z) (swapped : bool) : outcome (Z * bool) :=
  if q =? NULL then Ok (acc, swapped)
  else
    match n with
    | O => OutOfFuel
    | S n =>
        x ← getp s q;
        c ← chksum (nmem s) (payload x) (len x);
        acc ← fold_loop 3 (u32 (acc + c));
        if negb (Z.rem (len x) 2 =? 0) then chain_sum n s (next x) (swap16 acc) (negb swapped)
        else chain_sum n s (next x) acc swapped
    end.

(** (unsigned short) ~(acc & 0xFFFF) *)
Definition complement (acc : Z) : Z := u16 (Z.lnot (Z.land acc 65535)).

Definition inet_chksum_pbuf (s : nst) (p : Z) : outcome Z :=
  '(acc, swapped) ← chain_sum (cfuel s) s p 0 false;
  Ok (complement (if (swapped : bool) then swap16 acc else acc)).

Definition inet_chksum_pseudo (s : nst) (p src dest proto proto_len : Z) : outcome Z :=
  '(acc, swapped) ← chain_sum (cfuel s) s p 0 false;
  let acc := if (swapped : bool) then swap16 acc else acc in
  let acc := u32 (acc + Z.land src 65535) in
  let acc := u32 (acc + Z.land (Z.shiftr src 16) 65535) in
  let acc := u32 (acc + Z.land dest 65535) in
  let acc := u32 (acc + Z.land (Z.shiftr dest 16) 65535) in
  let acc := u32 (acc + htons proto) in
  let acc := u32 (acc + htons proto_len) in
  acc ← fold_loop 3 acc;
  Ok (complement acc).

Definition inet_chksum (m : cmem) (dataptr l : Z) : outcome Z :=
  acc ← chksum m dataptr l;
  acc ← fold_loop 3 acc;
  Ok (complement acc).

(** ** The reference (RFC 1071) *)

(** Addition of 16-bit words with the carry added back. *)
Definition onec_add (a b : Z) : Z := if a + b <? 65536 then a + b else a + b - 65535.

(** The 16-bit words of a sequence of bytes, padded with a zero byte. *)
Fixpoint words (bs : list Z) : list Z :=
  match bs with
  | [] => []
  | [b] => [b]
  | b0 :: b1 :: bs => (b0 + 256 * b1) :: words bs
  end.

Definition onec_sum (bs : list Z) : Z := fold_left onec_add (words bs) 0.
Definition rfc1071 (bs : list Z) : Z := 65535 - onec_sum bs.

Notation bytes_ok := (Forall (fun b => 0 <= b < 256)).

(** ** Sums modulo 65535

    [rep x t]: the word [x] stands for the sum [t]; 0 only for 0. *)
Definition rep (x t : Z) : Prop := 0 <= x <= 65535 /\ x mod 65535 = t mod 65535 /\ (x = 0 <-> t = 0).

Lemma rep_inj x y t : rep x t -> rep y t -> x = y.
Proof.
  intros (Hx & Hxm & Hx0) (Hy & Hym & Hy0). rewrite <- Hym in Hxm.
  destruct (decide (t = 0)) as [E|E]; [rewrite (proj2 Hx0 E), (proj2 Hy0 E); done|].
  assert (x <> 0 /\ y <> 0) as [? ?] by tauto. clear Hx0 Hy0 Hym.
  destruct (decide (x = 65535)) as [->|], (decide (y = 65535)) as [->|]; try done.
  - change (65535 mod 65535) with 0 in Hxm. rewrite (Z.mod_small y) in Hxm by lia. lia.
  - change (65535 mod 65535) with 0 in Hxm. rewrite (Z.mod_small x) in Hxm by lia. lia.
  - rewrite !Z.mod_small in Hxm by lia. done.
Qed.

Lemma fold16_val a : 0 <= a -> fold16 a = a / 65536 + a mod 65536.
Proof.
  intros Ha. unfold fold16. rewrite Z.shiftr_div_pow2 by lia.
  change 65535 with (Z.ones 16). rewrite Z.land_ones by lia. done.
Qed.

Lemma fold16_spec a : 0 <= a -> 0 <= fold16 a <= a /\ fold16 a mod 65535 = a mod 65535 /\
  (fold16 a = 0 <-> a = 0) /\ (a < 2 ^ 32 -> fold16 a <= 131070) /\
  (a <= 131070 -> fold16 a <= 65535) /\ (65535 < a -> fold16 a < a).
Proof.
  intros Ha. rewrite fold16_val by done. pose proof (Z.div_mod a 65536 ltac:(lia)) as E.
  pose proof (Z.mod_pos_bound a 65536 ltac:(lia)). pose proof (Z.div_pos a 65536 Ha ltac:(lia)).
  split; [lia|]. split.
  { rewrite E at 3. replace (65536 * (a / 65536) + a mod 65536)
      with (a / 65536 + a mod 65536 + a / 65536 * 65535) by lia. by rewrite Z.mod_add by lia. }
  split; [lia|]. split; [intros Hl; lia|]. split; [intros Hl|intros Hl; lia].
  assert (a / 65536 <= 1) by (apply Z.lt_succ_r, Z.div_lt_upper_bound; lia). lia.
Qed.

Lemma fold_loop_rep a : 0 <= a < 2 ^ 32 -> exists r, fold_loop 3 a = Ok r /\ rep r a.
Proof.
  intros Ha. assert (forall x, 0 <= x -> (Z.shiftr x 16 =? 0) = (x <=? 65535)) as Hs.
  { intros x Hx. rewrite Z.shiftr_div_pow2 by lia. change (2 ^ 16) with 65536.
    destruct (Z.leb_spec x 65535); [rewrite Z.div_small by lia; done|].
    apply Z.eqb_neq. pose proof (Z.div_le_lower_bound x 65536 1). lia. }
  cbn [fold_loop]. rewrite !Hs by (repeat apply fold16_spec; lia).
  destruct (fold16_spec a ltac:(lia)) as (R1 & M1 & Z1 & L1 & _ & _).
  destruct (fold16_spec (fold16 a) ltac:(lia)) as (R2 & M2 & Z2 & _ & L2 & _).
  destruct (Z.leb_spec a 65535); [exists a; split; [done|by split; [lia|]]|].
  destruct (Z.leb_spec (fold16 a) 65535); [exists (fold16 a); split; [done|]; split; [lia|done]|].
  rewrite (proj2 (Z.leb_le (fold16 (fold16 a)) 65535)) by (apply L2; apply L1; lia).
  eexists. split; [done|]. split; [specialize (L2 ltac:(apply L1; lia)); lia|].
  split; [congruence|tauto].
Qed.

(** The sum of the words of [bs] when its first byte is at an even ([false]) or
    odd ([true]) place. *)
Fixpoint psum (odd : bool) (bs : list Z) : Z :=
  match bs with
  | [] => 0
  | b :: bs => (if odd then 256 * b else b) + psum (negb odd) bs
  end.

Lemma psum_app o bs cs :
  psum o (bs ++ cs) = psum o bs + psum (xorb o (Nat.odd (length bs))) cs.
Proof.
  revert o. induction bs as [|b bs IH]; intros o; cbn [app psum length]; [by rewrite xorb_false_r|].
  rewrite IH, Nat.odd_succ, <- Nat.negb_odd.
  replace (xorb (negb o) (Nat.odd (length bs))) with (xorb o (negb (Nat.odd (length bs))))
    by (by destruct o, (Nat.odd (length bs))). lia.
Qed.

Lemma psum_nonneg o bs : bytes_ok bs -> 0 <= psum o bs.
Proof. intros H. revert o. induction H as [|b bs Hb _ IH]; intros o; cbn; [lia|]. specialize (IH (negb o)). destruct o; lia. Qed.

Lemma psum_zero o bs : bytes_ok bs -> psum o bs = 0 <-> psum (negb o) bs = 0.
Proof.
  intros H. revert o. induction H as [|b bs Hb Hbs IH]; intros o; cbn [psum]; [done|].
  pose proof (psum_nonneg o bs Hbs). pose proof (psum_nonneg (negb o) bs Hbs).
  specialize (IH o). rewrite negb_involutive. destruct o; cbn in *; lia.
Qed.

(** Moving by one place multiplies by 256, as 256 * 256 is 1 modulo 65535. *)
Lemma psum_shift bs : exists k, psum true bs = 256 * psum false bs - k * 65535 /\
  exists k', psum false bs = 256 * psum true bs - k' * 65535.
Proof.
  induction bs as [|b bs (k & Hk & k' & Hk')]; cbn [psum negb]; [exists 0; split; [done|by exists 0]|].
  exists k'. split; [lia|]. exists (k + b). lia.
Qed.

Lemma psum_bound bs : bytes_ok bs -> psum false bs <= 65535 * Z.of_nat (length bs).
Proof.
  intros H. enough (forall o, psum o bs <= 65535 * Z.of_nat (length bs)) by done.
  induction H as [|b bs Hb _ IH]; intros o; cbn [psum length]; [lia|]. specialize (IH (negb o)). destruct o; lia.
Qed.

Lemma words_sum bs : foldr Z.add 0 (words bs) = psum false bs.
Proof.
  assert (forall n bs, (length bs <= n)%nat -> foldr Z.add 0 (words bs) = psum false bs) as H; [|by apply (H (length bs))].
  induction n as [|n IH]; intros cs Hn; [by destruct cs; cbn in Hn; [|lia]|].
  destruct cs as [|b0 [|b1 cs]]; cbn [words foldr psum negb]; [done|done|].
  cbn in Hn. rewrite IH by lia. lia.
Qed.

Lemma words_ok bs : bytes_ok bs -> Forall (fun w => 0 <= w <= 65535) (words bs).
Proof.
  assert (forall n bs, (length bs <= n)%nat -> bytes_ok bs -> Forall (fun w => 0 <= w <= 65535) (words bs))
    as H; [|by apply (H (length bs))].
  induction n as [|n IH]; intros cs Hn Hc; [by destruct cs; cbn in Hn; [constructor|lia]|].
  destruct cs as [|b0 [|b1 cs]]; cbn [words]; [constructor| |].
  - apply Forall_cons in Hc as [? _]. constructor; [lia|constructor].
  - apply Forall_cons in Hc as [? Hc]. apply Forall_cons in Hc as [? Hc]. cbn in Hn.
    constructor; [lia|]. apply IH; [lia|done].
Qed.

(** The reference stands for the sum of the words. *)
Lemma onec_fold_rep l x t :
  Forall (fun w => 0 <= w <= 65535) l -> 0 <= t -> rep x t ->
  rep (fold_left onec_add l x) (t + foldr Z.add 0 l).
Proof.
  intros Hl. revert x t. induction Hl as [|w l Hw _ IH]; intros x t Ht Hr; cbn [fold_left foldr].
  { by rewrite Z.add_0_r. }
  rewrite Z.add_assoc. apply IH; [lia|]. destruct Hr as (Hx & Hm & H0).
  unfold onec_add. destruct (Z.ltb_spec (x + w) 65536).
  - split; [lia|]. split; [by rewrite Z.add_mod, Hm, <- Z.add_mod by lia|lia].
  - split; [lia|]. split; [|lia].
    replace (x + w - 65535) with (x + w + (-1) * 65535) by lia. rewrite Z.mod_add by lia.
    by rewrite Z.add_mod, Hm, <- Z.add_mod by lia.
Qed.

Lemma onec_sum_rep bs : bytes_ok bs -> rep (onec_sum bs) (psum false bs).
Proof.
  intros H. unfold onec_sum. rewrite <- words_sum. rewrite <- (Z.add_0_l (foldr _ _ _)).
  apply onec_fold_rep; [by apply words_ok|lia|]. split; [lia|done].
Qed.

(** ** The code computes the reference *)

Lemma log2_below a k i : 0 <= a < 2 ^ k -> 0 <= k <= i -> 0 < i -> Z.log2 a < i.
Proof.
  intros Ha Hk Hi. destruct (decide (a = 0)) as [->|]; [cbn; lia|]. apply Z.log2_lt_pow2; [lia|].
  apply Z.lt_le_trans with (2 ^ k); [lia|apply Z.pow_le_mono_r; lia].
Qed.

Lemma lor_bytes lo hi : 0 <= lo < 256 -> 0 <= hi < 256 -> Z.lor lo (Z.shiftl hi 8) = lo + 256 * hi.
Proof.
  intros Hl Hh. assert (Z.land lo (Z.shiftl hi 8) = 0) as E.
  { apply Z.bits_inj'. intros i Hi. rewrite Z.land_spec, Z.bits_0.
    destruct (decide (i < 8)); [by rewrite Z.shiftl_spec_low, andb_false_r|].
    rewrite (Z.bits_above_log2 lo); [done|lia|]. apply log2_below with 8; lia. }
  rewrite <- Z.lxor_lor, <- Z.add_nocarry_lxor by done. rewrite Z.shiftl_mul_pow2 by lia. lia.
Qed.

Lemma chksum_loop_ok n m p bs acc :
  bytes_at m p bs -> bytes_ok bs -> (length bs <= n)%nat -> 0 <= acc ->
  acc + psum false bs < 2 ^ 32 ->
  chksum_loop n m p (Z.of_nat (length bs)) acc = Ok (acc + psum false bs).
Proof.
  revert m p bs acc. induction n as [n IH] using lt_wf_ind. intros m p bs acc Hb Hok Hn Hacc Hlt.
  destruct bs as [|b0 [|b1 bs]]; cbn [length psum negb] in *.
  - destruct n; cbn; f_equal; lia.
  - destruct Hb as [Hb _]. apply Forall_cons in Hok as [? _]. destruct n; [lia|]. cbn [chksum_loop].
    cbn -[u32]. rewrite (ld_Some _ _ _ Hb). cbn -[u32]. rewrite u32_small by lia. f_equal. lia.
  - destruct Hb as (Hb0 & Hb1 & Hb). apply Forall_cons in Hok as [? Hok].
    apply Forall_cons in Hok as [? Hok]. destruct n as [|n]; [lia|]. cbn [chksum_loop].
    rewrite (proj2 (Z.ltb_lt 1 _)) by lia. rewrite (ld_Some _ _ _ Hb0), (ld_Some _ _ _ Hb1).
    cbn [mbind outcome_bind]. rewrite lor_bytes by done. pose proof (psum_nonneg false bs Hok).
    rewrite u32_small by lia. replace (p + 1 + 1) with (p + 2) in Hb by lia.
    replace (Z.of_nat (S (S (length bs))) - 2) with (Z.of_nat (length bs)) by lia.
    rewrite IH by (done || lia). f_equal. lia.
Qed.

(** A buffer whose sum fits the accumulator. *)
Definition fits (bs : list Z) : Prop := bytes_ok bs /\ Z.of_nat (length bs) <= 65535.

Lemma fits_sum bs : fits bs -> 0 <= psum false bs < 2 ^ 32.
Proof. intros [Hok Hl]. pose proof (psum_bound bs Hok). pose proof (psum_nonneg false bs Hok). lia. Qed.

Lemma chksum_rep m p bs :
  bytes_at m p bs -> fits bs -> exists c, chksum m p (Z.of_nat (length bs)) = Ok c /\ rep c (psum false bs).
Proof.
  intros Hb Hf. pose proof (fits_sum bs Hf) as Hs. destruct Hf as [Hok _]. unfold chksum.
  rewrite Nat2Z.id, (chksum_loop_ok _ m p bs 0) by (done || lia). cbn [mbind outcome_bind].
  rewrite Z.add_0_l. set (t := psum false bs) in *.
  destruct (fold16_spec t ltac:(lia)) as (R1 & M1 & Z1 & L1 & _ & _).
  destruct (fold16_spec (fold16 t) ltac:(lia)) as (R2 & M2 & Z2 & _ & L2 & _).
  assert (Z.land (fold16 t) 4294901760 = 0 <-> fold16 t <= 65535) as Hhi.
  { change 4294901760 with (Z.shiftl 65535 16). split.
    - intros E. assert (Z.shiftr (Z.land (fold16 t) (Z.shiftl 65535 16)) 16 = 0) as E' by (by rewrite E).
      rewrite Z.shiftr_land, Z.shiftr_shiftl_l, Z.shiftl_0_r in E' by lia.
      rewrite Z.shiftr_div_pow2 in E' by lia. change 65535 with (Z.ones 16) in E'.
      rewrite Z.land_ones, Z.mod_small in E' by
        (split; [apply Z.div_pos; lia|apply Z.div_lt_upper_bound; lia] || lia).
      apply Z.div_small_iff in E'; lia.
    - intros Hle. apply Z.bits_inj'. intros i Hi. rewrite Z.land_spec, Z.bits_0.
      destruct (decide (i < 16)); [by rewrite Z.shiftl_spec_low, andb_false_r by lia|].
      rewrite (Z.bits_above_log2 (fold16 t)); [done|lia|]. apply log2_below with 16; lia. }
  eexists. split; [done|]. destruct (Z.eqb_spec (Z.land (fold16 t) 4294901760) 0) as [E|E]; cbn [negb].
  - split; [lia|]. tauto.
  - split; [specialize (L2 ltac:(apply L1; lia)); lia|]. split; [congruence|tauto].
Qed.

Lemma swap16_val a : 0 <= a <= 65535 -> swap16 a = 256 * (a mod 256) + a / 256.
Proof.
  intros Ha. unfold swap16. change 255 with (Z.ones 8). rewrite Z.land_ones by lia.
  assert (Z.shiftr (Z.land a 65280) 8 = a / 256) as ->.
  { rewrite Z.shiftr_land. change (Z.shiftr 65280 8) with (Z.ones 8).
    rewrite Z.land_ones, Z.shiftr_div_pow2 by lia. change (2 ^ 8) with 256.
    apply Z.mod_small. split; [apply Z.div_pos; lia|apply Z.div_lt_upper_bound; lia]. }
  rewrite Z.lor_comm, lor_bytes; [change (2 ^ 8) with 256; lia| |].
  - split; [apply Z.div_pos; lia|apply Z.div_lt_upper_bound; lia].
  - apply Z.mod_pos_bound. lia.
Qed.

Lemma swap16_rep a o bs : bytes_ok bs -> rep a (psum o bs) -> rep (swap16 a) (psum (negb o) bs).
Proof.
  intros Hok (Ha & Hm & H0). rewrite swap16_val by done.
  pose proof (Z.div_mod a 256 ltac:(lia)) as E. pose proof (Z.mod_pos_bound a 256 ltac:(lia)).
  assert (0 <= a / 256 < 256) by (split; [apply Z.div_pos; lia|apply Z.div_lt_upper_bound; lia]).
  split; [lia|]. split; [|rewrite <- psum_zero, <- H0 by done; lia].
  assert (exists k, psum (negb o) bs = 256 * psum o bs - k * 65535) as [k ->].
  { destruct (psum_shift bs) as (k & Hk & k' & Hk'). destruct o; eauto. }
  replace (256 * psum o bs - k * 65535) with (256 * psum o bs + (- k) * 65535) by lia.
  rewrite Z.mod_add by lia. rewrite <- Zmult_mod_idemp_r, <- Hm, Zmult_mod_idemp_r.
  replace (256 * a) with (256 * (a mod 256) + a / 256 + a / 256 * 65535) by lia.
  by rewrite Z.mod_add by lia.
Qed.

Lemma rep_add a c t u : 0 <= t -> 0 <= u -> rep a t -> rep c u ->
  exists r, fold_loop 3 (u32 (a + c)) = Ok r /\ rep r (t + u).
Proof.
  intros Ht Hu (Ha & Hm & H0) (Hc & Hcm & Hc0). rewrite u32_small by lia.
  destruct (fold_loop_rep (a + c)) as (r & Hr & Hr1 & Hr2 & Hr3); [lia|]. exists r.
  split; [done|]. split; [done|]. split; [|lia].
  by rewrite Hr2, Z.add_mod, Hm, Hcm, <- Z.add_mod by lia.
Qed.

Lemma odd_rem n : negb (Z.rem (Z.of_nat n) 2 =? 0) = Nat.odd n.
Proof.
  rewrite Z.rem_mod_nonneg by lia. change 2 with (Z.of_nat 2). rewrite <- Nat2Z.inj_mod.
  rewrite <- Nat.bit0_odd, Nat.bit0_eqb.
  destruct (Nat.eqb_spec (n mod 2) 1) as [->|Hne]; [done|].
  pose proof (Nat.mod_upper_bound n 2 ltac:(lia)). replace (n mod 2)%nat with O by lia. done.
Qed.

Lemma chain_sum_ok n s p l bss pre acc :
  chain (pbs s) p l -> holds s l bss -> (length l <= n)%nat -> Forall fits bss -> bytes_ok pre ->
  rep acc (psum (Nat.odd (length pre)) pre) ->
  let all := pre ++ concat bss in
  exists r, chain_sum n s p acc (Nat.odd (length pre)) = Ok (r, Nat.odd (length all)) /\
    rep r (psum (Nat.odd (length all)) all).
Proof.
  revert n p bss pre acc. induction l as [|a l IH]; intros n p bss pre acc Hc Hh Hn Hf Hpre Hr all.
  { cbn in Hc. subst p. apply Forall2_nil_inv_l in Hh. subst bss all. cbn [concat]. rewrite app_nil_r.
    exists acc. by destruct n. }
  destruct n as [|n]; [cbn in Hn; lia|]. destruct Hc as (-> & Hnull & x & Hx & Hc).
  apply Forall2_cons_inv_l in Hh as (bs & bss' & (x' & Hx' & Hlx & Hb) & Hh & ->).
  rewrite Hx in Hx'. injection Hx' as <-. apply Forall_cons in Hf as [Hfb Hf].
  cbn [chain_sum]. rewrite (proj2 (Z.eqb_neq _ _) Hnull). unfold getp. rewrite Hx.
  cbn [from_opt mbind outcome_bind]. rewrite Hlx.
  destruct (chksum_rep (nmem s) (payload x) bs Hb Hfb) as (c & -> & Hcr). cbn [mbind outcome_bind].
  destruct Hfb as [Hbok _].
  destruct (rep_add acc c _ _ (psum_nonneg _ pre Hpre) (psum_nonneg false bs Hbok) Hr Hcr)
    as (r & -> & Hrr). cbn [mbind outcome_bind]. rewrite odd_rem.
  set (o := Nat.odd (length pre)) in *.
  replace (psum o pre + psum false bs) with (psum o (pre ++ bs)) in Hrr
    by (rewrite psum_app; fold o; by rewrite xorb_nilpotent).
  assert (bytes_ok (pre ++ bs)) as Hpb by (by apply Forall_app).
  assert (Nat.odd (length (pre ++ bs)) = xorb o (Nat.odd (length bs))) as Ho
    by (rewrite length_app, Nat.odd_add; done).
  assert (all = (pre ++ bs) ++ concat bss') as -> by (unfold all; cbn; by rewrite app_assoc).
  assert (length l <= n)%nat as Hn' by (cbn in Hn; lia).
  destruct (Nat.odd (length bs)) eqn:Eo.
  - rewrite xorb_true_r in Ho. rewrite <- Ho. apply (IH n (next x) bss' (pre ++ bs)); try done.
    rewrite Ho. by apply swap16_rep.
  - rewrite xorb_false_r in Ho. rewrite <- Ho. apply (IH n (next x) bss' (pre ++ bs)); try done.
    by rewrite Ho.
Qed.

Lemma chain_sum_whole s p l bss :
  chain (pbs s) p l -> holds s l bss -> Forall fits bss ->
  exists acc sw, chain_sum (cfuel s) s p 0 false = Ok (acc, sw) /\
    rep (if sw then swap16 acc else acc) (psum false (concat bss)).
Proof.
  intros Hc Hh Hf. pose proof (chain_fuel s p l Hc).
  assert (bytes_ok (concat bss)) as Hok.
  { apply Forall_concat. eapply Forall_impl; [exact Hf|]. by intros bs [? _]. }
  destruct (chain_sum_ok (cfuel s) s p l bss [] 0) as (acc & He & Hr); try done; [lia|].
  cbn [app length] in *. exists acc, (Nat.odd (length (concat bss))). split; [exact He|].
  destruct (Nat.odd (length (concat bss))); [|exact Hr]. apply (swap16_rep _ true); done.
Qed.

Lemma complement_rep r t bs : rep r t -> rep (onec_sum bs) t -> complement r = rfc1071 bs.
Proof.
  intros Hr Hs. rewrite (rep_inj _ _ _ Hr Hs) in *. destruct Hs as (Hs & _).
  unfold complement, rfc1071, u16. change 65535 with (Z.ones 16) at 1. rewrite Z.land_ones by lia.
  rewrite (Z.mod_small (onec_sum bs) (2 ^ 16)) by lia. unfold Z.lnot.
  rewrite <- (Z.mod_add _ 1) by lia. rewrite Z.mod_small by lia. lia.
Qed.

(** C27: the checksum of a packet kept in a chain of buffers of any lengths, which
    the code sums buffer by buffer and byte-swaps after each odd one, is the
    checksum RFC 1071 defines for the bytes of the packet in one piece. *)
Theorem inet_chksum_pbuf_rfc1071 s p l bss :
  chain (pbs s) p l -> holds s l bss -> Forall fits bss ->
  inet_chksum_pbuf s p = Ok (rfc1071 (concat bss)).
Proof.
  intros Hc Hh Hf. unfold inet_chksum_pbuf.
  destruct (chain_sum_whole s p l bss Hc Hh Hf) as (acc & sw & -> & Hr). cbn [mbind outcome_bind].
  f_equal. eapply complement_rep; [exact Hr|]. apply onec_sum_rep, Forall_concat.
  eapply Forall_impl; [exact Hf|]. by intros bs [? _].
Qed.

Lemma inet_chksum_pbuf_rfc1071_witness : inet_chksum_pbuf two_bufs 64 = Ok (rfc1071 [1; 2; 3; 4; 5]).
Proof.
  apply (inet_chksum_pbuf_rfc1071 two_bufs 64 [64; 128] [[1; 2; 3]; [4; 5]] two_bufs_chain two_bufs_holds).
  repeat constructor; cbn; lia.
Defined.

Lemma inet_chksum_ok m p bs :
  bytes_at m p bs -> fits bs -> inet_chksum m p (Z.of_nat (length bs)) = Ok (rfc1071 bs).
Proof.
  intros Hb Hf. unfold inet_chksum. destruct (chksum_rep m p bs Hb Hf) as (c & -> & Hc).
  cbn [mbind outcome_bind]. destruct Hc as (Hc & Hm & H0).
  destruct (fold_loop_rep c) as (r & -> & Hr & Hrm & Hr0); [lia|]. cbn [mbind outcome_bind]. f_equal.
  destruct Hf as [Hok _]. eapply complement_rep; [|by apply onec_sum_rep].
  split; [done|]. split; [congruence|tauto].
Qed.

(** Storing a 16-bit word at an even place whose bytes were 0 adds it to the sum. *)
Lemma psum_patch a b w :
  Nat.even (length a) = true -> 0 <= w < 65536 ->
  psum false (a ++ [w mod 256; w / 256] ++ b) = psum false (a ++ [0; 0] ++ b) + w.
Proof.
  intros Ha Hw. rewrite !psum_app. rewrite <- Nat.negb_even, Ha. cbn [xorb negb psum length Nat.odd].
  pose proof (Z.div_mod w 256 ltac:(lia)). cbn. lia.
Qed.

(** The checksum makes the sum all ones. *)
Lemma rfc1071_patch a b :
  bytes_ok (a ++ [0; 0] ++ b) -> Nat.even (length a) = true ->
  let cs := rfc1071 (a ++ [0; 0] ++ b) in
  0 <= cs < 65536 /\ bytes_ok (a ++ [cs mod 256; cs / 256] ++ b) /\ rfc1071 (a ++ [cs mod 256; cs / 256] ++ b) = 0.
Proof.
  intros Hok Ha cs. destruct (onec_sum_rep _ Hok) as (Hs & Hsm & Hs0). set (t := psum false _) in *.
  assert (0 <= cs < 65536) as Hcs by (unfold cs, rfc1071; lia).
  assert (bytes_ok (a ++ [cs mod 256; cs / 256] ++ b)) as Hok'.
  { apply Forall_app in Hok as [Hoa Hok].
    apply Forall_app in Hok as [_ Hob]. apply Forall_app. split; [done|]. apply Forall_app. split; [|done].
    pose proof (Z.mod_pos_bound cs 256 ltac:(lia)).
    assert (0 <= cs / 256 < 256) by (split; [apply Z.div_pos; lia|apply Z.div_lt_upper_bound; lia]).
    constructor; [done|]. constructor; [done|constructor]. }
  split; [done|]. split; [done|]. unfold rfc1071 at 1.
  pose proof (onec_sum_rep _ Hok') as Hr. rewrite psum_patch in Hr by done. fold t in Hr.
  rewrite (rep_inj _ 65535 _ Hr); [lia|]. pose proof (psum_nonneg false _ Hok) as Ht. fold t in Ht.
  split; [lia|]. unfold cs, rfc1071. split; [|lia].
  rewrite <- Z.add_mod_idemp_l, <- Hsm, Z.add_mod_idemp_l by lia.
  by replace (onec_sum (a ++ [0; 0] ++ b) + (65535 - onec_sum (a ++ [0; 0] ++ b))) with 65535 by lia.
Qed.

(** a packet verifies: when the checksum of a packet whose checksum field (at
    an even place) is 0 is stored in that field, the checksum of the packet
    becomes 0, which is what the receiver tests. *)
Theorem inet_chksum_verifies m p a b cs m' :
  fits (a ++ [0; 0] ++ b) -> Nat.even (length a) = true -> bytes_at m p (a ++ [0; 0] ++ b) ->
  inet_chksum m p (Z.of_nat (length (a ++ [0; 0] ++ b))) = Ok cs ->
  bytes_at m' p (a ++ [cs mod 256; cs / 256] ++ b) ->
  inet_chksum m' p (Z.of_nat (length (a ++ [0; 0] ++ b))) = Ok 0.
Proof.
  intros Hf Ha Hm Hcs Hm'. rewrite (inet_chksum_ok m p _ Hm Hf) in Hcs.
  destruct Hf as [Hok Hl]. destruct (rfc1071_patch a b Hok Ha) as (_ & Hok' & Hz). assert (rfc1071 (a ++ [0; 0] ++ b) = cs) as Ec by congruence.
  rewrite Ec in Hok', Hz.
  assert (length (a ++ [0; 0] ++ b) = length (a ++ [cs mod 256; cs / 256] ++ b)) as El by (by rewrite !length_app).
  rewrite El, (inet_chksum_ok m' p _ Hm'); [by rewrite Hz|]. split; [done|by rewrite <- El].
Qed.

(** A packet of six bytes at 100, its checksum field in the middle. *)
Definition packet (lo hi : Z) : cmem :=
  list_to_map [(100, 69); (101, 1); (102, lo); (103, hi); (104, 255); (105, 7)].

Lemma inet_chksum_verifies_witness :
  inet_chksum (packet 0 0) 100 6 = Ok 63163 /\
  inet_chksum (packet (63163 mod 256) (63163 / 256)) 100 6 = Ok 0.
Proof.
  split; [vm_compute; reflexivity|].
  apply (inet_chksum_verifies (packet 0 0) 100 [69; 1] [255; 7] 63163);
    [|reflexivity|repeat split|vm_compute; reflexivity|repeat split].
  split; [|cbn; lia]. repeat (constructor; [lia|]). constructor.
Defined.

(** ** Byte order round trips *)

Lemma htons_val n : 0 <= n < 65536 -> htons n = 256 * (n mod 256) + n / 256.
Proof. intros Hn. apply swap16_val. lia. Qed.

Lemma ntohs_htons n : 0 <= n < 65536 -> ntohs (htons n) = n.
Proof.
  intros Hn. pose proof (Z.div_mod n 256 ltac:(lia)). pose proof (Z.mod_pos_bound n 256 ltac:(lia)).
  assert (0 <= n / 256 < 256) by (split; [apply Z.div_pos; lia|apply Z.div_lt_upper_bound; lia]).
  change ntohs with htons. rewrite (htons_val n), htons_val by lia.
  replace (256 * (n mod 256) + n / 256) with (n / 256 + n mod 256 * 256) by lia.
  rewrite Z.mod_add, Z.div_add by lia. rewrite (Z.mod_small (n / 256)), (Z.div_small (n / 256)) by lia. lia.
Qed.
