(* ===== verification/PbufPool.v ===== *)
(** * The pool of packet buffers: who owns a buffer

    The safety of net/pbuf.c (Pbuf.v): every pool buffer is free (in the pool or
    in the cache of the allocator) or part of one live packet, along all runs of
    the operations. *)

From S2P Require Import Prelude CStr Pbuf.

(** ** Who owns which buffer

    [P], [A], [F]: the buffers of the pool, the allocation cache and the free
    cache; [Cs]: the live chains. *)
Record owns (s : nst) (P A F : list Z) (Cs : list (list Z)) : Prop := {
  o_pool : chain (pbs s) (pbuf_pool s) P;
  o_ac : chain (pbs s) (alloc_cache s) A;
  o_fc : chain (pbs s) (free_cache s) F;
  o_cs : Forall (fun c => chain (pbs s) (hd NULL c) c) Cs;
  o_nd : NoDup (P ++ A ++ F ++ concat Cs);
  o_locks : free_lock s = 0 /\ alloc_lock s = 0 }.

Definition pooled (m : store) (a : Z) : bool :=
  match m !! a with Some x => flags x =? PBUF_FLAG_POOL | None => false end.

(** The pool buffers in use. *)
Definition inuse (s : nst) (Cs : list (list Z)) : list Z := List.filter (pooled (pbs s)) (concat Cs).

(** No buffer of the pool [B] is lost, and the statistics count the used ones. *)
Record counts (B : list Z) (s : nst) (P A F : list Z) (Cs : list (list Z)) : Prop := {
  c_perm : P ++ A ++ F ++ inuse s Cs ≡ₚ B;
  c_used : used (stat s) = Z.of_nat (length (inuse s Cs));
  c_small : Z.of_nat (length B) < 2 ^ 32 }.

Definition pinv (B : list Z) (s : nst) (P A F : list Z) (Cs : list (list Z)) : Prop :=
  owns s P A F Cs /\ counts B s P A F Cs.

Lemma filter_agree (m m' : store) l :
  (forall a, a ∈ l -> pooled m' a = pooled m a) -> List.filter (pooled m') l = List.filter (pooled m) l.
Proof. intros H. apply List.filter_ext_in. intros a Ha. by apply H, list_elem_of_In. Qed.

(** Writing a field other than [next] and [flags]. *)
Lemma pinv_put_same B s P A F Cs a x y :
  pinv B s P A F Cs -> pbs s !! a = Some x -> next y = next x -> flags y = flags x ->
  pinv B (putp s a y) P A F Cs.
Proof.
  intros [[H1 H2 H3 H4 H5 H6] [H7 H8 H9]] Hx Hn Hf.
  assert (inuse (putp s a y) Cs = inuse s Cs) as E.
  { apply filter_agree. intros b _. unfold pooled. cbn. destruct (decide (a = b)) as [<-|Hne].
    - by rewrite lookup_insert_eq, Hx, Hf.
    - by rewrite lookup_insert_ne. }
  split; split; cbn; try done; try (by eapply seg_put_same).
  - eapply Forall_impl; [exact H4|]. intros c Hc. by eapply seg_put_same.
  - by rewrite E.
  - by rewrite E.
Qed.

Lemma pinv_stat B s P A F Cs t :
  pinv B s P A F Cs -> used t = used (stat s) -> pinv B (set_stat s t) P A F Cs.
Proof. intros [[] []] Ht. split; split; cbn; try done. by rewrite Ht. Qed.

(** The chains that do not contain [a] are not affected by a write of [a]. *)
Lemma owns_elsewhere s P A F Cs a :
  owns s P A F Cs -> a ∉ P ++ A ++ F ++ concat Cs ->
  a ∉ P /\ a ∉ A /\ a ∉ F /\ Forall (fun c => a ∉ c) Cs.
Proof.
  intros _ Ha. rewrite !not_elem_of_app in Ha. destruct Ha as (? & ? & ? & Hc). split_and!; try done.
  apply Forall_forall. intros c Hcs Hac. apply Hc. apply list_elem_of_In, in_concat.
  exists c. by rewrite <- !list_elem_of_In.
Qed.

Lemma chains_put (m : store) Cs a y :
  Forall (fun c => a ∉ c) Cs -> Forall (fun c => chain m (hd NULL c) c) Cs ->
  Forall (fun c => chain (<[a := y]> m) (hd NULL c) c) Cs.
Proof.
  intros Hn Hc. eapply Forall_impl; [apply Forall_and; split; [exact Hn|exact Hc]|].
  intros c [Ha Hch]. by apply seg_put.
Qed.

Lemma chains_del (m : store) Cs a :
  Forall (fun c => a ∉ c) Cs -> Forall (fun c => chain m (hd NULL c) c) Cs ->
  Forall (fun c => chain (delete a m) (hd NULL c) c) Cs.
Proof.
  intros Hn Hc. eapply Forall_impl; [apply Forall_and; split; [exact Hn|exact Hc]|].
  intros c [Ha Hch]. by apply seg_del.
Qed.

Lemma not_in_concat (a : Z) Cs : a ∉ concat Cs <-> Forall (fun c => a ∉ c) Cs.
Proof.
  rewrite Forall_forall. split.
  - intros Hn c Hc Ha. apply Hn. apply list_elem_of_In, in_concat. exists c. by rewrite <- !list_elem_of_In.
  - intros H Ha. apply list_elem_of_In, in_concat in Ha as (c & Hc & Ha). rewrite <- !list_elem_of_In in *.
    by apply (H c).
Qed.

Lemma nodup_out (x : Z) l1 l2 : NoDup (l1 ++ x :: l2) -> x ∉ l1 ++ l2.
Proof. intros H. rewrite <- Permutation_middle in H. by apply NoDup_cons in H as [H _]. Qed.

(** ** Taking a buffer *)

Lemma pool_alloc_ok s P A F Cs :
  owns s P A F Cs ->
  (P = [] /\ A = [] /\ pbuf_pool_alloc s = Ok (NULL, s)) \/
  (exists q y P' A' s', pbuf_pool_alloc s = Ok (q, s') /\ q <> NULL /\ pbs s !! q = Some y /\
    P ++ A ≡ₚ q :: P' ++ A' /\ owns s' P' A' F Cs /\ q ∉ P' ++ A' ++ F ++ concat Cs /\
    pbs s' = pbs s /\ used (stat s') = u32 (used (stat s) + 1)).
Proof.
  intros [H1 H2 H3 H4 H5 [H6 H7]]. unfold pbuf_pool_alloc, getp.
  destruct (Z.eqb_spec (alloc_cache s) NULL) as [Ea|Ea]; cbn [negb].
  - rewrite Ea in H2. apply chain_nil in H2 as ->. rewrite H6. cbn [Z.eqb negb].
    destruct (Z.eqb_spec (pbuf_pool s) NULL) as [Ep|Ep].
    + rewrite Ep in H1. apply chain_nil in H1 as ->. left. done.
    + right. apply chain_cons in H1 as (y & P' & -> & Hy & H1); [|done].
      rewrite Hy. cbn [from_opt mbind outcome_bind]. rewrite (proj2 (Z.eqb_neq _ _) Ep).
      cbn [app] in H5. apply NoDup_cons in H5 as [Hn H5].
      exists (pbuf_pool s), y, P', []. eexists. split_and!; try done.
  - right. apply chain_cons in H2 as (y & A' & -> & Hy & H2); [|done].
    rewrite Hy. cbn [from_opt mbind outcome_bind]. rewrite (proj2 (Z.eqb_neq _ _) Ea).
    cbn [app] in H5. pose proof (nodup_out _ _ _ H5) as Hn. rewrite <- Permutation_middle in H5.
    apply NoDup_cons in H5 as [_ H5].
    exists (alloc_cache s), y, P, A'. eexists. split_and!; try done. symmetry. apply Permutation_middle.
Qed.

(** A fresh buffer is linked behind the last one, [r], of the chain in progress. *)
Lemma owns_grow s P A F c r Cs q x y' :
  owns s P A F ((c ++ [r]) :: Cs) -> q <> NULL -> q ∉ P ++ A ++ F ++ concat ((c ++ [r]) :: Cs) ->
  pbs s !! r = Some x -> next y' = NULL ->
  owns (putp (putp s r (set_next x q)) q y') P A F ((c ++ [r; q]) :: Cs).
Proof.
  intros O Hq0 Hq Hx Hy'. destruct (owns_elsewhere _ _ _ _ _ _ O Hq) as (HqP & HqA & HqF & HqC).
  apply Forall_cons in HqC as [Hqc HqC]. destruct O as [H1 H2 H3 H4 H5 H6].
  apply Forall_cons in H4 as [Hc H4]. cbn [concat] in H5, Hq.
  replace (P ++ A ++ F ++ (c ++ [r]) ++ concat Cs) with ((P ++ A ++ F ++ c) ++ r :: concat Cs) in H5
    by (by rewrite <- !app_assoc).
  pose proof (nodup_out _ _ _ H5) as Hr. rewrite !not_elem_of_app, not_in_concat in Hr.
  destruct Hr as ((HrP & HrA & HrF & Hrc) & HrC). rewrite not_elem_of_app in Hqc.
  destruct Hqc as [Hqc Hqr]. apply not_elem_of_cons in Hqr as [Hqr _].
  split; cbn [putp pbs set_pbs pbuf_pool alloc_cache free_cache free_lock alloc_lock]; try done;
    try (by repeat apply seg_put).
  - constructor; [|by apply chains_put, chains_put].
    apply seg_app in Hc as (r' & Hc & Hr'). pose proof Hr' as (-> & Hr0 & _).
    replace (hd NULL (c ++ [r; q])) with (hd NULL (c ++ [r])) by (by destruct c).
    apply seg_app. exists r. split; [by repeat apply seg_put|]. split; [done|]. split; [done|].
    exists (set_next x q). rewrite lookup_insert_ne, lookup_insert_eq by done. split; [done|].
    split; [done|]. split; [done|]. exists y'. rewrite lookup_insert_eq. split; [done|].
    by rewrite Hy'.
  - cbn [concat]. replace (P ++ A ++ F ++ (c ++ [r; q]) ++ concat Cs)
      with ((P ++ A ++ F ++ c ++ [r]) ++ q :: concat Cs) by (by rewrite <- !app_assoc).
    rewrite <- Permutation_middle. apply NoDup_cons. split.
    + rewrite <- !app_assoc in *. exact Hq.
    + by rewrite <- !app_assoc in *.
Qed.

Lemma pooled_put_same (m : store) r x y a :
  m !! r = Some x -> flags y = flags x -> pooled (<[r := y]> m) a = pooled m a.
Proof.
  intros Hx Hf. unfold pooled. destruct (decide (r = a)) as [<-|].
  - by rewrite lookup_insert_eq, Hx, Hf.
  - by rewrite lookup_insert_ne.
Qed.

Lemma inuse_grow s c r q Cs x y' :
  pbs s !! r = Some x -> flags y' = PBUF_FLAG_POOL -> q ∉ (c ++ [r]) ++ concat Cs ->
  inuse (putp (putp s r (set_next x q)) q y') ((c ++ [r; q]) :: Cs) ≡ₚ q :: inuse s ((c ++ [r]) :: Cs).
Proof.
  intros Hx Hy Hq. unfold inuse. cbn [concat putp pbs set_pbs].
  set (m' := <[q := y']> _). assert (pooled m' q = true) as Hpq
    by (unfold pooled, m'; rewrite lookup_insert_eq; by apply Z.eqb_eq).
  assert (forall a, a ∈ (c ++ [r]) ++ concat Cs -> pooled m' a = pooled (pbs s) a) as Hag.
  { intros a Ha. unfold m'. assert (q <> a) by (by intros ->). unfold pooled at 1.
    rewrite lookup_insert_ne by done. by apply (pooled_put_same (pbs s) r x). }
  replace ((c ++ [r; q]) ++ concat Cs) with ((c ++ [r]) ++ q :: concat Cs) by (by rewrite <- !app_assoc).
  rewrite List.filter_app. cbn [List.filter]. rewrite Hpq. rewrite <- Permutation_middle.
  rewrite <- List.filter_app. by rewrite (filter_agree (pbs s) m') by done.
Qed.

(** ** Giving an unfinished chain back *)

Lemma filter_all (m : store) l : Forall (fun a => pooled m a = true) l -> List.filter (pooled m) l = l.
Proof. induction 1 as [|a l Ha _ IH]; [done|]. cbn. by rewrite Ha, IH. Qed.

Lemma pool_free_ok B s P A Cs c :
  pinv B s P A [] (c :: Cs) -> Forall (fun a => pooled (pbs s) a = true) c ->
  exists s', pbuf_pool_free s (hd NULL c) = Ok s' /\ pinv B s' P (A ++ c) [] Cs.
Proof.
  intros [O [Cp Cu Csm]] Hall. pose proof O as [H1 H2 H3 H4 H5 H6].
  apply Forall_cons in H4 as [Hc H4]. unfold pbuf_pool_free.
  rewrite (clen_ok _ _ _ c Hc) by (pose proof (chain_fuel s _ _ Hc); lia). cbn [mbind outcome_bind].
  assert (inuse s (c :: Cs) = c ++ inuse s Cs) as Hin.
  { unfold inuse. cbn. by rewrite List.filter_app, filter_all. }
  rewrite Hin in *. rewrite length_app in Cu.
  assert (length c + length (inuse s Cs) <= length B)%nat as HlB.
  { rewrite <- Cp. rewrite !length_app. lia. }
  set (t := count_used (stat s) (- Z.of_nat (length c))).
  assert (used t = Z.of_nat (length (inuse s Cs))) as Ht.
  { cbn. rewrite u32_small by lia. lia. }
  assert (P ++ (A ++ c) ++ [] ++ inuse s Cs ≡ₚ B) as Hperm by (rewrite <- Cp; cbn; by rewrite <- app_assoc).
  assert (NoDup (P ++ (A ++ c) ++ [] ++ concat Cs)) as Hnd by (cbn in *; by rewrite <- app_assoc).
  change (alloc_cache (set_stat s t)) with (alloc_cache s).
  destruct (Z.eqb_spec (alloc_cache s) NULL) as [Ea|Ea].
  - rewrite Ea in H2. apply chain_nil in H2 as ->. eexists. split; [done|]. by split; split.
  - destruct A as [|z A _] using rev_ind; [by cbn in H2|].
    destruct (link_last_ok (set_stat s t) (alloc_cache s) (hd NULL c) A z c) as (x & Hx & -> & Hch); [done|done| |].
    { intros a Ha Hac. cbn in H5. apply NoDup_app in H5 as (_ & _ & H5).
      apply NoDup_app in H5 as (_ & H5 & _). apply (H5 a Ha). apply elem_of_app. by left. }
    cbn [pbs set_stat] in Hx, Hch. eexists. split; [done|].
    assert (z ∉ P ++ A ++ c ++ concat Cs) as Hz.
    { cbn in H5. replace (P ++ (A ++ [z]) ++ c ++ concat Cs) with ((P ++ A) ++ z :: c ++ concat Cs) in H5
        by (by rewrite <- !app_assoc). apply nodup_out in H5. by rewrite <- app_assoc in H5. }
    rewrite !not_elem_of_app, not_in_concat in Hz. destruct Hz as (HzP & HzA & Hzc & HzC).
    assert (inuse (putp (set_stat s t) z (set_next x (hd NULL c))) Cs = inuse s Cs) as Hin'.
    { apply filter_agree. intros a _. by apply (pooled_put_same _ _ x). }
    split; split; try done; try (by rewrite Hin'); cbn.
    + by apply seg_put.
    + by apply chains_put.
Qed.

(** ** Allocating a chain from the pool *)

Definition lensum (m : store) (l : list Z) : Z :=
  foldr (fun a t => default 0 (len <$> m !! a) + t) 0 l.

Lemma lensum_app m l1 l2 : lensum m (l1 ++ l2) = lensum m l1 + lensum m l2.
Proof. unfold lensum. induction l1 as [|a l1 IH]; cbn; [done|]. rewrite IH. lia. Qed.

Lemma lensum_agree (m m' : store) l :
  (forall a, a ∈ l -> len <$> m' !! a = len <$> m !! a) -> lensum m' l = lensum m l.
Proof.
  unfold lensum. induction l as [|a l IH]; intros H; cbn; [done|]. rewrite H by left. rewrite IH; [done|].
  intros b Hb. apply H. by right.
Qed.

(** The buffers of the pool that [sz] bytes take. *)
Definition need (sz : Z) : nat := Z.to_nat ((sz `max` 0 + 127) / 128).

Lemma need_zero sz : sz <= 0 -> need sz = O.
Proof. intros H. unfold need. by rewrite Z.max_r by lia. Qed.

Lemma need_succ sz : 0 < sz -> need sz = S (need (sz - 128)).
Proof.
  intros H. unfold need. rewrite Z.max_l by lia. destruct (decide (sz <= 128)).
  - rewrite Z.max_r by lia. change ((0 + 127) / 128) with 0.
    replace ((sz + 127) / 128) with 1; [done|]. apply Z.div_unique with (sz - 1); lia.
  - rewrite Z.max_l by lia. replace (sz + 127) with (sz - 128 + 127 + 1 * 128) by lia.
    rewrite Z.div_add by lia. pose proof (Z.div_pos (sz - 128 + 127) 128 ltac:(lia) ltac:(lia)). lia.
Qed.

(** What one more buffer adds to the books. *)
Lemma pinv_grow B s s0 P A P0 A0 c r Cs q x y' :
  pinv B s P A [] ((c ++ [r]) :: Cs) -> P ++ A ≡ₚ q :: P0 ++ A0 -> q <> NULL ->
  owns s0 P0 A0 [] ((c ++ [r]) :: Cs) -> q ∉ P0 ++ A0 ++ [] ++ concat ((c ++ [r]) :: Cs) ->
  pbs s0 = pbs s -> used (stat s0) = u32 (used (stat s) + 1) ->
  pbs s !! r = Some x -> next y' = NULL -> flags y' = PBUF_FLAG_POOL ->
  pinv B (putp (putp s0 r (set_next x q)) q y') P0 A0 [] ((c ++ [r; q]) :: Cs).
Proof.
  intros [O [Cp Cu Csm]] Hp Hq O0 Hn Hpb Hu Hx Hy Hf. split.
  - apply owns_grow; try done. by rewrite Hpb.
  - assert (inuse s0 ((c ++ [r]) :: Cs) = inuse s ((c ++ [r]) :: Cs)) as E by (unfold inuse; by rewrite Hpb).
    assert (inuse (putp (putp s0 r (set_next x q)) q y') ((c ++ [r; q]) :: Cs)
            ≡ₚ q :: inuse s ((c ++ [r]) :: Cs)) as Hi.
    { rewrite inuse_grow; [by rewrite E|by rewrite Hpb|done|].
      cbn [concat app] in Hn. rewrite !not_elem_of_app in Hn. rewrite !not_elem_of_app. tauto. }
    assert (P0 ++ A0 ++ [] ++ inuse (putp (putp s0 r (set_next x q)) q y') ((c ++ [r; q]) :: Cs) ≡ₚ B) as Hpm.
    { rewrite Hi. rewrite <- Cp. cbn [app]. rewrite (app_assoc P A), Hp. cbn [app].
      rewrite app_assoc. by rewrite <- Permutation_middle. }
    split; [done| |done]. rewrite Hi. cbn [length].
    change (used (stat (putp (putp s0 r (set_next x q)) q y'))) with (used (stat s0)).
    rewrite Hu, Cu. apply Permutation_length in Hpm. rewrite Hi, !length_app in Hpm. cbn [length] in Hpm.
    rewrite u32_small by lia. lia.
Qed.

Lemma lensum_grow (m : store) c r q x y' :
  q ∉ c ++ [r] -> m !! r = Some x ->
  lensum (<[q := y']> (<[r := set_next x q]> m)) (c ++ [r; q]) = lensum m (c ++ [r]) + len y'.
Proof.
  intros Hq Hx. replace (c ++ [r; q]) with ((c ++ [r]) ++ [q]) by (by rewrite <- app_assoc).
  rewrite lensum_app. f_equal.
  - apply lensum_agree. intros a Ha. rewrite lookup_insert_ne by (by intros ->).
    destruct (decide (r = a)) as [<-|]; [by rewrite lookup_insert_eq, Hx|by rewrite lookup_insert_ne].
  - unfold lensum. cbn. rewrite lookup_insert_eq. cbn. lia.
Qed.

Lemma all_pooled_grow (m : store) c r q x y' :
  m !! r = Some x -> flags y' = PBUF_FLAG_POOL -> Forall (fun a => pooled m a = true) (c ++ [r]) ->
  Forall (fun a => pooled (<[q := y']> (<[r := set_next x q]> m)) a = true) (c ++ [r; q]).
Proof.
  intros Hx Hf Hall. replace (c ++ [r; q]) with ((c ++ [r]) ++ [q]) by (by rewrite <- app_assoc).
  assert (forall a, a = q \/ pooled m a = true ->
    pooled (<[q := y']> (<[r := set_next x q]> m)) a = true) as Hp.
  { intros a Ha. unfold pooled. destruct (decide (q = a)) as [<-|Hn].
    - rewrite lookup_insert_eq. by apply Z.eqb_eq.
    - rewrite lookup_insert_ne by done. fold (pooled (<[r := set_next x q]> m) a).
      rewrite (pooled_put_same _ _ x) by done. destruct Ha; [congruence|done]. }
  apply Forall_app. split; [|constructor; [apply Hp; by left|constructor]].
  eapply Forall_impl; [exact Hall|]. intros a Ha. apply Hp. by right.
Qed.

(** The reference count and the total length of a buffer, as far as it is there. *)
Definition rt (m : store) (a : Z) : option (Z * Z) := (fun x => (ref x, tot_len x)) <$> m !! a.

(** The loop of pbuf_alloc has built the whole chain. *)
Definition tail_done (B : list Z) (s : nst) (Cs : list (list Z)) (c : list Z) (r rsize : Z)
    (res : outcome (option Z * nst)) (used_up : nat) : Prop :=
  exists e c' z s' P' A', res = Ok (Some z, s') /\ c' ++ [z] = (c ++ [r]) ++ e /\
    pinv B s' P' A' [] ((c' ++ [z]) :: Cs) /\ Forall (fun a => pooled (pbs s') a = true) (c' ++ [z]) /\
    length e = need rsize /\ (length P' + length A' + need rsize = used_up)%nat /\
    lensum (pbs s') (c' ++ [z]) = lensum (pbs s) (c ++ [r]) + (rsize `max` 0) /\
    (forall a, a ∈ c ++ [r] -> rt (pbs s') a = rt (pbs s) a).

Lemma tail_done_step B s s1 Cs c r q rsize l res k :
  0 < rsize -> l = (if PBUF_POOL_BUFSIZE <? rsize then PBUF_POOL_BUFSIZE else rsize) ->
  lensum (pbs s1) (c ++ [r; q]) = lensum (pbs s) (c ++ [r]) + l ->
  (forall a, a ∈ c ++ [r] -> rt (pbs s1) a = rt (pbs s) a) ->
  tail_done B s1 Cs (c ++ [r]) q (rsize - PBUF_POOL_BUFSIZE) res k ->
  tail_done B s Cs c r rsize res (S k).
Proof.
  intros Hr Hl Hls Hrt (e & c' & z & s' & P' & A' & -> & Hc & I & Hall & He & Hk & Hls' & Hrt').
  change PBUF_POOL_BUFSIZE with 128 in *.
  exists (q :: e), c', z, s', P', A'. rewrite (need_succ _ Hr). split_and!; try done.
  - rewrite Hc. by rewrite <- !app_assoc.
  - cbn. lia.
  - lia.
  - rewrite Hls'. rewrite <- app_assoc. cbn [app]. rewrite Hls, Hl. destruct (Z.ltb_spec 128 rsize); lia.
  - intros a Ha. rewrite Hrt' by (apply elem_of_app; by left). by apply Hrt.
Qed.

(** The loop of pbuf_alloc finishes: with the whole chain when the pool has
    enough buffers, and with every buffer given back when it has not. *)
Lemma alloc_tail_ok B n s P A Cs c r rsize :
  pinv B s P A [] ((c ++ [r]) :: Cs) -> Forall (fun a => pooled (pbs s) a = true) (c ++ [r]) ->
  (length P + length A < n)%nat ->
  let res := alloc_tail n s (hd NULL (c ++ [r])) r rsize in
  ((need rsize <= length P + length A)%nat /\
   tail_done B s Cs c r rsize res (length P + length A)) \/
  ((length P + length A < need rsize)%nat /\
   exists s' P' A', res = Ok (None, s') /\ pinv B s' P' A' [] Cs).
Proof.
  cbv zeta. revert s P A c r rsize. induction n as [|n IH]; intros s P A c r rsize I Hall Hn; [lia|].
  destruct (Z.leb_spec rsize 0) as [Hr|Hr]; cbn [alloc_tail].
  { left. unfold tail_done. rewrite (need_zero _ Hr), Z.max_r, Z.add_0_r by lia. split; [lia|].
    exists [], c, r, s, P, A. rewrite app_nil_r, (proj2 (Z.leb_le _ _) Hr). split_and!; try done. }
  rewrite (proj2 (Z.leb_gt _ _) Hr). rewrite (need_succ _ Hr). pose proof I as [O C].
  destruct (pool_alloc_ok _ _ _ _ _ O)
    as [(-> & -> & ->)|(q & y & P0 & A0 & s0 & -> & Hq & Hy & Hp & O0 & Hqn & Hpb & Hu)];
    cbn [mbind outcome_bind].
  { right. split; [cbn; lia|]. cbn [Z.eqb NULL].
    destruct (pool_free_ok B (set_stat s (count_err (stat s))) [] [] Cs (c ++ [r])) as (s' & -> & I');
      [by apply pinv_stat|done|]. cbn. eexists _, _, _. by split. }
  rewrite (proj2 (Z.eqb_neq _ _) Hq). unfold getp. rewrite Hpb, Hy. cbn [from_opt mbind outcome_bind].
  assert (exists x, pbs s !! r = Some x) as [x Hx].
  { destruct O as [_ _ _ Hc _ _]. apply Forall_cons in Hc as [Hc _].
    by apply seg_app in Hc as (? & _ & -> & _ & x & ? & _); exists x. }
  rewrite Hx. cbn [from_opt mbind outcome_bind]. set (y' := MkPb _ _ _ _ _ _ _).
  apply Permutation_length in Hp as Hlen. cbn [length] in Hlen. rewrite !length_app in Hlen.
  assert (q ∉ c ++ [r]) as Hqc.
  { cbn [concat app] in Hqn. rewrite !not_elem_of_app in Hqn. rewrite !not_elem_of_app. tauto. }
  pose proof (pinv_grow B s s0 P A P0 A0 c r Cs q x y' I Hp Hq O0 Hqn Hpb Hu Hx eq_refl eq_refl) as I1.
  replace (c ++ [r; q]) with ((c ++ [r]) ++ [q]) in I1 by (by rewrite <- app_assoc).
  replace (hd NULL (c ++ [r])) with (hd NULL ((c ++ [r]) ++ [q])) by (by destruct c). rewrite Hlen.
  set (s1 := putp _ q y') in *.
  assert (pbs s1 = <[q := y']> (<[r := set_next x q]> (pbs s))) as Hs1 by (cbn; by rewrite Hpb).
  destruct (IH s1 P0 A0 (c ++ [r]) q (rsize - PBUF_POOL_BUFSIZE) I1) as
    [[Hle Hd]|(Hgt & s' & P' & A' & -> & I')]; [rewrite Hs1, <- app_assoc; by apply all_pooled_grow|lia| |].
  - left. split; [change PBUF_POOL_BUFSIZE with 128 in Hle; lia|].
    eapply tail_done_step; [done|done| | |exact Hd]; rewrite Hs1; [by rewrite (lensum_grow _ _ _ _ x)|].
    intros a Ha. unfold rt. rewrite lookup_insert_ne by (by intros ->).
    destruct (decide (r = a)) as [<-|]; [by rewrite lookup_insert_eq, Hx|by rewrite lookup_insert_ne].
  - right. split; [change PBUF_POOL_BUFSIZE with 128 in Hgt; lia|]. by exists s', P', A'.
Qed.

(** The first buffer of a new chain. *)
Lemma pinv_start B s s0 P A P0 A0 Cs q y' :
  pinv B s P A [] Cs -> P ++ A ≡ₚ q :: P0 ++ A0 -> q <> NULL ->
  owns s0 P0 A0 [] Cs -> q ∉ P0 ++ A0 ++ [] ++ concat Cs ->
  pbs s0 = pbs s -> used (stat s0) = u32 (used (stat s) + 1) ->
  next y' = NULL -> flags y' = PBUF_FLAG_POOL ->
  pinv B (putp s0 q y') P0 A0 [] ([q] :: Cs).
Proof.
  intros [O [Cp Cu Csm]] Hp Hq O0 Hn Hpb Hu Hy Hf.
  destruct (owns_elsewhere _ _ _ _ _ _ O0 Hn) as (HP & HA & _ & HC).
  destruct O0 as [H1 H2 H3 H4 H5 H6].
  assert (inuse (putp s0 q y') ([q] :: Cs) = q :: inuse s Cs) as Hi.
  { unfold inuse. cbn [concat app List.filter putp pbs set_pbs]. unfold pooled at 1.
    rewrite lookup_insert_eq, Hf. f_equal. apply filter_agree. intros a Ha. rewrite Hpb.
    unfold pooled. rewrite lookup_insert_ne; [done|]. intros <-. by apply not_in_concat in HC. }
  assert (P0 ++ A0 ++ [] ++ inuse (putp s0 q y') ([q] :: Cs) ≡ₚ B) as Hpm.
  { rewrite Hi, <- Cp. cbn [app]. rewrite (app_assoc P A), Hp. cbn [app].
    rewrite app_assoc. by rewrite <- Permutation_middle. }
  split; split; try done; cbn [putp pbs set_pbs pbuf_pool alloc_cache free_cache stat];
    try (by apply seg_put).
  - constructor; [|by apply chains_put]. split; [done|]. split; [done|].
    exists y'. rewrite lookup_insert_eq. by rewrite Hy.
  - cbn [concat app] in *. rewrite app_assoc, <- Permutation_middle, <- app_assoc.
    apply NoDup_cons. by split.
  - rewrite Hi, Hu, Cu. apply Permutation_length in Hpm. rewrite Hi, !length_app in Hpm. cbn [length] in *.
    rewrite u32_small by lia. lia.
Qed.

(** The bytes of a request that the first buffer takes. *)
Definition first_part (offset sz : Z) : Z :=
  if PBUF_POOL_BUFSIZE - offset <? sz then PBUF_POOL_BUFSIZE - offset else sz.

(** A chain of [sz] bytes has been allocated. *)
Definition allocated (B : list Z) (Cs : list (list Z)) (sz : Z) (nb : nat) (p : Z) (s : nst) : Prop :=
  exists c P A, pinv B s P A [] (c :: Cs) /\ hd NULL c = p /\ c <> [] /\
    Forall (fun a => pooled (pbs s) a = true) c /\ length c = nb /\
    lensum (pbs s) c = sz /\ rt (pbs s) p = Some (1, sz).

Lemma lensum_same (m : store) a x y l : m !! a = Some x -> len y = len x -> lensum (<[a := y]> m) l = lensum m l.
Proof.
  intros Hx Hl. apply lensum_agree. intros b _. destruct (decide (a = b)) as [<-|].
  - rewrite lookup_insert_eq, Hx. cbn. by rewrite Hl.
  - by rewrite lookup_insert_ne.
Qed.

Lemma all_pooled_same (m : store) a x y l :
  m !! a = Some x -> flags y = flags x ->
  Forall (fun b => pooled m b = true) l -> Forall (fun b => pooled (<[a := y]> m) b = true) l.
Proof.
  intros Hx Hf H. eapply Forall_impl; [exact H|]. intros b Hb. cbn. by rewrite (pooled_put_same _ _ x).
Qed.

(** The end of the allocation: [next] of the last buffer, [ref] of the first. *)
Lemma finish_alloc B s P A Cs c z sz nb :
  pinv B s P A [] ((c ++ [z]) :: Cs) -> Forall (fun a => pooled (pbs s) a = true) (c ++ [z]) ->
  length (c ++ [z]) = nb -> lensum (pbs s) (c ++ [z]) = sz ->
  tot_len <$> pbs s !! hd NULL (c ++ [z]) = Some sz ->
  exists s', (y ← getp s z;
              let s := putp s z (set_next y NULL) in
              x ← getp s (hd NULL (c ++ [z]));
              Ok (hd NULL (c ++ [z]), putp s (hd NULL (c ++ [z])) (set_ref x 1)))
             = Ok (hd NULL (c ++ [z]), s') /\
    allocated B Cs sz nb (hd NULL (c ++ [z])) s'.
Proof.
  intros I Hall Hnb Hls Ht. set (p := hd NULL (c ++ [z])) in *. pose proof I as [[_ _ _ Hc _ _] _].
  apply Forall_cons in Hc as [Hc _]. apply seg_app in Hc as (? & _ & -> & Hz0 & y & Hy & Hyn). cbn in Hyn.
  unfold getp. rewrite Hy. cbn [from_opt mbind outcome_bind].
  set (s1 := putp s z (set_next y NULL)).
  assert (exists x, pbs s1 !! p = Some x /\ tot_len x = sz) as (x & Hx & Hxt).
  { cbn. destruct (decide (z = p)) as [Ez|Hn].
    - rewrite <- Ez, lookup_insert_eq. eexists. split; [done|]. rewrite <- Ez, Hy in Ht. by injection Ht.
    - rewrite lookup_insert_ne by done. destruct (pbs s !! p) as [x|]; [|done]. exists x. split; [done|]. by injection Ht. }
  rewrite Hx. cbn [from_opt mbind outcome_bind]. eexists. split; [done|].
  exists (c ++ [z]), P, A. split_and!; try done.
  - eapply pinv_put_same; [|exact Hx|done|done]. by eapply pinv_put_same.
  - by destruct c.
  - eapply all_pooled_same; [exact Hx|done|]. by eapply all_pooled_same.
  - cbn [putp pbs set_pbs]. erewrite lensum_same; [|exact Hx|done].
    unfold s1. cbn [putp pbs set_pbs]. by erewrite lensum_same.
  - unfold rt. cbn. rewrite lookup_insert_eq. cbn. by rewrite Hxt.
Qed.

(** Allocation from the pool succeeds exactly when enough buffers are free;
    otherwise nothing is lost. *)
Lemma alloc_pool_ok B s P A Cs offset sz :
  pinv B s P A [] Cs -> Z.of_nat (length B) <= PBUF_POOL_SIZE -> 0 <= sz ->
  let nb := S (need (sz - first_part offset sz)) in
  exists p s', alloc_pool s offset sz = Ok (p, s') /\
    (if decide (nb <= length P + length A)%nat then p <> NULL /\ allocated B Cs sz nb p s'
     else p = NULL /\ exists P' A', pinv B s' P' A' [] Cs).
Proof.
  intros I HB Hsz nb. unfold alloc_pool. pose proof I as [O C].
  destruct (pool_alloc_ok _ _ _ _ _ O)
    as [(-> & -> & ->)|(q & y & P0 & A0 & s0 & -> & Hq & Hy & Hp & O0 & Hqn & Hpb & Hu)];
    cbn [mbind outcome_bind].
  { eexists _, _. split; [done|]. destruct (decide _) as [Hd|_]; [cbn in Hd; lia|]. split; [done|].
    exists [], []. by apply pinv_stat. }
  rewrite (proj2 (Z.eqb_neq _ _) Hq). unfold getp. rewrite Hpb, Hy. cbn [from_opt mbind outcome_bind].
  fold (first_part offset sz). set (y' := MkPb _ _ _ _ _ _ _). set (s1 := putp s0 q y').
  pose proof (pinv_start B s s0 P A P0 A0 Cs q y' I Hp Hq O0 Hqn Hpb Hu eq_refl eq_refl) as I1.
  fold s1 in I1. apply Permutation_length in Hp as Hlen. cbn [length] in Hlen. rewrite !length_app in Hlen.
  destruct (alloc_tail_ok B (S (Z.to_nat PBUF_POOL_SIZE)) s1 P0 A0 Cs [] q (sz - first_part offset sz) I1)
    as [[Hle (e & c' & z & s' & P' & A' & Hr & Hc & I' & Hall & He & Hk & Hls & Hrt)]|(Hgt & s' & P' & A' & Hr & I')].
  - constructor; [|constructor]. unfold pooled. cbn. by rewrite lookup_insert_eq.
  - destruct C as [Cp _ _]. apply Permutation_length in Cp. rewrite !length_app in Cp. lia.
  - cbn [app hd] in Hr. rewrite Hr. cbn [mbind outcome_bind].
    assert (q = hd NULL (c' ++ [z])) as Eq by (by rewrite Hc). cbn [app] in Hc.
    destruct (finish_alloc B s' P' A' Cs c' z sz nb I' Hall) as (s2 & E2 & Ha).
    + rewrite Hc. cbn [length]. unfold nb. by rewrite He.
    + rewrite Hls. unfold lensum. cbn. rewrite lookup_insert_eq. cbn.
      unfold first_part. destruct (Z.ltb_spec (PBUF_POOL_BUFSIZE - offset) sz); lia.
    + rewrite <- Eq. specialize (Hrt q ltac:(left)). unfold rt in Hrt. cbn in Hrt.
      rewrite lookup_insert_eq in Hrt. destruct (pbs s' !! q); [|done]. cbn in *. congruence.
    + rewrite <- Eq in E2, Ha. exists q, s2. split; [exact E2|]. rewrite decide_True by (unfold nb; lia). done.
  - cbn [app hd] in Hr. rewrite Hr. cbn [mbind outcome_bind]. eexists _, _. split; [done|].
    rewrite decide_False by (unfold nb; lia). split; [done|]. by exists P', A'.
Qed.

(** ** Releasing a chain *)

(** The first buffer of a chain is nowhere else. *)
Lemma owns_head s P A F a c Cs x :
  owns s P A F ((a :: c) :: Cs) -> pbs s !! a = Some x ->
  a <> NULL /\ a ∉ P /\ a ∉ A /\ a ∉ F /\ a ∉ c /\ Forall (fun c => a ∉ c) Cs /\
  NoDup (a :: P ++ A ++ F ++ c ++ concat Cs) /\ next x = hd NULL c /\ chain (pbs s) (hd NULL c) c.
Proof.
  intros [_ _ _ H4 H5 _] Hx. apply Forall_cons in H4 as [(_ & Ha0 & x' & Hx' & Hc) _].
  rewrite Hx in Hx'. injection Hx' as <-.
  assert (NoDup (a :: P ++ A ++ F ++ c ++ concat Cs)) as Hnd.
  { cbn [concat app] in H5. rewrite !app_assoc in H5. rewrite <- !app_assoc in H5.
    rewrite (app_assoc A), (app_assoc P) in H5. rewrite <- Permutation_middle in H5. by rewrite <- !app_assoc in H5. }
  assert (next x = hd NULL c) as Hnx by (destruct c; [done|by destruct Hc as (-> & _)]).
  rewrite Hnx in Hc. apply NoDup_cons in Hnd as Hnd'. destruct Hnd' as [Han _].
  rewrite !not_elem_of_app, not_in_concat in Han. destruct Han as (? & ? & ? & ? & ?). split_and!; done.
Qed.

(** One turn of the loop, on a buffer of the pool. *)
Lemma free_pooled B s P A F a c Cs x y :
  pinv B s P A F ((a :: c) :: Cs) -> pbs s !! a = Some x -> flags x = PBUF_FLAG_POOL ->
  next y = free_cache s -> flags y = flags x ->
  pinv B (set_stat (set_fcache (putp s a y) a) (count_used (stat s) (-1))) P A (a :: F) (c :: Cs).
Proof.
  intros [O [Cp Cu Csm]] Hx Hf Hn Hf'.
  destruct (owns_head _ _ _ _ _ _ _ _ O Hx) as (Ha0 & HP & HA & HF & Hac & HC & Hnd & _ & Hc).
  destruct O as [H1 H2 H3 H4 H5 H6]. apply Forall_cons in H4 as [_ H4].
  assert (pooled (pbs s) a = true) as Hpa by (unfold pooled; rewrite Hx; by apply Z.eqb_eq).
  set (s' := set_stat _ _).
  assert (inuse s ((a :: c) :: Cs) = a :: inuse s' (c :: Cs)) as Hi.
  { unfold inuse. cbn [concat app List.filter]. rewrite Hpa. f_equal. apply filter_agree.
    intros b _. symmetry. by apply (pooled_put_same _ _ x). }
  split; split; try done; cbn [s' putp pbs set_pbs set_stat set_fcache pbuf_pool alloc_cache free_cache stat];
    try (by apply seg_put).
  - split; [done|]. split; [done|]. exists y. rewrite lookup_insert_eq. split; [done|]. rewrite Hn. by apply seg_put.
  - constructor; [by apply seg_put|by apply chains_put].
  - cbn [concat app]. rewrite (app_assoc P A), <- Permutation_middle. by rewrite <- !app_assoc.
  - rewrite <- Cp, Hi. cbn [app]. solve_Permutation.
  - rewrite Hi in Cu. cbn [length count_used used] in *. rewrite Cu. apply Permutation_length in Cp. rewrite Hi, !length_app in Cp.
    cbn [length] in Cp. rewrite u32_small by lia. lia.
Qed.

(** One turn of the loop, on a buffer of the heap. *)
Lemma free_unpooled B s P A F a c Cs x t :
  pinv B s P A F ((a :: c) :: Cs) -> pbs s !! a = Some x -> flags x <> PBUF_FLAG_POOL ->
  used t = used (stat s) ->
  pinv B (set_stat (set_pbs s (delete a (pbs s))) t) P A F (c :: Cs).
Proof.
  intros [O [Cp Cu Csm]] Hx Hf Ht.
  destruct (owns_head _ _ _ _ _ _ _ _ O Hx) as (Ha0 & HP & HA & HF & Hac & HC & Hnd & _ & Hc).
  destruct O as [H1 H2 H3 H4 H5 H6]. apply Forall_cons in H4 as [_ H4].
  assert (pooled (pbs s) a = false) as Hpa by (unfold pooled; rewrite Hx; by apply Z.eqb_neq).
  set (s' := set_stat _ _).
  assert (inuse s ((a :: c) :: Cs) = inuse s' (c :: Cs)) as Hi.
  { unfold inuse. cbn [concat app List.filter]. rewrite Hpa. apply filter_agree.
    intros b Hb. unfold pooled. cbn. rewrite lookup_delete_ne; [done|]. intros <-.
    apply elem_of_app in Hb as [?|Hb]; [done|]. by apply not_in_concat in HC. }
  apply NoDup_cons in Hnd as [_ Hnd].
  rewrite Hi in *. split; split; try done;
    cbn [s' pbs set_pbs set_stat pbuf_pool alloc_cache free_cache stat]; try (by apply seg_del).
  - constructor; [by apply seg_del|by apply chains_del].
  - by rewrite Ht.
Qed.

Lemma pinv_nil B s P A F Cs : pinv B s P A F ([] :: Cs) <-> pinv B s P A F Cs.
Proof.
  split; intros [[H1 H2 H3 H4 H5 H6] [Cp Cu Csm]]; split; split; try done.
  - by apply Forall_cons in H4 as [_ H4].
  - by constructor.
Qed.

Lemma free_chain_ok B n s P A F c Cs k :
  pinv B s P A F (c :: Cs) -> (length c <= n)%nat ->
  exists s' F', free_chain n s (hd NULL c) k = Ok (k + Z.of_nat (length c), s') /\ pinv B s' P A F' Cs.
Proof.
  revert s F c k. induction n as [|n IH]; intros s F [|a c] k I Hn; cbn [length] in Hn; try lia.
  - exists s, F. cbn. rewrite Z.add_0_r. split; [done|]. by apply pinv_nil.
  - exists s, F. cbn. rewrite Z.add_0_r. split; [done|]. by apply pinv_nil.
  - pose proof I as [[_ _ _ Hc _ _] _]. apply Forall_cons in Hc as [(_ & Ha0 & x & Hx & Hc) _].
    cbn [free_chain hd]. rewrite (proj2 (Z.eqb_neq _ _) Ha0). unfold getp. rewrite Hx. cbn [from_opt mbind outcome_bind].
    assert (next x = hd NULL c) as -> by (destruct c; [done|by destruct Hc as (-> & _)]).
    replace (k + Z.of_nat (length (a :: c))) with (k + 1 + Z.of_nat (length c)) by (cbn [length]; lia).
    destruct (Z.eqb_spec (flags x) PBUF_FLAG_POOL) as [Hf|Hf]; [|destruct (Z.eqb_spec (flags x) PBUF_FLAG_RO)].
    + apply (IH _ (a :: F)); [|lia]. by apply (free_pooled B s P A F a c Cs x).
    + apply (IH _ F); [|lia]. apply (free_unpooled B s P A F a c Cs x (stat s)) in I; try done.
    + apply (IH _ F); [|lia]. by apply (free_unpooled B s P A F a c Cs x).
Qed.

(** ** Operations on live chains *)

Lemma refresh_ok B s P A F Cs :
  pinv B s P A F Cs ->
  exists s' P' , pbuf_refresh s = Ok s' /\ pinv B s' P' A [] Cs.
Proof.
  intros [O [Cp Cu Csm]]. pose proof O as [H1 H2 H3 H4 H5 [H6 H7]]. unfold pbuf_refresh.
  destruct (Z.eqb_spec (free_cache s) NULL) as [Ef|Ef].
  { rewrite Ef in H3. apply chain_nil in H3 as ->. exists s, P. split; [done|]. split; [done|by split]. }
  rewrite H7. cbn [Z.eqb].
  destruct (Z.eqb_spec (pbuf_pool s) NULL) as [Ep|Ep]; cbn [mbind outcome_bind].
  - rewrite Ep in H1. apply chain_nil in H1 as ->. eexists _, F. split; [done|].
    split; split; try done; cbn in *; [|by rewrite <- Cp; solve_Permutation].
    revert H5. rewrite !app_assoc, (Permutation_app_comm A F). done.
  - destruct P as [|z P _] using rev_ind; [by cbn in H1|].
    destruct (link_last_ok s (pbuf_pool s) (free_cache s) P z F) as (x & Hx & -> & Hch); [done|done| |].
    { intros a Ha HaF. apply NoDup_app in H5 as (_ & H5 & _). apply (H5 a Ha). rewrite !elem_of_app. tauto. }
    cbn [mbind outcome_bind]. eexists _, ((P ++ [z]) ++ F). split; [done|].
    assert (z ∉ P ++ A ++ F ++ concat Cs) as Hz.
    { rewrite <- app_assoc in H5. by apply nodup_out in H5. }
    rewrite !not_elem_of_app, not_in_concat in Hz. destruct Hz as (HzP & HzA & HzF & HzC).
    assert (inuse (set_fcache (putp s z (set_next x (free_cache s))) NULL) Cs = inuse s Cs) as Hi.
    { apply filter_agree. intros b _. by apply (pooled_put_same _ _ x). }
    split; split; try done; try (by rewrite Hi); cbn [set_fcache putp pbs set_pbs alloc_cache free_cache pbuf_pool].
    + by apply seg_put.
    + by apply chains_put.
    + revert H5. cbn [app]. rewrite (app_assoc A F), (Permutation_app_comm A F). by rewrite <- !app_assoc.
    + rewrite Hi, <- Cp. cbn [app]. solve_Permutation.
Qed.

Lemma pbuf_free_ok B s P A c Cs a x :
  pinv B s P A [] ((a :: c) :: Cs) -> pbs s !! a = Some x ->
  exists k s' P', pbuf_free s a = Ok (k, s') /\
    pinv B s' P' A [] (if u16 (ref x - 1) =? 0 then Cs else (a :: c) :: Cs).
Proof.
  intros I Hx. pose proof I as [O _]. destruct (owns_head _ _ _ _ _ _ _ _ O Hx) as (Ha0 & _).
  unfold pbuf_free. rewrite (proj2 (Z.eqb_neq _ _) Ha0). unfold getp. rewrite Hx. cbn [from_opt mbind outcome_bind].
  set (s1 := putp s a _). assert (pinv B s1 P A [] ((a :: c) :: Cs)) as I1 by (by eapply pinv_put_same).
  destruct (u16 (ref x - 1) =? 0).
  - destruct (free_chain_ok B (cfuel s1) s1 P A [] (a :: c) Cs 0 I1) as (s2 & F & E & I2).
    { destruct I1 as [[_ _ _ Hc _ _] _]. apply Forall_cons in Hc as [Hc _]. pose proof (chain_fuel _ _ _ Hc). lia. }
    cbn [hd] in E. rewrite E. cbn [mbind outcome_bind].
    destruct (refresh_ok _ _ _ _ _ _ I2) as (s3 & P' & -> & I3). cbn [mbind outcome_bind].
    eexists _, s3, P'. by split.
  - cbn [mbind outcome_bind]. destruct (refresh_ok _ _ _ _ _ _ I1) as (s3 & P' & -> & I3).
    cbn [mbind outcome_bind]. eexists _, s3, P'. by split.
Qed.

Lemma concat_perm (Cs Cs' : list (list Z)) : Cs ≡ₚ Cs' -> concat Cs ≡ₚ concat Cs'.
Proof. intros H. by rewrite H. Qed.

(** The order in which the live chains are listed does not matter. *)
Lemma pinv_perm B s P A F Cs Cs' : Cs ≡ₚ Cs' -> pinv B s P A F Cs -> pinv B s P A F Cs'.
Proof.
  intros Hp [[H1 H2 H3 H4 H5 H6] [Cp Cu Csm]]. apply concat_perm in Hp as Hc.
  assert (inuse s Cs ≡ₚ inuse s Cs') as Hi.
  { unfold inuse. clear -Hc. induction Hc; cbn; try (by repeat destruct (pooled _ _); rewrite ?IHHc; try constructor).
    by etrans. }
  split; split; try done.
  - by rewrite <- Hp.
  - by rewrite <- Hc.
  - by rewrite <- Hi.
  - by rewrite <- Hi.
Qed.

(** A buffer of the heap becomes a chain of its own. *)
Lemma pinv_fresh B s P A Cs a y t :
  pinv B s P A [] Cs -> a <> NULL -> pbs s !! a = None -> next y = NULL -> flags y <> PBUF_FLAG_POOL ->
  used t = used (stat s) ->
  pinv B (set_stat (putp s a y) t) P A [] ([a] :: Cs).
Proof.
  intros [[H1 H2 H3 H4 H5 H6] [Cp Cu Csm]] Ha0 Ha Hn Hf Ht.
  assert (forall p l, chain (pbs s) p l -> a ∉ l) as Hout.
  { intros p l Hl Hal. by destruct (seg_mapped _ _ _ _ _ Hl Hal) as [_ [? ?]]; congruence. }
  assert (Forall (fun c => a ∉ c) Cs) as HC by (eapply Forall_impl; [exact H4|]; intros c Hc; exact (Hout _ _ Hc)).
  assert (inuse (set_stat (putp s a y) t) ([a] :: Cs) = inuse s Cs) as Hi.
  { unfold inuse. cbn [concat app List.filter set_stat putp pbs set_pbs]. unfold pooled at 1. rewrite lookup_insert_eq.
    rewrite (proj2 (Z.eqb_neq _ _) Hf). apply filter_agree. intros b Hb. unfold pooled.
    rewrite lookup_insert_ne; [done|]. intros <-. by apply not_in_concat in HC. }
  split; split; try done; cbn [set_stat putp pbs set_pbs pbuf_pool alloc_cache free_cache stat];
    try (apply seg_put; [by eapply Hout|done]).
  - constructor; [|by apply chains_put]. split; [done|]. split; [done|]. exists y. rewrite lookup_insert_eq. by rewrite Hn.
  - cbn [concat app] in *. rewrite app_assoc, <- Permutation_middle, <- app_assoc. apply NoDup_cons. split; [|done].
    rewrite !not_elem_of_app, not_in_concat. split_and!; [by eapply Hout|by eapply Hout|done].
  - by rewrite Hi.
  - by rewrite Hi, Ht.
Qed.

(** One chain is linked behind another one. *)
Lemma pbuf_chain_ok B s P A c1 c2 Cs :
  pinv B s P A [] (c1 :: c2 :: Cs) -> c1 <> [] -> c2 <> [] ->
  exists s', pbuf_chain s (hd NULL c1) (hd NULL c2) = Ok s' /\ pinv B s' P A [] ((c1 ++ c2) :: Cs).
Proof.
  intros [[H1 H2 H3 H4 H5 H6] [Cp Cu Csm]] Hc1 Hc2. apply Forall_cons in H4 as [Hch1 H4]. apply Forall_cons in H4 as [Hch2 H4].
  destruct c1 as [|z c1 _] using rev_ind; [done|]. destruct c2 as [|t c2]; [done|].
  set (h := hd NULL (c1 ++ [z])) in *. cbn [hd] in *. unfold pbuf_chain.
  pose proof Hch2 as (_ & Ht0 & y & Hy & _). rewrite (proj2 (Z.eqb_neq _ _) Ht0).
  assert (NoDup ((c1 ++ [z]) ++ P ++ A ++ (t :: c2) ++ concat Cs)) as Hnd.
  { revert H5. cbn [concat app]. intros H5. rewrite (app_assoc P), (app_assoc (c1 ++ [z])) .
    rewrite (Permutation_app_comm (c1 ++ [z])). by rewrite <- !app_assoc in *. }
  destruct (link_last_ok s h t c1 z (t :: c2)) as (x & Hx & -> & Hch); [done|done| |].
  { intros a Ha Hat. apply NoDup_app in Hnd as (_ & Hnd & _). apply (Hnd a Ha). rewrite !elem_of_app. tauto. }
  rewrite <- app_assoc in Hnd. apply nodup_out in Hnd as Hz. rewrite !not_elem_of_app, not_in_concat in Hz.
  destruct Hz as (Hzc & HzP & HzA & Hzt & HzC). cbn [mbind outcome_bind]. set (s1 := putp s z _).
  assert (pinv B s1 P A [] (((c1 ++ [z]) ++ t :: c2) :: Cs)) as I1.
  { assert (inuse s1 (((c1 ++ [z]) ++ t :: c2) :: Cs) = inuse s ((c1 ++ [z]) :: (t :: c2) :: Cs)) as Hi.
    { unfold inuse. cbn [concat]. rewrite <- (app_assoc (c1 ++ [z])). apply filter_agree. intros b _. by apply (pooled_put_same _ _ x). }
    split; split; try done; try (by rewrite Hi); cbn [s1 putp pbs set_pbs pbuf_pool alloc_cache]; try (by apply seg_put).
    - constructor; [|by apply chains_put]. by replace (hd NULL ((c1 ++ [z]) ++ t :: c2)) with h by (by subst h; destruct c1).
    - cbn [concat] in *. by rewrite <- !app_assoc in *. }
  assert (exists xh, pbs s1 !! h = Some xh) as [xh Hxh].
  { apply (seg_mapped (pbs s1) h ((c1 ++ [z]) ++ t :: c2) NULL); [exact Hch|]. subst h. destruct c1; left. }
  assert (exists xt, pbs s1 !! t = Some xt) as [xt Hxt].
  { apply (seg_mapped (pbs s1) h ((c1 ++ [z]) ++ t :: c2) NULL); [exact Hch|]. rewrite elem_of_app. right. left. }
  unfold getp. rewrite Hxh. cbn [from_opt mbind outcome_bind]. rewrite Hxt. cbn [from_opt mbind outcome_bind].
  eexists. split; [done|]. by eapply pinv_put_same.
Qed.

(** A chain is cut behind [z]. *)
Lemma pinv_cut B s P A F c1 z c2 Cs x y :
  pinv B s P A F (((c1 ++ [z]) ++ c2) :: Cs) -> pbs s !! z = Some x -> next y = NULL -> flags y = flags x ->
  pinv B (putp s z y) P A F ((c1 ++ [z]) :: c2 :: Cs) /\ next x = hd NULL c2.
Proof.
  intros [[H1 H2 H3 H4 H5 H6] [Cp Cu Csm]] Hx Hn Hf. apply Forall_cons in H4 as [Hc H4].
  replace (hd NULL ((c1 ++ [z]) ++ c2)) with (hd NULL (c1 ++ [z])) in Hc by (by destruct c1).
  apply seg_app in Hc as (q & Hc1 & Hc2).
  apply seg_app in Hc1 as (z' & Hc1 & -> & Hz0 & x' & Hx' & Hnx). rewrite Hx in Hx'. injection Hx' as <-. cbn in Hnx. subst q.
  assert (next x = hd NULL c2) as Hnx by (destruct c2; [done|by destruct Hc2 as (-> & _)]).
  split; [|done]. rewrite Hnx in Hc2. cbn [concat] in H5.
  assert (z ∉ P ++ A ++ F ++ c1 ++ c2 ++ concat Cs) as Hz.
  { replace (P ++ A ++ F ++ ((c1 ++ [z]) ++ c2) ++ concat Cs) with ((P ++ A ++ F ++ c1) ++ z :: c2 ++ concat Cs) in H5
      by (by rewrite <- !app_assoc). apply nodup_out in H5. by rewrite <- !app_assoc in H5. }
  rewrite !not_elem_of_app, not_in_concat in Hz. destruct Hz as (HzP & HzA & HzF & Hz1 & Hz2 & HzC).
  assert (inuse (putp s z y) ((c1 ++ [z]) :: c2 :: Cs) = inuse s (((c1 ++ [z]) ++ c2) :: Cs)) as Hi.
  { unfold inuse. cbn [concat]. rewrite <- (app_assoc (c1 ++ [z])). apply filter_agree. intros b _. by apply (pooled_put_same _ _ x). }
  split; split; try done; try (by rewrite Hi); cbn [putp pbs set_pbs pbuf_pool alloc_cache free_cache]; try (by apply seg_put).
  - constructor; [|constructor; [by apply seg_put|by apply chains_put]]. apply seg_app. exists z. split; [by apply seg_put|].
    split; [done|]. split; [done|]. exists y. rewrite lookup_insert_eq. by rewrite Hn.
  - cbn [concat]. by rewrite <- !app_assoc in *.
Qed.

Lemma pbuf_dechain_ok B s P A a c Cs :
  pinv B s P A [] ((a :: c) :: Cs) ->
  exists s', pbuf_dechain s a = Ok (hd NULL c, s') /\ pinv B s' P A [] ([a] :: c :: Cs).
Proof.
  intros I. pose proof I as [O _]. pose proof O as [_ _ _ Hc _ _]. apply Forall_cons in Hc as [(_ & Ha0 & x & Hx & _) _].
  destruct (owns_head _ _ _ _ _ _ _ _ O Hx) as (_ & _ & _ & _ & Hac & _ & _ & Hnx & Hc).
  unfold pbuf_dechain, getp. rewrite Hx. cbn [from_opt mbind outcome_bind]. rewrite Hnx.
  destruct c as [|q c]; cbn [hd] in *.
  - cbn [Z.eqb NULL negb mbind outcome_bind]. rewrite Hx. cbn [from_opt mbind outcome_bind]. eexists. split; [done|].
    by apply (pinv_cut B s P A [] [] a [] Cs x).
  - destruct Hc as (_ & Hq0 & y & Hy & _). rewrite (proj2 (Z.eqb_neq _ _) Hq0). cbn [negb]. rewrite Hy.
    cbn [from_opt mbind outcome_bind]. cbn [putp pbs set_pbs]. rewrite lookup_insert_ne by (intros ->; apply Hac; left).
    rewrite Hx. cbn [from_opt mbind outcome_bind]. eexists. split; [done|].
    apply (pinv_cut B _ P A [] [] a (q :: c) Cs x); [by eapply pinv_put_same| |done|done].
    cbn. by rewrite lookup_insert_ne by (intros ->; apply Hac; left).
Qed.

Lemma step_over_ok (m : store) n p c r :
  chain m p c -> c <> [] -> r <= lensum m c -> (length c <= n)%nat ->
  exists c1 z c2 r', c = (c1 ++ [z]) ++ c2 /\ step_over n m p r = Ok (z, r').
Proof.
  revert p c r. induction n as [|n IH]; intros p [|a c] r Hc Hne Hr Hn; cbn [length] in Hn; try done; try lia.
  destruct Hc as (-> & Ha0 & x & Hx & Hc). cbn [step_over]. rewrite Hx. cbn [from_opt mbind outcome_bind].
  destruct (Z.ltb_spec (len x) r) as [Hl|Hl]; [|by exists [], a, c, r].
  unfold lensum in Hr. cbn in Hr. rewrite Hx in Hr. cbn in Hr. fold (lensum m c) in Hr.
  destruct (IH (next x) c (r - len x)) as (c1 & z & c2 & r' & -> & ->); [done| |lia|lia|].
  - intros ->. cbn in Hr. lia.
  - by exists (a :: c1), z, c2, r'.
Qed.

Lemma drop_tail_ok B n s P A F c Cs :
  pinv B s P A F (c :: Cs) -> Forall (fun a => pooled (pbs s) a = true) c -> (length c <= n)%nat ->
  exists s' F', drop_tail n s (hd NULL c) = Ok s' /\ pinv B s' P A F' Cs /\
    (forall a, a ∉ c -> pbs s' !! a = pbs s !! a).
Proof.
  revert s F c. induction n as [|n IH]; intros s F [|a c] I Hall Hn; cbn [length] in Hn; try lia.
  1,2: exists s, F; split_and!; [done|by apply pinv_nil|done].
  pose proof I as [O _]. pose proof O as [_ _ _ Hc _ _]. apply Forall_cons in Hc as [(_ & Ha0 & x & Hx & _) _].
  destruct (owns_head _ _ _ _ _ _ _ _ O Hx) as (_ & _ & _ & _ & Hac & _ & _ & Hnx & _).
  cbn [drop_tail hd]. rewrite (proj2 (Z.eqb_neq _ _) Ha0). unfold getp. rewrite Hx. cbn [from_opt mbind outcome_bind]. rewrite Hnx.
  apply Forall_cons in Hall as [Hpa Hall]. unfold pooled in Hpa. rewrite Hx in Hpa. apply Z.eqb_eq in Hpa.
  destruct (IH _ (a :: F) c (free_pooled B s P A F a c Cs x (set_next x (free_cache s)) I Hx Hpa eq_refl eq_refl))
    as (s' & F' & E & I' & Hs'); [|lia|].
  - by apply (all_pooled_same (pbs s) a x).
  - exists s', F'. split_and!; [exact E|done|]. intros b Hb. apply not_elem_of_cons in Hb as [Hba Hb].
    rewrite Hs' by done. cbn. by rewrite lookup_insert_ne.
Qed.

(** A packet that may be cut to [sz] bytes: it is not longer, or its buffers hold that much, and if
    the first one is of the pool they all are. *)
Definition cuttable (s : nst) (c : list Z) (sz : Z) : bool :=
  match pbs s !! hd NULL c with Some x => tot_len x <=? sz | None => false end ||
  (sz <=? lensum (pbs s) c) && (negb (pooled (pbs s) (hd NULL c)) || forallb (pooled (pbs s)) c).

(** What stays of the buffers [rest] that were cut off the packet [c]: when it starts with a buffer
    of the heap they are released, and stay a packet if there are more references to it. *)
Definition shared (s : nst) (c rest : list Z) : list (list Z) :=
  match rest with
  | [] => []
  | b :: _ =>
      match pbs s !! b with
      | Some y => if pooled (pbs s) (hd NULL c) || (u16 (ref y - 1) =? 0) then [] else [rest]
      | None => []
      end
  end.

(** The end of pbuf_realloc: the total is set, and the free cache emptied. *)
Lemma realloc_end B s P A F c Cs sz : pinv B s P A F (c :: Cs) -> c <> [] ->
  exists s' P', (x ← getp s (hd NULL c); pbuf_refresh (putp s (hd NULL c) (set_tot x sz))) = Ok s' /\ pinv B s' P' A [] (c :: Cs).
Proof.
  intros I Hne. pose proof I as [[_ _ _ Hch _ _] _]. apply Forall_cons in Hch as [Hch _].
  destruct (seg_mapped _ _ _ _ (hd NULL c) Hch) as [_ [x Hx]]; [destruct c; [done|left]|]. unfold getp. rewrite Hx. cbn [from_opt mbind outcome_bind].
  destruct (refresh_ok B (putp s (hd NULL c) (set_tot x sz)) P A F (c :: Cs)) as (s' & P' & -> & I'); [by eapply pinv_put_same|]. by exists s', P'.
Qed.

(** The buffers behind the cut: to the pool, or released. *)
Lemma realloc_pool B s P A c1 c2 Cs :
  pinv B s P A [] (c1 :: c2 :: Cs) -> Forall (fun a => pooled (pbs s) a = true) c2 ->
  exists s' F, drop_tail (cfuel s) s (hd NULL c2) = Ok s' /\ pinv B s' P A F (c1 :: Cs).
Proof.
  intros I Hall. pose proof I as [[_ _ _ Hch _ _] _]. apply Forall_cons in Hch as [_ Hch]. apply Forall_cons in Hch as [Hch _].
  apply (pinv_perm _ _ _ _ _ _ (c2 :: c1 :: Cs)) in I; [|apply perm_swap].
  destruct (drop_tail_ok B (cfuel s) s P A [] c2 (c1 :: Cs) I Hall) as (s' & F & E & I' & _); [pose proof (chain_fuel _ _ _ Hch); lia|].
  by exists s', F.
Qed.

Lemma realloc_heap B s s0 P A c c1 c2 Cs :
  pinv B s P A [] (c1 :: c2 :: Cs) -> pooled (pbs s0) (hd NULL c) = false -> (forall b, b ∈ c2 -> pbs s !! b = pbs s0 !! b) ->
  exists k s' P', pbuf_free s (hd NULL c2) = Ok (k, s') /\ pinv B s' P' A [] (c1 :: shared s0 c c2 ++ Cs).
Proof.
  intros I Hp Hs. apply (pinv_perm _ _ _ _ _ _ (c2 :: c1 :: Cs)) in I; [|apply perm_swap]. destruct c2 as [|b c2].
  - exists 0, s, P. split; [done|]. exact (proj1 (pinv_nil _ _ _ _ _ _) I).
  - pose proof I as [[_ _ _ Hch _ _] _]. apply Forall_cons in Hch as [(_ & _ & y & Hy & _) _].
    destruct (pbuf_free_ok _ _ _ _ _ _ _ _ I Hy) as (k & s' & P' & E & I'). exists k, s', P'. split; [exact E|].
    cbn [shared]. rewrite <- Hs, Hy, Hp by left. cbn [orb]. destruct (u16 (ref y - 1) =? 0); [done|].
    cbn [app]. eapply pinv_perm; [|exact I']. apply perm_swap.
Qed.

(** A packet is cut. *)
Lemma pbuf_realloc_ok B s P A c Cs sz :
  pinv B s P A [] (c :: Cs) -> c <> [] -> cuttable s c sz = true ->
  exists s' P' c' rest, pbuf_realloc s (hd NULL c) sz = Ok s' /\ c = c' ++ rest /\
    pinv B s' P' A [] (c' :: shared s c rest ++ Cs) /\ hd NULL c' = hd NULL c /\ c' <> [].
Proof.
  intros I Hne Hcut. pose proof I as [[_ _ _ Hch _ _] _]. apply Forall_cons in Hch as [Hch _].
  unfold pbuf_realloc, getp, cuttable in *. destruct (seg_mapped _ _ _ _ (hd NULL c) Hch) as [Hp0 [x Hx]]; [destruct c; [done|left]|].
  rewrite Hx in Hcut |- *. cbn [from_opt mbind outcome_bind]. destruct (tot_len x <=? sz).
  { exists s, P, c, []. by rewrite app_nil_r. }
  cbn [orb] in Hcut. apply andb_true_iff in Hcut as [Hsz Hall]. apply Z.leb_le in Hsz.
  assert (pooled (pbs s) (hd NULL c) = (flags x =? PBUF_FLAG_POOL)) as Hpx by (unfold pooled; by rewrite Hx).
  destruct ((flags x =? PBUF_FLAG_POOL) || (flags x =? PBUF_FLAG_RW)) eqn:Hfl.
  2: { assert (exists s1, (if flags x =? PBUF_FLAG_RO then Ok (putp s (hd NULL c) (set_len x sz)) else Ok s) = Ok s1 /\ pinv B s1 P A [] (c :: Cs)) as (s1 & -> & I1).
       { destruct (flags x =? PBUF_FLAG_RO); [|by exists s]. eexists. split; [done|]. by eapply pinv_put_same. }
       cbn [mbind outcome_bind]. destruct (realloc_end B s1 P A [] c Cs sz I1 Hne) as (s' & P' & E & I'). unfold getp in E. rewrite E.
       exists s', P', c, []. by rewrite app_nil_r. }
  destruct (step_over_ok (pbs s) (cfuel s) (hd NULL c) c sz Hch Hne Hsz) as (c1 & z & c2 & r' & Ec & Hso).
  { pose proof (chain_fuel _ _ _ Hch). lia. }
  rewrite Hso. cbn [mbind outcome_bind]. destruct (seg_mapped _ _ _ _ z Hch) as [Hz0 [y Hy]]; [rewrite Ec, !elem_of_app; left; right; left|].
  rewrite Hy. cbn [from_opt mbind outcome_bind]. rewrite Ec in I.
  destruct (pinv_cut B s P A [] c1 z c2 Cs y (set_next (set_len y r') NULL) I Hy eq_refl eq_refl) as [I1 Hnx].
  set (s1 := putp s z _) in *. rewrite Hnx. assert (hd NULL (c1 ++ [z]) = hd NULL c) as Hhd by (rewrite Ec; by destruct c1).
  assert (exists s2 P2 F, (if flags x =? PBUF_FLAG_POOL then drop_tail (cfuel s1) s1 (hd NULL c2) else '(_, s) ← pbuf_free s1 (hd NULL c2); Ok s) = Ok s2 /\
    pinv B s2 P2 A F ((c1 ++ [z]) :: shared s c c2 ++ Cs)) as (s2 & P2 & F & -> & I2).
  { rewrite Hpx in Hall. destruct (flags x =? PBUF_FLAG_POOL) eqn:Hf; cbn [negb orb] in Hall.
    - destruct (realloc_pool B s1 P A (c1 ++ [z]) c2 Cs I1) as (s2 & F & E & I2).
      { apply (all_pooled_same (pbs s) z y); [done|done|]. apply Forall_forall. intros b Hb.
        apply (proj1 (forallb_forall _ _) Hall), list_elem_of_In. rewrite Ec, elem_of_app. by right. }
      exists s2, P, F. split; [done|]. replace (shared s c c2) with (@nil (list Z)); [done|].
      destruct c2 as [|b c2]; [done|]. cbn [shared]. rewrite Hpx. by destruct (pbs s !! b).
    - destruct (realloc_heap B s1 s P A c (c1 ++ [z]) c2 Cs I1) as (k & s2 & P2 & -> & I2); [done| |by exists s2, P2, []].
      intros b Hb. unfold s1. cbn. rewrite lookup_insert_ne; [done|]. intros <-. destruct I as [[_ _ _ _ Hnd _] _].
      cbn [concat app] in Hnd. rewrite !NoDup_app in Hnd. destruct Hnd as (_ & _ & _ & _ & (_ & Hz & _) & _). apply (Hz z); [|done].
      rewrite elem_of_app. right. left. }
  cbn [mbind outcome_bind]. assert (c1 ++ [z] <> []) as Hne1 by (by destruct c1).
  destruct (realloc_end B s2 P2 A F (c1 ++ [z]) (shared s c c2 ++ Cs) sz I2 Hne1) as (s' & P' & E & I').
  unfold getp in E. rewrite Hhd in E. exists s', P', (c1 ++ [z]), c2. by split_and!.
Qed.

(** ** Runs of the operations

    The state of pbuf.c beside the list of the packets its clients hold. *)
Inductive pop : Set :=
  | OAlloc (layer sz flag a : Z)
  | ORef (i : nat)
  | OFree (i : nat)
  | OHeader (i : nat) (h : Z)
  | OChain (i j : nat)
  | ODechain (i : nat)
  | ORealloc (i : nat) (sz : Z).

Fixpoint chain_list (n : nat) (m : store) (p : Z) : outcome (list Z) :=
  if p =? NULL then Ok []
  else match n with
       | O => OutOfFuel
       | S n => x ← from_opt (m !! p); l ← chain_list n m (next x); Ok (p :: l)
       end.

Definition live (c : list Z) (Cs : list (list Z)) : list (list Z) :=
  match c with [] => Cs | _ => c :: Cs end.

(** What a client may ask for: a layer and a kind of buffer of the interface, a
    size, and, as the answer [a] of the heap, NULL or an address not in use. *)
Definition may_alloc (s : nst) (layer sz flag a : Z) : bool :=
  bool_decide (layer ∈ [PBUF_TRANSPORT; PBUF_IP; PBUF_LINK; PBUF_RAW]) &&
  bool_decide (flag ∈ [PBUF_POOL; PBUF_RW; PBUF_RO]) && (0 <=? sz) &&
  ((a =? NULL) || bool_decide (pbs s !! a = None)).

(** The rules for the clients of pbuf.c: they name packets that they hold, and cut them only
    where [cuttable] says so. *)
Definition allowed (s : nst) (Cs : list (list Z)) (o : pop) : bool :=
  match o with
  | OAlloc layer sz flag a => may_alloc s layer sz flag a
  | ORef i | OFree i | OHeader i _ | ODechain i => bool_decide (is_Some (Cs !! i))
  | OChain i j => bool_decide (is_Some (Cs !! i)) && bool_decide (is_Some (delete i Cs !! j))
  | ORealloc i sz => match Cs !! i with Some c => cuttable s c sz | None => false end
  end.

Definition pop_step (s : nst) (Cs : list (list Z)) (o : pop) : outcome (nst * list (list Z)) :=
  match o with
  | OAlloc layer sz flag a =>
      '(p, s) ← pbuf_alloc s layer sz flag a;
      c ← chain_list (cfuel s) (pbs s) p;
      Ok (s, live c Cs)
  | ORef i => c ← from_opt (Cs !! i); s ← pbuf_ref s (hd NULL c); Ok (s, Cs)
  | OFree i =>
      c ← from_opt (Cs !! i);
      x ← getp s (hd NULL c);
      '(_, s) ← pbuf_free s (hd NULL c);
      Ok (s, if u16 (ref x - 1) =? 0 then delete i Cs else Cs)
  | OHeader i h => c ← from_opt (Cs !! i); '(_, s) ← pbuf_header s (hd NULL c) h; Ok (s, Cs)
  | OChain i j =>
      c1 ← from_opt (Cs !! i);
      c2 ← from_opt (delete i Cs !! j);
      s ← pbuf_chain s (hd NULL c1) (hd NULL c2);
      c ← chain_list (cfuel s) (pbs s) (hd NULL c1);
      Ok (s, c :: delete j (delete i Cs))
  | ODechain i =>
      c ← from_opt (Cs !! i);
      '(q, s) ← pbuf_dechain s (hd NULL c);
      c1 ← chain_list (cfuel s) (pbs s) (hd NULL c);
      c2 ← chain_list (cfuel s) (pbs s) q;
      Ok (s, c1 :: live c2 (delete i Cs))
  | ORealloc i sz =>
      c ← from_opt (Cs !! i);
      s' ← pbuf_realloc s (hd NULL c) sz;
      c' ← chain_list (cfuel s') (pbs s') (hd NULL c);
      Ok (s', c' :: shared s c (drop (length c') c) ++ delete i Cs)
  end.

Fixpoint run_pops (s : nst) (Cs : list (list Z)) (os : list pop) : outcome (nst * list (list Z)) :=
  match os with
  | [] => Ok (s, Cs)
  | o :: os => '(s, Cs) ← pop_step s Cs o; run_pops s Cs os
  end.

(** All operations of the run keep the rules. *)
Fixpoint allowed_run (s : nst) (Cs : list (list Z)) (os : list pop) : bool :=
  match os with
  | [] => true
  | o :: os => allowed s Cs o && match pop_step s Cs o with Ok (s, Cs) => allowed_run s Cs os | _ => true end
  end.

Definition good (B : list Z) (s : nst) (Cs : list (list Z)) : Prop :=
  exists P A, pinv B s P A [] Cs /\ Forall (fun c => c <> []) Cs.

Lemma chain_list_ok (m : store) n p l : chain m p l -> (length l <= n)%nat -> chain_list n m p = Ok l.
Proof.
  revert p l. induction n as [|n IH]; intros p [|a l] Hc Hn; cbn [length] in Hn; try lia.
  1,2: cbn in Hc; by subst p.
  destruct Hc as (-> & Ha0 & x & Hx & Hc). cbn [chain_list]. rewrite (proj2 (Z.eqb_neq _ _) Ha0), Hx.
  cbn [from_opt mbind outcome_bind]. by rewrite (IH _ l) by (done || lia).
Qed.

Lemma pinv_chain_list B s P A F c Cs : pinv B s P A F (c :: Cs) -> chain_list (cfuel s) (pbs s) (hd NULL c) = Ok c.
Proof.
  intros [[_ _ _ Hc _ _] _]. apply Forall_cons in Hc as [Hc _]. apply chain_list_ok; [done|].
  pose proof (chain_fuel _ _ _ Hc). lia.
Qed.

(** A packet that the client holds. *)
Lemma held B s Cs i c :
  good B s Cs -> Cs !! i = Some c ->
  exists P A a c' x, c = a :: c' /\ pbs s !! a = Some x /\ pinv B s P A [] ((a :: c') :: delete i Cs) /\
    Forall (fun c => c <> []) (delete i Cs) /\ (a :: c') :: delete i Cs ≡ₚ Cs.
Proof.
  intros (P & A & I & Hne) Hi. pose proof (delete_Permutation _ _ _ Hi) as Hp. rewrite Hp in Hne.
  apply (pinv_perm _ _ _ _ _ _ _ Hp) in I. apply Forall_cons in Hne as [Hc Hne].
  destruct c as [|a c']; [done|]. pose proof I as [[_ _ _ Hch _ _] _].
  apply Forall_cons in Hch as [(_ & _ & x & Hx & _) _]. by exists P, A, a, c', x.
Qed.

Lemma good_back B s P A c Cs Cs' :
  pinv B s P A [] (c :: Cs) -> c <> [] -> Forall (fun c => c <> []) Cs -> c :: Cs ≡ₚ Cs' -> good B s Cs'.
Proof.
  intros I Hc Hne Hp. exists P, A. split; [by apply (pinv_perm _ _ _ _ _ _ _ Hp)|]. rewrite <- Hp. by constructor.
Qed.

Lemma pinv_nmem B s P A F Cs M : pinv B s P A F Cs -> pinv B (set_nmem s M) P A F Cs.
Proof. intros [[] []]. by split; split. Qed.

Lemma live_good B s P A c Cs :
  pinv B s P A [] (c :: Cs) -> Forall (fun c => c <> []) Cs -> good B s (live c Cs).
Proof.
  intros I Hne. exists P, A. destruct c; cbn [live].
  - split; [|done]. exact (proj1 (pinv_nil _ _ _ _ _ _) I).
  - split; [done|]. by constructor.
Qed.

Lemma layer_offset_ok layer :
  layer ∈ [PBUF_TRANSPORT; PBUF_IP; PBUF_LINK; PBUF_RAW] -> exists off, layer_offset layer = Ok off /\ 0 <= off <= 54.
Proof. intros H. repeat (apply elem_of_cons in H as [->|H]; [eexists; split; [done|cbv; split; discriminate]|]). by apply elem_of_nil in H. Qed.

Lemma step_alloc B s Cs layer sz flag a :
  good B s Cs -> Z.of_nat (length B) <= PBUF_POOL_SIZE -> may_alloc s layer sz flag a = true ->
  exists s' Cs', pop_step s Cs (OAlloc layer sz flag a) = Ok (s', Cs') /\ good B s' Cs'.
Proof.
  intros G HB Hm. cbn [pop_step]. unfold may_alloc in Hm. rewrite !andb_true_iff, orb_true_iff, !bool_decide_eq_true in Hm.
  destruct Hm as (((Hl & Hf) & Hsz) & Ha). apply Z.leb_le in Hsz. destruct G as (P & A & I & Hne).
  destruct (layer_offset_ok _ Hl) as (off & Ho & _). unfold pbuf_alloc. rewrite Ho. cbn [mbind outcome_bind].
  assert (forall s' P' A', pinv B s' P' A' [] Cs ->
    exists s'' Cs', (c ← chain_list (cfuel s') (pbs s') NULL; Ok (s', live c Cs)) = Ok (s'', Cs') /\ good B s'' Cs') as Hnull.
  { intros s' P' A' I'. exists s', Cs. split; [done|]. by exists P', A'. }
  assert (forall s' P' A' c p, hd NULL c = p -> pinv B s' P' A' [] (c :: Cs) ->
    exists s'' Cs', (c ← chain_list (cfuel s') (pbs s') p; Ok (s', live c Cs)) = Ok (s'', Cs') /\ good B s'' Cs') as Hnew.
  { intros s' P' A' c p <- I'. rewrite (pinv_chain_list _ _ _ _ _ _ _ I'). eexists _, _. split; [done|].
    by eapply live_good. }
  apply elem_of_cons in Hf as [->|Hf]; [|apply elem_of_cons in Hf as [->|Hf%list_elem_of_singleton]].
  - change (PBUF_POOL =? PBUF_POOL) with true. cbv match.
    destruct (alloc_pool_ok B s P A Cs off sz I HB Hsz) as (p & s' & -> & Hres). cbn [mbind outcome_bind].
    destruct (decide _); [destruct Hres as (_ & c & P' & A' & I' & Hp & _)|destruct Hres as (-> & P' & A' & I')]; eauto.
  - change (PBUF_RW =? PBUF_POOL) with false. change (PBUF_RW =? PBUF_RW) with true. cbv match.
    destruct (Z.eqb_spec a NULL) as [->|Ha0]; cbn [mbind outcome_bind]; [by eapply Hnull|].
    destruct Ha as [Ha|Ha]; [done|]. eapply (Hnew _ _ _ [a]); [done|].
    eapply (pinv_nmem B (set_stat (putp s a _) _)), pinv_fresh; done.
  - subst flag. change (PBUF_RO =? PBUF_POOL) with false. change (PBUF_RO =? PBUF_RW) with false.
    change (PBUF_RO =? PBUF_RO) with true. cbv match.
    destruct (Z.eqb_spec a NULL) as [->|Ha0]; cbn [mbind outcome_bind]; [by eapply Hnull|].
    destruct Ha as [Ha|Ha]; [done|]. eapply (Hnew _ _ _ [a]); [done|].
    eapply (pinv_fresh _ _ _ _ _ _ _ (stat s)); done.
Qed.

Lemma step_free B s Cs i :
  good B s Cs -> is_Some (Cs !! i) -> exists s' Cs', pop_step s Cs (OFree i) = Ok (s', Cs') /\ good B s' Cs'.
Proof.
  intros G [c Hi]. cbn [pop_step]. rewrite Hi. cbn [from_opt mbind outcome_bind].
  destruct (held _ _ _ _ _ G Hi) as (P & A & a & c' & x & -> & Hx & I & Hne & Hp). cbn [hd].
  destruct (pbuf_free_ok _ _ _ _ _ _ _ _ I Hx) as (k & s' & P' & -> & I').
  unfold getp. rewrite Hx. cbn [from_opt mbind outcome_bind]. eexists _, _. split; [done|].
  destruct (u16 (ref x - 1) =? 0); [by exists P', A|]. by eapply good_back.
Qed.

Lemma step_chain B s Cs i j :
  good B s Cs -> is_Some (Cs !! i) -> is_Some (delete i Cs !! j) -> exists s' Cs', pop_step s Cs (OChain i j) = Ok (s', Cs') /\ good B s' Cs'.
Proof.
  intros G [c1 Hi] [c2 Hj]. cbn [pop_step]. rewrite Hi, Hj. cbn [from_opt mbind outcome_bind].
  destruct (held _ _ _ _ _ G Hi) as (P & A & a & c' & x & -> & Hx & I & Hne & Hp).
  pose proof (delete_Permutation _ _ _ Hj) as Hpj.
  apply (pinv_perm _ _ _ _ _ _ ((a :: c') :: c2 :: delete j (delete i Cs))) in I; [|by rewrite <- Hpj].
  rewrite Hpj in Hne. apply Forall_cons in Hne as [Hc2 Hne].
  destruct (pbuf_chain_ok _ _ _ _ _ _ _ I) as (s' & -> & I'); [done|done|]. cbn [mbind outcome_bind].
  pose proof (pinv_chain_list _ _ _ _ _ _ _ I') as E. cbn [hd app] in E |- *. rewrite E. eexists _, _. split; [done|]. by eapply good_back.
Qed.

Lemma step_dechain B s Cs i :
  good B s Cs -> is_Some (Cs !! i) -> exists s' Cs', pop_step s Cs (ODechain i) = Ok (s', Cs') /\ good B s' Cs'.
Proof.
  intros G [c Hi]. cbn [pop_step]. rewrite Hi. cbn [from_opt mbind outcome_bind].
  destruct (held _ _ _ _ _ G Hi) as (P & A & a & c' & x & -> & Hx & I & Hne & Hp). cbn [hd].
  destruct (pbuf_dechain_ok _ _ _ _ _ _ _ I) as (s' & -> & I'). cbn [mbind outcome_bind].
  pose proof (pinv_chain_list _ _ _ _ _ _ _ I') as E1. cbn [hd] in E1. rewrite E1. cbn [mbind outcome_bind].
  apply (pinv_perm _ _ _ _ _ _ (c' :: [a] :: delete i Cs)) in I'; [|apply perm_swap].
  rewrite (pinv_chain_list _ _ _ _ _ _ _ I'). cbn [mbind outcome_bind]. eexists _, _. split; [done|].
  destruct (live_good _ _ _ _ _ _ I') as (P' & A' & I2 & Hne2); [by constructor|]. exists P', A'.
  destruct c' as [|b c']; cbn [live] in *; [by split|]. split; [|by rewrite perm_swap].
  eapply pinv_perm; [apply perm_swap|done].
Qed.

Lemma shared_ne s c rest : Forall (fun c => c <> []) (shared s c rest).
Proof. destruct rest as [|b rest]; [constructor|]. cbn [shared]. destruct (pbs s !! b); [|constructor]. by destruct (_ || _); repeat constructor. Qed.

Lemma step_realloc B s Cs i c sz :
  good B s Cs -> Cs !! i = Some c -> cuttable s c sz = true -> exists s' Cs', pop_step s Cs (ORealloc i sz) = Ok (s', Cs') /\ good B s' Cs'.
Proof.
  intros G Hi Hcut. cbn [pop_step]. rewrite Hi. cbn [from_opt mbind outcome_bind].
  destruct (held _ _ _ _ _ G Hi) as (P & A & a & c' & x & -> & Hx & I & Hne & Hp).
  destruct (pbuf_realloc_ok _ _ _ _ _ _ sz I) as (s' & P' & c & rest & -> & Ec & I' & Hh & Hc); [done..|].
  cbn [mbind outcome_bind]. rewrite <- Hh, (pinv_chain_list _ _ _ _ _ _ _ I'). cbn [mbind outcome_bind].
  assert (drop (length c) (a :: c') = rest) as -> by (rewrite Ec; apply drop_app_length). eexists _, _. split; [done|].
  exists P', A. split; [exact I'|]. constructor; [done|]. apply Forall_app_2; [apply shared_ne|done].
Qed.

Lemma step_ref B s Cs i :
  good B s Cs -> is_Some (Cs !! i) -> exists s' Cs', pop_step s Cs (ORef i) = Ok (s', Cs') /\ good B s' Cs'.
Proof.
  intros G [c Hi]. cbn [pop_step]. rewrite Hi. cbn [from_opt mbind outcome_bind].
  destruct (held _ _ _ _ _ G Hi) as (P & A & a & c' & x & -> & Hx & I & Hne & Hp). cbn [hd].
  unfold pbuf_ref, getp. destruct (a =? NULL); [by eexists _, _|]. rewrite Hx. cbn [from_opt mbind outcome_bind].
  eexists _, _. split; [done|]. eapply good_back; [eapply pinv_put_same; [exact I|exact Hx|done|done]|done..].
Qed.

Lemma step_header B s Cs i h :
  good B s Cs -> is_Some (Cs !! i) -> exists s' Cs', pop_step s Cs (OHeader i h) = Ok (s', Cs') /\ good B s' Cs'.
Proof.
  intros G [c Hi]. cbn [pop_step]. rewrite Hi. cbn [from_opt mbind outcome_bind].
  destruct (held _ _ _ _ _ G Hi) as (P & A & a & c' & x & -> & Hx & I & Hne & Hp). cbn [hd].
  unfold pbuf_header, getp. rewrite Hx. cbn [from_opt mbind outcome_bind]. destruct (_ <? _); [by eexists _, _|].
  eexists _, _. split; [done|]. eapply good_back; [eapply pinv_put_same; [exact I|exact Hx|done|done]|done..].
Qed.

Lemma run_pops_good B os s Cs :
  Z.of_nat (length B) <= PBUF_POOL_SIZE -> good B s Cs -> allowed_run s Cs os = true ->
  exists s' Cs', run_pops s Cs os = Ok (s', Cs') /\ good B s' Cs'.
Proof.
  intros HB. revert s Cs. induction os as [|o os IH]; intros s Cs G Hal; [by exists s, Cs|]. cbn [run_pops allowed_run] in *.
  apply andb_true_iff in Hal as [Ho Hal].
  assert (exists s' Cs', pop_step s Cs o = Ok (s', Cs') /\ good B s' Cs') as (s' & Cs' & E & G').
  { destruct o; cbn [allowed] in Ho; rewrite ?andb_true_iff, ?bool_decide_eq_true in Ho.
    - by apply step_alloc.
    - by apply step_ref.
    - by apply step_free.
    - by apply step_header.
    - destruct Ho. by apply step_chain.
    - by apply step_dechain.
    - destruct (Cs !! i) as [c|] eqn:Hi; [|done]. by eapply step_realloc. }
  rewrite E in Hal |- *. by apply IH.
Qed.

(** ** The state after pbuf_init *)

(** The buffers of the pool at [a]. *)
Definition pool_bufs (a : Z) : list Z :=
  (fun i => a + Z.of_nat i * (PBUF_POOL_BUFSIZE + SZ)) <$> seq 0 (Z.to_nat PBUF_POOL_SIZE).

Definition no_pbufs : nst := MkN ∅ ∅ NULL NULL NULL 0 0 (MkStats 0 0 0 0 0 0 0).

Lemma pool_init_chain n m p :
  0 < p -> (0 < n)%nat ->
  chain (pool_init n m p) p ((fun i => p + Z.of_nat i * (PBUF_POOL_BUFSIZE + SZ)) <$> seq 0 n).
Proof.
  revert p. induction n as [|n IH]; intros p Hp Hn; [lia|]. cbn [pool_init].
  replace (seq 0 (S n)) with (0%nat :: (S <$> seq 0 n)) by (cbn; by rewrite <- fmap_S_seq).
  rewrite fmap_cons, <- list_fmap_compose. cbn [seg]. cbv beta.
  split; [lia|]. split; [unfold NULL; lia|].
  rewrite Z.mul_0_l, Z.add_0_r. eexists. rewrite lookup_insert_eq. split; [done|]. cbn [next].
  destruct (decide (n = O)) as [->|Hn0]; [done|]. apply seg_put.
  - rewrite list_elem_of_fmap. intros (i & Hi & _). unfold compose, PBUF_POOL_BUFSIZE, SZ in Hi. lia.
  - rewrite (list_fmap_ext _ (fun i => p + PBUF_POOL_BUFSIZE + SZ + Z.of_nat i * (PBUF_POOL_BUFSIZE + SZ))).
    + apply IH; unfold PBUF_POOL_BUFSIZE, SZ; lia.
    + intros i j _. unfold compose, PBUF_POOL_BUFSIZE, SZ. lia.
Qed.

Lemma pool_bufs_NoDup a : NoDup (pool_bufs a).
Proof.
  unfold pool_bufs. apply NoDup_fmap_2; [|apply NoDup_seq]. intros i j. unfold PBUF_POOL_BUFSIZE, SZ. lia.
Qed.

Lemma pbuf_init_good a :
  0 < a -> exists s, pbuf_init no_pbufs a = Ok s /\ good (pool_bufs a) s [].
Proof.
  intros Ha. unfold pbuf_init. rewrite (proj2 (Z.eqb_neq a NULL)) by (unfold NULL; lia). eexists. split; [done|].
  exists (pool_bufs a), []. split; [|done]. split; split; try done.
  - apply pool_init_chain; [done|]. unfold PBUF_POOL_SIZE. lia.
  - cbn [app concat]. rewrite app_nil_r. apply pool_bufs_NoDup.
Qed.

Lemma pool_bufs_length a : length (pool_bufs a) = 128%nat.
Proof. unfold pool_bufs. by rewrite length_fmap, length_seq. Qed.

(** C10: No packet buffer is ever lost or shared.  From the state pbuf_init leaves,
    every sequence of allocations, references, releases, header adjustments,
    chainings, dechainings and cuts in which the clients keep their rules runs to its
    end; then each live packet is a chain that ends, no buffer is in two packets or
    both in a packet and in a list of free buffers, the pool, the allocation cache and
    the packets hold between them exactly the 128 buffers of the pool, and the
    statistics count the ones in use.  The rules: an operation is on packets the client
    holds, an allocation is of a kind and for a layer that there is, and of a size that
    is not negative, and the heap answers it with NULL or memory not in use; pbuf_realloc is not called for a packet that starts with a buffer of
    the pool and has one of the heap behind it, nor for a size between what its buffers
    hold and its total length. *)
Theorem pbuf_pool_safe (a : Z) (os : list pop) (s0 : nst) (Ha : 0 < a)
  (H0 : pbuf_init no_pbufs a = Ok s0) (Hos : allowed_run s0 [] os = true) :
  exists s Cs P A, run_pops s0 [] os = Ok (s, Cs) /\
    Forall (fun c => c <> [] /\ chain (pbs s) (hd NULL c) c) Cs /\
    chain (pbs s) (pbuf_pool s) P /\ chain (pbs s) (alloc_cache s) A /\ free_cache s = NULL /\
    NoDup (P ++ A ++ concat Cs) /\ P ++ A ++ inuse s Cs ≡ₚ pool_bufs a /\
    used (stat s) = Z.of_nat (length (inuse s Cs)).
Proof.
  destruct (pbuf_init_good a Ha) as (s1 & E0 & G0). rewrite H0 in E0. injection E0 as <-.
  destruct (run_pops_good (pool_bufs a) os s0 []) as (s & Cs & E & P & A & [[H1 H2 H3 H4 H5 H6] [Cp Cu _]] & Hne);
    [by rewrite pool_bufs_length|done|done|].
  exists s, Cs, P, A. split_and!; try done. by apply Forall_and.
Qed.

(** The run that the witnesses use: a packet of 300 bytes, one of the heap behind it, the first
    buffer taken off, one of the parts released; a packet of the heap with one of the pool behind
    it, cut to its first part, and a packet of the pool, cut. *)
Definition pool_run : list pop :=
  [OAlloc PBUF_TRANSPORT 300 PBUF_POOL 0; OAlloc PBUF_RAW 40 PBUF_RW 1000000; OChain 1 0; ODechain 0; OFree 1; ORef 0;
   OAlloc PBUF_RAW 40 PBUF_RW 2000000; OAlloc PBUF_RAW 50 PBUF_POOL 0; OChain 1 0; ORealloc 0 30; OAlloc PBUF_RAW 500 PBUF_POOL 0; ORealloc 0 100].

Lemma initial_allows a os : 0 < a -> match pbuf_init no_pbufs a with Ok s => allowed_run s [] os | _ => false end = true ->
  exists s0, pbuf_init no_pbufs a = Ok s0 /\ allowed_run s0 [] os = true.
Proof. intros Ha. destruct (pbuf_init_good a Ha) as (s0 & -> & _). by exists s0. Qed.

Lemma pbuf_pool_safe_witness :
  exists s0 s Cs P A, pbuf_init no_pbufs 4096 = Ok s0 /\ run_pops s0 [] pool_run = Ok (s, Cs) /\
    Forall (fun c => c <> [] /\ chain (pbs s) (hd NULL c) c) Cs /\
    chain (pbs s) (pbuf_pool s) P /\ chain (pbs s) (alloc_cache s) A /\ free_cache s = NULL /\
    NoDup (P ++ A ++ concat Cs) /\ P ++ A ++ inuse s Cs ≡ₚ pool_bufs 4096 /\
    used (stat s) = Z.of_nat (length (inuse s Cs)).
Proof.
  destruct (initial_allows 4096 pool_run) as (s0 & E0 & Hal); [reflexivity|vm_compute; reflexivity|]. exists s0.
  destruct (pbuf_pool_safe 4096 pool_run s0 eq_refl E0 Hal) as (s & Cs & P & A & H). exists s, Cs, P, A. split; [exact E0|exact H].
Defined.

(** The buffers a packet of [sz] bytes behind [off] bytes of headers takes. *)
Definition pool_need (off sz : Z) : Z :=
  if sz <=? PBUF_POOL_BUFSIZE - off then 1 else 1 + (sz - (PBUF_POOL_BUFSIZE - off) + 127) / 128.

Lemma pool_need_eq off sz : Z.of_nat (S (need (sz - first_part off sz))) = pool_need off sz.
Proof.
  unfold pool_need, first_part. destruct (Z.leb_spec sz (PBUF_POOL_BUFSIZE - off)) as [H|H].
  - rewrite (proj2 (Z.ltb_ge _ _)) by lia. by rewrite Z.sub_diag.
  - rewrite (proj2 (Z.ltb_lt _ _)) by lia. unfold need. rewrite Z.max_l by lia.
    pose proof (Z.div_pos (sz - (PBUF_POOL_BUFSIZE - off) + 127) 128 ltac:(lia) ltac:(lia)). lia.
Qed.

Lemma free_count B s P A Cs :
  pinv B s P A [] Cs -> Z.of_nat (length P + length A) = Z.of_nat (length B) - used (stat s).
Proof. intros [_ [Cp Cu _]]. rewrite Cu, <- Cp. cbn [app]. rewrite !length_app. lia. Qed.

(** In every state the operations lead to, an allocation from the pool succeeds
    exactly when the buffers it needs are not more than the 128 less those in use.
    It then returns a chain of just that many buffers, none of them part of
    another packet, whose lengths add up to the size asked for, with one
    reference; otherwise it returns NULL, and all that is free stays free. *)
Theorem pbuf_alloc_pool_exact (a : Z) (os : list pop) (s0 s : nst) (Cs : list (list Z)) (layer sz h off : Z)
    (Ha : 0 < a) (H0 : pbuf_init no_pbufs a = Ok s0) (Hos : allowed_run s0 [] os = true) (Hrun : run_pops s0 [] os = Ok (s, Cs))
    (Hoff : layer_offset layer = Ok off) (Hsz : 0 <= sz) :
  exists p s', pbuf_alloc s layer sz PBUF_POOL h = Ok (p, s') /\
    if pool_need off sz <=? 128 - used (stat s) then
      exists c, p <> NULL /\ chain (pbs s') p c /\ Z.of_nat (length c) = pool_need off sz /\
        NoDup (c ++ concat Cs) /\ lensum (pbs s') c = sz /\ rt (pbs s') p = Some (1, sz)
    else p = NULL /\ used (stat s') = Z.of_nat (length (inuse s' Cs)).
Proof.
  destruct (pbuf_init_good a Ha) as (s1 & E0 & G0). rewrite H0 in E0. injection E0 as <-.
  destruct (run_pops_good (pool_bufs a) os s0 []) as (s1 & Cs1 & E & P & A & I & Hne);
    [by rewrite pool_bufs_length|done|done|]. rewrite Hrun in E. injection E as <- <-.
  unfold pbuf_alloc. rewrite Hoff. cbn [mbind outcome_bind]. change (PBUF_POOL =? PBUF_POOL) with true. cbv match.
  destruct (alloc_pool_ok (pool_bufs a) s P A Cs off sz I) as (p & s' & E & Hr);
    [by rewrite pool_bufs_length|done|]. exists p, s'. split; [exact E|].
  pose proof (free_count _ _ _ _ _ I) as Hfc. rewrite pool_bufs_length in Hfc.
  rewrite <- (pool_need_eq off sz). destruct (decide _) as [Hle|Hgt].
  - rewrite (proj2 (Z.leb_le _ _)) by lia. destruct Hr as (Hp & c & P' & A' & I' & Hh & Hc & _ & Hl & Hls & Hrt).
    exists c. destruct I' as [[_ _ _ H4 H5 _] _]. apply Forall_cons in H4 as [H4 _]. rewrite Hh in H4.
    split_and!; try done; [by rewrite Hl|]. cbn [app concat] in H5. by apply NoDup_app in H5 as (_ & _ & (_ & _ & H5)%NoDup_app).
  - rewrite (proj2 (Z.leb_gt _ _)) by lia. destruct Hr as (-> & P' & A' & [_ [_ Cu _]]). done.
Qed.

(** Eight packets of 1800 bytes take 120 buffers; the ninth does not fit. *)
Definition exhausting_run : list pop := repeat (OAlloc PBUF_TRANSPORT 1800 PBUF_POOL 0) 9.

Lemma pbuf_alloc_pool_exact_witness :
  exists s0 s Cs, pbuf_init no_pbufs 4096 = Ok s0 /\ run_pops s0 [] exhausting_run = Ok (s, Cs) /\
  exists p s', pbuf_alloc s PBUF_RAW 200 PBUF_POOL 0 = Ok (p, s') /\
    if pool_need 0 200 <=? 128 - used (stat s) then
      exists c, p <> NULL /\ chain (pbs s') p c /\ Z.of_nat (length c) = pool_need 0 200 /\
        NoDup (c ++ concat Cs) /\ lensum (pbs s') c = 200 /\ rt (pbs s') p = Some (1, 200)
    else p = NULL /\ used (stat s') = Z.of_nat (length (inuse s' Cs)).
Proof.
  destruct (pbuf_init_good 4096 eq_refl) as (s0' & E0 & G0).
  destruct (initial_allows 4096 exhausting_run) as (s0 & E0' & Hal); [reflexivity|vm_compute; reflexivity|].
  rewrite E0 in E0'. injection E0' as ->.
  destruct (run_pops_good (pool_bufs 4096) exhausting_run s0 []) as (s & Cs & E & _);
    [by rewrite pool_bufs_length|done|done|]. exists s0, s, Cs. split; [exact E0|]. split; [exact E|].
  apply (pbuf_alloc_pool_exact 4096 exhausting_run s0 s Cs PBUF_RAW 200 0 0 eq_refl E0 Hal E eq_refl). lia.
Defined.

(** A packet of the pool with a heap buffer behind it, cut to its first part. *)
Definition cut_mixed_packet : outcome (list Z * Z) :=
  s ← pbuf_init no_pbufs 4096;
  '(p, s) ← pbuf_alloc s PBUF_RAW 100 PBUF_POOL 0;
  '(q, s) ← pbuf_alloc s PBUF_RAW 40 PBUF_RW 1000000;
  s ← pbuf_chain s p q;
  s ← pbuf_realloc s p 100;
  l ← chain_list (cfuel s) (pbs s) (pbuf_pool s);
  Ok (l, used (stat s)).

(** pbuf_realloc looks at the kind of the first buffer only: the heap buffer
    becomes a buffer of the pool, and the statistics count one buffer too few. *)
Lemma pbuf_realloc_pools_heap_buffer : exists l, cut_mixed_packet = Ok (l, 0) /\ 1000000 ∈ l.
Proof. eexists. split; [vm_compute; reflexivity|]. apply (bool_decide_unpack _). vm_compute. exact I. Qed.
