(* ===== verification/Fsm.v ===== *)
(** * The control protocol automaton of PPP (net/ppp/fsm.c, fsm.h)

    One automaton of LCP or IPCP with its restart timer, the packets it writes and
    the calls of the upper layers, in the order they are made.  The callbacks of
    the protocol (fsm_callbacks) are arbitrary functions on the data of the
    protocol; a NULL callback is [None].  The defaults of fsm_init, constants of
    the configuration of the build, are its arguments. *)

From S2P Require Import Prelude.

(** ** Data *)

Definition HEADERLEN : Z := 4.
Definition CONFREQ : Z := 1.
Definition CONFACK : Z := 2.
Definition CONFNAK : Z := 3.
Definition CONFREJ : Z := 4.
Definition TERMREQ : Z := 5.
Definition TERMACK : Z := 6.
Definition CODEREJ : Z := 7.

(** Link states. *)
Inductive lstate : Set :=
  | INITIAL | STARTING | CLOSED | STOPPED | CLOSING | STOPPING | REQSENT | ACKRCVD | ACKSENT | OPENED.

#[global] Instance lstate_eq_dec : EqDecision lstate.
Proof. solve_decision. Defined.

Definition OPT_PASSIVE : Z := 1.
Definition OPT_RESTART : Z := 2.
Definition OPT_SILENT : Z := 4.

Record fsm := MkFsm {
  state : lstate;
  fflags : Z;
  fid : Z;
  reqid : Z;
  seen_ack : bool;
  timeouttime : Z;
  maxconfreqtransmits : Z;
  retransmits : Z;
  maxtermtransmits : Z;
  nakloops : Z;
  maxnakloops : Z;
  term_reason : list Z }.

(** [addci x n]: the options written, at most [n] bytes; [reqci x bs reject]: the
    answer's code, its options and the new data. *)
Record fsm_callbacks (X : Type) := MkCb {
  resetci : option (X -> X);
  cilen : option (X -> Z);
  addci : option (X -> Z -> list Z * X);
  ackci : option (X -> list Z -> Z * X);
  nakci : option (X -> list Z -> Z * X);
  rejci : option (X -> list Z -> Z * X);
  reqci : option (X -> list Z -> bool -> Z * list Z * X);
  up : bool;
  down : bool;
  starting : bool;
  finished : bool;
  retransmit : bool;
  extcode : option (X -> Z -> Z -> list Z -> Z * X) }.
Arguments resetci {X}.
Arguments cilen {X}.
Arguments addci {X}.
Arguments ackci {X}.
Arguments nakci {X}.
Arguments rejci {X}.
Arguments reqci {X}.
Arguments up {X}.
Arguments down {X}.
Arguments starting {X}.
Arguments finished {X}.
Arguments retransmit {X}.
Arguments extcode {X}.

(** What the rest of the system sees: calls of the upper layers, packets. *)
Inductive fevent : Set :=
  | Up | Down | Starting | Finished | Retransmit
  | Sent (packet : list Z).

(** The automaton, the negotiated MRU of the peer, the protocol number, the pending
    restart timer, what it has done (oldest first), the data of the protocol. *)
Record fsys (X : Type) := MkFsys {
  fm : fsm;
  peer_mru : Z;
  protocol : Z;
  ftimer : option Z;
  out : list fevent;
  dat : X }.
Arguments MkFsys {X}.
Arguments fm {X}.
Arguments peer_mru {X}.
Arguments protocol {X}.
Arguments ftimer {X}.
Arguments out {X}.
Arguments dat {X}.

Definition set_st (f : fsm) (v : lstate) : fsm :=
  MkFsm v (fflags f) (fid f) (reqid f) (seen_ack f) (timeouttime f) (maxconfreqtransmits f) (retransmits f)
    (maxtermtransmits f) (nakloops f) (maxnakloops f) (term_reason f).
Definition set_req (f : fsm) (i r : Z) : fsm :=
  MkFsm (state f) (fflags f) i r (seen_ack f) (timeouttime f) (maxconfreqtransmits f) (retransmits f)
    (maxtermtransmits f) (nakloops f) (maxnakloops f) (term_reason f).
Definition set_seen (f : fsm) (v : bool) : fsm :=
  MkFsm (state f) (fflags f) (fid f) (reqid f) v (timeouttime f) (maxconfreqtransmits f) (retransmits f)
    (maxtermtransmits f) (nakloops f) (maxnakloops f) (term_reason f).
Definition set_retr (f : fsm) (v : Z) : fsm :=
  MkFsm (state f) (fflags f) (fid f) (reqid f) (seen_ack f) (timeouttime f) (maxconfreqtransmits f) v
    (maxtermtransmits f) (nakloops f) (maxnakloops f) (term_reason f).
Definition set_nak (f : fsm) (v : Z) : fsm :=
  MkFsm (state f) (fflags f) (fid f) (reqid f) (seen_ack f) (timeouttime f) (maxconfreqtransmits f) (retransmits f)
    (maxtermtransmits f) v (maxnakloops f) (term_reason f).
Definition set_reason (f : fsm) (v : list Z) : fsm :=
  MkFsm (state f) (fflags f) (fid f) (reqid f) (seen_ack f) (timeouttime f) (maxconfreqtransmits f) (retransmits f)
    (maxtermtransmits f) (nakloops f) (maxnakloops f) v.

Definition upd {X} (s : fsys X) (g : fsm -> fsm) : fsys X :=
  MkFsys (g (fm s)) (peer_mru s) (protocol s) (ftimer s) (out s) (dat s).
Definition set_timer {X} (s : fsys X) (t : option Z) : fsys X :=
  MkFsys (fm s) (peer_mru s) (protocol s) t (out s) (dat s).
Definition set_dat {X} (s : fsys X) (x : X) : fsys X :=
  MkFsys (fm s) (peer_mru s) (protocol s) (ftimer s) (out s) x.
Definition emit {X} (s : fsys X) (e : fevent) : fsys X :=
  MkFsys (fm s) (peer_mru s) (protocol s) (ftimer s) (out s ++ [e]) (dat s).

Definition goto {X} (s : fsys X) (v : lstate) : fsys X := upd s (fun f => set_st f v).

(** A call of a callback that only informs. *)
Definition inform {X} (s : fsys X) (present : bool) (e : fevent) : fsys X := if present then emit s e else s.

(** TIMEOUT cancels a pending timeout first. *)
Definition TIMEOUT {X} (s : fsys X) : fsys X := set_timer s (Some (timeouttime (fm s) * 1000)).
Definition UNTIMEOUT {X} (s : fsys X) : fsys X := set_timer s None.

(** PUTSHORT, GETSHORT.  The shift of GETSHORT is a statement without effect. *)
Definition PUTSHORT (v : Z) : list Z := [u8 (Z.shiftr v 8); u8 v].
Definition GETSHORT (hi lo : Z) : Z := Z.lor hi lo.

Definition PPP_ALLSTATIONS : Z := 255.
Definition PPP_UI : Z := 3.

Definition MAKEHEADER (t : Z) : list Z := [u8 PPP_ALLSTATIONS; u8 PPP_UI] ++ PUTSHORT t.

(** ** Operations *)

Definition fsm_init (f : fsm) (deftimeout defmaxconfreqs defmaxtermreqs defmaxnakloops : Z) : fsm :=
  MkFsm INITIAL 0 0 (reqid f) (seen_ack f) deftimeout defmaxconfreqs (retransmits f) defmaxtermreqs
    (nakloops f) defmaxnakloops [].

(** An MRU smaller than the header makes the length to copy negative: a fault. *)
Definition fsm_sdata {X} (s : fsys X) (code id : Z) (data : list Z) : outcome (fsys X) :=
  let datalen := Z.of_nat (length data) in
  let datalen := if peer_mru s - HEADERLEN <? datalen then peer_mru s - HEADERLEN else datalen in
  if datalen <? 0 then Fault
  else
    let outlen := datalen + HEADERLEN in
    Ok (emit s (Sent (MAKEHEADER (protocol s) ++ [u8 code; u8 id] ++ PUTSHORT outlen ++
                      take (Z.to_nat datalen) data))).

Section operations.
Context {X : Type} (cb : fsm_callbacks X).
Implicit Types s : fsys X.

Definition negotiating (l : lstate) : bool :=
  match l with REQSENT | ACKRCVD | ACKSENT => true | _ => false end.

Definition fsm_sconfreq (s : fsys X) (retransmit : bool) : outcome (fsys X) :=
  let s :=
    if negb (negotiating (state (fm s))) then
      let s := match resetci cb with Some g => set_dat s (g (dat s)) | None => s end in
      upd s (fun f => set_nak f 0)
    else s in
  let s :=
    if negb retransmit then
      upd s (fun f => let f := set_retr f (maxconfreqtransmits f) in set_req f (u8 (fid f + 1)) (u8 (fid f + 1)))
    else s in
  let s := upd s (fun f => set_seen f false) in
  let '(ci, s) :=
    match cilen cb, addci cb with
    | Some c, Some a =>
        let n := c (dat s) in
        let n := if peer_mru s - HEADERLEN <? n then peer_mru s - HEADERLEN else n in
        let '(bs, x) := a (dat s) n in (bs, set_dat s x)
    | _, _ => ([], s)
    end in
  s ← fsm_sdata s CONFREQ (reqid (fm s)) ci;
  let s := upd s (fun f => set_retr f (s32 (retransmits f - 1))) in
  Ok (TIMEOUT s).

Definition fsm_lowerup (s : fsys X) : outcome (fsys X) :=
  match state (fm s) with
  | INITIAL => Ok (goto s CLOSED)
  | STARTING =>
      if negb (Z.land (fflags (fm s)) OPT_SILENT =? 0) then Ok (goto s STOPPED)
      else s ← fsm_sconfreq s false; Ok (goto s REQSENT)
  | _ => Ok s
  end.

Definition fsm_lowerdown (s : fsys X) : fsys X :=
  match state (fm s) with
  | CLOSED => goto s INITIAL
  | STOPPED => inform (goto s STARTING) (starting cb) Starting
  | CLOSING => UNTIMEOUT (goto s INITIAL)
  | STOPPING | REQSENT | ACKRCVD | ACKSENT => UNTIMEOUT (goto s STARTING)
  | OPENED => goto (inform s (down cb) Down) STARTING
  | _ => s
  end.

Definition fsm_restart (s : fsys X) : outcome (fsys X) :=
  if negb (Z.land (fflags (fm s)) OPT_RESTART =? 0) then fsm_lowerup (fsm_lowerdown s) else Ok s.

Definition fsm_open (s : fsys X) : outcome (fsys X) :=
  match state (fm s) with
  | INITIAL => Ok (inform (goto s STARTING) (starting cb) Starting)
  | CLOSED =>
      if negb (Z.land (fflags (fm s)) OPT_SILENT =? 0) then Ok (goto s STOPPED)
      else s ← fsm_sconfreq s false; Ok (goto s REQSENT)
  | CLOSING => fsm_restart (goto s STOPPING)
  | STOPPED | OPENED => fsm_restart s
  | _ => Ok s
  end.

(** The Terminate-Request of fsm_close, fsm_protreject and fsm_timeout. *)
Definition send_termreq (s : fsys X) : outcome (fsys X) :=
  let s := upd s (fun f => set_req f (u8 (fid f + 1)) (u8 (fid f + 1))) in
  s ← fsm_sdata s TERMREQ (reqid (fm s)) (term_reason (fm s));
  Ok (upd (TIMEOUT s) (fun f => set_retr f (s32 (retransmits f - 1)))).

Definition terminate (s : fsys X) : outcome (fsys X) :=
  send_termreq (upd s (fun f => set_retr f (maxtermtransmits f))).

Definition fsm_close (s : fsys X) (reason : list Z) : outcome (fsys X) :=
  let s := upd s (fun f => set_reason f reason) in
  match state (fm s) with
  | STARTING => Ok (goto s INITIAL)
  | STOPPED => Ok (goto s CLOSED)
  | STOPPING => Ok (goto s CLOSING)
  | REQSENT | ACKRCVD | ACKSENT => s ← terminate (UNTIMEOUT s); Ok (goto s CLOSING)
  | OPENED => s ← terminate (inform s (down cb) Down); Ok (goto s CLOSING)
  | _ => Ok s
  end.

Definition fsm_protreject (s : fsys X) : outcome (fsys X) :=
  match state (fm s) with
  | CLOSING => Ok (inform (goto (UNTIMEOUT s) CLOSED) (finished cb) Finished)
  | CLOSED => Ok (inform (goto s CLOSED) (finished cb) Finished)
  | STOPPING | REQSENT | ACKRCVD | ACKSENT =>
      Ok (inform (goto (UNTIMEOUT s) STOPPED) (finished cb) Finished)
  | STOPPED => Ok (inform (goto s STOPPED) (finished cb) Finished)
  | OPENED => s ← terminate (inform s (down cb) Down); Ok (goto s STOPPING)
  | _ => Ok s
  end.

Definition fsm_timeout (s : fsys X) : outcome (fsys X) :=
  match state (fm s) with
  | CLOSING | STOPPING =>
      if retransmits (fm s) <=? 0 then
        let s := goto s (if decide (state (fm s) = CLOSING) then CLOSED else STOPPED) in
        Ok (inform s (finished cb) Finished)
      else send_termreq s
  | REQSENT | ACKRCVD | ACKSENT =>
      if retransmits (fm s) <=? 0 then
        let s := goto s STOPPED in
        Ok (inform s ((Z.land (fflags (fm s)) OPT_PASSIVE =? 0) && finished cb) Finished)
      else
        let s := inform s (retransmit cb) Retransmit in
        s ← fsm_sconfreq s true;
        Ok (if decide (state (fm s) = ACKRCVD) then goto s REQSENT else s)
  | _ => Ok s
  end.

(** ** Packets of the peer *)

Definition ask_reqci (s : fsys X) (inp : list Z) : Z * list Z * fsys X :=
  match reqci cb with
  | Some g =>
      let reject_if_disagree := maxnakloops (fm s) <=? nakloops (fm s) in
      let '(code, bs, x) := g (dat s) inp reject_if_disagree in (code, bs, set_dat s x)
  | None => (if negb (Z.of_nat (length inp) =? 0) then CONFREJ else CONFACK, inp, s)
  end.

Definition answer_confreq (s : fsys X) (id : Z) (inp : list Z) : outcome (fsys X) :=
  let '(code, bs, s) := ask_reqci s inp in
  s ← fsm_sdata s (u8 code) id bs;
  if code =? CONFACK then
    let s :=
      if decide (state (fm s) = ACKRCVD) then inform (goto (UNTIMEOUT s) OPENED) (up cb) Up
      else goto s ACKSENT in
    Ok (upd s (fun f => set_nak f 0))
  else
    let s := if decide (state (fm s) = ACKRCVD) then s else goto s REQSENT in
    Ok (if code =? CONFNAK then upd s (fun f => set_nak f (s32 (nakloops f + 1))) else s).

Definition fsm_rconfreq (s : fsys X) (id : Z) (inp : list Z) : outcome (fsys X) :=
  match state (fm s) with
  | CLOSED => fsm_sdata s TERMACK id []
  | CLOSING | STOPPING => Ok s
  | OPENED => s ← fsm_sconfreq (inform s (down cb) Down) false; answer_confreq s id inp
  | STOPPED => s ← fsm_sconfreq s false; answer_confreq (goto s REQSENT) id inp
  | _ => answer_confreq s id inp
  end.

Definition fsm_rconfack (s : fsys X) (id : Z) (inp : list Z) : outcome (fsys X) :=
  if negb (id =? reqid (fm s)) || seen_ack (fm s) then Ok s
  else
    let '(good, s) :=
      match ackci cb with
      | Some g => let '(r, x) := g (dat s) inp in (negb (r =? 0), set_dat s x)
      | None => (Z.of_nat (length inp) =? 0, s)
      end in
    if negb good then Ok s
    else
      let s := upd s (fun f => set_seen f true) in
      match state (fm s) with
      | CLOSED | STOPPED => fsm_sdata s TERMACK (u8 id) []
      | REQSENT => Ok (upd (goto s ACKRCVD) (fun f => set_retr f (maxconfreqtransmits f)))
      | ACKRCVD => s ← fsm_sconfreq (UNTIMEOUT s) false; Ok (goto s REQSENT)
      | ACKSENT =>
          let s := upd (goto (UNTIMEOUT s) OPENED) (fun f => set_retr f (maxconfreqtransmits f)) in
          Ok (inform s (up cb) Up)
      | OPENED => s ← fsm_sconfreq (inform s (down cb) Down) false; Ok (goto s REQSENT)
      | _ => Ok s
      end.

Definition fsm_rconfnakrej (s : fsys X) (code id : Z) (inp : list Z) : outcome (fsys X) :=
  if negb (id =? reqid (fm s)) || seen_ack (fm s) then Ok s
  else
    match (if code =? CONFNAK then nakci cb else rejci cb) with
    | None => Ok s
    | Some proc =>
        let '(ret, x) := proc (dat s) inp in
        let s := set_dat s x in
        if ret =? 0 then Ok s
        else
          let s := upd s (fun f => set_seen f true) in
          match state (fm s) with
          | CLOSED | STOPPED => fsm_sdata s TERMACK (u8 id) []
          | REQSENT | ACKSENT =>
              let s := UNTIMEOUT s in
              if ret <? 0 then Ok (goto s STOPPED) else fsm_sconfreq s false
          | ACKRCVD => s ← fsm_sconfreq (UNTIMEOUT s) false; Ok (goto s REQSENT)
          | OPENED => s ← fsm_sconfreq (inform s (down cb) Down) false; Ok (goto s REQSENT)
          | _ => Ok s
          end
    end.

Definition fsm_rtermreq (s : fsys X) (id : Z) : outcome (fsys X) :=
  let s :=
    match state (fm s) with
    | ACKRCVD | ACKSENT => goto s REQSENT
    | OPENED => TIMEOUT (goto (upd (inform s (down cb) Down) (fun f => set_retr f 0)) STOPPING)
    | _ => s
    end in
  fsm_sdata s TERMACK (u8 id) [].

Definition fsm_rtermack (s : fsys X) : outcome (fsys X) :=
  match state (fm s) with
  | CLOSING => Ok (inform (goto (UNTIMEOUT s) CLOSED) (finished cb) Finished)
  | STOPPING => Ok (inform (goto (UNTIMEOUT s) STOPPED) (finished cb) Finished)
  | ACKRCVD => Ok (goto s REQSENT)
  | OPENED => fsm_sconfreq (inform s (down cb) Down) false
  | _ => Ok s
  end.

Definition fsm_rcoderej (s : fsys X) (inp : list Z) : fsys X :=
  if Z.of_nat (length inp) <? HEADERLEN then s
  else if decide (state (fm s) = ACKRCVD) then goto s REQSENT else s.

Definition fsm_input (s : fsys X) (inpacket : list Z) : outcome (fsys X) :=
  let l := Z.of_nat (length inpacket) in
  match inpacket with
  | code :: id :: hi :: lo :: inp =>
      let len := GETSHORT hi lo in
      if len <? HEADERLEN then Ok s
      else if l <? len then Ok s
      else
        let len := len - HEADERLEN in
        let dat_in := take (Z.to_nat len) inp in
        match state (fm s) with
        | INITIAL | STARTING => Ok s
        | _ =>
            if code =? CONFREQ then fsm_rconfreq s id dat_in
            else if code =? CONFACK then fsm_rconfack s id dat_in
            else if (code =? CONFNAK) || (code =? CONFREJ) then fsm_rconfnakrej s code id dat_in
            else if code =? TERMREQ then fsm_rtermreq s id
            else if code =? TERMACK then fsm_rtermack s
            else if code =? CODEREJ then Ok (fsm_rcoderej s dat_in)
            else
              let '(known, s) :=
                match extcode cb with
                | None => (0, s)
                | Some g => let '(r, x) := g (dat s) code id dat_in in (r, set_dat s x)
                end in
              if known =? 0 then
                let s := upd s (fun f => set_req f (u8 (fid f + 1)) (reqid f)) in
                fsm_sdata s CODEREJ (fid (fm s)) (take (Z.to_nat (len + HEADERLEN)) inpacket)
              else Ok s
        end
  | _ => Ok s
  end.

(** ** Runs *)

Inductive fev : Set :=
  | ELowerUp | ELowerDown | EOpen | EClose (reason : list Z) | EProtrej
  | ETimeout
  | EInput (packet : list Z).

(** The timer fires once, and only when it is pending. *)
Definition fstep (s : fsys X) (e : fev) : outcome (fsys X) :=
  match e with
  | ELowerUp => fsm_lowerup s
  | ELowerDown => Ok (fsm_lowerdown s)
  | EOpen => fsm_open s
  | EClose reason => fsm_close s reason
  | EProtrej => fsm_protreject s
  | ETimeout => match ftimer s with Some _ => fsm_timeout (set_timer s None) | None => Ok s end
  | EInput p => fsm_input s p
  end.

Fixpoint frun (s : fsys X) (es : list fev) : outcome (fsys X) :=
  match es with [] => Ok s | e :: es => s ← fstep s e; frun s es end.

End operations.

(** ** Packets that are sent *)

Definition packet_code (p : list Z) : Z := nth 4 p 0.

(** What does not change: MRU, protocol, options and limits. *)
Definition config {X} (s : fsys X) : list Z :=
  [peer_mru s; protocol s; fflags (fm s); timeouttime (fm s); maxconfreqtransmits (fm s);
   maxtermtransmits (fm s); maxnakloops (fm s)].

Section packets.
Context {X : Type} (cb : fsm_callbacks X).
Implicit Types s : fsys X.

Lemma sdata_ok s code id data :
  HEADERLEN <= peer_mru s ->
  exists p, fsm_sdata s code id data = Ok (emit s (Sent p)) /\ packet_code p = u8 code /\
    Z.of_nat (length p) <= peer_mru s + 4.
Proof.
  intros Hm. unfold fsm_sdata. set (n := if peer_mru s - HEADERLEN <? _ then _ else _).
  assert (0 <= n <= peer_mru s - HEADERLEN) as Hn by (unfold n; destruct (Z.ltb_spec (peer_mru s - HEADERLEN) (Z.of_nat (length data))); lia).
  rewrite (proj2 (Z.ltb_ge _ _)) by lia. eexists. split; [done|]. split; [done|].
  rewrite !length_app, length_take. cbn [MAKEHEADER PUTSHORT app length]. unfold HEADERLEN in *. lia.
Qed.

(** The effect of fsm_sconfreq. *)
Lemma sconfreq_ok s r :
  HEADERLEN <= peer_mru s ->
  exists s' p, fsm_sconfreq cb s r = Ok s' /\ state (fm s') = state (fm s) /\ config s' = config s /\
    out s' = out s ++ [Sent p] /\ packet_code p = CONFREQ /\ Z.of_nat (length p) <= peer_mru s + 4 /\
    ftimer s' = Some (timeouttime (fm s) * 1000) /\
    retransmits (fm s') = s32 ((if r then retransmits (fm s) else maxconfreqtransmits (fm s)) - 1).
Proof.
  intros Hm. unfold fsm_sconfreq.
  set (s1 := if negb (negotiating _) then _ else _).
  assert (state (fm s1) = state (fm s) /\ config s1 = config s /\ out s1 = out s /\
          retransmits (fm s1) = retransmits (fm s)) as (A1 & A2 & A3 & A4).
  { unfold s1. destruct (negb _); [|done]. by destruct (resetci cb). }
  clearbody s1. set (s2 := if negb r then _ else _).
  assert (state (fm s2) = state (fm s) /\ config s2 = config s /\ out s2 = out s /\
          retransmits (fm s2) = if r then retransmits (fm s) else maxconfreqtransmits (fm s)) as (B1 & B2 & B3 & B4).
  { unfold s2. destruct r; cbn [negb]; [done|]. split_and!; try done. unfold config in A2. by simplify_eq. }
  clearbody s2. set (s3 := upd s2 (fun f => set_seen f false)). set (P := match cilen cb with Some _ => _ | _ => _ end).
  assert (exists ci x, P = (ci, x) /\ fm x = fm s3 /\ config x = config s /\ out x = out s) as (ci & x & -> & C1 & C2 & C3).
  { unfold P. destruct (cilen cb), (addci cb); try by exists [], s3. destruct (_ (dat s3) _). by eexists _, _. }
  assert (peer_mru x = peer_mru s) as Hmx by (unfold config in C2; by simplify_eq).
  destruct (sdata_ok x CONFREQ (reqid (fm x)) ci) as (p & -> & Hc & Hl); [by rewrite Hmx|].
  cbn [mbind outcome_bind]. eexists _, p. split; [done|]. unfold config in *. cbn. rewrite C1, C3 in *. cbn in *.
  rewrite B4. simplify_eq. split_and!; try done; congruence.
Qed.

Lemma termreq_ok s :
  HEADERLEN <= peer_mru s ->
  exists s' p, send_termreq s = Ok s' /\ state (fm s') = state (fm s) /\ config s' = config s /\
    out s' = out s ++ [Sent p] /\ packet_code p = TERMREQ /\ Z.of_nat (length p) <= peer_mru s + 4 /\
    ftimer s' = Some (timeouttime (fm s) * 1000) /\ retransmits (fm s') = s32 (retransmits (fm s) - 1).
Proof.
  intros Hm. unfold send_termreq. set (s1 := upd s _).
  destruct (sdata_ok s1 TERMREQ (reqid (fm s1)) (term_reason (fm s1))) as (p & -> & Hc & Hl); [done|].
  cbn [mbind outcome_bind]. by eexists _, p.
Qed.

End packets.

(** ** The automaton of RFC 1661

    Its events, its visible actions and its transition table (section 4.1), without
    the options that RFC leaves open. *)
Inductive rev : Set :=
  | RUp | RDown | ROpen | RClose | TOp | TOm | RCRp | RCRm | RCA | RCN | RTR | RTA | RUC | RXJp | RXJm.

Inductive ract : Set := tlu | tld | tls | tlf | scr | sca | scn | str | sta | scj.

Definition rfc1661 (st : lstate) (e : rev) : option (list ract * lstate) :=
  match e, st with
  | RUp, INITIAL => Some ([], CLOSED)
  | RUp, STARTING => Some ([scr], REQSENT)
  | RUp, _ => None
  | RDown, (INITIAL | STARTING) => None
  | RDown, CLOSED => Some ([], INITIAL)
  | RDown, STOPPED => Some ([tls], STARTING)
  | RDown, CLOSING => Some ([], INITIAL)
  | RDown, (STOPPING | REQSENT | ACKRCVD | ACKSENT) => Some ([], STARTING)
  | RDown, OPENED => Some ([tld], STARTING)
  | ROpen, INITIAL => Some ([tls], STARTING)
  | ROpen, CLOSED => Some ([scr], REQSENT)
  | ROpen, CLOSING => Some ([], STOPPING)
  | ROpen, _ => Some ([], st)
  | RClose, STARTING => Some ([tlf], INITIAL)
  | RClose, STOPPED => Some ([], CLOSED)
  | RClose, STOPPING => Some ([], CLOSING)
  | RClose, (REQSENT | ACKRCVD | ACKSENT) => Some ([str], CLOSING)
  | RClose, OPENED => Some ([tld; str], CLOSING)
  | RClose, _ => Some ([], st)
  | TOp, (CLOSING | STOPPING) => Some ([str], st)
  | TOp, (REQSENT | ACKRCVD) => Some ([scr], REQSENT)
  | TOp, ACKSENT => Some ([scr], ACKSENT)
  | TOm, CLOSING => Some ([tlf], CLOSED)
  | TOm, (STOPPING | REQSENT | ACKRCVD | ACKSENT) => Some ([tlf], STOPPED)
  | (TOp | TOm), _ => None
  | _, (INITIAL | STARTING) => None
  | (RCRp | RCRm), CLOSED => Some ([sta], CLOSED)
  | (RCRp | RCRm), (CLOSING | STOPPING) => Some ([], st)
  | RCRp, STOPPED => Some ([scr; sca], ACKSENT)
  | RCRp, (REQSENT | ACKSENT) => Some ([sca], ACKSENT)
  | RCRp, ACKRCVD => Some ([sca; tlu], OPENED)
  | RCRp, OPENED => Some ([tld; scr; sca], ACKSENT)
  | RCRm, STOPPED => Some ([scr; scn], REQSENT)
  | RCRm, (REQSENT | ACKSENT) => Some ([scn], REQSENT)
  | RCRm, ACKRCVD => Some ([scn], ACKRCVD)
  | RCRm, OPENED => Some ([tld; scr; scn], REQSENT)
  | (RCA | RCN), (CLOSED | STOPPED) => Some ([sta], st)
  | (RCA | RCN), (CLOSING | STOPPING) => Some ([], st)
  | RCA, REQSENT => Some ([], ACKRCVD)
  | RCA, ACKSENT => Some ([tlu], OPENED)
  | RCN, (REQSENT | ACKSENT) => Some ([scr], st)
  | (RCA | RCN), ACKRCVD => Some ([scr], REQSENT)
  | (RCA | RCN), OPENED => Some ([tld; scr], REQSENT)
  | RTR, (ACKRCVD | ACKSENT) => Some ([sta], REQSENT)
  | RTR, OPENED => Some ([tld; sta], STOPPING)
  | RTR, _ => Some ([sta], st)
  | RTA, CLOSING => Some ([tlf], CLOSED)
  | RTA, STOPPING => Some ([tlf], STOPPED)
  | RTA, ACKRCVD => Some ([], REQSENT)
  | RTA, OPENED => Some ([tld; scr], REQSENT)
  | RTA, _ => Some ([], st)
  | RUC, _ => Some ([scj], st)
  | RXJp, ACKRCVD => Some ([], REQSENT)
  | RXJp, _ => Some ([], st)
  | RXJm, (CLOSED | CLOSING) => Some ([tlf], CLOSED)
  | RXJm, OPENED => Some ([tld; str], STOPPING)
  | RXJm, _ => Some ([tlf], STOPPED)
  end.

(** The actions of the RFC in what the automaton did. *)
Definition visible1 (e : fevent) : list ract :=
  match e with
  | Up => [tlu] | Down => [tld] | Starting => [tls] | Finished => [tlf] | Retransmit => []
  | Sent p =>
      let c := packet_code p in
      if c =? CONFREQ then [scr] else if c =? CONFACK then [sca]
      else if (c =? CONFNAK) || (c =? CONFREJ) then [scn]
      else if c =? TERMREQ then [str] else if c =? TERMACK then [sta]
      else if c =? CODEREJ then [scj] else []
  end.
Definition visible (l : list fevent) : list ract := concat (visible1 <$> l).

Section classify.
Context {X : Type} (cb : fsm_callbacks X).
Implicit Types s : fsys X.

(** The state in which the options of a Configure-Request are looked at. *)
Definition before_answer s : fsys X :=
  match state (fm s) with
  | OPENED => match fsm_sconfreq cb (inform s (down cb) Down) false with Ok s' => s' | _ => s end
  | STOPPED => match fsm_sconfreq cb s false with Ok s' => goto s' REQSENT | _ => s end
  | _ => s
  end.

(** The RFC's event for a well-formed packet; [None]: it is silently discarded, or
    not an event of the RFC. *)
Definition classify_packet s (code id : Z) (bs : list Z) : option rev :=
  if code =? CONFREQ then
    let '(answer, _, _) := ask_reqci cb (before_answer s) bs in
    if answer =? CONFACK then Some RCRp
    else if (answer =? CONFNAK) || (answer =? CONFREJ) then Some RCRm else None
  else if code =? CONFACK then
    if negb (id =? reqid (fm s)) || seen_ack (fm s) then None
    else match ackci cb with
         | Some g => if Datatypes.fst (g (dat s) bs) =? 0 then None else Some RCA
         | None => if Z.of_nat (length bs) =? 0 then Some RCA else None
         end
  else if (code =? CONFNAK) || (code =? CONFREJ) then
    if negb (id =? reqid (fm s)) || seen_ack (fm s) then None
    else match (if code =? CONFNAK then nakci cb else rejci cb) with
         | Some g => if Datatypes.fst (g (dat s) bs) <=? 0 then None else Some RCN
         | None => None
         end
  else if code =? TERMREQ then Some RTR
  else if code =? TERMACK then Some RTA
  else if code =? CODEREJ then if Z.of_nat (length bs) <? HEADERLEN then None else Some RXJp
  else match extcode cb with
       | Some g => if Datatypes.fst (g (dat s) code id bs) =? 0 then Some RUC else None
       | None => Some RUC
       end.

Definition classify s (e : fev) : option rev :=
  match e with
  | ELowerUp => Some RUp
  | ELowerDown => Some RDown
  | EOpen => Some ROpen
  | EClose _ => Some RClose
  | EProtrej => Some RXJm
  | ETimeout =>
      match ftimer s with
      | Some _ => Some (if retransmits (fm s) <=? 0 then TOm else TOp)
      | None => None
      end
  | EInput ((code :: id :: hi :: lo :: inp) as p) =>
      let len := GETSHORT hi lo in
      if (len <? HEADERLEN) || (Z.of_nat (length p) <? len) then None
      else classify_packet s code id (take (Z.to_nat (len - HEADERLEN)) inp)
  | EInput _ => None
  end.

End classify.

(** Where the code differs from the RFC. *)
Definition deviates (st : lstate) (e : rev) : bool :=
  match st, e with STARTING, RClose => true | OPENED, RTA => true | _, _ => false end.

Lemma visible_app l1 l2 : visible (l1 ++ l2) = visible l1 ++ visible l2.
Proof. unfold visible. by rewrite fmap_app, concat_app. Qed.

Lemma visible_code p c : packet_code p = c -> visible [Sent p] = visible1 (Sent (repeat 0 4 ++ [c])).
Proof. intros <-. unfold visible. cbn. by rewrite app_nil_r. Qed.

Lemma config_mru {X} (s s' : fsys X) : config s' = config s -> peer_mru s' = peer_mru s.
Proof. unfold config. intros H. by simplify_eq. Qed.

(** [send_step] runs the next packet that is sent; [mru_ok] is its condition. *)
Ltac mru_ok :=
  cbn [peer_mru emit upd goto set_timer TIMEOUT UNTIMEOUT set_dat];
  repeat match goal with H : peer_mru ?x = _ |- context [peer_mru ?x] => rewrite H end; done.

Ltac send_step :=
  match goal with
  | |- context [fsm_sconfreq ?cb ?s0 ?r] =>
      let s' := fresh "s'" in let p := fresh "p" in let Hs := fresh "Hst" in let Hg := fresh "Hcfg" in
      let Ho := fresh "Ho" in let Hp := fresh "Hp" in let Ht := fresh "Ht" in let Hr := fresh "Hr" in let Hl := fresh "Hl" in
      destruct (sconfreq_ok cb s0 r) as (s' & p & -> & Hs & Hg & Ho & Hp & Hl & Ht & Hr); [mru_ok|];
      apply config_mru in Hg
  | |- context [send_termreq ?s0] =>
      let s' := fresh "s'" in let p := fresh "p" in let Hs := fresh "Hst" in let Hg := fresh "Hcfg" in
      let Ho := fresh "Ho" in let Hp := fresh "Hp" in let Ht := fresh "Ht" in let Hr := fresh "Hr" in let Hl := fresh "Hl" in
      destruct (termreq_ok s0) as (s' & p & -> & Hs & Hg & Ho & Hp & Hl & Ht & Hr); [mru_ok|];
      apply config_mru in Hg
  | |- context [fsm_sdata ?s0 ?c ?i ?d] =>
      let p := fresh "p" in let Hp := fresh "Hp" in let Hl := fresh "Hl" in
      destruct (sdata_ok s0 c i d) as (p & -> & Hp & Hl); [mru_ok|]
  end; cbn [mbind outcome_bind peer_mru emit upd goto set_timer TIMEOUT UNTIMEOUT set_dat] in *.

Section rfc.
Context {X : Type} (cb : fsm_callbacks X).
Implicit Types s : fsys X.

(** [s'] is in state [st] and has done [acts] since [s]. *)
Definition did s s' (a : list ract * lstate) : Prop :=
  state (fm s') = a.2 /\ visible (out s') = visible (out s) ++ a.1.

Context (Hup : up cb = true) (Hdown : down cb = true) (Hstarting : starting cb = true) (Hfinished : finished cb = true).

Ltac simpl_did :=
  unfold did, inform; rewrite ?Hup, ?Hdown, ?Hstarting, ?Hfinished;
  cbn [fm out state goto upd set_st set_timer TIMEOUT UNTIMEOUT emit set_dat set_nak set_seen set_retr set_reason set_req
       fst snd default from_option id rfc1661 inform] in *;
  repeat match goal with H : out ?x = _ |- context [out ?x] => rewrite H end;
  repeat match goal with H : fm ?x = _ |- context [fm ?x] => rewrite H end;
  repeat match goal with H : state (fm ?x) = _ |- context [state (fm ?x)] => rewrite H end;
  cbn [fm out state goto upd set_st set_timer TIMEOUT UNTIMEOUT emit set_dat set_nak set_seen set_retr set_reason set_req];
  rewrite ?visible_app, <- ?app_assoc;
  repeat match goal with H : packet_code ?p = _ |- context [visible [Sent ?p]] => rewrite (visible_code p _ H) end.

Ltac solve_did := eexists; split; [reflexivity|]; simpl_did; by rewrite ?app_nil_r.

Lemma rfc_lower s e ev :
  HEADERLEN <= peer_mru s -> fflags (fm s) = 0 -> ev = ELowerUp \/ ev = ELowerDown \/ ev = EOpen ->
  classify cb s ev = Some e ->
  exists s', fstep cb s ev = Ok s' /\ did s s' (default ([], state (fm s)) (rfc1661 (state (fm s)) e)).
Proof.
  intros Hm Hf Hev Hc. destruct Hev as [->|[->| ->]]; injection Hc as <-; cbn [fstep];
    unfold fsm_lowerup, fsm_lowerdown, fsm_open, fsm_restart; cbn [fm goto upd fflags set_st]; rewrite ?Hf;
    cbn [OPT_SILENT OPT_RESTART Z.land Z.eqb negb]; destruct (state (fm s)) eqn:Hs; try send_step; solve_did.
Qed.

Lemma rfc_close s e r :
  HEADERLEN <= peer_mru s -> classify cb s (EClose r) = Some e -> deviates (state (fm s)) e = false ->
  exists s', fstep cb s (EClose r) = Ok s' /\ did s s' (default ([], state (fm s)) (rfc1661 (state (fm s)) e)).
Proof.
  intros Hm Hc Hd. injection Hc as <-. cbn [fstep]. unfold fsm_close, terminate, inform. rewrite Hdown.
  cbn [fm upd set_reason state]. destruct (state (fm s)) eqn:Hs; try discriminate; try send_step; solve_did.
Qed.

Lemma rfc_protreject s e :
  HEADERLEN <= peer_mru s -> classify cb s EProtrej = Some e ->
  exists s', fstep cb s EProtrej = Ok s' /\ did s s' (default ([], state (fm s)) (rfc1661 (state (fm s)) e)).
Proof.
  intros Hm Hc. injection Hc as <-. cbn [fstep]. unfold fsm_protreject, terminate, inform. rewrite Hdown.
  destruct (state (fm s)) eqn:Hs; try send_step; solve_did.
Qed.

Lemma rfc_timeout s e :
  HEADERLEN <= peer_mru s -> fflags (fm s) = 0 -> classify cb s ETimeout = Some e ->
  exists s', fstep cb s ETimeout = Ok s' /\ did s s' (default ([], state (fm s)) (rfc1661 (state (fm s)) e)).
Proof.
  intros Hm Hf Hc. cbn [fstep]. cbn [classify] in Hc. destruct (ftimer s) as [t|]; [|done]. injection Hc as <-.
  unfold fsm_timeout, inform. cbn [fm set_timer goto upd fflags set_st]. rewrite Hf, Hfinished.
  change (Z.land 0 OPT_PASSIVE =? 0) with true. cbn [andb].
  destruct (retransmits (fm s) <=? 0), (state (fm s)) eqn:Hs, (retransmit cb); try send_step;
    cbn [fm emit set_timer] in *; repeat case_decide; try congruence; solve_did.
Qed.

(** The answer to a Configure-Request. *)
Lemma answer_ok s id bs code bs' x :
  HEADERLEN <= peer_mru s -> ask_reqci cb s bs = (code, bs', x) ->
  code = CONFACK \/ code = CONFNAK \/ code = CONFREJ ->
  exists s', answer_confreq cb s id bs = Ok s' /\
    did s s' (if code =? CONFACK then
                if decide (state (fm s) = ACKRCVD) then ([sca; tlu], OPENED) else ([sca], ACKSENT)
              else ([scn], if decide (state (fm s) = ACKRCVD) then ACKRCVD else REQSENT)).
Proof.
  intros Hm Ha Hcode. unfold answer_confreq. rewrite Ha.
  assert (out x = out s /\ fm x = fm s /\ peer_mru x = peer_mru s) as (Hox & Hfx & Hmx).
  { unfold ask_reqci in Ha. destruct (reqci cb); [|by simplify_eq]. destruct (_ (dat s) _ _) as [[? ?] ?]. by simplify_eq. }
  send_step. cbn [fm emit]. rewrite Hfx.
  destruct Hcode as [->|[->| ->]]; cbn [CONFACK CONFNAK CONFREJ Z.eqb Pos.eqb]; cbn [u8] in Hp;
    repeat case_decide; solve_did.
Qed.

Lemma did_trans s1 s2 s3 a1 a2 st1 st2 :
  did s1 s2 (a1, st1) -> did s2 s3 (a2, st2) -> did s1 s3 (a1 ++ a2, st2).
Proof. intros [_ H1] [H2 H3]. split; [done|]. cbn in *. by rewrite H3, H1, app_assoc. Qed.

Lemma rfc_confreq s e id bs :
  HEADERLEN <= peer_mru s -> classify_packet cb s CONFREQ id bs = Some e ->
  state (fm s) <> INITIAL -> state (fm s) <> STARTING ->
  exists s', fsm_rconfreq cb s id bs = Ok s' /\ did s s' (default ([], state (fm s)) (rfc1661 (state (fm s)) e)).
Proof.
  intros Hm Hc Hi Hst. unfold classify_packet in Hc. change (CONFREQ =? CONFREQ) with true in Hc. cbv match in Hc.
  destruct (ask_reqci cb (before_answer cb s) bs) as [[code bs'] x] eqn:Ha.
  assert (code = CONFACK /\ e = RCRp \/ (code = CONFNAK \/ code = CONFREJ) /\ e = RCRm) as Hcode.
  { destruct (Z.eqb_spec code CONFACK); [left; by simplify_eq|]. right.
    destruct (Z.eqb_spec code CONFNAK), (Z.eqb_spec code CONFREJ); cbn [orb] in Hc; simplify_eq; auto. }
  clear Hc. unfold before_answer in Ha. unfold fsm_rconfreq.
  assert (code = CONFACK \/ code = CONFNAK \/ code = CONFREJ) as Hc by tauto.
  destruct (state (fm s)) eqn:Hs; try done.
  1,3,4: destruct Hcode as [[-> ->]|[_ ->]]; try send_step; solve_did.
  2,3,4: destruct (answer_ok s id bs _ _ _ Hm Ha Hc) as (s' & -> & Hd); exists s'; (split; [done|]);
    rewrite Hs in Hd; by destruct Hcode as [[-> ->]|[[-> | ->] ->]].
  - destruct (sconfreq_ok cb s false Hm) as (s1 & p & E & Hst1 & Hcfg & Ho & Hp & _). rewrite E in Ha |- *.
    apply config_mru in Hcfg. cbn [mbind outcome_bind].
    destruct (answer_ok (goto s1 REQSENT) id bs _ _ _ ltac:(mru_ok) Ha Hc) as (s' & -> & Hd).
    exists s'. split; [done|].
    assert (did s (goto s1 REQSENT) ([scr], REQSENT)) as Hd1 by (simpl_did; done).
    rewrite decide_False in Hd by done.
    destruct Hcode as [[-> ->]|[[-> | ->] ->]]; exact (did_trans _ _ _ _ _ _ _ Hd1 Hd).
  - destruct (sconfreq_ok cb (inform s (down cb) Down) false) as (s1 & p & E & Hst1 & Hcfg & Ho & Hp & _);
      [unfold inform; by rewrite Hdown|]. rewrite E in Ha |- *.
    apply config_mru in Hcfg. unfold inform in *. rewrite Hdown in *. cbn [mbind outcome_bind peer_mru emit] in *.
    destruct (answer_ok s1 id bs _ _ _ ltac:(mru_ok) Ha Hc) as (s' & -> & Hd). exists s'. split; [done|].
    assert (did s s1 ([tld; scr], OPENED)) as Hd1 by (simpl_did; done).
    rewrite Hst1 in Hd. cbn [fm emit] in Hd. rewrite Hs in Hd.
    destruct Hcode as [[-> ->]|[[-> | ->] ->]]; exact (did_trans _ _ _ _ _ _ _ Hd1 Hd).
Qed.

Lemma rfc_confack s e id bs :
  HEADERLEN <= peer_mru s -> classify_packet cb s CONFACK id bs = Some e ->
  state (fm s) <> INITIAL -> state (fm s) <> STARTING ->
  exists s', fsm_rconfack cb s id bs = Ok s' /\ did s s' (default ([], state (fm s)) (rfc1661 (state (fm s)) e)).
Proof.
  intros Hm Hc Hi Hst. unfold classify_packet in Hc. change (CONFACK =? CONFREQ) with false in Hc.
  change (CONFACK =? CONFACK) with true in Hc. cbv match in Hc. unfold fsm_rconfack.
  destruct (negb (id =? reqid (fm s)) || seen_ack (fm s)); [done|].
  assert (exists s0, match ackci cb with
            | Some g => let '(r, x) := g (dat s) bs in (negb (r =? 0), set_dat s x)
            | None => (Z.of_nat (length bs) =? 0, s) end = (true, s0) /\
          fm s0 = fm s /\ out s0 = out s /\ peer_mru s0 = peer_mru s /\ e = RCA) as (s0 & -> & Hf & Ho0 & Hm0 & ->).
  { destruct (ackci cb) as [g|].
    - destruct (g (dat s) bs) as [r x]. cbn [Datatypes.fst] in Hc. destruct (r =? 0); simplify_eq. by eexists.
    - destruct (_ =? 0); simplify_eq. by eexists. }
  cbn [negb fm upd set_seen state]. rewrite Hf. unfold inform. rewrite ?Hup, ?Hdown.
  destruct (state (fm s)) eqn:Hs; try done; try send_step; solve_did.
Qed.

Lemma rfc_confnakrej s e code id bs :
  HEADERLEN <= peer_mru s -> classify_packet cb s code id bs = Some e -> code = CONFNAK \/ code = CONFREJ ->
  state (fm s) <> INITIAL -> state (fm s) <> STARTING ->
  exists s', fsm_rconfnakrej cb s code id bs = Ok s' /\ did s s' (default ([], state (fm s)) (rfc1661 (state (fm s)) e)).
Proof.
  intros Hm Hc Hcode Hi Hst. unfold classify_packet in Hc. unfold fsm_rconfnakrej.
  rewrite (proj2 (Z.eqb_neq code CONFREQ)), (proj2 (Z.eqb_neq code CONFACK)) in Hc by (by destruct Hcode as [-> | ->]).
  replace ((code =? CONFNAK) || (code =? CONFREJ)) with true in Hc by (by destruct Hcode as [-> | ->]).
  destruct (negb (id =? reqid (fm s)) || seen_ack (fm s)); [done|].
  destruct (if code =? CONFNAK then nakci cb else rejci cb) as [g|]; [|done].
  destruct (g (dat s) bs) as [r x]. cbn [Datatypes.fst] in Hc. destruct (Z.leb_spec r 0) as [|Hr]; [done|]. injection Hc as <-.
  rewrite (proj2 (Z.eqb_neq r 0)), (proj2 (Z.ltb_ge r 0)) by lia. cbn [negb fm upd set_seen state set_dat].
  unfold inform. rewrite ?Hup, ?Hdown. destruct (state (fm s)) eqn:Hs; try done; try send_step; solve_did.
Qed.

Lemma rfc_term s :
  HEADERLEN <= peer_mru s -> state (fm s) <> INITIAL -> state (fm s) <> STARTING ->
  (forall id, exists s', fsm_rtermreq cb s id = Ok s' /\ did s s' (default ([], state (fm s)) (rfc1661 (state (fm s)) RTR))) /\
  (state (fm s) <> OPENED ->
   exists s', fsm_rtermack cb s = Ok s' /\ did s s' (default ([], state (fm s)) (rfc1661 (state (fm s)) RTA))).
Proof.
  intros Hm Hi Hst. unfold fsm_rtermreq, fsm_rtermack, inform. rewrite Hdown.
  split; intros; destruct (state (fm s)) eqn:Hs; try done; try send_step; solve_did.
Qed.

Lemma rfc_unknown s e code id hi lo bs :
  let len := GETSHORT hi lo in
  HEADERLEN <= peer_mru s -> 7 < code \/ code <= 0 ->
  classify_packet cb s code id (take (Z.to_nat (len - HEADERLEN)) bs) = Some e ->
  state (fm s) <> INITIAL -> state (fm s) <> STARTING ->
  HEADERLEN <= len <= Z.of_nat (length (code :: id :: hi :: lo :: bs)) ->
  exists s', fsm_input cb s (code :: id :: hi :: lo :: bs) = Ok s' /\
    did s s' (default ([], state (fm s)) (rfc1661 (state (fm s)) e)).
Proof.
  intros len Hm Hcode Hc Hi Hst Hlen. unfold classify_packet in Hc. cbn [fsm_input]. fold len.
  rewrite (proj2 (Z.ltb_ge len HEADERLEN)), (proj2 (Z.ltb_ge (Z.of_nat _) len)) by lia.
  assert (forall k, 0 < k <= 7 -> code =? k = false) as Hk by (intros; apply Z.eqb_neq; lia).
  rewrite !Hk in Hc by (cbv; split; congruence). rewrite !Hk by (cbv; split; congruence). cbn [orb] in *.
  set (ext := match extcode cb with Some g => _ | None => _ end) in Hc.
  assert (exists s0, match extcode cb with
     | Some g => let '(r, x) := g (dat s) code id (take (Z.to_nat (len - HEADERLEN)) bs) in (r, set_dat s x)
     | None => (0, s) end = (0, s0) /\ fm s0 = fm s /\ out s0 = out s /\ peer_mru s0 = peer_mru s /\ e = RUC)
    as (s0 & E & Hf & Ho & Hm0 & ->).
  { unfold ext in Hc. destruct (extcode cb) as [g|]; [|simplify_eq; by eexists].
    destruct (g _ _ _ _) as [r x]. cbn [Datatypes.fst] in Hc. destruct (Z.eqb_spec r 0); simplify_eq. by eexists. }
  rewrite E. change (0 =? 0) with true. destruct (state (fm s)) eqn:Hs; try done; send_step; solve_did.
Qed.

(** The events that the automaton ignores before it is up. *)
Lemma input_early s p : state (fm s) = INITIAL \/ state (fm s) = STARTING -> fsm_input cb s p = Ok s.
Proof.
  intros Hs. destruct p as [|code [|id [|hi [|lo bs]]]]; try done. cbn [fsm_input].
  destruct (_ <? _); [done|]. destruct (_ <? _); [done|]. by destruct Hs as [-> | ->].
Qed.

Lemma classify_packet_event s code id bs e :
  classify_packet cb s code id bs = Some e -> In e [RCRp; RCRm; RCA; RCN; RTR; RTA; RXJp; RUC].
Proof.
  unfold classify_packet. destruct (ask_reqci _ _ _) as [[? ?] ?].
  repeat match goal with |- context [if ?b then _ else _] => destruct b end;
    repeat match goal with |- context [match ?o with Some _ => _ | None => _ end] => destruct o end;
    repeat match goal with |- context [if ?b then _ else _] => destruct b end; intros ?; simplify_eq; cbn; tauto.
Qed.

Lemma rfc_input s e p :
  HEADERLEN <= peer_mru s -> classify cb s (EInput p) = Some e -> deviates (state (fm s)) e = false ->
  exists s', fstep cb s (EInput p) = Ok s' /\ did s s' (default ([], state (fm s)) (rfc1661 (state (fm s)) e)).
Proof.
  intros Hm Hc Hd. cbn [fstep].
  destruct p as [|code [|id [|hi [|lo bs]]]]; try done. cbn [classify] in Hc.
  destruct (_ || _) eqn:Hlen in Hc; [done|]. apply orb_false_iff in Hlen as [H4 Hl].
  destruct (decide (state (fm s) = INITIAL \/ state (fm s) = STARTING)) as [Hs|Hs].
  { rewrite (input_early _ _ Hs). exists s. split; [done|]. apply classify_packet_event in Hc. unfold did.
    destruct Hs as [-> | ->]; repeat destruct Hc as [<-|Hc]; try done; cbn; by rewrite app_nil_r. }
  apply Decidable.not_or in Hs as [Hi Hst]. destruct (rfc_term s Hm Hi Hst) as [Htr Hta].
  destruct (decide (7 < code \/ code <= 0)) as [Hu|Hu].
  { apply rfc_unknown; try done. apply Z.ltb_ge in H4, Hl. lia. }
  cbn [fsm_input]. rewrite H4, Hl.
  assert (forall (a : outcome (fsys X)), match state (fm s) with INITIAL | STARTING => Ok s | _ => a end = a) as E
    by (intros a; by destruct (state (fm s))). rewrite E. clear E.
  set (d := take _ _) in *.
  assert (code = CONFREQ \/ code = CONFACK \/ (code = CONFNAK \/ code = CONFREJ) \/ code = TERMREQ \/ code = TERMACK \/ code = CODEREJ)
    as Hcode by (unfold CONFREQ, CONFACK, CONFNAK, CONFREJ, TERMREQ, TERMACK, CODEREJ; lia).
  destruct Hcode as [->|[->|[[->| ->]|[->|[->| ->]]]]]; cbv [CONFREQ CONFACK CONFNAK CONFREJ TERMREQ TERMACK CODEREJ Z.eqb Pos.eqb orb].
  - by apply rfc_confreq.
  - by apply rfc_confack.
  - apply rfc_confnakrej; auto.
  - apply rfc_confnakrej; auto.
  - injection Hc as <-. apply Htr.
  - injection Hc as <-. apply Hta. intros Ho. by rewrite Ho in Hd.
  - unfold classify_packet in Hc. change (CODEREJ =? CODEREJ) with true in Hc.
    cbv [CONFREQ CONFACK CONFNAK CONFREJ TERMREQ TERMACK CODEREJ Z.eqb Pos.eqb orb] in Hc.
    unfold fsm_rcoderej. destruct (Z.of_nat (length d) <? HEADERLEN); [done|]. injection Hc as <-.
    destruct (state (fm s)) eqn:Hs; try done; solve_did.
Qed.

End rfc.

(** The callbacks that inform the upper layers are there, as in LCP and IPCP. *)
Definition informs {X} (cb : fsm_callbacks X) : Prop :=
  up cb = true /\ down cb = true /\ starting cb = true /\ finished cb = true.

(** C25: The automaton of fsm.c is that of RFC 1661.  Without the options of fsm.h
    and with an MRU that holds a header, each event of the RFC (commands of the
    upper layers, state of the lower layer, timeouts with and without tries left,
    each kind of packet) makes the code send the packets and make the calls that
    the RFC's table has, in their order, and go to the state of the table, except
    in two entries of it; events without an entry change neither. *)
Theorem fsm_follows_rfc1661 {X} (cb : fsm_callbacks X) (s : fsys X) (ev : fev) (e : rev)
    (Hm : HEADERLEN <= peer_mru s) (Hf : fflags (fm s) = 0) (Hcb : informs cb)
    (Hc : classify cb s ev = Some e) (Hd : deviates (state (fm s)) e = false) :
  exists s', fstep cb s ev = Ok s' /\ did s s' (default ([], state (fm s)) (rfc1661 (state (fm s)) e)).
Proof.
  destruct Hcb as (Hu & Hdn & Hs & Hfi). destruct ev; [apply rfc_lower|apply rfc_lower|apply rfc_lower|by apply rfc_close
    |by apply rfc_protreject|by apply rfc_timeout|by apply rfc_input]; try done; auto.
Qed.

(** Callbacks of a protocol without options. *)
Definition no_options : fsm_callbacks unit :=
  MkCb unit None None None None None None None true true true true true None.

Definition fsm_at (st : lstate) (t : option Z) : fsys unit :=
  MkFsys (MkFsm st 0 1 1 false 6 10 9 2 0 5 []) 1500 49185 t [] tt.

Lemma fsm_follows_rfc1661_witness :
  exists s', fstep no_options (fsm_at ACKRCVD (Some 6000)) (EInput [1; 7; 0; 4]) = Ok s' /\
    did (fsm_at ACKRCVD (Some 6000)) s' ([sca; tlu], OPENED).
Proof.
  apply (fsm_follows_rfc1661 no_options (fsm_at ACKRCVD (Some 6000)) (EInput [1; 7; 0; 4]) RCRp);
    [discriminate|reflexivity|repeat split|reflexivity|reflexivity].
Defined.

(** ** Timer, upper layers and MRU along all runs *)

Definition updown1 (b : option bool) (e : fevent) : option bool :=
  match e, b with
  | Up, Some false => Some true
  | Down, Some true => Some false
  | (Up | Down), _ => None
  | _, _ => b
  end.

(** Whether the upper layer is up; [None]: told twice. *)
Definition updown (l : list fevent) : option bool := fold_left updown1 l (Some false).

Lemma updown_snoc l e : updown (l ++ [e]) = updown1 (updown l) e.
Proof. unfold updown. by rewrite fold_left_app. Qed.

Definition waiting (st : lstate) : bool :=
  match st with CLOSING | STOPPING | REQSENT | ACKRCVD | ACKSENT => true | _ => false end.
Definition opened (st : lstate) : bool := match st with OPENED => true | _ => false end.
Definition pending {X} (s : fsys X) : bool := match ftimer s with Some _ => true | None => false end.
Definition fits_mru (mru : Z) (e : fevent) : Prop :=
  match e with Sent p => Z.of_nat (length p) <= mru + 4 | _ => True end.

Definition link_ok {X} (s : fsys X) : Prop :=
  HEADERLEN <= peer_mru s /\ updown (out s) = Some (opened (state (fm s))) /\
  pending s = waiting (state (fm s)) /\ Forall (fits_mru (peer_mru s)) (out s).

Section link.
Context {X : Type} (cb : fsm_callbacks X).
Context (Hup : up cb = true) (Hdown : down cb = true).
Implicit Types s : fsys X.

Ltac solve_link :=
  unfold link_ok, pending, inform; rewrite ?Hup, ?Hdown;
  cbn [fm out state goto upd set_st set_timer TIMEOUT UNTIMEOUT emit set_dat set_nak set_seen set_retr set_reason set_req
       ftimer peer_mru fflags] in *;
  repeat match goal with H : out ?x = _ |- context [out ?x] => rewrite H end;
  repeat match goal with H : fm ?x = _ |- context [fm ?x] => rewrite H end;
  repeat match goal with H : ftimer ?x = _ |- context [ftimer ?x] => rewrite H end;
  repeat match goal with H : peer_mru ?x = _ |- context [peer_mru ?x] => rewrite H end;
  repeat match goal with H : state (fm ?x) = _ |- context [state (fm ?x)] => rewrite H end;
  rewrite ?updown_snoc, ?Forall_app, ?Forall_singleton;
  repeat match goal with H : updown (out ?x) = _ |- context [updown (out ?x)] => rewrite H end;
  cbn [updown1 opened waiting fits_mru]; try split_and!; try done; try congruence.

Ltac start_link s :=
  intros (Hm & Hu & Hp & Hf); unfold pending in Hp; destruct (state (fm s)) eqn:Hs; cbn [opened waiting] in *.

Lemma lowerdown_link s : link_ok s -> link_ok (fsm_lowerdown cb s).
Proof.
  unfold fsm_lowerdown. start_link s; try destruct (starting cb); solve_link.
Qed.

Definition link_step s (o : outcome (fsys X)) : Prop := exists s', o = Ok s' /\ link_ok s'.

Lemma lowerup_link s : link_ok s -> link_step s (fsm_lowerup cb s).
Proof.
  unfold fsm_lowerup. start_link s; try destruct (negb _); try send_step; (eexists; split; [reflexivity|]); solve_link.
Qed.

Lemma restart_link s : link_ok s -> link_step s (fsm_restart cb s).
Proof.
  intros H. unfold fsm_restart. destruct (negb _); [|by exists s]. by apply lowerup_link, lowerdown_link.
Qed.

Lemma open_link s : link_ok s -> link_step s (fsm_open cb s).
Proof.
  intros H. assert (state (fm s) = CLOSING -> link_step s (fsm_restart cb (goto s STOPPING))) as Hcl.
  { intros Hs. destruct H as (Hm & Hu & Hp & Hf). rewrite Hs in *. apply restart_link. by unfold link_ok. }
  pose proof (restart_link s H) as Hr. revert H. unfold fsm_open.
  start_link s; try (by apply Hcl); try done; try destruct (negb _); try destruct (starting cb); try send_step;
    (eexists; split; [reflexivity|]); solve_link.
Qed.

Lemma close_link s r : link_ok s -> link_step s (fsm_close cb s r).
Proof.
  unfold fsm_close, terminate. cbn [fm upd set_reason state]. start_link s; unfold inform; rewrite ?Hdown; try send_step;
    (eexists; split; [reflexivity|]); solve_link.
Qed.

Lemma protreject_link s : link_ok s -> link_step s (fsm_protreject cb s).
Proof.
  unfold fsm_protreject, terminate. start_link s; unfold inform; rewrite ?Hdown; try destruct (finished cb); try send_step;
    (eexists; split; [reflexivity|]); solve_link.
Qed.

Lemma timeout_link s t : ftimer s = Some t -> link_ok s -> link_step s (fsm_timeout cb (set_timer s None)).
Proof.
  intros Ht. unfold fsm_timeout. cbn [fm set_timer]. start_link s; rewrite Ht in Hp; try done;
    destruct (retransmits (fm s) <=? 0); unfold inform; cbn [fm goto upd fflags set_st];
    try destruct (_ && _); try destruct (finished cb); try destruct (retransmit cb); try send_step;
    cbn [fm emit set_timer] in *; repeat case_decide; try congruence; (eexists; split; [reflexivity|]); solve_link.
Qed.

(** The answer to a Configure-Request, with a pending timer and the layer down. *)
Lemma answer_link s id bs :
  HEADERLEN <= peer_mru s -> updown (out s) = Some false -> pending s = true -> Forall (fits_mru (peer_mru s)) (out s) ->
  link_step s (answer_confreq cb s id bs).
Proof.
  intros Hm Hu Hp Hf. unfold pending in Hp. unfold answer_confreq. destruct (ask_reqci cb s bs) as [[code bs'] x] eqn:Ha.
  assert (out x = out s /\ fm x = fm s /\ peer_mru x = peer_mru s /\ ftimer x = ftimer s) as (Hox & Hfx & Hmx & Htx).
  { unfold ask_reqci in Ha. destruct (reqci cb); [|by simplify_eq]. destruct (_ (dat s) _ _) as [[? ?] ?]. by simplify_eq. }
  send_step. cbn [fm emit]. rewrite Hfx. rewrite Hmx in Hl.
  destruct (code =? CONFACK), (code =? CONFNAK); case_decide as Hst;
    (eexists; split; [reflexivity|]); solve_link.
Qed.

Lemma confreq_link s id bs :
  link_ok s -> state (fm s) <> INITIAL -> state (fm s) <> STARTING -> link_step s (fsm_rconfreq cb s id bs).
Proof.
  unfold fsm_rconfreq. start_link s; intros Hi Hst; try done; unfold inform; rewrite ?Hdown.
  1,3,4: try send_step; (eexists; split; [reflexivity|]); solve_link.
  2,3,4: apply answer_link; try done; unfold pending; by rewrite Hp.
  all: send_step; apply answer_link; unfold pending; solve_link.
Qed.

Lemma confack_link s id bs : link_ok s -> link_step s (fsm_rconfack cb s id bs).
Proof.
  intros H. unfold fsm_rconfack. destruct (negb (id =? reqid (fm s)) || seen_ack (fm s)); [by exists s|].
  assert (exists good x, match ackci cb with
            | Some g => let '(r, x) := g (dat s) bs in (negb (r =? 0), set_dat s x)
            | None => (Z.of_nat (length bs) =? 0, s) end = (good, set_dat s x)) as (good & x & ->).
  { destruct (ackci cb) as [g|]; [destruct (g (dat s) bs) as [r x]; by eexists _, x|]. exists (Z.of_nat (length bs) =? 0), (dat s). by destruct s. }
  revert H. start_link s; destruct good; cbn [negb fm upd set_seen state set_dat]; rewrite ?Hs; unfold inform; rewrite ?Hup, ?Hdown;
    try send_step; (eexists; split; [reflexivity|]); solve_link.
Qed.

Lemma confnakrej_link s code id bs : link_ok s -> link_step s (fsm_rconfnakrej cb s code id bs).
Proof.
  intros H. unfold fsm_rconfnakrej. destruct (negb (id =? reqid (fm s)) || seen_ack (fm s)); [by exists s|].
  destruct (if code =? CONFNAK then nakci cb else rejci cb) as [g|]; [|by exists s]. destruct (g (dat s) bs) as [r x].
  revert H. start_link s; destruct (r =? 0); cbn [negb fm upd set_seen state set_dat]; rewrite ?Hs; unfold inform; rewrite ?Hdown;
    try destruct (r <? 0); try send_step; (eexists; split; [reflexivity|]); solve_link.
Qed.

Lemma termreq_link s id : link_ok s -> link_step s (fsm_rtermreq cb s id).
Proof.
  unfold fsm_rtermreq, inform. rewrite Hdown. start_link s; send_step; (eexists; split; [reflexivity|]); solve_link.
Qed.

Lemma termack_link s : link_ok s -> state (fm s) <> OPENED -> link_step s (fsm_rtermack cb s).
Proof.
  unfold fsm_rtermack, inform. start_link s; intros Ho; try done; try destruct (finished cb);
    (eexists; split; [reflexivity|]); solve_link.
Qed.

(** A Terminate-Ack while the link is open. *)
Definition rta_in_opened s (e : fev) : bool :=
  match classify cb s e, state (fm s) with Some RTA, OPENED => true | _, _ => false end.

Lemma input_link s p : link_ok s -> rta_in_opened s (EInput p) = false -> link_step s (fsm_input cb s p).
Proof.
  intros H Hr. destruct (decide (state (fm s) = INITIAL \/ state (fm s) = STARTING)) as [Hs|Hs].
  { exists s. split; [by apply input_early|done]. }
  apply Decidable.not_or in Hs as [Hi Hst]. unfold rta_in_opened in Hr.
  destruct p as [|code [|id [|hi [|lo bs]]]]; try (by exists s). cbn [fsm_input]. cbn [classify] in Hr.
  destruct (_ <? HEADERLEN); [by exists s|]. cbn [orb] in Hr. destruct (_ <? GETSHORT hi lo); [by exists s|].
  assert (forall (a : outcome (fsys X)), match state (fm s) with INITIAL | STARTING => Ok s | _ => a end = a) as E
    by (intros a; by destruct (state (fm s))). rewrite E. clear E. set (d := take (Z.to_nat (_ - _)) _) in *. unfold classify_packet in Hr.
  destruct (code =? CONFREQ); [by apply confreq_link|]. destruct (code =? CONFACK); [by apply confack_link|].
  destruct (_ || _); [by apply confnakrej_link|]. destruct (code =? TERMREQ); [by apply termreq_link|].
  destruct (code =? TERMACK); [apply termack_link; [done|]; by destruct (state (fm s))|].
  destruct (code =? CODEREJ).
  { unfold fsm_rcoderej. revert H. start_link s; destruct (_ <? HEADERLEN); try case_decide; try done; (eexists; split; [reflexivity|]); solve_link. }
  assert (exists r x, match extcode cb with
     | Some g => let '(r, x) := g (dat s) code id d in (r, set_dat s x) | None => (0, s) end = (r, set_dat s x)) as (r & x & ->).
  { destruct (extcode cb) as [g|]; [destruct (g _ _ _ _) as [r x]; by eexists _, x|]. exists 0, (dat s). by destruct s. }
  revert H. start_link s; destruct (r =? 0); try send_step; (eexists; split; [reflexivity|]); solve_link.
Qed.

Lemma step_link s e : link_ok s -> rta_in_opened s e = false -> link_step s (fstep cb s e).
Proof.
  intros H Hr. destruct e; cbn [fstep]; [by apply lowerup_link| |by apply open_link|by apply close_link
    |by apply protreject_link| |by apply input_link].
  - eexists. split; [done|]. by apply lowerdown_link.
  - destruct (ftimer s) as [t|] eqn:Ht; [by eapply timeout_link|by exists s].
Qed.
End link.

(** A step of a run in which no Terminate-Ack arrives on an open link. *)
Definition link_event {X} (cb : fsm_callbacks X) (a b : fsys X) : Prop :=
  exists e, rta_in_opened cb a e = false /\ fstep cb a e = Ok b.

Lemma fstep_total {X} (cb : fsm_callbacks X) s e :
  up cb = true -> down cb = true -> link_ok s -> exists s', fstep cb s e = Ok s'.
Proof.
  intros Hu Hd H. destruct (rta_in_opened cb s e) eqn:Hr.
  - unfold rta_in_opened in Hr. destruct (classify cb s e) as [r|] eqn:Hc; [|done]. destruct r; try done.
    destruct (state (fm s)) eqn:Hs; try done. destruct e; try done.
    { cbn [classify] in Hc. destruct (ftimer s); [|done]. by destruct (_ <=? 0) in Hc. }
    destruct packet as [|code [|id [|hi [|lo bs]]]]; try done. cbn [classify] in Hc. destruct (_ || _) eqn:Hl in Hc; [done|].
    apply orb_false_iff in Hl as [H1 H2]. cbn [fstep fsm_input]. rewrite H1, H2, Hs.
    assert (code = TERMACK) as ->.
    { unfold classify_packet in Hc. destruct (ask_reqci _ _ _) as [[? ?] ?].
      destruct (Z.eqb_spec code TERMACK); [done|]. exfalso.
      repeat match goal with H : context [if ?b then _ else _] |- _ => destruct b; try discriminate end;
      repeat match goal with H : context [match ?o with Some _ => _ | None => _ end] |- _ => destruct o; try discriminate end;
      repeat match goal with H : context [if ?b then _ else _] |- _ => destruct b; try discriminate end. }
    destruct H as (Hm & _). unfold fsm_rtermack, inform. rewrite Hs, Hd.
    change (TERMACK =? CONFREQ) with false. change (TERMACK =? CONFACK) with false. change (TERMACK =? CONFNAK) with false.
    change (TERMACK =? CONFREJ) with false. change (TERMACK =? TERMREQ) with false. change (TERMACK =? TERMACK) with true.
    cbn [orb]. send_step. by eexists.
  - destruct (step_link cb Hu Hd s e H Hr) as (s' & E & _). by exists s'.
Qed.

(** C26: Along every run from fsm_init in which no Terminate-Ack arrives on an open
    link: the upper layer is told alternately that the link is up and down, and it
    is up exactly in state OPENED; the restart timer runs exactly in the states
    that wait for the peer; every packet fits the MRU of the peer; and no event
    makes the automaton fault.  For all callbacks and all options. *)
Theorem fsm_link_invariant {X} (cb : fsm_callbacks X) (f : fsm) (t c k n mru proto : Z) (x : X) (s : fsys X)
    (Hm : HEADERLEN <= mru) (Hup : up cb = true) (Hdown : down cb = true)
    (Hr : reach (link_event cb) (MkFsys (fsm_init f t c k n) mru proto None [] x) s) :
  updown (out s) = Some (opened (state (fm s))) /\ pending s = waiting (state (fm s)) /\
  Forall (fits_mru (peer_mru s)) (out s) /\ forall e, exists s', fstep cb s e = Ok s'.
Proof.
  assert (link_ok s) as H.
  { eapply (reach_invariant (link_event cb) link_ok); [|intros a b Ha (e & He & E)|exact Hr]; [by unfold link_ok|].
    destruct (step_link cb Hup Hdown a e Ha He) as (b' & E' & Hb). rewrite E in E'. by injection E' as <-. }
  pose proof H as (_ & H1 & H2 & H3). split_and!; try done. intros e. by apply fstep_total.
Qed.

(** An opening: the lower layer comes up, the request is acknowledged, and the
    peer's request is. *)
Definition opening : list fev := [EOpen; ELowerUp; EInput [2; 1; 0; 4]; EInput [1; 7; 0; 4]].

(** A run without a Terminate-Ack on an open link. *)
Fixpoint no_rta {X} (cb : fsm_callbacks X) (s : fsys X) (es : list fev) : bool :=
  match es with
  | [] => true
  | e :: es => negb (rta_in_opened cb s e) && match fstep cb s e with Ok s' => no_rta cb s' es | _ => false end
  end.

Lemma frun_reach {X} (cb : fsm_callbacks X) s0 s es s' :
  reach (link_event cb) s0 s -> no_rta cb s es = true -> frun cb s es = Ok s' -> reach (link_event cb) s0 s'.
Proof.
  revert s. induction es as [|e es IH]; intros s Hr Hn Hrun; cbn in *; [by simplify_eq|].
  apply andb_true_iff in Hn as [He Hn]. destruct (fstep cb s e) as [s1| | |] eqn:E; try done.
  apply (IH s1); [|done|done]. eapply reach_step; [exact Hr|]. exists e. split; [by apply negb_true_iff|done].
Qed.

Definition fresh_fsm : fsys unit := MkFsys (fsm_init (fm (fsm_at OPENED None)) 6 10 2 5) 1500 49185 None [] tt.

Lemma fsm_link_invariant_witness :
  exists s, frun no_options fresh_fsm opening = Ok s /\ updown (out s) = Some (opened (state (fm s))) /\
    pending s = waiting (state (fm s)) /\ Forall (fits_mru (peer_mru s)) (out s) /\
    forall e, exists s', fstep no_options s e = Ok s'.
Proof.
  destruct (frun no_options fresh_fsm opening) as [s| | |] eqn:E; [|discriminate E..]. exists s. split; [reflexivity|].
  apply (fsm_link_invariant no_options (fm (fsm_at OPENED None)) 6 10 2 5 1500 49185 tt s);
    [discriminate|reflexivity|reflexivity|].
  apply (frun_reach no_options fresh_fsm fresh_fsm opening s); [constructor|vm_compute; reflexivity|exact E].
Defined.

(** ** Giving up on a silent peer *)

Definition is_sent (e : fevent) : bool := match e with Sent _ => true | _ => false end.
Definition packets (l : list fevent) : Z := Z.of_nat (length (List.filter is_sent l)).

Lemma packets_app l1 l2 : packets (l1 ++ l2) = packets l1 + packets l2.
Proof. unfold packets. rewrite List.filter_app, length_app. lia. Qed.

Definition given_up (st : lstate) : lstate := match st with CLOSING => CLOSED | _ => STOPPED end.

(** One timeout with tries left: one more packet, one try less. *)
Lemma timeout_retries {X} (cb : fsm_callbacks X) s :
  HEADERLEN <= peer_mru s -> waiting (state (fm s)) = true -> pending s = true -> 0 < retransmits (fm s) < 2 ^ 31 ->
  exists s', fstep cb s ETimeout = Ok s' /\ waiting (state (fm s')) = true /\
    given_up (state (fm s')) = given_up (state (fm s)) /\ peer_mru s' = peer_mru s /\ pending s' = true /\
    fflags (fm s') = fflags (fm s) /\
    packets (out s') = packets (out s) + 1 /\ retransmits (fm s') = retransmits (fm s) - 1.
Proof.
  intros Hm Hw Hp Hr. unfold pending in Hp. cbn [fstep]. destruct (ftimer s) as [t|]; [|done]. unfold fsm_timeout.
  cbn [fm set_timer]. rewrite (proj2 (Z.leb_gt _ _)) by lia.
  assert (s32 (retransmits (fm s) - 1) = retransmits (fm s) - 1) as Hs32 by (apply s32_small; lia).
  destruct (state (fm s)) eqn:Hs; try done; unfold inform; try destruct (retransmit cb);
    match goal with
    | |- context [fsm_sconfreq ?cb ?s0 ?r] =>
        destruct (sconfreq_ok cb s0 r) as (s' & p & -> & Hst & Hg & Ho & Hp' & Hl & Ht & Hre); [mru_ok|]
    | |- context [send_termreq ?s0] =>
        destruct (termreq_ok s0) as (s' & p & -> & Hst & Hg & Ho & Hp' & Hl & Ht & Hre); [mru_ok|]
    end; cbn [mbind outcome_bind]; unfold config in Hg; injection Hg as Hg1 Hg2 Hg3 Hg4 Hg5 Hg6 Hg7;
    cbn [fm emit set_timer] in *; repeat case_decide; try congruence; eexists; (split; [reflexivity|]);
    unfold pending; cbn [fm goto upd set_st state out peer_mru retransmits ftimer fflags] in *; rewrite ?Hst, ?Hs, ?Ho, ?Ht, ?Hre, ?packets_app; split_and!;
    try done; try congruence; cbn; try lia; rewrite packets_app; change (packets [Sent p]) with 1; change (packets [Retransmit]) with 0; lia.
Qed.

(** The last timeout: the automaton stops waiting. *)
Lemma timeout_gives_up {X} (cb : fsm_callbacks X) s :
  waiting (state (fm s)) = true -> pending s = true -> retransmits (fm s) <= 0 -> fflags (fm s) = 0 -> finished cb = true ->
  exists s', fstep cb s ETimeout = Ok s' /\ state (fm s') = given_up (state (fm s)) /\ pending s' = false /\
    out s' = out s ++ [Finished].
Proof.
  intros Hw Hp Hr Hf Hfin. unfold pending in Hp. cbn [fstep]. destruct (ftimer s) as [t|]; [|done]. unfold fsm_timeout.
  cbn [fm set_timer goto upd fflags set_st]. rewrite (proj2 (Z.leb_le _ _)), Hf, Hfin by lia.
  change (Z.land 0 OPT_PASSIVE =? 0) with true.
  destruct (state (fm s)) eqn:Hs; try done; eexists; split; try reflexivity; split_and!; done.
Qed.

(** C29: A link never waits for ever.  When the peer stays silent, a waiting
    automaton with r tries left sends exactly r more requests and, at the timeout
    after them, leaves the waiting states: closed when it was closing, stopped
    otherwise, its timer off, the upper layer told that the link is finished. *)
Theorem fsm_gives_up {X} (cb : fsm_callbacks X) (s : fsys X)
    (Hm : HEADERLEN <= peer_mru s) (Hf : fflags (fm s) = 0) (Hfin : finished cb = true)
    (Hw : waiting (state (fm s)) = true) (Hp : pending s = true) (Hr : 0 <= retransmits (fm s) < 2 ^ 31) :
  exists s' l, frun cb s (repeat ETimeout (S (Z.to_nat (retransmits (fm s))))) = Ok s' /\
    state (fm s') = given_up (state (fm s)) /\ pending s' = false /\ out s' = l ++ [Finished] /\
    packets (out s') = packets (out s) + retransmits (fm s).
Proof.
  remember (Z.to_nat (retransmits (fm s))) as n eqn:Hn. revert s Hm Hf Hw Hp Hr Hn.
  induction n as [|n IH]; intros s Hm Hf Hw Hp Hr Hn.
  - destruct (timeout_gives_up cb s Hw Hp ltac:(lia) Hf Hfin) as (s' & E & Hst & Hp' & Ho).
    exists s', (out s). cbn [repeat frun]. rewrite E. cbn [mbind outcome_bind]. split_and!; try done.
    rewrite Ho, packets_app. change (packets [Finished]) with 0. lia.
  - destruct (timeout_retries cb s Hm Hw Hp ltac:(lia)) as (s1 & E & Hw1 & Hg1 & Hm1 & Hp1 & Hf1 & Hc1 & Hr1).
    destruct (IH s1) as (s' & l & E' & Hst & Hp' & Ho & Hc); [by rewrite Hm1|by rewrite Hf1|done|done|lia|lia|].
    exists s', l. replace (repeat ETimeout (S (S n))) with (ETimeout :: repeat ETimeout (S n)) by done.
    cbn [frun]. rewrite E. cbn [mbind outcome_bind]. split_and!; try done; [congruence|lia].
Qed.

Lemma fsm_gives_up_witness :
  exists s' l, frun no_options (fsm_at ACKSENT (Some 6000)) (repeat ETimeout 10) = Ok s' /\
    state (fm s') = STOPPED /\ pending s' = false /\ out s' = l ++ [Finished] /\ packets (out s') = 9.
Proof.
  apply (fsm_gives_up no_options (fsm_at ACKSENT (Some 6000))); [discriminate|reflexivity|reflexivity|reflexivity|reflexivity|].
  split; [discriminate|reflexivity].
Defined.

(** ** Where the code differs from the RFC *)

(** A Terminate-Ack on an open link tells the upper layer that the link is down
    and sends a request, but leaves the state at OPENED, where the RFC has
    Req-Sent: the timeout of the request is then ignored and, with its timer off,
    the automaton stays open over a link that is down. *)
Theorem terminate_ack_leaves_opened {X} (cb : fsm_callbacks X) (s : fsys X) (id hi lo : Z) (bs : list Z)
    (Hm : HEADERLEN <= peer_mru s) (Hs : state (fm s) = OPENED) (Hdown : down cb = true)
    (Hlen : HEADERLEN <= GETSHORT hi lo <= Z.of_nat (length bs) + 4) :
  exists s1 s2, fstep cb s (EInput (TERMACK :: id :: hi :: lo :: bs)) = Ok s1 /\
    rfc1661 OPENED RTA = Some ([tld; scr], REQSENT) /\ did s s1 ([tld; scr], OPENED) /\ pending s1 = true /\
    fstep cb s1 ETimeout = Ok s2 /\ did s1 s2 ([], OPENED) /\ pending s2 = false.
Proof.
  destruct (sconfreq_ok cb (emit s Down) false) as (s1 & p & E & Hst & _ & Ho & Hp & _ & Ht & _); [done|].
  exists s1, (set_timer s1 None). cbn [fm emit out] in *. split; [|split; [done|split; [|split; [|split; [|split; [|done]]]]]].
  - cbn [fstep fsm_input length]. rewrite (proj2 (Z.ltb_ge _ _)), (proj2 (Z.ltb_ge _ _)) by lia. rewrite Hs.
    unfold fsm_rtermack, inform. rewrite Hs, Hdown. exact E.
  - split; [cbn; congruence|]. rewrite Ho, !visible_app, (visible_code p _ Hp). by rewrite <- app_assoc.
  - unfold pending. by rewrite Ht.
  - cbn [fstep]. rewrite Ht. unfold fsm_timeout. cbn [fm set_timer]. by rewrite Hst, Hs.
  - split; [cbn; congruence|]. cbn. by rewrite app_nil_r.
Qed.

Lemma terminate_ack_leaves_opened_witness :
  exists s1 s2, fstep no_options (fsm_at OPENED None) (EInput [6; 1; 0; 4]) = Ok s1 /\
    rfc1661 OPENED RTA = Some ([tld; scr], REQSENT) /\ did (fsm_at OPENED None) s1 ([tld; scr], OPENED) /\ pending s1 = true /\
    fstep no_options s1 ETimeout = Ok s2 /\ did s1 s2 ([], OPENED) /\ pending s2 = false.
Proof.
  apply (terminate_ack_leaves_opened no_options (fsm_at OPENED None) 1 0 4 []);
    [discriminate|reflexivity|reflexivity|split; discriminate].
Defined.

(** fsm_close before the lower layer is up does not say that the layer is finished. *)
Lemma close_starting_silent {X} (cb : fsm_callbacks X) (s : fsys X) r :
  state (fm s) = STARTING ->
  exists s', fstep cb s (EClose r) = Ok s' /\ did s s' ([], INITIAL) /\ rfc1661 STARTING RClose = Some ([tlf], INITIAL).
Proof.
  intros Hs. cbn [fstep]. unfold fsm_close. cbn [fm upd set_reason state]. rewrite Hs. eexists. split; [done|].
  split; [split; [done|]; cbn; by rewrite app_nil_r|done].
Qed.

(** GETSHORT reads what PUTSHORT wrote exactly below 256. *)
Lemma getshort_putshort_iff v :
  0 <= v < 2 ^ 16 -> GETSHORT (u8 (Z.shiftr v 8)) (u8 v) = v <-> v < 256.
Proof.
  intros Hv. unfold GETSHORT, u8. rewrite Z.shiftr_div_pow2 by lia. change (2 ^ 8) with 256. split; intros H.
  - destruct (decide (v < 256)) as [|Hge]; [done|]. exfalso.
    assert (0 <= v / 256 < 256) by (split; [apply Z.div_pos|apply Z.div_lt_upper_bound]; lia).
    rewrite (Z.mod_small (v / 256)) in H by done.
    pose proof (Z.add_lor_land (v / 256) (v mod 256)) as Ha. rewrite H in Ha.
    pose proof (Z.mod_pos_bound v 256 ltac:(lia)). pose proof (Z.div_mod v 256 ltac:(lia)).
    assert (0 <= Z.land (v / 256) (v mod 256)) by (apply Z.land_nonneg; lia). lia.
  - rewrite (Z.div_small v 256), (Z.mod_small v 256) by lia. done.
Qed.
