(* ===== verification/Vj.v ===== *)
(** * TCP/IP header compression (net/ppp/vj.c, vj.h, vjbsdhdr.h)

    Both ends of a link: the compressor with its ring of connection states, the
    decompressor, and the headers of the last packets that both keep.  Headers are
    the structures ip and tcphdr with their options (32-bit words); multi-byte
    fields are the numbers they carry in network byte order.  [long] has 32 bits.
    The arrays tstate and rstate are maps from slots. *)

From S2P Require Import Prelude Inet.

(** ** Data *)

Definition MAX_SLOTS : Z := 16.
Definition MAX_HDR : Z := 128.
Definition TYPE_IP : Z := 64.
Definition TYPE_UNCOMPRESSED_TCP : Z := 112.
Definition TYPE_COMPRESSED_TCP : Z := 128.
Definition NEW_C : Z := 64.
Definition NEW_I : Z := 32.
Definition NEW_S : Z := 8.
Definition NEW_A : Z := 4.
Definition NEW_W : Z := 2.
Definition NEW_U : Z := 1.
Definition SPECIAL_I : Z := Z.lor (Z.lor NEW_S NEW_W) NEW_U.
Definition SPECIAL_D : Z := Z.lor (Z.lor (Z.lor NEW_S NEW_A) NEW_W) NEW_U.
Definition SPECIALS_MASK : Z := Z.lor (Z.lor (Z.lor NEW_S NEW_A) NEW_W) NEW_U.
Definition TCP_PUSH_BIT : Z := 16.
Definition VJF_TOSS : Z := 1.
Definition IPPROTO_TCP : Z := 6.
Definition TCP_FIN : Z := 1.
Definition TCP_SYN : Z := 2.
Definition TCP_RST : Z := 4.
Definition TCP_PSH : Z := 8.
Definition TCP_ACK : Z := 16.
Definition TCP_URG : Z := 32.

Record iphdr := MkIp {
  ip_v : Z; ip_hl : Z; ip_tos : Z; ip_len : Z; ip_id : Z; ip_off : Z; ip_ttl : Z; ip_p : Z; ip_sum : Z;
  ip_src : Z; ip_dst : Z; ip_opt : list Z }.

Record tcphdr := MkTh {
  th_sport : Z; th_dport : Z; th_seq : Z; th_ack : Z; th_x2 : Z; th_off : Z; th_flags : Z; th_win : Z;
  th_sum : Z; th_urp : Z; th_opt : list Z }.

Record hdr := MkHdr { hip : iphdr; hth : tcphdr }.

#[global] Instance iphdr_eq_dec : EqDecision iphdr.
Proof. solve_decision. Defined.
#[global] Instance tcphdr_eq_dec : EqDecision tcphdr.
Proof. solve_decision. Defined.
#[global] Instance hdr_eq_dec : EqDecision hdr.
Proof. solve_decision. Defined.

(** An IP packet: headers, data, number of bytes in the first buffer. *)
Record ippkt := MkPkt { phdr : hdr; pdata : list Z; plen : Z }.

(** A compressed packet: the bytes of the first buffer, the memory behind it, the
    bytes of the other buffers. *)
Record frame := MkFrame { fbytes : list Z; fbehind : list Z; frest : list Z }.

Record cstate := MkCs { cs_next : Z; cs_hlen : Z; cs_id : Z; cs_hdr : hdr }.

Record vjcompress := MkVj {
  last_cs : Z;
  last_recv : Z;
  last_xmit : Z;
  vflags : Z;
  maxSlotIndex : Z;
  compressSlot : Z;
  tstate : gmap Z cstate;
  rstate : gmap Z cstate }.

Definition set_last_cs (c : vjcompress) (v : Z) : vjcompress :=
  MkVj v (last_recv c) (last_xmit c) (vflags c) (maxSlotIndex c) (compressSlot c) (tstate c) (rstate c).
Definition set_last_recv (c : vjcompress) (v : Z) : vjcompress :=
  MkVj (last_cs c) v (last_xmit c) (vflags c) (maxSlotIndex c) (compressSlot c) (tstate c) (rstate c).
Definition set_last_xmit (c : vjcompress) (v : Z) : vjcompress :=
  MkVj (last_cs c) (last_recv c) v (vflags c) (maxSlotIndex c) (compressSlot c) (tstate c) (rstate c).
Definition set_vflags (c : vjcompress) (v : Z) : vjcompress :=
  MkVj (last_cs c) (last_recv c) (last_xmit c) v (maxSlotIndex c) (compressSlot c) (tstate c) (rstate c).
Definition set_tstate (c : vjcompress) (v : gmap Z cstate) : vjcompress :=
  MkVj (last_cs c) (last_recv c) (last_xmit c) (vflags c) (maxSlotIndex c) (compressSlot c) v (rstate c).
Definition set_rstate (c : vjcompress) (v : gmap Z cstate) : vjcompress :=
  MkVj (last_cs c) (last_recv c) (last_xmit c) (vflags c) (maxSlotIndex c) (compressSlot c) (tstate c) v.

Definition set_cs_next (x : cstate) (v : Z) : cstate := MkCs v (cs_hlen x) (cs_id x) (cs_hdr x).
Definition set_cs_hdr (x : cstate) (v : hdr) : cstate := MkCs (cs_next x) (cs_hlen x) (cs_id x) v.

Definition set_ip_p (h : hdr) (v : Z) : hdr :=
  let i := hip h in
  MkHdr (MkIp (ip_v i) (ip_hl i) (ip_tos i) (ip_len i) (ip_id i) (ip_off i) (ip_ttl i) v (ip_sum i) (ip_src i)
           (ip_dst i) (ip_opt i)) (hth h).

(** The initial slots: zeroed memory. *)
Definition zero_hdr : hdr :=
  MkHdr (MkIp 0 0 0 0 0 0 0 0 0 0 0 []) (MkTh 0 0 0 0 0 0 0 0 0 0 []).

Definition zero_slots : gmap Z cstate :=
  list_to_map ((fun i => (Z.of_nat i, MkCs 0 0 0 zero_hdr)) <$> seq 0 (Z.to_nat MAX_SLOTS)).
Definition zero_vj : vjcompress := MkVj 0 0 0 0 0 0 zero_slots zero_slots.

(** The loop of vj_compress_init, from slot [n] down to 1. *)
Fixpoint init_slots (n : nat) (m : gmap Z cstate) : gmap Z cstate :=
  match n with
  | O => m
  | S n' => init_slots n' (alter (fun x => MkCs (Z.of_nat n') (cs_hlen x) (Z.of_nat n) (cs_hdr x)) (Z.of_nat n) m)
  end.

Definition vj_compress_init (c : vjcompress) : vjcompress :=
  let ts := init_slots (Z.to_nat (MAX_SLOTS - 1)) (tstate c) in
  let ts := alter (fun x => MkCs (MAX_SLOTS - 1) (cs_hlen x) 0 (cs_hdr x)) 0 ts in
  MkVj 0 255 255 VJF_TOSS (MAX_SLOTS - 1) 0 ts (rstate c).

(** ** The variable length code of the changes *)

Definition long_form (n : Z) : list Z := [0; u8 (Z.shiftr n 8); u8 n].
Definition ENCODE (n : Z) : list Z := if 256 <=? u16 n then long_form n else [u8 n].
Definition ENCODEZ (n : Z) : list Z := if (256 <=? u16 n) || (u16 n =? 0) then long_form n else [u8 n].

(** The number that DECODEL, DECODES and DECODEU read, and the rest. *)
Definition decode (cp : list Z) : outcome (Z * list Z) :=
  match cp with
  | [] => Fault
  | b :: cp =>
      if b =? 0 then
        match cp with b1 :: b2 :: cp => Ok (Z.lor (Z.shiftl b1 8) b2, cp) | _ => Fault end
      else Ok (b, cp)
  end.
Definition DECODEL (f : Z) (cp : list Z) : outcome (Z * list Z) := '(n, cp) ← decode cp; Ok (u32 (f + n), cp).
Definition DECODES (f : Z) (cp : list Z) : outcome (Z * list Z) := '(n, cp) ← decode cp; Ok (u16 (f + n), cp).
Definition DECODEU (f : Z) (cp : list Z) : outcome (Z * list Z) := '(n, cp) ← decode cp; Ok (u16 n, cp).

(** ** Compression *)

(** hlen of the code: the size of both headers in bytes. *)
Definition hdr_bytes (h : hdr) : Z := Z.shiftl (ip_hl (hip h) + th_off (hth h)) 2.

Definition tot_len (p : ippkt) : Z := hdr_bytes (phdr p) + Z.of_nat (length (pdata p)).

Definition same_conn (h h' : hdr) : bool :=
  (ip_src (hip h) =? ip_src (hip h')) && (ip_dst (hip h) =? ip_dst (hip h')) &&
  (th_sport (hth h) =? th_sport (hth h')) && (th_dport (hth h) =? th_dport (hth h')).

(** The search from [cs] on: found, predecessor, slot. *)
Fixpoint vj_search (n : nat) (ts : gmap Z cstate) (h : hdr) (lastcs cs : Z) : outcome (bool * Z * Z) :=
  match n with
  | O => OutOfFuel
  | S n =>
      let lcs := cs in
      x ← from_opt (ts !! cs);
      let cs := cs_next x in
      y ← from_opt (ts !! cs);
      if same_conn h (cs_hdr y) then Ok (true, lcs, cs)
      else if cs =? lastcs then Ok (false, lcs, cs) else vj_search n ts h lastcs cs
  end.

(** Move the slot [cs] behind [lcs] to the front. *)
Definition vj_to_front (c : vjcompress) (lcs cs : Z) : outcome vjcompress :=
  let lastcs := last_cs c in
  if cs =? lastcs then Ok (set_last_cs c lcs)
  else
    x ← from_opt (tstate c !! cs);
    l ← from_opt (tstate c !! lcs);
    let ts := <[lcs := set_cs_next l (cs_next x)]> (tstate c) in
    z ← from_opt (ts !! lastcs);
    x ← from_opt (ts !! cs);
    let ts := <[cs := set_cs_next x (cs_next z)]> ts in
    z ← from_opt (ts !! lastcs);
    Ok (set_tstate c (<[lastcs := set_cs_next z cs]> ts)).

(** The slot of the connection; [false]: a new one, the oldest. *)
Definition vj_find (c : vjcompress) (h : hdr) : outcome (bool * Z * vjcompress) :=
  l ← from_opt (tstate c !! last_cs c);
  let cs := cs_next l in
  x ← from_opt (tstate c !! cs);
  if same_conn h (cs_hdr x) then Ok (true, cs, c)
  else
    '(found, lcs, cs) ← vj_search (Z.to_nat MAX_SLOTS) (tstate c) h (last_cs c) cs;
    if (found : bool) then c ← vj_to_front c lcs cs; Ok (true, cs, c)
    else Ok (false, cs, set_last_cs c lcs).

(** Only what is expected to change changed. *)
Definition vj_comparable (h o : hdr) : bool :=
  (ip_v (hip h) =? ip_v (hip o)) && (ip_hl (hip h) =? ip_hl (hip o)) && (ip_tos (hip h) =? ip_tos (hip o)) &&
  (ip_off (hip h) =? ip_off (hip o)) && (ip_ttl (hip h) =? ip_ttl (hip o)) && (ip_p (hip h) =? ip_p (hip o)) &&
  (th_off (hth h) =? th_off (hth o)) &&
  (negb (5 <? ip_hl (hip h)) || bool_decide (ip_opt (hip h) = ip_opt (hip o))) &&
  (negb (5 <? th_off (hth h)) || bool_decide (th_opt (hth h) = th_opt (hth o))).

(** The changes of the urgent pointer, window, acknowledgement and sequence number;
    [None]: not to be compressed.  The bytes, the mask, deltaS and deltaA. *)
Definition vj_changes (h o : hdr) : option (list Z * Z * Z * Z) :=
  let t := hth h in let ot := hth o in
  match (if negb (Z.land (th_flags t) TCP_URG =? 0) then Some (ENCODEZ (th_urp t), NEW_U)
         else if negb (th_urp t =? th_urp ot) then None else Some ([], 0)) with
  | None => None
  | Some (bu, mu) =>
      let dw := u16 (th_win t - th_win ot) in
      let '(bw, mw) := if negb (dw =? 0) then (ENCODE dw, NEW_W) else ([], 0) in
      let da := u32 (th_ack t - th_ack ot) in
      if 65535 <? da then None
      else
        let '(ba, ma) := if negb (da =? 0) then (ENCODE da, NEW_A) else ([], 0) in
        let ds := u32 (th_seq t - th_seq ot) in
        if 65535 <? ds then None
        else
          let '(bs, ms) := if negb (ds =? 0) then (ENCODE ds, NEW_S) else ([], 0) in
          Some (bu ++ bw ++ ba ++ bs, Z.lor (Z.lor (Z.lor mu mw) ma) ms, ds, da)
  end.

(** The special cases; [None]: send it uncompressed. *)
Definition vj_special (h o : hdr) (cp : list Z) (changes deltaS deltaA : Z) : option (list Z * Z) :=
  let hlen := hdr_bytes h in
  if changes =? 0 then
    if negb (ip_len (hip h) =? ip_len (hip o)) && (ip_len (hip o) =? hlen) then Some (cp, changes) else None
  else if (changes =? SPECIAL_I) || (changes =? SPECIAL_D) then None
  else if changes =? Z.lor NEW_S NEW_A then
    if (deltaS =? deltaA) && (deltaS =? ip_len (hip o) - hlen) then Some ([], SPECIAL_I) else Some (cp, changes)
  else if changes =? NEW_S then
    if deltaS =? ip_len (hip o) - hlen then Some ([], SPECIAL_D) else Some (cp, changes)
  else Some (cp, changes).

(** The bytes of the changes and the mask, with the IP id and the push bit. *)
Definition vj_encode (h o : hdr) : option (list Z * Z) :=
  if negb (vj_comparable h o) then None
  else
    match vj_changes h o with
    | None => None
    | Some (cp, changes, deltaS, deltaA) =>
        match vj_special h o cp changes deltaS deltaA with
        | None => None
        | Some (cp, changes) =>
            let deltaS := u16 (ip_id (hip h) - ip_id (hip o)) in
            let '(cp, changes) :=
              if negb (deltaS =? 1) then (cp ++ ENCODEZ deltaS, Z.lor changes NEW_I) else (cp, changes) in
            Some (cp, if negb (Z.land (th_flags (hth h)) TCP_PSH =? 0) then Z.lor changes TCP_PUSH_BIT else changes)
        end
    end.

Inductive vjout : Set :=
  | VIp (p : ippkt)
  | VUncompressed (p : ippkt)
  | VCompressed (f : frame).

Definition vj_type (o : vjout) : Z :=
  match o with VIp _ => TYPE_IP | VUncompressed _ => TYPE_UNCOMPRESSED_TCP | VCompressed _ => TYPE_COMPRESSED_TCP end.

(** Save the header in slot [cs]; send the packet with the slot for the protocol. *)
Definition vj_send_uncompressed (c : vjcompress) (p : ippkt) (cs : Z) : outcome (vjout * vjcompress) :=
  x ← from_opt (tstate c !! cs);
  let c := set_tstate c (<[cs := set_cs_hdr x (phdr p)]> (tstate c)) in
  Ok (VUncompressed (MkPkt (set_ip_p (phdr p) (cs_id x)) (pdata p) (plen p)), set_last_xmit c (cs_id x)).

Definition vj_send_compressed (c : vjcompress) (p : ippkt) (cs : Z) (cp : list Z) (changes : Z)
    : outcome (vjout * vjcompress) :=
  x ← from_opt (tstate c !! cs);
  let c := set_tstate c (<[cs := set_cs_hdr x (phdr p)]> (tstate c)) in
  let sum := th_sum (hth (phdr p)) in
  let '(bs, c) :=
    if (compressSlot c =? 0) || negb (last_xmit c =? cs_id x) then
      ([u8 (Z.lor changes NEW_C); u8 (cs_id x)], set_last_xmit c (cs_id x))
    else ([u8 changes], c) in
  let head := bs ++ [u8 (Z.shiftr sum 8); u8 sum] ++ cp in
  let n := Z.to_nat (plen p - hdr_bytes (phdr p)) in
  Ok (VCompressed (MkFrame (head ++ take n (pdata p)) [] (drop n (pdata p))), c).

Definition vj_compress_tcp (c : vjcompress) (p : ippkt) : outcome (vjout * vjcompress) :=
  let h := phdr p in
  if negb (ip_p (hip h) =? IPPROTO_TCP) then Ok (VIp p, c)
  else if negb (Z.land (ip_off (hip h)) 16383 =? 0) || (tot_len p <? 40) then Ok (VIp p, c)
  else if negb (Z.land (th_flags (hth h)) (Z.lor (Z.lor (Z.lor TCP_SYN TCP_FIN) TCP_RST) TCP_ACK) =? TCP_ACK)
  then Ok (VIp p, c)
  else
    '(found, cs, c) ← vj_find c h;
    if plen p <? hdr_bytes h then Ok (VIp p, c)
    else if negb found then vj_send_uncompressed c p cs
    else
      x ← from_opt (tstate c !! cs);
      match vj_encode h (cs_hdr x) with
      | None => vj_send_uncompressed c p cs
      | Some (cp, changes) => vj_send_compressed c p cs cp changes
      end.

(** ** Decompression *)

Definition vj_uncompress_err (c : vjcompress) : vjcompress := set_vflags c (Z.lor (vflags c) VJF_TOSS).
Definition clear_toss (c : vjcompress) : vjcompress := set_vflags c (Z.land (vflags c) (Z.lnot VJF_TOSS)).

Definition vj_uncompress_uncomp (c : vjcompress) (p : ippkt) : outcome (Z * ippkt * vjcompress) :=
  let h := phdr p in
  let cid := ip_p (hip h) in
  let iplen := Z.shiftl (ip_hl (hip h)) 2 in
  let hlen := iplen + Z.shiftl (th_off (hth h)) 2 in
  if (MAX_SLOTS <=? cid) || (plen p <? iplen + 20) || (plen p <? hlen) || (MAX_HDR <? hlen) then
    Ok (-1, p, vj_uncompress_err c)
  else
    let c := clear_toss (set_last_recv c cid) in
    x ← from_opt (rstate c !! cid);
    let h := set_ip_p h IPPROTO_TCP in
    Ok (0, MkPkt h (pdata p) (plen p),
        set_rstate c (<[cid := MkCs (cs_next x) hlen (cs_id x) h]> (rstate c))).

(** The 16-bit words of an IP header as they lie in memory, the checksum 0. *)
Definition halves (w : Z) : list Z := [Z.land (Z.shiftr w 16) 65535; Z.land w 65535].
Definition ip_words (i : iphdr) : list Z :=
  htons <$> ([Z.lor (Z.shiftl (Z.lor (Z.shiftl (ip_v i) 4) (ip_hl i)) 8) (ip_tos i); ip_len i; ip_id i; ip_off i;
              Z.lor (Z.shiftl (ip_ttl i) 8) (ip_p i); 0] ++ halves (ip_src i) ++ halves (ip_dst i) ++
             concat (halves <$> ip_opt i)).

(** The checksum loop and its two folds. *)
Definition ip_checksum (i : iphdr) : Z :=
  let tmp := fold_left (fun a w => u32 (a + w)) (take (Z.to_nat (2 * ip_hl i)) (ip_words i)) 0 in
  let tmp := Z.land tmp 65535 + Z.shiftr tmp 16 in
  let tmp := Z.land tmp 65535 + Z.shiftr tmp 16 in
  ntohs (u16 (Z.lnot tmp)).

Definition next_byte (cp : list Z) : outcome (Z * list Z) :=
  match cp with b :: cp => Ok (b, cp) | [] => Fault end.

Definition set_bit (v mask : Z) (b : bool) : Z := if b then Z.lor v mask else Z.land v (Z.lnot mask).

(** The changes of the TCP header [t], whose saved IP length and header size are
    [iplen] and [hlen]. *)
Definition vj_apply (t : tcphdr) (iplen hlen changes : Z) (cp : list Z) : outcome (tcphdr * list Z) :=
  let m := Z.land changes SPECIALS_MASK in
  let mk seq ack flags win urp :=
    MkTh (th_sport t) (th_dport t) seq ack (th_x2 t) (th_off t) flags win (th_sum t) urp (th_opt t) in
  if m =? SPECIAL_I then
    let i := u32 (iplen - hlen) in
    Ok (mk (u32 (th_seq t + i)) (u32 (th_ack t + i)) (th_flags t) (th_win t) (th_urp t), cp)
  else if m =? SPECIAL_D then
    Ok (mk (u32 (th_seq t + iplen - hlen)) (th_ack t) (th_flags t) (th_win t) (th_urp t), cp)
  else
    let u := negb (Z.land changes NEW_U =? 0) in
    '(urp, cp) ← (if u then DECODEU (th_urp t) cp else Ok (th_urp t, cp));
    '(win, cp) ← (if negb (Z.land changes NEW_W =? 0) then DECODES (th_win t) cp else Ok (th_win t, cp));
    '(ack, cp) ← (if negb (Z.land changes NEW_A =? 0) then DECODEL (th_ack t) cp else Ok (th_ack t, cp));
    '(seq, cp) ← (if negb (Z.land changes NEW_S =? 0) then DECODEL (th_seq t) cp else Ok (th_seq t, cp));
    Ok (mk seq ack (set_bit (th_flags t) TCP_URG u) win urp, cp).

(** From the change mask on: the headers that the packet stands for and the bytes
    behind the compressed header. *)
Definition vj_decode (o : hdr) (hlen changes : Z) (cp : list Z) : outcome (tcphdr * Z * list Z) :=
  '(b1, cp) ← next_byte cp;
  '(b2, cp) ← next_byte cp;
  let t := hth o in
  let t := MkTh (th_sport t) (th_dport t) (th_seq t) (th_ack t) (th_x2 t) (th_off t)
             (set_bit (th_flags t) TCP_PSH (negb (Z.land changes TCP_PUSH_BIT =? 0))) (th_win t)
             (Z.lor (Z.shiftl b1 8) b2) (th_urp t) (th_opt t) in
  '(t, cp) ← vj_apply t (ip_len (hip o)) hlen changes cp;
  '(id, cp) ← (if negb (Z.land changes NEW_I =? 0) then DECODES (ip_id (hip o)) cp
               else Ok (u16 (ip_id (hip o) + 1), cp));
  Ok (t, id, cp).

Definition set_ip (i : iphdr) (len id sum : Z) : iphdr :=
  MkIp (ip_v i) (ip_hl i) (ip_tos i) len id (ip_off i) (ip_ttl i) (ip_p i) sum (ip_src i) (ip_dst i) (ip_opt i).

(** [alloc]: whether a buffer for the headers could be had.  The result: the length
    of the compressed header or -1, the headers and data of the packet. *)
Definition vj_uncompress_tcp (c : vjcompress) (f : frame) (alloc : bool) : outcome (Z * option (hdr * list Z) * vjcompress) :=
  let mem := fbytes f ++ fbehind f in
  '(changes, cp) ← next_byte mem;
  '(st, cp) ← (
    if negb (Z.land changes NEW_C =? 0) then
      '(cid, cp) ← next_byte cp;
      if MAX_SLOTS <=? cid then Ok (None, cp) else Ok (Some (set_last_recv (clear_toss c) cid), cp)
    else if negb (Z.land (vflags c) VJF_TOSS =? 0) then Ok (None, cp) else Ok (Some c, cp));
  match st with
  | None =>
      Ok (-1, None, if negb (Z.land changes NEW_C =? 0) then vj_uncompress_err c else c)
  | Some c =>
      x ← from_opt (rstate c !! last_recv c);
      let o := cs_hdr x in
      '(t, id, cp) ← vj_decode o (cs_hlen x) changes cp;
      let vjlen := u16 (Z.of_nat (length mem) - Z.of_nat (length cp)) in
      let save h := set_rstate c (<[last_recv c := set_cs_hdr x h]> (rstate c)) in
      if Z.of_nat (length (fbytes f)) <? vjlen then
        Ok (-1, None, vj_uncompress_err (save (MkHdr (set_ip (hip o) (ip_len (hip o)) id (ip_sum (hip o))) t)))
      else
        let len := u16 (Z.of_nat (length (fbytes f ++ frest f)) - vjlen + cs_hlen x) in
        let i := set_ip (hip o) len id 0 in
        let h := MkHdr (set_ip i len id (ip_checksum i)) t in
        if alloc then Ok (vjlen, Some (h, drop (Z.to_nat vjlen) (fbytes f) ++ frest f), save h)
        else Ok (-1, None, vj_uncompress_err (save h))
  end.

(** ** Numbers *)

Lemma bytes_of16 n : 0 <= n < 2 ^ 16 -> Z.lor (Z.shiftl (u8 (Z.shiftr n 8)) 8) (u8 n) = n.
Proof.
  intros Hn. rewrite Z.lor_comm, lor_bytes by apply u8_range.
  rewrite Z.shiftr_div_pow2 by lia. unfold u8. change (2 ^ 8) with 256.
  assert (0 <= n / 256 < 256) by (split; [apply Z.div_pos|apply Z.div_lt_upper_bound]; lia).
  rewrite (Z.mod_small (n / 256)) by done. pose proof (Z.div_mod n 256). lia.
Qed.

(** Each number is read back. *)
Lemma decode_long n rest : 0 <= n < 2 ^ 16 -> decode (long_form n ++ rest) = Ok (n, rest).
Proof. intros Hn. cbn [long_form app decode Z.eqb]. by rewrite bytes_of16. Qed.

Lemma decode_short n rest : 0 < n < 256 -> decode ([u8 n] ++ rest) = Ok (n, rest).
Proof. intros Hn. cbn [app decode]. rewrite u8_small by lia. by rewrite (proj2 (Z.eqb_neq _ _)) by lia. Qed.

Lemma decode_ENCODE n rest : 0 < n < 2 ^ 16 -> decode (ENCODE n ++ rest) = Ok (n, rest).
Proof.
  intros Hn. unfold ENCODE. rewrite u16_small by lia. destruct (Z.leb_spec 256 n); [apply decode_long|apply decode_short]; lia.
Qed.

Lemma decode_ENCODEZ n rest : 0 <= n < 2 ^ 16 -> decode (ENCODEZ n ++ rest) = Ok (n, rest).
Proof.
  intros Hn. unfold ENCODEZ. rewrite u16_small by lia.
  destruct (Z.leb_spec 256 n), (Z.eqb_spec n 0); cbn [orb]; try (apply decode_long; lia); apply decode_short; lia.
Qed.

Lemma u32_change a b : 0 <= a < 2 ^ 32 -> u32 (b + u32 (a - b)) = a.
Proof. intros Ha. unfold u32. rewrite Zplus_mod_idemp_r. replace (b + (a - b)) with a by lia. by apply Z.mod_small. Qed.

Lemma u16_change a b : 0 <= a < 2 ^ 16 -> u16 (b + u16 (a - b)) = a.
Proof. intros Ha. unfold u16. rewrite Zplus_mod_idemp_r. replace (b + (a - b)) with a by lia. by apply Z.mod_small. Qed.

Lemma u32_same a b : 0 <= a < 2 ^ 32 -> 0 <= b < 2 ^ 32 -> u32 (a - b) = 0 -> a = b.
Proof. intros Ha Hb H. pose proof (u32_change a b Ha) as E. rewrite H, Z.add_0_r, u32_small in E by done. done. Qed.

Lemma u16_same a b : 0 <= a < 2 ^ 16 -> 0 <= b < 2 ^ 16 -> u16 (a - b) = 0 -> a = b.
Proof. intros Ha Hb H. pose proof (u16_change a b Ha) as E. rewrite H, Z.add_0_r, u16_small in E by done. done. Qed.

(** ** The flags of TCP *)

(** A packet that may be compressed. *)
Definition flags_ok (f : Z) : Prop := 0 <= f < 256 /\ Z.land f 23 = TCP_ACK.

Definition bytes256 : list Z := Z.of_nat <$> seq 0 256.

Lemma elem_bytes256 f : 0 <= f < 256 -> In f bytes256.
Proof.
  intros Hf. apply list_elem_of_In, list_elem_of_fmap. exists (Z.to_nat f). rewrite Z2Nat.id by lia. split; [done|].
  apply list_elem_of_In, in_seq. lia.
Qed.

Definition urg_bit (f : Z) : bool := negb (Z.land f TCP_URG =? 0).
Definition psh_bit (f : Z) : bool := negb (Z.land f TCP_PSH =? 0).

Definition check_flags (f g : Z) : bool :=
  negb ((Z.land f 23 =? TCP_ACK) && (Z.land g 23 =? TCP_ACK) && (Z.land f 192 =? Z.land g 192)) ||
  (set_bit (set_bit g TCP_PSH (psh_bit f)) TCP_URG (urg_bit f) =? f) &&
  (negb (eqb (urg_bit f) (urg_bit g)) || (set_bit g TCP_PSH (psh_bit f) =? f)).

Lemma check_flags_all : forallb (fun f => forallb (check_flags f) bytes256) bytes256 = true.
Proof. vm_compute. reflexivity. Qed.

Lemma flags_roundtrip f g :
  flags_ok f -> flags_ok g -> Z.land f 192 = Z.land g 192 ->
  set_bit (set_bit g TCP_PSH (psh_bit f)) TCP_URG (urg_bit f) = f /\
  (urg_bit f = urg_bit g -> set_bit g TCP_PSH (psh_bit f) = f).
Proof.
  intros [Hf Hfa] [Hg Hga] Hr. pose proof (proj1 (forallb_forall _ _) check_flags_all f (elem_bytes256 f Hf)) as H.
  pose proof (proj1 (forallb_forall _ _) H g (elem_bytes256 g Hg)) as Hc. unfold check_flags in Hc.
  rewrite Hfa, Hga, Hr, !Z.eqb_refl in Hc. cbn [andb negb orb] in Hc. apply andb_true_iff in Hc as [H1 H2].
  split; [by apply Z.eqb_eq|]. intros E. rewrite E, eqb_reflx in H2. cbn [negb orb] in H2. by apply Z.eqb_eq.
Qed.

(** ** Changes of the headers *)

Definition th_ok (t : tcphdr) : Prop :=
  0 <= th_seq t < 2 ^ 32 /\ 0 <= th_ack t < 2 ^ 32 /\ 0 <= th_win t < 2 ^ 16 /\ 0 <= th_sum t < 2 ^ 16 /\
  0 <= th_urp t < 2 ^ 16 /\ flags_ok (th_flags t) /\ th_off t = 5 + Z.of_nat (length (th_opt t)).

Definition mask (u w a s : bool) : Z :=
  Z.lor (Z.lor (Z.lor (if u then NEW_U else 0) (if w then NEW_W else 0)) (if a then NEW_A else 0)) (if s then NEW_S else 0).

(** What vj_changes found: which of the four numbers changed, and their codes. *)
Lemma vj_changes_spec h o cp changes ds da :
  th_ok (hth h) -> th_ok (hth o) -> vj_changes h o = Some (cp, changes, ds, da) ->
  let t := hth h in let ot := hth o in
  exists w a s, changes = mask (urg_bit (th_flags t)) w a s /\
    cp = (if urg_bit (th_flags t) then ENCODEZ (th_urp t) else []) ++
         (if w then ENCODE (u16 (th_win t - th_win ot)) else []) ++
         (if a then ENCODE da else []) ++ (if s then ENCODE ds else []) /\
    (urg_bit (th_flags t) = false -> th_urp t = th_urp ot) /\
    (if w then 0 < u16 (th_win t - th_win ot) else th_win t = th_win ot) /\
    da = u32 (th_ack t - th_ack ot) /\ ds = u32 (th_seq t - th_seq ot) /\ da <= 65535 /\ ds <= 65535 /\
    (if a then 0 < da else da = 0) /\ (if s then 0 < ds else ds = 0).
Proof.
  intros (Hs & Ha & Hw & _ & Hu & _) (Hs' & Ha' & Hw' & _ & Hu' & _) H. cbv zeta. unfold vj_changes in H.
  fold (urg_bit (th_flags (hth h))) in H.
  pose proof (u16_range (th_win (hth h) - th_win (hth o))). pose proof (u32_range (th_ack (hth h) - th_ack (hth o))).
  pose proof (u32_range (th_seq (hth h) - th_seq (hth o))).
  assert (exists bu mu, (if urg_bit (th_flags (hth h)) then Some (ENCODEZ (th_urp (hth h)), NEW_U)
     else if negb (th_urp (hth h) =? th_urp (hth o)) then None else Some ([], 0)) = Some (bu, mu) /\
     bu = (if urg_bit (th_flags (hth h)) then ENCODEZ (th_urp (hth h)) else []) /\
     mu = (if urg_bit (th_flags (hth h)) then NEW_U else 0) /\
     (urg_bit (th_flags (hth h)) = false -> th_urp (hth h) = th_urp (hth o))) as (bu & mu & E & -> & -> & Hurp).
  { destruct (urg_bit _); [by eexists _, _|]. destruct (Z.eqb_spec (th_urp (hth h)) (th_urp (hth o))); [by eexists _, _|done]. }
  rewrite E in H. clear E.
  set (dw := u16 _) in *. set (a := u32 (th_ack _ - _)) in *. set (sq := u32 (th_seq _ - _)) in *.
  destruct (Z.ltb_spec 65535 a) as [|Hla]; [by destruct (negb (dw =? 0))|].
  destruct (Z.ltb_spec 65535 sq) as [|Hls]; [by destruct (negb (dw =? 0)), (negb (a =? 0))|].
  exists (negb (dw =? 0)), (negb (a =? 0)), (negb (sq =? 0)).
  assert (dw = 0 -> th_win (hth h) = th_win (hth o)) by (apply u16_same; lia).
  destruct (Z.eqb_spec dw 0), (Z.eqb_spec a 0), (Z.eqb_spec sq 0); cbn [negb] in *; injection H as <- <- <- <-;
    split_and!; auto; lia.
Qed.

Lemma land_low c k : Z.land 15 k = k -> Z.land c k = Z.land (Z.land c 15) k.
Proof. intros H. by rewrite <- Z.land_assoc, H. Qed.

Lemma mask_bits u w a s :
  negb (Z.land (mask u w a s) NEW_U =? 0) = u /\ negb (Z.land (mask u w a s) NEW_W =? 0) = w /\
  negb (Z.land (mask u w a s) NEW_A =? 0) = a /\ negb (Z.land (mask u w a s) NEW_S =? 0) = s.
Proof. by destruct u, w, a, s. Qed.

(** Decoding the changes of one packet from the header of the one before. *)
Lemma decode_changes t u w a s flags' urp dw da ds changes rest :
  Z.land changes 15 = mask u w a s -> mask u w a s <> SPECIAL_I -> mask u w a s <> SPECIAL_D ->
  0 <= urp < 2 ^ 16 -> (if w then 0 < dw < 2 ^ 16 else dw = 0) -> (if a then 0 < da < 2 ^ 16 else da = 0) ->
  (if s then 0 < ds < 2 ^ 16 else ds = 0) ->
  0 <= th_win t < 2 ^ 16 -> 0 <= th_ack t < 2 ^ 32 -> 0 <= th_seq t < 2 ^ 32 ->
  flags' = set_bit (th_flags t) TCP_URG u ->
  forall iplen hlen,
  vj_apply t iplen hlen changes
    (((if u then ENCODEZ urp else []) ++ (if w then ENCODE dw else []) ++ (if a then ENCODE da else []) ++
      (if s then ENCODE ds else [])) ++ rest) =
  Ok (MkTh (th_sport t) (th_dport t) (u32 (th_seq t + ds)) (u32 (th_ack t + da)) (th_x2 t) (th_off t) flags'
        (u16 (th_win t + dw)) (th_sum t) (if u then urp else th_urp t) (th_opt t), rest).
Proof.
  intros Hm HI HD Hu Hw Ha Hs Ht1 Ht2 Ht3 -> iplen hlen. unfold vj_apply.
  change SPECIALS_MASK with 15. rewrite Hm.
  rewrite (proj2 (Z.eqb_neq _ _) HI), (proj2 (Z.eqb_neq _ _) HD).
  rewrite !(land_low changes NEW_U), !(land_low changes NEW_W), !(land_low changes NEW_A), !(land_low changes NEW_S) by done.
  rewrite Hm. destruct (mask_bits u w a s) as (-> & -> & -> & ->). rewrite <- !app_assoc. unfold DECODEU, DECODES, DECODEL.
  clear Hm HI HD. destruct u; [rewrite decode_ENCODEZ by lia|]; cbn [mbind outcome_bind app];
    (destruct w; [rewrite decode_ENCODE by lia|]); cbn [mbind outcome_bind app];
    (destruct a; [rewrite decode_ENCODE by lia|]); cbn [mbind outcome_bind app];
    (destruct s; [rewrite decode_ENCODE by lia|]); cbn [mbind outcome_bind app]; subst;
    rewrite ?Z.add_0_r, ?(u16_small urp), ?(u16_small (th_win t)), ?(u32_small (th_ack t)), ?(u32_small (th_seq t)) by lia;
    reflexivity.
Qed.

(** The change mask with the bits for the IP id, PUSH and the connection. *)
Definition full_mask (ch : Z) (i p c : bool) : Z :=
  let ch := if i then Z.lor ch NEW_I else ch in
  let ch := if p then Z.lor ch TCP_PUSH_BIT else ch in
  if c then Z.lor ch NEW_C else ch.

Lemma full_mask_bits ch i p c : 0 <= ch <= 15 ->
  let m := full_mask ch i p c in
  Z.land m 15 = ch /\ negb (Z.land m NEW_I =? 0) = i /\ negb (Z.land m TCP_PUSH_BIT =? 0) = p /\
  negb (Z.land m NEW_C =? 0) = c /\ u8 m = m.
Proof.
  intros Hch. assert (ch ∈ Z.of_nat <$> seq 0 16) as Hin.
  { apply list_elem_of_fmap. exists (Z.to_nat ch). split; [lia|]. apply list_elem_of_In, in_seq. lia. }
  cbn in Hin. repeat (apply elem_of_cons in Hin as [->|Hin]; [by destruct i, p, c|]). by apply elem_of_nil in Hin.
Qed.

Lemma mask_range u w a s : 0 <= mask u w a s <= 15.
Proof. destruct u, w, a, s; cbv; split; congruence. Qed.

Lemma vj_special_spec h o cp ch ds da cp2 ch2 :
  vj_special h o cp ch ds da = Some (cp2, ch2) ->
  (cp2 = cp /\ ch2 = ch /\ ch <> SPECIAL_I /\ ch <> SPECIAL_D) \/
  (cp2 = [] /\ ch2 = SPECIAL_I /\ ch = Z.lor NEW_S NEW_A /\ ds = da /\ ds = ip_len (hip o) - hdr_bytes h) \/
  (cp2 = [] /\ ch2 = SPECIAL_D /\ ch = NEW_S /\ ds = ip_len (hip o) - hdr_bytes h).
Proof.
  unfold vj_special. destruct (Z.eqb_spec ch 0) as [->|H0].
  { destruct (_ && _); [|done]. intros [= <- <-]. by left. }
  destruct (Z.eqb_spec ch SPECIAL_I) as [->|HI]; [done|]. destruct (Z.eqb_spec ch SPECIAL_D) as [->|HD]; [done|]. cbn [orb].
  destruct (Z.eqb_spec ch (Z.lor NEW_S NEW_A)) as [->|H1].
  { destruct (_ && _) eqn:Hb; intros [= <- <-]; [|by left]. apply andb_true_iff in Hb as [?%Z.eqb_eq ?%Z.eqb_eq]. auto 10. }
  destruct (Z.eqb_spec ch NEW_S) as [->|H2].
  { destruct (_ =? _) eqn:Hb; intros [= <- <-]; [|by left]. apply Z.eqb_eq in Hb. auto 10. }
  intros [= <- <-]. by left.
Qed.

(** A packet whose changes the decompressor can see: the reserved bits are those of
    the packet before, and URG is not left over from it. *)
Definition visible_changes (h o : hdr) : Prop :=
  th_x2 (hth h) = th_x2 (hth o) /\ Z.land (th_flags (hth h)) 192 = Z.land (th_flags (hth o)) 192 /\
  (urg_bit (th_flags (hth h)) = false -> urg_bit (th_flags (hth o)) = false).

(** The TCP header is rebuilt from the changes. *)
Lemma vj_apply_ok h o cp ch ds da cp2 ch2 changes rest t0 :
  th_ok (hth h) -> th_ok (hth o) -> visible_changes h o ->
  vj_changes h o = Some (cp, ch, ds, da) -> vj_special h o cp ch ds da = Some (cp2, ch2) ->
  Z.land changes 15 = ch2 ->
  t0 = MkTh (th_sport (hth o)) (th_dport (hth o)) (th_seq (hth o)) (th_ack (hth o)) (th_x2 (hth o)) (th_off (hth o))
         (set_bit (th_flags (hth o)) TCP_PSH (psh_bit (th_flags (hth h)))) (th_win (hth o)) (th_sum (hth h))
         (th_urp (hth o)) (th_opt (hth o)) ->
  th_sport (hth h) = th_sport (hth o) -> th_dport (hth h) = th_dport (hth o) ->
  th_off (hth h) = th_off (hth o) -> th_opt (hth h) = th_opt (hth o) ->
  vj_apply t0 (ip_len (hip o)) (hdr_bytes h) changes (cp2 ++ rest) = Ok (hth h, rest).
Proof.
  intros Hh Ho (Hx2 & Hres & Hstale) Hch Hsp Hm Ht0 Hsport Hdport Hoff Hopt.
  destruct (vj_changes_spec h o cp ch ds da Hh Ho Hch) as (w & a & s & -> & -> & Hurp & Hw & Hda & Hds & Hla & Hls & Ha & Hs).
  pose proof Hh as (B1 & B2 & B3 & B4 & B5 & B6 & _). pose proof Ho as (D1 & D2 & D3 & D4 & D5 & D6 & _).
  destruct (flags_roundtrip _ _ B6 D6 Hres) as [Hf1 Hf2].
  pose proof (u16_range (th_win (hth h) - th_win (hth o))) as Hrw.
  assert (u32 (th_ack (hth o) + da) = th_ack (hth h)) as Eack by (rewrite Hda; by apply u32_change).
  assert (u32 (th_seq (hth o) + ds) = th_seq (hth h)) as Eseq by (rewrite Hds; by apply u32_change).
  assert (MkTh (th_sport (hth o)) (th_dport (hth o)) (th_seq (hth h)) (th_ack (hth h)) (th_x2 (hth o)) (th_off (hth o))
    (th_flags (hth h)) (th_win (hth h)) (th_sum (hth h)) (th_urp (hth h)) (th_opt (hth o)) = hth h) as Eh.
  { rewrite <- Hsport, <- Hdport, <- Hx2, <- Hoff, <- Hopt. by destruct (hth h). }
  assert (u16 (th_win (hth o) + u16 (th_win (hth h) - th_win (hth o))) = th_win (hth h)) as Ewin by (by apply u16_change).
  apply vj_special_spec in Hsp as [(-> & -> & HI & HD)|Hsp].
  - rewrite (decode_changes t0 (urg_bit (th_flags (hth h))) w a s (th_flags (hth h)) (th_urp (hth h))
      (u16 (th_win (hth h) - th_win (hth o))) da ds changes rest);
      subst t0; cbn [th_sport th_dport th_x2 th_off th_sum th_opt th_win th_ack th_seq th_flags th_urp]; try done; try (destruct w, a, s; lia).
    + replace (if urg_bit (th_flags (hth h)) then th_urp (hth h) else th_urp (hth o)) with (th_urp (hth h))
        by (destruct (urg_bit (th_flags (hth h))); auto).
      rewrite Ewin, Eack, Eseq. by rewrite Eh.
    + destruct w; [lia|]. rewrite Hw, Z.sub_diag. done.
  - assert (urg_bit (th_flags (hth h)) = false /\ w = false /\ s = true /\
      (ch2 = SPECIAL_I /\ a = true /\ ds = da /\ cp2 = [] \/ ch2 = SPECIAL_D /\ a = false /\ cp2 = []) /\
      ds = ip_len (hip o) - hdr_bytes h) as (Hu & -> & -> & Hcase & Hd).
    { destruct Hsp as [(-> & -> & Hmask & ? & ?)|(-> & -> & Hmask & ?)];
        destruct (urg_bit (th_flags (hth h))), w, a, s; try discriminate Hmask; split_and!; auto. }
    specialize (Hf2 ltac:(by rewrite Hu, Hstale)). unfold vj_apply. change SPECIALS_MASK with 15. rewrite Hm.
    destruct Hcase as [(-> & -> & Hsa & ->)|(-> & -> & ->)].
    + change (SPECIAL_I =? SPECIAL_I) with true. cbv match. rewrite <- Hd, (u32_small ds) by lia.
      subst t0. cbn [th_sport th_dport th_x2 th_off th_sum th_opt th_win th_ack th_seq th_flags th_urp app]. rewrite Eseq, Hsa, Eack, Hf2, <- Hw, <- (Hurp Hu).
      by rewrite Eh.
    + change (SPECIAL_D =? SPECIAL_I) with false. change (SPECIAL_D =? SPECIAL_D) with true. cbv match.
      subst t0. cbn [th_sport th_dport th_x2 th_off th_sum th_opt th_win th_ack th_seq th_flags th_urp app].
      replace (th_seq (hth o) + ip_len (hip o) - hdr_bytes h) with (th_seq (hth o) + ds) by lia.
      rewrite Eseq, Hf2, <- Hw, <- (Hurp Hu). rewrite Ha, Z.add_0_r, u32_small in Eack by done. rewrite Eack. by rewrite Eh.
Qed.

(** ** Headers and packets that can go through *)

(** A well-formed header with a correct IP checksum, of a packet of [n] data bytes. *)
Definition hdr_ok (h : hdr) (n : Z) : Prop :=
  ip_v (hip h) = 4 /\ ip_hl (hip h) = 5 + Z.of_nat (length (ip_opt (hip h))) /\ ip_hl (hip h) <= 15 /\
  th_off (hth h) <= 15 /\ 0 <= ip_id (hip h) < 2 ^ 16 /\ ip_p (hip h) = IPPROTO_TCP /\
  ip_len (hip h) = hdr_bytes h + n /\ 0 <= n /\ hdr_bytes h + n < 2 ^ 16 /\
  ip_sum (hip h) = ip_checksum (hip h) /\ th_ok (hth h).

Lemma same_conn_true h o :
  same_conn h o = true -> ip_src (hip h) = ip_src (hip o) /\ ip_dst (hip h) = ip_dst (hip o) /\
    th_sport (hth h) = th_sport (hth o) /\ th_dport (hth h) = th_dport (hth o).
Proof. unfold same_conn. rewrite !andb_true_iff, !Z.eqb_eq. tauto. Qed.

Lemma opt_same {A} (k : Z) (l l' : list A) `{!EqDecision A} :
  k = 5 + Z.of_nat (length l) -> k = 5 + Z.of_nat (length l') ->
  negb (5 <? k) || bool_decide (l = l') = true -> l = l'.
Proof.
  intros H1 H2 H. apply orb_true_iff in H as [H|H]; [|by apply bool_decide_eq_true in H].
  apply negb_true_iff, Z.ltb_ge in H. destruct l, l'; cbn [length] in *; try lia. done.
Qed.

Lemma comparable_true h o n n' :
  vj_comparable h o = true -> hdr_ok h n -> hdr_ok o n' ->
  ip_v (hip h) = ip_v (hip o) /\ ip_hl (hip h) = ip_hl (hip o) /\ ip_tos (hip h) = ip_tos (hip o) /\
  ip_off (hip h) = ip_off (hip o) /\ ip_ttl (hip h) = ip_ttl (hip o) /\ ip_p (hip h) = ip_p (hip o) /\
  th_off (hth h) = th_off (hth o) /\ ip_opt (hip h) = ip_opt (hip o) /\ th_opt (hth h) = th_opt (hth o) /\
  hdr_bytes h = hdr_bytes o.
Proof.
  intros H Hh Ho. unfold vj_comparable in H. rewrite !andb_true_iff, !Z.eqb_eq in H.
  destruct H as ((((((((H1 & H2) & H3) & H4) & H5) & H6) & H7) & H8) & H9).
  destruct Hh as (_ & Ehl & _ & _ & _ & _ & _ & _ & _ & _ & (_ & _ & _ & _ & _ & _ & Eoff)).
  destruct Ho as (_ & Ehl' & _ & _ & _ & _ & _ & _ & _ & _ & (_ & _ & _ & _ & _ & _ & Eoff')).
  apply (opt_same _ _ _ Ehl) in H8; [|by rewrite H2]. apply (opt_same _ _ _ Eoff) in H9; [|by rewrite H7].
  unfold hdr_bytes. rewrite H2, H7. tauto.
Qed.

(** From the bytes of the changes, the TCP header and the IP id are read back. *)
Lemma vj_decode_ok h o n n' cp changes c rest :
  hdr_ok h n -> hdr_ok o n' -> same_conn h o = true -> visible_changes h o -> vj_encode h o = Some (cp, changes) ->
  let sum := th_sum (hth h) in let m := if (c : bool) then Z.lor changes NEW_C else changes in
  u8 m = m /\ negb (Z.land m NEW_C =? 0) = c /\
  vj_decode o (hdr_bytes o) m ([u8 (Z.shiftr sum 8); u8 sum] ++ cp ++ rest) = Ok (hth h, ip_id (hip h), rest).
Proof.
  intros Hh Ho Hconn Hvis He. cbv zeta. unfold vj_encode in He.
  destruct (vj_comparable h o) eqn:Hcmp; [|done]. cbn [negb] in He.
  destruct (vj_changes h o) as [[[[cp0 ch] ds] da]|] eqn:Hch; [|done].
  destruct (vj_special h o cp0 ch ds da) as [[cp2 ch2]|] eqn:Hsp; [|done].
  destruct (comparable_true h o n n' Hcmp Hh Ho) as (_ & _ & _ & _ & _ & _ & Eoff & _ & Etopt & Ebytes).
  destruct (same_conn_true h o Hconn) as (_ & _ & Esp & Edp).
  pose proof Hh as (_ & _ & _ & _ & Hid & _ & _ & _ & _ & _ & Hth). pose proof Ho as (_ & _ & _ & _ & Hid' & _ & _ & _ & _ & _ & Hoth).
  assert (0 <= ch2 <= 15) as Hch2.
  { destruct (vj_changes_spec h o cp0 ch ds da Hth Hoth Hch) as (w & a & s & -> & _).
    destruct (vj_special_spec _ _ _ _ _ _ _ _ Hsp) as [(_ & -> & _)|[(_ & -> & _)|(_ & -> & _)]]; [apply mask_range|by cbv|by cbv]. }
  set (di := u16 (ip_id (hip h) - ip_id (hip o))) in *. set (i := negb (di =? 1)) in *.
  assert (cp = cp2 ++ (if i then ENCODEZ di else []) /\
          changes = full_mask ch2 i (psh_bit (th_flags (hth h))) false) as [-> ->].
  { destruct i; injection He as <- <-; [done|]. by rewrite app_nil_r. }
  replace (if c then Z.lor (full_mask ch2 i (psh_bit (th_flags (hth h))) false) NEW_C
           else full_mask ch2 i (psh_bit (th_flags (hth h))) false) with (full_mask ch2 i (psh_bit (th_flags (hth h))) c) by (by destruct c).
  destruct (full_mask_bits ch2 i (psh_bit (th_flags (hth h))) c Hch2) as (M1 & M2 & M3 & M4 & M5).
  split; [done|]. split; [done|]. unfold vj_decode. cbn [app next_byte mbind outcome_bind].
  rewrite bytes_of16 by apply Hth. rewrite M3. rewrite <- app_assoc, <- Ebytes.
  rewrite (vj_apply_ok h o cp0 ch ds da cp2 ch2 _ _ _ Hth Hoth Hvis Hch Hsp M1 eq_refl Esp Edp Eoff Etopt).
  cbn [mbind outcome_bind]. rewrite M2. unfold DECODES. pose proof (u16_range (ip_id (hip h) - ip_id (hip o))).
  unfold i. destruct (Z.eqb_spec di 1) as [E|E]; cbn [negb].
  - cbn [app mbind outcome_bind]. rewrite <- E. unfold di. by rewrite u16_change.
  - rewrite decode_ENCODEZ by (unfold di; lia). cbn [mbind outcome_bind]. unfold di. by rewrite u16_change.
Qed.

Lemma set_ip_same h o n n' :
  vj_comparable h o = true -> hdr_ok h n -> hdr_ok o n' -> same_conn h o = true ->
  let i := set_ip (hip o) (ip_len (hip h)) (ip_id (hip h)) 0 in
  set_ip i (ip_len (hip h)) (ip_id (hip h)) (ip_checksum i) = hip h.
Proof.
  intros Hcmp Hh Ho Hconn. cbv zeta.
  destruct (comparable_true h o n n' Hcmp Hh Ho) as (E1 & E2 & E3 & E4 & E5 & E6 & _ & E7 & _ & _).
  destruct (same_conn_true h o Hconn) as (E8 & E9 & _).
  assert (set_ip (hip o) (ip_len (hip h)) (ip_id (hip h)) (ip_sum (hip h)) = hip h) as E.
  { unfold set_ip. rewrite <- E1, <- E2, <- E3, <- E4, <- E5, <- E6, <- E7, <- E8, <- E9. by destruct (hip h). }
  replace (ip_checksum (set_ip (hip o) (ip_len (hip h)) (ip_id (hip h)) 0)) with (ip_checksum (hip h))
    by (by rewrite <- E at 1).
  destruct Hh as (_ & _ & _ & _ & _ & _ & _ & _ & _ & Hsum & _). rewrite <- Hsum. exact E.
Qed.

(** The slot and the flags that a compressed packet selects at the receiver. *)
Definition selected (r : vjcompress) (c : bool) (id : Z) : vjcompress :=
  if c then set_last_recv (clear_toss r) id else r.

Lemma vj_uncompress_tcp_ok h o n n' cp changes c id data k r x :
  hdr_ok h (Z.of_nat (length data)) -> n = Z.of_nat (length data) -> hdr_ok o n' -> same_conn h o = true ->
  visible_changes h o -> vj_encode h o = Some (cp, changes) -> 0 <= id < MAX_SLOTS ->
  (c = false -> Z.land (vflags r) VJF_TOSS = 0 /\ last_recv r = id) ->
  rstate r !! id = Some x -> cs_hdr x = o -> cs_hlen x = hdr_bytes o ->
  let head := (if c then [u8 (Z.lor changes NEW_C); u8 id] else [u8 changes]) ++
              [u8 (Z.shiftr (th_sum (hth h)) 8); u8 (th_sum (hth h))] ++ cp in
  Z.of_nat (length head) < 2 ^ 16 ->
  vj_uncompress_tcp r (MkFrame (head ++ take k data) [] (drop k data)) true =
  Ok (Z.of_nat (length head), Some (h, data),
      set_rstate (selected r c id) (<[id := set_cs_hdr x h]> (rstate r))).
Proof.
  intros Hh -> Ho Hconn Hvis He Hid Hc Hx Hxo Hxl head Hhead.
  destruct (vj_decode_ok h o _ n' cp changes c (take k data) Hh Ho Hconn Hvis He) as (M5 & M4 & Hdec).
  assert (vj_comparable h o = true) as Hcmp by (unfold vj_encode in He; by destruct (vj_comparable h o)).
  set (tail := [u8 (Z.shiftr (th_sum (hth h)) 8); u8 (th_sum (hth h))] ++ cp) in *.
  unfold vj_uncompress_tcp. cbn [fbytes fbehind frest]. rewrite app_nil_r.
  assert (rstate (selected r c id) = rstate r /\ last_recv (selected r c id) = id) as [Hrs Hlr]
    by (destruct c; [done|by destruct (Hc eq_refl)]).
  set (m := if c then Z.lor changes NEW_C else changes) in *.
  replace (head ++ take k data) with ((m :: (if c then [id] else [])) ++ tail ++ take k data).
  2: { unfold head, m in *. destruct c; cbn [app]; rewrite M5, ?(u8_small id) by (unfold MAX_SLOTS in Hid; lia); done. }
  cbn [app next_byte mbind outcome_bind]. rewrite M4.
  assert ((if c then '(cid, cp0) ← next_byte ((if c then [id] else []) ++ tail ++ take k data);
             if MAX_SLOTS <=? cid then Ok (None, cp0) else Ok (Some (set_last_recv (clear_toss r) cid), cp0)
           else if negb (Z.land (vflags r) VJF_TOSS =? 0) then Ok (None, (if c then [id] else []) ++ tail ++ take k data)
                else Ok (Some r, (if c then [id] else []) ++ tail ++ take k data))
          = Ok (Some (selected r c id), tail ++ take k data)) as E.
  { destruct c; cbn [app next_byte mbind outcome_bind selected].
    - by rewrite (proj2 (Z.leb_gt _ _)) by lia.
    - destruct (Hc eq_refl) as [-> _]. done. }
  rewrite E. cbn [mbind outcome_bind]. rewrite Hrs, Hlr, Hx. cbn [from_opt mbind outcome_bind]. rewrite Hxo, Hxl.
  rewrite app_assoc in Hdec. fold tail in Hdec. rewrite Hdec. cbn [mbind outcome_bind].
  set (L := Z.of_nat (length head)) in *.
  assert (Z.of_nat (length (m :: (if c then [id] else []) ++ tail ++ take k data)) = L + Z.of_nat (length (take k data))) as Elen.
  { unfold L, head, tail. destruct c; cbn [length app]; rewrite ?length_app; cbn [length]; lia. }
  rewrite Elen. replace (L + Z.of_nat (length (take k data)) - Z.of_nat (length (take k data))) with L by lia.
  rewrite u16_small by (unfold L in *; lia). rewrite (proj2 (Z.ltb_ge _ _)) by lia.
  assert (u16 (Z.of_nat (length (m :: ((if c then [id] else []) ++ tail ++ take k data) ++ drop k data)) - L + hdr_bytes o)
          = ip_len (hip h)) as Elen2.
  { rewrite app_comm_cons, length_app, Nat2Z.inj_add, Elen.
    destruct (comparable_true h o _ n' Hcmp Hh Ho) as (_ & _ & _ & _ & _ & _ & _ & _ & _ & <-).
    pose proof (take_drop k data) as Hd. apply (f_equal length) in Hd. rewrite length_app in Hd.
    destruct Hh as (_ & Hhl & _ & _ & _ & _ & Hl & _ & Hlt & _ & Hth). rewrite u16_small; [lia|].
    assert (0 <= hdr_bytes h). { unfold hdr_bytes. apply Z.shiftl_nonneg. destruct Hth as (_ & _ & _ & _ & _ & _ & ->). lia. } lia. }
  rewrite Elen2. rewrite (set_ip_same h o _ n' Hcmp Hh Ho Hconn).
  replace (MkHdr (hip h) (hth h)) with h by (by destruct h).
  replace (drop (Z.to_nat L) (m :: (if c then [id] else []) ++ tail ++ take k data)) with (take k data).
  2: { replace (m :: (if c then [id] else []) ++ tail ++ take k data) with ((m :: (if c then [id] else []) ++ tail) ++ take k data)
         by (cbn; by rewrite <- app_assoc).
       rewrite drop_app_length'; [done|]. unfold L, head, tail. destruct c; cbn [length app]; rewrite Nat2Z.id; done. }
  by rewrite take_drop.
Qed.

(** ** The ring of connections *)

(** The slots [l], linked from [p], lead to [q]. *)
Fixpoint links (ts : gmap Z cstate) (p : Z) (l : list Z) (q : Z) : Prop :=
  match l with
  | [] => p = q
  | a :: l => p = a /\ exists x, ts !! a = Some x /\ links ts (cs_next x) l q
  end.

Lemma links_app ts p l1 l2 q : links ts p (l1 ++ l2) q <-> exists r, links ts p l1 r /\ links ts r l2 q.
Proof.
  revert p. induction l1 as [|a l1 IH]; intros p; cbn.
  - split; [intros H; by exists p|intros (r & -> & H); done].
  - setoid_rewrite IH. naive_solver.
Qed.

Lemma links_frame ts ts' p l q :
  (forall a, a ∈ l -> cs_next <$> ts' !! a = cs_next <$> ts !! a) -> links ts p l q -> links ts' p l q.
Proof.
  revert p. induction l as [|a l IH]; intros p Hf; cbn; [done|]. intros (-> & x & Hx & H). split; [done|].
  specialize (Hf a ltac:(left)) as Ha. rewrite Hx in Ha. destruct (ts' !! a) as [y|] eqn:Hy; [|done].
  exists y. split; [done|]. cbn in Ha. injection Ha as ->. apply IH; [|done]. intros b Hb. apply Hf. by right.
Qed.

Lemma links_put ts p l q a y : a ∉ l -> links ts p l q -> links (<[a := y]> ts) p l q.
Proof. intros Ha. apply links_frame. intros b Hb. by rewrite lookup_insert_ne by (by intros ->). Qed.

(** [L ++ [z]] are the slots in the order of their use, [z] the oldest. *)
Definition ring (ts : gmap Z cstate) (L : list Z) (z : Z) : Prop :=
  L <> [] /\ NoDup (L ++ [z]) /\ links ts (hd z L) (L ++ [z]) (hd z L).

(** What the slots hold, links aside. *)
Definition slot (x : cstate) : Z * hdr := (cs_id x, cs_hdr x).
Definition same_slots (ts ts' : gmap Z cstate) : Prop := forall i, slot <$> ts' !! i = slot <$> ts !! i.

Lemma vj_search_ok ts h A cs B z q n :
  links ts cs (cs :: B ++ [z]) q -> NoDup (cs :: B ++ [z]) -> (length B < n)%nat ->
  (exists B1 lcs c B2 x, vj_search n ts h z cs = Ok (true, lcs, c) /\ A ++ cs :: B ++ [z] = B1 ++ lcs :: c :: B2 /\
     ts !! c = Some x /\ same_conn h (cs_hdr x) = true) \/
  (exists B1 lcs, vj_search n ts h z cs = Ok (false, lcs, z) /\ A ++ cs :: B ++ [z] = B1 ++ [lcs; z]).
Proof.
  revert A cs B. induction n as [|n IH]; intros A cs B Hl Hnd Hn; [lia|].
  destruct Hl as (_ & x & Hx & Hl). cbn [vj_search]. rewrite Hx. cbn [from_opt mbind outcome_bind].
  destruct B as [|b B]; cbn [app] in Hl.
  - destruct Hl as (-> & y & Hy & _). rewrite Hy. cbn [from_opt mbind outcome_bind].
    destruct (same_conn h (cs_hdr y)) eqn:E; [left|right]; [by exists A, cs, z, [], y|]. rewrite Z.eqb_refl. by exists A, cs.
  - pose proof Hl as (Hnx & y & Hy & _). rewrite Hnx in Hl |- *. rewrite Hy. cbn [from_opt mbind outcome_bind].
    destruct (same_conn h (cs_hdr y)) eqn:E; [left; by exists A, cs, b, (B ++ [z]), y|].
    apply NoDup_cons in Hnd as [_ Hnd]. cbn [app] in Hnd. pose proof Hnd as Hnd'. apply NoDup_cons in Hnd' as [Hb _].
    destruct (Z.eqb_spec b z) as [->|_]; [exfalso; apply Hb; rewrite elem_of_app; right; left|].
    destruct (IH (A ++ [cs]) b B Hl Hnd ltac:(cbn in Hn; lia)) as [(B1 & lcs & c & B2 & y' & -> & Eq & Hy' & Hc)|(B1 & lcs & -> & Eq)];
      rewrite <- app_assoc in Eq; [left; by exists B1, lcs, c, B2, y'|right; by exists B1, lcs].
Qed.

(** Rotation: the oldest slot becomes the newest. *)
Lemma ring_rotate ts L lcs z : ring ts (L ++ [lcs]) z -> ring ts (z :: L) lcs.
Proof.
  intros (_ & Hnd & Hl). split; [done|]. cbn [hd app].
  apply links_app in Hl as (r & H1 & H2). destruct H2 as (-> & x & Hx & H2). cbn in H2. split.
  - by rewrite (Permutation_app_comm (L ++ [lcs]) [z]) in Hnd.
  - split; [done|]. exists x. split; [done|]. by rewrite H2.
Qed.

(** A slot in the middle moves to the front. *)
Lemma ring_to_front c L1 lcs cs L2 z :
  ring (tstate c) (L1 ++ lcs :: cs :: L2) z -> last_cs c = z ->
  exists ts', vj_to_front c lcs cs = Ok (set_tstate c ts') /\ ring ts' (cs :: L1 ++ lcs :: L2) z /\ same_slots (tstate c) ts'.
Proof.
  intros (_ & Hnd & Hl) Hz. unfold vj_to_front. rewrite Hz.
  assert (NoDup (cs :: lcs :: z :: L1 ++ L2)) as Hd.
  { revert Hnd. rewrite <- app_assoc. cbn [app]. rewrite <- Permutation_middle, <- Permutation_middle.
    rewrite (app_assoc L1 L2), (Permutation_app_comm (L1 ++ L2) [z]). cbn [app]. intros Hd. revert Hd.
    by rewrite (Permutation_swap lcs cs). }
  pose proof Hd as Hd'. apply NoDup_cons in Hd' as [Hcs Hd']. apply NoDup_cons in Hd' as [Hlcs Hd']. apply NoDup_cons in Hd' as [Hzn Hd'].
  rewrite !not_elem_of_cons, !not_elem_of_app in *. destruct Hcs as (Hn1 & Hn2 & Hn3 & Hn4), Hlcs as (Hn5 & Hn6 & Hn7), Hzn as (Hn8 & Hn9).
  rewrite (proj2 (Z.eqb_neq cs z)) by done.
  set (hd0 := hd z (L1 ++ lcs :: cs :: L2)) in *.
  rewrite <- app_assoc in Hl. cbn [app] in Hl. apply links_app in Hl as (r & H1 & -> & xl & Hxl & H2).
  destruct H2 as (Hnl & xc & Hxc & H2). apply links_app in H2 as (r' & H2 & -> & xz & Hxz & Hq). cbn in Hq.
  set (ts := tstate c) in *. set (ts1 := <[lcs := set_cs_next xl (cs_next xc)]> ts).
  assert (ts1 !! z = Some xz) as E1 by (unfold ts1; by rewrite lookup_insert_ne by congruence).
  assert (ts1 !! cs = Some xc) as E2 by (unfold ts1; by rewrite lookup_insert_ne by congruence).
  set (ts2 := <[cs := set_cs_next xc (cs_next xz)]> ts1).
  assert (ts2 !! z = Some xz) as E3 by (unfold ts2; by rewrite lookup_insert_ne by congruence).
  rewrite Hxc, Hxl. cbn [from_opt mbind outcome_bind]. fold ts1. rewrite E1, E2. cbn [from_opt mbind outcome_bind]. fold ts2.
  rewrite E3. cbn [from_opt mbind outcome_bind]. eexists. split; [done|]. set (ts3 := <[z := set_cs_next xz cs]> ts2).
  assert (forall p l q, cs ∉ l -> lcs ∉ l -> z ∉ l -> links ts p l q -> links ts3 p l q) as Hfr
    by (intros p l q ? ? ? ?; by repeat apply links_put).
  split; [split; [done|split]|].
  - revert Hnd. cbn [app]. rewrite <- !app_assoc. cbn [app]. intros Hnd. revert Hnd.
    by rewrite <- !Permutation_middle, Permutation_swap.
  - cbn [hd app links]. split; [done|]. exists (set_cs_next xc (cs_next xz)). split.
    { unfold ts3, ts2. by rewrite lookup_insert_ne, lookup_insert_eq by congruence. }
    cbn [cs_next set_cs_next]. rewrite Hq, <- app_assoc. cbn [app]. apply links_app. exists lcs. split; [by apply Hfr|].
    split; [done|]. exists (set_cs_next xl (cs_next xc)). split.
    { unfold ts3, ts2, ts1. by rewrite !lookup_insert_ne, lookup_insert_eq by congruence. }
    cbn [cs_next set_cs_next]. apply links_app. exists z. split; [by apply Hfr|]. split; [done|].
    exists (set_cs_next xz cs). unfold ts3. by rewrite lookup_insert_eq.
  - intros i. unfold ts3, ts2, ts1. fold ts.
    destruct (decide (i = z)) as [->|]; [by rewrite lookup_insert_eq, Hxz|rewrite lookup_insert_ne by done].
    destruct (decide (i = cs)) as [->|]; [by rewrite lookup_insert_eq, Hxc|rewrite lookup_insert_ne by done].
    destruct (decide (i = lcs)) as [->|]; [by rewrite lookup_insert_eq, Hxl|by rewrite lookup_insert_ne by done].
Qed.

(** The lookup of a connection: the ring stays a ring, the slots keep what they
    hold, and a slot that is found belongs to the connection. *)
Lemma vj_find_ok c h L z :
  ring (tstate c) L z -> last_cs c = z -> (length L < Z.to_nat MAX_SLOTS)%nat ->
  exists found cs c' x L' z', vj_find c h = Ok (found, cs, c') /\ ring (tstate c') L' z' /\ last_cs c' = z' /\
    length L' = length L /\
    same_slots (tstate c) (tstate c') /\ tstate c' !! cs = Some x /\ (found = true -> same_conn h (cs_hdr x) = true) /\
    c' = set_last_cs (set_tstate c (tstate c')) z'.
Proof.
  intros HR Hz HL. pose proof HR as (Hne & Hnd & Hl). unfold vj_find. rewrite Hz.
  apply links_app in Hl as (r & Hl1 & -> & xz & Hxz & Hq). cbn in Hq. rewrite Hxz. cbn [from_opt mbind outcome_bind]. rewrite Hq.
  destruct L as [|a L]; [done|]. cbn [hd] in *. pose proof Hl1 as (_ & x & Hx & _). rewrite Hx. cbn [from_opt mbind outcome_bind].
  destruct (same_conn h (cs_hdr x)) eqn:Hc.
  { exists true, a, c, x, (a :: L), z. split_and!; try done. by destruct c; cbn in *; subst. }
  assert (links (tstate c) a (a :: L ++ [z]) a) as Hl.
  { change (a :: L ++ [z]) with ((a :: L) ++ [z]). apply links_app. exists z. split; [done|]. split; [done|]. by exists xz. }
  destruct (vj_search_ok (tstate c) h [] a L z a (Z.to_nat MAX_SLOTS) Hl Hnd ltac:(cbn in HL; lia))
    as [(B1 & lcs & cs & B2 & y & -> & Eq & Hy & Hyc)|(B1 & lcs & -> & Eq)]; cbn [mbind outcome_bind app] in *.
  - destruct B2 as [|b B2 _] using rev_ind.
    + (* the oldest one *)
      assert (a :: L = B1 ++ [lcs] /\ z = cs) as [EL ->].
      { replace (B1 ++ [lcs; cs]) with ((B1 ++ [lcs]) ++ [cs]) in Eq by (by rewrite <- app_assoc).
        change (a :: L ++ [z]) with ((a :: L) ++ [z]) in Eq. by apply app_inj_tail in Eq. }
      unfold vj_to_front. rewrite Hz, Z.eqb_refl. cbn [mbind outcome_bind].
      eexists true, cs, _, y, (cs :: B1), lcs. split_and!; try done.
      * rewrite EL in HR. by apply ring_rotate.
      * rewrite EL, length_app. cbn. lia.
    + assert (a :: L = B1 ++ lcs :: cs :: B2 /\ z = b) as [EL ->].
      { replace (B1 ++ lcs :: cs :: B2 ++ [b]) with ((B1 ++ lcs :: cs :: B2) ++ [b]) in Eq by (by rewrite <- app_assoc).
        change (a :: L ++ [z]) with ((a :: L) ++ [z]) in Eq. by apply app_inj_tail in Eq. }
      rewrite EL in HR. destruct (ring_to_front c B1 lcs cs B2 b HR Hz) as (ts' & -> & HR' & Hs). cbn [mbind outcome_bind].
      assert (exists y', ts' !! cs = Some y' /\ cs_hdr y' = cs_hdr y) as (y' & Hy' & Ehd).
      { specialize (Hs cs). rewrite Hy in Hs. destruct (ts' !! cs) as [y'|]; [|done]. exists y'. split; [done|]. unfold slot in Hs. cbn in Hs. congruence. }
      eexists true, cs, _, y', (cs :: B1 ++ lcs :: B2), b. split_and!; try done.
      * rewrite EL. cbn. rewrite !length_app. cbn. lia.
      * intros _. by rewrite Ehd.
      * by destruct c; cbn in *; subst.
  - assert (a :: L = B1 ++ [lcs]) as EL.
    { replace (B1 ++ [lcs; z]) with ((B1 ++ [lcs]) ++ [z]) in Eq by (by rewrite <- app_assoc).
      change (a :: L ++ [z]) with ((a :: L) ++ [z]) in Eq. by apply app_inj_tail in Eq as [? _]. }
    eexists false, z, _, xz, (z :: B1), lcs. split_and!; try done.
    + rewrite EL in HR. by apply ring_rotate.
    + rewrite EL, length_app. cbn. lia.
Qed.

(** ** A link: compressor, line without loss, decompressor *)

Definition vj_link (s r : vjcompress) (p : ippkt) : outcome (option (hdr * list Z) * vjcompress * vjcompress) :=
  '(o, s) ← vj_compress_tcp s p;
  match o with
  | VIp q => Ok (Some (phdr q, pdata q), s, r)
  | VUncompressed q =>
      '(res, q, r) ← vj_uncompress_uncomp r q;
      Ok (if res =? 0 then Some (phdr q, pdata q) else None, s, r)
  | VCompressed f => '(_, res, r) ← vj_uncompress_tcp r f true; Ok (res, s, r)
  end.

Fixpoint vj_run (s r : vjcompress) (ps : list ippkt) : outcome (list (option (hdr * list Z))) :=
  match ps with
  | [] => Ok []
  | p :: ps => '(q, s, r) ← vj_link s r p; qs ← vj_run s r ps; Ok (q :: qs)
  end.

(** No urgent data, reserved bits 0. *)
Definition plain (h : hdr) : Prop :=
  th_x2 (hth h) = 0 /\ Z.land (th_flags (hth h)) 192 = 0 /\ urg_bit (th_flags (hth h)) = false.

Definition clean (h : hdr) : Prop := plain h /\ exists n, hdr_ok h n.

(** The packets that the compressor does not pass on as they are. *)
Definition compressible (p : ippkt) : bool :=
  (ip_p (hip (phdr p)) =? IPPROTO_TCP) && (Z.land (ip_off (hip (phdr p))) 16383 =? 0) && (40 <=? tot_len p) &&
  (Z.land (th_flags (hth (phdr p))) 23 =? TCP_ACK).

Definition pkt_ok (p : ippkt) : Prop :=
  compressible p = true -> plain (phdr p) /\ hdr_ok (phdr p) (Z.of_nat (length (pdata p))).

Definition slot_synced (r : vjcompress) (i : Z) (v : Z * hdr) : Prop :=
  0 <= i < MAX_SLOTS /\ v.1 = i /\
  (v.2 = zero_hdr \/ clean v.2 /\ exists y, rstate r !! i = Some y /\ cs_hdr y = v.2 /\ cs_hlen y = hdr_bytes v.2).

Record sync (s r : vjcompress) : Prop := {
  sy_ring : exists L z, ring (tstate s) L z /\ last_cs s = z /\ (length L < Z.to_nat MAX_SLOTS)%nat;
  sy_slots : forall i v, slot <$> tstate s !! i = Some v -> slot_synced r i v;
  sy_rs : forall i, 0 <= i < MAX_SLOTS -> is_Some (rstate r !! i);
  sy_last : last_xmit s = 255 \/ last_xmit s = last_recv r /\ Z.land (vflags r) VJF_TOSS = 0 }.

Lemma toss_cleared f : Z.land (Z.land f (Z.lnot VJF_TOSS)) VJF_TOSS = 0.
Proof. by rewrite <- Z.land_assoc, Z.land_0_r. Qed.

Lemma visible_plain h o : plain h -> plain o -> visible_changes h o.
Proof. intros (A1 & A2 & A3) (B1 & B2 & B3). split; [by rewrite A1, B1|]. split; [by rewrite A2, B2|done]. Qed.

Lemma set_ip_p_twice h v : ip_p (hip h) = IPPROTO_TCP -> set_ip_p (set_ip_p h v) IPPROTO_TCP = h.
Proof. intros E. unfold set_ip_p. cbn. rewrite <- E. destruct h as [i t]. by destruct i. Qed.

(** Slot [i] of both ends holds [h]. *)
Lemma sync_store s r r' i x v h :
  sync s r -> tstate s !! i = Some x -> clean h ->
  (forall j, j <> i -> rstate r' !! j = rstate r !! j) ->
  (exists y, rstate r' !! i = Some y /\ cs_hdr y = h /\ cs_hlen y = hdr_bytes h) ->
  (v = 255 \/ v = last_recv r' /\ Z.land (vflags r') VJF_TOSS = 0) ->
  sync (set_last_xmit (set_tstate s (<[i := set_cs_hdr x h]> (tstate s))) v) r'.
Proof.
  intros [(L & z & HR & Hz & HL) Hsl Hrs _] Hx Hh Hoth Hy Hv. split; cbn.
  - exists L, z. split_and!; try done. destruct HR as (A1 & A2 & A3). split_and!; try done.
    eapply links_frame; [|exact A3]. intros a _. destruct (decide (i = a)) as [<-|]; [by rewrite lookup_insert_eq, Hx|by rewrite lookup_insert_ne].
  - intros j w Hj. destruct (decide (i = j)) as [<-|Hij].
    + rewrite lookup_insert_eq in Hj. injection Hj as <-. destruct (Hsl i (slot x)) as (B1 & B2 & _); [by rewrite Hx|].
      split; [done|]. split; [done|]. right. by split.
    + rewrite lookup_insert_ne in Hj by done. destruct (Hsl j w Hj) as (B1 & B2 & B3). split; [done|]. split; [done|].
      rewrite Hoth by congruence. done.
  - intros j Hj. destruct (decide (i = j)) as [<-|Hij]; [destruct Hy as (y & Hy & _); by exists y|]. rewrite Hoth by congruence. by apply Hrs.
  - done.
Qed.

Lemma sync_found s r s' L z :
  sync s r -> ring (tstate s') L z -> last_cs s' = z -> (length L < Z.to_nat MAX_SLOTS)%nat ->
  same_slots (tstate s) (tstate s') -> last_xmit s' = last_xmit s -> sync s' r.
Proof.
  intros [_ Hsl Hrs Hl] HR Hz HL Hs Hx. split; [by exists L, z| |done|by rewrite Hx].
  intros i v Hv. apply Hsl. by rewrite <- Hs.
Qed.

Lemma length_ENCODE n : (length (ENCODE n) <= 3)%nat.
Proof. unfold ENCODE. destruct (_ <=? _); cbn; lia. Qed.
Lemma length_ENCODEZ n : (length (ENCODEZ n) <= 3)%nat.
Proof. unfold ENCODEZ. destruct (_ || _); cbn; lia. Qed.

Lemma vj_encode_length h o cp ch :
  th_ok (hth h) -> th_ok (hth o) -> vj_encode h o = Some (cp, ch) -> (length cp <= 15)%nat.
Proof.
  intros Hh Ho H. unfold vj_encode in H. destruct (negb (vj_comparable h o)); [done|].
  destruct (vj_changes h o) as [[[[cp0 ch0] ds] da]|] eqn:Hc; [|done].
  destruct (vj_special h o cp0 ch0 ds da) as [[cp2 ch2]|] eqn:Hs; [|done].
  assert (length cp0 <= 12)%nat as H0.
  { destruct (vj_changes_spec h o cp0 ch0 ds da Hh Ho Hc) as (w & a & s & _ & -> & _). rewrite !length_app.
    pose proof (length_ENCODEZ (th_urp (hth h))). pose proof (length_ENCODE (u16 (th_win (hth h) - th_win (hth o)))).
    pose proof (length_ENCODE da). pose proof (length_ENCODE ds).
    destruct (urg_bit _), w, a, s; cbn [length]; lia. }
  assert (length cp2 <= 12)%nat by (destruct (vj_special_spec _ _ _ _ _ _ _ _ Hs) as [(-> & _)|[(-> & _)|(-> & _)]]; cbn; lia).
  pose proof (length_ENCODEZ (u16 (ip_id (hip h) - ip_id (hip o)))).
  destruct (negb (_ =? 1)); injection H as <- _; rewrite ?length_app; lia.
Qed.

Lemma hdr_bytes_bounds h n : hdr_ok h n -> Z.shiftl (ip_hl (hip h)) 2 + 20 <= hdr_bytes h <= 120 /\
  hdr_bytes h = Z.shiftl (ip_hl (hip h)) 2 + Z.shiftl (th_off (hth h)) 2.
Proof.
  intros (_ & Hhl & H15 & Ho15 & _ & _ & _ & _ & _ & _ & (_ & _ & _ & _ & _ & _ & Hoff)).
  unfold hdr_bytes. rewrite !Z.shiftl_mul_pow2 by lia. change (2 ^ 2) with 4. lia.
Qed.

(** An uncompressed packet puts the slot on both ends, whatever part of it the first
    buffer of the receiver holds besides the headers. *)
Lemma link_uncompressed s r p cs x :
  sync s r -> tstate s !! cs = Some x -> plain (phdr p) -> hdr_ok (phdr p) (Z.of_nat (length (pdata p))) ->
  exists s' r', vj_send_uncompressed s p cs = Ok (VUncompressed (MkPkt (set_ip_p (phdr p) cs) (pdata p) (plen p)), s') /\ 0 <= cs < MAX_SLOTS /\ sync s' r' /\
    forall pl, hdr_bytes (phdr p) <= pl -> vj_uncompress_uncomp r (MkPkt (set_ip_p (phdr p) cs) (pdata p) pl) = Ok (0, MkPkt (phdr p) (pdata p) pl, r').
Proof.
  intros Hsy Hx Hpl Hok. destruct (sy_slots _ _ Hsy cs (slot x)) as (Hcs & Hid & _); [by rewrite Hx|]. cbn in Hid.
  destruct (sy_rs _ _ Hsy cs Hcs) as [y Hy]. destruct (hdr_bytes_bounds _ _ Hok) as [[Hb1 Hb2] Hb3].
  assert (ip_p (hip (phdr p)) = IPPROTO_TCP) as Htcp by apply Hok. pose proof (set_ip_p_twice (phdr p) cs Htcp) as Etwice.
  set (c := clear_toss (set_last_recv r cs)). exists (set_last_xmit (set_tstate s (<[cs := set_cs_hdr x (phdr p)]> (tstate s))) cs),
    (set_rstate c (<[cs := MkCs (cs_next y) (hdr_bytes (phdr p)) (cs_id y) (phdr p)]> (rstate c))).
  split; [unfold vj_send_uncompressed; rewrite Hx; cbn [from_opt mbind outcome_bind]; by rewrite Hid|]. split; [done|]. split.
  - apply (sync_store s r); try done.
    + split; [done|]. by eexists.
    + intros j Hj. cbn. by rewrite lookup_insert_ne.
    + cbn. rewrite lookup_insert_eq. eexists. by split.
    + right. split; [done|]. apply toss_cleared.
  - intros pl Hlen. unfold vj_uncompress_uncomp. cbn [phdr pdata plen]. rewrite Etwice. cbn [set_ip_p hip ip_p ip_hl hth].
    rewrite (proj2 (Z.leb_gt MAX_SLOTS cs)), (proj2 (Z.ltb_ge pl _)), (proj2 (Z.ltb_ge pl _)), (proj2 (Z.ltb_ge MAX_HDR _)) by (unfold MAX_HDR; lia).
    cbn [orb]. fold c. change (rstate c) with (rstate r). rewrite Hy. cbn [from_opt mbind outcome_bind]. by rewrite Hb3.
Qed.

(** A compressed packet is rebuilt, from any buffers of which the first holds the [m] bytes
    of the compressed header. *)
Lemma link_compressed s r p cs x cp ch :
  sync s r -> tstate s !! cs = Some x -> same_conn (phdr p) (cs_hdr x) = true ->
  plain (phdr p) -> hdr_ok (phdr p) (Z.of_nat (length (pdata p))) -> vj_encode (phdr p) (cs_hdr x) = Some (cp, ch) ->
  exists f s' r' m, vj_send_compressed s p cs cp ch = Ok (VCompressed f, s') /\ sync s' r' /\ fbehind f = [] /\ (m <= length (fbytes f))%nat /\ (m <= 19)%nat /\
    forall f', fbehind f' = [] -> fbytes f' ++ frest f' = fbytes f ++ frest f -> (m <= length (fbytes f'))%nat ->
      exists n, vj_uncompress_tcp r f' true = Ok (n, Some (phdr p, pdata p), r').
Proof.
  intros Hsy Hx Hconn Hpl Hok He.
  destruct (sy_slots _ _ Hsy cs (slot x)) as (Hcs & Hid & Hslot); [by rewrite Hx|]. cbn in Hid, Hslot.
  destruct Hslot as [Hz|[[Hplo [n' Ho]] (y & Hy & Hyh & Hyl)]].
  { rewrite Hz in He. unfold vj_encode, vj_comparable in He. destruct Hok as (Hv & _). rewrite Hv in He. done. }
  pose proof Hok as (_ & _ & _ & _ & _ & _ & _ & _ & _ & _ & Hth). pose proof Ho as (_ & _ & _ & _ & _ & _ & _ & _ & _ & _ & Hoth).
  pose proof (vj_encode_length _ _ _ _ Hth Hoth He) as Hlen.
  unfold vj_send_compressed. rewrite Hx. cbn [from_opt mbind outcome_bind compressSlot set_tstate last_xmit]. rewrite Hid.
  set (c := (compressSlot s =? 0) || negb (last_xmit s =? cs)).
  assert (c = false -> Z.land (vflags r) VJF_TOSS = 0 /\ last_recv r = cs) as Hc.
  { unfold c. intros [_ Hcc]%orb_false_iff. apply negb_false_iff, Z.eqb_eq in Hcc.
    destruct (sy_last _ _ Hsy) as [E|[E ?]]; [unfold MAX_SLOTS in Hcs; lia|]. split; [done|congruence]. }
  assert (c = false -> last_xmit s = last_recv r) as Hlx.
  { unfold c. intros [_ Hcc]%orb_false_iff. apply negb_false_iff, Z.eqb_eq in Hcc.
    destruct (sy_last _ _ Hsy) as [E|[E _]]; [unfold MAX_SLOTS in Hcs; lia|done]. }
  set (k := Z.to_nat (plen p - hdr_bytes (phdr p))). clearbody c k.
  pose proof (fun k => vj_uncompress_tcp_ok (phdr p) (cs_hdr x) _ n' cp ch c cs (pdata p) k r y Hok eq_refl Ho Hconn
    (visible_plain _ _ Hpl Hplo) He Hcs Hc Hy Hyh Hyl) as Hun. cbv zeta in Hun.
  set (head := (if c then [u8 (Z.lor ch NEW_C); u8 cs] else [u8 ch]) ++ [u8 (Z.shiftr (th_sum (hth (phdr p))) 8); u8 (th_sum (hth (phdr p)))] ++ cp) in *.
  assert (length head <= 19)%nat as Hhead by (unfold head; rewrite !length_app; destruct c; cbn [length]; lia).
  assert (forall f', fbehind f' = [] -> fbytes f' ++ frest f' = (head ++ take k (pdata p)) ++ drop k (pdata p) -> (length head <= length (fbytes f'))%nat ->
    exists n, vj_uncompress_tcp r f' true = Ok (n, Some (phdr p, pdata p), set_rstate (selected r c cs) (<[cs := set_cs_hdr y (phdr p)]> (rstate r)))) as Hany.
  { intros [b1 b2 b3] Eb E Hb. cbn in *. subst b2. rewrite <- app_assoc, take_drop in E. rewrite <- (take_drop (length head) b1), <- app_assoc in E.
    apply app_inj_1 in E as [E1 E2]; [|rewrite length_take; lia]. eexists. rewrite <- (take_drop (length head) b1), E1.
    replace (drop (length head) b1) with (take (length (drop (length head) b1)) (pdata p)) by (by rewrite <- E2, take_app_length).
    replace b3 with (drop (length (drop (length head) b1)) (pdata p)) by (by rewrite <- E2, drop_app_length).
    apply Hun. lia. }
  assert (forall v r', v = last_recv r' -> Z.land (vflags r') VJF_TOSS = 0 -> rstate r' = <[cs := set_cs_hdr y (phdr p)]> (rstate r) ->
    sync (set_last_xmit (set_tstate s (<[cs := set_cs_hdr x (phdr p)]> (tstate s))) v) r') as Hst.
  { intros v r' Hv Ht Hr'. apply (sync_store s r); try done; rewrite ?Hr'.
    - split; [done|]. by eexists.
    - intros j Hj. by rewrite lookup_insert_ne.
    - rewrite lookup_insert_eq. eexists. split; [done|]. split; [done|]. cbn. rewrite Hyl.
      assert (vj_comparable (phdr p) (cs_hdr x) = true) as Hcmp by (unfold vj_encode in He; by destruct (vj_comparable _ _)).
      by destruct (comparable_true _ _ _ _ Hcmp Hok Ho) as (_ & _ & _ & _ & _ & _ & _ & _ & _ & ->).
    - right. done. }
  destruct c; cbn [selected] in Hany; eexists (MkFrame (head ++ take k (pdata p)) [] (drop k (pdata p))), _, _, (length head);
    (split; [reflexivity|]); (split; [|split; [done|]; split; [cbn; rewrite length_app; lia|]; split; [exact Hhead|exact Hany]]).
  - apply Hst; [done|cbn; apply toss_cleared|done].
  - destruct (Hc eq_refl) as [Ht _]. apply (Hst (last_xmit s)); [by apply Hlx|done|done].
Qed.

(** What the compressor makes of a packet, and what the other end makes of that. *)
Lemma vj_compress_ok s r p : sync s r -> pkt_ok p -> exists o s', vj_compress_tcp s p = Ok (o, s') /\
  match o with
  | VIp q => q = p /\ sync s' r
  | VUncompressed q => exists cs r', q = MkPkt (set_ip_p (phdr p) cs) (pdata p) (plen p) /\ 0 <= cs < MAX_SLOTS /\ sync s' r' /\ compressible p = true /\ hdr_bytes (phdr p) <= plen p /\
      forall pl, hdr_bytes (phdr p) <= pl -> vj_uncompress_uncomp r (MkPkt (set_ip_p (phdr p) cs) (pdata p) pl) = Ok (0, MkPkt (phdr p) (pdata p) pl, r')
  | VCompressed f => exists r' m, sync s' r' /\ fbehind f = [] /\ (m <= length (fbytes f))%nat /\ (m <= 19)%nat /\
      forall f', fbehind f' = [] -> fbytes f' ++ frest f' = fbytes f ++ frest f -> (m <= length (fbytes f'))%nat ->
        exists n, vj_uncompress_tcp r f' true = Ok (n, Some (phdr p, pdata p), r')
  end.
Proof.
  intros Hsy Hp. unfold vj_compress_tcp.
  destruct (Z.eqb_spec (ip_p (hip (phdr p))) IPPROTO_TCP) as [E1|E1]; cbn [negb]; [|by eexists (VIp p), s].
  destruct (Z.eqb_spec (Z.land (ip_off (hip (phdr p))) 16383) 0) as [E2|E2]; cbn [negb orb]; [|by eexists (VIp p), s].
  destruct (Z.ltb_spec (tot_len p) 40) as [E3|E3]; [by eexists (VIp p), s|].
  change (Z.lor (Z.lor (Z.lor TCP_SYN TCP_FIN) TCP_RST) TCP_ACK) with 23.
  destruct (Z.eqb_spec (Z.land (th_flags (hth (phdr p))) 23) TCP_ACK) as [E4|E4]; cbn [negb]; [|by eexists (VIp p), s].
  assert (compressible p = true) as Hcomp by (unfold compressible; rewrite E1, E2, E4, !Z.eqb_refl; cbn [andb]; by rewrite (proj2 (Z.leb_le _ _) E3)).
  destruct (Hp Hcomp) as [Hpl Hok]. destruct (sy_ring _ _ Hsy) as (L & z & HR & Hz & HL).
  destruct (vj_find_ok s (phdr p) L z HR Hz HL) as (found & cs & s1 & x & L' & z' & -> & HR' & Hz' & HL' & Hs & Hx & Hf & Es1).
  assert (sync s1 r) as Hsy1.
  { apply (sync_found s r s1 L' z' Hsy HR' Hz'); [by rewrite HL'|done|by rewrite Es1]. }
  cbn [mbind outcome_bind]. destruct (Z.ltb_spec (plen p) (hdr_bytes (phdr p))) as [|Hlen]; [by eexists (VIp p), s1|].
  destruct (link_uncompressed s1 r p cs x Hsy1 Hx Hpl Hok) as (s2 & r2 & Eu & Hcs & Hsy2 & Hany2).
  assert (exists o s', vj_send_uncompressed s1 p cs = Ok (o, s') /\
    match o with
    | VUncompressed q => exists cs r', q = MkPkt (set_ip_p (phdr p) cs) (pdata p) (plen p) /\ 0 <= cs < MAX_SLOTS /\ sync s' r' /\ compressible p = true /\ hdr_bytes (phdr p) <= plen p /\
        forall pl, hdr_bytes (phdr p) <= pl -> vj_uncompress_uncomp r (MkPkt (set_ip_p (phdr p) cs) (pdata p) pl) = Ok (0, MkPkt (phdr p) (pdata p) pl, r')
    | _ => False
    end) as (o & s' & Eo & Ho) by (eexists _, s2; split; [exact Eu|]; by exists cs, r2).
  destruct found; cbn [negb]; [|exists o, s'; split; [done|]; by destruct o]. rewrite Hx. cbn [from_opt mbind outcome_bind].
  destruct (vj_encode (phdr p) (cs_hdr x)) as [[cp ch]|] eqn:He; [|exists o, s'; split; [done|]; by destruct o].
  destruct (link_compressed s1 r p cs x cp ch Hsy1 Hx (Hf eq_refl) Hpl Hok He) as (f & s3 & r3 & m & Ec & Hsy3 & Hrest).
  eexists _, s3. split; [exact Ec|]. by exists r3, m.
Qed.

Lemma vj_link_ok s r p :
  sync s r -> pkt_ok p -> exists s' r', vj_link s r p = Ok (Some (phdr p, pdata p), s', r') /\ sync s' r'.
Proof.
  intros Hsy Hp. unfold vj_link. destruct (vj_compress_ok s r p Hsy Hp) as (o & s' & -> & Ho). cbn [mbind outcome_bind]. destruct o as [q|q|f].
  - destruct Ho as [-> Ho]. by eexists _, _.
  - destruct Ho as (cs & r' & -> & _ & Hsy' & _ & Hlen & Hany). cbn [plen pdata]. rewrite (Hany (plen p) Hlen). cbn [mbind outcome_bind]. by eexists _, _.
  - destruct Ho as (r' & m & Hsy' & Hb & Hm & _ & Hany). destruct (Hany f Hb eq_refl Hm) as (n & ->). cbn [mbind outcome_bind]. by eexists _, _.
Qed.

Lemma vj_run_ok s r ps :
  sync s r -> Forall pkt_ok ps -> vj_run s r ps = Ok ((fun p => Some (phdr p, pdata p)) <$> ps).
Proof.
  intros Hsy Hps. revert s r Hsy. induction Hps as [|p ps Hp _ IH]; intros s r Hsy; [done|]. cbn [vj_run].
  destruct (vj_link_ok s r p Hsy Hp) as (s' & r' & -> & Hsy'). cbn [mbind outcome_bind]. by rewrite (IH s' r' Hsy').
Qed.

Definition set_compressSlot (c : vjcompress) (v : Z) : vjcompress :=
  MkVj (last_cs c) (last_recv c) (last_xmit c) (vflags c) (maxSlotIndex c) v (tstate c) (rstate c).

(** The slots after vj_compress_init, newest first. *)
Definition init_ring : list Z := [15; 14; 13; 12; 11; 10; 9; 8; 7; 6; 5; 4; 3; 2; 1].

Fixpoint linksb (ts : gmap Z cstate) (p : Z) (l : list Z) (q : Z) : bool :=
  match l with
  | [] => p =? q
  | a :: l => (p =? a) && match ts !! a with Some x => linksb ts (cs_next x) l q | None => false end
  end.

Lemma linksb_true ts p l q : linksb ts p l q = true -> links ts p l q.
Proof.
  revert p. induction l as [|a l IH]; intros p; cbn; [by intros ?%Z.eqb_eq|]. intros [->%Z.eqb_eq H]%andb_true_iff.
  split; [done|]. destruct (ts !! a) as [x|]; [|done]. exists x. split; [done|by apply IH].
Qed.

Lemma init_sync v : sync (set_compressSlot (vj_compress_init zero_vj) v) (vj_compress_init zero_vj).
Proof.
  split.
  - exists init_ring, 0. split; [split; [done|split]|split; [done|by apply Nat.ltb_lt]].
    + apply (bool_decide_unpack _). vm_compute. exact I.
    + apply linksb_true. vm_compute. reflexivity.
  - assert (map_Forall (fun i x => 0 <= i < MAX_SLOTS /\ slot x = (i, zero_hdr)) (tstate (vj_compress_init zero_vj))) as H
      by (apply (bool_decide_unpack _); vm_compute; exact I).
    intros i w Hw. cbn [tstate set_compressSlot] in Hw. destruct (tstate (vj_compress_init zero_vj) !! i) as [x|] eqn:Hx; [|done].
    injection Hw as <-. destruct (H i x Hx) as [Hi ->]. split; [done|]. split; [done|by left].
  - intros i Hi. assert (i ∈ Z.of_nat <$> seq 0 16) as Hin.
    { apply list_elem_of_fmap. exists (Z.to_nat i). unfold MAX_SLOTS in Hi. split; [lia|]. apply list_elem_of_In, in_seq. lia. }
    assert (Forall (fun i => is_Some (rstate (vj_compress_init zero_vj) !! i)) (Z.of_nat <$> seq 0 16)) as H
      by (apply (bool_decide_unpack _); vm_compute; exact I).
    by apply (proj1 (Forall_forall _ _) H).
  - by left.
Qed.

(** C24: Header compression loses nothing.  Over a line that delivers every packet, from
    initialised ends and with or without compression of the slot numbers, the
    decompressor hands out the packets that were given to the compressor, byte for
    byte and in order: those passed on as they are, those sent with their slot and
    those sent as changes, for any number of connections.  The TCP segments have
    well-formed headers with a correct IP checksum, no urgent data and reserved
    bits 0. *)
Theorem vj_lossless (v : Z) (ps : list ippkt) (Hps : Forall pkt_ok ps) :
  vj_run (set_compressSlot (vj_compress_init zero_vj) v) (vj_compress_init zero_vj) ps
  = Ok ((fun p => Some (phdr p, pdata p)) <$> ps).
Proof. apply vj_run_ok; [apply init_sync|done]. Qed.

(** A segment of one connection with [n] data bytes. *)
Definition segment (id seq ack flags : Z) (n : nat) : ippkt :=
  let t := MkTh 1024 80 seq ack 0 5 flags 8192 4660 0 [] in
  let i := MkIp 4 5 0 (40 + Z.of_nat n) id 16384 64 IPPROTO_TCP 0 3232235777 3232235778 [] in
  MkPkt (MkHdr (set_ip i (ip_len i) id (ip_checksum i)) t) (repeat 65 n) (40 + Z.of_nat n).

(** Two segments: the second is sent as changes, in 4 bytes instead of 40. *)
Definition two_segments : list ippkt := [segment 7 1000 500 16 3; segment 8 1003 500 24 2].

Lemma vj_lossless_witness :
  vj_run (set_compressSlot (vj_compress_init zero_vj) 0) (vj_compress_init zero_vj) two_segments
  = Ok ((fun p => Some (phdr p, pdata p)) <$> two_segments) /\
  ('(_, c) ← vj_compress_tcp (vj_compress_init zero_vj) (segment 7 1000 500 16 3);
   '(o, _) ← vj_compress_tcp c (segment 8 1003 500 24 2); Ok o)
  = Ok (VCompressed (MkFrame [95; 0; 18; 52; 65; 65] [] [])).
Proof.
  split; [|vm_compute; reflexivity]. apply (vj_lossless 0 two_segments).
  repeat constructor; cbv; try congruence; try tauto.
Defined.

(** The changes of a packet in one of the special encodings do not say that URG is
    off: after an urgent segment, the next one comes out urgent. *)
Lemma vj_stale_urg :
  let ps := [segment 7 1000 500 48 3; segment 8 1003 500 16 2] in
  exists h1 d1 h2 d2, vj_run (vj_compress_init zero_vj) (vj_compress_init zero_vj) ps = Ok [Some (h1, d1); Some (h2, d2)] /\
    th_flags (hth h2) = 48 /\ th_flags (hth (phdr (segment 8 1003 500 16 2))) = 16.
Proof. eexists _, _, _, _. split; [vm_compute; reflexivity|]. split; reflexivity. Qed.
