(* ===== verification/Md5.v ===== *)
(** * The MD5 message digest (net/ppp/md5.c, md5.h)

    The digest CHAP authentication uses.  A context is its count of bits, its four
    chaining words, the input buffer of a block and the digest.  A message is
    handed over in pieces: [inBuf] is the bytes at the pointer and [inLen] how many
    of them to take.  The reference is the description of RFC 1321: pad the whole
    message, cut it into blocks of 16 words, and run the 64 steps over each. *)

From S2P Require Import Prelude.

(** ** Data *)

(** The array buf: four words. *)
Definition words : Type := Z * Z * Z * Z.

Record MD5_CTX := MkCtx { i_lo : Z; i_hi : Z; buf : words; in_ : list Z; digest : list Z }.

Definition PADDING : list Z := 0x80 :: replicate 63 0.

(** ** The macros of the steps *)

Definition NOT (x : Z) : Z := u32 (Z.lnot x).
Definition F (x y z : Z) : Z := Z.lor (Z.land x y) (Z.land (NOT x) z).
Definition G (x y z : Z) : Z := Z.lor (Z.land x z) (Z.land y (NOT z)).
Definition H (x y z : Z) : Z := Z.lxor (Z.lxor x y) z.
Definition I (x y z : Z) : Z := Z.lxor y (Z.lor x (NOT z)).
Definition ROTATE_LEFT (x n : Z) : Z := Z.lor (u32 (Z.shiftl x n)) (Z.shiftr x (32 - n)).

Definition FF (a b c d x s ac : Z) : Z :=
  let a := u32 (a + (F b c d + x + ac)) in
  let a := ROTATE_LEFT a s in
  u32 (a + b).
Definition GG (a b c d x s ac : Z) : Z :=
  let a := u32 (a + (G b c d + x + ac)) in
  let a := ROTATE_LEFT a s in
  u32 (a + b).
Definition HH (a b c d x s ac : Z) : Z :=
  let a := u32 (a + (H b c d + x + ac)) in
  let a := ROTATE_LEFT a s in
  u32 (a + b).
Definition II (a b c d x s ac : Z) : Z :=
  let a := u32 (a + (I b c d + x + ac)) in
  let a := ROTATE_LEFT a s in
  u32 (a + b).

Definition S11 : Z := 7.
Definition S12 : Z := 12.
Definition S13 : Z := 17.
Definition S14 : Z := 22.
Definition S21 : Z := 5.
Definition S22 : Z := 9.
Definition S23 : Z := 14.
Definition S24 : Z := 20.
Definition S31 : Z := 4.
Definition S32 : Z := 11.
Definition S33 : Z := 16.
Definition S34 : Z := 23.
Definition S41 : Z := 6.
Definition S42 : Z := 10.
Definition S43 : Z := 15.
Definition S44 : Z := 21.

(** A line [FF (a, b, c, d, ...)] assigns to its first register; the lines of a
    round take the registers in the orders a b c d, d a b c, c d a b and b c d a. *)
Definition macro : Type := Z -> Z -> Z -> Z -> Z -> Z -> Z -> Z.

Definition abcd (m : macro) (x s ac : Z) (r : words) : words :=
  let '(a, b, c, d) := r in (m a b c d x s ac, b, c, d).
Definition dabc (m : macro) (x s ac : Z) (r : words) : words :=
  let '(a, b, c, d) := r in (a, b, c, m d a b c x s ac).
Definition cdab (m : macro) (x s ac : Z) (r : words) : words :=
  let '(a, b, c, d) := r in (a, b, m c d a b x s ac, d).
Definition bcda (m : macro) (x s ac : Z) (r : words) : words :=
  let '(a, b, c, d) := r in (a, m b c d a x s ac, c, d).

Definition rounds (i_n : list Z) : list (words -> words) := [
  (* Round 1 *)
  abcd FF (i_n !!! 0%nat) S11 3614090360;
  dabc FF (i_n !!! 1%nat) S12 3905402710;
  cdab FF (i_n !!! 2%nat) S13 606105819;
  bcda FF (i_n !!! 3%nat) S14 3250441966;
  abcd FF (i_n !!! 4%nat) S11 4118548399;
  dabc FF (i_n !!! 5%nat) S12 1200080426;
  cdab FF (i_n !!! 6%nat) S13 2821735955;
  bcda FF (i_n !!! 7%nat) S14 4249261313;
  abcd FF (i_n !!! 8%nat) S11 1770035416;
  dabc FF (i_n !!! 9%nat) S12 2336552879;
  cdab FF (i_n !!! 10%nat) S13 4294925233;
  bcda FF (i_n !!! 11%nat) S14 2304563134;
  abcd FF (i_n !!! 12%nat) S11 1804603682;
  dabc FF (i_n !!! 13%nat) S12 4254626195;
  cdab FF (i_n !!! 14%nat) S13 2792965006;
  bcda FF (i_n !!! 15%nat) S14 1236535329;
  (* Round 2 *)
  abcd GG (i_n !!! 1%nat) S21 4129170786;
  dabc GG (i_n !!! 6%nat) S22 3225465664;
  cdab GG (i_n !!! 11%nat) S23 643717713;
  bcda GG (i_n !!! 0%nat) S24 3921069994;
  abcd GG (i_n !!! 5%nat) S21 3593408605;
  dabc GG (i_n !!! 10%nat) S22 38016083;
  cdab GG (i_n !!! 15%nat) S23 3634488961;
  bcda GG (i_n !!! 4%nat) S24 3889429448;
  abcd GG (i_n !!! 9%nat) S21 568446438;
  dabc GG (i_n !!! 14%nat) S22 3275163606;
  cdab GG (i_n !!! 3%nat) S23 4107603335;
  bcda GG (i_n !!! 8%nat) S24 1163531501;
  abcd GG (i_n !!! 13%nat) S21 2850285829;
  dabc GG (i_n !!! 2%nat) S22 4243563512;
  cdab GG (i_n !!! 7%nat) S23 1735328473;
  bcda GG (i_n !!! 12%nat) S24 2368359562;
  (* Round 3 *)
  abcd HH (i_n !!! 5%nat) S31 4294588738;
  dabc HH (i_n !!! 8%nat) S32 2272392833;
  cdab HH (i_n !!! 11%nat) S33 1839030562;
  bcda HH (i_n !!! 14%nat) S34 4259657740;
  abcd HH (i_n !!! 1%nat) S31 2763975236;
  dabc HH (i_n !!! 4%nat) S32 1272893353;
  cdab HH (i_n !!! 7%nat) S33 4139469664;
  bcda HH (i_n !!! 10%nat) S34 3200236656;
  abcd HH (i_n !!! 13%nat) S31 681279174;
  dabc HH (i_n !!! 0%nat) S32 3936430074;
  cdab HH (i_n !!! 3%nat) S33 3572445317;
  bcda HH (i_n !!! 6%nat) S34 76029189;
  abcd HH (i_n !!! 9%nat) S31 3654602809;
  dabc HH (i_n !!! 12%nat) S32 3873151461;
  cdab HH (i_n !!! 15%nat) S33 530742520;
  bcda HH (i_n !!! 2%nat) S34 3299628645;
  (* Round 4 *)
  abcd II (i_n !!! 0%nat) S41 4096336452;
  dabc II (i_n !!! 7%nat) S42 1126891415;
  cdab II (i_n !!! 14%nat) S43 2878612391;
  bcda II (i_n !!! 5%nat) S44 4237533241;
  abcd II (i_n !!! 12%nat) S41 1700485571;
  dabc II (i_n !!! 3%nat) S42 2399980690;
  cdab II (i_n !!! 10%nat) S43 4293915773;
  bcda II (i_n !!! 1%nat) S44 2240044497;
  abcd II (i_n !!! 8%nat) S41 1873313359;
  dabc II (i_n !!! 15%nat) S42 4264355552;
  cdab II (i_n !!! 6%nat) S43 2734768916;
  bcda II (i_n !!! 13%nat) S44 1309151649;
  abcd II (i_n !!! 4%nat) S41 4149444226;
  dabc II (i_n !!! 11%nat) S42 3174756917;
  cdab II (i_n !!! 2%nat) S43 718787259;
  bcda II (i_n !!! 9%nat) S44 3951481745].

Definition run_lines (fs : list (words -> words)) (r : words) : words := fold_left (fun r line => line r) fs r.

Definition Transform (b_uf : words) (i_n : list Z) : words :=
  let '(b0, b1, b2, b3) := b_uf in
  let '(a, b, c, d) := run_lines (rounds i_n) b_uf in
  (u32 (b0 + a), u32 (b1 + b), u32 (b2 + c), u32 (b3 + d)).

(** ** The three routines *)

Definition MD5Init (ctx : MD5_CTX) : MD5_CTX :=
  MkCtx 0 0 (0x67452301, 0xefcdab89, 0x98badcfe, 0x10325476) (in_ ctx) (digest ctx).

(** The word at [ii] of the input buffer. *)
Definition word_at (l : list Z) (ii : nat) : Z :=
  Z.lor (Z.lor (Z.lor (Z.shiftl (l !!! (ii + 3)%nat) 24) (Z.shiftl (l !!! (ii + 2)%nat) 16))
    (Z.shiftl (l !!! (ii + 1)%nat) 8)) (l !!! ii).

(** The words [in[0]] .. [in[n-1]] of the buffer. *)
Definition words_of (n : nat) (l : list Z) : list Z := (fun i => word_at l (4 * i)) <$> seq 0 n.

Fixpoint update_loop (inLen : nat) (ctx : MD5_CTX) (mdi : Z) (inBuf : list Z) : outcome MD5_CTX :=
  match inLen with
  | O => Ok ctx
  | S inLen =>
      c ← from_opt (head inBuf);
      l ← aset (in_ ctx) mdi c;
      let mdi := mdi + 1 in
      if mdi =? 0x40 then
        update_loop inLen (MkCtx (i_lo ctx) (i_hi ctx) (Transform (buf ctx) (words_of 16 l)) l (digest ctx)) 0 (tail inBuf)
      else update_loop inLen (MkCtx (i_lo ctx) (i_hi ctx) (buf ctx) l (digest ctx)) mdi (tail inBuf)
  end.

Definition MD5Update (ctx : MD5_CTX) (inBuf : list Z) (inLen : Z) : outcome MD5_CTX :=
  let mdi := Z.land (Z.shiftr (i_lo ctx) 3) 0x3F in
  let add := u32 (Z.shiftl inLen 3) in
  let hi := if u32 (i_lo ctx + add) <? i_lo ctx then u32 (i_hi ctx + 1) else i_hi ctx in
  let ctx := MkCtx (u32 (i_lo ctx + add)) (u32 (hi + Z.shiftr inLen 29)) (buf ctx) (in_ ctx) (digest ctx) in
  update_loop (Z.to_nat inLen) ctx mdi inBuf.

(** The four bytes of a word, low byte first. *)
Definition bytes_of (w : Z) : list Z :=
  [Z.land w 0xFF; Z.land (Z.shiftr w 8) 0xFF; Z.land (Z.shiftr w 16) 0xFF; Z.land (Z.shiftr w 24) 0xFF].

(** MD5Final returns the 16 bytes of hash. *)
Definition MD5Final (ctx : MD5_CTX) : outcome (list Z * MD5_CTX) :=
  let lo := i_lo ctx in
  let hi := i_hi ctx in
  let mdi := Z.land (Z.shiftr (i_lo ctx) 3) 0x3F in
  let padLen := if mdi <? 56 then 56 - mdi else 120 - mdi in
  ctx ← MD5Update ctx PADDING padLen;
  let '(b0, b1, b2, b3) := Transform (buf ctx) (words_of 14 (in_ ctx) ++ [lo; hi]) in
  let digest := bytes_of b0 ++ bytes_of b1 ++ bytes_of b2 ++ bytes_of b3 in
  Ok (digest, MkCtx (i_lo ctx) (i_hi ctx) (b0, b1, b2, b3) (in_ ctx) digest).

(** ** RFC 1321 *)

(** sin x in units of 2^-200: the Taylor series up to the term of degree 2 * n + 1. *)
Fixpoint sine (n : nat) (k x term : Z) : Z :=
  match n with
  | O => term
  | S n => term + sine n (k + 2) x (- (term * (x * x)) / ((k + 1) * (k + 2)))
  end.

(** T[i]: the integer part of 2^32 * abs (sin i), for i = 1 .. 64. *)
Definition T : list Z :=
  (fun i => Z.abs (sine 120 1 i (i * 2 ^ 200)) / 2 ^ 168) <$> seqZ 1 64.

(** x <<< n. *)
Definition rotl (x n : Z) : Z := (x * 2 ^ n) mod 2 ^ 32 + x / 2 ^ (32 - n).

(** Step [i], from 0: the auxiliary function, the word of the block and the
    rotation.  In each bit, the functions are: x ? y : z; z ? x : y; the parity;
    and y xor (x or not z). *)
Definition step_fun (i : nat) (x y z : Z) : Z :=
  if (i <? 16)%nat then Z.lxor z (Z.land x (Z.lxor y z))
  else if (i <? 32)%nat then Z.lxor y (Z.land z (Z.lxor x y))
  else if (i <? 48)%nat then Z.lxor x (Z.lxor y z)
  else Z.lxor y (Z.lor x (2 ^ 32 - 1 - z)).

Definition step_word (i : nat) : nat :=
  if (i <? 16)%nat then i
  else if (i <? 32)%nat then (5 * i + 1) mod 16
  else if (i <? 48)%nat then (3 * i + 5) mod 16
  else (7 * i) mod 16.

Definition step_shift (i : nat) : Z :=
  [7; 12; 17; 22; 5; 9; 14; 20; 4; 11; 16; 23; 6; 10; 15; 21] !!! (4 * (i / 16) + i mod 4)%nat.

Definition md5_step (X : list Z) (r : words) (i : nat) : words :=
  let '(a, b, c, d) := r in
  let sum := (a + step_fun i b c d + X !!! step_word i + T !!! i) mod 2 ^ 32 in
  (d, (b + rotl sum (step_shift i)) mod 2 ^ 32, b, c).

Definition add_words (r s : words) : words :=
  let '(a, b, c, d) := r in
  let '(a', b', c', d') := s in
  ((a + a') mod 2 ^ 32, (b + b') mod 2 ^ 32, (c + c') mod 2 ^ 32, (d + d') mod 2 ^ 32).

Definition md5_block (r : words) (X : list Z) : words :=
  add_words r (fold_left (md5_step X) (seq 0 64) r).

(** Little-endian numbers. *)
Fixpoint le (l : list Z) : Z := match l with [] => 0 | b :: l => b + 256 * le l end.
Fixpoint le_bytes (n : nat) (x : Z) : list Z :=
  match n with O => [] | S n => x mod 256 :: le_bytes n (x / 256) end.

(** The 16 words of a block of 64 bytes. *)
Definition le_words (l : list Z) : list Z := (fun i => le (take 4 (drop (4 * i) l))) <$> seq 0 16.

(** [n] blocks of 64 bytes. *)
Fixpoint md5_blocks (n : nat) (r : words) (l : list Z) : words :=
  match n with
  | O => r
  | S n => md5_blocks n (md5_block r (le_words (take 64 l))) (drop 64 l)
  end.

Definition md5_pad (m : list Z) : list Z :=
  m ++ 128 :: replicate (Z.to_nat ((55 - Z.of_nat (length m)) mod 64)) 0
    ++ le_bytes 8 ((8 * Z.of_nat (length m)) mod 2 ^ 64).

Definition md5_start : words := (0x67452301, 0xefcdab89, 0x98badcfe, 0x10325476).

Definition md5 (m : list Z) : list Z :=
  let l := md5_pad m in
  let '(a, b, c, d) := md5_blocks (length l / 64) md5_start l in
  le_bytes 4 a ++ le_bytes 4 b ++ le_bytes 4 c ++ le_bytes 4 d.

(** ** The 64 steps *)

Lemma T_values : T = [
   3614090360; 3905402710; 606105819; 3250441966; 4118548399; 1200080426;
   2821735955; 4249261313; 1770035416; 2336552879; 4294925233; 2304563134;
   1804603682; 4254626195; 2792965006; 1236535329; 4129170786; 3225465664;
   643717713; 3921069994; 3593408605; 38016083; 3634488961; 3889429448;
   568446438; 3275163606; 4107603335; 1163531501; 2850285829; 4243563512;
   1735328473; 2368359562; 4294588738; 2272392833; 1839030562; 4259657740;
   2763975236; 1272893353; 4139469664; 3200236656; 681279174; 3936430074;
   3572445317; 76029189; 3654602809; 3873151461; 530742520; 3299628645;
   4096336452; 1126891415; 2878612391; 4237533241; 1700485571; 2399980690;
   4293915773; 2240044497; 1873313359; 4264355552; 2734768916; 1309151649;
   4149444226; 3174756917; 718787259; 3951481745].
Proof. vm_compute. reflexivity. Qed.

Definition word (x : Z) : Prop := 0 <= x < 2 ^ 32.

Lemma word_u32 x : word (u32 x).
Proof. apply u32_range. Qed.

Lemma word_bits x n : word x -> 32 <= n -> Z.testbit x n = false.
Proof.
  intros Hx Hn. destruct (decide (x = 0)) as [->|]; [apply Z.bits_0|]. apply Z.bits_above_log2; [unfold word in Hx; lia|].
  apply Z.log2_lt_pow2; [unfold word in Hx; lia|]. apply Z.lt_le_trans with (2 ^ 32); [apply Hx|].
  apply Z.pow_le_mono_r; lia.
Qed.

Lemma testbit_u32 x n : 0 <= n -> Z.testbit (u32 x) n = (n <? 32) && Z.testbit x n.
Proof.
  intros Hn. unfold u32. destruct (Z.ltb_spec n 32); cbn.
  - by rewrite Z.mod_pow2_bits_low.
  - by rewrite Z.mod_pow2_bits_high by lia.
Qed.

Lemma NOT_complement z : word z -> NOT z = 2 ^ 32 - 1 - z.
Proof.
  intros Hz. unfold NOT, u32, Z.lnot. unfold word in Hz.
  rewrite <- (Z.mod_add _ 1) by lia. rewrite Z.mod_small; lia.
Qed.

(** The functions of the code and those of the reference agree, bit by bit. *)
Ltac bitwise :=
  apply Z.bits_inj'; intros n Hn;
  repeat (rewrite ?Z.lor_spec, ?Z.lxor_spec, ?Z.land_spec; unfold NOT);
  rewrite ?testbit_u32, ?Z.lnot_spec by done;
  destruct (Z.ltb_spec n 32); rewrite ?word_bits by done; cbn;
  repeat match goal with |- context [Z.testbit ?x n] => destruct (Z.testbit x n) end; done.

Lemma F_select x y z : word x -> word y -> word z -> F x y z = Z.lxor z (Z.land x (Z.lxor y z)).
Proof. intros Hx Hy Hz. unfold F. bitwise. Qed.

Lemma G_select x y z : word x -> word y -> word z -> G x y z = Z.lxor y (Z.land z (Z.lxor x y)).
Proof. intros Hx Hy Hz. unfold G. bitwise. Qed.

Lemma ROTATE_LEFT_rotl x n : word x -> 0 < n < 32 -> ROTATE_LEFT x n = rotl x n.
Proof.
  intros Hx Hn. unfold ROTATE_LEFT, rotl.
  rewrite Z.shiftl_mul_pow2, Z.shiftr_div_pow2 by lia. fold (u32 (x * 2 ^ n)).
  symmetry. apply Z.add_nocarry_lor. apply Z.bits_inj'. intros k Hk.
  rewrite Z.land_spec, testbit_u32, Z.bits_0 by done.
  rewrite Z.mul_pow2_bits, Z.div_pow2_bits by lia.
  destruct (Z.ltb_spec k 32); cbn; [|done]. destruct (decide (n <= k)).
  - rewrite (word_bits x (k + (32 - n))) by (done || lia). apply andb_false_r.
  - by rewrite Z.testbit_neg_r by lia.
Qed.

(** The macro of step [i]. *)
Definition step_macro (i : nat) : macro :=
  if (i <? 16)%nat then FF else if (i <? 32)%nat then GG else if (i <? 48)%nat then HH else II.

Lemma step_shift_range i : (i < 64)%nat -> 0 < step_shift i < 32.
Proof.
  assert (forallb (fun i => (0 <? step_shift i) && (step_shift i <? 32)) (seq 0 64) = true) as Hall
    by (vm_compute; reflexivity).
  intros Hi. rewrite forallb_forall in Hall.
  specialize (Hall i (proj2 (in_seq 64 0 i) ltac:(lia))). lia.
Qed.

Lemma md5_step_macro X a b c d i : (i < 64)%nat -> word a -> word b -> word c -> word d ->
  md5_step X (a, b, c, d) i =
  (d, step_macro i a b c d (X !!! step_word i) (step_shift i) (T !!! i), b, c).
Proof.
  intros Hi Ha Hb Hc Hd. pose proof (step_shift_range i Hi) as Hs.
  unfold md5_step, step_macro, step_fun. fold (u32 (b + rotl 0 0)).
  assert (forall f g, f = g -> (b + rotl ((a + f + X !!! step_word i + T !!! i) mod 2 ^ 32) (step_shift i)) mod 2 ^ 32 =
    u32 (ROTATE_LEFT (u32 (a + (g + X !!! step_word i + T !!! i))) (step_shift i) + b)) as E.
  { intros f g ->. rewrite ROTATE_LEFT_rotl by (done || apply word_u32). unfold u32. f_equal.
    rewrite Z.add_comm. do 3 f_equal. lia. }
  repeat case_match; unfold FF, GG, HH, II; cbv zeta; repeat f_equal; apply E.
  - symmetry. by apply F_select.
  - symmetry. by apply G_select.
  - unfold H. by rewrite Z.lxor_assoc.
  - unfold I. by rewrite NOT_complement.
Qed.

Lemma word_macro i a b c d x s ac : word (step_macro i a b c d x s ac).
Proof. unfold step_macro. repeat case_match; apply word_u32. Qed.

(** Line [i] of the rounds. *)
Definition line (X : list Z) (i : nat) : words -> words :=
  (match (i mod 4)%nat with O => abcd | 1%nat => dabc | 2%nat => cdab | _ => bcda end)
    (step_macro i) (X !!! step_word i) (step_shift i) (T !!! i).

Lemma rounds_lines X : rounds X = line X <$> seq 0 64.
Proof. unfold line. rewrite T_values. reflexivity. Qed.

Definition word4 (r : words) : Prop := let '(a, b, c, d) := r in word a /\ word b /\ word c /\ word d.

(** The registers as the reference has them before step [i]: each step turns them
    by one. *)
Definition turn (i : nat) (r : words) : words :=
  let '(a, b, c, d) := r in
  match (i mod 4)%nat with O => (a, b, c, d) | 1%nat => (d, a, b, c) | 2%nat => (c, d, a, b) | _ => (b, c, d, a) end.

Lemma line_step X i r : (i < 64)%nat -> word4 r ->
  md5_step X (turn i r) i = turn (S i) (line X i r) /\ word4 (line X i r).
Proof.
  destruct r as [[[a b] c] d]. intros Hi (Ha & Hb & Hc & Hd).
  assert (S i mod 4 = S (i mod 4) mod 4)%nat as Hm
    by exact (eq_sym (Nat.Div0.add_mod_idemp_r 1 i 4)).
  pose proof (Nat.mod_upper_bound i 4 ltac:(lia)). unfold turn, line. rewrite Hm.
  destruct (i mod 4)%nat as [|[|[|[|]]]]; try lia; cbn [Nat.modulo Nat.divmod fst snd Nat.sub];
    rewrite md5_step_macro by done; (split; [done|]); cbn; split_and!; try done; apply word_macro.
Qed.

Lemma lines_steps X n : (n <= 64)%nat -> forall r, word4 r ->
  let r' := run_lines (line X <$> seq 0 n) r in
  fold_left (md5_step X) (seq 0 n) r = turn n r' /\ word4 r'.
Proof.
  induction n as [|n IH]; intros Hn r Hr; cbn zeta.
  - split; [by destruct r as [[[??]?]?]|done].
  - unfold run_lines. rewrite seq_S, fmap_app, !fold_left_app. cbn [fmap list_fmap fold_left Nat.add].
    destruct (IH ltac:(lia) r Hr) as [-> Hw]. by apply line_step.
Qed.

(** Transform is the compression function of the RFC. *)
Lemma Transform_md5_block r X : word4 r -> Transform r X = md5_block r X /\ word4 (md5_block r X).
Proof.
  intros Hr. destruct (lines_steps X 64 ltac:(lia) r Hr) as [E _].
  unfold md5_block, Transform. rewrite rounds_lines, E. generalize (run_lines (line X <$> seq 0 64) r).
  intros [[[a b] c] d]. destruct r as [[[b0 b1] b2] b3].
  change (turn 64 (a, b, c, d)) with (a, b, c, d). split; [reflexivity|].
  split_and!; apply u32_range.
Qed.

(** ** Words and bytes *)

Definition byte (x : Z) : Prop := 0 <= x < 256.

Lemma four_bytes b0 b1 b2 b3 : byte b0 -> byte b1 -> byte b2 -> byte b3 ->
  Z.lor (Z.lor (Z.lor (Z.shiftl b3 24) (Z.shiftl b2 16)) (Z.shiftl b1 8)) b0 = le [b0; b1; b2; b3].
Proof.
  unfold byte. intros. rewrite !Z.shiftl_mul_pow2 by lia. rewrite lor_four_bytes by lia. cbn [le]. lia.
Qed.

Lemma word_at_le l ii : Forall byte l -> (ii + 4 <= length l)%nat -> word_at l ii = le (take 4 (drop ii l)).
Proof.
  intros Hl Hii. unfold word_at.
  assert (drop ii l = (l !!! ii) :: (l !!! (ii + 1)%nat) :: (l !!! (ii + 2)%nat) :: (l !!! (ii + 3)%nat) :: drop (ii + 4) l) as ->.
  { assert (forall j, (j < length l)%nat -> drop j l = (l !!! j) :: drop (S j) l) as Hd.
    { intros j Hj. apply drop_S, list_lookup_lookup_total_lt, Hj. }
    rewrite 4!Hd by lia. replace (ii + 1)%nat with (S ii) by lia. replace (ii + 2)%nat with (S (S ii)) by lia.
    replace (ii + 3)%nat with (S (S (S ii))) by lia. by replace (ii + 4)%nat with (S (S (S (S ii)))) by lia. }
  assert (forall j, (j < length l)%nat -> byte (l !!! j)) as Hb.
  { intros j Hj. eapply Forall_lookup_total_1; done. }
  rewrite four_bytes by (apply Hb; lia). done.
Qed.

Lemma words_of_le n l : Forall byte l -> (4 * n <= length l)%nat ->
  words_of n l = (fun i => le (take 4 (drop (4 * i) l))) <$> seq 0 n.
Proof.
  intros Hl Hn. unfold words_of. apply list_fmap_ext. intros i x Hx%lookup_seq.
  apply word_at_le; [done|lia].
Qed.

Lemma bytes_of_le w : word w -> bytes_of w = le_bytes 4 w.
Proof.
  intros Hw. unfold bytes_of. change 0xFF with (Z.ones 8). rewrite !Z.land_ones, !Z.shiftr_div_pow2 by lia.
  cbn [le_bytes]. change (2 ^ 8) with 256. rewrite !Z.div_div by lia. done.
Qed.

(** ** The blocks of a message *)

Definition blocks_words (bs : list (list Z)) (r : words) : words :=
  fold_left (fun r b => md5_block r (le_words b)) bs r.

Lemma md5_blocks_concat bs r rest : Forall (fun b => length b = 64%nat) bs ->
  md5_blocks (length bs) r (concat bs ++ rest) = blocks_words bs r.
Proof.
  intros Hbs. revert r. induction Hbs as [|b bs Hb Hbs IH]; intros r; [done|].
  cbn [length concat md5_blocks]. rewrite <- app_assoc, take_app_length', drop_app_length' by done. apply IH.
Qed.

Lemma length_blocks (bs : list (list Z)) : Forall (fun b => length b = 64%nat) bs -> length (concat bs) = (64 * length bs)%nat.
Proof. induction 1 as [|b bs Hb Hbs IH]; [done|]. cbn [concat]. rewrite length_app, IH, Hb. cbn. lia. Qed.

Lemma blocks_word4 bs r : word4 r -> word4 (blocks_words bs r).
Proof.
  revert r. induction bs as [|b bs IH]; intros r Hr; [done|]. apply IH, Transform_md5_block, Hr.
Qed.

(** The context after the message [m], [bs] being its whole blocks and [rest] what
    is in the buffer. *)
Record taken (m : list Z) (bs : list (list Z)) (rest : list Z) (ctx : MD5_CTX) : Prop := MkTaken {
  tk_msg : m = concat bs ++ rest;
  tk_blocks : Forall (fun b => length b = 64%nat) bs;
  tk_rest : (length rest < 64)%nat;
  tk_byte : Forall byte (in_ ctx);
  tk_len : length (in_ ctx) = 64%nat;
  tk_in : take (length rest) (in_ ctx) = rest;
  tk_buf : buf ctx = blocks_words bs md5_start }.

Lemma word4_start : word4 md5_start.
Proof. unfold word4, md5_start, word. lia. Qed.

(** One turn of the loop of MD5Update. *)
Lemma update_byte m bs rest ctx c n tl : taken m bs rest ctx -> byte c ->
  exists bs' rest' ctx', taken (m ++ [c]) bs' rest' ctx' /\
    i_lo ctx' = i_lo ctx /\ i_hi ctx' = i_hi ctx /\
    update_loop (S n) ctx (Z.of_nat (length rest)) (c :: tl) = update_loop n ctx' (Z.of_nat (length rest')) tl.
Proof.
  intros [-> Hbs Hr Hby Hlen Hin Hbuf] Hc. cbn [update_loop head from_opt tail].
  rewrite bind_Ok, aset_Ok by lia. rewrite bind_Ok, Nat2Z.id.
  assert (take (S (length rest)) (<[length rest := c]> (in_ ctx)) = rest ++ [c]) as Ht.
  { rewrite (take_S_r _ _ c) by (apply list_lookup_insert_eq; lia).
    rewrite take_insert_ge by lia. by rewrite Hin. }
  assert (Forall byte (<[length rest := c]> (in_ ctx))) as Hby' by by apply Forall_insert.
  assert (length (<[length rest := c]> (in_ ctx)) = 64%nat) as Hlen' by by rewrite length_insert.
  destruct (Z.eqb_spec (Z.of_nat (length rest) + 1) 64).
  - rewrite firstn_all2 in Ht by lia. exists (bs ++ [rest ++ [c]]), [].
    eexists (MkCtx _ _ _ _ _). split; [|split_and!; [..|reflexivity]; reflexivity]. split; cbn [in_ buf]; try done.
    + rewrite concat_app. cbn. by rewrite !app_nil_r, app_assoc.
    + apply Forall_app. split; [done|]. constructor; [|done]. rewrite length_app. cbn. lia.
    + cbn. lia.
    + rewrite Hbuf. unfold blocks_words. rewrite fold_left_app. cbn [fold_left]. fold (blocks_words bs md5_start).
      destruct (Transform_md5_block (blocks_words bs md5_start) (words_of 16 (<[length rest := c]> (in_ ctx)))
        (blocks_word4 _ _ word4_start)) as [-> _]. by rewrite words_of_le, Ht by (done || lia).
  - exists bs, (rest ++ [c]). eexists (MkCtx _ _ _ _ _).
    split; [|split_and!; [..|]; cycle 2]; [|rewrite length_app; cbn [length]; rewrite Nat2Z.inj_add; reflexivity|reflexivity..].
    split; cbn [in_ buf]; try done.
    + by rewrite app_assoc.
    + rewrite length_app. cbn. lia.
    + rewrite length_app. cbn [length]. by rewrite Nat.add_1_r.
Qed.

Lemma update_bytes l : forall m bs rest ctx tl, taken m bs rest ctx -> Forall byte l ->
  exists bs' rest' ctx', taken (m ++ l) bs' rest' ctx' /\ i_lo ctx' = i_lo ctx /\ i_hi ctx' = i_hi ctx /\
    update_loop (length l) ctx (Z.of_nat (length rest)) (l ++ tl) = Ok ctx'.
Proof.
  induction l as [|c l IH]; intros m bs rest ctx tl Hk Hl.
  - exists bs, rest, ctx. by rewrite app_nil_r.
  - apply Forall_cons in Hl as [Hc Hl].
    destruct (update_byte _ _ _ _ c (length l) (l ++ tl) Hk Hc) as (bs1 & rest1 & ctx1 & Hk1 & Hlo & Hhi & E).
    destruct (IH _ _ _ _ tl Hk1 Hl) as (bs2 & rest2 & ctx2 & Hk2 & Hlo2 & Hhi2 & E2).
    exists bs2, rest2, ctx2. rewrite <- app_assoc in Hk2. cbn [length app]. rewrite E. split_and!; congruence || done.
Qed.

(** ** The count of bits *)

(** The context counts the bits of [n] bytes. *)
Definition counts (n : nat) (ctx : MD5_CTX) : Prop :=
  word (i_lo ctx) /\ word (i_hi ctx) /\ i_lo ctx + 2 ^ 32 * i_hi ctx = (8 * Z.of_nat n) mod 2 ^ 64.

Lemma counts_mdi n ctx : counts n ctx -> Z.land (Z.shiftr (i_lo ctx) 3) 0x3F = Z.of_nat n mod 64.
Proof.
  intros (Hlo & Hhi & Hc). change 0x3F with (Z.ones 6). rewrite Z.land_ones, Z.shiftr_div_pow2 by lia.
  unfold word in *. Z.to_euclidean_division_equations; lia.
Qed.

Lemma counts_add n k ctx : counts n ctx -> 0 <= k < 2 ^ 32 ->
  let add := u32 (Z.shiftl k 3) in
  let hi := if u32 (i_lo ctx + add) <? i_lo ctx then u32 (i_hi ctx + 1) else i_hi ctx in
  u32 (i_lo ctx + add) + 2 ^ 32 * u32 (hi + Z.shiftr k 29) = (8 * (Z.of_nat n + k)) mod 2 ^ 64.
Proof.
  intros (Hlo & Hhi & Hc) Hk. cbv zeta. rewrite Z.shiftl_mul_pow2, Z.shiftr_div_pow2 by lia. unfold word in *.
  replace (8 * (Z.of_nat n + k)) with (8 * Z.of_nat n + 8 * k) by lia.
  rewrite <- Zplus_mod_idemp_l, <- Hc. clear Hc n. revert Hlo Hhi. generalize (i_lo ctx) (i_hi ctx). intros lo hi Hlo Hhi.
  unfold u32. destruct (Z.ltb_spec ((lo + (k * 2 ^ 3) mod 2 ^ 32) mod 2 ^ 32) lo);
    Z.to_euclidean_division_equations; lia.
Qed.

Lemma taken_mdi m bs rest ctx : taken m bs rest ctx -> Z.of_nat (length m) mod 64 = Z.of_nat (length rest).
Proof.
  intros [-> Hbs Hr _ _ _ _]. rewrite length_app, length_blocks by done.
  Z.to_euclidean_division_equations; lia.
Qed.

(** MD5Update takes the first [inLen] bytes it is given. *)
Lemma MD5Update_taken m bs rest ctx l tl : taken m bs rest ctx -> counts (length m) ctx ->
  Forall byte l -> Z.of_nat (length l) < 2 ^ 32 ->
  exists bs' rest' ctx', MD5Update ctx (l ++ tl) (Z.of_nat (length l)) = Ok ctx' /\
    taken (m ++ l) bs' rest' ctx' /\ counts (length (m ++ l)) ctx'.
Proof.
  intros Hk Hc Hl Hlen. unfold MD5Update. rewrite (counts_mdi _ _ Hc), (taken_mdi _ _ _ _ Hk), Nat2Z.id.
  pose proof (counts_add _ (Z.of_nat (length l)) _ Hc ltac:(lia)) as Ha. cbv zeta in Ha.
  match goal with |- context [update_loop _ ?c _ _] => set (ctx1 := c) end.
  assert (taken m bs rest ctx1) as Hk1 by (destruct Hk; by split).
  destruct (update_bytes l m bs rest ctx1 tl Hk1 Hl) as (bs' & rest' & ctx' & Hk' & Hlo & Hhi & E).
  exists bs', rest', ctx'. split_and!; [done|done|].
  unfold counts. rewrite Hlo, Hhi. subst ctx1. cbn [i_lo i_hi]. split_and!; try apply word_u32.
  rewrite Ha. do 2 f_equal. rewrite length_app. lia.
Qed.

(** ** The digest *)

Lemma byte_mod x : byte (x mod 256).
Proof. apply Z.mod_pos_bound. lia. Qed.

Lemma le_le_bytes n x : 0 <= x < 256 ^ Z.of_nat n -> le (le_bytes n x) = x.
Proof.
  revert x. induction n as [|n IH]; intros x Hx; cbn [le_bytes le].
  - change (256 ^ Z.of_nat 0) with 1 in Hx. lia.
  - rewrite Nat2Z.inj_succ, Z.pow_succ_r in Hx by lia. rewrite IH; Z.to_euclidean_division_equations; lia.
Qed.

Lemma le_bytes_app n k x : le_bytes (n + k) x = le_bytes n x ++ le_bytes k (x / 256 ^ Z.of_nat n).
Proof.
  revert x. induction n as [|n IH]; intros x; cbn [le_bytes app Nat.add].
  - by rewrite Z.div_1_r.
  - rewrite IH, Nat2Z.inj_succ, Z.pow_succ_r, Z.div_div by lia. done.
Qed.

Lemma le_bytes_split lo hi : word lo -> word hi -> le_bytes 8 (lo + 2 ^ 32 * hi) = le_bytes 4 lo ++ le_bytes 4 hi.
Proof.
  intros Hlo Hhi. unfold word in *. rewrite (le_bytes_app 4 4). change (256 ^ Z.of_nat 4) with (2 ^ 32).
  f_equal; [|f_equal; Z.to_euclidean_division_equations; lia].
  cbn [le_bytes]. rewrite !Z.div_div by lia. repeat (f_equal; [clear Hlo Hhi; Z.to_euclidean_division_equations; lia|]).
  f_equal. Z.to_euclidean_division_equations; lia.
Qed.

(** The last block: 56 bytes of the buffer and the count. *)
Lemma last_block l lo hi rest : Forall byte l -> length l = 64%nat -> take 56 l = rest -> word lo -> word hi ->
  words_of 14 l ++ [lo; hi] = le_words (rest ++ le_bytes 4 lo ++ le_bytes 4 hi).
Proof.
  intros Hl Hlen <- Hlo Hhi. rewrite words_of_le by (done || lia).
  unfold le_words. change (seq 0 16) with (seq 0 14 ++ [14%nat; 15%nat]). rewrite fmap_app. f_equal.
  - apply list_fmap_ext. intros i x Hx%lookup_seq. f_equal.
    rewrite drop_app_le by (rewrite length_take; lia).
    rewrite take_app_le by (rewrite length_drop, length_take; lia).
    rewrite skipn_firstn_comm. rewrite take_take. f_equal. lia.
  - cbn [fmap list_fmap]. rewrite !(drop_app_ge (take 56 l)) by (rewrite length_take; lia).
    rewrite !length_take, Hlen.
    change (drop (4 * 14 - 56 `min` 64) ?l) with l. change (4 * 15 - 56 `min` 64)%nat with 4%nat.
    rewrite take_app_length' by done. change (drop 4 (le_bytes 4 lo ++ le_bytes 4 hi)) with (le_bytes 4 hi).
    rewrite (take_ge (le_bytes 4 hi)) by (cbn; lia). by rewrite !le_le_bytes.
Qed.

(** What MD5Final appends. *)
Definition padding (n : nat) : list Z := 128 :: replicate (Z.to_nat ((55 - Z.of_nat n) mod 64)) 0.

Lemma padLen_padding n :
  let mdi := Z.of_nat n mod 64 in
  (if mdi <? 56 then 56 - mdi else 120 - mdi) = Z.of_nat (length (padding n)) /\
  exists tl, PADDING = padding n ++ tl.
Proof.
  cbv zeta. unfold padding. cbn [length]. rewrite length_replicate. split.
  - case_match; Z.to_euclidean_division_equations; lia.
  - exists (replicate (63 - Z.to_nat ((55 - Z.of_nat n) mod 64)) 0). unfold PADDING.
    cbn [app]. f_equal. rewrite <- replicate_add. f_equal. pose proof (Z.mod_pos_bound (55 - Z.of_nat n) 64). lia.
Qed.

Lemma MD5Final_digest m bs rest ctx : taken m bs rest ctx -> counts (length m) ctx ->
  exists ctx', MD5Final ctx = Ok (md5 m, ctx').
Proof.
  intros Hk Hc. pose proof Hc as (Hlo & Hhi & Hsum). unfold MD5Final. rewrite (counts_mdi _ _ Hc).
  destruct (padLen_padding (length m)) as [-> [tl ->]].
  assert (Z.of_nat (length (padding (length m))) < 2 ^ 32) as Hpl.
  { unfold padding. cbn [length]. rewrite length_replicate.
    pose proof (Z.mod_pos_bound (55 - Z.of_nat (length m)) 64). lia. }
  assert (Forall byte (padding (length m))) as Hpb.
  { unfold padding. constructor; [unfold byte; lia|]. apply Forall_replicate. unfold byte. lia. }
  destruct (MD5Update_taken _ _ _ _ _ tl Hk Hc Hpb Hpl) as (bs' & rest' & ctx' & -> & Hk' & _).
  rewrite bind_Ok. pose proof (taken_mdi _ _ _ _ Hk') as Hr. destruct Hk' as [Hm Hbs' _ Hby Hl Hin Hbuf].
  assert (length rest' = 56%nat) as Hr56.
  { rewrite length_app in Hr. unfold padding in Hr. cbn [length] in Hr. rewrite length_replicate in Hr.
    Z.to_euclidean_division_equations; lia. }
  rewrite Hr56 in Hin. rewrite (last_block _ _ _ _ Hby Hl Hin Hlo Hhi), Hbuf.
  destruct (Transform_md5_block (blocks_words bs' md5_start) (le_words (rest' ++ le_bytes 4 (i_lo ctx) ++ le_bytes 4 (i_hi ctx)))
    (blocks_word4 _ _ word4_start)) as [-> Hw].
  assert (md5_pad m = concat (bs' ++ [rest' ++ le_bytes 4 (i_lo ctx) ++ le_bytes 4 (i_hi ctx)]) ++ []) as Hpad.
  { unfold md5_pad. change (128 :: ?a ++ ?b) with ((128 :: a) ++ b). fold (padding (length m)).
    rewrite app_nil_r, concat_app, (app_assoc m), Hm, <- Hsum, le_bytes_split by done. cbn [concat].
    by rewrite app_nil_r, <- !app_assoc. }
  unfold md5. assert (length (md5_pad m) / 64 = length (bs' ++ [rest' ++ le_bytes 4 (i_lo ctx) ++ le_bytes 4 (i_hi ctx)]))%nat as Hn.
  { rewrite Hpad, app_nil_r, length_blocks. { rewrite Nat.mul_comm. by apply Nat.div_mul. }
    apply Forall_app. split; [done|]. constructor; [|done]. rewrite !length_app, Hr56. done. }
  rewrite Hn, Hpad, md5_blocks_concat by
    (apply Forall_app; split; [done|]; constructor; [|done]; rewrite !length_app, Hr56; done).
  unfold blocks_words at 2. rewrite fold_left_app. cbn [fold_left]. fold (blocks_words bs' md5_start).
  destruct (md5_block _ _) as [[[a b] c] d]. destruct Hw as (Ha & Hb & Hc' & Hd).
  rewrite !bytes_of_le by done. eexists. done.
Qed.

(** The use the file's comment describes: MD5Init, MD5Update for each piece of the
    message, MD5Final. *)
Fixpoint MD5Updates (ctx : MD5_CTX) (ps : list (list Z)) : outcome MD5_CTX :=
  match ps with
  | [] => Ok ctx
  | p :: ps => ctx ← MD5Update ctx p (Z.of_nat (length p)); MD5Updates ctx ps
  end.

Definition md5_pieces (ctx : MD5_CTX) (ps : list (list Z)) : outcome (list Z * MD5_CTX) :=
  ctx ← MD5Updates (MD5Init ctx) ps; MD5Final ctx.

Lemma MD5Updates_taken ps : forall m bs rest ctx, taken m bs rest ctx -> counts (length m) ctx ->
  Forall (fun p => Forall byte p /\ Z.of_nat (length p) < 2 ^ 32) ps ->
  exists bs' rest' ctx', MD5Updates ctx ps = Ok ctx' /\
    taken (m ++ concat ps) bs' rest' ctx' /\ counts (length (m ++ concat ps)) ctx'.
Proof.
  induction ps as [|p ps IH]; intros m bs rest ctx Hk Hc Hps.
  - exists bs, rest, ctx. cbn [concat]. by rewrite app_nil_r.
  - apply Forall_cons in Hps as [[Hp Hl] Hps]. cbn [MD5Updates concat].
    destruct (MD5Update_taken _ _ _ _ p [] Hk Hc Hp Hl) as (bs1 & rest1 & ctx1 & E & Hk1 & Hc1).
    rewrite app_nil_r in E. rewrite E, bind_Ok, app_assoc. by eapply IH.
Qed.

(** C28: however a message is cut into pieces, MD5Init, MD5Update of the pieces in
    order and MD5Final give the MD5 digest of the whole message as RFC 1321
    defines it, whatever the context held before.  A message can be of any length:
    the 64-bit count wraps as the RFC has it. *)
Theorem md5_streaming ctx ps :
  length (in_ ctx) = 64%nat -> Forall byte (in_ ctx) ->
  Forall (fun p => Forall byte p /\ Z.of_nat (length p) < 2 ^ 32) ps ->
  exists ctx', md5_pieces ctx ps = Ok (md5 (concat ps), ctx').
Proof.
  intros Hl Hb Hps.
  assert (taken [] [] [] (MD5Init ctx)) as Hk by (split; cbn; (lia || done)).
  assert (counts (length (@nil Z)) (MD5Init ctx)) as Hc by (split_and!; unfold word; cbn; done || lia).
  destruct (MD5Updates_taken ps _ _ _ _ Hk Hc Hps) as (bs & rest & ctx' & E & Hk' & Hc').
  unfold md5_pieces. rewrite E, bind_Ok. by eapply MD5Final_digest.
Qed.

(** The message abc, in two pieces: the digest of the test suite of RFC 1321. *)
Lemma md5_streaming_witness :
  (exists ctx', md5_pieces (MkCtx 0 0 (0, 0, 0, 0) (replicate 64 0) []) [[97]; [98; 99]] = Ok (md5 [97; 98; 99], ctx')) /\
  le (reverse (md5 [97; 98; 99])) = 0x900150983cd24fb0d6963f7d28e17f72.
Proof.
  assert (exists ctx', md5_pieces (MkCtx 0 0 (0, 0, 0, 0) (replicate 64 0) []) [[97]; [98; 99]] = Ok (md5 [97; 98; 99], ctx')) as Hd.
  { apply (md5_streaming (MkCtx 0 0 (0, 0, 0, 0) (replicate 64 0) []) [[97]; [98; 99]]); [reflexivity| |].
    - apply Forall_replicate. split; discriminate || reflexivity.
    - repeat (apply Forall_cons; split); try (split; [repeat constructor; discriminate|reflexivity]); constructor. }
  revert Hd. generalize (md5 [97; 98; 99]). intros D Hd. split; [exact Hd|]. destruct Hd as [ctx' Hd].
  destruct (ok_such_that (fun x => le (reverse x.1) = 0x900150983cd24fb0d6963f7d28e17f72)
    (md5_pieces (MkCtx 0 0 (0, 0, 0, 0) (replicate 64 0) []) [[97]; [98; 99]])) as ([d c] & E & Hx); [vm_compute; reflexivity|].
  rewrite Hd in E. injection E as <- _. exact Hx.
Defined.
