(* ===== verification/Arp.v ===== *)
(** * Address resolution (net/arp.c, sys/net/ipaddr.h, sys/net/ether.h)

    The table of the hardware addresses of neighbours, the queue of packets that
    wait for one, and the request and reply packets of RFC 826.  Packets are the
    buffers of Pbuf.v; headers are read and written in their bytes, in the byte
    order of the processor (little-endian) where the code uses a field as a
    number.  What dev_transmit of a packet returns is the argument [tx]; a call is
    recorded in [sent].  The calls of dhcp_arp_reply are recorded too. *)

From S2P Require Import Prelude Timer CStr Pbuf Inet PbufPool.

(** ** Data *)

Definition HWTYPE_ETHERNET : Z := 1.
Definition ARP_REQUEST : Z := 1.
Definition ARP_REPLY : Z := 2.
Definition ARP_MAXAGE : Z := 120.
Definition MAX_XMIT_DELAY : Z := 1000.
Definition ARP_TABLE_SIZE : Z := 32.
Definition ARP_XMIT_QUEUE_SIZE : Z := 4.
Definition MSECS_PER_TICK : Z := 1000 / HZ.
Definition ETHTYPE_ARP : Z := 0x0806.
Definition ETHTYPE_IP : Z := 0x0800.
Definition IP_ADDR_ANY : Z := 0.

(** A hardware address is the list of its six bytes. *)
Record arp_entry := MkArp { ae_ip : Z; ae_eth : list Z; ae_ctime : Z }.
Record xmit_queue_entry := MkXq { xq_netif : Z; xq_p : Z; xq_ip : Z; xq_expires : Z }.

(** The fields of struct netif that the code uses. *)
Record netif := MkNif { nif_ip : Z; nif_mask : Z; nif_gw : Z; nif_hw : list Z; nif_flags : Z; nif_state : Z }.

(** [armed]: sys_timeout will call arp_tmr. *)
Record ast := MkA {
  net : nst;
  arp_table : list arp_entry;
  xmit_queue_table : list xmit_queue_entry;
  arp_ctime : Z;
  now : Z;
  netifs : gmap Z netif;
  link_drop : Z;
  armed : bool;
  sent : list (Z * Z);
  dhcp_told : list Z }.

Definition set_net (s : ast) (v : nst) : ast :=
  MkA v (arp_table s) (xmit_queue_table s) (arp_ctime s) (now s) (netifs s) (link_drop s) (armed s) (sent s) (dhcp_told s).
Definition set_table (s : ast) (v : list arp_entry) : ast :=
  MkA (net s) v (xmit_queue_table s) (arp_ctime s) (now s) (netifs s) (link_drop s) (armed s) (sent s) (dhcp_told s).
Definition set_queue (s : ast) (v : list xmit_queue_entry) : ast :=
  MkA (net s) (arp_table s) v (arp_ctime s) (now s) (netifs s) (link_drop s) (armed s) (sent s) (dhcp_told s).
Definition set_ctime (s : ast) (v : Z) : ast :=
  MkA (net s) (arp_table s) (xmit_queue_table s) v (now s) (netifs s) (link_drop s) (armed s) (sent s) (dhcp_told s).
Definition count_drop (s : ast) : ast :=
  MkA (net s) (arp_table s) (xmit_queue_table s) (arp_ctime s) (now s) (netifs s) (u32 (link_drop s + 1)) (armed s)
    (sent s) (dhcp_told s).
Definition set_armed (s : ast) : ast :=
  MkA (net s) (arp_table s) (xmit_queue_table s) (arp_ctime s) (now s) (netifs s) (link_drop s) true (sent s) (dhcp_told s).
Definition log_sent (s : ast) (dev p : Z) : ast :=
  MkA (net s) (arp_table s) (xmit_queue_table s) (arp_ctime s) (now s) (netifs s) (link_drop s) (armed s)
    (sent s ++ [(dev, p)]) (dhcp_told s).
Definition log_dhcp (s : ast) (ip : Z) : ast :=
  MkA (net s) (arp_table s) (xmit_queue_table s) (arp_ctime s) (now s) (netifs s) (link_drop s) (armed s)
    (sent s) (dhcp_told s ++ [ip]).

Definition ip_addr_isany (a : Z) : bool := a =? 0.
Definition ip_addr_cmp (a b : Z) : bool := a =? b.
Definition ip_addr_maskcmp (a b mask : Z) : bool := Z.land a mask =? Z.land b mask.

(** time_before(a, b) on 32-bit times. *)
Definition time_before (a b : Z) : bool := s32 (a - b) <? 0.

(** ** Numbers in the bytes of a packet *)

Definition ld16 (m : cmem) (p : Z) : outcome Z := a ← ld m p; b ← ld m (p + 1); Ok (a + 256 * b).
Definition st16 (m : cmem) (p v : Z) : outcome cmem := m ← st m p (v mod 256); st m (p + 1) (v / 256 mod 256).
Definition ld32 (m : cmem) (p : Z) : outcome Z := a ← ld16 m p; b ← ld16 m (p + 2); Ok (a + 65536 * b).
Definition st32 (m : cmem) (p v : Z) : outcome cmem := m ← st16 m p (v mod 65536); st16 m (p + 2) (v / 65536).

(** for (i = i; i < i + n; i++) body *)
Fixpoint for_loop (n : nat) (i : Z) (body : Z -> cmem -> outcome cmem) (m : cmem) : outcome cmem :=
  match n with O => Ok m | S n => m ← body i m; for_loop n (i + 1) body m end.

(** The six bytes of an address in a packet. *)
Fixpoint ld_bytes (n : nat) (m : cmem) (p : Z) : outcome (list Z) :=
  match n with O => Ok [] | S n => b ← ld m p; l ← ld_bytes n m (p + 1); Ok (b :: l) end.

(** The offsets in the packed structures arp_hdr and ethip_hdr. *)
Definition eth_dest : Z := 0.
Definition eth_src : Z := 6.
Definition eth_type : Z := 12.
Definition ah_hwtype : Z := 14.
Definition ah_proto : Z := 16.
Definition ah_lens : Z := 18.
Definition ah_opcode : Z := 20.
Definition ah_shwaddr : Z := 22.
Definition ah_sipaddr : Z := 28.
Definition ah_dhwaddr : Z := 32.
Definition ah_dipaddr : Z := 38.
Definition ARP_HDR_SIZE : Z := 42.
Definition ip_src : Z := 26.

(** ARPH_HWLEN_SET and ARPH_PROTOLEN_SET. *)
Definition ARPH_HWLEN_SET (m : cmem) (hdr l : Z) : outcome cmem :=
  v ← ld16 m (hdr + ah_lens);
  st16 m (hdr + ah_lens) (htons (Z.lor (Z.land (ntohs v) 0xFF) (Z.shiftl l 8))).
Definition ARPH_PROTOLEN_SET (m : cmem) (hdr l : Z) : outcome cmem :=
  v ← ld16 m (hdr + ah_lens);
  st16 m (hdr + ah_lens) (htons (Z.lor l (Z.shiftl (Z.shiftr (ntohs v) 8) 8))).

(** ** The table *)

(** The index of the first element that satisfies [f]. *)
Fixpoint find_index {A} (f : A -> bool) (l : list A) : option nat :=
  match l with
  | [] => None
  | x :: l => if f x then Some O else S <$> find_index f l
  end.

(** The search for the oldest entry: [i] the index of the head of [l]. *)
Fixpoint oldest (ctime : Z) (l : list arp_entry) (i maxtime j : Z) : Z :=
  match l with
  | [] => j
  | e :: l =>
      if maxtime <? s32 (ctime - ae_ctime e) then oldest ctime l (i + 1) (s32 (ctime - ae_ctime e)) i
      else oldest ctime l (i + 1) maxtime j
  end.

(** The entry that is updated. *)
Definition find_entry (l : list arp_entry) (ip : Z) : option nat :=
  find_index (fun e => negb (ip_addr_isany (ae_ip e)) && ip_addr_cmp ip (ae_ip e)) l.

(** The entry a new address gets: an unused one, or else the oldest. *)
Definition find_slot (l : list arp_entry) (ctime : Z) : nat :=
  match find_index (fun e => ip_addr_isany (ae_ip e)) l with
  | Some i => i
  | None => Z.to_nat (oldest ctime l 0 0 0)
  end.

Definition arp_lookup (s : ast) (ip : Z) : option (list Z) :=
  match find_index (fun e => ip_addr_cmp ip (ae_ip e)) (arp_table s) with
  | Some i => ae_eth <$> arp_table s !! i
  | None => None
  end.

(** ** The operations *)

(** Ethernet header of an IP packet: destination, source and type. *)
Definition put_eth_header (m : cmem) (hdr : Z) (dest src : list Z) : outcome cmem :=
  m ← for_loop 6 0 (fun i m =>
        b ← aget dest i; m ← st m (hdr + eth_dest + i) b;
        c ← aget src i; st m (hdr + eth_src + i) c) m;
  st16 m (hdr + eth_type) (htons ETHTYPE_IP).

(** The delayed transmissions.  The loop that copies the addresses uses the index
    of the loop over the queue: after it [i] is 6. *)
Fixpoint send_delayed (n : nat) (tx : Z -> Z) (s : ast) (ip : Z) (eth : list Z) (i : Z) : outcome ast :=
  if ARP_XMIT_QUEUE_SIZE <=? i then Ok s
  else
    match n with
    | O => OutOfFuel
    | S n =>
        entry ← aget (xmit_queue_table s) i;
        if negb (xq_p entry =? NULL) && ip_addr_cmp (xq_ip entry) ip then
          let p := xq_p entry in
          x ← getp (net s) p;
          q ← aset (xmit_queue_table s) i (MkXq (xq_netif entry) NULL (xq_ip entry) (xq_expires entry));
          let s := set_queue s q in
          nif ← from_opt (netifs s !! xq_netif entry);
          m ← put_eth_header (nmem (net s)) (payload x) eth (nif_hw nif);
          let i := 6 in
          let s := log_sent (set_net s (set_nmem (net s) m)) (nif_state nif) p in
          s ← (if tx p <? 0 then '(_, t) ← pbuf_free (net s) p; Ok (set_net s t) else Ok s);
          send_delayed n tx s ip eth (i + 1)
        else send_delayed n tx s ip eth (i + 1)
    end.

Definition add_arp_entry (tx : Z -> Z) (s : ast) (ip : Z) (eth : list Z) : outcome ast :=
  match find_entry (arp_table s) ip with
  | Some i =>
      e ← from_opt (arp_table s !! i);
      Ok (set_table s (<[i := MkArp (ae_ip e) eth (arp_ctime s)]> (arp_table s)))
  | None =>
      let i := find_slot (arp_table s) (arp_ctime s) in
      let s := set_table s (<[i := MkArp ip eth (arp_ctime s)]> (arp_table s)) in
      send_delayed (Z.to_nat ARP_XMIT_QUEUE_SIZE) tx s ip eth 0
  end.

Definition arp_ip_input (tx : Z -> Z) (s : ast) (nif : Z) (p : Z) : outcome ast :=
  x ← getp (net s) p;
  let hdr := payload x in
  n ← from_opt (netifs s !! nif);
  src ← ld32 (nmem (net s)) (hdr + ip_src);
  if negb (ip_addr_maskcmp src (nif_ip n) (nif_mask n)) then Ok s
  else
    eth ← ld_bytes 6 (nmem (net s)) (hdr + eth_src);
    add_arp_entry tx s src eth.

(** The answer to a request, written over it. *)
Definition make_reply (m : cmem) (hdr ip : Z) (ethaddr : list Z) : outcome cmem :=
  m ← st16 m (hdr + ah_opcode) (htons ARP_REPLY);
  sip ← ld32 m (hdr + ah_sipaddr);
  m ← st32 m (hdr + ah_dipaddr) sip;
  m ← st32 m (hdr + ah_sipaddr) ip;
  m ← for_loop 6 0 (fun i m =>
        b ← ld m (hdr + ah_shwaddr + i); m ← st m (hdr + ah_dhwaddr + i) b;
        c ← aget ethaddr i; m ← st m (hdr + ah_shwaddr + i) c;
        d ← ld m (hdr + ah_dhwaddr + i); m ← st m (hdr + eth_dest + i) d;
        st m (hdr + eth_src + i) c) m;
  m ← st16 m (hdr + ah_hwtype) (htons HWTYPE_ETHERNET);
  m ← ARPH_HWLEN_SET m hdr 6;
  m ← st16 m (hdr + ah_proto) (htons ETHTYPE_IP);
  m ← ARPH_PROTOLEN_SET m hdr 4;
  st16 m (hdr + eth_type) (htons ETHTYPE_ARP).

(** The packet to send back, or NULL. *)
Definition arp_arp_input (tx : Z -> Z) (s : ast) (nif : Z) (ethaddr : list Z) (p : Z) : outcome (Z * ast) :=
  x ← getp (net s) p;
  let drop (s : ast) : outcome (Z * ast) := '(_, t) ← pbuf_free (net s) p; Ok (NULL, set_net s t) in
  if tot_len x <? ARP_HDR_SIZE then drop s
  else
    let hdr := payload x in
    n ← from_opt (netifs s !! nif);
    op ← ld16 (nmem (net s)) (hdr + ah_opcode);
    if htons op =? ARP_REQUEST then
      dip ← ld32 (nmem (net s)) (hdr + ah_dipaddr);
      if ip_addr_cmp dip (nif_ip n) then
        m ← make_reply (nmem (net s)) hdr (nif_ip n) ethaddr;
        Ok (p, set_net s (set_nmem (net s) m))
      else drop s
    else if htons op =? ARP_REPLY then
      dip ← ld32 (nmem (net s)) (hdr + ah_dipaddr);
      if ip_addr_cmp dip (nif_ip n) then
        sip ← ld32 (nmem (net s)) (hdr + ah_sipaddr);
        shw ← ld_bytes 6 (nmem (net s)) (hdr + ah_shwaddr);
        s ← add_arp_entry tx s sip shw;
        drop (log_dhcp s sip)
      else drop s
    else drop s.

(** The request, in a fresh buffer. *)
Definition make_query (m : cmem) (hdr sip dip : Z) (ethaddr : list Z) : outcome cmem :=
  m ← st16 m (hdr + ah_opcode) (htons ARP_REQUEST);
  m ← for_loop 6 0 (fun i m =>
        m ← st m (hdr + ah_dhwaddr + i) 0;
        c ← aget ethaddr i; st m (hdr + ah_shwaddr + i) c) m;
  m ← st32 m (hdr + ah_dipaddr) dip;
  m ← st32 m (hdr + ah_sipaddr) sip;
  m ← st16 m (hdr + ah_hwtype) (htons HWTYPE_ETHERNET);
  m ← ARPH_HWLEN_SET m hdr 6;
  m ← st16 m (hdr + ah_proto) (htons ETHTYPE_IP);
  m ← ARPH_PROTOLEN_SET m hdr 4;
  m ← for_loop 6 0 (fun i m =>
        m ← st m (hdr + eth_dest + i) 0xFF;
        c ← aget ethaddr i; st m (hdr + eth_src + i) c) m;
  st16 m (hdr + eth_type) (htons ETHTYPE_ARP).

(** [a]: what kmalloc returned. *)
Definition arp_query (s : ast) (nif : Z) (ethaddr : list Z) (ip a : Z) : outcome (Z * ast) :=
  '(p, t) ← pbuf_alloc (net s) PBUF_LINK ARP_HDR_SIZE PBUF_RW a;
  if p =? NULL then Ok (NULL, set_net s t)
  else
    x ← getp t p;
    n ← from_opt (netifs s !! nif);
    m ← make_query (nmem t) (payload x) (nif_ip n) ip ethaddr;
    Ok (p, set_net s (set_nmem t m)).

(** The entry for a new packet: an empty one, or else an expired one. *)
Definition queue_slot (l : list xmit_queue_entry) (t : Z) : option nat :=
  match find_index (fun e => xq_p e =? NULL) l with
  | Some i => Some i
  | None => find_index (fun e => time_before (xq_expires e) t) l
  end.

Definition arp_queue (s : ast) (nif p ip : Z) : outcome (Z * ast) :=
  match queue_slot (xmit_queue_table s) (now s) with
  | None => Ok (ENOMEM, count_drop s)
  | Some i =>
      entry ← from_opt (xmit_queue_table s !! i);
      s ← (if negb (xq_p entry =? NULL) then
             '(_, t) ← pbuf_free (net s) (xq_p entry); Ok (count_drop (set_net s t))
           else Ok s);
      Ok (0, set_queue s (<[i := MkXq nif p ip (u32 (now s + MAX_XMIT_DELAY / MSECS_PER_TICK))]> (xmit_queue_table s)))
  end.

Definition expire_entry (ctime : Z) (e : arp_entry) : arp_entry :=
  if negb (ip_addr_isany (ae_ip e)) && (ARP_MAXAGE <=? s32 (ctime - ae_ctime e))
  then MkArp IP_ADDR_ANY (ae_eth e) (ae_ctime e) else e.

(** The packets that waited too long, from entry [i] on. *)
Fixpoint expire_queue (n : nat) (s : ast) (i : Z) : outcome ast :=
  match n with
  | O => Ok s
  | S n =>
      entry ← aget (xmit_queue_table s) i;
      s ← (if negb (xq_p entry =? NULL) && time_before (xq_expires entry) (now s) then
             '(_, t) ← pbuf_free (net s) (xq_p entry);
             q ← aset (xmit_queue_table s) i (MkXq (xq_netif entry) NULL (xq_ip entry) (xq_expires entry));
             Ok (count_drop (set_queue (set_net s t) q))
           else Ok s);
      expire_queue n s (i + 1)
  end.

Definition arp_tmr (s : ast) : outcome ast :=
  let s := set_ctime s (s32 (arp_ctime s + 1)) in
  let s := set_table s (expire_entry (arp_ctime s) <$> arp_table s) in
  s ← expire_queue (Z.to_nat ARP_XMIT_QUEUE_SIZE) s 0;
  Ok (set_armed s).

Definition arp_init (s : ast) : ast :=
  let s := set_table s ((fun e => MkArp IP_ADDR_ANY (ae_eth e) (ae_ctime e)) <$> arp_table s) in
  set_armed (set_queue s (replicate (Z.to_nat ARP_XMIT_QUEUE_SIZE) (MkXq NULL NULL 0 0))).

(** ** The history of the table

    What a host has heard, the newest first: that [ip] has the hardware address
    [eth], or a tick of the timer. *)
Inductive heard := Heard (ip : Z) (eth : list Z) | Tick.

(** How many ticks ago [ip] was heard of last, and with which address. *)
Fixpoint last_heard (h : list heard) (ip : Z) : option (Z * list Z) :=
  match h with
  | [] => None
  | Heard ip' eth :: h => if decide (ip = ip') then Some (0, eth) else last_heard h ip
  | Tick :: h => '(a, eth) ← last_heard h ip; Some (a + 1, eth)
  end.

(** The addresses heard of in the current period of the timer and the [a] before. *)
Fixpoint heard_since (h : list heard) (a : nat) : gset Z :=
  match h with
  | [] => ∅
  | Heard ip _ :: h => {[ip]} ∪ heard_since h a
  | Tick :: h => match a with O => ∅ | S a => heard_since h a end
  end.

Fixpoint ticks_of (h : list heard) : Z :=
  match h with [] => 0 | Heard _ _ :: h => ticks_of h | Tick :: h => ticks_of h + 1 end.

Lemma last_heard_age h ip a eth : last_heard h ip = Some (a, eth) -> 0 <= a <= ticks_of h.
Proof.
  revert a. induction h as [|[ip' eth'|] h IH]; intros a; cbn [last_heard ticks_of]; [done| |].
  - case_decide.
    + intros [= <- <-]. clear. assert (0 <= ticks_of h); [|lia]. induction h as [|[]]; cbn; lia.
    + apply IH.
  - destruct (last_heard h ip) as [[a' eth1]|] eqn:E; [|done]. cbn. intros [= <- <-].
    specialize (IH a' eq_refl). lia.
Qed.

Lemma last_heard_since h ip a eth n : last_heard h ip = Some (a, eth) -> a <= Z.of_nat n -> ip ∈ heard_since h n.
Proof.
  revert a n. induction h as [|[ip' eth'|] h IH]; intros a n; cbn [last_heard heard_since]; [done| |].
  - case_decide; [set_solver|]. intros Ha Hn. apply elem_of_union_r. by eapply IH.
  - destruct (last_heard h ip) as [[a' eth1]|] eqn:E; [|done]. cbn. intros [= <- <-] Hn.
    pose proof (last_heard_age _ _ _ _ E). destruct n as [|n]; [lia|]. eapply IH; [done|lia].
Qed.

(** ** Searching lists *)

Lemma find_index_Some {A} (f : A -> bool) l i : find_index f l = Some i ->
  exists x, l !! i = Some x /\ f x = true /\ forall j y, (j < i)%nat -> l !! j = Some y -> f y = false.
Proof.
  revert i. induction l as [|x l IH]; intros i; cbn [find_index]; [done|]. destruct (f x) eqn:E.
  - intros [= <-]. exists x. split_and!; try done. intros; lia.
  - destruct (find_index f l) as [k|] eqn:Ek; [|done]. intros [= <-].
    destruct (IH k eq_refl) as (y & Hy & Hf & Hm). exists y. split_and!; [done|done|].
    intros [|j] z Hj; cbn; [by intros [= <-]|]. intros Hz. eapply Hm; [|done]. lia.
Qed.

Lemma find_index_None {A} (f : A -> bool) l : find_index f l = None -> forall i x, l !! i = Some x -> f x = false.
Proof.
  induction l as [|x l IH]; cbn [find_index]; [done|]. destruct (f x) eqn:E; [done|].
  destruct (find_index f l) eqn:Ek; [done|]. intros _ [|i] y; cbn; [by intros [= <-]|]. by apply IH.
Qed.

Lemma oldest_spec ctime l i maxtime j : 0 <= i -> 0 <= j ->
  let r := oldest ctime l i maxtime j in
  (r = j /\ Forall (fun e => s32 (ctime - ae_ctime e) <= maxtime) l) \/
  (exists e, i <= r /\ l !! Z.to_nat (r - i) = Some e /\ maxtime < s32 (ctime - ae_ctime e) /\
    Forall (fun e' => s32 (ctime - ae_ctime e') <= s32 (ctime - ae_ctime e)) l).
Proof.
  revert i maxtime j. induction l as [|e l IH]; intros i maxtime j Hi Hj; cbn [oldest]; cbv zeta.
  - by left.
  - destruct (Z.ltb_spec maxtime (s32 (ctime - ae_ctime e))) as [Hlt|Hge].
    + destruct (IH (i + 1) (s32 (ctime - ae_ctime e)) i ltac:(lia) ltac:(lia)) as [[-> Hall]|(e' & Hr & He & Hm & Hall)].
      * right. exists e. rewrite Z.sub_diag. split_and!; try done. by constructor.
      * right. exists e'. split; [lia|]. replace (Z.to_nat (oldest ctime l (i + 1) (s32 (ctime - ae_ctime e)) i - i))
          with (S (Z.to_nat (oldest ctime l (i + 1) (s32 (ctime - ae_ctime e)) i - (i + 1)))) by lia.
        split_and!; [done|lia|]. constructor; [lia|done].
    + destruct (IH (i + 1) maxtime j ltac:(lia) Hj) as [[-> Hall]|(e' & Hr & He & Hm & Hall)].
      * left. split; [done|]. by constructor.
      * right. exists e'. split; [lia|]. replace (Z.to_nat (oldest ctime l (i + 1) maxtime j - i))
          with (S (Z.to_nat (oldest ctime l (i + 1) maxtime j - (i + 1)))) by lia.
        split_and!; [done|lia|]. constructor; [lia|done].
Qed.

(** ** The table holds the recent part of the history *)

Record cache (h : list heard) (tbl : list arp_entry) (ctime : Z) : Prop := MkCache {
  ca_len : length tbl = Z.to_nat ARP_TABLE_SIZE;
  ca_ctime : ctime = ticks_of h /\ ctime < 2 ^ 31;
  ca_entry : forall i e, tbl !! i = Some e -> ae_ip e <> 0 ->
    last_heard h (ae_ip e) = Some (ctime - ae_ctime e, ae_eth e) /\ ctime - ae_ctime e < ARP_MAXAGE;
  ca_dist : forall i j e e', tbl !! i = Some e -> tbl !! j = Some e' -> ae_ip e <> 0 -> ae_ip e = ae_ip e' -> i = j;
  ca_kept : forall ip a eth, ip <> 0 -> last_heard h ip = Some (a, eth) -> a < ARP_MAXAGE ->
    (base.size (heard_since h (Z.to_nat a)) <= Z.to_nat ARP_TABLE_SIZE)%nat -> exists i e, tbl !! i = Some e /\ ae_ip e = ip }.

Lemma ticks_of_nonneg h : 0 <= ticks_of h.
Proof. induction h as [|[]]; cbn; lia. Qed.

Lemma entry_age h tbl ctime i e : cache h tbl ctime -> tbl !! i = Some e -> ae_ip e <> 0 ->
  s32 (ctime - ae_ctime e) = ctime - ae_ctime e /\ 0 <= ctime - ae_ctime e.
Proof.
  intros C He Hip. destruct (ca_entry _ _ _ C _ _ He Hip) as [Hl Ha]. pose proof (last_heard_age _ _ _ _ Hl).
  rewrite s32_small by (unfold ARP_MAXAGE in Ha; lia). lia.
Qed.

(** The slot of a new address is unused, or every entry is used and none is older. *)
Lemma find_slot_spec h tbl ctime : cache h tbl ctime ->
  exists e, tbl !! find_slot tbl ctime = Some e /\
    (ae_ip e = 0 \/ forall i e', tbl !! i = Some e' -> ae_ip e' <> 0 /\ ctime - ae_ctime e' <= ctime - ae_ctime e).
Proof.
  intros C. unfold find_slot. destruct (find_index _ tbl) as [i|] eqn:E.
  - destruct (find_index_Some _ _ _ E) as (e & He & Hz & _). exists e. split; [done|].
    left. apply Z.eqb_eq, Hz.
  - assert (forall i e, tbl !! i = Some e -> ae_ip e <> 0) as Hused.
    { intros i e He. apply Z.eqb_neq. by eapply (find_index_None _ _ E). }
    destruct (lookup_lt_is_Some_2 tbl O) as [e0 He0]; [rewrite (ca_len _ _ _ C); unfold ARP_TABLE_SIZE; lia|].
    destruct (oldest_spec ctime tbl 0 0 0 ltac:(lia) ltac:(lia)) as [[-> Hall]|(e & _ & He & _ & Hall)].
    + exists e0. split; [done|]. right. intros i e' He'. split; [by eapply Hused|].
      pose proof (Forall_lookup_1 _ _ _ _ Hall He') as Ho. cbv beta in Ho.
      destruct (entry_age _ _ _ _ _ C He' (Hused _ _ He')) as [Hs' ?].
      destruct (entry_age _ _ _ _ _ C He0 (Hused _ _ He0)). lia.
    + rewrite Z.sub_0_r in He. exists e. split; [done|]. right. intros i e' He'. split; [by eapply Hused|].
      pose proof (Forall_lookup_1 _ _ _ _ Hall He') as Ho. cbv beta in Ho.
      destruct (entry_age _ _ _ _ _ C He' (Hused _ _ He')). destruct (entry_age _ _ _ _ _ C He (Hused _ _ He)). lia.
Qed.

Lemma find_entry_Some tbl ip i : find_entry tbl ip = Some i -> exists e, tbl !! i = Some e /\ ae_ip e = ip /\ ip <> 0.
Proof.
  intros (e & He & Hf & _)%find_index_Some. exists e. apply andb_true_iff in Hf as [Hn Hc].
  unfold ip_addr_isany, ip_addr_cmp in *. split; [done|]. lia.
Qed.

Lemma find_entry_None tbl ip i e : find_entry tbl ip = None -> tbl !! i = Some e -> ae_ip e <> 0 -> ae_ip e <> ip.
Proof.
  intros Hf He Hn. pose proof (find_index_None _ _ Hf _ _ He) as Hx. cbv beta in Hx.
  unfold ip_addr_isany, ip_addr_cmp in Hx. lia.
Qed.

(** A full table of recent addresses and a new one are 33 addresses. *)
Lemma full_table_since h tbl ctime ip a eth : cache h tbl ctime -> 0 <= a ->
  (forall i e, tbl !! i = Some e -> ae_ip e <> 0 /\ ctime - ae_ctime e <= a /\ ae_ip e <> ip) ->
  (Z.to_nat ARP_TABLE_SIZE < base.size (heard_since (Heard ip eth :: h) (Z.to_nat a)))%nat.
Proof.
  intros C Ha Hall. set (l := ip :: (ae_ip <$> tbl)).
  assert (NoDup l) as Hnd.
  { apply NoDup_cons. split.
    - intros (e & -> & He)%list_elem_of_fmap. apply list_elem_of_lookup in He as [i He]. by apply (Hall i e He).
    - apply NoDup_alt. intros i j x Hi Hj.
      apply list_lookup_fmap_Some in Hi as (e & -> & He), Hj as (e' & Hx & He').
      eapply (ca_dist _ _ _ C); [exact He|exact He'|by apply (Hall i)|done]. }
  assert (list_to_set l ⊆ heard_since (Heard ip eth :: h) (Z.to_nat a)) as Hsub.
  { cbn [list_to_set heard_since l]. apply union_mono_l. intros x.
    rewrite elem_of_list_to_set. intros (e & -> & He)%list_elem_of_fmap. apply list_elem_of_lookup in He as [i He].
    destruct (Hall i e He) as (Hn & Hage & _). destruct (ca_entry _ _ _ C _ _ He Hn) as [Hl _].
    eapply last_heard_since; [done|lia]. }
  apply subseteq_size in Hsub. rewrite size_list_to_set in Hsub by done. unfold l in Hsub. cbn [length] in Hsub.
  rewrite length_fmap, (ca_len _ _ _ C) in Hsub. lia.
Qed.

Lemma last_heard_other h ip ip' eth : ip <> ip' -> last_heard (Heard ip' eth :: h) ip = last_heard h ip.
Proof. intros Hne. cbn [last_heard]. by rewrite decide_False. Qed.

Lemma last_heard_same h ip eth : last_heard (Heard ip eth :: h) ip = Some (0, eth).
Proof. cbn [last_heard]. by rewrite decide_True. Qed.

Lemma heard_since_grows h ip eth a : (base.size (heard_since h a) <= base.size (heard_since (Heard ip eth :: h) a))%nat.
Proof. apply subseteq_size. cbn [heard_since]. set_solver. Qed.

Lemma cache_update h tbl ctime ip eth i e : cache h tbl ctime -> tbl !! i = Some e -> ae_ip e = ip -> ip <> 0 ->
  cache (Heard ip eth :: h) (<[i := MkArp (ae_ip e) eth ctime]> tbl) ctime.
Proof.
  intros [Hlen Hct Hent Hdist Hkept] He Hip Hn. split.
  - by rewrite length_insert.
  - done.
  - intros j e' [(<- & <- & _)|(Hne & He')]%list_lookup_insert_Some Hn'; cbn [ae_ip ae_ctime ae_eth].
    + rewrite Hip, last_heard_same, Z.sub_diag. by split.
    + rewrite last_heard_other; [by eapply Hent|]. intros Hx. apply Hne. eapply Hdist; [exact He|exact He'|congruence..].
  - intros j k e1 e2 [(<- & <- & _)|(Hj & H1)]%list_lookup_insert_Some [(<- & <- & _)|(Hk & H2)]%list_lookup_insert_Some;
      cbn [ae_ip]; intros; [done| | |]; by eapply Hdist.
  - intros ip' a eth' Hn' Hl Ha Hs. destruct (decide (ip' = ip)) as [->|Hne].
    + exists i. eexists. split; [apply list_lookup_insert_eq; by eapply lookup_lt_Some|done].
    + rewrite last_heard_other in Hl by done. pose proof (heard_since_grows h ip eth (Z.to_nat a)).
      destruct (Hkept ip' a eth' Hn' Hl Ha ltac:(lia)) as (j & e' & He' & Hx). exists j, e'. split; [|done].
      rewrite list_lookup_insert_ne; [done|]. intros ->. congruence.
Qed.

Lemma cache_new h tbl ctime ip eth : cache h tbl ctime -> find_entry tbl ip = None ->
  cache (Heard ip eth :: h) (<[find_slot tbl ctime := MkArp ip eth ctime]> tbl) ctime.
Proof.
  intros C Hf. destruct (find_slot_spec _ _ _ C) as (e & He & Hold). set (i := find_slot tbl ctime) in *. clearbody i.
  pose proof C as [Hlen Hct Hent Hdist Hkept]. split.
  - by rewrite length_insert.
  - done.
  - intros j e' [(<- & <- & _)|(Hne & He')]%list_lookup_insert_Some Hn'; cbn [ae_ip ae_ctime ae_eth].
    + rewrite last_heard_same, Z.sub_diag. by split.
    + rewrite last_heard_other by by eapply find_entry_None. by eapply Hent.
  - intros j k e1 e2 [(<- & <- & _)|(Hj & H1)]%list_lookup_insert_Some [(<- & <- & _)|(Hk & H2)]%list_lookup_insert_Some;
      cbn [ae_ip]; intros Hn Hx; [done| | |].
    + exfalso. eapply find_entry_None; [exact Hf|exact H2|congruence|done].
    + exfalso. by eapply find_entry_None; [exact Hf|exact H1|..].
    + by eapply Hdist.
  - intros ip' a eth' Hn' Hl Ha Hs. destruct (decide (ip' = ip)) as [->|Hne].
    + exists i. eexists. split; [apply list_lookup_insert_eq; by eapply lookup_lt_Some|done].
    + rewrite last_heard_other in Hl by done. pose proof (heard_since_grows h ip eth (Z.to_nat a)).
      destruct (Hkept ip' a eth' Hn' Hl Ha ltac:(lia)) as (j & e' & He' & Hx).
      destruct (decide (i = j)) as [<-|Hij]; [|exists j, e'; by rewrite list_lookup_insert_ne].
      exfalso. assert (e' = e) as -> by congruence. destruct Hold as [|Hold]; [congruence|].
      destruct (Hent i e He ltac:(congruence)) as [Hle _]. rewrite Hx, Hl in Hle. injection Hle as -> ->.
      pose proof (last_heard_age _ _ _ _ Hl) as Hage.
      assert (Z.to_nat ARP_TABLE_SIZE < base.size (heard_since (Heard ip eth :: h) (Z.to_nat (ctime - ae_ctime e))))%nat; [|lia].
      eapply full_table_since; [done|lia|]. intros k e2 Hk. destruct (Hold k e2 Hk) as [Hu Hle2].
      split_and!; [done|done|]. by eapply find_entry_None.
Qed.

Lemma cache_tick h tbl ctime : cache h tbl ctime -> ctime + 1 < 2 ^ 31 ->
  cache (Tick :: h) (expire_entry (ctime + 1) <$> tbl) (ctime + 1).
Proof.
  intros C Hb. pose proof C as [Hlen Hct Hent Hdist Hkept].
  assert (forall i e', (expire_entry (ctime + 1) <$> tbl) !! i = Some e' -> ae_ip e' <> 0 ->
    tbl !! i = Some e' /\ ctime + 1 - ae_ctime e' < ARP_MAXAGE) as Hin.
  { intros i e' (e & -> & He)%list_lookup_fmap_Some Hn. unfold expire_entry in *.
    destruct (negb (ip_addr_isany (ae_ip e))) eqn:Ez; [|unfold ip_addr_isany in *; cbn in *; lia].
    assert (ae_ip e <> 0) as Hn0 by (unfold ip_addr_isany in *; lia).
    destruct (entry_age _ _ _ _ _ C He Hn0) as [Hs Hpos]. destruct (Hent i e He Hn0) as [_ Hage].
    rewrite s32_small in Hn |- * by (unfold ARP_MAXAGE in Hage; lia).
    destruct (Z.leb_spec ARP_MAXAGE (ctime + 1 - ae_ctime e)); cbn in *; [done|]. split; [done|lia]. }
  split.
  - by rewrite length_fmap.
  - cbn [ticks_of]. lia.
  - intros i e' He' Hn. destruct (Hin i e' He' Hn) as [He Hage]. destruct (Hent i e' He Hn) as [Hl _].
    cbn [last_heard]. rewrite Hl. cbn. split; [|done]. do 2 f_equal. lia.
  - intros i j e1 e2 H1 H2 Hn Hx. destruct (Hin _ _ H1 Hn) as [H1' _], (Hin _ _ H2 ltac:(congruence)) as [H2' _].
    by eapply Hdist.
  - intros ip a eth Hn Hl Ha Hs. cbn [last_heard] in Hl.
    destruct (last_heard h ip) as [[a' eth1]|] eqn:El; [|done]. cbn in Hl. injection Hl as <- <-.
    pose proof (last_heard_age _ _ _ _ El). replace (Z.to_nat (a' + 1)) with (S (Z.to_nat a')) in Hs by lia.
    cbn [heard_since] in Hs. destruct (Hkept ip a' eth1 Hn El ltac:(lia) Hs) as (i & e & He & Hx).
    exists i, e. split; [|done]. destruct (Hent i e He ltac:(congruence)) as [Hle _]. rewrite Hx, El in Hle.
    injection Hle as Hc _. rewrite list_lookup_fmap, He. cbn. f_equal. unfold expire_entry.
    rewrite s32_small by (unfold ARP_MAXAGE in *; lia).
    destruct (Z.leb_spec ARP_MAXAGE (ctime + 1 - ae_ctime e)); [lia|]. by rewrite andb_false_r.
Qed.

(** ** Releasing a packet leaves the headers of the others alone *)

(** Where the data of buffer [b] start. *)
Definition pay (t : nst) (b : Z) : option Z := payload <$> pbs t !! b.

Lemma pay_put t a x y b : pbs t !! a = Some x -> payload y = payload x -> pay (putp t a y) b = pay t b.
Proof.
  intros Hx Hp. unfold pay. cbn. destruct (decide (a = b)) as [<-|Hne].
  - rewrite lookup_insert_eq, Hx. cbn. by rewrite Hp.
  - by rewrite lookup_insert_ne.
Qed.

Lemma refresh_pay t t' b : pbuf_refresh t = Ok t' -> pay t' b = pay t b /\ nmem t' = nmem t.
Proof.
  unfold pbuf_refresh, link_last. intros E. repeat case_match; inv_ok; try done.
  split; [|done]. unfold getp in *. inv_ok. by eapply (pay_put _ _ _ (set_next _ _)).
Qed.

Lemma free_chain_pay n : forall t p c k r t' b, chain (pbs t) p c -> free_chain n t p k = Ok (r, t') -> b ∉ c ->
  pay t' b = pay t b /\ nmem t' = nmem t.
Proof.
  induction n as [|n IH]; intros t p c k r t' b Hc E Hb; cbn [free_chain] in E.
  all: destruct (Z.eqb_spec p NULL) as [->|Hp]; [by inv_ok|]; [..]; try done.
  destruct c as [|a c]; [by cbn in Hc|]. pose proof (chain_NoDup _ _ _ Hc) as Hnd. apply NoDup_cons in Hnd as [Hac _].
  destruct Hc as (-> & _ & x & Hx & Hc). unfold getp in E. rewrite Hx in E. cbn [from_opt mbind outcome_bind] in E.
  apply not_elem_of_cons in Hb as [Hba Hb].
  assert (forall t1, (exists v, pbs t1 = <[a := v]> (pbs t)) \/ pbs t1 = delete a (pbs t) -> nmem t1 = nmem t ->
    chain (pbs t1) (next x) c /\ pay t1 b = pay t b) as Hfr.
  { intros t1 [[v Hv]| Hv] _; unfold pay; rewrite Hv.
    - split; [by apply seg_put|]. by rewrite lookup_insert_ne.
    - split; [by apply seg_del|]. by rewrite lookup_delete_ne. }
  destruct (flags x =? PBUF_FLAG_POOL); [|destruct (flags x =? PBUF_FLAG_RO)];
    match type of E with free_chain n ?t1 _ _ = _ => destruct (Hfr t1) as [Hc1 Hp1]; [cbn; eauto|done|] end;
    destruct (IH _ _ _ _ _ _ _ Hc1 E Hb) as [-> ->]; by split.
Qed.

Lemma pbuf_free_pay t p c r t' b : chain (pbs t) p c -> pbuf_free t p = Ok (r, t') -> b ∉ c ->
  pay t' b = pay t b /\ nmem t' = nmem t.
Proof.
  intros Hc E Hbc. unfold pbuf_free in E. destruct (Z.eqb_spec p NULL) as [->|Hp]; [by inv_ok|].
  unfold getp in E. apply bind_Ok_inv in E as (x & Hx & E). apply from_opt_Ok in Hx.
  apply bind_Ok_inv in E as ([cnt t1] & E1 & E). inv_ok. destruct (refresh_pay _ _ b Hb) as [-> ->].
  assert (pay (putp t p (set_ref x (u16 (ref x - 1)))) b = pay t b) as Hpp by (by eapply pay_put).
  case_match; inv_ok; [|done].
  destruct (free_chain_pay _ (putp t p (set_ref x (u16 (ref x - 1)))) _ c _ _ _ b (seg_put_same _ _ _ _ _ _ (set_ref x (u16 (ref x - 1))) Hx eq_refl Hc) E1 Hbc)
    as [-> ->]. by rewrite Hpp.
Qed.

Lemma free_owned B t Cs p R : good B t Cs -> hd NULL <$> Cs ≡ₚ p :: R ->
  exists k t' Cs', pbuf_free t p = Ok (k, t') /\ good B t' Cs' /\
    (hd NULL <$> Cs' ≡ₚ R \/ hd NULL <$> Cs' ≡ₚ p :: R) /\ nmem t' = nmem t /\ forall q, q ∈ R -> pay t' q = pay t q.
Proof.
  intros G Hp. assert (p ∈ hd NULL <$> Cs) as Hin by (rewrite Hp; left).
  apply list_elem_of_fmap in Hin as (c & Hc & Hin). apply list_elem_of_lookup in Hin as [i Hi].
  destruct (held _ _ _ _ _ G Hi) as (P & A & a & c' & x & -> & Hx & I & Hne & Hperm). cbn in Hc. subst a.
  destruct (pbuf_free_ok _ _ _ _ _ _ _ _ I Hx) as (k & t' & P' & E & I').
  assert (R ≡ₚ hd NULL <$> delete i Cs) as HR.
  { apply (Permutation_cons_inv (a := p)). etrans; [symmetry; exact Hp|]. symmetry.
    exact (fmap_Permutation (hd NULL) _ _ Hperm). }
  pose proof I as [[_ _ _ Hch Hnd _] _]. apply Forall_cons in Hch as [Hch _].
  assert (forall q, q ∈ R -> q ∉ p :: c') as Hout.
  { intros q Hq Hqc. rewrite HR in Hq. apply list_elem_of_fmap in Hq as (d & -> & Hd).
    pose proof (proj1 (Forall_forall _ _) Hne d Hd) as Hd0. destruct d as [|q d]; [done|].
    apply NoDup_app in Hnd as (_ & _ & Hnd). apply NoDup_app in Hnd as (_ & _ & Hnd). cbn [concat app] in Hnd.
    change (NoDup ((p :: c') ++ concat (delete i Cs))) in Hnd. apply NoDup_app in Hnd as (_ & Hnd & _).
    apply (Hnd q Hqc). apply list_elem_of_In, in_concat. exists (q :: d). rewrite <- !list_elem_of_In. split; [done|left]. }
  destruct (pbuf_free_pay _ _ _ _ _ NULL Hch E) as [_ Hm].
  { intros H0. by destruct (seg_mapped _ _ _ _ _ Hch H0). }
  exists k, t', (if u16 (ref x - 1) =? 0 then delete i Cs else (p :: c') :: delete i Cs). split; [done|]. split; [|split; [|split]].
  - exists P', A. split; [done|]. case_match; [done|]. by constructor.
  - case_match; [left; done|right]. cbn. by rewrite HR.
  - done.
  - intros q Hq. by apply (pbuf_free_pay _ _ _ _ _ _ Hch E), Hout.
Qed.

(** ** Who owns the packets

    [H]: the packets of the users of this file; [Q]: those that wait here.  Others
    belong to the drivers. *)
Definition owned (t : nst) (H Q : list Z) : Prop :=
  exists B Cs G, good B t Cs /\ hd NULL <$> Cs ≡ₚ H ++ Q ++ G.

Lemma owned_perm t H Q H' Q' : H ++ Q ≡ₚ H' ++ Q' -> owned t H Q -> owned t H' Q'.
Proof. intros Hp (B & Cs & G & Hg & Hh). exists B, Cs, G. split; [done|]. by rewrite Hh, !app_assoc, Hp. Qed.

Lemma owned_give t H p Q : owned t H (p :: Q) -> owned t H Q.
Proof.
  intros (B & Cs & G & Hg & Hh). exists B, Cs, (p :: G). split; [done|]. rewrite Hh. solve_Permutation.
Qed.

Lemma owned_free t H p Q : owned t H (p :: Q) ->
  exists k t', pbuf_free t p = Ok (k, t') /\ owned t' H Q /\ nmem t' = nmem t /\
    forall q, q ∈ H ++ Q -> pay t' q = pay t q.
Proof.
  intros (B & Cs & G & Hg & Hh).
  destruct (free_owned B t Cs p (H ++ Q ++ G) Hg) as (k & t' & Cs' & E & Hg' & Hh' & Hm & Hf).
  { rewrite Hh. solve_Permutation. }
  exists k, t'. split; [done|]. split; [|split; [done|]].
  - destruct Hh' as [Hh'|Hh'].
    + by exists B, Cs', G.
    + exists B, Cs', (p :: G). split; [done|]. rewrite Hh'. solve_Permutation.
  - intros q Hq. apply Hf. rewrite app_assoc, elem_of_app. by left.
Qed.

Lemma owned_nmem t H Q m : owned t H Q -> owned (set_nmem t m) H Q.
Proof.
  intros (B & Cs & G & (P & A & I & Hne) & Hh). exists B, Cs, G. split; [|done]. exists P, A.
  split; [by apply pinv_nmem|done].
Qed.

(** Heads of chains are distinct and not NULL. *)
Lemma owned_NoDup t H Q : owned t H Q -> NoDup (H ++ Q) /\ NULL ∉ H ++ Q /\ forall q, q ∈ H ++ Q -> is_Some (pay t q).
Proof.
  intros (B & Cs & G & (P & A & [[_ _ _ Hch Hnd _] _] & Hne) & Hh).
  apply NoDup_app in Hnd as (_ & _ & Hnd). apply NoDup_app in Hnd as (_ & _ & Hnd). cbn [app] in Hnd.
  assert (NoDup (hd NULL <$> Cs) /\ (forall q, q ∈ hd NULL <$> Cs -> q <> NULL /\ is_Some (pay t q) /\ q ∈ concat Cs)) as [Hn He].
  { clear Hh. induction Cs as [|c Cs IH]; [split; [constructor|set_solver]|].
    apply Forall_cons in Hch as [Hc Hch], Hne as [Hc0 Hne]. cbn [concat] in Hnd. apply NoDup_app in Hnd as (_ & Hd & Hnd).
    destruct (IH Hch Hnd Hne) as [IH1 IH2]. destruct c as [|a c]; [done|]. cbn [fmap list_fmap hd concat] in *.
    destruct Hc as (_ & Ha0 & x & Hx & _). split.
    - apply NoDup_cons. split; [|done]. intros Hin. destruct (IH2 a Hin) as (_ & _ & Hcc). by apply (Hd a); [left|].
    - intros q [->|Hq]%elem_of_cons.
      + split_and!; [done|unfold pay; rewrite Hx; by eexists|left].
      + destruct (IH2 q Hq) as (? & ? & ?). split_and!; [done|done|]. cbn. right. apply elem_of_app. by right. }
  rewrite Hh in Hn. rewrite app_assoc in Hn. apply NoDup_app in Hn as (Hn & _ & _). split; [done|]. split.
  - intros H0. destruct (He NULL) as [? _]; [|done]. rewrite Hh, app_assoc, elem_of_app. by left.
  - intros q Hq. apply He. rewrite Hh, app_assoc, elem_of_app. by left.
Qed.

(** ** Writing into packets *)

Definition mapped (m : cmem) (p n : Z) : Prop := forall j, 0 <= j < n -> is_Some (m !! (p + j)).

(** A store into the bytes [bs] at [hdr], then [f]. *)
Lemma st_then (m0 m : cmem) hdr bs k a v (f : cmem -> outcome cmem) (Q : outcome cmem -> Prop) :
  bytes_at m hdr bs -> same_outside m0 m hdr (Z.of_nat (length bs)) -> a = hdr + Z.of_nat k -> (k < length bs)%nat ->
  (forall m', bytes_at m' hdr (<[k := v]> bs) -> same_outside m0 m' hdr (Z.of_nat (length bs)) -> Q (f m')) ->
  Q (mbind f (st m a v)).
Proof.
  intros Hb Ho -> Hk Hf. pose proof Hb as Hb'. rewrite bytes_at_lookup in Hb'.
  unfold st. rewrite (Hb' (Z.of_nat k)) by lia. destruct (lookup_lt_is_Some_2 bs k Hk) as [b Hbk].
  rewrite Nat2Z.id, Hbk. cbn [from_opt mbind outcome_bind]. apply Hf.
  - apply bytes_at_lookup. intros i Hi. rewrite length_insert in Hi. destruct (decide (i = Z.of_nat k)) as [->|Hne].
    + rewrite lookup_insert_eq, Nat2Z.id, list_lookup_insert_eq; [done|lia].
    + rewrite lookup_insert_ne by lia. rewrite Hb' by lia. rewrite list_lookup_insert_ne; [done|lia].
  - intros q Hq. rewrite lookup_insert_ne by lia. by apply Ho.
Qed.

Lemma ld_then (m : cmem) hdr bs k a b {A} (f : Z -> outcome A) (Q : outcome A -> Prop) :
  bytes_at m hdr bs -> a = hdr + Z.of_nat k -> bs !! k = Some b -> Q (f b) -> Q (mbind f (ld m a)).
Proof.
  intros Hb -> Hk Hf. rewrite bytes_at_lookup in Hb. unfold ld. pose proof (lookup_lt_Some _ _ _ Hk).
  rewrite Hb by lia. rewrite Nat2Z.id, Hk. done.
Qed.

Lemma bind_assoc {A B C} (m : outcome A) (f : A -> outcome B) (g : B -> outcome C) :
  mbind g (mbind f m) = mbind (fun x => mbind g (f x)) m.
Proof. by destruct m. Qed.

Lemma bind_ret {A} (m : outcome A) : m = mbind Ok m.
Proof. by destruct m. Qed.

(** [r] is the memory [m] with the bytes at [hdr] changed to [bs]. *)
Definition written (m : cmem) (hdr : Z) (bs : list Z) (r : outcome cmem) : Prop :=
  exists m', r = Ok m' /\ bytes_at m' hdr bs /\ same_outside m m' hdr (Z.of_nat (length bs)).

Lemma written_done m m' hdr bs bs' : bytes_at m' hdr bs -> same_outside m m' hdr (Z.of_nat (length bs)) -> bs = bs' ->
  written m hdr bs' (Ok m').
Proof. intros ?? <-. by exists m'. Qed.

(** The offset of the address [a] from [hdr]. *)
Ltac offset hdr a :=
  match a with
  | hdr => constr:(0)
  | ?b + ?c => let ob := offset hdr b in let r := eval vm_compute in (ob + c) in constr:(r)
  end.

Ltac offset_lia :=
  unfold eth_dest, eth_src, eth_type, ah_hwtype, ah_proto, ah_lens, ah_opcode, ah_shwaddr, ah_sipaddr, ah_dhwaddr,
    ah_dipaddr, ip_src; lia.

(** Symbolic execution of the code that writes the header at [hdr]. *)
Ltac mem_step hdr :=
  match goal with
  | |- _ (mbind _ (mbind _ _)) => rewrite bind_assoc
  | |- _ (mbind _ (Ok _)) => rewrite bind_Ok
  | |- _ (mbind _ (aget ?l ?i)) =>
      let r := eval lazy in (l !! Z.to_nat i) in
      match r with Some ?b => change (aget l i) with (Ok b) end
  | |- _ (mbind _ (st ?m ?a ?v)) =>
      let k := offset hdr a in let k := eval vm_compute in (Z.to_nat k) in
      eapply (st_then _ m hdr _ k a v); [eassumption|eassumption|offset_lia|cbn; lia|];
      let m' := fresh "m" in let Hb := fresh "Hb" in let Ho := fresh "Ho" in
      intros m' Hb Ho; cbn [insert list_insert] in Hb;
      match goal with H1 : bytes_at m hdr _, H2 : same_outside _ m hdr _ |- _ => clear H1 H2 end; cbv beta
  | |- _ (mbind _ (ld ?m ?a)) =>
      let k := offset hdr a in let k := eval vm_compute in (Z.to_nat k) in
      eapply (ld_then m hdr _ k a); [eassumption|offset_lia|reflexivity|]; cbv beta
  | |- _ (st _ _ _) => rewrite (bind_ret (st _ _ _))
  end.

Lemma mapped_bytes m p n : mapped m p (Z.of_nat n) -> exists bs, length bs = n /\ bytes_at m p bs.
Proof.
  revert p. induction n as [|n IH]; intros p Hm; [by exists []|].
  destruct (IH (p + 1)) as (bs & Hl & Hb).
  { intros j Hj. replace (p + 1 + j) with (p + (j + 1)) by lia. apply Hm. lia. }
  destruct (Hm 0 ltac:(lia)) as [b Hb0]. exists (b :: bs). cbn [length bytes_at].
  rewrite Z.add_0_r in Hb0. by rewrite Hl.
Qed.

Lemma same_outside_refl m p n : same_outside m m p n.
Proof. by intros q Hq. Qed.

(** The elements of a list whose length is known to be [n]. *)
Tactic Notation "explode" ident(l) integer(n) :=
  do n (destruct l as [|? l]; [discriminate|]); destruct l; [|discriminate].

Lemma put_eth_header_ok m hdr dest src : mapped m hdr 14 -> length dest = 6%nat -> length src = 6%nat ->
  written m hdr (dest ++ src ++ [8; 0]) (put_eth_header m hdr dest src).
Proof.
  intros Hm Hd Hs. destruct (mapped_bytes m hdr 14 Hm) as (bs & Hl & Hb).
  pose proof (same_outside_refl m hdr (Z.of_nat (length bs))) as Ho.
  explode bs 14. explode dest 6. explode src 6. clear Hm Hl Hd Hs.
  unfold put_eth_header, st16. cbn [for_loop]. repeat mem_step hdr.
  eapply written_done; [eassumption..|reflexivity].
Qed.

(** ** The packets of RFC 826 *)

(** An address in network byte order. *)
Definition addr_bytes (ip : Z) : list Z := [ip mod 256; ip / 256 mod 256; ip / 65536 mod 256; ip / 16777216 mod 256].

(** Ethernet header; hardware type 1, protocol 0x800, address lengths 6 and 4,
    operation; hardware and protocol address of sender and target. *)
Definition arp_frame (edst esrc : list Z) (op : Z) (shw : list Z) (sip : Z) (thw : list Z) (tip : Z) : list Z :=
  edst ++ esrc ++ [8; 6] ++ [0; 1] ++ [8; 0] ++ [6; 4] ++ [0; op] ++ shw ++ addr_bytes sip ++ thw ++ addr_bytes tip.

Definition is_addr (ip : Z) : Prop := 0 <= ip < 2 ^ 32.

Lemma addr_split ip : is_addr ip ->
  ip mod 65536 mod 256 = ip mod 256 /\ ip mod 65536 / 256 mod 256 = ip / 256 mod 256 /\
  ip / 65536 / 256 mod 256 = ip / 16777216 mod 256 /\
  ip mod 256 + 256 * (ip / 256 mod 256) + 65536 * (ip / 65536 mod 256 + 256 * (ip / 16777216 mod 256)) = ip.
Proof. unfold is_addr. intros Hi. split_and!; Z.to_euclidean_division_equations; lia. Qed.

Lemma map_zeros_bytes n m p : bytes_at (map_zeros n m p) p (replicate n 0).
Proof.
  revert p. induction n as [|n IH]; intros p; cbn [map_zeros replicate bytes_at]; [done|].
  split; [apply lookup_insert_eq|]. apply (bytes_at_frame (map_zeros n m (p + 1)) _ p 1); [apply IH| |lia].
  intros q Hq. apply lookup_insert_ne. lia.
Qed.

Lemma make_query_ok m hdr hw sip dip : bytes_at m hdr (replicate 42 0) -> length hw = 6%nat -> is_addr sip -> is_addr dip ->
  written m hdr (arp_frame (replicate 6 255) hw ARP_REQUEST hw sip (replicate 6 0) dip) (make_query m hdr sip dip hw).
Proof.
  intros Hb Hh Hs Hd. pose proof (same_outside_refl m hdr (Z.of_nat (length (replicate 42 0)))) as Ho.
  explode hw 6. clear Hh. destruct (addr_split sip Hs) as (S1 & S2 & S3 & _), (addr_split dip Hd) as (D1 & D2 & D3 & _).
  cbn [replicate] in Hb. unfold make_query, ARPH_HWLEN_SET, ARPH_PROTOLEN_SET, st32, ld16, st16. cbn [for_loop].
  repeat mem_step hdr. eapply written_done; [eassumption..|].
  unfold arp_frame, addr_bytes. cbn [replicate app]. rewrite S1, S2, S3, D1, D2, D3. reflexivity.
Qed.

Lemma make_reply_ok m hdr edst esrc shw sip thw dip hw :
  bytes_at m hdr (arp_frame edst esrc ARP_REQUEST shw sip thw dip) ->
  length edst = 6%nat -> length esrc = 6%nat -> length shw = 6%nat -> length thw = 6%nat -> length hw = 6%nat ->
  is_addr sip -> is_addr dip ->
  written m hdr (arp_frame shw hw ARP_REPLY hw dip shw sip) (make_reply m hdr dip hw).
Proof.
  intros Hb H1 H2 H3 H4 H5 Hs Hd.
  pose proof (same_outside_refl m hdr (Z.of_nat (length (arp_frame edst esrc ARP_REQUEST shw sip thw dip)))) as Ho.
  explode edst 6. explode esrc 6. explode shw 6. explode thw 6. explode hw 6. clear H1 H2 H3 H4 H5.
  destruct (addr_split sip Hs) as (S1 & S2 & S3 & S4), (addr_split dip Hd) as (D1 & D2 & D3 & _).
  unfold arp_frame, addr_bytes in Hb, Ho |- *. cbn [app] in Hb, Ho.
  unfold make_reply, ARPH_HWLEN_SET, ARPH_PROTOLEN_SET, ld32, st32, ld16, st16. cbn [for_loop].
  repeat mem_step hdr. eapply written_done; [eassumption..|].
  cbn [app]. rewrite S4, S1, S2, S3, D1, D2, D3. reflexivity.
Qed.

(** ** The packets that wait *)

Definition waiting (p : Z) : bool := negb (p =? NULL).
Definition queued (q : list xmit_queue_entry) : list Z := List.filter waiting (xq_p <$> q).

(** The entry without its packet. *)
Definition emptied (e : xmit_queue_entry) : xmit_queue_entry := MkXq (xq_netif e) NULL (xq_ip e) (xq_expires e).

(** A packet that waits has room for the Ethernet header and an interface. *)
Definition entry_ok (ns : gmap Z netif) (t : nst) (e : xmit_queue_entry) : Prop :=
  xq_p e <> NULL ->
  (exists n, ns !! xq_netif e = Some n /\ length (nif_hw n) = 6%nat) /\
  (exists a, pay t (xq_p e) = Some a /\ mapped (nmem t) a 14).

Record aok (s : ast) (H : list Z) : Prop := MkAok {
  ok_len : length (xmit_queue_table s) = Z.to_nat ARP_XMIT_QUEUE_SIZE;
  ok_own : owned (net s) H (queued (xmit_queue_table s));
  ok_entry : Forall (entry_ok (netifs s) (net s)) (xmit_queue_table s) }.

Lemma queued_insert q i e e' : q !! i = Some e ->
  exists R, queued q ≡ₚ (if waiting (xq_p e) then [xq_p e] else []) ++ R /\
    queued (<[i := e']> q) ≡ₚ (if waiting (xq_p e') then [xq_p e'] else []) ++ R.
Proof.
  intros He. exists (queued (take i q) ++ queued (drop (S i) q)).
  rewrite insert_take_drop by (by eapply lookup_lt_Some). rewrite <- (take_drop_middle q i e He) at 1.
  unfold queued. rewrite !fmap_app, !List.filter_app. cbn [fmap list_fmap List.filter].
  split; destruct (waiting _); cbn; solve_Permutation.
Qed.

Lemma waiting_spec p : reflect (p <> NULL) (waiting p).
Proof. unfold waiting. destruct (Z.eqb_spec p NULL); cbn; constructor; [|done]. intros ?. done. Qed.

(** A packet leaves the queue. *)
Lemma queued_take q i e : q !! i = Some e -> xq_p e <> NULL -> queued q ≡ₚ xq_p e :: queued (<[i := emptied e]> q).
Proof.
  intros He Hp. destruct (queued_insert q i e (emptied e) He) as (R & H1 & H2).
  destruct (waiting_spec (xq_p e)); [|done]. cbn in H1, H2. by rewrite H1, H2.
Qed.

Lemma queued_put q i e e' : q !! i = Some e -> xq_p e = NULL -> xq_p e' <> NULL ->
  queued (<[i := e']> q) ≡ₚ xq_p e' :: queued q.
Proof.
  intros He Hp Hp'. destruct (queued_insert q i e e' He) as (R & H1 & H2). rewrite Hp in H1. cbn in H1.
  destruct (waiting_spec (xq_p e')); [|done]. cbn in H2. by rewrite H2, H1.
Qed.

Lemma queued_elem q e : e ∈ q -> xq_p e <> NULL -> xq_p e ∈ queued q.
Proof.
  intros He Hp. unfold queued. apply list_elem_of_In, filter_In. split; [|by destruct (waiting_spec (xq_p e))].
  apply list_elem_of_In, list_elem_of_fmap_2, He.
Qed.

Lemma mapped_written m m' hdr bs a n : bytes_at m' hdr bs -> same_outside m m' hdr (Z.of_nat (length bs)) ->
  mapped m a n -> mapped m' a n.
Proof.
  intros Hb Ho Hm j Hj. destruct (decide (hdr <= a + j < hdr + Z.of_nat (length bs))) as [Hin|Hout].
  - rewrite bytes_at_lookup in Hb. replace (a + j) with (hdr + (a + j - hdr)) by lia. rewrite Hb by lia.
    apply lookup_lt_is_Some_2. lia.
  - rewrite Ho by lia. by apply Hm.
Qed.

(** The entries of a queue stay in order when the packets keep their places. *)
Lemma entries_keep ns t t' q : Forall (entry_ok ns t) q ->
  (forall e, e ∈ q -> xq_p e <> NULL -> pay t' (xq_p e) = pay t (xq_p e)) ->
  (forall a n, mapped (nmem t) a n -> mapped (nmem t') a n) -> Forall (entry_ok ns t') q.
Proof.
  rewrite !Forall_forall. intros Hq Hp Hm e He Hne. destruct (Hq e He Hne) as [Hn (a & Ha & Hr)]. split; [done|].
  exists a. rewrite Hp by done. split; [done|]. by apply Hm.
Qed.

Lemma entries_insert ns t q i e : Forall (entry_ok ns t) q -> entry_ok ns t e -> Forall (entry_ok ns t) (<[i := e]> q).
Proof. intros. by apply Forall_insert. Qed.

Lemma emptied_ok ns t e : entry_ok ns t (emptied e).
Proof. by intros H. Qed.

(** A waiting packet is released. *)
Lemma free_waiting s H i e : aok s H -> xmit_queue_table s !! i = Some e -> xq_p e <> NULL ->
  let q := <[i := emptied e]> (xmit_queue_table s) in
  exists k t, pbuf_free (net s) (xq_p e) = Ok (k, t) /\ aok (set_queue (set_net s t) q) H /\
    nmem t = nmem (net s) /\ (forall p, p ∈ H -> pay t p = pay (net s) p) /\ owned t H (queued q).
Proof.
  intros [Hl Ho He] Hi Hp q. pose proof (queued_take _ _ _ Hi Hp) as Hq. fold q in Hq.
  assert (owned (net s) H (xq_p e :: queued q)) as Ho1 by (eapply owned_perm; [|exact Ho]; by rewrite Hq).
  destruct (owned_free _ _ _ _ Ho1) as (k & t & E & Ho2 & Hm & Hf). exists k, t. split; [done|].
  split; [|split_and!; [done| |done]; intros p Hpp; apply Hf, elem_of_app; by left].
  split; cbn [xmit_queue_table set_queue set_net net netifs]; [unfold q; by rewrite length_insert|done|].
  apply (entries_keep _ (net s)).
  - apply entries_insert; [done|apply emptied_ok].
  - intros e' He' Hp'. apply Hf. apply elem_of_app. right. by apply queued_elem.
  - intros a n. by rewrite Hm.
Qed.

Lemma aok_same s s' H : aok s H -> net s' = net s -> xmit_queue_table s' = xmit_queue_table s -> netifs s' = netifs s -> aok s' H.
Proof. intros [] E1 E2 E3. split; by rewrite ?E1, ?E2, ?E3. Qed.

(** What the table and the clock of a state are is not changed. *)
Definition same_table (s s' : ast) : Prop :=
  arp_table s' = arp_table s /\ arp_ctime s' = arp_ctime s /\ netifs s' = netifs s /\ now s' = now s.

(** The first packet that waits for [ip]. *)
Definition waits_for (ip : Z) (e : xmit_queue_entry) : bool := negb (xq_p e =? NULL) && ip_addr_cmp (xq_ip e) ip.

(** The packet of entry [i] is sent. *)
Definition send_one (tx : Z -> Z) (s : ast) (eth : list Z) (i : nat) : outcome ast :=
  entry ← from_opt (xmit_queue_table s !! i);
  let p := xq_p entry in
  x ← getp (net s) p;
  let s := set_queue s (<[i := emptied entry]> (xmit_queue_table s)) in
  nif ← from_opt (netifs s !! xq_netif entry);
  m ← put_eth_header (nmem (net s)) (payload x) eth (nif_hw nif);
  let s := log_sent (set_net s (set_nmem (net s) m)) (nif_state nif) p in
  if tx p <? 0 then '(_, t) ← pbuf_free (net s) p; Ok (set_net s t) else Ok s.

(** The loop sends one packet: the first that waits for the address. *)
Lemma send_delayed_first tx s ip eth : length (xmit_queue_table s) = Z.to_nat ARP_XMIT_QUEUE_SIZE ->
  send_delayed (Z.to_nat ARP_XMIT_QUEUE_SIZE) tx s ip eth 0 =
  match find_index (waits_for ip) (xmit_queue_table s) with Some i => send_one tx s eth i | None => Ok s end.
Proof.
  intros Hl. change (Z.to_nat ARP_XMIT_QUEUE_SIZE) with 4%nat in *.
  assert (forall n i, (i < 4)%nat -> n = (4 - i)%nat ->
    send_delayed n tx s ip eth (Z.of_nat i) =
    match find_index (waits_for ip) (drop i (xmit_queue_table s)) with Some k => send_one tx s eth (i + k) | None => Ok s end) as Hgen.
  { induction n as [|n IH]; intros i Hi Hn; [lia|].
    destruct (lookup_lt_is_Some_2 (xmit_queue_table s) i ltac:(lia)) as [e He].
    cbn [send_delayed]. destruct (Z.leb_spec ARP_XMIT_QUEUE_SIZE (Z.of_nat i)); [unfold ARP_XMIT_QUEUE_SIZE in *; lia|].
    unfold aget at 1. destruct (Z.leb_spec 0 (Z.of_nat i)); [|lia]. rewrite Nat2Z.id, He. cbn [from_opt mbind outcome_bind].
    rewrite (drop_S _ _ _ He). cbn [find_index]. unfold waits_for at 1. destruct (negb _ && _) eqn:Hw.
    - rewrite Nat.add_0_r. unfold send_one. rewrite He. cbn [from_opt mbind outcome_bind].
      destruct (getp (net s) (xq_p e)) as [x| | |]; try done. cbn [mbind outcome_bind].
      rewrite aset_Ok by lia. rewrite Nat2Z.id. cbn [mbind outcome_bind]. fold (emptied e).
      destruct (from_opt _) as [nf| | |]; try done. cbn [mbind outcome_bind].
      destruct (put_eth_header _ _ _ _) as [m| | |]; try done. cbn [mbind outcome_bind].
      assert (forall s', send_delayed n tx s' ip eth (6 + 1) = Ok s') as Hend by (by destruct n).
      destruct (tx (xq_p e) <? 0); [|apply Hend].
      destruct (pbuf_free _ _) as [[k t]| | |]; try done. apply Hend.
    - destruct (decide (i = 3%nat)) as [->|Hi3].
      + assert (n = O) as -> by lia. rewrite (drop_ge _ 4) by lia. done.
      + replace (Z.of_nat i + 1) with (Z.of_nat (S i)) by lia. rewrite IH by lia. destruct (find_index _ (drop (S i) _)); [|done].
        cbn. by rewrite Nat.add_succ_r. }
  exact (Hgen 4%nat 0%nat ltac:(lia) ltac:(lia)).
Qed.

Lemma send_one_ok tx s H eth i e : aok s H -> xmit_queue_table s !! i = Some e -> xq_p e <> NULL -> length eth = 6%nat ->
  exists s' nif a, send_one tx s eth i = Ok s' /\ aok s' H /\ same_table s s' /\
    netifs s !! xq_netif e = Some nif /\ pay (net s) (xq_p e) = Some a /\
    sent s' = sent s ++ [(nif_state nif, xq_p e)] /\ dhcp_told s' = dhcp_told s /\ link_drop s' = link_drop s /\
    xmit_queue_table s' = <[i := emptied e]> (xmit_queue_table s) /\
    (forall p, p ∈ H -> pay (net s') p = pay (net s) p) /\
    bytes_at (nmem (net s')) a (eth ++ nif_hw nif ++ [8; 0]) /\ same_outside (nmem (net s)) (nmem (net s')) a 14.
Proof.
  intros K Hi Hp Hl. pose proof K as [Hq Ho He].
  destruct (Forall_lookup_1 _ _ _ _ He Hi Hp) as [(nif & Hn & Hh) (a & Ha & Hr)].
  unfold send_one. rewrite Hi. cbn [from_opt mbind outcome_bind]. unfold pay in Ha. unfold getp.
  destruct (pbs (net s) !! xq_p e) as [x|] eqn:Hx; [|done]. cbn in Ha. injection Ha as Ha.
  cbn [from_opt mbind outcome_bind netifs set_queue]. rewrite Hn. cbn [from_opt mbind outcome_bind].
  rewrite Ha. cbn [net set_queue].
  destruct (put_eth_header_ok (nmem (net s)) a eth (nif_hw nif) Hr Hl Hh) as (m & -> & Hb & Hso). cbn [mbind outcome_bind].
  rewrite !length_app, Hl, Hh in Hso. cbn [length Nat.add Z.of_nat] in Hso.
  set (s1 := set_queue s (<[i := emptied e]> (xmit_queue_table s))).
  set (s2 := log_sent (set_net s1 (set_nmem (net s1) m)) (nif_state nif) (xq_p e)).
  set (s0 := set_net s (set_nmem (net s) m)).
  assert (aok s0 H) as K0.
  { split; [done|by apply owned_nmem|]. cbn [xmit_queue_table net netifs s0 set_net].
    apply (entries_keep _ (net s)); [done|done|]. intros b n. apply (mapped_written _ _ a (eth ++ nif_hw nif ++ [8; 0])); [done|].
    rewrite !length_app, Hl, Hh. exact Hso. }
  assert (pay (net s) (xq_p e) = Some a) as Hpa by (unfold pay; rewrite Hx; cbn; by rewrite Ha).
  destruct (free_waiting s0 H i e K0 Hi Hp) as (k & t & E & K1 & Hm & Hpay & _).
  destruct (tx (xq_p e) <? 0).
  - change (pbuf_free _ (xq_p e)) with (pbuf_free (net s0) (xq_p e)). rewrite E. cbn [mbind outcome_bind].
    exists (set_net s2 t), nif, a. split_and!; try done.
    + apply (aok_same _ _ _ K1); done.
    + cbn [net set_net]. by rewrite Hm.
    + cbn [net set_net]. by rewrite Hm.
  - exists s2, nif, a. split_and!; try done.
    destruct K0 as [_ Ho0 He0]. split; cbn [xmit_queue_table set_queue set_net log_sent s2 s1 net netifs].
    + by rewrite length_insert.
    + apply (owned_give _ _ (xq_p e)). eapply owned_perm; [|exact Ho0]. by rewrite <- (queued_take _ _ _ Hi Hp).
    + apply entries_insert; [exact He0|apply emptied_ok].
Qed.

(** ** The operations return and keep the invariants *)

Lemma aok_table s H tbl : aok s H -> aok (set_table s tbl) H.
Proof. intros K. by apply (aok_same s). Qed.

Lemma add_arp_entry_ok tx s H h ip eth : aok s H -> cache h (arp_table s) (arp_ctime s) -> length eth = 6%nat ->
  exists s', add_arp_entry tx s ip eth = Ok s' /\ aok s' H /\ cache (Heard ip eth :: h) (arp_table s') (arp_ctime s') /\
    netifs s' = netifs s /\ now s' = now s /\ arp_ctime s' = arp_ctime s /\
    exists i, arp_table s' !! i = Some (MkArp ip eth (arp_ctime s)).
Proof.
  intros K C Hl. unfold add_arp_entry. destruct (find_entry (arp_table s) ip) as [i|] eqn:Ef.
  - destruct (find_entry_Some _ _ _ Ef) as (e & He & Hip & Hn). rewrite He. cbn [from_opt mbind outcome_bind].
    eexists. split; [done|]. split; [by apply aok_table|]. split; [by apply cache_update|]. split_and!; try done.
    exists i. cbn [set_table arp_table]. rewrite Hip. apply list_lookup_insert_eq. by eapply lookup_lt_Some.
  - set (s1 := set_table s _). assert (aok s1 H) as K1 by by apply aok_table.
    assert (cache (Heard ip eth :: h) (arp_table s1) (arp_ctime s1)) as C1 by by apply cache_new.
    assert (exists i, arp_table s1 !! i = Some (MkArp ip eth (arp_ctime s))) as Hin.
    { destruct (find_slot_spec _ _ _ C) as (e & He & _). eexists. apply list_lookup_insert_eq. by eapply lookup_lt_Some. }
    rewrite send_delayed_first by apply K1. destruct (find_index _ _) as [i|] eqn:Ei; [|by exists s1].
    destruct (find_index_Some _ _ _ Ei) as (e & He & Hw & _).
    assert (xq_p e <> NULL) as Hp by (unfold waits_for in Hw; destruct (Z.eqb_spec (xq_p e) NULL); done).
    destruct (send_one_ok tx s1 H eth i e K1 He Hp Hl) as (s' & nif & a & E & K' & (T1 & T2 & T3 & T4) & _).
    exists s'. rewrite T1, T2, T3, T4. split_and!; done.
Qed.

Definition not_expired (t : Z) (e : xmit_queue_entry) : Prop := xq_p e = NULL \/ time_before (xq_expires e) t = false.

(** The packets [l] are released, one after the other. *)
Fixpoint release (l : list Z) (t : nst) : outcome nst :=
  match l with [] => Ok t | p :: l => '(_, t) ← pbuf_free t p; release l t end.

(** A packet whose time is over; its entry is emptied. *)
Definition overdue (t : Z) (e : xmit_queue_entry) : bool := waiting (xq_p e) && time_before (xq_expires e) t.
Definition settle (t : Z) (e : xmit_queue_entry) : xmit_queue_entry := if overdue t e then emptied e else e.

Lemma settle_not_expired t q : Forall (not_expired t) (settle t <$> q).
Proof.
  apply Forall_fmap, Forall_true. intros e. unfold settle, overdue, not_expired. cbn.
  destruct (waiting_spec (xq_p e)) as [Hp|Hp]; cbn [andb]; [|left; by destruct (decide (xq_p e = NULL))].
  destruct (time_before _ t) eqn:Et; [by left|by right].
Qed.

Lemma expire_queue_ok n : forall s H i, aok s H -> (i + n = 4)%nat ->
  exists s', expire_queue n s (Z.of_nat i) = Ok s' /\ aok s' H /\ same_table s s' /\ sent s' = sent s /\
    xmit_queue_table s' = take i (xmit_queue_table s) ++ (settle (now s) <$> drop i (xmit_queue_table s)) /\
    release (xq_p <$> List.filter (overdue (now s)) (drop i (xmit_queue_table s))) (net s) = Ok (net s').
Proof.
  induction n as [|n IH]; intros s H i K Hi.
  - exists s. rewrite take_ge, drop_ge by (rewrite (ok_len _ _ K); unfold ARP_XMIT_QUEUE_SIZE; lia). split_and!; try done. by rewrite app_nil_r.
  - assert (i < length (xmit_queue_table s))%nat as Hlt by (rewrite (ok_len _ _ K); unfold ARP_XMIT_QUEUE_SIZE; lia).
    destruct (lookup_lt_is_Some_2 _ _ Hlt) as [e He]. cbn [expire_queue].
    unfold aget. destruct (Z.leb_spec 0 (Z.of_nat i)); [|lia]. rewrite Nat2Z.id, He. cbn [from_opt mbind outcome_bind].
    replace (Z.of_nat i + 1) with (Z.of_nat (S i)) by lia. fold (waiting (xq_p e)). fold (overdue (now s) e).
    rewrite (drop_S _ _ _ He). cbn [fmap list_fmap List.filter]. unfold settle at 1. destruct (overdue (now s) e) eqn:Eo.
    + assert (xq_p e <> NULL) as Hp by (unfold overdue in Eo; by destruct (waiting_spec (xq_p e))).
      destruct (free_waiting s H i e K He Hp) as (k & t & E & K1 & _). rewrite E. cbn [mbind outcome_bind].
      rewrite aset_Ok by lia. rewrite Nat2Z.id. cbn [mbind outcome_bind]. fold (emptied e).
      set (s1 := count_drop (set_queue (set_net s t) (<[i := emptied e]> (xmit_queue_table s)))).
      destruct (IH s1 H (S i)) as (s' & E' & K' & T' & Hs' & Hq & Hr); [by apply (aok_same _ _ _ K1)|lia|].
      exists s'. split; [exact E'|]. split; [done|]. split; [done|]. split; [done|].
      cbn [s1 count_drop set_queue xmit_queue_table now set_net net] in Hq, Hr. rewrite drop_insert_lt in Hq, Hr by lia. split.
      * rewrite Hq, (take_S_r _ _ (emptied e)), take_insert_ge, <- app_assoc by (by apply list_lookup_insert_eq || lia). done.
      * cbn [fmap list_fmap release]. rewrite E. exact Hr.
    + cbn [mbind outcome_bind]. destruct (IH s H (S i) K ltac:(lia)) as (s' & E' & K' & T' & Hs' & Hq & Hr). exists s'. split_and!; try done.
      by rewrite Hq, (take_S_r _ _ e), <- app_assoc by done.
Qed.

Lemma arp_tmr_ok s H h : aok s H -> cache h (arp_table s) (arp_ctime s) -> arp_ctime s + 1 < 2 ^ 31 ->
  exists s', arp_tmr s = Ok s' /\ aok s' H /\ cache (Tick :: h) (arp_table s') (arp_ctime s') /\
    netifs s' = netifs s /\ now s' = now s /\ sent s' = sent s /\ armed s' = true /\
    xmit_queue_table s' = settle (now s) <$> xmit_queue_table s /\
    release (xq_p <$> List.filter (overdue (now s)) (xmit_queue_table s)) (net s) = Ok (net s').
Proof.
  intros K C Hb. unfold arp_tmr.
  assert (s32 (arp_ctime s + 1) = arp_ctime s + 1) as Hs.
  { apply s32_small. destruct (ca_ctime _ _ _ C) as [Hc _]. pose proof (ticks_of_nonneg h). lia. }
  set (s1 := set_table _ _).
  destruct (expire_queue_ok 4 s1 H 0) as (s2 & E & K2 & (T1 & T2 & T3 & T4) & Hsent & Hq & Hr); [by apply (aok_same s)|done|].
  change (Z.to_nat ARP_XMIT_QUEUE_SIZE) with 4%nat. change (Z.of_nat 0) with 0 in E. rewrite E. cbn [mbind outcome_bind].
  exists (set_armed s2). split; [done|]. split; [by apply (aok_same s2)|].
  split; [|cbn [set_armed netifs now sent armed xmit_queue_table net]; by rewrite T3, T4, Hsent].
  cbn [set_armed arp_table arp_ctime]. rewrite T1, T2. unfold s1. cbn [set_table set_ctime arp_table arp_ctime].
  rewrite Hs. by apply cache_tick.
Qed.

(** The entry a new packet gets, and what becomes of the one that was there. *)
Definition queued_as (s : ast) (nif p ip : Z) (r : Z) (s' : ast) : Prop :=
  (r = 0 /\ exists i e, xmit_queue_table s !! i = Some e /\
     xmit_queue_table s' = <[i := MkXq nif p ip (u32 (now s + MAX_XMIT_DELAY / MSECS_PER_TICK))]> (xmit_queue_table s) /\
     (xq_p e = NULL /\ net s' = net s \/
      Forall (fun e => xq_p e <> NULL) (xmit_queue_table s) /\ overdue (now s) e = true /\ release [xq_p e] (net s) = Ok (net s'))) \/
  (r = ENOMEM /\ xmit_queue_table s' = xmit_queue_table s /\ net s' = net s /\
     Forall (fun e => xq_p e <> NULL /\ overdue (now s) e = false) (xmit_queue_table s)).

Lemma arp_queue_exact s nif p ip r s' : arp_queue s nif p ip = Ok (r, s') -> queued_as s nif p ip r s'.
Proof.
  unfold arp_queue, queue_slot, queued_as. destruct (find_index (fun e => xq_p e =? NULL) _) as [i|] eqn:Ei.
  - destruct (find_index_Some _ _ _ Ei) as (e & He & Hp & _). rewrite He. cbn [from_opt mbind outcome_bind]. rewrite Hp. cbn [negb mbind outcome_bind].
    intros [= <- <-]. left. split; [done|]. exists i, e. split_and!; try done. left. split; [by apply Z.eqb_eq|done].
  - assert (Forall (fun e => xq_p e <> NULL) (xmit_queue_table s)) as Hall.
    { apply Forall_lookup. intros j e He. apply Z.eqb_neq. exact (find_index_None _ _ Ei _ _ He). }
    destruct (find_index (fun e => time_before (xq_expires e) (now s)) (xmit_queue_table s)) as [i|] eqn:Ex.
    + destruct (find_index_Some _ _ _ Ex) as (e & He & Ht & _). rewrite He. cbn [from_opt mbind outcome_bind].
      pose proof (Forall_lookup_1 _ _ _ _ Hall He) as Hp. rewrite (proj2 (Z.eqb_neq _ _) Hp). cbn [negb]. intros E.
      apply bind_Ok_inv in E as (s1 & E1 & E). apply bind_Ok_inv in E1 as ([k t] & E1 & E2). injection E2 as <-. injection E as <- <-.
      left. split; [done|]. exists i, e. split_and!; try done. right. split; [done|]. unfold overdue. cbn [release]. rewrite E1. split; [|done].
      rewrite Ht, andb_true_r. by destruct (waiting_spec (xq_p e)).
    + intros [= <- <-]. right. split_and!; try done. apply Forall_lookup. intros j e He. split; [exact (Forall_lookup_1 _ _ _ _ Hall He)|].
      unfold overdue. pose proof (find_index_None _ _ Ex _ _ He) as Ht. cbv beta in Ht. by rewrite Ht, andb_false_r.
Qed.

Lemma arp_queue_ok s H nif n p ip a : aok s (p :: H) -> netifs s !! nif = Some n -> length (nif_hw n) = 6%nat ->
  pay (net s) p = Some a -> mapped (nmem (net s)) a 14 ->
  exists r s', arp_queue s nif p ip = Ok (r, s') /\ same_table s s' /\ sent s' = sent s /\
    (r = 0 /\ aok s' H /\ p ∈ queued (xmit_queue_table s') \/ r = ENOMEM /\ aok s' (p :: H)).
Proof.
  intros K Hn Hh Ha Hm. unfold arp_queue.
  assert (p <> NULL) as Hp0.
  { destruct (owned_NoDup _ _ _ (ok_own _ _ K)) as (_ & H0 & _). intros ->. apply H0. left. }
  destruct (queue_slot (xmit_queue_table s) (now s)) as [i|] eqn:Es.
  2: { exists ENOMEM, (count_drop s). split_and!; try done. right. split; [done|]. by apply (aok_same s). }
  assert (exists e, xmit_queue_table s !! i = Some e) as [e He].
  { unfold queue_slot in Es. destruct (find_index _ _) as [j|] eqn:Ej.
    - injection Es as <-. destruct (find_index_Some _ _ _ Ej) as (e & He & _). by exists e.
    - destruct (find_index_Some _ _ _ Es) as (e & He & _). by exists e. }
  rewrite He. cbn [from_opt mbind outcome_bind]. fold (waiting (xq_p e)).
  set (new := MkXq nif p ip (u32 (now s + MAX_XMIT_DELAY / MSECS_PER_TICK))).
  assert (forall s1 q1, aok (set_queue s1 q1) (p :: H) -> netifs s1 = netifs s -> pay (net s1) p = Some a ->
    nmem (net s1) = nmem (net s) -> (exists e1, q1 !! i = Some e1 /\ xq_p e1 = NULL) ->
    aok (set_queue s1 (<[i := new]> q1)) H /\ p ∈ queued (<[i := new]> q1)) as Hput.
  { intros s1 q1 [L O En] Hns Hpa Hnm (e1 & He1 & Hp1).
    assert (queued (<[i := new]> q1) ≡ₚ p :: queued q1) as Hq by (by apply (queued_put _ _ e1)).
    split; [|rewrite Hq; left]. split; cbn [set_queue xmit_queue_table net netifs] in *.
    - by rewrite length_insert.
    - eapply owned_perm; [|exact O]. rewrite Hq. solve_Permutation.
    - apply entries_insert; [done|]. intros _. cbn [new xq_netif xq_p]. rewrite Hns, Hpa, Hnm. split; [by exists n|by exists a]. }
  destruct (waiting_spec (xq_p e)) as [Hp|Hp].
  - destruct (free_waiting s (p :: H) i e K He Hp) as (k & t & -> & K1 & Hnm & Hpay & _). cbn [mbind outcome_bind].
    eexists 0, _. split; [done|]. split; [done|]. split; [done|]. left. split; [done|].
    cbn [xmit_queue_table set_queue count_drop set_net now].
    destruct (Hput (set_net s t) (<[i := emptied e]> (xmit_queue_table s)) K1) as [K2 Hin]; try done.
    + cbn [net set_net]. rewrite Hpay by left. done.
    + exists (emptied e). split; [|done]. apply list_lookup_insert_eq. by eapply lookup_lt_Some.
    + rewrite list_insert_insert_eq in K2, Hin. split; [by apply (aok_same _ _ _ K2)|exact Hin].
  - cbn [mbind outcome_bind]. eexists 0, _. split; [done|]. split; [done|]. split; [done|]. left. split; [done|].
    apply (Hput s (xmit_queue_table s)); try done; [by apply (aok_same s)|].
    exists e. split; [done|]. destruct (decide (xq_p e = NULL)); done.
Qed.

(** ** Runs

    The state, the packets of the users, and what has been heard.  The users may
    do with their packets what they want, as long as the packets that wait here
    stay what they are. *)
Definition set_now (s : ast) (t : Z) : ast :=
  MkA (net s) (arp_table s) (xmit_queue_table s) (arp_ctime s) t (netifs s) (link_drop s) (armed s) (sent s) (dhcp_told s).

Definition has_netif (s : ast) (nif : Z) : Prop := exists n, netifs s !! nif = Some n /\ length (nif_hw n) = 6%nat.
Definition has_room (s : ast) (p : Z) : Prop := exists a, pay (net s) p = Some a /\ mapped (nmem (net s)) a 14.

Inductive astep : ast * list Z * list heard -> ast * list Z * list heard -> Prop :=
  | step_heard tx s H h ip eth s' : length eth = 6%nat -> add_arp_entry tx s ip eth = Ok s' ->
      astep (s, H, h) (s', H, Heard ip eth :: h)
  | step_tick s H h s' : arp_ctime s + 1 < 2 ^ 31 -> arp_tmr s = Ok s' -> astep (s, H, h) (s', H, Tick :: h)
  | step_queue s H h nif p ip r s' : has_netif s nif -> has_room s p -> arp_queue s nif p ip = Ok (r, s') ->
      astep (s, p :: H, h) (s', if r =? 0 then H else p :: H, h)
  | step_clock s H h t : astep (s, H, h) (set_now s t, H, h)
  | step_users s H h t H' : aok (set_net s t) H' -> astep (s, H, h) (set_net s t, H', h).

Definition ainv (c : ast * list Z * list heard) : Prop :=
  let '(s, H, h) := c in aok s H /\ cache h (arp_table s) (arp_ctime s).

(** The state arp_init leaves. *)
Definition starts (s0 : ast) (H0 : list Z) : Prop :=
  length (arp_table s0) = Z.to_nat ARP_TABLE_SIZE /\ arp_ctime s0 = 0 /\ aok (arp_init s0) H0.

Lemma ainv_start s0 H0 : starts s0 H0 -> ainv (arp_init s0, H0, []).
Proof.
  intros (Hl & Hc & K). split; [done|]. split; cbn [arp_init set_table set_queue set_armed arp_table arp_ctime].
  - by rewrite length_fmap.
  - rewrite Hc. done.
  - intros i e (e' & -> & _)%list_lookup_fmap_Some Hn. done.
  - intros i j e e' (e1 & -> & _)%list_lookup_fmap_Some _ Hn. done.
  - done.
Qed.

Lemma ainv_step c c' : ainv c -> astep c c' -> ainv c'.
Proof.
  intros I Hs. destruct Hs as [tx s H h ip eth s' Hl E|s H h s' Hb E|s H h nif p ip r s' (n & Hn & Hh) (a & Ha & Hr) E|s H h t|s H h t H' K'];
    destruct I as [K C].
  - destruct (add_arp_entry_ok tx s H h ip eth K C Hl) as (s1 & E1 & K1 & C1 & _). assert (s1 = s') as <- by congruence. done.
  - destruct (arp_tmr_ok s H h K C Hb) as (s1 & E1 & K1 & C1 & _). assert (s1 = s') as <- by congruence. done.
  - destruct (arp_queue_ok s H nif n p ip a K Hn Hh Ha Hr) as (r1 & s1 & E1 & (T1 & T2 & _) & _ & Hres).
    assert (r1 = r /\ s1 = s') as [<- <-] by (split; congruence). cbn [ainv]. rewrite T1, T2. split; [|done].
    destruct Hres as [(-> & K1 & _)|(-> & K1)]; exact K1.
  - split; [by apply (aok_same s)|done].
  - done.
Qed.

Lemma ainv_reach s0 H0 c : starts s0 H0 -> reach astep (arp_init s0, H0, []) c -> ainv c.
Proof. intros Hs. apply reach_invariant; [by apply ainv_start|apply ainv_step]. Qed.

(** With the invariant, a lookup finds the entry of an address. *)
Lemma arp_lookup_entry h s ip i e : cache h (arp_table s) (arp_ctime s) -> ip <> 0 ->
  arp_table s !! i = Some e -> ae_ip e = ip -> arp_lookup s ip = Some (ae_eth e).
Proof.
  intros C Hn He Hip. unfold arp_lookup. destruct (find_index _ _) as [j|] eqn:Ej.
  - destruct (find_index_Some _ _ _ Ej) as (e' & He' & Hc & _). apply Z.eqb_eq in Hc.
    assert (i = j) as <- by (eapply (ca_dist _ _ _ C); [exact He|exact He'|congruence|congruence]). by rewrite He.
  - pose proof (find_index_None _ _ Ej _ _ He) as Hc. apply Z.eqb_neq in Hc. congruence.
Qed.

(** C32: the table of neighbours.  Whatever a host hears and however its packets come
    and go, a lookup gives only the address an interface was last heard with, less
    than 120 ticks of the timer (20 minutes) ago; and it gives it, unless more than
    32 addresses, as many as the table has room for, have been heard of in the period
    of the timer in which it was heard last and those after it.  The address 0.0.0.0,
    which marks unused entries, is excepted. *)
Theorem arp_cache_lru s0 H0 s H h ip : starts s0 H0 -> reach astep (arp_init s0, H0, []) (s, H, h) -> ip <> 0 ->
  (forall eth, arp_lookup s ip = Some eth -> exists a, last_heard h ip = Some (a, eth) /\ 0 <= a < ARP_MAXAGE) /\
  (forall a eth, last_heard h ip = Some (a, eth) -> a < ARP_MAXAGE ->
    (base.size (heard_since h (Z.to_nat a)) <= Z.to_nat ARP_TABLE_SIZE)%nat -> arp_lookup s ip = Some eth).
Proof.
  intros Hs Hr Hn. destruct (ainv_reach _ _ _ Hs Hr) as [_ C]. split.
  - intros eth Hl. unfold arp_lookup in Hl. destruct (find_index _ _) as [i|] eqn:Ei; [|done].
    destruct (find_index_Some _ _ _ Ei) as (e & He & Hc & _). apply Z.eqb_eq in Hc. rewrite He in Hl. injection Hl as <-.
    destruct (ca_entry _ _ _ C _ _ He ltac:(congruence)) as [Hlh Ha]. rewrite <- Hc in Hlh.
    pose proof (last_heard_age _ _ _ _ Hlh). eexists. split; [done|]. lia.
  - intros a eth Hlh Ha Hsz. destruct (ca_kept _ _ _ C ip a eth Hn Hlh Ha Hsz) as (i & e & He & Hip).
    rewrite (arp_lookup_entry _ _ _ _ _ C Hn He Hip). destruct (ca_entry _ _ _ C _ _ He ltac:(congruence)) as [Hle _].
    rewrite Hip, Hlh in Hle. by injection Hle as _ ->.
Qed.

(** A host without packets, with one interface: 10.0.0.1/24. *)
Definition host : ast :=
  MkA no_pbufs (replicate 32 (MkArp 0 [] 0)) [] 0 0 {[1 := MkNif 0x0100000A 0x00FFFFFF 0 [2; 0; 0; 0; 0; 1] 1 7]} 0 false [] [].

Lemma host_starts : starts host [].
Proof.
  split; [done|]. split; [done|]. split; [done| |].
  - exists [], [], []. split; [|done]. exists [], []. split; [|constructor].
    split; split; try done; constructor.
  - apply Forall_replicate. by intros H.
Qed.

Definition neighbour : list Z := [2; 0; 0; 0; 0; 2].

Lemma arp_cache_lru_witness : exists s h, arp_lookup s 0x0200000A = Some neighbour /\
  last_heard h 0x0200000A = Some (1, neighbour).
Proof.
  destruct (add_arp_entry (fun _ => 0) (arp_init host) 0x0200000A neighbour) as [s1| | |] eqn:E1;
    [|vm_compute in E1; discriminate..].
  assert (exists s2, arp_tmr s1 = Ok s2) as [s2 E2].
  { vm_compute in E1. injection E1 as <-. eexists. vm_compute. reflexivity. }
  assert (arp_ctime s1 = 0) as Hc by (vm_compute in E1; injection E1 as <-; reflexivity).
  exists s2, [Tick; Heard 0x0200000A neighbour]. split; [|reflexivity].
  apply (arp_cache_lru host [] s2 [] [Tick; Heard 0x0200000A neighbour] 0x0200000A host_starts) with (a := 1).
  - apply (reach_step _ _ (s1, [], [Heard 0x0200000A neighbour])); [apply (reach_step _ _ (arp_init host, [], [])); [apply reach_refl|]|].
    + by apply (step_heard (fun _ => 0)).
    + apply step_tick; [rewrite Hc; reflexivity|done].
  - discriminate.
  - reflexivity.
  - reflexivity.
  - vm_compute. lia.
Defined.

(** What add_arp_entry does to the packets that wait. *)
Lemma add_arp_entry_sends tx s H ip eth s' : aok s H -> length eth = 6%nat -> add_arp_entry tx s ip eth = Ok s' ->
  match find_entry (arp_table s) ip, find_index (waits_for ip) (xmit_queue_table s) with
  | None, Some i => exists e nif a, xmit_queue_table s !! i = Some e /\ waits_for ip e = true /\
      netifs s !! xq_netif e = Some nif /\ pay (net s) (xq_p e) = Some a /\
      sent s' = sent s ++ [(nif_state nif, xq_p e)] /\ xmit_queue_table s' = <[i := emptied e]> (xmit_queue_table s) /\
      bytes_at (nmem (net s')) a (eth ++ nif_hw nif ++ [8; 0]) /\ same_outside (nmem (net s)) (nmem (net s')) a 14
  | _, _ => sent s' = sent s /\ xmit_queue_table s' = xmit_queue_table s /\ net s' = net s
  end.
Proof.
  intros K Hl E. unfold add_arp_entry in E. destruct (find_entry (arp_table s) ip) as [k|].
  - apply bind_Ok_inv in E as (e & _ & E). injection E as <-. done.
  - match type of E with context [set_table s ?t] => set (s1 := set_table s t) in E end.
    assert (aok s1 H) as K1 by by apply aok_table.
    rewrite send_delayed_first in E by apply K1. change (xmit_queue_table s1) with (xmit_queue_table s) in E.
    destruct (find_index _ _) as [i|] eqn:Ei; [|by injection E as <-].
    destruct (find_index_Some _ _ _ Ei) as (e & He & Hw & _).
    assert (xq_p e <> NULL) as Hp by (unfold waits_for in Hw; destruct (Z.eqb_spec (xq_p e) NULL); done).
    destruct (send_one_ok tx s1 H eth i e K1 He Hp Hl) as (s2 & nif & a & E2 & _ & _ & Hn & Ha & Hs & _ & _ & Hq & _ & Hb & Ho).
    assert (s2 = s') as -> by congruence. exists e, nif, a. done.
Qed.

(** What becomes of the packets that wait when [ip] is heard: if it was known or none
    waits for it, they stay; otherwise the first one that waits for it is given to its
    driver with the addresses filled in, and released if the driver refuses it. *)
Definition heard_effect (tx : Z -> Z) (s : ast) (ip : Z) (s' : ast) : Prop :=
  (sent s' = sent s /\ xmit_queue_table s' = xmit_queue_table s /\ net s' = net s /\
     ((exists i e, arp_table s !! i = Some e /\ ae_ip e = ip /\ ip <> 0) \/
      Forall (fun e => xq_p e = NULL \/ xq_ip e <> ip) (xmit_queue_table s))) \/
  (exists i e nif m, xmit_queue_table s !! i = Some e /\ xq_p e <> NULL /\ xq_ip e = ip /\ netifs s !! xq_netif e = Some nif /\
     sent s' = sent s ++ [(nif_state nif, xq_p e)] /\ xmit_queue_table s' = <[i := emptied e]> (xmit_queue_table s) /\
     if tx (xq_p e) <? 0 then release [xq_p e] (set_nmem (net s) m) = Ok (net s') else net s' = set_nmem (net s) m).

Lemma waits_for_spec ip e : waits_for ip e = true <-> xq_p e <> NULL /\ xq_ip e = ip.
Proof. unfold waits_for, ip_addr_cmp. rewrite andb_true_iff, negb_true_iff, Z.eqb_neq, Z.eqb_eq. done. Qed.

Lemma add_arp_entry_effect tx s ip eth s' : length (xmit_queue_table s) = Z.to_nat ARP_XMIT_QUEUE_SIZE ->
  add_arp_entry tx s ip eth = Ok s' -> heard_effect tx s ip s'.
Proof.
  intros Hl E. unfold add_arp_entry in E. destruct (find_entry (arp_table s) ip) as [k|] eqn:Ef.
  - apply bind_Ok_inv in E as (e & _ & E). injection E as <-. left. split_and!; try done. left.
    destruct (find_entry_Some _ _ _ Ef) as (e' & He & Hip & Hn). by exists k, e'.
  - rewrite send_delayed_first in E by done. cbn [set_table xmit_queue_table] in E. destruct (find_index _ _) as [i|] eqn:Ei.
    2: { injection E as <-. left. split_and!; try done. right. apply Forall_lookup. intros j e He. pose proof (find_index_None _ _ Ei _ _ He) as Hw.
         destruct (decide (xq_p e = NULL)); [by left|right]. intros Hip. by rewrite (proj2 (waits_for_spec ip e)) in Hw. }
    destruct (find_index_Some _ _ _ Ei) as (e & He & (Hp & Hip)%waits_for_spec & _). right. unfold send_one in E. cbn [set_table xmit_queue_table net netifs] in E.
    rewrite He in E. cbn [from_opt mbind outcome_bind] in E. apply bind_Ok_inv in E as (x & _ & E). apply bind_Ok_inv in E as (nif & Hn & E).
    apply from_opt_Ok in Hn. apply bind_Ok_inv in E as (m & _ & E). exists i, e, nif, m. split; [done|]. split; [done|]. split; [done|]. split; [done|].
    destruct (tx (xq_p e) <? 0); [apply bind_Ok_inv in E as ([k t] & Efr & E)|]; injection E as <-; (split; [done|]); (split; [done|]); [|done].
    cbn [release]. cbn in Efr. by rewrite Efr.
Qed.


(** A host with one packet, at address 1000. *)
Definition one_packet : nst :=
  MkN {[1000 := MkPb NULL PBUF_FLAG_RW 1 1058 60 60 60]} (map_zeros 120 ∅ 1000) NULL NULL NULL 0 0 (MkStats 0 0 0 0 0 0 0).

Definition sender : ast := set_net host one_packet.

Lemma sender_starts : starts sender [1000].
Proof.
  split; [done|]. split; [done|]. split; [done| |].
  - exists [], [[1000]], []. split; [|done]. exists [], []. split; [|by repeat constructor].
    split; split; try done; cbn.
    + repeat constructor; try done. eexists. split; [apply lookup_singleton_eq|done].
    + apply NoDup_singleton.
  - apply Forall_replicate. by intros H.
Qed.

Lemma sender_room : has_room (arp_init sender) 1000.
Proof.
  exists 1058. split; [reflexivity|].
  assert (forallb (fun j => bool_decide (is_Some (nmem one_packet !! (1058 + j)))) (seqZ 0 14) = true) as Hall
    by (vm_compute; reflexivity).
  rewrite forallb_forall in Hall. intros j Hj. apply (bool_decide_unpack (is_Some _)).
  apply Is_true_eq_left, Hall, list_elem_of_In, elem_of_seqZ. lia.
Qed.


(** The loop that copies the addresses ends the loop over the queue: of two packets
    that wait for the address that is heard, the second stays. *)
Lemma second_packet_waits tx s H ip eth s' i j e1 e2 : aok s H -> length eth = 6%nat -> find_entry (arp_table s) ip = None ->
  find_index (waits_for ip) (xmit_queue_table s) = Some i -> xmit_queue_table s !! i = Some e1 ->
  i <> j -> xmit_queue_table s !! j = Some e2 -> waits_for ip e2 = true -> add_arp_entry tx s ip eth = Ok s' ->
  (sent s').*2 = (sent s).*2 ++ [xq_p e1] /\ xmit_queue_table s' !! j = Some e2.
Proof.
  intros K Hl Hf Hi H1 Hne H2 _ E. pose proof (add_arp_entry_sends tx s H ip eth s' K Hl E) as Hs. rewrite Hf, Hi in Hs.
  destruct Hs as (e & nif & a & He & _ & _ & _ & -> & -> & _). assert (e = e1) as -> by congruence.
  rewrite fmap_app. split; [done|]. by rewrite list_lookup_insert_ne.
Qed.

(** An unused entry has address 0.0.0.0: the lookup of that address succeeds, as for
    a packet to a host outside the network when no gateway is set. *)
Lemma lookup_any_finds_unused s i e : arp_table s !! i = Some e -> ae_ip e = 0 -> is_Some (arp_lookup s 0).
Proof.
  intros He Hz. unfold arp_lookup. destruct (find_index _ _) as [j|] eqn:Ej.
  - destruct (find_index_Some _ _ _ Ej) as (e' & -> & _). by eexists.
  - pose proof (find_index_None _ _ Ej _ _ He) as Hc. apply Z.eqb_neq in Hc. congruence.
Qed.

(** ** A request and its reply *)

(** The packet [p] holds the bytes [bs]. *)
Definition holds_frame (s : ast) (p : Z) (bs : list Z) : Prop :=
  exists x, pbs (net s) !! p = Some x /\ ARP_HDR_SIZE <= tot_len x /\ bytes_at (nmem (net s)) (payload x) bs.

Lemma ld_bytes_ok m p bs : bytes_at m p bs -> ld_bytes (length bs) m p = Ok bs.
Proof.
  revert p. induction bs as [|b bs IH]; intros p; cbn [bytes_at length ld_bytes]; [done|]. intros [Hb Hbs].
  unfold ld. rewrite Hb. cbn [from_opt mbind outcome_bind]. by rewrite IH.
Qed.

Lemma ld16_ok m p a b : bytes_at m p [a; b] -> ld16 m p = Ok (a + 256 * b).
Proof. intros (Ha & Hb & _). unfold ld16, ld. by rewrite Ha, Hb. Qed.

Lemma ld32_ok m p ip : bytes_at m p (addr_bytes ip) -> is_addr ip -> ld32 m p = Ok ip.
Proof.
  intros Hb Hi. destruct (addr_split ip Hi) as (_ & _ & _ & E). unfold ld32, addr_bytes in *.
  destruct Hb as (H0 & H1 & H2 & H3 & _). rewrite (ld16_ok _ _ _ _ (conj H0 (conj H1 I))). cbn [mbind outcome_bind].
  rewrite (ld16_ok _ _ (ip / 65536 mod 256) (ip / 16777216 mod 256)).
  - cbn [mbind outcome_bind]. f_equal. lia.
  - replace (p + 2) with (p + 1 + 1) by lia. done.
Qed.

(** The fields of a frame. *)
Lemma frame_fields m p edst esrc op shw sip thw tip :
  bytes_at m p (arp_frame edst esrc op shw sip thw tip) ->
  length edst = 6%nat -> length esrc = 6%nat -> length shw = 6%nat -> length thw = 6%nat -> is_addr sip -> is_addr tip ->
  ld16 m (p + ah_opcode) = Ok (256 * op) /\ ld32 m (p + ah_dipaddr) = Ok tip /\ ld32 m (p + ah_sipaddr) = Ok sip /\
  ld_bytes 6 m (p + ah_shwaddr) = Ok shw.
Proof.
  intros Hb H1 H2 H3 H4 Hs Ht. explode edst 6. explode esrc 6. explode shw 6. explode thw 6.
  assert (forall i n, (i <= 42)%nat -> bytes_at m (p + Z.of_nat i) (take n (drop i _))) as Hsub
    by (intros i n Hi; apply (bytes_at_sub m p _ i n Hb); exact Hi).
  split_and!.
  - replace (256 * op) with (0 + 256 * op) by lia. apply ld16_ok, (Hsub 20%nat 2%nat). lia.
  - apply ld32_ok; [|done]. apply (Hsub 38%nat 4%nat). lia.
  - apply ld32_ok; [|done]. apply (Hsub 28%nat 4%nat). lia.
  - apply (ld_bytes_ok m (p + ah_shwaddr) [z11; z12; z13; z14; z15; z16]), (Hsub 22%nat 6%nat). lia.
Qed.

Lemma arp_query_ok s nif n ip a : netifs s !! nif = Some n -> length (nif_hw n) = 6%nat -> is_addr (nif_ip n) -> is_addr ip ->
  a <> NULL -> exists s', arp_query s nif (nif_hw n) ip a = Ok (a, s') /\
    holds_frame s' a (arp_frame (replicate 6 255) (nif_hw n) ARP_REQUEST (nif_hw n) (nif_ip n) (replicate 6 0) ip).
Proof.
  intros Hn Hh Hs Hi Ha. unfold arp_query, pbuf_alloc. change (layer_offset PBUF_LINK) with (Ok PBUF_LINK_HLEN). rewrite bind_Ok.
  change (PBUF_RW =? PBUF_POOL) with false. change (PBUF_RW =? PBUF_RW) with true. cbv iota.
  destruct (Z.eqb_spec a NULL) as [|_]; [done|]. cbn [mbind outcome_bind].
  destruct (Z.eqb_spec a NULL) as [|_]; [done|]. unfold getp. cbn [putp set_pbs pbs set_stat set_nmem nmem].
  rewrite lookup_insert_eq. cbn [from_opt mbind outcome_bind payload]. rewrite Hn. cbn [from_opt mbind outcome_bind].
  match goal with |- context [make_query ?m ?h _ _ _] => set (m0 := m); set (hdr := h) end.
  assert (bytes_at m0 hdr (replicate 42 0)) as Hz.
  { pose proof (bytes_at_sub _ _ _ 38 42 (map_zeros_bytes 80 (nmem (net s)) a)) as Hb.
    replace hdr with (a + Z.of_nat 38) by (unfold hdr, SZ, PBUF_LINK_HLEN; lia). apply Hb. cbn. lia. }
  destruct (make_query_ok m0 hdr (nif_hw n) (nif_ip n) ip Hz Hh Hs Hi) as (m & -> & Hb & _). cbn [mbind outcome_bind].
  eexists. split; [done|]. eexists. split; [apply lookup_insert_eq|]. split; [done|exact Hb].
Qed.

Lemma arp_reply_ok tx s nif n p edst esrc shw sip thw :
  netifs s !! nif = Some n -> length (nif_hw n) = 6%nat -> is_addr (nif_ip n) -> is_addr sip ->
  length edst = 6%nat -> length esrc = 6%nat -> length shw = 6%nat -> length thw = 6%nat ->
  holds_frame s p (arp_frame edst esrc ARP_REQUEST shw sip thw (nif_ip n)) ->
  exists s', arp_arp_input tx s nif (nif_hw n) p = Ok (p, s') /\ arp_table s' = arp_table s /\
    holds_frame s' p (arp_frame shw (nif_hw n) ARP_REPLY (nif_hw n) (nif_ip n) shw sip).
Proof.
  intros Hn Hh Hi Hs H1 H2 H3 H4 (x & Hx & Ht & Hb).
  destruct (frame_fields _ _ _ _ _ _ _ _ _ Hb H1 H2 H3 H4 Hs Hi) as (Fo & Fd & _).
  unfold arp_arp_input, getp. rewrite Hx. cbn [from_opt mbind outcome_bind].
  destruct (Z.ltb_spec (tot_len x) ARP_HDR_SIZE); [lia|]. rewrite Hn. cbn [from_opt mbind outcome_bind].
  rewrite Fo. cbn [mbind outcome_bind]. change (htons (256 * ARP_REQUEST) =? ARP_REQUEST) with true. cbv iota.
  rewrite Fd. cbn [mbind outcome_bind]. unfold ip_addr_cmp. rewrite Z.eqb_refl.
  destruct (make_reply_ok _ _ _ _ _ _ _ _ (nif_hw n) Hb H1 H2 H3 H4 Hh Hs Hi) as (m & -> & Hb' & _). cbn [mbind outcome_bind].
  eexists. split; [done|]. split; [done|]. by exists x.
Qed.

Lemma arp_learn_ok tx s H h nif n p edst esrc shw sip thw :
  aok s (p :: H) -> cache h (arp_table s) (arp_ctime s) ->
  netifs s !! nif = Some n -> is_addr (nif_ip n) -> is_addr sip -> sip <> 0 ->
  length edst = 6%nat -> length esrc = 6%nat -> length shw = 6%nat -> length thw = 6%nat ->
  holds_frame s p (arp_frame edst esrc ARP_REPLY shw sip thw (nif_ip n)) ->
  exists s', arp_arp_input tx s nif (nif_hw n) p = Ok (NULL, s') /\ arp_lookup s' sip = Some shw /\ aok s' H.
Proof.
  intros K C Hn Hi Hs Hs0 H1 H2 H3 H4 (x & Hx & Ht & Hb).
  destruct (frame_fields _ _ _ _ _ _ _ _ _ Hb H1 H2 H3 H4 Hs Hi) as (Fo & Fd & Fs & Fh).
  unfold arp_arp_input, getp. rewrite Hx. cbn [from_opt mbind outcome_bind].
  destruct (Z.ltb_spec (tot_len x) ARP_HDR_SIZE); [lia|]. rewrite Hn. cbn [from_opt mbind outcome_bind].
  rewrite Fo. cbn [mbind outcome_bind]. change (htons (256 * ARP_REPLY) =? ARP_REQUEST) with false.
  change (htons (256 * ARP_REPLY) =? ARP_REPLY) with true. cbv iota.
  rewrite Fd. cbn [mbind outcome_bind]. unfold ip_addr_cmp. rewrite Z.eqb_refl, Fs. cbn [mbind outcome_bind].
  rewrite Fh. cbn [mbind outcome_bind].
  destruct (add_arp_entry_ok tx s (p :: H) h sip shw K C H3) as (s1 & -> & K1 & C1 & _ & _ & _ & i & Hin). cbn [mbind outcome_bind].
  assert (owned (net s1) H (p :: queued (xmit_queue_table s1))) as O1.
  { eapply owned_perm; [|apply (ok_own _ _ K1)]. solve_Permutation. }
  destruct (owned_free _ _ _ _ O1) as (k & t & E & O2 & Hm & Hf). cbn [net log_dhcp]. rewrite E. cbn [mbind outcome_bind].
  eexists. split; [done|]. split.
  - exact (arp_lookup_entry _ s1 _ _ _ C1 Hs0 Hin eq_refl).
  - destruct K1 as [L _ En]. split; [done|done|]. cbn [set_net log_dhcp xmit_queue_table netifs net].
    apply (entries_keep _ (net s1)); [done| |by rewrite Hm].
    intros e He Hp. apply Hf, elem_of_app. right. by apply queued_elem.
Qed.

Definition good_netif (n : netif) : Prop := length (nif_hw n) = 6%nat /\ is_addr (nif_ip n).

(** address resolution between two hosts.  The request one host makes for the
    address of another, received by the other as it was sent, is turned into a
    reply; the reply, received by the first in any state its runs can reach, is
    taken in, and from then on a lookup of the other host's address gives its
    hardware address. *)
Theorem arp_exchange tx sa nifa na nifb nb a :
  netifs sa !! nifa = Some na -> good_netif na -> good_netif nb -> nif_ip nb <> 0 -> a <> NULL ->
  exists sa1 request, arp_query sa nifa (nif_hw na) (nif_ip nb) a = Ok (a, sa1) /\ holds_frame sa1 a request /\
    forall sb p, netifs sb !! nifb = Some nb -> holds_frame sb p request ->
      exists sb1 reply, arp_arp_input tx sb nifb (nif_hw nb) p = Ok (p, sb1) /\ holds_frame sb1 p reply /\
        forall s0 H0 s H h q, starts s0 H0 -> reach astep (arp_init s0, H0, []) (s, q :: H, h) ->
          netifs s !! nifa = Some na -> holds_frame s q reply ->
          exists s', arp_arp_input tx s nifa (nif_hw na) q = Ok (NULL, s') /\ arp_lookup s' (nif_ip nb) = Some (nif_hw nb).
Proof.
  intros Hna [Hla Hia] [Hlb Hib] Hn0 Ha.
  destruct (arp_query_ok sa nifa na (nif_ip nb) a Hna Hla Hia Hib Ha) as (sa1 & E1 & F1).
  eexists sa1, _. split; [done|]. split; [done|]. intros sb p Hnb F2.
  destruct (arp_reply_ok tx sb nifb nb p _ _ _ _ _ Hnb Hlb Hib Hia (length_replicate 6 255) Hla Hla (length_replicate 6 0) F2) as (sb1 & E2 & _ & F3).
  eexists sb1, _. split; [done|]. split; [done|]. intros s0 H0 s H h q Hs Hr Hns F4.
  destruct (ainv_reach _ _ _ Hs Hr) as [K C].
  destruct (arp_learn_ok tx s H h nifa na q _ _ _ _ _ K C Hns Hia Hib Hn0 Hla Hlb Hlb Hla F4) as (s' & E3 & Hl & _).
  by exists s'.
Qed.

(** 10.0.0.1 asks for 10.0.0.2; the frame is that of RFC 826. *)
Lemma arp_exchange_witness :
  let nb := MkNif 0x0200000A 0x00FFFFFF 0 neighbour 1 9 in
  (exists sa1 request, arp_query host 1 [2; 0; 0; 0; 0; 1] 0x0200000A 2000 = Ok (2000, sa1) /\ holds_frame sa1 2000 request /\
    forall sb p, netifs sb !! 5 = Some nb -> holds_frame sb p request ->
      exists sb1 reply, arp_arp_input (fun _ => 0) sb 5 neighbour p = Ok (p, sb1) /\ holds_frame sb1 p reply /\
        forall s0 H0 s H h q, starts s0 H0 -> reach astep (arp_init s0, H0, []) (s, q :: H, h) ->
          netifs s !! 1 = Some (MkNif 0x0100000A 0x00FFFFFF 0 [2; 0; 0; 0; 0; 1] 1 7) -> holds_frame s q reply ->
          exists s', arp_arp_input (fun _ => 0) s 1 [2; 0; 0; 0; 0; 1] q = Ok (NULL, s') /\ arp_lookup s' 0x0200000A = Some neighbour) /\
  arp_frame neighbour [2; 0; 0; 0; 0; 1] ARP_REQUEST [2; 0; 0; 0; 0; 1] 0x0100000A [0; 0; 0; 0; 0; 0] 0x0200000A =
    neighbour ++ [2; 0; 0; 0; 0; 1; 8; 6; 0; 1; 8; 0; 6; 4; 0; 1; 2; 0; 0; 0; 0; 1; 10; 0; 0; 1; 0; 0; 0; 0; 0; 0; 10; 0; 0; 2].
Proof.
  intros nb. split; [|reflexivity].
  apply (arp_exchange (fun _ => 0) host 1 (MkNif 0x0100000A 0x00FFFFFF 0 [2; 0; 0; 0; 0; 1] 1 7) 5 nb 2000).
  - apply lookup_singleton_eq.
  - split; [reflexivity|]. split; [discriminate|reflexivity].
  - split; [reflexivity|]. split; [discriminate|reflexivity].
  - discriminate.
  - discriminate.
Defined.
