(* ===== verification/Ether.v ===== *)
(** * The Ethernet layer (net/ether.c, sys/net/ipaddr.h)

    ether_output gives an IP packet its Ethernet header, or asks for the hardware
    address and lets the packet wait (Arp.v); dispatch_packet takes a received
    frame to address resolution or to IP.  [tx] is what dev_transmit of a packet
    returns, [ipin] what the IP layer returns.  The mailbox of the Ethernet thread
    is the list [inbox]; [post] tells whether it takes a message. *)

From S2P Require Import Prelude Timer CStr Pbuf Inet PbufPool Arp.

(** ** Data *)

Definition ETHER_HLEN : Z := 14.
Definition NETIF_UP : Z := 1.
Definition NETIF_NO_ARP : Z := 0x80.
Definition ENETDOWN : Z := -100.

Definition ethbroadcast : list Z := [0xFF; 0xFF; 0xFF; 0xFF; 0xFF; 0xFF].

Record est := MkE {
  arp : ast;
  link_err : Z;
  link_lenerr : Z;
  link_memerr : Z;
  eth_thread : bool;
  inbox : list (Z * Z);
  to_ip : list (Z * Z);
  to_link : list (Z * Z) }.

Definition set_arp (s : est) (v : ast) : est :=
  MkE v (link_err s) (link_lenerr s) (link_memerr s) (eth_thread s) (inbox s) (to_ip s) (to_link s).
Definition count_link_err (s : est) : est :=
  MkE (arp s) (u32 (link_err s + 1)) (link_lenerr s) (link_memerr s) (eth_thread s) (inbox s) (to_ip s) (to_link s).
Definition count_lenerr (s : est) : est :=
  MkE (arp s) (link_err s) (u32 (link_lenerr s + 1)) (link_memerr s) (eth_thread s) (inbox s) (to_ip s) (to_link s).
Definition count_memerr (s : est) : est :=
  MkE (arp s) (link_err s) (link_lenerr s) (u32 (link_memerr s + 1)) (eth_thread s) (inbox s) (to_ip s) (to_link s).
Definition post_inbox (s : est) (nif p : Z) : est :=
  MkE (arp s) (link_err s) (link_lenerr s) (link_memerr s) (eth_thread s) (inbox s ++ [(nif, p)]) (to_ip s) (to_link s).
Definition log_ip (s : est) (nif p : Z) : est :=
  MkE (arp s) (link_err s) (link_lenerr s) (link_memerr s) (eth_thread s) (inbox s) (to_ip s ++ [(nif, p)]) (to_link s).
Definition log_link (s : est) (nif p : Z) : est :=
  MkE (arp s) (link_err s) (link_lenerr s) (link_memerr s) (eth_thread s) (inbox s) (to_ip s) (to_link s ++ [(nif, p)]).

(** ** Kinds of addresses (in network byte order) *)

Definition ip_addr_isbroadcast (a mask : Z) : bool :=
  let inv := Z.lxor mask 0xFFFFFFFF in
  (Z.land a inv =? Z.land 0xFFFFFFFF inv) || (a =? 0xFFFFFFFF) || (a =? 0).
Definition ip_addr_ismulticast (a : Z) : bool := Z.land a (ntohl 0xF0000000) =? ntohl 0xE0000000.

Definition ip4_addr2 (a : Z) : Z := Z.land (u8 (Z.shiftr (ntohl a) 16)) 0xFF.
Definition ip4_addr3 (a : Z) : Z := Z.land (u8 (Z.shiftr (ntohl a) 8)) 0xFF.
Definition ip4_addr4 (a : Z) : Z := Z.land (u8 (ntohl a)) 0xFF.

(** The hardware address of a multicast group. *)
Definition mcastaddr (ip : Z) : list Z :=
  [0x01; 0x0; 0x5e; Z.land (ip4_addr2 ip) 0x7f; ip4_addr3 ip; ip4_addr4 ip].

(** ** The operations *)

Definition ether_input (post : bool) (s : est) (nif p : Z) : outcome (Z * est) :=
  n ← from_opt (netifs (arp s) !! nif);
  if Z.land (nif_flags n) NETIF_UP =? 0 then Ok (ENETDOWN, s)
  else if negb (eth_thread s) then Ok (- EINVAL, s)
  else
    x ← getp (net (arp s)) p;
    if len x <? ETHER_HLEN then Ok (EINVAL, set_arp (count_lenerr s) (count_drop (arp s)))
    else if post then Ok (0, post_inbox s nif p)
    else Ok (1, s).

(** The hardware address to send to, whether it is the interface's own, and the
    address to ask for when it is not known. *)
Definition choose_dest (s : ast) (n : netif) (ip : Z) : option (list Z) * bool * Z :=
  if ip_addr_isany ip || ip_addr_isbroadcast ip (nif_mask n) then (Some ethbroadcast, false, ip)
  else if ip_addr_ismulticast ip then (Some (mcastaddr ip), false, ip)
  else if ip_addr_cmp ip (nif_ip n) then (Some (nif_hw n), true, ip)
  else
    let queryaddr := if ip_addr_maskcmp ip (nif_ip n) (nif_mask n) then ip else nif_gw n in
    (arp_lookup s queryaddr, false, queryaddr).

(** The address is not known: ask, and queue the packet. *)
Definition ask_and_queue (tx : Z -> Z) (s : est) (nif : Z) (n : netif) (p queryaddr a : Z) : outcome (Z * est) :=
  '(q, t) ← arp_query (arp s) nif (nif_hw n) queryaddr a;
  let s := set_arp s t in
  '(err, s) ← (
    if negb (q =? NULL) then
      let s := set_arp s (log_sent (arp s) (nif_state n) q) in
      if tx q <? 0 then
        '(_, t) ← pbuf_free (net (arp s)) q;
        Ok (tx q, set_arp s (count_drop (set_net (arp s) t)))
      else Ok (0, s)
    else Ok (0, s));
  if err <? 0 then Ok (err, s)
  else
    '(err, t) ← arp_queue (arp s) nif p queryaddr;
    let s := set_arp s t in
    if err <? 0 then Ok (err, count_memerr (set_arp s (count_drop (arp s)))) else Ok (0, s).

(** [a]: what kmalloc returns, for the request or for the copy of a packet to the
    interface itself. *)
Definition ether_output (tx : Z -> Z) (post : bool) (s : est) (nif p ip a : Z) : outcome (Z * est) :=
  n ← from_opt (netifs (arp s) !! nif);
  if Z.land (nif_flags n) NETIF_UP =? 0 then Ok (ENETDOWN, s)
  else
    '(r, t) ← pbuf_header (net (arp s)) p ETHER_HLEN;
    let s := set_arp s (set_net (arp s) t) in
    if negb (r =? 0) then Ok (ENOSPC, count_link_err s)
    else
      let '(dest, loopback, queryaddr) := choose_dest (arp s) n ip in
      match dest with
      | None => ask_and_queue tx s nif n p queryaddr a
      | Some dest =>
          x ← getp (net (arp s)) p;
          m ← put_eth_header (nmem (net (arp s))) (payload x) dest (nif_hw n);
          let s := set_arp s (set_net (arp s) (set_nmem (net (arp s)) m)) in
          if loopback then
            '(q, t) ← pbuf_dup (net (arp s)) PBUF_RAW p a;
            let s := set_arp s (set_net (arp s) t) in
            if q =? NULL then Ok (ENOMEM, s)
            else
              '(err, s) ← ether_input post s nif q;
              if err <? 0 then
                '(_, t) ← pbuf_free (net (arp s)) q;
                Ok (err, set_arp s (set_net (arp s) t))
              else Ok (0, s)
          else
            let s := set_arp s (log_sent (arp s) (nif_state n) p) in
            if tx p <? 0 then Ok (tx p, s) else Ok (0, s)
      end.

(** [linkout]: the interface has a linkoutput function. *)
Definition dispatch_packet (tx ipin : Z -> Z) (linkout : bool) (s : est) (nif p : Z) : outcome est :=
  if p =? NULL then Ok s
  else
    let release (s : est) (p : Z) : outcome est :=
      '(_, t) ← pbuf_free (net (arp s)) p; Ok (set_arp s (set_net (arp s) t)) in
    x ← getp (net (arp s)) p;
    ty ← ld16 (nmem (net (arp s))) (payload x + eth_type);
    if htons ty =? ETHTYPE_IP then
      t ← arp_ip_input tx (arp s) nif p;
      '(_, u) ← pbuf_header (net t) p (- ETHER_HLEN);
      let s := log_ip (set_arp s (set_net t u)) nif p in
      if ipin p <? 0 then release s p else Ok s
    else if htons ty =? ETHTYPE_ARP then
      n ← from_opt (netifs (arp s) !! nif);
      '(q, t) ← arp_arp_input tx (arp s) nif (nif_hw n) p;
      let s := set_arp s t in
      if q =? NULL then Ok s
      else if negb (Z.land (nif_flags n) NETIF_NO_ARP =? 0) && linkout then Ok (log_link s nif q)
      else
        let s := set_arp s (log_sent (arp s) (nif_state n) q) in
        if tx q <? 0 then release s q else Ok s
    else release s p.

(** ** What the kinds of addresses are *)

Lemma land_mask x k w : 0 <= k -> 0 <= w -> Z.land x (Z.shiftl (Z.ones w) k) = (x / 2 ^ k) mod 2 ^ w * 2 ^ k.
Proof.
  intros Hk Hw. rewrite <- Z.shiftl_mul_pow2, <- Z.land_ones, <- Z.shiftr_div_pow2 by lia.
  apply Z.bits_inj'. intros n Hn. rewrite Z.land_spec, !Z.shiftl_spec by lia. destruct (decide (n < k)).
  - rewrite !(Z.testbit_neg_r _ (n - k)) by lia. apply andb_false_r.
  - rewrite Z.land_spec, Z.shiftr_spec by lia. do 2 f_equal. lia.
Qed.

(** ntohl turns the bytes round. *)
Lemma ntohl_val a : is_addr a ->
  ntohl a = 16777216 * (a mod 256) + 65536 * (a / 256 mod 256) + 256 * (a / 65536 mod 256) + a / 16777216 mod 256.
Proof.
  intros Ha. unfold ntohl, is_addr in *.
  change 255 with (Z.shiftl (Z.ones 8) 0). change 65280 with (Z.shiftl (Z.ones 8) 8).
  change 16711680 with (Z.shiftl (Z.ones 8) 16). change 4278190080 with (Z.shiftl (Z.ones 8) 24).
  rewrite !land_mask by lia. rewrite !Z.shiftl_mul_pow2, !Z.shiftr_div_pow2 by lia.
  assert (forall x, 0 <= x mod 256 < 256) as Hm by (intros; apply Z.mod_pos_bound; lia).
  pose proof (Hm a). pose proof (Hm (a / 256)). pose proof (Hm (a / 65536)). pose proof (Hm (a / 16777216)).
  change (2 ^ 0) with 1. change (2 ^ 8) with 256. change (2 ^ 16) with 65536. change (2 ^ 24) with 16777216. rewrite Z.div_1_r.
  replace (a mod 256 * 1 * 16777216) with (a mod 256 * 2 ^ 24) by lia.
  replace (a / 256 mod 256 * 256 * 256) with (a / 256 mod 256 * 2 ^ 16) by lia.
  replace (a / 65536 mod 256 * 65536 / 256) with (a / 65536 mod 256 * 2 ^ 8) by (clear; Z.to_euclidean_division_equations; lia).
  rewrite (Z.div_mul _ 16777216) by lia.
  rewrite lor_four_bytes by lia. lia.
Qed.

Lemma byte_of_addr a : is_addr a ->
  ip4_addr2 a = a / 256 mod 256 /\ ip4_addr3 a = a / 65536 mod 256 /\ ip4_addr4 a = a / 16777216 mod 256.
Proof.
  intros Ha. unfold ip4_addr2, ip4_addr3, ip4_addr4, u8. rewrite ntohl_val by done.
  change 0xFF with (Z.ones 8). rewrite !Z.land_ones, !Z.shiftr_div_pow2 by lia. rewrite !Z.mod_mod by lia.
  assert (forall x, 0 <= x mod 256 < 256) as Hm by (intros; apply Z.mod_pos_bound; lia).
  generalize (Hm a) (Hm (a / 256)) (Hm (a / 65536)) (Hm (a / 16777216)).
  generalize (a mod 256) (a / 256 mod 256) (a / 65536 mod 256) (a / 16777216 mod 256).
  intros b0 b1 b2 b3 ????. change (2 ^ 8) with 256. change (2 ^ 16) with 65536.
  split_and!; Z.to_euclidean_division_equations; lia.
Qed.

(** The addresses 224.x.x.x to 239.x.x.x are multicast. *)
Lemma ip_addr_ismulticast_spec a : is_addr a -> ip_addr_ismulticast a = true <-> 224 <= a mod 256 <= 239.
Proof.
  intros Ha. unfold ip_addr_ismulticast. change (ntohl 0xF0000000) with (Z.land 255 240). change (ntohl 0xE0000000) with 224.
  rewrite Z.land_assoc. change 255 with (Z.ones 8). rewrite Z.land_ones by lia. change (2 ^ 8) with 256.
  assert (forallb (fun x => eqb (Z.land x 240 =? 224) ((224 <=? x) && (x <=? 239))) (seqZ 0 256) = true) as Hall
    by (vm_compute; reflexivity).
  rewrite forallb_forall in Hall. pose proof (Z.mod_pos_bound a 256 ltac:(lia)).
  specialize (Hall (a mod 256) ltac:(apply list_elem_of_In, elem_of_seqZ; lia)). apply eqb_prop in Hall. rewrite Hall. lia.
Qed.

(** The group address of a multicast address has its low 23 bits (RFC 1112). *)
Definition group_addr (ip : Z) : list Z := [1; 0; 94; ip / 256 mod 128; ip / 65536 mod 256; ip / 16777216 mod 256].

Lemma mcastaddr_group ip : is_addr ip -> mcastaddr ip = group_addr ip.
Proof.
  intros Ha. unfold mcastaddr, group_addr. destruct (byte_of_addr ip Ha) as (-> & -> & ->).
  change 0x7f with (Z.ones 7). rewrite Z.land_ones by lia. do 3 f_equal. f_equal. Z.to_euclidean_division_equations; lia.
Qed.

(** The host that a packet to [ip] goes to: itself, or the gateway. *)
Definition next_hop (n : netif) (ip : Z) : Z :=
  if decide (Z.land ip (nif_mask n) = Z.land (nif_ip n) (nif_mask n)) then ip else nif_gw n.

(** Not a broadcast address of the network. *)
Definition no_broadcast (n : netif) (ip : Z) : Prop := ip_addr_isbroadcast ip (nif_mask n) = false.

Lemma choose_unicast s n ip : is_addr ip -> no_broadcast n ip -> ip mod 256 < 224 -> ip <> nif_ip n ->
  choose_dest s n ip = (arp_lookup s (next_hop n ip), false, next_hop n ip).
Proof.
  intros Ha Hb Hm Ho. unfold choose_dest. unfold no_broadcast in Hb. rewrite Hb.
  assert (ip_addr_ismulticast ip = false) as ->.
  { apply not_true_is_false. rewrite ip_addr_ismulticast_spec by done. lia. }
  assert (ip_addr_isany ip = false) as ->.
  { unfold ip_addr_isbroadcast, ip_addr_isany in *. destruct (ip =? 0); [|done]. by rewrite orb_true_r in Hb. }
  unfold ip_addr_cmp. rewrite (proj2 (Z.eqb_neq _ _) Ho). cbn [orb].
  unfold next_hop, ip_addr_maskcmp. destruct (Z.eqb_spec (Z.land ip (nif_mask n)) (Z.land (nif_ip n) (nif_mask n))); by case_decide.
Qed.

Lemma choose_group s n ip : is_addr ip -> no_broadcast n ip -> 224 <= ip mod 256 <= 239 ->
  choose_dest s n ip = (Some (group_addr ip), false, ip).
Proof.
  intros Ha Hb Hm. unfold choose_dest. unfold no_broadcast in Hb. rewrite Hb.
  rewrite (proj2 (ip_addr_ismulticast_spec ip Ha) Hm), mcastaddr_group by done.
  assert (ip_addr_isany ip = false) as ->; [|done].
  unfold ip_addr_isany. apply Z.eqb_neq. intros ->. rewrite Z.mod_0_l in Hm by lia. lia.
Qed.

(** ** Keeping the packets that wait *)

Lemma owned_put t H Q a x y : owned t H Q -> pbs t !! a = Some x -> next y = next x -> flags y = flags x -> owned (putp t a y) H Q.
Proof.
  intros (B & Cs & G & (P & A & I & Hne) & Hh) Hx Hn Hf. exists B, Cs, G. split; [|done]. exists P, A.
  split; [|done]. by eapply pinv_put_same.
Qed.

(** A fresh buffer belongs to whoever allocated it. *)
Lemma owned_fresh t H Q a y m d : owned t H Q -> a <> NULL -> pbs t !! a = None -> next y = NULL -> flags y <> PBUF_FLAG_POOL ->
  owned (putp (set_stat (set_nmem t m) (count_rw (stat t) d)) a y) H Q.
Proof.
  intros (B & Cs & G & (P & A & I & Hne) & Hh) Ha Hn Hy Hf. exists B, ([a] :: Cs), (a :: G). split.
  - exists P, A. split; [|by constructor]. apply (pinv_nmem _ _ _ _ _ _ m) in I.
    by apply (pinv_fresh B (set_nmem t m) P A Cs a y (count_rw (stat t) d) I).
  - cbn. rewrite Hh. solve_Permutation.
Qed.

Lemma map_zeros_mapped n m p a : is_Some (m !! a) -> is_Some (map_zeros n m p !! a).
Proof.
  revert p. induction n as [|n IH]; intros p Hm; cbn [map_zeros]; [done|].
  destruct (decide (p = a)) as [->|Hne]; [rewrite lookup_insert_eq; by eexists|].
  rewrite lookup_insert_ne by done. by apply IH.
Qed.

(** Making room for the Ethernet header in a packet of the caller. *)
Lemma header_ok s H p x : aok s (p :: H) -> pbs (net s) !! p = Some x -> p + SZ + ETHER_HLEN <= payload x ->
  exists t, pbuf_header (net s) p ETHER_HLEN = Ok (0, t) /\ aok (set_net s t) (p :: H) /\ nmem t = nmem (net s) /\
    pay t p = Some (payload x - ETHER_HLEN) /\ pbs t = <[p := MkPb (next x) (flags x) (ref x) (payload x - ETHER_HLEN)
      (s32 (tot_len x + ETHER_HLEN)) (s32 (len x + ETHER_HLEN)) (size x)]> (pbs (net s)).
Proof.
  intros K Hx Hr. unfold pbuf_header, getp. rewrite Hx. cbn [from_opt mbind outcome_bind].
  destruct (Z.ltb_spec (payload x - ETHER_HLEN) (p + SZ)); [lia|]. eexists. split; [done|].
  destruct (owned_NoDup _ _ _ (ok_own _ _ K)) as (Hnd & _ & _). destruct K as [L O En]. split; [|split_and!; try done].
  - split; [done|by eapply owned_put|]. cbn [set_net xmit_queue_table netifs net].
    apply (entries_keep _ (net s)); [done| |done]. intros e He Hp. unfold pay. cbn. rewrite lookup_insert_ne; [done|].
    intros Ep. apply NoDup_app in Hnd as (_ & Hnd & _). apply (Hnd p); [left|]. rewrite Ep. by apply queued_elem.
  - unfold pay. cbn. by rewrite lookup_insert_eq.
Qed.

(** arp_query leaves the rest of the state alone. *)
Lemma arp_query_keeps s H nif n ip a : aok s H -> netifs s !! nif = Some n -> good_netif n -> is_addr ip -> a <> NULL ->
  pbs (net s) !! a = None ->
  exists t, arp_query s nif (nif_hw n) ip a = Ok (a, set_net s t) /\ aok (set_net s t) H /\
    holds_frame (set_net s t) a (arp_frame ethbroadcast (nif_hw n) ARP_REQUEST (nif_hw n) (nif_ip n) (replicate 6 0) ip) /\
    (forall q, q <> a -> pay t q = pay (net s) q) /\ (forall b k, mapped (nmem (net s)) b k -> mapped (nmem t) b k).
Proof.
  intros K Hn [Hh Hs] Hi Ha Hf. destruct (arp_query_ok s nif n ip a Hn Hh Hs Hi Ha) as (s' & E & F).
  pose proof E as E'. unfold arp_query, pbuf_alloc in E'. change (layer_offset PBUF_LINK) with (Ok PBUF_LINK_HLEN) in E'.
  rewrite bind_Ok in E'. change (PBUF_RW =? PBUF_POOL) with false in E'. change (PBUF_RW =? PBUF_RW) with true in E'. cbv iota in E'.
  destruct (Z.eqb_spec a NULL) as [|_]; [done|]. rewrite bind_Ok in E'.
  match type of E' with context [putp ?b a ?y] => set (t0 := putp b a y) in E' end.
  unfold getp in E'. assert (pbs t0 !! a = Some (MkPb NULL PBUF_FLAG_RW 1 (a + SZ + PBUF_LINK_HLEN) ARP_HDR_SIZE ARP_HDR_SIZE ARP_HDR_SIZE)) as Hx
    by apply lookup_insert_eq.
  destruct (Z.eqb_spec a NULL) as [|_]; [done|]. rewrite Hx, Hn in E'. cbn [from_opt mbind outcome_bind payload] in E'.
  apply bind_Ok_inv in E' as (m & Em & E'). injection E' as <-. exists (set_nmem t0 m). split; [done|].
  destruct (make_query_ok (nmem t0) (a + SZ + PBUF_LINK_HLEN) (nif_hw n) (nif_ip n) ip) as (m' & Em' & Hb & Ho); try done.
  { pose proof (bytes_at_sub _ _ _ 38 42 (map_zeros_bytes 80 (nmem (net s)) a)) as Hb.
    replace (a + SZ + PBUF_LINK_HLEN) with (a + Z.of_nat 38) by (unfold SZ, PBUF_LINK_HLEN; lia). apply Hb. cbn. lia. }
  assert (m' = m) as -> by congruence.
  assert (forall q, q <> a -> pay (set_nmem t0 m) q = pay (net s) q) as Hpay.
  { intros q Hq. unfold pay. cbn. by rewrite lookup_insert_ne. }
  assert (forall b k, mapped (nmem (net s)) b k -> mapped m b k) as Hmap.
  { intros b k Hmp. eapply mapped_written; [exact Hb|exact Ho|]. intros j Hj. apply map_zeros_mapped, Hmp, Hj. }
  split; [|split; [exact F|by split]]. destruct K as [L O En]. split; [done| |].
  - apply owned_nmem. by apply (owned_fresh (net s) H _ a _ _ 1).
  - apply (entries_keep _ (net s)); [done| |done]. intros e He Hp. apply Hpay. intros Ea.
    destruct (owned_NoDup _ _ _ O) as (_ & _ & Hs'). destruct (Hs' (xq_p e)) as [v Hv].
    { apply elem_of_app. right. by apply queued_elem. }
    unfold pay in Hv. by rewrite Ea, Hf in Hv.
Qed.

(** ** Sending *)

(** The packet that was put at [i] is the first that waits for [qa]. *)
Lemma first_waiting q i e qa : q !! i = Some e -> (forall j e', q !! j = Some e' -> waits_for qa e' = false) ->
  forall e1, waits_for qa e1 = true -> find_index (waits_for qa) (<[i := e1]> q) = Some i.
Proof.
  intros He Hno e1 Hw. destruct (find_index _ _) as [j|] eqn:Ej.
  - destruct (find_index_Some _ _ _ Ej) as (e2 & He2 & Hw2 & _).
    apply list_lookup_insert_Some in He2 as [(-> & _ & _)|(_ & He2)]; [done|]. by rewrite (Hno _ _ He2) in Hw2.
  - rewrite (find_index_None _ _ Ej i e1) in Hw; [done|]. apply list_lookup_insert_eq. by eapply lookup_lt_Some.
Qed.

Lemma lookup_none_entry s ip : arp_lookup s ip = None -> find_entry (arp_table s) ip = None.
Proof.
  unfold arp_lookup. destruct (find_index _ _) as [i|] eqn:Ei.
  - destruct (find_index_Some _ _ _ Ei) as (e & -> & _). done.
  - intros _. destruct (find_entry (arp_table s) ip) as [j|] eqn:Ej; [|done].
    destruct (find_entry_Some _ _ _ Ej) as (e & He & Hip & _). pose proof (find_index_None _ _ Ei _ _ He) as Hx.
    apply Z.eqb_neq in Hx. congruence.
Qed.

(** The first packet that waits for an address goes out when it is heard. *)
Lemma waiting_sent tx s H h i nif n p q b ex eth : aok s H -> cache h (arp_table s) (arp_ctime s) -> length eth = 6%nat ->
  find_entry (arp_table s) q = None -> find_index (waits_for q) (xmit_queue_table s) = Some i ->
  xmit_queue_table s !! i = Some (MkXq nif p q ex) -> netifs s !! nif = Some n -> pay (net s) p = Some b ->
  exists s', add_arp_entry tx s q eth = Ok s' /\ sent s' = sent s ++ [(nif_state n, p)] /\
    bytes_at (nmem (net s')) b (eth ++ nif_hw n ++ [8; 0]).
Proof.
  intros K C Hl Hf Hi He Hn Hp. destruct (add_arp_entry_ok tx s H h q eth K C Hl) as (s' & E & _).
  pose proof (add_arp_entry_sends tx s H q eth s' K Hl E) as Hs. rewrite Hf, Hi in Hs.
  destruct Hs as (e & nf & b' & He' & _ & Hnf & Hb & Hse & _ & Hby & _). assert (e = MkXq nif p q ex) as -> by congruence.
  cbn [xq_netif xq_p] in *. assert (nf = n) as -> by congruence. assert (b' = b) as -> by congruence. by exists s'.
Qed.

Section Output.
Context (tx : Z -> Z) (post : bool) (s : est) (H : list Z) (nif p ip : Z) (n : netif) (x : pbuf).
Hypothesis Hk : aok (arp s) (p :: H).
Hypothesis Hn : netifs (arp s) !! nif = Some n.
Hypothesis Hg : good_netif n.
Hypothesis Hup : Z.land (nif_flags n) NETIF_UP <> 0.
Hypothesis Hx : pbs (net (arp s)) !! p = Some x.
Hypothesis Hroom : p + SZ + ETHER_HLEN <= payload x.
Hypothesis Hmap : mapped (nmem (net (arp s))) (payload x - ETHER_HLEN) 14.

(** A packet whose destination is known goes out at once. *)
Lemma output_known a dest q : choose_dest (arp s) n ip = (Some dest, false, q) -> length dest = 6%nat ->
  exists s1, ether_output tx post s nif p ip a = Ok (if tx p <? 0 then tx p else 0, s1) /\
    sent (arp s1) = sent (arp s) ++ [(nif_state n, p)] /\
    bytes_at (nmem (net (arp s1))) (payload x - ETHER_HLEN) (dest ++ nif_hw n ++ [8; 0]) /\
    xmit_queue_table (arp s1) = xmit_queue_table (arp s) /\ arp_table (arp s1) = arp_table (arp s).
Proof.
  intros Hd Hl. unfold ether_output. rewrite Hn. cbn [from_opt mbind outcome_bind].
  rewrite (proj2 (Z.eqb_neq _ _) Hup).
  destruct (header_ok (arp s) H p x Hk Hx Hroom) as (t & -> & _ & Hnm & _ & Hpb). cbn [mbind outcome_bind].
  change (negb (0 =? 0)) with false. cbv iota. cbn [arp set_arp].
  change (choose_dest (set_net (arp s) t) n ip) with (choose_dest (arp s) n ip). rewrite Hd.
  unfold getp. cbn [net set_net]. rewrite Hpb, lookup_insert_eq. cbn [from_opt mbind outcome_bind payload]. rewrite Hnm.
  destruct (put_eth_header_ok _ _ dest (nif_hw n) Hmap Hl (proj1 Hg)) as (m & -> & Hb & _). cbn [mbind outcome_bind].
  destruct (tx p <? 0); eexists; split_and!; done.
Qed.

(** The first free entry of the queue takes the packet. *)
Lemma queue_free_slot (u : ast) (i : nat) qa :
  find_index (fun e => xq_p e =? NULL) (xmit_queue_table u) = Some i -> exists e,
  xmit_queue_table u !! i = Some e /\ xq_p e = NULL /\
  arp_queue u nif p qa = Ok (0, set_queue u (<[i := MkXq nif p qa (u32 (now u + MAX_XMIT_DELAY / MSECS_PER_TICK))]> (xmit_queue_table u))).
Proof.
  intros Hi. destruct (find_index_Some _ _ _ Hi) as (e & He & Hz & _). apply Z.eqb_eq in Hz. exists e.
  split; [done|]. split; [done|]. unfold arp_queue, queue_slot. rewrite Hi, He. cbn [from_opt mbind outcome_bind].
  by rewrite Hz.
Qed.

(** A packet whose destination is not known waits, and the request goes out. *)
Lemma output_unknown a lb q : choose_dest (arp s) n ip = (None, lb, q) -> is_addr q -> a <> NULL ->
  pbs (net (arp s)) !! a = None -> 0 <= tx a ->
  is_Some (find_index (fun e => xq_p e =? NULL) (xmit_queue_table (arp s))) ->
  find_index (waits_for q) (xmit_queue_table (arp s)) = None ->
  exists s1 i ex, ether_output tx post s nif p ip a = Ok (0, s1) /\ sent (arp s1) = sent (arp s) ++ [(nif_state n, a)] /\
    holds_frame (arp s1) a (arp_frame ethbroadcast (nif_hw n) ARP_REQUEST (nif_hw n) (nif_ip n) (replicate 6 0) q) /\
    aok (arp s1) H /\ arp_table (arp s1) = arp_table (arp s) /\ arp_ctime (arp s1) = arp_ctime (arp s) /\
    netifs (arp s1) = netifs (arp s) /\
    find_index (waits_for q) (xmit_queue_table (arp s1)) = Some i /\ xmit_queue_table (arp s1) !! i = Some (MkXq nif p q ex) /\
    pay (net (arp s1)) p = Some (payload x - ETHER_HLEN).
Proof.
  intros Ed Hq Ha0 Hf Htx [i Hi] Hnw.
  destruct (header_ok (arp s) H p x Hk Hx Hroom) as (t & Eh & Kt & Hnm & Hpt & Hpb).
  assert (p <> a) as Hpa by (intros ->; by rewrite Hf in Hx).
  assert (pbs t !! a = None) as Hft by (by rewrite Hpb, lookup_insert_ne).
  destruct (arp_query_keeps (set_net (arp s) t) (p :: H) nif n q a Kt Hn Hg Hq Ha0 Hft) as (u & Eq & Ku & Fu & Hpu & Hmu).
  set (s1 := log_sent (set_net (arp s) u) (nif_state n) a).
  destruct (queue_free_slot s1 i q Hi) as (e & He & Hez & Eqq). set (s2 := set_queue s1 _) in Eqq.
  assert (pay (net s1) p = Some (payload x - ETHER_HLEN)) as Hp1 by (cbn [s1 log_sent net set_net] in *; by rewrite Hpu).
  assert (aok s2 H) as K2.
  { assert (aok s1 (p :: H)) as K1 by (by apply (aok_same _ _ _ Ku)).
    assert (mapped (nmem (net s1)) (payload x - ETHER_HLEN) 14) as Hm1 by (apply Hmu; cbn [net set_net]; by rewrite Hnm).
    destruct (arp_queue_ok s1 H nif n p q _ K1 Hn (proj1 Hg) Hp1 Hm1) as (r & s2' & E2 & _ & _ & Hres).
    assert (r = 0 /\ s2' = s2) as [-> ->] by (split; congruence). by destruct Hres as [(_ & K2 & _)|[? _]]. }
  eexists (set_arp s s2), i, _. split; [|split_and!; try done].
  - unfold ether_output. rewrite Hn. cbn [from_opt mbind outcome_bind]. rewrite (proj2 (Z.eqb_neq _ _) Hup), Eh.
    cbn [mbind outcome_bind arp set_arp]. change (negb (0 =? 0)) with false. cbv iota.
    change (choose_dest (set_net (arp s) t) n ip) with (choose_dest (arp s) n ip). rewrite Ed.
    unfold ask_and_queue. cbn [arp set_arp]. rewrite Eq. cbn [mbind outcome_bind].
    rewrite (proj2 (Z.eqb_neq _ _) Ha0). cbn [negb]. destruct (Z.ltb_spec (tx a) 0); [lia|]. cbn [mbind outcome_bind].
    change (0 <? 0) with false. cbv iota. cbn [arp set_arp].
    change (log_sent (set_net (set_net (arp s) t) u) (nif_state n) a) with s1. rewrite Eqq. done.
  - apply (first_waiting _ _ e); [exact He|by apply find_index_None|]. unfold waits_for, ip_addr_cmp. cbn [xq_p xq_ip].
    rewrite Z.eqb_refl. destruct (Z.eqb_spec p NULL) as [Ep|]; [|done].
    destruct (owned_NoDup _ _ _ (ok_own _ _ Hk)) as (_ & H00 & _). exfalso. apply H00. rewrite Ep. left.
  - apply list_lookup_insert_eq. by eapply lookup_lt_Some.
Qed.
End Output.

(** C34: sending to a host.  From every state the runs of address resolution reach,
    ether_output of a packet of the caller to a host: when the hardware address of
    the host, or of the gateway for a host outside the network, is known, transmits
    the packet at once, with that address, the interface's own and the type of IP
    in front; when it is not known and nothing waits for it yet, with a free entry
    in the queue, memory for a request and a driver that takes it, transmits the
    request of RFC 826 and returns 0, and the packet goes out, with the right header,
    when the address is heard next.  A packet to a multicast group goes to the address
    of the group (RFC 1112).  The interface is up, and the packet has room for the
    Ethernet header. *)
Theorem ether_output_delivers tx post s0 H0 s H h nif p ip a n x :
  starts s0 H0 -> reach astep (arp_init s0, H0, []) (arp s, p :: H, h) ->
  netifs (arp s) !! nif = Some n -> good_netif n -> Z.land (nif_flags n) NETIF_UP <> 0 ->
  pbs (net (arp s)) !! p = Some x -> p + SZ + ETHER_HLEN <= payload x ->
  mapped (nmem (net (arp s))) (payload x - ETHER_HLEN) 14 -> is_addr ip -> no_broadcast n ip ->
  let q := next_hop n ip in
  let goes_out dest := exists s1, ether_output tx post s nif p ip a = Ok (if tx p <? 0 then tx p else 0, s1) /\
    sent (arp s1) = sent (arp s) ++ [(nif_state n, p)] /\
    bytes_at (nmem (net (arp s1))) (payload x - ETHER_HLEN) (dest ++ nif_hw n ++ [8; 0]) in
  (224 <= ip mod 256 <= 239 -> goes_out (group_addr ip)) /\
  (ip mod 256 < 224 -> ip <> nif_ip n ->
    (forall dest, arp_lookup (arp s) q = Some dest -> length dest = 6%nat -> goes_out dest) /\
    (arp_lookup (arp s) q = None -> is_addr q -> a <> NULL -> pbs (net (arp s)) !! a = None -> 0 <= tx a ->
      is_Some (find_index (fun e => xq_p e =? NULL) (xmit_queue_table (arp s))) ->
      find_index (waits_for q) (xmit_queue_table (arp s)) = None ->
      exists s1, ether_output tx post s nif p ip a = Ok (0, s1) /\ sent (arp s1) = sent (arp s) ++ [(nif_state n, a)] /\
        holds_frame (arp s1) a (arp_frame ethbroadcast (nif_hw n) ARP_REQUEST (nif_hw n) (nif_ip n) (replicate 6 0) q) /\
        forall eth, length eth = 6%nat -> exists s2, add_arp_entry tx (arp s1) q eth = Ok s2 /\
          sent s2 = sent (arp s1) ++ [(nif_state n, p)] /\
          bytes_at (nmem (net s2)) (payload x - ETHER_HLEN) (eth ++ nif_hw n ++ [8; 0]))).
Proof.
  intros Hs Hr Hn Hg Hup Hx Hroom Hmap Ha Hb q goes_out. destruct (ainv_reach _ _ _ Hs Hr) as [K C].
  assert (forall dest q', choose_dest (arp s) n ip = (Some dest, false, q') -> length dest = 6%nat -> goes_out dest) as Hknown.
  { intros dest q' Ed Hl.
    destruct (output_known tx post s H nif p ip n x K Hn Hg Hup Hx Hroom Hmap a dest q' Ed Hl) as (s1 & E & Hse & Hby & _).
    by exists s1. }
  split; [|intros Hm Ho; split].
  - intros Hm. by eapply Hknown; [apply choose_group|].
  - intros dest Hd Hl. eapply Hknown; [|done]. rewrite choose_unicast by done. unfold q in Hd. by rewrite Hd.
  - intros Hd Hq Ha0 Hf Htx Hfree Hnw. pose proof (choose_unicast (arp s) n ip Ha Hb Hm Ho) as Ed. fold q in Ed. rewrite Hd in Ed.
    destruct (output_unknown tx post s H nif p ip n x K Hn Hg Hup Hx Hroom Hmap a false q Ed Hq Ha0 Hf Htx Hfree Hnw)
      as (s1 & i & ex & E & Hse & F & K1 & Ht1 & Hct1 & Hn1 & Hi & Hei & Hp).
    exists s1. split_and!; [done|done|done|]. intros eth Hl. rewrite <- Ht1, <- Hct1 in C.
    apply (waiting_sent tx _ H h i nif n p q _ ex eth); try done; [|by rewrite Hn1].
    apply lookup_none_entry. unfold arp_lookup in *. by rewrite Ht1.
Qed.

(** A packet from 10.0.0.1 to 10.0.0.2, which is not known. *)
Lemma ether_output_delivers_witness :
  let s := MkE (arp_init sender) 0 0 0 true [] [] [] in
  exists s1, ether_output (fun _ => 0) true s 1 1000 0x0200000A 5000 = Ok (0, s1) /\ sent (arp s1) = [(7, 5000)] /\
    forall eth, length eth = 6%nat -> exists s2, add_arp_entry (fun _ => 0) (arp s1) 0x0200000A eth = Ok s2 /\
      sent s2 = [(7, 5000); (7, 1000)].
Proof.
  intros s.
  pose proof (ether_output_delivers (fun _ => 0) true sender [1000] s [] [] 1 1000 0x0200000A 5000
    (MkNif 0x0100000A 0x00FFFFFF 0 [2; 0; 0; 0; 0; 1] 1 7) (MkPb NULL PBUF_FLAG_RW 1 1058 60 60 60) sender_starts
    (reach_refl _ _)) as T.
  cbv zeta in T. destruct T as (_ & T).
  - apply lookup_singleton_eq.
  - split; [reflexivity|]. split; [discriminate|reflexivity].
  - discriminate.
  - apply lookup_singleton_eq.
  - discriminate.
  - assert (forallb (fun j => bool_decide (is_Some (nmem one_packet !! (1044 + j)))) (seqZ 0 14) = true) as Hall
      by (vm_compute; reflexivity).
    rewrite forallb_forall in Hall. intros j Hj. apply (bool_decide_unpack (is_Some _)).
    apply Is_true_eq_left, Hall, list_elem_of_In, elem_of_seqZ. lia.
  - split; [discriminate|reflexivity].
  - reflexivity.
  - destruct T as (_ & T); [reflexivity|discriminate|].
    destruct T as (s1 & E1 & Hse & _ & Hlater); [reflexivity|split; [discriminate|reflexivity]|discriminate|reflexivity|
      discriminate|by eexists|reflexivity|].
    exists s1. split; [exact E1|]. split; [exact Hse|]. intros eth Hl.
    destruct (Hlater eth Hl) as (s2 & E2 & Hs2 & _). exists s2. split; [exact E2|]. by rewrite Hs2, Hse.
Defined.
