(* ===== verification/Iovec.v ===== *)
(** * Transfer vectors and memmove (net/misc.c)

    [memmove] copies upwards with the loop of [memcpy], or downwards.  The functions on arrays of struct iovec that the socket calls use.  An array is
    the list of its elements, NULL is [None]; it is changed in place, and returned.
    [iov_len] and [count] are unsigned 32-bit numbers. *)

From S2P Require Import Prelude CStr.

Definition EFAULT : Z := -14.

Record iovec := MkIov { iov_base : Z; iov_len : Z }.

(** ** The functions *)

Fixpoint down_loop (n : nat) (m : cmem) (d s : Z) : outcome cmem :=
  match n with
  | O => Ok m
  | S n => b ← ld m s; m ← st m d b; down_loop n m (d - 1) (s - 1)
  end.

Definition memmove (m : cmem) (dst src count : Z) : outcome (Z * cmem) :=
  m ← (if (dst <=? src) || (src + count <=? dst) then memcpy_loop (Z.to_nat count) m dst src
       else down_loop (Z.to_nat count) m (dst + count - 1) (src + count - 1));
  Ok (dst, m).

(** [iov_len] is unsigned: the test for a negative length never holds. *)
Fixpoint check_loop (iov : list iovec) (iovlen : nat) : outcome Z :=
  match iovlen with
  | O => Ok 0
  | S n =>
      match iov with
      | [] => Fault
      | v :: iov =>
          if iov_len v <? 0 then Ok EINVAL
          else if (iov_base v =? NULL) && negb (iov_len v =? 0) then Ok EFAULT
          else check_loop iov n
      end
  end.

Definition check_iovec (iov : option (list iovec)) (iovlen : Z) : outcome Z :=
  match iov with
  | Some iov => if iovlen <? 0 then Ok EINVAL else check_loop iov (Z.to_nat iovlen)
  | None => if negb (iovlen =? 0) then Ok EFAULT else Ok 0
  end.

Fixpoint size_loop (iov : list iovec) (iovlen : nat) (sz : Z) : outcome Z :=
  match iovlen with
  | O => Ok sz
  | S n => match iov with [] => Fault | v :: iov => size_loop iov n (u32 (sz + iov_len v)) end
  end.

Definition get_iovec_size (iov : list iovec) (iovlen : Z) : outcome Z := size_loop iov (Z.to_nat iovlen) 0.

Definition sizeof_iovec : Z := 8.

(** [a]: whether kmalloc returned memory.  The size in bytes is unsigned, and wraps;
    copying more elements than the array has reads past its end. *)
Definition dup_iovec (iov : list iovec) (iovlen : Z) (a : bool) : outcome (option (list iovec)) :=
  if negb a then Ok None
  else
    let n := Z.to_nat (u32 (iovlen * sizeof_iovec) / sizeof_iovec) in
    if (length iov <? n)%nat then Fault else Ok (Some (take n iov)).

(** The loops of read_iovec and write_iovec; [done_] is read or written. *)
Fixpoint read_loop (iov : list iovec) (iovlen : nat) (m : cmem) (buf count done_ : Z) : outcome (Z * cmem * list iovec) :=
  match iovlen with
  | O => Ok (done_, m, iov)
  | S n =>
      if count =? 0 then Ok (done_, m, iov)
      else
        match iov with
        | [] => Fault
        | v :: iov =>
            if 0 <? iov_len v then
              let len := if count <? iov_len v then count else iov_len v in
              '(_, m) ← memcpy m buf (iov_base v) len;
              '(r, iov) ← read_loop iov n m (buf + len) (u32 (count - len)) (u32 (done_ + len));
              Ok (r, MkIov (iov_base v + len) (u32 (iov_len v - len)) :: iov)
            else '(r, iov) ← read_loop iov n m buf count done_; Ok (r, v :: iov)
        end
  end.

Definition read_iovec (iov : list iovec) (iovlen : Z) (m : cmem) (buf count : Z) : outcome (Z * cmem * list iovec) :=
  '(r, m, iov) ← read_loop iov (Z.to_nat iovlen) m buf count 0; Ok (s32 r, m, iov).

Fixpoint write_loop (iov : list iovec) (iovlen : nat) (m : cmem) (buf count done_ : Z) : outcome (Z * cmem * list iovec) :=
  match iovlen with
  | O => Ok (done_, m, iov)
  | S n =>
      if count =? 0 then Ok (done_, m, iov)
      else
        match iov with
        | [] => Fault
        | v :: iov =>
            if 0 <? iov_len v then
              let len := if count <? iov_len v then count else iov_len v in
              '(_, m) ← memcpy m (iov_base v) buf len;
              '(r, iov) ← write_loop iov n m (buf + len) (u32 (count - len)) (u32 (done_ + len));
              Ok (r, MkIov (iov_base v + len) (u32 (iov_len v - len)) :: iov)
            else '(r, iov) ← write_loop iov n m buf count done_; Ok (r, v :: iov)
        end
  end.

Definition write_iovec (iov : list iovec) (iovlen : Z) (m : cmem) (buf count : Z) : outcome (Z * cmem * list iovec) :=
  '(w, m, iov) ← write_loop iov (Z.to_nat iovlen) m buf count 0; Ok (s32 w, m, iov).

(** ** Moving memory *)

Definition mapped (m : cmem) (p n : Z) : Prop := forall j, 0 <= j < n -> is_Some (m !! (p + j)).

Lemma mapped_insert m p n q b : mapped m p n -> mapped (<[q := b]> m) p n.
Proof. intros H j Hj. rewrite lookup_insert_is_Some'. right. by apply H. Qed.

Lemma down_loop_ok bs : forall m d s, bytes_at m s bs -> mapped m d (Z.of_nat (length bs)) -> s < d ->
  exists m', down_loop (length bs) m (d + Z.of_nat (length bs) - 1) (s + Z.of_nat (length bs) - 1) = Ok m' /\
    bytes_at m' d bs /\ same_outside m m' d (Z.of_nat (length bs)).
Proof.
  induction bs as [|b bs IH] using rev_ind; intros m d s Hs Hm Hd; [by exists m|].
  apply bytes_at_app in Hs as [Hs [Hb _]]. rewrite length_app in *. cbn [length] in *. rewrite Nat.add_1_r in *. cbn [down_loop].
  set (n := Z.of_nat (length bs)) in *.
  replace (d + Z.of_nat (S (length bs)) - 1) with (d + n) by lia. replace (s + Z.of_nat (S (length bs)) - 1) with (s + n) by lia.
  rewrite (ld_Some _ _ _ Hb). cbn [mbind outcome_bind]. rewrite st_mapped by (apply Hm; lia). cbn [mbind outcome_bind].
  destruct (IH (<[d + n:=b]> m) d s) as (m' & -> & Hb' & Ho); [| |done|].
  - apply (bytes_at_frame m _ (d + n) 1); [done| |lia]. intros q Hq. apply lookup_insert_ne. lia.
  - intros j Hj. apply (mapped_insert _ _ _ (d + n) b) in Hm. apply Hm. lia.
  - exists m'. split; [done|]. split.
    + apply bytes_at_app. split; [done|]. split; [|done]. rewrite Ho by lia. apply lookup_insert_eq.
    + intros q Hq. rewrite Ho by lia. apply lookup_insert_ne. lia.
Qed.

(** memmove copies the bytes the source held, however the two ranges overlap, and
    writes nothing outside the destination. *)
Theorem memmove_copies m dst src bs : bytes_at m src bs -> mapped m dst (Z.of_nat (length bs)) ->
  exists m', memmove m dst src (Z.of_nat (length bs)) = Ok (dst, m') /\
    bytes_at m' dst bs /\ same_outside m m' dst (Z.of_nat (length bs)).
Proof.
  intros Hs Hm. unfold memmove. rewrite Nat2Z.id.
  destruct (Z.leb_spec dst src); [|destruct (Z.leb_spec (src + Z.of_nat (length bs)) dst)]; cbn [orb].
  - destruct (memcpy_loop_ok bs m dst src Hs Hm) as (m' & -> & H'); [lia|]. by exists m'.
  - destruct (memcpy_loop_ok bs m dst src Hs Hm) as (m' & -> & H'); [lia|]. by exists m'.
  - destruct (down_loop_ok bs m dst src Hs Hm) as (m' & -> & H'); [lia|]. by exists m'.
Qed.

Definition wit_iov_mem : cmem := list_to_map ((fun i => (100 + Z.of_nat i, Z.of_nat i)) <$> seq 0 30).

Lemma memmove_copies_witness :
  exists m', memmove wit_iov_mem 102 100 4 = Ok (102, m') /\ bytes_at m' 102 [0; 1; 2; 3] /\ same_outside wit_iov_mem m' 102 4.
Proof.
  refine (memmove_copies wit_iov_mem 102 100 [0; 1; 2; 3] _ _); [repeat constructor|].
  intros j Hj. cbn in Hj. assert (j = 0 \/ j = 1 \/ j = 2 \/ j = 3) as [->|[->|[->| ->]]] by lia; vm_compute; eauto.
Defined.

(** ** The data of a vector *)

(** The elements of [iov] hold the bytes [bss]. *)
Definition holds_iov (m : cmem) (iov : list iovec) (bss : list (list Z)) : Prop :=
  Forall2 (fun v bs => iov_len v = Z.of_nat (length bs) /\ bytes_at m (iov_base v) bs) iov bss.

(** The element [v] does not overlap the [n] bytes at [p]. *)
Definition apart (p n : Z) (v : iovec) : Prop := p + n <= iov_base v \/ iov_base v + iov_len v <= p.

Fixpoint disjoint_iov (iov : list iovec) : Prop :=
  match iov with [] => True | v :: iov => Forall (apart (iov_base v) (iov_len v)) iov /\ disjoint_iov iov end.

Lemma holds_iov_frame m m' p n iov bss : holds_iov m iov bss -> same_outside m m' p n -> Forall (apart p n) iov -> holds_iov m' iov bss.
Proof.
  intros Hh Hs Ha. induction Hh as [|v bs iov bss [Hl Hb] Hh IH]; [constructor|].
  apply Forall_cons in Ha as [Hv Ha]. constructor; [|by apply IH]. split; [done|].
  eapply bytes_at_frame; [exact Hb|exact Hs|]. unfold apart in Hv. lia.
Qed.

Lemma apart_part p n p' n' v : apart p n v -> p <= p' -> p' + n' <= p + n -> apart p' n' v.
Proof. unfold apart. lia. Qed.

Lemma take_drop_range m p bs k : bytes_at m p bs -> 0 <= k <= Z.of_nat (length bs) ->
  bytes_at m p (take (Z.to_nat k) bs) /\ bytes_at m (p + k) (drop (Z.to_nat k) bs).
Proof.
  intros Hb Hk. rewrite <- (take_drop (Z.to_nat k) bs) in Hb. apply bytes_at_app in Hb as [H1 H2].
  rewrite length_take_le in H2 by lia. split; [done|]. by rewrite Z2Nat.id in H2 by lia.
Qed.

Lemma read_loop_ok iov bss : forall m buf count d, holds_iov m iov bss -> 0 <= count -> 0 <= d -> d + count < 2 ^ 32 ->
  Forall (apart buf count) iov ->
  let w := take (Z.to_nat count) (concat bss) in
  (forall j, 0 <= j < Z.of_nat (length w) -> is_Some (m !! (buf + j))) ->
  exists m' iov', read_loop iov (length iov) m buf count d = Ok (d + Z.of_nat (length w), m', iov') /\
    bytes_at m' buf w /\ same_outside m m' buf (Z.of_nat (length w)).
Proof.
  intros m buf count d Hh. revert buf count d. revert m Hh.
  induction iov as [|v iov IH] in bss |- *; intros m Hh buf count d Hc Hd Hs Ha w Hm.
  { apply Forall2_nil_inv_l in Hh as ->. subst w. cbn. rewrite take_nil. exists m, []. cbn. by rewrite Z.add_0_r. }
  apply Forall2_cons_inv_l in Hh as (bs & bss' & [Hl Hb] & Hh & ->). apply Forall_cons in Ha as [Hv Ha].
  cbn [length read_loop]. destruct (Z.eqb_spec count 0) as [->|Hc0].
  { subst w. exists m, (v :: iov). cbn. by rewrite Z.add_0_r. }
  destruct (Z.ltb_spec 0 (iov_len v)) as [Hlp|Hl0].
  2: { assert (bs = []) as -> by (destruct bs; [done|cbn in Hl; lia]). subst w. cbn [concat app] in *.
       destruct (IH bss' m Hh buf count d Hc Hd Hs Ha Hm) as (m' & iov' & -> & H1 & H2). cbn [mbind outcome_bind]. by eexists m', _. }
  set (len := if count <? iov_len v then count else iov_len v).
  assert (0 < len <= count /\ len <= Z.of_nat (length bs)) as [Hlen Hlb].
  { unfold len. destruct (Z.ltb_spec count (iov_len v)); lia. }
  assert (w = take (Z.to_nat len) bs ++ take (Z.to_nat (count - len)) (concat bss')) as Ew.
  { subst w. cbn [concat]. rewrite take_app. unfold len. destruct (Z.ltb_spec count (iov_len v)).
    - replace (Z.to_nat (count - count)) with O by lia. replace (Z.to_nat count - length bs)%nat with O by lia. done.
    - rewrite !(take_ge bs) by lia. do 2 f_equal. lia. }
  assert (length (take (Z.to_nat len) bs) = Z.to_nat len) as Hlt by (apply length_take_le; lia).
  clearbody w. subst w. rewrite length_app, Hlt in Hm.
  destruct (take_drop_range m (iov_base v) bs len Hb ltac:(lia)) as [Hb1 _].
  destruct (memcpy_ok m buf (iov_base v) (take (Z.to_nat len) bs) Hb1) as (m1 & Em & Hb2 & Ho).
  { intros j Hj. apply Hm. lia. }
  { unfold apart in Hv. lia. }
  rewrite Hlt, Z2Nat.id in Em, Ho by lia. rewrite Em. cbn [mbind outcome_bind].
  rewrite (u32_small (count - len)), (u32_small (d + len)) by lia.
  destruct (IH bss' m1 (holds_iov_frame _ _ _ _ _ _ Hh Ho ltac:(eapply Forall_impl; [exact Ha|]; intros u Hu; eapply apart_part; [exact Hu|lia|lia]))
    (buf + len) (count - len) (d + len)) as (m2 & iov2 & -> & Hb3 & Ho2); [lia|lia|lia| | |].
  { eapply Forall_impl; [exact Ha|]. intros u Hu. eapply apart_part; [exact Hu|lia|lia]. }
  { intros j Hj. rewrite Ho by lia. replace (buf + len + j) with (buf + (len + j)) by lia. apply Hm. lia. }
  cbn [mbind outcome_bind]. eexists m2, _. rewrite length_app, Hlt. split; [do 3 f_equal; lia|]. split.
  - apply bytes_at_app. rewrite Hlt, Z2Nat.id by lia. split; [|done]. eapply bytes_at_frame; [exact Hb2|exact Ho2|]. rewrite Hlt. lia.
  - intros q Hq. rewrite Ho2 by lia. apply Ho. lia.
Qed.

(** A vector passes the check when every element that has a length has a buffer;
    lengths being unsigned, the answer is never EINVAL. *)
Lemma check_iovec_spec iov : Forall (fun v => 0 <= iov_len v) iov ->
  check_iovec (Some iov) (Z.of_nat (length iov)) =
  Ok (if forallb (fun v => negb (iov_base v =? NULL) || (iov_len v =? 0)) iov then 0 else EFAULT).
Proof.
  intros Hl. unfold check_iovec. rewrite (proj2 (Z.ltb_ge _ 0)), Nat2Z.id by lia.
  induction Hl as [|v iov Hv Hl IH]; [done|]. cbn [length check_loop forallb].
  rewrite (proj2 (Z.ltb_ge _ 0)), IH by done. by destruct (iov_base v =? NULL), (iov_len v =? 0).
Qed.

(** One element written over, then the others. *)
Lemma overwrite_app (bs b0 c : list Z) (n : nat) : (n = length bs /\ n <= length b0 \/ n = length b0 /\ n <= length bs)%nat ->
  let k := (length (drop n bs) `min` length c)%nat in
  (take n bs ++ drop n b0) ++ take k (drop n bs) ++ drop k c = take (n + k) bs ++ drop (n + k) (b0 ++ c).
Proof.
  intros [[-> Hn]|[-> Hn]]; cbv zeta.
  - rewrite drop_all, firstn_all. cbn [length Nat.min]. rewrite Nat.add_0_r, firstn_all, take_nil, drop_0, drop_app_le by done.
    by rewrite <- app_assoc.
  - rewrite drop_all, app_nil_r, (drop_app_ge b0) by lia. rewrite (Nat.add_comm (length b0)), Nat.add_sub.
    rewrite (Nat.add_comm _ (length b0)), <- (take_take_drop bs (length b0)), <- app_assoc. done.
Qed.

(** Only bytes of the elements are written. *)
Definition outside_iov (iov : list iovec) (q : Z) : Prop := Forall (fun v => ~ iov_base v <= q < iov_base v + iov_len v) iov.

Lemma write_loop_ok iov bss : forall m buf bs d, holds_iov m iov bss -> disjoint_iov iov -> bytes_at m buf bs ->
  Forall (apart buf (Z.of_nat (length bs))) iov -> 0 <= d -> d + Z.of_nat (length bs) < 2 ^ 32 ->
  let k := (length bs `min` length (concat bss))%nat in
  exists m' iov' bss', write_loop iov (length iov) m buf (Z.of_nat (length bs)) d = Ok (d + Z.of_nat k, m', iov') /\
    holds_iov m' iov bss' /\ concat bss' = take k bs ++ drop k (concat bss) /\ (forall q, outside_iov iov q -> m' !! q = m !! q).
Proof.
  intros m buf bs d Hh. revert buf bs d. revert m Hh.
  induction iov as [|v iov IH] in bss |- *; intros m Hh buf bs d Hdj Hb Ha Hd Hs k.
  { apply Forall2_nil_inv_l in Hh as ->. subst k. cbn [length concat write_loop]. rewrite Nat.min_0_r. exists m, [], [].
    rewrite Z.add_0_r. split_and!; [done|constructor|done|done]. }
  pose proof Hh as Hh0. apply Forall2_cons_inv_l in Hh as (b0 & bss' & [Hl Hb0] & Hh & ->). apply Forall_cons in Ha as [Hv Ha].
  destruct Hdj as [Hd1 Hd2]. cbn [length write_loop]. destruct (Z.eqb_spec (Z.of_nat (length bs)) 0) as [Hc0|Hc0].
  { assert (bs = []) as -> by (destruct bs; [done|cbn in Hc0; lia]). subst k. cbn [length Nat.min]. rewrite Z.add_0_r.
    exists m, (v :: iov), (b0 :: bss'). by split_and!. }
  destruct (Z.ltb_spec 0 (iov_len v)) as [Hlp|Hl0].
  2: { assert (b0 = []) as -> by (destruct b0; [done|cbn in Hl; lia]).
       destruct (IH bss' m Hh buf bs d Hd2 Hb Ha Hd Hs) as (m' & iov' & bss2 & -> & H1 & H2 & H3). cbn [mbind outcome_bind].
       eexists m', _, ([] :: bss2). split; [done|]. split_and!; [|done|intros q [_ Hq]%Forall_cons; by apply H3].
       constructor; [done|done]. }
  set (len := if Z.of_nat (length bs) <? iov_len v then Z.of_nat (length bs) else iov_len v).
  assert (0 < len <= Z.of_nat (length bs) /\ len <= Z.of_nat (length b0)) as [Hlen Hlb].
  { unfold len. destruct (Z.ltb_spec (Z.of_nat (length bs)) (iov_len v)); lia. }
  assert (length (take (Z.to_nat len) bs) = Z.to_nat len) as Hlt by (apply length_take_le; lia).
  destruct (take_drop_range m buf bs len Hb ltac:(lia)) as [Hb1 Hb2].
  destruct (take_drop_range m (iov_base v) b0 len Hb0 ltac:(lia)) as [_ Hb3].
  destruct (memcpy_ok m (iov_base v) buf (take (Z.to_nat len) bs) Hb1) as (m1 & Em & Hb4 & Ho).
  { rewrite bytes_at_lookup in Hb0. intros j Hj. rewrite Hb0 by lia. apply lookup_lt_is_Some_2. lia. }
  { unfold apart in Hv. lia. }
  rewrite Hlt, Z2Nat.id in Em, Ho by lia. rewrite Em. cbn [mbind outcome_bind].
  rewrite (u32_small (Z.of_nat (length bs) - len)), (u32_small (d + len)) by lia.
  assert (length (drop (Z.to_nat len) bs) = (length bs - Z.to_nat len)%nat) as Hld by apply length_drop.
  replace (Z.of_nat (length bs) - len) with (Z.of_nat (length (drop (Z.to_nat len) bs))) by lia.
  assert (Forall (apart (iov_base v) len) iov) as Hav
    by (eapply Forall_impl; [exact Hd1|]; intros u Hu; eapply apart_part; [exact Hu|lia|lia]).
  destruct (IH bss' m1 (holds_iov_frame _ _ _ _ _ _ Hh Ho Hav) (buf + len) (drop (Z.to_nat len) bs) (d + len) Hd2)
    as (m2 & iov2 & bss2 & -> & H1 & H2 & H3); [| |lia|lia|].
  { eapply bytes_at_frame; [exact Hb2|exact Ho|]. unfold apart in Hv. lia. }
  { eapply Forall_impl; [exact Ha|]. intros u Hu. eapply apart_part; [exact Hu|lia|lia]. }
  cbn [mbind outcome_bind].
  eexists m2, _, ((take (Z.to_nat len) bs ++ drop (Z.to_nat len) b0) :: bss2).
  assert (k = Z.to_nat len + length (drop (Z.to_nat len) bs) `min` length (concat bss'))%nat as Hk.
  { subst k. cbn [concat]. rewrite length_app, Hld. unfold len. destruct (Z.ltb_spec (Z.of_nat (length bs)) (iov_len v)); lia. }
  rewrite Hk. split; [do 3 f_equal; lia|]. split_and!.
  - constructor; [|done]. split; [rewrite length_app, Hlt, length_drop; lia|].
    apply bytes_at_app. rewrite Hlt, Z2Nat.id by lia.
    assert (forall q, iov_base v <= q < iov_base v + iov_len v -> m2 !! q = m1 !! q) as Hkeep.
    { intros q Hq. apply H3. eapply Forall_impl; [exact Hd1|]. intros u Hu. unfold apart in Hu. lia. }
    split; apply bytes_at_lookup; intros i Hi; rewrite Hkeep by (rewrite ?Hlt, ?length_drop in Hi; lia).
    + by rewrite bytes_at_lookup in Hb4; apply Hb4.
    + rewrite Ho by (rewrite length_drop in Hi; lia). by rewrite bytes_at_lookup in Hb3; apply Hb3.
  - cbn [concat]. rewrite H2. apply overwrite_app. unfold len. destruct (Z.ltb_spec (Z.of_nat (length bs)) (iov_len v)); lia.
  - intros q [Hq1 Hq2]%Forall_cons. rewrite (H3 q Hq2). apply Ho. lia.
Qed.

(** The size of a vector is the number of its bytes. *)
Lemma size_loop_ok m iov bss : forall z, holds_iov m iov bss -> 0 <= z -> z + Z.of_nat (length (concat bss)) < 2 ^ 32 ->
  size_loop iov (length iov) z = Ok (z + Z.of_nat (length (concat bss))).
Proof.
  induction iov as [|v iov IH] in bss |- *; intros z Hh Hz Hs.
  - apply Forall2_nil_inv_l in Hh as ->. cbn. by rewrite Z.add_0_r.
  - apply Forall2_cons_inv_l in Hh as (bs & bss' & [Hl Hb] & Hh & ->). cbn [length size_loop concat] in *.
    rewrite length_app in Hs |- *. rewrite u32_small by lia. rewrite (IH bss') by (done || lia). f_equal. lia.
Qed.

Lemma dup_iovec_all iov : Z.of_nat (length iov) < 2 ^ 29 -> dup_iovec iov (Z.of_nat (length iov)) true = Ok (Some iov).
Proof.
  intros Hn. unfold dup_iovec, sizeof_iovec. cbn [negb]. rewrite u32_small, Z.div_mul, Nat2Z.id, Nat.ltb_irrefl, firstn_all by lia. done.
Qed.

(** C35: scatter and gather.  Of data written into a vector of separate buffers, as
    many bytes are taken as the vector has room for, which get_iovec_size tells, and
    reading from a copy that dup_iovec made of the vector before (writing uses the
    array up) gives them back, in order; what the vector held behind them, and the
    memory outside the buffers, stays as it was. *)
Theorem iovec_roundtrip m iov bss src bs dst : holds_iov m iov bss -> disjoint_iov iov ->
  bytes_at m src bs -> Forall (apart src (Z.of_nat (length bs))) iov -> Z.of_nat (length bs) < 2 ^ 31 ->
  Z.of_nat (length (concat bss)) < 2 ^ 32 -> Forall (apart dst (Z.of_nat (length bs))) iov ->
  mapped m dst (Z.of_nat (length bs)) -> Z.of_nat (length iov) < 2 ^ 29 ->
  let n := Z.of_nat (length iov) in
  let k := (length bs `min` length (concat bss))%nat in
  get_iovec_size iov n = Ok (Z.of_nat (length (concat bss))) /\ dup_iovec iov n true = Ok (Some iov) /\
  exists m1 iov1 bss1, write_iovec iov n m src (Z.of_nat (length bs)) = Ok (Z.of_nat k, m1, iov1) /\
    holds_iov m1 iov bss1 /\ concat bss1 = take k bs ++ drop k (concat bss) /\
    (forall q, outside_iov iov q -> m1 !! q = m !! q) /\
    exists m2 iov2, read_iovec iov n m1 dst (Z.of_nat k) = Ok (Z.of_nat k, m2, iov2) /\
      bytes_at m2 dst (take k bs) /\ same_outside m1 m2 dst (Z.of_nat k).
Proof.
  intros Hh Hd Hb Has Hl Ht Had Hm Hn n k. unfold get_iovec_size, write_iovec, read_iovec, n. rewrite Nat2Z.id.
  split; [by rewrite (size_loop_ok m iov bss 0 Hh)|]. split; [by apply dup_iovec_all|].
  destruct (write_loop_ok iov bss m src bs 0 Hh Hd Hb Has) as (m1 & iov1 & bss1 & E & Hh1 & Hc1 & Ho); [lia|lia|].
  fold k in E, Hc1. rewrite E. cbn [mbind outcome_bind]. rewrite s32_small by lia. exists m1, iov1, bss1. split_and!; try done.
  assert (take k (concat bss1) = take k bs /\ length (take k bs) = k) as [Htk Hlk].
  { assert (length (take k bs) = k) as Hlk by (apply length_take_le; lia). split; [|done].
    rewrite Hc1, take_app_le by lia. by rewrite take_take, Nat.min_id. }
  destruct (read_loop_ok iov bss1 m1 dst (Z.of_nat k) 0 Hh1) as (m2 & iov2 & E2 & Hb2 & Ho2); [lia|lia|lia| | |].
  - eapply Forall_impl; [exact Had|]. intros u Hu. eapply apart_part; [exact Hu|lia|lia].
  - rewrite Nat2Z.id, Htk, Hlk. intros j Hj. rewrite Ho; [apply Hm; lia|].
    eapply Forall_impl; [exact Had|]. intros u Hu. unfold apart in Hu. lia.
  - rewrite Nat2Z.id, Htk in E2, Hb2, Ho2. rewrite Hlk in E2, Ho2. rewrite E2. cbn [mbind outcome_bind].
    rewrite s32_small by lia. by exists m2, iov2.
Qed.

Definition wit_iov : list iovec := [MkIov 100 2; MkIov 0 0; MkIov 104 3].

Lemma iovec_roundtrip_witness :
  let bs := [10; 11; 12; 13] in
  get_iovec_size wit_iov 3 = Ok 5 /\ dup_iovec wit_iov 3 true = Ok (Some wit_iov) /\
  exists m1 iov1 bss1, write_iovec wit_iov 3 wit_iov_mem 110 4 = Ok (4, m1, iov1) /\
    holds_iov m1 wit_iov bss1 /\ concat bss1 = [10; 11; 12; 13; 6] /\
    (forall q, outside_iov wit_iov q -> m1 !! q = wit_iov_mem !! q) /\
    exists m2 iov2, read_iovec wit_iov 3 m1 120 4 = Ok (4, m2, iov2) /\ bytes_at m2 120 bs /\ same_outside m1 m2 120 4.
Proof.
  refine (iovec_roundtrip wit_iov_mem wit_iov [[0; 1]; []; [4; 5; 6]] 110 [10; 11; 12; 13] 120 _ _ _ _ _ _ _ _ _).
  - repeat constructor; vm_compute; reflexivity.
  - unfold wit_iov, apart. cbn. repeat constructor; cbn; lia.
  - repeat constructor.
  - unfold wit_iov, apart. repeat constructor; cbn; lia.
  - cbn. lia.
  - cbn. lia.
  - unfold wit_iov, apart. repeat constructor; cbn; lia.
  - intros j Hj. cbn in Hj. assert (j = 0 \/ j = 1 \/ j = 2 \/ j = 3) as [->|[->|[->| ->]]] by lia; vm_compute; eauto.
  - cbn. lia.
Defined.
