(* ===== verification/Tcp.v ===== *)
(** * TCP (net/tcp.c, tcp_input.c, tcp_output.c; sys/net/tcp.h)

    A connection is a [pcb], the struct tcp_pcb.  The functions on one connection
    take and return it together with [net], what they use of the rest of the system:
    the clock, the routes, the memory allocator, the IP layer and the callbacks of
    the application.  Answers of these are taken from lists in [net], what is given
    to them is recorded there.

    The queues of segments are lists.  A segment has its header, its options and the
    chain of packet buffers with the bytes behind them; the headers of the lower
    layers are not part of it.  Fields of the header of an outgoing segment are in
    network byte order, as in the code; of an incoming one, tcp_input converts all
    but the flags. *)

From S2P Require Import Prelude Inet Ether.

(** ** Constants (sys/net/tcp.h, sys/net/opt.h, sys/net/ip.h) *)

Definition TCP_FIN : Z := 1.
Definition TCP_SYN : Z := 2.
Definition TCP_RST : Z := 4.
Definition TCP_PSH : Z := 8.
Definition TCP_ACK : Z := 16.
Definition TCP_HLEN : Z := 20.
Definition TF_ACK_DELAY : Z := 1.
Definition TF_ACK_NOW : Z := 2.
Definition TF_INFR : Z := 4.
Definition TF_RESET : Z := 8.
Definition TF_CLOSED : Z := 16.
Definition TF_GOT_FIN : Z := 32.
Definition TF_IN_RECV : Z := 64.
Definition TCP_SLOW_INTERVAL : Z := 500.
Definition TCP_FIN_WAIT_TIMEOUT : Z := 20000.
Definition TCP_SYN_RCVD_TIMEOUT : Z := 20000.
Definition TCP_OOSEQ_TIMEOUT : Z := 6.
Definition TCP_KEEPDEFAULT : Z := 7200000.
Definition TCP_KEEPINTVL : Z := 75000.
Definition TCP_MAXIDLE : Z := 9 * 75000.
Definition TCP_WRITE_FLUSH : Z := 0.
Definition TCP_WRITE_NAGLE : Z := 1.
Definition MTU : Z := 1500.
Definition TCP_MSS : Z := MTU - 40.
Definition TCP_MIN_SEGLEN : Z := MTU - 40.
Definition TCP_WND : Z := 32 * TCP_MSS.
Definition TCP_MAXRTX : Z := 32.
Definition TCP_SYNMAXRTX : Z := 6.
Definition TCP_MSL_MSEC : Z := 60000.
Definition TCP_SND_BUF : Z := 32 * 1024.
Definition TCP_SND_QUEUELEN : Z := 2 * TCP_SND_BUF / TCP_MIN_SEGLEN.
Definition SOF_KEEPALIVE : Z := 8.
Definition IP_PROTO_TCP : Z := 6.
Definition NETIF_TCP_RX_CHECKSUM_OFFLOAD : Z := 1048576.
Definition NETIF_TCP_TX_CHECKSUM_OFFLOAD : Z := 2097152.
Definition EFAULT : Z := -14.
Definition EPROTO : Z := -71.
Definition EADDRINUSE : Z := -98.
Definition EADDRNOTAVAIL : Z := -99.
Definition ECONNRESET : Z := -104.
Definition ENOTCONN : Z := -107.
Definition EHOSTUNREACH : Z := -113.

(** Whether one of the bits [m] is set in [x]. *)
Definition has (x m : Z) : bool := negb (Z.land x m =? 0).
(** x |= m and x &= ~m *)
Definition seton (x m : Z) : Z := Z.lor x m.
Definition setoff (x m : Z) : Z := Z.land x (Z.lnot m).

(** ** Sequence numbers: the sign of the 32-bit difference *)

Definition TCP_SEQ_LT (a b : Z) : bool := s32 (a - b) <? 0.
Definition TCP_SEQ_LEQ (a b : Z) : bool := s32 (a - b) <=? 0.
Definition TCP_SEQ_GT (a b : Z) : bool := 0 <? s32 (a - b).
Definition TCP_SEQ_GEQ (a b : Z) : bool := 0 <=? s32 (a - b).

(** ** Headers and segments *)

Record tcp_hdr := MkHdr {
  th_src : Z; th_dest : Z; th_seqno : Z; th_ackno : Z; th_offset_flags : Z; th_wnd : Z; th_chksum : Z; th_urgp : Z }.

Definition TCPH_OFFSET (h : tcp_hdr) : Z := Z.shiftr (ntohs (th_offset_flags h)) 8.
Definition TCPH_FLAGS (h : tcp_hdr) : Z := Z.land (ntohs (th_offset_flags h)) 255.

Definition set_offset_flags (h : tcp_hdr) (v : Z) : tcp_hdr :=
  MkHdr (th_src h) (th_dest h) (th_seqno h) (th_ackno h) v (th_wnd h) (th_chksum h) (th_urgp h).
Definition set_seqno (h : tcp_hdr) (v : Z) : tcp_hdr :=
  MkHdr (th_src h) (th_dest h) v (th_ackno h) (th_offset_flags h) (th_wnd h) (th_chksum h) (th_urgp h).
Definition set_ackno_wnd (h : tcp_hdr) (a w : Z) : tcp_hdr :=
  MkHdr (th_src h) (th_dest h) (th_seqno h) a (th_offset_flags h) w (th_chksum h) (th_urgp h).
Definition set_chksum (h : tcp_hdr) (v : Z) : tcp_hdr :=
  MkHdr (th_src h) (th_dest h) (th_seqno h) (th_ackno h) (th_offset_flags h) (th_wnd h) v (th_urgp h).

Definition TCPH_OFFSET_SET (h : tcp_hdr) (offset : Z) : tcp_hdr :=
  set_offset_flags h (htons (Z.lor (Z.shiftl offset 8) (TCPH_FLAGS h))).
Definition TCPH_FLAGS_SET (h : tcp_hdr) (flags : Z) : tcp_hdr :=
  set_offset_flags h (htons (Z.lor (Z.shiftl (TCPH_OFFSET h) 8) flags)).

(** A chain of packet buffers behind the TCP header: the bytes of each buffer, the
    total length its first buffer tells, the room behind the data of the last one
    (pbuf_spare), and the references to the first one. *)
Record pbufs := MkPbufs { pieces : list (list Z); tot_len : Z; spare : Z; pref : Z }.

Definition bytes (b : pbufs) : list Z := concat (pieces b).

(** struct tcp_seg; [seg_p] is [None] for NULL. *)
Record tcp_seg := MkSeg { seg_p : option pbufs; seg_len : Z; seg_hdr : tcp_hdr; seg_opts : list Z }.

Definition set_seg_p (s : tcp_seg) (v : option pbufs) : tcp_seg := MkSeg v (seg_len s) (seg_hdr s) (seg_opts s).
Definition set_seg_len (s : tcp_seg) (v : Z) : tcp_seg := MkSeg (seg_p s) v (seg_hdr s) (seg_opts s).
Definition set_seg_hdr (s : tcp_seg) (v : tcp_hdr) : tcp_seg := MkSeg (seg_p s) (seg_len s) v (seg_opts s).

Definition TCP_TCPLEN (s : tcp_seg) : Z :=
  seg_len s + (if has (TCPH_FLAGS (seg_hdr s)) TCP_FIN || has (TCPH_FLAGS (seg_hdr s)) TCP_SYN then 1 else 0).

(** The sequence number of an outgoing segment. *)
Definition oseq (s : tcp_seg) : Z := ntohl (th_seqno (seg_hdr s)).

(** *** What the functions of net/pbuf.c do to the chain of a segment *)

(** pbuf_realloc(p, n): the buffers up to [rsize] bytes. *)
Fixpoint cut_pieces (l : list (list Z)) (rsize : Z) : outcome (list (list Z)) :=
  match l with
  | [] => Fault
  | x :: l =>
      if Z.of_nat (length x) <? rsize then l ← cut_pieces l (rsize - Z.of_nat (length x)); Ok (x :: l)
      else Ok [take (Z.to_nat rsize) x]
  end.

Definition realloc (b : pbufs) (n : Z) : outcome pbufs :=
  if tot_len b <=? n then Ok b
  else l ← cut_pieces (pieces b) n; Ok (MkPbufs l n (spare b) (pref b)).

(** pbuf_chain(h, t); [h] must not be NULL. *)
Definition chain_on (h : option pbufs) (t : pbufs) : outcome pbufs :=
  h ← from_opt h; Ok (MkPbufs (pieces h ++ pieces t) (s32 (tot_len h + tot_len t)) (spare t) (pref h)).

(** Appending to the last buffer of the chain. *)
Fixpoint fill_last (l : list (list Z)) (bs : list Z) : list (list Z) :=
  match l with
  | [] => []
  | [x] => [x ++ bs]
  | x :: l => x :: fill_last l bs
  end.

(** pbuf_clen *)
Definition pbufs_clen (b : pbufs) : Z := Z.of_nat (length (pieces b)).
Definition seg_clen (s : tcp_seg) : Z := match seg_p s with Some b => pbufs_clen b | None => 0 end.

(** ** Connections *)

Inductive tcp_state :=
  | CLOSED | LISTEN | SYN_SENT | SYN_RCVD | ESTABLISHED | FIN_WAIT_1 | FIN_WAIT_2 | CLOSE_WAIT | CLOSING | LAST_ACK | TIME_WAIT.

#[global] Instance tcp_state_eq_dec : EqDecision tcp_state.
Proof. solve_decision. Defined.

Definition is_state (a b : tcp_state) : bool := bool_decide (a = b).

(** Every field of struct tcp_pcb but the links and the semaphore; a callback is
    there or NULL. *)
Record pcb := MkPcb {
  so_options : Z; state : tcp_state; callback_arg : Z; accept : bool; local_ip : Z; local_port : Z;
  remote_ip : Z; remote_port : Z; rcv_nxt : Z; rcv_wnd : Z; tmr : Z; rtime : Z; mss : Z; flags : Z;
  rttest : Z; rtseq : Z; sa : Z; sv : Z; rto : Z; nrtx : Z; lastack : Z; dupacks : Z; cwnd : Z; ssthresh : Z;
  snd_nxt : Z; snd_max : Z; snd_wnd : Z; snd_wl1 : Z; snd_wl2 : Z; snd_lbb : Z; snd_buf : Z;
  snd_queuelen : Z; sent : bool; acked : Z; recv : bool; recv_data : option pbufs; connected : bool;
  poll : bool; errf : bool; polltmr : Z; pollinterval : Z; unsent : list tcp_seg; unacked : list tcp_seg;
  ooseq : list tcp_seg; keepalive : Z; keep_cnt : Z }.

Definition pcb_eta (p : pcb) : pcb :=
  MkPcb
    (so_options p) (state p) (callback_arg p) (accept p) (local_ip p) (local_port p) (remote_ip p)
    (remote_port p) (rcv_nxt p) (rcv_wnd p) (tmr p) (rtime p) (mss p) (flags p) (rttest p) (rtseq p) (sa p)
    (sv p) (rto p) (nrtx p) (lastack p) (dupacks p) (cwnd p) (ssthresh p) (snd_nxt p) (snd_max p) (snd_wnd p)
    (snd_wl1 p) (snd_wl2 p) (snd_lbb p) (snd_buf p) (snd_queuelen p) (sent p) (acked p) (recv p)
    (recv_data p) (connected p) (poll p) (errf p) (polltmr p) (pollinterval p) (unsent p) (unacked p)
    (ooseq p) (keepalive p) (keep_cnt p).

(** The record [p] with field [f] replaced by [v]. *)
Ltac put f p v :=
  let t := eval cbv beta delta [pcb_eta] in (pcb_eta p) in
  match eval pattern (f p) in t with ?g _ => let r := eval cbv beta in (g v) in exact r end.

Definition set_so_options (v : Z) (p : pcb) : pcb := ltac:(put so_options p v).
Definition set_state (v : tcp_state) (p : pcb) : pcb := ltac:(put state p v).
Definition set_callback_arg (v : Z) (p : pcb) : pcb := ltac:(put callback_arg p v).
Definition set_accept (v : bool) (p : pcb) : pcb := ltac:(put accept p v).
Definition set_local_ip (v : Z) (p : pcb) : pcb := ltac:(put local_ip p v).
Definition set_local_port (v : Z) (p : pcb) : pcb := ltac:(put local_port p v).
Definition set_remote_ip (v : Z) (p : pcb) : pcb := ltac:(put remote_ip p v).
Definition set_remote_port (v : Z) (p : pcb) : pcb := ltac:(put remote_port p v).
Definition set_rcv_nxt (v : Z) (p : pcb) : pcb := ltac:(put rcv_nxt p v).
Definition set_rcv_wnd (v : Z) (p : pcb) : pcb := ltac:(put rcv_wnd p v).
Definition set_tmr (v : Z) (p : pcb) : pcb := ltac:(put tmr p v).
Definition set_rtime (v : Z) (p : pcb) : pcb := ltac:(put rtime p v).
Definition set_mss (v : Z) (p : pcb) : pcb := ltac:(put mss p v).
Definition set_flags (v : Z) (p : pcb) : pcb := ltac:(put flags p v).
Definition set_rttest (v : Z) (p : pcb) : pcb := ltac:(put rttest p v).
Definition set_rtseq (v : Z) (p : pcb) : pcb := ltac:(put rtseq p v).
Definition set_sa (v : Z) (p : pcb) : pcb := ltac:(put sa p v).
Definition set_sv (v : Z) (p : pcb) : pcb := ltac:(put sv p v).
Definition set_rto (v : Z) (p : pcb) : pcb := ltac:(put rto p v).
Definition set_nrtx (v : Z) (p : pcb) : pcb := ltac:(put nrtx p v).
Definition set_lastack (v : Z) (p : pcb) : pcb := ltac:(put lastack p v).
Definition set_dupacks (v : Z) (p : pcb) : pcb := ltac:(put dupacks p v).
Definition set_cwnd (v : Z) (p : pcb) : pcb := ltac:(put cwnd p v).
Definition set_ssthresh (v : Z) (p : pcb) : pcb := ltac:(put ssthresh p v).
Definition set_snd_nxt (v : Z) (p : pcb) : pcb := ltac:(put snd_nxt p v).
Definition set_snd_max (v : Z) (p : pcb) : pcb := ltac:(put snd_max p v).
Definition set_snd_wnd (v : Z) (p : pcb) : pcb := ltac:(put snd_wnd p v).
Definition set_snd_wl1 (v : Z) (p : pcb) : pcb := ltac:(put snd_wl1 p v).
Definition set_snd_wl2 (v : Z) (p : pcb) : pcb := ltac:(put snd_wl2 p v).
Definition set_snd_lbb (v : Z) (p : pcb) : pcb := ltac:(put snd_lbb p v).
Definition set_snd_buf (v : Z) (p : pcb) : pcb := ltac:(put snd_buf p v).
Definition set_snd_queuelen (v : Z) (p : pcb) : pcb := ltac:(put snd_queuelen p v).
Definition set_sent (v : bool) (p : pcb) : pcb := ltac:(put sent p v).
Definition set_acked (v : Z) (p : pcb) : pcb := ltac:(put acked p v).
Definition set_recv (v : bool) (p : pcb) : pcb := ltac:(put recv p v).
Definition set_recv_data (v : option pbufs) (p : pcb) : pcb := ltac:(put recv_data p v).
Definition set_connected (v : bool) (p : pcb) : pcb := ltac:(put connected p v).
Definition set_poll (v : bool) (p : pcb) : pcb := ltac:(put poll p v).
Definition set_errf (v : bool) (p : pcb) : pcb := ltac:(put errf p v).
Definition set_polltmr (v : Z) (p : pcb) : pcb := ltac:(put polltmr p v).
Definition set_pollinterval (v : Z) (p : pcb) : pcb := ltac:(put pollinterval p v).
Definition set_unsent (v : list tcp_seg) (p : pcb) : pcb := ltac:(put unsent p v).
Definition set_unacked (v : list tcp_seg) (p : pcb) : pcb := ltac:(put unacked p v).
Definition set_ooseq (v : list tcp_seg) (p : pcb) : pcb := ltac:(put ooseq p v).
Definition set_keepalive (v : Z) (p : pcb) : pcb := ltac:(put keepalive p v).
Definition set_keep_cnt (v : Z) (p : pcb) : pcb := ltac:(put keep_cnt p v).

(** ** The surroundings of a connection *)

(** The fields of struct netif the code uses: of the one ip_route finds, or of the one
    a packet came from. *)
Record route := MkRt { rt_ip : Z; rt_mask : Z; rt_mtu : Z; rt_flags : Z }.

(** A segment given to IP. *)
Record tpacket := MkPkt { pk_src : Z; pk_dst : Z; pk_hdr : tcp_hdr; pk_opts : list Z; pk_data : list Z }.

(** What a callback of the application does to its connection before it returns. *)
Inductive act := DoWrite (data : list Z) (opt : Z) | DoRecved (n : Z) | DoRegister.

(** The calls of the application's functions. *)
Inductive event :=
  | EvAccept | EvConnected | EvSent (n : Z) | EvRecv (b : pbufs) | EvFin | EvPoll | EvErr (e : Z).

(** [allocs]: whether the next allocations succeed; [xmits]: what ip_output_if will
    return; [answers]: what the callbacks will do and return.  When a list is used
    up, memory is there, packets are sent and callbacks just return 0. *)
Record net := MkNet {
  tcp_ticks : Z; ip_route : Z -> option route; allocs : list bool; xmits : list Z; answers : list (list act * Z);
  out : list tpacket; told : list event }.

Definition alloc (w : net) : bool * net :=
  (match allocs w with b :: _ => b | [] => true end,
   MkNet (tcp_ticks w) (ip_route w) (tail (allocs w)) (xmits w) (answers w) (out w) (told w)).

(** ip_output_if: the packet is sent if the result is not an error. *)
Definition ip_output_if (w : net) (k : tpacket) : Z * net :=
  let rc := match xmits w with r :: _ => r | [] => 0 end in
  (rc, MkNet (tcp_ticks w) (ip_route w) (allocs w) (tail (xmits w)) (answers w)
         (if rc <? 0 then out w else out w ++ [k]) (told w)).

Definition tell (w : net) (e : event) : net :=
  MkNet (tcp_ticks w) (ip_route w) (allocs w) (xmits w) (answers w) (out w) (told w ++ [e]).

Definition answer (w : net) : list act * Z * net :=
  (match answers w with a :: _ => a | [] => ([], 0) end,
   MkNet (tcp_ticks w) (ip_route w) (allocs w) (xmits w) (tail (answers w)) (out w) (told w)).

(** ** Checksum: the sum of RFC 1071 over the pseudo header and the packet *)

Definition le16 (x : Z) : list Z := [x mod 256; x / 256 mod 256].
Definition le32 (x : Z) : list Z := le16 x ++ le16 (x / 65536).

Definition hdr_bytes (h : tcp_hdr) : list Z :=
  le16 (th_src h) ++ le16 (th_dest h) ++ le32 (th_seqno h) ++ le32 (th_ackno h) ++ le16 (th_offset_flags h) ++
  le16 (th_wnd h) ++ le16 (th_chksum h) ++ le16 (th_urgp h).

Definition pseudo_bytes (src dest proto n : Z) : list Z := le32 src ++ le32 dest ++ le16 (htons proto) ++ le16 (htons n).

Definition tcp_chksum (src dest : Z) (h : tcp_hdr) (opts data : list Z) : Z :=
  let bs := hdr_bytes h ++ opts ++ data in
  rfc1071 (pseudo_bytes src dest IP_PROTO_TCP (Z.of_nat (length bs)) ++ bs).

(** The header with its checksum, unless the interface computes it. *)
Definition with_chksum (r : route) (src dest : Z) (h : tcp_hdr) (opts data : list Z) : tcp_hdr :=
  let h := set_chksum h 0 in
  if has (rt_flags r) NETIF_TCP_TX_CHECKSUM_OFFLOAD then h else set_chksum h (tcp_chksum src dest h opts data).

(** ** Sending (net/tcp_output.c) *)

(** The last segment of a queue changed. *)
Fixpoint map_last {A} (f : A -> A) (l : list A) : list A :=
  match l with [] => [] | [x] => [f x] | x :: l => x :: map_last f l end.

(** Fill the last buffer of the last unsent segment; the data that are left. *)
Definition fill_unsent (mss : Z) (l : list tcp_seg) (data : list Z) : list tcp_seg * list Z :=
  match last l with
  | Some u =>
      match seg_p u with
      | Some b =>
          let left := Z.of_nat (length data) in
          let buflen := if left <? spare b then left else spare b in
          let buflen := if mss <? seg_len u + buflen then mss - seg_len u else buflen in
          if 0 <? buflen then
            let bs := take (Z.to_nat buflen) data in
            let b := MkPbufs (fill_last (pieces b) bs) (tot_len b + buflen) (spare b - buflen) (pref b) in
            (map_last (fun _ => set_seg_len (set_seg_p u (Some b)) (seg_len u + buflen)) l, drop (Z.to_nat buflen) data)
          else (l, data)
      | None => (l, data)
      end
  | None => (l, data)
  end.

(** The header tcp_enqueue builds; ackno and wnd are filled in later. *)
Definition new_hdr (p : pcb) (seqno flags : Z) (optlen : option Z) : tcp_hdr :=
  let h := MkHdr (htons (local_port p)) (htons (remote_port p)) (htonl seqno) 0 0 0 0 0 in
  let h := TCPH_FLAGS_SET h flags in
  TCPH_OFFSET_SET h (Z.shiftl (match optlen with None => 5 | Some n => 5 + n / 4 end) 4).

(** Split the data into segments.  [None]: memory ran out, or the queue is too long.
    PBUF_TRANSPORT leaves room for the header, so that pbuf_header does not fail. *)
Fixpoint split_loop (n : nat) (w : net) (p : pcb) (mtu flags : Z) (optdata : option (list Z)) (data : list Z)
    (seqno queuelen : Z) (queue : list tcp_seg) : outcome (option (list tcp_seg * Z) * net) :=
  let left := Z.of_nat (length data) in
  if negb (match queue with [] => true | _ => false end || (0 <? left)) then Ok (Some (queue, queuelen), w)
  else
    match n with
    | O => OutOfFuel
    | S n =>
        let seglen := if mss p <? left then mss p else left in
        let '(a, w) := alloc w in
        if negb a then Ok (None, w)
        else
          let '(a, w) := alloc w in
          if negb a then Ok (None, w)
          else
            let queuelen := queuelen + 1 in
            if TCP_SND_QUEUELEN <? queuelen then Ok (None, w)
            else
              let h := new_hdr p seqno flags (match optdata with None => None | Some o => Some (Z.of_nat (length o)) end) in
              let size := if seglen <? mtu then (if mss p <? mtu then mss p else mtu) else seglen in
              let seg :=
                match optdata with
                | Some o => MkSeg (Some (MkPbufs [[]] 0 0 1)) seglen h o
                | None => MkSeg (Some (MkPbufs [take (Z.to_nat seglen) data] seglen (size - seglen) 1)) seglen h []
                end in
              split_loop n w p mtu flags optdata (drop (Z.to_nat seglen) data) (u32 (seqno + seglen)) queuelen (queue ++ [seg])
    end.

(** One turn for each segment the queue may hold, and one more. *)
Definition split_fuel : nat := Z.to_nat (TCP_SND_QUEUELEN + 2).

(** Put the new segments behind the unsent ones, the first into the last of them if
    there is room; whether it was. *)
Definition join_queue (mss flags : Z) (unsent queue : list tcp_seg) : outcome (list tcp_seg * bool) :=
  match queue, last unsent with
  | q :: queue', Some u =>
      if negb (TCP_TCPLEN u =? 0) && negb (has (TCPH_FLAGS (seg_hdr u)) (Z.lor TCP_SYN TCP_FIN)) &&
         negb (has flags (Z.lor TCP_SYN TCP_FIN)) && (seg_len u + seg_len q <=? mss)
      then
        qb ← from_opt (seg_p q);
        b ← chain_on (seg_p u) qb;
        Ok (map_last (fun _ => set_seg_len (set_seg_p u (Some b)) (seg_len u + seg_len q)) unsent ++ queue', true)
      else Ok (unsent ++ queue, false)
  | _, _ => Ok (unsent ++ queue, false)
  end.

Definition set_psh (s : tcp_seg) : tcp_seg :=
  set_seg_hdr s (TCPH_FLAGS_SET (seg_hdr s) (Z.lor (TCPH_FLAGS (seg_hdr s)) TCP_PSH)).

(** The PSH flag of the last new segment, unless its data went into one before it. *)
Definition push_last (joined : bool) (queue us : list tcp_seg) : list tcp_seg :=
  match last queue with
  | Some seg => if negb (joined && (length queue =? 1)%nat) && (0 <? seg_len seg) then map_last set_psh us else us
  | None => us
  end.

Definition tcp_enqueue (w : net) (p : pcb) (data : list Z) (flags : Z) (optdata : option (list Z)) : outcome (Z * pcb * net) :=
  let len := Z.of_nat (length data) in
  if snd_buf p <? len then Ok (ENOMEM, p, w)
  else if TCP_SND_QUEUELEN <=? snd_queuelen p then Ok (ENOMEM, p, w)
  else
    let mtu := match ip_route w (remote_ip p) with Some r => rt_mtu r | None => TCP_MIN_SEGLEN end in
    let optlen := match optdata with Some o => Z.of_nat (length o) | None => 0 end in
    let '(us, data) := if (optlen =? 0) && (flags =? 0) then fill_unsent (mss p) (unsent p) data else (unsent p, data) in
    let p := set_unsent us p in
    let seqno := u32 (snd_lbb p + (len - Z.of_nat (length data))) in
    '(r, w) ← (if (0 <? Z.of_nat (length data)) || (0 <? optlen) || negb (flags =? 0)
               then split_loop split_fuel w p mtu flags optdata data seqno (snd_queuelen p) []
               else Ok (Some ([], snd_queuelen p), w));
    match r with
    | None => Ok (ENOMEM, p, w)
    | Some (queue, queuelen) =>
        '(us, joined) ← join_queue (mss p) flags (unsent p) queue;
        let len := if has flags TCP_SYN || has flags TCP_FIN then len + 1 else len in
        let p := set_unsent (push_last joined queue us) p in
        let p := set_snd_lbb (u32 (snd_lbb p + len)) p in
        let p := set_snd_buf (u16 (snd_buf p - len)) p in
        Ok (0, set_snd_queuelen (u16 queuelen) p, w)
    end.

Definition tcp_send_ctrl (w : net) (p : pcb) (flags : Z) : outcome (Z * pcb * net) := tcp_enqueue w p [] flags None.

(** The window field: silly window avoidance. *)
Definition wnd_field (p : pcb) : Z := if rcv_wnd p <? mss p then 0 else htons (rcv_wnd p).

Definition seg_ref (s : tcp_seg) : Z := match seg_p s with Some b => pref b | None => 0 end.
Definition set_ref (s : tcp_seg) (v : Z) : tcp_seg :=
  match seg_p s with Some b => set_seg_p s (Some (MkPbufs (pieces b) (tot_len b) (spare b) v)) | None => s end.
Definition seg_bytes (s : tcp_seg) : list Z := match seg_p s with Some b => bytes b | None => [] end.

Definition tcp_output_segment (w : net) (s : tcp_seg) (p : pcb) : tcp_seg * pcb * net :=
  if 1 <? seg_ref s then (s, p, w)
  else
    let s := set_seg_hdr s (set_ackno_wnd (seg_hdr s) (htonl (rcv_nxt p)) (wnd_field p)) in
    match ip_route w (remote_ip p) with
    | None => (s, p, w)
    | Some r =>
        let p := if local_ip p =? 0 then set_local_ip (rt_ip r) p else p in
        let p := set_rtime 0 p in
        let p := if rttest p =? 0 then set_rtseq (oseq s) (set_rttest (tcp_ticks w) p) else p in
        let s := set_seg_hdr s (with_chksum r (local_ip p) (remote_ip p) (seg_hdr s) (seg_opts s) (seg_bytes s)) in
        let '(rc, w) := ip_output_if w (MkPkt (local_ip p) (remote_ip p) (seg_hdr s) (seg_opts s) (seg_bytes s)) in
        (if rc <? 0 then s else set_ref s (seg_ref s + 1), p, w)
    end.

(** A control segment without data and options. *)
Definition ctrl_packet (r : route) (lip rip lport rport seqno ackno flags wnd : Z) : tpacket :=
  let h := MkHdr (htons lport) (htons rport) (htonl seqno) (htonl ackno) 0 wnd 0 0 in
  let h := TCPH_OFFSET_SET (TCPH_FLAGS_SET h flags) (Z.shiftl 5 4) in
  MkPkt lip rip (with_chksum r lip rip h [] []) [] [].

Definition tcp_send_ack (w : net) (p : pcb) : Z * net :=
  match ip_route w (remote_ip p) with
  | None => (EHOSTUNREACH, w)
  | Some r =>
      let '(a, w) := alloc w in
      if negb a then (ENOMEM, w)
      else
        let '(rc, w) := ip_output_if w
          (ctrl_packet r (local_ip p) (remote_ip p) (local_port p) (remote_port p) (snd_nxt p) (rcv_nxt p) TCP_ACK (wnd_field p)) in
        (if rc <? 0 then rc else 0, w)
  end.

Fixpoint output_loop (wnd : Z) (l : list tcp_seg) (w : net) (p : pcb) : pcb * net :=
  match l with
  | [] => (p, w)
  | s :: l =>
      if u32 (oseq s - lastack p + seg_len s) <=? wnd then
        let p := set_unsent l (set_rtime 0 p) in
        let '(s, p) :=
          if is_state (state p) SYN_SENT then (s, p)
          else (set_seg_hdr s (TCPH_FLAGS_SET (seg_hdr s) (Z.lor (TCPH_FLAGS (seg_hdr s)) TCP_ACK)),
                set_flags (setoff (flags p) (Z.lor TF_ACK_DELAY TF_ACK_NOW)) p) in
        let p := set_snd_nxt (u32 (oseq s + TCP_TCPLEN s)) p in
        let p := if TCP_SEQ_LT (snd_max p) (snd_nxt p) then set_snd_max (snd_nxt p) p else p in
        let '(s', p, w) := tcp_output_segment w s p in
        output_loop wnd l w (if 0 <? TCP_TCPLEN s then set_unacked (unacked p ++ [s']) p else p)
      else (p, w)
  end.

Definition tcp_output (w : net) (p : pcb) : Z * pcb * net :=
  let '(p, w) := output_loop (Z.min (snd_wnd p) (cwnd p)) (unsent p) w p in
  if has (flags p) TF_ACK_NOW then
    let p := set_flags (setoff (flags p) (Z.lor TF_ACK_DELAY TF_ACK_NOW)) p in
    let '(rc, w) := tcp_send_ack w p in (rc, p, w)
  else (0, p, w).

Definition tcp_write (w : net) (p : pcb) (data : list Z) (opt : Z) : outcome (Z * pcb * net) :=
  if is_state (state p) SYN_SENT || is_state (state p) SYN_RCVD || is_state (state p) ESTABLISHED || is_state (state p) CLOSE_WAIT then
    '(rc, p, w) ← (if 0 <? Z.of_nat (length data) then tcp_enqueue w p data 0 None else Ok (0, p, w));
    if rc <? 0 then Ok (rc, p, w)
    else if (opt =? TCP_WRITE_FLUSH) || ((opt =? TCP_WRITE_NAGLE) && match unacked p with [] => true | _ => false end) then
      let '(_, p, w) := tcp_output w p in Ok (0, p, w)
    else Ok (0, p, w)
  else Ok (ENOTCONN, p, w).

Definition tcp_rexmit (w : net) (p : pcb) : pcb * net :=
  match unacked p with
  | [] => (p, w)
  | s :: _ =>
      let p := set_unacked [] (set_unsent (unacked p ++ unsent p) p) in
      let p := set_snd_nxt (oseq s) p in
      let p := set_rttest 0 (set_nrtx (u16 (nrtx p + 1)) p) in
      let '(_, p, w) := tcp_output w p in (p, w)
  end.

Definition tcp_rst (w : net) (seqno ackno lip rip lport rport : Z) : net :=
  match ip_route w rip with
  | None => w
  | Some r =>
      let '(a, w) := alloc w in
      if negb a then w
      else snd (ip_output_if w (ctrl_packet r lip rip lport rport seqno ackno (Z.lor TCP_RST TCP_ACK) 0))
  end.

(** ** Receiving on one connection (tcp_receive of net/tcp_input.c) *)

Definition state_num (s : tcp_state) : Z :=
  match s with
  | CLOSED => 0 | LISTEN => 1 | SYN_SENT => 2 | SYN_RCVD => 3 | ESTABLISHED => 4 | FIN_WAIT_1 => 5 | FIN_WAIT_2 => 6
  | CLOSE_WAIT => 7 | CLOSING => 8 | LAST_ACK => 9 | TIME_WAIT => 10
  end.

Definition update_window (h : tcp_hdr) (p : pcb) : pcb :=
  let seqno := th_seqno h in
  let ackno := th_ackno h in
  if TCP_SEQ_LT (snd_wl1 p) seqno || ((snd_wl1 p =? seqno) && TCP_SEQ_LT (snd_wl2 p) ackno) ||
     ((snd_wl2 p =? ackno) && (snd_wnd p <? th_wnd h))
  then set_snd_wl2 ackno (set_snd_wl1 seqno (set_snd_wnd (th_wnd h) p))
  else p.

(** cwnd += mss, unless the sum does not fit 16 bits *)
Definition inflate (p : pcb) : pcb :=
  if cwnd p <? u16 (cwnd p + mss p) then set_cwnd (u32 (cwnd p + mss p)) p else p.

(** The ACK repeats the last one. *)
Definition dup_ack (w : net) (right_wnd_edge : Z) (p : pcb) : pcb * net :=
  let p := set_acked 0 p in
  if u32 (snd_wl1 p + snd_wnd p) =? right_wnd_edge then
    let p := set_dupacks (u16 (dupacks p + 1)) p in
    if (3 <=? dupacks p) && negb (match unacked p with [] => true | _ => false end) && is_state (state p) ESTABLISHED then
      if negb (has (flags p) TF_INFR) then
        let '(p, w) := tcp_rexmit w p in
        let p := set_ssthresh (Z.max (u32 (snd_max p - lastack p) / 2) (u32 (2 * mss p))) p in
        let p := set_cwnd (u32 (ssthresh p + 3 * mss p)) p in
        (set_flags (seton (flags p) TF_INFR) p, w)
      else (inflate p, w)
    else (p, w)
  else (p, w).

(** Slow start or congestion avoidance; the division faults when cwnd is 0. *)
Definition grow_cwnd (p : pcb) : outcome pcb :=
  if 4 <=? state_num (state p) then
    if cwnd p <? ssthresh p then Ok (inflate p)
    else if cwnd p =? 0 then Fault
    else
      let new_cwnd := u16 (cwnd p + mss p * mss p / cwnd p) in
      Ok (if cwnd p <? new_cwnd then set_cwnd new_cwnd p else p)
  else Ok p.

Definition all_acked (ackno : Z) (s : tcp_seg) : bool := TCP_SEQ_LEQ (u32 (oseq s + TCP_TCPLEN s)) ackno.

Fixpoint free_unacked (ackno : Z) (l : list tcp_seg) (p : pcb) : pcb :=
  match l with
  | [] => p
  | s :: l =>
      if all_acked ackno s then free_unacked ackno l (set_snd_queuelen (u16 (snd_queuelen p - seg_clen s)) (set_unacked l p))
      else p
  end.

Fixpoint free_unsent (ackno : Z) (l : list tcp_seg) (p : pcb) : pcb :=
  match l with
  | [] => p
  | s :: l =>
      if all_acked ackno s then
        let p := set_snd_queuelen (u16 (snd_queuelen p - seg_clen s)) (set_unsent l p) in
        free_unsent ackno l (match l with s' :: _ => set_snd_nxt (htonl (th_seqno (seg_hdr s'))) p | [] => p end)
      else p
  end.

(** The ACK acknowledges new data: fast recovery ends, and the counters of
    retransmission and of the send buffer follow. *)
Definition count_acked (ackno : Z) (p : pcb) : pcb :=
  let n := u16 (ackno - lastack p) in
  let q := if has (flags p) TF_INFR then set_cwnd (ssthresh p) (set_flags (setoff (flags p) TF_INFR) p) else p in
  set_lastack ackno (set_dupacks 0 (set_snd_buf (u16 (snd_buf p + n)) (set_acked n
    (set_rto (u16 (Z.shiftr (sa p) 3 + sv p)) (set_nrtx 0 q))))).

Definition new_ack (ackno : Z) (p : pcb) : outcome pcb :=
  p ← grow_cwnd (count_acked ackno p);
  let p := set_polltmr 0 (free_unacked ackno (unacked p) p) in
  Ok (free_unsent ackno (unsent p) p).

(** Round trip estimation. *)
Definition estimate_rtt (ticks ackno : Z) (p : pcb) : pcb :=
  if negb (rttest p =? 0) && TCP_SEQ_LT (rtseq p) ackno then
    let m := s32 (ticks - rttest p) in
    let m := s32 (m - Z.shiftr (sa p) 3) in
    let p := set_sa (s32 (sa p + m)) p in
    let m := if m <? 0 then s32 (- m) else m in
    let m := s32 (m - Z.shiftr (sv p) 2) in
    let p := set_sv (s32 (sv p + m)) p in
    set_rttest 0 (set_rto (u16 (Z.shiftr (sa p) 3 + sv p)) p)
  else p.

Definition receive_ack (w : net) (h : tcp_hdr) (p : pcb) : outcome (pcb * net) :=
  let ackno := th_ackno h in
  let right_wnd_edge := u32 (snd_wnd p + snd_wl1 p) in
  let p := update_window h p in
  '(p, w) ←
    (if lastack p =? ackno then Ok (dup_ack w right_wnd_edge p)
     else if TCP_SEQ_LT (lastack p) ackno && TCP_SEQ_LEQ ackno (snd_max p) then p ← new_ack ackno p; Ok (p, w)
     else Ok (p, w));
  Ok (estimate_rtt (tcp_ticks w) ackno p, w).

(** Trim the first edge: push the payload of the first buffer down, or, where the
    edge lies behind it, empty the buffers before and push down that of the last. *)
Fixpoint trim_loop (l : list (list Z)) (off tot : Z) : outcome (list (list Z) * Z) :=
  match l with
  | [] => Fault
  | x :: l =>
      if Z.of_nat (length x) <? off then
        '(l, tot) ← trim_loop l (off - Z.of_nat (length x)) (tot - Z.of_nat (length x)); Ok ([] :: l, tot)
      else Ok (drop (Z.to_nat off) x :: l, tot)
  end.

Definition trim_front (s : tcp_seg) (nxt : Z) : outcome tcp_seg :=
  let seqno := th_seqno (seg_hdr s) in
  let off := s32 (nxt - seqno) in
  b ← from_opt (seg_p s);
  x ← from_opt (head (pieces b));
  b ← (if Z.of_nat (length x) <? off then
         '(l, tot) ← trim_loop (pieces b) off (tot_len b); Ok (MkPbufs l tot (spare b) (pref b))
       else Ok (MkPbufs (drop (Z.to_nat off) x :: tail (pieces b)) (tot_len b - off) (spare b) (pref b)));
  Ok (MkSeg (Some b) (s32 (seg_len s - off)) (set_seqno (seg_hdr s) nxt) (seg_opts s)).

(** Cut the segment to [n] bytes. *)
Definition cut_seg (s : tcp_seg) (n : Z) : outcome tcp_seg :=
  b ← from_opt (seg_p s);
  b ← realloc b n;
  Ok (set_seg_len (set_seg_p s (Some b)) n).

Definition hseq (s : tcp_seg) : Z := th_seqno (seg_hdr s).

(** Make room in the window and take note of a FIN. *)
Definition advance (s : tcp_seg) (p : pcb) : pcb :=
  let p := set_rcv_nxt (u32 (rcv_nxt p + TCP_TCPLEN s)) p in
  set_rcv_wnd (if rcv_wnd p <? TCP_TCPLEN s then 0 else u16 (rcv_wnd p - TCP_TCPLEN s)) p.

Definition note_fin (s : tcp_seg) (p : pcb) : pcb :=
  if has (TCPH_FLAGS (seg_hdr s)) TCP_FIN then set_flags (seton (flags p) TF_GOT_FIN) p else p.

(** The segments of the queue that are now in sequence. *)
Fixpoint dequeue (l : list tcp_seg) (p : pcb) : outcome pcb :=
  match l with
  | [] => Ok p
  | c :: l =>
      if hseq c =? rcv_nxt p then
        let p := advance c p in
        b ← from_opt (seg_p c);
        p ← (if 0 <? tot_len b then r ← chain_on (recv_data p) b; Ok (set_recv_data (Some r) p) else Ok p);
        let p := set_ooseq l (note_fin c p) in
        dequeue l (set_flags (seton (flags p) TF_ACK_NOW) p)
      else Ok p
  end.

(** The segment is the next in sequence. *)
Definition in_sequence (s : tcp_seg) (p : pcb) : outcome (tcp_seg * pcb) :=
  s ← (match ooseq p with
       | o :: _ => if TCP_SEQ_LEQ (hseq o) (u32 (hseq s + seg_len s)) then cut_seg s (s32 (hseq o - hseq s)) else Ok s
       | [] => Ok s
       end);
  let p := advance s p in
  b ← from_opt (seg_p s);
  let '(s, p) := if 0 <? tot_len b then (set_seg_p s None, set_recv_data (Some b) p) else (s, p) in
  p ← dequeue (ooseq p) (note_fin s p);
  Ok (s, set_flags (seton (flags p) (if has (flags p) TF_ACK_DELAY then TF_ACK_NOW else TF_ACK_DELAY)) p).

(** Trim the incoming segment so that it ends where [o] begins. *)
Definition fit_before (s o : tcp_seg) : outcome tcp_seg :=
  if TCP_SEQ_GT (u32 (hseq s + seg_len s)) (hseq o) then cut_seg s (s32 (hseq o - hseq s)) else Ok s.

(** Find the place in the queue; [prev] holds the segments passed, the last first.
    tcp_seg_copy allocates. *)
Fixpoint ooseq_insert (w : net) (s : tcp_seg) (prev l : list tcp_seg) : outcome (list tcp_seg * tcp_seg * net) :=
  match l with
  | [] => Ok (rev prev, s, w)
  | nx :: l' =>
      let go_on :=
        if match l' with [] => TCP_SEQ_GT (hseq s) (hseq nx) | _ => false end then
          let '(a, w) := alloc w in
          if negb a then Ok (rev prev ++ l, s, w)
          else nx ← fit_before nx s; Ok (rev prev ++ [nx; s], s, w)
        else ooseq_insert w s (nx :: prev) l' in
      if hseq s =? hseq nx then
        if seg_len nx <? seg_len s then
          let '(a, w) := alloc w in
          if negb a then Ok (rev prev ++ l, s, w) else Ok (rev prev ++ s :: l', s, w)
        else Ok (rev prev ++ l, s, w)
      else
        match prev with
        | [] =>
            if TCP_SEQ_LT (hseq s) (hseq nx) then
              s ← fit_before s nx;
              let '(a, w) := alloc w in
              if negb a then Ok (l, s, w) else Ok (s :: l, s, w)
            else go_on
        | pv :: prev' =>
            if TCP_SEQ_LT (hseq pv) (hseq s) && TCP_SEQ_LT (hseq s) (hseq nx) then
              s ← fit_before s nx;
              let '(a, w) := alloc w in
              if negb a then Ok (rev prev ++ l, s, w)
              else pv ← fit_before pv s; Ok (rev prev' ++ pv :: s :: l, s, w)
            else go_on
        end
  end.

Definition out_of_sequence (w : net) (s : tcp_seg) (p : pcb) : outcome (tcp_seg * pcb * net) :=
  let p := set_flags (seton (flags p) TF_ACK_NOW) p in
  match ooseq p with
  | [] => let '(a, w) := alloc w in Ok (s, if a then set_ooseq [s] p else p, w)
  | l => '(l, s, w) ← ooseq_insert w s [] l; Ok (s, set_ooseq l p, w)
  end.

Definition receive_data (w : net) (s : tcp_seg) (p : pcb) : outcome (tcp_seg * pcb * net) :=
  let seqno := hseq s in
  if 0 <? TCP_TCPLEN s then
    '(s, p) ←
      (if TCP_SEQ_LT seqno (rcv_nxt p) then
         if TCP_SEQ_LT (rcv_nxt p) (u32 (seqno + TCP_TCPLEN s)) then s ← trim_front s (rcv_nxt p); Ok (s, p)
         else Ok (s, set_flags (seton (flags p) TF_ACK_NOW) p)
       else Ok (s, p));
    let seqno := hseq s in
    if TCP_SEQ_GEQ seqno (rcv_nxt p) && TCP_SEQ_LT seqno (u32 (rcv_nxt p + rcv_wnd p)) then
      if rcv_nxt p =? seqno then '(s, p) ← in_sequence s p; Ok (s, p, w)
      else out_of_sequence w s p
    else Ok (s, p, w)
  else
    Ok (s, if TCP_SEQ_GT (rcv_nxt p) seqno || TCP_SEQ_GEQ seqno (u32 (rcv_nxt p + rcv_wnd p))
           then set_flags (seton (flags p) TF_ACK_NOW) p else p, w).

Definition tcp_receive (w : net) (s : tcp_seg) (p : pcb) : outcome (tcp_seg * pcb * net) :=
  '(p, w) ← (if has (TCPH_FLAGS (seg_hdr s)) TCP_ACK then receive_ack w (seg_hdr s) p else Ok (p, w));
  receive_data w s p.

(** ** Options of a SYN (tcp_parseopt) *)

(** [m]: the bytes behind the fixed header; [c] is an unsigned char. *)
Fixpoint parse_loop (n : nat) (m : list Z) (limit mtu c : Z) (p : pcb) : outcome pcb :=
  if c <? limit then
    match n with
    | O => OutOfFuel
    | S n =>
        opt ← aget m c;
        if opt =? 0 then Ok p
        else if opt =? 1 then parse_loop n m limit mtu (u8 (c + 1)) p
        else
          l ← aget m (c + 1);
          if (opt =? 2) && (l =? 4) then
            hi ← aget m (c + 2);
            lo ← aget m (c + 3);
            let v := Z.lor (Z.shiftl hi 8) lo in
            Ok (set_mss (if mtu <? v then mtu else v) p)
          else if l =? 0 then Ok p
          else parse_loop n m limit mtu (u8 (c + l)) p
    end
  else Ok p.

Definition tcp_parseopt (n : nat) (s : tcp_seg) (mtu : Z) (p : pcb) : outcome pcb :=
  if 80 <? Z.land (TCPH_OFFSET (seg_hdr s)) 240 then
    parse_loop n (seg_opts s ++ seg_bytes s) (Z.shiftl (Z.shiftr (TCPH_OFFSET (seg_hdr s)) 4 - 5) 2) mtu 0 p
  else Ok p.

(** ** All connections (net/tcp.c, tcp_input.c) *)

(** The connections by address, the three lists, and the static data of tcp.c.
    pcb_free takes a connection out of [pcbs]; [stale] records the connections written
    to after that. *)
Record tcp := MkTcp {
  tnet : net; pcbs : gmap Z pcb; tcp_active_pcbs : list Z; tcp_tw_pcbs : list Z; tcp_listen_pcbs : list Z;
  iss : Z; tcp_next_port : Z; stale : list Z }.

Definition set_tnet (t : tcp) (v : net) : tcp :=
  MkTcp v (pcbs t) (tcp_active_pcbs t) (tcp_tw_pcbs t) (tcp_listen_pcbs t) (iss t) (tcp_next_port t) (stale t).
Definition set_pcbs (t : tcp) (v : gmap Z pcb) : tcp :=
  MkTcp (tnet t) v (tcp_active_pcbs t) (tcp_tw_pcbs t) (tcp_listen_pcbs t) (iss t) (tcp_next_port t) (stale t).
Definition set_active (t : tcp) (v : list Z) : tcp :=
  MkTcp (tnet t) (pcbs t) v (tcp_tw_pcbs t) (tcp_listen_pcbs t) (iss t) (tcp_next_port t) (stale t).
Definition set_tw (t : tcp) (v : list Z) : tcp :=
  MkTcp (tnet t) (pcbs t) (tcp_active_pcbs t) v (tcp_listen_pcbs t) (iss t) (tcp_next_port t) (stale t).
Definition set_listen (t : tcp) (v : list Z) : tcp :=
  MkTcp (tnet t) (pcbs t) (tcp_active_pcbs t) (tcp_tw_pcbs t) v (iss t) (tcp_next_port t) (stale t).
Definition set_iss (t : tcp) (v : Z) : tcp :=
  MkTcp (tnet t) (pcbs t) (tcp_active_pcbs t) (tcp_tw_pcbs t) (tcp_listen_pcbs t) v (tcp_next_port t) (stale t).
Definition set_next_port (t : tcp) (v : Z) : tcp :=
  MkTcp (tnet t) (pcbs t) (tcp_active_pcbs t) (tcp_tw_pcbs t) (tcp_listen_pcbs t) (iss t) v (stale t).
Definition add_stale (t : tcp) (a : Z) : tcp :=
  MkTcp (tnet t) (pcbs t) (tcp_active_pcbs t) (tcp_tw_pcbs t) (tcp_listen_pcbs t) (iss t) (tcp_next_port t) (a :: stale t).

Definition getpcb (t : tcp) (a : Z) : outcome pcb := from_opt (pcbs t !! a).
Definition putpcb (t : tcp) (a : Z) (p : pcb) : tcp := set_pcbs t (<[a := p]> (pcbs t)).
Definition pcb_free (t : tcp) (a : Z) : tcp := set_pcbs t (delete a (pcbs t)).

(** The three lists a connection may be on. *)
Inductive plist := Active | Tw | Listening.
Definition get_list (t : tcp) (l : plist) : list Z :=
  match l with Active => tcp_active_pcbs t | Tw => tcp_tw_pcbs t | Listening => tcp_listen_pcbs t end.
Definition set_list (t : tcp) (l : plist) (v : list Z) : tcp :=
  match l with Active => set_active t v | Tw => set_tw t v | Listening => set_listen t v end.

Definition TCP_REG (t : tcp) (l : plist) (a : Z) : tcp := set_list t l (a :: get_list t l).
Definition TCP_RMV (t : tcp) (l : plist) (a : Z) : tcp := set_list t l (list_del a (get_list t l)).

Definition tcp_next_iss (t : tcp) : Z * tcp :=
  let v := u32 (iss t + tcp_ticks (tnet t)) in (v, set_iss t v).

(** [a]: the address kmalloc returned. *)
Definition tcp_new (t : tcp) (a : Z) : Z * tcp :=
  if a =? NULL then (NULL, t)
  else
    let '(v, t) := tcp_next_iss t in
    (a, putpcb t a (MkPcb 0 CLOSED 0 false 0 0 0 0 0 TCP_WND (tcp_ticks (tnet t)) 0 TCP_MSS 0 0 0 0
                      (3000 / TCP_SLOW_INTERVAL) (3000 / TCP_SLOW_INTERVAL) 0 v 0 1 0 v v 0 0 v v TCP_SND_BUF 0
                      false 0 false None false false false 0 0 [] [] [] TCP_KEEPDEFAULT 0)).

(** [now]: get_unixtime(0). *)
Definition tcp_init (w : net) (now : Z) : tcp :=
  MkTcp (MkNet 0 (ip_route w) (allocs w) (xmits w) (answers w) (out w) (told w)) ∅ [] [] []
    (u32 (now + 6510)) (u16 (4096 + Z.rem now 1024)) [].

Definition tcp_pcb_purge (p : pcb) : pcb :=
  if negb (is_state (state p) CLOSED) && negb (is_state (state p) TIME_WAIT) && negb (is_state (state p) LISTEN)
  then set_ooseq [] (set_unsent [] (set_unacked [] p)) else p.

Definition on_pcb (t : tcp) (a : Z) (r : pcb * net) : tcp := putpcb (set_tnet t (snd r)) a (fst r).

Definition tcp_pcb_remove (t : tcp) (l : plist) (a : Z) : outcome tcp :=
  let t := TCP_RMV t l a in
  p ← getpcb t a;
  let p := tcp_pcb_purge p in
  let '(p, w) :=
    if negb (is_state (state p) TIME_WAIT) && negb (is_state (state p) LISTEN) && has (flags p) TF_ACK_DELAY then
      let '(_, p, w) := tcp_output (tnet t) (set_flags (seton (flags p) TF_ACK_NOW) p) in (p, w)
    else (p, tnet t) in
  Ok (on_pcb t a (set_state CLOSED p, w)).

(** A FIN, and the state to enter when it could be queued. *)
Definition send_fin (w : net) (p : pcb) (st : tcp_state) : outcome (Z * pcb * net) :=
  '(err, p, w) ← tcp_send_ctrl w p TCP_FIN;
  if err =? 0 then let '(_, p, w) := tcp_output w (set_state st p) in Ok (0, p, w) else Ok (err, p, w).

Definition tcp_close (t : tcp) (a : Z) : outcome (Z * tcp) :=
  p ← getpcb t a;
  let fin st := '(err, p, w) ← send_fin (tnet t) p st; Ok (err, on_pcb t a (p, w)) in
  match state p with
  | LISTEN => t ← tcp_pcb_remove t Listening a; Ok (0, pcb_free t a)
  | SYN_SENT => t ← tcp_pcb_remove t Active a; Ok (0, pcb_free t a)
  | SYN_RCVD | ESTABLISHED => fin FIN_WAIT_1
  | CLOSE_WAIT => fin LAST_ACK
  | _ => Ok (0, t)
  end.

Definition tcp_abort (t : tcp) (a : Z) : outcome tcp :=
  p ← getpcb t a;
  if is_state (state p) TIME_WAIT then t ← tcp_pcb_remove t Tw a; Ok (pcb_free t a)
  else
    t ← tcp_pcb_remove t Active a;
    let t := if errf p then set_tnet t (tell (tnet t) (EvErr EFAULT)) else t in
    let t := pcb_free t a in
    Ok (set_tnet t (tcp_rst (tnet t) (snd_nxt p) (rcv_nxt p) (local_ip p) (remote_ip p) (local_port p) (remote_port p))).

(** tcp_new_port: the next port that no connection uses; each of them makes the loop
    start again at most once. *)
Definition port_used (t : tcp) (port : Z) : bool :=
  existsb (fun a => match pcbs t !! a with Some p => local_port p =? port | None => false end)
    (tcp_active_pcbs t ++ tcp_tw_pcbs t ++ tcp_listen_pcbs t).

Fixpoint new_port_loop (used : Z -> bool) (n : nat) (port : Z) : outcome Z :=
  match n with
  | O => OutOfFuel
  | S n =>
      let port := u16 (port + 1) in
      let port := if 32767 <? port then 4096 else port in
      if used port then new_port_loop used n port else Ok port
  end.

Definition tcp_new_port (t : tcp) : outcome (Z * tcp) :=
  port ← new_port_loop (port_used t) (S (length (tcp_active_pcbs t ++ tcp_tw_pcbs t ++ tcp_listen_pcbs t))) (tcp_next_port t);
  Ok (port, set_next_port t port).

(** [own]: ip_ownaddr. *)
Definition bound (t : tcp) (l : list Z) (ipaddr port : Z) : bool :=
  existsb (fun a => match pcbs t !! a with
                    | Some c => (local_port c =? port) && ((local_ip c =? 0) || (ipaddr =? 0) || (local_ip c =? ipaddr))
                    | None => false end) l.

Definition tcp_bind (own : Z -> bool) (t : tcp) (a ipaddr port : Z) : outcome (Z * tcp) :=
  p ← getpcb t a;
  '(port, t) ← (if port =? 0 then tcp_new_port t else Ok (port, t));
  if bound t (tcp_listen_pcbs t) ipaddr port then Ok (EADDRINUSE, t)
  else if bound t (tcp_active_pcbs t) ipaddr port then Ok (EADDRINUSE, t)
  else if negb (ipaddr =? 0) && negb (own ipaddr) then Ok (EADDRNOTAVAIL, t)
  else Ok (0, putpcb t a (set_local_port port (if negb (ipaddr =? 0) then set_local_ip ipaddr p else p))).

Definition tcp_listen (t : tcp) (a : Z) : outcome tcp :=
  p ← getpcb t a;
  if is_state (state p) LISTEN then Ok t
  else Ok (TCP_REG (putpcb t a (set_state LISTEN p)) Listening a).

(** The MSS option, as it lies in memory after HTONL. *)
Definition mss_option (mss : Z) : list Z :=
  let x := Z.lor (Z.lor (Z.lor (Z.shiftl 2 24) (Z.shiftl 4 16)) (Z.shiftl (mss / 256) 8)) (Z.land mss 255) in
  [Z.land (Z.shiftr x 24) 255; Z.land (Z.shiftr x 16) 255; Z.land (Z.shiftr x 8) 255; Z.land x 255].

(** The fields tcp_connect sets; [v] is the initial sequence number. *)
Definition connecting (v mtu : Z) (connected : bool) (p : pcb) : pcb :=
  let p := set_snd_lbb (u32 (v - 1)) (set_lastack (u32 (v - 1)) (set_snd_nxt v (set_rcv_nxt 0 p))) in
  let p := set_cwnd 1 (set_mss mtu (set_snd_wnd TCP_WND (set_rcv_wnd TCP_WND p))) in
  set_connected connected (set_state SYN_SENT (set_ssthresh (u32 (mss p * 10)) p)).

Definition tcp_connect (t : tcp) (a ipaddr port : Z) (connected : bool) : outcome (Z * tcp) :=
  if (ipaddr =? 0) || (port =? 0) then Ok (EADDRNOTAVAIL, t)
  else
    p ← getpcb t a;
    let p := set_remote_port port (set_remote_ip ipaddr p) in
    let mtu := match ip_route (tnet t) ipaddr with Some r => rt_mtu r | None => TCP_MSS end in
    '(p, t) ← (if local_port p =? 0 then '(q, t) ← tcp_new_port t; Ok (set_local_port q p, t) else Ok (p, t));
    let '(v, t) := tcp_next_iss t in
    let p := connecting v mtu connected p in
    let t := TCP_REG t Active a in
    '(ret, p, w) ← tcp_enqueue (tnet t) p [] TCP_SYN (Some (mss_option (mss p)));
    let '(p, w) := if ret =? 0 then let '(_, p, w) := tcp_output w p in (p, w) else (p, w) in
    Ok (ret, on_pcb t a (p, w)).

(** The new right edge of the window is told with the next segment. *)
Definition tcp_recved (p : pcb) (len : Z) : pcb :=
  let p := set_rcv_wnd (u16 (rcv_wnd p + len)) p in
  let p := if TCP_WND <? rcv_wnd p then set_rcv_wnd TCP_WND p else p in
  if has (flags p) TF_IN_RECV then p else set_flags (seton (flags p) TF_ACK_DELAY) p.

(** *** Callbacks *)

Fixpoint run_acts (w : net) (p : pcb) (l : list act) : outcome (pcb * net) :=
  match l with
  | [] => Ok (p, w)
  | DoWrite data opt :: l => '(_, p, w) ← tcp_write w p data opt; run_acts w p l
  | DoRecved n :: l => run_acts w (tcp_recved p n) l
  | DoRegister :: l => run_acts w (set_errf true (set_sent true (set_recv true p))) l
  end.

Definition callback (w : net) (p : pcb) (e : event) : outcome (Z * pcb * net) :=
  let '(acts, rc, w) := answer (tell w e) in
  '(p, w) ← run_acts w p acts; Ok (rc, p, w).

(** *** tcp_process *)

(** Whether a reset is acceptable. *)
Definition rst_acceptable (h : tcp_hdr) (p : pcb) : bool :=
  match state p with
  | LISTEN => false
  | SYN_SENT => th_ackno h =? snd_nxt p
  | _ => TCP_SEQ_GEQ (th_seqno h) (rcv_nxt p) && TCP_SEQ_LEQ (th_seqno h) (u32 (rcv_nxt p + rcv_wnd p))
  end.

(** A SYN for a listening connection: [na] is the address for the new one, [mtu] that
    of the interface the segment came from. *)
Definition listen_syn (n : nat) (t : tcp) (s : tcp_seg) (a src dst mtu na : Z) : outcome (Z * tcp) :=
  let h := seg_hdr s in
  let '(na, t) := tcp_new t na in
  if na =? NULL then Ok (0, t)
  else
    p ← getpcb t a;
    q ← getpcb t na;
    let q := set_remote_port (th_src h) (set_remote_ip src (set_local_port (local_port p) (set_local_ip dst q))) in
    let q := set_rcv_nxt (u32 (th_seqno h + 1)) (set_state SYN_RCVD q) in
    let q := set_snd_wl1 (u32 (th_seqno h - 1)) (set_ssthresh (th_wnd h) (set_snd_wnd (th_wnd h) q)) in
    let q := set_callback_arg (callback_arg p) (set_accept (accept p) q) in
    let t := TCP_REG (putpcb t a (set_rcv_wnd TCP_WND (set_mss mtu p))) Active na in
    q ← tcp_parseopt n s mtu q;
    '(_, q, w) ← tcp_enqueue (tnet t) q [] (Z.lor TCP_SYN TCP_ACK) (Some (mss_option (mss q)));
    let '(rc, q, w) := tcp_output w q in
    Ok (rc, on_pcb t na (q, w)).

(** flags & (TCP_ACK | TCP_SYN) holds for either flag. *)
Definition syn_sent (n : nat) (w : net) (s : tcp_seg) (mtu : Z) (p : pcb) : outcome (pcb * net) :=
  let h := seg_hdr s in
  match unacked p with
  | rseg :: rest =>
      if has (TCPH_FLAGS h) (Z.lor TCP_ACK TCP_SYN) && (th_ackno h =? u32 (oseq rseg + 1)) then
        let p := set_snd_wnd (th_wnd h) (set_lastack (th_ackno h) (set_rcv_nxt (u32 (th_seqno h + 1)) p)) in
        let p := set_cwnd (mss p) (set_state ESTABLISHED (set_snd_wl1 (u32 (th_seqno h - 1)) p)) in
        let p := set_unacked rest (set_snd_queuelen (u16 (snd_queuelen p - 1)) p) in
        p ← tcp_parseopt n s mtu p;
        '(p, w) ← (if connected p then '(_, p, w) ← callback w p EvConnected; Ok (p, w) else Ok (p, w));
        Ok (set_flags (seton (flags p) TF_ACK_DELAY) p, w)
      else Ok (p, w)
  | [] => Ok (p, w)
  end.

(** The ACK of our SYN: [None] when the connection is to be aborted. *)
Definition syn_rcvd (w : net) (s : tcp_seg) (p : pcb) : outcome (option tcp_seg * pcb * net) :=
  let h := seg_hdr s in
  if has (TCPH_FLAGS h) TCP_ACK && negb (has (TCPH_FLAGS h) TCP_RST) && TCP_SEQ_LT (lastack p) (th_ackno h) &&
     TCP_SEQ_LEQ (th_ackno h) (snd_nxt p)
  then
    let p := set_state ESTABLISHED p in
    if accept p then
      '(rc, p, w) ← callback w p EvAccept;
      if rc <? 0 then Ok (None, p, w)
      else '(s, p, w) ← tcp_receive w s p; Ok (Some s, set_cwnd (mss p) p, w)
    else Ok (None, p, w)
  else Ok (Some s, p, w).

(** What the segment does to the state once tcp_receive has seen it. *)
Inductive next_state := Stay | Enter (st : tcp_state) | TimeWait | Close.

Definition after_receive (h : tcp_hdr) (p : pcb) : next_state :=
  let fin := has (TCPH_FLAGS h) TCP_FIN in
  let acked := has (TCPH_FLAGS h) TCP_ACK && (th_ackno h =? snd_nxt p) in
  match state p with
  | CLOSE_WAIT | ESTABLISHED => if fin then Enter CLOSE_WAIT else Stay
  | FIN_WAIT_1 => if fin then (if acked then TimeWait else Enter CLOSING) else if acked then Enter FIN_WAIT_2 else Stay
  | FIN_WAIT_2 => if fin then TimeWait else Stay
  | CLOSING => if acked then TimeWait else Stay
  | LAST_ACK => if acked then Close else Stay
  | _ => Stay
  end.

Definition ack_now (p : pcb) : pcb := set_flags (seton (flags p) TF_ACK_NOW) p.

Definition apply_next (t : tcp) (a : Z) (p : pcb) (n : next_state) : tcp :=
  match n with
  | Stay => putpcb t a p
  | Enter FIN_WAIT_2 => putpcb t a (set_state FIN_WAIT_2 p)
  | Enter st => putpcb t a (set_state st (ack_now p))
  | TimeWait => TCP_REG (TCP_RMV (putpcb t a (set_state TIME_WAIT (tcp_pcb_purge (ack_now p)))) Active a) Tw a
  | Close => putpcb t a (set_flags (seton (flags p) TF_CLOSED) (set_state CLOSED p))
  end.

Definition time_wait (s : tcp_seg) (p : pcb) : pcb :=
  let edge := u32 (th_seqno (seg_hdr s) + TCP_TCPLEN s) in
  let p := if TCP_SEQ_GT edge (rcv_nxt p) then set_rcv_nxt edge p else p in
  if 0 <? TCP_TCPLEN s then ack_now p else p.

Definition tcp_process (n : nat) (t : tcp) (s : tcp_seg) (a src dst mtu na : Z) : outcome (Z * tcp_seg * tcp) :=
  p ← getpcb t a;
  let h := seg_hdr s in
  if has (TCPH_FLAGS h) TCP_RST then
    if rst_acceptable h p then
      Ok (ECONNRESET, s, putpcb t a (set_flags (setoff (seton (flags p) TF_RESET) TF_ACK_DELAY) p))
    else Ok (0, s, t)
  else
    let p := if is_state (state p) LISTEN then p else set_tmr (tcp_ticks (tnet t)) p in
    let t := putpcb t a p in
    match state p with
    | CLOSED => Ok (0, s, t)
    | LISTEN =>
        if has (TCPH_FLAGS h) TCP_ACK then
          Ok (0, s, set_tnet t (tcp_rst (tnet t) (u32 (th_ackno h + 1)) (u32 (th_seqno h + TCP_TCPLEN s)) dst src
                                  (th_dest h) (th_src h)))
        else if has (TCPH_FLAGS h) TCP_SYN then '(rc, t) ← listen_syn n t s a src dst mtu na; Ok (rc, s, t)
        else Ok (0, s, t)
    | SYN_SENT => r ← syn_sent n (tnet t) s mtu p; Ok (0, s, on_pcb t a r)
    | SYN_RCVD =>
        '(r, p, w) ← syn_rcvd (tnet t) s p;
        let t := on_pcb t a (p, w) in
        match r with
        | Some s => Ok (0, s, t)
        | None => t ← tcp_abort t a; Ok (EFAULT, s, t)
        end
    | TIME_WAIT => Ok (0, s, putpcb t a (time_wait s p))
    | _ =>
        '(s, p, w) ← tcp_receive (tnet t) s p;
        Ok (0, s, apply_next (set_tnet t w) a p (after_receive h p))
    end.

(** *** tcp_input *)

(** The fields of a header that lies at the start of [bs]. *)
Definition ld16 (bs : list Z) (i : nat) : option Z :=
  lo ← bs !! i; hi ← bs !! S i; Some (lo + 256 * hi).
Definition ld32 (bs : list Z) (i : nat) : option Z :=
  lo ← ld16 bs i; hi ← ld16 bs (S (S i)); Some (lo + 65536 * hi).

Definition read_hdr (bs : list Z) : option tcp_hdr :=
  a ← ld16 bs 0; b ← ld16 bs 2; c ← ld32 bs 4; d ← ld32 bs 8; e ← ld16 bs 12; f ← ld16 bs 14; g ← ld16 bs 16;
  h ← ld16 bs 18;
  Some (MkHdr a b c d e f g h).

(** The fields that tcp_input converts to host byte order. *)
Definition host_order (h : tcp_hdr) : tcp_hdr :=
  MkHdr (ntohs (th_src h)) (ntohs (th_dest h)) (ntohl (th_seqno h)) (ntohl (th_ackno h)) (th_offset_flags h)
    (ntohs (th_wnd h)) (th_chksum h) (th_urgp h).

(** The segment set up for a packet whose first buffer is [x] and others are [l]. *)
Definition input_seg (h : tcp_hdr) (x : list Z) (l : list (list Z)) : tcp_seg :=
  let off := Z.to_nat (Z.shiftr (TCPH_OFFSET h) 4 * 4) in
  let tot := Z.of_nat (length (concat (x :: l))) - Z.of_nat off in
  MkSeg (Some (MkPbufs (drop off x :: l) tot 0 1)) tot (host_order h) (take (off - 20) (drop 20 x)).

(** The connection a segment belongs to. *)
Definition matches (h : tcp_hdr) (src dst : Z) (p : pcb) : bool :=
  (remote_port p =? th_src h) && (local_port p =? th_dest h) && (remote_ip p =? src) && (local_ip p =? dst).
Definition hears (h : tcp_hdr) (dst : Z) (p : pcb) : bool :=
  ((local_ip p =? 0) || (local_ip p =? dst)) && (local_port p =? th_dest h).

Definition find_pcb (t : tcp) (f : pcb -> bool) (l : list Z) : option Z :=
  List.find (fun a => match pcbs t !! a with Some p => f p | None => false end) l.

(** Demultiplexing: active connections, those in TIME-WAIT, listening ones; the one
    found moves to the front of its list, but for TIME-WAIT. *)
Definition demux (t : tcp) (h : tcp_hdr) (src dst : Z) : option Z * tcp :=
  match find_pcb t (matches h src dst) (tcp_active_pcbs t) with
  | Some a => (Some a, set_active t (a :: list_del a (tcp_active_pcbs t)))
  | None =>
      match find_pcb t (matches h src dst) (tcp_tw_pcbs t) with
      | Some a => (Some a, t)
      | None =>
          match find_pcb t (hears h dst) (tcp_listen_pcbs t) with
          | Some a => (Some a, set_listen t (a :: list_del a (tcp_listen_pcbs t)))
          | None => (None, t)
          end
      end
  end.

(** Tell the application what the segment brought.  A connection without a receive
    function is closed at once when its peer is. *)
Definition notify (t : tcp) (a : Z) (p : pcb) : outcome tcp :=
  let w := tnet t in
  '(err, p, w) ← (if (0 <? acked p) && sent p then callback w p (EvSent (acked p)) else Ok (0, p, w));
  if recv p then
    '(err, p, w) ← (match recv_data p with Some b => callback w p (EvRecv b) | None => Ok (err, p, w) end);
    '(err, p, w) ← (if has (flags p) TF_GOT_FIN then callback w p EvFin else Ok (err, p, w));
    if err =? 0 then let '(_, p, w) := tcp_output w p in Ok (on_pcb t a (p, w)) else Ok (on_pcb t a (p, w))
  else
    let t := on_pcb t a (p, w) in
    '(_, t) ← (if has (flags p) TF_GOT_FIN then tcp_close t a else Ok (0, t));
    p ← getpcb t a;
    let '(_, p, w) := tcp_output (tnet t) p in Ok (on_pcb t a (p, w)).

(** What tcp_input does once tcp_process has returned. *)
Definition after_process (t : tcp) (a err : Z) : outcome tcp :=
  if err =? EFAULT then Ok t
  else
    p ← getpcb t a;
    if is_state (state p) LISTEN then Ok t
    else if has (flags p) TF_RESET then
      let t := if errf p then set_tnet t (tell (tnet t) (EvErr ECONNRESET)) else t in
      t ← tcp_pcb_remove t (if is_state (state p) TIME_WAIT then Tw else Active) a;
      Ok (pcb_free t a)
    else if has (flags p) TF_CLOSED then t ← tcp_pcb_remove t Active a; Ok (pcb_free t a)
    else if is_state (state p) TIME_WAIT then
      let '(_, p, w) := tcp_output (tnet t) p in Ok (on_pcb t a (p, w))
    else notify t a p.

(** pcb->flags &= ~TF_IN_RECV, also when the connection has been freed. *)
Definition leave_recv (t : tcp) (a : Z) : tcp :=
  match pcbs t !! a with
  | Some p => putpcb t a (set_flags (setoff (flags p) TF_IN_RECV) p)
  | None => add_stale t a
  end.

(** A segment in host order that passed the checks. *)
Definition segment_in (n : nat) (t : tcp) (s : tcp_seg) (src dst : Z) (inp : route) (na : Z) : outcome (Z * tcp) :=
  let h := seg_hdr s in
  let '(o, t) := demux t h src dst in
  match o with
  | Some a =>
      p ← getpcb t a;
      let p := if negb (is_state (state p) LISTEN) && negb (is_state (state p) TIME_WAIT)
               then set_acked 0 (set_recv_data None p) else p in
      let t := putpcb t a (set_flags (seton (flags p) TF_IN_RECV) p) in
      '(err, s, t) ← tcp_process n t s a src dst (rt_mtu inp) na;
      t ← after_process t a err;
      Ok (0, leave_recv t a)
  | None =>
      if has (TCPH_FLAGS h) TCP_RST then Ok (0, t)
      else
        Ok (0, set_tnet t (tcp_rst (tnet t) (th_ackno h) (u32 (th_seqno h + TCP_TCPLEN s)) dst src (th_dest h) (th_src h)))
  end.

(** The IP payload lies in the buffers [x] and [l]; [src] and [dst] are the addresses
    of its IP header, [inp] the interface.  [n] bounds the loop over the options.  The
    data offset is not checked: [Fault] where it leads behind the first buffer. *)
Definition tcp_input (n : nat) (t : tcp) (x : list Z) (l : list (list Z)) (src dst : Z) (inp : route) (na : Z) : outcome (Z * tcp) :=
  let bs := concat (x :: l) in
  if Z.of_nat (length bs) <? TCP_HLEN then Ok (EPROTO, t)
  else if ip_addr_isbroadcast dst (rt_mask inp) || ip_addr_ismulticast dst then Ok (0, t)
  else if negb (has (rt_flags inp) NETIF_TCP_RX_CHECKSUM_OFFLOAD) &&
          negb (rfc1071 (pseudo_bytes src dst IP_PROTO_TCP (Z.of_nat (length bs)) ++ bs) =? 0) then Ok (EFAULT, t)
  else
    h ← from_opt (read_hdr x);
    if Z.of_nat (length x) <? Z.shiftr (TCPH_OFFSET h) 4 * 4 then Fault
    else segment_in n t (input_seg h x l) src dst inp na.

(** ** Timers (net/tcp.c) *)

Definition tcp_backoff : list Z := [1; 2; 3; 4; 5; 6; 7; 7; 7; 7; 7; 7; 7].

(** The flags of the probe are not initialized, and its checksum is left 0 as
    CHECKSUM_GEN_TCP is not defined: [f] is what the memory held. *)
Definition tcp_keepalive (f : Z) (w : net) (p : pcb) : net :=
  let '(a, w) := alloc w in
  if negb a then w
  else
    let h := MkHdr (htons (local_port p)) (htons (remote_port p)) (htonl (u32 (snd_nxt p - 1))) (htonl (rcv_nxt p))
               (htons (Z.lor (Z.shiftl 5 12) f)) (htons (rcv_wnd p)) 0 0 in
    match ip_route w (remote_ip p) with
    | None => w
    | Some _ => snd (ip_output_if w (MkPkt (local_ip p) (remote_ip p) h [] []))
    end.

(** The retransmission timer. *)
Definition slow_rexmit (w : net) (p : pcb) : outcome (pcb * net) :=
  let p := set_rtime (s32 (rtime p + 1)) p in
  if negb (match unacked p with [] => true | _ => false end) && (rto p <=? rtime p) then
    p ← (if is_state (state p) SYN_SENT then Ok p
         else b ← aget tcp_backoff (nrtx p); Ok (set_rto (u16 (Z.shiftl (Z.shiftr (sa p) 3 + sv p) b)) p));
    let '(p, w) := tcp_rexmit w p in
    let eff_wnd := Z.min (cwnd p) (snd_wnd p) in
    let p := set_ssthresh (Z.shiftr eff_wnd 1) p in
    let p := if ssthresh p <? u32 (mss p) then set_ssthresh (u32 (mss p * 2)) p else p in
    Ok (set_cwnd (u32 (mss p)) p, w)
  else Ok (p, w).

(** Ticks since the last segment arrived. *)
Definition idle (w : net) (p : pcb) : Z := u32 (tcp_ticks w - tmr p).

(** One active connection: whether it goes on in the list, is removed, or was aborted.
    The code goes on to use a connection it has aborted, which was freed: [Fault] if it
    frees it again or calls its poll function; otherwise it counts the poll timer up,
    and as the link is NULL the walk ends. *)
Inductive slow_result := Kept | Removed | Aborted.

Definition slow_pcb (f : Z) (t : tcp) (a : Z) : outcome (slow_result * tcp) :=
  p ← getpcb t a;
  let w := tnet t in
  let abandon := (is_state (state p) SYN_SENT && (nrtx p =? TCP_SYNMAXRTX)) || (nrtx p =? TCP_MAXRTX) in
  '(p, w) ← (if abandon then Ok (p, w) else slow_rexmit w p);
  let gone := abandon || (is_state (state p) FIN_WAIT_2 && (TCP_FIN_WAIT_TIMEOUT / TCP_SLOW_INTERVAL <? idle w p)) in
  let t := on_pcb t a (p, w) in
  let probing := has (so_options p) SOF_KEEPALIVE && (is_state (state p) ESTABLISHED || is_state (state p) CLOSE_WAIT) in
  if probing && (u32 (keepalive p + TCP_MAXIDLE) / TCP_SLOW_INTERVAL <? idle w p) then
    t ← tcp_abort t a;
    if gone || ((pollinterval p <=? s32 (polltmr p + 1)) && poll p) then Fault else Ok (Aborted, add_stale t a)
  else
    let '(p, w) :=
      if probing && (u32 (keepalive p + keep_cnt p * TCP_KEEPINTVL) / TCP_SLOW_INTERVAL <? idle w p)
      then (set_keep_cnt (u8 (keep_cnt p + 1)) p, tcp_keepalive f w p) else (p, w) in
    let p := match ooseq p with
             | _ :: _ => if u32 (rto p * TCP_OOSEQ_TIMEOUT) <=? idle w p then set_ooseq [] p else p
             | [] => p
             end in
    let gone := gone || (is_state (state p) SYN_RCVD && (TCP_SYN_RCVD_TIMEOUT / TCP_SLOW_INTERVAL <? idle w p)) in
    if gone then
      let w := if errf p then tell w (EvErr EFAULT) else w in
      Ok (Removed, pcb_free (TCP_RMV (set_tnet t w) Active a) a)
    else
      let p := set_polltmr (s32 (polltmr p + 1)) p in
      if (pollinterval p <=? polltmr p) && poll p then
        '(_, p, w) ← callback w (set_polltmr 0 p) EvPoll;
        let '(_, p, w) := tcp_output w p in
        Ok (Kept, on_pcb t a (p, w))
      else Ok (Kept, on_pcb t a (p, w)).

Fixpoint slow_active (f : Z) (t : tcp) (l : list Z) : outcome tcp :=
  match l with
  | [] => Ok t
  | a :: l =>
      '(r, t) ← slow_pcb f t a;
      match r with Aborted => Ok t | _ => slow_active f t l end
  end.

Fixpoint slow_tw (t : tcp) (l : list Z) : outcome tcp :=
  match l with
  | [] => Ok t
  | a :: l =>
      p ← getpcb t a;
      slow_tw (if 2 * TCP_MSL_MSEC / TCP_SLOW_INTERVAL <? idle (tnet t) p then pcb_free (TCP_RMV t Tw a) a else t) l
  end.

Definition tick (t : tcp) : tcp :=
  let w := tnet t in
  set_tnet t (MkNet (u32 (tcp_ticks w + 1)) (ip_route w) (allocs w) (xmits w) (answers w) (out w) (told w)).

Definition tcp_slowtmr (f : Z) (t : tcp) : outcome tcp :=
  let t := tick t in
  t ← slow_active f t (tcp_active_pcbs t);
  slow_tw t (tcp_tw_pcbs t).

Definition fast_pcb (w : net) (p : pcb) : pcb * net :=
  if has (flags p) TF_ACK_DELAY then
    let '(_, p, w) := tcp_output w (set_flags (seton (flags p) TF_ACK_NOW) p) in
    (set_flags (setoff (flags p) (Z.lor TF_ACK_DELAY TF_ACK_NOW)) p, w)
  else (p, w).

Fixpoint fast_loop (t : tcp) (l : list Z) : outcome tcp :=
  match l with
  | [] => Ok t
  | a :: l => p ← getpcb t a; fast_loop (on_pcb t a (fast_pcb (tnet t) p)) l
  end.

Definition tcp_fasttmr (t : tcp) : outcome tcp := fast_loop t (tcp_active_pcbs t).

(** [timer]: the static tcp_timer. *)
Definition tcp_tmr (f : Z) (timer : Z) (t : tcp) : outcome (Z * tcp) :=
  t ← tcp_fasttmr t;
  let timer := u8 (timer + 1) in
  t ← (if has timer 1 then tcp_slowtmr f t else Ok t);
  Ok (timer, t).

Fixpoint rst_loop (t : tcp) (l : list Z) : outcome tcp :=
  match l with
  | [] => Ok t
  | a :: l =>
      p ← getpcb t a;
      rst_loop (set_tnet t (tcp_rst (tnet t) (snd_nxt p) (rcv_nxt p) (local_ip p) (remote_ip p) (local_port p) (remote_port p))) l
  end.

Definition tcp_shutdown (t : tcp) : outcome tcp := rst_loop t (tcp_active_pcbs t).
