(* ===== verification/TcpBase.v ===== *)
(** * Lemmas on TCP segments and connections

    Sequence numbers relative to the start of a stream, flags, the parts of a
    connection a function leaves alone, and the conversions of the header. *)

From S2P Require Import Prelude Inet Ether Tcp.

(** ** Fields after updates

    [pcb_simpl] evaluates the fields of updated connections. *)
Ltac pcb_eval f t :=
  eval cbn [f
    set_so_options set_state set_callback_arg set_accept set_local_ip set_local_port set_remote_ip set_remote_port
    set_rcv_nxt set_rcv_wnd set_tmr set_rtime set_mss set_flags set_rttest set_rtseq set_sa set_sv set_rto set_nrtx
    set_lastack set_dupacks set_cwnd set_ssthresh set_snd_nxt set_snd_max set_snd_wnd set_snd_wl1 set_snd_wl2
    set_snd_lbb set_snd_buf set_snd_queuelen set_sent set_acked set_recv set_recv_data set_connected set_poll
    set_errf set_polltmr set_pollinterval set_unsent set_unacked set_ooseq set_keepalive set_keep_cnt] in t.

Ltac pcb_field f g v p k :=
  lazymatch type of p with pcb => idtac end;
  lazymatch type of f with pcb -> _ => idtac end;
  let t := constr:(f (g v p)) in
  let r := pcb_eval f t in
  tryif constr_eq t r then fail else k t r.

Ltac pcb_simpl :=
  repeat match goal with |- context [?f (?g ?v ?p)] => pcb_field f g v p ltac:(fun t r => change t with r) end.

Ltac pcb_simpl_in H :=
  repeat match type of H with context [?f (?g ?v ?p)] => pcb_field f g v p ltac:(fun t r => change t with r in H) end.

(** ** Sequence numbers *)

(** The sequence number [x] places behind [b]. *)
Definition sq (b x : Z) : Z := u32 (b + x).

Lemma sq_range b x : 0 <= sq b x < 2 ^ 32.
Proof. apply u32_range. Qed.

Lemma sq_add b x n : u32 (sq b x + n) = sq b (x + n).
Proof. unfold sq, u32. rewrite Zplus_mod_idemp_l. f_equal. lia. Qed.

Lemma s32_u32_diff a b : - 2 ^ 31 <= a - b < 2 ^ 31 -> s32 (u32 a - u32 b) = a - b.
Proof.
  intros H. rewrite <- (s32_small (a - b)) by done. unfold s32, u32.
  by rewrite Zminus_mod_idemp_l, Zminus_mod_idemp_r.
Qed.

Lemma sq_diff b x y : - 2 ^ 31 <= x - y < 2 ^ 31 -> s32 (sq b x - sq b y) = x - y.
Proof. intros H. unfold sq. rewrite s32_u32_diff; lia. Qed.

Section SeqCompare.
Context (b x y : Z) (H : - 2 ^ 31 <= x - y < 2 ^ 31).

Lemma sq_lt : TCP_SEQ_LT (sq b x) (sq b y) = (x <? y).
Proof. unfold TCP_SEQ_LT. rewrite sq_diff by done. destruct (Z.ltb_spec x y); [apply Z.ltb_lt|apply Z.ltb_ge]; lia. Qed.
Lemma sq_leq : TCP_SEQ_LEQ (sq b x) (sq b y) = (x <=? y).
Proof. unfold TCP_SEQ_LEQ. rewrite sq_diff by done. destruct (Z.leb_spec x y); [apply Z.leb_le|apply Z.leb_gt]; lia. Qed.
Lemma sq_gt : TCP_SEQ_GT (sq b x) (sq b y) = (y <? x).
Proof. unfold TCP_SEQ_GT. rewrite sq_diff by done. destruct (Z.ltb_spec y x); [apply Z.ltb_lt|apply Z.ltb_ge]; lia. Qed.
Lemma sq_geq : TCP_SEQ_GEQ (sq b x) (sq b y) = (y <=? x).
Proof. unfold TCP_SEQ_GEQ. rewrite sq_diff by done. destruct (Z.leb_spec y x); [apply Z.leb_le|apply Z.leb_gt]; lia. Qed.
Lemma sq_eqb : (sq b x =? sq b y) = (x =? y).
Proof.
  destruct (Z.eqb_spec x y) as [->|Hne]; [apply Z.eqb_refl|]. apply Z.eqb_neq. intros E.
  pose proof (sq_diff b x y H) as D. rewrite E, Z.sub_diag in D. change (s32 0) with 0 in D. lia.
Qed.
End SeqCompare.

(** ** Flags *)

Lemma has_bit x k : 0 <= k -> has x (2 ^ k) = Z.testbit x k.
Proof.
  intros Hk. unfold has. destruct (Z.testbit x k) eqn:E.
  - apply negb_true_iff, Z.eqb_neq. intros H. assert (Z.testbit (Z.land x (2 ^ k)) k = true) as C; [|by rewrite H, Z.bits_0 in C].
    by rewrite Z.land_spec, E, Z.pow2_bits_true.
  - apply negb_false_iff, Z.eqb_eq, Z.bits_inj'. intros j Hj. rewrite Z.land_spec, Z.bits_0.
    destruct (decide (j = k)) as [->|]; [by rewrite E|]. rewrite Z.pow2_bits_false by done. apply andb_false_r.
Qed.

Lemma has_or x a b : has x (Z.lor a b) = has x a || has x b.
Proof.
  unfold has. rewrite Z.land_lor_distr_r. destruct (Z.eqb_spec (Z.land x a) 0) as [Ha|Ha], (Z.eqb_spec (Z.land x b) 0) as [Hb|Hb]; cbn.
  - by rewrite Ha, Hb.
  - rewrite Ha, Z.lor_0_l. by apply negb_true_iff, Z.eqb_neq.
  - rewrite Hb, Z.lor_0_r. by apply negb_true_iff, Z.eqb_neq.
  - apply negb_true_iff, Z.eqb_neq. rewrite Z.lor_eq_0_iff. tauto.
Qed.

(** ** Byte order *)

Lemma le16_ok x : bytes_ok (le16 x).
Proof. unfold le16. repeat (constructor; [apply Z.mod_pos_bound; lia|]). constructor. Qed.

Lemma le32_ok x : bytes_ok (le32 x).
Proof. apply Forall_app. split; apply le16_ok. Qed.

Lemma le16_val x : x mod 256 + 256 * (x / 256 mod 256) = u16 x.
Proof. unfold u16. change (2 ^ 16) with (256 * 256). rewrite Z.rem_mul_r by lia. lia. Qed.

Lemma le32_val x : u16 x + 65536 * u16 (x / 65536) = u32 x.
Proof. unfold u16, u32. change (2 ^ 32) with (65536 * 65536). change (2 ^ 16) with 65536. rewrite Z.rem_mul_r by lia. lia. Qed.

Lemma htons_range n : 0 <= n < 65536 -> 0 <= htons n < 65536.
Proof.
  intros Hn. rewrite htons_val by done. pose proof (Z.mod_pos_bound n 256 ltac:(lia)).
  assert (0 <= n / 256 < 256) by (split; [apply Z.div_pos; lia|apply Z.div_lt_upper_bound; lia]). lia.
Qed.

Lemma land_ones_shift x k j : 0 <= k -> 0 <= j -> Z.land x (Z.shiftl (Z.ones k) j) = Z.shiftl (Z.land (Z.shiftr x j) (Z.ones k)) j.
Proof.
  intros Hk Hj. apply Z.bits_inj'. intros i Hi. rewrite Z.land_spec, !Z.shiftl_spec, Z.land_spec by lia.
  destruct (decide (j <= i)).
  - rewrite Z.shiftr_spec by lia. by replace (i - j + j) with i by lia.
  - rewrite !(Z.testbit_neg_r _ (i - j)) by lia. by rewrite !andb_false_r.
Qed.

(** htonl in terms of the four bytes. *)
Lemma htonl_bytes b0 b1 b2 b3 : 0 <= b0 < 256 -> 0 <= b1 < 256 -> 0 <= b2 < 256 -> 0 <= b3 < 256 ->
  htonl (b3 * 2 ^ 24 + b2 * 2 ^ 16 + b1 * 2 ^ 8 + b0) = b0 * 2 ^ 24 + b1 * 2 ^ 16 + b2 * 2 ^ 8 + b3.
Proof.
  intros H0 H1 H2 H3. set (n := b3 * 2 ^ 24 + b2 * 2 ^ 16 + b1 * 2 ^ 8 + b0).
  assert (forall j c, 0 <= j -> n / 2 ^ j = c -> Z.land n (Z.shiftl (Z.ones 8) j) = (c mod 256) * 2 ^ j) as Hb.
  { intros j c Hj E. rewrite land_ones_shift by lia. rewrite Z.land_ones, Z.shiftl_mul_pow2, Z.shiftr_div_pow2 by lia. by rewrite E. }
  assert (n / 2 ^ 0 = n /\ n / 2 ^ 8 = b3 * 2 ^ 16 + b2 * 2 ^ 8 + b1 /\ n / 2 ^ 16 = b3 * 2 ^ 8 + b2 /\ n / 2 ^ 24 = b3) as (E0 & E1 & E2 & E3).
  { subst n. split_and!; [apply Z.div_1_r|..]; symmetry; [apply (Z.div_unique _ _ _ b0)|apply (Z.div_unique _ _ _ (b1 * 2 ^ 8 + b0))|
      apply (Z.div_unique _ _ _ (b2 * 2 ^ 16 + b1 * 2 ^ 8 + b0))]; lia. }
  assert (forall x y, 0 <= y < 256 -> (x * 256 + y) mod 256 = y) as Hm.
  { intros x y Hy. rewrite Z.add_comm, Z.mod_add by lia. by apply Z.mod_small. }
  unfold htonl.
  change 255 with (Z.shiftl (Z.ones 8) 0). change 65280 with (Z.shiftl (Z.ones 8) 8).
  change 16711680 with (Z.shiftl (Z.ones 8) 16). change 4278190080 with (Z.shiftl (Z.ones 8) 24).
  rewrite (Hb 0 _ ltac:(lia) E0), (Hb 8 _ ltac:(lia) E1), (Hb 16 _ ltac:(lia) E2), (Hb 24 _ ltac:(lia) E3).
  assert (n mod 256 = b0) as -> by (subst n; rewrite <- (Hm (b3 * 2 ^ 16 + b2 * 2 ^ 8 + b1) b0) at 2 by done; f_equal; lia).
  assert ((b3 * 2 ^ 16 + b2 * 2 ^ 8 + b1) mod 256 = b1) as -> by (rewrite <- (Hm (b3 * 2 ^ 8 + b2) b1) at 2 by done; f_equal; lia).
  assert ((b3 * 2 ^ 8 + b2) mod 256 = b2) as -> by (rewrite <- (Hm b3 b2) at 2 by done; f_equal; lia).
  rewrite (Z.mod_small b3) by lia. rewrite !Z.shiftl_mul_pow2, !Z.shiftr_div_pow2 by lia.
  replace (b2 * 2 ^ 16 / 2 ^ 8) with (b2 * 2 ^ 8) by (apply (Z.div_unique _ _ _ 0); lia).
  rewrite Z.div_mul by lia. replace (b0 * 2 ^ 0 * 2 ^ 24) with (b0 * 2 ^ 24) by lia.
  replace (b1 * 2 ^ 8 * 2 ^ 8) with (b1 * 2 ^ 16) by lia. by apply lor_four_bytes.
Qed.

Lemma le32_bytes_eq n : 0 <= n < 2 ^ 32 -> exists b0 b1 b2 b3, 0 <= b0 < 256 /\ 0 <= b1 < 256 /\ 0 <= b2 < 256 /\ 0 <= b3 < 256 /\
  n = b3 * 2 ^ 24 + b2 * 2 ^ 16 + b1 * 2 ^ 8 + b0.
Proof.
  intros Hn. exists (n mod 256), (n / 256 mod 256), (n / 65536 mod 256), (n / 16777216).
  split_and!; try (apply Z.mod_pos_bound; lia); [apply Z.div_pos; lia|apply Z.div_lt_upper_bound; lia|].
  pose proof (Z.div_mod n 256 ltac:(lia)). pose proof (Z.div_mod (n / 256) 256 ltac:(lia)).
  pose proof (Z.div_mod (n / 65536) 256 ltac:(lia)). rewrite !Z.div_div in * by lia.
  change (256 * 256) with 65536 in *. change (65536 * 256) with 16777216 in *. lia.
Qed.

Lemma htonl_range n : 0 <= n < 2 ^ 32 -> 0 <= htonl n < 2 ^ 32.
Proof. intros (b0 & b1 & b2 & b3 & ? & ? & ? & ? & ->)%le32_bytes_eq. rewrite htonl_bytes by done. lia. Qed.

Lemma ntohl_htonl n : 0 <= n < 2 ^ 32 -> ntohl (htonl n) = n.
Proof.
  intros (b0 & b1 & b2 & b3 & ? & ? & ? & ? & ->)%le32_bytes_eq. change ntohl with htonl. rewrite (htonl_bytes b0) by done.
  by rewrite htonl_bytes.
Qed.

(** ** What sending and acknowledging leave alone *)

(** The fields that the processing of an acknowledgement does not write. *)
Definition ack_keep (p : pcb) :=
  (so_options p, state p, callback_arg p, accept p, local_port p, remote_ip p, remote_port p, rcv_nxt p, rcv_wnd p, tmr p, mss p,
   snd_lbb p, (sent p, recv p, recv_data p, connected p, poll p, errf p, pollinterval p, ooseq p, keepalive p, keep_cnt p)).

(** Those that tcp_output does not write either. *)
Definition out_keep (p : pcb) :=
  (ack_keep p, (nrtx p, (snd_wnd p, snd_wl1 p, snd_wl2 p, acked p, dupacks p, ssthresh p, cwnd p, rto p,
   (snd_buf p, lastack p, snd_queuelen p, polltmr p, sa p, sv p)))).

Definition ack_frame (p p' : pcb) : Prop := ack_keep p' = ack_keep p.
Definition out_frame (p p' : pcb) : Prop := out_keep p' = out_keep p.

#[global] Instance ack_frame_preorder : PreOrder ack_frame.
Proof. split; [done|]. unfold ack_frame. intros p q r Hq Hr. congruence. Qed.
#[global] Instance out_frame_preorder : PreOrder out_frame.
Proof. split; [done|]. unfold out_frame. intros p q r Hq Hr. congruence. Qed.

Lemma out_ack_frame p p' : out_frame p p' -> ack_frame p p'.
Proof. apply (f_equal fst). Qed.

Ltac frame := reflexivity.

Lemma output_segment_frame w s p s' p' w' : tcp_output_segment w s p = (s', p', w') -> out_frame p p'.
Proof.
  unfold tcp_output_segment. case_match; [intros; simplify_eq; done|]. case_match; [|intros; simplify_eq; done].
  destruct (ip_output_if _ _) as [rc w1]. intros. simplify_eq. repeat case_match; frame.
Qed.

(** A segment that was sent is the same but for its header and the references. *)
Lemma output_segment_seg w s p s' p' w' : tcp_output_segment w s p = (s', p', w') ->
  seg_len s' = seg_len s /\ seg_bytes s' = seg_bytes s /\ seg_clen s' = seg_clen s /\ seg_opts s' = seg_opts s /\
  th_seqno (seg_hdr s') = th_seqno (seg_hdr s) /\ th_offset_flags (seg_hdr s') = th_offset_flags (seg_hdr s) /\
  th_src (seg_hdr s') = th_src (seg_hdr s) /\ th_dest (seg_hdr s') = th_dest (seg_hdr s).
Proof.
  unfold tcp_output_segment. case_match; [intros; simplify_eq; done|]. case_match; [|intros; simplify_eq; done].
  destruct (ip_output_if _ _) as [rc w1]. intros. simplify_eq. unfold set_ref, seg_bytes, seg_clen, with_chksum.
  repeat case_match; simplify_eq; cbn in *; simplify_eq; done.
Qed.

Lemma output_loop_frame wnd l : forall w p p' w', output_loop wnd l w p = (p', w') -> out_frame p p'.
Proof.
  induction l as [|s l IH]; intros w p p' w'; cbn [output_loop]; [intros; by simplify_eq|].
  case_match; [|intros; by simplify_eq]. cbv zeta.
  destruct (is_state _ SYN_SENT); destruct (TCP_SEQ_LT _ _); destruct (tcp_output_segment _ _ _) as [[s' p1] w1] eqn:E1;
    apply output_segment_frame in E1; intros E2; apply IH in E2; (transitivity p1; [refine (transitivity _ E1); frame|]);
    (etransitivity; [|exact E2]); case_match; frame.
Qed.

Lemma tcp_output_frame w p rc p' w' : tcp_output w p = (rc, p', w') -> out_frame p p'.
Proof.
  unfold tcp_output. destruct (output_loop _ _ _ _) as [p1 w1] eqn:E. apply output_loop_frame in E. case_match.
  - destruct (tcp_send_ack _ _). intros. simplify_eq. etransitivity; [exact E|]. frame.
  - intros. by simplify_eq.
Qed.

Lemma tcp_rexmit_frame w p p' w' : tcp_rexmit w p = (p', w') -> out_frame (set_nrtx (nrtx p') p) p'.
Proof.
  unfold tcp_rexmit. case_match; [intros; simplify_eq; frame|].
  destruct (tcp_output _ _) as [[rc p1] w1] eqn:E. intros. simplify_eq. apply tcp_output_frame in E.
  pose proof (f_equal (fun x => fst (snd x)) E) as En. cbn in En. unfold out_frame. rewrite En. exact E.
Qed.

Lemma update_window_frame h p : ack_frame p (update_window h p).
Proof. unfold update_window. case_match; frame. Qed.

Lemma inflate_frame p : ack_frame p (inflate p).
Proof. unfold inflate. case_match; frame. Qed.

Lemma free_unacked_frame a l : forall p, ack_frame p (free_unacked a l p).
Proof.
  induction l as [|s l IH]; intros p; cbn [free_unacked]; [done|]. case_match; [|done].
  etransitivity; [|apply IH]. frame.
Qed.

Lemma free_unsent_frame a l : forall p, ack_frame p (free_unsent a l p).
Proof.
  induction l as [|s l IH]; intros p; cbn [free_unsent]; [done|]. case_match; [|done]. cbv zeta.
  etransitivity; [|apply IH]. case_match; frame.
Qed.

Lemma grow_cwnd_frame p p' : grow_cwnd p = Ok p' -> ack_frame p p'.
Proof.
  unfold grow_cwnd. repeat case_match; intros; simplify_eq; [apply inflate_frame|frame|done|done].
Qed.

Lemma new_ack_frame a p p' : new_ack a p = Ok p' -> ack_frame p p'.
Proof.
  unfold new_ack. intros H. apply bind_Ok_inv in H as (p1 & Hg & H). apply grow_cwnd_frame in Hg. simplify_eq.
  etransitivity; [|apply free_unsent_frame]. transitivity (free_unacked a (unacked p1) p1); [|frame].
  etransitivity; [|apply free_unacked_frame]. etransitivity; [|exact Hg]. unfold count_acked. cbv zeta. case_match; frame.
Qed.

Lemma dup_ack_frame w e p p' w' : dup_ack w e p = (p', w') -> ack_frame p p'.
Proof.
  unfold dup_ack. cbv zeta. destruct (_ =? e); [|intros; simplify_eq; frame].
  destruct ((3 <=? _) && _ && _); [|intros; simplify_eq; frame].
  destruct (negb _); [|intros; simplify_eq; etransitivity; [|apply inflate_frame]; frame].
  destruct (tcp_rexmit _ _) as [p1 w1] eqn:E. apply tcp_rexmit_frame, out_ack_frame in E. intros. simplify_eq.
  transitivity p1; [|frame]. etransitivity; [|exact E]. frame.
Qed.

Lemma estimate_rtt_frame t a p : ack_frame p (estimate_rtt t a p).
Proof. unfold estimate_rtt. case_match; [|done]. cbv zeta. frame. Qed.

Lemma receive_ack_frame w h p p' w' : receive_ack w h p = Ok (p', w') -> ack_frame p p'.
Proof.
  unfold receive_ack. cbv zeta. intros H. apply bind_Ok_inv in H as ([p1 w1] & Hm & H). simplify_eq.
  etransitivity; [|apply estimate_rtt_frame]. transitivity (update_window h p); [apply update_window_frame|].
  case_match; [simplify_eq; eapply dup_ack_frame; done|]. case_match; [|by simplify_eq].
  apply bind_Ok_inv in Hm as (p2 & Hn & Hm). simplify_eq. by eapply new_ack_frame.
Qed.

(** The equations of the fields that are kept. *)
Ltac kept H :=
  let E := fresh in pose proof H as E; unfold out_frame, ack_frame, out_keep, ack_keep in E; injection E; clear E; intros.

(** ** Congestion control *)

Definition cong_ok (p : pcb) : Prop := 0 < mss p <= 65535 /\ 0 < cwnd p < 2 ^ 32 /\ 0 < ssthresh p < 2 ^ 32.

Lemma inflate_cong p : cong_ok p -> cong_ok (inflate p).
Proof.
  unfold inflate. intros (Hm & Hc & Hs). destruct (Z.ltb_spec (cwnd p) (u16 (cwnd p + mss p))) as [Hl|]; [|done].
  pose proof (u16_range (cwnd p + mss p)). unfold cong_ok. pcb_simpl. rewrite u32_small by lia. lia.
Qed.

Lemma grow_cwnd_cong p : cong_ok p -> exists p', grow_cwnd p = Ok p' /\ cong_ok p'.
Proof.
  intros H. unfold grow_cwnd. destruct (4 <=? _); [|by exists p]. destruct (_ <? ssthresh p); [eexists; split; [done|by apply inflate_cong]|].
  destruct H as (Hm & Hc & Hs). destruct (Z.eqb_spec (cwnd p) 0); [lia|]. eexists. split; [done|]. cbv zeta.
  set (c := u16 _). pose proof (u16_range (cwnd p + mss p * mss p / cwnd p)) as Hr. fold c in Hr.
  destruct (Z.ltb_spec (cwnd p) c); [|done]. unfold cong_ok. pcb_simpl. lia.
Qed.

Lemma free_unacked_cong a l : forall p, cong_ok p -> cong_ok (free_unacked a l p).
Proof. induction l as [|s l IH]; intros p H; cbn [free_unacked]; [done|]. case_match; [|done]. by apply IH. Qed.

Lemma free_unsent_cong a l : forall p, cong_ok p -> cong_ok (free_unsent a l p).
Proof. induction l as [|s l IH]; intros p H; cbn [free_unsent]; [done|]. case_match; [|done]. apply IH. by case_match. Qed.

Lemma new_ack_cong a p : cong_ok p -> exists p', new_ack a p = Ok p' /\ cong_ok p'.
Proof.
  intros H. unfold new_ack. destruct (grow_cwnd_cong (count_acked a p)) as (p1 & -> & H1).
  { destruct H as (? & ? & ?). unfold count_acked. cbv zeta. case_match; unfold cong_ok; pcb_simpl; lia. }
  cbn [mbind outcome_bind]. eexists. split; [done|]. apply free_unsent_cong.
  assert (cong_ok (free_unacked a (unacked p1) p1)) as H2 by by apply free_unacked_cong. exact H2.
Qed.

Lemma dup_ack_cong w e p p' w' : cong_ok p -> dup_ack w e p = (p', w') -> cong_ok p'.
Proof.
  intros H. unfold dup_ack. cbv zeta. destruct (_ =? e); [|intros; by simplify_eq].
  destruct ((3 <=? _) && _ && _); [|intros; by simplify_eq].
  destruct (negb _); [|intros; simplify_eq; by apply inflate_cong].
  destruct (tcp_rexmit _ _) as [p1 w1] eqn:E. apply tcp_rexmit_frame in E. intros. simplify_eq. kept E.
  assert (mss p1 = mss p) as Em by done. destruct H as (Hm & _). unfold cong_ok. pcb_simpl. rewrite Em.
  pose proof (u32_range (snd_max p1 - lastack p1)). assert (0 <= u32 (snd_max p1 - lastack p1) / 2 < 2 ^ 31)
    by (split; [apply Z.div_pos|apply Z.div_lt_upper_bound]; lia).
  rewrite (u32_small (2 * mss p)) by lia. rewrite u32_small by lia. lia.
Qed.

Lemma receive_ack_ok w h p : cong_ok p -> exists p' w', receive_ack w h p = Ok (p', w') /\ cong_ok p'.
Proof.
  intros H. unfold receive_ack. cbv zeta. assert (cong_ok (update_window h p)) as Hu by (unfold update_window; by case_match).
  assert (forall t a q, cong_ok q -> cong_ok (estimate_rtt t a q)) as Hr by (intros t a q Hq; unfold estimate_rtt; by case_match).
  destruct (lastack _ =? _); [|destruct (TCP_SEQ_LT _ _ && _)].
  - destruct (dup_ack _ _ _) as [p1 w1] eqn:E. apply dup_ack_cong in E; [|done]. cbn [mbind outcome_bind]. eauto.
  - destruct (new_ack_cong (th_ackno h) (update_window h p) Hu) as (p1 & -> & H1). cbn [mbind outcome_bind]. eauto.
  - cbn [mbind outcome_bind]. eauto.
Qed.

(** ** What the processing of data leaves alone *)

Definition data_keep (p : pcb) :=
  (so_options p, state p, callback_arg p, accept p, local_ip p, local_port p, remote_ip p, remote_port p, tmr p, rtime p, mss p, rttest p, rtseq p,
   (sa p, sv p, rto p, nrtx p, lastack p, dupacks p, cwnd p, ssthresh p, snd_nxt p, snd_max p, snd_wnd p, snd_wl1 p, snd_wl2 p, snd_lbb p,
    (snd_buf p, snd_queuelen p, sent p, acked p, recv p, connected p, poll p, errf p, polltmr p, pollinterval p, unsent p, unacked p,
     keepalive p, keep_cnt p))).

Definition data_frame (p p' : pcb) : Prop := data_keep p' = data_keep p.

#[global] Instance data_frame_preorder : PreOrder data_frame.
Proof. split; [done|]. unfold data_frame. intros p q r Hq Hr. congruence. Qed.

Lemma note_fin_frame s p : data_frame p (note_fin s p).
Proof. unfold note_fin. case_match; frame. Qed.

Lemma dequeue_frame l : forall p p', dequeue l p = Ok p' -> data_frame p p'.
Proof.
  induction l as [|c l IH]; intros p p' H; cbn [dequeue] in H; [by simplify_eq|]. case_match; [|by simplify_eq].
  apply bind_Ok_inv in H as (b & _ & H). apply bind_Ok_inv in H as (p1 & H1 & H). apply IH in H. etransitivity; [|exact H].
  assert (data_frame p p1) as Hp1; [|etransitivity; [exact Hp1|]; etransitivity; [apply (note_fin_frame c)|frame]].
  destruct (0 <? tot_len b); [|simplify_eq; frame]. apply bind_Ok_inv in H1 as (r & _ & H1). simplify_eq. frame.
Qed.

Lemma in_sequence_frame s p s' p' : in_sequence s p = Ok (s', p') -> data_frame p p'.
Proof.
  unfold in_sequence. intros H. apply bind_Ok_inv in H as (s1 & _ & H). cbv zeta in H. apply bind_Ok_inv in H as (b & _ & H).
  assert (exists s2 p1, (if 0 <? tot_len b then (set_seg_p s1 None, set_recv_data (Some b) (advance s1 p)) else (s1, advance s1 p)) = (s2, p1) /\
    data_frame p p1) as (s2 & p1 & E & Hp1) by (destruct (0 <? tot_len b); eexists _, _; split; [done|frame|done|frame]).
  rewrite E in H. apply bind_Ok_inv in H as (p2 & H2 & H). apply dequeue_frame in H2.
  pose proof (note_fin_frame s2 p1) as Hn. simplify_eq. etransitivity; [exact Hp1|]. etransitivity; [exact Hn|].
  etransitivity; [exact H2|frame].
Qed.

Lemma out_of_sequence_frame w s p s' p' w' : out_of_sequence w s p = Ok (s', p', w') -> data_frame p p'.
Proof.
  unfold out_of_sequence. cbv zeta. destruct (ooseq _) as [|o l].
  - destruct (alloc w) as [a w1]. destruct a; intros; simplify_eq; frame.
  - intros H. apply bind_Ok_inv in H as ([[l' s1] w1] & _ & H). simplify_eq. frame.
Qed.

Lemma receive_data_frame w s p s' p' w' : receive_data w s p = Ok (s', p', w') -> data_frame p p'.
Proof.
  unfold receive_data. cbv zeta. destruct (0 <? TCP_TCPLEN s); [|intros; simplify_eq; case_match; frame].
  intros H. apply bind_Ok_inv in H as ([s1 p1] & H1 & H). assert (data_frame p p1) as Hp1.
  { destruct (TCP_SEQ_LT _ _); [|by simplify_eq]. destruct (TCP_SEQ_LT _ _); [|simplify_eq; frame].
    apply bind_Ok_inv in H1 as (s2 & _ & H1). by simplify_eq. }
  etransitivity; [exact Hp1|]. destruct (_ && _); [|by simplify_eq]. destruct (_ =? _).
  - apply bind_Ok_inv in H as ([s2 p2] & H2 & H). simplify_eq. by eapply in_sequence_frame.
  - by eapply out_of_sequence_frame.
Qed.

(** ** The offset and flags word *)

(** The header says offset [o] and flags [f]. *)
Definition of_ok (h : tcp_hdr) (o f : Z) : Prop :=
  0 <= o < 256 /\ 0 <= f < 256 /\ th_offset_flags h = htons (o * 256 + f).

Lemma lor_range k x y : 0 <= k -> 0 <= x < 2 ^ k -> 0 <= y < 2 ^ k -> 0 <= Z.lor x y < 2 ^ k.
Proof.
  intros Hk Hx Hy. split; [apply Z.lor_nonneg; lia|]. destruct (decide (Z.lor x y = 0)) as [->|Hn]; [lia|].
  apply Z.log2_lt_pow2; [pose proof (proj2 (Z.lor_nonneg x y)); lia|]. rewrite Z.log2_lor by lia.
  assert (forall a, 0 <= a < 2 ^ k -> Z.log2 a < k \/ a = 0) as Hl.
  { intros a Ha. destruct (decide (a = 0)); [by right|left; apply Z.log2_lt_pow2; lia]. }
  pose proof (Z.log2_nonneg x). pose proof (Z.log2_nonneg y).
  destruct (Hl x Hx) as [?| ->], (Hl y Hy) as [?| ->]; change (Z.log2 0) with 0 in *; try lia. by rewrite Z.lor_0_l in Hn.
Qed.

Lemma lor_shift8 o f : 0 <= o < 256 -> 0 <= f < 256 -> Z.lor (Z.shiftl o 8) f = o * 256 + f.
Proof. intros Ho Hf. rewrite Z.lor_comm, lor_bytes by done. lia. Qed.

Lemma of_flags h o f : of_ok h o f -> TCPH_FLAGS h = f.
Proof.
  intros (Ho & Hf & E). unfold TCPH_FLAGS. rewrite E, ntohs_htons by lia. change 255 with (Z.ones 8). rewrite Z.land_ones by lia.
  change (2 ^ 8) with 256. rewrite Z.add_comm, Z.mod_add by lia. by apply Z.mod_small.
Qed.

Lemma of_offset h o f : of_ok h o f -> TCPH_OFFSET h = o.
Proof.
  intros (Ho & Hf & E). unfold TCPH_OFFSET. rewrite E, ntohs_htons by lia. rewrite Z.shiftr_div_pow2 by lia. change (2 ^ 8) with 256.
  rewrite Z.add_comm, Z.div_add by lia. rewrite Z.div_small by lia. lia.
Qed.

Lemma of_set_flags h o f f' : of_ok h o f -> 0 <= f' < 256 -> of_ok (TCPH_FLAGS_SET h f') o f'.
Proof.
  intros H Hf'. split_and!; try lia; try apply H. unfold TCPH_FLAGS_SET. cbn [th_offset_flags set_offset_flags].
  rewrite (of_offset _ _ _ H), lor_shift8; try done. apply H.
Qed.

Lemma of_set_offset h o f o' : of_ok h o f -> 0 <= o' < 256 -> of_ok (TCPH_OFFSET_SET h o') o' f.
Proof.
  intros H Ho'. destruct (H) as (_ & Hf & _). split_and!; try lia. unfold TCPH_OFFSET_SET. cbn [th_offset_flags set_offset_flags].
  rewrite (of_flags _ _ _ H). by rewrite lor_shift8.
Qed.

Lemma has_lor x m b : Z.land m b = 0 -> has (Z.lor x m) b = has x b.
Proof. intros H. unfold has. by rewrite Z.land_lor_distr_l, H, Z.lor_0_r. Qed.

(** ** Queues and counters *)

(** The fields of [sinv] that the loops over the queues leave alone. *)
Definition fkeep (p : pcb) := (local_port p, remote_port p, mss p, snd_lbb p, lastack p, snd_max p, state p).

Lemma out_frame_nxt p p' : out_frame p p' -> rcv_nxt p' = rcv_nxt p.
Proof. intros H. by kept H. Qed.

Lemma alloc_out w : out (snd (alloc w)) = out w.
Proof. done. Qed.

Lemma output_segment_queues w s p s' p' w' : tcp_output_segment w s p = (s', p', w') ->
  unsent p' = unsent p /\ unacked p' = unacked p /\ snd_nxt p' = snd_nxt p /\ snd_max p' = snd_max p /\ flags p' = flags p.
Proof.
  unfold tcp_output_segment. case_match; [intros; simplify_eq; done|]. case_match; [|intros; simplify_eq; done].
  destruct (ip_output_if _ _) as [rc w1]. intros. simplify_eq. repeat case_match; done.
Qed.

Lemma free_unacked_spec a l : forall p, unacked p = l -> exists l1 l2, l = l1 ++ l2 /\ unacked (free_unacked a l p) = l2 /\
  (forall s, head l2 = Some s -> all_acked a s = false) /\ fkeep (free_unacked a l p) = fkeep p /\
  unsent (free_unacked a l p) = unsent p /\ snd_nxt (free_unacked a l p) = snd_nxt p.
Proof.
  induction l as [|s l IH]; intros p El; cbn [free_unacked]; [by exists [], []|]. destruct (all_acked a s) eqn:Es.
  - destruct (IH (set_snd_queuelen (u16 (snd_queuelen p - seg_clen s)) (set_unacked l p)) eq_refl) as (l1 & l2 & -> & H).
    exists (s :: l1), l2. by split.
  - exists [], (s :: l). split_and!; try done. intros ? [= <-]. done.
Qed.

Lemma free_unsent_spec a l : forall p, unsent p = l -> exists l1 l2, l = l1 ++ l2 /\ unsent (free_unsent a l p) = l2 /\
  Forall (fun s => all_acked a s = true) l1 /\ fkeep (free_unsent a l p) = fkeep p /\
  unacked (free_unsent a l p) = unacked p /\
  (snd_nxt (free_unsent a l p) = snd_nxt p \/ exists s, s ∈ l /\ snd_nxt (free_unsent a l p) = oseq s).
Proof.
  induction l as [|s l IH]; intros p El; cbn [free_unsent]; [exists [], []; split_and!; try done; by left|].
  destruct (all_acked a s) eqn:Es; [|exists [], (s :: l); split_and!; try done; by left]. cbv zeta.
  set (q := match l with [] => _ | _ => _ end).
  assert (unsent q = l /\ unacked q = unacked p /\ fkeep q = fkeep p /\
    (snd_nxt q = snd_nxt p \/ exists s', s' ∈ l /\ snd_nxt q = oseq s')) as (U & A & K & N).
  { subst q. destruct l as [|s' l]; split_and!; try done; [by left|right]. exists s'. split; [apply elem_of_cons; by left|done]. }
  clearbody q. destruct (IH q U) as (l1 & l2 & -> & H1 & H2 & H3 & H4 & H5).
  exists (s :: l1), l2. split_and!; try done; try congruence; [by constructor|].
  destruct H5 as [->|(s' & ? & ->)]; [|right; set_solver]. destruct N as [->|(s' & ? & ->)]; [by left|right; set_solver].
Qed.

Lemma grow_cwnd_keep p p' : grow_cwnd p = Ok p' ->
  fkeep p' = fkeep p /\ unacked p' = unacked p /\ unsent p' = unsent p /\ snd_nxt p' = snd_nxt p.
Proof. unfold grow_cwnd, inflate. repeat case_match; intros; simplify_eq; done. Qed.

Lemma fkeep_inv p p' : fkeep p' = fkeep p -> local_port p' = local_port p /\ remote_port p' = remote_port p /\ mss p' = mss p /\
  snd_lbb p' = snd_lbb p /\ lastack p' = lastack p /\ snd_max p' = snd_max p /\ state p' = state p.
Proof. unfold fkeep. intros H. injection H. done. Qed.

Lemma fkeep_lastack v p p' : fkeep p' = fkeep p -> fkeep (set_lastack v p') = fkeep (set_lastack v p).
Proof. intros H. apply fkeep_inv in H. unfold fkeep. pcb_simpl. destruct H as (? & ? & ? & ? & ? & ? & ?). congruence. Qed.

Lemma fkeep_lastack_inv v p p' : fkeep (set_lastack v p') = fkeep p -> local_port p' = local_port p /\ remote_port p' = remote_port p /\
  mss p' = mss p /\ snd_lbb p' = snd_lbb p /\ snd_max p' = snd_max p /\ state p' = state p.
Proof. intros H. apply fkeep_inv in H. pcb_simpl_in H. tauto. Qed.

Ltac fkept H := destruct (fkeep_inv _ _ H) as (? & ? & ? & ? & ? & ? & ?).

Lemma count_acked_keep a p : lastack (count_acked a p) = a /\ fkeep (set_lastack (lastack p) (count_acked a p)) = fkeep p /\
  unacked (count_acked a p) = unacked p /\ unsent (count_acked a p) = unsent p /\ snd_nxt (count_acked a p) = snd_nxt p.
Proof. unfold count_acked. cbv zeta. destruct (has (flags p) TF_INFR); done. Qed.

Lemma polltmr_keep v p : unacked (set_polltmr v p) = unacked p /\ fkeep (set_polltmr v p) = fkeep p /\
  unsent (set_polltmr v p) = unsent p /\ snd_nxt (set_polltmr v p) = snd_nxt p.
Proof. done. Qed.

(** A prefix of each queue is dropped. *)
Lemma new_ack_spec a p p' : new_ack a p = Ok p' -> exists u1 u2 s1 s2, unacked p = u1 ++ u2 /\ unsent p = s1 ++ s2 /\
  unacked p' = u2 /\ unsent p' = s2 /\ (forall s, head u2 = Some s -> all_acked a s = false) /\
  Forall (fun s => all_acked a s = true) s1 /\ lastack p' = a /\ fkeep (set_lastack (lastack p) p') = fkeep p /\
  (snd_nxt p' = snd_nxt p \/ exists s, s ∈ unsent p /\ snd_nxt p' = oseq s).
Proof.
  unfold new_ack. intros (p1 & Hg & H)%bind_Ok_inv. destruct (count_acked_keep a p) as (L0 & K0 & A0 & U0 & N0).
  revert Hg K0 L0 A0 U0 N0. generalize (count_acked a p). intros p0 Hg K0 L0 A0 U0 N0.
  destruct (grow_cwnd_keep _ _ Hg) as (K1 & A1 & U1 & N1).
  destruct (free_unacked_spec a (unacked p1) p1 eq_refl) as (u1 & u2 & Eu & A2 & Hu & K2 & U2 & N2).
  cbv zeta in H. revert H A2 K2 U2 N2. generalize (free_unacked a (unacked p1) p1). intros p2 H A2 K2 U2 N2.
  destruct (polltmr_keep 0 p2) as (A2' & K2' & U2' & N2'). revert H A2' K2' U2' N2'. generalize (set_polltmr 0 p2). intros p3 H A2' K2' U2' N2'.
  destruct (free_unsent_spec a (unsent p3) p3 eq_refl) as (s1 & s2 & Es & U3 & Hs & K3 & A3 & N3).
  injection H as H. revert H U3 K3 A3 N3. generalize (free_unsent a (unsent p3) p3). intros p4 <- U3 K3 A3 N3.
  exists u1, u2, s1, s2. rewrite K2', K2, K1 in K3. clear K1 K2 K2'.
  split_and!; try done; try congruence.
  - fkept K3. congruence.
  - rewrite <- K0. by apply fkeep_lastack.
  - destruct N3 as [N3|(s & Hin & N3)]; [left; congruence|right]. exists s. split; [congruence|done].
Qed.

Lemma update_window_keep h p : fkeep (update_window h p) = fkeep p /\ unacked (update_window h p) = unacked p /\
  unsent (update_window h p) = unsent p /\ snd_nxt (update_window h p) = snd_nxt p /\ rcv_nxt (update_window h p) = rcv_nxt p.
Proof. unfold update_window. case_match; done. Qed.

Lemma estimate_rtt_keep t a p : fkeep (estimate_rtt t a p) = fkeep p /\ unacked (estimate_rtt t a p) = unacked p /\
  unsent (estimate_rtt t a p) = unsent p /\ snd_nxt (estimate_rtt t a p) = snd_nxt p.
Proof. unfold estimate_rtt. case_match; [|done]. cbv zeta. done. Qed.

Lemma ooseq_insert_out w s prev l l' s' w' : ooseq_insert w s prev l = Ok (l', s', w') -> out w' = out w.
Proof.
  revert prev s. induction l as [|nx l IH]; intros prev s H; cbn [ooseq_insert] in H; [by simplify_eq|].
  cbv zeta beta iota delta [alloc] in H.
  repeat first [apply bind_Ok_inv in H as (? & _ & H)|progress case_match]; simplify_eq; first [done|by eapply IH].
Qed.

Lemma receive_data_out w s p s' p' w' : receive_data w s p = Ok (s', p', w') -> out w' = out w.
Proof.
  unfold receive_data. cbv zeta. destruct (0 <? TCP_TCPLEN s); [|intros; by simplify_eq].
  intros H. apply bind_Ok_inv in H as ([s1 p1] & _ & H). destruct (_ && _); [|by simplify_eq]. destruct (_ =? _).
  - apply bind_Ok_inv in H as ([s2 p2] & _ & H). by simplify_eq.
  - unfold out_of_sequence in H. cbv zeta beta iota delta [alloc] in H. destruct (ooseq _); [by injection H as _ _ <-|].
    apply bind_Ok_inv in H as ([[l' s2] w2] & H2 & H). simplify_eq. by eapply ooseq_insert_out.
Qed.

Lemma map_last_app {A} (g : A -> A) l x : map_last g (l ++ [x]) = l ++ [g x].
Proof. induction l as [|y l IH]; [done|]. cbn. rewrite IH. by destruct l. Qed.

Lemma fill_last_concat l bs : l <> [] -> concat (fill_last l bs) = concat l ++ bs.
Proof.
  induction l as [|x l IH]; [done|]. intros _. destruct l as [|y l]; [cbn; by rewrite !app_nil_r|].
  change (concat (fill_last (x :: y :: l) bs)) with (x ++ concat (fill_last (y :: l) bs)). rewrite IH by done. cbn. by rewrite !app_assoc.
Qed.

Lemma new_hdr_ok p seqno f : 0 <= f < 256 -> of_ok (new_hdr p seqno f None) 80 f /\ th_seqno (new_hdr p seqno f None) = htonl seqno /\
  th_src (new_hdr p seqno f None) = htons (local_port p) /\ th_dest (new_hdr p seqno f None) = htons (remote_port p).
Proof.
  intros Hf. split; [|done]. unfold new_hdr. eapply of_set_offset; [|cbv; split; congruence]. eapply (of_set_flags _ 0 0); [|done].
  cbv. repeat split; congruence.
Qed.

Lemma split_loop_fin n w p mtu seqno ql r w' : 0 < mss p ->
  split_loop (S (S n)) w p mtu TCP_FIN None [] seqno ql [] = Ok (r, w') -> out w' = out w /\
    match r with Some (q, _) => exists k, q = [MkSeg (Some (MkPbufs [[]] 0 k 1)) 0 (new_hdr p seqno TCP_FIN None) []] | None => True end.
Proof.
  intros Hm H. cbn [split_loop length drop app] in H. cbv beta iota zeta delta [alloc orb negb] in H.
  change (Z.of_nat 0) with 0 in H. rewrite (proj2 (Z.ltb_ge (mss p) 0)) in H by lia. change (Z.to_nat 0) with 0%nat in H.
  do 3 (match type of H with (if ?c then _ else _) = _ => destruct c; [injection H as <- <-; done|] end).
  cbv iota beta in H. change (0 <? Z.of_nat (length (drop 0 []))) with false in H. cbv iota in H. injection H as <- <-. split; [done|]. by eexists.
Qed.

Lemma join_queue_fin m U q us j : join_queue m TCP_FIN U q = Ok (us, j) -> us = U ++ q.
Proof.
  unfold join_queue. destruct q as [|q0 q]; [intros; by simplify_eq|]. destruct (last U); [|intros; by simplify_eq].
  change (negb (has TCP_FIN (Z.lor TCP_SYN TCP_FIN))) with false. rewrite andb_false_r. intros H. by injection H.
Qed.

Lemma tcp_recved_keep p n : fkeep (tcp_recved p n) = fkeep p /\ unacked (tcp_recved p n) = unacked p /\
  unsent (tcp_recved p n) = unsent p /\ snd_nxt (tcp_recved p n) = snd_nxt p /\ rcv_nxt (tcp_recved p n) = rcv_nxt p /\
  ooseq (tcp_recved p n) = ooseq p /\ cong_ok (tcp_recved p n) = cong_ok p.
Proof. unfold tcp_recved. cbv zeta. repeat case_match; done. Qed.

Lemma u32_add_mul x k : u32 (x + k * 2 ^ 32) = u32 x.
Proof. unfold u32. apply Z.mod_add. lia. Qed.

Lemma u32_s32 a y : 0 <= a < 2 ^ 32 -> u32 (y + s32 (a - y)) = a.
Proof.
  intros Ha. rewrite <- (u32_small a) at 2 by lia. unfold s32. pose proof (Z.div_mod (a - y) (2 ^ 32) ltac:(lia)) as E.
  case_match; [rewrite <- (u32_add_mul _ ((a - y) / 2 ^ 32))|rewrite <- (u32_add_mul _ ((a - y) / 2 ^ 32 + 1))]; f_equal; lia.
Qed.

(** ** Ephemeral ports *)

(** The port [i] steps behind [port] in the cycle of 28672 ports. *)
Definition next_port (port : Z) : Z := let q := u16 (port + 1) in if 32767 <? q then 4096 else q.

Lemma next_port_val port i : 4096 <= port <= 32767 -> Nat.iter i next_port port = 4096 + (port - 4096 + Z.of_nat i) mod 28672.
Proof.
  intros Hp. induction i as [|i IH].
  - cbn. rewrite Z.add_0_r, Z.mod_small; lia.
  - cbn [Nat.iter nat_rect]. change (Nat.iter i next_port port) with (Nat.iter i next_port port) in IH. unfold Nat.iter in IH |- *. rewrite IH.
    pose proof (Z.mod_pos_bound (port - 4096 + Z.of_nat i) 28672 ltac:(lia)). unfold next_port. rewrite u16_small by lia. cbv zeta.
    replace (port - 4096 + Z.of_nat (S i)) with ((port - 4096 + Z.of_nat i) + 1) by lia. rewrite <- (Zplus_mod_idemp_l _ 1).
    set (r := (port - 4096 + Z.of_nat i) mod 28672) in *. destruct (Z.ltb_spec 32767 (4096 + r + 1)).
    + assert (r + 1 = 28672) as -> by lia. done.
    + rewrite (Z.mod_small (r + 1)) by lia. lia.
Qed.

Lemma port_cycle_nodup port n : 4096 <= port <= 32767 -> Z.of_nat n <= 28672 -> NoDup ((fun i => Nat.iter (S i) next_port port) <$> seq 0 n).
Proof.
  intros Hp Hn. apply NoDup_fmap_2_strong; [|apply NoDup_seq]. intros i j Hi%elem_of_seq Hj%elem_of_seq E. rewrite !next_port_val in E by done.
  assert ((port - 4096 + Z.of_nat (S i)) mod 28672 = (port - 4096 + Z.of_nat (S j)) mod 28672) as E' by lia.
  pose proof (Z.div_mod (port - 4096 + Z.of_nat (S i)) 28672 ltac:(lia)). pose proof (Z.div_mod (port - 4096 + Z.of_nat (S j)) 28672 ltac:(lia)). lia.
Qed.

Lemma new_port_loop_spec used n : forall port, 4096 <= port <= 32767 ->
  (exists r, new_port_loop used n port = Ok r /\ 4096 <= r <= 32767 /\ used r = false) \/
  (new_port_loop used n port = OutOfFuel /\ forall i, (i < n)%nat -> used (Nat.iter (S i) next_port port) = true).
Proof.
  induction n as [|n IH]; intros port Hp; [right; split; [done|lia]|]. cbn [new_port_loop]. fold (next_port port).
  assert (4096 <= next_port port <= 32767) as Hq.
  { unfold next_port. rewrite u16_small by lia. cbv zeta. destruct (Z.ltb_spec 32767 (port + 1)); lia. }
  destruct (used (next_port port)) eqn:Eu; [|left; by exists (next_port port)].
  destruct (IH (next_port port) Hq) as [?|(E & Hall)]; [by left|right]. split; [done|]. intros [|i] Hi; [done|].
  rewrite Nat.iter_succ_r. apply Hall. lia.
Qed.

(** The search ends when fewer ports are used than there are. *)
Lemma new_port_total used n l port : 4096 <= port <= 32767 -> (forall q, used q = true -> q ∈ l) -> (length l <= n)%nat -> Z.of_nat n < 28672 ->
  exists r, new_port_loop used (S n) port = Ok r /\ 4096 <= r <= 32767 /\ used r = false.
Proof.
  intros Hp Hl Hn Hm. destruct (new_port_loop_spec used (S n) port Hp) as [?|(_ & Hall)]; [done|exfalso].
  set (c := (fun i => Nat.iter (S i) next_port port) <$> seq 0 (S n)). assert (NoDup c) as Hnd by (apply port_cycle_nodup; [done|lia]).
  assert (c ⊆ l) as Hsub by (intros x Hx; apply list_elem_of_fmap in Hx as (i & -> & Hi%elem_of_seq); apply Hl, Hall; lia).
  assert (length c <= length l)%nat as Hle by (apply submseteq_length, NoDup_submseteq; done).
  unfold c in Hle. rewrite length_fmap, length_seq in Hle. lia.
Qed.

Lemma omap_length {A B} (f : A -> option B) l : (length (omap f l) <= length l)%nat.
Proof. induction l as [|x l IH]; cbn; [done|]. destruct (f x); cbn; lia. Qed.
