(* ===== verification/TcpRecv.v ===== *)
(** * Reassembly: what tcp_receive hands to the application

    The peer sends the bytes of a stream in segments that may be lost, repeated,
    delayed and reordered.  Segments that begin at different places do not overlap,
    and a FIN comes in a segment of its own, as tcp_enqueue makes them (TcpSend.v). *)

From S2P Require Import Prelude Inet Ether Tcp TcpBase.

(** ** Memory *)

(** Whatever memory is asked for is granted. *)
Definition granted (w : net) : Prop := Forall (eq true) (allocs w).

Lemma granted_alloc w : granted w -> fst (alloc w) = true.
Proof. unfold granted, alloc. cbn. by destruct 1. Qed.

Lemma send_ack_granted w p rc w' : tcp_send_ack w p = (rc, w') -> granted w -> granted w'.
Proof.
  unfold tcp_send_ack. case_match; [|by intros; simplify_eq]. unfold alloc, ip_output_if, granted. cbv zeta.
  intros E Hw. assert (Forall (eq true) (tail (allocs w))) as Ht by (by destruct Hw). destruct (negb _); by simplify_eq.
Qed.

Lemma output_segment_allocs w s p s' p' w' : tcp_output_segment w s p = (s', p', w') -> allocs w' = allocs w.
Proof. unfold tcp_output_segment, ip_output_if. cbv zeta. repeat case_match; intros; by simplify_eq. Qed.

Lemma output_loop_allocs wnd l : forall w p p' w', output_loop wnd l w p = (p', w') -> allocs w' = allocs w.
Proof.
  induction l as [|s l IH]; intros w p p' w' E; cbn [output_loop] in E; [by simplify_eq|]. destruct (_ <=? wnd); [|by simplify_eq].
  cbv zeta in E. destruct (if is_state _ _ then _ else _) as [s1 p1] in E. destruct (tcp_output_segment _ _ _) as [[s2 p2] w2] eqn:Eo.
  apply IH in E. by rewrite E, (output_segment_allocs _ _ _ _ _ _ Eo).
Qed.

Lemma tcp_output_granted w p rc p' w' : tcp_output w p = (rc, p', w') -> granted w -> granted w'.
Proof.
  unfold tcp_output. destruct (output_loop _ _ _ _) as [p1 w1] eqn:El. apply output_loop_allocs in El.
  unfold granted. rewrite <- El. fold (granted w1) (granted w'). case_match; [|by intros; simplify_eq].
  destruct (tcp_send_ack _ _) as [rc1 w2] eqn:Ea. intros E. simplify_eq. by eapply send_ack_granted.
Qed.

Lemma receive_ack_granted w h p p' w' : receive_ack w h p = Ok (p', w') -> granted w -> granted w'.
Proof.
  unfold receive_ack. cbv zeta. intros H Hw. apply bind_Ok_inv in H as ([p1 w1] & H1 & H). simplify_eq.
  destruct (_ =? _); [|destruct (_ && _); [apply bind_Ok_inv in H1 as (p2 & _ & H1)|]; by simplify_eq].
  unfold dup_ack, tcp_rexmit in H1. cbv zeta in H1. destruct (_ =? _) in H1; [|by simplify_eq]. destruct (_ && _ && _) in H1; [|by simplify_eq].
  destruct (negb _) in H1; [|by simplify_eq]. destruct (unacked _) in H1; [by simplify_eq|].
  destruct (tcp_output _ _) as [[rc p2] w2] eqn:Eo in H1. simplify_eq. by eapply tcp_output_granted.
Qed.

Section Stream.

(** The stream, the sequence number of its first byte, and the segments sent: where
    in the stream they begin and how long they are. *)
Context (S : list Z) (base : Z) (F : list (Z * Z)).

Definition ssize : Z := Z.of_nat (length S).
Definition slice (i n : Z) : list Z := take (Z.to_nat n) (drop (Z.to_nat i) S).

Definition no_overlap : Prop := forall i n j m, (i, n) ∈ F -> (j, m) ∈ F -> i < j -> i + n <= j.

(** [s] carries the [n] bytes from place [i] on, or is the FIN behind the last one. *)
Record genuine (s : tcp_seg) (i n : Z) : Prop := {
  g_range : 0 <= i /\ 0 <= n /\ i + n <= ssize;
  g_seq : hseq s = sq base i;
  g_len : seg_len s = n;
  g_data : exists b, seg_p s = Some b /\ pieces b <> [] /\ bytes b = slice i n /\ n <= tot_len b /\ (n = 0 -> tot_len b = 0);
  g_syn : has (TCPH_FLAGS (seg_hdr s)) TCP_SYN = false;
  g_fin : has (TCPH_FLAGS (seg_hdr s)) TCP_FIN = true -> i = ssize /\ n = 0 }.

(** The queue holds segments behind place [lo], in order. *)
Fixpoint qok (lo : Z) (l : list tcp_seg) : Prop :=
  match l with
  | [] => True
  | c :: l => exists i n, genuine c i n /\ (i, n) ∈ F /\ lo < i /\ 0 < TCP_TCPLEN c /\ qok i l
  end.

(** [r] places of the stream, and of the FIN behind it, have been received. *)
Record rinv (p : pcb) (r : Z) : Prop := {
  ri_nxt : rcv_nxt p = sq base r;
  ri_range : 0 <= r <= ssize + 1;
  ri_wnd : 0 <= rcv_wnd p < 65536;
  ri_queue : qok r (ooseq p) }.

(** The queue [l] holds [k] places from [j] on.  When a segment has been taken, what was
    queued is handed over as soon as the places before it have been, and stays queued
    until then. *)
Definition queued (l : list tcp_seg) (j k : Z) : Prop := exists c m, c ∈ l /\ genuine c j m /\ k <= TCP_TCPLEN c.
Definition settled (l : list tcp_seg) (r : Z) (l' : list tcp_seg) : Prop :=
  forall j k, 0 < k -> queued l j k -> j + k <= r \/ (r < j /\ queued l' j k).

Lemma slice_app i n m : 0 <= i -> 0 <= n -> 0 <= m -> slice i n ++ slice (i + n) m = slice i (n + m).
Proof.
  intros. unfold slice. rewrite Z2Nat.inj_add, <- drop_drop by lia. rewrite (Z2Nat.inj_add n m) by lia.
  apply take_take_drop.
Qed.

Lemma slice_length i n : 0 <= i -> 0 <= n -> i + n <= ssize -> Z.of_nat (length (slice i n)) = n.
Proof. intros. unfold slice, ssize in *. rewrite length_take_le; [lia|]. rewrite length_drop. lia. Qed.

Lemma take_slice r n : 0 <= r -> 0 <= n -> take (Z.to_nat r) S ++ slice r n = take (Z.to_nat (r + n)) S.
Proof. intros. unfold slice. rewrite Z2Nat.inj_add by lia. apply take_take_drop. Qed.

Lemma drop_slice i n k : 0 <= i -> 0 <= k <= n -> drop (Z.to_nat k) (slice i n) = slice (i + k) (n - k).
Proof.
  intros. unfold slice. rewrite skipn_firstn_comm, drop_drop. f_equal; [lia|]. f_equal. lia.
Qed.

Lemma tcplen_genuine s i n : genuine s i n -> TCP_TCPLEN s = n + (if has (TCPH_FLAGS (seg_hdr s)) TCP_FIN then 1 else 0).
Proof. intros G. unfold TCP_TCPLEN. by rewrite (g_syn _ _ _ G), (g_len _ _ _ G), orb_false_r. Qed.

(** A segment that is not a FIN has as many places as bytes. *)
Lemma tcplen_data s i n : genuine s i n -> (0 < n \/ i < ssize) -> TCP_TCPLEN s = n.
Proof.
  intros G Hn. rewrite (tcplen_genuine _ _ _ G). destruct (has _ TCP_FIN) eqn:Ef; [|lia]. destruct (g_fin _ _ _ G Ef). lia.
Qed.

(** Of two segments at the same place the longer one has more places. *)
Lemma tcplen_le s c i n m : genuine s i n -> genuine c i m -> n <= m -> 0 < TCP_TCPLEN c -> TCP_TCPLEN s <= TCP_TCPLEN c.
Proof.
  intros G Gc Hnm Hc. pose proof (g_range _ _ _ G). pose proof (g_range _ _ _ Gc). rewrite (tcplen_genuine _ _ _ G).
  destruct (has _ TCP_FIN) eqn:Ef; [destruct (g_fin _ _ _ G Ef)|rewrite (tcplen_genuine _ _ _ Gc); case_match]; lia.
Qed.

(** ** Cutting buffers *)

Lemma cut_pieces_ok l n : l <> [] -> 0 <= n <= Z.of_nat (length (concat l)) ->
  exists l', cut_pieces l n = Ok l' /\ concat l' = take (Z.to_nat n) (concat l) /\ l' <> [].
Proof.
  revert n. induction l as [|x l IH]; intros n Hl Hn; [done|]. cbn [cut_pieces concat] in *. rewrite length_app in Hn.
  destruct (Z.ltb_spec (Z.of_nat (length x)) n) as [Hx|Hx].
  - assert (l <> []) as Hl' by (intros ->; cbn in Hn; lia).
    destruct (IH (n - Z.of_nat (length x)) Hl' ltac:(lia)) as (l' & -> & E & _). eexists. split; [done|]. split; [|done].
    cbn [concat]. rewrite E, take_app, (take_ge x) by lia. do 2 f_equal. lia.
  - eexists. split; [done|]. split; [|done]. cbn [concat]. rewrite app_nil_r, take_app_le by lia. done.
Qed.

Lemma trim_loop_ok l off tot : 0 <= off <= Z.of_nat (length (concat l)) -> l <> [] ->
  exists l' tot', trim_loop l off tot = Ok (l', tot') /\ concat l' = drop (Z.to_nat off) (concat l) /\ l' <> [] /\
    tot - off <= tot'.
Proof.
  revert off tot. induction l as [|x l IH]; intros off tot Ho Hl; [done|]. cbn [trim_loop concat] in *. rewrite length_app in Ho.
  destruct (Z.ltb_spec (Z.of_nat (length x)) off) as [Hx|Hx].
  - assert (l <> []) as Hl' by (intros ->; cbn in Ho; lia).
    destruct (IH (off - Z.of_nat (length x)) (tot - Z.of_nat (length x)) ltac:(lia) Hl') as (l' & t' & -> & E & _ & Ht).
    exists ([] :: l'), t'. split; [done|]. split_and!; [|done|lia]. cbn [concat app]. rewrite E, drop_app_ge by lia. f_equal. lia.
  - exists (drop (Z.to_nat off) x :: l), tot. split_and!; [done| |done|lia]. cbn [concat]. by rewrite drop_app_le by lia.
Qed.

(** The first edge trimmed to place [r]. *)
Lemma trim_front_ok s i n r : genuine s i n -> i < r < i + TCP_TCPLEN s -> ssize < 2 ^ 31 ->
  exists s', trim_front s (sq base r) = Ok s' /\ genuine s' r (i + n - r) /\ seg_hdr s' = set_seqno (seg_hdr s) (sq base r).
Proof.
  intros G Hr Hs. pose proof (g_range _ _ _ G) as Hi. rewrite (tcplen_genuine _ _ _ G) in Hr.
  assert (has (TCPH_FLAGS (seg_hdr s)) TCP_FIN = false) as Ef.
  { destruct (has _ TCP_FIN) eqn:Ef; [|done]. destruct (g_fin _ _ _ G Ef). lia. }
  rewrite Ef, Z.add_0_r in Hr. destruct (g_data _ _ _ G) as (b & Eb & Hp & Hbytes & Ht & _).
  unfold trim_front. fold (hseq s). rewrite (g_seq _ _ _ G), sq_diff, Eb, (g_len _ _ _ G) by lia. cbn [from_opt mbind outcome_bind].
  destruct (pieces b) as [|x l] eqn:El; [done|]. cbn [head from_opt mbind outcome_bind tail].
  assert (concat (x :: l) = slice i n) as Hc by (rewrite <- El; exact Hbytes).
  assert (drop (Z.to_nat (r - i)) (concat (x :: l)) = slice r (i + n - r)) as Hd.
  { rewrite Hc, drop_slice by lia. f_equal; lia. }
  assert (exists b', (if Z.of_nat (length x) <? r - i
    then '(l', tot) ← trim_loop (x :: l) (r - i) (tot_len b); Ok (MkPbufs l' tot (spare b) (pref b))
    else Ok (MkPbufs (drop (Z.to_nat (r - i)) x :: l) (tot_len b - (r - i)) (spare b) (pref b))) = Ok b' /\
    pieces b' <> [] /\ bytes b' = slice r (i + n - r) /\ i + n - r <= tot_len b') as (b' & -> & Hp' & Hb' & Ht').
  { destruct (Z.ltb_spec (Z.of_nat (length x)) (r - i)) as [Hx|Hx].
    - destruct (trim_loop_ok (x :: l) (r - i) (tot_len b)) as (l' & t' & -> & E & Hne & Hle);
        [rewrite Hc, slice_length by lia; lia|done|].
      eexists. split; [done|]. unfold bytes. cbn. split_and!; [done|by rewrite E|lia].
    - eexists. split; [done|]. unfold bytes. cbn [pieces tot_len]. split_and!; [done| |lia].
      rewrite <- Hd. cbn [concat]. by rewrite drop_app_le by lia. }
  cbn [mbind outcome_bind]. rewrite s32_small by lia. eexists. split; [done|]. split; [|done].
  split; cbn [hseq seg_hdr set_seqno th_seqno seg_len seg_p]; try done.
  - lia.
  - lia.
  - exists b'. split_and!; try done. lia.
  - apply (g_syn _ _ _ G).
  - intros E. change (TCPH_FLAGS (set_seqno (seg_hdr s) (sq base r))) with (TCPH_FLAGS (seg_hdr s)) in E. congruence.
Qed.

(** A cut that leaves all the bytes. *)
Lemma cut_seg_all s i n : genuine s i n -> exists s', cut_seg s n = Ok s' /\ genuine s' i n /\ seg_hdr s' = seg_hdr s.
Proof.
  intros G. pose proof (g_range _ _ _ G) as Hi. destruct (g_data _ _ _ G) as (b & Eb & Hp & Hbytes & Ht & Ht0).
  unfold cut_seg, realloc. rewrite Eb. cbn [from_opt mbind outcome_bind].
  destruct (Z.leb_spec (tot_len b) n) as [Hn|Hn]; cbn [mbind outcome_bind].
  - eexists. split; [done|]. split; [|done]. destruct G; split; try done. exists b. by split_and!.
  - assert (Z.of_nat (length (concat (pieces b))) = n) as Hl by (fold (bytes b); rewrite Hbytes; apply slice_length; lia).
    destruct (cut_pieces_ok (pieces b) n Hp ltac:(lia)) as (l' & -> & E & Hne). cbn [mbind outcome_bind].
    eexists. split; [done|]. split; [|done]. destruct G; split; try done. eexists. split; [done|]. unfold bytes. cbn.
    split_and!; [done| |lia|lia]. rewrite E, take_ge by lia. exact Hbytes.
Qed.

(** ** In sequence *)

Context (HF : no_overlap) (HS : ssize + 2 ^ 17 < 2 ^ 31).

Definition dbytes (o : option pbufs) : list Z := match o with Some b => bytes b | None => [] end.

Lemma qok_weaken lo lo' l : lo' <= lo -> qok lo l -> qok lo' l.
Proof. intros Hlo. destruct l as [|c l]; [done|]. cbn. intros (i & n & ? & ? & ? & ? & ?). exists i, n. split_and!; try done. lia. Qed.

Lemma genuine_place c i n j m : genuine c i n -> genuine c j m -> i = j.
Proof.
  intros G G'. pose proof (g_range _ _ _ G). pose proof (g_range _ _ _ G'). apply Z.eqb_eq. rewrite <- (sq_eqb base) by lia.
  rewrite <- (g_seq _ _ _ G), <- (g_seq _ _ _ G'). apply Z.eqb_refl.
Qed.

Lemma qok_place l : forall lo c j m, qok lo l -> c ∈ l -> genuine c j m -> lo < j.
Proof.
  induction l as [|d l IH]; intros lo c j m Hq Hc G; [by apply elem_of_nil in Hc|]. destruct Hq as (i & n & Gd & _ & Hi & _ & Hq).
  apply elem_of_cons in Hc as [->|Hc]; [by rewrite <- (genuine_place d i n j m)|]. specialize (IH _ _ _ _ Hq Hc G). lia.
Qed.

Lemma settled_keep r l l' : qok r l -> (forall j k, 0 < k -> queued l j k -> queued l' j k) -> settled l r l'.
Proof. intros Hq Hk j k Hpos Hl. right. split; [|by apply Hk]. destruct Hl as (c & m & Hc & G & _). by eapply qok_place. Qed.

Lemma settled_cons c r n l r' l' : genuine c r n -> r + TCP_TCPLEN c <= r' -> settled l r' l' -> settled (c :: l) r' l'.
Proof.
  intros G Hle Hs j k Hk (d & m & Hd & Gd & Hkd). apply elem_of_cons in Hd as [->|Hd]; [|apply Hs; [done|by exists d, m]].
  left. rewrite <- (genuine_place c r n j m) by done. lia.
Qed.

Lemma advance_ok s p r : rcv_nxt p = sq base r -> 0 <= rcv_wnd p < 65536 -> 0 <= TCP_TCPLEN s ->
  rcv_nxt (advance s p) = sq base (r + TCP_TCPLEN s) /\ 0 <= rcv_wnd (advance s p) < 65536.
Proof.
  intros En Hw Ht. unfold advance. pcb_simpl. rewrite En, sq_add. split; [done|].
  destruct (Z.ltb_spec (rcv_wnd p) (TCP_TCPLEN s)); [lia|apply u16_range].
Qed.

Lemma note_fin_rcv s p : rcv_nxt (note_fin s p) = rcv_nxt p /\ rcv_wnd (note_fin s p) = rcv_wnd p /\
  recv_data (note_fin s p) = recv_data p /\ ooseq (note_fin s p) = ooseq p.
Proof. unfold note_fin. case_match; pcb_simpl; done. Qed.

(** The places of a queued segment end at or before the next one. *)
Lemma qok_next c i n l : genuine c i n -> (i, n) ∈ F -> qok i l -> qok (i + TCP_TCPLEN c - 1) l.
Proof.
  intros G Hin. destruct l as [|d l]; [done|]. cbn [qok]. intros (j & m & Gd & Hj & Hij & Ht & Hq). exists j, m. split_and!; try done.
  pose proof (g_range _ _ _ Gd). pose proof (g_range _ _ _ G). rewrite (tcplen_data c i n G ltac:(lia)).
  pose proof (HF i n j m Hin Hj Hij). lia.
Qed.

Lemma dequeue_ok l : forall p r pre, ooseq p = l -> rcv_nxt p = sq base r -> 0 <= r <= ssize + 1 -> 0 <= rcv_wnd p < 65536 ->
  qok (r - 1) l -> (l <> [] -> exists b, recv_data p = Some b) -> dbytes (recv_data p) = pre ->
  exists p' r', dequeue l p = Ok p' /\ rinv p' r' /\ r <= r' /\ dbytes (recv_data p') = pre ++ slice r (r' - r) /\
    settled l r' (ooseq p').
Proof.
  induction l as [|c l IH]; intros p r pre El En Hr Hw Hq Hd Hpre.
  { exists p, r. cbn. split; [done|]. split; [by split; rewrite ?El|]. split; [lia|]. rewrite El. split; [|by apply settled_keep].
    rewrite Z.sub_diag. unfold slice. by rewrite app_nil_r. }
  destruct Hq as (i & n & G & Hin & Hri & Ht & Hq). cbn [dequeue]. rewrite (g_seq _ _ _ G), En.
  pose proof (g_range _ _ _ G) as Hi. rewrite sq_eqb by lia. destruct (Z.eqb_spec i r) as [->|Hne].
  2: { assert (qok r (c :: l)) as Hqr by (exists i, n; split_and!; try done; lia).
       exists p, r. split; [done|]. split; [by split; rewrite ?El|]. rewrite El. split; [lia|]. split; [|by apply settled_keep].
       rewrite Z.sub_diag. unfold slice. by rewrite app_nil_r. }
  destruct (advance_ok c p r En Hw ltac:(lia)) as [En' Hw']. destruct (g_data _ _ _ G) as (b & Eb & Hp & Hb & Htot & Htot0).
  rewrite Eb. cbn [from_opt mbind outcome_bind]. destruct (Hd ltac:(done)) as [d Ed].
  assert (exists d', (if 0 <? tot_len b then r0 ← chain_on (recv_data (advance c p)) b; Ok (set_recv_data (Some r0) (advance c p))
    else Ok (advance c p)) = Ok (set_recv_data (Some d') (advance c p)) /\ bytes d' = pre ++ slice r n) as (d' & -> & Hd').
  { assert (recv_data (advance c p) = Some d) as -> by (unfold advance; pcb_simpl; done).
    destruct (Z.ltb_spec 0 (tot_len b)) as [Hpos|Hz].
    - cbn [chain_on from_opt mbind outcome_bind]. eexists. split; [done|]. unfold bytes. cbn [pieces]. rewrite concat_app.
      fold (bytes d) (bytes b). rewrite Hb. f_equal. by rewrite <- Hpre, Ed.
    - exists d. assert (n = 0) as -> by lia. split; [|rewrite <- Hpre, Ed; unfold slice; by rewrite app_nil_r].
      f_equal. destruct p. cbn in Ed. by subst. }
  cbn [mbind outcome_bind].
  set (p1 := set_ooseq l (note_fin c (set_recv_data (Some d') (advance c p)))).
  destruct (note_fin_rcv c (set_recv_data (Some d') (advance c p))) as (N1 & N2 & N3 & _).
  destruct (IH (set_flags (seton (flags p1) TF_ACK_NOW) p1) (r + TCP_TCPLEN c) (pre ++ slice r n)) as (p' & r' & E' & Hinv & Hle & Hdat & Hset).
  - unfold p1. pcb_simpl. done.
  - unfold p1. pcb_simpl. rewrite N1. pcb_simpl. exact En'.
  - rewrite (tcplen_genuine _ _ _ G). destruct (has _ TCP_FIN) eqn:Ef; [destruct (g_fin _ _ _ G Ef)|]; lia.
  - unfold p1. pcb_simpl. rewrite N2. pcb_simpl. exact Hw'.
  - by apply (qok_next c r n).
  - intros _. exists d'. unfold p1. pcb_simpl. rewrite N3. pcb_simpl. done.
  - unfold p1. pcb_simpl. rewrite N3. pcb_simpl. exact Hd'.
  - exists p', r'. split; [exact E'|]. split; [done|]. split; [lia|]. split; [|by eapply settled_cons]. rewrite Hdat, <- app_assoc. f_equal.
    rewrite (tcplen_genuine _ _ _ G) in *. destruct (has _ TCP_FIN) eqn:Ef.
    + destruct (g_fin _ _ _ G Ef) as [-> ->]. unfold slice. rewrite !drop_ge by (unfold ssize; lia). by rewrite !take_nil.
    + rewrite Z.add_0_r in *. rewrite slice_app by lia. f_equal. lia.
Qed.

Lemma rinv_flags p r v : rinv p r -> rinv (set_flags v p) r.
Proof. intros []. split; pcb_simpl; done. Qed.

(** The cut before the queue, if there is one, takes nothing away. *)
Lemma cut_before_queue s p r n i0 : genuine s r n -> (i0, r + n - i0) ∈ F -> i0 <= r -> qok r (ooseq p) -> 0 <= r ->
  exists s', (match ooseq p with
              | o :: _ => if TCP_SEQ_LEQ (hseq o) (u32 (hseq s + seg_len s)) then cut_seg s (s32 (hseq o - hseq s)) else Ok s
              | [] => Ok s
              end) = Ok s' /\ genuine s' r n /\ seg_hdr s' = seg_hdr s /\
    (ooseq p <> [] -> 0 < n -> qok (r + n - 1) (ooseq p)).
Proof.
  intros G Hin Hi0 Hq Hr0. pose proof (g_range _ _ _ G) as Hr. destruct (ooseq p) as [|o l]; [by exists s|].
  destruct Hq as (j & m & Go & Hj & Hrj & Ht & Hq). pose proof (g_range _ _ _ Go).
  assert (r + n <= j) as Hle by (specialize (HF _ _ _ _ Hin Hj); lia).
  rewrite (g_seq _ _ _ G), (g_seq _ _ _ Go), (g_len _ _ _ G), sq_add, sq_leq by lia.
  assert (0 < n -> qok (r + n - 1) (o :: l)) as Hqn by (intros _; exists j, m; split_and!; try done; lia).
  destruct (Z.leb_spec j (r + n)) as [Hj2|Hj2]; [|by exists s].
  rewrite sq_diff by lia. replace (j - r) with n by lia. destruct (cut_seg_all s r n G) as (s' & -> & G' & Hh). by exists s'.
Qed.

Lemma in_sequence_ok s p r n i0 : genuine s r n -> 0 < TCP_TCPLEN s -> (i0, r + n - i0) ∈ F -> i0 <= r -> rinv p r ->
  recv_data p = None ->
  exists s' p' r', in_sequence s p = Ok (s', p') /\ rinv p' r' /\ r + TCP_TCPLEN s <= r' /\
    dbytes (recv_data p') = slice r (r' - r) /\ settled (ooseq p) r' (ooseq p').
Proof.
  intros G Ht Hin Hi0 [En Hr Hw Hq] Hd. unfold in_sequence.
  destruct (cut_before_queue s p r n i0 G Hin Hi0 Hq ltac:(lia)) as (s1 & -> & G1 & Hh & Hq1). cbn [mbind outcome_bind].
  assert (TCP_TCPLEN s1 = TCP_TCPLEN s) as Et by (rewrite (tcplen_genuine _ _ _ G1), (tcplen_genuine _ _ _ G), Hh; done).
  destruct (g_data _ _ _ G1) as (b & Eb & Hp & Hb & Htot & Htot0). rewrite Eb. cbn [from_opt mbind outcome_bind].
  pose proof (g_range _ _ _ G1) as Hi. destruct (advance_ok s1 p r En Hw ltac:(lia)) as [En' Hw']. rewrite Et in *.
  assert (ooseq p <> [] -> 0 < n) as Hqn.
  { intros Hne. rewrite (tcplen_genuine _ _ _ G) in Ht. destruct (has _ TCP_FIN) eqn:Ef; [|lia].
    destruct (g_fin _ _ _ G Ef) as [-> ->]. destruct (ooseq p) as [|o l]; [done|]. destruct Hq as (j & m & Go & _ & Hj & _).
    pose proof (g_range _ _ _ Go). lia. }
  set (p1 := if 0 <? tot_len b then set_recv_data (Some b) (advance s1 p) else advance s1 p).
  assert (exists s2, (if 0 <? tot_len b then (set_seg_p s1 None, set_recv_data (Some b) (advance s1 p)) else (s1, advance s1 p)) = (s2, p1) /\
    seg_hdr s2 = seg_hdr s1) as (s2 & -> & Hh2) by (unfold p1; destruct (0 <? tot_len b); eexists; done).
  destruct (note_fin_rcv s2 p1) as (N1 & N2 & N3 & N4).
  assert (rcv_nxt p1 = sq base (r + TCP_TCPLEN s) /\ 0 <= rcv_wnd p1 < 65536 /\ ooseq p1 = ooseq p /\ dbytes (recv_data p1) = slice r n /\
    (ooseq p <> [] -> exists d, recv_data p1 = Some d)) as (P1 & P2 & P3 & P4 & P5).
  { unfold p1. destruct (Z.ltb_spec 0 (tot_len b)) as [Hpos|Hz]; pcb_simpl.
    - split_and!; [done|lia|lia|done|done|]. intros _. by exists b.
    - assert (n = 0) as -> by lia. unfold advance in *. pcb_simpl_in En'. pcb_simpl_in Hw'. pcb_simpl.
      split_and!; [done|lia|lia|done|by rewrite Hd|intros Hne; specialize (Hqn Hne); lia]. }
  rewrite P3. destruct (dequeue_ok (ooseq p) (note_fin s2 p1) (r + TCP_TCPLEN s) (slice r n)) as (p' & r' & -> & Hinv & Hle & Hdat & Hset).
  - by rewrite N4.
  - by rewrite N1.
  - rewrite (tcplen_genuine _ _ _ G). destruct (has _ TCP_FIN) eqn:Ef; [destruct (g_fin _ _ _ G Ef)|]; lia.
  - by rewrite N2.
  - destruct (decide (ooseq p = [])) as [->|Hne]; [done|]. rewrite (tcplen_data _ _ _ G) by (left; by apply Hqn). by apply Hq1; [|apply Hqn].
  - rewrite N3. done.
  - by rewrite N3.
  - cbn [mbind outcome_bind]. eexists _, _, r'. split; [done|]. split; [by apply rinv_flags|]. split; [done|]. pcb_simpl. split; [|done]. rewrite Hdat.
    rewrite (tcplen_genuine _ _ _ G) in *. destruct (has _ TCP_FIN) eqn:Ef.
    + destruct (g_fin _ _ _ G Ef) as [-> ->]. unfold slice. rewrite !drop_ge by (unfold ssize; lia). by rewrite !take_nil.
    + rewrite Z.add_0_r in *. rewrite slice_app by lia. f_equal. lia.
Qed.

(** ** Out of sequence *)

(** The place is found by going along the queue; nothing is cut. *)
Lemma fit_before_id s o i n j m : genuine s i n -> genuine o j m -> (i, n) ∈ F -> (j, m) ∈ F -> i < j -> fit_before s o = Ok s.
Proof.
  intros Gs Go Hi Hj Hlt. pose proof (HF _ _ _ _ Hi Hj Hlt). pose proof (g_range _ _ _ Gs). pose proof (g_range _ _ _ Go).
  unfold fit_before. rewrite (g_seq _ _ _ Gs), (g_seq _ _ _ Go), (g_len _ _ _ Gs), sq_add, sq_gt by lia.
  by rewrite (proj2 (Z.ltb_ge _ _)) by lia.
Qed.

(** [l'] holds all that [l] does, and the segment [s] at place [i] if there is memory. *)
Definition inserted (a : bool) (s : tcp_seg) (i : Z) (l l' : list tcp_seg) : Prop :=
  (forall j k, 0 < k -> queued l j k -> queued l' j k) /\ (a = true -> queued l' i (TCP_TCPLEN s)).

Lemma queued_sub l l' j k : l ⊆ l' -> queued l j k -> queued l' j k.
Proof. intros Hl (c & m & Hc & ?). exists c, m. split; [by apply Hl|done]. Qed.

Lemma inserted_keep s i l : inserted false s i l l.
Proof. by split. Qed.

Lemma inserted_sub s i n l l' : genuine s i n -> l ⊆ l' -> s ∈ l' -> forall a, inserted a s i l l'.
Proof. intros G Hl Hs a. split; [intros j k _; by apply queued_sub|]. intros _. exists s, n. split_and!; [done|done|lia]. Qed.

(** A longer segment takes the place of one that begins where it does. *)
Lemma inserted_replace s i n c m l : genuine s i n -> genuine c i m -> m < n -> 0 < TCP_TCPLEN s -> forall a, inserted a s i (c :: l) (s :: l).
Proof.
  intros G Gc Hmn Hs a. split; [|intros _; exists s, n; split_and!; [left|done|lia]].
  intros j k _ (d & m' & Hd & Gd & Hk). apply elem_of_cons in Hd as [->|Hd]; [|exists d, m'; split_and!; [by right|done|done]].
  assert (i = j) as <- by (by eapply genuine_place). exists s, n. split_and!; [left|done|].
  pose proof (tcplen_le c s i m n Gc G ltac:(lia) Hs). lia.
Qed.

Lemma inserted_cons a s i c l l' : inserted a s i l l' -> inserted a s i (c :: l) (c :: l').
Proof.
  intros [Hk Ha]. split; [|intros E; eapply queued_sub; [|by apply Ha]; set_solver].
  intros j k Hpos (d & m & Hd & G & Hkd). apply elem_of_cons in Hd as [->|Hd]; [exists c, m; split_and!; [left|done|done]|].
  eapply queued_sub; [|apply Hk; [done|by exists d, m]]. set_solver.
Qed.

Lemma ooseq_insert_ok s i n (G : genuine s i n) (Hin : (i, n) ∈ F) (Ht : 0 < TCP_TCPLEN s) l : forall w prev lo,
  (match prev with [] => True | pv :: _ => exists m, genuine pv lo m /\ (lo, m) ∈ F end) -> lo < i -> 0 <= lo -> qok lo l -> l <> [] ->
  exists l' w', ooseq_insert w s prev l = Ok (rev prev ++ l', s, w') /\ qok lo l' /\ inserted (fst (alloc w)) s i l l'.
Proof.
  induction l as [|nx l IH]; intros w prev lo Hpv Hlo Hlo0 Hq Hne; [done|]. pose proof Hq as Hq0.
  destruct Hq as (j & m & Gn & Hj & Hlj & Htn & Hq).
  pose proof (g_range _ _ _ G) as Ri. pose proof (g_range _ _ _ Gn) as Rj. cbn [ooseq_insert]. cbv zeta.
  rewrite (g_seq _ _ _ G), (g_seq _ _ _ Gn), (g_len _ _ _ G), (g_len _ _ _ Gn), sq_eqb, sq_lt, sq_gt by lia.
  destruct (alloc w) as [a w'] eqn:Ea. cbn [fst] in *. destruct (Z.eqb_spec i j) as [->|Hij].
  { destruct (Z.ltb_spec m n) as [Hmn|Hmn].
    2: { exists (nx :: l), w. split; [done|]. split; [done|]. split; [done|]. intros _. exists nx, m. split_and!; [left|done|]. by apply (tcplen_le s nx j n m). }
    destruct a; cbn [negb].
    - exists (s :: l), w'. split_and!; [done|by exists j, n|by eapply inserted_replace].
    - by exists (nx :: l), w'. }
  assert (exists l' w2, (if match l with [] => j <? i | _ => false end
      then if negb a then Ok (rev prev ++ nx :: l, s, w') else nx ← fit_before nx s; Ok (rev prev ++ [nx; s], s, w')
      else ooseq_insert w s (nx :: prev) l) = Ok (rev prev ++ l', s, w2) /\ qok lo l' /\ inserted a s i (nx :: l) l' \/ i < j) as Hgo.
  { destruct (decide (i < j)) as [|Hji]; [exists [], w; by right|]. assert (j < i) as Hji' by lia. destruct l as [|n2 l].
    - rewrite (proj2 (Z.ltb_lt j i)) by done. destruct a; cbn [negb].
      + rewrite (fit_before_id nx s j m i n) by done. cbn [mbind outcome_bind]. exists [nx; s], w'. left. split_and!; [done| |].
        * exists j, m. split_and!; try done. by exists i, n.
        * eapply inserted_sub; [done|set_solver|set_solver].
      + exists [nx], w'. by left.
    - destruct (IH w (nx :: prev) j) as (l' & w2 & -> & Hq' & Hins); [by exists m|done|lia|done|done|]. rewrite Ea in Hins.
      exists (nx :: l'), w2. left. split_and!; [cbn [rev]; by rewrite <- app_assoc|by exists j, m|by apply inserted_cons]. }
  destruct prev as [|pv prev].
  - destruct (Z.ltb_spec i j) as [Hlt|Hge].
    + rewrite (fit_before_id s nx i n j m) by done. cbn [mbind outcome_bind]. destruct a; cbn [negb].
      * exists (s :: nx :: l), w'. split_and!; [done| |eapply inserted_sub; [done|set_solver|set_solver]].
        exists i, n. split_and!; try done. exists j, m. by split_and!.
      * by exists (nx :: l), w'.
    + destruct Hgo as (l' & w2 & [[E Hq']|]); [by exists l', w2|lia].
  - destruct Hpv as (mp & Gp & Hp). pose proof (g_range _ _ _ Gp). rewrite (g_seq _ _ _ Gp), sq_lt by lia.
    rewrite (proj2 (Z.ltb_lt lo i)) by done. cbn [andb]. destruct (Z.ltb_spec i j) as [Hlt|Hge].
    + rewrite (fit_before_id s nx i n j m) by done. cbn [mbind outcome_bind]. destruct a; cbn [negb].
      * rewrite (fit_before_id pv s lo mp i n) by done. cbn [mbind outcome_bind]. exists (s :: nx :: l), w'. split_and!.
        { f_equal. f_equal. f_equal. cbn [rev]. by rewrite <- app_assoc. }
        { exists i, n. split_and!; try done. exists j, m. by split_and!. }
        eapply inserted_sub; [done|set_solver|set_solver].
      * by exists (nx :: l), w'.
    + destruct Hgo as (l' & w2 & [[E Hq']|]); [by exists l', w2|lia].
Qed.

Lemma out_of_sequence_ok w s p r i n : genuine s i n -> (i, n) ∈ F -> 0 < TCP_TCPLEN s -> r < i -> rinv p r ->
  exists s' p' w', out_of_sequence w s p = Ok (s', p', w') /\ rinv p' r /\ recv_data p' = recv_data p /\
    settled (ooseq p) r (ooseq p') /\ (fst (alloc w) = true -> queued (ooseq p') i (TCP_TCPLEN s)).
Proof.
  intros G Hin Ht Hri [En Hr Hw Hq]. unfold out_of_sequence. cbv zeta. pcb_simpl. destruct (ooseq p) as [|o l] eqn:Eo.
  - assert (forall l', settled [] r l') as Hset by (intros l' j k _ (c & _ & Hc & _); by apply elem_of_nil in Hc).
    destruct (alloc w) as [a w']. eexists _, _, w'. split; [done|]. destruct a; pcb_simpl; (split; [split; pcb_simpl; try done|]).
    + by exists i, n.
    + split_and!; [done|done|]. intros _. exists s, n. split_and!; [left|done|lia].
    + by rewrite Eo.
    + by split_and!.
  - destruct (ooseq_insert_ok s i n G Hin Ht (o :: l) w [] r) as (l' & w' & -> & Hq' & Hk & Hi); try done; [lia|]. cbn [mbind outcome_bind rev app].
    eexists _, _, w'. split; [done|]. pcb_simpl. split; [by split; pcb_simpl|]. split_and!; [done|by apply settled_keep|exact Hi].
Qed.

(** ** The whole of tcp_receive *)

Lemma slice_0 i : slice i 0 = [].
Proof. done. Qed.

(** What a segment at place [i] has to come to, [r] places received before and [r']
    after it: one that begins in the window is handed over or, if there is memory,
    queued; what was queued is handed over in its turn. *)
Definition taken (a : bool) (s : tcp_seg) (i : Z) (p : pcb) (r : Z) (p' : pcb) (r' : Z) : Prop :=
  (i <= r -> 0 < rcv_wnd p -> i + TCP_TCPLEN s <= r') /\
  (r < i < r + rcv_wnd p -> 0 < TCP_TCPLEN s -> a = true -> queued (ooseq p') i (TCP_TCPLEN s)) /\
  settled (ooseq p) r' (ooseq p').

Lemma taken_same a s i p r p' : rinv p r -> ooseq p' = ooseq p -> (i <= r -> 0 < rcv_wnd p -> i + TCP_TCPLEN s <= r) ->
  (r < i < r + rcv_wnd p -> 0 < TCP_TCPLEN s -> False) -> taken a s i p r p' r.
Proof. intros [_ _ _ Hq] E Hpr Hno. split; [done|]. split; [intros Hi Ht; by destruct (Hno Hi Ht)|]. rewrite E. by apply settled_keep. Qed.

Lemma receive_data_ok w s p r i n : rinv p r -> recv_data p = None -> genuine s i n -> (i, n) ∈ F ->
  exists s' p' w' r', receive_data w s p = Ok (s', p', w') /\ rinv p' r' /\ r <= r' /\ dbytes (recv_data p') = slice r (r' - r) /\
    taken (fst (alloc w)) s i p r p' r'.
Proof.
  intros Hinv Hd G Hin. pose proof Hinv as [En Hr Hw Hq]. pose proof (g_range _ _ _ G) as Hi.
  assert (0 <= TCP_TCPLEN s <= ssize + 1 - i) as Ht.
  { rewrite (tcplen_genuine _ _ _ G). destruct (has _ TCP_FIN) eqn:Ef; [destruct (g_fin _ _ _ G Ef)|]; lia. }
  assert (forall q, rinv q r -> recv_data q = None -> ooseq q = ooseq p -> (i <= r -> 0 < rcv_wnd p -> i + TCP_TCPLEN s <= r) ->
    (r < i < r + rcv_wnd p -> 0 < TCP_TCPLEN s -> False) -> forall s' : tcp_seg,
    exists (s1 : tcp_seg) (p' : pcb) (w' : net) r', Ok (s', q, w) = Ok (s1, p', w') /\ rinv p' r' /\ r <= r' /\ dbytes (recv_data p') = slice r (r' - r) /\
    taken (fst (alloc w)) s i p r p' r') as Hsame.
  { intros q Hq' Hdq Eq Hpr Hno s'. exists s', q, w, r. split; [done|]. split; [done|]. split; [done|]. split; [by rewrite Hdq, Z.sub_diag|].
    by apply taken_same. }
  unfold receive_data. cbv zeta. destruct (Z.ltb_spec 0 (TCP_TCPLEN s)) as [Hpos|Hz].
  2: { apply Hsame; [case_match; [by apply rinv_flags|done]|case_match; by pcb_simpl|case_match; by pcb_simpl|lia|lia]. }
  rewrite (g_seq _ _ _ G), En, sq_lt by lia. destruct (Z.ltb_spec i r) as [Hir|Hir].
  - rewrite sq_add, sq_lt by lia. destruct (Z.ltb_spec r (i + TCP_TCPLEN s)) as [Hlt|Hge].
    + destruct (trim_front_ok s i n r G ltac:(lia) ltac:(lia)) as (s1 & -> & G1 & Hh1). cbn [mbind outcome_bind].
      rewrite (g_seq _ _ _ G1), En, sq_add, sq_geq, sq_lt, Z.eqb_refl by lia. rewrite (proj2 (Z.leb_le r r)) by lia. cbn [andb].
      assert (TCP_TCPLEN s1 = i + TCP_TCPLEN s - r) as Et1.
      { rewrite (tcplen_genuine _ _ _ G1), (tcplen_genuine _ _ _ G), Hh1.
        change (TCPH_FLAGS (set_seqno (seg_hdr s) (sq base r))) with (TCPH_FLAGS (seg_hdr s)). lia. }
      destruct (Z.ltb_spec r (r + rcv_wnd p)) as [Hwp|Hwz].
      * destruct (in_sequence_ok s1 p r (i + n - r) i G1) as (s2 & p' & r' & -> & Hinv' & Hle & Hdat & Hset); try done; [lia| |lia|].
        { by replace (r + (i + n - r) - i) with n by lia. }
        cbn [mbind outcome_bind]. exists s2, p', w, r'. split_and!; try done; [lia|]. split; [lia|]. split; [lia|done].
      * apply Hsame; [done|done|done|lia|lia].
    + cbn [mbind outcome_bind]. rewrite (g_seq _ _ _ G). pcb_simpl. rewrite En, sq_add, sq_geq by lia. rewrite (proj2 (Z.leb_gt r i)) by lia.
      cbn [andb]. apply Hsame; [by apply rinv_flags|by pcb_simpl|by pcb_simpl|lia|lia].
  - cbn [mbind outcome_bind]. rewrite (g_seq _ _ _ G), En, sq_add, sq_geq, sq_lt, sq_eqb by lia.
    rewrite (proj2 (Z.leb_le r i)) by lia. cbn [andb]. destruct (Z.ltb_spec i (r + rcv_wnd p)) as [Hwi|Hwi]; [|apply Hsame; [done|done|done|lia|lia]].
    destruct (Z.eqb_spec r i) as [<-|Hne].
    + destruct (in_sequence_ok s p r n r G) as (s2 & p' & r' & -> & Hinv' & Hle & Hdat & Hset); try done; [|].
      { by replace (r + n - r) with n by lia. }
      cbn [mbind outcome_bind]. exists s2, p', w, r'. split_and!; try done; [lia|]. split; [lia|]. split; [lia|done].
    + destruct (out_of_sequence_ok w s p r i n) as (s' & p' & w' & -> & Hinv' & Hd' & Hset & Hqd); try done; [lia|].
      exists s', p', w', r. split_and!; try done; [by rewrite Hd', Hd, Z.sub_diag|]. split; [lia|]. by split.
Qed.

Lemma rinv_ack_frame p p' r : ack_frame p p' -> rinv p r -> rinv p' r.
Proof.
  intros H [En Hr Hw Hq]. kept H.
  assert (rcv_nxt p' = rcv_nxt p /\ rcv_wnd p' = rcv_wnd p /\ ooseq p' = ooseq p) as (E1 & E2 & E3) by done.
  split; rewrite ?E1, ?E2, ?E3; done.
Qed.

Lemma tcp_receive_ok w s p r i n : rinv p r -> cong_ok p -> recv_data p = None -> genuine s i n -> (i, n) ∈ F ->
  exists s' p' w' r', tcp_receive w s p = Ok (s', p', w') /\ rinv p' r' /\ cong_ok p' /\ r <= r' /\
    dbytes (recv_data p') = slice r (r' - r) /\ exists a, (granted w -> a = true) /\ taken a s i p r p' r'.
Proof.
  intros Hinv Hc Hd G Hin. unfold tcp_receive.
  assert (exists p1 w1, (if has (TCPH_FLAGS (seg_hdr s)) TCP_ACK then receive_ack w (seg_hdr s) p else Ok (p, w)) = Ok (p1, w1) /\
    ack_frame p p1 /\ cong_ok p1 /\ (granted w -> granted w1)) as (p1 & w1 & -> & Hf & Hc1 & Hg).
  { destruct (has _ TCP_ACK); [|by exists p, w]. destruct (receive_ack_ok w (seg_hdr s) p Hc) as (p1 & w1 & E & Hc1).
    exists p1, w1. split; [done|]. split; [by eapply receive_ack_frame|]. split; [done|]. by eapply receive_ack_granted. }
  cbn [mbind outcome_bind]. kept Hf. assert (recv_data p1 = recv_data p /\ rcv_wnd p1 = rcv_wnd p /\ ooseq p1 = ooseq p) as (E1 & E2 & E3) by done.
  destruct (receive_data_ok w1 s p1 r i n) as (s' & p' & w' & r' & E & Hinv' & Hle & Hdat & Hpr); try done.
  { by eapply rinv_ack_frame. } { congruence. }
  exists s', p', w', r'. split; [done|]. split; [done|]. split; [|split; [done|split; [done|]]].
  - apply receive_data_frame in E. assert (mss p' = mss p1 /\ cwnd p' = cwnd p1 /\ ssthresh p' = ssthresh p1) as (M1 & M2 & M3)
      by (unfold data_frame, data_keep in E; injection E; done).
    unfold cong_ok in *. by rewrite M1, M2, M3.
  - exists (fst (alloc w1)). split; [intros Hw; by apply granted_alloc, Hg|]. unfold taken in *. by rewrite E2, E3 in Hpr.
Qed.

(** ** Runs

    A segment arrives, or something else happens to the connection (data are sent,
    the application makes room, a timer runs, which may drop the queue). *)
Inductive rstep : pcb * list Z -> pcb * list Z -> Prop :=
  | rs_arrive p got w s i n s' p' w' : genuine s i n -> (i, n) ∈ F -> tcp_receive w s (set_recv_data None p) = Ok (s', p', w') ->
      rstep (p, got) (p', got ++ dbytes (recv_data p'))
  | rs_other p got p' : rcv_nxt p' = rcv_nxt p -> ooseq p' = ooseq p \/ ooseq p' = [] -> 0 <= rcv_wnd p' < 65536 -> cong_ok p' ->
      rstep (p, got) (p', got).

Definition received (x : pcb * list Z) (r : Z) : Prop :=
  rinv x.1 r /\ cong_ok x.1 /\ x.2 = take (Z.to_nat r) S.

Lemma rinv_none p r : rinv p r -> rinv (set_recv_data None p) r.
Proof. intros []. by split; pcb_simpl. Qed.

Lemma rstep_received x y : (exists r, received x r) -> rstep x y -> exists r, received y r.
Proof.
  intros (r & Hinv & Hc & Hg) Hst. destruct Hst as [p got w s i n s' p' w' G Hin E|p got p' E1 E2 E3 E4]; cbn [fst snd] in *.
  - destruct (tcp_receive_ok w s (set_recv_data None p) r i n) as (s1 & p1 & w1 & r' & E' & Hinv' & Hc' & Hle & Hdat & _); try done.
    { by apply rinv_none. }
    rewrite E' in E. simplify_eq. exists r'. split_and!; try done. cbn. rewrite Hdat, take_slice by (destruct Hinv; lia). do 2 f_equal. lia.
  - exists r. split_and!; try done. cbn. destruct Hinv as [En Hr Hw Hq]. split; rewrite ?E1; try done. destruct E2 as [->| ->]; done.
Qed.

End Stream.


(** A stream of five bytes in two segments, of which the second arrives first. *)
Definition wit_stream : list Z := [1; 2; 3; 4; 5].
Definition wit_segs : list (Z * Z) := [(0, 2); (2, 3)].
Definition wit_seg (i : Z) (n : nat) : tcp_seg :=
  MkSeg (Some (MkPbufs [take n (drop (Z.to_nat i) wit_stream)] (Z.of_nat n) 0 1)) (Z.of_nat n) (MkHdr 80 2000 (sq (2 ^ 32 - 3) i) 0 0 0 0 0) [].
Definition wit_pcb : pcb :=
  MkPcb 0 ESTABLISHED 0 false 1 2000 2 80 (2 ^ 32 - 3) TCP_WND 0 0 1460 0 0 0 0 6 6 0 500 0 1460 4096 500 500 4096 0 0 500 TCP_SND_BUF 0
    true 0 true None false false true 0 0 [] [] [] TCP_KEEPDEFAULT 0.
Definition wit_net : net := MkNet 7 (fun _ => Some (MkRt 1 255 1500 0)) [] [] [] [] [].

Lemma wit_genuine i n : (i, n) ∈ wit_segs -> genuine wit_stream (2 ^ 32 - 3) (wit_seg i (Z.to_nat n)) i n.
Proof.
  intros Hin. assert ((i, n) = (0, 2) \/ (i, n) = (2, 3)) as [E|E] by (unfold wit_segs in Hin; set_solver); injection E as -> ->;
    (split; [unfold ssize; cbn; lia|reflexivity|reflexivity| |reflexivity|discriminate]); eexists; (split; [reflexivity|]); repeat split; done.
Qed.

Lemma wit_no_overlap : no_overlap wit_segs.
Proof.
  intros i n j m Hi Hj Hlt. assert ((i, n) = (0, 2) \/ (i, n) = (2, 3)) as [E|E] by (unfold wit_segs in Hi; set_solver);
  assert ((j, m) = (0, 2) \/ (j, m) = (2, 3)) as [E'|E'] by (unfold wit_segs in Hj; set_solver); simplify_eq; lia.
Qed.

Lemma wit_arrive p got w i n s' p' w' got' : (i, n) ∈ wit_segs ->
  tcp_receive w (wit_seg i (Z.to_nat n)) (set_recv_data None p) = Ok (s', p', w') -> got' = got ++ dbytes (recv_data p') ->
  rstep wit_stream (2 ^ 32 - 3) wit_segs (p, got) (p', got').
Proof. intros Hin E ->. eapply rs_arrive; [by apply wit_genuine|done|exact E]. Qed.


(** ** Segmentations that are not reassembled

    Other senders may cut a stream differently when they retransmit. *)
Fixpoint receive_all (w : net) (l : list tcp_seg) (p : pcb) (got : list Z) : outcome (pcb * list Z) :=
  match l with
  | [] => Ok (p, got)
  | s :: l => '(_, p, w) ← tcp_receive w s (set_recv_data None p); receive_all w l p (got ++ dbytes (recv_data p))
  end.

Definition data_seg (seqno : Z) (bs : list Z) (flags : Z) : tcp_seg :=
  MkSeg (Some (MkPbufs [bs] (Z.of_nat (length bs)) 0 1)) (Z.of_nat (length bs)) (MkHdr 80 2000 seqno 0 (htons flags) 0 0 0) [].

Definition run_from (nxt : Z) (l : list tcp_seg) : outcome (Z * list Z) :=
  '(p, got) ← receive_all wit_net l (set_rcv_nxt nxt wit_pcb) []; Ok (rcv_nxt p, got).

(** A FIN that overlaps a queued segment is kept when the data before it are cut: the
    acknowledgement passes over a byte that has not been handed on. *)
Lemma fin_overlap_skips_byte :
  run_from 1000 [data_seg 1003 [4; 5; 6] TCP_FIN; data_seg 1000 [1; 2; 3; 4; 5; 6] TCP_FIN] = Ok (1004, [1; 2; 3]).
Proof. vm_compute. reflexivity. Qed.

(** A longer segment with the same start replaces a queued one without a cut, so the one
    behind it is stale.  The next segment in sequence is then cut to a negative length,
    the acknowledgement moves back to the stale one, and that is put on a NULL chain. *)
Definition overlapping : list tcp_seg :=
  [data_seg 1002 [3; 4] 0; data_seg 1006 [7; 8] 0; data_seg 1002 [3; 4; 5; 6; 7; 8] 0; data_seg 1000 [1; 2] 0].

Lemma replaced_segment_faults :
  run_from 1000 overlapping = Ok (1008, [1; 2; 3; 4; 5; 6; 7; 8]) /\
  run_from 1000 (overlapping ++ [data_seg 1008 [9; 10] 0]) = Fault.
Proof. split; vm_compute; reflexivity. Qed.

(** Queued data behind a FIN without data: the chain they are to be put on is NULL. *)
Lemma data_behind_fin_faults :
  run_from 1000 [data_seg 1001 [2; 3] 0; data_seg 1000 [] TCP_FIN] = Fault.
Proof. vm_compute. reflexivity. Qed.
