(* ===== verification/TcpSend.v ===== *)
(** * Sending: what tcp_output gives to IP

    The application writes a stream of bytes and may close it.  Whatever is
    acknowledged, retransmitted, joined and split, the queues hold consecutive
    segments of that stream, and each packet sent carries the bytes its sequence
    number stands for. *)

From S2P Require Import Prelude Inet Ether Tcp TcpBase TcpRecv.

(** ** The queues *)

Definition total (T : list Z) (c : bool) : Z := ssize T + (if c then 1 else 0).

(** The [n] places from [i] on overlap none of the segments sent, but for those that
    begin at [i]. *)
Definition clear_of (F : list (Z * Z)) (i n : Z) : Prop :=
  forall i' n', (i', n') ∈ F -> (i' < i -> i' + n' <= i) /\ (i < i' -> i + n <= i').

(** The states in which tcp_write takes data. *)
Definition writable (st : tcp_state) : bool :=
  is_state st SYN_SENT || is_state st SYN_RCVD || is_state st ESTABLISHED || is_state st CLOSE_WAIT.

Section Sender.

(** The sequence number of the first byte; the ports; and the sequence numbers of the
    peer that may be acknowledged. *)
Context (b lport rport : Z) (Ack : Z -> Prop).

(** The flags of a segment at [i]: a FIN stands alone behind the stream. *)
Definition flags_ok (T : list Z) (c : bool) (i n f : Z) : Prop :=
  has f TCP_SYN = false /\ has f TCP_RST = false /\ (has f TCP_FIN = true -> c = true /\ i = ssize T /\ n = 0).

Record ogen (T : list Z) (c : bool) (s : tcp_seg) (i n : Z) : Prop := {
  og_range : 0 <= i /\ 0 <= n /\ i + n <= ssize T;
  og_seq : th_seqno (seg_hdr s) = htonl (sq b i);
  og_len : seg_len s = n;
  og_data : seg_bytes s = slice T i n /\ seg_p s <> None;
  og_opts : seg_opts s = [];
  og_ports : th_src (seg_hdr s) = htons lport /\ th_dest (seg_hdr s) = htons rport;
  og_flags : exists f, of_ok (seg_hdr s) 80 f /\ flags_ok T c i n f /\ (0 < n \/ has f TCP_FIN = true) }.

(** The places a segment of [n] bytes takes; one without bytes is a FIN. *)
Definition places (n : Z) : Z := if n =? 0 then 1 else n.

(** The segments follow each other from place [i] to [e]. *)
Fixpoint tiles (T : list Z) (c : bool) (F : list (Z * Z)) (i : Z) (l : list tcp_seg) (e : Z) : Prop :=
  match l with
  | [] => i = e
  | s :: l => exists n, ogen T c s i n /\ clear_of F i n /\ tiles T c F (i + places n) l e
  end.

(** A packet carries the bytes of its place, or none. *)
Record pk_ok (T : list Z) (c : bool) (F : list (Z * Z)) (k : tpacket) : Prop := {
  pk_place : exists i n f, 0 <= i /\ 0 <= n /\ i + n <= total T c /\ th_seqno (pk_hdr k) = htonl (sq b i) /\ pk_data k = slice T i n /\
    of_ok (pk_hdr k) 80 f /\ flags_ok T c i n f /\
    (n = 0 /\ has f TCP_FIN = false \/ (i, n) ∈ F);
  pk_noopts : pk_opts k = [];
  pk_ports : th_src (pk_hdr k) = htons lport /\ th_dest (pk_hdr k) = htons rport;
  pk_ackno : exists a, Ack a /\ th_ackno (pk_hdr k) = htonl a }.

(** What was sent lies inside the stream. *)
Definition sent_ok (T : list Z) (c : bool) (F : list (Z * Z)) : Prop :=
  no_overlap F /\ forall i n, (i, n) ∈ F -> 0 <= i /\ 0 <= n /\ i + n <= ssize T /\ (n = 0 -> c = true).

Record sinv (p : pcb) (w : net) (T : list Z) (c : bool) (F : list (Z * Z)) : Prop := {
  si_ports : local_port p = lport /\ remote_port p = rport;
  si_mss : 0 < mss p;
  si_queue : exists i, 0 <= i /\ tiles T c F i (unacked p ++ unsent p) (total T c);
  si_lbb : snd_lbb p = sq b (total T c);
  si_nxt : exists x, 0 <= x <= total T c /\ snd_nxt p = sq b x;
  si_ack : exists la sm, 0 <= la <= sm /\ sm <= total T c /\ lastack p = sq b la /\ snd_max p = sq b sm;
  si_closed : c = true -> writable (state p) = false;
  si_sent : sent_ok T c F;
  si_out : Forall (pk_ok T c F) (out w) }.

(** ** Segments and tiles *)

Lemma ogen_tcplen T c s i n : ogen T c s i n -> TCP_TCPLEN s = places n.
Proof.
  intros G. destruct (og_flags _ _ _ _ _ G) as (f & Ho & (Hs & _ & Hf) & Hn). pose proof (og_range _ _ _ _ _ G).
  unfold TCP_TCPLEN, places. rewrite (of_flags _ _ _ Ho), (og_len _ _ _ _ _ G), Hs, orb_false_r.
  destruct (has f TCP_FIN), (Z.eqb_spec n 0); lia.
Qed.

Lemma ogen_pos T c s i n : ogen T c s i n -> 0 < places n /\ n <= places n /\ i + places n <= total T c.
Proof.
  intros G. destruct (og_flags _ _ _ _ _ G) as (f & Ho & (Hs & _ & Hf) & Hn). pose proof (og_range _ _ _ _ _ G).
  unfold total, places. destruct (Z.eqb_spec n 0); [|case_match; lia]. destruct Hn; [lia|]. destruct Hf as (-> & -> & _); [done|lia].
Qed.

Lemma oseq_ogen T c s i n : ogen T c s i n -> oseq s = sq b i.
Proof. intros G. unfold oseq. rewrite (og_seq _ _ _ _ _ G). apply ntohl_htonl, sq_range. Qed.

(** Only what [ogen] speaks of counts. *)
Lemma ogen_ext T c s s' i n : seg_len s' = seg_len s -> seg_bytes s' = seg_bytes s -> (seg_p s' = None <-> seg_p s = None) ->
  seg_opts s' = seg_opts s -> th_seqno (seg_hdr s') = th_seqno (seg_hdr s) -> th_offset_flags (seg_hdr s') = th_offset_flags (seg_hdr s) ->
  th_src (seg_hdr s') = th_src (seg_hdr s) -> th_dest (seg_hdr s') = th_dest (seg_hdr s) -> ogen T c s i n -> ogen T c s' i n.
Proof.
  intros E1 E2 E3 E4 E5 E6 E7 E8 [R Q L D O P (f & Hf & Hr)]. split; rewrite ?E1, ?E2, ?E3, ?E4, ?E5, ?E7, ?E8; try done.
  exists f. split; [|done]. unfold of_ok. by rewrite E6.
Qed.

(** Flags other than SYN, RST and FIN may be added. *)
Lemma ogen_add_flag T c s i n m : 0 <= m < 256 -> Z.land m TCP_SYN = 0 -> Z.land m TCP_RST = 0 -> Z.land m TCP_FIN = 0 ->
  ogen T c s i n -> ogen T c (set_seg_hdr s (TCPH_FLAGS_SET (seg_hdr s) (Z.lor (TCPH_FLAGS (seg_hdr s)) m))) i n.
Proof.
  intros Hm H1 H2 H3 [R Q L D O P (f & Hf & Hr & Hn)]. split; try done. exists (Z.lor f m). rewrite (of_flags _ _ _ Hf).
  destruct (Hf) as (_ & Hfr & _). split; [eapply of_set_flags; [done|]; by apply (lor_range 8)|].
  unfold flags_ok. by rewrite !has_lor.
Qed.

Lemma clear_cons F i n j m : clear_of F i n -> (j < i -> j + m <= i) -> (i < j -> i + n <= j) -> clear_of ((j, m) :: F) i n.
Proof. intros H H1 H2 i' n' [E|Hin]%elem_of_cons; [by simplify_eq|by apply H]. Qed.

(** A segment given to IP leaves the others behind it in place. *)
Lemma tiles_sent T c F i l e j n : j + n <= i -> (n = 0 -> j < i) -> 0 <= n -> tiles T c F i l e -> tiles T c ((j, n) :: F) i l e.
Proof.
  revert i. induction l as [|s l IH]; intros i Hj Hn H0; [done|]. intros (m & G & Hc & Ht). exists m. split; [done|].
  split; [apply clear_cons; [done|lia|lia]|]. pose proof (ogen_pos _ _ _ _ _ G). apply IH; try done; lia.
Qed.

Lemma tiles_le T c F i l e : tiles T c F i l e -> i <= e.
Proof.
  revert i. induction l as [|s l IH]; intros i; cbn; [lia|]. intros (m & G & _ & Ht). apply IH in Ht.
  pose proof (ogen_pos _ _ _ _ _ G). lia.
Qed.

Lemma tiles_before T c F i l e j n : e <= j -> tiles T c F i l e -> tiles T c ((j, n) :: F) i l e.
Proof.
  revert i. induction l as [|s l IH]; intros i Hj; [done|]. intros (m & G & Hc & Ht). exists m. split; [done|].
  pose proof (ogen_pos _ _ _ _ _ G). pose proof (tiles_le _ _ _ _ _ _ Ht).
  split; [apply clear_cons; [done|lia|lia]|]. by apply IH.
Qed.

Lemma tiles_app T c F i l1 l2 e : tiles T c F i (l1 ++ l2) e <-> exists j, tiles T c F i l1 j /\ tiles T c F j l2 e.
Proof.
  revert i. induction l1 as [|s l1 IH]; intros i; cbn; [naive_solver|]. setoid_rewrite IH. naive_solver.
Qed.
(** ** tcp_output *)

Lemma pk_ok_cons T c F k x : pk_ok T c F k -> pk_ok T c (x :: F) k.
Proof.
  intros [(i & n & f & H0 & H1 & H2 & H3 & H4 & H5 & H6 & H7) O P A]. split; try done. exists i, n, f. split_and!; try done.
  destruct H7 as [?|?]; [by left|right; apply elem_of_cons; by right].
Qed.

Lemma sent_cons T c F s i n : sent_ok T c F -> ogen T c s i n -> clear_of F i n -> sent_ok T c ((i, n) :: F).
Proof.
  intros [Hn Hs] G Hc. split.
  - intros j m j' m' [E|H]%elem_of_cons [E'|H']%elem_of_cons Hlt; simplify_eq; [lia|by apply (Hc _ _ H')|by apply (Hc _ _ H)|by eapply Hn].
  - intros j m [E|H]%elem_of_cons; [simplify_eq|by apply Hs]. pose proof (og_range _ _ _ _ _ G).
    destruct (og_flags _ _ _ _ _ G) as (f & _ & (_ & _ & Hf) & Hp). split_and!; try lia. intros ->. destruct Hp; [lia|]. by apply Hf.
Qed.

(** The packet made of a segment. *)
Lemma seg_packet T c F s i n src dst a wnd r : ogen T c s i n -> (i, n) ∈ F -> Ack a ->
  pk_ok T c F (MkPkt src dst (with_chksum r src dst (set_ackno_wnd (seg_hdr s) (htonl a) wnd) (seg_opts s) (seg_bytes s))
                 (seg_opts s) (seg_bytes s)).
Proof.
  intros G Hin Ha. destruct (og_flags _ _ _ _ _ G) as (f & Hf & Hok & _). pose proof (og_range _ _ _ _ _ G).
  assert (forall h, th_seqno (with_chksum r src dst h (seg_opts s) (seg_bytes s)) = th_seqno h /\
    th_ackno (with_chksum r src dst h (seg_opts s) (seg_bytes s)) = th_ackno h /\
    th_offset_flags (with_chksum r src dst h (seg_opts s) (seg_bytes s)) = th_offset_flags h /\
    th_src (with_chksum r src dst h (seg_opts s) (seg_bytes s)) = th_src h /\
    th_dest (with_chksum r src dst h (seg_opts s) (seg_bytes s)) = th_dest h) as Hw
    by (intros h; unfold with_chksum; case_match; done).
  split; cbn [pk_hdr pk_data pk_opts].
  - exists i, n, f. unfold of_ok. destruct (Hw (set_ackno_wnd (seg_hdr s) (htonl a) wnd)) as (-> & _ & -> & _).
    destruct (og_data _ _ _ _ _ G) as [-> _]. split_and!; try apply Hf; try lia; try done.
    + unfold total. case_match; lia.
    + apply (og_seq _ _ _ _ _ G).
    + by right.
  - apply (og_opts _ _ _ _ _ G).
  - destruct (Hw (set_ackno_wnd (seg_hdr s) (htonl a) wnd)) as (_ & _ & _ & -> & ->). apply (og_ports _ _ _ _ _ G).
  - exists a. by destruct (Hw (set_ackno_wnd (seg_hdr s) (htonl a) wnd)) as (_ & -> & _).
Qed.

Lemma ip_output_pk T c F w k rc w' : ip_output_if w k = (rc, w') -> pk_ok T c F k -> Forall (pk_ok T c F) (out w) -> Forall (pk_ok T c F) (out w').
Proof.
  unfold ip_output_if. intros. simplify_eq. cbn [out]. case_match; [done|]. apply Forall_app. split; [done|]. by constructor.
Qed.

Lemma output_segment_ok T c F w s p s' p' w' i n : tcp_output_segment w s p = (s', p', w') -> ogen T c s i n -> (i, n) ∈ F ->
  Ack (rcv_nxt p) -> Forall (pk_ok T c F) (out w) -> ogen T c s' i n /\ Forall (pk_ok T c F) (out w').
Proof.
  intros E G Hin Ha Hw. destruct (output_segment_seg _ _ _ _ _ _ E) as (E1 & E2 & _ & E3 & E4 & E5 & E6 & E7). split.
  - eapply ogen_ext; [..|exact G]; try done. revert E. unfold tcp_output_segment. case_match; [intros; by simplify_eq|].
    case_match; [|intros; by simplify_eq]. destruct (ip_output_if _ _). intros. simplify_eq. unfold set_ref. repeat case_match; cbn in *; simplify_eq; naive_solver.
  - revert E. unfold tcp_output_segment. case_match; [intros; by simplify_eq|]. case_match; [|intros; by simplify_eq]. cbv zeta.
    destruct (ip_output_if _ _) eqn:Eo. intros. simplify_eq. eapply ip_output_pk; [exact Eo| |done].
    by apply (seg_packet T c F s i n).
Qed.

(** One segment goes from the unsent queue to the unacknowledged one. *)
Lemma sinv_send T c F p w s l i n p' w' s' x m : total T c < 2 ^ 31 -> sinv p w T c F -> unsent p = s :: l ->
  tiles T c F x (unacked p) i -> tiles T c F (i + places n) l (total T c) -> 0 <= x -> clear_of F i n -> ogen T c s' i n ->
  out_frame p p' -> unacked p' = unacked p ++ [s'] -> unsent p' = l -> snd_nxt p' = sq b (i + places n) ->
  snd_max p' = (if TCP_SEQ_LT (snd_max p) (snd_nxt p') then snd_nxt p' else snd_max p) ->
  m = (i, n) -> Forall (pk_ok T c (m :: F)) (out w') -> sinv p' w' T c (m :: F).
Proof.
  intros HT [Hp Hm Hq Hl Hn (la & sm & Ha1 & Ha2 & Ha3 & Ha4) Hcl Hs Ho] El Ht1 Ht2 Hx Hc G Hf Ea Eu En Em -> Hw. kept Hf.
  pose proof (ogen_pos _ _ _ _ _ G) as Hpos. pose proof (og_range _ _ _ _ _ G) as Hr.
  assert (n = 0 -> i < i + places n) by lia.
  split; rewrite ?Ea, ?Eu; try congruence.
  - exists x. split; [done|]. rewrite <- app_assoc. apply tiles_app. exists i. split; [by apply tiles_before|].
    cbn [app tiles]. exists n. split; [done|]. split; [apply clear_cons; [done|lia|lia]|]. apply tiles_sent; try done; lia.
  - exists (i + places n). split; [lia|congruence].
  - rewrite En, Ha4, sq_lt in Em by lia. exists la, (Z.max sm (i + places n)). split_and!; try lia; try congruence.
    rewrite Em. case_match eqn:Ec; f_equal; lia.
  - intros Hct. specialize (Hcl Hct). congruence.
  - by eapply sent_cons.
Qed.

Lemma output_loop_ok T c wnd l : total T c < 2 ^ 31 -> forall F w p p' w', unsent p = l -> output_loop wnd l w p = (p', w') ->
  Ack (rcv_nxt p) -> sinv p w T c F -> exists F', sinv p' w' T c F' /\ F ⊆ F'.
Proof.
  intros HT. induction l as [|s l IH]; intros F w p p' w' El E Ha Hi; cbn [output_loop] in E; [simplify_eq; by exists F|].
  case_match; [|simplify_eq; by exists F]. destruct (si_queue _ _ _ _ _ Hi) as (x & Hx & Ht). rewrite El in Ht.
  apply tiles_app in Ht as (i & Ht1 & n & G & Hc & Ht2).
  assert (exists s1 p1, (if is_state (state (set_unsent l (set_rtime 0 p))) SYN_SENT then (s, set_unsent l (set_rtime 0 p))
     else (set_seg_hdr s (TCPH_FLAGS_SET (seg_hdr s) (Z.lor (TCPH_FLAGS (seg_hdr s)) TCP_ACK)),
           set_flags (setoff (flags (set_unsent l (set_rtime 0 p))) (Z.lor TF_ACK_DELAY TF_ACK_NOW)) (set_unsent l (set_rtime 0 p)))) = (s1, p1) /\
     ogen T c s1 i n /\ out_frame p p1 /\ unsent p1 = l /\ unacked p1 = unacked p /\ snd_max p1 = snd_max p) as
     (s1 & p1 & E1 & G1 & Hf1 & U1 & A1 & M1).
  { destruct (is_state _ _); eexists _, _; (split; [reflexivity|]); split_and!; try done. by apply ogen_add_flag. }
  cbv zeta in E. rewrite E1 in E. clear E1.
  rewrite (oseq_ogen _ _ _ _ _ G1), (ogen_tcplen _ _ _ _ _ G1), sq_add in E. set (v := sq b (i + places n)) in *.
  set (p2 := if TCP_SEQ_LT _ _ then _ else _) in E.
  assert (out_frame p p2 /\ unsent p2 = l /\ unacked p2 = unacked p /\ snd_nxt p2 = v /\
    snd_max p2 = if TCP_SEQ_LT (snd_max p) v then v else snd_max p) as (Hf2 & U2 & A2 & N2 & M2).
  { subst p2. pcb_simpl. rewrite <- M1. destruct (TCP_SEQ_LT _ _); split_and!; try done; (etransitivity; [exact Hf1|frame]). }
  clearbody p2. destruct (tcp_output_segment w s1 p2) as [[s' p3] w1] eqn:Eo.
  pose proof (output_segment_frame _ _ _ _ _ _ Eo) as Hf3. destruct (output_segment_queues _ _ _ _ _ _ Eo) as (U3 & A3 & N3 & M3 & _).
  destruct (output_segment_ok T c ((i, n) :: F) _ _ _ _ _ _ i n Eo) as (G' & Hw1); try done.
  { set_solver. } { by rewrite (out_frame_nxt _ _ Hf2). } { eapply Forall_impl; [apply Hi|]. intros k Hk. by apply pk_ok_cons. }
  pose proof (ogen_pos _ _ _ _ _ G1) as Hpos. rewrite (proj2 (Z.ltb_lt 0 (places n))) in E by lia.
  assert (out_frame p (set_unacked (unacked p3 ++ [s']) p3)) as Hf4 by (etransitivity; [exact Hf2|]; etransitivity; [exact Hf3|frame]).
  destruct (IH ((i, n) :: F) w1 (set_unacked (unacked p3 ++ [s']) p3) p' w') as (F' & Hi' & Hsub); [pcb_simpl; congruence|exact E| | |].
  { by rewrite (out_frame_nxt _ _ Hf4). }
  - eapply (sinv_send T c F p w s l i n); try done; pcb_simpl; try congruence. all: by rewrite ?M3, ?N3, ?N2, ?M2.
  - exists F'. split; [done|]. set_solver.
Qed.

(** Changes to other fields. *)
Lemma sinv_ext p p' w w' T c F : sinv p w T c F ->
  local_port p' = local_port p -> remote_port p' = remote_port p -> mss p' = mss p -> unacked p' ++ unsent p' = unacked p ++ unsent p ->
  snd_lbb p' = snd_lbb p -> (exists x, 0 <= x <= total T c /\ snd_nxt p' = sq b x) -> lastack p' = lastack p -> snd_max p' = snd_max p ->
  (writable (state p') = true -> writable (state p) = true) -> out w' = out w -> sinv p' w' T c F.
Proof.
  intros [Hp Hm Hq Hl Hn Ha Hcl Hs Ho] E1 E2 E3 E4 E5 E6 E7 E8 E9 E10. split; rewrite ?E1, ?E2, ?E3, ?E4, ?E5, ?E7, ?E8, ?E10; try done.
  intros Hc. destruct (writable (state p')); [|done]. rewrite E9 in Hcl by done. by apply Hcl.
Qed.

Lemma send_ack_ok T c F w p rc w' : tcp_send_ack w p = (rc, w') -> Ack (rcv_nxt p) -> sinv p w T c F -> sinv p w' T c F.
Proof.
  intros E Ha Hi. assert (Forall (pk_ok T c F) (out w')) as Hw; [|by destruct Hi]. pose proof (si_out _ _ _ _ _ Hi) as Hw.
  revert E. unfold tcp_send_ack. case_match; [|intros; by simplify_eq]. destruct (alloc w) as [a w1] eqn:Ew.
  assert (out w1 = out w) as Eo by (pose proof (alloc_out w) as E; by rewrite Ew in E).
  case_match; [intros; simplify_eq; by rewrite Eo|]. destruct (ip_output_if _ _) eqn:Ei. intros. simplify_eq.
  eapply ip_output_pk; [exact Ei| |by rewrite Eo]. destruct (si_nxt _ _ _ _ _ Hi) as (x & Hx & Hn). destruct (si_ports _ _ _ _ _ Hi) as [Hp1 Hp2].
  set (h0 := MkHdr (htons (local_port p)) (htons (remote_port p)) (htonl (snd_nxt p)) (htonl (rcv_nxt p)) 0 (wnd_field p) 0 0).
  assert (of_ok (TCPH_OFFSET_SET (TCPH_FLAGS_SET h0 TCP_ACK) (Z.shiftl 5 4)) 80 TCP_ACK) as Hof.
  { eapply of_set_offset; [|cbv; split; congruence]. eapply of_set_flags; [|cbv; split; congruence].
    instantiate (1 := 0). instantiate (1 := 0). cbv. repeat split; congruence. }
  unfold ctrl_packet. fold h0. split; cbn [pk_hdr pk_data pk_opts]; [|done|..].
  - exists x, 0, TCP_ACK. split_and!; try lia; try done.
    + unfold with_chksum. case_match; cbn; by rewrite Hn.
    + unfold with_chksum. case_match; exact Hof.
    + by left.
  - unfold with_chksum. case_match; cbn; by rewrite Hp1, Hp2.
  - exists (rcv_nxt p). split; [done|]. unfold with_chksum. by case_match.
Qed.

Lemma tcp_output_ok T c F w p rc p' w' : total T c < 2 ^ 31 -> tcp_output w p = (rc, p', w') -> Ack (rcv_nxt p) -> sinv p w T c F ->
  exists F', sinv p' w' T c F' /\ F ⊆ F'.
Proof.
  intros HT E Ha Hi. unfold tcp_output in E. destruct (output_loop _ _ _ _) as [p1 w1] eqn:El.
  destruct (output_loop_ok T c _ _ HT F w p p1 w1 eq_refl El Ha Hi) as (F' & Hi' & Hsub).
  pose proof (out_frame_nxt _ _ (output_loop_frame _ _ _ _ _ _ El)) as En. exists F'. split; [|done]. case_match; [|by simplify_eq].
  destruct (tcp_send_ack _ _) eqn:Ea. simplify_eq. eapply send_ack_ok; [exact Ea|pcb_simpl; by rewrite En|].
  eapply sinv_ext; [exact Hi'|..]; try done. apply (si_nxt _ _ _ _ _ Hi').
Qed.

Lemma tcp_rexmit_ok T c F w p p' w' : total T c < 2 ^ 31 -> tcp_rexmit w p = (p', w') -> Ack (rcv_nxt p) -> sinv p w T c F ->
  exists F', sinv p' w' T c F' /\ F ⊆ F'.
Proof.
  intros HT E Ha Hi. unfold tcp_rexmit in E. destruct (unacked p) as [|s l] eqn:Eu; [simplify_eq; by exists F|]. cbv zeta in E.
  destruct (tcp_output _ _) as [[rc p1] w1] eqn:Eo. simplify_eq. eapply tcp_output_ok; [done|exact Eo|done|].
  destruct (si_queue _ _ _ _ _ Hi) as (i & Hi0 & Ht). rewrite Eu in Ht. destruct Ht as (n & G & _ & _). pose proof (ogen_pos _ _ _ _ _ G).
  pose proof (og_range _ _ _ _ _ G).
  eapply sinv_ext; [exact Hi|..]; pcb_simpl; try done; [by rewrite Eu|]. exists i. split; [lia|]. by eapply oseq_ogen.
Qed.

(** ** Acknowledgements *)

(** Comparing an acknowledgement with the end of a segment. *)
Lemma all_acked_ogen T c s i n r : total T c < 2 ^ 31 -> ogen T c s i n -> 0 <= r <= total T c ->
  all_acked (sq b r) s = (i + places n <=? r).
Proof.
  intros HT G Hr. pose proof (ogen_pos _ _ _ _ _ G). pose proof (og_range _ _ _ _ _ G). unfold all_acked.
  rewrite (oseq_ogen _ _ _ _ _ G), (ogen_tcplen _ _ _ _ _ G), sq_add, sq_leq; [done|lia].
Qed.

Lemma tiles_elem T c F x l e s : tiles T c F x l e -> 0 <= x -> s ∈ l -> exists i n, ogen T c s i n /\ x <= i /\ i + places n <= e.
Proof.
  revert x. induction l as [|s' l IH]; intros x Ht Hx Hin; [set_solver|]. destruct Ht as (n & G & _ & Ht).
  pose proof (ogen_pos _ _ _ _ _ G). pose proof (tiles_le _ _ _ _ _ _ Ht). apply elem_of_cons in Hin as [->|Hin].
  - exists x, n. split; [done|lia].
  - destruct (IH _ Ht ltac:(lia) Hin) as (i & m & Gi & ? & ?). exists i, m. split; [done|lia].
Qed.

(** What is left when everything up to [r] is dropped. *)
Lemma tiles_acked T c F x u1 u2 s1 s2 r : total T c < 2 ^ 31 -> 0 <= r <= total T c -> 0 <= x ->
  tiles T c F x ((u1 ++ u2) ++ s1 ++ s2) (total T c) ->
  (forall s, head u2 = Some s -> all_acked (sq b r) s = false) -> Forall (fun s => all_acked (sq b r) s = true) s1 ->
  exists y, 0 <= y /\ tiles T c F y (u2 ++ s2) (total T c).
Proof.
  intros HT Hr Hx Ht Hu Hs. rewrite <- app_assoc in Ht. apply tiles_app in Ht as (y & Ht1 & Ht). pose proof (tiles_le _ _ _ _ _ _ Ht1).
  destruct u2 as [|s u2].
  - cbn [app] in Ht |- *. apply tiles_app in Ht as (z & Ht2 & Ht). pose proof (tiles_le _ _ _ _ _ _ Ht2). exists z. split; [lia|done].
  - destruct s1 as [|t s1]; [exists y; split; [lia|done]|]. exfalso. specialize (Hu s eq_refl). apply Forall_cons in Hs as [Hs _].
    destruct Ht as (n & G & _ & Ht). pose proof (ogen_pos _ _ _ _ _ G). rewrite (all_acked_ogen _ _ _ _ _ _ HT G Hr) in Hu.
    destruct (tiles_elem _ _ _ _ _ _ t Ht ltac:(lia)) as (j & m & Gj & ? & ?); [set_solver|].
    rewrite (all_acked_ogen _ _ _ _ _ _ HT Gj Hr) in Hs. pose proof (ogen_pos _ _ _ _ _ Gj). lia.
Qed.

Lemma new_ack_send T c F w p p' la r : total T c < 2 ^ 31 -> sinv p w T c F -> lastack p = sq b la -> 0 <= la < r ->
  (exists sm, r <= sm <= total T c /\ snd_max p = sq b sm) -> new_ack (sq b r) p = Ok p' -> sinv p' w T c F.
Proof.
  intros HT Hi El Hr (sm & Hsm & Em) (u1 & u2 & s1 & s2 & Eu & Es & A & U & Hu & Hs & L & K & N)%new_ack_spec.
  destruct (fkeep_lastack_inv _ _ _ K) as (? & ? & ? & ? & ? & ?).
  destruct Hi as [Hp Hm (x & Hx & Ht) Hl (xn & Hxn & En) _ Hcl Hse Ho]. rewrite Eu, Es in Ht.
  split; try (destruct Hp); try congruence.
  - split; congruence.
  - rewrite A, U. eapply tiles_acked; [done| |done|exact Ht|done|done]. lia.
  - destruct N as [N|(s & Hin & N)]; [exists xn; split; [done|congruence]|]. rewrite N.
    destruct (tiles_elem _ _ _ _ _ _ s Ht Hx) as (i & n & G & ? & ?); [rewrite Es in Hin; set_solver|].
    exists i. split; [pose proof (ogen_pos _ _ _ _ _ G); lia|by eapply oseq_ogen].
  - exists r, sm. split_and!; try lia; congruence.
  - intros Hc. specialize (Hcl Hc). congruence.
Qed.

(** Changes to fields that [sinv] does not speak of. *)
Lemma sinv_same p p' w w' T c F : sinv p w T c F -> fkeep p' = fkeep p -> unacked p' = unacked p -> unsent p' = unsent p ->
  snd_nxt p' = snd_nxt p -> out w' = out w -> sinv p' w' T c F.
Proof.
  intros Hi K A U N O. fkept K. eapply sinv_ext; [exact Hi|..]; try congruence. rewrite N. apply (si_nxt _ _ _ _ _ Hi).
Qed.

Lemma dup_ack_send T c F w e p p' w' : total T c < 2 ^ 31 -> sinv p w T c F -> Ack (rcv_nxt p) -> dup_ack w e p = (p', w') ->
  exists F', sinv p' w' T c F' /\ F ⊆ F'.
Proof.
  intros HT Hi Ha. unfold dup_ack. cbv zeta.
  assert (forall q, fkeep q = fkeep p -> unacked q = unacked p -> unsent q = unsent p -> snd_nxt q = snd_nxt p ->
    exists F', sinv q w T c F' /\ F ⊆ F') as Hq by (intros q ? ? ? ?; exists F; split; [by eapply sinv_same|done]).
  destruct (_ =? e); [|intros; simplify_eq; by apply Hq]. destruct ((3 <=? _) && _ && _); [|intros; simplify_eq; by apply Hq].
  destruct (negb _); [|unfold inflate; intros; simplify_eq; case_match; by apply Hq].
  destruct (tcp_rexmit _ _) as [p1 w1] eqn:E.
  destruct (tcp_rexmit_ok T c F _ _ _ _ HT E) as (F' & Hi' & Hsub); [done| |].
  { by eapply sinv_same; [exact Hi|..]. }
  intros. simplify_eq. exists F'. split; [|done]. by eapply sinv_same; [exact Hi'|..].
Qed.

(** An acknowledgement that tcp_receive takes for new lies between lastack and
    snd_max, unless nothing is outstanding and it is 2^31 places ahead. *)
Lemma ack_in_range a la sm : 0 <= a < 2 ^ 32 -> 0 <= la <= sm -> sm < 2 ^ 31 -> a <> u32 (sq b la + 2 ^ 31) ->
  TCP_SEQ_LT (sq b la) a = true -> TCP_SEQ_LEQ a (sq b sm) = true -> exists r, la < r <= sm /\ a = sq b r.
Proof.
  intros Ha Hl Hs Hne H1 H2. pose proof (s32_range (a - sq b la)) as Hd. pose proof (u32_s32 a (sq b la) Ha) as Ed.
  set (d := s32 (a - sq b la)) in *. rewrite sq_add in Ed.
  assert (d <> - 2 ^ 31) as Hd'.
  { intros E. apply Hne. rewrite <- Ed, E, sq_add. unfold sq. rewrite <- (u32_add_mul _ 1). f_equal. lia. }
  rewrite <- Ed in H1, H2. rewrite sq_lt in H1 by lia. apply Z.ltb_lt in H1. rewrite sq_leq in H2 by lia. apply Z.leb_le in H2.
  exists (la + d). split; [lia|done].
Qed.

Lemma receive_ack_send T c F w h p p' w' : total T c < 2 ^ 31 -> sinv p w T c F -> Ack (rcv_nxt p) -> 0 <= th_ackno h < 2 ^ 32 ->
  th_ackno h <> u32 (lastack p + 2 ^ 31) -> receive_ack w h p = Ok (p', w') -> exists F', sinv p' w' T c F' /\ F ⊆ F'.
Proof.
  intros HT Hi Ha Hr Hne. unfold receive_ack. cbv zeta. intros H. apply bind_Ok_inv in H as ([p1 w1] & Hm & H). injection H as <- <-.
  enough (exists F', sinv p1 w1 T c F' /\ F ⊆ F') as (F' & Hi' & Hsub).
  { exists F'. split; [|done]. destruct (estimate_rtt_keep (tcp_ticks w1) (th_ackno h) p1) as (? & ? & ? & ?). by eapply sinv_same; [exact Hi'|..]. }
  destruct (update_window_keep h p) as (K & A & U & N & R). assert (sinv (update_window h p) w T c F) as Hiu by (by eapply sinv_same; [exact Hi|..]).
  assert (lastack (update_window h p) = lastack p) as L by (by fkept K).
  revert Hm Hiu R L. generalize (update_window h p). intros q Hm Hiu R L. rewrite <- R in Ha. rewrite <- L in Hne.
  destruct (Z.eqb_spec (lastack q) (th_ackno h)).
  - injection Hm as Hm. by eapply dup_ack_send.
  - destruct (TCP_SEQ_LT _ _ && _) eqn:E; [|injection Hm as <- <-; by exists F]. apply andb_true_iff in E as [E1 E2].
    apply bind_Ok_inv in Hm as (p2 & Hn & Hm). injection Hm as <- <-. exists F. split; [|done].
    destruct (si_ack _ _ _ _ _ Hiu) as (la & sm & Hla & Hsm & El & Em). rewrite El in *. rewrite Em in *.
    destruct (ack_in_range (th_ackno h) la sm) as (r & Hrr & Er); try done; [lia|]. rewrite Er in Hn.
    eapply (new_ack_send T c F w q p2 la r); try done; [lia|]. exists sm. split; [lia|done].
Qed.

(** tcp_receive, as far as sending goes. *)
Lemma tcp_receive_send T c F w s p s' p' w' : total T c < 2 ^ 31 -> sinv p w T c F -> Ack (rcv_nxt p) -> 0 <= th_ackno (seg_hdr s) < 2 ^ 32 ->
  th_ackno (seg_hdr s) <> u32 (lastack p + 2 ^ 31) -> tcp_receive w s p = Ok (s', p', w') -> exists F', sinv p' w' T c F' /\ F ⊆ F'.
Proof.
  intros HT Hi Ha Hr Hne H. unfold tcp_receive in H. apply bind_Ok_inv in H as ([p1 w1] & Hm & H).
  assert (exists F', sinv p1 w1 T c F' /\ F ⊆ F') as (F' & Hi' & Hsub).
  { case_match; [by eapply receive_ack_send|]. simplify_eq. by exists F. }
  exists F'. split; [|done]. pose proof (receive_data_frame _ _ _ _ _ _ H) as Hf. apply receive_data_out in H.
  unfold data_frame, data_keep in Hf. injection Hf. intros. eapply sinv_same; [exact Hi'|..]; try done. unfold fkeep. congruence.
Qed.

(** ** The stream grows *)

Lemma ssize_app T d : ssize (T ++ d) = ssize T + Z.of_nat (length d).
Proof. unfold ssize. rewrite length_app. lia. Qed.

Lemma slice_grow T d i n : 0 <= i -> 0 <= n -> i + n <= ssize T -> slice (T ++ d) i n = slice T i n.
Proof.
  intros. unfold slice, ssize in *. rewrite drop_app_le by lia. apply take_app_le. rewrite length_drop. lia.
Qed.

Lemma slice_end T d : slice (T ++ d) (ssize T) (Z.of_nat (length d)) = d.
Proof. unfold slice, ssize. rewrite !Nat2Z.id, drop_app_length. by rewrite take_ge. Qed.

Lemma ogen_grow T d s i n : ogen T false s i n -> ogen (T ++ d) false s i n.
Proof.
  intros [R Q L [D1 D2] O P (f & Hf & (Hs & Hr & Hfin) & Hp)]. pose proof (ssize_app T d).
  split; try done; [lia|by rewrite slice_grow by lia|]. exists f. split_and!; try done. split_and!; try done. intros E. by destruct (Hfin E).
Qed.

Lemma tiles_grow T d F i l e : tiles T false F i l e -> tiles (T ++ d) false F i l e.
Proof.
  revert i. induction l as [|s l IH]; intros i; [done|]. intros (n & G & Hc & Ht). exists n. split_and!; [by apply ogen_grow|done|by apply IH].
Qed.

Lemma pk_ok_grow T d F k : pk_ok T false F k -> pk_ok (T ++ d) false F k.
Proof.
  intros [(i & n & f & H0 & H1 & H2 & H3 & H4 & H5 & (Hs & Hr & Hfin) & H7) O P A]. pose proof (ssize_app T d). unfold total in *.
  split; try done. exists i, n, f. split_and!; try done; [unfold total; lia|by rewrite slice_grow by lia|].
  split_and!; try done. intros E. by destruct (Hfin E).
Qed.

Lemma sent_grow T d F : sent_ok T false F -> sent_ok (T ++ d) false F.
Proof. intros [Hn Hs]. split; [done|]. intros i n Hin. pose proof (Hs i n Hin). rewrite ssize_app. naive_solver lia. Qed.

(** The last segment may grow, and new ones may follow. *)
Lemma clear_grow T F i n m : sent_ok T false F -> clear_of F i n -> i + n = ssize T -> clear_of F i m.
Proof.
  intros [_ Hs] Hc E i' n' Hin. destruct (Hc i' n' Hin) as [H1 H2], (Hs i' n' Hin) as (? & ? & ? & H0). split; [done|]. intros Hlt.
  specialize (H2 Hlt). assert (n' = 0) as E0 by lia. by specialize (H0 E0).
Qed.

Lemma clear_new T c F i n : sent_ok T c F -> ssize T <= i -> clear_of F i n.
Proof. intros [_ Hs] Hi i' n' Hin. destruct (Hs i' n' Hin) as (? & ? & ? & ?). lia. Qed.

Lemma ogen_data T s i n : ogen T false s i n -> 0 < n /\ exists bf, seg_p s = Some bf /\ bytes bf = slice T i n /\ pieces bf <> [].
Proof.
  intros G. destruct (og_flags _ _ _ _ _ G) as (f & _ & (_ & _ & Hfin) & Hp). pose proof (og_range _ _ _ _ _ G) as Hr.
  assert (0 < n) as Hn by (destruct Hp as [|Hp]; [done|]; by destruct (Hfin Hp)). split; [done|].
  destruct (og_data _ _ _ _ _ G) as [D1 D2]. unfold seg_bytes in D1. destruct (seg_p s) as [bf|]; [|done]. exists bf. split_and!; try done.
  intros E. unfold bytes in D1. rewrite E in D1. pose proof (slice_length T i n) as Hl. rewrite <- D1 in Hl. cbn in Hl. lia.
Qed.

(** The last tile takes [d] more bytes. *)
Lemma tiles_last T F x l u d bf : sent_ok T false F -> tiles T false F x (l ++ [u]) (ssize T) ->
  bytes bf = seg_bytes u ++ d ->
  tiles (T ++ d) false F x (l ++ [set_seg_len (set_seg_p u (Some bf)) (seg_len u + Z.of_nat (length d))]) (ssize (T ++ d)).
Proof.
  intros Hs Ht Hb. apply tiles_app in Ht as (i & Ht & n & G & Hc & He). cbn in He. apply tiles_app. exists i. split; [by apply tiles_grow|].
  destruct (ogen_data _ _ _ _ G) as (Hn & _). pose proof (og_len _ _ _ _ _ G) as Hl. pose proof (og_range _ _ _ _ _ G) as Hr.
  rewrite Hl. pose proof (ssize_app T d) as Ea. unfold places in He. rewrite (proj2 (Z.eqb_neq n 0)) in He by lia.
  exists (n + Z.of_nat (length d)). split_and!; [|by eapply clear_grow|cbn; unfold places; rewrite (proj2 (Z.eqb_neq _ 0)); lia].
  destruct (ogen_grow T d _ _ _ G) as [_ Q _ _ O P (f & Hf & (H1 & H2 & H3) & H4)]. destruct (og_data _ _ _ _ _ G) as [D _].
  split; try done; cbn [seg_len set_seg_len]; [lia| |].
  - split; [|done]. cbn. rewrite Hb, D. rewrite <- (slice_app (T ++ d)) by lia. rewrite slice_grow by lia. f_equal. rewrite He. by rewrite slice_end.
  - exists f. split_and!; try done; [|lia]. split_and!; try done. intros E. by destruct (H3 E).
Qed.

(** ** tcp_enqueue *)

Lemma fill_unsent_ok T F x A U m d U' d' : sent_ok T false F -> tiles T false F x (A ++ U) (ssize T) -> fill_unsent m U d = (U', d') ->
  exists d1, d = d1 ++ d' /\ tiles (T ++ d1) false F x (A ++ U') (ssize (T ++ d1)).
Proof.
  intros Hs Ht. unfold fill_unsent. destruct (last U) as [u|] eqn:El; [|intros; simplify_eq; exists []; by rewrite app_nil_r].
  apply last_Some in El as [l ->]. rewrite app_assoc in Ht. destruct (seg_p u) as [bf|] eqn:Eb; [|intros; simplify_eq; exists []; by rewrite app_nil_r, app_assoc].
  cbv zeta. set (n0 := if _ <? spare bf then _ else _). set (n := if m <? _ then _ else _).
  assert (n <= Z.of_nat (length d)) as Hn by (subst n n0; destruct (Z.ltb_spec (Z.of_nat (length d)) (spare bf)), (Z.ltb_spec m (seg_len u + Z.of_nat (length d))),
    (Z.ltb_spec m (seg_len u + spare bf)); repeat case_match; lia).
  clearbody n. destruct (Z.ltb_spec 0 n); [|intros; simplify_eq; exists []; by rewrite app_nil_r, app_assoc].
  intros E. injection E as <- <-. exists (take (Z.to_nat n) d). split; [by rewrite take_drop|]. rewrite map_last_app, app_assoc.
  assert (Z.of_nat (length (take (Z.to_nat n) d)) = n) as El by (rewrite length_take_le; lia). 
  replace (seg_len u + n) with (seg_len u + Z.of_nat (length (take (Z.to_nat n) d))) by lia.
  apply tiles_last; [done|done|]. apply tiles_app in Ht as (i & _ & k & G & _).
  destruct (ogen_data _ _ _ _ G) as (_ & bf' & Eb' & _ & Hp). rewrite Eb in Eb'. injection Eb' as <-. unfold seg_bytes. rewrite Eb.
  unfold bytes at 1. cbn [pieces]. by apply fill_last_concat.
Qed.

(** A new segment behind the stream. *)
Lemma ogen_new T p d r n k : local_port p = lport -> remote_port p = rport -> d <> [] -> k = Z.of_nat (length d) ->
  ogen (T ++ d) false (MkSeg (Some (MkPbufs [d] n r 1)) k (new_hdr p (sq b (ssize T)) 0 None) []) (ssize T) k.
Proof.
  intros E1 E2 Hd ->. destruct (new_hdr_ok p (sq b (ssize T)) 0) as (H1 & H2 & H3 & H4); [lia|]. pose proof (ssize_app T d).
  assert (0 < Z.of_nat (length d)) by (destruct d; [done|cbn; lia]).
  split; try done; cbn [seg_hdr seg_len seg_opts]; [unfold ssize in *; lia| |by rewrite H3, H4, E1, E2|].
  - split; [|done]. cbn. by rewrite app_nil_r, slice_end.
  - exists 0. split_and!; try done. by left.
Qed.

Lemma split_loop_data F p mtu x n : local_port p = lport -> remote_port p = rport -> 0 < mss p ->
  forall T w d ql q r w', sent_ok T false F -> tiles T false F x q (ssize T) -> (q = [] -> d <> []) ->
    split_loop n w p mtu 0 None d (sq b (ssize T)) ql q = Ok (r, w') ->
    out w' = out w /\ match r with Some (q', _) => tiles (T ++ d) false F x q' (ssize (T ++ d)) /\ q' <> [] | None => True end.
Proof.
  intros E1 E2 Hm. induction n as [|n IH]; intros T w d ql q r w' Hs Ht Hq H; cbn [split_loop] in H; cbv zeta in H;
    destruct (negb (_ || _)) eqn:Ed.
  1, 3: injection H as <- <-; destruct q as [|s q], d as [|z d]; try done; rewrite app_nil_r; done.
  - done.
  - cbv beta iota zeta delta [alloc] in H. set (k := if mss p <? Z.of_nat (length d) then mss p else Z.of_nat (length d)) in H.
    assert (0 < Z.of_nat (length d)) as Hd.
    { destruct q as [|s q]; cbn in Ed; [destruct d; [by destruct (Hq eq_refl)|cbn; lia]|]. destruct (Z.ltb_spec 0 (Z.of_nat (length d))); [done|done]. }
    assert (0 < k <= Z.of_nat (length d)) as Hk by (subst k; destruct (Z.ltb_spec (mss p) (Z.of_nat (length d))); lia). clearbody k.
    do 3 (match type of H with (if ?c then _ else _) = _ => destruct c; [injection H as <- <-; done|] end).
    assert (Z.of_nat (length (take (Z.to_nat k) d)) = k) as El by (rewrite length_take_le; lia).
    set (seg := MkSeg _ _ _ _) in H. assert (ogen (T ++ take (Z.to_nat k) d) false seg (ssize T) k) as G.
    { apply ogen_new; try done. intros E. rewrite E in El. cbn in El. lia. }
    rewrite sq_add in H. replace (ssize T + k) with (ssize (T ++ take (Z.to_nat k) d)) in H by (rewrite ssize_app; lia).
    apply IH in H; [|by apply sent_grow| |by destruct q].
    + rewrite <- app_assoc, take_drop in H. exact H.
    + apply tiles_app. exists (ssize T). split; [by apply tiles_grow|]. exists k. split; [done|]. split; [by eapply clear_new|].
      cbn. rewrite ssize_app. unfold places. rewrite (proj2 (Z.eqb_neq k 0)) by lia. lia.
Qed.

Lemma slice_take T d k : 0 <= k -> slice (T ++ d) (ssize T) k = take (Z.to_nat k) d.
Proof. intros. unfold slice, ssize. by rewrite Nat2Z.id, drop_app_length. Qed.

Lemma join_queue_ok T d F x A U q m f us j : sent_ok T false F -> tiles T false F x (A ++ U) (ssize T) ->
  tiles (T ++ d) false F (ssize T) q (ssize (T ++ d)) -> join_queue m f U q = Ok (us, j) ->
  tiles (T ++ d) false F x (A ++ us) (ssize (T ++ d)) /\ (q <> [] -> us <> []).
Proof.
  intros Hs Ht Hq. assert (tiles (T ++ d) false F x (A ++ U ++ q) (ssize (T ++ d))) as Happ.
  { rewrite app_assoc. apply tiles_app. exists (ssize T). split; [by apply tiles_grow|done]. }
  unfold join_queue. destruct q as [|q0 q]; [intros; by simplify_eq|]. destruct (last U) as [u|] eqn:El; [|intros; simplify_eq; split; [done|by destruct U]].
  destruct (_ && _ && _ && _); [|intros; simplify_eq; split; [done|by destruct U]].
  apply last_Some in El as [l ->]. rewrite app_assoc in Ht. intros H. apply bind_Ok_inv in H as (qb & Eq & H). apply bind_Ok_inv in H as (bf & Eb & H).
  unfold chain_on in Eb. apply bind_Ok_inv in Eb as (ub & Eu & Eb). injection Eb as <-. injection H as <- <-.
  destruct Hq as (k & G & Hc & Hq). destruct (ogen_data _ _ _ _ G) as (Hk & qb' & Eq' & Dq & _). pose proof (og_range _ _ _ _ _ G) as Hr.
  rewrite Eq' in Eq. injection Eq as <-. rewrite (og_len _ _ _ _ _ G). rewrite slice_take in Dq by lia. rewrite ssize_app in Hr.
  assert (Z.of_nat (length (take (Z.to_nat k) d)) = k) as Ek by (rewrite length_take_le; lia).
  split; [|rewrite map_last_app; by destruct l].
  rewrite map_last_app, app_assoc, app_assoc. apply tiles_app. exists (ssize T + k). split.
  - rewrite <- (take_drop (Z.to_nat k) d) at 1. rewrite app_assoc. apply tiles_grow.
    set (bf := MkPbufs _ _ _ _). pose proof (tiles_last T F x (A ++ l) u (take (Z.to_nat k) d) bf Hs Ht) as Hl. rewrite ssize_app, Ek in Hl. apply Hl.
    subst bf. unfold bytes in *. cbn [pieces]. rewrite concat_app, Dq. f_equal. unfold seg_bytes. destruct (seg_p u); [|done]. by injection Eu as ->.
  - unfold places in Hq. by rewrite (proj2 (Z.eqb_neq k 0)) in Hq by lia.
Qed.

Lemma tiles_map_last T c F x A l e g : (forall s i n, ogen T c s i n -> ogen T c (g s) i n) ->
  tiles T c F x (A ++ l) e -> tiles T c F x (A ++ map_last g l) e.
Proof.
  intros Hg. destruct (last l) as [u|] eqn:El; [|apply last_None in El as ->; done]. apply last_Some in El as [l' ->].
  rewrite map_last_app, !app_assoc. rewrite !tiles_app. intros (j & Ht & n & G & Hc & He). exists j. split; [done|]. exists n. split_and!; [by apply Hg|done..].
Qed.

Lemma set_psh_ok T c s i n : ogen T c s i n -> ogen T c (set_psh s) i n.
Proof. by apply ogen_add_flag. Qed.

(** Everything [sinv] says follows from the queues and the counters. *)
Lemma sinv_queue p w T c F p' w' T' c' : sinv p w T c F -> local_port p' = local_port p -> remote_port p' = remote_port p -> mss p' = mss p ->
  unacked p' = unacked p -> (exists x, 0 <= x /\ tiles T' c' F x (unacked p ++ unsent p') (total T' c')) -> snd_lbb p' = sq b (total T' c') ->
  snd_nxt p' = snd_nxt p -> lastack p' = lastack p -> snd_max p' = snd_max p -> (c' = true -> writable (state p') = false) ->
  sent_ok T' c' F -> Forall (pk_ok T' c' F) (out w') -> total T c <= total T' c' -> sinv p' w' T' c' F.
Proof.
  intros [Hp Hm Hq Hl (x & Hx & En) (la & sm & Ha1 & Ha2 & Ha3 & Ha4) Hcl Hs Ho] E1 E2 E3 E4 E5 E6 E7 E8 E9 E10 E11 E12 Hle.
  split; rewrite ?E1, ?E2, ?E3, ?E4, ?E7, ?E8, ?E9; try done; [exists x; split; [lia|done]|exists la, sm; split_and!; try done; lia].
Qed.

Lemma enqueue_data_ok T F w p d rc p' w' : sinv p w T false F -> d <> [] -> tcp_enqueue w p d 0 None = Ok (rc, p', w') ->
  (rc = 0 -> sinv p' w' (T ++ d) false F) /\ (rc <> 0 -> unsent p' = unsent p -> sinv p' w' T false F) /\
  (rc = 0 \/ rc < 0) /\ rcv_nxt p' = rcv_nxt p.
Proof.
  intros Hi Hd. unfold tcp_enqueue. cbv zeta.
  assert (forall q w1, fkeep q = fkeep p -> unacked q = unacked p -> snd_nxt q = snd_nxt p -> out w1 = out w ->
    unsent q = unsent p -> sinv q w1 T false F) as Hsame by (intros q w1 ? ? ? ? ?; by eapply sinv_same; [exact Hi|..]).
  destruct (_ <? Z.of_nat (length d)); [intros H; injection H as <- <- <-; split_and!; try done; by right|].
  destruct (TCP_SND_QUEUELEN <=? _); [intros H; injection H as <- <- <-; split_and!; try done; by right|].
  change (0 =? 0) with true. cbv iota beta delta [andb]. destruct (fill_unsent _ _ _) as [us d'] eqn:Ef.
  destruct (si_queue _ _ _ _ _ Hi) as (x & Hx & Ht). unfold total in Ht. rewrite Z.add_0_r in Ht.
  destruct (fill_unsent_ok T F x _ _ _ _ _ _ (si_sent _ _ _ _ _ Hi) Ht Ef) as (d1 & -> & Ht1).
  set (lbb := u32 (snd_lbb _ + _)) at 1.
  assert (lbb = sq b (ssize (T ++ d1))) as Elbb.
  { subst lbb. pcb_simpl. rewrite (si_lbb _ _ _ _ _ Hi), sq_add. unfold total. f_equal. rewrite ssize_app, length_app. lia. }
  rewrite Elbb. clear lbb Elbb. intros H. apply bind_Ok_inv in H as ([r w1] & Hr & H).
  assert (out w1 = out w /\ match r with None => True | Some (q, _) => tiles (T ++ d1 ++ d') false F (ssize (T ++ d1)) q (ssize (T ++ d1 ++ d')) end)
    as (Ew & Hq).
  { rewrite !app_assoc. destruct d' as [|z d'].
    - cbn in Hr. injection Hr as <- <-. split; [done|]. by rewrite app_nil_r.
    - destruct (si_ports _ _ _ _ _ Hi). apply (split_loop_data F _ _ (ssize (T ++ d1))) in Hr as (? & ?); try done;
        [|apply (si_mss _ _ _ _ _ Hi)|by apply sent_grow, (si_sent _ _ _ _ _ Hi)].
      split; [done|]. destruct r as [[q ql]|]; [|done]. naive_solver. }
  destruct r as [[q ql]|]; [|injection H as <- <- <-; split_and!; try done; [intros _ Eu; apply Hsame; done|by right]].
  apply bind_Ok_inv in H as ([us2 j] & Hj & H). change (has 0 TCP_SYN || has 0 TCP_FIN) with false in H. cbv iota in H.
  destruct (join_queue_ok (T ++ d1) d' F x _ _ _ _ _ _ _ ltac:(by apply sent_grow, (si_sent _ _ _ _ _ Hi)) Ht1 ltac:(rewrite <- app_assoc; exact Hq) Hj) as [Ht2 _].
  rewrite <- app_assoc in Ht2. set (us3 := push_last j q us2) in H.
  assert (tiles (T ++ d1 ++ d') false F x (unacked p ++ us3) (ssize (T ++ d1 ++ d'))) as Ht3.
  { subst us3. unfold push_last. destruct (last q); [|done]. destruct (negb _ && _); [|done]. apply tiles_map_last; [|done]. intros. by apply set_psh_ok. }
  clearbody us3. injection H as <- <- <-. split_and!; try done; [|by left]. intros _.
  eapply sinv_queue; [exact Hi|..]; pcb_simpl; try done.
  - exists x. unfold total. by rewrite Z.add_0_r.
  - rewrite (si_lbb _ _ _ _ _ Hi), sq_add. unfold total. f_equal. rewrite (ssize_app T). lia.
  - by apply sent_grow, (si_sent _ _ _ _ _ Hi).
  - rewrite Ew. eapply Forall_impl; [apply (si_out _ _ _ _ _ Hi)|]. intros k Hk. by apply pk_ok_grow.
  - unfold total. rewrite (ssize_app T). lia.
Qed.

(** ** Writing and closing *)

Lemma tcp_write_ok T c F w p d opt rc p' w' : total (T ++ d) c < 2 ^ 31 -> sinv p w T c F -> Ack (rcv_nxt p) ->
  tcp_write w p d opt = Ok (rc, p', w') ->
  (rc = 0 -> exists F', sinv p' w' (T ++ d) c F' /\ F ⊆ F') /\ (rc <> 0 -> unsent p' = unsent p -> sinv p' w' T c F).
Proof.
  intros HT Hi Ha. unfold tcp_write. fold (writable (state p)). destruct (writable (state p)) eqn:Ew; [|intros H; injection H as <- <- <-; done].
  assert (c = false) as -> by (destruct c; [|done]; by rewrite (si_closed _ _ _ _ _ Hi) in Ew).
  intros H. apply bind_Ok_inv in H as ([[rc1 p1] w1] & H1 & H).
  assert ((rc1 = 0 -> sinv p1 w1 (T ++ d) false F) /\ (rc1 <> 0 -> unsent p1 = unsent p -> sinv p1 w1 T false F) /\
    (rc1 = 0 \/ rc1 < 0) /\ rcv_nxt p1 = rcv_nxt p) as (I0 & I1 & I2 & En).
  { destruct d as [|z d]; [cbn in H1; injection H1 as <- <- <-; rewrite app_nil_r; naive_solver|].
    destruct (enqueue_data_ok T F w p (z :: d) rc1 p1 w1 Hi ltac:(done) H1) as (? & ? & ? & ?). done. }
  destruct (Z.ltb_spec rc1 0); [injection H as <- <- <-; split; [lia|done]|]. assert (rc1 = 0) as -> by lia. specialize (I0 eq_refl).
  destruct (_ || _); [|injection H as <- <- <-; split; [|done]; intros _; exists F; done].
  destruct (tcp_output w1 p1) as [[rc2 p2] w2] eqn:Eo. injection H as <- <- <-. split; [|done]. intros _.
  eapply tcp_output_ok; [done|exact Eo|by rewrite En|done].
Qed.

(** A FIN behind the stream. *)
Lemma ogen_close T s i n : ogen T false s i n -> ogen T true s i n.
Proof.
  intros [R Q L D O P (f & Hf & (Hs & Hr & Hfin) & Hp)]. split; try done. exists f. split_and!; try done. split_and!; try done.
  intros E. by destruct (Hfin E).
Qed.

Lemma tiles_close T F i l e : tiles T false F i l e -> tiles T true F i l e.
Proof.
  revert i. induction l as [|s l IH]; intros i; [done|]. intros (n & G & Hc & Ht). exists n. split_and!; [by apply ogen_close|done|by apply IH].
Qed.

Lemma pk_ok_close T F k : pk_ok T false F k -> pk_ok T true F k.
Proof.
  intros [(i & n & f & H0 & H1 & H2 & H3 & H4 & H5 & (Hs & Hr & Hfin) & H7) O P A]. unfold total in *.
  split; try done. exists i, n, f. split_and!; try done; [unfold total; lia|]. split_and!; try done. intros E. by destruct (Hfin E).
Qed.

Lemma ogen_fin T p k : local_port p = lport -> remote_port p = rport ->
  ogen T true (MkSeg (Some (MkPbufs [[]] 0 k 1)) 0 (new_hdr p (sq b (ssize T)) TCP_FIN None) []) (ssize T) 0.
Proof.
  intros E1 E2. destruct (new_hdr_ok p (sq b (ssize T)) TCP_FIN) as (H1 & H2 & H3 & H4); [cbv; split; congruence|].
  split; try done; cbn [seg_hdr seg_len seg_opts]; [unfold ssize; lia|by rewrite H3, H4, E1, E2|].
  exists TCP_FIN. split_and!; try done. by right.
Qed.

Lemma send_fin_ok T F w p st rc p' w' : sinv p w T false F -> writable st = false -> tcp_send_ctrl w p TCP_FIN = Ok (rc, p', w') ->
  (rc = 0 -> sinv (set_state st p') w' T true F) /\ (rc <> 0 -> sinv p' w' T false F) /\ rcv_nxt p' = rcv_nxt p.
Proof.
  intros Hi Hst. unfold tcp_send_ctrl, tcp_enqueue. cbv zeta.
  assert (forall w1, out w1 = out w -> sinv (set_unsent (unsent p) p) w1 T false F) as Hsame by (intros w1 ?; by eapply sinv_same; [exact Hi|..]).
  destruct (_ <? Z.of_nat (length [])); [intros H; injection H as <- <- <-; split_and!; try done|].
  destruct (TCP_SND_QUEUELEN <=? _); [intros H; injection H as <- <- <-; split_and!; try done|].
  change ((0 =? 0) && (TCP_FIN =? 0)) with false. cbv iota beta.
  intros H. apply bind_Ok_inv in H as ([r w1] & Hr & H). change (_ || _) with true in Hr. cbv iota in Hr.
  destruct (si_ports _ _ _ _ _ Hi) as [Hp1 Hp2]. change split_fuel with (S (S (pred (pred split_fuel)))) in Hr.
  apply split_loop_fin in Hr as (Ew & Hq); [|apply (si_mss _ _ _ _ _ Hi)].
  destruct r as [[q ql]|]; [|injection H as <- <- <-; split_and!; try done; intros _; by apply Hsame].
  apply bind_Ok_inv in H as ([us j] & Hj & H). apply join_queue_fin in Hj. destruct Hq as (k & ->). pcb_simpl_in Hj.
  replace (push_last j _ us) with us in H by (unfold push_last; cbn; by rewrite andb_false_r).
  change (has TCP_FIN TCP_SYN || has TCP_FIN TCP_FIN) with true in H. cbv iota in H. injection H as <- <- <-.
  split_and!; try done. intros _. subst us.
  eapply sinv_queue; [exact Hi|..]; pcb_simpl; try done.
  - destruct (si_queue _ _ _ _ _ Hi) as (x & Hx & Ht). exists x. split; [done|]. rewrite app_assoc. apply tiles_app. exists (ssize T).
    unfold total in Ht. rewrite Z.add_0_r in Ht. split; [by apply tiles_close|]. exists 0. split_and!; [|eapply clear_new; [apply (si_sent _ _ _ _ _ Hi)|lia]|done].
    replace (u32 _) with (sq b (ssize T)) by (rewrite (si_lbb _ _ _ _ _ Hi), sq_add; unfold total; f_equal; cbn; lia). by apply ogen_fin.
  - rewrite (si_lbb _ _ _ _ _ Hi), sq_add. unfold total. f_equal. lia.
  - destruct (si_sent _ _ _ _ _ Hi) as [Hn Hs]. split; [done|]. intros i n Hin. naive_solver.
  - rewrite Ew. eapply Forall_impl; [apply (si_out _ _ _ _ _ Hi)|]. intros k' Hk. by apply pk_ok_close.
  - unfold total. lia.
Qed.

(** ** Timers *)

Lemma slow_rexmit_ok T c F w p p' w' : total T c < 2 ^ 31 -> sinv p w T c F -> Ack (rcv_nxt p) -> slow_rexmit w p = Ok (p', w') ->
  exists F', sinv p' w' T c F' /\ F ⊆ F'.
Proof.
  intros HT Hi Ha. unfold slow_rexmit. cbv zeta. destruct (_ && _).
  - intros H. apply bind_Ok_inv in H as (p1 & H1 & H).
    assert (sinv p1 w T c F /\ rcv_nxt p1 = rcv_nxt p) as (Hi1 & En).
    { destruct (is_state _ _); [simplify_eq|apply bind_Ok_inv in H1 as (bk & _ & H1); simplify_eq]; (split; [by eapply sinv_same; [exact Hi|..]|done]). }
    destruct (tcp_rexmit w p1) as [p2 w2] eqn:Er. destruct (tcp_rexmit_ok T c F _ _ _ _ HT Er) as (F' & Hi' & Hsub); [by rewrite En|done|].
    exists F'. split; [|done]. injection H as <- <-. destruct (_ <? u32 _); by eapply sinv_same; [exact Hi'|..].
  - intros H. injection H as <- <-. exists F. split; [|done]. by eapply sinv_same; [exact Hi|..].
Qed.

Lemma fast_pcb_ok T c F w p p' w' : total T c < 2 ^ 31 -> sinv p w T c F -> Ack (rcv_nxt p) -> fast_pcb w p = (p', w') ->
  exists F', sinv p' w' T c F' /\ F ⊆ F'.
Proof.
  intros HT Hi Ha. unfold fast_pcb. destruct (has _ _); [|intros H; injection H as <- <-; by exists F].
  destruct (tcp_output _ _) as [[rc p1] w1] eqn:Eo. intros H. injection H as <- <-.
  destruct (tcp_output_ok T c F _ _ _ _ _ HT Eo) as (F' & Hi' & Hsub); [done|by eapply sinv_same; [exact Hi|..]|].
  exists F'. split; [|done]. by eapply sinv_same; [exact Hi'|..].
Qed.

(** The driver is done with buffers. *)
Definition released (l l' : list tcp_seg) : Prop := Forall2 (fun s s' => exists v, s' = set_ref s v) l l'.

Lemma tiles_released T c F x l l' e : released l l' -> tiles T c F x l e -> tiles T c F x l' e.
Proof.
  intros H. revert x. induction H as [|s s' l l' (v & ->) H IH]; intros x; [done|]. intros (n & G & Hc & Ht). exists n.
  split_and!; [|done|by apply IH]. unfold set_ref. destruct (seg_p s) as [bf|] eqn:Es; [|done].
  eapply ogen_ext; [..|exact G]; unfold seg_bytes; cbn; rewrite ?Es; done.
Qed.
End Sender.
