(* ===== verification/TcpStream.v ===== *)
(** * Two connected hosts: what one writes the other receives

    The two ends of a connection run the code of Tcp.v.  The packets one of them has
    given to IP arrive at the other in any order, any number of times or never, as
    the bytes tcp_output made of them, in buffers of any sizes. *)

From S2P Require Import Prelude Inet Ether Tcp TcpBase TcpRecv TcpSend.

(** ** Packets on the wire *)

Definition pkt_bytes (k : tpacket) : list Z := hdr_bytes (pk_hdr k) ++ pk_opts k ++ pk_data k.

(** The segment tcp_input makes of a packet in the buffers [x] and [l]. *)
Inductive arrives (k : tpacket) (s : tcp_seg) : Prop :=
  | arrives_as x l h : (20 <= length x)%nat -> concat (x :: l) = pkt_bytes k -> read_hdr x = Some h -> s = input_seg h x l -> arrives k s.

(** The header as it is read back: each field at its width. *)
Definition hdr_wire (h : tcp_hdr) : tcp_hdr :=
  MkHdr (u16 (th_src h)) (u16 (th_dest h)) (u32 (th_seqno h)) (u32 (th_ackno h)) (u16 (th_offset_flags h)) (u16 (th_wnd h))
    (u16 (th_chksum h)) (u16 (th_urgp h)).

Lemma read_hdr_bytes h r : read_hdr (hdr_bytes h ++ r) = Some (hdr_wire h).
Proof.
  unfold read_hdr, hdr_bytes, le32, le16, ld32, ld16. cbn [app lookup list_lookup mbind option_bind].
  unfold hdr_wire. rewrite <- !le16_val, <- !le32_val, <- !le16_val. done.
Qed.

Lemma read_hdr_app x r : (20 <= length x)%nat -> read_hdr (x ++ r) = read_hdr x.
Proof.
  intros Hx. unfold read_hdr, ld32, ld16.
  assert (forall i, (i < 20)%nat -> (x ++ r) !! i = x !! i) as Hi by (intros i Hi; apply lookup_app_l; lia).
  rewrite !Hi by lia. done.
Qed.

Lemma hdr_bytes_length h : length (hdr_bytes h) = 20%nat.
Proof. done. Qed.

(** What arrives is what was sent. *)
Lemma arrives_seg k s f : arrives k s -> of_ok (pk_hdr k) 80 f -> pk_opts k = [] ->
  seg_hdr s = host_order (hdr_wire (pk_hdr k)) /\ of_ok (seg_hdr s) 80 f /\ seg_len s = Z.of_nat (length (pk_data k)) /\
  exists bf, seg_p s = Some bf /\ pieces bf <> [] /\ bytes bf = pk_data k /\ tot_len bf = Z.of_nat (length (pk_data k)).
Proof.
  intros [x l h Hx Ec Er ->] Hof Eo. unfold pkt_bytes in Ec. rewrite Eo in Ec. cbn [app] in Ec.
  assert (h = hdr_wire (pk_hdr k)) as ->.
  { rewrite <- (read_hdr_app x (concat l)) in Er by done. change (x ++ concat l) with (concat (x :: l)) in Er.
    rewrite Ec, read_hdr_bytes in Er. by injection Er. }
  assert (of_ok (hdr_wire (pk_hdr k)) 80 f) as Hof'.
  { destruct Hof as (? & ? & E). split_and!; try lia. cbn. rewrite u16_small; [done|]. rewrite E. apply htons_range. lia. }
  assert (drop 20 x ++ concat l = pk_data k) as Ed.
  { change (x ++ concat l = hdr_bytes (pk_hdr k) ++ pk_data k) in Ec. rewrite <- (drop_app_le x (concat l)) by lia. by rewrite Ec. }
  unfold input_seg. rewrite (of_offset _ _ _ Hof'). change (Z.to_nat (Z.shiftr 80 4 * 4)) with 20%nat.
  assert (Z.of_nat (length (concat (x :: l))) - Z.of_nat 20 = Z.of_nat (length (pk_data k))) as -> by (rewrite Ec, length_app, hdr_bytes_length; lia).
  split; [done|]. split; [done|]. split; [done|]. eexists. split; [done|]. by split_and!.
Qed.

Lemma released_refl l : released l l.
Proof. induction l as [|s l IH]; constructor; [|done]. exists (seg_ref s). destruct s as [[[]|] ? ? ?]; done. Qed.

(** ** The two ends *)

(** A connection with its surroundings; what the application wrote, whether it has
    closed, and what tcp_process has left in recv_data for it. *)
Record endpoint := MkEnd { ep : pcb; ew : net; wrote : list Z; closed : bool; got : list Z }.

(** Streams are kept below the size where sequence numbers could be confused. *)
Definition max_stream : Z := 2 ^ 31 - 2 ^ 17.

(** The states in which tcp_process calls tcp_receive and tcp_input hands over what
    it leaves in recv_data.  A connection that gets into TIME-WAIT has left them, and
    what arrives there is acknowledged and dropped: see [time_wait_drops_data]. *)
Definition receiving (st : tcp_state) : bool :=
  match st with ESTABLISHED | FIN_WAIT_1 | FIN_WAIT_2 | CLOSE_WAIT | CLOSING | LAST_ACK => true | _ => false end.

(** Connection [a] of the host [t] is [p]; [w] surrounds it. *)
Definition here (t : tcp) (a : Z) (p : pcb) (w : net) : Prop := pcbs t !! a = Some p /\ tnet t = w.

(** The steps of one end while it is in these states; [peer]: the packets the other has
    sent.  A write that fails after it has filled up the last segment is left out; see
    [failed_write_repeats_data].  In [es_other] the driver releases buffers, time
    passes, memory and routes come and go, tcp_input clears recv_data and acked, and
    the flags and the application's settings change. *)
Inductive estep (peer : list tpacket) : endpoint -> endpoint -> Prop :=
  | es_write p w T c g d opt rc p' w' : tcp_write w p d opt = Ok (rc, p', w') -> rc = 0 \/ unsent p' = unsent p ->
      ssize (T ++ d) < max_stream -> estep peer (MkEnd p w T c g) (MkEnd p' w' (if rc =? 0 then T ++ d else T) c g)
  | es_close p w T c g t a rc t' p' w' : here t a p w -> state p = ESTABLISHED \/ state p = CLOSE_WAIT ->
      tcp_close t a = Ok (rc, t') -> here t' a p' w' ->
      estep peer (MkEnd p w T c g) (MkEnd p' w' T (if rc =? 0 then true else c) g)
  | es_arrive p w T c g k s n t a src dst mtu na rc s' t' p' w' : k ∈ peer -> arrives k s ->
      here t a (set_recv_data None p) w -> receiving (state p) = true ->
      tcp_process n t s a src dst mtu na = Ok (rc, s', t') -> here t' a p' w' -> receiving (state p') = true ->
      estep peer (MkEnd p w T c g) (MkEnd p' w' T c (g ++ dbytes (recv_data p')))
  | es_output p w T c g rc p' w' : tcp_output w p = (rc, p', w') -> estep peer (MkEnd p w T c g) (MkEnd p' w' T c g)
  | es_slow p w T c g p' w' : slow_rexmit w p = Ok (p', w') -> estep peer (MkEnd p w T c g) (MkEnd p' w' T c g)
  | es_fast p w T c g p' w' : fast_pcb w p = (p', w') -> estep peer (MkEnd p w T c g) (MkEnd p' w' T c g)
  | es_recved p w T c g n : estep peer (MkEnd p w T c g) (MkEnd (tcp_recved p n) w T c g)
  | es_other p w T c g p' w' :
      local_port p' = local_port p -> remote_port p' = remote_port p -> mss p' = mss p -> cwnd p' = cwnd p -> ssthresh p' = ssthresh p ->
      snd_lbb p' = snd_lbb p -> snd_nxt p' = snd_nxt p -> snd_max p' = snd_max p -> lastack p' = lastack p ->
      released (unacked p) (unacked p') -> released (unsent p) (unsent p') -> state p' = state p ->
      rcv_nxt p' = rcv_nxt p -> rcv_wnd p' = rcv_wnd p -> ooseq p' = ooseq p \/ ooseq p' = [] -> out w' = out w ->
      estep peer (MkEnd p w T c g) (MkEnd p' w' T c g).

(** Either end takes a step. *)
Inductive sstep : endpoint * endpoint -> endpoint * endpoint -> Prop :=
  | ss_left a b a' : estep (out (ew b)) a a' -> sstep (a, b) (a', b)
  | ss_right a b b' : estep (out (ew a)) b b' -> sstep (a, b) (a, b').

(** ** What the steps leave alone *)

(** The fields the receiving side and the acknowledgements depend on. *)
Definition rkeep (p : pcb) := (rcv_nxt p, rcv_wnd p, ooseq p, lastack p, mss p, cwnd p, ssthresh p).

Lemma rkeep_inv p p' : rkeep p' = rkeep p -> rcv_nxt p' = rcv_nxt p /\ rcv_wnd p' = rcv_wnd p /\ ooseq p' = ooseq p /\ lastack p' = lastack p /\
  (cong_ok p -> cong_ok p').
Proof. unfold rkeep, cong_ok. intros H. injection H. intros. split_and!; try done. congruence. Qed.

Lemma out_rkeep p p' : out_frame p p' -> rkeep p' = rkeep p.
Proof. intros H. kept H. unfold rkeep. congruence. Qed.

Lemma enqueue_rkeep w p d f o rc p' w' : tcp_enqueue w p d f o = Ok (rc, p', w') -> rkeep p' = rkeep p.
Proof.
  unfold tcp_enqueue. intros H.
  destruct (_ <? Z.of_nat (length d)); [injection H as <- <- <-; done|]. destruct (TCP_SND_QUEUELEN <=? _); [injection H as <- <- <-; done|].
  cbv zeta in H. destruct (if _ && _ then fill_unsent _ _ _ else _) as [us d'] in H. apply bind_Ok_inv in H as ([r w1] & _ & H).
  destruct r as [[q ql]|]; [|injection H as <- <- <-; done]. apply bind_Ok_inv in H as ([us2 j] & _ & H). injection H as <- <- <-. done.
Qed.

Lemma write_rkeep w p d opt rc p' w' : tcp_write w p d opt = Ok (rc, p', w') -> rkeep p' = rkeep p.
Proof.
  unfold tcp_write. destruct (_ || _); [|intros H; injection H as <- <- <-; done].
  intros H. apply bind_Ok_inv in H as ([[rc1 p1] w1] & H1 & H).
  assert (rkeep p1 = rkeep p) as E1 by (destruct (0 <? _); [by eapply enqueue_rkeep|injection H1 as <- <- <-; done]).
  destruct (_ <? 0); [injection H as <- <- <-; done|]. destruct (_ || _); [|injection H as <- <- <-; done].
  destruct (tcp_output w1 p1) as [[rc2 p2] w2] eqn:Eo. injection H as <- <- <-. rewrite <- E1. by eapply out_rkeep, tcp_output_frame.
Qed.

Lemma send_fin_rkeep w p st rc p' w' : send_fin w p st = Ok (rc, p', w') -> rkeep p' = rkeep p.
Proof.
  unfold send_fin, tcp_send_ctrl. intros H. apply bind_Ok_inv in H as ([[rc1 p1] w1] & H1 & H). apply enqueue_rkeep in H1.
  destruct (_ =? 0); [|injection H as <- <- <-; done]. destruct (tcp_output _ _) as [[rc2 p2] w2] eqn:Eo. injection H as <- <- <-.
  apply tcp_output_frame, out_rkeep in Eo. by rewrite Eo.
Qed.

Lemma fast_rkeep w p p' w' : fast_pcb w p = (p', w') -> rkeep p' = rkeep p.
Proof.
  unfold fast_pcb. destruct (has _ _); [|intros H; injection H as <- <-; done]. destruct (tcp_output _ _) as [[rc2 p2] w2] eqn:Eo.
  intros H. injection H as <- <-. apply tcp_output_frame, out_rkeep in Eo. exact Eo.
Qed.

Lemma rexmit_rkeep w p p' w' : tcp_rexmit w p = (p', w') -> rkeep p' = rkeep p.
Proof. intros H. apply tcp_rexmit_frame, out_rkeep in H. exact H. Qed.

Lemma slow_rkeep w p p' w' : slow_rexmit w p = Ok (p', w') -> cong_ok p ->
  rcv_nxt p' = rcv_nxt p /\ rcv_wnd p' = rcv_wnd p /\ ooseq p' = ooseq p /\ lastack p' = lastack p /\ cong_ok p'.
Proof.
  unfold slow_rexmit. cbv zeta. intros H Hc. destruct (_ && _); [|injection H as <- <-; done].
  apply bind_Ok_inv in H as (p1 & H1 & H). assert (rkeep p1 = rkeep p) as E1.
  { destruct (is_state _ _); [simplify_eq; done|]. apply bind_Ok_inv in H1 as (bk & _ & H1). by simplify_eq. }
  destruct (tcp_rexmit w p1) as [p2 w2] eqn:Er. apply rexmit_rkeep in Er. rewrite E1 in Er. clear E1.
  destruct (rkeep_inv _ _ Er) as (En & Ew & Eo & El & Hc2). destruct (Hc2 Hc) as (Hm & Hcw & Hss). injection H as <- <-.
  set (e := Z.min (cwnd p2) (snd_wnd p2)). assert (Z.shiftr e 1 < 2 ^ 32) as He.
  { rewrite Z.shiftr_div_pow2 by lia. apply Z.div_lt_upper_bound; [lia|]. subst e. lia. }
  clearbody e. pcb_simpl. destruct (Z.ltb_spec (Z.shiftr e 1) (u32 (mss p2))) as [Hl|Hl]; pcb_simpl; split_and!; try done;
    unfold cong_ok; pcb_simpl; rewrite u32_small in Hl by lia; rewrite !u32_small by lia; lia.
Qed.

Lemma dup_ack_lastack w e p p' w' : dup_ack w e p = (p', w') -> lastack p' = lastack p.
Proof.
  unfold dup_ack. cbv zeta. destruct (_ =? e); [|intros H; injection H as <- <-; done].
  destruct ((3 <=? _) && _ && _); [|intros H; injection H as <- <-; done].
  destruct (negb _); [|unfold inflate; intros H; injection H as <- <-; case_match; done].
  destruct (tcp_rexmit _ _) as [p1 w1] eqn:E. apply rexmit_rkeep in E. destruct (rkeep_inv _ _ E) as (_ & _ & _ & El & _).
  intros H. injection H as <- <-. exact El.
Qed.

Lemma receive_lastack w s p s' p' w' : tcp_receive w s p = Ok (s', p', w') -> lastack p' = lastack p \/ lastack p' = th_ackno (seg_hdr s).
Proof.
  unfold tcp_receive. intros H. apply bind_Ok_inv in H as ([p1 w1] & H1 & H). apply receive_data_frame in H.
  assert (lastack p' = lastack p1) as -> by (unfold data_frame, data_keep in H; injection H; done). clear H.
  destruct (has _ TCP_ACK); [|injection H1 as <- <-; by left]. unfold receive_ack in H1. cbv zeta in H1.
  apply bind_Ok_inv in H1 as ([p2 w2] & H2 & H1). injection H1 as <- <-.
  destruct (estimate_rtt_keep (tcp_ticks w2) (th_ackno (seg_hdr s)) p2) as (K2 & _). apply fkeep_inv in K2 as (_ & _ & _ & _ & -> & _).
  destruct (update_window_keep (seg_hdr s) p) as (K & _). apply fkeep_inv in K as (_ & _ & _ & _ & K & _).
  destruct (_ =? _); [injection H2 as H2; apply dup_ack_lastack in H2; left; congruence|].
  destruct (_ && _); [|injection H2 as <- <-; left; congruence].
  apply bind_Ok_inv in H2 as (p3 & H3 & H2). injection H2 as <- <-.
  apply new_ack_spec in H3 as (u1 & u2 & s1 & s2 & _ & _ & _ & _ & _ & _ & L & _). by right.
Qed.

Lemma receive_state w s p s' p' w' : tcp_receive w s p = Ok (s', p', w') -> state p' = state p.
Proof.
  unfold tcp_receive. intros H. apply bind_Ok_inv in H as ([p1 w1] & H1 & H). apply receive_data_frame in H.
  assert (state p' = state p1) as -> by (unfold data_frame, data_keep in H; injection H; done). clear H.
  destruct (has _ TCP_ACK); [|by injection H1 as <- <-]. apply receive_ack_frame in H1. by kept H1.
Qed.

(** A segment without places changes nothing on the receiving side. *)
Lemma receive_empty w s p s' p' w' : tcp_receive w s p = Ok (s', p', w') -> TCP_TCPLEN s = 0 -> cong_ok p ->
  rcv_nxt p' = rcv_nxt p /\ rcv_wnd p' = rcv_wnd p /\ ooseq p' = ooseq p /\ recv_data p' = recv_data p /\ cong_ok p'.
Proof.
  unfold tcp_receive. intros H Hz Hc. apply bind_Ok_inv in H as ([p1 w1] & H1 & H).
  assert (ack_frame p p1 /\ cong_ok p1) as (Hf & Hc1).
  { destruct (has _ TCP_ACK); [|injection H1 as <- <-; done]. split; [by eapply receive_ack_frame|].
    destruct (receive_ack_ok w (seg_hdr s) p Hc) as (p2 & w2 & E & Hc2). rewrite E in H1. injection H1 as <- <-. done. }
  kept Hf. unfold receive_data in H. rewrite Hz in H. change (0 <? 0) with false in H. cbv iota beta zeta in H.
  injection H as _ <- _. destruct (_ || _); split_and!; done.
Qed.

(** What tcp_process makes of a packet of the peer: tcp_receive, and then a change of
    the state. *)
Lemma process_receive n t s a src dst mtu na q w : here t a q w -> receiving (state q) = true -> has (TCPH_FLAGS (seg_hdr s)) TCP_RST = false ->
  tcp_process n t s a src dst mtu na =
  ('(s', p, w') ← tcp_receive w s (set_tmr (tcp_ticks w) q);
   Ok (0, s', apply_next (set_tnet (putpcb t a (set_tmr (tcp_ticks w) q)) w') a p (after_receive (seg_hdr s) p))).
Proof.
  intros [Ep Ew] Hst Hr. unfold tcp_process, getpcb. rewrite Ep. cbn [from_opt mbind outcome_bind]. rewrite Hr, <- Ew.
  assert (is_state (state q) LISTEN = false) as -> by (by destruct (state q)). pcb_simpl. destruct (state q); try discriminate Hst; reflexivity.
Qed.

Lemma apply_next_here t a p h p' w' : receiving (state p) = true -> here (apply_next t a p (after_receive h p)) a p' w' -> receiving (state p') = true ->
  w' = tnet t /\ p' = set_state (state p') (set_flags (flags p') p) /\ (writable (state p') = true -> writable (state p) = true).
Proof.
  intros Hp [E <-] Hr. unfold after_receive in *. cbv zeta in *.
  assert (forall q : pcb, pcbs (putpcb t a q) !! a = Some p' -> p' = q) as Hput by (intros q; cbn; rewrite lookup_insert_eq; congruence).
  assert (forall q : Prop, state p' = TIME_WAIT \/ state p' = CLOSED -> q) as Hno by (intros q [e|e]; rewrite e in Hr; discriminate Hr).
  destruct (state p) eqn:Es; try discriminate Hp; repeat case_match; cbn [apply_next] in *;
    first [apply Hput in E; subst p'|cbn in E; rewrite lookup_insert_eq in E; injection E as <-].
  all: try (apply Hno; pcb_simpl; by auto).
  all: split; [reflexivity|]; split; [destruct p; cbn in Es; subst; reflexivity|pcb_simpl; rewrite ?Es; done].
Qed.

Lemma close_here t a p w rc t' p' w' : here t a p w -> state p = ESTABLISHED \/ state p = CLOSE_WAIT -> tcp_close t a = Ok (rc, t') ->
  here t' a p' w' -> exists st, writable (state p) = true /\ writable st = false /\ send_fin w p st = Ok (rc, p', w').
Proof.
  intros [Ep Ew] Hst H [Ep' Ew']. unfold tcp_close, getpcb in H. rewrite Ep in H. cbn [from_opt mbind outcome_bind] in H. rewrite Ew in H.
  assert (forall st, ('(err, p, w) ← send_fin w p st; Ok (err, on_pcb t a (p, w))) = Ok (rc, t') -> send_fin w p st = Ok (rc, p', w')) as Hfin.
  { intros st E. apply bind_Ok_inv in E as ([[rc1 q] w1] & -> & E). injection E as <- <-. cbn in Ep', Ew'.
    rewrite lookup_insert_eq in Ep'. by injection Ep' as ->; subst. }
  destruct Hst as [E|E]; rewrite E in *; eexists; (split; [done|]); (split; [|by apply Hfin in H; exact H]); done.
Qed.

(** ** The invariant *)

(** The streams [e] may end up having sent. *)
Definition ext (e : endpoint) (S : list Z) : Prop :=
  wrote e `prefix_of` S /\ (closed e = true -> S = wrote e) /\ ssize S < max_stream.

(** Acknowledgements of at most [r] places. *)
Definition ack_upto (b r a : Z) : Prop := exists x, 0 <= x <= r /\ a = sq b x.

(** From [e1] to [e2]: [r1] places of the stream of [e1] have been received, [r2] of
    the other one; [F] are the segments [e1] has sent. *)
Record half (b1 b2 p1 p2 : Z) (e1 e2 : endpoint) (F : list (Z * Z)) (r1 r2 : Z) : Prop := {
  h_sinv : sinv b1 p1 p2 (ack_upto b2 r2) (ep e1) (ew e1) (wrote e1) (closed e1) F;
  h_size : ssize (wrote e1) < max_stream;
  h_flow : forall S, ext e1 S -> received S b1 F (ep e2, got e2) r1;
  h_acked : exists la, 0 <= la <= r1 /\ lastack (ep e1) = sq b1 la }.

Lemma ext_self e : ssize (wrote e) < max_stream -> ext e (wrote e).
Proof. intros H. by split_and!. Qed.

Lemma half_range b1 b2 p1 p2 e1 e2 F r1 r2 : half b1 b2 p1 p2 e1 e2 F r1 r2 ->
  0 <= r1 <= ssize (wrote e1) + 1 /\ rcv_nxt (ep e2) = sq b1 r1 /\ total (wrote e1) (closed e1) < 2 ^ 31.
Proof.
  intros [_ Hs Hf _]. destruct (Hf _ (ext_self _ Hs)) as ([Hn Hr _ _] & _). split_and!; try done; try lia.
  unfold total, max_stream in *. case_match; lia.
Qed.

Lemma ack_upto_mono b r r' a : r <= r' -> ack_upto b r a -> ack_upto b r' a.
Proof. intros Hr (x & Hx & ->). exists x. split; [lia|done]. Qed.

Lemma sinv_ack_mono b lp rp (A A' : Z -> Prop) p w T c F : (forall a, A a -> A' a) -> sinv b lp rp A p w T c F -> sinv b lp rp A' p w T c F.
Proof.
  intros HA [? ? ? ? ? ? ? ? Ho]. split; try done. eapply Forall_impl; [exact Ho|]. intros k [? ? ? (a & Ha & ?)]. split; try done.
  exists a. split; [by apply HA|done].
Qed.

(** A packet of the peer, as it is received. *)
Lemma arrives_genuine b lp rp b' r T c F k s S : pk_ok b lp rp (ack_upto b' r) T c F k -> sent_ok T c F -> arrives k s ->
  T `prefix_of` S -> (c = true -> S = T) ->
  ack_upto b' r (th_ackno (seg_hdr s)) /\ (TCP_TCPLEN s = 0 \/ exists i n, genuine S b s i n /\ (i, n) ∈ F).
Proof.
  intros [(i & n & f & Hi & Hn & Hin & Eq & Ed & Hof & (Hsyn & _ & Hfin) & HF) Eo _ (a & Ha & Ea)] [_ Hsent] Harr [d ->] Hc.
  destruct (arrives_seg k s f Harr Hof Eo) as (Eh & Hof' & El & bf & Ebf & Hne & Hby & Htot).
  assert (forall x, 0 <= x < 2 ^ 32 -> ntohl (u32 (htonl x)) = x) as Hnet
    by (intros x Hx; rewrite u32_small by (by apply htonl_range); by apply ntohl_htonl).
  split.
  - rewrite Eh. cbn [th_ackno host_order hdr_wire]. rewrite Ea. destruct (Ha) as (x & Hx & ->). rewrite Hnet by apply sq_range. by exists x.
  - pose proof (of_flags _ _ _ Hof') as Hfl. destruct HF as [[-> Hnf]|HF].
    + left. unfold TCP_TCPLEN. rewrite Hfl, Hsyn, Hnf, El, Ed. done.
    + right. exists i, n. destruct (Hsent i n HF) as (_ & _ & Hle & _). split; [|done]. pose proof (ssize_app T d).
      pose proof (slice_length T i n Hi Hn Hle) as Hlen. rewrite Ed in *.
      split; rewrite ?Hfl; try done; [lia| |by rewrite El, Hlen| |].
      * unfold hseq. rewrite Eh. cbn [th_seqno host_order hdr_wire]. rewrite Eq. apply Hnet, sq_range.
      * exists bf. split_and!; try done; [by rewrite slice_grow by lia|lia|lia].
      * intros E. destruct (Hfin E) as (Ec & ? & ?). rewrite Hc by done. done.
Qed.

(** The sender's side moves on; the receiver's is not touched. *)
Lemma flow_grow b e1 e1' e2 F F' r : (forall S, ext e1' S -> ext e1 S) -> F ⊆ F' ->
  (forall S, ext e1 S -> received S b F (ep e2, got e2) r) -> forall S, ext e1' S -> received S b F' (ep e2, got e2) r.
Proof.
  intros He HF Hf S HS. destruct (Hf S (He S HS)) as ([Hn Hr Hw Hq] & Hc & Hg). split; [|by split]. split; try done. cbn in *.
  clear -Hq HF. revert Hq. generalize (ooseq (ep e2)). intros l. revert r. induction l as [|x l IH]; intros r; [done|].
  cbn. intros (i & n & G & Hin & Hlt & Hp & Hq). exists i, n. split_and!; try done; [by apply HF|by apply IH].
Qed.

(** The receiver's side is left alone, or its queue is dropped. *)
Lemma flow_quiet b e1 e2 p' g F r : g = got e2 -> rcv_nxt p' = rcv_nxt (ep e2) -> ooseq p' = ooseq (ep e2) \/ ooseq p' = [] ->
  0 <= rcv_wnd p' < 65536 -> cong_ok p' ->
  (forall S, ext e1 S -> received S b F (ep e2, got e2) r) -> forall S, ext e1 S -> received S b F (p', g) r.
Proof.
  intros -> En Eo Hw Hc Hf S HS. destruct (Hf S HS) as ([Hn Hr _ Hq] & _ & Hg). cbn in *. split; [|by split]. cbn. split; rewrite ?En; try done.
  destruct Eo as [->| ->]; done.
Qed.

Section Step.
Context (b1 b2 p1 p2 : Z).

(** What a step of [e1] that receives nothing has to keep. *)
Record quiet (e e' : endpoint) : Prop := {
  q_got : got e' = got e;
  q_nxt : rcv_nxt (ep e') = rcv_nxt (ep e);
  q_ooseq : ooseq (ep e') = ooseq (ep e) \/ ooseq (ep e') = [];
  q_wnd : 0 <= rcv_wnd (ep e') < 65536;
  q_cong : cong_ok (ep e');
  q_ack : lastack (ep e') = lastack (ep e);
  q_ext : forall S, ext e' S -> ext e S;
  q_size : ssize (wrote e') < max_stream }.

Lemma half_quiet e1 e2 e1' F1 F2 r1 r2 F' : half b1 b2 p1 p2 e1 e2 F1 r1 r2 -> half b2 b1 p2 p1 e2 e1 F2 r2 r1 -> quiet e1 e1' ->
  sinv b1 p1 p2 (ack_upto b2 r2) (ep e1') (ew e1') (wrote e1') (closed e1') F' -> F1 ⊆ F' ->
  half b1 b2 p1 p2 e1' e2 F' r1 r2 /\ half b2 b1 p2 p1 e2 e1' F2 r2 r1.
Proof.
  intros [Hs1 Hz1 Hf1 Ha1] [Hs2 Hz2 Hf2 Ha2] [Qg Qn Qo Qw Qc Qa Qe Qs] Hs' Hsub. split; split; try done.
  - by eapply flow_grow.
  - by rewrite Qa.
  - by eapply flow_quiet.
Qed.

(** Enough for steps that leave the fields of the receiving side alone. *)
Lemma quiet_rkeep p w T c g p' w' T' c' F2 e2 r1 r2 : half b2 b1 p2 p1 e2 (MkEnd p w T c g) F2 r2 r1 -> rkeep p' = rkeep p ->
  T `prefix_of` T' -> (c = true -> c' = true /\ T' = T) -> ssize T' < max_stream -> quiet (MkEnd p w T c g) (MkEnd p' w' T' c' g).
Proof.
  intros [_ Hz2 Hf2 _] Hk HT Hc Hz. destruct (Hf2 _ (ext_self _ Hz2)) as ([_ _ Hw _] & Hco & _). cbn in *.
  destruct (rkeep_inv _ _ Hk) as (En & Ew & Eo & El & Hco'). split; cbn; rewrite ?En, ?Ew, ?El; try done; [by left|by apply Hco'|].
  intros S (HS1 & HS2 & HS3). split_and!; cbn in *; try done; [by etransitivity|]. intros E. destruct (Hc E) as [-> ->]. by apply HS2.
Qed.

Lemma half_ack e1 e2 F1 F2 r1 r2 : half b1 b2 p1 p2 e1 e2 F1 r1 r2 -> half b2 b1 p2 p1 e2 e1 F2 r2 r1 -> ack_upto b2 r2 (rcv_nxt (ep e1)).
Proof. intros _ H2. destruct (half_range _ _ _ _ _ _ _ _ _ H2) as (Hr & En & _). exists r2. split; [lia|done]. Qed.

Lemma write_half p w T c g d opt rc p' w' e2 F1 F2 r1 r2 :
  half b1 b2 p1 p2 (MkEnd p w T c g) e2 F1 r1 r2 -> half b2 b1 p2 p1 e2 (MkEnd p w T c g) F2 r2 r1 ->
  tcp_write w p d opt = Ok (rc, p', w') -> rc = 0 \/ unsent p' = unsent p -> ssize (T ++ d) < max_stream ->
  exists F', let e1' := MkEnd p' w' (if rc =? 0 then T ++ d else T) c g in
    half b1 b2 p1 p2 e1' e2 F' r1 r2 /\ half b2 b1 p2 p1 e2 e1' F2 r2 r1.
Proof.
  intros H1 H2 H Hrc Hz. pose proof (half_ack _ _ _ _ _ _ H1 H2) as Ha. cbn in Ha.
  destruct (tcp_write_ok b1 p1 p2 (ack_upto b2 r2) T c F1 w p d opt rc p' w') as (I0 & I1); try done.
  { unfold total, max_stream in *. case_match; lia. } { apply (h_sinv _ _ _ _ _ _ _ _ _ H1). }
  assert (rc = 0 -> d <> [] -> c = false) as Hcl.
  { intros -> Hd. destruct c; [|done]. pose proof (si_closed _ _ _ _ _ _ _ _ _ (h_sinv _ _ _ _ _ _ _ _ _ H1) eq_refl) as Hw. cbn in Hw.
    unfold tcp_write in H. fold (writable (state p)) in H. rewrite Hw in H. by injection H. }
  pose proof (h_size _ _ _ _ _ _ _ _ _ H1) as Hz1. cbn in Hz1.
  assert (exists F', sinv b1 p1 p2 (ack_upto b2 r2) p' w' (if rc =? 0 then T ++ d else T) c F' /\ F1 ⊆ F') as (F' & Hs' & Hsub).
  { destruct (Z.eqb_spec rc 0) as [E|E]; [by apply I0|]. exists F1. split; [|done]. destruct Hrc; [done|]. by apply I1. }
  exists F'. cbv zeta. eapply half_quiet; try done. eapply quiet_rkeep; [done|by eapply write_rkeep|..].
  - case_match; [by apply prefix_app_r|done].
  - intros Ec. split; [done|]. destruct (Z.eqb_spec rc 0) as [E|E]; [|done]. destruct d as [|z d]; [by rewrite app_nil_r|]. rewrite Hcl in Ec; done.
  - case_match; [done|]. lia.
Qed.

Lemma close_half p w T c g st rc p' w' e2 F1 F2 r1 r2 :
  half b1 b2 p1 p2 (MkEnd p w T c g) e2 F1 r1 r2 -> half b2 b1 p2 p1 e2 (MkEnd p w T c g) F2 r2 r1 ->
  writable (state p) = true -> writable st = false -> send_fin w p st = Ok (rc, p', w') ->
  exists F', let e1' := MkEnd p' w' T (if rc =? 0 then true else c) g in
    half b1 b2 p1 p2 e1' e2 F' r1 r2 /\ half b2 b1 p2 p1 e2 e1' F2 r2 r1.
Proof.
  intros H1 H2 Hw Hst H. pose proof (half_ack _ _ _ _ _ _ H1 H2) as Ha. pose proof (h_sinv _ _ _ _ _ _ _ _ _ H1) as Hs1.
  pose proof (h_size _ _ _ _ _ _ _ _ _ H1) as Hz1. cbn in Ha, Hs1, Hz1.
  assert (c = false) as -> by (destruct c; [|done]; by rewrite (si_closed _ _ _ _ _ _ _ _ _ Hs1) in Hw).
  assert (exists F', sinv b1 p1 p2 (ack_upto b2 r2) p' w' T (if rc =? 0 then true else false) F' /\ F1 ⊆ F') as (F' & Hs' & Hsub).
  { pose proof H as H'. unfold send_fin in H'. apply bind_Ok_inv in H' as ([[rc1 q] w1] & Hq & H').
    destruct (send_fin_ok b1 p1 p2 (ack_upto b2 r2) T F1 w p st rc1 q w1 Hs1 Hst Hq) as (I0 & I1 & En).
    destruct (Z.eqb_spec rc1 0) as [E|E]; [|injection H' as <- <- <-; rewrite (proj2 (Z.eqb_neq rc1 0)) by done; exists F1; split; [by apply I1|done]].
    destruct (tcp_output w1 (set_state st q)) as [[rc2 q2] w2] eqn:Eo. injection H' as <- <- <-. change (0 =? 0) with true. cbv iota.
    eapply tcp_output_ok; [|exact Eo|pcb_simpl; by rewrite En|by apply I0]. unfold total, max_stream in *. cbv iota. lia. }
  exists F'. cbv zeta. eapply half_quiet; try done. eapply quiet_rkeep; try done. by eapply send_fin_rkeep.
Qed.

Lemma sq_inj b x y : sq b x = sq b y -> - 2 ^ 32 < x - y < 2 ^ 32 -> x = y.
Proof.
  unfold sq, u32. intros E H. pose proof (Z.div_mod (b + x) (2 ^ 32) ltac:(lia)). pose proof (Z.div_mod (b + y) (2 ^ 32) ltac:(lia)). lia.
Qed.

(** What a packet of [e2] adds to the bytes received. *)
Lemma receive_flow p w g k s s' p' w' e2 F2 r2 r : sinv b2 p2 p1 (ack_upto b1 r) (ep e2) (ew e2) (wrote e2) (closed e2) F2 ->
  ssize (wrote e2) < max_stream -> (forall S, ext e2 S -> received S b2 F2 (p, g) r2) -> k ∈ out (ew e2) -> arrives k s ->
  tcp_receive w s (set_recv_data None p) = Ok (s', p', w') ->
  exists r2', r2 <= r2' /\ forall S, ext e2 S -> received S b2 F2 (p', g ++ dbytes (recv_data p')) r2'.
Proof.
  intros Hs2 Hz2 Hf2 Hk Harr H. pose proof (proj1 (Forall_forall _ _) (si_out _ _ _ _ _ _ _ _ _ Hs2) k Hk) as Hpk.
  pose proof (si_sent _ _ _ _ _ _ _ _ _ Hs2) as Hsent. pose proof (proj1 Hsent) as Hno.
  destruct (decide (TCP_TCPLEN s = 0)) as [Hz|Hnz].
  - destruct (Hf2 _ (ext_self _ Hz2)) as ([Hn2 Hr2 Hw2 _] & Hc2 & _). exists r2. split; [done|].
    destruct (receive_empty _ _ _ _ _ _ H Hz Hc2) as (E1 & E2 & E3 & E4 & E5). pcb_simpl_in E4. rewrite E4. cbn [dbytes]. rewrite app_nil_r.
    apply (flow_quiet b2 e2 (MkEnd p w [] false g)); try done; [by left|by rewrite E2].
  - assert (forall S, ext e2 S -> exists r2', r2 <= r2' /\ received S b2 F2 (p', g ++ dbytes (recv_data p')) r2') as Hex.
    { intros S HS. destruct (Hf2 S HS) as (Hi & Hc & Hg). destruct HS as (HS1 & HS2 & HS3). cbn [fst snd] in *.
      destruct (arrives_genuine b2 p2 p1 b1 r _ _ F2 k s S Hpk Hsent Harr HS1 HS2) as (_ & [?|(i & n & G & Hin)]); [done|].
      destruct (tcp_receive_ok S b2 F2 Hno ltac:(unfold max_stream in *; lia) w s (set_recv_data None p) r2 i n) as (s1 & q & w1 & r' & E & Hi' & Hc' & Hle & Hd & _);
        try done; [by apply rinv_none|]. rewrite H in E. injection E as <- <- <-. exists r'. split; [done|]. split; [done|]. split; [done|].
      cbn. rewrite Hg, Hd, take_slice by (destruct Hi; lia). do 2 f_equal. lia. }
    destruct (Hex _ (ext_self _ Hz2)) as (r' & Hle & ([Hn Hr _ _] & _)). exists r'. split; [done|]. intros S HS.
    destruct (Hex S HS) as (r'' & _ & Hrec). destruct (Hrec) as ([Hn' Hr' _ _] & _). cbn in *. rewrite Hn in Hn'.
    destruct HS as (_ & _ & HS3). apply sq_inj in Hn' as ->; [done|]. unfold max_stream in *. lia.
Qed.

(** A packet arrives. *)
Lemma arrive_half p w T c g k s s' p' w' e2 F1 F2 r1 r2 :
  half b1 b2 p1 p2 (MkEnd p w T c g) e2 F1 r1 r2 -> half b2 b1 p2 p1 e2 (MkEnd p w T c g) F2 r2 r1 ->
  k ∈ out (ew e2) -> arrives k s -> tcp_receive w s (set_recv_data None p) = Ok (s', p', w') ->
  exists F' r2', let e1' := MkEnd p' w' T c (g ++ dbytes (recv_data p')) in r2 <= r2' /\
    half b1 b2 p1 p2 e1' e2 F' r1 r2' /\ half b2 b1 p2 p1 e2 e1' F2 r2' r1.
Proof.
  intros H1 H2 Hk Harr H. pose proof (half_ack _ _ _ _ _ _ H1 H2) as Ha. destruct (half_range _ _ _ _ _ _ _ _ _ H1) as (Hr1 & _ & HT1).
  destruct H1 as [Hs1 Hz1 Hf1 (la & Hla & El)]. destruct H2 as [Hs2 Hz2 Hf2 Ha2]. cbn [ep ew wrote closed got] in *.
  pose proof (proj1 (Forall_forall _ _) (si_out _ _ _ _ _ _ _ _ _ Hs2) k Hk) as Hpk. pose proof (si_sent _ _ _ _ _ _ _ _ _ Hs2) as Hsent.
  assert (ack_upto b1 r1 (th_ackno (seg_hdr s))) as Hack
    by (eapply (arrives_genuine b2 p2 p1 b1 r1 _ _ F2 k s (wrote e2)); done).
  destruct (Hf2 _ (ext_self _ Hz2)) as ([Hn2 Hr2 Hw2 Hq2] & Hc2 & Hg2). cbn [fst snd] in *.
  destruct (receive_flow p w g k s s' p' w' e2 F2 r2 r1) as (r2' & Hle & Hf'); try done.
  assert (exists F', sinv b1 p1 p2 (ack_upto b2 r2) p' w' T c F' /\ F1 ⊆ F') as (F' & Hs' & Hsub).
  { destruct Hack as (x & Hx & Ex). 
    apply (tcp_receive_send b1 p1 p2 (ack_upto b2 r2) T c F1 w s (set_recv_data None p) s' p' w'); try done.
    - by eapply sinv_same; [exact Hs1|..].
    - rewrite Ex. apply sq_range.
    - rewrite Ex. pcb_simpl. rewrite El, sq_add. unfold max_stream in Hz1. intros E. apply sq_inj in E; lia. }
  exists F', r2'. cbv zeta. split; [done|]. split; split; cbn [ep ew wrote closed got]; try done.
  - eapply sinv_ack_mono; [|exact Hs']. intros a. by apply ack_upto_mono.
  - eapply flow_grow; [|exact Hsub|exact Hf1]. done.
  - apply receive_lastack in H as [E|E]; pcb_simpl_in E; rewrite E; [by exists la|]. destruct Hack as (x & Hx & Ex). by exists x.
  - destruct Ha2 as (l2 & Hl2 & E2). exists l2. split; [lia|done].
Qed.

(** A packet of the peer has no RST flag. *)
Lemma arrives_norst b lp rp A T c F k s : pk_ok b lp rp A T c F k -> arrives k s -> has (TCPH_FLAGS (seg_hdr s)) TCP_RST = false.
Proof.
  intros [(i & n & f & _ & _ & _ & _ & _ & Hof & (_ & Hr & _) & _) Eo _ _] Harr. destruct (arrives_seg k s f Harr Hof Eo) as (_ & Hof' & _).
  by rewrite (of_flags _ _ _ Hof').
Qed.

(** The other steps. *)
Lemma keep_half p w T c g p' w' e2 F1 F2 r1 r2 F' :
  half b1 b2 p1 p2 (MkEnd p w T c g) e2 F1 r1 r2 -> half b2 b1 p2 p1 e2 (MkEnd p w T c g) F2 r2 r1 -> rkeep p' = rkeep p ->
  sinv b1 p1 p2 (ack_upto b2 r2) p' w' T c F' /\ F1 ⊆ F' ->
  half b1 b2 p1 p2 (MkEnd p' w' T c g) e2 F' r1 r2 /\ half b2 b1 p2 p1 e2 (MkEnd p' w' T c g) F2 r2 r1.
Proof.
  intros H1 H2 Hk (Hs' & Hsub). eapply half_quiet; try done. eapply quiet_rkeep; try done. apply (h_size _ _ _ _ _ _ _ _ _ H1).
Qed.

Lemma quiet_fields p w T c g p' w' e2 F2 r1 r2 : half b2 b1 p2 p1 e2 (MkEnd p w T c g) F2 r2 r1 -> rcv_nxt p' = rcv_nxt p ->
  ooseq p' = ooseq p \/ ooseq p' = [] -> 0 <= rcv_wnd p' < 65536 -> (cong_ok p -> cong_ok p') -> lastack p' = lastack p -> ssize T < max_stream ->
  quiet (MkEnd p w T c g) (MkEnd p' w' T c g).
Proof.
  intros [_ Hz2 Hf2 _] En Eo Hw Hc El Hz. destruct (Hf2 _ (ext_self _ Hz2)) as (_ & Hco & _). by split; cbn; auto.
Qed.

Lemma other_half p w T c g p' w' e2 F1 F2 r1 r2 :
  half b1 b2 p1 p2 (MkEnd p w T c g) e2 F1 r1 r2 -> half b2 b1 p2 p1 e2 (MkEnd p w T c g) F2 r2 r1 ->
  local_port p' = local_port p -> remote_port p' = remote_port p -> mss p' = mss p -> cwnd p' = cwnd p -> ssthresh p' = ssthresh p ->
  snd_lbb p' = snd_lbb p -> snd_nxt p' = snd_nxt p -> snd_max p' = snd_max p -> lastack p' = lastack p ->
  released (unacked p) (unacked p') -> released (unsent p) (unsent p') -> (writable (state p') = true -> writable (state p) = true) ->
  rcv_nxt p' = rcv_nxt p -> rcv_wnd p' = rcv_wnd p -> ooseq p' = ooseq p \/ ooseq p' = [] -> out w' = out w ->
  half b1 b2 p1 p2 (MkEnd p' w' T c g) e2 F1 r1 r2 /\ half b2 b1 p2 p1 e2 (MkEnd p' w' T c g) F2 r2 r1.
Proof.
  intros H1 H2 E1 E2 E3 E4 E5 E6 E7 E8 E9 Ra Ru Hst E10 E11 Eo Eout. pose proof (h_sinv _ _ _ _ _ _ _ _ _ H1) as Hs1.
  pose proof (h_flow _ _ _ _ _ _ _ _ _ H2 _ (ext_self _ (h_size _ _ _ _ _ _ _ _ _ H2))) as (Hri & Hco & _).
  pose proof (ri_wnd _ _ _ _ _ Hri) as Hw. pose proof (h_size _ _ _ _ _ _ _ _ _ H1) as Hz1. cbn [ep ew wrote closed got fst snd] in *.
  eapply half_quiet; try done; [eapply quiet_fields; try done; [by rewrite E11|unfold cong_ok; by rewrite E3, E4, E5]|].
  destruct Hs1 as [Hp Hm (x & Hx & Ht) Hl Hn Hac Hcl Hse Ho]. split; cbn; rewrite ?E1, ?E2, ?E3, ?E6, ?E7, ?E8, ?E9, ?Eout; try done.
  - exists x. split; [done|]. eapply tiles_released; [|exact Ht]. by apply Forall2_app.
  - intros E. destruct (writable (state p')); [|done]. rewrite Hst in Hcl by done. by apply Hcl.
Qed.

(** The timer, the state and the flags do not matter to either side. *)
Lemma state_half p w T c g p' e2 F1 F2 r1 r2 v st f : p' = set_tmr v p \/ p' = set_state st (set_flags f p) ->
  (writable (state p') = true -> writable (state p) = true) ->
  half b1 b2 p1 p2 (MkEnd p w T c g) e2 F1 r1 r2 -> half b2 b1 p2 p1 e2 (MkEnd p w T c g) F2 r2 r1 ->
  half b1 b2 p1 p2 (MkEnd p' w T c g) e2 F1 r1 r2 /\ half b2 b1 p2 p1 e2 (MkEnd p' w T c g) F2 r2 r1.
Proof.
  intros E Hst H1 H2. eapply other_half; try exact H1; try exact H2; destruct E as [->| ->]; try done; try apply released_refl; by left.
Qed.

(** A packet is processed. *)
Lemma process_half p w T c g k s n t a src dst mtu na rc s' t' p' w' e2 F1 F2 r1 r2 :
  half b1 b2 p1 p2 (MkEnd p w T c g) e2 F1 r1 r2 -> half b2 b1 p2 p1 e2 (MkEnd p w T c g) F2 r2 r1 ->
  k ∈ out (ew e2) -> arrives k s -> here t a (set_recv_data None p) w -> receiving (state p) = true ->
  tcp_process n t s a src dst mtu na = Ok (rc, s', t') -> here t' a p' w' -> receiving (state p') = true ->
  exists F' r2', let e1' := MkEnd p' w' T c (g ++ dbytes (recv_data p')) in
    half b1 b2 p1 p2 e1' e2 F' r1 r2' /\ half b2 b1 p2 p1 e2 e1' F2 r2' r1.
Proof.
  intros H1 H2 Hk Harr Hh Hst H Hh' Hst'. pose proof (h_sinv _ _ _ _ _ _ _ _ _ H2) as Hs2.
  pose proof (arrives_norst _ _ _ _ _ _ _ _ _ (proj1 (Forall_forall _ _) (si_out _ _ _ _ _ _ _ _ _ Hs2) k Hk) Harr) as Hr.
  rewrite (process_receive _ _ _ _ _ _ _ _ _ _ Hh Hst Hr) in H. apply bind_Ok_inv in H as ([[s1 q] w1] & H & E). injection E as <- <- <-.
  destruct (state_half p w T c g (set_tmr (tcp_ticks w) p) e2 F1 F2 r1 r2 (tcp_ticks w) (state p) 0) as [G1 G2]; try done; [by left|].
  destruct (arrive_half (set_tmr (tcp_ticks w) p) w T c g k s s1 q w1 e2 F1 F2 r1 r2 G1 G2 Hk Harr H) as (F' & r2' & _ & K1 & K2).
  assert (receiving (state q) = true) as Hq by (rewrite (receive_state _ _ _ _ _ _ H); exact Hst).
  destruct (apply_next_here _ _ _ _ _ _ Hq Hh' Hst') as (Ew & Ep & Hw). cbn in Ew. subst w'.
  exists F', r2'. cbv zeta. assert (recv_data p' = recv_data q) as -> by (rewrite Ep; reflexivity).
  apply (state_half q w1 T c _ p' e2 F' F2 r1 r2' 0 (state p') (flags p')); try done. by right.
Qed.

Lemma estep_half e1 e1' e2 F1 F2 r1 r2 : half b1 b2 p1 p2 e1 e2 F1 r1 r2 -> half b2 b1 p2 p1 e2 e1 F2 r2 r1 -> estep (out (ew e2)) e1 e1' ->
  exists F1' r2', half b1 b2 p1 p2 e1' e2 F1' r1 r2' /\ half b2 b1 p2 p1 e2 e1' F2 r2' r1.
Proof.
  intros H1 H2 Hst. pose proof (half_ack _ _ _ _ _ _ H1 H2) as Ha. pose proof (h_sinv _ _ _ _ _ _ _ _ _ H1) as Hs1.
  pose proof (h_size _ _ _ _ _ _ _ _ _ H1) as Hz1. destruct (half_range _ _ _ _ _ _ _ _ _ H1) as (_ & _ & HT).
  pose proof (h_flow _ _ _ _ _ _ _ _ _ H2 _ (ext_self _ (h_size _ _ _ _ _ _ _ _ _ H2))) as (Hri & Hco & _).
  pose proof (ri_wnd _ _ _ _ _ Hri) as Hw.
  destruct Hst as [p w T c g d opt rc p' w' H Hrc Hz|p w T c g t a rc t' p' w' Hh Hst H Hh'|
    p w T c g k s n t a src dst mtu na rc s' t' p' w' Hk Harr Hh Hst H Hh' Hst'|p w T c g rc p' w' H|
    p w T c g p' w' H|p w T c g p' w' H|p w T c g n|p w T c g p' w' E1 E2 E3 E4 E5 E6 E7 E8 E9 Ra Ru Hst E10 E11 Eo Eout];
    cbn [ep ew wrote closed got fst snd] in *.
  - destruct (write_half p w T c g d opt rc p' w' e2 F1 F2 r1 r2 H1 H2 H Hrc Hz) as (F' & Hh). by exists F', r2.
  - destruct (close_here _ _ _ _ _ _ _ _ Hh Hst H Hh') as (st & Hwr & Hst' & Hfin).
    destruct (close_half p w T c g st rc p' w' e2 F1 F2 r1 r2 H1 H2 Hwr Hst' Hfin) as (F' & Hend). by exists F', r2.
  - by eapply (process_half p w T c g k s n t a src dst mtu na rc s' t' p' w' e2).
  - destruct (tcp_output_ok _ _ _ _ _ _ F1 _ _ _ _ _ HT H Ha Hs1) as (F' & Hh). exists F', r2. eapply keep_half; try done.
    by eapply out_rkeep, tcp_output_frame.
  - destruct (slow_rexmit_ok _ _ _ _ _ _ F1 _ _ _ _ HT Hs1 Ha H) as (F' & Hs' & Hsub). exists F', r2. eapply half_quiet; try done.
    destruct (slow_rkeep _ _ _ _ H Hco) as (G1 & G2 & G3 & G4 & G5). eapply quiet_fields; try done; [by left|by rewrite G2].
  - destruct (fast_pcb_ok _ _ _ _ _ _ F1 _ _ _ _ HT Hs1 Ha H) as (F' & Hh). exists F', r2. eapply keep_half; try done. by eapply fast_rkeep.
  - destruct (tcp_recved_keep p n) as (K1 & K2 & K3 & K4 & K5 & K6 & K7). exists F1, r2. eapply half_quiet; try done; [|by eapply sinv_same; [exact Hs1|..]].
    eapply quiet_fields; try done; [by left| |by rewrite K7|by apply fkeep_inv in K1 as (_ & _ & _ & _ & K1 & _)].
    unfold tcp_recved. cbv zeta. pcb_simpl. pose proof (u16_range (rcv_wnd p + n)).
    destruct (Z.ltb_spec TCP_WND (u16 (rcv_wnd p + n))); case_match; pcb_simpl; try done; unfold TCP_WND, TCP_MSS, MTU; lia.
  - exists F1, r2. eapply other_half; try exact H1; try exact H2; try done. by rewrite Hst.
Qed.
End Step.

(** ** The theorem *)

Record fresh (b b' lp rp : Z) (e : endpoint) : Prop := {
  fr_state : state (ep e) = ESTABLISHED;
  fr_ports : local_port (ep e) = lp /\ remote_port (ep e) = rp;
  fr_send : unacked (ep e) = [] /\ unsent (ep e) = [] /\ snd_lbb (ep e) = sq b 0 /\ snd_nxt (ep e) = sq b 0 /\ snd_max (ep e) = sq b 0 /\
    lastack (ep e) = sq b 0;
  fr_recv : rcv_nxt (ep e) = sq b' 0 /\ ooseq (ep e) = [] /\ 0 <= rcv_wnd (ep e) < 65536;
  fr_cong : cong_ok (ep e);
  fr_empty : wrote e = [] /\ closed e = false /\ got e = [] /\ out (ew e) = [] }.

Lemma fresh_half b1 b2 p1 p2 e1 e2 : fresh b1 b2 p1 p2 e1 -> fresh b2 b1 p2 p1 e2 -> half b1 b2 p1 p2 e1 e2 [] 0 0.
Proof.
  intros [_ Hp (U & A & L & N & M & La) _ Hc (W & C & _ & O)] [_ _ _ (R & Q & Hw) Hc2 (_ & _ & G & _)].
  split; rewrite ?W, ?C; try done.
  - split; rewrite ?U, ?A, ?L, ?N, ?M, ?La, ?O; try done; [apply Hc|by exists 0|by exists 0|by exists 0, 0|].
    split; [intros i n j m Hin; by apply elem_of_nil in Hin|intros i n Hin; by apply elem_of_nil in Hin].
  - intros S _. split; [|by split]. cbn. split; rewrite ?Q; try done. unfold ssize. lia.
  - exists 0. by rewrite La.
Qed.

(** [e2] has received a prefix of what [e1] wrote, at least as far as [e1] holds it for
    acknowledged, and can process every packet [e1] has sent. *)
Definition delivered (b : Z) (e1 e2 : endpoint) : Prop :=
  got e2 `prefix_of` wrote e1 /\
  (exists la, 0 <= la /\ lastack (ep e1) = sq b la /\ take (Z.to_nat la) (wrote e1) `prefix_of` got e2) /\
  (forall k s n t a src dst mtu na, k ∈ out (ew e1) -> arrives k s -> pcbs t !! a = Some (set_recv_data None (ep e2)) ->
     receiving (state (ep e2)) = true -> exists r, tcp_process n t s a src dst mtu na = Ok r).

Lemma half_receives b1 b2 p1 p2 e1 e2 F r1 r2 k s w v : half b1 b2 p1 p2 e1 e2 F r1 r2 -> k ∈ out (ew e1) -> arrives k s ->
  exists r, tcp_receive w s (set_tmr v (set_recv_data None (ep e2))) = Ok r.
Proof.
  intros [Hs Hz Hf _] Hk Harr. destruct (Hf _ (ext_self _ Hz)) as (Hi & Hc & _). cbn [fst snd] in *. set (q := set_tmr _ _).
  assert (rinv (wrote e1) b1 F q r1) as Hq by (destruct Hi; by split; pcb_simpl). pose proof (si_sent _ _ _ _ _ _ _ _ _ Hs) as Hsent.
  pose proof (proj1 (Forall_forall _ _) (si_out _ _ _ _ _ _ _ _ _ Hs) k Hk) as Hpk.
  destruct (arrives_genuine b1 p1 p2 b2 r2 _ _ F k s (wrote e1) Hpk Hsent Harr) as (_ & [Hzero|(i & n & G & Hin)]); try done.
  - unfold tcp_receive.
    assert (exists q1 w1, (if has (TCPH_FLAGS (seg_hdr s)) TCP_ACK then receive_ack w (seg_hdr s) q else Ok (q, w)) = Ok (q1, w1)) as (q1 & w1 & ->).
    { destruct (has _ _); [|by eexists _, _]. destruct (receive_ack_ok w (seg_hdr s) q Hc) as (q1 & w1 & E & _). eauto. }
    cbn [mbind outcome_bind]. unfold receive_data. rewrite Hzero. eauto.
  - destruct (tcp_receive_ok (wrote e1) b1 F (proj1 Hsent) ltac:(unfold max_stream in *; lia) w s q r1 i n) as (s1 & q1 & w1 & r' & E & _); try done. eauto.
Qed.

Lemma half_delivered b1 b2 p1 p2 e1 e2 F r1 r2 : half b1 b2 p1 p2 e1 e2 F r1 r2 -> delivered b1 e1 e2.
Proof.
  intros H. pose proof H as [Hs Hz Hf (la & Hla & El)]. destruct (Hf _ (ext_self _ Hz)) as (Hi & Hc & Hg). cbn [fst snd] in *.
  unfold delivered. rewrite Hg. split_and!.
  - exists (drop (Z.to_nat r1) (wrote e1)). by rewrite take_drop.
  - exists la. split_and!; try done; [lia|]. replace (Z.to_nat r1) with (Z.to_nat la + (Z.to_nat r1 - Z.to_nat la))%nat by lia.
    rewrite <- take_take_drop. by apply prefix_app_r.
  - intros k s n t a src dst mtu na Hk Harr Et Hst.
    pose proof (arrives_norst _ _ _ _ _ _ _ _ _ (proj1 (Forall_forall _ _) (si_out _ _ _ _ _ _ _ _ _ Hs) k Hk) Harr) as Hr.
    rewrite (process_receive n t s a src dst mtu na (set_recv_data None (ep e2)) (tnet t)) by done.
    destruct (half_receives _ _ _ _ _ _ _ _ _ k s (tnet t) (tcp_ticks (tnet t)) H Hk Harr) as ([[s1 q] w1] & ->). by eexists.
Qed.

(** C1: two hosts that run this TCP deliver each other's streams, as long as both ends
    are in ESTABLISHED, CLOSE-WAIT, FIN-WAIT-1, FIN-WAIT-2, CLOSING or LAST-ACK.  The
    packets of each end may be lost, repeated, delayed and reordered on their way to
    the tcp_process of the other and their buffers cut anywhere, memory and routes may
    be missing, and both sides may write, close, retransmit and acknowledge at any
    time, but no write may fail after it has filled up the last unsent segment.  Then
    the bytes tcp_process has left in recv_data for one application are a prefix of
    those the other one has written, everything that is acknowledged is among them, and
    no packet of the one makes the tcp_process of the other fail. *)
Theorem tcp_stream_delivery bA bB pA pB a0 b0 a b : fresh bA bB pA pB a0 -> fresh bB bA pB pA b0 ->
  reach sstep (a0, b0) (a, b) -> delivered bA a b /\ delivered bB b a.
Proof.
  intros Ha0 Hb0 Hr.
  assert (exists FA FB rA rB, half bA bB pA pB a b FA rA rB /\ half bB bA pB pA b a FB rB rA) as (FA & FB & rA & rB & H1 & H2);
    [|split; by eapply half_delivered].
  change (let x := (a, b) in exists FA FB rA rB, half bA bB pA pB x.1 x.2 FA rA rB /\ half bB bA pB pA x.2 x.1 FB rB rA).
  revert Hr. apply (reach_invariant _ (fun x => exists FA FB rA rB, half bA bB pA pB x.1 x.2 FA rA rB /\ half bB bA pB pA x.2 x.1 FB rB rA)).
  - exists [], [], 0, 0. split; by apply fresh_half.
  - intros x y (FA & FB & rA & rB & H1 & H2) Hst. destruct Hst as [x y x' Hst|x y y' Hst]; cbn [fst snd] in *.
    + destruct (estep_half _ _ _ _ _ _ _ _ _ _ _ H1 H2 Hst) as (F' & r' & G1 & G2). by exists F', FB, rA, r'.
    + destruct (estep_half _ _ _ _ _ _ _ _ _ _ _ H2 H1 Hst) as (F' & r' & G1 & G2). by exists FA, F', r', rB.
Qed.

Definition wit_a : endpoint := MkEnd wit_pcb wit_net [] false [].
Definition wit_b : endpoint :=
  MkEnd (set_rcv_nxt 500 (set_snd_nxt (2 ^ 32 - 3) (set_snd_max (2 ^ 32 - 3) (set_lastack (2 ^ 32 - 3) (set_snd_lbb (2 ^ 32 - 3)
    (set_local_port 80 (set_remote_port 2000 wit_pcb))))))) wit_net [] false [].

Definition wit_host (p : pcb) (w : net) : tcp := MkTcp w {[1 := p]} [1] [] [] 0 4096 [].

Lemma wit_here p w : here (wit_host p w) 1 p w.
Proof. split; [apply lookup_singleton_eq|done]. Qed.

Lemma wit_whole k h : read_hdr (pkt_bytes k) = Some h -> (20 <=? length (pkt_bytes k))%nat = true -> arrives k (input_seg h (pkt_bytes k) []).
Proof. intros Hh Hl. apply (arrives_as _ _ (pkt_bytes k) [] h); [by apply Nat.leb_le|apply app_nil_r|exact Hh|done]. Qed.

Lemma wit_run : exists a b, reach sstep (wit_a, wit_b) (a, b) /\ wrote a = [1; 2; 3] /\ got b = [1; 2; 3] /\ lastack (ep a) = 503.
Proof.
  eexists _, _. split; [|split; [|split]].
  { eapply reach_step; [eapply reach_step; [eapply reach_step; [eapply reach_step; [apply reach_refl|]|]|]|].
    - apply ss_left. eapply (es_write _ _ _ _ _ _ [1; 2; 3] TCP_WRITE_FLUSH 0); [vm_compute; reflexivity|by left|done].
    - apply ss_right. eapply (es_arrive _ _ _ _ _ _ _ _ 0 (wit_host _ _) 1 0 0 1500 0); [cbn [ew out]; left|apply wit_whole; vm_compute; reflexivity|apply wit_here|
        reflexivity|vm_compute; reflexivity|split; vm_compute; reflexivity|reflexivity].
    - apply ss_right. eapply es_fast. vm_compute. reflexivity.
    - apply ss_left. eapply (es_arrive _ _ _ _ _ _ _ _ 0 (wit_host _ _) 1 0 0 1500 0); [cbn [ew out]; left|apply wit_whole; vm_compute; reflexivity|apply wit_here|
        reflexivity|vm_compute; reflexivity|split; vm_compute; reflexivity|reflexivity]. }
  all: reflexivity.
Qed.

Lemma tcp_stream_delivery_witness : exists a b, wrote a = [1; 2; 3] /\ delivered 500 a b /\ delivered (2 ^ 32 - 3) b a.
Proof.
  destruct wit_run as (a & b & Hr & Hw & _). exists a, b. split; [exact Hw|].
  apply (tcp_stream_delivery 500 (2 ^ 32 - 3) 2000 80 wit_a wit_b a b); [| |exact Hr];
    (split; cbn; try (cbv; repeat split; congruence)).
Defined.

(** A write that fails when memory runs out has already put bytes into the last unsent
    segment, while snd_lbb stays: when the application tries again, they are sent
    twice. *)
Definition no_memory (w : net) : net := MkNet (tcp_ticks w) (ip_route w) [false] (xmits w) (answers w) (out w) (told w).

Definition queued_bytes (r : outcome (Z * pcb * net)) : option (Z * list Z) :=
  match r with Ok (rc, p, _) => Some (rc, concat (seg_bytes <$> unsent p)) | _ => None end.

Lemma failed_write_repeats_data : exists p1 w1 p2 w2,
  tcp_write wit_net (set_mss 4 wit_pcb) [1; 2] 2 = Ok (0, p1, w1) /\ tcp_write (no_memory w1) p1 [3; 4; 5] 2 = Ok (ENOMEM, p2, w2) /\
  queued_bytes (tcp_write w2 p2 [3; 4; 5] 2) = Some (0, [1; 2; 3; 4; 3; 4; 5]).
Proof. eexists _, _, _, _. split; [vm_compute; reflexivity|]. split; [vm_compute; reflexivity|]. vm_compute. reflexivity. Qed.

(** In FIN-WAIT-2 a FIN that overtakes the data before it leads to TIME-WAIT: the data
    are then acknowledged, and the application is never told of them. *)
Definition wit_input (t : tcp) (s : tcp_seg) : outcome tcp :=
  '(_, t) ← segment_in 0 t s 2 1 (MkRt 1 255 1500 0) 0; Ok t.

Definition last_acked (t : tcp) : option (tcp_state * list Z * nat) :=
  p ← pcbs t !! 1; Some (state p, (fun k => ntohl (th_ackno (pk_hdr k))) <$> out (tnet t), length (told (tnet t))).

Lemma time_wait_drops_data : exists t1 t2,
  wit_input (wit_host (set_state FIN_WAIT_2 (set_rcv_nxt 1000 wit_pcb)) wit_net) (data_seg 1003 [] TCP_FIN) = Ok t1 /\
  wit_input t1 (data_seg 1000 [1; 2; 3] 0) = Ok t2 /\ last_acked t2 = Some (TIME_WAIT, [1000; 1003], 0%nat).
Proof. eexists _, _. split; [vm_compute; reflexivity|]. split; [vm_compute; reflexivity|]. vm_compute. reflexivity. Qed.

(** ** The send window *)

(** The data of the packet lie in the window of [wnd] bytes behind [lastack]. *)
Definition in_window (lastack wnd : Z) (k : tpacket) : Prop :=
  u32 (ntohl (th_seqno (pk_hdr k)) - lastack + Z.of_nat (length (pk_data k))) <= wnd.

(** Segments whose length is that of their bytes. *)
Definition len_ok (s : tcp_seg) : Prop := seg_len s = Z.of_nat (length (seg_bytes s)).

Lemma chksum_seqno r src dst h o d : th_seqno (with_chksum r src dst h o d) = th_seqno h.
Proof. unfold with_chksum. by case_match. Qed.

Lemma output_segment_out w s p s' p' w' : tcp_output_segment w s p = (s', p', w') -> out w' = out w \/ exists k, out w' = out w ++ [k] /\
  th_seqno (pk_hdr k) = th_seqno (seg_hdr s) /\ pk_data k = seg_bytes s.
Proof.
  unfold tcp_output_segment. case_match; [intros E; injection E as <- <- <-; by left|]. case_match; [|intros E; injection E as <- <- <-; by left].
  cbv zeta. unfold ip_output_if. intros E. injection E as <- <- <-. cbn [out]. case_match; [by left|right]. eexists. split; [reflexivity|].
  cbn [pk_hdr pk_data]. rewrite chksum_seqno. done.
Qed.

Lemma send_ack_out w p rc w' : tcp_send_ack w p = (rc, w') -> out w' = out w \/ exists k, out w' = out w ++ [k] /\ pk_data k = [].
Proof.
  unfold tcp_send_ack. destruct (ip_route _ _); [|intros E; injection E as <- <-; by left]. destruct (alloc w) as [a w1] eqn:Ew.
  pose proof (alloc_out w) as Ea. rewrite Ew in Ea. cbn in Ea. rewrite <- Ea. clear Ew Ea.
  destruct (negb a); [intros E; injection E as <- <-; by left|]. unfold ip_output_if. cbv zeta.
  destruct (_ <? 0); intros E; injection E as <- <-; [by left|right]. eexists. by split.
Qed.

Lemma output_loop_window wnd l : Forall len_ok l -> forall w p p' w', output_loop wnd l w p = (p', w') ->
  exists ks, out w' = out w ++ ks /\ Forall (in_window (lastack p) wnd) ks.
Proof.
  induction 1 as [|s l Hs Hl IH]; intros w p p' w' E; cbn [output_loop] in E; [injection E as <- <-; exists []; by rewrite app_nil_r|].
  destruct (Z.leb_spec (u32 (oseq s - lastack p + seg_len s)) wnd) as [Hw|]; [|injection E as <- <-; exists []; by rewrite app_nil_r].
  cbv zeta in E. destruct (if is_state _ _ then _ else _) as [s1 p1] eqn:E1 in E.
  assert (th_seqno (seg_hdr s1) = th_seqno (seg_hdr s) /\ seg_bytes s1 = seg_bytes s /\ lastack p1 = lastack p) as (Q1 & B1 & L1)
    by (destruct (is_state _ _); injection E1 as <- <-; done).
  set (p2 := if TCP_SEQ_LT _ _ then _ else _) in E. assert (lastack p2 = lastack p) as L2 by (subst p2; destruct (TCP_SEQ_LT _ _); exact L1). clearbody p2.
  destruct (tcp_output_segment w s1 p2) as [[s' p3] w1] eqn:Eo. pose proof (output_segment_frame _ _ _ _ _ _ Eo) as Hf.
  apply out_rkeep, rkeep_inv in Hf as (_ & _ & _ & L3 & _). apply output_segment_out in Eo.
  apply IH in E as (ks & Ek & Hks). assert (forall q, lastack (if 0 <? TCP_TCPLEN s1 then set_unacked q p3 else p3) = lastack p) as L4.
  { intros q. rewrite <- L2, <- L3. by case_match. }
  rewrite L4 in Hks. destruct Eo as [Eo|(k & Eo & Q & D)]; rewrite Eo in Ek; [by exists ks|]. exists (k :: ks). split; [by rewrite Ek, <- app_assoc|].
  constructor; [|done]. unfold in_window. rewrite Q, D, Q1, B1, <- Hs. exact Hw.
Qed.

(** C30: flow and congestion control.  Every byte tcp_output sends lies within the
    smaller of the window the peer has offered and the congestion window, counted from
    the last acknowledged byte. *)
Theorem tcp_output_window w p rc p' w' : Forall len_ok (unsent p) -> tcp_output w p = (rc, p', w') ->
  exists ks, out w' = out w ++ ks /\
    Forall (fun k => pk_data k = [] \/ in_window (lastack p) (Z.min (snd_wnd p) (cwnd p)) k) ks.
Proof.
  intros Hl E. unfold tcp_output in E. destruct (output_loop _ _ _ _) as [p1 w1] eqn:El. apply output_loop_window in El as (ks & Ek & Hks); [|done].
  assert (Forall (fun k => pk_data k = [] \/ in_window (lastack p) (Z.min (snd_wnd p) (cwnd p)) k) ks) as Hks'
    by (eapply Forall_impl; [exact Hks|]; by right).
  case_match; [|injection E as <- <- <-; by exists ks]. destruct (tcp_send_ack _ _) as [rc1 w2] eqn:Ea. injection E as <- <- <-.
  apply send_ack_out in Ea as [->|(k & -> & Ed)]; [by exists ks|]. rewrite Ek, <- app_assoc. eexists. split; [reflexivity|].
  apply Forall_app. split; [done|]. constructor; [by left|done].
Qed.

Lemma tcp_output_window_witness : exists p w, tcp_write wit_net (set_cwnd 4 (set_mss 4 wit_pcb)) [1; 2; 3; 4; 5; 6] 2 = Ok (0, p, w) /\
  let '(_, p', w') := tcp_output w p in exists ks, out w' = out w ++ ks /\ length ks = 1%nat /\
    Forall (fun k => pk_data k = [] \/ in_window (lastack p) (Z.min (snd_wnd p) (cwnd p)) k) ks.
Proof.
  eexists _, _. split; [vm_compute; reflexivity|]. destruct (tcp_output _ _) as [[rc p'] w'] eqn:E.
  destruct (fun H => tcp_output_window _ _ _ _ _ H E) as (ks & Ek & Hks); [repeat (apply Forall_cons_2; [exact eq_refl|]); apply Forall_nil_2|].
  exists ks. split_and!; [exact Ek| |exact Hks].
  vm_compute in E. injection E as <- <- <-. vm_compute in Ek. by rewrite <- Ek.
Defined.
