(* ===== verification/TcpConn.v ===== *)
(** * Connections: the lists they are on, their states, and the demultiplexer

    The comment in sys/net/tcp.h that states what holds of the three lists is the
    invariant [lists_ok]; the states follow the diagram of RFC 793. *)

From S2P Require Import Prelude Inet Ether Tcp TcpBase TcpRecv TcpSend TcpStream.

(** ** The state of a connection *)

(** What the functions on one connection keep: its state, TF_CLOSED and TF_RESET. *)
Definition skeep (p : pcb) := (state p, has (flags p) TF_CLOSED, has (flags p) TF_RESET).

Lemma has_seton x m k : Z.land m k = 0 -> has (seton x m) k = has x k.
Proof. apply has_lor. Qed.

Lemma has_seton_self x : has (seton x TF_CLOSED) TF_CLOSED = true.
Proof.
  unfold has, seton. rewrite Z.land_lor_distr_l. destruct (Z.lor _ _ =? 0) eqn:E; [|done]. apply Z.eqb_eq, Z.lor_eq_0_iff in E as [_ E]. done.
Qed.

Lemma has_setoff x m k : Z.land m k = 0 -> has (setoff x m) k = has x k.
Proof.
  intros H. unfold has, setoff. f_equal. f_equal. rewrite <- Z.land_assoc. f_equal. apply Z.bits_inj'. intros j Hj.
  rewrite Z.land_spec, Z.lnot_spec by lia. pose proof (f_equal (fun z => Z.testbit z j) H) as E. cbn in E. rewrite Z.land_spec, Z.bits_0 in E.
  destruct (Z.testbit m j), (Z.testbit k j); done.
Qed.

Lemma skeep_inv p p' : skeep p' = skeep p ->
  state p' = state p /\ has (flags p') TF_CLOSED = has (flags p) TF_CLOSED /\ has (flags p') TF_RESET = has (flags p) TF_RESET.
Proof. unfold skeep. intros E. by injection E. Qed.

(** Fields other than the state and the flags, and flags other than these two. *)
Ltac skeep := unfold skeep; pcb_simpl; repeat first [rewrite has_seton by done|rewrite has_setoff by done]; done.

Lemma output_segment_skeep w s p s' p' w' : tcp_output_segment w s p = (s', p', w') -> skeep p' = skeep p.
Proof.
  intros E. pose proof (output_segment_frame _ _ _ _ _ _ E) as Hf. apply output_segment_queues in E as (_ & _ & _ & _ & Ef). kept Hf.
  unfold skeep. congruence.
Qed.

Lemma output_loop_skeep wnd l : forall w p p' w', output_loop wnd l w p = (p', w') -> skeep p' = skeep p.
Proof.
  induction l as [|s l IH]; intros w p p' w' E; cbn [output_loop] in E; [injection E as <- <-; done|].
  destruct (_ <=? wnd); [|injection E as <- <-; done]. cbv zeta in E. destruct (if is_state _ _ then _ else _) as [s1 p1] eqn:E1 in E.
  assert (skeep p1 = skeep p) as K1 by (destruct (is_state _ _); injection E1 as <- <-; skeep).
  set (p2 := if TCP_SEQ_LT _ _ then _ else _) in E. assert (skeep p2 = skeep p) as K2 by (subst p2; rewrite <- K1; destruct (TCP_SEQ_LT _ _); skeep). clearbody p2.
  destruct (tcp_output_segment w s1 p2) as [[s' p3] w1] eqn:Eo. apply output_segment_skeep in Eo. apply IH in E. rewrite E, <- K2, <- Eo. case_match; skeep.
Qed.

Lemma tcp_output_skeep w p rc p' w' : tcp_output w p = (rc, p', w') -> skeep p' = skeep p.
Proof.
  unfold tcp_output. destruct (output_loop _ _ _ _) as [p1 w1] eqn:E. apply output_loop_skeep in E. destruct (has _ _).
  - destruct (tcp_send_ack _ _). intros H. injection H as <- <- <-. rewrite <- E. skeep.
  - intros H. by injection H as <- <- <-.
Qed.

Lemma enqueue_skeep w p d f o rc p' w' : tcp_enqueue w p d f o = Ok (rc, p', w') -> skeep p' = skeep p.
Proof.
  unfold tcp_enqueue. intros H.
  destruct (_ <? Z.of_nat (length d)); [injection H as <- <- <-; done|]. destruct (TCP_SND_QUEUELEN <=? _); [injection H as <- <- <-; done|].
  cbv zeta in H. destruct (if _ && _ then fill_unsent _ _ _ else _) as [us d'] in H. apply bind_Ok_inv in H as ([r w1] & _ & H).
  destruct r as [[q ql]|]; [|injection H as <- <- <-; done]. apply bind_Ok_inv in H as ([us2 j] & _ & H). injection H as <- <- <-. skeep.
Qed.

Lemma write_skeep w p d opt rc p' w' : tcp_write w p d opt = Ok (rc, p', w') -> skeep p' = skeep p.
Proof.
  unfold tcp_write. destruct (_ || _); [|intros H; injection H as <- <- <-; done].
  intros H. apply bind_Ok_inv in H as ([[rc1 p1] w1] & H1 & H).
  assert (skeep p1 = skeep p) as E1 by (destruct (0 <? _); [by eapply enqueue_skeep|injection H1 as <- <- <-; done]).
  destruct (_ <? 0); [injection H as <- <- <-; done|]. destruct (_ || _); [|injection H as <- <- <-; done].
  destruct (tcp_output w1 p1) as [[rc2 p2] w2] eqn:Eo. injection H as <- <- <-. rewrite <- E1. by eapply tcp_output_skeep.
Qed.

Lemma enqueue_recv w p d f o rc p' w' : tcp_enqueue w p d f o = Ok (rc, p', w') -> recv p' = recv p.
Proof.
  unfold tcp_enqueue. intros H.
  destruct (_ <? Z.of_nat (length d)); [by injection H as <- <- <-|]. destruct (TCP_SND_QUEUELEN <=? _); [by injection H as <- <- <-|].
  cbv zeta in H. destruct (if _ && _ then fill_unsent _ _ _ else _) as [us d'] in H. apply bind_Ok_inv in H as ([r w1] & _ & H).
  destruct r as [[q ql]|]; [|by injection H as <- <- <-]. apply bind_Ok_inv in H as ([us2 j] & _ & H). by injection H as <- <- <-.
Qed.

Lemma rexmit_skeep w p p' w' : tcp_rexmit w p = (p', w') -> skeep p' = skeep p.
Proof.
  unfold tcp_rexmit. destruct (unacked p); [intros H; injection H as <- <-; done|]. destruct (tcp_output _ _) as [[rc p1] w1] eqn:E. apply tcp_output_skeep in E.
  intros H. injection H as <- <-. rewrite E. skeep.
Qed.

Lemma run_acts_skeep l : forall w p p' w', run_acts w p l = Ok (p', w') -> skeep p' = skeep p.
Proof.
  induction l as [|[d opt|n|] l IH]; intros w p p' w' H; cbn [run_acts] in H; [injection H as <- <-; done|..].
  - apply bind_Ok_inv in H as ([[rc p1] w1] & H1 & H). apply write_skeep in H1. apply IH in H. congruence.
  - apply IH in H. rewrite H. unfold tcp_recved. cbv zeta. repeat case_match; skeep.
  - apply IH in H. rewrite H. skeep.
Qed.

Lemma callback_skeep w p e rc p' w' : callback w p e = Ok (rc, p', w') -> skeep p' = skeep p.
Proof.
  unfold callback. destruct (answer _) as [[acts r] w1]. intros H. apply bind_Ok_inv in H as ([p1 w2] & H1 & H). injection H as <- <- <-.
  by eapply run_acts_skeep.
Qed.

Lemma free_unacked_skeep a l : forall p, skeep (free_unacked a l p) = skeep p.
Proof. induction l as [|s l IH]; intros p; cbn [free_unacked]; [done|]. destruct (all_acked a s); [|done]. by rewrite IH. Qed.

Lemma free_unsent_skeep a l : forall p, skeep (free_unsent a l p) = skeep p.
Proof. induction l as [|s l IH]; intros p; cbn [free_unsent]; [done|]. destruct (all_acked a s); [|done]. cbv zeta. rewrite IH. by destruct l. Qed.

Lemma grow_cwnd_skeep p p' : grow_cwnd p = Ok p' -> skeep p' = skeep p.
Proof.
  unfold grow_cwnd, inflate. destruct (4 <=? _); [|intros H; by injection H as <-]. destruct (_ <? ssthresh p); [intros H; injection H as <-; by case_match|].
  destruct (_ =? 0); [done|]. intros H. injection H as <-. cbv zeta. by destruct (_ <? _).
Qed.

Lemma count_acked_skeep a p : skeep (count_acked a p) = skeep p.
Proof.
  unfold count_acked. cbv zeta. assert (forall q, skeep (if has (flags p) TF_INFR then set_cwnd q (set_flags (setoff (flags p) TF_INFR) p) else p) = skeep p) as H
    by (intros q; case_match; skeep). exact (H _).
Qed.

Lemma polltmr_skeep v p : skeep (set_polltmr v p) = skeep p.
Proof. done. Qed.

Lemma new_ack_skeep a p p' : new_ack a p = Ok p' -> skeep p' = skeep p.
Proof.
  unfold new_ack. intros H. apply bind_Ok_inv in H as (p1 & Hg & H). injection H as <-.
  rewrite free_unsent_skeep, polltmr_skeep, free_unacked_skeep. apply grow_cwnd_skeep in Hg. rewrite Hg. apply count_acked_skeep.
Qed.

Lemma dup_ack_skeep w e p p' w' : dup_ack w e p = (p', w') -> skeep p' = skeep p.
Proof.
  unfold dup_ack. cbv zeta. destruct (_ =? e); [|intros H; injection H as <- <-; done].
  destruct ((3 <=? _) && _ && _); [|intros H; injection H as <- <-; done].
  destruct (negb _); [|unfold inflate; intros H; injection H as <- <-; case_match; done].
  destruct (tcp_rexmit _ _) as [p2 w2] eqn:Er. apply rexmit_skeep in Er. intros H. injection H as <- <-.
  transitivity (skeep p2); [skeep|exact Er].
Qed.

Lemma estimate_rtt_skeep t a p : skeep (estimate_rtt t a p) = skeep p.
Proof. unfold estimate_rtt. destruct (negb _ && _); [cbv zeta; done|done]. Qed.

Lemma update_window_skeep h p : skeep (update_window h p) = skeep p.
Proof. unfold update_window. by destruct (_ || _). Qed.

Lemma receive_ack_skeep w h p p' w' : receive_ack w h p = Ok (p', w') -> skeep p' = skeep p.
Proof.
  unfold receive_ack. cbv zeta. intros H. apply bind_Ok_inv in H as ([p1 w1] & Hm & H). injection H as <- <-.
  rewrite estimate_rtt_skeep, <- (update_window_skeep h p). destruct (_ =? _); [injection Hm as Hm; by eapply dup_ack_skeep|].
  destruct (_ && _); [|by injection Hm as <- <-]. apply bind_Ok_inv in Hm as (p2 & Hn & Hm). injection Hm as <- <-. by eapply new_ack_skeep.
Qed.

Lemma note_fin_skeep s p : skeep (note_fin s p) = skeep p.
Proof. unfold note_fin. case_match; skeep. Qed.

Lemma dequeue_skeep l : forall p p', dequeue l p = Ok p' -> skeep p' = skeep p.
Proof.
  induction l as [|c l IH]; intros p p' H; cbn [dequeue] in H; [by injection H as <-|]. destruct (_ =? _); [|by injection H as <-]. cbv zeta in H.
  apply bind_Ok_inv in H as (b & _ & H). apply bind_Ok_inv in H as (p1 & H1 & H). apply IH in H. rewrite H.
  assert (skeep p1 = skeep p) as K1.
  { destruct (0 <? tot_len b); [|injection H1 as <-; done]. apply bind_Ok_inv in H1 as (r & _ & H1). by injection H1 as <-. }
  pose proof (note_fin_skeep c p1) as K2. rewrite <- K1, <- K2. skeep.
Qed.

Lemma receive_data_skeep w s p s' p' w' : receive_data w s p = Ok (s', p', w') -> skeep p' = skeep p.
Proof.
  unfold receive_data. cbv zeta. destruct (0 <? TCP_TCPLEN s); [|intros H; injection H as <- <- <-; case_match; skeep].
  intros H. apply bind_Ok_inv in H as ([s1 p1] & H1 & H). assert (skeep p1 = skeep p) as K1.
  { destruct (TCP_SEQ_LT _ _); [|by injection H1 as <- <-]. destruct (TCP_SEQ_LT _ _); [|injection H1 as <- <-; skeep].
    apply bind_Ok_inv in H1 as (s2 & _ & H1). by injection H1 as <- <-. }
  rewrite <- K1. clear K1 H1. destruct (_ && _); [|by injection H as <- <- <-]. destruct (_ =? _).
  - apply bind_Ok_inv in H as ([s2 p2] & H2 & H). injection H as <- <- <-. unfold in_sequence in H2. apply bind_Ok_inv in H2 as (s3 & _ & H2).
    cbv zeta in H2. apply bind_Ok_inv in H2 as (b & _ & H2).
    destruct (if 0 <? tot_len b then _ else _) as [s4 p3] eqn:E in H2. apply bind_Ok_inv in H2 as (p4 & H4 & H2). apply dequeue_skeep in H4.
    injection H2 as <- <-. transitivity (skeep p4); [destruct (has (flags p4) TF_ACK_DELAY); skeep|].
    rewrite H4, note_fin_skeep. destruct (0 <? tot_len b); injection E as <- <-; done.
  - unfold out_of_sequence in H. cbv zeta in H. destruct (ooseq _).
    + destruct (alloc w) as [a w1]. injection H as <- <- <-. destruct a; skeep.
    + apply bind_Ok_inv in H as ([[l' s2] w2] & _ & H). injection H as <- <- <-. skeep.
Qed.

Lemma tcp_receive_skeep w s p s' p' w' : tcp_receive w s p = Ok (s', p', w') -> skeep p' = skeep p.
Proof.
  unfold tcp_receive. intros H. apply bind_Ok_inv in H as ([p1 w1] & H1 & H). apply receive_data_skeep in H. rewrite H.
  destruct (has _ TCP_ACK); [by eapply receive_ack_skeep|by injection H1 as <- <-].
Qed.

Lemma parse_loop_skeep n m limit mtu : forall c p p', parse_loop n m limit mtu c p = Ok p' -> skeep p' = skeep p.
Proof.
  induction n as [|n IH]; intros c p p' H; cbn [parse_loop] in H; (destruct (c <? limit); [|by injection H as <-]); [done|].
  apply bind_Ok_inv in H as (opt & _ & H). destruct (opt =? 0); [by injection H as <-|]. destruct (opt =? 1); [by eapply IH|].
  apply bind_Ok_inv in H as (l & _ & H). destruct (_ && _).
  - apply bind_Ok_inv in H as (hi & _ & H). apply bind_Ok_inv in H as (lo & _ & H). by injection H as <-.
  - destruct (l =? 0); [by injection H as <-|]. by eapply IH.
Qed.

Lemma parseopt_skeep n s mtu p p' : tcp_parseopt n s mtu p = Ok p' -> skeep p' = skeep p.
Proof. unfold tcp_parseopt. destruct (80 <? _); [apply parse_loop_skeep|intros H; by injection H as <-]. Qed.

Lemma slow_rexmit_skeep w p p' w' : slow_rexmit w p = Ok (p', w') -> skeep p' = skeep p.
Proof.
  unfold slow_rexmit. cbv zeta. destruct (_ && _); [|intros H; injection H as <- <-; skeep]. intros H. apply bind_Ok_inv in H as (p1 & H1 & H).
  destruct (tcp_rexmit w p1) as [p2 w2] eqn:E. apply rexmit_skeep in E. injection H as <- <-. transitivity (skeep p2); [destruct (_ <? u32 _); done|]. rewrite E.
  destruct (is_state _ _); [injection H1 as <-; skeep|]. apply bind_Ok_inv in H1 as (bk & _ & H1). injection H1 as <-. skeep.
Qed.

Lemma fast_skeep w p p' w' : fast_pcb w p = (p', w') -> skeep p' = skeep p.
Proof.
  unfold fast_pcb. destruct (has _ _); [|intros H; by injection H as <- <-]. destruct (tcp_output _ _) as [[rc2 p2] w2] eqn:Eo.
  apply tcp_output_skeep in Eo. intros H. injection H as <- <-. transitivity (skeep p2); [skeep|]. rewrite Eo. skeep.
Qed.

(** ** The lists *)

#[global] Instance plist_eq_dec : EqDecision plist.
Proof. solve_decision. Defined.

(** The list a connection in state [st] is on. *)
Definition home (st : tcp_state) : option plist :=
  match st with CLOSED => None | LISTEN => Some Listening | TIME_WAIT => Some Tw | _ => Some Active end.

(** The comment at the end of sys/net/tcp.h: every connection that is not CLOSED is on
    one list, once, and on the one its state says; and connections on a list are
    allocated.  None is marked for removal. *)
Record lists_ok (t : tcp) : Prop := {
  lo_nodup : forall l, NoDup (get_list t l);
  lo_home : forall l a, a ∈ get_list t l <-> exists p, pcbs t !! a = Some p /\ home (state p) = Some l;
  lo_open : forall a p, pcbs t !! a = Some p -> has (flags p) TF_CLOSED = false }.

(** All this but for [a], which may be on list [l]. *)
Record lists_but (a : Z) (l : plist) (t : tcp) : Prop := {
  lb_nodup : forall l, NoDup (get_list t l);
  lb_home : forall l' c, c <> a -> c ∈ get_list t l' <-> exists p, pcbs t !! c = Some p /\ home (state p) = Some l';
  lb_at : forall l', a ∈ get_list t l' -> l' = l;
  lb_open : forall c p, c <> a -> pcbs t !! c = Some p -> has (flags p) TF_CLOSED = false }.

Lemma get_set_list t l v l' : get_list (set_list t l v) l' = if decide (l' = l) then v else get_list t l'.
Proof. destruct l, l'; done. Qed.

Lemma set_list_pcbs t l v : pcbs (set_list t l v) = pcbs t.
Proof. by destruct l. Qed.

Lemma get_put t a p l : get_list (putpcb t a p) l = get_list t l.
Proof. by destruct l. Qed.

Lemma elem_list_del (l : list Z) a c : NoDup l -> c ∈ list_del a l <-> c ∈ l /\ c <> a.
Proof.
  induction 1 as [|x l Hx Hl IH]; cbn; [set_solver|]. destruct (decide (a = x)) as [->|]; set_solver.
Qed.

Lemma lists_ok_ext t t' : pcbs t' = pcbs t -> (forall l, get_list t' l = get_list t l) -> lists_ok t -> lists_ok t'.
Proof. intros E1 E2 [H1 H2 H3]. split; rewrite ?E1; try done; [intros l; by rewrite E2|intros l a; by rewrite E2]. Qed.

Lemma lists_but_ext a l t t' : pcbs t' = pcbs t -> (forall l, get_list t' l = get_list t l) -> lists_but a l t -> lists_but a l t'.
Proof.
  intros E1 E2 [H1 H2 H3 H4]. split; rewrite ?E1; try done; [intros l'; by rewrite E2|intros l' c; rewrite E2; apply H2|intros l'; rewrite E2; apply H3].
Qed.

Lemma ok_tnet t w : lists_ok t -> lists_ok (set_tnet t w).
Proof. apply lists_ok_ext; [done|by intros []]. Qed.

Lemma but_tnet a l t w : lists_but a l t -> lists_but a l (set_tnet t w).
Proof. apply lists_but_ext; [done|by intros []]. Qed.

(** A connection may change if its list does not. *)
Lemma ok_put t a p p' : lists_ok t -> pcbs t !! a = Some p -> home (state p') = home (state p) -> has (flags p') TF_CLOSED = false ->
  lists_ok (putpcb t a p').
Proof.
  intros [H1 H2 H3] Ha Hh Hf. split.
  - intros l. by rewrite get_put.
  - intros l c. rewrite get_put, H2. cbn. destruct (decide (c = a)) as [->|Hc]; [|by rewrite lookup_insert_ne].
    rewrite lookup_insert_eq, Ha. split; intros (q & [= <-] & Hq); eexists; (split; [done|]); congruence.
  - intros c q. cbn. destruct (decide (c = a)) as [->|Hc]; [rewrite lookup_insert_eq; by intros [= <-]|rewrite lookup_insert_ne by done; apply H3].
Qed.

Lemma ok_put_skeep t a p p' : lists_ok t -> pcbs t !! a = Some p -> skeep p' = skeep p -> lists_ok (putpcb t a p').
Proof.
  intros H Ha K. injection K as K1 K2 _. eapply ok_put; [done|exact Ha|by rewrite K1|]. rewrite K2. by eapply lo_open.
Qed.

Lemma ok_but t a l : lists_ok t -> (forall p, pcbs t !! a = Some p -> home (state p) = Some l \/ home (state p) = None) -> lists_but a l t.
Proof.
  intros [H1 H2 H3] Hl. split; try done; [intros l' Hin|by intros c p _; apply H3].
  apply H2 in Hin as (p & Hp & Hh). destruct (Hl p Hp); congruence.
Qed.

Lemma but_put a l t p : lists_but a l t -> lists_but a l (putpcb t a p).
Proof.
  intros [H1 H2 H3 H4]. split; [intros l'; by rewrite get_put| |intros l'; rewrite get_put; apply H3|].
  - intros l' c Hc. rewrite get_put. cbn. rewrite lookup_insert_ne by done. by apply H2.
  - intros c q Hc. cbn. rewrite lookup_insert_ne by done. by apply H4.
Qed.

(** Taken off its list and freed. *)
Lemma but_free a l t : lists_but a l t -> lists_ok (pcb_free (TCP_RMV t l a) a).
Proof.
  intros [H1 H2 H3 H4]. assert (forall l', get_list (pcb_free (TCP_RMV t l a) a) l' = list_del a (get_list t l')) as Hg.
  { intros l'. transitivity (get_list (TCP_RMV t l a) l'); [by destruct l'|]. unfold TCP_RMV. rewrite get_set_list. case_decide as E; [by rewrite E|].
    symmetry. apply list_del_notin. intros Hin. by apply H3 in Hin. }
  split.
  - intros l'. rewrite Hg. by apply list_del_NoDup.
  - intros l' c. rewrite Hg, elem_list_del by done. unfold TCP_RMV. cbn. rewrite set_list_pcbs. destruct (decide (c = a)) as [->|Hc].
    + rewrite lookup_delete_eq. naive_solver.
    + rewrite lookup_delete_ne by done. rewrite H2 by done. naive_solver.
  - intros c q. unfold TCP_RMV. cbn. rewrite set_list_pcbs. destruct (decide (c = a)) as [->|Hc]; [by rewrite lookup_delete_eq|].
    rewrite lookup_delete_ne by done. by apply H4.
Qed.

(** From one list to another. *)
Lemma ok_move a l l' t p p' : lists_ok t -> pcbs t !! a = Some p -> home (state p) = Some l -> home (state p') = Some l' ->
  has (flags p') TF_CLOSED = false -> l <> l' -> lists_ok (TCP_REG (TCP_RMV (putpcb t a p') l a) l' a).
Proof.
  intros [H1 H2 H3] Ha Hl Hl' Hf Hne.
  assert (forall k, get_list (TCP_REG (TCP_RMV (putpcb t a p') l a) l' a) k = if decide (k = l') then a :: get_list t k else if decide (k = l) then list_del a (get_list t k) else get_list t k) as Hg.
  { intros k. unfold TCP_REG, TCP_RMV. rewrite !get_set_list, !get_put. repeat case_decide; subst; done. }
  assert (pcbs (TCP_REG (TCP_RMV (putpcb t a p') l a) l' a) = <[a:=p']> (pcbs t)) as Hp by (unfold TCP_REG, TCP_RMV; rewrite !set_list_pcbs; done).
  assert (a ∉ get_list t l') as Hn by (intros (q & Hq & Hh)%H2; congruence).
  split.
  - intros k. rewrite Hg. repeat case_decide; subst; [by constructor|by apply list_del_NoDup|done].
  - intros k c. rewrite Hg, Hp. destruct (decide (c = a)) as [->|Hc].
    + rewrite lookup_insert_eq. case_decide as E1; [subst; split; [intros _; by exists p'|intros _; by left]|]. case_decide as E2.
      * subst. rewrite elem_list_del by done. split; [by intros []|]. intros (q & [= <-] & Hq). congruence.
      * rewrite H2. split; [intros (q & Hq & Hh); congruence|intros (q & [= <-] & Hq); congruence].
    + rewrite lookup_insert_ne by done. rewrite <- H2. case_decide; [subst; set_solver|]. case_decide; [subst; rewrite elem_list_del by done; naive_solver|done].
  - intros c q. rewrite Hp. destruct (decide (c = a)) as [->|Hc]; [rewrite lookup_insert_eq; by intros [= <-]|rewrite lookup_insert_ne by done; apply H3].
Qed.

(** A connection that was on no list, or is new. *)
Lemma ok_reg a l t p' : lists_ok t -> (forall p, pcbs t !! a = Some p -> home (state p) = None) -> home (state p') = Some l ->
  has (flags p') TF_CLOSED = false -> lists_ok (TCP_REG (putpcb t a p') l a).
Proof.
  intros [H1 H2 H3] Ha Hl Hf. assert (forall k, a ∉ get_list t k) as Hn by (intros k (q & Hq & Hh)%H2; rewrite (Ha q Hq) in Hh; done).
  assert (forall k, get_list (TCP_REG (putpcb t a p') l a) k = if decide (k = l) then a :: get_list t k else get_list t k) as Hg.
  { intros k. unfold TCP_REG. rewrite !get_set_list, !get_put. case_decide; subst; done. }
  assert (pcbs (TCP_REG (putpcb t a p') l a) = <[a:=p']> (pcbs t)) as Hp by (unfold TCP_REG; rewrite set_list_pcbs; done).
  split.
  - intros k. rewrite Hg. case_decide; [by constructor|done].
  - intros k c. rewrite Hg, Hp. destruct (decide (c = a)) as [->|Hc].
    + rewrite lookup_insert_eq. case_decide; [subst; split; [intros _; by exists p'|intros _; by left]|].
      split; [intros Hin; by destruct (Hn k)|intros (q & [= <-] & Hq); congruence].
    + rewrite lookup_insert_ne by done. rewrite <- H2. case_decide; [subst; set_solver|done].
  - intros c q. rewrite Hp. destruct (decide (c = a)) as [->|Hc]; [rewrite lookup_insert_eq; by intros [= <-]|rewrite lookup_insert_ne by done; apply H3].
Qed.

(** Allocated, and CLOSED. *)
Lemma ok_new a t p' : lists_ok t -> pcbs t !! a = None -> state p' = CLOSED -> has (flags p') TF_CLOSED = false -> lists_ok (putpcb t a p').
Proof.
  intros [H1 H2 H3] Ha Hs Hf. split; [intros l; by rewrite get_put| |].
  - intros l c. rewrite get_put, H2. cbn. destruct (decide (c = a)) as [->|Hc]; [|by rewrite lookup_insert_ne].
    rewrite lookup_insert_eq, Ha. split; intros (q & Hq & Hh); [done|]. injection Hq as <-. by rewrite Hs in Hh.
  - intros c q. cbn. destruct (decide (c = a)) as [->|Hc]; [rewrite lookup_insert_eq; by intros [= <-]|rewrite lookup_insert_ne by done; apply H3].
Qed.

(** ** The state diagram *)

(** The arrows of figure 6 of RFC 793.  A connection that is removed is freed; a SYN
    makes a new connection in SYN-RECEIVED. *)
Inductive rfc793 : tcp_state -> tcp_state -> Prop :=
  | passive_open : rfc793 CLOSED LISTEN
  | active_open : rfc793 CLOSED SYN_SENT
  | syn_acked : rfc793 SYN_SENT ESTABLISHED
  | syn_ack_acked : rfc793 SYN_RCVD ESTABLISHED
  | close_syn_rcvd : rfc793 SYN_RCVD FIN_WAIT_1
  | close_established : rfc793 ESTABLISHED FIN_WAIT_1
  | fin_established : rfc793 ESTABLISHED CLOSE_WAIT
  | fin_acked : rfc793 FIN_WAIT_1 FIN_WAIT_2
  | fin_fin : rfc793 FIN_WAIT_1 CLOSING
  | fin_acked_fin : rfc793 FIN_WAIT_1 TIME_WAIT
  | fin_fin_wait : rfc793 FIN_WAIT_2 TIME_WAIT
  | closing_acked : rfc793 CLOSING TIME_WAIT
  | close_close_wait : rfc793 CLOSE_WAIT LAST_ACK
  | last_acked : rfc793 LAST_ACK CLOSED.

Section Along.
Context (R : tcp_state -> tcp_state -> Prop) `{!PreOrder R}.

(** Connections change their states along [R], or are freed; [n]: one that may be new. *)
Definition moves (n : option Z) (t t' : tcp) : Prop :=
  forall a p', pcbs t' !! a = Some p' -> Some a <> n -> exists p, pcbs t !! a = Some p /\ R (state p) (state p').

Lemma moves_refl n t : moves n t t.
Proof. intros a p H _. by exists p. Qed.

Lemma moves_trans n t1 t2 t3 : moves n t1 t2 -> moves n t2 t3 -> moves n t1 t3.
Proof. intros H1 H2 a p H Hn. destruct (H2 a p H Hn) as (q & Hq & Hr). destruct (H1 a q Hq Hn) as (q' & Hq' & Hr'). exists q'. split; [done|by etransitivity]. Qed.

Lemma moves_weaken n t t' : moves None t t' -> moves n t t'.
Proof. intros H a p Ha _. by apply H. Qed.

Lemma moves_ext n t t' t2 : pcbs t2 = pcbs t' -> moves n t t' -> moves n t t2.
Proof. intros E H a p Ha. rewrite E in Ha. by apply H. Qed.

Lemma moves_put n t a p p' : pcbs t !! a = Some p -> R (state p) (state p') -> moves n t (putpcb t a p').
Proof.
  intros Ha Hr c q. cbn. destruct (decide (c = a)) as [->|Hc]; [rewrite lookup_insert_eq; intros [= <-] _; by exists p|].
  rewrite lookup_insert_ne by done. intros Hq _. by exists q.
Qed.

Lemma moves_put_skeep n t a p p' : pcbs t !! a = Some p -> skeep p' = skeep p -> moves n t (putpcb t a p').
Proof. intros Ha K. injection K as K _ _. eapply moves_put; [done|]. by rewrite K. Qed.

Lemma moves_free n t t' a : moves n t t' -> moves n t (pcb_free t' a).
Proof. intros H c q. cbn. intros [_ Hq]%lookup_delete_Some. by apply H. Qed.

(** A step of the whole: the lists stay in order and the states follow the arrows. *)
Definition good (n : option Z) (t t' : tcp) : Prop := lists_ok t' /\ moves n t t'.

Lemma good_trans n t1 t2 t3 : good n t1 t2 -> (lists_ok t2 -> good n t2 t3) -> good n t1 t3.
Proof. intros [H1 H2] H. destruct (H H1) as [H3 H4]. split; [done|by eapply moves_trans]. Qed.

Lemma good_tnet n t w : lists_ok t -> good n t (set_tnet t w).
Proof. intros H. split; [by apply ok_tnet|apply (moves_ext n t t); [done|apply moves_refl]]. Qed.

Lemma good_put n t w a p p' : lists_ok t -> pcbs t !! a = Some p -> skeep p' = skeep p -> good n t (on_pcb t a (p', w)).
Proof.
  intros H Ha K. eapply good_trans; [by apply (good_tnet n t w)|]. intros H'. unfold on_pcb. cbn [fst snd].
  split; [by eapply ok_put_skeep|by eapply moves_put_skeep].
Qed.

(** The same list, another state. *)
Lemma good_state n t w a p p' : lists_ok t -> pcbs t !! a = Some p -> home (state p') = home (state p) -> has (flags p') TF_CLOSED = false ->
  R (state p) (state p') -> good n t (on_pcb t a (p', w)).
Proof.
  intros H Ha Hh Hf Hr. eapply good_trans; [by apply (good_tnet n t w)|]. intros H'. unfold on_pcb. cbn [fst snd].
  split; [by eapply ok_put|by eapply moves_put].
Qed.

Lemma getpcb_Ok t a p : getpcb t a = Ok p -> pcbs t !! a = Some p.
Proof. unfold getpcb, from_opt. destruct (pcbs t !! a); [|done]. by intros [= ->]. Qed.

Lemma remove_free n t l a t' : tcp_pcb_remove t l a = Ok t' -> lists_but a l t -> good n t (pcb_free t' a).
Proof.
  unfold tcp_pcb_remove. cbv zeta. intros H Hb. apply bind_Ok_inv in H as (p & Hp & H). apply getpcb_Ok in Hp.
  destruct (if _ && _ then _ else _) as [q w]. injection H as <-. apply but_free in Hb.
  assert (pcbs (pcb_free (on_pcb (TCP_RMV t l a) a (set_state CLOSED q, w)) a) = pcbs (pcb_free (TCP_RMV t l a) a)) as Ep
    by (cbn; by rewrite delete_insert_eq).
  split.
  - eapply lists_ok_ext; [exact Ep| |exact Hb]. by intros [].
  - eapply moves_ext; [exact Ep|]. apply moves_free. eapply moves_ext; [apply set_list_pcbs|apply moves_refl].
Qed.

(** The arrows are in [R]. *)
Context (HR : forall st st', rfc793 st st' -> R st st').

Lemma send_fin_good n t a p st rc p' w' : lists_ok t -> pcbs t !! a = Some p -> rfc793 (state p) st -> home st = home (state p) ->
  send_fin (tnet t) p st = Ok (rc, p', w') -> good n t (on_pcb t a (p', w')).
Proof.
  intros H Ha Hr Hh E. unfold send_fin, tcp_send_ctrl in E. apply bind_Ok_inv in E as ([[rc1 p1] w1] & E1 & E). apply enqueue_skeep in E1.
  destruct (rc1 =? 0); [|injection E as <- <- <-; by eapply good_put].
  destruct (tcp_output _ _) as [[rc2 p2] w2] eqn:Eo. apply tcp_output_skeep in Eo. injection E as <- <- <-. injection Eo as S2 F2 _. injection E1 as S1 F1 _.
  pcb_simpl_in S2. pcb_simpl_in F2. eapply good_state; [done|exact Ha|by rewrite S2| |rewrite S2; by apply HR]. rewrite F2, F1. by eapply lo_open.
Qed.

Lemma close_good n t a rc t' : lists_ok t -> tcp_close t a = Ok (rc, t') -> good n t t'.
Proof.
  intros H E. unfold tcp_close in E. apply bind_Ok_inv in E as (p & Hp & E). apply getpcb_Ok in Hp.
  destruct (state p) eqn:Es; try (injection E as <- <-; split; [done|apply moves_refl]);
    apply bind_Ok_inv in E as (r & E1 & E); try (injection E as <- <-; eapply remove_free; [exact E1|]; apply ok_but; [done|];
      intros q Hq; rewrite Hp in Hq; injection Hq as <-; rewrite Es; by left);
    destruct r as [[rc1 p1] w1]; injection E as <- <-; (eapply send_fin_good; [done|exact Hp|rewrite Es; constructor|by rewrite Es|exact E1]).
Qed.

Lemma abort_good n t a t' p : lists_ok t -> pcbs t !! a = Some p -> state p <> LISTEN -> tcp_abort t a = Ok t' -> good n t t'.
Proof.
  intros H Hp Hs E. unfold tcp_abort in E. apply bind_Ok_inv in E as (q & Hq & E). apply getpcb_Ok in Hq. rewrite Hp in Hq. injection Hq as <-.
  destruct (is_state (state p) TIME_WAIT) eqn:Et.
  - apply bind_Ok_inv in E as (t1 & E1 & E). injection E as <-. eapply remove_free; [exact E1|]. apply ok_but; [done|].
    intros q Hq. rewrite Hp in Hq. injection Hq as <-. destruct (state p); try done. by left.
  - apply bind_Ok_inv in E as (t1 & E1 & E). injection E as <-.
    assert (good n t (pcb_free t1 a)) as Hg.
    { eapply remove_free; [exact E1|]. apply ok_but; [done|]. intros q Hq. rewrite Hp in Hq. injection Hq as <-. destruct (state p); try done; auto. }
    eapply good_trans; [exact Hg|]. intros _. destruct Hg as [Hg1 Hg2]. split.
    + eapply lists_ok_ext; [..|exact Hg1]; [by destruct (errf p)|intros []; by destruct (errf p)].
    + eapply moves_ext; [|apply moves_refl]. by destruct (errf p).
Qed.

(** ** tcp_process *)

Lemma good_putpcb n t a p p' : lists_ok t -> pcbs t !! a = Some p -> skeep p' = skeep p -> good n t (putpcb t a p').
Proof. intros H Ha K. split; [by eapply ok_put_skeep|by eapply moves_put_skeep]. Qed.

Lemma syn_sent_state k w s mtu p p' w' : syn_sent k w s mtu p = Ok (p', w') ->
  has (flags p') TF_CLOSED = has (flags p) TF_CLOSED /\ (state p' = state p \/ state p' = ESTABLISHED).
Proof.
  unfold syn_sent. destruct (unacked p) as [|rseg rest]; [intros H; injection H as <- <-; auto|].
  destruct (_ && _); [|intros H; injection H as <- <-; auto]. cbv zeta. intros H. apply bind_Ok_inv in H as (p1 & H1 & H). apply parseopt_skeep in H1.
  apply bind_Ok_inv in H as ([p2 w2] & H2 & H). injection H as <- <-.
  assert (skeep p2 = skeep p1) as K2.
  { destruct (connected p1); [|by injection H2 as <- <-]. apply bind_Ok_inv in H2 as ([[rc q] w3] & H3 & H2). injection H2 as <- <-. by eapply callback_skeep. }
  rewrite <- K2 in H1. injection H1 as S F _. pcb_simpl. rewrite has_seton by done. split; [exact F|right; exact S].
Qed.

Lemma syn_rcvd_state w s p r p' w' : syn_rcvd w s p = Ok (r, p', w') ->
  has (flags p') TF_CLOSED = has (flags p) TF_CLOSED /\ (state p' = state p \/ state p' = ESTABLISHED).
Proof.
  unfold syn_rcvd. destruct (_ && _); [|intros H; injection H as <- <- <-; auto]. cbv zeta. pcb_simpl. destruct (accept p).
  - intros H. apply bind_Ok_inv in H as ([[rc p1] w1] & H1 & H). apply callback_skeep in H1. destruct (rc <? 0).
    + injection H as <- <- <-. injection H1 as S F _. auto.
    + apply bind_Ok_inv in H as ([[s2 p2] w2] & H2 & H). apply tcp_receive_skeep in H2. injection H as <- <- <-. rewrite H1 in H2. injection H2 as S F _. auto.
  - intros H. injection H as <- <- <-. auto.
Qed.

Lemma new_state t na r t' : tcp_new t na = (r, t') -> pcbs t !! na = None -> lists_ok t ->
  (r = NULL /\ t' = t) \/ (r = na /\ lists_ok t' /\ exists q, pcbs t' = <[na := q]> (pcbs t) /\ state q = CLOSED /\ has (flags q) TF_CLOSED = false).
Proof.
  intros E Hn H. unfold tcp_new in E. destruct (na =? NULL); [injection E as <- <-; by left|right]. unfold tcp_next_iss in E. cbv zeta in E.
  injection E as <- <-. split; [done|]. split; [|eexists; by split_and!]. apply ok_new; [|done..]. eapply lists_ok_ext; [..|exact H]; [done|by intros []].
Qed.

Lemma listen_syn_good k t s a src dst mtu na rc t' p : lists_ok t -> pcbs t !! na = None -> pcbs t !! a = Some p ->
  listen_syn k t s a src dst mtu na = Ok (rc, t') -> good (Some na) t t'.
Proof.
  intros H Hn Ha E. unfold listen_syn in E. destruct (tcp_new t na) as [r t1] eqn:En. apply new_state in En; [|done..].
  destruct En as [[-> ->]|(-> & H1 & q0 & Ep & Es & Ef)]; [injection E as <- <-; split; [done|apply moves_refl]|].
  destruct (na =? NULL) eqn:E0. { injection E as <- <-. split; [done|]. intros c q. rewrite Ep. intros Hq Hne. exists q. split; [|done]. by rewrite lookup_insert_ne in Hq by congruence. }
  assert (a <> na) as Hne by congruence. cbv zeta in E. apply bind_Ok_inv in E as (p1 & E1 & E). apply getpcb_Ok in E1. rewrite Ep, lookup_insert_ne in E1 by done.
  apply bind_Ok_inv in E as (q1 & E2 & E). apply getpcb_Ok in E2. rewrite Ep, lookup_insert_eq in E2. injection E2 as <-. rewrite Ha in E1. injection E1 as <-.
  apply bind_Ok_inv in E as (q2 & E2 & E). apply parseopt_skeep in E2. apply bind_Ok_inv in E as ([[rc3 q3] w3] & E3 & E). apply enqueue_skeep in E3.
  destruct (tcp_output w3 q3) as [[rc4 q4] w4] eqn:E4. apply tcp_output_skeep in E4. injection E as <- <-.
  rewrite E3, E2 in E4. injection E4 as S4 F4 _. pcb_simpl_in S4. pcb_simpl_in F4. clear E2 E3.
  set (p2 := set_rcv_wnd TCP_WND (set_mss mtu p)).
  assert (lists_ok (putpcb t1 a p2)) as H2 by (eapply ok_put_skeep; [done|rewrite Ep, lookup_insert_ne by done; exact Ha|done]).
  assert (lists_ok (TCP_REG (putpcb (putpcb t1 a p2) na q4) Active na)) as H3.
  { apply ok_reg; [done| |by rewrite S4|by rewrite F4]. intros q. cbn. rewrite lookup_insert_ne, Ep, lookup_insert_eq by done. intros [= <-]. by rewrite Es. }
  split.
  - eapply lists_ok_ext; [..|exact H3]; [done|by intros []].
  - intros c q Hq Hc. cbn in Hq. rewrite Ep in Hq. rewrite lookup_insert_ne in Hq by congruence. destruct (decide (c = a)) as [->|Hca].
    + rewrite lookup_insert_eq in Hq. injection Hq as <-. exists p. by split.
    + rewrite !lookup_insert_ne in Hq by congruence. by exists q.
Qed.

(** What tcp_process leaves behind: everything in order, or a connection to remove. *)
Definition processed (n : option Z) (a err : Z) (t t' : tcp) : Prop :=
  good n t t' \/ err = 0 /\ exists p', pcbs t' !! a = Some p' /\ state p' = CLOSED /\ has (flags p') TF_CLOSED = true /\ lists_but a Active t' /\ moves n t t'.

Lemma after_receive_rfc h p st : after_receive h p = Enter st -> rfc793 (state p) st \/ state p = st.
Proof. unfold after_receive. intros H. destruct (state p); repeat case_match; simplify_eq; try (left; constructor); by right. Qed.

Lemma apply_next_processed n t a p p0 w h : lists_ok t -> pcbs t !! a = Some p0 -> skeep p = skeep p0 ->
  processed n a 0 t (apply_next (set_tnet t w) a p (after_receive h p)).
Proof.
  intros H Ha K. pose proof (lo_open _ H _ _ Ha) as Hf0. injection K as S F _. rewrite Hf0 in F.
  assert (lists_ok (set_tnet t w)) as Hw by by apply ok_tnet.
  assert (forall p', has (flags p') TF_CLOSED = false -> home (state p') = home (state p0) -> R (state p0) (state p') ->
    processed n a 0 t (putpcb (set_tnet t w) a p')) as Hput.
  { intros p' F' Hh Hr. left. apply (good_state n t w a p0 p' H Ha Hh F' Hr). }
  destruct (after_receive h p) as [|st| |] eqn:En; cbn [apply_next].
  - apply Hput; [done|by rewrite S|by rewrite S].
  - pose proof (after_receive_rfc _ _ _ En) as Hst. rewrite S in Hst.
    assert (home st = home (state p0) /\ R (state p0) st) as (Hh & Hr).
    { unfold after_receive in En. rewrite S in En. destruct Hst as [Hst| <-]; [|done]. split; [|by apply HR].
      destruct (state p0); repeat case_match; simplify_eq; done. }
    destruct st; apply Hput; pcb_simpl; unfold ack_now; pcb_simpl; rewrite ?has_seton by done; done.
  - assert (home (state p0) = Some Active /\ rfc793 (state p0) TIME_WAIT) as (Hh & Hr).
    { unfold after_receive in En. rewrite S in En. destruct (state p0); repeat case_match; simplify_eq; split; try done; constructor. }
    set (p' := set_state TIME_WAIT (tcp_pcb_purge (ack_now p))).
    assert (has (flags p') TF_CLOSED = false) as F'.
    { subst p'. pcb_simpl. unfold tcp_pcb_purge, ack_now. case_match; pcb_simpl; by rewrite has_seton. }
    left. split; [by eapply (ok_move a Active Tw (set_tnet t w) p0)|].
    eapply moves_ext; [|eapply (moves_put n t a p0 p'); [exact Ha|by apply HR]]. unfold TCP_REG, TCP_RMV. by rewrite !set_list_pcbs.
  - assert (state p0 = LAST_ACK) as Hl.
    { unfold after_receive in En. rewrite S in En. destruct (state p0); repeat case_match; simplify_eq; done. }
    right. split; [done|]. eexists. split; [apply lookup_insert_eq|]. split; [done|]. split; [pcb_simpl; apply has_seton_self|].
    split.
    + apply but_put, but_tnet, ok_but; [done|]. intros q Hq. rewrite Ha in Hq. injection Hq as <-. rewrite Hl. by left.
    + apply (moves_put n (set_tnet t w) a p0); [exact Ha|]. rewrite Hl. apply HR. constructor.
Qed.

Lemma good_refl n t : lists_ok t -> good n t t.
Proof. intros H. split; [done|apply moves_refl]. Qed.

Lemma processed_trans n a err t1 t2 t3 : good n t1 t2 -> (lists_ok t2 -> processed n a err t2 t3) -> processed n a err t1 t3.
Proof.
  intros Hg H. destruct (H (proj1 Hg)) as [Hg'|(He & p' & H1 & H2 & H3 & H4 & H5)]; [left; by eapply good_trans|right]. split; [done|].
  exists p'. split_and!; try done. eapply moves_trans; [apply Hg|done].
Qed.

Lemma tcp_process_good k t s a src dst mtu na err s' t' p : lists_ok t -> pcbs t !! na = None -> pcbs t !! a = Some p ->
  tcp_process k t s a src dst mtu na = Ok (err, s', t') -> processed (Some na) a err t t'.
Proof.
  intros H Hn Ha E. unfold tcp_process in E. apply bind_Ok_inv in E as (p1 & E1 & E). apply getpcb_Ok in E1. rewrite Ha in E1. injection E1 as <-.
  cbv zeta in E. destruct (has _ TCP_RST).
  { destruct (rst_acceptable _ _); injection E as <- <- <-; left; [|by apply good_refl]. split; [|by eapply moves_put].
    eapply ok_put; [done|exact Ha|done|]. pcb_simpl. rewrite has_setoff, has_seton by done. by eapply lo_open. }
  set (p1 := if is_state (state p) LISTEN then p else _) in E. assert (skeep p1 = skeep p) as K1 by (subst p1; destruct (is_state _ _); done).
  assert (state p1 = state p) as S1 by (by injection K1). clearbody p1.
  apply (processed_trans _ _ _ _ (putpcb t a p1)); [by eapply good_putpcb|]. intros H1.
  assert (pcbs (putpcb t a p1) !! a = Some p1) as Ha1 by apply lookup_insert_eq.
  assert (a <> na) as Hne by congruence. assert (pcbs (putpcb t a p1) !! na = None) as Hn1 by (cbn; by rewrite lookup_insert_ne).
  revert E H1 Ha1 Hn1. generalize (putpcb t a p1). intros t1 E H1 Ha1 Hn1. clear H Ha Hn. rename t1 into u.
  destruct (state p1) eqn:Es;
    try (apply bind_Ok_inv in E as ([[s2 p2] w2] & E2 & E); apply tcp_receive_skeep in E2; injection E as <- <- <-; by eapply apply_next_processed).
  - injection E as <- <- <-. left. by apply good_refl.
  - destruct (has _ TCP_ACK); [injection E as <- <- <-; left; by apply good_tnet|].
    destruct (has _ TCP_SYN); [|injection E as <- <- <-; left; by apply good_refl].
    apply bind_Ok_inv in E as ([rc t2] & E2 & E). injection E as <- <- <-. left. by eapply listen_syn_good.
  - apply bind_Ok_inv in E as ([p2 w2] & E2 & E). apply syn_sent_state in E2 as (F & S). injection E as <- <- <-. left.
    eapply good_state; [done|exact Ha1|..].
    + destruct S as [->| ->]; [done|by rewrite Es].
    + rewrite F. by eapply lo_open.
    + destruct S as [->| ->]; [done|rewrite Es; apply HR; constructor].
  - apply bind_Ok_inv in E as ([[r p2] w2] & E2 & E). apply syn_rcvd_state in E2 as (F & S).
    assert (good (Some na) u (on_pcb u a (p2, w2))) as Hg.
    { eapply good_state; [done|exact Ha1|..].
      + destruct S as [->| ->]; [done|by rewrite Es].
      + rewrite F. by eapply lo_open.
      + destruct S as [->| ->]; [done|rewrite Es; apply HR; constructor]. }
    left. destruct r as [s2|]; [by injection E as <- <- <-|]. apply bind_Ok_inv in E as (t2 & E3 & E). injection E as <- <- <-.
    eapply good_trans; [exact Hg|]. intros H2. eapply abort_good; [done|apply lookup_insert_eq| |exact E3]. cbn [fst]. destruct S as [->| ->]; [by rewrite Es|done].
  - injection E as <- <- <-. left. eapply good_putpcb; [done|exact Ha1|]. unfold time_wait, ack_now. repeat case_match; skeep.
Qed.

(** ** tcp_input *)

Lemma notify_good n t a p t' : lists_ok t -> pcbs t !! a = Some p -> notify t a p = Ok t' -> good n t t'.
Proof.
  intros H Ha E. unfold notify in E. cbv zeta in E. apply bind_Ok_inv in E as ([[err p1] w1] & E1 & E).
  assert (skeep p1 = skeep p) as K1 by (destruct (_ && _); [by eapply callback_skeep|by injection E1 as <- <- <-]).
  destruct (recv p1).
  - apply bind_Ok_inv in E as ([[err2 p2] w2] & E2 & E). apply bind_Ok_inv in E as ([[err3 p3] w3] & E3 & E).
    assert (skeep p2 = skeep p1) as K2 by (destruct (recv_data p1); [by eapply callback_skeep|by injection E2 as <- <- <-]).
    assert (skeep p3 = skeep p2) as K3 by (destruct (has _ TF_GOT_FIN); [by eapply callback_skeep|by injection E3 as <- <- <-]).
    destruct (err3 =? 0); [|injection E as <-; eapply good_put; [done|exact Ha|congruence]].
    destruct (tcp_output w3 p3) as [[rc4 p4] w4] eqn:E4. apply tcp_output_skeep in E4. injection E as <-. eapply good_put; [done|exact Ha|congruence].
  - apply bind_Ok_inv in E as ([rc t1] & E2 & E). apply bind_Ok_inv in E as (p3 & E3 & E). apply getpcb_Ok in E3.
    destruct (tcp_output (tnet t1) p3) as [[rc4 p4] w4] eqn:E4. apply tcp_output_skeep in E4. injection E as <-.
    eapply good_trans; [eapply (good_put n t w1 a p p1); done|]. intros H1. eapply (good_trans _ _ t1); [|intros H2; by eapply good_put].
    destruct (has _ TF_GOT_FIN); [by eapply close_good|injection E2 as <- <-; by apply good_refl].
Qed.

Lemma but_processed a t p : lists_but a Active t -> pcbs t !! a = Some p -> state p = CLOSED -> has (flags p) TF_CLOSED = true ->
  forall n err t', after_process t a err = Ok t' -> err <> EFAULT -> good n t t'.
Proof.
  intros Hb Ha Hs Hf n err t' E He. unfold after_process in E. rewrite (proj2 (Z.eqb_neq err EFAULT)) in E by done.
  apply bind_Ok_inv in E as (q & Hq & E). apply getpcb_Ok in Hq. rewrite Ha in Hq. injection Hq as <-. rewrite Hs in E. cbn [is_state] in E. cbv zeta in E.
  destruct (has (flags p) TF_RESET).
  - apply bind_Ok_inv in E as (t1 & E1 & E). injection E as <-.
    set (t0 := if errf p then _ else t) in E1. assert (pcbs t0 = pcbs t /\ forall l, get_list t0 l = get_list t l) as (P0 & L0)
      by (subst t0; destruct (errf p); split; try done; by intros []).
    eapply remove_free in E1; [|eapply lists_but_ext; [exact P0|exact L0|exact Hb]]. destruct E1 as [G1 G2]. split; [exact G1|].
    eapply moves_trans; [|exact G2]. eapply moves_ext; [exact P0|apply moves_refl].
  - rewrite Hf in E. apply bind_Ok_inv in E as (t1 & E1 & E). injection E as <-. by eapply remove_free.
Qed.

Lemma after_process_good n t a err t' : lists_ok t -> after_process t a err = Ok t' -> good n t t'.
Proof.
  intros H E. unfold after_process in E. destruct (err =? EFAULT); [injection E as <-; by apply good_refl|].
  apply bind_Ok_inv in E as (p & Hp & E). apply getpcb_Ok in Hp. destruct (is_state (state p) LISTEN) eqn:El; [injection E as <-; by apply good_refl|].
  cbv zeta in E. destruct (has (flags p) TF_RESET).
  { apply bind_Ok_inv in E as (t1 & E1 & E). injection E as <-.
    set (t0 := if errf p then _ else t) in E1. assert (pcbs t0 = pcbs t /\ forall l, get_list t0 l = get_list t l) as (P0 & L0)
      by (subst t0; destruct (errf p); split; try done; by intros []).
    eapply remove_free in E1; [|eapply lists_but_ext; [exact P0|exact L0|apply ok_but; [done|]]].
    - destruct E1 as [G1 G2]. split; [exact G1|]. eapply moves_trans; [|exact G2]. eapply moves_ext; [exact P0|apply moves_refl].
    - intros q Hq. rewrite Hp in Hq. injection Hq as <-. destruct (state p); try done; auto. }
  rewrite (lo_open _ H _ _ Hp) in E. destruct (is_state (state p) TIME_WAIT).
  - destruct (tcp_output (tnet t) p) as [[rc p1] w1] eqn:E1. apply tcp_output_skeep in E1. injection E as <-. by eapply good_put.
  - by eapply notify_good.
Qed.

Lemma leave_recv_good n t a : lists_ok t -> good n t (leave_recv t a).
Proof.
  intros H. unfold leave_recv. destruct (pcbs t !! a) as [p|] eqn:Ha; [eapply good_putpcb; [done|exact Ha|skeep]|].
  split; [eapply lists_ok_ext; [..|exact H]; [done|by intros []]|eapply moves_ext; [|apply moves_refl]; done].
Qed.

Lemma ok_front t l a : lists_ok t -> a ∈ get_list t l -> lists_ok (set_list t l (a :: list_del a (get_list t l))).
Proof.
  intros [H1 H2 H3] Ha. split; rewrite ?set_list_pcbs; try done.
  - intros k. rewrite get_set_list. case_decide; [|done]. constructor; [|by apply list_del_NoDup]. rewrite elem_list_del by done. naive_solver.
  - intros k c. rewrite get_set_list, <- H2. case_decide; [|done]. subst. rewrite elem_of_cons, elem_list_del by done. destruct (decide (c = a)); naive_solver.
Qed.

Lemma find_pcb_Some t f l a : find_pcb t f l = Some a -> a ∈ l /\ exists p, pcbs t !! a = Some p /\ f p = true.
Proof.
  unfold find_pcb. intros [Hin Hf]%List.find_some. split; [by apply list_elem_of_In|]. destruct (pcbs t !! a) as [p|]; [|done]. by exists p.
Qed.

Lemma demux_good n t h src dst o t' : lists_ok t -> demux t h src dst = (o, t') -> good n t t' /\ pcbs t' = pcbs t /\
  forall a, o = Some a -> exists p, pcbs t !! a = Some p.
Proof.
  intros H E. unfold demux in E.
  assert (forall l a, a ∈ get_list t l -> good n t (set_list t l (a :: list_del a (get_list t l)))) as Hf.
  { intros l a Hin. split; [by apply ok_front|]. eapply moves_ext; [apply set_list_pcbs|apply moves_refl]. }
  destruct (find_pcb t _ (tcp_active_pcbs t)) as [a|] eqn:E1; [|destruct (find_pcb t _ (tcp_tw_pcbs t)) as [a|] eqn:E2;
    [|destruct (find_pcb t _ (tcp_listen_pcbs t)) as [a|] eqn:E3]]; injection E as <- <-.
  - apply find_pcb_Some in E1 as (Hin & p & Hp & _). split; [by apply (Hf Active)|]. split; [done|]. intros ? [= <-]. eauto.
  - apply find_pcb_Some in E2 as (Hin & p & Hp & _). split; [by apply good_refl|]. split; [done|]. intros ? [= <-]. eauto.
  - apply find_pcb_Some in E3 as (Hin & p & Hp & _). split; [by apply (Hf Listening)|]. split; [done|]. intros ? [= <-]. eauto.
  - split; [by apply good_refl|]. done.
Qed.

Lemma tcp_input_good k t x l src dst inp na rc t' : lists_ok t -> pcbs t !! na = None ->
  tcp_input k t x l src dst inp na = Ok (rc, t') -> good (Some na) t t'.
Proof.
  intros H Hn E. unfold tcp_input, segment_in in E. cbv zeta in E. destruct (_ <? TCP_HLEN); [injection E as <- <-; by apply good_refl|].
  destruct (_ || _); [injection E as <- <-; by apply good_refl|]. destruct (_ && _); [injection E as <- <-; by apply good_refl|].
  apply bind_Ok_inv in E as (h & _ & E). destruct (Z.of_nat (length x) <? _); [done|]. destruct (demux t _ src dst) as [o t1] eqn:Ed. eapply (demux_good (Some na)) in Ed as (G1 & P1 & Ho); [|done].
  destruct o as [a|].
  - apply bind_Ok_inv in E as (p & Hp & E). apply getpcb_Ok in Hp. set (p1 := set_flags _ _) in E.
    assert (skeep p1 = skeep p) as K1 by (subst p1; case_match; skeep).
    apply bind_Ok_inv in E as ([[err s2] t2] & E2 & E). apply bind_Ok_inv in E as (t3 & E3 & E). injection E as <- <-.
    eapply good_trans; [exact G1|]. intros H1. eapply good_trans; [by eapply (good_putpcb _ t1 a p p1)|]. intros H2.
    assert (pcbs (putpcb t1 a p1) !! na = None) as Hn2 by (cbn; rewrite lookup_insert_ne; [by rewrite P1|congruence]).
    assert (pcbs (putpcb t1 a p1) !! a = Some p1) as Ha2 by apply lookup_insert_eq.
    destruct (tcp_process_good _ _ _ _ _ _ _ _ _ _ _ _ H2 Hn2 Ha2 E2) as [G2|(-> & p' & Hp' & Hs' & Hf' & Hb & Hm)].
    + eapply good_trans; [exact G2|]. intros H3. eapply good_trans; [by eapply after_process_good|]. intros H4. by apply leave_recv_good.
    + eapply but_processed in E3; [|done..]. destruct E3 as [G3 M3]. eapply good_trans; [split; [exact G3|by eapply moves_trans]|].
      intros H4. by apply leave_recv_good.
  - destruct (has _ TCP_RST); injection E as <- <-; [done|]. eapply good_trans; [exact G1|]. intros H1. by apply good_tnet.
Qed.

(** ** Timers *)

Lemma remove_pcbs t l a t' : tcp_pcb_remove t l a = Ok t' -> pcbs (pcb_free t' a) = delete a (pcbs t).
Proof.
  unfold tcp_pcb_remove. cbv zeta. intros H. apply bind_Ok_inv in H as (p & _ & H). destruct (if _ && _ then _ else _) as [q w]. injection H as <-.
  cbn. rewrite delete_insert_eq. unfold TCP_RMV. by rewrite set_list_pcbs.
Qed.

Lemma abort_pcbs t a t' : tcp_abort t a = Ok t' -> pcbs t' = delete a (pcbs t).
Proof.
  unfold tcp_abort. intros E. apply bind_Ok_inv in E as (q & _ & E).
  destruct (is_state _ _); apply bind_Ok_inv in E as (t1 & E1 & E); apply remove_pcbs in E1; injection E as <-; [done|].
  rewrite <- E1. by destruct (errf q).
Qed.

(** The rest of the connections. *)
Definition others (a : Z) (t t' : tcp) : Prop := forall c, c <> a -> pcbs t' !! c = pcbs t !! c.

Lemma slow_pcb_good n f t a r t' p : lists_ok t -> pcbs t !! a = Some p -> home (state p) = Some Active ->
  slow_pcb f t a = Ok (r, t') -> good n t t' /\ others a t t'.
Proof.
  intros H Ha Hh E. unfold slow_pcb in E. apply bind_Ok_inv in E as (p0 & Hp & E). apply getpcb_Ok in Hp. rewrite Ha in Hp. injection Hp as <-.
  cbv zeta in E. set (gv := _ || _) in E. clearbody gv. apply bind_Ok_inv in E as ([p1 w1] & E1 & E).
  assert (skeep p1 = skeep p) as K1 by (destruct gv; [by injection E1 as <- <-|by eapply slow_rexmit_skeep]).
  assert (state p1 = state p) as S1 by by injection K1.
  assert (forall w p2, skeep p2 = skeep p1 -> good n t (on_pcb (on_pcb t a (p1, w1)) a (p2, w)) /\ others a t (on_pcb (on_pcb t a (p1, w1)) a (p2, w))) as Hput.
  { intros w p2 K2. split; [|intros c Hc; cbn; by rewrite !lookup_insert_ne]. eapply good_trans; [eapply (good_put n t w1 a p p1); done|].
    intros H1. eapply good_put; [done|apply lookup_insert_eq|done]. }
  destruct (_ && (u32 (keepalive p1 + TCP_MAXIDLE) / _ <? _)) eqn:Ep.
  - apply bind_Ok_inv in E as (t2 & E2 & E). match type of E with (if ?c then _ else _) = _ => destruct c end; [done|].
    injection E as <- <-. pose proof (abort_pcbs _ _ _ E2) as Hd.
    eapply (abort_good n) in E2; [|eapply (proj1 (good_put n t w1 a p p1 H Ha K1))|apply lookup_insert_eq|].
    + split; [|intros c Hc; cbn in *; rewrite Hd, lookup_delete_ne, lookup_insert_ne by done; done].
      eapply good_trans; [eapply (good_put n t w1 a p p1); done|]. intros _. destruct E2 as [G1 G2]. split.
      * eapply lists_ok_ext; [..|exact G1]; [done|by intros []].
      * eapply moves_ext; [|exact G2]. done.
    + cbn [fst]. intros Hl. rewrite Hl in S1. rewrite <- S1 in Hh. done.
  - clear Ep. destruct (if _ && _ then _ else _) as [p2 w2] eqn:E2 in E.
    assert (skeep p2 = skeep p1) as K2 by (destruct (_ && _); injection E2 as <- <-; done).
    set (p3 := match ooseq p2 with [] => p2 | _ :: _ => _ end) in E.
    assert (skeep p3 = skeep p1) as K3 by (subst p3; destruct (ooseq p2); [done|destruct (_ <=? _); done]). clearbody p3.
    match type of E with (if ?c then _ else _) = _ => destruct c end.
    + injection E as <- <-. set (w3 := if errf p3 then _ else w2). clearbody w3. split.
      * eapply good_trans; [eapply (good_put n t w1 a p p1); done|]. intros H1. eapply good_trans; [by apply (good_tnet n _ w3)|]. intros H2. split.
        -- apply (but_free a Active (set_tnet (on_pcb t a (p1, w1)) w3)), ok_but; [done|]. intros q. cbn. rewrite lookup_insert_eq. intros [= <-]. rewrite S1. by left.
        -- apply moves_free. eapply (moves_ext _ _ (set_tnet (on_pcb t a (p1, w1)) w3)); [done|apply moves_refl].
      * intros c Hc. cbn. rewrite lookup_delete_ne by done. by rewrite lookup_insert_ne.
    + match type of E with (if ?c then _ else _) = _ => destruct c end; [|injection E as <- <-; apply Hput; by rewrite <- K3].
      apply bind_Ok_inv in E as ([[rc p4] w4] & E4 & E). apply callback_skeep in E4. destruct (tcp_output w4 p4) as [[rc5 p5] w5] eqn:E5.
      apply tcp_output_skeep in E5. injection E as <- <-. apply Hput. rewrite E5, E4, <- K3. done.
Qed.

Lemma slow_active_good n f l : forall t t', lists_ok t -> NoDup l -> (forall a, a ∈ l -> exists p, pcbs t !! a = Some p /\ home (state p) = Some Active) ->
  slow_active f t l = Ok t' -> good n t t'.
Proof.
  clear HR. induction l as [|a l IH]; intros t t' H Hnd Hl E; cbn [slow_active] in E; [injection E as <-; by apply good_refl|].
  apply bind_Ok_inv in E as ([r t1] & E1 & E). destruct (Hl a ltac:(set_solver)) as (p & Hp & Hh).
  destruct (slow_pcb_good n f t a r t1 p H Hp Hh E1) as (G & Ho). apply NoDup_cons in Hnd as [Hna Hnd].
  destruct r; [| |by injection E as <-]; (eapply good_trans; [exact G|]; intros H1; eapply IH; [done|done| |exact E];
    intros c Hc; rewrite Ho by (intros ->; done); apply Hl; set_solver).
Qed.

Lemma slow_tw_good n l : forall t t', lists_ok t -> NoDup l -> (forall a, a ∈ l -> exists p, pcbs t !! a = Some p /\ home (state p) = Some Tw) ->
  slow_tw t l = Ok t' -> good n t t'.
Proof.
  clear HR. induction l as [|a l IH]; intros t t' H Hnd Hl E; cbn [slow_tw] in E; [injection E as <-; by apply good_refl|].
  apply bind_Ok_inv in E as (p & Hp & E). apply getpcb_Ok in Hp. destruct (Hl a ltac:(set_solver)) as (q & Hq & Hh). rewrite Hp in Hq. injection Hq as <-.
  apply NoDup_cons in Hnd as [Hna Hnd]. destruct (_ <? _); [|eapply IH; [done|done| |exact E]; intros c Hc; apply Hl; set_solver].
  assert (good n t (pcb_free (TCP_RMV t Tw a) a)) as G.
  { split; [apply but_free, ok_but; [done|]; intros q Hq; rewrite Hp in Hq; injection Hq as <-; by left|].
    apply moves_free. eapply moves_ext; [apply set_list_pcbs|apply moves_refl]. }
  eapply good_trans; [exact G|]. intros H1. eapply IH; [done|done| |exact E]. intros c Hc. unfold TCP_RMV. cbn. rewrite lookup_delete_ne by (intros ->; done).
  apply Hl. set_solver.
Qed.

Lemma slowtmr_good n f t t' : lists_ok t -> tcp_slowtmr f t = Ok t' -> good n t t'.
Proof.
  intros H E. unfold tcp_slowtmr in E. cbv zeta in E. apply bind_Ok_inv in E as (t1 & E1 & E).
  eapply good_trans; [by apply (good_tnet n t)|]. intros H0. fold (tick t) in H0. eapply (good_trans n _ t1).
  - eapply slow_active_good; [exact H0|apply (lo_nodup _ H0 Active)| |exact E1]. intros a Ha. by apply (lo_home _ H0 Active).
  - intros H1. eapply slow_tw_good; [done|apply (lo_nodup _ H1 Tw)| |exact E]. intros a Ha. by apply (lo_home _ H1 Tw).
Qed.

Lemma fast_loop_good n l : forall t t', lists_ok t -> fast_loop t l = Ok t' -> good n t t'.
Proof.
  induction l as [|a l IH]; intros t t' H E; cbn [fast_loop] in E; [injection E as <-; by apply good_refl|].
  apply bind_Ok_inv in E as (p & Hp & E). apply getpcb_Ok in Hp. destruct (fast_pcb (tnet t) p) as [p1 w1] eqn:E1. apply fast_skeep in E1.
  eapply good_trans; [by eapply (good_put n t w1 a p p1)|]. intros H1. by apply IH.
Qed.

Lemma tmr_good n f timer t timer' t' : lists_ok t -> tcp_tmr f timer t = Ok (timer', t') -> good n t t'.
Proof.
  intros H E. unfold tcp_tmr in E. apply bind_Ok_inv in E as (t1 & E1 & E). cbv zeta in E. apply bind_Ok_inv in E as (t2 & E2 & E). injection E as _ <-.
  eapply good_trans; [by eapply fast_loop_good|]. intros H1. destruct (has _ 1); [by eapply slowtmr_good|injection E2 as <-; by apply good_refl].
Qed.

(** ** The whole *)

Section World.
Context (own : Z -> bool).

(** What can happen: calls of the application and of the layers around.  Addresses of
    new connections come from the allocator.  tcp_listen and tcp_connect are called on
    connections that are not open yet, tcp_abort not on listening ones. *)
Inductive wstep : tcp -> tcp -> Prop :=
  | w_new t a r t' : pcbs t !! a = None -> tcp_new t a = (r, t') -> wstep t t'
  | w_bind t a ip port rc t' : tcp_bind own t a ip port = Ok (rc, t') -> wstep t t'
  | w_listen t a p t' : pcbs t !! a = Some p -> state p = CLOSED \/ state p = LISTEN -> tcp_listen t a = Ok t' -> wstep t t'
  | w_connect t a p ip port cb rc t' : pcbs t !! a = Some p -> state p = CLOSED -> tcp_connect t a ip port cb = Ok (rc, t') -> wstep t t'
  | w_close t a rc t' : tcp_close t a = Ok (rc, t') -> wstep t t'
  | w_abort t a p t' : pcbs t !! a = Some p -> state p <> LISTEN -> tcp_abort t a = Ok t' -> wstep t t'
  | w_app t a p acts p' w' : pcbs t !! a = Some p -> run_acts (tnet t) p acts = Ok (p', w') -> wstep t (on_pcb t a (p', w'))
  | w_input k t x l src dst inp na rc t' : pcbs t !! na = None -> tcp_input k t x l src dst inp na = Ok (rc, t') -> wstep t t'
  | w_slow f t t' : tcp_slowtmr f t = Ok t' -> wstep t t'
  | w_fast t t' : tcp_fasttmr t = Ok t' -> wstep t t'
  | w_tmr f timer t timer' t' : tcp_tmr f timer t = Ok (timer', t') -> wstep t t'
  | w_net t w : wstep t (set_tnet t w).

Lemma ok_next_port t v : lists_ok t -> lists_ok (set_next_port t v).
Proof. apply lists_ok_ext; [done|by intros []]. Qed.

Lemma new_port_pcbs t port t' : tcp_new_port t = Ok (port, t') -> exists v, t' = set_next_port t v.
Proof. unfold tcp_new_port. intros H. apply bind_Ok_inv in H as (q & _ & H). injection H as <- <-. by eexists. Qed.

Lemma bind_good n t a ip port rc t' : lists_ok t -> tcp_bind own t a ip port = Ok (rc, t') -> good n t t'.
Proof.
  intros H E. unfold tcp_bind in E. apply bind_Ok_inv in E as (p & Hp & E). apply getpcb_Ok in Hp.
  apply bind_Ok_inv in E as ([port1 t1] & E1 & E).
  assert (lists_ok t1 /\ pcbs t1 = pcbs t) as (H1 & P1).
  { destruct (port =? 0); [|by injection E1 as <- <-]. apply new_port_pcbs in E1 as (v & ->). split; [by apply ok_next_port|done]. }
  assert (good n t t1) as G1 by (split; [done|]; eapply moves_ext; [exact P1|apply moves_refl]).
  repeat match type of E with (if ?c then _ else _) = _ => destruct c end; injection E as <- <-; try done.
  eapply good_trans; [exact G1|]. intros _. eapply good_putpcb; [done|rewrite P1; exact Hp|]. by destruct (negb _).
Qed.

Lemma connecting_skeep v mtu cb p : skeep (connecting v mtu cb p) = (SYN_SENT, has (flags p) TF_CLOSED, has (flags p) TF_RESET).
Proof. done. Qed.

Lemma connect_end n t t1 a p p3 w3 v : lists_ok t -> pcbs t !! a = Some p -> state p = CLOSED -> lists_ok t1 -> pcbs t1 = pcbs t ->
  state p3 = SYN_SENT -> has (flags p3) TF_CLOSED = false -> good n t (on_pcb (TCP_REG (set_iss t1 v) Active a) a (p3, w3)).
Proof.
  intros H Ha Hs H1 P1 S3 F3. assert (lists_ok (TCP_REG (putpcb t1 a p3) Active a)) as H2.
  { apply ok_reg; [done| |by rewrite S3|done]. intros q. rewrite P1, Ha. intros [= <-]. by rewrite Hs. }
  split.
  - eapply lists_ok_ext; [..|exact H2]; [done|by intros []].
  - intros c q. cbn. rewrite P1. destruct (decide (c = a)) as [->|Hc].
    + rewrite lookup_insert_eq. intros [= <-] _. exists p. split; [done|]. rewrite S3, Hs. apply HR. constructor.
    + rewrite lookup_insert_ne by done. intros Hq _. by exists q.
Qed.

Lemma connect_good n t a p ip port cb rc t' : lists_ok t -> pcbs t !! a = Some p -> state p = CLOSED ->
  tcp_connect t a ip port cb = Ok (rc, t') -> good n t t'.
Proof.
  intros H Ha Hs E. unfold tcp_connect in E. destruct (_ || _); [injection E as <- <-; by apply good_refl|].
  apply bind_Ok_inv in E as (p0 & Hp & E). apply getpcb_Ok in Hp. rewrite Ha in Hp. injection Hp as <-.
  apply bind_Ok_inv in E as ([p1 t1] & E1 & E).
  assert (lists_ok t1 /\ pcbs t1 = pcbs t /\ has (flags p1) TF_CLOSED = has (flags p) TF_CLOSED) as (H1 & P1 & F1).
  { destruct (_ =? 0); [|by injection E1 as <- <-]. apply bind_Ok_inv in E1 as ([q t2] & E2 & E1). apply new_port_pcbs in E2 as (v & ->).
    injection E1 as <- <-. split; [by apply ok_next_port|done]. }
  clear E1. destruct (tcp_next_iss t1) as [v t2] eqn:Ev. assert (t2 = set_iss t1 v) as -> by (unfold tcp_next_iss in Ev; by injection Ev as <- <-).
  apply bind_Ok_inv in E as ([[ret p2] w2] & E2 & E). apply enqueue_skeep in E2. rewrite connecting_skeep, F1 in E2.
  destruct (if ret =? 0 then _ else _) as [p3 w3] eqn:E3 in E. assert (skeep p3 = skeep p2) as K3.
  { destruct (ret =? 0); [|by injection E3 as <- <-]. destruct (tcp_output w2 p2) as [[? ?] ?] eqn:Eo. apply tcp_output_skeep in Eo. by injection E3 as <- <-. }
  rewrite E2 in K3. injection K3 as S3 F3 _. injection E as <- <-. eapply connect_end; try done. rewrite F3. exact (lo_open _ H _ _ Ha).
Qed.

End World.

(** *** New connections *)

Lemma close_others t a rc t' : tcp_close t a = Ok (rc, t') -> others a t t'.
Proof.
  unfold tcp_close. intros E. apply bind_Ok_inv in E as (p & _ & E).
  destruct (state p); try (injection E as <- <-; done);
    apply bind_Ok_inv in E as (r & E1 & E); try (injection E as <- <-; apply remove_pcbs in E1; intros c Hc; rewrite E1; by apply lookup_delete_ne);
    destruct r as [[rc1 p1] w1]; injection E as <- <-; intros c Hc; by apply lookup_insert_ne.
Qed.

Lemma others_trans a t1 t2 t3 : others a t1 t2 -> others a t2 t3 -> others a t1 t3.
Proof. intros H1 H2 c Hc. rewrite H2, H1 by done. done. Qed.

Lemma put_others t w a p : others a t (on_pcb t a (p, w)).
Proof. intros c Hc. by apply lookup_insert_ne. Qed.

Lemma notify_others t a p t' : notify t a p = Ok t' -> others a t t'.
Proof.
  unfold notify. cbv zeta. intros E. apply bind_Ok_inv in E as ([[err p1] w1] & _ & E). destruct (recv p1).
  - apply bind_Ok_inv in E as ([[err2 p2] w2] & _ & E). apply bind_Ok_inv in E as ([[err3 p3] w3] & _ & E).
    destruct (err3 =? 0); [|injection E as <-; apply put_others]. destruct (tcp_output w3 p3) as [[rc4 p4] w4]. injection E as <-. apply put_others.
  - apply bind_Ok_inv in E as ([rc t1] & E2 & E). apply bind_Ok_inv in E as (p3 & _ & E). destruct (tcp_output (tnet t1) p3) as [[rc4 p4] w4].
    injection E as <-. eapply others_trans; [apply (put_others t w1 a p1)|]. eapply others_trans; [|apply put_others].
    destruct (has _ TF_GOT_FIN); [by eapply close_others|by injection E2 as <- <-].
Qed.

Lemma finish_others t a err t' : after_process t a err = Ok t' -> others a t t'.
Proof.
  unfold after_process. intros E. destruct (err =? EFAULT); [by injection E as <-|]. apply bind_Ok_inv in E as (p & _ & E).
  destruct (is_state _ LISTEN); [by injection E as <-|]. cbv zeta in E. destruct (has _ TF_RESET).
  { apply bind_Ok_inv in E as (t1 & E1 & E). injection E as <-. apply remove_pcbs in E1. intros c Hc. rewrite E1, lookup_delete_ne by done. by destruct (errf p). }
  destruct (has _ TF_CLOSED).
  { apply bind_Ok_inv in E as (t1 & E1 & E). injection E as <-. apply remove_pcbs in E1. intros c Hc. by rewrite E1, lookup_delete_ne. }
  destruct (is_state _ TIME_WAIT); [|by eapply notify_others]. destruct (tcp_output (tnet t) p) as [[rc p1] w1]. injection E as <-. apply put_others.
Qed.

Lemma leave_others t a : others a t (leave_recv t a).
Proof. unfold leave_recv. intros c Hc. destruct (pcbs t !! a); [|done]. by apply lookup_insert_ne. Qed.

(** A segment makes no connection but in SYN-RECEIVED. *)
Definition fresh_syn (na : Z) (P : Prop) (t' : tcp) : Prop := forall q, pcbs t' !! na = Some q -> state q = SYN_RCVD /\ P.

Definition only_syn (h : tcp_hdr) : Prop :=
  has (TCPH_FLAGS h) TCP_SYN = true /\ has (TCPH_FLAGS h) TCP_ACK = false /\ has (TCPH_FLAGS h) TCP_RST = false.

Lemma others_fresh a na P t t' : a <> na -> pcbs t !! na = None -> others a t t' -> fresh_syn na P t'.
Proof. intros Hne Hn Ho q. rewrite Ho by done. congruence. Qed.

Lemma listen_syn_fresh k t s a src dst mtu na rc t' (P : Prop) : a <> na -> pcbs t !! na = None -> P ->
  listen_syn k t s a src dst mtu na = Ok (rc, t') -> fresh_syn na P t'.
Proof.
  intros Hne Hn HP E. unfold listen_syn in E. destruct (tcp_new t na) as [r t1] eqn:En. unfold tcp_new in En. destruct (na =? NULL) eqn:E0.
  { injection En as <- <-. cbn in E. injection E as <- <-. intros q. congruence. }
  unfold tcp_next_iss in En. cbv zeta in En. injection En as <- <-. rewrite E0 in E. cbv zeta in E.
  apply bind_Ok_inv in E as (p1 & _ & E). apply bind_Ok_inv in E as (q1 & _ & E).
  apply bind_Ok_inv in E as (q2 & E2 & E). apply parseopt_skeep in E2. apply bind_Ok_inv in E as ([[rc3 q3] w3] & E3 & E). apply enqueue_skeep in E3.
  destruct (tcp_output w3 q3) as [[rc4 q4] w4] eqn:E4. apply tcp_output_skeep in E4. injection E as <- <-. rewrite E3, E2 in E4. injection E4 as S4 _ _.
  intros q. unfold on_pcb. cbn [fst snd pcbs putpcb set_pcbs]. rewrite lookup_insert_eq. intros [= <-]. by split.
Qed.

Lemma apply_next_others t a p n : others a t (apply_next t a p n).
Proof.
  intros c Hc. destruct n as [|st| |]; cbn [apply_next]; [by apply lookup_insert_ne|destruct st; by apply lookup_insert_ne| |by apply lookup_insert_ne].
  unfold TCP_REG, TCP_RMV. rewrite !set_list_pcbs. by apply lookup_insert_ne.
Qed.

Lemma process_fresh k t s a src dst mtu na err s' t' : a <> na -> pcbs t !! na = None ->
  tcp_process k t s a src dst mtu na = Ok (err, s', t') -> fresh_syn na (only_syn (seg_hdr s)) t'.
Proof.
  intros Hne Hn E. unfold tcp_process in E. apply bind_Ok_inv in E as (p & _ & E). cbv zeta in E. destruct (has _ TCP_RST) eqn:ER.
  { eapply (others_fresh a); [done|exact Hn|]. destruct (rst_acceptable _ _); injection E as <- <- <-; [intros c Hc; by apply lookup_insert_ne|done]. }
  set (p1 := if is_state (state p) LISTEN then p else _) in E. clearbody p1.
  assert (pcbs (putpcb t a p1) !! na = None) as Hn1 by (cbn; by rewrite lookup_insert_ne).
  revert E Hn1. generalize (putpcb t a p1). intros u E Hn1. clear Hn.
  destruct (state p1); try (apply bind_Ok_inv in E as ([[s2 p2] w2] & _ & E); injection E as <- <- <-; eapply (others_fresh a _ _ u); [done|done|];
    exact (apply_next_others (set_tnet u w2) a p2 _)).
  - injection E as <- <- <-. by eapply (others_fresh a _ _ u).
  - destruct (has _ TCP_ACK) eqn:EA; [injection E as <- <- <-; by eapply (others_fresh a _ _ u)|].
    destruct (has _ TCP_SYN) eqn:ES; [|injection E as <- <- <-; by eapply (others_fresh a _ _ u)].
    apply bind_Ok_inv in E as ([rc t2] & E2 & E). injection E as <- <- <-. by eapply listen_syn_fresh.
  - apply bind_Ok_inv in E as ([p2 w2] & _ & E). injection E as <- <- <-. eapply (others_fresh a _ _ u); [done|done|apply put_others].
  - apply bind_Ok_inv in E as ([[r p2] w2] & _ & E). eapply (others_fresh a _ _ u); [done|done|].
    destruct r as [s2|]; [injection E as <- <- <-; apply put_others|]. apply bind_Ok_inv in E as (t2 & E3 & E). injection E as <- <- <-.
    apply abort_pcbs in E3. intros c Hc. rewrite E3, lookup_delete_ne by done. by apply put_others.
  - injection E as <- <- <-. eapply (others_fresh a _ _ u); [done|done|]. intros c Hc. by apply lookup_insert_ne.
Qed.

Lemma input_fresh k t x l src dst inp na rc t' : lists_ok t -> pcbs t !! na = None -> tcp_input k t x l src dst inp na = Ok (rc, t') ->
  fresh_syn na (exists h, read_hdr x = Some h /\ only_syn h) t'.
Proof.
  intros H Hn E. assert (forall P, fresh_syn na P t) as Hf by (intros P q; congruence).
  unfold tcp_input, segment_in in E. cbv zeta in E. destruct (_ <? TCP_HLEN); [by injection E as <- <-|]. destruct (_ || _); [by injection E as <- <-|].
  destruct (_ && _); [by injection E as <- <-|]. apply bind_Ok_inv in E as (h & Eh & E). destruct (read_hdr x) as [h'|]; [injection Eh as ->|discriminate Eh]. destruct (Z.of_nat (length x) <? _); [done|]. destruct (demux t _ src dst) as [o t1] eqn:Ed.
  eapply (demux_good None) in Ed as (_ & P1 & Ho); [|done]. destruct o as [a|].
  - destruct (Ho a eq_refl) as (p0 & Ha). assert (a <> na) as Hne by congruence. apply bind_Ok_inv in E as (p & _ & E). set (p1 := set_flags _ _) in E.
    apply bind_Ok_inv in E as ([[err s2] t2] & E2 & E). apply bind_Ok_inv in E as (t3 & E3 & E). injection E as <- <-.
    apply process_fresh in E2; [|done|cbn; rewrite lookup_insert_ne by done; by rewrite P1].
    apply finish_others in E3. intros q. rewrite (leave_others t3 a na), E3 by done. intros Hq. destruct (E2 q Hq) as [Hs Hy]. split; [done|]. by exists h.
  - unfold fresh_syn in *. destruct (has _ TCP_RST); injection E as <- <-; cbn; rewrite P1; apply Hf.
Qed.

(** *** All steps *)

Lemma wstep_good own t t' : lists_ok t -> wstep own t t' -> exists n, good n t t' /\
  match n with Some a => pcbs t !! a = None /\ forall q, pcbs t' !! a = Some q -> state q = CLOSED \/ state q = SYN_RCVD | None => True end.
Proof.
  intros H Hst. destruct Hst as [t a r t' Hn E|t a ip port rc t' E|t a p t' Ha Hs E|t a p ip port cb rc t' Ha Hs E|t a rc t' E|t a p t' Ha Hs E|
    t a p acts p' w' Ha E|k t x l src dst inp na rc t' Hn E|f t t' E|t t' E|f timer t timer' t' E|t w].
  - exists (Some a). apply new_state in E as [[_ ->]|(_ & H1 & q & Ep & Es & _)]; [|split|done|done].
    + split; [by apply good_refl|]. split; [done|]. intros q. congruence.
    + split; [done|]. intros c p Hp Hc. rewrite Ep, lookup_insert_ne in Hp by congruence. by exists p.
    + split; [done|]. intros p. rewrite Ep, lookup_insert_eq. intros [= <-]. by left.
  - exists None. split; [by eapply bind_good|done].
  - exists None. split; [|done]. unfold tcp_listen in E. apply bind_Ok_inv in E as (q & Hq & E). apply getpcb_Ok in Hq. rewrite Ha in Hq. injection Hq as <-.
    destruct Hs as [Hs|Hs]; rewrite Hs in E; cbn [is_state] in E; injection E as <-; [|by apply good_refl]. split.
    + apply (ok_reg a Listening t (set_state LISTEN p)); [done| |done|]; [intros q Hq; rewrite Ha in Hq; injection Hq as <-; by rewrite Hs|].
      exact (lo_open _ H _ _ Ha).
    + eapply (moves_ext _ _ (putpcb t a (set_state LISTEN p))); [done|]. eapply moves_put; [exact Ha|]. rewrite Hs. apply HR. constructor.
  - exists None. split; [by eapply connect_good|done].
  - exists None. split; [by eapply close_good|done].
  - exists None. split; [by eapply abort_good|done].
  - exists None. split; [|done]. apply run_acts_skeep in E. by eapply good_put.
  - exists (Some na). split; [by eapply tcp_input_good|]. split; [done|]. intros q Hq. right. by eapply input_fresh.
  - exists None. split; [by eapply slowtmr_good|done].
  - exists None. split; [|done]. by eapply fast_loop_good.
  - exists None. split; [|done]. by eapply tmr_good.
  - exists None. split; [by apply good_tnet|done].
Qed.

End Along.

Lemma lists_ok_init w now : lists_ok (tcp_init w now).
Proof.
  split; [intros []; apply NoDup_nil_2| |done]. intros l a. split; [destruct l; by intros ?%elem_of_nil|]. intros (p & Hp & _). cbn in Hp. by rewrite lookup_empty in Hp.
Qed.

Lemma reach_lists_ok own w now t : reach (wstep own) (tcp_init w now) t -> lists_ok t.
Proof.
  apply (reach_invariant _ lists_ok); [apply lists_ok_init|]. intros x y H Hst. by destruct (wstep_good (rtc rfc793) (@rtc_once _ rfc793) own x y H Hst) as (n & [G _] & _).
Qed.

(** C16: the lists of connections.  What the comment in sys/net/tcp.h says of them holds
    in every state the system can reach: each connection that is not CLOSED is on
    exactly one list, once, on tcp_listen_pcbs if it is LISTEN, on tcp_tw_pcbs if it is
    in TIME-WAIT and on tcp_active_pcbs otherwise; and no list has a connection that
    was freed. *)
Theorem tcp_lists_in_order own w now t : reach (wstep own) (tcp_init w now) t -> lists_ok t.
Proof.
  apply reach_lists_ok.
Qed.

(** ** What makes a connection change its state *)

(** What can happen, by name. *)
Inductive stimulus :=
  | CallNew (a : Z) | CallBind (a ip port : Z) | CallListen (a : Z) | CallConnect (a ip port : Z) (cb : bool) | CallClose (a : Z)
  | CallAbort (a : Z) | CallApp (a : Z) (acts : list act) | Packet (k : nat) (x : list Z) (l : list (list Z)) (src dst : Z) (inp : route) (na : Z)
  | SlowTimer (f : Z) | FastTimer | Timer (f timer : Z) | Surroundings (w : net).

Definition happens (own : Z -> bool) (e : stimulus) (t t' : tcp) : Prop :=
  match e with
  | CallNew a => pcbs t !! a = None /\ exists r, tcp_new t a = (r, t')
  | CallBind a ip port => exists rc, tcp_bind own t a ip port = Ok (rc, t')
  | CallListen a => (exists p, pcbs t !! a = Some p /\ (state p = CLOSED \/ state p = LISTEN)) /\ tcp_listen t a = Ok t'
  | CallConnect a ip port cb => (exists p, pcbs t !! a = Some p /\ state p = CLOSED) /\ exists rc, tcp_connect t a ip port cb = Ok (rc, t')
  | CallClose a => exists rc, tcp_close t a = Ok (rc, t')
  | CallAbort a => (exists p, pcbs t !! a = Some p /\ state p <> LISTEN) /\ tcp_abort t a = Ok t'
  | CallApp a acts => exists p p' w', pcbs t !! a = Some p /\ run_acts (tnet t) p acts = Ok (p', w') /\ t' = on_pcb t a (p', w')
  | Packet k x l src dst inp na => pcbs t !! na = None /\ exists rc, tcp_input k t x l src dst inp na = Ok (rc, t')
  | SlowTimer f => tcp_slowtmr f t = Ok t'
  | FastTimer => tcp_fasttmr t = Ok t'
  | Timer f timer => exists timer', tcp_tmr f timer t = Ok (timer', t')
  | Surroundings w => t' = set_tnet t w
  end.

Lemma wstep_happens own t t' : wstep own t t' <-> exists e, happens own e t t'.
Proof.
  split.
  - intros [u a r u' Hn E|u a ip port rc u' E|u a p u' Ha Hs E|u a p ip port cb rc u' Ha Hs E|u a rc u' E|u a p u' Ha Hs E|
      u a p acts p' w' Ha E|k u x l src dst inp na rc u' Hn E|f u u' E|u u' E|f timer u timer' u' E|u w].
    + exists (CallNew a). cbn. eauto.
    + exists (CallBind a ip port). cbn. eauto.
    + exists (CallListen a). cbn. eauto.
    + exists (CallConnect a ip port cb). cbn. eauto.
    + exists (CallClose a). cbn. eauto.
    + exists (CallAbort a). cbn. eauto.
    + exists (CallApp a acts). cbn. eauto 6.
    + exists (Packet k x l src dst inp na). cbn. eauto.
    + by exists (SlowTimer f).
    + by exists FastTimer.
    + exists (Timer f timer). cbn. eauto.
    + by exists (Surroundings w).
  - intros [e He]. destruct e; cbn in He; repeat match goal with H : exists _, _ |- _ => destruct H | H : _ /\ _ |- _ => destruct H end.
    + by eapply w_new.
    + by eapply w_bind.
    + by eapply w_listen.
    + by eapply w_connect.
    + by eapply w_close.
    + by eapply w_abort.
    + subst t'. by eapply w_app.
    + by eapply w_input.
    + by eapply w_slow.
    + by apply w_fast.
    + by eapply w_tmr.
    + subst t'. apply w_net.
Qed.

(** [p] as tcp_input prepares it for tcp_receive, and what tcp_receive makes of it. *)
Definition receives (w : net) (s : tcp_seg) (p q : pcb) : Prop := exists s' w',
  tcp_receive w s (set_tmr (tcp_ticks w) (set_flags (seton (flags p) TF_IN_RECV) (set_acked 0 (set_recv_data None p)))) = Ok (s', q, w').

Definition acks (s : tcp_seg) (q : pcb) : Prop := has (TCPH_FLAGS (seg_hdr s)) TCP_ACK = true /\ th_ackno (seg_hdr s) = snd_nxt q.

(** The arrows a segment may lead along, with what it has to carry: RFC 793, page 23. *)
Inductive seg_arrow (w : net) (s : tcp_seg) (p : pcb) : tcp_state -> Prop :=
  | sa_syn_acked r u : state p = SYN_SENT -> unacked p = r :: u -> th_ackno (seg_hdr s) = u32 (oseq r + 1) ->
      has (TCPH_FLAGS (seg_hdr s)) (Z.lor TCP_ACK TCP_SYN) = true -> seg_arrow w s p ESTABLISHED
  | sa_syn_ack_acked : state p = SYN_RCVD -> has (TCPH_FLAGS (seg_hdr s)) TCP_ACK = true ->
      TCP_SEQ_LT (lastack p) (th_ackno (seg_hdr s)) = true -> TCP_SEQ_LEQ (th_ackno (seg_hdr s)) (snd_nxt p) = true -> seg_arrow w s p ESTABLISHED
  | sa_fin : state p = ESTABLISHED -> has (TCPH_FLAGS (seg_hdr s)) TCP_FIN = true -> seg_arrow w s p CLOSE_WAIT
  | sa_fin_acked q : state p = FIN_WAIT_1 -> has (TCPH_FLAGS (seg_hdr s)) TCP_FIN = false -> receives w s p q -> acks s q -> seg_arrow w s p FIN_WAIT_2
  | sa_fin_fin q : state p = FIN_WAIT_1 -> has (TCPH_FLAGS (seg_hdr s)) TCP_FIN = true -> receives w s p q -> ~ acks s q -> seg_arrow w s p CLOSING
  | sa_fin_acked_fin q : state p = FIN_WAIT_1 -> has (TCPH_FLAGS (seg_hdr s)) TCP_FIN = true -> receives w s p q -> acks s q -> seg_arrow w s p TIME_WAIT
  | sa_fin_wait_fin : state p = FIN_WAIT_2 -> has (TCPH_FLAGS (seg_hdr s)) TCP_FIN = true -> seg_arrow w s p TIME_WAIT
  | sa_closing_acked q : state p = CLOSING -> receives w s p q -> acks s q -> seg_arrow w s p TIME_WAIT.

(** tcp_close: the application's, or tcp_input's where there is no receive function. *)
Inductive close_arrow : tcp_state -> tcp_state -> Prop :=
  | ca_syn_rcvd : close_arrow SYN_RCVD FIN_WAIT_1
  | ca_established : close_arrow ESTABLISHED FIN_WAIT_1
  | ca_close_wait : close_arrow CLOSE_WAIT LAST_ACK.

(** The segment comes from the peer of [p]. *)
Definition sent_by_peer (s : tcp_seg) (src dst : Z) (p : pcb) : Prop :=
  remote_port p = th_src (seg_hdr s) /\ local_port p = th_dest (seg_hdr s) /\ remote_ip p = src /\ local_ip p = dst.

(** Why connection [a] may go from [p] to the state of [p']. *)
Definition explained (t : tcp) (e : stimulus) (a : Z) (p p' : pcb) : Prop :=
  match e with
  | CallListen b => b = a /\ state p = CLOSED /\ state p' = LISTEN
  | CallConnect b _ _ _ => b = a /\ state p = CLOSED /\ state p' = SYN_SENT
  | CallClose b => b = a /\ close_arrow (state p) (state p')
  | Packet _ x l src dst _ _ => exists h, read_hdr x = Some h /\ let s := input_seg h x l in sent_by_peer s src dst p /\
      exists st, (st = state p \/ has (TCPH_FLAGS h) TCP_RST = false /\ seg_arrow (tnet t) s p st) /\
        (state p' = st \/ recv p' = false /\ close_arrow st (state p'))
  | _ => False
  end.

(** Why it may be freed. *)
Definition dismissed (t : tcp) (e : stimulus) (a : Z) (p : pcb) : Prop :=
  match e with
  | CallClose b => b = a /\ (state p = LISTEN \/ state p = SYN_SENT)
  | CallAbort b => b = a
  | Packet _ x l src dst _ _ => exists h, read_hdr x = Some h /\ let s := input_seg h x l in sent_by_peer s src dst p /\
      (has (flags p) TF_RESET = true \/ has (TCPH_FLAGS h) TCP_RST = true /\ rst_acceptable (seg_hdr s) p = true \/
       has (TCPH_FLAGS h) TCP_RST = false /\
         (state p = SYN_RCVD /\ seg_arrow (tnet t) s p ESTABLISHED \/ state p = LAST_ACK /\ exists q, receives (tnet t) s p q /\ acks s q))
  | SlowTimer _ | Timer _ _ => True
  | _ => False
  end.

(** *** Calls and timers *)

(** No connection comes, goes or changes its state. *)
Definition steady (t t' : tcp) : Prop := forall a, state <$> pcbs t' !! a = state <$> pcbs t !! a.

Lemma steady_put t w a p p' : pcbs t !! a = Some p -> skeep p' = skeep p -> steady t (on_pcb t a (p', w)).
Proof.
  intros Ha K c. injection K as K _ _. cbn. destruct (decide (c = a)) as [->|Hc]; [|by rewrite lookup_insert_ne].
  rewrite lookup_insert_eq, Ha. cbn. by rewrite K.
Qed.

Lemma steady_trans t1 t2 t3 : steady t1 t2 -> steady t2 t3 -> steady t1 t3.
Proof. intros H1 H2 a. by rewrite H2, H1. Qed.

Lemma fast_loop_steady l : forall t t', fast_loop t l = Ok t' -> steady t t'.
Proof.
  induction l as [|a l IH]; intros t t' E; cbn [fast_loop] in E; [by injection E as <-|].
  apply bind_Ok_inv in E as (p & Hp & E). apply getpcb_Ok in Hp. destruct (fast_pcb (tnet t) p) as [p1 w1] eqn:E1. apply fast_skeep in E1.
  eapply steady_trans; [by eapply (steady_put t w1 a p p1)|by apply IH].
Qed.

Lemma bind_steady own t a ip port rc t' : tcp_bind own t a ip port = Ok (rc, t') -> steady t t'.
Proof.
  intros E. unfold tcp_bind in E. apply bind_Ok_inv in E as (p & Hp & E). apply getpcb_Ok in Hp. apply bind_Ok_inv in E as ([port1 t1] & E1 & E).
  assert (pcbs t1 = pcbs t) as P1 by (destruct (port =? 0); [apply new_port_pcbs in E1 as (v & ->); done|by injection E1 as <- <-]).
  repeat match type of E with (if ?c then _ else _) = _ => destruct c end; injection E as <- <-; try (intros c; by rewrite P1).
  intros c. cbn. rewrite P1. destruct (decide (c = a)) as [->|Hc]; [|by rewrite lookup_insert_ne]. rewrite lookup_insert_eq, Hp. by destruct (negb _).
Qed.

Lemma connect_pcbs t a p ip port cb rc t' : pcbs t !! a = Some p -> tcp_connect t a ip port cb = Ok (rc, t') ->
  pcbs t' = pcbs t \/ exists q, state q = SYN_SENT /\ pcbs t' = <[a := q]> (pcbs t).
Proof.
  intros Ha E. unfold tcp_connect in E. destruct (_ || _); [injection E as <- <-; by left|].
  apply bind_Ok_inv in E as (p0 & _ & E). apply bind_Ok_inv in E as ([p1 t1] & E1 & E).
  assert (pcbs t1 = pcbs t) as P1.
  { destruct (_ =? 0); [|by injection E1 as <- <-]. apply bind_Ok_inv in E1 as ([q t2] & E2 & E1). apply new_port_pcbs in E2 as (v & ->). by injection E1 as <- <-. }
  destruct (tcp_next_iss t1) as [v t2] eqn:Ev. assert (t2 = set_iss t1 v) as -> by (unfold tcp_next_iss in Ev; by injection Ev as <- <-).
  apply bind_Ok_inv in E as ([[ret p2] w2] & E2 & E). apply enqueue_skeep in E2. rewrite connecting_skeep in E2.
  destruct (if ret =? 0 then _ else _) as [p3 w3] eqn:E3 in E. assert (skeep p3 = skeep p2) as K3.
  { destruct (ret =? 0); [|by injection E3 as <- <-]. destruct (tcp_output w2 p2) as [[? ?] ?] eqn:Eo. apply tcp_output_skeep in Eo. by injection E3 as <- <-. }
  rewrite E2 in K3. injection K3 as S3 _ _. injection E as <- <-. right. exists p3. split; [done|]. cbn. by rewrite P1.
Qed.

(** The connection after tcp_close, or that it has been freed. *)
Lemma close_pcbs t a p rc t' : pcbs t !! a = Some p -> tcp_close t a = Ok (rc, t') ->
  pcbs t' = delete a (pcbs t) /\ (state p = LISTEN \/ state p = SYN_SENT) \/
  exists q, pcbs t' = <[a := q]> (pcbs t) /\ recv q = recv p /\ (state q = state p \/ close_arrow (state p) (state q)).
Proof.
  intros Ha E. unfold tcp_close in E. apply bind_Ok_inv in E as (p0 & Hp & E). apply getpcb_Ok in Hp. rewrite Ha in Hp. injection Hp as <-.
  assert (forall st, (forall q, state q = st -> state q = state p \/ close_arrow (state p) (state q)) ->
    ('(err, p, w) ← send_fin (tnet t) p st; Ok (err, on_pcb t a (p, w))) = Ok (rc, t') ->
    exists q, pcbs t' = <[a := q]> (pcbs t) /\ recv q = recv p /\ (state q = state p \/ close_arrow (state p) (state q))) as Hfin.
  { intros st Hst H. apply bind_Ok_inv in H as ([[rc1 q] w1] & H & E1). injection E1 as <- <-. exists q. split; [done|].
    unfold send_fin, tcp_send_ctrl in H. apply bind_Ok_inv in H as ([[rc2 q2] w2] & H2 & H). pose proof (enqueue_recv _ _ _ _ _ _ _ _ H2) as Er.
    apply enqueue_skeep in H2. injection H2 as S2 _ _. destruct (rc2 =? 0); [|injection H as <- <- <-; auto].
    destruct (tcp_output _ _) as [[rc3 q3] w3] eqn:Eo. injection H as <- <- <-. pose proof (tcp_output_frame _ _ _ _ _ Eo) as Hf.
    apply out_ack_frame in Hf. split; [kept Hf; pcb_simpl; congruence|]. apply Hst. apply tcp_output_skeep in Eo. by injection Eo. }
  destruct (state p) eqn:Es; try (injection E as <- <-; right; exists p; rewrite Es; split_and!; [by rewrite insert_id|done|by left]).
  - left. apply bind_Ok_inv in E as (r & E1 & E). injection E as <- <-. apply remove_pcbs in E1. split; [done|by left].
  - left. apply bind_Ok_inv in E as (r & E1 & E). injection E as <- <-. apply remove_pcbs in E1. split; [done|by right].
  - right. apply (Hfin FIN_WAIT_1); [|exact E]. intros q ->. right. constructor.
  - right. apply (Hfin FIN_WAIT_1); [|exact E]. intros q ->. right. constructor.
  - right. apply (Hfin LAST_ACK); [|exact E]. intros q ->. right. constructor.
Qed.

(** *** Segments *)

(** The connection as tcp_input gives it to tcp_process. *)
Definition prepared (p : pcb) : pcb :=
  let p := if negb (is_state (state p) LISTEN) && negb (is_state (state p) TIME_WAIT) then set_acked 0 (set_recv_data None p) else p in
  set_flags (seton (flags p) TF_IN_RECV) p.

Lemma prepared_keep p : skeep (prepared p) = skeep p /\ unacked (prepared p) = unacked p /\ lastack (prepared p) = lastack p /\
  snd_nxt (prepared p) = snd_nxt p /\ forall h, rst_acceptable h (prepared p) = rst_acceptable h p.
Proof. unfold prepared. cbv zeta. split_and!; case_match; try done; skeep. Qed.

(** What tcp_process makes of connection [p], which goes to state [st] and may be marked
    as closed. *)
Definition outcome_of (w : net) (s : tcp_seg) (p q : pcb) : Prop :=
  has (flags q) TF_RESET = has (flags p) TF_RESET /\
  ((state q = state p \/ seg_arrow w s p (state q)) /\ has (flags q) TF_CLOSED = has (flags p) TF_CLOSED \/
   has (flags q) TF_CLOSED = true /\ state q = CLOSED /\ state p = LAST_ACK /\ exists r, receives w s p r /\ acks s r).

Lemma acks_bool s q : (has (TCPH_FLAGS (seg_hdr s)) TCP_ACK && (th_ackno (seg_hdr s) =? snd_nxt q) = true) <-> acks s q.
Proof. unfold acks. by rewrite andb_true_iff, Z.eqb_eq. Qed.

Lemma next_outcome t a w s p q p' : receiving (state p) = true -> receives w s p q -> skeep q = skeep p ->
  pcbs (apply_next t a q (after_receive (seg_hdr s) q)) !! a = Some p' -> outcome_of w s p p'.
Proof.
  intros Hst Hr K. injection K as S F G. pose proof (acks_bool s q) as Ha. unfold after_receive. cbv zeta. rewrite S.
  destruct (has (TCPH_FLAGS (seg_hdr s)) TCP_FIN) eqn:Ef; destruct (has (TCPH_FLAGS (seg_hdr s)) TCP_ACK && _) eqn:Ea;
    [pose proof (proj1 Ha eq_refl) as Hac|assert (~ acks s q) as Hac by (intros H; by apply Ha in H)|
     pose proof (proj1 Ha eq_refl) as Hac|assert (~ acks s q) as Hac by (intros H; by apply Ha in H)]; clear Ha;
  destruct (state p) eqn:Es; try discriminate Hst; cbn [apply_next]; unfold TCP_REG, TCP_RMV; rewrite ?set_list_pcbs;
  cbn [pcbs putpcb set_pcbs]; rewrite lookup_insert_eq; intros E; injection E as <-.
  all: unfold outcome_of, ack_now, tcp_pcb_purge; repeat case_match; pcb_simpl; rewrite ?has_seton, ?Es, ?S, ?F, ?G by done; (split; [done|]);
    first [left; split; [by left|done]|
           left; split; [right; first [by eapply sa_fin|by eapply sa_fin_acked|by eapply sa_fin_fin|by eapply sa_fin_acked_fin|by eapply sa_fin_wait_fin|
             by eapply sa_closing_acked]|done]|
           right; split; [apply has_seton_self|]; by eauto].
Qed.

(** All but the listener and the new connection stay as they are. *)
Lemma listen_syn_at k t s a src dst mtu na rc t' p : a <> na -> pcbs t !! a = Some p -> listen_syn k t s a src dst mtu na = Ok (rc, t') ->
  (exists p', pcbs t' !! a = Some p' /\ skeep p' = skeep p) /\ forall c, c <> a -> c <> na -> pcbs t' !! c = pcbs t !! c.
Proof.
  intros Hne Ha E. unfold listen_syn, tcp_new in E. destruct (na =? NULL) eqn:E0; [cbn in E; injection E as <- <-; split; [by exists p|done]|].
  unfold tcp_next_iss in E. cbv zeta in E. rewrite E0 in E.
  apply bind_Ok_inv in E as (p1 & E1 & E). apply getpcb_Ok in E1. cbn in E1. rewrite lookup_insert_ne, Ha in E1 by done. injection E1 as <-.
  apply bind_Ok_inv in E as (q1 & _ & E). apply bind_Ok_inv in E as (q2 & _ & E). apply bind_Ok_inv in E as ([[rc3 q3] w3] & _ & E).
  destruct (tcp_output w3 q3) as [[rc4 q4] w4]. injection E as <- <-. cbn [pcbs on_pcb fst snd putpcb set_pcbs TCP_REG set_list set_active set_tnet set_iss].
  split; [rewrite lookup_insert_ne, lookup_insert_eq by done; by eexists|]. intros c Hc Hcn. by rewrite !lookup_insert_ne by done.
Qed.

Lemma process_others k t s a src dst mtu na err s' t' p : a <> na -> pcbs t !! a = Some p ->
  tcp_process k t s a src dst mtu na = Ok (err, s', t') -> forall c, c <> a -> c <> na -> pcbs t' !! c = pcbs t !! c.
Proof.
  intros Hne Ha E. unfold tcp_process, getpcb in E. rewrite Ha in E. cbn [from_opt mbind outcome_bind] in E. cbv zeta in E. destruct (has _ TCP_RST).
  { intros c Hc _. destruct (rst_acceptable _ _); injection E as <- <- <-; [by apply lookup_insert_ne|done]. }
  set (p1 := if is_state (state p) LISTEN then p else _) in E. clearbody p1.
  enough (forall c, c <> a -> c <> na -> pcbs t' !! c = pcbs (putpcb t a p1) !! c) as H
    by (intros c Hc Hcn; rewrite H by done; by apply lookup_insert_ne).
  assert (pcbs (putpcb t a p1) !! a = Some p1) as Ha1 by apply lookup_insert_eq.
  revert E Ha1. generalize (putpcb t a p1). intros u E Ha1. clear Ha.
  destruct (state p1); try (apply bind_Ok_inv in E as ([[s2 p2] w2] & _ & E); injection E as <- <- <-; intros c Hc _; by apply (apply_next_others (set_tnet u w2) a)).
  - by injection E as <- <- <-.
  - destruct (has _ TCP_ACK); [by injection E as <- <- <-|]. destruct (has _ TCP_SYN); [|by injection E as <- <- <-].
    apply bind_Ok_inv in E as ([rc t2] & E2 & E). injection E as <- <- <-. by eapply listen_syn_at.
  - apply bind_Ok_inv in E as ([p2 w2] & _ & E). injection E as <- <- <-. intros c Hc _. by apply put_others.
  - apply bind_Ok_inv in E as ([[r p2] w2] & _ & E). intros c Hc _. destruct r as [s2|]; [injection E as <- <- <-; by apply put_others|].
    apply bind_Ok_inv in E as (t2 & E3 & E). injection E as <- <- <-. apply abort_pcbs in E3. rewrite E3, lookup_delete_ne by done. by apply put_others.
  - injection E as <- <- <-. intros c Hc _. by apply lookup_insert_ne.
Qed.

Lemma syn_sent_outcome k w s mtu p p' w' : syn_sent k w s mtu p = Ok (p', w') -> skeep p' = skeep p \/ state p' = ESTABLISHED /\
  has (flags p') TF_CLOSED = has (flags p) TF_CLOSED /\ has (flags p') TF_RESET = has (flags p) TF_RESET /\
  exists r u, unacked p = r :: u /\ th_ackno (seg_hdr s) = u32 (oseq r + 1) /\ has (TCPH_FLAGS (seg_hdr s)) (Z.lor TCP_ACK TCP_SYN) = true.
Proof.
  unfold syn_sent. destruct (unacked p) as [|rseg rest]; [intros H; injection H as <- <-; by left|].
  destruct (has _ (Z.lor _ _)) eqn:Ef; cbn [andb]; [|intros H; injection H as <- <-; by left].
  destruct (Z.eqb_spec (th_ackno (seg_hdr s)) (u32 (oseq rseg + 1))) as [Ea|]; [|intros H; injection H as <- <-; by left].
  cbv zeta. intros H. apply bind_Ok_inv in H as (p1 & H1 & H). apply parseopt_skeep in H1. apply bind_Ok_inv in H as ([p2 w2] & H2 & H). injection H as <- <-.
  assert (skeep p2 = skeep p1) as K2.
  { destruct (connected p1); [|by injection H2 as <- <-]. apply bind_Ok_inv in H2 as ([[rc q] w3] & H3 & H2). injection H2 as <- <-. by eapply callback_skeep. }
  rewrite <- K2 in H1. injection H1 as S F G. pcb_simpl. rewrite !has_seton by done. right. split_and!; [exact S|exact F|exact G|]. eauto.
Qed.

Lemma syn_rcvd_outcome w s p r p' w' : syn_rcvd w s p = Ok (r, p', w') -> skeep p' = skeep p /\ r <> None \/ state p' = ESTABLISHED /\
  has (flags p') TF_CLOSED = has (flags p) TF_CLOSED /\ has (flags p') TF_RESET = has (flags p) TF_RESET /\
  has (TCPH_FLAGS (seg_hdr s)) TCP_ACK = true /\ TCP_SEQ_LT (lastack p) (th_ackno (seg_hdr s)) = true /\ TCP_SEQ_LEQ (th_ackno (seg_hdr s)) (snd_nxt p) = true.
Proof.
  unfold syn_rcvd. destruct (_ && _) eqn:Ec; [|intros H; injection H as <- <- <-; by left]. apply andb_true_iff in Ec as [Ec E4].
  apply andb_true_iff in Ec as [Ec E3]. apply andb_true_iff in Ec as [E1 _]. cbv zeta. pcb_simpl. intros H. right.
  assert (skeep p' = skeep (set_state ESTABLISHED p)) as K; [|by injection K as S F G; split_and!].
  destruct (accept p); [|by injection H as <- <- <-]. apply bind_Ok_inv in H as ([[rc p1] w1] & H1 & H). apply callback_skeep in H1. destruct (rc <? 0).
  - injection H as <- <- <-. exact H1.
  - apply bind_Ok_inv in H as ([[s2 p2] w2] & H2 & H). apply tcp_receive_skeep in H2. injection H as <- <- <-. rewrite <- H1, <- H2. done.
Qed.

(** The connection after tcp_process: a segment with RST only marks it, others lead it
    along an arrow; it is freed when it is not accepted. *)
Definition processed_to (w : net) (s : tcp_seg) (p : pcb) (err : Z) (o : option pcb) : Prop :=
  match o with
  | Some q =>
      (has (TCPH_FLAGS (seg_hdr s)) TCP_RST = true /\ state q = state p /\ has (flags q) TF_CLOSED = has (flags p) TF_CLOSED /\
         (has (flags q) TF_RESET = has (flags p) TF_RESET \/ rst_acceptable (seg_hdr s) p = true)) \/
      (has (TCPH_FLAGS (seg_hdr s)) TCP_RST = false /\ outcome_of w s p q /\ (state q = CLOSED -> err = 0))
  | None => has (TCPH_FLAGS (seg_hdr s)) TCP_RST = false /\ state p = SYN_RCVD /\ seg_arrow w s p ESTABLISHED /\ err = EFAULT
  end.

Lemma processed_same w s p err q : has (TCPH_FLAGS (seg_hdr s)) TCP_RST = false -> skeep q = skeep p -> (state p = CLOSED -> err = 0) ->
  processed_to w s p err (Some q).
Proof.
  intros Hr K He. apply skeep_inv in K as (S & F & G). right. split; [done|]. split; [|by rewrite S]. split; [done|]. left. split; [by left|done].
Qed.

Lemma process_receiving k t s a src dst mtu na err s' t' p : receiving (state p) = true -> has (TCPH_FLAGS (seg_hdr s)) TCP_RST = false ->
  pcbs t !! a = Some (prepared p) -> tcp_process k t s a src dst mtu na = Ok (err, s', t') -> processed_to (tnet t) s p err (pcbs t' !! a).
Proof.
  intros Hrec ER Ha E. destruct (prepared_keep p) as (K & _). destruct (skeep_inv _ _ K) as (S & _ & _).
  rewrite (process_receive k t s a src dst mtu na (prepared p) (tnet t)) in E; [|done|by rewrite S|done].
  apply bind_Ok_inv in E as ([[s2 q] w2] & E2 & E). injection E as <- <- <-.
  assert (receives (tnet t) s p q) as Hr.
  { exists s2, w2. rewrite <- E2. f_equal. unfold prepared. cbv zeta. by destruct (state p). }
  apply tcp_receive_skeep in E2. destruct (pcbs (apply_next _ _ _ _) !! a) as [q'|] eqn:Eq.
  - right. split; [done|]. split; [|done]. eapply next_outcome; [done|exact Hr|rewrite <- K; exact E2|exact Eq].
  - exfalso. destruct (after_receive _ q) as [|st| |]; cbn [apply_next] in Eq; [|destruct st| |]; unfold TCP_REG, TCP_RMV in Eq; rewrite ?set_list_pcbs in Eq;
      cbn [pcbs putpcb set_pcbs] in Eq; by rewrite lookup_insert_eq in Eq.
Qed.

Lemma process_outcome k t s a src dst mtu na err s' t' p : a <> na -> pcbs t !! a = Some (prepared p) ->
  tcp_process k t s a src dst mtu na = Ok (err, s', t') -> processed_to (tnet t) s p err (pcbs t' !! a).
Proof.
  intros Hne Ha E. destruct (prepared_keep p) as (K & Eu & El & En & Er). destruct (skeep_inv _ _ K) as (S & F & G).
  destruct (has (TCPH_FLAGS (seg_hdr s)) TCP_RST) eqn:ER.
  { unfold tcp_process, getpcb in E. rewrite Ha in E. cbn [from_opt mbind outcome_bind] in E. rewrite ER, Er in E.
    destruct (rst_acceptable _ p) eqn:Eacc; injection E as <- <- <-; cbn [pcbs putpcb set_pcbs]; rewrite ?lookup_insert_eq, ?Ha; left; pcb_simpl.
    - rewrite has_setoff, has_seton by done. auto.
    - auto. }
  destruct (receiving (state p)) eqn:Hrec; [by eapply process_receiving|].
  unfold tcp_process, getpcb in E. rewrite Ha in E. cbn [from_opt mbind outcome_bind] in E. rewrite ER in E. cbv zeta in E.
  set (p1 := if is_state _ LISTEN then _ else _) in E.
  assert (skeep p1 = skeep (prepared p) /\ unacked p1 = unacked p /\ lastack p1 = lastack p /\ snd_nxt p1 = snd_nxt p) as (K1 & U1 & L1 & N1)
    by (subst p1; destruct (is_state _ LISTEN); (split; [reflexivity|]); split_and!; [exact Eu|exact El|exact En|exact Eu|exact El|exact En]).
  clearbody p1. rewrite K in K1. destruct (skeep_inv _ _ K1) as (S1 & F1 & G1). rewrite S1 in E.
  assert (pcbs (putpcb t a p1) !! a = Some p1) as Ha1 by apply lookup_insert_eq.
  change (tnet t) with (tnet (putpcb t a p1)). revert E Ha1. generalize (putpcb t a p1). intros u E Ha1.
  destruct (state p) eqn:Es; try discriminate Hrec.
  - injection E as <- <- <-. rewrite Ha1. by apply processed_same.
  - destruct (has _ TCP_ACK); [injection E as <- <- <-; cbn [pcbs set_tnet]; rewrite Ha1; by apply processed_same|].
    destruct (has _ TCP_SYN); [|injection E as <- <- <-; rewrite Ha1; by apply processed_same].
    apply bind_Ok_inv in E as ([rc t2] & E2 & E). injection E as <- <- <-. destruct (listen_syn_at _ _ _ _ _ _ _ _ _ _ _ Hne Ha1 E2) as ((p' & -> & Kp) & _).
    apply processed_same; [done|congruence|by rewrite Es].
  - apply bind_Ok_inv in E as ([p2 w2] & E2 & E). injection E as <- <- <-. cbn [pcbs on_pcb fst putpcb set_pcbs]. rewrite lookup_insert_eq.
    apply syn_sent_outcome in E2 as [Kq|(S2 & F2 & G2 & r & l & Eun & Eack & Efl)]; [apply processed_same; [done|congruence|done]|]. right. split; [done|].
    split; [|done]. split; [congruence|]. left. split; [right|congruence]. rewrite S2. eapply sa_syn_acked; [done|by rewrite <- U1|done|done].
  - apply bind_Ok_inv in E as ([[r p2] w2] & E2 & E).
    apply syn_rcvd_outcome in E2 as [[Kq Hr]|(S2 & F2 & G2 & A1 & A2 & A3)]; rewrite ?L1, ?N1 in *; destruct r as [s2|]; try done.
    + injection E as <- <- <-. cbn [pcbs on_pcb fst putpcb set_pcbs]. rewrite lookup_insert_eq. apply processed_same; [done|congruence|done].
    + injection E as <- <- <-. cbn [pcbs on_pcb fst putpcb set_pcbs]. rewrite lookup_insert_eq. right. split; [done|]. split; [|done].
      split; [congruence|]. left. split; [right|congruence]. rewrite S2. by apply sa_syn_ack_acked.
    + apply bind_Ok_inv in E as (t2 & E3 & E). injection E as <- <- <-. apply abort_pcbs in E3. rewrite E3, lookup_delete_eq. split_and!; try done.
      by apply sa_syn_ack_acked.
  - injection E as <- <- <-. cbn [pcbs putpcb set_pcbs]. rewrite lookup_insert_eq. apply processed_same; [done| |by rewrite Es].
    rewrite <- K1. unfold time_wait, ack_now. repeat case_match; skeep.
Qed.

(** What tcp_input does after it. *)
Lemma notify_outcome t a q t' : pcbs t !! a = Some q -> notify t a q = Ok t' ->
  exists p', pcbs t' !! a = Some p' /\ (state p' = state q \/ recv p' = false /\ close_arrow (state q) (state p')).
Proof.
  intros Ha E. unfold notify in E. cbv zeta in E. apply bind_Ok_inv in E as ([[err p1] w1] & E1 & E).
  assert (skeep p1 = skeep q) as K1 by (destruct (_ && _); [by eapply callback_skeep|by injection E1 as <- <- <-]).
  assert (forall u p' w, skeep p' = skeep q -> exists r, pcbs (on_pcb u a (p', w)) !! a = Some r /\ (state r = state q \/ recv r = false /\ close_arrow (state q) (state r))) as Hput.
  { intros u p' w Kp. exists p'. split; [apply lookup_insert_eq|]. left. by apply skeep_inv in Kp as (? & _). }
  destruct (recv p1) eqn:Er.
  - apply bind_Ok_inv in E as ([[err2 p2] w2] & E2 & E). apply bind_Ok_inv in E as ([[err3 p3] w3] & E3 & E).
    assert (skeep p2 = skeep p1) as K2 by (destruct (recv_data p1); [by eapply callback_skeep|by injection E2 as <- <- <-]).
    assert (skeep p3 = skeep p2) as K3 by (destruct (has _ TF_GOT_FIN); [by eapply callback_skeep|by injection E3 as <- <- <-]).
    destruct (err3 =? 0); [|injection E as <-; apply Hput; congruence].
    destruct (tcp_output w3 p3) as [[rc4 p4] w4] eqn:E4. apply tcp_output_skeep in E4. injection E as <-. apply Hput. congruence.
  - apply bind_Ok_inv in E as ([rc t1] & E2 & E). apply bind_Ok_inv in E as (p3 & E3 & E). apply getpcb_Ok in E3.
    destruct (tcp_output (tnet t1) p3) as [[rc4 p4] w4] eqn:E4. injection E as <-.
    destruct (has _ TF_GOT_FIN); [|injection E2 as <- <-; cbn in E3; rewrite lookup_insert_eq in E3; injection E3 as <-; apply tcp_output_skeep in E4; apply Hput; congruence].
    eapply close_pcbs in E2 as [[Ed _]|(r & Eq & Err & Hst)]; [| |apply lookup_insert_eq]; [rewrite Ed, lookup_delete_eq in E3; done|].
    rewrite Eq, lookup_insert_eq in E3. injection E3 as <-. exists p4. split; [apply lookup_insert_eq|]. pose proof (tcp_output_frame _ _ _ _ _ E4) as Hf.
    apply out_ack_frame in Hf. kept Hf. apply skeep_inv in K1 as (S1 & _). cbn [fst] in *.
    assert (state p4 = state r) as -> by congruence. rewrite S1 in Hst. destruct Hst as [Hst|Hst]; [by left|right]. split; [congruence|done].
Qed.

Lemma finish_outcome t a err t' q : pcbs t !! a = Some q -> after_process t a err = Ok t' ->
  match pcbs t' !! a with
  | Some p' => (has (flags q) TF_CLOSED = true -> err = EFAULT \/ state q = LISTEN) /\
      (state p' = state q \/ recv p' = false /\ close_arrow (state q) (state p'))
  | None => state q <> LISTEN /\ (has (flags q) TF_RESET = true \/ has (flags q) TF_CLOSED = true)
  end.
Proof.
  intros Ha E. unfold after_process in E. destruct (Z.eqb_spec err EFAULT); [injection E as <-; rewrite Ha; auto|].
  unfold getpcb in E. rewrite Ha in E. cbn [from_opt mbind outcome_bind] in E.
  destruct (is_state (state q) LISTEN) eqn:El; [injection E as <-; rewrite Ha; split; [|by left]; right; by destruct (state q)|]. cbv zeta in E.
  assert (state q <> LISTEN) as Hl by (by destruct (state q)).
  destruct (has (flags q) TF_RESET); [apply bind_Ok_inv in E as (t1 & E1 & E); injection E as <-; apply remove_pcbs in E1; rewrite E1, lookup_delete_eq; by auto|].
  destruct (has (flags q) TF_CLOSED); [apply bind_Ok_inv in E as (t1 & E1 & E); injection E as <-; apply remove_pcbs in E1; rewrite E1, lookup_delete_eq; by auto|].
  destruct (is_state (state q) TIME_WAIT).
  - destruct (tcp_output (tnet t) q) as [[rc p1] w1] eqn:E1. apply tcp_output_skeep, skeep_inv in E1 as (S1 & _). injection E as <-.
    cbn [pcbs on_pcb fst putpcb set_pcbs]. rewrite lookup_insert_eq. split; [done|by left].
  - by destruct (notify_outcome _ _ _ _ Ha E) as (p' & -> & H).
Qed.

Lemma leave_at t a : pcbs (leave_recv t a) !! a = (fun p => set_flags (setoff (flags p) TF_IN_RECV) p) <$> pcbs t !! a.
Proof. unfold leave_recv. destruct (pcbs t !! a) as [p|] eqn:E; [apply lookup_insert_eq|done]. Qed.

(** The connection the demultiplexer has found. *)
Lemma demux_found t h src dst a t' : lists_ok t -> demux t h src dst = (Some a, t') -> pcbs t' = pcbs t /\ tnet t' = tnet t /\
  exists p, pcbs t !! a = Some p /\ (state p <> LISTEN /\ state p <> CLOSED /\ matches h src dst p = true \/ state p = LISTEN /\ hears h dst p = true).
Proof.
  intros H E. unfold demux in E.
  assert (forall l f, find_pcb t f (get_list t l) = Some a -> exists p, pcbs t !! a = Some p /\ home (state p) = Some l /\ f p = true) as Hf.
  { intros l f (Hin & p & Hp & Hm)%find_pcb_Some. apply (lo_home _ H) in Hin as (q & Hq & Hh). rewrite Hp in Hq. injection Hq as <-. by exists p. }
  destruct (find_pcb t _ (tcp_active_pcbs t)) as [c|] eqn:E1; [|destruct (find_pcb t _ (tcp_tw_pcbs t)) as [c|] eqn:E2;
    [|destruct (find_pcb t _ (tcp_listen_pcbs t)) as [c|] eqn:E3; [|discriminate E]]]; injection E as -> <-; (split; [done|]); (split; [done|]).
  - destruct (Hf Active _ E1) as (p & Hp & Hh & Hm). exists p. split; [done|]. left. split_and!; [..|done]; by intros S; rewrite S in Hh.
  - destruct (Hf Tw _ E2) as (p & Hp & Hh & Hm). exists p. split; [done|]. left. split_and!; [..|done]; by intros S; rewrite S in Hh.
  - destruct (Hf Listening _ E3) as (p & Hp & Hh & Hm). exists p. split; [done|]. right. split; [by destruct (state p)|done].
Qed.

Lemma matches_peer s src dst p : matches (seg_hdr s) src dst p = true <-> sent_by_peer s src dst p.
Proof. unfold matches, sent_by_peer. rewrite !andb_true_iff, !Z.eqb_eq. tauto. Qed.

(** A connection before and after tcp_input. *)
Definition input_explains (w : net) (h : tcp_hdr) (s : tcp_seg) (src dst : Z) (p : pcb) (o : option pcb) : Prop :=
  match o with
  | Some p' => state p' = state p \/ sent_by_peer s src dst p /\
      exists st, (st = state p \/ has (TCPH_FLAGS h) TCP_RST = false /\ seg_arrow w s p st) /\ (state p' = st \/ recv p' = false /\ close_arrow st (state p'))
  | None => sent_by_peer s src dst p /\
      (has (flags p) TF_RESET = true \/ has (TCPH_FLAGS h) TCP_RST = true /\ rst_acceptable (seg_hdr s) p = true \/
       has (TCPH_FLAGS h) TCP_RST = false /\
         (state p = SYN_RCVD /\ seg_arrow w s p ESTABLISHED \/ state p = LAST_ACK /\ exists q, receives w s p q /\ acks s q))
  end.

Lemma finish_explained w h s src dst t a err t3 p : seg_hdr s = host_order h -> sent_by_peer s src dst p \/ state p = LISTEN ->
  has (flags p) TF_CLOSED = false -> processed_to w s p err (pcbs t !! a) -> after_process t a err = Ok t3 ->
  input_explains w h s src dst p (pcbs t3 !! a).
Proof.
  intros Eh Hp Hc Hpr E. unfold processed_to in Hpr. rewrite Eh in Hpr. change (TCPH_FLAGS (host_order h)) with (TCPH_FLAGS h) in Hpr.
  destruct (pcbs t !! a) as [q|] eqn:Ha.
  2: { destruct Hpr as (Hr & Hs & Harr & ->). unfold after_process in E. change (EFAULT =? EFAULT) with true in E. cbv iota in E. injection E as <-. rewrite Ha.
       destruct Hp as [Hp|Hp]; [|congruence]. split; [done|]. right. right. split; [done|]. by left. }
  pose proof (finish_outcome _ _ _ _ _ Ha E) as Hf. destruct (pcbs t3 !! a) as [p'|]; cbn [input_explains].
  - destruct Hf as (Hcl & Hst). destruct Hp as [Hp|Hp].
    + right. split; [done|]. exists (state q). split; [|exact Hst]. destruct Hpr as [(_ & S & _)|(Hr & (_ & [([S|Harr] & _)|(Hq & S & _)]) & He)]; auto.
      destruct (Hcl Hq) as [->|Hl]; [by specialize (He S)|congruence].
    + left. assert (state q = LISTEN) as Sq.
      { destruct Hpr as [(_ & S & _)|(_ & (_ & [([S|Harr] & _)|(_ & _ & S & _)]) & _)]; try congruence. destruct Harr; congruence. }
      destruct Hst as [Hst|[_ Hst]]; [congruence|]. rewrite Sq in Hst. inversion Hst.
  - destruct Hf as (Hl & Hf). split.
    + destruct Hp as [Hp|Hp]; [done|]. exfalso. apply Hl.
      destruct Hpr as [(_ & S & _)|(_ & (_ & [([S|Harr] & _)|(_ & _ & S & _)]) & _)]; try congruence. destruct Harr; congruence.
    + rewrite Eh. destruct Hpr as [(Hr & _ & Fc & [Fr|Hacc])|(Hr & (Fr & Ho) & _)]; [|auto|].
      * left. destruct Hf; congruence.
      * destruct Hf as [Hf|Hf]; [left; congruence|]. right. right. split; [done|]. destruct Ho as [(_ & Fc)|(_ & _ & Hla & Hq)]; [congruence|auto].
Qed.

Lemma packet_explained k t x l src dst inp na rc t' a p : lists_ok t -> pcbs t !! na = None -> tcp_input k t x l src dst inp na = Ok (rc, t') ->
  pcbs t !! a = Some p -> pcbs t' !! a = Some p \/
  exists h, read_hdr x = Some h /\ input_explains (tnet t) h (input_seg h x l) src dst p (pcbs t' !! a).
Proof.
  intros H Hn E Ha. assert (a <> na) as Hna by congruence. unfold tcp_input, segment_in in E. cbv zeta in E.
  destruct (_ <? TCP_HLEN); [injection E as <- <-; by left|]. destruct (_ || _); [injection E as <- <-; by left|]. destruct (_ && _); [injection E as <- <-; by left|].
  apply bind_Ok_inv in E as (h & Eh & E). destruct (read_hdr x) as [h'|]; [injection Eh as ->|discriminate Eh].
  destruct (Z.of_nat (length x) <? _); [done|]. destruct (demux t _ src dst) as [[b|] t1] eqn:Ed.
  2: { left. eapply (demux_good (rtc rfc793) None) in Ed as (_ & P1 & _); [|done]. destruct (has _ TCP_RST); injection E as <- <-; cbn; by rewrite P1. }
  apply demux_found in Ed as (P1 & N1 & pb & Hb & Hm); [|done]. unfold getpcb in E. rewrite P1, Hb in E. cbn [from_opt mbind outcome_bind] in E.
  fold (prepared pb) in E. apply bind_Ok_inv in E as ([[err s2] t2] & E2 & E). apply bind_Ok_inv in E as (t3 & E3 & E). injection E as <- <-.
  assert (b <> na) as Hbn by congruence. assert (pcbs (putpcb t1 b (prepared pb)) !! b = Some (prepared pb)) as Hb1 by apply lookup_insert_eq.
  destruct (decide (a = b)) as [->|Hab].
  - rewrite Ha in Hb. injection Hb as <-. right. exists h. split; [done|].
    pose proof (process_outcome _ _ _ _ _ _ _ _ _ _ _ _ Hbn Hb1 E2) as Hpr. cbn [tnet putpcb set_pcbs] in Hpr. rewrite N1 in Hpr.
    pose proof (fun Hp => finish_explained _ h (input_seg h x l) src dst _ _ _ _ p eq_refl Hp (lo_open _ H _ _ Ha) Hpr E3) as Hfin.
    rewrite leave_at. assert (forall o, input_explains (tnet t) h (input_seg h x l) src dst p o ->
      input_explains (tnet t) h (input_seg h x l) src dst p ((fun p => set_flags (setoff (flags p) TF_IN_RECV) p) <$> o)) as Hl by (intros [?|] Hx; exact Hx).
    apply Hl, Hfin. destruct Hm as [(_ & _ & Hm)|[Hm _]]; [left; by apply matches_peer|by right].
  - left. rewrite leave_others, (finish_others _ _ _ _ E3), (process_others _ _ _ _ _ _ _ _ _ _ _ _ Hbn Hb1 E2) by done. cbn. rewrite lookup_insert_ne, P1 by done. exact Ha.
Qed.

Lemma happens_new own e t t' a p' : lists_ok t -> happens own e t t' -> pcbs t !! a = None -> pcbs t' !! a = Some p' ->
  e = CallNew a /\ state p' = CLOSED \/ state p' = SYN_RCVD /\ exists k x l src dst inp h, e = Packet k x l src dst inp a /\ read_hdr x = Some h /\ only_syn h.
Proof.
  intros H He Ha Hp'.
  assert (forall c q, pcbs t' = <[c := q]> (pcbs t) -> is_Some (pcbs t !! c) -> False) as Hins.
  { intros c q Ep [r Hr]. rewrite Ep in Hp'. destruct (decide (a = c)) as [->|Hc]; [congruence|]. rewrite lookup_insert_ne in Hp' by done. congruence. }
  assert (pcbs t' = pcbs t -> False) as Hsame by (intros Ep; congruence).
  assert (steady t t' -> False) as Hst by (intros Hs; specialize (Hs a); by rewrite Ha, Hp' in Hs).
  assert (forall c, pcbs t' = delete c (pcbs t) -> False) as Hdel by (intros c Ep; rewrite Ep in Hp'; apply lookup_delete_Some in Hp'; naive_solver).
  assert (good eq None t t' -> False) as Hgood by (intros [_ Hm]; destruct (Hm a p' Hp' ltac:(done)) as (q & Hq & _); congruence).
  destruct e as [b|b ip port|b|b ip port cb|b|b|b acts|k x l src dst inp na|f| |f timer|w]; cbn in He.
  - left. destruct He as [Hn [r E]]. unfold tcp_new in E. destruct (b =? NULL); [injection E as <- <-; congruence|]. unfold tcp_next_iss in E. cbv zeta in E.
    injection E as <- <-. cbn in Hp'. destruct (decide (a = b)) as [->|Hab]; [|rewrite lookup_insert_ne in Hp' by done; congruence].
    rewrite lookup_insert_eq in Hp'. injection Hp' as <-. by split.
  - destruct He as [rc E]. apply bind_steady in E. by destruct (Hst E).
  - destruct He as [(p & Hp & _) E]. unfold tcp_listen, getpcb in E. rewrite Hp in E. cbn [from_opt mbind outcome_bind] in E.
    destruct (is_state _ _); injection E as <-; [by destruct Hsame|]. by destruct (Hins b (set_state LISTEN p)).
  - destruct He as [(p & Hp & _) [rc E]]. apply (connect_pcbs _ _ _ _ _ _ _ _ Hp) in E as [Ep|(q & _ & Ep)]; [by destruct Hsame|by destruct (Hins b q)].
  - destruct He as [rc E]. unfold tcp_close in E. pose proof E as E'. apply bind_Ok_inv in E' as (p & Hp & _). apply getpcb_Ok in Hp.
    apply (close_pcbs _ _ _ _ _ Hp) in E as [[Ep _]|(q & Ep & _)]; [by destruct (Hdel b)|by destruct (Hins b q)].
  - destruct He as [_ E]. apply abort_pcbs in E. by destruct (Hdel b).
  - destruct He as (p & q & w & Hp & E & ->). by destruct (Hins b q).
  - right. destruct He as [Hn [rc E]]. destruct (decide (a = na)) as [->|Hna].
    { destruct (input_fresh (rtc rfc793) _ _ _ _ _ _ _ _ _ _ H Hn E p' Hp') as (Hs & h & Eh & Hy). split; [done|]. by exists k, x, l, src, dst, inp, h. }
    apply (tcp_input_good (rtc rfc793) (@rtc_once _ rfc793)) in E as [_ Hm]; [|done..]. destruct (Hm a p' Hp' ltac:(congruence)) as (q & Hq & _). congruence.
  - by destruct (Hgood (slowtmr_good eq None f t t' H He)).
  - apply fast_loop_steady in He. by destruct (Hst He).
  - destruct He as [timer' E]. by destruct (Hgood (tmr_good eq None f timer t timer' t' H E)).
  - subst t'. by destruct Hsame.
Qed.

Lemma happens_known own e t t' a p : lists_ok t -> happens own e t t' -> pcbs t !! a = Some p ->
  match pcbs t' !! a with
  | Some p' => state p' = state p \/ explained t e a p p'
  | None => dismissed t e a p
  end.
Proof.
  intros H He Ha.
  assert (steady t t' -> match pcbs t' !! a with Some p' => state p' = state p \/ explained t e a p p' | None => dismissed t e a p end) as Hst.
  { intros Hs. specialize (Hs a). rewrite Ha in Hs. destruct (pcbs t' !! a); [|done]. injection Hs as ->. by left. }
  assert (pcbs t' !! a = Some p -> match pcbs t' !! a with Some p' => state p' = state p \/ explained t e a p p' | None => dismissed t e a p end) as Hsame.
  { intros ->. by left. }
  assert (good eq None t t' -> (pcbs t' !! a = None -> dismissed t e a p) ->
    match pcbs t' !! a with Some p' => state p' = state p \/ explained t e a p p' | None => dismissed t e a p end) as Hgood.
  { intros [_ Hm] Hd. destruct (pcbs t' !! a) as [p'|] eqn:Hp'; [|by apply Hd]. destruct (Hm a p' Hp' ltac:(done)) as (q & Hq & Hs). left. congruence. }
  destruct e as [b|b ip port|b|b ip port cb|b|b|b acts|k x l src dst inp na|f| |f timer|w]; cbn in He; cbn [explained dismissed] in *.
  - destruct He as [Hn [r E]]. apply Hsame. unfold tcp_new in E. destruct (b =? NULL); [by injection E as <- <-|]. unfold tcp_next_iss in E. cbv zeta in E.
    injection E as <- <-. cbn. by rewrite lookup_insert_ne by congruence.
  - destruct He as [rc E]. by eapply Hst, bind_steady.
  - destruct He as [(q & Hq & Hs) E]. unfold tcp_listen, getpcb in E. rewrite Hq in E. cbn [from_opt mbind outcome_bind] in E.
    destruct (is_state _ _) eqn:Es; injection E as <-; [by apply Hsame|]. cbn. destruct (decide (a = b)) as [->|Hab]; [|rewrite lookup_insert_ne, Ha by done; by left].
    rewrite lookup_insert_eq. right. rewrite Ha in Hq. injection Hq as <-. split_and!; [done| |done]. destruct Hs as [Hs|Hs]; [done|by rewrite Hs in Es].
  - destruct He as [(q & Hq & Hs) [rc E]]. apply (connect_pcbs _ _ _ _ _ _ _ _ Hq) in E as [Ep|(r & Sr & Ep)]; rewrite Ep; [rewrite Ha; by left|].
    destruct (decide (a = b)) as [->|Hab]; [|rewrite lookup_insert_ne, Ha by done; by left]. rewrite lookup_insert_eq. right. rewrite Ha in Hq. by injection Hq as <-.
  - destruct He as [rc E]. pose proof E as E'. unfold tcp_close in E'. apply bind_Ok_inv in E' as (q & Hq & _). apply getpcb_Ok in Hq.
    apply (close_pcbs _ _ _ _ _ Hq) in E as [[Ep Hs]|(r & Ep & _ & Hs)]; rewrite Ep; (destruct (decide (a = b)) as [->|Hab];
      [|rewrite ?lookup_delete_ne, ?lookup_insert_ne, Ha by done; by left]); rewrite Ha in Hq; injection Hq as <-.
    + by rewrite lookup_delete_eq.
    + rewrite lookup_insert_eq. destruct Hs as [Hs|Hs]; [by left|by right].
  - destruct He as [_ E]. apply abort_pcbs in E. rewrite E. destruct (decide (a = b)) as [->|Hab]; [by rewrite lookup_delete_eq|].
    rewrite lookup_delete_ne, Ha by done. by left.
  - destruct He as (q & r & w & Hq & E & ->). apply run_acts_skeep in E. by eapply Hst, steady_put.
  - destruct He as [Hn [rc E]]. destruct (packet_explained _ _ _ _ _ _ _ _ _ _ _ _ H Hn E Ha) as [->|(h & Eh & Hx)]; [by left|].
    destruct (pcbs t' !! a) as [p'|]; [destruct Hx as [Hx|Hx]; [by left|right]|]; exists h; (split; [exact Eh|exact Hx]).
  - apply Hgood; [|done]. exact (slowtmr_good eq None f t t' H He).
  - by eapply Hst, fast_loop_steady.
  - destruct He as [timer' E]. apply Hgood; [|done]. exact (tmr_good eq None f timer t timer' t' H E).
  - subst t'. by apply Hsame.
Qed.


(** A connection is made, bound and listens; a SYN arrives for it. *)
Definition syn_bytes : list Z := [7; 208; 0; 80; 0; 0; 3; 232; 0; 0; 0; 0; 80; 2; 16; 0; 0; 0; 0; 0].
Definition syn_packet : list Z :=
  let c := rfc1071 (pseudo_bytes 2 1 IP_PROTO_TCP 20 ++ syn_bytes) in
  take 16 syn_bytes ++ le16 c ++ drop 18 syn_bytes.
Definition wit_start : tcp := tcp_init wit_net 7.

Lemma wit_listening : exists t t', reach (wstep (fun _ => true)) wit_start t /\ wstep (fun _ => true) t t' /\
  tcp_listen_pcbs t' = [64] /\ tcp_active_pcbs t' = [128] /\ pcbs t !! 128 = None /\ option_map state (pcbs t' !! 128) = Some SYN_RCVD.
Proof.
  eexists _, _. split; [|split].
  { eapply reach_step; [eapply reach_step; [eapply reach_step; [apply reach_refl|]|]|].
    - eapply (w_new _ _ 64); [reflexivity|vm_compute; reflexivity].
    - eapply (w_bind _ _ 64 1 80 0). vm_compute. reflexivity.
    - eapply (w_listen _ _ 64); [vm_compute; reflexivity|by left|vm_compute; reflexivity]. }
  { eapply (w_input _ 1 _ syn_packet [] 2 1 (MkRt 1 255 1500 0) 128); [vm_compute; reflexivity|vm_compute; reflexivity]. }
  repeat split.
Qed.

Lemma tcp_lists_in_order_witness : exists t, reach (wstep (fun _ => true)) wit_start t /\ tcp_listen_pcbs t = [64] /\ lists_ok t.
Proof.
  destruct wit_listening as (t & t' & Hr & Hs & Hl & _). exists t'. assert (reach (wstep (fun _ => true)) wit_start t') as Hr' by (eapply reach_step; [exact Hr|exact Hs]).
  split; [exact Hr'|]. split; [exact Hl|]. exact (tcp_lists_in_order (fun _ => true) wit_net 7 t' Hr').
Defined.


(** ** Demultiplexing *)

Lemma find_pcb_None t f l : find_pcb t f l = None -> forall a p, a ∈ l -> pcbs t !! a = Some p -> f p = false.
Proof.
  unfold find_pcb. intros H a p Hin Hp. pose proof (List.find_none _ _ H a ltac:(by apply list_elem_of_In)) as Hf. cbn in Hf. by rewrite Hp in Hf.
Qed.

Lemma list_del_perm a (l : list Z) : a ∈ l -> a :: list_del a l ≡ₚ l.
Proof.
  induction l as [|x l IH]; [set_solver|]. intros Hin. cbn. destruct (decide (a = x)) as [->|]; [done|].
  rewrite Permutation_swap. f_equiv. apply IH. set_solver.
Qed.

(** Connected to the sender of the segment, or listening for it. *)
Definition connected_to (h : tcp_hdr) (src dst : Z) (p : pcb) : Prop :=
  state p <> CLOSED /\ state p <> LISTEN /\ remote_ip p = src /\ remote_port p = th_src h /\ local_ip p = dst /\ local_port p = th_dest h.
Definition listens_for (h : tcp_hdr) (dst : Z) (p : pcb) : Prop :=
  state p = LISTEN /\ local_port p = th_dest h /\ (local_ip p = 0 \/ local_ip p = dst).

Lemma connected_matches h src dst p : connected_to h src dst p <-> state p <> CLOSED /\ state p <> LISTEN /\ matches h src dst p = true.
Proof. unfold connected_to, matches. rewrite !andb_true_iff, !Z.eqb_eq. tauto. Qed.

Lemma listens_hears h dst p : listens_for h dst p <-> state p = LISTEN /\ hears h dst p = true.
Proof. unfold listens_for, hears. rewrite andb_true_iff, orb_true_iff, !Z.eqb_eq. tauto. Qed.

Lemma demux_perm t h src dst o t' : demux t h src dst = (o, t') -> forall l, get_list t' l ≡ₚ get_list t l.
Proof.
  unfold demux. intros E l.
  destruct (find_pcb t _ (tcp_active_pcbs t)) as [a|] eqn:E1; [|destruct (find_pcb t _ (tcp_tw_pcbs t)) as [a|] eqn:E2;
    [|destruct (find_pcb t _ (tcp_listen_pcbs t)) as [a|] eqn:E3]]; injection E as <- <-; try done.
  - apply find_pcb_Some in E1 as (Hin & _). destruct l; try done. by apply list_del_perm.
  - apply find_pcb_Some in E3 as (Hin & _). destruct l; try done. by apply list_del_perm.
Qed.

Lemma demux_missed t h src dst o t' : lists_ok t -> demux t h src dst = (o, t') ->
  (forall a p, o = Some a -> pcbs t !! a = Some p -> state p = LISTEN -> forall c q, pcbs t !! c = Some q -> ~ connected_to h src dst q) /\
  (o = None -> forall c q, pcbs t !! c = Some q -> ~ connected_to h src dst q /\ ~ listens_for h dst q).
Proof.
  intros H E. unfold demux in E.
  assert (forall l f c q, find_pcb t f (get_list t l) = None -> pcbs t !! c = Some q -> home (state q) = Some l -> f q = false) as Hnone.
  { intros l f c q Hf Hq Hh. eapply find_pcb_None; [exact Hf| |exact Hq]. apply (lo_home _ H). eauto. }
  assert (forall l f a p, find_pcb t f (get_list t l) = Some a -> pcbs t !! a = Some p -> home (state p) = Some l) as Hhome.
  { intros l f a p (Hin & _)%find_pcb_Some Hp. apply (lo_home _ H) in Hin as (q & Hq & Hh). congruence. }
  destruct (find_pcb t _ (tcp_active_pcbs t)) as [b|] eqn:E1.
  { injection E as <- <-. split; [|done]. intros a p [= ->] Hp Hs. apply (Hhome Active _ _ p) in E1; [|done]. by rewrite Hs in E1. }
  destruct (find_pcb t _ (tcp_tw_pcbs t)) as [b|] eqn:E2.
  { injection E as <- <-. split; [|done]. intros a p [= ->] Hp Hs. apply (Hhome Tw _ _ p) in E2; [|done]. by rewrite Hs in E2. }
  assert (forall c q, pcbs t !! c = Some q -> ~ connected_to h src dst q) as Hno.
  { intros c q Hq (Hs1 & Hs2 & Hm)%connected_matches. destruct (home (state q)) as [[]|] eqn:Hh.
    - by rewrite (Hnone Active _ c q E1 Hq Hh) in Hm.
    - by rewrite (Hnone Tw _ c q E2 Hq Hh) in Hm.
    - by destruct (state q).
    - by destruct (state q). }
  split; [by intros ? ? _ _ _|]. intros ->. destruct (find_pcb t _ (tcp_listen_pcbs t)) as [b|] eqn:E3; [done|].
  intros c q Hq. split; [by eapply Hno|]. intros [Hs Hm]%listens_hears. by rewrite (Hnone Listening _ c q E3 Hq) in Hm; [|rewrite Hs].
Qed.

(** C31: demultiplexing.  tcp_input gives a segment to a connection, open or in
    TIME-WAIT, whose remote address and port are those the segment comes from and whose
    local ones are those it is sent to, if there is one; if not, to one that listens on
    its port, on its address or on any; and to none only if there is neither.  No
    connection leaves its list. *)
Theorem demux_finds_connection own w now t h src dst o t' : reach (wstep own) (tcp_init w now) t -> demux t h src dst = (o, t') ->
  (forall l, get_list t' l ≡ₚ get_list t l) /\
  match o with
  | Some a => exists p, pcbs t !! a = Some p /\
      (connected_to h src dst p \/ listens_for h dst p /\ forall c q, pcbs t !! c = Some q -> ~ connected_to h src dst q)
  | None => forall c q, pcbs t !! c = Some q -> ~ connected_to h src dst q /\ ~ listens_for h dst q
  end.
Proof.
  intros Hr E. split; [by eapply demux_perm|]. pose proof (reach_lists_ok _ _ _ _ Hr) as H. destruct (demux_missed _ _ _ _ _ _ H E) as [Hl Hn].
  destruct o as [a|]; [|by apply Hn]. apply demux_found in E as (_ & _ & p & Hp & Hm); [|done]. exists p. split; [done|].
  destruct Hm as [(Hs1 & Hs2 & Hm)|[Hs Hm]]; [left; by apply connected_matches|right]. split; [by apply listens_hears|by eapply Hl].
Qed.

Lemma demux_finds_connection_witness : exists t o t', demux t (MkHdr 2001 80 0 0 0 0 0 0) 3 1 = (o, t') /\ o = Some 64 /\
  exists p, pcbs t !! 64 = Some p /\ (connected_to (MkHdr 2001 80 0 0 0 0 0 0) 3 1 p \/
    listens_for (MkHdr 2001 80 0 0 0 0 0 0) 1 p /\ forall c q, pcbs t !! c = Some q -> ~ connected_to (MkHdr 2001 80 0 0 0 0 0 0) 3 1 q).
Proof.
  assert (exists t t', reach (wstep (fun _ => true)) wit_start t /\ demux t (MkHdr 2001 80 0 0 0 0 0 0) 3 1 = (Some 64, t')) as (t & t' & Hr & E).
  { eexists _, _. split.
    - eapply reach_step; [eapply reach_step; [eapply reach_step; [apply reach_refl|]|]|].
      + eapply (w_new _ _ 64); [reflexivity|vm_compute; reflexivity].
      + eapply (w_bind _ _ 64 1 80 0). vm_compute. reflexivity.
      + eapply (w_listen _ _ 64); [vm_compute; reflexivity|by left|vm_compute; reflexivity].
    - vm_compute. reflexivity. }
  exists t, (Some 64), t'. split; [exact E|]. split; [reflexivity|].
  destruct (demux_finds_connection (fun _ => true) wit_net 7 t _ 3 1 _ t' Hr E) as [_ Hd]. exact Hd.
Defined.

(** ** Local ports *)

(** The local ports in use are at most as many as the connections. *)
Definition ports_in_use (t : tcp) : list Z :=
  omap (fun a => local_port <$> pcbs t !! a) (tcp_active_pcbs t ++ tcp_tw_pcbs t ++ tcp_listen_pcbs t).

Lemma port_used_elem t port : port_used t port = true -> port ∈ ports_in_use t.
Proof.
  unfold port_used, ports_in_use. intros (a & Ha & Hp)%List.existsb_exists. apply list_elem_of_omap. exists a. split; [by apply list_elem_of_In|].
  destruct (pcbs t !! a) as [p|]; [|done]. apply Z.eqb_eq in Hp. cbn. by rewrite Hp.
Qed.

(** ephemeral ports.  With fewer than 28672 connections tcp_new_port ends, and the
    port it returns lies between 4096 and 32767 and is used by no connection. *)
Theorem tcp_new_port_unused t : 4096 <= tcp_next_port t <= 32767 ->
  Z.of_nat (length (tcp_active_pcbs t ++ tcp_tw_pcbs t ++ tcp_listen_pcbs t)) < 28672 ->
  exists port, tcp_new_port t = Ok (port, set_next_port t port) /\ 4096 <= port <= 32767 /\ port_used t port = false.
Proof.
  intros Hp Hl. unfold tcp_new_port.
  destruct (new_port_total (port_used t) _ (ports_in_use t) (tcp_next_port t) Hp (port_used_elem t) (omap_length _ _) Hl) as (r & E & Hr & Hu).
  rewrite E. by exists r.
Qed.

Lemma tcp_new_port_unused_witness : 4096 <= tcp_next_port wit_start <= 32767 /\
  exists port, tcp_new_port wit_start = Ok (port, set_next_port wit_start port) /\ 4096 <= port <= 32767 /\ port_used wit_start port = false.
Proof.
  assert (4096 <= tcp_next_port wit_start <= 32767) as Hp by (vm_compute; split; congruence).
  split; [exact Hp|]. exact (tcp_new_port_unused wit_start Hp eq_refl).
Defined.
