(* ===== verification/TcpWire.v ===== *)
(** * TCP: checksums, options and timeouts *)

From S2P Require Import Prelude Inet Ether Tcp TcpBase TcpRecv TcpSend TcpStream TcpConn.

(** ** Checksums *)

(** What tcp_output sends passes the test of tcp_input: the checksum over the
    pseudo header and the packet, with the field that tcp_output filled in, is 0. *)
Lemma tcp_checksum_accepted r src dst h opts data :
  has (rt_flags r) NETIF_TCP_TX_CHECKSUM_OFFLOAD = false -> bytes_ok opts -> bytes_ok data ->
  let bs := hdr_bytes (with_chksum r src dst h opts data) ++ opts ++ data in
  rfc1071 (pseudo_bytes src dst IP_PROTO_TCP (Z.of_nat (length bs)) ++ bs) = 0.
Proof.
  intros Hr Ho Hd. cbv zeta. unfold with_chksum. rewrite Hr. cbv zeta. set (cs := tcp_chksum _ _ _ _ _).
  set (front := le16 (th_src h) ++ le16 (th_dest h) ++ le32 (th_seqno h) ++ le32 (th_ackno h) ++ le16 (th_offset_flags h) ++ le16 (th_wnd h)).
  assert (forall v, hdr_bytes (set_chksum h v) ++ opts ++ data = front ++ le16 v ++ le16 (th_urgp h) ++ opts ++ data) as Eh.
  { intros v. unfold hdr_bytes, front. cbn [set_chksum th_src th_dest th_seqno th_ackno th_offset_flags th_wnd th_chksum th_urgp]. by rewrite <- !app_assoc. }
  assert (set_chksum (set_chksum h 0) cs = set_chksum h cs) as -> by done. rewrite Eh.
  assert (length (front ++ le16 cs ++ le16 (th_urgp h) ++ opts ++ data) = length (front ++ le16 0 ++ le16 (th_urgp h) ++ opts ++ data)) as -> by done.
  set (n := Z.of_nat (length _)). set (pre := pseudo_bytes src dst IP_PROTO_TCP n ++ front).
  destruct (rfc1071_patch pre (le16 (th_urgp h) ++ opts ++ data)) as (Hc & _ & Hz); [|done|].
  { unfold pre, front, pseudo_bytes. repeat (apply Forall_app; split); try apply le16_ok; try apply le32_ok; try done. repeat (constructor; [lia|]). constructor. }
  assert (rfc1071 (pre ++ [0; 0] ++ le16 (th_urgp h) ++ opts ++ data) = cs) as Ec.
  { subst cs. unfold tcp_chksum. rewrite Eh. unfold pre. by rewrite <- app_assoc. }
  rewrite Ec in Hc, Hz. rewrite app_assoc. fold pre.
  replace (le16 cs) with [cs mod 256; cs / 256]; [exact Hz|]. unfold le16. rewrite (Z.mod_small (cs / 256)); [done|].
  split; [apply Z.div_pos; lia|apply Z.div_lt_upper_bound; lia].
Qed.

(** ** Options *)

Definition ok_pcb (r : outcome pcb) : option pcb := match r with Ok p => Some p | _ => None end.

(** Not out of fuel. *)
Definition ends {A} (r : outcome A) : Prop := r <> OutOfFuel.

Lemma aget_ends {A} (m : list A) i : (exists x, aget m i = Ok x) \/ aget m i = Fault.
Proof. unfold aget. destruct (0 <=? i); [|by right]. destruct (m !! Z.to_nat i) eqn:E; [left; by eexists|by right]. Qed.

Ltac read m i x E := destruct (aget_ends m i) as [(x & E)|E]; rewrite E; cbn [mbind outcome_bind]; [|done].

Lemma parse_loop_ends m limit mtu : limit <= 40 -> (forall i l, 0 <= i <= 40 -> aget m i = Ok l -> 0 <= l < 216) ->
  forall n c p, 0 <= c -> limit - c <= Z.of_nat n -> ends (parse_loop n m limit mtu c p).
Proof.
  intros Hl Hm. induction n as [|n IH]; intros c p Hc Hn; cbn [parse_loop]; (destruct (Z.ltb_spec c limit); [|done]); [lia|].
  read m c opt E1. destruct (opt =? 0); [done|].
  destruct (opt =? 1); [apply IH; rewrite u8_small by lia; lia|]. read m (c + 1) l E2. destruct (_ && _).
  - read m (c + 2) hi E3. by read m (c + 3) lo E4.
  - destruct (Z.eqb_spec l 0); [done|]. pose proof (Hm (c + 1) l ltac:(lia) E2). apply IH; rewrite u8_small by lia; lia.
Qed.

(** tcp_parseopt ends, after at most 40 turns, on every segment whose option
    lengths are below 216. *)
Theorem tcp_parseopt_ends s mtu p : 0 <= th_offset_flags (seg_hdr s) < 65536 ->
  (forall i l, 0 <= i <= 40 -> aget (seg_opts s ++ seg_bytes s) i = Ok l -> 0 <= l < 216) -> ends (tcp_parseopt 40 s mtu p).
Proof.
  intros Ho Hm. unfold tcp_parseopt. destruct (80 <? _); [|done]. apply parse_loop_ends; [|exact Hm|lia|].
  all: unfold TCPH_OFFSET; pose proof (htons_range _ Ho) as Hr; change htons with ntohs in Hr;
    rewrite Z.shiftr_shiftr, Z.shiftr_div_pow2, Z.shiftl_mul_pow2 by lia;
    assert (ntohs (th_offset_flags (seg_hdr s)) / 2 ^ (8 + 4) < 16) by (apply Z.div_lt_upper_bound; lia); lia.
Qed.

Definition mss_seg (opts : list Z) : tcp_seg := MkSeg (Some (MkPbufs [[]] 0 0 1)) 0 (MkHdr 2000 80 0 0 (htons 24578) 4096 0 0) opts.

Lemma tcp_parseopt_ends_witness : ends (tcp_parseopt 40 (mss_seg [2; 4; 5; 180]) 1500 wit_pcb) /\
  option_map mss (ok_pcb (tcp_parseopt 40 (mss_seg [2; 4; 5; 180]) 1500 wit_pcb)) = Some 1460.
Proof.
  split; [|vm_compute; reflexivity]. apply (tcp_parseopt_ends (mss_seg [2; 4; 5; 180])); [vm_compute; split; congruence|].
  intros i l Hi E. unfold aget in E. destruct (0 <=? i); [|discriminate E]. cbn [seg_opts seg_bytes mss_seg seg_p bytes pieces concat app] in E.
  destruct (Z.to_nat i) as [|[|[|[|k]]]]; cbn in E; try (injection E as <-; lia). discriminate E.
Defined.

(** The position is an unsigned char.  An option of length 255 behind a no-operation
    takes it back to the start, so that tcp_parseopt never ends. *)
Lemma tcp_parseopt_endless n mtu p : tcp_parseopt n (mss_seg [1; 3; 255; 0]) mtu p = OutOfFuel.
Proof.
  change (parse_loop n [1; 3; 255; 0] 4 mtu 0 p = OutOfFuel). enough (parse_loop n [1; 3; 255; 0] 4 mtu 0 p = OutOfFuel /\ parse_loop n [1; 3; 255; 0] 4 mtu 1 p = OutOfFuel) by tauto.
  induction n as [|n [IH1 IH2]]; [done|]. split; [exact IH2|exact IH1].
Qed.

(** ** Retransmission *)

(** The timer of a connection has run out. *)
Definition timed_out (p : pcb) : Prop := unacked p <> [] /\ rto p <= s32 (rtime p + 1) /\ state p <> SYN_SENT.

Definition backed_off (b : Z) (p : pcb) : pcb :=
  set_rto (u16 (Z.shiftl (Z.shiftr (sa p) 3 + sv p) b)) (set_rtime (s32 (rtime p + 1)) p).

Lemma slow_rexmit_fires w p : timed_out p -> slow_rexmit w p =
  b ← aget tcp_backoff (nrtx p);
  let '(q, w) := tcp_rexmit w (backed_off b p) in
  let q := set_ssthresh (Z.shiftr (Z.min (cwnd q) (snd_wnd q)) 1) q in
  let q := if ssthresh q <? u32 (mss q) then set_ssthresh (u32 (mss q * 2)) q else q in
  Ok (set_cwnd (u32 (mss q)) q, w).
Proof.
  intros (Hu & Hr & Hs). unfold slow_rexmit. cbv zeta. pcb_simpl. destruct (unacked p) as [|s l] eqn:Eu; [done|].
  rewrite (proj2 (Z.leb_le _ _) Hr). cbn [negb andb]. replace (is_state (state p) SYN_SENT) with false by (by destruct (state p)).
  by destruct (aget tcp_backoff (nrtx p)).
Qed.

(** What a queued segment carries; and the segments tcp_enqueue makes. *)
Definition carries (s : tcp_seg) : Z * Z * list Z := (th_seqno (seg_hdr s), seg_len s, seg_bytes s).
Definition sendable (s : tcp_seg) : Prop := 0 < TCP_TCPLEN s /\ exists o f, of_ok (seg_hdr s) o f.

Definition with_ack (s : tcp_seg) : tcp_seg := set_seg_hdr s (TCPH_FLAGS_SET (seg_hdr s) (Z.lor (TCPH_FLAGS (seg_hdr s)) TCP_ACK)).

Lemma with_ack_len s : sendable s -> TCP_TCPLEN (with_ack s) = TCP_TCPLEN s.
Proof.
  intros (_ & o & f & Hof). unfold TCP_TCPLEN, with_ack. cbn [seg_hdr seg_len set_seg_hdr]. rewrite (of_flags _ _ _ Hof).
  assert (0 <= Z.lor f TCP_ACK < 256) as Hf.
  { destruct Hof as (_ & Hf & _). split; [apply Z.lor_nonneg; unfold TCP_ACK; lia|]. change 256 with (2 ^ 8). apply Z.log2_lt_cancel.
    rewrite Z.log2_lor by (unfold TCP_ACK; lia). change (Z.log2 (2 ^ 8)) with 8. apply Z.max_lub_lt; [|done].
    destruct (decide (f = 0)) as [->|]; [done|]. apply Z.log2_lt_pow2; lia. }
  rewrite (of_flags _ _ _ (of_set_flags _ _ _ _ Hof Hf)), !has_lor by done. done.
Qed.

Lemma output_segment_carries w s p s' p' w' : tcp_output_segment w s p = (s', p', w') -> carries s' = carries s.
Proof.
  unfold tcp_output_segment. case_match; [intros; by simplify_eq|]. case_match; [|intros; by simplify_eq]. cbv zeta.
  destruct (ip_output_if _ _) as [rc w1]. intros E. simplify_eq. unfold carries.
  assert (forall s v, seg_bytes (set_ref s v) = seg_bytes s /\ seg_hdr (set_ref s v) = seg_hdr s /\ seg_len (set_ref s v) = seg_len s) as Hset
    by (intros [[]] v; done).
  destruct (rc <? 0); rewrite ?(proj1 (proj2 (Hset _ _))), ?(proj2 (proj2 (Hset _ _))), ?(proj1 (Hset _ _)); cbn [seg_hdr seg_len set_seg_hdr];
    rewrite chksum_seqno; done.
Qed.

(** Sending goes on from the front of the queue; nothing is lost or reordered. *)
Lemma output_loop_carries wnd l : Forall sendable l -> forall w p p' w', unsent p = l -> state p <> SYN_SENT -> output_loop wnd l w p = (p', w') ->
  carries <$> (unacked p' ++ unsent p') = carries <$> (unacked p ++ l) /\ exists ks, out w' = out w ++ ks.
Proof.
  induction 1 as [|s l Hs Hl IH]; intros w p p' w' El Hst E; cbn [output_loop] in E.
  { injection E as <- <-. rewrite El. split; [done|]. exists []. by rewrite app_nil_r. }
  destruct (_ <=? wnd); [|injection E as <- <-; rewrite El; split; [done|]; exists []; by rewrite app_nil_r].
  cbv zeta in E. pcb_simpl_in E. replace (is_state (state p) SYN_SENT) with false in E by (by destruct (state p)). fold (with_ack s) in E.
  set (p1 := if TCP_SEQ_LT _ _ then _ else _) in E.
  assert (unacked p1 = unacked p /\ unsent p1 = l /\ state p1 = state p) as (A1 & U1 & S1) by (subst p1; destruct (TCP_SEQ_LT _ _); split_and!; reflexivity). clearbody p1.
  destruct (tcp_output_segment w (with_ack s) p1) as [[s' p2] w1] eqn:Eo. pose proof (output_segment_carries _ _ _ _ _ _ Eo) as Ec.
  pose proof (output_segment_out _ _ _ _ _ _ Eo) as Hout. pose proof (output_segment_frame _ _ _ _ _ _ Eo) as Hf. apply out_ack_frame in Hf.
  assert (state p2 = state p1) as S2 by (by kept Hf).
  apply output_segment_queues in Eo as (U2 & A2 & _). rewrite with_ack_len, (proj2 (Z.ltb_lt 0 (TCP_TCPLEN s)) (proj1 Hs)) in E by done.
  apply IH in E as (Eq & ks & Ek); [|pcb_simpl; congruence|pcb_simpl; congruence]. split.
  - rewrite Eq. pcb_simpl. rewrite A2, A1, !fmap_app. cbn. rewrite Ec, <- app_assoc. done.
  - destruct Hout as [Hout|(k & Hout & _)]; rewrite Hout in Ek; [by exists ks|]. exists (k :: ks). by rewrite Ek, <- app_assoc.
Qed.

(** The first segment is sent if the window has room for it, the driver has let go of
    it, and IP takes it. *)
Definition can_send (w : net) (p : pcb) (wnd : Z) (s : tcp_seg) : Prop :=
  u32 (oseq s - lastack p + seg_len s) <= wnd /\ seg_ref s <= 1 /\ ip_route w (remote_ip p) <> None /\ 0 <= default 0 (head (xmits w)).

Lemma output_loop_first wnd s l w p p' w' : Forall sendable (s :: l) -> unsent p = s :: l -> state p <> SYN_SENT -> can_send w p wnd s ->
  output_loop wnd (s :: l) w p = (p', w') ->
  exists k ks, out w' = out w ++ k :: ks /\ th_seqno (pk_hdr k) = th_seqno (seg_hdr s) /\ pk_data k = seg_bytes s.
Proof.
  intros [Hs Hl]%Forall_cons El Hst (Hw & Hr & Hrt & Hx) E. cbn [output_loop] in E. rewrite (proj2 (Z.leb_le _ _) Hw) in E. cbv zeta in E. pcb_simpl_in E.
  replace (is_state (state p) SYN_SENT) with false in E by (by destruct (state p)). fold (with_ack s) in E. set (p1 := if TCP_SEQ_LT _ _ then _ else _) in E.
  assert (unsent p1 = l /\ state p1 = state p /\ remote_ip p1 = remote_ip p) as (U1 & S1 & R1) by (subst p1; destruct (TCP_SEQ_LT _ _); split_and!; reflexivity). clearbody p1.
  destruct (tcp_output_segment w (with_ack s) p1) as [[s' p2] w1] eqn:Eo.
  pose proof (output_segment_frame _ _ _ _ _ _ Eo) as Hf. apply out_ack_frame in Hf. assert (state p2 = state p1) as S2 by (by kept Hf).
  pose proof (output_segment_queues _ _ _ _ _ _ Eo) as (U2 & _). rewrite with_ack_len, (proj2 (Z.ltb_lt 0 (TCP_TCPLEN s)) (proj1 Hs)) in E by done.
  apply (output_loop_carries wnd l Hl) in E as (_ & ks & Ek); [|pcb_simpl; congruence|pcb_simpl; congruence].
  unfold tcp_output_segment in Eo. change (seg_ref (with_ack s)) with (seg_ref s) in Eo. rewrite (proj2 (Z.ltb_ge _ _) Hr), R1 in Eo.
  destruct (ip_route w (remote_ip p)) as [r|]; [|done]. cbv zeta in Eo. unfold ip_output_if in Eo.
  replace (match xmits w with r :: _ => r | [] => 0 end) with (default 0 (head (xmits w))) in Eo by (by destruct (xmits w)).
  rewrite (proj2 (Z.ltb_ge _ _) Hx) in Eo. injection Eo as _ _ <-. cbn [out] in Ek. rewrite <- app_assoc in Ek.
  eexists _, ks. split; [exact Ek|]. cbn [pk_hdr pk_data]. rewrite chksum_seqno. done.
Qed.

(** tcp_rexmit puts all that is unacknowledged in front of the queue and sends it again. *)
Lemma rexmit_resends w p p' w' s : head (unacked p) = Some s -> Forall sendable (unacked p ++ unsent p) -> state p <> SYN_SENT -> tcp_rexmit w p = (p', w') ->
  rto p' = rto p /\ nrtx p' = u16 (nrtx p + 1) /\ carries <$> (unacked p' ++ unsent p') = carries <$> (unacked p ++ unsent p) /\
  exists ks, out w' = out w ++ ks /\ (can_send w p (Z.min (snd_wnd p) (cwnd p)) s ->
    exists k ks', ks = k :: ks' /\ th_seqno (pk_hdr k) = th_seqno (seg_hdr s) /\ pk_data k = seg_bytes s).
Proof.
  unfold tcp_rexmit. intros Hh Hse Hst E. destruct (unacked p) as [|s0 l] eqn:Eu; [done|]. injection Hh as ->. set (p1 := set_rttest 0 _) in E.
  assert (unsent p1 = (s :: l) ++ unsent p) as U1 by done. destruct (tcp_output w p1) as [[rc q] w1] eqn:Eo. injection E as <- <-.
  pose proof (tcp_output_frame _ _ _ _ _ Eo) as Hf. assert (rto q = rto p1 /\ nrtx q = nrtx p1) as (R1 & N1) by (unfold out_frame, out_keep in Hf; injection Hf; auto).
  split; [exact R1|]. split; [exact N1|]. unfold tcp_output in Eo. rewrite U1 in Eo. destruct (output_loop _ _ w p1) as [p2 w2] eqn:El.
  pose proof (output_loop_carries _ _ Hse _ _ _ _ U1 Hst El) as (Ec & ks & Ek).
  assert (can_send w p (Z.min (snd_wnd p) (cwnd p)) s -> exists k ks', ks = k :: ks' /\ th_seqno (pk_hdr k) = th_seqno (seg_hdr s) /\ pk_data k = seg_bytes s) as Hk.
  { intros Hc. destruct (output_loop_first _ s (l ++ unsent p) w p1 p2 w2 Hse U1 Hst Hc El) as (k & ks' & Ek' & Q & D). exists k, ks'. split; [|done].
    rewrite Ek in Ek'. by apply app_inv_head in Ek'. }
  destruct (has (flags p2) TF_ACK_NOW); [|injection Eo as _ <- <-; split; [exact Ec|]; by exists ks].
  destruct (tcp_send_ack _ _) as [rc2 w3] eqn:Ea. injection Eo as _ <- <-. split; [exact Ec|].
  apply send_ack_out in Ea as [->|(k & -> & _)]; [by exists ks|]. exists (ks ++ [k]). split; [by rewrite Ek, app_assoc|].
  intros Hc. destruct (Hk Hc) as (k0 & ks' & -> & Q & D). by exists k0, (ks' ++ [k]).
Qed.



(** ** A connection without a segment size

    The MSS option of a SYN may be 0, and so may its window.  The congestion window and
    the threshold are 0 then, and the acknowledgement of our FIN makes tcp_receive
    divide by the congestion window.  The application takes connections on port 80 and
    registers its functions. *)
Definition from_peer (seqno ackno flags wnd : Z) (opts : list Z) : list Z :=
  let off := Z.shiftl (5 + Z.of_nat (length opts) / 4) 12 in
  let h := MkHdr (htons 2000) (htons 80) (htonl seqno) (htonl ackno) (htons (Z.lor off flags)) (htons wnd) 0 0 in
  hdr_bytes (with_chksum (MkRt 2 255 1500 0) 2 1 h opts []) ++ opts.

Definition listening : tcp :=
  MkTcp (MkNet 7 (fun _ => Some (MkRt 1 255 1500 0)) [] [] [([DoRegister], 0)] [] []) {[ 64 := set_accept true (set_local_port 80 (set_state LISTEN wit_pcb)) ]} [] [] [64] 1 4096 [].

Definition deliver (t : tcp) (bs : list Z) : outcome tcp := '(_, t) ← tcp_input 40 t bs [] 2 1 (MkRt 1 255 1500 0) 128; Ok t.

(** The handshake with MSS option [m], and our FIN. *)
Definition after_close (m : Z) : outcome tcp :=
  t ← deliver listening (from_peer 1000 0 TCP_SYN 0 [2; 4; m / 256; m mod 256]);
  t ← deliver t (from_peer 1001 9 TCP_ACK 4096 []);
  '(_, t) ← tcp_close t 128;
  Ok t.

Definition final_state (r : outcome tcp) : option tcp_state :=
  match r with Ok t => state <$> pcbs t !! 128 | _ => None end.

Lemma zero_mss_divides_by_zero :
  final_state (after_close 0) = Some FIN_WAIT_1 /\ (t ← after_close 0; deliver t (from_peer 1001 10 TCP_ACK 4096 [])) = Fault /\
  final_state (t ← after_close 1460; deliver t (from_peer 1001 10 TCP_ACK 4096 [])) = Some FIN_WAIT_2.
Proof. vm_compute. repeat split. Qed.

(** ** Other deviations, run *)

(** In SYN-SENT the code tests flags & (TCP_ACK | TCP_SYN): a bare ACK is enough, and its
    sequence number is taken for that of a SYN. *)
Definition connecting_to_peer : outcome tcp :=
  '(_, t) ← tcp_connect (MkTcp wit_net {[ 64 := set_local_port 80 (set_state CLOSED wit_pcb) ]} [] [] [] 1 4096 []) 64 2 2000 true; Ok t.

Lemma bare_ack_establishes :
  match (t ← connecting_to_peer; deliver t (from_peer 5555 8 TCP_ACK 4096 [])) with
  | Ok t => (fun p => (state p, rcv_nxt p)) <$> pcbs t !! 64 = Some (ESTABLISHED, 5556)
  | _ => False
  end.
Proof. vm_compute. reflexivity. Qed.

(** A reset connection is freed, and its flags are written after that. *)
Lemma reset_writes_freed_pcb :
  match (t ← after_close 1460; deliver t (from_peer 1001 10 TCP_RST 0 [])) with
  | Ok t => pcbs t !! 128 = None /\ stale t = [128]
  | _ => False
  end.
Proof. vm_compute. done. Qed.

(** The data of the segment that ends FIN-WAIT-2 are acknowledged, and not given to the
    application. *)
Definition last_data (data : list Z) : list Z :=
  let h := MkHdr (htons 2000) (htons 80) (htonl 1001) (htonl 10) (htons (Z.lor (Z.shiftl 5 12) (Z.lor TCP_FIN TCP_ACK))) (htons 4096) 0 0 in
  hdr_bytes (with_chksum (MkRt 2 255 1500 0) 2 1 h [] data) ++ data.

Definition received_data (l : list event) : list Z := concat (omap (fun e => match e with EvRecv b => Some (bytes b) | _ => None end) l).

Lemma data_with_fin_is_lost :
  match (t ← after_close 1460; t ← deliver t (from_peer 1001 10 TCP_ACK 4096 []); deliver t (last_data [1; 2; 3])) with
  | Ok t => (fun p => (state p, rcv_nxt p, recv p)) <$> pcbs t !! 128 = Some (TIME_WAIT, 1005, true) /\ received_data (told (tnet t)) = []
  | _ => False
  end.
Proof. vm_compute. done. Qed.
