(* ===== verification/Ip.v ===== *)
(** * IP, ICMP, UDP and raw packets (net/ip.c, icmp.c, udp.c, raw.c, netif.c, nf_hook.c; ip_route of route.c)

    A packet is the memory of its first buffer, where the payload pointer is in it,
    the two length fields and the bytes of the other buffers of the chain: pointers
    into the first buffer, such as the one to the IP header, stay good when the
    payload pointer moves.  The structures of the headers are records; their fields
    are in network byte order, as in the code.

    [ipst] has the interfaces, the filter hooks and the control blocks of UDP and raw
    sockets, what the rest of the system will answer, and a log of what was done with
    packets.  tcp_input is a parameter of [ip_input]; Tcp.v models it. *)

From S2P Require Import Prelude Pbuf Inet Arp Ether Tcp.

(** ** Constants (sys/net/ip.h, icmp.h, udp.h, netif.h, nf_hook.h, opt.h; sys/errno.h) *)

Definition IP_HLEN : Z := 20.
Definition UDP_HLEN : Z := 8.
Definition ICMP_HLEN : Z := 8.
Definition IP_PROTO_ICMP : Z := 1.
Definition IP_PROTO_UDP : Z := 17.
Definition IP_DF : Z := 0x4000.
Definition IP_MF : Z := 0x2000.
Definition IP_OFFMASK : Z := 0x1fff.
Definition IP_ADDR_BROADCAST : Z := 0xFFFFFFFF.
Definition ICMP_ER : Z := 0.
Definition ICMP_DUR : Z := 3.
Definition ICMP_ECHO : Z := 8.
Definition ICMP_TE : Z := 11.
Definition ICMP_DUR_PROTO : Z := 2.
Definition ICMP_DUR_PORT : Z := 3.
Definition ICMP_TE_TTL : Z := 0.
Definition ICMP_TTL : Z := 255.
Definition UDP_TTL : Z := 255.
Definition RAW_TTL : Z := 255.
Definition UDP_FLAGS_NOCHKSUM : Z := 1.
Definition UDP_FLAGS_BROADCAST : Z := 2.
Definition UDP_FLAGS_CONNECTED : Z := 4.
Definition NETIF_ALLMULTI : Z := 0x20.
Definition NETIF_IP_TX_CHECKSUM_OFFLOAD : Z := 0x10000.
Definition NETIF_IP_RX_CHECKSUM_OFFLOAD : Z := 0x20000.
Definition NETIF_UDP_RX_CHECKSUM_OFFLOAD : Z := 0x40000.
Definition NETIF_UDP_TX_CHECKSUM_OFFLOAD : Z := 0x80000.
Definition DHCP_SERVER_PORT : Z := 67.
Definition PF_INET : Z := 2.
Definition NF_IP_PRE_ROUTING : Z := 0.
Definition NF_IP_POST_ROUTING : Z := 1.
Definition NF_ACCEPT : Z := 0.
Definition NF_DROP : Z := 1.
Definition EACCES : Z := -13.
Definition EDESTADDRREQ : Z := -89.
Definition EREMOTEIO : Z := -121.

(** ** Packets *)

(** [pid] tells packets apart; [pl] is the place of the payload pointer in [buf]. *)
Record ipkt := MkPacket { pid : Z; buf : list Z; pl : Z; plen : Z; ptot : Z; more : list (list Z) }.

Definition set_pl (p : ipkt) (v : Z) : ipkt := MkPacket (pid p) (buf p) v (plen p) (ptot p) (more p).
Definition set_buf (p : ipkt) (v : list Z) : ipkt := MkPacket (pid p) v (pl p) (plen p) (ptot p) (more p).

(** The bytes from [i] to [i + n] of a buffer. *)
Definition sub (b : list Z) (i n : Z) : list Z := take (Z.to_nat n) (drop (Z.to_nat i) b).

(** The bytes of a packet from the payload pointer on. *)
Definition pdata (p : ipkt) : list Z := sub (buf p) (pl p) (plen p) ++ concat (more p).

(** Writing [bs] at [i]. *)
Definition store_at (b : list Z) (i : Z) (bs : list Z) : outcome (list Z) :=
  if (0 <=? i) && (i + Z.of_nat (length bs) <=? Z.of_nat (length b))
  then Ok (take (Z.to_nat i) b ++ bs ++ drop (Z.to_nat i + length bs) b) else Fault.

(** pbuf_header: None if there is no room in front. *)
Definition header (p : ipkt) (n : Z) : option ipkt :=
  if pl p - n <? 0 then None
  else Some (MkPacket (pid p) (buf p) (pl p - n) (s32 (plen p + n)) (s32 (ptot p + n)) (more p)).

(** pbuf_realloc of a chain that can be written to. *)
Definition shorten (p : ipkt) (n : Z) : outcome ipkt :=
  if ptot p <=? n then Ok p
  else if plen p <? n then l ← cut_pieces (more p) (n - plen p); Ok (MkPacket (pid p) (buf p) (pl p) (plen p) n l)
  else Ok (MkPacket (pid p) (buf p) (pl p) n n []).

(** ** The IP header (sys/net/ip.h) *)

Record ip_hdr := MkIph { v_hl_tos : Z; iph_len : Z; iph_id : Z; iph_offset : Z; ttl_proto : Z; iph_chksum : Z; iph_src : Z; iph_dest : Z }.

Definition iph_bytes (h : ip_hdr) : list Z :=
  le16 (v_hl_tos h) ++ le16 (iph_len h) ++ le16 (iph_id h) ++ le16 (iph_offset h) ++ le16 (ttl_proto h) ++
  le16 (iph_chksum h) ++ le32 (iph_src h) ++ le32 (iph_dest h).

Definition read_iph (b : list Z) (i : Z) : outcome ip_hdr :=
  let bs := sub b i IP_HLEN in
  from_opt (if i <? 0 then None else
    a ← ld16 bs 0; b ← ld16 bs 2; c ← ld16 bs 4; d ← ld16 bs 6; e ← ld16 bs 8; f ← ld16 bs 10; g ← ld32 bs 12; h ← ld32 bs 16;
    Some (MkIph a b c d e f g h)).

Definition write_iph (p : ipkt) (i : Z) (h : ip_hdr) : outcome ipkt :=
  b ← store_at (buf p) i (iph_bytes h); Ok (set_buf p b).

Definition IPH_V (h : ip_hdr) : Z := Z.shiftr (ntohs (v_hl_tos h)) 12.
Definition IPH_HL (h : ip_hdr) : Z := Z.land (Z.shiftr (ntohs (v_hl_tos h)) 8) 15.
Definition IPH_TTL (h : ip_hdr) : Z := Z.shiftr (ntohs (ttl_proto h)) 8.
Definition IPH_PROTO (h : ip_hdr) : Z := Z.land (ntohs (ttl_proto h)) 255.
(** The word IPH_VHLTOS_SET stores. *)
Definition IPH_VHLTOS (v hl tos : Z) : Z := htons (Z.lor (Z.lor (Z.shiftl v 12) (Z.shiftl hl 8)) tos).
Definition IPH_TTL_SET (h : ip_hdr) (ttl : Z) : ip_hdr :=
  MkIph (v_hl_tos h) (iph_len h) (iph_id h) (iph_offset h) (htons (u16 (Z.lor (IPH_PROTO h) (Z.shiftl ttl 8)))) (iph_chksum h) (iph_src h) (iph_dest h).
Definition IPH_PROTO_SET (h : ip_hdr) (proto : Z) : ip_hdr :=
  MkIph (v_hl_tos h) (iph_len h) (iph_id h) (iph_offset h) (htons (u16 (Z.lor proto (Z.shiftl (IPH_TTL h) 8)))) (iph_chksum h) (iph_src h) (iph_dest h).
Definition set_iph_chksum (h : ip_hdr) (v : Z) : ip_hdr :=
  MkIph (v_hl_tos h) (iph_len h) (iph_id h) (iph_offset h) (ttl_proto h) v (iph_src h) (iph_dest h).
Definition set_addrs (h : ip_hdr) (s d : Z) : ip_hdr :=
  MkIph (v_hl_tos h) (iph_len h) (iph_id h) (iph_offset h) (ttl_proto h) (iph_chksum h) s d.

(** ** State *)

(** The interface of struct netif that the protocols use. *)
Record ifc := MkIf { if_name : list Z; if_ip : Z; if_mask : Z; if_gw : Z; if_bcast : Z; if_flags : Z; if_mtu : Z; if_output : bool }.

Record udp_pcb := MkUdp { u_lip : Z; u_rip : Z; u_lport : Z; u_rport : Z; u_flags : Z; u_recv : bool }.
Record raw_pcb := MkRaw { r_lip : Z; r_rip : Z; r_ttl : Z; r_protocol : Z; r_recv : bool }.

(** A filter looks at a packet and accepts it or not. *)
Record nf_hook_ops := MkHook { hk_pf : Z; hk_num : Z; hk_fun : Z -> ipkt -> Z }.

(** What was done with packets: given to the driver of an interface, released, given to
    a UDP or raw socket; with the answer of the function that was called. *)
Inductive ipev :=
  | EvOut (nif : Z) (p : ipkt) (dest rc : Z)
  | EvFree (id : Z)
  | EvUdp (a : Z) (p : ipkt) (addr port rc : Z)
  | EvRaw (a : Z) (p : ipkt) (addr rc : Z).

(** [ip_answers]: what the functions called will return, 0 when the list is used up;
    [ip_allocs]: whether memory is there; [junk]: what new memory holds. *)
Record ipst := MkIp {
  netif_list : list Z; nifs : gmap Z ifc; netif_default : Z; nf_hooks : list (Z * nf_hook_ops); ip_id : Z;
  udp_pcbs : list Z; upcbs : gmap Z udp_pcb; udp_port : Z; raw_pcbs : list Z; rpcbs : gmap Z raw_pcb;
  fresh_id : Z; ip_allocs : list bool; junk : list Z; ip_answers : list Z; ip_log : list ipev }.

Definition set_nifs (s : ipst) (l : list Z) (m : gmap Z ifc) : ipst :=
  MkIp l m (netif_default s) (nf_hooks s) (ip_id s) (udp_pcbs s) (upcbs s) (udp_port s) (raw_pcbs s) (rpcbs s) (fresh_id s) (ip_allocs s) (junk s) (ip_answers s) (ip_log s).
Definition set_default (s : ipst) (v : Z) : ipst :=
  MkIp (netif_list s) (nifs s) v (nf_hooks s) (ip_id s) (udp_pcbs s) (upcbs s) (udp_port s) (raw_pcbs s) (rpcbs s) (fresh_id s) (ip_allocs s) (junk s) (ip_answers s) (ip_log s).
Definition set_hooks (s : ipst) (v : list (Z * nf_hook_ops)) : ipst :=
  MkIp (netif_list s) (nifs s) (netif_default s) v (ip_id s) (udp_pcbs s) (upcbs s) (udp_port s) (raw_pcbs s) (rpcbs s) (fresh_id s) (ip_allocs s) (junk s) (ip_answers s) (ip_log s).
Definition set_ip_id (s : ipst) (v : Z) : ipst :=
  MkIp (netif_list s) (nifs s) (netif_default s) (nf_hooks s) v (udp_pcbs s) (upcbs s) (udp_port s) (raw_pcbs s) (rpcbs s) (fresh_id s) (ip_allocs s) (junk s) (ip_answers s) (ip_log s).
Definition set_udp (s : ipst) (l : list Z) (m : gmap Z udp_pcb) : ipst :=
  MkIp (netif_list s) (nifs s) (netif_default s) (nf_hooks s) (ip_id s) l m (udp_port s) (raw_pcbs s) (rpcbs s) (fresh_id s) (ip_allocs s) (junk s) (ip_answers s) (ip_log s).
Definition set_udp_port (s : ipst) (v : Z) : ipst :=
  MkIp (netif_list s) (nifs s) (netif_default s) (nf_hooks s) (ip_id s) (udp_pcbs s) (upcbs s) v (raw_pcbs s) (rpcbs s) (fresh_id s) (ip_allocs s) (junk s) (ip_answers s) (ip_log s).
Definition set_raw (s : ipst) (l : list Z) (m : gmap Z raw_pcb) : ipst :=
  MkIp (netif_list s) (nifs s) (netif_default s) (nf_hooks s) (ip_id s) (udp_pcbs s) (upcbs s) (udp_port s) l m (fresh_id s) (ip_allocs s) (junk s) (ip_answers s) (ip_log s).
Definition set_env (s : ipst) (f : Z) (al : list bool) (an : list Z) (l : list ipev) : ipst :=
  MkIp (netif_list s) (nifs s) (netif_default s) (nf_hooks s) (ip_id s) (udp_pcbs s) (upcbs s) (udp_port s) (raw_pcbs s) (rpcbs s) f al (junk s) an l.

Definition getif (s : ipst) (a : Z) : outcome ifc := from_opt (nifs s !! a).

(** The next answer, with the event it belongs to. *)
Definition ask (s : ipst) (ev : Z -> ipev) : Z * ipst :=
  let rc := default 0 (head (ip_answers s)) in
  (rc, set_env s (fresh_id s) (ip_allocs s) (tail (ip_answers s)) (ip_log s ++ [ev rc])).

(** pbuf_free of the whole packet. *)
Definition discard (s : ipst) (p : ipkt) : ipst := set_env s (fresh_id s) (ip_allocs s) (ip_answers s) (ip_log s ++ [EvFree (pid p)]).

(** netif->output(netif, p, dest); the pointer must not be NULL. *)
Definition send_out (s : ipst) (nif : Z) (p : ipkt) (dest : Z) : outcome (Z * ipst) :=
  n ← getif s nif;
  if if_output n then Ok (ask s (EvOut nif p dest)) else Fault.

(** pbuf_alloc(PBUF_IP, n, PBUF_RW): room for the IP and link headers in front. *)
Definition new_packet (s : ipst) (n : Z) : option ipkt * ipst :=
  let ok := default true (head (ip_allocs s)) in
  if ok then
    let b := take (Z.to_nat (34 + n)) (junk s ++ replicate (Z.to_nat (34 + n)) 0) in
    (Some (MkPacket (fresh_id s) b 34 n n []), set_env s (fresh_id s + 1) (tail (ip_allocs s)) (ip_answers s) (ip_log s))
  else (None, set_env s (fresh_id s) (tail (ip_allocs s)) (ip_answers s) (ip_log s)).

(** ** Interfaces and routes (net/netif.c, net/route.c) *)

(** netif_add; [a]: the address kmalloc returned, NULL if there is no memory.  The name
    fits the array it is copied to. *)
Definition netif_add (s : ipst) (a : Z) (name : list Z) (ip mask gw : Z) : Z * ipst :=
  if a =? NULL then (NULL, s)
  else (a, set_nifs s (a :: netif_list s)
    (<[a := MkIf name ip mask gw (Z.lor (Z.land ip mask) (Z.lxor mask 0xFFFFFFFF)) NETIF_ALLMULTI TCP_MSS false]> (nifs s))).

Definition netif_delete (s : ipst) (a : Z) : outcome ipst :=
  _ ← getif s a; Ok (set_nifs s (list_del a (netif_list s)) (delete a (nifs s))).

Definition netif_find (s : ipst) (name : list Z) : option Z :=
  List.find (fun a => match nifs s !! a with Some n => bool_decide (if_name n = name) | None => false end) (netif_list s).

Definition netif_set_ipaddr (s : ipst) (a ip : Z) : outcome ipst :=
  n ← getif s a;
  Ok (set_nifs s (netif_list s) (<[a := MkIf (if_name n) ip (if_mask n) (if_gw n) (if_bcast n) (if_flags n) (if_mtu n) (if_output n)]> (nifs s))).
Definition netif_set_netmask (s : ipst) (a mask : Z) : outcome ipst :=
  n ← getif s a;
  Ok (set_nifs s (netif_list s) (<[a := MkIf (if_name n) (if_ip n) mask (if_gw n) (if_bcast n) (if_flags n) (if_mtu n) (if_output n)]> (nifs s))).
Definition netif_set_gw (s : ipst) (a gw : Z) : outcome ipst :=
  n ← getif s a;
  Ok (set_nifs s (netif_list s) (<[a := MkIf (if_name n) (if_ip n) (if_mask n) gw (if_bcast n) (if_flags n) (if_mtu n) (if_output n)]> (nifs s))).
Definition netif_set_default (s : ipst) (a : Z) : ipst := set_default s a.

(** The first interface of the list for which [f] holds. *)
Definition find_if (s : ipst) (f : ifc -> bool) : option Z :=
  List.find (fun a => match nifs s !! a with Some n => f n | None => false end) (netif_list s).

Definition ip_ownaddr (s : ipst) (addr : Z) : bool :=
  match find_if s (fun n => negb (ip_addr_isany addr) && ip_addr_cmp addr (if_ip n)) with Some _ => true | None => false end.

(** ip_route: NULL if there is no interface for the address. *)
Definition route_to (s : ipst) (dest : Z) : Z :=
  match find_if s (fun n => ip_addr_cmp dest (if_ip n)) with
  | Some a => a
  | None =>
      match find_if s (fun n => ip_addr_maskcmp dest (if_ip n) (if_mask n)) with
      | Some a => a
      | None => netif_default s
      end
  end.

(** ** Filters (net/nf_hook.c) *)

Definition nf_register_hook (s : ipst) (a : Z) (h : nf_hook_ops) : ipst := set_hooks s (nf_hooks s ++ [(a, h)]).
Definition nf_unregister_hook (s : ipst) (a : Z) : ipst := set_hooks s (List.filter (fun x => negb (x.1 =? a)) (nf_hooks s)).

(** The hooks registered for [num], called with the number [arg]. *)
Definition run_hooks (s : ipst) (num arg : Z) (p : ipkt) : Z :=
  if forallb (fun '(_, h) => if (hk_pf h =? PF_INET) && (hk_num h =? num) then hk_fun h arg p =? NF_ACCEPT else true) (nf_hooks s)
  then NF_ACCEPT else NF_DROP.
Definition nf_hook_pre_route (s : ipst) (p : ipkt) : Z := run_hooks s NF_IP_PRE_ROUTING NF_IP_PRE_ROUTING p.
Definition nf_hook_post_route (s : ipst) (p : ipkt) : Z := run_hooks s NF_IP_POST_ROUTING NF_IP_PRE_ROUTING p.

(** ** Sending (net/ip.c) *)

(** The header that ip_output_if writes over [h]. *)
Definition out_hdr (n : ifc) (h : ip_hdr) (src dest ttl proto tot id : Z) : ip_hdr :=
  let h := MkIph (IPH_VHLTOS 4 (IP_HLEN / 4) 0) (htons (u16 tot)) (htons id) (htons IP_DF)
             (ttl_proto (IPH_PROTO_SET (IPH_TTL_SET h ttl) proto)) 0 (if ip_addr_isany src then if_ip n else src) dest in
  if has (if_flags n) NETIF_IP_TX_CHECKSUM_OFFLOAD then h else set_iph_chksum h (rfc1071 (iph_bytes h)).

(** Put the header in front of the packet, if there is room. *)
Definition push_hdr (s : ipst) (n : ifc) (p : ipkt) (src dest ttl proto : Z) : outcome (option ipkt * ipst) :=
  match header p IP_HLEN with
  | None => Ok (None, s)
  | Some p =>
      h ← read_iph (buf p) (pl p);
      p ← write_iph p (pl p) (out_hdr n h src dest ttl proto (ptot p) (ip_id s));
      Ok (Some p, set_ip_id s (u16 (ip_id s + 1)))
  end.

(** [dest] is None for IP_HDRINCL; a source address that is NULL or 0 is that of the
    interface. *)
Definition ip_output_if (s : ipst) (p : ipkt) (src : Z) (dest : option Z) (ttl proto nif : Z) : outcome (Z * ipst) :=
  n ← getif s nif;
  '(r, s) ← (match dest with Some d => push_hdr s n p src d ttl proto | None => Ok (Some p, s) end);
  match r with
  | None => Ok (ENOSPC, s)
  | Some p =>
      d ← (match dest with Some d => Ok d | None => h ← read_iph (buf p) (pl p); Ok (iph_dest h) end);
      if nf_hook_post_route s p =? NF_DROP then Ok (EPROTO, discard s p)
      else if if_output n then send_out s nif p d else Ok (EREMOTEIO, s)
  end.

Definition ip_output (s : ipst) (p : ipkt) (src dest ttl proto : Z) : outcome (Z * ipst) :=
  let nif := route_to s dest in
  if nif =? NULL then Ok (EHOSTUNREACH, s) else ip_output_if s p src (Some dest) ttl proto nif.

(** ** ICMP messages about a packet (net/icmp.c) *)

(** The message: type and code, four bytes that are not set, the IP header and eight
    bytes of the packet at [pl p]. *)
Definition icmp_body (q p : ipkt) (type code : Z) : outcome (list Z) :=
  let unused := sub (buf q) (pl q + 4) 4 in
  copy ← (if pl p + IP_HLEN + 8 <=? Z.of_nat (length (buf p)) then Ok (sub (buf p) (pl p) (IP_HLEN + 8)) else Fault);
  let msg c := le16 (htons (Z.lor code (Z.shiftl type 8))) ++ le16 c ++ unused ++ copy in
  Ok (msg (rfc1071 (msg 0))).

Definition icmp_error (s : ipst) (p : ipkt) (type code : Z) : outcome ipst :=
  let '(q, s) := new_packet s (8 + IP_HLEN + 8) in
  match q with
  | None => Ok s
  | Some q =>
      h ← read_iph (buf p) (pl p);
      body ← icmp_body q p type code;
      b ← store_at (buf q) (pl q) body;
      '(rc, s) ← ip_output s (set_buf q b) NULL (iph_src h) ICMP_TTL IP_PROTO_ICMP;
      Ok (if rc <? 0 then discard s q else s)
  end.
Definition icmp_dest_unreach (s : ipst) (p : ipkt) (t : Z) : outcome ipst := icmp_error s p ICMP_DUR t.
Definition icmp_time_exceeded (s : ipst) (p : ipkt) (t : Z) : outcome ipst := icmp_error s p ICMP_TE t.

(** ** UDP (net/udp.c) *)

Record udp_hdr := MkUh { uh_src : Z; uh_dest : Z; uh_len : Z; uh_chksum : Z }.

Definition uh_bytes (u : udp_hdr) : list Z := le16 (uh_src u) ++ le16 (uh_dest u) ++ le16 (uh_len u) ++ le16 (uh_chksum u).
Definition read_uh (b : list Z) (i : Z) : outcome udp_hdr :=
  let bs := sub b i UDP_HLEN in
  from_opt (if i <? 0 then None else
    a ← ld16 bs 0; b ← ld16 bs 2; c ← ld16 bs 4; d ← ld16 bs 6; Some (MkUh a b c d)).

(** inet_chksum_pseudo over the packet. *)
Definition pseudo_chksum (p : ipkt) (src dest proto : Z) : Z := rfc1071 (pseudo_bytes src dest proto (ptot p) ++ pdata p).

Definition udp_port_used (s : ipst) (port : Z) : bool :=
  existsb (fun a => match upcbs s !! a with Some u => u_lport u =? port | None => false end) (udp_pcbs s).

(** Each control block makes the search go on at most once. *)
Definition udp_new_port (s : ipst) : outcome (Z * ipst) :=
  port ← new_port_loop (udp_port_used s) (S (length (udp_pcbs s))) (udp_port s); Ok (port, set_udp_port s port).

(** The addresses of a control block admit the packet. *)
Definition addrs_match (u : udp_pcb) (h : ip_hdr) : bool :=
  (ip_addr_isany (u_rip u) || ip_addr_cmp (u_rip u) (iph_src h)) && (ip_addr_isany (u_lip u) || ip_addr_cmp (u_lip u) (iph_dest h)).

Definition find_udp (s : ipst) (f : udp_pcb -> bool) : option Z :=
  List.find (fun a => match upcbs s !! a with Some u => f u | None => false end) (udp_pcbs s).

Definition udp_demux (s : ipst) (h : ip_hdr) (src dest : Z) : option Z :=
  match find_udp s (fun u => (u_rport u =? src) && (u_lport u =? dest) && addrs_match u h) with
  | Some a => Some a
  | None => find_udp s (fun u => negb (has (u_flags u) UDP_FLAGS_CONNECTED) && (u_lport u =? dest) && addrs_match u h)
  end.

(** Nobody was told not to answer: the destination was one host. *)
Definition unicast (n : ifc) (dest : Z) : bool := negb (ip_addr_isbroadcast dest (if_mask n)) && negb (ip_addr_ismulticast dest).

Definition udp_input (s : ipst) (p : ipkt) (inp : Z) : outcome (Z * ipst) :=
  let iphdr := pl p in
  h ← read_iph (buf p) iphdr;
  n ← getif s inp;
  match header p (- (IPH_HL h * 4)) with
  | None => Ok (EPROTO, s)
  | Some p =>
      if u32 (ptot p) <? UDP_HLEN then Ok (EPROTO, s)
      else
        u ← read_uh (buf p) (pl p);
        if negb (has (if_flags n) NETIF_UDP_RX_CHECKSUM_OFFLOAD) && negb (uh_chksum u =? 0) &&
           negb (pseudo_chksum p (iph_src h) (iph_dest h) IP_PROTO_UDP =? 0) then Ok (EFAULT, s)
        else
          match udp_demux s h (ntohs (uh_src u)) (ntohs (uh_dest u)) with
          | None =>
              s ← (if unicast n (iph_dest h) then icmp_dest_unreach s (set_pl p iphdr) ICMP_DUR_PORT else Ok s);
              Ok (EHOSTUNREACH, s)
          | Some a =>
              pcb ← from_opt (upcbs s !! a);
              p ← from_opt (header p (- UDP_HLEN));
              if u_recv pcb then Ok (ask s (EvUdp a p (iph_src h) (ntohs (uh_src u)))) else Fault
          end
  end.

(** The header without its checksum, and with it: 0 is sent as 0xFFFF. *)
Definition udp_hdr_for (n : ifc) (u : udp_pcb) (p : ipkt) (src dst port : Z) : outcome ipkt :=
  let h0 := MkUh (htons (u_lport u)) (htons port) (htons (u16 (ptot p))) 0 in
  b ← store_at (buf p) (pl p) (uh_bytes h0);
  let p := set_buf p b in
  if negb (has (if_flags n) NETIF_UDP_TX_CHECKSUM_OFFLOAD) && negb (has (u_flags u) UDP_FLAGS_NOCHKSUM) then
    let c := pseudo_chksum p src dst IP_PROTO_UDP in
    b ← store_at (buf p) (pl p) (uh_bytes (MkUh (uh_src h0) (uh_dest h0) (uh_len h0) (if c =? 0 then 0xFFFF else c)));
    Ok (set_buf p b)
  else Ok p.

(** [dst_ip] and [netif] may be NULL. *)
Definition udp_send (s : ipst) (a : Z) (p : ipkt) (dst_ip : option Z) (dst_port netif : Z) : outcome (Z * ipst) :=
  u ← from_opt (upcbs s !! a);
  let dst := default (u_rip u) dst_ip in
  if ip_addr_isany dst then Ok (EDESTADDRREQ, s)
  else
    let port := if dst_port =? 0 then u_rport u else dst_port in
    if port =? 0 then Ok (ENOTCONN, s)
    else
      match header p UDP_HLEN with
      | None => Ok (ENOSPC, s)
      | Some p =>
          let nif := if netif =? NULL then route_to s dst else netif in
          if nif =? NULL then Ok (EHOSTUNREACH, s)
          else
            n ← getif s nif;
            if ip_addr_isbroadcast dst (if_mask n) && negb (has (u_flags u) UDP_FLAGS_BROADCAST) then Ok (EACCES, s)
            else
              let src := if ip_addr_isany (u_lip u) then if_ip n else u_lip u in
              p ← udp_hdr_for n u p src dst port;
              ip_output_if s p src (Some dst) UDP_TTL IP_PROTO_UDP nif
      end.

Definition udp_sendto (s : ipst) (a : Z) (p : ipkt) (dst_ip dst_port : Z) : outcome (Z * ipst) :=
  let nif := route_to s dst_ip in
  if nif =? NULL then Ok (EHOSTUNREACH, s) else udp_send s a p (Some dst_ip) dst_port nif.

(** Put the control block on the list unless it is there. *)
Definition udp_enlist (s : ipst) (a : Z) (u : udp_pcb) : ipst :=
  set_udp s (if bool_decide (a ∈ udp_pcbs s) then udp_pcbs s else a :: udp_pcbs s) (<[a := u]> (upcbs s)).

Definition udp_bind (s : ipst) (a ipaddr port : Z) : outcome (Z * ipst) :=
  u ← from_opt (upcbs s !! a);
  if negb (ip_addr_isany ipaddr) && negb (ip_ownaddr s ipaddr) then Ok (EADDRNOTAVAIL, s)
  else
    '(port, s) ← (if port =? 0 then udp_new_port s else Ok (port, s));
    Ok (0, udp_enlist s a (MkUdp ipaddr (u_rip u) port (u_rport u) (u_flags u) (u_recv u))).

Definition udp_connect (s : ipst) (a ipaddr port : Z) : outcome (Z * ipst) :=
  u ← from_opt (upcbs s !! a);
  '(lport, s) ← (if u_lport u =? 0 then udp_new_port s else Ok (u_lport u, s));
  Ok (0, udp_enlist s a (MkUdp (u_lip u) ipaddr lport port (Z.lor (u_flags u) UDP_FLAGS_CONNECTED) (u_recv u))).

Definition udp_recv (s : ipst) (a : Z) (recv : bool) : outcome ipst :=
  u ← from_opt (upcbs s !! a);
  Ok (set_udp s (udp_pcbs s) (<[a := MkUdp (u_lip u) (u_rip u) (u_lport u) (u_rport u) (u_flags u) recv]> (upcbs s))).

Definition udp_remove (s : ipst) (a : Z) : outcome ipst :=
  _ ← from_opt (upcbs s !! a); Ok (set_udp s (list_del a (udp_pcbs s)) (delete a (upcbs s))).

(** [a]: the address kmalloc returned, NULL if there is no memory. *)
Definition udp_new (s : ipst) (a : Z) : Z * ipst :=
  if a =? NULL then (NULL, s) else (a, set_udp s (udp_pcbs s) (<[a := MkUdp 0 0 0 0 0 false]> (upcbs s))).

Definition udp_init (s : ipst) : ipst := set_udp s [] (upcbs s).

(** ** Raw sockets (net/raw.c) *)

(** The control blocks in turn, until one eats the packet or fails. *)
Fixpoint raw_loop (l : list Z) (s : ipst) (p : ipkt) (proto src : Z) : outcome (Z * ipst) :=
  match l with
  | [] => Ok (0, s)
  | a :: l =>
      r ← from_opt (rpcbs s !! a);
      if (r_protocol r =? proto) && r_recv r then
        let '(rc, s) := ask s (EvRaw a p src) in
        if rc <? 0 then Ok (rc, s) else if 0 <? rc then Ok (1, s) else raw_loop l s p proto src
      else raw_loop l s p proto src
  end.

Definition raw_input (s : ipst) (p : ipkt) : outcome (Z * ipst) :=
  h ← read_iph (buf p) (pl p); raw_loop (raw_pcbs s) s p (IPH_PROTO h) (iph_src h).

Definition put_raw (s : ipst) (a : Z) (r : raw_pcb) : ipst := set_raw s (raw_pcbs s) (<[a := r]> (rpcbs s)).
Definition raw_bind (s : ipst) (a ip : Z) : outcome ipst :=
  r ← from_opt (rpcbs s !! a); Ok (put_raw s a (MkRaw ip (r_rip r) (r_ttl r) (r_protocol r) (r_recv r))).
Definition raw_connect (s : ipst) (a ip : Z) : outcome ipst :=
  r ← from_opt (rpcbs s !! a); Ok (put_raw s a (MkRaw (r_lip r) ip (r_ttl r) (r_protocol r) (r_recv r))).
Definition raw_recv (s : ipst) (a : Z) (recv : bool) : outcome ipst :=
  r ← from_opt (rpcbs s !! a); Ok (put_raw s a (MkRaw (r_lip r) (r_rip r) (r_ttl r) (r_protocol r) recv)).
Definition raw_sendto (s : ipst) (a : Z) (p : ipkt) (ipaddr : Z) : outcome (Z * ipst) :=
  r ← from_opt (rpcbs s !! a);
  let nif := route_to s ipaddr in
  if nif =? NULL then Ok (EHOSTUNREACH, s)
  else
    n ← getif s nif;
    ip_output_if s p (if ip_addr_isany (r_lip r) then if_ip n else r_lip r) (Some ipaddr) (r_ttl r) (r_protocol r) nif.
Definition raw_send (s : ipst) (a : Z) (p : ipkt) : outcome (Z * ipst) :=
  r ← from_opt (rpcbs s !! a); raw_sendto s a p (r_rip r).
Definition raw_remove (s : ipst) (a : Z) : outcome ipst :=
  _ ← from_opt (rpcbs s !! a); Ok (set_raw s (list_del a (raw_pcbs s)) (delete a (rpcbs s))).
Definition raw_new (s : ipst) (a proto : Z) : Z * ipst :=
  if a =? NULL then (NULL, s)
  else (a, set_raw s (a :: raw_pcbs s) (<[a := MkRaw 0 0 RAW_TTL (u16 proto) false]> (rpcbs s))).
Definition raw_init (s : ipst) : ipst := set_raw s [] (rpcbs s).

(** ** ICMP input (net/icmp.c) *)

(** The first two words of an echo request made those of the reply. *)
Definition echo_reply (w c : Z) : list Z :=
  let w := htons (Z.lor (Z.land (ntohs w) 255) (Z.shiftl ICMP_ER 8)) in
  let c := if htons (0xFFFF - Z.shiftl ICMP_ECHO 8) <=? c then u16 (c + (htons (Z.shiftl ICMP_ECHO 8) + 1))
           else u16 (c + htons (Z.shiftl ICMP_ECHO 8)) in
  le16 w ++ le16 c.

(** An echo request at [pl p]; its IP header [h] is at [iphdr]. *)
Definition icmp_echo (s : ipst) (p : ipkt) (h : ip_hdr) (iphdr inp : Z) : outcome (Z * ipst) :=
  n ← getif s inp;
  if ip_addr_isbroadcast (iph_dest h) (if_mask n) || ip_addr_ismulticast (iph_dest h) then Ok (EPROTO, s)
  else if negb (ip_ownaddr s (iph_dest h)) then Ok (EPROTO, s)
  else if u32 (ptot p) <? 8 then Ok (EPROTO, s)
  else if negb (rfc1071 (pdata p) =? 0) then Ok (EFAULT, s)
  else
    p' ← write_iph p iphdr (set_addrs h (iph_dest h) (iph_src h));
    w ← from_opt (ld16 (buf p') (Z.to_nat (pl p)));
    c ← from_opt (ld16 (buf p') (Z.to_nat (pl p) + 2));
    b ← store_at (buf p') (pl p) (echo_reply w c);
    p' ← from_opt (header (set_buf p' b) (IPH_HL h * 4));
    ip_output_if s p' (iph_dest h) None (IPH_TTL h) IP_PROTO_ICMP inp.

(** ip_input_dur only prints. *)
Definition icmp_input (s : ipst) (p : ipkt) (inp : Z) : outcome (Z * ipst) :=
  let iphdr := pl p in
  h ← read_iph (buf p) iphdr;
  match header p (- (IPH_HL h * 4)) with
  | None => Ok (EPROTO, s)
  | Some p =>
      if u32 (ptot p) <? 4 then Ok (EPROTO, s)
      else
        type ← aget (buf p) (pl p);
        if type =? ICMP_ECHO then icmp_echo s p h iphdr inp else Ok (EPROTO, s)
  end.

(** ** Forwarding and input (net/ip.c) *)

(** The checksum after the time to live went down by one. *)
Definition forward_chksum (c : Z) : Z :=
  if htons (0xffff - 0x100) <=? c then u16 (c + htons 0x100 + 1) else u16 (c + htons 0x100).

Definition ip_forward (s : ipst) (p : ipkt) (inp : Z) : outcome (Z * ipst) :=
  n ← getif s inp;
  h ← read_iph (buf p) (pl p);
  if ip_addr_isbroadcast (iph_dest h) (if_mask n) then Ok (0, discard s p)
  else
    let nif := route_to s (iph_dest h) in
    if (nif =? NULL) || (nif =? inp) then Ok (EHOSTUNREACH, s)
    else
      let h := IPH_TTL_SET h (IPH_TTL h - 1) in
      if IPH_TTL h =? 0 then
        p ← write_iph p (pl p) h;
        s ← (if IPH_PROTO h =? IP_PROTO_ICMP then Ok s else icmp_time_exceeded s p ICMP_TE_TTL);
        Ok (0, discard s p)
      else
        p ← write_iph p (pl p) (set_iph_chksum h (forward_chksum (iph_chksum h)));
        if nf_hook_post_route s p =? NF_DROP then Ok (EPROTO, discard s p)
        else send_out s nif p (iph_dest h).

(** The interface a packet is for. *)
Definition accepts (h : ip_hdr) (n : ifc) : bool :=
  ip_addr_isany (if_ip n) || ip_addr_cmp (iph_dest h) (if_ip n) ||
  (ip_addr_isbroadcast (iph_dest h) (if_mask n) && ip_addr_maskcmp (iph_dest h) (if_ip n) (if_mask n)) ||
  ip_addr_cmp (iph_dest h) IP_ADDR_BROADCAST.

(** A packet that looks like one of a DHCP server; [i]: where the IP header is. *)
Definition from_dhcp_server (p : ipkt) (h : ip_hdr) (i : Z) : outcome bool :=
  if IPH_PROTO h =? IP_PROTO_UDP then
    src ← from_opt (ld16 (buf p) (Z.to_nat (i + IPH_HL h * 4))); Ok (src =? DHCP_SERVER_PORT)
  else Ok false.

Definition for_us (s : ipst) (p : ipkt) (h : ip_hdr) : outcome bool :=
  match find_if s (accepts h) with Some _ => Ok true | None => from_dhcp_server p h (pl p) end.

Section Input.
Context (tcp_in : ipst -> ipkt -> Z -> outcome (Z * ipst)).

(** Raw sockets first, then the protocol of the packet. *)
Definition ip_deliver (s : ipst) (p : ipkt) (h : ip_hdr) (n : ifc) (inp : Z) : outcome (Z * ipst) :=
  '(rc, s) ← raw_input s p;
  if rc <? 0 then Ok (rc, s)
  else if 0 <? rc then Ok (0, s)
  else if IPH_PROTO h =? IP_PROTO_UDP then udp_input s p inp
  else if IPH_PROTO h =? IP_PROTO_TCP then tcp_in s p inp
  else if IPH_PROTO h =? IP_PROTO_ICMP then icmp_input s p inp
  else
    s ← (if unicast n (iph_dest h) then icmp_dest_unreach s p ICMP_DUR_PROTO else Ok s);
    Ok (EPROTO, s).

(** Fragments and packets with options are refused. *)
Definition refused (h : ip_hdr) : bool :=
  negb (Z.land (iph_offset h) (htons (Z.lor IP_OFFMASK IP_MF)) =? 0) || (IP_HLEN <? IPH_HL h * 4).

Definition ip_input (s : ipst) (p : ipkt) (inp : Z) : outcome (Z * ipst) :=
  if nf_hook_pre_route s p =? NF_DROP then Ok (EPROTO, discard s p)
  else
    n ← getif s inp;
    h ← read_iph (buf p) (pl p);
    if negb (IPH_V h =? 4) then Ok (EPROTO, s)
    else if plen p <? IPH_HL h * 4 then Ok (EPROTO, s)
    else if negb (has (if_flags n) NETIF_IP_RX_CHECKSUM_OFFLOAD) && negb (rfc1071 (sub (buf p) (pl p) (IPH_HL h * 4)) =? 0) then Ok (EFAULT, s)
    else
      p ← shorten p (ntohs (iph_len h));
      us ← for_us s p h;
      if negb us then
        if ip_addr_isbroadcast (iph_dest h) (if_mask n) then Ok (0, discard s p)
        else
          '(rc, s) ← ip_forward s p inp;
          Ok (0, if rc <? 0 then discard s p else s)
      else if refused h then Ok (EPROTO, s)
      else ip_deliver s p h n inp.

End Input.
