(* ===== verification/IpBase.v ===== *)
(** * Lemmas on IP packets: buffers, headers and their checksums *)

From S2P Require Import Prelude Pbuf Inet Arp Ether Tcp TcpBase TcpRecv Ip.

(** ** Parts of buffers *)

Lemma store_at_Ok b i bs b' : store_at b i bs = Ok b' <->
  0 <= i /\ i + Z.of_nat (length bs) <= Z.of_nat (length b) /\ b' = take (Z.to_nat i) b ++ bs ++ drop (Z.to_nat i + length bs) b.
Proof.
  unfold store_at. destruct (Z.leb_spec 0 i), (Z.leb_spec (i + Z.of_nat (length bs)) (Z.of_nat (length b))); cbn; split; intros E;
    try done; try lia.
  - injection E as <-. done.
  - destruct E as (_ & _ & ->). done.
Qed.

Lemma store_at_length b i bs b' : store_at b i bs = Ok b' -> length b' = length b.
Proof. intros (H0 & Hl & ->)%store_at_Ok. rewrite !length_app, length_take, length_drop. lia. Qed.

Lemma sub_store_same b i bs b' : store_at b i bs = Ok b' -> sub b' i (Z.of_nat (length bs)) = bs.
Proof.
  intros (H0 & Hl & ->)%store_at_Ok. unfold sub. rewrite drop_app_length' by (rewrite length_take; lia).
  by rewrite take_app_length' by lia.
Qed.

Lemma sub_store_after b i bs b' j n : store_at b i bs = Ok b' -> i + Z.of_nat (length bs) <= j -> sub b' j n = sub b j n.
Proof.
  intros (H0 & Hl & ->)%store_at_Ok Hj. unfold sub. rewrite !drop_app_ge by (rewrite ?length_take; lia).
  rewrite length_take, drop_drop. do 2 f_equal. lia.
Qed.

Lemma sub_store_before b i bs b' j n : store_at b i bs = Ok b' -> 0 <= j -> j + n <= i -> sub b' j n = sub b j n.
Proof.
  intros (H0 & Hl & ->)%store_at_Ok Hj Hn. unfold sub. destruct (decide (n <= 0)); [by replace (Z.to_nat n) with 0%nat by lia|].
  rewrite drop_app_le by (rewrite length_take; lia). rewrite take_app_le by (rewrite length_drop, length_take; lia).
  rewrite !take_drop_commute, take_take. do 2 f_equal. lia.
Qed.

Lemma length_sub b i n : 0 <= i -> 0 <= n -> i + n <= Z.of_nat (length b) -> length (sub b i n) = Z.to_nat n.
Proof. intros. unfold sub. rewrite length_take, length_drop. lia. Qed.

Lemma sub_split b i n m : 0 <= i -> 0 <= n -> 0 <= m -> sub b i (n + m) = sub b i n ++ sub b (i + n) m.
Proof.
  intros. unfold sub. rewrite !Z2Nat.inj_add by lia. rewrite <- drop_drop. by rewrite take_take_drop.
Qed.

Lemma sub_bytes b i n : bytes_ok b -> bytes_ok (sub b i n).
Proof. intros. by apply Forall_take, Forall_drop. Qed.

(** ** Packets *)

(** The lengths are those of the bytes. *)
Record wfp (p : ipkt) : Prop := {
  wf_pl : 0 <= pl p /\ 0 <= plen p /\ pl p + plen p <= Z.of_nat (length (buf p));
  wf_tot : ptot p = plen p + Z.of_nat (length (concat (more p)));
  wf_max : pl p + ptot p < 2 ^ 31 }.

Lemma length_pdata p : wfp p -> Z.of_nat (length (pdata p)) = ptot p.
Proof. intros [(Hp & Hl & Hb) Ht _]. unfold pdata. rewrite length_app, length_sub by lia. lia. Qed.

(** pbuf_header forwards and back. *)
Lemma header_fwd p n : wfp p -> 0 <= n <= plen p -> exists p', header p (- n) = Some p' /\ wfp p' /\
  p' = MkPacket (pid p) (buf p) (pl p + n) (plen p - n) (ptot p - n) (more p) /\ pdata p' = drop (Z.to_nat n) (pdata p).
Proof.
  intros W Hn. pose proof W as [(Hp & Hl & Hb) Ht Hm]. unfold header. rewrite (proj2 (Z.ltb_ge _ _)) by lia.
  eexists. split; [done|]. rewrite !s32_small by lia. split_and!.
  - split; cbn; lia.
  - f_equal; lia.
  - unfold pdata. cbn [buf pl plen more]. replace (pl p - - n) with (pl p + n) by lia.
    replace (sub (buf p) (pl p) (plen p)) with (sub (buf p) (pl p) n ++ sub (buf p) (pl p + n) (plen p - n))
      by (rewrite <- sub_split by lia; f_equal; lia).
    by rewrite <- app_assoc, drop_app_length', Z.add_opp_r by (rewrite length_sub by lia; lia).
Qed.

Lemma header_back p n : wfp p -> 0 <= n <= pl p -> exists p', header p n = Some p' /\ wfp p' /\
  p' = MkPacket (pid p) (buf p) (pl p - n) (plen p + n) (ptot p + n) (more p) /\ pdata p' = sub (buf p) (pl p - n) n ++ pdata p.
Proof.
  intros W Hn. pose proof W as [(Hp & Hl & Hb) Ht Hm]. unfold header. rewrite (proj2 (Z.ltb_ge _ _)) by lia.
  eexists. split; [done|]. rewrite !s32_small by lia. split_and!.
  - split; cbn; lia.
  - done.
  - unfold pdata. cbn [buf pl plen more]. rewrite app_assoc. f_equal. rewrite (Z.add_comm (plen p)), sub_split by lia. do 2 f_equal. lia.
Qed.

(** Writing at the payload pointer. *)
Lemma pdata_store p bs b : wfp p -> Z.of_nat (length bs) <= plen p -> store_at (buf p) (pl p) bs = Ok b ->
  wfp (set_buf p b) /\ pdata (set_buf p b) = bs ++ drop (length bs) (pdata p).
Proof.
  intros W Hn E. pose proof W as [(Hp & Hl & Hb) Ht Hm]. pose proof (store_at_length _ _ _ _ E) as El. split.
  { split; cbn [set_buf pl plen buf ptot more]; rewrite ?El; done. }
  unfold pdata. cbn [set_buf buf pl plen more].
  assert (forall b, sub b (pl p) (plen p) = sub b (pl p) (Z.of_nat (length bs)) ++ sub b (pl p + Z.of_nat (length bs)) (plen p - Z.of_nat (length bs))) as Hs.
  { intros b0. rewrite <- sub_split by lia. f_equal. lia. }
  rewrite !Hs, (sub_store_same _ _ _ _ E), (sub_store_after _ _ _ _ _ _ E) by lia. rewrite <- !app_assoc. f_equal.
  by rewrite drop_app_length' by (rewrite length_sub by lia; lia).
Qed.

(** pbuf_realloc cuts off what follows. *)
Lemma shorten_ok p bs pad : wfp p -> pdata p = bs ++ pad -> exists p', shorten p (Z.of_nat (length bs)) = Ok p' /\ wfp p' /\ pdata p' = bs /\
  pid p' = pid p /\ buf p' = buf p /\ pl p' = pl p /\ plen p' = Z.min (plen p) (Z.of_nat (length bs)).
Proof.
  intros W E. pose proof W as [(Hp & Hl & Hb) Ht Hm]. pose proof (length_pdata _ W) as El. rewrite E, length_app in El. unfold shorten.
  destruct (Z.leb_spec (ptot p) (Z.of_nat (length bs))) as [H1|H1].
  { destruct pad; [|cbn in El; lia]. rewrite app_nil_r in E. exists p. split_and!; try done. lia. }
  unfold pdata in E. assert (bs = take (length bs) (sub (buf p) (pl p) (plen p) ++ concat (more p))) as Eb by by rewrite E, take_app_length.
  rewrite take_app, length_sub in Eb by lia. destruct (Z.ltb_spec (plen p) (Z.of_nat (length bs))) as [H2|H2].
  - destruct (cut_pieces_ok (more p) (Z.of_nat (length bs) - plen p)) as (l & El2 & Ec & _); [intros En; rewrite En in Ht; cbn in Ht; lia|lia|].
    rewrite El2. cbn [mbind outcome_bind]. eexists. split; [done|]. cbn [pid buf pl plen].
    assert (length (concat l) = Z.to_nat (Z.of_nat (length bs) - plen p)) as Hlc by (rewrite Ec, length_take; lia).
    split_and!; try done; try lia.
    + split; cbn [pl plen buf ptot more]; [lia|rewrite Hlc; lia|lia].
    + unfold pdata. cbn [buf pl plen more]. rewrite Ec. symmetry. etrans; [exact Eb|]. rewrite (take_ge (sub _ _ _)) by (rewrite length_sub by lia; lia).
      do 2 f_equal. lia.
  - eexists. split; [done|]. cbn [pid buf pl plen]. split_and!; try done; try lia.
    + split; cbn [pl plen buf ptot more concat length]; lia.
    + unfold pdata. cbn [buf pl plen more concat]. rewrite app_nil_r. symmetry. etrans; [exact Eb|].
      replace (length bs - Z.to_nat (plen p))%nat with 0%nat by lia. rewrite take_0, app_nil_r. unfold sub. rewrite take_take. f_equal. lia.
Qed.

(** ** Sums *)

Lemma psum_le16 x bs : psum false (le16 x ++ bs) = u16 x + psum false bs.
Proof. rewrite <- le16_val. cbn [le16 app psum negb]. lia. Qed.

Lemma psum_le32 x bs : psum false (le32 x ++ bs) = u16 x + u16 (x / 65536) + psum false bs.
Proof. unfold le32. rewrite <- app_assoc, !psum_le16. lia. Qed.

(** A packet passes the test when its words add up to a multiple of 65535, not 0. *)
Lemma rfc1071_zero bs : bytes_ok bs -> rfc1071 bs = 0 <-> psum false bs mod 65535 = 0 /\ psum false bs <> 0.
Proof.
  intros (Hs & Hm & H0)%onec_sum_rep. unfold rfc1071. split.
  - intros E. assert (onec_sum bs = 65535) as Eo by lia. rewrite Eo in Hm, H0. split; [by rewrite <- Hm|]. intros E0. apply H0 in E0. lia.
  - intros [E E0]. rewrite E in Hm. assert (onec_sum bs <> 0) by tauto. destruct (decide (onec_sum bs = 65535)); [lia|].
    rewrite Z.mod_small in Hm by lia. lia.
Qed.

Lemma rfc1071_range bs : bytes_ok bs -> 0 <= rfc1071 bs < 65536.
Proof. intros (Hs & _)%onec_sum_rep. unfold rfc1071. lia. Qed.

(** ** The IP header *)

Record iph_ok (h : ip_hdr) : Prop := {
  io_v : 0 <= v_hl_tos h < 65536; io_len : 0 <= iph_len h < 65536; io_id : 0 <= iph_id h < 65536; io_off : 0 <= iph_offset h < 65536;
  io_ttl : 0 <= ttl_proto h < 65536; io_chk : 0 <= iph_chksum h < 65536; io_src : 0 <= iph_src h < 2 ^ 32; io_dest : 0 <= iph_dest h < 2 ^ 32 }.

(** The sum of the words that are neither time to live nor checksum nor addresses. *)
Definition fixed_sum (h : ip_hdr) : Z := v_hl_tos h + iph_len h + iph_id h + iph_offset h.
Definition addr_sum (a : Z) : Z := u16 a + u16 (a / 65536).

Lemma psum_iph h r : iph_ok h ->
  psum false (iph_bytes h ++ r) = fixed_sum h + ttl_proto h + iph_chksum h + addr_sum (iph_src h) + addr_sum (iph_dest h) + psum false r.
Proof.
  intros [? ? ? ? ? ? ? ?]. unfold iph_bytes, fixed_sum, addr_sum. rewrite <- !app_assoc, !psum_le16, !psum_le32. rewrite !(u16_small (v_hl_tos h)), !(u16_small (iph_len h)),
    !(u16_small (iph_id h)), !(u16_small (iph_offset h)), !(u16_small (ttl_proto h)), !(u16_small (iph_chksum h)) by lia. lia.
Qed.

Lemma iph_bytes_ok h : bytes_ok (iph_bytes h).
Proof. unfold iph_bytes. repeat (apply Forall_app; split); try apply le16_ok; apply le32_ok. Qed.

Lemma le16_pair a b : 0 <= a < 256 -> 0 <= b < 256 -> le16 (a + 256 * b) = [a; b].
Proof.
  intros. unfold le16. rewrite Z.mul_comm, Z.mod_add, Z.div_add, (Z.mod_small a), (Z.div_small a) by lia. cbn.
  by rewrite Z.mod_small.
Qed.

Lemma le32_four a b c d : 0 <= a < 256 -> 0 <= b < 256 -> 0 <= c < 256 -> 0 <= d < 256 ->
  le32 (a + 256 * b + 65536 * (c + 256 * d)) = [a; b; c; d].
Proof.
  intros. unfold le32. assert (le16 (a + 256 * b + 65536 * (c + 256 * d)) = le16 (a + 256 * b)) as ->.
  { unfold le16. replace (a + 256 * b + 65536 * (c + 256 * d)) with (a + (b + 256 * (c + 256 * d)) * 256) by lia.
    replace (a + 256 * b) with (a + b * 256) by lia. rewrite !Z.mod_add, !Z.div_add by lia. rewrite (Z.div_small a) by lia. f_equal.
    rewrite !Z.add_0_l. by rewrite (Z.mul_comm 256), Z.mod_add by lia. }
  replace ((a + 256 * b + 65536 * (c + 256 * d)) / 65536) with (c + 256 * d) by (rewrite (Z.mul_comm 65536), Z.div_add, Z.div_small by lia; lia).
  by rewrite !le16_pair by lia.
Qed.

Lemma read_iph_bytes b i h : 0 <= i -> sub b i IP_HLEN = iph_bytes h -> iph_ok h -> read_iph b i = Ok h.
Proof.
  intros Hi E [? ? ? ? ? ? ? ?]. unfold read_iph. rewrite E, (proj2 (Z.ltb_ge _ _)) by lia. unfold iph_bytes, le32, le16, ld32, ld16.
  cbn [app lookup list_lookup mbind option_bind from_opt]. rewrite !le16_val, !le32_val, !u16_small, !u32_small by done. by destruct h.
Qed.

Lemma read_iph_inv b i h : bytes_ok b -> read_iph b i = Ok h -> 0 <= i /\ i + IP_HLEN <= Z.of_nat (length b) /\ sub b i IP_HLEN = iph_bytes h /\ iph_ok h.
Proof.
  intros Hb. unfold read_iph. destruct (Z.ltb_spec i 0) as [|Hi]; [done|]. pose proof (sub_bytes b i IP_HLEN Hb) as Hs.
  assert (length (sub b i IP_HLEN) <= 20)%nat as Hl by (unfold sub, IP_HLEN; rewrite length_take; lia).
  assert (i + Z.of_nat (length (sub b i IP_HLEN)) <= Z.max i (Z.of_nat (length b))) as Hm by (unfold sub; rewrite length_take, length_drop; lia).
  revert Hs Hl Hm. generalize (sub b i IP_HLEN) as bs. intros bs Hs Hl Hm E. unfold ld32, ld16 in E.
  do 20 (destruct bs as [|? bs]; [discriminate E|]). destruct bs; [|cbn in Hl; lia].
  cbn [lookup list_lookup mbind option_bind from_opt] in E. injection E as <-. clear Hl. cbn [length] in Hm.
  repeat match goal with H : Forall _ (_ :: _) |- _ => apply Forall_cons in H as [? H] end.
  split_and!; [lia|unfold IP_HLEN; lia| |split; cbn; lia].
  unfold iph_bytes. cbn [v_hl_tos iph_len iph_id iph_offset ttl_proto iph_chksum iph_src iph_dest].
  by rewrite !le32_four, !le16_pair by lia.
Qed.

(** *** Its fields *)

Lemma htons_pair a b : 0 <= a < 256 -> 0 <= b < 256 -> htons (a + 256 * b) = b + 256 * a.
Proof. intros. rewrite htons_val by lia. rewrite (Z.mul_comm 256 b), Z.mod_add, Z.div_add, (Z.mod_small a), (Z.div_small a) by lia. lia. Qed.

Lemma pair_of w : 0 <= w < 65536 -> w = w mod 256 + 256 * (w / 256) /\ 0 <= w mod 256 < 256 /\ 0 <= w / 256 < 256.
Proof.
  intros. pose proof (Z.div_mod w 256 ltac:(lia)). pose proof (Z.mod_pos_bound w 256 ltac:(lia)).
  split_and!; lia.
Qed.

Lemma ntohs_pair w : 0 <= w < 65536 -> ntohs w = w / 256 + 256 * (w mod 256).
Proof. intros (E & ? & ?)%pair_of. rewrite E at 1. change ntohs with htons. by rewrite htons_pair. Qed.

Lemma iph_ttl h : iph_ok h -> IPH_TTL h = ttl_proto h mod 256.
Proof.
  intros [? ? ? ? Ht ? ? ?]. unfold IPH_TTL. rewrite ntohs_pair, Z.shiftr_div_pow2 by lia. change (2 ^ 8) with 256.
  destruct (pair_of _ Ht) as (_ & ? & ?). rewrite Z.mul_comm, Z.div_add, Z.div_small by lia. lia.
Qed.

Lemma iph_proto h : iph_ok h -> IPH_PROTO h = ttl_proto h / 256.
Proof.
  intros [? ? ? ? Ht ? ? ?]. unfold IPH_PROTO. rewrite ntohs_pair by lia. change 255 with (Z.ones 8). rewrite Z.land_ones by lia. change (2 ^ 8) with 256.
  destruct (pair_of _ Ht) as (_ & ? & ?). rewrite Z.mul_comm, Z.mod_add, Z.mod_small by lia. done.
Qed.

Lemma lor_high a t : 0 <= a < 256 -> u16 (Z.lor a (Z.shiftl t 8)) = a + 256 * u8 t.
Proof.
  intros Ha. rewrite Z.lor_comm, Z.shiftl_mul_pow2, lor_add by lia. unfold u16, u8. change (2 ^ 16) with (2 ^ 8 * 2 ^ 8).
  rewrite Z.rem_mul_r, (Z.add_comm _ a), Z.mod_add, Z.div_add, (Z.mod_small a), (Z.div_small a), Z.add_0_l by lia. done.
Qed.

Lemma ttl_set_word h t : iph_ok h -> ttl_proto (IPH_TTL_SET h t) = u8 t + 256 * IPH_PROTO h.
Proof.
  intros H. pose proof (iph_proto h H) as Ep. destruct H as [? ? ? ? Ht ? ? ?]. destruct (pair_of _ Ht) as (_ & ? & ?).
  cbn [IPH_TTL_SET ttl_proto]. rewrite lor_high, htons_pair by (try apply u8_range; lia). done.
Qed.

Lemma ttl_set_ok h t : iph_ok h -> iph_ok (IPH_TTL_SET h t).
Proof.
  intros H. pose proof (ttl_set_word h t H) as E. pose proof (iph_proto h H) as Ep. destruct H as [? ? ? ? Ht ? ? ?]. destruct (pair_of _ Ht) as (_ & ? & ?).
  pose proof (u8_range t). split; cbn [IPH_TTL_SET v_hl_tos iph_len iph_id iph_offset iph_chksum iph_src iph_dest]; try done.
  rewrite E. change (2 ^ 8) with 256 in *. lia.
Qed.

(** *** Its checksum *)

(** Adding the checksum to a sum makes it a multiple of 65535 that is not 0. *)
Lemma add_chksum bs : bytes_ok bs -> (psum false bs + rfc1071 bs) mod 65535 = 0 /\ psum false bs + rfc1071 bs <> 0.
Proof.
  intros Hb. pose proof (psum_nonneg false bs Hb). destruct (onec_sum_rep bs Hb) as (Hs & Hm & H0). unfold rfc1071. split; [|lia].
  replace (psum false bs + (65535 - onec_sum bs)) with (psum false bs - onec_sum bs + 1 * 65535) by lia.
  rewrite Z.mod_add by lia. by rewrite Zminus_mod, Hm, Z.sub_diag.
Qed.

Lemma iph_verifies h : iph_ok h -> rfc1071 (iph_bytes h) = 0 <->
  let t := fixed_sum h + ttl_proto h + iph_chksum h + addr_sum (iph_src h) + addr_sum (iph_dest h) in t mod 65535 = 0 /\ t <> 0.
Proof.
  intros H. rewrite rfc1071_zero by apply iph_bytes_ok. rewrite <- (app_nil_r (iph_bytes h)), psum_iph by done. cbn [psum]. by rewrite Z.add_0_r.
Qed.

Lemma iph_chksum_set h : iph_ok (set_iph_chksum h 0) ->
  let h' := set_iph_chksum h (rfc1071 (iph_bytes (set_iph_chksum h 0))) in iph_ok h' /\ rfc1071 (iph_bytes h') = 0.
Proof.
  intros H h'. set (h0 := set_iph_chksum h 0) in *. pose proof (rfc1071_range _ (iph_bytes_ok h0)) as Hr.
  assert (iph_ok h') as H' by (destruct H; by split). split; [done|]. apply iph_verifies; [done|].
  pose proof (add_chksum (iph_bytes h0) (iph_bytes_ok h0)) as E. rewrite <- (app_nil_r (iph_bytes h0)) in E at 1 3.
  rewrite psum_iph in E by done. cbn [psum h0 set_iph_chksum iph_chksum] in E. unfold h'. cbv zeta. fold h0 in E |- *.
  unfold fixed_sum in *. cbn [set_iph_chksum v_hl_tos iph_len iph_id iph_offset ttl_proto iph_src iph_dest iph_chksum h0] in *.
  match goal with |- ?a mod _ = 0 /\ _ => match type of E with ?b mod _ = 0 /\ _ => replace a with b by lia end end. done.
Qed.

(** What ip_output_if writes. *)
Record sent_hdr (h : ip_hdr) (src dest proto tot : Z) : Prop := {
  sh_ok : iph_ok h; sh_v : IPH_V h = 4; sh_hl : IPH_HL h = 5; sh_proto : IPH_PROTO h = proto; sh_len : ntohs (iph_len h) = tot;
  sh_whole : refused h = false; sh_src : iph_src h = src; sh_dest : iph_dest h = dest }.

Lemma out_hdr_sent n h src dest ttl proto tot id :
  iph_ok h -> 0 <= tot < 65536 -> 0 <= id < 65536 -> 0 <= proto < 256 -> is_addr src -> is_addr dest -> is_addr (if_ip n) ->
  let h' := out_hdr n h src dest ttl proto tot id in
  sent_hdr h' (if ip_addr_isany src then if_ip n else src) dest proto tot /\
  (has (if_flags n) NETIF_IP_TX_CHECKSUM_OFFLOAD = false -> rfc1071 (iph_bytes h') = 0).
Proof.
  intros Hh Ht Hi Hp Hs Hd Hn h'. unfold is_addr in *. pose proof (ttl_set_ok h ttl Hh) as H1. pose proof (iph_ttl _ H1) as Et.
  pose proof H1 as [_ _ _ _ Hw _ _ _]. destruct (pair_of _ Hw) as (_ & Hb & _). rewrite <- Et in Hb.
  assert (ttl_proto (IPH_PROTO_SET (IPH_TTL_SET h ttl) proto) = IPH_TTL (IPH_TTL_SET h ttl) + 256 * proto) as Ew.
  { cbn [IPH_PROTO_SET ttl_proto]. rewrite lor_high, htons_pair by (try apply u8_range; lia). by rewrite u8_small by (change (2 ^ 8) with 256; lia). }
  set (w := ttl_proto (IPH_PROTO_SET (IPH_TTL_SET h ttl) proto)) in *. set (a := if ip_addr_isany src then if_ip n else src) in *.
  set (hd c := MkIph (IPH_VHLTOS 4 (IP_HLEN / 4) 0) (htons (u16 tot)) (htons id) (htons IP_DF) w c a dest).
  assert (h' = if has (if_flags n) NETIF_IP_TX_CHECKSUM_OFFLOAD then hd 0 else set_iph_chksum (hd 0) (rfc1071 (iph_bytes (hd 0)))) as E.
  { reflexivity. }
  assert (u16 tot = tot) as Eu by (apply u16_small; change (2 ^ 16) with 65536; lia).
  assert (forall c, 0 <= c < 65536 -> iph_ok (hd c)) as Hok.
  { intros c Hc. split; cbn [hd v_hl_tos iph_len iph_id iph_offset ttl_proto iph_chksum iph_src iph_dest].
    - by vm_compute.
    - rewrite Eu. by apply htons_range.
    - by apply htons_range.
    - by vm_compute.
    - rewrite Ew. lia.
    - exact Hc.
    - unfold a. by destruct (ip_addr_isany src).
    - exact Hd. }
  assert (forall c, 0 <= c < 65536 -> sent_hdr (hd c) a dest proto tot) as Hsent.
  { intros c Hc. split; [by apply Hok|reflexivity|reflexivity| | |reflexivity|reflexivity|reflexivity].
    - rewrite iph_proto by by apply Hok. cbn [hd ttl_proto]. rewrite Ew, (Z.mul_comm 256), Z.div_add, Z.div_small by lia. lia.
    - cbn [hd iph_len]. rewrite Eu. by apply ntohs_htons. }
  clearbody w a h'.
  pose proof (rfc1071_range _ (iph_bytes_ok (hd 0))). destruct (has _ _); rewrite E; (split; [by apply Hsent|]); [done|].
  intros _. apply (iph_chksum_set (hd 0)), Hok. lia.
Qed.
