(* ===== verification/IpWire.v ===== *)
(** * IP on the wire: what is sent is accepted, forwarded and answered *)

From S2P Require Import Prelude Pbuf Inet Arp Ether Tcp TcpBase TcpRecv Ip IpBase.

(** ** Sending *)

(** No filter refuses a packet. *)
Definition accepting (s : ipst) : Prop := forall num arg p, run_hooks s num arg p = NF_ACCEPT.

Lemma accepting_hooks s s' : nf_hooks s' = nf_hooks s -> accepting s -> accepting s'.
Proof. intros E H num arg p. unfold run_hooks. rewrite E. apply H. Qed.

Lemma sub_pdata p n : wfp p -> 0 <= n <= plen p -> sub (buf p) (pl p) n = take (Z.to_nat n) (pdata p).
Proof.
  intros [(Hp & Hl & Hb) _ _] Hn. unfold pdata. rewrite take_app_le by (rewrite length_sub by lia; lia). unfold sub. rewrite take_take. f_equal. lia.
Qed.

Lemma length_iph h : length (iph_bytes h) = 20%nat.
Proof. done. Qed.

Lemma length_uh u : length (uh_bytes u) = 8%nat.
Proof. done. Qed.

(** The bytes that were there before a header is written read as some header. *)
Lemma read_iph_total b i : bytes_ok b -> 0 <= i -> i + IP_HLEN <= Z.of_nat (length b) -> exists h, read_iph b i = Ok h /\ iph_ok h.
Proof.
  intros Hb Hi Hl. assert (length (sub b i IP_HLEN) = 20%nat) as E by (rewrite length_sub by (unfold IP_HLEN in *; lia); done).
  assert (exists h, read_iph b i = Ok h) as (h & Eh).
  { unfold read_iph. rewrite (proj2 (Z.ltb_ge _ _)) by lia. revert E. generalize (sub b i IP_HLEN) as bs. intros bs E.
    do 20 (destruct bs as [|? bs]; [discriminate E|]). by eexists. }
  exists h. split; [done|]. by destruct (read_iph_inv _ _ _ Hb Eh) as (_ & _ & _ & ?).
Qed.

Lemma bytes_store b i bs b' : bytes_ok b -> bytes_ok bs -> store_at b i bs = Ok b' -> bytes_ok b'.
Proof. intros Hb Hs (_ & _ & ->)%store_at_Ok. apply Forall_app. split; [by apply Forall_take|]. apply Forall_app. split; [done|by apply Forall_drop]. Qed.

Lemma store_at_total b i bs : 0 <= i -> i + Z.of_nat (length bs) <= Z.of_nat (length b) -> exists b', store_at b i bs = Ok b'.
Proof. intros. eexists. apply store_at_Ok. split_and!; done. Qed.

Lemma push_hdr_ok s n p src d ttl proto :
  wfp p -> bytes_ok (buf p) -> 20 <= pl p -> 20 + ptot p < 65536 -> 0 <= ip_id s < 65536 -> 0 <= proto < 256 ->
  is_addr src -> is_addr d -> is_addr (if_ip n) ->
  exists h p', push_hdr s n p src d ttl proto = Ok (Some p', set_ip_id s (u16 (ip_id s + 1))) /\
    wfp p' /\ bytes_ok (buf p') /\ pid p' = pid p /\ pdata p' = iph_bytes h ++ pdata p /\
    sent_hdr h (if ip_addr_isany src then if_ip n else src) d proto (20 + ptot p) /\
    (has (if_flags n) NETIF_IP_TX_CHECKSUM_OFFLOAD = false -> rfc1071 (iph_bytes h) = 0).
Proof.
  intros W Hb Hp Ht Hi Hpr Hs Hd Hn. pose proof (length_pdata _ W) as Hld.
  destruct (header_back p IP_HLEN W ltac:(unfold IP_HLEN; lia)) as (p1 & E1 & W1 & E1' & D1). unfold push_hdr. rewrite E1.
  assert (buf p1 = buf p /\ pl p1 = pl p - 20 /\ plen p1 = plen p + 20 /\ ptot p1 = 20 + ptot p /\ pid p1 = pid p) as (B1 & P1 & L1 & T1 & I1)
    by (rewrite E1'; cbn [buf pl plen ptot pid]; unfold IP_HLEN; split_and!; (done || lia)).
  destruct W as [(Hp0 & Hl & Hbl) Ht0 Hm]. destruct (read_iph_total (buf p1) (pl p1)) as (h0 & R & H0); [by rewrite B1|lia|unfold IP_HLEN; rewrite B1; lia|].
  rewrite R. cbn [mbind outcome_bind]. set (h := out_hdr n h0 src d ttl proto (ptot p1) (ip_id s)).
  destruct (out_hdr_sent n h0 src d ttl proto (ptot p1) (ip_id s)) as [Hsent Hchk]; try done; [lia|]. fold h in Hsent, Hchk.
  clearbody h. destruct (store_at_total (buf p1) (pl p1) (iph_bytes h)) as (b & Eb); [lia|rewrite B1, length_iph; lia|].
  unfold write_iph. rewrite Eb. cbn [mbind outcome_bind]. exists h, (set_buf p1 b). split; [done|].
  destruct (pdata_store p1 (iph_bytes h) b W1) as [W2 D2]; [rewrite length_iph; lia|done|].
  split; [done|]. split; [|split; [done|split]].
  - cbn [set_buf buf]. eapply bytes_store; [|apply iph_bytes_ok|exact Eb]. by rewrite B1.
  - rewrite D2, D1, length_iph, drop_app_length'; [done|]. rewrite length_sub; unfold IP_HLEN; lia.
  - rewrite <- T1. done.
Qed.

(** ip_output_if with a filter that lets the packet pass. *)
Lemma send_out_ok s nif n p d : nifs s !! nif = Some n -> if_output n = true -> send_out s nif p d = Ok (ask s (EvOut nif p d)).
Proof. intros E Ho. unfold send_out, getif. rewrite E. cbn [from_opt mbind outcome_bind]. by rewrite Ho. Qed.

Lemma ip_output_if_ok s nif n p src d ttl proto :
  nifs s !! nif = Some n -> if_output n = true -> accepting s ->
  wfp p -> bytes_ok (buf p) -> 20 <= pl p -> 20 + ptot p < 65536 -> 0 <= ip_id s < 65536 -> 0 <= proto < 256 ->
  is_addr src -> is_addr d -> is_addr (if_ip n) ->
  exists h p', ip_output_if s p src (Some d) ttl proto nif = Ok (ask (set_ip_id s (u16 (ip_id s + 1))) (EvOut nif p' d)) /\
    wfp p' /\ bytes_ok (buf p') /\ pid p' = pid p /\ pdata p' = iph_bytes h ++ pdata p /\
    sent_hdr h (if ip_addr_isany src then if_ip n else src) d proto (20 + ptot p) /\
    (has (if_flags n) NETIF_IP_TX_CHECKSUM_OFFLOAD = false -> rfc1071 (iph_bytes h) = 0).
Proof.
  intros En Ho Ha W Hb Hp Ht Hi Hpr Hs Hd Hn. destruct (push_hdr_ok s n p src d ttl proto) as (h & p' & E & Hrest); try done.
  exists h, p'. split; [|done]. unfold ip_output_if, getif. rewrite En. cbn [from_opt mbind outcome_bind]. rewrite E. cbn [mbind outcome_bind].
  unfold nf_hook_post_route. rewrite (accepting_hooks s) by done. cbn [NF_ACCEPT NF_DROP Z.eqb]. rewrite Ho. by eapply send_out_ok.
Qed.

(** ** UDP headers *)

Record uh_ok (u : udp_hdr) : Prop := {
  uo_src : 0 <= uh_src u < 65536; uo_dest : 0 <= uh_dest u < 65536; uo_len : 0 <= uh_len u < 65536; uo_chk : 0 <= uh_chksum u < 65536 }.

Lemma read_uh_bytes b i u : 0 <= i -> sub b i UDP_HLEN = uh_bytes u -> uh_ok u -> read_uh b i = Ok u.
Proof.
  intros Hi E [? ? ? ?]. unfold read_uh. rewrite E, (proj2 (Z.ltb_ge _ _)) by lia. unfold uh_bytes, le16, ld16.
  cbn [app lookup list_lookup mbind option_bind from_opt]. rewrite !le16_val, !u16_small by done. by destruct u.
Qed.

Lemma uh_bytes_ok u : bytes_ok (uh_bytes u).
Proof. unfold uh_bytes. repeat (apply Forall_app; split); apply le16_ok. Qed.

Lemma pseudo_ok src dst proto n : bytes_ok (pseudo_bytes src dst proto n).
Proof. unfold pseudo_bytes. repeat (apply Forall_app; split); try apply le16_ok; apply le32_ok. Qed.

Lemma psum_pseudo src dst proto n bs : psum false (pseudo_bytes src dst proto n ++ bs) = psum false (pseudo_bytes src dst proto n) + psum false bs.
Proof. by rewrite psum_app. Qed.

Lemma psum_uh a b l c bs : 0 <= c < 65536 -> psum false (uh_bytes (MkUh a b l c) ++ bs) = psum false (uh_bytes (MkUh a b l 0) ++ bs) + c.
Proof. intros. unfold uh_bytes. cbn [uh_src uh_dest uh_len uh_chksum]. rewrite <- !app_assoc, !psum_le16, (u16_small c) by done. change (u16 0) with 0. lia. Qed.

(** The checksum that was put in is accepted, also when 0 is sent as 0xFFFF. *)
Lemma udp_chksum_ok src dst n a b l bs : bytes_ok bs ->
  let c := rfc1071 (pseudo_bytes src dst IP_PROTO_UDP n ++ uh_bytes (MkUh a b l 0) ++ bs) in
  let c' := if c =? 0 then 0xFFFF else c in
  0 <= c' < 65536 /\ rfc1071 (pseudo_bytes src dst IP_PROTO_UDP n ++ uh_bytes (MkUh a b l c') ++ bs) = 0.
Proof.
  intros Hb c c'. set (all := pseudo_bytes src dst IP_PROTO_UDP n ++ uh_bytes (MkUh a b l 0) ++ bs) in *.
  assert (forall x, bytes_ok (pseudo_bytes src dst IP_PROTO_UDP n ++ uh_bytes x ++ bs)) as Hok.
  { intros x. apply Forall_app. split; [apply pseudo_ok|]. apply Forall_app. split; [apply uh_bytes_ok|done]. }
  destruct (add_chksum all (Hok _)) as [Hm Hz]. pose proof (rfc1071_range all (Hok _)) as Hr. pose proof (psum_nonneg false all (Hok _)) as Hnn. fold c in Hm, Hz, Hr.
  assert (0 <= c' < 65536) as Hc' by (unfold c'; destruct (c =? 0); lia). split; [done|]. apply rfc1071_zero; [apply Hok|].
  rewrite psum_pseudo, psum_uh, Z.add_assoc, <- psum_pseudo by done. fold all. unfold c'. destruct (Z.eqb_spec c 0) as [E|E]; [|done].
  rewrite E, Z.add_0_r in Hm, Hz. split; [|lia]. by rewrite <- Z.add_mod_idemp_l, Hm by lia.
Qed.

(** Writing the header over the eight bytes made for it. *)
Lemma udp_hdr_for_ok n u p src dst port :
  wfp p -> bytes_ok (buf p) -> bytes_ok (pdata p) -> 8 <= plen p -> ptot p < 65536 -> 0 <= u_lport u < 65536 -> 0 <= port < 65536 ->
  exists uh p', udp_hdr_for n u p src dst port = Ok p' /\ wfp p' /\ bytes_ok (buf p') /\ pid p' = pid p /\ pl p' = pl p /\ plen p' = plen p /\ ptot p' = ptot p /\
    pdata p' = uh_bytes uh ++ drop 8 (pdata p) /\ uh_ok uh /\ ntohs (uh_src uh) = u_lport u /\ ntohs (uh_dest uh) = port /\
    (uh_chksum uh = 0 \/ pseudo_chksum p' src dst IP_PROTO_UDP = 0).
Proof.
  intros W Hb Hd Hl Ht Hu Hp. pose proof W as [(Hp0 & _ & Hbl) Ht0 _]. unfold udp_hdr_for. cbv zeta. set (h0 := MkUh _ _ _ 0).
  assert (0 <= ptot p) by lia. assert (u16 (ptot p) = ptot p) as Eu by (apply u16_small; change (2 ^ 16) with 65536; lia).
  assert (forall c, 0 <= c < 65536 -> uh_ok (MkUh (uh_src h0) (uh_dest h0) (uh_len h0) c)) as Hok.
  { intros c Hc. split; cbn; try done; apply htons_range; try done. rewrite Eu. lia. }
  destruct (store_at_total (buf p) (pl p) (uh_bytes h0)) as (b & Eb); [lia|rewrite length_uh; lia|]. rewrite Eb. cbn [mbind outcome_bind].
  destruct (pdata_store p (uh_bytes h0) b W) as [W1 D1]; [rewrite length_uh; lia|done|]. rewrite length_uh in D1.
  assert (bytes_ok b) as Hb1 by (eapply bytes_store; [exact Hb|apply uh_bytes_ok|exact Eb]).
  assert (bytes_ok (drop 8 (pdata p))) as Hd8 by by apply Forall_drop.
  destruct (_ && _).
  - destruct (udp_chksum_ok src dst (ptot p) (uh_src h0) (uh_dest h0) (uh_len h0) (drop 8 (pdata p)) Hd8) as [Hr Hz]. cbv zeta in Hr, Hz.
    assert (pseudo_chksum (set_buf p b) src dst IP_PROTO_UDP = rfc1071 (pseudo_bytes src dst IP_PROTO_UDP (ptot p) ++ uh_bytes h0 ++ drop 8 (pdata p))) as Ec.
    { unfold pseudo_chksum. by rewrite D1. }
    rewrite Ec. set (c' := if _ =? 0 then _ else _) in *. set (uh := MkUh (uh_src h0) (uh_dest h0) (uh_len h0) c').
    destruct (store_at_total (buf (set_buf p b)) (pl (set_buf p b)) (uh_bytes uh)) as (b2 & Eb2);
      [cbn; lia|rewrite length_uh; cbn [set_buf buf pl]; rewrite (store_at_length _ _ _ _ Eb); lia|].
    rewrite Eb2. cbn [mbind outcome_bind]. destruct (pdata_store (set_buf p b) (uh_bytes uh) b2 W1) as [W2 D2]; [rewrite length_uh; cbn; lia|done|].
    rewrite length_uh, D1, drop_app_length' in D2 by done. exists uh, (set_buf (set_buf p b) b2). split_and!; try done.
    + eapply bytes_store; [exact Hb1|apply uh_bytes_ok|exact Eb2].
    + by apply Hok.
    + by apply ntohs_htons.
    + by apply ntohs_htons.
    + right. unfold pseudo_chksum. rewrite D2. exact Hz.
  - exists h0, (set_buf p b). split_and!; try done; [apply (Hok 0); lia|by apply ntohs_htons|by apply ntohs_htons|by left].
Qed.

(** ** Receiving *)

(** No raw socket is for the protocol. *)
Definition no_raw (s : ipst) (proto : Z) : Prop := Forall (fun a => exists r, rpcbs s !! a = Some r /\ r_protocol r <> proto) (raw_pcbs s).

Lemma raw_loop_skip s p proto src l : Forall (fun a => exists r, rpcbs s !! a = Some r /\ r_protocol r <> proto) l -> raw_loop l s p proto src = Ok (0, s).
Proof.
  induction 1 as [|a l (r & Er & Hr) _ IH]; [done|]. cbn [raw_loop]. rewrite Er. cbn [from_opt mbind outcome_bind].
  by rewrite (proj2 (Z.eqb_neq _ _) Hr).
Qed.

(** A packet with such a header that is for this host reaches its protocol, without what
    the link layer appended. *)
Lemma ip_input_delivers s p inp n h src dst proto bs pad :
  accepting s -> nifs s !! inp = Some n -> wfp p -> 20 <= plen p -> pdata p = iph_bytes h ++ bs ++ pad ->
  sent_hdr h src dst proto (20 + Z.of_nat (length bs)) -> rfc1071 (iph_bytes h) = 0 -> is_Some (find_if s (accepts h)) ->
  exists p', (forall tcp_in, ip_input tcp_in s p inp = ip_deliver tcp_in s p' h n inp) /\ wfp p' /\ pdata p' = iph_bytes h ++ bs /\ pid p' = pid p /\ buf p' = buf p /\
    pl p' = pl p /\ plen p' = Z.min (plen p) (20 + Z.of_nat (length bs)).
Proof.
  intros Ha En W Hl Ed [Hok Hv Hhl Hpr Hlen Href _ _] Hz [x Hx]. rewrite app_assoc in Ed.
  assert (sub (buf p) (pl p) 20 = iph_bytes h) as Es by (rewrite sub_pdata, Ed, <- app_assoc, take_app_length' by (done || lia); done).
  destruct (shorten_ok p (iph_bytes h ++ bs) pad W Ed) as (p' & Esh & W' & D' & I' & B' & P' & L'). rewrite length_app, length_iph in Esh, L'.
  assert (Z.of_nat (20 + length bs) = 20 + Z.of_nat (length bs)) as Ez by lia. rewrite Ez in Esh, L'.
  exists p'. split; [|done]. intros tcp_in. unfold ip_input, nf_hook_pre_route. rewrite Ha. cbn [NF_ACCEPT NF_DROP Z.eqb]. unfold getif. rewrite En. cbn [from_opt mbind outcome_bind].
  assert (read_iph (buf p) (pl p) = Ok h) as -> by (apply read_iph_bytes; [destruct W; lia|exact Es|exact Hok]). cbn [mbind outcome_bind].
  rewrite Hv, Hhl, (proj2 (Z.ltb_ge (plen p) (5 * 4))) by lia. cbn [Z.eqb Pos.eqb negb]. change (5 * 4) with 20. rewrite Es, Hz, andb_false_r.
  rewrite Hlen, Esh. cbn [mbind outcome_bind]. unfold for_us. rewrite Hx. cbn [mbind outcome_bind negb]. by rewrite Href.
Qed.

Lemma udp_input_ok s p inp n h src dst uh data a pcb :
  nifs s !! inp = Some n -> wfp p -> 28 <= plen p -> pdata p = iph_bytes h ++ uh_bytes uh ++ data -> sent_hdr h src dst IP_PROTO_UDP (ptot p) -> uh_ok uh ->
  uh_chksum uh = 0 \/ rfc1071 (pseudo_bytes src dst IP_PROTO_UDP (8 + Z.of_nat (length data)) ++ uh_bytes uh ++ data) = 0 ->
  udp_demux s h (ntohs (uh_src uh)) (ntohs (uh_dest uh)) = Some a -> upcbs s !! a = Some pcb -> u_recv pcb = true ->
  exists p', udp_input s p inp = Ok (ask s (EvUdp a p' src (ntohs (uh_src uh)))) /\ pdata p' = data /\ pid p' = pid p.
Proof.
  intros En W Hl Ed [Hok _ Hhl _ _ _ Hs Hdst] Hu Hc Hx Ea Hr. pose proof (length_pdata _ W) as Ht. rewrite Ed, !length_app, length_iph, length_uh in Ht.
  assert (read_iph (buf p) (pl p) = Ok h) as Eh.
  { apply read_iph_bytes; [destruct W; lia| |exact Hok]. change IP_HLEN with 20. rewrite sub_pdata, Ed, take_app_length' by (done || lia). done. }
  destruct (header_fwd p 20 W ltac:(lia)) as (p1 & E1 & W1 & E1' & D1). rewrite Ed, drop_app_length' in D1 by done.
  assert (plen p1 = plen p - 20 /\ ptot p1 = 8 + Z.of_nat (length data) /\ pid p1 = pid p) as (L1 & T1 & I1) by (rewrite E1'; cbn [plen ptot pid]; split_and!; (done || lia)).
  destruct (header_fwd p1 8 W1 ltac:(lia)) as (p2 & E2 & W2 & E2' & D2). rewrite D1, drop_app_length' in D2 by done.
  assert (read_uh (buf p1) (pl p1) = Ok uh) as Eu.
  { apply read_uh_bytes; [destruct W1; lia| |exact Hu]. change UDP_HLEN with 8. rewrite sub_pdata, D1, take_app_length' by (done || lia). done. }
  exists p2. split; [|split; [done|by rewrite E2']]. unfold udp_input. rewrite Eh. cbn [mbind outcome_bind]. unfold getif at 1. rewrite En. cbn [from_opt mbind outcome_bind].
  rewrite Hhl. change (5 * 4) with 20. rewrite E1, u32_small, (proj2 (Z.ltb_ge (ptot p1) UDP_HLEN)), Eu by (destruct W; unfold UDP_HLEN; lia). cbn [mbind outcome_bind].
  assert (negb (has (if_flags n) NETIF_UDP_RX_CHECKSUM_OFFLOAD) && negb (uh_chksum uh =? 0) &&
    negb (pseudo_chksum p1 (iph_src h) (iph_dest h) IP_PROTO_UDP =? 0) = false) as ->.
  { destruct Hc as [->|Hc]; [by rewrite andb_false_r|]. unfold pseudo_chksum. by rewrite D1, T1, Hs, Hdst, Hc, andb_false_r. }
  rewrite Hx, Ea. cbn [from_opt mbind outcome_bind]. change (- UDP_HLEN) with (- (8)). rewrite E2. cbn [from_opt mbind outcome_bind]. by rewrite Hr, Hs.
Qed.

Lemma find_if_weaken s (f g : ifc -> bool) : (forall n, f n = true -> g n = true) -> is_Some (find_if s f) -> is_Some (find_if s g).
Proof.
  intros Hfg [a Ha]. unfold find_if in *. apply List.find_some in Ha as [Hin Ha]. destruct (List.find _ _) eqn:E; [by eexists|]. exfalso.
  pose proof (List.find_none _ _ E a Hin) as Hn. cbn in Hn. destruct (nifs s !! a); [|done]. by rewrite (Hfg _ Ha) in Hn.
Qed.

Lemma own_accepted s h : ip_ownaddr s (iph_dest h) = true -> is_Some (find_if s (accepts h)).
Proof.
  unfold ip_ownaddr. intros H. eapply find_if_weaken; [|destruct (find_if s _) eqn:E; [by eexists|done]].
  intros n (_ & Hc)%andb_true_iff. unfold accepts. by rewrite Hc, orb_true_r.
Qed.

(** ** A datagram from one host to another *)

Record udp_sender (s : ipst) (a : Z) (u : udp_pcb) (p : ipkt) (dst port nif : Z) (n : ifc) : Prop := {
  us_pcb : upcbs s !! a = Some u; us_port : 0 <= u_lport u < 65536 /\ 0 < port < 65536;
  us_if : nifs s !! nif = Some n /\ nif <> NULL /\ if_output n = true /\ has (if_flags n) NETIF_IP_TX_CHECKSUM_OFFLOAD = false;
  us_pass : accepting s /\ 0 <= ip_id s < 65536;
  us_addrs : is_addr (u_lip u) /\ is_addr (if_ip n) /\ is_addr dst /\ dst <> 0 /\ ip_addr_isbroadcast dst (if_mask n) = false;
  us_pkt : wfp p /\ bytes_ok (buf p) /\ bytes_ok (pdata p);
  us_room : 28 <= pl p /\ ptot p + 28 < 65536 }.

Record udp_receiver (s : ipst) (inp src dst sport port a : Z) : Prop := {
  ur_if : is_Some (nifs s !! inp); ur_own : ip_ownaddr s dst = true; ur_pass : accepting s /\ no_raw s IP_PROTO_UDP;
  ur_pcb : forall h, iph_src h = src -> iph_dest h = dst -> udp_demux s h sport port = Some a;
  ur_recv : exists u, upcbs s !! a = Some u /\ u_recv u = true }.

(** What udp_send makes of the data. *)
Lemma udp_send_ok s a u p dst port nif n : udp_sender s a u p dst port nif n ->
  let src := if ip_addr_isany (u_lip u) then if_ip n else u_lip u in
  exists h uh k, udp_send s a p (Some dst) port nif = Ok (ask (set_ip_id s (u16 (ip_id s + 1))) (EvOut nif k dst)) /\ pid k = pid p /\
    pdata k = iph_bytes h ++ uh_bytes uh ++ pdata p /\ sent_hdr h src dst IP_PROTO_UDP (28 + ptot p) /\ rfc1071 (iph_bytes h) = 0 /\
    uh_ok uh /\ ntohs (uh_src uh) = u_lport u /\ ntohs (uh_dest uh) = port /\
    (uh_chksum uh = 0 \/ rfc1071 (pseudo_bytes src dst IP_PROTO_UDP (8 + ptot p) ++ uh_bytes uh ++ pdata p) = 0).
Proof.
  intros [Eu (Hlp & Hpo) (En & Hn0 & Ho & Hoff) (Hacc & Hid) (Hli & Hni & Hd & Hd0 & Hbc) (W & Hb & Hpb) (Hpl & Htot)] src.
  assert (is_addr src) as Hsrc by (unfold src; by destruct (ip_addr_isany (u_lip u))). pose proof W as [(_ & Hpln & Hfit) Htt _].
  destruct (header_back p 8 W ltac:(lia)) as (p1 & E1 & W1 & E1' & D1).
  assert (buf p1 = buf p /\ pl p1 = pl p - 8 /\ plen p1 = plen p + 8 /\ ptot p1 = 8 + ptot p /\ pid p1 = pid p) as (B1 & P1 & L1 & T1 & I1)
    by (rewrite E1'; cbn [buf pl plen ptot pid]; split_and!; (done || lia)).
  assert (length (sub (buf p) (pl p - 8) 8) = 8%nat) as L8 by (rewrite length_sub by lia; done).
  destruct (udp_hdr_for_ok n u p1 src dst port W1) as (uh & p2 & E2 & W2 & B2 & I2 & P2 & L2 & T2 & D2 & Huh & Hs2 & Hd2 & Hc2); try lia.
  { by rewrite B1. }
  { rewrite D1. apply Forall_app. split; [by apply sub_bytes|done]. }
  rewrite D1, drop_app_length' in D2 by done.
  destruct (ip_output_if_ok s nif n p2 src dst UDP_TTL IP_PROTO_UDP En Ho Hacc W2 B2) as (h & k & Ek & _ & _ & Ik & Dk & Hsent & Hz); try done; try lia.
  replace (if ip_addr_isany src then if_ip n else src) with src in Hsent by (unfold src; destruct (ip_addr_isany (u_lip u)) eqn:Ea; [by destruct (ip_addr_isany (if_ip n))|by rewrite Ea]).
  exists h, uh, k. split.
  - unfold udp_send. rewrite Eu. cbn [from_opt mbind outcome_bind from_option]. unfold id. assert (ip_addr_isany dst = false) as -> by by apply Z.eqb_neq.
    change UDP_HLEN with 8. rewrite !(proj2 (Z.eqb_neq port 0)), E1, !(proj2 (Z.eqb_neq nif NULL)) by (done || lia). unfold getif at 1. rewrite En.
    cbn [from_opt mbind outcome_bind]. rewrite Hbc. cbn [andb]. fold src. rewrite E2. cbn [mbind outcome_bind]. exact Ek.
  - split_and!; try done; [congruence|by rewrite Dk, D2|by replace (28 + ptot p) with (20 + ptot p2) by lia|by apply Hz|].
    unfold pseudo_chksum in Hc2. by rewrite D2, T2, T1 in Hc2.
Qed.

(** C4: a datagram arrives.  What udp_send sends to a host makes that host's ip_input call
    the receive function of the control block for its addresses and ports, with the data that
    were sent and the address and port of the sender; whatever buffers the packet arrives in,
    if the first holds the headers, and whatever the link layer put behind it. *)
Theorem udp_datagram_delivered tcp_in s a u p dst port nif n : udp_sender s a u p dst port nif n ->
  let src := if ip_addr_isany (u_lip u) then if_ip n else u_lip u in
  exists k rc s', udp_send s a p (Some dst) port nif = Ok (rc, s') /\ ip_log s' = ip_log s ++ [EvOut nif k dst rc] /\
    forall s2 inp a2 q pad, udp_receiver s2 inp src dst (u_lport u) port a2 -> wfp q -> 28 <= plen q -> pdata q = pdata k ++ pad ->
      exists q' rc2 s2', ip_input tcp_in s2 q inp = Ok (rc2, s2') /\ ip_log s2' = ip_log s2 ++ [EvUdp a2 q' src (u_lport u) rc2] /\
        pdata q' = pdata p /\ pid q' = pid q.
Proof.
  intros Hs src. destruct (udp_send_ok _ _ _ _ _ _ _ _ Hs) as (h & uh & k & E & _ & Dk & Hsent & Hz & Huh & Hsp & Hdp & Hc). fold src in Hsent, Hc.
  pose proof (length_pdata _ (proj1 (us_pkt _ _ _ _ _ _ _ _ Hs))) as Hlen.
  eexists k, _, _. split; [rewrite E; unfold ask; reflexivity|]. split; [done|].
  intros s2 inp a2 q pad [(n2 & En2) Hown (Hacc & Hraw) Hdm (u2 & Eu2 & Hr2)] Wq Hq Dq. rewrite Dk, <- !app_assoc in Dq.
  assert (Z.of_nat (length (uh_bytes uh ++ pdata p)) = 8 + ptot p) as El by (rewrite length_app, length_uh; lia).
  destruct (ip_input_delivers s2 q inp n2 h src dst IP_PROTO_UDP (uh_bytes uh ++ pdata p) pad) as (q1 & E1 & W1 & D1 & I1 & _ & _ & L1); try done; try lia.
  { replace (20 + Z.of_nat (length (uh_bytes uh ++ pdata p))) with (28 + ptot p) by lia. done. }
  { apply own_accepted. by rewrite (sh_dest _ _ _ _ _ Hsent). }
  pose proof (length_pdata _ W1) as Lq1. rewrite D1, length_app, length_iph in Lq1.
  destruct (udp_input_ok s2 q1 inp n2 h src dst uh (pdata p) a2 u2) as (q2 & E2 & D2 & I2); try done; try lia.
  { replace (ptot q1) with (28 + ptot p) by lia. done. }
  { by rewrite Hlen. }
  { rewrite Hsp, Hdp. apply Hdm; [by destruct Hsent|by destruct Hsent]. }
  eexists q2, _, _. split; [|split; [|split; [exact D2|congruence]]].
  - rewrite E1. unfold ip_deliver, raw_input. rewrite (read_iph_bytes (buf q1) (pl q1) h); [|destruct W1; lia| |by destruct Hsent].
    2:{ change IP_HLEN with 20. rewrite sub_pdata, D1, take_app_length' by (done || lia). done. }
    cbn [mbind outcome_bind]. rewrite (sh_proto _ _ _ _ _ Hsent), raw_loop_skip by done. cbn [mbind outcome_bind Z.ltb Z.compare]. rewrite Z.eqb_refl.
    rewrite E2. unfold ask. reflexivity.
  - cbn [ip_log set_env]. by rewrite Hsp.
Qed.

Definition wit_if (ip : Z) : ifc := MkIf [] ip 0xFFFFFF 0 0 0 1500 true.
Definition wit_host (ip lport : Z) : ipst :=
  MkIp [64] {[64 := wit_if ip]} 64 [] 7 [200] {[200 := MkUdp 0 0 lport 0 0 true]} 4096 [] ∅ 1 [] [] [] [].
Definition wit_packet : ipkt := MkPacket 0 (replicate 28 0 ++ [1; 2; 3]) 28 3 3 [].
Definition as_one (id : Z) (bs : list Z) : ipkt := MkPacket id bs 0 (Z.of_nat (length bs)) (Z.of_nat (length bs)) [].

Lemma as_one_wfp id bs : Z.of_nat (length bs) < 2 ^ 31 -> wfp (as_one id bs) /\ pdata (as_one id bs) = bs.
Proof.
  intros H. split; [split; cbn; lia|]. unfold pdata, sub. cbn [as_one buf pl plen more concat].
  by rewrite app_nil_r, Nat2Z.id, drop_0, firstn_all.
Qed.

Lemma wit_accepting ip lport : accepting (wit_host ip lport).
Proof. done. Qed.

Lemma udp_datagram_delivered_witness : exists k rc s', udp_send (wit_host 0x0100000A 1000) 200 wit_packet (Some 0x0200000A) 2000 64 = Ok (rc, s') /\
  ip_log s' = [EvOut 64 k 0x0200000A rc] /\
  exists q' rc2 s2', ip_input (fun s _ _ => Ok (0, s)) (wit_host 0x0200000A 2000) (as_one 5 (pdata k ++ [0; 0])) 64 = Ok (rc2, s2') /\
    ip_log s2' = [EvUdp 200 q' 0x0100000A 1000 rc2] /\ pdata q' = [1; 2; 3].
Proof.
  destruct (udp_datagram_delivered (fun s _ _ => Ok (0, s)) (wit_host 0x0100000A 1000) 200 (MkUdp 0 0 1000 0 0 true) wit_packet 0x0200000A 2000 64 (wit_if 0x0100000A))
    as (k & rc & s' & E & L & H).
  { split; try done; split_and!; try done; try (cbn; lia); try (split; cbn; lia); repeat constructor; cbn; lia. }
  exists k, rc, s'. split; [exact E|]. split; [exact L|]. vm_compute in E. injection E as <- <-. vm_compute in L. injection L as <-.
  match goal with |- context [as_one 5 ?bs] => edestruct (H (wit_host 0x0200000A 2000) 64 200 (as_one 5 bs) [0; 0]) as (q' & rc2 & s2' & E2 & L2 & D2 & _) end.
  5:{ exists q', rc2, s2'. split; [exact E2|]. split; [exact L2|exact D2]. }
  - split.
    + eexists. reflexivity.
    + reflexivity.
    + split; [apply wit_accepting|constructor].
    + intros h Es Ed. unfold udp_demux, find_udp, addrs_match. rewrite Es, Ed. reflexivity.
    + eexists. split; reflexivity.
  - apply as_one_wfp. by vm_compute.
  - by vm_compute.
  - apply as_one_wfp. by vm_compute.
Defined.
