(* ===== verification/IpFwd.v ===== *)
(** * Forwarding of packets and ICMP messages *)

From S2P Require Import Prelude Pbuf Inet Arp Ether Tcp TcpBase TcpRecv Ip IpBase IpWire.

(** ** Forwarding *)

Lemma forward_chksum_val c : 0 <= c < 65536 -> forward_chksum c = if c <? 65534 then c + 1 else c - 65534.
Proof.
  intros Hc. unfold forward_chksum. change (htons (0xffff - 0x100)) with 65534. change (htons 0x100) with 1. unfold u16. change (2 ^ 16) with 65536.
  destruct (Z.leb_spec 65534 c), (Z.ltb_spec c 65534); try lia.
  - replace (c + 1 + 1) with (c - 65534 + 1 * 65536) by lia. rewrite Z.mod_add, Z.mod_small by lia. done.
  - rewrite Z.mod_small by lia. done.
Qed.

(** The header of a forwarded packet. *)
Definition forwarded (h : ip_hdr) : ip_hdr :=
  let h := IPH_TTL_SET h (IPH_TTL h - 1) in set_iph_chksum h (forward_chksum (iph_chksum h)).

Lemma forwarded_ok h : iph_ok h -> v_hl_tos h <> 0 -> rfc1071 (iph_bytes h) = 0 -> 1 <= IPH_TTL h ->
  iph_ok (forwarded h) /\ rfc1071 (iph_bytes (forwarded h)) = 0 /\ IPH_TTL (forwarded h) = IPH_TTL h - 1 /\ IPH_PROTO (forwarded h) = IPH_PROTO h.
Proof.
  intros H Hv Hz Ht. pose proof (iph_ttl h H) as Et. pose proof (iph_proto h H) as Ep. pose proof (ttl_set_ok h (IPH_TTL h - 1) H) as H1.
  pose proof (ttl_set_word h (IPH_TTL h - 1) H) as Ew. pose proof H as [Hvr Hlr Hir Hor Hw Hc _ _]. destruct (pair_of _ Hw) as (E2 & Hlo & Hhi).
  rewrite u8_small in Ew by (change (2 ^ 8) with 256; lia). pose proof (forward_chksum_val _ Hc) as Ec.
  assert (0 <= forward_chksum (iph_chksum h) < 65536) as Hc' by (rewrite Ec; destruct (Z.ltb_spec (iph_chksum h) 65534); lia).
  assert (iph_ok (forwarded h)) as Hf by (destruct H1; split; cbn in *; done).
  assert (ttl_proto (forwarded h) = ttl_proto h - 1) as Ef.
  { unfold forwarded. cbn [set_iph_chksum ttl_proto]. etrans; [exact Ew|]. rewrite Ep, Et. lia. }
  split; [done|]. split; [|split].
  - apply iph_verifies; [done|]. apply iph_verifies in Hz; [|done]. cbv zeta in *. rewrite Ef.
    change (fixed_sum (forwarded h)) with (fixed_sum h). change (iph_src (forwarded h)) with (iph_src h). change (iph_dest (forwarded h)) with (iph_dest h).
    change (iph_chksum (forwarded h)) with (forward_chksum (iph_chksum h)). rewrite Ec.
    pose proof (u16_range (iph_src h)). pose proof (u16_range (iph_src h / 65536)). pose proof (u16_range (iph_dest h)). pose proof (u16_range (iph_dest h / 65536)).
    unfold fixed_sum, addr_sum in *. destruct Hz as [Hm Hn]. destruct (Z.ltb_spec (iph_chksum h) 65534).
    + match goal with |- ?a mod _ = 0 /\ _ => match type of Hm with ?b mod _ = 0 => replace a with b by lia end end. done.
    + split; [|lia]. match goal with |- ?a mod _ = 0 => match type of Hm with ?b mod _ = 0 => replace a with (b + (-1) * 65535) by lia end end. by rewrite Z.mod_add by lia.
  - rewrite iph_ttl, Ef, Et by done. rewrite E2 at 1. replace (ttl_proto h mod 256 + 256 * (ttl_proto h / 256) - 1) with (ttl_proto h mod 256 - 1 + (ttl_proto h / 256) * 256) by lia.
    rewrite Z.mod_add, Z.mod_small by lia. done.
  - rewrite iph_proto, Ef, Ep by done. rewrite E2 at 1. replace (ttl_proto h mod 256 + 256 * (ttl_proto h / 256) - 1) with (ttl_proto h mod 256 - 1 + (ttl_proto h / 256) * 256) by lia.
    rewrite Z.div_add, Z.div_small by lia. lia.
Qed.

(** A packet that came in at [inp] and goes out at [nif]. *)
Record in_transit (s : ipst) (p : ipkt) (h : ip_hdr) (inp nif : Z) : Prop := {
  it_pkt : wfp p /\ bytes_ok (buf p) /\ 20 <= plen p; it_hdr : read_iph (buf p) (pl p) = Ok h;
  it_in : exists n, nifs s !! inp = Some n /\ ip_addr_isbroadcast (iph_dest h) (if_mask n) = false;
  it_out : exists m, nifs s !! nif = Some m /\ if_output m = true;
  it_route : route_to s (iph_dest h) = nif /\ nif <> NULL /\ nif <> inp }.

(** Past the tests at the beginning of ip_forward. *)
Lemma ip_forward_hop s p h inp nif : in_transit s p h inp nif -> accepting s -> IPH_TTL (IPH_TTL_SET h (IPH_TTL h - 1)) <> 0 ->
  exists k, ip_forward s p inp = Ok (ask s (EvOut nif k (iph_dest h))) /\ wfp k /\ pid k = pid p /\ pdata k = iph_bytes (forwarded h) ++ drop 20 (pdata p).
Proof.
  intros [(W & Hb & Hl) Eh (n & En & Hbc) (m & Em & Ho) (Er & Hn0 & Hni)] Ha Ht.
  destruct (read_iph_inv _ _ _ Hb Eh) as (H0 & Hlen & _ & _). destruct (store_at_total (buf p) (pl p) (iph_bytes (forwarded h))) as (b & Eb); [lia|rewrite length_iph; unfold IP_HLEN in *; lia|].
  destruct (pdata_store p (iph_bytes (forwarded h)) b W) as [W1 D1]; [rewrite length_iph; lia|done|].
  exists (set_buf p b). split; [|done]. unfold ip_forward, getif. rewrite En, Eh. cbn [from_opt mbind outcome_bind]. rewrite Hbc, Er.
  rewrite (proj2 (Z.eqb_neq _ _) Hn0), (proj2 (Z.eqb_neq _ _) Hni). cbn [orb]. cbv zeta. rewrite (proj2 (Z.eqb_neq _ _) Ht).
  unfold write_iph. fold (forwarded h). rewrite Eb. cbn [mbind outcome_bind]. unfold nf_hook_post_route. rewrite Ha. cbn [NF_ACCEPT NF_DROP Z.eqb].
  by eapply send_out_ok.
Qed.

(** C19: forwarding.  A packet whose header has a valid checksum and a time to live of at
    least 2, with a route out of another interface than the one it came in on and a
    destination that is no broadcast there, goes out on the interface of its route, if no
    filter drops it, with the time to live one less and a header checksum that is right again;
    nothing else of it changes. *)
Theorem ip_forward_header s p h inp nif : in_transit s p h inp nif -> accepting s ->
  v_hl_tos h <> 0 -> rfc1071 (iph_bytes h) = 0 -> 2 <= IPH_TTL h ->
  exists k h' rc s', ip_forward s p inp = Ok (rc, s') /\ ip_log s' = ip_log s ++ [EvOut nif k (iph_dest h) rc] /\
    pdata k = iph_bytes h' ++ drop 20 (pdata p) /\ rfc1071 (iph_bytes h') = 0 /\
    IPH_TTL h' = IPH_TTL h - 1 /\ IPH_PROTO h' = IPH_PROTO h /\ iph_src h' = iph_src h /\ iph_dest h' = iph_dest h /\
    (v_hl_tos h', iph_len h', iph_id h', iph_offset h') = (v_hl_tos h, iph_len h, iph_id h, iph_offset h).
Proof.
  intros Hit Ha Hv Hz Ht. pose proof Hit as [(_ & Hb & _) Eh _ _ _]. destruct (read_iph_inv _ _ _ Hb Eh) as (_ & _ & _ & Hok).
  destruct (forwarded_ok h Hok Hv Hz ltac:(lia)) as (Hf & Hz' & Et & Ep).
  destruct (ip_forward_hop s p h inp nif Hit Ha) as (k & E & _ & _ & D).
  { change (IPH_TTL (IPH_TTL_SET h (IPH_TTL h - 1))) with (IPH_TTL (forwarded h)). lia. }
  eexists k, (forwarded h), _, _. split; [rewrite E; unfold ask; reflexivity|]. by split_and!.
Qed.

(** A host with two interfaces, and a packet for the network of the second. *)
Definition wit_router : ipst :=
  MkIp [64; 65] {[64 := wit_if 0x0100000A; 65 := wit_if 0x0100000B]} 64 [] 7 [] ∅ 4096 [] ∅ 1 [] [] [] [].
Definition wit_hdr (ttl : Z) : ip_hdr :=
  let h := MkIph 0x45 (htons 24) 0 0 (ttl + 256 * 17) 0 0x0700000A 0x0200000B in set_iph_chksum h (rfc1071 (iph_bytes h)).
Definition wit_transit (ttl : Z) : ipkt := as_one 3 (iph_bytes (wit_hdr ttl) ++ [1; 2; 3; 4; 5; 6; 7; 8]).

Lemma wit_in_transit : in_transit wit_router (wit_transit 9) (wit_hdr 9) 64 65.
Proof.
  split.
  - split; [by apply as_one_wfp|]. split; [apply Forall_app; split; [apply iph_bytes_ok|repeat (constructor; [lia|]); constructor]|by vm_compute].
  - by vm_compute.
  - eexists. split; reflexivity.
  - eexists. split; reflexivity.
  - by vm_compute.
Qed.

Lemma ip_forward_header_witness : exists k h' rc s', ip_forward wit_router (wit_transit 9) 64 = Ok (rc, s') /\ ip_log s' = [EvOut 65 k 0x0200000B rc] /\
  pdata k = iph_bytes h' ++ [1; 2; 3; 4; 5; 6; 7; 8] /\ rfc1071 (iph_bytes h') = 0 /\ IPH_TTL h' = 8.
Proof.
  destruct (ip_forward_header wit_router (wit_transit 9) (wit_hdr 9) 64 65 wit_in_transit) as (k & h' & rc & s' & E & L & D & Hz & Ht & _);
    [done|by vm_compute|by vm_compute|by vm_compute|].
  exists k, h', rc, s'. split; [exact E|]. split; [exact L|]. split; [exact D|]. split; [exact Hz|exact Ht].
Defined.

(** A packet whose time to live is 0 already is forwarded with 255, and its header does not
    verify any more. *)
Definition sent_first (s : ipst) : option (Z * Z) :=
  match ip_log s with
  | EvOut _ k _ _ :: _ => match read_iph (buf k) (pl k) with Ok h => Some (IPH_TTL h, rfc1071 (iph_bytes h)) | _ => None end
  | _ => None
  end.
Lemma ttl_zero_is_forwarded : rfc1071 (iph_bytes (wit_hdr 0)) = 0 /\ IPH_TTL (wit_hdr 0) = 0 /\
  exists rc s' c, ip_forward wit_router (wit_transit 0) 64 = Ok (rc, s') /\ sent_first s' = Some (255, c) /\ c <> 0.
Proof. split_and!; [by vm_compute|by vm_compute|]. eexists _, _, _. split; [vm_compute; reflexivity|]. by vm_compute. Qed.

(** ** Echo *)

Lemma psum_pos o bs : bytes_ok bs -> Exists (fun b => b <> 0) bs -> 0 < psum o bs.
Proof.
  intros H E. revert o H. induction E as [b bs Hb|b bs _ IH]; intros o H; apply Forall_cons in H as [Hr H]; cbn [psum].
  - pose proof (psum_nonneg (negb o) bs H). destruct o; lia.
  - specialize (IH (negb o) H). destruct o; lia.
Qed.

Definition reply_chksum (c : Z) : Z := if c <? 65527 then c + 8 else c - 65527.

Lemma reply_chksum_range c : 0 <= c < 65536 -> 0 <= reply_chksum c < 65536.
Proof. intros. unfold reply_chksum. destruct (Z.ltb_spec c 65527); lia. Qed.

Lemma echo_reply_val code c : 0 <= code < 256 -> 0 <= c < 65536 -> echo_reply (8 + 256 * code) c = [0; code] ++ le16 (reply_chksum c).
Proof.
  intros Hk Hc. unfold echo_reply. cbv zeta. change ntohs with htons. rewrite htons_pair by lia. f_equal.
  - change 255 with (Z.ones 8). rewrite Z.land_ones, (Z.mul_comm 256), Z.mod_add, Z.mod_small by lia. change (Z.shiftl ICMP_ER 8) with (256 * 0).
    rewrite Z.lor_0_r. replace code with (code + 256 * 0) at 1 by lia. rewrite htons_pair by lia. apply (le16_pair 0); lia.
  - f_equal. change (htons (0xFFFF - Z.shiftl ICMP_ECHO 8)) with 65527. change (htons (Z.shiftl ICMP_ECHO 8)) with 8. unfold u16, reply_chksum. change (2 ^ 16) with 65536.
    destruct (Z.leb_spec 65527 c), (Z.ltb_spec c 65527); try lia; [|rewrite Z.mod_small by lia; done].
    replace (c + (8 + 1)) with (c - 65527 + 1 * 65536) by lia. rewrite Z.mod_add, Z.mod_small by lia. done.
Qed.

(** The checksum of the reply is right unless there is nothing but zeros to sum. *)
Lemma reply_verifies code c rest : 0 <= code < 256 -> 0 <= c < 65536 -> bytes_ok rest -> Exists (fun b => b <> 0) (code :: rest) ->
  rfc1071 ([8; code] ++ le16 c ++ rest) = 0 -> rfc1071 ([0; code] ++ le16 (reply_chksum c) ++ rest) = 0.
Proof.
  intros Hk Hc Hr Hex. pose proof (reply_chksum_range c Hc) as Hrc.
  assert (forall t x, 0 <= t < 256 -> bytes_ok ([t; code] ++ le16 x ++ rest)) as Hok.
  { intros t x Ht. apply Forall_app. split; [repeat constructor; lia|]. apply Forall_app. split; [apply le16_ok|done]. }
  rewrite !rfc1071_zero by (apply Hok; lia). intros [Hm Hn].
  assert (forall t x, 0 <= x < 65536 -> psum false ([t; code] ++ le16 x ++ rest) = t + 256 * code + x + psum false rest) as Hs.
  { intros t x Hx. cbn [app psum negb]. rewrite psum_le16, u16_small by done. lia. }
  rewrite Hs in Hm, Hn by done. rewrite Hs by done. pose proof (psum_nonneg false rest Hr).
  assert (0 < 256 * code + psum false rest) as Hpos.
  { apply Exists_cons in Hex as [Hex|Hex]; [lia|]. pose proof (psum_pos false rest Hr Hex). lia. }
  unfold reply_chksum in *. destruct (Z.ltb_spec c 65527).
  - replace (0 + 256 * code + (c + 8) + psum false rest) with (8 + 256 * code + c + psum false rest) by lia. done.
  - split; [|lia]. replace (0 + 256 * code + (c - 65527) + psum false rest) with (8 + 256 * code + c + psum false rest + (-1) * 65535) by lia. by rewrite Z.mod_add by lia.
Qed.

Lemma swapped_verifies h : iph_ok h -> rfc1071 (iph_bytes h) = 0 -> rfc1071 (iph_bytes (set_addrs h (iph_dest h) (iph_src h))) = 0.
Proof.
  intros H Hz. apply iph_verifies; [by destruct H|]. apply iph_verifies in Hz; [|done]. cbv zeta in *.
  cbn [set_addrs ttl_proto iph_chksum iph_src iph_dest]. change (fixed_sum (set_addrs h (iph_dest h) (iph_src h))) with (fixed_sum h).
  match goal with |- ?a mod _ = 0 /\ _ => match type of Hz with ?b mod _ = 0 /\ _ => replace a with b by lia end end. done.
Qed.

Lemma ld16_sub b i x y r : 0 <= i -> sub b i 4 = x :: y :: r -> ld16 b (Z.to_nat i) = Some (x + 256 * y).
Proof.
  intros Hi E. assert (forall k, (k < 4)%nat -> b !! (Z.to_nat i + k)%nat = sub b i 4 !! k) as Hk.
  { intros k Hk. unfold sub. rewrite lookup_take_lt, lookup_drop by lia. done. }
  unfold ld16. rewrite <- (Nat.add_0_r (Z.to_nat i)) at 1. replace (S (Z.to_nat i)) with (Z.to_nat i + 1)%nat by lia.
  rewrite !Hk, E by lia. done.
Qed.

(** The steps of icmp_echo on the packet, with the IP header 20 bytes in front. *)
Lemma echo_rewrite p p1 h code c rest :
  wfp p -> 28 <= plen p -> pdata p = iph_bytes h ++ [8; code] ++ le16 c ++ rest -> 0 <= code < 256 -> 0 <= c < 65536 ->
  p1 = MkPacket (pid p) (buf p) (pl p + 20) (plen p - 20) (ptot p - 20) (more p) ->
  let h' := set_addrs h (iph_dest h) (iph_src h) in
  exists p2 b k, write_iph p1 (pl p) h' = Ok p2 /\
    ld16 (buf p2) (Z.to_nat (pl p1)) = Some (8 + 256 * code) /\ ld16 (buf p2) (Z.to_nat (pl p1) + 2) = Some c /\
    store_at (buf p2) (pl p1) (echo_reply (8 + 256 * code) c) = Ok b /\ header (set_buf p2 b) 20 = Some k /\ wfp k /\ pid k = pid p /\
    pl k = pl p /\ 20 <= plen k /\ pdata k = iph_bytes h' ++ [0; code] ++ le16 (reply_chksum c) ++ rest.
Proof.
  intros W Hl Ed Hk Hc Ep1 h'. pose proof W as [(Hp & _ & Hfit) Htot Hmax].
  destruct (store_at_total (buf p) (pl p) (iph_bytes h')) as (b1 & E1); [lia|rewrite length_iph; lia|].
  destruct (pdata_store p (iph_bytes h') b1 W) as [W1 D1]; [rewrite length_iph; lia|done|]. rewrite length_iph, Ed, drop_app_length' in D1 by done.
  destruct (header_fwd (set_buf p b1) 20 W1 ltac:(cbn; lia)) as (q & _ & Wq & Eq & Dq). rewrite D1, drop_app_length' in Dq by done. cbn [set_buf pid buf pl plen ptot more] in Eq.
  assert (plen q = plen p - 20 /\ pl q = pl p + 20 /\ buf q = b1) as (Lq & Pq & Bq) by (rewrite Eq; done).
  assert (forall j, 0 <= j -> j + 4 <= 8 -> sub b1 (pl p + 20 + j) 4 = take 4 (drop (Z.to_nat j) (pdata q))) as Hsub.
  { intros j Hj Hj4. destruct (header_fwd q j Wq ltac:(lia)) as (q' & _ & Wq' & Eq' & Dq'). rewrite <- Dq'. change 4%nat with (Z.to_nat 4). rewrite <- sub_pdata by (try done; rewrite Eq'; cbn [plen]; lia).
    rewrite Eq'. cbn [buf pl]. by rewrite Pq, Bq. }
  destruct (store_at_total b1 (pl p + 20) (echo_reply (8 + 256 * code) c)) as (b2 & E2);
    [lia|rewrite (store_at_length _ _ _ _ E1), echo_reply_val by done; cbn [length app le16]; lia|].
  destruct (pdata_store q (echo_reply (8 + 256 * code) c) b2 Wq) as [W2 D2];
    [rewrite echo_reply_val by done; cbn [length app le16]; lia|by rewrite Bq, Pq|].
  destruct (header_back (set_buf q b2) 20 W2) as (k & Ek & Wk & Ek' & Dk); [cbn; rewrite Pq; lia|].
  exists (set_buf p1 b1), b2, k. rewrite Ep1. unfold write_iph. cbn [buf set_buf pl]. rewrite E1. split; [done|]. split; [|split; [|split; [done|split]]].
  - eapply ld16_sub; [lia|]. replace (pl p + 20) with (pl p + 20 + 0) by lia. rewrite Hsub by lia. by rewrite drop_0, Dq.
  - replace (Z.to_nat (pl p + 20) + 2)%nat with (Z.to_nat (pl p + 20 + 2)) by lia.
    transitivity (Some (c mod 256 + 256 * (c / 256 mod 256))); [|by rewrite le16_val, u16_small].
    destruct rest as [|r0 [|r1 rest]]; [| |].
    1,2: exfalso; pose proof (length_pdata _ W) as Hlp; rewrite Ed in Hlp; cbn [length app le16 iph_bytes le32] in Hlp; lia.
    eapply ld16_sub; [lia|]. rewrite Hsub by lia. rewrite Dq. reflexivity.
  - rewrite Eq in Ek. exact Ek.
  - split; [done|]. split; [by rewrite Ek', Eq|]. split; [rewrite Ek'; cbn [pl set_buf]; lia|]. split; [rewrite Ek'; cbn [plen set_buf]; lia|].
    rewrite Dk, D2, echo_reply_val, Dq by done. cbn [set_buf buf pl]. rewrite Pq. replace (pl p + 20 - 20) with (pl p) by lia.
    rewrite (sub_store_before _ _ _ _ (pl p) 20 E2) by lia. replace 20 with (Z.of_nat (length (iph_bytes h'))) by done. rewrite (sub_store_same _ _ _ _ E1).
    done.
Qed.

(** An echo request for an address of this host; [rest]: what follows its checksum. *)
Record echo_request (s : ipst) (p : ipkt) (h : ip_hdr) (inp code c : Z) (rest : list Z) : Prop := {
  er_pkt : wfp p /\ 28 <= plen p; er_data : pdata p = iph_bytes h ++ [8; code] ++ le16 c ++ rest;
  er_bytes : 0 <= code < 256 /\ 0 <= c < 65536 /\ bytes_ok rest; er_hdr : iph_ok h /\ IPH_HL h = 5;
  er_if : exists n, nifs s !! inp = Some n /\ if_output n = true /\ ip_addr_isbroadcast (iph_dest h) (if_mask n) = false;
  er_dest : ip_addr_ismulticast (iph_dest h) = false /\ ip_ownaddr s (iph_dest h) = true;
  er_sum : rfc1071 ([8; code] ++ le16 c ++ rest) = 0 }.

(** C20: echo.  icmp_input answers a request for an address of this host on the interface it
    came from: with the two addresses exchanged, the type of a reply, the same identifier,
    number and data, and checksums of the message and of the header that are right; for the
    message, unless the code, identifier, number and data are all 0. *)
Theorem icmp_echo_answered s p h inp code c rest : echo_request s p h inp code c rest -> accepting s -> Exists (fun b => b <> 0) (code :: rest) ->
  exists k c' rc s', icmp_input s p inp = Ok (rc, s') /\ ip_log s' = ip_log s ++ [EvOut inp k (iph_src h) rc] /\ pid k = pid p /\
    let h' := set_addrs h (iph_dest h) (iph_src h) in
    pdata k = iph_bytes h' ++ [0; code] ++ le16 c' ++ rest /\ rfc1071 ([0; code] ++ le16 c' ++ rest) = 0 /\
    (rfc1071 (iph_bytes h) = 0 -> rfc1071 (iph_bytes h') = 0).
Proof.
  intros [(W & Hl) Ed (Hk & Hc & Hr) (Hok & Hhl) (n & En & Ho & Hb) (Hmc & Hown) Hz] Ha Hex. pose proof W as [(Hp & _ & _) Htot Hmax].
  destruct (header_fwd p 20 W ltac:(lia)) as (p1 & E1 & W1 & E1' & D1). rewrite Ed, drop_app_length' in D1 by done.
  destruct (echo_rewrite p p1 h code c rest) as (p2 & b & k & Ew & Ea & Ec & Es & Ek & Wk & Ik & Pk & Lk & Dk); try done.
  set (h' := set_addrs h (iph_dest h) (iph_src h)) in *.
  eexists k, (reply_chksum c), _, _. split; [|split; [|split; [exact Ik|split; [exact Dk|split; [by apply reply_verifies|by apply swapped_verifies]]]]].
  - unfold icmp_input. rewrite (read_iph_bytes _ _ h); [|lia| |done].
    2:{ change IP_HLEN with 20. rewrite sub_pdata, Ed, take_app_length' by (done || lia). done. }
    cbn [mbind outcome_bind]. rewrite Hhl. change (5 * 4) with 20. rewrite E1.
    assert (ptot p1 = ptot p - 20 /\ plen p1 = plen p - 20) as (T1 & L1) by (rewrite E1'; done).
    rewrite u32_small, (proj2 (Z.ltb_ge (ptot p1) 4)) by lia.
    assert (aget (buf p1) (pl p1) = Ok 8) as ->.
    { assert (sub (buf p1) (pl p1) 4 = [8; code] ++ le16 c) as E4 by (rewrite sub_pdata, D1 by (done || lia); by destruct rest).
      assert (0 <= pl p1) by (rewrite E1'; cbn [pl]; lia). unfold aget. rewrite (proj2 (Z.leb_le _ _)) by done. unfold sub in E4.
      assert (buf p1 !! Z.to_nat (pl p1) = Some 8) as E8; [|by rewrite E8].
      rewrite <- (Nat.add_0_r (Z.to_nat (pl p1))), <- lookup_drop, <- (lookup_take_lt _ (Z.to_nat 4)), E4 by lia. done. }
    cbn [mbind outcome_bind]. change (8 =? ICMP_ECHO) with true. cbv iota. unfold icmp_echo, getif. rewrite En. cbn [from_opt mbind outcome_bind].
    rewrite Hb, Hmc, Hown, u32_small, (proj2 (Z.ltb_ge (ptot p1) 8)), D1, Hz by lia. cbn [orb negb Z.eqb]. fold h'. rewrite Ew. cbn [mbind outcome_bind].
    rewrite Ea, Ec. cbn [from_opt mbind outcome_bind]. rewrite Es. cbn [mbind outcome_bind]. rewrite Hhl. change (5 * 4) with 20. rewrite Ek. cbn [from_opt mbind outcome_bind].
    unfold ip_output_if, getif. rewrite En. cbn [from_opt mbind outcome_bind]. rewrite (read_iph_bytes (buf k) (pl k) h'); [|lia| |by destruct Hok].
    2:{ change IP_HLEN with 20. rewrite sub_pdata, Dk, take_app_length' by (done || lia). done. }
    cbn [mbind outcome_bind]. unfold nf_hook_post_route. rewrite Ha. cbn [NF_ACCEPT NF_DROP Z.eqb]. rewrite Ho. rewrite (send_out_ok _ _ n) by done. unfold ask. reflexivity.
  - done.
Qed.

Definition wit_echo_hdr : ip_hdr :=
  let h := MkIph 0x45 (htons 28) 0 0 (64 + 256 * 1) 0 0x0700000A 0x0100000A in set_iph_chksum h (rfc1071 (iph_bytes h)).
Definition wit_echo (rest : list Z) : ipkt := as_one 4 (iph_bytes wit_echo_hdr ++ [8; 0] ++ le16 (rfc1071 ([8; 0; 0; 0] ++ rest)) ++ rest).

Lemma icmp_echo_answered_witness : exists k c' rc s', icmp_input wit_router (wit_echo [1; 2; 0; 9]) 64 = Ok (rc, s') /\ ip_log s' = [EvOut 64 k 0x0700000A rc] /\
  pdata k = iph_bytes (set_addrs wit_echo_hdr 0x0100000A 0x0700000A) ++ [0; 0] ++ le16 c' ++ [1; 2; 0; 9] /\ rfc1071 ([0; 0] ++ le16 c' ++ [1; 2; 0; 9]) = 0.
Proof.
  destruct (icmp_echo_answered wit_router (wit_echo [1; 2; 0; 9]) wit_echo_hdr 64 0 (rfc1071 [8; 0; 0; 0; 1; 2; 0; 9]) [1; 2; 0; 9]) as (k & c' & rc & s' & E & L & _ & D & Hz & _).
  - split.
    + split; [by apply as_one_wfp|by vm_compute].
    + by apply as_one_wfp.
    + split; [lia|]. split; [by vm_compute|]. repeat (constructor; [lia|]). constructor.
    + split; [split; by vm_compute|by vm_compute].
    + eexists. split; [reflexivity|]. split; reflexivity.
    + split; by vm_compute.
    + by vm_compute.
  - done.
  - apply Exists_cons_tl, Exists_cons_hd. done.
  - exists k, c', rc, s'. split; [exact E|]. split; [exact L|]. split; [exact D|exact Hz].
Defined.

(** A request that is all zeros but for its type and checksum is answered with a message
    whose checksum is 0 where 0xFFFF would be right: the sender discards it. *)
Lemma zero_echo_fails : rfc1071 (drop 20 (pdata (wit_echo [0; 0; 0; 0]))) = 0 /\
  exists rc s' k d, icmp_input wit_router (wit_echo [0; 0; 0; 0]) 64 = Ok (rc, s') /\ ip_log s' = [EvOut 64 k d rc] /\ rfc1071 (drop 20 (pdata k)) <> 0.
Proof. split; [by vm_compute|]. eexists _, _, _, _. split; [vm_compute; reflexivity|]. split; [reflexivity|]. by vm_compute. Qed.

(** ** Messages about a packet *)

Lemma new_packet_ok s n : default true (head (ip_allocs s)) = true -> bytes_ok (junk s) -> 0 <= n < 65536 ->
  exists q, new_packet s n = (Some q, set_env s (fresh_id s + 1) (tail (ip_allocs s)) (ip_answers s) (ip_log s)) /\
    wfp q /\ bytes_ok (buf q) /\ pid q = fresh_id s /\ pl q = 34 /\ plen q = n /\ ptot q = n.
Proof.
  intros Ha Hj Hn. unfold new_packet. rewrite Ha. eexists. split; [done|]. cbn [buf pid pl plen ptot]. split; [|split; [|done]].
  - split; cbn [pl plen buf ptot more concat length]; [|lia..]. rewrite length_take, length_app, length_replicate. lia.
  - apply Forall_take, Forall_app. split; [done|]. apply Forall_replicate. lia.
Qed.

Lemma icmp_body_ok q p type code : wfp q -> bytes_ok (buf q) -> bytes_ok (buf p) -> 8 <= plen q -> 0 <= pl p -> pl p + 28 <= Z.of_nat (length (buf p)) ->
  0 <= type < 256 -> 0 <= code < 256 ->
  exists c u, length u = 4%nat /\ let m := [type; code] ++ le16 c ++ u ++ sub (buf p) (pl p) 28 in
    icmp_body q p type code = Ok m /\ bytes_ok m /\ rfc1071 m = 0.
Proof.
  intros W Hq Hp Hl Hpl Hlen Ht Hc. destruct W as [(Hq0 & _ & Hqf) _ _]. unfold icmp_body. change (IP_HLEN + 8) with 28.
  rewrite (proj2 (Z.leb_le (pl p + IP_HLEN + 8) _)) by (unfold IP_HLEN; lia). cbn [mbind outcome_bind].
  assert (le16 (htons (Z.lor code (Z.shiftl type 8))) = [type; code]) as Ew.
  { rewrite Z.lor_comm, Z.shiftl_mul_pow2, lor_add by lia. change (2 ^ 8) with 256. replace (type * 256 + code) with (code + 256 * type) by lia.
    rewrite htons_pair by lia. by apply le16_pair. }
  rewrite Ew. set (u := sub (buf q) (pl q + 4) 4). set (d := sub (buf p) (pl p) 28). set (c := rfc1071 ([type; code] ++ le16 0 ++ u ++ d)).
  exists c, u. split; [unfold u; rewrite length_sub by lia; done|]. cbv zeta. split; [done|].
  assert (forall x, bytes_ok ([type; code] ++ le16 x ++ u ++ d)) as Hok.
  { intros x. apply Forall_app. split; [repeat constructor; lia|]. apply Forall_app. split; [apply le16_ok|]. apply Forall_app. split; by apply sub_bytes. }
  split; [apply Hok|]. apply rfc1071_zero; [apply Hok|]. pose proof (add_chksum _ (Hok 0)) as E. fold c in E. pose proof (rfc1071_range _ (Hok 0)) as Hr. fold c in Hr.
  assert (psum false ([type; code] ++ le16 c ++ u ++ d) = psum false ([type; code] ++ le16 0 ++ u ++ d) + c) as ->; [|done].
  cbn [app psum negb]. change (type :: ?l) with (type :: l). rewrite !(psum_le16 _ (u ++ d)), (u16_small c) by done. change (u16 0) with 0. lia.
Qed.

(** An ICMP message about a packet goes to its sender: a good IP header, the type and
    code, and the header and first eight bytes of the packet, with a right checksum.  If the
    driver refuses it, it is released. *)
Theorem icmp_error_sent s p h type code nif n :
  default true (head (ip_allocs s)) = true -> bytes_ok (junk s) -> bytes_ok (buf p) -> read_iph (buf p) (pl p) = Ok h -> pl p + 28 <= Z.of_nat (length (buf p)) ->
  route_to s (iph_src h) = nif -> nif <> NULL -> nifs s !! nif = Some n -> if_output n = true -> accepting s -> 0 <= ip_id s < 65536 -> is_addr (if_ip n) ->
  has (if_flags n) NETIF_IP_TX_CHECKSUM_OFFLOAD = false -> 0 <= type < 256 -> 0 <= code < 256 ->
  exists k h' c u rc s', icmp_error s p type code = Ok s' /\
    ip_log s' = ip_log s ++ EvOut nif k (iph_src h) rc :: (if rc <? 0 then [EvFree (fresh_id s)] else []) /\ pid k = fresh_id s /\
    let m := [type; code] ++ le16 c ++ u ++ sub (buf p) (pl p) 28 in
    pdata k = iph_bytes h' ++ m /\ length u = 4%nat /\ rfc1071 m = 0 /\ rfc1071 (iph_bytes h') = 0 /\ sent_hdr h' (if_ip n) (iph_src h) IP_PROTO_ICMP 56.
Proof.
  intros Hal Hj Hb Eh Hlen Er Hn0 En Ho Ha Hid Hip Hoff Ht Hc. destruct (read_iph_inv _ _ _ Hb Eh) as (Hpl & _ & _ & Hok).
  destruct (new_packet_ok s 36 Hal Hj ltac:(lia)) as (q & Eq & Wq & Hqb & Iq & Pq & Lq & Tq).
  destruct (icmp_body_ok q p type code Wq Hqb Hb) as (c & u & Hu & Em & Hmb & Hmz); try done; try lia. cbv zeta in Em, Hmb, Hmz. set (m := [type; code] ++ _) in *.
  assert (length m = 36%nat) as Hlm by (unfold m; rewrite !length_app, Hu, length_sub by lia; done).
  pose proof (wf_pl _ Wq) as (_ & _ & Hqfit). destruct (store_at_total (buf q) (pl q) m) as (b & Eb); [lia|rewrite Hlm; lia|].
  destruct (pdata_store q m b Wq) as [W1 D1]; [rewrite Hlm; lia|done|]. assert (pdata (set_buf q b) = m) as D2.
  { rewrite D1, drop_ge, app_nil_r; [done|]. pose proof (length_pdata _ Wq). lia. }
  set (s1 := set_env s (fresh_id s + 1) (tail (ip_allocs s)) (ip_answers s) (ip_log s)).
  destruct (ip_output_if_ok s1 nif n (set_buf q b) NULL (iph_src h) ICMP_TTL IP_PROTO_ICMP) as (h' & k & Ek & _ & _ & Ik & Dk & Hs & Hz); try done; try (cbn [set_buf pl ptot]; lia).
  { cbn [set_buf buf]. eapply bytes_store; [..|exact Eb]; done. }
  { exact (io_src _ Hok). }
  cbn [set_buf ptot] in Hs. rewrite Tq in Hs. rewrite D2 in Dk.
  eexists k, h', c, u, (default 0 (head (ip_answers s))), _. split; [|split; [|split; [by rewrite Ik|split; [exact Dk|split_and!; [done|done|by apply Hz|exact Hs]]]]].
  - unfold icmp_error. change (8 + IP_HLEN + 8) with 36. rewrite Eq, Eh. cbn [mbind outcome_bind]. rewrite Em. cbn [mbind outcome_bind]. rewrite Eb. cbn [mbind outcome_bind].
    unfold ip_output. change (route_to (set_env s _ _ _ _) (iph_src h)) with (route_to s (iph_src h)). rewrite Er, (proj2 (Z.eqb_neq _ _) Hn0). fold s1. rewrite Ek.
    unfold ask. cbn [mbind outcome_bind]. reflexivity.
  - cbn [s1 set_env set_ip_id ip_log ip_answers]. destruct (_ <? 0); cbn [discard set_env ip_log]; [by rewrite <- app_assoc, Iq|done].
Qed.

Lemma icmp_error_sent_witness : exists k h' c u rc s', icmp_error wit_router (wit_echo (replicate 8 7)) ICMP_DUR ICMP_DUR_PORT = Ok s' /\
  ip_log s' = EvOut 64 k 0x0700000A rc :: (if rc <? 0 then [EvFree 1] else []) /\
  pdata k = iph_bytes h' ++ [3; 3] ++ le16 c ++ u ++ sub (buf (wit_echo (replicate 8 7))) 0 28 /\ rfc1071 (iph_bytes h') = 0.
Proof.
  destruct (icmp_error_sent wit_router (wit_echo (replicate 8 7)) wit_echo_hdr ICMP_DUR ICMP_DUR_PORT 64 (wit_if 0x0100000A)) as (k & h' & c & u & rc & s' & E & L & _ & D & _ & _ & Hz & _).
  - reflexivity.
  - constructor.
  - vm_compute. repeat (constructor; [by split|]). constructor.
  - vm_compute. reflexivity.
  - vm_compute. discriminate.
  - reflexivity.
  - discriminate.
  - reflexivity.
  - reflexivity.
  - done.
  - by vm_compute.
  - by vm_compute.
  - reflexivity.
  - by vm_compute.
  - by vm_compute.
  - exists k, h', c, u, rc, s'. split; [exact E|]. split; [exact L|]. split; [exact D|exact Hz].
Defined.
