(* ===== verification/IpFlow.v ===== *)
(** * Who releases a packet

    A function that is given a packet either takes it over, and says so by a result that
    is not negative, or leaves it to the caller.  To take it over is to release it or to
    give it to another function that takes it over; the log of [ipst] shows which. *)

From S2P Require Import Prelude Pbuf Inet Arp Ether Tcp TcpBase TcpRecv Ip IpBase IpWire IpFwd.

(** ** Counting *)

(** The event is the end of packet [id] for this host.  Raw sockets answer 0 when they have
    only looked at it. *)
Definition disposes (id : Z) (e : ipev) : bool :=
  match e with
  | EvOut _ p _ rc => (pid p =? id) && (0 <=? rc)
  | EvFree i => i =? id
  | EvUdp _ p _ _ rc => (pid p =? id) && (0 <=? rc)
  | EvRaw _ p _ rc => (pid p =? id) && (0 <? rc)
  end.

Definition disposals (id : Z) (l : list ipev) : Z := Z.of_nat (length (List.filter (disposes id) l)).

Lemma disposals_app id l l' : disposals id (l ++ l') = disposals id l + disposals id l'.
Proof. unfold disposals. rewrite List.filter_app, length_app. lia. Qed.

(** From [s] to [s'], packet [id] was disposed of [k] times, every packet made in between
    once, and no other at all. *)
Record settles (id k : Z) (s s' : ipst) : Prop := {
  st_hooks : nf_hooks s' = nf_hooks s;
  st_fresh : fresh_id s <= fresh_id s';
  st_log : exists ev, ip_log s' = ip_log s ++ ev /\
    forall i, disposals i ev = (if i =? id then k else if (fresh_id s <=? i) && (i <? fresh_id s') then 1 else 0) }.

Lemma settles_accepting id k s s' : settles id k s s' -> accepting s -> accepting s'.
Proof. intros [H _ _]. by apply accepting_hooks. Qed.

Lemma settles_old id k s s' : settles id k s s' -> id < fresh_id s -> id < fresh_id s'.
Proof. intros [_ H _]. lia. Qed.

Lemma settles_refl id s : settles id 0 s s.
Proof.
  split; [done|lia|]. exists []. split; [by rewrite app_nil_r|]. intros i. cbn. destruct (i =? id); [done|].
  destruct (Z.leb_spec (fresh_id s) i), (Z.ltb_spec i (fresh_id s)); try done. lia.
Qed.

Lemma settles_trans id k1 k2 s s1 s2 : id < fresh_id s -> settles id k1 s s1 -> settles id k2 s1 s2 -> settles id (k1 + k2) s s2.
Proof.
  intros Hid [Hh1 Hf1 (e1 & E1 & C1)] [Hh2 Hf2 (e2 & E2 & C2)]. split; [congruence|lia|]. exists (e1 ++ e2). split; [by rewrite E2, E1, app_assoc|].
  intros i. rewrite disposals_app, C1, C2. destruct (i =? id); [done|].
  destruct (Z.leb_spec (fresh_id s) i), (Z.ltb_spec i (fresh_id s1)), (Z.leb_spec (fresh_id s1) i), (Z.ltb_spec i (fresh_id s2)); cbn; lia.
Qed.

(** One event about [id], with nothing made. *)
Lemma settles_event id s s' e k : nf_hooks s' = nf_hooks s -> fresh_id s' = fresh_id s -> ip_log s' = ip_log s ++ [e] ->
  (forall i, disposes i e = (i =? id) && (0 <? k)) -> k = 0 \/ k = 1 -> settles id k s s'.
Proof.
  intros Hh Hf El He Hk. split; [done|lia|]. exists [e]. split; [done|]. intros i. unfold disposals. cbn [List.filter]. rewrite He, Hf.
  assert ((fresh_id s <=? i) && (i <? fresh_id s) = false) as -> by (destruct (Z.leb_spec (fresh_id s) i), (Z.ltb_spec i (fresh_id s)); try done; lia).
  destruct (i =? id), Hk as [-> | ->]; done.
Qed.

Lemma settles_discard s p : settles (pid p) 1 s (discard s p).
Proof. apply (settles_event _ _ _ (EvFree (pid p))); try done; [|by right]. intros i. cbn. by rewrite andb_true_r, Z.eqb_sym. Qed.

(** 1 when the packet was taken over. *)
Definition taken (rc : Z) : Z := if rc <? 0 then 0 else 1.

Lemma taken_cases rc : taken rc = 0 \/ taken rc = 1.
Proof. unfold taken. destruct (rc <? 0); auto. Qed.

Lemma taken_pos rc : (0 <=? rc) = (0 <? taken rc).
Proof. unfold taken. destruct (Z.ltb_spec rc 0), (Z.leb_spec 0 rc); try done; lia. Qed.

Lemma settles_ask s ev p rc s' : (forall i r, disposes i (ev r) = (pid p =? i) && (0 <=? r)) -> Ok (ask s ev) = Ok (rc, s') -> settles (pid p) (taken rc) s s'.
Proof.
  unfold ask. intros He E. injection E as <- <-. eapply settles_event; try done; [|apply taken_cases].
  intros i. by rewrite He, taken_pos, Z.eqb_sym.
Qed.

(** ** The promise of a function that is given a packet *)

Class Consumer (f : ipst -> ipkt -> Z -> outcome (Z * ipst)) : Prop :=
  consumes : forall s p inp rc s', accepting s -> pid p < fresh_id s -> f s p inp = Ok (rc, s') -> settles (pid p) (taken rc) s s'.

Lemma settles_send_out s nif p d rc s' : send_out s nif p d = Ok (rc, s') -> settles (pid p) (taken rc) s s'.
Proof.
  unfold send_out. intros E. apply bind_Ok_inv in E as (n & _ & E). destruct (if_output n); [|done]. by eapply settles_ask; [|exact E].
Qed.

Lemma header_pid p n p' : header p n = Some p' -> pid p' = pid p.
Proof. unfold header. destruct (_ <? 0); [done|]. by intros [= <-]. Qed.

Lemma write_iph_pid p i h p' : write_iph p i h = Ok p' -> pid p' = pid p.
Proof. unfold write_iph. intros E. apply bind_Ok_inv in E as (b & _ & E). by injection E as <-. Qed.

Lemma push_hdr_frame s n p src d ttl proto r s' : push_hdr s n p src d ttl proto = Ok (r, s') ->
  nf_hooks s' = nf_hooks s /\ fresh_id s' = fresh_id s /\ ip_log s' = ip_log s /\ (forall p', r = Some p' -> pid p' = pid p).
Proof.
  unfold push_hdr. destruct (header p IP_HLEN) as [p1|] eqn:E1; [|by intros [= <- <-]]. intros E. inv_ok. apply write_iph_pid in Hb0. apply header_pid in E1.
  split_and!; try done. intros p' [= <-]. congruence.
Qed.

(** A function that only changes what is no part of the account. *)
Lemma settles_same id s s' : nf_hooks s' = nf_hooks s -> fresh_id s' = fresh_id s -> ip_log s' = ip_log s -> settles id 0 s s'.
Proof.
  intros Hh Hf Hl. split; [done|lia|]. exists []. split; [by rewrite app_nil_r|]. intros i. rewrite Hf. cbn. destruct (i =? id); [done|].
  destruct (Z.leb_spec (fresh_id s) i), (Z.ltb_spec i (fresh_id s)); try done; lia.
Qed.

Lemma settles_output s p src d ttl proto nif rc s' : accepting s -> pid p < fresh_id s ->
  ip_output_if s p src d ttl proto nif = Ok (rc, s') -> settles (pid p) (taken rc) s s'.
Proof.
  intros Ha Hp. unfold ip_output_if. intros E. apply bind_Ok_inv in E as (n & _ & E). apply bind_Ok_inv in E as ([r s1] & E1 & E).
  assert (nf_hooks s1 = nf_hooks s /\ fresh_id s1 = fresh_id s /\ ip_log s1 = ip_log s /\ (forall p', r = Some p' -> pid p' = pid p)) as (Hh & Hf & Hl & Hpid).
  { destruct d as [d|]; [by eapply push_hdr_frame|]. injection E1 as <- <-. split_and!; try done. by intros p' [= <-]. }
  pose proof (settles_same (pid p) s s1 Hh Hf Hl) as H1. replace (taken rc) with (0 + taken rc) by lia.
  destruct r as [p1|]; [|injection E as <- <-; done]. rewrite <- (Hpid p1 eq_refl) in *. eapply settles_trans; [done|exact H1|].
  apply bind_Ok_inv in E as (dd & _ & E). unfold nf_hook_post_route in E. rewrite (accepting_hooks s s1 Hh Ha) in E. cbn [NF_ACCEPT NF_DROP Z.eqb] in E.
  destruct (if_output n); [by eapply settles_send_out|]. injection E as <- <-. apply settles_refl.
Qed.

(** ** The functions of the protocols *)

(** A packet that was made is disposed of, the one at hand is left alone. *)
Lemma settles_fresh id q s s1 s2 : id < fresh_id s -> pid q = fresh_id s -> fresh_id s1 = fresh_id s + 1 -> nf_hooks s1 = nf_hooks s -> ip_log s1 = ip_log s ->
  settles (pid q) 1 s1 s2 -> settles id 0 s s2.
Proof.
  intros Hid Hq Hf Hh Hl [Hh2 Hf2 (ev & El & C)]. split; [congruence|lia|]. exists ev. split; [by rewrite El, Hl|].
  intros i. rewrite C, Hq, Hf. destruct (Z.eqb_spec i id), (Z.eqb_spec i (fresh_id s)), (Z.leb_spec (fresh_id s) i), (Z.leb_spec (fresh_id s + 1) i), (Z.ltb_spec i (fresh_id s2)); cbn; lia.
Qed.

Lemma settles_icmp_error id s p type code s' : accepting s -> id < fresh_id s -> icmp_error s p type code = Ok s' -> settles id 0 s s'.
Proof.
  intros Ha Hid E. unfold icmp_error in E. destruct (new_packet s _) as [q s1] eqn:Eq. unfold new_packet in Eq.
  destruct (default true _); injection Eq as <- <-; [|injection E as <-; by apply settles_same].
  apply bind_Ok_inv in E as (h & _ & E). apply bind_Ok_inv in E as (bd & _ & E). apply bind_Ok_inv in E as (b & _ & E). apply bind_Ok_inv in E as ([rc s2] & E2 & E).
  match type of E with Ok (if _ then discard _ ?q else _) = _ => set (q0 := q) in * end. match type of E2 with ip_output ?t _ _ _ _ _ = _ => set (s1 := t) in * end.
  injection E as <-.
  assert (settles (pid q0) (taken rc) s1 s2) as H2.
  { unfold ip_output in E2. destruct (_ =? NULL); [injection E2 as <- <-; apply settles_refl|].
    apply settles_output in E2; [done|by apply (accepting_hooks s)|cbn; lia]. }
  apply (settles_fresh id q0 s s1); try done. unfold taken in H2. destruct (Z.ltb_spec rc 0); [|done].
  change 1 with (0 + 1). eapply settles_trans; [cbn; lia|exact H2|]. apply settles_discard.
Qed.

(** What follows an ICMP message about [p]. *)
Lemma settles_error_then s p n d t rc s' (r : Z) : accepting s -> pid p < fresh_id s -> r < 0 ->
  (s1 ← (if unicast n d then icmp_dest_unreach s t rc else Ok s); Ok (r, s1)) = Ok (r, s') -> settles (pid p) (taken r) s s'.
Proof.
  intros Ha Hp Hr E. apply bind_Ok_inv in E as (s1 & E1 & E). injection E as <-. unfold taken. rewrite (proj2 (Z.ltb_lt _ _)) by lia.
  destruct (unicast n d); [by eapply settles_icmp_error|]. injection E1 as <-. apply settles_refl.
Qed.

#[export] Instance udp_consumer : Consumer udp_input.
Proof.
  intros s p inp rc s' Ha Hp E. unfold udp_input in E. apply bind_Ok_inv in E as (h & _ & E). apply bind_Ok_inv in E as (n & _ & E).
  destruct (header p _) as [p1|] eqn:E1; [|injection E as <- <-; apply settles_refl]. apply header_pid in E1. rewrite <- E1 in *.
  destruct (_ <? UDP_HLEN); [injection E as <- <-; apply settles_refl|]. apply bind_Ok_inv in E as (u & _ & E).
  destruct (_ && _); [injection E as <- <-; apply settles_refl|]. destruct (udp_demux s h _ _) as [a|].
  - apply bind_Ok_inv in E as (pcb & _ & E). apply bind_Ok_inv in E as (p2 & E2 & E). apply from_opt_Ok, header_pid in E2. rewrite <- E2 in *.
    destruct (u_recv pcb); [|done]. by eapply settles_ask; [|exact E].
  - pose proof E as E0. apply bind_Ok_inv in E0 as (s1 & _ & E0). injection E0 as <- _. by eapply settles_error_then; [..|exact E].
Qed.

Lemma settles_echo s p h i inp rc s' : accepting s -> pid p < fresh_id s -> icmp_echo s p h i inp = Ok (rc, s') -> settles (pid p) (taken rc) s s'.
Proof.
  intros Ha Hp E. unfold icmp_echo in E. apply bind_Ok_inv in E as (n & _ & E).
  do 4 (match type of E with (if ?c then _ else _) = _ => destruct c; [injection E as <- <-; apply settles_refl|] end).
  apply bind_Ok_inv in E as (p1 & E1 & E). apply write_iph_pid in E1. apply bind_Ok_inv in E as (w & _ & E). apply bind_Ok_inv in E as (c & _ & E).
  apply bind_Ok_inv in E as (b & _ & E). apply bind_Ok_inv in E as (p2 & E2 & E). apply from_opt_Ok, header_pid in E2. cbn [set_buf pid] in E2.
  assert (pid p2 = pid p) as Ep by congruence. rewrite <- Ep in *. by eapply settles_output.
Qed.

#[export] Instance icmp_consumer : Consumer icmp_input.
Proof.
  intros s p inp rc s' Ha Hp E. unfold icmp_input in E. apply bind_Ok_inv in E as (h & _ & E).
  destruct (header p _) as [p1|] eqn:E1; [|injection E as <- <-; apply settles_refl]. apply header_pid in E1. rewrite <- E1 in *.
  destruct (_ <? 4); [injection E as <- <-; apply settles_refl|]. apply bind_Ok_inv in E as (ty & _ & E).
  destruct (_ =? ICMP_ECHO); [by eapply settles_echo|injection E as <- <-; apply settles_refl].
Qed.

Lemma settles_raw l : forall s p proto src rc s', pid p < fresh_id s -> raw_loop l s p proto src = Ok (rc, s') -> settles (pid p) (if 0 <? rc then 1 else 0) s s'.
Proof.
  induction l as [|a l IH]; intros s p proto src rc s' Hp E; cbn [raw_loop] in E; [injection E as <- <-; apply settles_refl|].
  apply bind_Ok_inv in E as (r & _ & E). destruct (_ && _); [|by eapply IH]. destruct (ask s _) as [rc1 s1] eqn:Ea. unfold ask in Ea. injection Ea as E1 Es1.
  assert (settles (pid p) (if 0 <? rc1 then 1 else 0) s s1) as H1.
  { rewrite <- Es1. eapply settles_event; try done; [|destruct (0 <? rc1); auto]. intros i. cbn. rewrite E1, Z.eqb_sym. by destruct (0 <? rc1). }
  destruct (Z.ltb_spec rc1 0).
  - injection E as <- <-. done.
  - destruct (Z.ltb_spec 0 rc1); [injection E as <- <-; done|]. change (if 0 <? rc then 1 else 0) with (0 + (if 0 <? rc then 1 else 0)).
    eapply settles_trans; [done|exact H1|]. eapply IH; [by eapply settles_old|exact E].
Qed.

Lemma settles_forward s p inp rc s' : accepting s -> pid p < fresh_id s -> ip_forward s p inp = Ok (rc, s') -> settles (pid p) (taken rc) s s'.
Proof.
  intros Ha Hp E. unfold ip_forward in E. apply bind_Ok_inv in E as (n & _ & E). apply bind_Ok_inv in E as (h & _ & E).
  destruct (ip_addr_isbroadcast _ _); [injection E as <- <-; apply settles_discard|]. cbv zeta in E.
  destruct (_ || _); [injection E as <- <-; apply settles_refl|]. destruct (_ =? 0); apply bind_Ok_inv in E as (p1 & E1 & E); apply write_iph_pid in E1; rewrite <- E1 in *.
  - apply bind_Ok_inv in E as (s1 & E2 & E). injection E as <- <-. change (taken 0) with (0 + 1). eapply settles_trans; [done| |apply settles_discard].
    destruct (_ =? IP_PROTO_ICMP); [injection E2 as <-; apply settles_refl|]. by eapply settles_icmp_error.
  - unfold nf_hook_post_route in E. rewrite Ha in E. cbn [NF_ACCEPT NF_DROP Z.eqb] in E. by eapply settles_send_out.
Qed.

Lemma shorten_pid p n p' : shorten p n = Ok p' -> pid p' = pid p.
Proof.
  unfold shorten. destruct (_ <=? n); [by intros [= <-]|]. destruct (_ <? n); [|by intros [= <-]]. intros E. apply bind_Ok_inv in E as (l & _ & E). by injection E as <-.
Qed.

Section Consume.
Context (tcp_in : ipst -> ipkt -> Z -> outcome (Z * ipst)).

(** The packet is given to TCP, once: until then it was neither released nor given away. *)
Definition to_tcp (s : ipst) (p : ipkt) (h : ip_hdr) (inp rc : Z) (s' : ipst) : Prop :=
  IPH_PROTO h = IP_PROTO_TCP /\ exists s1, settles (pid p) 0 s s1 /\ tcp_in s1 p inp = Ok (rc, s').

Lemma settles_deliver s p h n inp rc s' : accepting s -> pid p < fresh_id s -> ip_deliver tcp_in s p h n inp = Ok (rc, s') ->
  settles (pid p) (taken rc) s s' \/ to_tcp s p h inp rc s'.
Proof.
  intros Ha Hp E. unfold ip_deliver in E. apply bind_Ok_inv in E as ([r s1] & E1 & E). unfold raw_input in E1. apply bind_Ok_inv in E1 as (h1 & _ & E1).
  pose proof (settles_raw _ _ _ _ _ _ _ Hp E1) as H1. destruct (Z.ltb_spec r 0).
  { left. injection E as <- <-. rewrite (proj2 (Z.ltb_ge 0 r)) in H1 by lia. unfold taken. by rewrite (proj2 (Z.ltb_lt r 0)). }
  destruct (Z.ltb_spec 0 r); [left; injection E as <- <-; done|].
  pose proof (settles_accepting _ _ _ _ H1 Ha) as Ha1. pose proof (settles_old _ _ _ _ H1 Hp) as Hp1.
  destruct (Z.eqb_spec (IPH_PROTO h) IP_PROTO_UDP) as [|_];
    [|destruct (Z.eqb_spec (IPH_PROTO h) IP_PROTO_TCP) as [Ht|_]; [right; split; [done|by exists s1]|]];
    left; replace (taken rc) with (0 + taken rc) by lia; (eapply settles_trans; [done|exact H1|]); [by eapply (@consumes udp_input _)|].
  destruct (_ =? IP_PROTO_ICMP); [by eapply (@consumes icmp_input _)|].
  pose proof E as E0. apply bind_Ok_inv in E0 as (s2 & _ & E0). injection E0 as <- _. by eapply settles_error_then; [..|exact E].
Qed.

(** C5: every packet has one end.  When no filter drops packets, ip_input takes over the
    packet if its result is not negative, and then it is released, sent or given to a
    socket exactly once; otherwise it is left to the caller, which releases it; and every
    ICMP message made on the way is sent or released exactly once.  Only a TCP packet for
    an address of this host, cut to the length in its header, may be given to TCP instead,
    as the last thing ip_input does and with nothing done about it before; what TCP then
    does with it, and its result, are TCP's. *)
Theorem ip_input_takes_over s p inp rc s' : accepting s -> pid p < fresh_id s -> ip_input tcp_in s p inp = Ok (rc, s') ->
  settles (pid p) (taken rc) s s' \/
  exists h p1, read_iph (buf p) (pl p) = Ok h /\ shorten p (ntohs (iph_len h)) = Ok p1 /\ pid p1 = pid p /\
    for_us s p1 h = Ok true /\ to_tcp s p1 h inp rc s'.
Proof.
  intros Ha Hp E. unfold ip_input, nf_hook_pre_route in E. rewrite Ha in E. cbn [NF_ACCEPT NF_DROP Z.eqb] in E. apply bind_Ok_inv in E as (n & _ & E).
  apply bind_Ok_inv in E as (h & Eh & E). do 3 (match type of E with (if ?c then _ else _) = _ => destruct c; [left; injection E as <- <-; apply settles_refl|] end).
  apply bind_Ok_inv in E as (p1 & Es & E). pose proof (shorten_pid _ _ _ Es) as E1. rewrite <- E1 in *. apply bind_Ok_inv in E as (us & Eu & E). destruct us; cbn [negb] in E.
  - destruct (refused h); [left; injection E as <- <-; apply settles_refl|]. destruct (settles_deliver _ _ _ _ _ _ _ Ha Hp E) as [H|H]; [by left|right].
    by exists h, p1.
  - left. destruct (ip_addr_isbroadcast _ _); [injection E as <- <-; apply settles_discard|]. apply bind_Ok_inv in E as ([r s1] & E2 & E).
    apply settles_forward in E2; [|done..]. injection E as <- <-. unfold taken in *. cbn [Z.ltb Z.compare]. destruct (Z.ltb_spec r 0); [|done].
    change 1 with (0 + 1). eapply settles_trans; [done|exact E2|apply settles_discard].
Qed.

End Consume.

(** TCP that takes every packet over and releases it. *)
Definition tcp_discards (s : ipst) (p : ipkt) (inp : Z) : outcome (Z * ipst) := Ok (0, discard s p).

Definition wit_flow (hooks : list (Z * nf_hook_ops)) : ipst :=
  MkIp [64; 65] {[64 := wit_if 0x0100000A; 65 := wit_if 0x0100000B]} 64 hooks 7 [] ∅ 4096 [] ∅ 10 [] [] [] [].

(** A packet on its way through: whatever TCP is, it has one end. *)
Lemma ip_input_takes_over_witness : exists s', ip_input tcp_discards (wit_flow []) (wit_transit 9) 64 = Ok (0, s') /\ settles 3 1 (wit_flow []) s'.
Proof.
  assert (exists s', ip_input tcp_discards (wit_flow []) (wit_transit 9) 64 = Ok (0, s')) as (s' & E) by (eexists; vm_compute; reflexivity).
  exists s'. split; [exact E|]. assert (accepting (wit_flow [])) as Ha by (intros ? ? ?; reflexivity). assert (pid (wit_transit 9) < fresh_id (wit_flow [])) as Hp by reflexivity.
  change 3 with (pid (wit_transit 9)). change 1 with (taken 0).
  destruct (ip_input_takes_over tcp_discards _ _ 64 0 s' Ha Hp E) as [H|(h & p1 & Eh & Es & _ & Hu & _)]; [exact H|].
  vm_compute in Eh. injection Eh as <-. vm_compute in Es. injection Es as <-. vm_compute in Hu. discriminate Hu.
Defined.

(** ** Where a packet has two ends *)

Definition drop_at (num : Z) : list (Z * nf_hook_ops) := [(1, MkHook PF_INET num (fun _ _ => NF_DROP))].

(** A filter that drops a packet on its way out: ip_forward releases it and reports an
    error, and ip_input releases it again. *)
Lemma dropped_packet_freed_twice : exists rc s', ip_input tcp_discards (wit_flow (drop_at NF_IP_POST_ROUTING)) (wit_transit 9) 64 = Ok (rc, s') /\
  rc = 0 /\ disposals 3 (ip_log s') = 2.
Proof. eexists _, _. split; [vm_compute; reflexivity|]. by vm_compute. Qed.

(** On its way in: ip_input releases it, and its result tells the caller to do so too. *)
Lemma dropped_packet_left_to_caller : exists rc s', ip_input tcp_discards (wit_flow (drop_at NF_IP_PRE_ROUTING)) (wit_transit 9) 64 = Ok (rc, s') /\
  rc < 0 /\ disposals 3 (ip_log s') = 1.
Proof. eexists _, _. split; [vm_compute; reflexivity|]. by vm_compute. Qed.

(** ** Packets that should be refused *)

Definition probe (s : ipst) (p : ipkt) (inp : Z) : outcome (Z * ipst) := Ok (IPH_HL (MkIph (default 0 (ld16 (buf p) (Z.to_nat (pl p)))) 0 0 0 0 0 0 0), s).

(** A header that claims to be one word long is checked over four bytes and accepted. *)
Definition short_header : ipkt := as_one 3 ([0x41; 0; 0xBE; 0xFF; 0; 0; 0; 0; 9; 6; 0; 0] ++ le32 0x0700000A ++ le32 0x0100000A ++ replicate 20 0).
Lemma short_header_accepted : exists s', ip_input probe (wit_flow []) short_header 64 = Ok (1, s').
Proof. eexists. vm_compute. reflexivity. Qed.

(** A total length that is less than the header makes the lengths of the packet negative;
    compared as unsigned numbers they pass the tests, and the datagram is delivered. *)
Definition no_length : ipkt :=
  let h := MkIph 0x45 0 0 0 (9 + 256 * 17) 0 0x0700000A 0x0100000A in
  as_one 3 (iph_bytes (set_iph_chksum h (rfc1071 (iph_bytes h))) ++ le16 (htons 9) ++ le16 (htons 1000) ++ [0; 0; 0; 0] ++ [1; 2; 3]).
Lemma negative_length_delivered : exists q rc s', ip_input probe (wit_host 0x0100000A 1000) no_length 64 = Ok (rc, s') /\
  ip_log s' = [EvUdp 200 q 0x0700000A 9 rc] /\ plen q = -28.
Proof. eexists _, _, _. split; [vm_compute; reflexivity|]. by vm_compute. Qed.

(** The source port is compared with that of DHCP servers in the wrong byte order: a reply
    for an address that is not set yet is not taken in. *)
Definition to_other (sport : Z) : ipkt :=
  let h := MkIph 0x45 (htons 28) 0 0 (9 + 256 * 17) 0 0x0700000A 0x0900000A in
  as_one 3 (iph_bytes (set_iph_chksum h (rfc1071 (iph_bytes h))) ++ le16 (htons sport) ++ le16 (htons 68) ++ [0; 0; 0; 0]).
Lemma dhcp_port_not_swapped :
  (h ← read_iph (buf (to_other 67)) 0; for_us (wit_host 0x0100000A 68) (to_other 67) h) = Ok false /\
  (h ← read_iph (buf (to_other 17152)) 0; for_us (wit_host 0x0100000A 68) (to_other 17152) h) = Ok true.
Proof. split; by vm_compute. Qed.
