(* ===== verification/IpCtl.v ===== *)
(** * The state of the IP layer: interfaces, sockets and their ports *)

From S2P Require Import Prelude Pbuf Inet Arp Ether Tcp TcpBase TcpRecv Ip IpBase IpWire IpFwd IpFlow.

(** ** Packets do not change the configuration *)

Definition ctl (s : ipst) := (netif_list s, nifs s, netif_default s, nf_hooks s, (udp_pcbs s, upcbs s, udp_port s), (raw_pcbs s, rpcbs s)).

Definition keeps (s s' : ipst) : Prop := ctl s' = ctl s /\ (0 <= ip_id s < 65536 -> 0 <= ip_id s' < 65536).

Lemma keeps_refl s : keeps s s.
Proof. done. Qed.

Lemma keeps_trans s s1 s2 : keeps s s1 -> keeps s1 s2 -> keeps s s2.
Proof. intros [E1 H1] [E2 H2]. split; [congruence|tauto]. Qed.

Lemma keeps_discard s s' p : keeps s s' -> keeps s (discard s' p).
Proof. done. Qed.

Lemma keeps_ask s ev rc s' : Ok (ask s ev) = Ok (rc, s') -> keeps s s'.
Proof. unfold ask. intros E. by injection E as <- <-. Qed.

Create HintDb keeps.
#[export] Hint Resolve keeps_refl keeps_discard keeps_ask : keeps.

(** [step_through] follows the code of an operation to the places where it returns. *)
Ltac step_through :=
  repeat match goal with
    | H : mbind _ _ = Ok _ |- _ => apply bind_Ok_inv in H as (? & ? & H)
    | H : (let '(_, _) := ?x in _) = Ok _ |- _ => destruct x as [? ?]
    | H : (if ?c then _ else _) = Ok _ |- _ => destruct c eqn:?
    | H : match ?x with _ => _ end = Ok _ |- _ => destruct x eqn:?
    | H : Ok (ask _ _) = Ok (_, _) |- _ => apply keeps_ask in H
    | H : Ok (_, _) = Ok (_, _) |- _ => injection H as <- <-
    | H : Ok (_, _) = Ok ?x |- _ => injection H as <-
    | H : Ok ?x = Ok ?y |- _ => first [injection H as <- | is_var y; injection H as H]
    | H : Fault = Ok _ |- _ => discriminate H
    end.

Lemma keeps_send_out s nif p d rc s' : send_out s nif p d = Ok (rc, s') -> keeps s s'.
Proof. unfold send_out. intros E. apply bind_Ok_inv in E as (n & _ & E). destruct (if_output n); [by eapply keeps_ask|done]. Qed.

Lemma keeps_push s n p src d ttl proto r s' : push_hdr s n p src d ttl proto = Ok (r, s') -> keeps s s'.
Proof.
  unfold push_hdr. intros E. destruct (header p _); [|by injection E as <- <-]. apply bind_Ok_inv in E as (h & _ & E). apply bind_Ok_inv in E as (p1 & _ & E).
  injection E as <- <-. split; [done|]. intros _. apply u16_range.
Qed.

Lemma keeps_output_if s p src d ttl proto nif rc s' : ip_output_if s p src d ttl proto nif = Ok (rc, s') -> keeps s s'.
Proof.
  unfold ip_output_if. intros E. apply bind_Ok_inv in E as (n & _ & E). apply bind_Ok_inv in E as ([r s1] & E1 & E).
  assert (keeps s s1) as H1 by (destruct d; [by eapply keeps_push|by injection E1 as <- <-]).
  destruct r as [p1|]; [|by injection E as <- <-]. apply bind_Ok_inv in E as (dd & _ & E). destruct (_ =? NF_DROP); [by injection E as <- <-|].
  destruct (if_output n); [|by injection E as <- <-]. eapply keeps_trans; [exact H1|]. by eapply keeps_send_out.
Qed.

Lemma keeps_output s p src d ttl proto rc s' : ip_output s p src d ttl proto = Ok (rc, s') -> keeps s s'.
Proof. unfold ip_output. intros E. destruct (_ =? NULL); [by injection E as <- <-|by eapply keeps_output_if]. Qed.

Lemma keeps_icmp_error s p type code s' : icmp_error s p type code = Ok s' -> keeps s s'.
Proof.
  unfold icmp_error. intros E. destruct (new_packet s _) as [q s1] eqn:Eq. assert (keeps s s1) as H1 by (unfold new_packet in Eq; destruct (default true _); by injection Eq as <- <-).
  destruct q as [q|]; [|by injection E as <-]. apply bind_Ok_inv in E as (h & _ & E). apply bind_Ok_inv in E as (bd & _ & E). apply bind_Ok_inv in E as (b & _ & E).
  apply bind_Ok_inv in E as ([rc s2] & E2 & E). apply keeps_output in E2. pose proof (keeps_trans _ _ _ H1 E2) as H2. injection E as <-. by destruct (rc <? 0).
Qed.

Lemma keeps_unreach (c : bool) s p t s' : (if c then icmp_dest_unreach s p t else Ok s) = Ok s' -> keeps s s'.
Proof. destruct c; [apply keeps_icmp_error|by intros [= <-]]. Qed.

#[export] Hint Resolve keeps_send_out keeps_output_if keeps_output keeps_icmp_error keeps_unreach : keeps.

Lemma keeps_udp_input s p inp rc s' : udp_input s p inp = Ok (rc, s') -> keeps s s'.
Proof. unfold udp_input. intros E. step_through; eauto with keeps. Qed.

Lemma keeps_udp_send s a p d port nif rc s' : udp_send s a p d port nif = Ok (rc, s') -> keeps s s'.
Proof. unfold udp_send. intros E. step_through; eauto with keeps. Qed.

Lemma keeps_udp_sendto s a p d port rc s' : udp_sendto s a p d port = Ok (rc, s') -> keeps s s'.
Proof. unfold udp_sendto. intros E. destruct (_ =? NULL); [by injection E as <- <-|by eapply keeps_udp_send]. Qed.

Lemma keeps_raw_sendto s a p d rc s' : raw_sendto s a p d = Ok (rc, s') -> keeps s s'.
Proof. unfold raw_sendto. intros E. step_through; eauto with keeps. Qed.

Lemma keeps_icmp_input s p inp rc s' : icmp_input s p inp = Ok (rc, s') -> keeps s s'.
Proof. unfold icmp_input, icmp_echo. intros E. step_through; eauto with keeps. Qed.

Lemma keeps_raw_loop l : forall s p proto src rc s', raw_loop l s p proto src = Ok (rc, s') -> keeps s s'.
Proof.
  induction l as [|a l IH]; intros s p proto src rc s' E; cbn [raw_loop] in E; [by injection E as <- <-|]. apply bind_Ok_inv in E as (r & _ & E).
  destruct (_ && _); [|by eapply IH]. destruct (ask s _) as [rc1 s1] eqn:Ea. assert (keeps s s1) as H1 by (eapply keeps_ask; by rewrite Ea).
  destruct (rc1 <? 0); [by injection E as <- <-|]. destruct (0 <? rc1); [by injection E as <- <-|]. eapply keeps_trans; [exact H1|by eapply IH].
Qed.

Lemma keeps_forward s p inp rc s' : ip_forward s p inp = Ok (rc, s') -> keeps s s'.
Proof. unfold ip_forward, icmp_time_exceeded. intros E. step_through; eauto with keeps. Qed.

#[export] Hint Resolve keeps_udp_input keeps_icmp_input keeps_forward : keeps.

(** What TCP promises: it leaves the configuration alone too. *)
Class Keeps (f : ipst -> ipkt -> Z -> outcome (Z * ipst)) : Prop := f_keeps : forall s p inp rc s', f s p inp = Ok (rc, s') -> keeps s s'.

Lemma keeps_ip_input f `{Keeps f} s p inp rc s' : ip_input f s p inp = Ok (rc, s') -> keeps s s'.
Proof.
  unfold ip_input. intros E. destruct (_ =? NF_DROP); [by injection E as <- <-|]. apply bind_Ok_inv in E as (n & _ & E). apply bind_Ok_inv in E as (h & _ & E).
  do 3 (match type of E with (if ?c then _ else _) = _ => destruct c; [by injection E as <- <-|] end).
  apply bind_Ok_inv in E as (p1 & _ & E). apply bind_Ok_inv in E as (us & _ & E). destruct (negb us).
  - destruct (ip_addr_isbroadcast _ _); [by injection E as <- <-|]. apply bind_Ok_inv in E as ([r s1] & E1 & E). apply keeps_forward in E1.
    injection E as <- <-. by destruct (r <? 0).
  - destruct (refused h); [by injection E as <- <-|]. unfold ip_deliver in E. apply bind_Ok_inv in E as ([r s1] & E1 & E).
    assert (keeps s s1) as H1 by (unfold raw_input in E1; apply bind_Ok_inv in E1 as (h1 & _ & E1); by eapply keeps_raw_loop).
    destruct (r <? 0); [by injection E as <- <-|]. destruct (0 <? r); [by injection E as <- <-|]. eapply keeps_trans; [exact H1|].
    destruct (_ =? IP_PROTO_UDP); [by eapply keeps_udp_input|]. destruct (_ =? IP_PROTO_TCP); [by eapply f_keeps|].
    destruct (_ =? IP_PROTO_ICMP); [by eapply keeps_icmp_input|]. step_through; eauto with keeps.
Qed.

(** ** The well-formed states *)

Definition is_port (x : Z) : Prop := 0 <= x < 65536.

Definition if_ok (n : ifc) : Prop := is_addr (if_ip n) /\ is_addr (if_mask n) /\ is_addr (if_gw n) /\ is_addr (if_bcast n).
Definition udp_ok (u : udp_pcb) : Prop := is_addr (u_lip u) /\ is_addr (u_rip u) /\ is_port (u_lport u) /\ is_port (u_rport u).
Definition raw_ok (r : raw_pcb) : Prop := is_addr (r_lip r) /\ is_addr (r_rip r) /\ is_port (r_protocol r).

(** A list of structures: none twice, none that was freed. *)
Definition listed {A} (l : list Z) (m : gmap Z A) : Prop := NoDup l /\ forall a, a ∈ l -> is_Some (m !! a).

Record ip_ok (s : ipst) : Prop := {
  ok_ifs : listed (netif_list s) (nifs s); ok_if : map_Forall (fun _ n => if_ok n) (nifs s);
  ok_udps : listed (udp_pcbs s) (upcbs s); ok_udp : map_Forall (fun _ u => udp_ok u) (upcbs s);
  ok_bound : forall a u, a ∈ udp_pcbs s -> upcbs s !! a = Some u -> u_lport u <> 0;
  ok_raws : listed (raw_pcbs s) (rpcbs s); ok_raw : map_Forall (fun _ r => raw_ok r) (rpcbs s);
  ok_next : 4096 <= udp_port s <= 32767; ok_id : 0 <= ip_id s < 65536 }.

Lemma listed_add {A} l (m : gmap Z A) a x : listed l m -> m !! a = None -> listed (a :: l) (<[a := x]> m).
Proof.
  intros [Hn Hl] Ha. split.
  - constructor; [|done]. intros Hin%Hl. rewrite Ha in Hin. by destruct Hin.
  - intros b Hb. destruct (decide (a = b)) as [->|]; [rewrite lookup_insert_eq; by eexists|]. rewrite lookup_insert_ne by done. apply Hl. set_solver.
Qed.

Lemma listed_put {A} l (m : gmap Z A) a x : listed l m -> listed l (<[a := x]> m).
Proof.
  intros [Hn Hl]. split; [done|]. intros b Hb. destruct (decide (a = b)) as [->|]; [rewrite lookup_insert_eq; by eexists|]. rewrite lookup_insert_ne by done. by apply Hl.
Qed.

Lemma listed_del {A} l (m : gmap Z A) a : listed l m -> listed (list_del a l) (delete a m).
Proof.
  intros [Hn Hl]. split; [by apply list_del_NoDup|]. intros b Hb. assert (a <> b) as Hab by (intros ->; by eapply NoDup_list_del_notin).
  rewrite lookup_delete_ne by done. apply Hl. by eapply elem_of_list_del.
Qed.

Lemma keeps_ok s s' : keeps s s' -> ip_ok s -> ip_ok s'.
Proof. intros [E Hid] [? ? ? ? ? ? ? ? ?]. unfold ctl in E. injection E as E1 E2 E3 E4 E5 E6 E7 E8 E9. split; rewrite ?E1, ?E2, ?E5, ?E6, ?E7, ?E8, ?E9; auto. Qed.

(** The configuration with other interfaces, UDP or raw control blocks. *)
Lemma ok_nifs s l m : ip_ok s -> listed l m -> map_Forall (fun _ n => if_ok n) m -> ip_ok (set_nifs s l m).
Proof. intros [? ? ? ? ? ? ? ? ?] Hl Hm. by split. Qed.
Lemma ok_set_raw s l m : ip_ok s -> listed l m -> map_Forall (fun _ r => raw_ok r) m -> ip_ok (set_raw s l m).
Proof. intros [? ? ? ? ? ? ? ? ?] Hl Hm. by split. Qed.
Lemma ok_set_udp s l m : ip_ok s -> listed l m -> map_Forall (fun _ u => udp_ok u) m -> (forall a u, a ∈ l -> m !! a = Some u -> u_lport u <> 0) -> ip_ok (set_udp s l m).
Proof. intros [? ? ? ? ? ? ? ? ?] Hl Hm Hb. by split. Qed.

(** ** Its operations *)

(** The calls of the configuration, of the sockets, and the packets.  New structures have
    an address that is not in use; addresses and ports are of their width. *)
Inductive istep (tcp_in : ipst -> ipkt -> Z -> outcome (Z * ipst)) : ipst -> ipst -> Prop :=
  | i_netif_add s a name ip mask gw r s' : nifs s !! a = None -> is_addr ip -> is_addr mask -> is_addr gw -> netif_add s a name ip mask gw = (r, s') -> istep tcp_in s s'
  | i_netif_delete s a s' : netif_delete s a = Ok s' -> istep tcp_in s s'
  | i_netif_ip s a ip s' : is_addr ip -> netif_set_ipaddr s a ip = Ok s' -> istep tcp_in s s'
  | i_netif_mask s a ip s' : is_addr ip -> netif_set_netmask s a ip = Ok s' -> istep tcp_in s s'
  | i_netif_gw s a ip s' : is_addr ip -> netif_set_gw s a ip = Ok s' -> istep tcp_in s s'
  | i_netif_default s a : istep tcp_in s (netif_set_default s a)
  | i_hook s a h : istep tcp_in s (nf_register_hook s a h)
  | i_unhook s a : istep tcp_in s (nf_unregister_hook s a)
  | i_udp_new s a r s' : upcbs s !! a = None -> udp_new s a = (r, s') -> istep tcp_in s s'
  | i_udp_bind s a ip port rc s' : is_addr ip -> is_port port -> udp_bind s a ip port = Ok (rc, s') -> istep tcp_in s s'
  | i_udp_connect s a ip port rc s' : is_addr ip -> is_port port -> udp_connect s a ip port = Ok (rc, s') -> istep tcp_in s s'
  | i_udp_recv s a f s' : udp_recv s a f = Ok s' -> istep tcp_in s s'
  | i_udp_remove s a s' : udp_remove s a = Ok s' -> istep tcp_in s s'
  | i_udp_send s a p d port nif rc s' : udp_send s a p d port nif = Ok (rc, s') -> istep tcp_in s s'
  | i_udp_sendto s a p d port rc s' : udp_sendto s a p d port = Ok (rc, s') -> istep tcp_in s s'
  | i_raw_new s a proto r s' : rpcbs s !! a = None -> raw_new s a proto = (r, s') -> istep tcp_in s s'
  | i_raw_bind s a ip s' : is_addr ip -> raw_bind s a ip = Ok s' -> istep tcp_in s s'
  | i_raw_connect s a ip s' : is_addr ip -> raw_connect s a ip = Ok s' -> istep tcp_in s s'
  | i_raw_recv s a f s' : raw_recv s a f = Ok s' -> istep tcp_in s s'
  | i_raw_remove s a s' : raw_remove s a = Ok s' -> istep tcp_in s s'
  | i_raw_sendto s a p d rc s' : raw_sendto s a p d = Ok (rc, s') -> istep tcp_in s s'
  | i_output s p src d ttl proto rc s' : ip_output s p src d ttl proto = Ok (rc, s') -> istep tcp_in s s'
  | i_input s p inp rc s' : ip_input tcp_in s p inp = Ok (rc, s') -> istep tcp_in s s'
  | i_env s al an : istep tcp_in s (set_env s (fresh_id s) al an (ip_log s)).

Lemma addr_0 : is_addr 0.
Proof. done. Qed.

Lemma broadcast_addr ip mask : is_addr ip -> is_addr mask -> is_addr (Z.lor (Z.land ip mask) (Z.lxor mask 0xFFFFFFFF)).
Proof.
  unfold is_addr. intros Hi Hm. assert (0 <= Z.land ip mask < 2 ^ 32) as Ha.
  { split; [apply Z.land_nonneg; lia|]. rewrite <- (Z.mod_small ip (2 ^ 32)), <- Z.land_ones, <- Z.land_assoc, (Z.land_comm (Z.ones 32)), Z.land_assoc, Z.land_ones by lia.
    apply Z.mod_pos_bound. lia. }
  assert (0 <= Z.lxor mask 0xFFFFFFFF < 2 ^ 32) as Hx.
  { change 0xFFFFFFFF with (Z.ones 32). rewrite <- (Z.mod_small mask (2 ^ 32)), <- Z.land_ones by lia.
    replace (Z.lxor (Z.land mask (Z.ones 32)) (Z.ones 32)) with (Z.land (Z.lnot mask) (Z.ones 32));
      [rewrite Z.land_ones by lia; apply Z.mod_pos_bound; lia|].
    apply Z.bits_inj'. intros i Hb. rewrite Z.lxor_spec, !Z.land_spec, Z.lnot_spec by done. by destruct (Z.testbit mask i), (Z.testbit (Z.ones 32) i). }
  apply lor_range; [lia|done|done].
Qed.

Lemma netif_step s s' : ip_ok s ->
  (exists a name ip mask gw r, nifs s !! a = None /\ is_addr ip /\ is_addr mask /\ is_addr gw /\ netif_add s a name ip mask gw = (r, s')) \/
  (exists a, netif_delete s a = Ok s') \/
  (exists a ip, is_addr ip /\ (netif_set_ipaddr s a ip = Ok s' \/ netif_set_netmask s a ip = Ok s' \/ netif_set_gw s a ip = Ok s')) -> ip_ok s'.
Proof.
  intros H [(a & name & ip & mask & gw & r & Ha & Hi & Hm & Hg & E)|[(a & E)|(a & ip & Hi & E)]]; pose proof H as [Hl Hf _ _ _ _ _ _ _].
  - unfold netif_add in E. destruct (a =? NULL); injection E as <- <-; [done|]. apply ok_nifs; [done|by apply listed_add|].
    apply map_Forall_insert_2; [|done]. split_and!; try done. by apply broadcast_addr.
  - unfold netif_delete in E. apply bind_Ok_inv in E as (n & _ & E). injection E as <-. apply ok_nifs; [done|by apply listed_del|by apply map_Forall_delete].
  - unfold netif_set_ipaddr, netif_set_netmask, netif_set_gw in E.
    destruct E as [E|[E|E]]; apply bind_Ok_inv in E as (n & En & E); injection E as <-; unfold getif in En; apply from_opt_Ok in En; pose proof (map_Forall_lookup_1 _ _ _ _ Hf En) as (? & ? & ? & ?);
      (apply ok_nifs; [done|by apply listed_put|]; apply map_Forall_insert_2; [by split_and!|done]).
Qed.

Lemma raw_step s a s' f : ip_ok s -> (forall r, raw_ok r -> raw_ok (f r)) -> (r ← from_opt (rpcbs s !! a); Ok (put_raw s a (f r))) = Ok s' -> ip_ok s'.
Proof.
  intros H Hf E. apply bind_Ok_inv in E as (r & Er & E). injection E as <-. apply from_opt_Ok in Er. pose proof H as [_ _ _ _ _ Hl Hr _ _].
  apply ok_set_raw; [done|by apply listed_put|]. apply map_Forall_insert_2; [apply Hf; exact (map_Forall_lookup_1 _ _ _ _ Hr Er)|done].
Qed.

Lemma new_port_ok s port s' : ip_ok s -> udp_new_port s = Ok (port, s') -> ip_ok s' /\ 4096 <= port <= 32767 /\ udp_pcbs s' = udp_pcbs s /\ upcbs s' = upcbs s /\
  udp_port_used s port = false.
Proof.
  intros H E. unfold udp_new_port in E. apply bind_Ok_inv in E as (r & E1 & E). injection E as <- <-. pose proof H as [? ? ? ? ? ? ? Hp ?].
  destruct (new_port_loop_spec (udp_port_used s) (S (length (udp_pcbs s))) (udp_port s) Hp) as [(q & Eq & Hq & Hu)|(Eq & _)]; rewrite Eq in E1; [|done].
  injection E1 as <-. split_and!; (done || lia).
Qed.

Lemma enlist_ok s a u u0 : ip_ok s -> upcbs s !! a = Some u0 -> udp_ok u -> u_lport u <> 0 -> ip_ok (udp_enlist s a u).
Proof.
  intros H Ha Hu Hp. pose proof H as [_ _ Hl Hm Hb _ _ _ _]. unfold udp_enlist. apply ok_set_udp; [done| |by apply map_Forall_insert_2|].
  - case_bool_decide as Hin; [by apply listed_put|]. destruct Hl as [Hn Hl]. split; [by constructor|].
    intros b [->|Hb']%elem_of_cons; [rewrite lookup_insert_eq; by eexists|]. destruct (decide (a = b)) as [->|]; [rewrite lookup_insert_eq; by eexists|].
    rewrite lookup_insert_ne by done. by apply Hl.
  - intros b v Hin Ev. destruct (decide (a = b)) as [->|Hab]; [rewrite lookup_insert_eq in Ev; by injection Ev as <-|]. rewrite lookup_insert_ne in Ev by done.
    apply (Hb b); [|done]. case_bool_decide; [done|]. set_solver.
Qed.

Lemma udp_step s s' : ip_ok s ->
  (exists a r, upcbs s !! a = None /\ udp_new s a = (r, s')) \/
  (exists a ip port rc, is_addr ip /\ is_port port /\ (udp_bind s a ip port = Ok (rc, s') \/ udp_connect s a ip port = Ok (rc, s'))) \/
  (exists a f, udp_recv s a f = Ok s') \/ (exists a, udp_remove s a = Ok s') -> ip_ok s'.
Proof.
  intros H HH. pose proof H as [_ _ Hl Hm Hb _ _ _ _]. destruct HH as [(a & r & Ha & E)|[(a & ip & port & rc & Hi & Hp & [E|E])|[(a & f & E)|(a & E)]]].
  - unfold udp_new in E. destruct (a =? NULL); injection E as <- <-; [done|]. apply ok_set_udp; [done|by apply listed_put|by apply map_Forall_insert_2|].
    intros b u Hin Eu. assert (a <> b) by (intros ->; apply (proj2 Hl) in Hin; rewrite Ha in Hin; by destruct Hin). rewrite lookup_insert_ne in Eu by done. by eapply Hb.
  - unfold udp_bind in E. apply bind_Ok_inv in E as (u & Eu & E). apply from_opt_Ok in Eu. destruct (_ && _); [by injection E as <- <-|].
    apply bind_Ok_inv in E as ([q s1] & E1 & E). injection E as <- <-. pose proof (map_Forall_lookup_1 _ _ _ _ Hm Eu) as (? & ? & ? & ?).
    destruct (Z.eqb_spec port 0).
    + apply new_port_ok in E1 as (Ho1 & Hq & _ & Em & _); [|done]. eapply enlist_ok; [done|by rewrite Em|split_and!; try done; unfold is_port; cbn; lia|cbn; lia].
    + injection E1 as <- <-. by eapply enlist_ok.
  - unfold udp_connect in E. apply bind_Ok_inv in E as (u & Eu & E). apply from_opt_Ok in Eu. apply bind_Ok_inv in E as ([q s1] & E1 & E). injection E as <- <-.
    pose proof (map_Forall_lookup_1 _ _ _ _ Hm Eu) as (? & ? & ? & ?). destruct (Z.eqb_spec (u_lport u) 0).
    + apply new_port_ok in E1 as (Ho1 & Hq & _ & Em & _); [|done]. eapply enlist_ok; [done|by rewrite Em|split_and!; try done; unfold is_port; cbn; lia|cbn; lia].
    + injection E1 as <- <-. by eapply enlist_ok.
  - unfold udp_recv in E. apply bind_Ok_inv in E as (u & Eu & E). injection E as <-. apply from_opt_Ok in Eu. pose proof (map_Forall_lookup_1 _ _ _ _ Hm Eu) as Hu.
    apply ok_set_udp; [done|by apply listed_put|by apply map_Forall_insert_2|]. intros b v Hin Ev. destruct (decide (a = b)) as [->|].
    + rewrite lookup_insert_eq in Ev. injection Ev as <-. exact (Hb b u Hin Eu).
    + rewrite lookup_insert_ne in Ev by done. by eapply Hb.
  - unfold udp_remove in E. apply bind_Ok_inv in E as (u & _ & E). injection E as <-. apply ok_set_udp; [done|by apply listed_del|by apply map_Forall_delete|].
    intros b v Hin Ev. apply lookup_delete_Some in Ev as [_ Ev]. eapply Hb; [by eapply elem_of_list_del|done].
Qed.

Lemma istep_ok tcp_in `{Keeps tcp_in} s s' : ip_ok s -> istep tcp_in s s' -> ip_ok s'.
Proof.
  intros Hok Hst. destruct Hst as [s a name ip mask gw r s' ? ? ? ? E|s a s' E|s a ip s' ? E|s a ip s' ? E|s a ip s' ? E|s a|s a h|s a|s a r s' ? E|s a ip port rc s' ? ? E|s a ip port rc s' ? ? E|
    s a f s' E|s a s' E|s a p d port nif rc s' E|s a p d port rc s' E|s a proto r s' Ha E|s a ip s' ? E|s a ip s' ? E|s a f s' E|s a s' E|s a p d rc s' E|s p src d ttl proto rc s' E|s p inp rc s' E|s al an].
  - eapply netif_step; [exact Hok|]. left. exists a, name, ip, mask, gw, r. auto.
  - eapply netif_step; [exact Hok|]. right. left. by eexists.
  - eapply netif_step; [exact Hok|]. right. right. exists a, ip. auto.
  - eapply netif_step; [exact Hok|]. right. right. exists a, ip. auto.
  - eapply netif_step; [exact Hok|]. right. right. exists a, ip. auto.
  - by destruct Hok.
  - by destruct Hok.
  - by destruct Hok.
  - eapply udp_step; [exact Hok|]. left. by eexists _, _.
  - eapply udp_step; [exact Hok|]. right. left. exists a, ip, port, rc. auto.
  - eapply udp_step; [exact Hok|]. right. left. exists a, ip, port, rc. auto.
  - eapply udp_step; [exact Hok|]. right. right. left. by eexists _, _.
  - eapply udp_step; [exact Hok|]. right. right. right. by eexists.
  - eapply keeps_ok; [by eapply keeps_udp_send|done].
  - eapply keeps_ok; [by eapply keeps_udp_sendto|done].
  - unfold raw_new in E. destruct (a =? NULL); injection E as <- <-; [done|]. pose proof Hok as [_ _ _ _ _ Hl Hr _ _]. apply ok_set_raw; [done|by apply listed_add|].
    apply map_Forall_insert_2; [|done]. split_and!; try done; apply u16_range.
  - by eapply (raw_step s a s' (fun r => MkRaw ip (r_rip r) (r_ttl r) (r_protocol r) (r_recv r))); [done|intros r (? & ? & ?); by split_and!|].
  - by eapply (raw_step s a s' (fun r => MkRaw (r_lip r) ip (r_ttl r) (r_protocol r) (r_recv r))); [done|intros r (? & ? & ?); by split_and!|].
  - by eapply (raw_step s a s' (fun r => MkRaw (r_lip r) (r_rip r) (r_ttl r) (r_protocol r) f)); [done|intros r (? & ? & ?); by split_and!|].
  - unfold raw_remove in E. apply bind_Ok_inv in E as (r & _ & E). injection E as <-. pose proof Hok as [_ _ _ _ _ Hl Hr _ _].
    apply ok_set_raw; [done|by apply listed_del|by apply map_Forall_delete].
  - eapply keeps_ok; [by eapply keeps_raw_sendto|done].
  - eapply keeps_ok; [by eapply keeps_output|done].
  - eapply keeps_ok; [by eapply keeps_ip_input|done].
  - by destruct Hok.
Qed.

(** As the static data are at the start; netif_init, udp_init and raw_init set the lists. *)
Definition ip_boot (al : list bool) (j an : list Z) : ipst := MkIp [] ∅ NULL [] 0 [] ∅ 4096 [] ∅ 0 al j an [].

Lemma ip_boot_ok al j an : ip_ok (ip_boot al j an).
Proof. split; try done; try (split; [constructor|set_solver]); set_solver. Qed.

(** C18: the state of the IP layer is well formed in every state that the configuration
    calls, the socket calls and arriving packets lead to: the lists have no structure twice
    and none that was freed, every address, port and protocol number is of its width, a UDP
    control block on the list has a port, and the counters stay in their ranges. *)
Theorem ip_state_well_formed tcp_in al j an s : Keeps tcp_in -> reach (istep tcp_in) (ip_boot al j an) s -> ip_ok s.
Proof. intros Hk. apply (reach_invariant _ ip_ok); [apply ip_boot_ok|]. intros x y Hx Hst. by eapply istep_ok. Qed.

#[export] Instance tcp_discards_keeps : Keeps tcp_discards.
Proof. intros s p inp rc s' E. unfold tcp_discards in E. injection E as <- <-. by apply keeps_discard. Qed.

Lemma ip_state_well_formed_witness : exists s, reach (istep tcp_discards) (ip_boot [] [] []) s /\ udp_pcbs s = [200] /\ netif_list s = [64] /\ ip_ok s.
Proof.
  assert (exists s, reach (istep tcp_discards) (ip_boot [] [] []) s /\ udp_pcbs s = [200] /\ netif_list s = [64]) as (s & Hr & Eu & En).
  { eexists. split; [|shelve]. eapply reach_step; [eapply reach_step; [eapply reach_step; [apply reach_refl|]|]|].
    - eapply (i_netif_add _ _ 64 [] 0x0100000A 0xFFFFFF 0); [reflexivity|vm_compute; intuition congruence..|vm_compute; reflexivity].
    - eapply (i_udp_new _ _ 200); vm_compute; reflexivity.
    - eapply (i_udp_bind _ _ 200 0 0); [vm_compute; intuition congruence..|vm_compute; reflexivity].
    Unshelve. by split. }
  exists s. split_and!; [done..|]. exact (ip_state_well_formed tcp_discards [] [] [] s _ Hr).
Defined.

(** ** Who gets a datagram *)

Lemma find_same {A} (f g : A -> bool) l : (forall x, x ∈ l -> f x = g x) -> List.find f l = List.find g l.
Proof. induction l as [|x l IH]; [done|]. intros H. cbn. rewrite (H x) by set_solver. destruct (g x); [done|]. apply IH. set_solver. Qed.

Lemma find_only (f : Z -> bool) l a : a ∈ l -> (forall b, b ∈ l -> b <> a -> f b = false) -> List.find f l = if f a then Some a else None.
Proof.
  induction l as [|x l IH]; [by intros ?%elem_of_nil|]. intros Hin H. cbn. destruct (decide (x = a)) as [->|Hx].
  - destruct (f a) eqn:Ha; [done|]. destruct (List.find f l) as [b|] eqn:Hb; [|done]. apply List.find_some in Hb as (Hbl & Hfb).
    destruct (decide (b = a)) as [->|]; [congruence|]. rewrite H in Hfb; [done|apply elem_of_cons; right; by apply list_elem_of_In|done].
  - rewrite (H x) by (try done; set_solver). apply IH; set_solver.
Qed.

Lemma enlisted s a u : a ∈ udp_pcbs (udp_enlist s a u).
Proof. cbn. case_bool_decide; [done|set_solver]. Qed.

Lemma find_enlisted s a u f : (forall b v, b ∈ udp_pcbs s -> upcbs s !! b = Some v -> f v = false) ->
  find_udp (udp_enlist s a u) f = if f u then Some a else None.
Proof.
  intros H. unfold find_udp. rewrite (find_only _ _ a (enlisted s a u)); [cbn; by rewrite lookup_insert_eq|].
  intros b Hb Hab. cbn in *. rewrite lookup_insert_ne by done. destruct (upcbs s !! b) as [v|] eqn:Hv; [|done]. apply (H b); [|done].
  case_bool_decide; [done|set_solver].
Qed.

Lemma find_others s a u f : f u = false -> (forall v, upcbs s !! a = Some v -> f v = false) -> find_udp (udp_enlist s a u) f = find_udp s f.
Proof.
  intros Hu Hv. unfold find_udp. trans (List.find (fun b => match upcbs s !! b with Some v => f v | None => false end) (udp_pcbs (udp_enlist s a u))).
  - apply find_same. intros b _. cbn. destruct (decide (a = b)) as [->|]; [|by rewrite lookup_insert_ne]. rewrite lookup_insert_eq, Hu.
    destruct (upcbs s !! b) as [v|]; [by rewrite Hv|done].
  - cbn. case_bool_decide; [done|]. cbn. destruct (upcbs s !! a) as [v|] eqn:E; [by rewrite (Hv v)|done].
Qed.

Lemma udp_port_used_elem s port : udp_port_used s port = true -> port ∈ omap (fun a => u_lport <$> upcbs s !! a) (udp_pcbs s).
Proof.
  unfold udp_port_used. intros (a & Ha & Hp)%List.existsb_exists. apply list_elem_of_omap. exists a. split; [by apply list_elem_of_In|].
  destruct (upcbs s !! a) as [u|]; [|done]. apply Z.eqb_eq in Hp. cbn. by rewrite Hp.
Qed.

Lemma udp_port_unused s port b v : udp_port_used s port = false -> b ∈ udp_pcbs s -> upcbs s !! b = Some v -> u_lport v <> port.
Proof.
  intros Hu Hb Hv <-. assert (udp_port_used s (u_lport v) = true) as H; [|by rewrite Hu in H].
  apply List.existsb_exists. exists b. split; [by apply list_elem_of_In|]. rewrite Hv. apply Z.eqb_refl.
Qed.

(** The control block [u] takes a datagram from port [src]. *)
Definition takes (u : udp_pcb) (h : ip_hdr) (src : Z) : bool := ((u_rport u =? src) || negb (has (u_flags u) UDP_FLAGS_CONNECTED)) && addrs_match u h.

Lemma demux_only s a u h src port : u_lport u = port -> (forall b v, b ∈ udp_pcbs s -> upcbs s !! b = Some v -> u_lport v <> port) ->
  udp_demux (udp_enlist s a u) h src port = if takes u h src then Some a else None.
Proof.
  intros Hp H. unfold udp_demux, takes. rewrite !find_enlisted; [|intros b v Hb Hv; rewrite (proj2 (Z.eqb_neq _ _) (H b v Hb Hv)); by rewrite andb_false_r..].
  rewrite (proj2 (Z.eqb_eq _ _) Hp), !andb_true_r. by destruct (u_rport u =? src), (has _ _), (addrs_match u h).
Qed.

Lemma demux_others s a u u0 h src dest : upcbs s !! a = Some u0 -> u_lport u <> dest -> u_lport u0 <> dest -> udp_demux (udp_enlist s a u) h src dest = udp_demux s h src dest.
Proof.
  intros Ha Hu%Z.eqb_neq H0%Z.eqb_neq. unfold udp_demux. rewrite !find_others; [done|..];
    try (intros v Ev; rewrite Ha in Ev; injection Ev as <-); rewrite ?Hu, ?H0; by rewrite andb_false_r.
Qed.

(** a socket bound to port 0.  With fewer than 28672 sockets udp_bind ends and gives
    it a port between 4096 and 32767; a datagram for that port goes to this socket if its
    remote address and port admit it and to no other; who gets the datagrams for every port but the
    socket's old and new one does not change. *)
Theorem udp_ephemeral_port tcp_in al j an s a u ip : Keeps tcp_in -> reach (istep tcp_in) (ip_boot al j an) s ->
  upcbs s !! a = Some u -> ip = 0 \/ ip_ownaddr s ip = true -> Z.of_nat (length (udp_pcbs s)) < 28672 ->
  exists port s', let u' := MkUdp ip (u_rip u) port (u_rport u) (u_flags u) (u_recv u) in
    udp_bind s a ip 0 = Ok (0, s') /\ 4096 <= port <= 32767 /\ upcbs s' !! a = Some u' /\
    (forall h src, udp_demux s' h src port = if takes u' h src then Some a else None) /\
    (forall h src dest, dest <> port -> dest <> u_lport u -> udp_demux s' h src dest = udp_demux s h src dest).
Proof.
  intros Hk Hr Ha Hip Hl. assert (ip_ok s) as Hok by (revert Hr; apply (reach_invariant _ ip_ok); [apply ip_boot_ok|intros x y Hx Hst; by eapply istep_ok]).
  destruct (new_port_total (udp_port_used s) _ _ _ (ok_next _ Hok) (udp_port_used_elem s) (omap_length _ _) Hl) as (port & E & Hp & Hu).
  exists port, (udp_enlist (set_udp_port s port) a (MkUdp ip (u_rip u) port (u_rport u) (u_flags u) (u_recv u))). cbv zeta. split_and!.
  - unfold udp_bind. rewrite Ha. cbn [from_opt mbind outcome_bind]. assert (negb (ip_addr_isany ip) && negb (ip_ownaddr s ip) = false) as ->
      by (destruct Hip as [->| ->]; [done|by rewrite andb_false_r]).
    unfold udp_new_port. change (0 =? 0) with true. cbv iota. by rewrite E.
  - lia.
  - lia.
  - cbn. apply lookup_insert_eq.
  - intros h src. apply demux_only; [done|]. intros b v. by apply udp_port_unused.
  - intros h src dest Hd H0. by rewrite (demux_others (set_udp_port s port) a _ u) by (done || cbn; congruence).
Qed.

Lemma udp_ephemeral_port_witness : exists s port s', reach (istep tcp_discards) (ip_boot [] [] []) s /\ udp_bind s 200 0 0 = Ok (0, s') /\
  forall h src, udp_demux s' h src port = if takes (MkUdp 0 0 port 0 0 false) h src then Some 200 else None.
Proof.
  assert (exists s, reach (istep tcp_discards) (ip_boot [] [] []) s /\ upcbs s !! 200 = Some (MkUdp 0 0 0 0 0 false) /\ udp_pcbs s = [100]) as (s & Hr & Eu & En).
  { eexists. split; [|shelve]. eapply reach_step; [eapply reach_step; [eapply reach_step; [apply reach_refl|]|]|].
    - eapply (i_udp_new _ _ 100); vm_compute; reflexivity.
    - eapply (i_udp_bind _ _ 100 0 4096); [vm_compute; intuition congruence..|vm_compute; reflexivity].
    - eapply (i_udp_new _ _ 200); vm_compute; reflexivity.
    Unshelve. by split. }
  destruct (udp_ephemeral_port tcp_discards [] [] [] s 200 _ 0 _ Hr Eu (or_introl eq_refl) ltac:(rewrite En; reflexivity)) as (port & s' & E & _ & _ & H & _).
  exists s, port, s'. split_and!; [exact Hr|exact E|exact H].
Defined.

(** ** Deviations *)

(** netif_delete leaves netif_default at the structure it freed: the next packet without a
    network of its own goes through it. *)
Lemma default_left_dangling : exists s', netif_delete (wit_host 0x0100000A 1000) 64 = Ok s' /\ netif_default s' = 64 /\ nifs s' !! 64 = None /\
  ip_output s' wit_packet 0 0x0200000A 255 IP_PROTO_UDP = Fault.
Proof. eexists. split; [vm_compute; reflexivity|]. do 2 (split; [vm_compute; reflexivity|]). vm_compute. reflexivity. Qed.

(** Two sockets bound to one port: udp_bind does not look whether a given port is taken. *)
Lemma port_bound_twice : exists s', udp_bind (set_udp (wit_host 0x0100000A 1000) [200] {[200 := MkUdp 0 0 1000 0 0 true; 300 := MkUdp 0 0 0 0 0 true]}) 300 0 1000 = Ok (0, s') /\
  udp_pcbs s' = [300; 200] /\ (u_lport <$> upcbs s' !! 300) = Some 1000 /\ (u_lport <$> upcbs s' !! 200) = Some 1000.
Proof. eexists. split; [vm_compute; reflexivity|]. do 2 (split; [vm_compute; reflexivity|]). vm_compute. reflexivity. Qed.

(** The first network that holds the address, not the narrowest: 10.0.0.0/8 before 10.0.1.0/24. *)
Lemma first_network_wins : let s := MkIp [64; 65] {[64 := MkIf [] 0x0100000A 0xFF 0 0 0 1500 true; 65 := MkIf [] 0x0101000A 0xFFFFFF 0 0 0 1500 true]}
    0 [] 7 [] ∅ 4096 [] ∅ 1 [] [] [] [] in route_to s 0x0201000A = 64.
Proof. vm_compute. reflexivity. Qed.
