(* ===== verification/TcpIp.v ===== *)
(** * TCP over IP: a segment from the TCP of one host to that of another *)

From S2P Require Import Prelude Pbuf Inet Arp Ether Tcp TcpBase TcpRecv TcpSend TcpStream TcpConn TcpWire Ip IpBase IpWire.

(** ** Where IP and TCP meet *)

(** tcp_input of net/tcp_input.c on a packet of IP.  With a negative length, which passes the
    comparison, the code reads behind the packet: [Fault]. *)
Definition tcp_input_packet (n : nat) (t : tcp) (p : ipkt) (inp : route) (na : Z) : outcome (Z * tcp) :=
  h ← read_iph (buf p) (pl p);
  match header p (- (IPH_HL h * 4)) with
  | None => Ok (EPROTO, t)
  | Some p =>
      if (plen p <? 0) || (ptot p <? 0) then Fault
      else tcp_input n t (sub (buf p) (pl p) (plen p)) (more p) (iph_src h) (iph_dest h) inp na
  end.

(** ** What TCP hands to IP *)

(** The checksum is computed by TCP, not by the card. *)
Definition formed (k : tpacket) : Prop := exists r h, has (rt_flags r) NETIF_TCP_TX_CHECKSUM_OFFLOAD = false /\
  pk_hdr k = with_chksum r (pk_src k) (pk_dst k) h (pk_opts k) (pk_data k).

Record sound (w : net) : Prop := {
  so_routes : forall a r, ip_route w a = Some r -> has (rt_flags r) NETIF_TCP_TX_CHECKSUM_OFFLOAD = false;
  so_out : Forall formed (out w) }.

Lemma sound_send w k : sound w -> formed k -> sound (snd (Tcp.ip_output_if w k)).
Proof. intros [Hr Ho] Hk. split; [done|]. cbn. case_match; [done|]. apply Forall_app. split; [done|]. by constructor. Qed.

Lemma sound_alloc w : sound w -> sound (snd (alloc w)).
Proof. intros [? ?]. by split. Qed.

Lemma sound_segment w s p s' p' w' : sound w -> tcp_output_segment w s p = (s', p', w') -> sound w'.
Proof.
  intros Hw. unfold tcp_output_segment. case_match; [intros E; by injection E as <- <- <-|]. destruct (ip_route w _) as [r|] eqn:Er; [|intros E; by injection E as <- <- <-].
  cbv zeta. match goal with |- context [Tcp.ip_output_if w ?k] => pose proof (sound_send w k Hw) as Hs; destruct (Tcp.ip_output_if w k) as [rc w1] end.
  intros E. injection E as <- <- <-. apply Hs. eexists r, _. split; [by eapply so_routes|]. reflexivity.
Qed.

Lemma sound_ctrl w r lip rip lport rport seqno ackno f wnd a : sound w -> ip_route w a = Some r ->
  sound (snd (Tcp.ip_output_if w (ctrl_packet r lip rip lport rport seqno ackno f wnd))).
Proof. intros Hw Hr. apply sound_send; [done|]. eexists r, _. split; [by eapply so_routes|]. reflexivity. Qed.

Lemma sound_ack w p rc w' : sound w -> tcp_send_ack w p = (rc, w') -> sound w'.
Proof.
  intros Hw. unfold tcp_send_ack. destruct (ip_route w _) as [r|] eqn:Er; [|intros E; by injection E as <- <-]. pose proof (sound_alloc w Hw) as Ha.
  destruct (alloc w) as [b w1] eqn:Ew. destruct (negb b); [intros E; by injection E as <- <-|].
  assert (ip_route w1 = ip_route w) as Ei by (unfold alloc in Ew; by injection Ew as _ <-). rewrite <- Ei in Er.
  match goal with |- context [Tcp.ip_output_if w1 ?k] => pose proof (sound_ctrl w1 r (local_ip p) (remote_ip p) (local_port p) (remote_port p) (snd_nxt p) (rcv_nxt p) TCP_ACK (wnd_field p) _ Ha Er) as Hs;
    destruct (Tcp.ip_output_if w1 k) as [r1 w2] end.
  intros E. by injection E as <- <-.
Qed.

Lemma sound_loop wnd l : forall w p p' w', sound w -> output_loop wnd l w p = (p', w') -> sound w'.
Proof.
  induction l as [|s l IH]; intros w p p' w' Hw E; cbn [output_loop] in E; [by injection E as <- <-|]. case_match; [|by injection E as <- <-].
  cbv zeta in E. destruct (if is_state _ _ then _ else _) as [s1 p1] in E. destruct (tcp_output_segment _ _ _) as [[s2 p2] w1] eqn:Es.
  eapply IH; [|exact E]. by eapply sound_segment.
Qed.

Lemma sound_output w p rc p' w' : sound w -> tcp_output w p = (rc, p', w') -> sound w'.
Proof.
  intros Hw. unfold tcp_output. destruct (output_loop _ _ _ _) as [p1 w1] eqn:El. apply sound_loop in El; [|done].
  case_match; [|intros E; by injection E as <- <- <-]. destruct (tcp_send_ack _ _) as [r w2] eqn:Ea. intros E. injection E as <- <- <-. by eapply sound_ack.
Qed.

(** ** From host to host *)

(** The sender's IP layer, and the packet [p] that holds the segment [k]. *)
Record tcp_sender (s : ipst) (p : ipkt) (k : tpacket) (nif : Z) (n : ifc) : Prop := {
  ts_pkt : pdata p = pkt_bytes k /\ wfp p /\ bytes_ok (buf p) /\ bytes_ok (pk_opts k) /\ bytes_ok (pk_data k);
  ts_room : 20 <= pl p /\ ptot p + 20 < 65536;
  ts_if : nifs s !! nif = Some n /\ if_output n = true /\ has (if_flags n) NETIF_IP_TX_CHECKSUM_OFFLOAD = false;
  ts_pass : accepting s /\ 0 <= ip_id s < 65536;
  ts_addrs : is_addr (pk_src k) /\ pk_src k <> 0 /\ is_addr (pk_dst k) /\ is_addr (if_ip n) }.

(** A receiver with the address [dst]. *)
Record tcp_receiver (s : ipst) (inp dst : Z) : Prop := {
  tr_if : is_Some (nifs s !! inp); tr_own : ip_ownaddr s dst = true; tr_pass : accepting s /\ no_raw s IP_PROTO_TCP }.

Lemma ip_input_tcp s q inp n h src dst bs pad : accepting s -> no_raw s IP_PROTO_TCP -> nifs s !! inp = Some n -> ip_ownaddr s dst = true ->
  wfp q -> 20 <= plen q -> pdata q = iph_bytes h ++ bs ++ pad -> sent_hdr h src dst IP_PROTO_TCP (20 + Z.of_nat (length bs)) -> rfc1071 (iph_bytes h) = 0 ->
  exists q', (forall tcp_in, ip_input tcp_in s q inp = tcp_in s q' inp) /\ wfp q' /\ pdata q' = iph_bytes h ++ bs /\ pid q' = pid q /\
    plen q' = Z.min (plen q) (20 + Z.of_nat (length bs)).
Proof.
  intros Ha Hraw En Hown Wq Hq Dq Hs Hz. pose proof Hs as [Hok _ _ Hpr _ _ _ Hd].
  assert (is_Some (find_if s (accepts h))) as Hf by (apply own_accepted; by rewrite Hd).
  destruct (ip_input_delivers s q inp n h src dst IP_PROTO_TCP bs pad Ha En Wq Hq Dq Hs Hz Hf) as (q' & E & W' & D' & I' & B' & P' & L').
  exists q'. split; [|done]. intros tcp_in. rewrite E. unfold ip_deliver, raw_input. rewrite (read_iph_bytes (buf q') (pl q') h); [|destruct W'; lia| |done].
  2:{ change IP_HLEN with 20. rewrite sub_pdata, D', take_app_length' by (done || lia). done. }
  cbn [mbind outcome_bind]. rewrite Hpr, raw_loop_skip by done. reflexivity.
Qed.

(** tcp_input on the packet of a segment whose checksum is right. *)
Lemma tcp_input_packet_ok q h k off f n t inp na : wfp q -> pdata q = iph_bytes h ++ pkt_bytes k -> sent_hdr h (pk_src k) (pk_dst k) IP_PROTO_TCP (ptot q) ->
  of_ok (pk_hdr k) off f -> 20 <= Z.shiftr off 4 * 4 -> 20 + Z.shiftr off 4 * 4 <= plen q -> formed k -> bytes_ok (pk_opts k) -> bytes_ok (pk_data k) ->
  ip_addr_isbroadcast (pk_dst k) (rt_mask inp) = false -> ip_addr_ismulticast (pk_dst k) = false ->
  exists x l hd, (20 <= length x)%nat /\ concat (x :: l) = pkt_bytes k /\ read_hdr x = Some hd /\
    tcp_input_packet n t q inp na = segment_in n t (input_seg hd x l) (pk_src k) (pk_dst k) inp na.
Proof.
  intros W D [Hok _ Hhl _ _ _ Hs Hd] Hof H20 Hl (r & h0 & Hr & Eh) Ho Hda Hb Hm.
  destruct (header_fwd q 20 W ltac:(lia)) as (q1 & E1 & W1 & E1' & D1). rewrite D, drop_app_length' in D1 by done.
  assert (plen q1 = plen q - 20) as L1 by (rewrite E1'; done). pose proof W1 as [(Hp1 & _ & Hfit1) Ht1 _].
  set (x := sub (buf q1) (pl q1) (plen q1)). assert (Z.of_nat (length x) = plen q1) as Lx by (unfold x; rewrite length_sub by lia; lia).
  assert (concat (x :: more q1) = pkt_bytes k) as Ec by exact D1.
  exists x, (more q1), (hdr_wire (pk_hdr k)). split; [lia|]. split; [done|]. assert (read_hdr x = Some (hdr_wire (pk_hdr k))) as Erd.
  { rewrite <- (read_hdr_app x (concat (more q1))) by lia. change (x ++ concat (more q1)) with (concat (x :: more q1)). rewrite Ec. apply read_hdr_bytes. }
  split; [done|]. unfold tcp_input_packet. rewrite (read_iph_bytes (buf q) (pl q) h); [|destruct W; lia| |done].
  2:{ change IP_HLEN with 20. rewrite sub_pdata, D, take_app_length' by (done || lia). done. }
  cbn [mbind outcome_bind]. rewrite Hhl. change (5 * 4) with 20. rewrite E1, !(proj2 (Z.ltb_ge _ 0)) by lia. cbn [orb]. fold x.
  unfold tcp_input. cbv zeta. rewrite Ec, Hs, Hd, Hb, Hm, Erd. cbn [orb from_opt mbind outcome_bind].
  assert (rfc1071 (pseudo_bytes (pk_src k) (pk_dst k) IP_PROTO_TCP (Z.of_nat (length (pkt_bytes k))) ++ pkt_bytes k) = 0) as ->.
  { unfold pkt_bytes. rewrite Eh. by apply tcp_checksum_accepted. }
  assert (TCP_HLEN <= Z.of_nat (length (pkt_bytes k))) as Hlen by (rewrite <- Ec; cbn [concat]; rewrite length_app; unfold TCP_HLEN; lia).
  rewrite (proj2 (Z.ltb_ge _ _) Hlen), andb_false_r. assert (of_ok (hdr_wire (pk_hdr k)) off f) as Hof'.
  { destruct Hof as (? & ? & E). split_and!; try lia. cbn. rewrite u16_small; [done|]. rewrite E. apply htons_range. lia. }
  rewrite (of_offset _ _ _ Hof'), (proj2 (Z.ltb_ge (Z.of_nat (length x)) _)) by lia. done.
Qed.

(** C3: TCP over IP.  Each segment that tcp_output sends, put into a packet and handed to
    ip_output_if, makes ip_input of the host with that address call tcp_input, whatever
    buffers the packet arrives in, if the first holds the headers, and whatever the link
    layer put behind it; tcp_input accepts its checksum and goes on with a segment that the
    packet [arrives] as, in the sense of the theorem on streams. *)
Theorem tcp_over_ip w pc rc pc' w' k s p nif n ttl off f : sound w -> tcp_output w pc = (rc, pc', w') -> k ∈ out w' ->
  of_ok (pk_hdr k) off f -> Z.shiftr off 4 * 4 = 20 + Z.of_nat (length (pk_opts k)) -> tcp_sender s p k nif n ->
  exists kk rc1 s', ip_output_if s p (pk_src k) (Some (pk_dst k)) ttl IP_PROTO_TCP nif = Ok (rc1, s') /\
    ip_log s' = ip_log s ++ [EvOut nif kk (pk_dst k) rc1] /\
    forall s2 inp q pad, tcp_receiver s2 inp (pk_dst k) -> wfp q -> 20 + Z.shiftr off 4 * 4 <= plen q -> pdata q = pdata kk ++ pad ->
      exists q', (forall tcp_in, ip_input tcp_in s2 q inp = tcp_in s2 q' inp) /\
        forall m t r na, ip_addr_isbroadcast (pk_dst k) (rt_mask r) = false -> ip_addr_ismulticast (pk_dst k) = false ->
          exists sg, arrives k sg /\ tcp_input_packet m t q' r na = segment_in m t sg (pk_src k) (pk_dst k) r na.
Proof.
  intros Hw Eo Hk Hof Hoff [(Dp & Wp & Hb & Ho & Hda) (Hpl & Htot) (En & Hout & Hnoff) (Ha & Hid) (Hs & Hs0 & Hd & Hn)].
  pose proof (proj1 (Forall_forall _ _) (so_out _ (sound_output _ _ _ _ _ Hw Eo)) k Hk) as Hfk.
  destruct (ip_output_if_ok s nif n p (pk_src k) (pk_dst k) ttl IP_PROTO_TCP En Hout Ha Wp Hb) as (h & kk & E & _ & _ & _ & Dk & Hsent & Hz); try done; try lia.
  rewrite Dp in Dk. assert (ip_addr_isany (pk_src k) = false) as Esrc by by apply Z.eqb_neq. rewrite Esrc in Hsent. pose proof (length_pdata _ Wp) as Lp. rewrite Dp in Lp.
  eexists kk, _, _. split; [rewrite E; unfold ask; reflexivity|]. split; [done|].
  intros s2 inp q pad [(n2 & En2) Hown (Ha2 & Hraw)] Wq Hq Dq. rewrite Dk, <- app_assoc in Dq.
  assert (Z.shiftr off 4 * 4 <= Z.of_nat (length (pkt_bytes k))) as Hlen by (unfold pkt_bytes; rewrite !length_app, hdr_bytes_length; lia).
  destruct (ip_input_tcp s2 q inp n2 h (pk_src k) (pk_dst k) (pkt_bytes k) pad) as (q' & Eq & Wq' & Dq' & _ & Lq'); try done; try lia; [by rewrite Lp|by apply Hz|].
  exists q'. split; [done|]. intros m t r na Hbc Hmc. pose proof (length_pdata _ Wq') as Tq. rewrite Dq', length_app, length_iph in Tq.
  destruct (tcp_input_packet_ok q' h k off f m t r na) as (x & l & hd & Hx & Ec & Er & Et); try done; try lia.
  { replace (ptot q') with (20 + ptot p) by lia. done. }
  exists (input_seg hd x l). split; [by eapply arrives_as|exact Et].
Qed.

(** A write of three bytes, and the packet it becomes. *)
Definition wit_queued : pcb * net := match tcp_write wit_net wit_pcb [1; 2; 3] 2 with Ok (_, p, w) => (p, w) | _ => (wit_pcb, wit_net) end.
Definition wit_sent : list tpacket := let '(_, _, w) := tcp_output wit_queued.2 wit_queued.1 in out w.
Definition wit_frame (k : tpacket) : ipkt := MkPacket 0 (replicate 40 0 ++ pkt_bytes k) 40 23 23 [].

Lemma tcp_over_ip_witness : exists k kk rc1 s', wit_sent = [k] /\ pk_data k = [1; 2; 3] /\
  ip_output_if (wit_host 0x0100000A 1000) (wit_frame k) (pk_src k) (Some (pk_dst k)) 255 IP_PROTO_TCP 64 = Ok (rc1, s') /\ ip_log s' = [EvOut 64 kk (pk_dst k) rc1] /\
  exists q', (forall tcp_in, ip_input tcp_in (wit_host (pk_dst k) 1000) (as_one 5 (pdata kk ++ [0; 0])) 64 = tcp_in (wit_host (pk_dst k) 1000) q' 64) /\
    forall m t na, exists sg, arrives k sg /\
      tcp_input_packet m t q' (MkRt (pk_dst k) 0xFFFFFF 1500 0) na = segment_in m t sg (pk_src k) (pk_dst k) (MkRt (pk_dst k) 0xFFFFFF 1500 0) na.
Proof.
  destruct (tcp_output wit_queued.2 wit_queued.1) as [[rc pc'] w'] eqn:Eo. assert (sound wit_queued.2) as Hw.
  { split; [|constructor]. intros a r E. vm_compute in E. by injection E as <-. }
  assert (exists k, out w' = [k] /\ k = default (MkPkt 0 0 (MkHdr 0 0 0 0 0 0 0 0) [] []) (head wit_sent)) as (k & Ek & Ek').
  { unfold wit_sent. rewrite Eo. vm_compute in Eo. injection Eo as <- <- <-. eexists. split; reflexivity. }
  vm_compute in Ek'.
  destruct (tcp_over_ip _ _ _ _ _ k (wit_host 0x0100000A 1000) (wit_frame k) 64 (wit_if 0x0100000A) 255 80 (TCPH_FLAGS (pk_hdr k)) Hw Eo) as (kk & rc1 & s' & E & L & H).
  - rewrite Ek. left.
  - clear Eo. subst k. vm_compute. repeat split; congruence.
  - subst k. reflexivity.
  - clear Eo Ek. subst k. split.
    + split; [reflexivity|]. split; [split; [cbn; lia|reflexivity|reflexivity]|]. split; [vm_compute; repeat (constructor; [by split|]); constructor|].
      split; vm_compute; repeat (constructor; [by split|]); constructor.
    + cbn. lia.
    + split; [reflexivity|]. split; reflexivity.
    + split; [apply wit_accepting|cbn; lia].
    + split_and!; by vm_compute.
  - exists k, kk, rc1, s'. split; [unfold wit_sent; rewrite Eo; exact Ek|]. clear Eo Ek. split; [by subst k|]. split; [exact E|]. split; [exact L|].
    assert (Z.of_nat (length (pdata kk)) = 43) as Lk.
    { subst k. vm_compute in E. injection E as <- <-. vm_compute in L. injection L as <-. reflexivity. }
    edestruct (H (wit_host (pk_dst k) 1000) 64 (as_one 5 (pdata kk ++ [0; 0])) [0; 0]) as (q' & E2 & H2).
    + split; [by eexists|by subst k|]. split; [apply wit_accepting|constructor].
    + apply as_one_wfp. rewrite length_app. cbn [length]. lia.
    + change (plen (as_one 5 ?bs)) with (Z.of_nat (length bs)). rewrite length_app, Nat2Z.inj_add, Lk. by vm_compute.
    + apply as_one_wfp. rewrite length_app. cbn [length]. lia.
    + exists q'. split; [exact E2|]. intros m t na. apply H2; by subst k.
Defined.
