(* ===== verification/Ppp.v ===== *)
(** * PPP framing (net/ppp/ppp.c, ppp.h)

    The link layer of a serial line: packets are put into frames with escape characters
    and a frame check sequence, and the bytes that arrive are put together again.  The
    serial device, the buffer pool and the thread that takes the packets over answer from
    outside.  NUM_PPP and PPP_MAXIDLEFLAG are options of the build, not in the sources. *)

From S2P Require Import Prelude Inet.

(** ** Constants and tables *)

Definition PPP_ALLSTATIONS : Z := 0xff.
Definition PPP_UI : Z := 0x03.
Definition PPP_FLAG : Z := 0x7e.
Definition PPP_ESCAPE : Z := 0x7d.
Definition PPP_TRANS : Z := 0x20.
Definition PPP_IP : Z := 0x21.
Definition PPP_VJC_COMP : Z := 0x2d.
Definition PPP_VJC_UNCOMP : Z := 0x2f.
Definition PPP_LCP : Z := 0xc021.
Definition PPP_PAP : Z := 0xc023.
Definition PPP_LQR : Z := 0xc025.
Definition PPP_CHAP : Z := 0xc223.
Definition PPP_INITFCS : Z := 0xffff.
Definition PPP_GOODFCS : Z := 0xf0b8.
Definition POOL_BUFSIZE : Z := 128.
Definition TYPE_IP : Z := 64.
Definition TYPE_UNCOMPRESSED_TCP : Z := 112.
Definition TYPE_COMPRESSED_TCP : Z := 128.
Definition PPPERR_NONE : Z := 0.
Definition PPPERR_PARAM : Z := -1.
Definition PPPERR_ALLOC : Z := -4.
Definition PHASE_DEAD : Z := 0.
Definition PHASE_AUTHENTICATE : Z := 3.
Definition PHASE_NETWORK : Z := 5.

Definition fcstab : list Z :=
  [0x0000; 0x1189; 0x2312; 0x329b; 0x4624; 0x57ad; 0x6536; 0x74bf;
   0x8c48; 0x9dc1; 0xaf5a; 0xbed3; 0xca6c; 0xdbe5; 0xe97e; 0xf8f7;
   0x1081; 0x0108; 0x3393; 0x221a; 0x56a5; 0x472c; 0x75b7; 0x643e;
   0x9cc9; 0x8d40; 0xbfdb; 0xae52; 0xdaed; 0xcb64; 0xf9ff; 0xe876;
   0x2102; 0x308b; 0x0210; 0x1399; 0x6726; 0x76af; 0x4434; 0x55bd;
   0xad4a; 0xbcc3; 0x8e58; 0x9fd1; 0xeb6e; 0xfae7; 0xc87c; 0xd9f5;
   0x3183; 0x200a; 0x1291; 0x0318; 0x77a7; 0x662e; 0x54b5; 0x453c;
   0xbdcb; 0xac42; 0x9ed9; 0x8f50; 0xfbef; 0xea66; 0xd8fd; 0xc974;
   0x4204; 0x538d; 0x6116; 0x709f; 0x0420; 0x15a9; 0x2732; 0x36bb;
   0xce4c; 0xdfc5; 0xed5e; 0xfcd7; 0x8868; 0x99e1; 0xab7a; 0xbaf3;
   0x5285; 0x430c; 0x7197; 0x601e; 0x14a1; 0x0528; 0x37b3; 0x263a;
   0xdecd; 0xcf44; 0xfddf; 0xec56; 0x98e9; 0x8960; 0xbbfb; 0xaa72;
   0x6306; 0x728f; 0x4014; 0x519d; 0x2522; 0x34ab; 0x0630; 0x17b9;
   0xef4e; 0xfec7; 0xcc5c; 0xddd5; 0xa96a; 0xb8e3; 0x8a78; 0x9bf1;
   0x7387; 0x620e; 0x5095; 0x411c; 0x35a3; 0x242a; 0x16b1; 0x0738;
   0xffcf; 0xee46; 0xdcdd; 0xcd54; 0xb9eb; 0xa862; 0x9af9; 0x8b70;
   0x8408; 0x9581; 0xa71a; 0xb693; 0xc22c; 0xd3a5; 0xe13e; 0xf0b7;
   0x0840; 0x19c9; 0x2b52; 0x3adb; 0x4e64; 0x5fed; 0x6d76; 0x7cff;
   0x9489; 0x8500; 0xb79b; 0xa612; 0xd2ad; 0xc324; 0xf1bf; 0xe036;
   0x18c1; 0x0948; 0x3bd3; 0x2a5a; 0x5ee5; 0x4f6c; 0x7df7; 0x6c7e;
   0xa50a; 0xb483; 0x8618; 0x9791; 0xe32e; 0xf2a7; 0xc03c; 0xd1b5;
   0x2942; 0x38cb; 0x0a50; 0x1bd9; 0x6f66; 0x7eef; 0x4c74; 0x5dfd;
   0xb58b; 0xa402; 0x9699; 0x8710; 0xf3af; 0xe226; 0xd0bd; 0xc134;
   0x39c3; 0x284a; 0x1ad1; 0x0b58; 0x7fe7; 0x6e6e; 0x5cf5; 0x4d7c;
   0xc60c; 0xd785; 0xe51e; 0xf497; 0x8028; 0x91a1; 0xa33a; 0xb2b3;
   0x4a44; 0x5bcd; 0x6956; 0x78df; 0x0c60; 0x1de9; 0x2f72; 0x3efb;
   0xd68d; 0xc704; 0xf59f; 0xe416; 0x90a9; 0x8120; 0xb3bb; 0xa232;
   0x5ac5; 0x4b4c; 0x79d7; 0x685e; 0x1ce1; 0x0d68; 0x3ff3; 0x2e7a;
   0xe70e; 0xf687; 0xc41c; 0xd595; 0xa12a; 0xb0a3; 0x8238; 0x93b1;
   0x6b46; 0x7acf; 0x4854; 0x59dd; 0x2d62; 0x3ceb; 0x0e70; 0x1ff9;
   0xf78f; 0xe606; 0xd49d; 0xc514; 0xb1ab; 0xa022; 0x92b9; 0x8330;
   0x7bc7; 0x6a4e; 0x58d5; 0x495c; 0x3de3; 0x2c6a; 0x1ef1; 0x0f78].

Definition PPP_FCS (fcs c : Z) : Z := Z.lxor (Z.shiftr fcs 8) (nth (Z.to_nat (Z.land (Z.lxor fcs c) 0xff)) fcstab 0).

Definition pppACCMMask : list Z := [0x01; 0x02; 0x04; 0x08; 0x10; 0x20; 0x40; 0x80].

(** [accm] has 32 bytes, a bit for each character. *)
Definition ESCAPE_P (accm : list Z) (c : Z) : bool :=
  negb (Z.land (nth (Z.to_nat (Z.shiftr c 3)) accm 0) (nth (Z.to_nat (Z.land c 0x07)) pppACCMMask 0) =? 0).

(** ** Data *)

Inductive PPPDevStates := PDIDLE | PDSTART | PDADDRESS | PDCONTROL | PDPROTOCOL1 | PDPROTOCOL2 | PDDATA.
#[export] Instance PPPDevStates_eq_dec : EqDecision PPPDevStates.
Proof. solve_decision. Defined.

(** The results of the drivers' interface; their numbers are not in the sources. *)
Inductive err := ERR_OK | ERR_ARG | ERR_RTE | ERR_MEM | ERR_VAL.

(** The header compression of [net/ppp/vj.c] as the link uses it: a packet is the list of
    the contents of its buffers.  [Vj] has the functions on parsed headers. *)
Class Compression (V : Type) := {
  c_compress : V -> list (list Z) -> Z * list (list Z) * V;
  c_expand : V -> list (list Z) -> option (list (list Z)) * V;
  c_store : V -> list (list Z) -> option (list (list Z)) * V;
  c_error : V -> V }.

(** inHead and inTail: the buffers that are full, and the one that is filled. *)
Record ppp {V : Type} := MkPpp {
  openFlag : bool; if_up : bool; errCode : Z; inBufs : option (list (list Z) * list Z); inState : PPPDevStates; inEscaped : bool;
  inProtocol : Z; inFCS : Z; mtu : Z; pcomp : bool; accomp : bool; lastXMit : Z; inACCM : list Z; outACCM : list Z;
  vjEnabled : bool; vjComp : V; our_ipaddr : Z; his_ipaddr : Z; netmask : Z; dns1 : Z; dns2 : Z }.
Arguments ppp V : clear implicits.
Arguments MkPpp {V}.

(** What the link sees of its surroundings: the time; whether the next buffers are there,
    how many bytes the device takes next and whether the next calls are accepted, of which
    nothing more is said when a list is used up; the bytes written and the packets handed over. *)
Record penv := MkEnv { jiffies : Z; pool : list bool; sio : list Z; cbs : list bool; wire : list Z; handed : list (list (list Z)) }.

Section Link.
Context {V : Type} `{!Compression V}.
Implicit Type p : ppp V.

Definition set_in p (b : option (list (list Z) * list Z)) (st : PPPDevStates) (esc : bool) (proto fcs : Z) : ppp V :=
  MkPpp (openFlag p) (if_up p) (errCode p) b st esc proto fcs (mtu p) (pcomp p) (accomp p) (lastXMit p) (inACCM p) (outACCM p)
    (vjEnabled p) (vjComp p) (our_ipaddr p) (his_ipaddr p) (netmask p) (dns1 p) (dns2 p).
Definition set_vj p (v : V) : ppp V :=
  MkPpp (openFlag p) (if_up p) (errCode p) (inBufs p) (inState p) (inEscaped p) (inProtocol p) (inFCS p) (mtu p) (pcomp p) (accomp p)
    (lastXMit p) (inACCM p) (outACCM p) (vjEnabled p) v (our_ipaddr p) (his_ipaddr p) (netmask p) (dns1 p) (dns2 p).
Definition set_xmit p (v : Z) : ppp V :=
  MkPpp (openFlag p) (if_up p) (errCode p) (inBufs p) (inState p) (inEscaped p) (inProtocol p) (inFCS p) (mtu p) (pcomp p) (accomp p)
    v (inACCM p) (outACCM p) (vjEnabled p) (vjComp p) (our_ipaddr p) (his_ipaddr p) (netmask p) (dns1 p) (dns2 p).
Definition set_if p (up : bool) (e : Z) : ppp V :=
  MkPpp (openFlag p) up e (inBufs p) (inState p) (inEscaped p) (inProtocol p) (inFCS p) (mtu p) (pcomp p) (accomp p)
    (lastXMit p) (inACCM p) (outACCM p) (vjEnabled p) (vjComp p) (our_ipaddr p) (his_ipaddr p) (netmask p) (dns1 p) (dns2 p).
Definition set_send p (m : Z) (pc ac : bool) (accm : list Z) : ppp V :=
  MkPpp (openFlag p) (if_up p) (errCode p) (inBufs p) (inState p) (inEscaped p) (inProtocol p) (inFCS p) m pc ac
    (lastXMit p) (inACCM p) accm (vjEnabled p) (vjComp p) (our_ipaddr p) (his_ipaddr p) (netmask p) (dns1 p) (dns2 p).
Definition set_accm p (accm : list Z) : ppp V :=
  MkPpp (openFlag p) (if_up p) (errCode p) (inBufs p) (inState p) (inEscaped p) (inProtocol p) (inFCS p) (mtu p) (pcomp p) (accomp p)
    (lastXMit p) accm (outACCM p) (vjEnabled p) (vjComp p) (our_ipaddr p) (his_ipaddr p) (netmask p) (dns1 p) (dns2 p).
Definition set_addr p (o h m n1 n2 : Z) : ppp V :=
  MkPpp (openFlag p) (if_up p) (errCode p) (inBufs p) (inState p) (inEscaped p) (inProtocol p) (inFCS p) (mtu p) (pcomp p) (accomp p)
    (lastXMit p) (inACCM p) (outACCM p) (vjEnabled p) (vjComp p) o h m n1 n2.

(** pbuf_alloc of a buffer of the pool. *)
Definition take_buf (w : penv) : bool * penv :=
  (default true (head (pool w)), MkEnv (jiffies w) (tail (pool w)) (sio w) (cbs w) (wire w) (handed w)).

(** ** Sending *)

(** sio_write: how much the device takes. *)
Definition sio_write (w : penv) (b : list Z) : Z * penv :=
  let n := default (Z.of_nat (length b)) (head (sio w)) in
  (n, MkEnv (jiffies w) (pool w) (tail (sio w)) (cbs w) (wire w ++ take (Z.to_nat n) b) (handed w)).

Fixpoint nPut p (w : penv) (bs : list (list Z)) : ppp V * penv :=
  match bs with
  | [] => (p, w)
  | b :: bs =>
      let '(c, w) := sio_write w b in
      if c =? Z.of_nat (length b) then nPut p w bs else (set_xmit p 0, w)
  end.

(** The chain so far: the buffers before the last one, and the last; None when there was no
    further buffer. *)
Definition put_char (c : Z) (accm : option (list Z)) (b : list Z) : list Z :=
  match accm with
  | Some m => if ESCAPE_P m c then b ++ [PPP_ESCAPE; Z.lxor c PPP_TRANS] else b ++ [c]
  | None => b ++ [c]
  end.

Definition pppAppend (c : Z) (nb : option (list (list Z) * list Z)) (accm : option (list Z)) (w : penv) : option (list (list Z) * list Z) * penv :=
  match nb with
  | None => (None, w)
  | Some (l, b) =>
      if POOL_BUFSIZE - Z.of_nat (length b) <? 2 then
        let '(ok, w) := take_buf w in
        (if ok then Some (l ++ [b], put_char c accm []) else None, w)
      else (Some (l, put_char c accm b), w)
  end.

(** The bytes of a packet, escaped, while the check sequence is computed. *)
Fixpoint load_bytes (bs : list Z) (fcs : Z) (nb : option (list (list Z) * list Z)) (accm : list Z) (w : penv) : Z * option (list (list Z) * list Z) * penv :=
  match bs with
  | [] => (fcs, nb, w)
  | c :: bs => let '(nb, w) := pppAppend c nb (Some accm) w in load_bytes bs (PPP_FCS fcs c) nb accm w
  end.

(** The check sequence and the flag at the end. *)
Definition end_frame (fcs : Z) (nb : option (list (list Z) * list Z)) (accm : list Z) (w : penv) : option (list (list Z) * list Z) * penv :=
  let '(nb, w) := pppAppend (Z.land (Z.lnot fcs) 0xff) nb (Some accm) w in
  let '(nb, w) := pppAppend (Z.land (Z.shiftr (Z.lnot fcs) 8) 0xff) nb (Some accm) w in
  pppAppend PPP_FLAG nb None w.

(** A flag first if the line was idle for [idle] (PPP_MAXIDLEFLAG) ticks. *)
Definition start_frame (idle : Z) p (w : penv) : option (list (list Z) * list Z) * ppp V * penv :=
  let '(nb, w) := if idle <=? u32 (jiffies w - lastXMit p) then pppAppend PPP_FLAG (Some ([], [])) None w else (Some ([], []), w) in
  (nb, set_xmit p (jiffies w), w).

(** The frame of the bytes [bs], sent if there are enough buffers. *)
Definition send_frame (idle : Z) p (w : penv) (bs : list Z) : bool * ppp V * penv :=
  let '(nb, p, w) := start_frame idle p w in
  let '(fcs, nb, w) := load_bytes bs PPP_INITFCS nb (outACCM p) w in
  let '(nb, w) := end_frame fcs nb (outACCM p) w in
  match nb with
  | None => (false, p, w)
  | Some (l, b) => let '(p, w) := nPut p w (l ++ [b]) in (true, p, w)
  end.

(** The fields before the data. *)
Definition ppp_hdr p (protocol : Z) : list Z :=
  (if accomp p then [] else [PPP_ALLSTATIONS; PPP_UI]) ++
  (if negb (pcomp p) || (0xff <? protocol) then [Z.land (Z.shiftr protocol 8) 0xff] else []) ++ [Z.land protocol 0xff].

(** [phase]: lcp_phase of the unit. *)
Definition pppifOutput (idle phase : Z) p (w : penv) (pb : list (list Z)) : err * ppp V * penv :=
  if negb (openFlag p) then (ERR_ARG, p, w)
  else if phase =? PHASE_DEAD then (ERR_RTE, p, w)
  else
    let '(ok, w) := take_buf w in
    if negb ok then (ERR_MEM, p, w)
    else
      let '(type, pb, p) :=
        if vjEnabled p then let '(t, pb, v) := c_compress (vjComp p) pb in (t, pb, set_vj p v) else (TYPE_IP, pb, p) in
      match (if type =? TYPE_IP then Some PPP_IP else if type =? TYPE_COMPRESSED_TCP then Some PPP_VJC_COMP
             else if type =? TYPE_UNCOMPRESSED_TCP then Some PPP_VJC_UNCOMP else None) with
      | None => (ERR_VAL, p, w)
      | Some protocol =>
          let '(ok, p, w) := send_frame idle p w (ppp_hdr p protocol ++ concat pb) in
          (if ok then ERR_OK else ERR_MEM, p, w)
      end.

Definition pppWrite (idle : Z) p (w : penv) (s : list Z) : Z * ppp V * penv :=
  let '(ok, w) := take_buf w in
  if negb ok then (PPPERR_ALLOC, p, w)
  else let '(ok, p, w) := send_frame idle p w s in (if ok then PPPERR_NONE else PPPERR_ALLOC, p, w).

(** ** Receiving *)

(** struct pppInputHeader: the unit, the protocol and two bytes of padding. *)
Definition pppInputHeader (pd proto : Z) : list Z :=
  [u8 pd; u8 (Z.shiftr pd 8); u8 (Z.shiftr pd 16); u8 (Z.shiftr pd 24); u8 proto; u8 (Z.shiftr proto 8); 0; 0].

Definition pppDrop p : ppp V :=
  set_vj (set_in p None (inState p) (inEscaped p) (inProtocol p) (inFCS p)) (c_error (vjComp p)).

(** The buffers without the last two bytes. *)
Definition trim_fcs (l : list (list Z)) (t : list Z) : list (list Z) :=
  if 2 <=? Z.of_nat (length t) then l ++ [take (length t - 2) t]
  else removelast l ++ [removelast (List.last l [])].

(** tcpip_callback: another thread runs pppInput on the packet, or it is released. *)
Definition hand_over (w : penv) (bufs : list (list Z)) : penv :=
  MkEnv (jiffies w) (pool w) (sio w) (tail (cbs w)) (wire w) (if default true (head (cbs w)) then handed w ++ [bufs] else handed w).

(** The flag at the end of a frame. *)
Definition in_flag p (w : penv) : outcome (ppp V * penv) :=
  '(p, w) ←
    match inState p with
    | PDIDLE | PDSTART | PDADDRESS => Ok (p, w)
    | PDCONTROL | PDPROTOCOL1 | PDPROTOCOL2 => Ok (pppDrop p, w)
    | PDDATA =>
        if negb (inFCS p =? PPP_GOODFCS) then Ok (pppDrop p, w)
        else
          match inBufs p with
          | None => Fault
          | Some (l, t) => Ok (set_in p None (inState p) (inEscaped p) (inProtocol p) (inFCS p), hand_over w (trim_fcs l t))
          end
    end;
  Ok (set_in p (inBufs p) PDADDRESS false (inProtocol p) PPP_INITFCS, w).

(** A byte of the data: None when there was no buffer.  The last buffer is then in the chain
    already, and releasing both faults unless it is the first. *)
Definition in_data (pd : Z) p (w : penv) (c : Z) : outcome (option (list (list Z) * list Z) * penv) :=
  let fresh := match inBufs p with None => true | Some (_, t) => Z.of_nat (length t) =? POOL_BUFSIZE end in
  if fresh then
    let '(ok, w) := take_buf w in
    if ok then
      Ok (Some match inBufs p with None => ([], pppInputHeader pd (inProtocol p) ++ [c]) | Some (l, t) => (l ++ [t], [c]) end, w)
    else match inBufs p with Some (_ :: _, _) => Fault | _ => Ok (None, w) end
  else
    match inBufs p with Some (l, t) => Ok (Some (l, t ++ [c]), w) | None => Fault end.

(** The state and the protocol after a byte before the data. *)
Definition after_protocol1 (c : Z) : PPPDevStates * Z := if Z.odd c then (PDDATA, c) else (PDPROTOCOL2, Z.shiftl c 8).
Definition after_control (c proto : Z) : PPPDevStates * Z := if c =? PPP_UI then (PDPROTOCOL1, proto) else after_protocol1 c.
Definition after_address (c proto : Z) : PPPDevStates * Z := if c =? PPP_ALLSTATIONS then (PDCONTROL, proto) else after_control c proto.

(** Any other byte. *)
Definition in_plain (pd : Z) p (w : penv) (c : Z) : outcome (ppp V * penv) :=
  let c := if inEscaped p then Z.lxor c PPP_TRANS else c in
  let step st fcs := set_in p (inBufs p) st.1 false st.2 (PPP_FCS fcs c) in
  match inState p with
  | PDIDLE => Ok (if c =? PPP_ALLSTATIONS then step (after_address c (inProtocol p)) PPP_INITFCS else step (PDIDLE, inProtocol p) (inFCS p), w)
  | PDSTART => Ok (step (after_address c (inProtocol p)) PPP_INITFCS, w)
  | PDADDRESS => Ok (step (after_address c (inProtocol p)) (inFCS p), w)
  | PDCONTROL => Ok (step (after_control c (inProtocol p)) (inFCS p), w)
  | PDPROTOCOL1 => Ok (step (after_protocol1 c) (inFCS p), w)
  | PDPROTOCOL2 => Ok (step (PDDATA, Z.lor (inProtocol p) c) (inFCS p), w)
  | PDDATA =>
      '(b, w) ← in_data pd p w c;
      Ok (match b with
          | Some b => set_in p (Some b) PDDATA false (inProtocol p) (PPP_FCS (inFCS p) c)
          | None => set_in (pppDrop p) None PDSTART false (inProtocol p) (PPP_FCS (inFCS p) c)
          end, w)
  end.

Definition in_char (pd : Z) p (w : penv) (c : Z) : outcome (ppp V * penv) :=
  if ESCAPE_P (inACCM p) c then
    if c =? PPP_ESCAPE then Ok (set_in p (inBufs p) (inState p) true (inProtocol p) (inFCS p), w)
    else if c =? PPP_FLAG then in_flag p w
    else Ok (p, w)
  else in_plain pd p w c.

Fixpoint pppInProc (pd : Z) p (w : penv) (s : list Z) : outcome (ppp V * penv) :=
  match s with
  | [] => Ok (p, w)
  | c :: s => '(p, w) ← in_char pd p w c; pppInProc pd p w s
  end.

(** What pppInput does with a packet. *)
Inductive upcall :=
  | ToIp (pb : list (list Z))
  | ToProtocol (protocol : Z) (b : list Z)
  | Reject (b : list Z)
  | Dropped.

(** The bytes a protocol sees: all of them in one buffer, or only the first buffer if there
    is no memory for that. *)
Definition pppSingleBuf (w : penv) (pb : list (list Z)) : list Z * penv :=
  if Z.of_nat (length (concat pb)) =? Z.of_nat (length (hd [] pb)) then (hd [] pb, w)
  else let '(ok, w) := take_buf w in (if ok then concat pb else hd [] pb, w).

(** [enabled]: the protocols of the table ppp_protocols that are enabled.  A packet that is
    shorter than the header put before it gets a negative length: [Fault]. *)
Definition pppInput (enabled : Z -> bool) (phase : Z) p (w : penv) (nb : list (list Z)) : outcome (upcall * ppp V * penv) :=
  match nb with
  | [] => Fault
  | b :: r =>
      if Z.of_nat (length b) <? 8 then Fault
      else
        let protocol := Z.lor (nth 4 b 0) (Z.shiftl (nth 5 b 0) 8) in
        let nb := drop 8 b :: r in
        if (phase <=? PHASE_AUTHENTICATE) && negb (protocol =? PPP_LCP) &&
           (negb ((protocol =? PPP_LQR) || (protocol =? PPP_PAP) || (protocol =? PPP_CHAP)) || negb (phase =? PHASE_AUTHENTICATE)) then Ok (Dropped, p, w)
        else if protocol =? PPP_VJC_COMP then
          let '(o, v) := c_expand (vjComp p) nb in Ok (match o with Some q => ToIp q | None => Dropped end, set_vj p v, w)
        else if protocol =? PPP_VJC_UNCOMP then
          let '(o, v) := c_store (vjComp p) nb in Ok (match o with Some q => ToIp q | None => Dropped end, set_vj p v, w)
        else if protocol =? PPP_IP then Ok (ToIp nb, p, w)
        else if enabled protocol then let '(x, w) := pppSingleBuf w nb in Ok (ToProtocol protocol x, p, w)
        else Ok (Reject (Z.shiftr protocol 8 :: u8 protocol :: drop 8 b), p, w)
  end.

(** ** Configuration *)

(** pppOpen, before it starts the thread of the link; [v]: a compressor after vj_compress_init. *)
Definition pppOpen p (v : V) : ppp V :=
  let accm := replicate 15 0 ++ [0x60] ++ replicate 16 0 in
  MkPpp true false 0 None PDIDLE false (inProtocol p) (inFCS p) (mtu p) (pcomp p) (accomp p) 0 accm accm
    false v (our_ipaddr p) (his_ipaddr p) (netmask p) (dns1 p) (dns2 p).

(** The first four bytes of a map, for the 32 control characters. *)
Definition load_accm (accm : list Z) (asyncmap : Z) : list Z :=
  [u8 asyncmap; u8 (Z.shiftr asyncmap 8); u8 (Z.shiftr asyncmap 16); u8 (Z.shiftr asyncmap 24)] ++ drop 4 accm.

Definition ppp_send_config p (m asyncmap : Z) (pc ac : bool) : ppp V := set_send p m pc ac (load_accm (outACCM p) asyncmap).
Definition ppp_set_xaccm p (accm : list Z) : ppp V := set_send p (mtu p) (pcomp p) (accomp p) accm.
Definition ppp_recv_config p (asyncmap : Z) : ppp V := set_accm p (load_accm (inACCM p) asyncmap).

Definition pppMTU p : Z := if openFlag p then mtu p else 0.

Definition sifup p (added : bool) : Z * ppp V :=
  if negb (openFlag p) then (0, p) else if added then (1, set_if p true PPPERR_NONE) else (0, p).
Definition sifdown p : Z * ppp V := if negb (openFlag p) then (0, p) else (1, set_if p false (errCode p)).
Definition sifaddr p (o h m ns1 ns2 : Z) : Z * ppp V := if negb (openFlag p) then (0, p) else (1, set_addr p o h m ns1 ns2).
Definition cifaddr p : Z * ppp V := if negb (openFlag p) then (0, p) else (1, set_addr p 0 0 0x00ffffff 0 0).
End Link.
