(* ===== verification/PppFrame.v ===== *)
(** * PPP framing: what is sent arrives, and what is damaged does not *)

From S2P Require Import Prelude Inet Ppp.

(** ** The check sequence *)

Fixpoint zrange (n : nat) (i : Z) : list Z := match n with O => [] | S n => i :: zrange n (i + 1) end.

Lemma elem_zrange n i x : i <= x < i + Z.of_nat n -> x ∈ zrange n i.
Proof.
  revert i. induction n as [|n IH]; intros i H; [lia|]. cbn. destruct (decide (x = i)) as [->|]; [left|]. right. apply IH. lia.
Qed.

Lemma all_range (n : nat) (f : Z -> bool) x : forallb f (zrange n 0) = true -> 0 <= x < Z.of_nat n -> f x = true.
Proof. intros H Hx. rewrite forallb_forall in H. apply H, list_elem_of_In, elem_zrange. lia. Qed.

(** The bits of a byte one after the other, as in RFC 1662: the polynomial is 0x8408. *)
Definition fcs_bit (x : Z) : Z := if Z.odd x then Z.lxor (Z.shiftr x 1) 0x8408 else Z.shiftr x 1.
Definition rfc1662_fcs (fcs c : Z) : Z := Nat.iter 8 fcs_bit (Z.lxor fcs c).

Definition tab (i : Z) : Z := nth (Z.to_nat i) fcstab 0.

Definition is_fcs (x : Z) : Prop := 0 <= x < 65536.
Definition is_byte (c : Z) : Prop := 0 <= c < 256.

Lemma lxor_bound k x y : 0 <= k -> 0 <= x < 2 ^ k -> 0 <= y < 2 ^ k -> 0 <= Z.lxor x y < 2 ^ k.
Proof.
  intros Hk Hx Hy. assert (Z.lxor x y = Z.land (Z.lxor x y) (Z.ones k)) as ->; [|rewrite Z.land_ones by lia; apply Z.mod_pos_bound; lia].
  apply Z.bits_inj'. intros i Hi. rewrite Z.land_spec, !Z.lxor_spec, <- (Z.mod_small x (2 ^ k)), <- (Z.mod_small y (2 ^ k)), <- !Z.land_ones, !Z.land_spec by lia.
  by destruct (Z.testbit x i), (Z.testbit y i), (Z.testbit (Z.ones k) i).
Qed.

Lemma low_byte x : is_byte (Z.land x 0xff).
Proof. unfold is_byte. change 0xff with (Z.ones 8). rewrite Z.land_ones by lia. apply Z.mod_pos_bound. lia. Qed.

Lemma high_byte f : is_fcs f -> is_byte (Z.shiftr f 8).
Proof. intros H. unfold is_byte, is_fcs in *. rewrite Z.shiftr_div_pow2 by lia. change (2 ^ 8) with 256. split; [apply Z.div_pos; lia|apply Z.div_lt_upper_bound; lia]. Qed.

Lemma high_low f g : is_fcs f -> is_fcs g -> Z.shiftr f 8 = Z.shiftr g 8 -> Z.land f 0xff = Z.land g 0xff -> f = g.
Proof.
  unfold is_fcs. intros Hf Hg. rewrite !Z.shiftr_div_pow2 by lia. change 0xff with (Z.ones 8). rewrite !Z.land_ones by lia. change (2 ^ 8) with 256. intros H1 H2.
  rewrite (Z.div_mod f 256), (Z.div_mod g 256) by lia. by rewrite H1, H2.
Qed.

Lemma tab_range i : is_byte i -> is_fcs (tab i).
Proof.
  intros Hi. assert (forallb (fun i => (0 <=? tab i) && (tab i <? 65536)) (zrange 256 0) = true) as H by (vm_compute; reflexivity).
  apply (all_range 256 _ i) in H; [|exact Hi]. apply andb_true_iff in H as [H1%Z.leb_le H2%Z.ltb_lt]. by split.
Qed.

Lemma fcs_range f c : is_fcs f -> is_fcs (PPP_FCS f c).
Proof.
  intros Hf. apply (lxor_bound 16); [lia| |by apply tab_range, low_byte]. pose proof (high_byte f Hf) as H. unfold is_byte in H. change (2 ^ 16) with 65536. lia.
Qed.

Lemma fcs_bit_lxor x y : fcs_bit (Z.lxor x y) = Z.lxor (fcs_bit x) (fcs_bit y).
Proof.
  unfold fcs_bit. assert (Z.odd (Z.lxor x y) = xorb (Z.odd x) (Z.odd y)) as -> by (by rewrite <- !Z.bit0_odd, Z.lxor_spec). rewrite Z.shiftr_lxor.
  set (u := Z.shiftr x 1). set (v := Z.shiftr y 1). destruct (Z.odd x), (Z.odd y); cbn [xorb]; try done;
    apply Z.bits_inj'; intros i Hi; rewrite !Z.lxor_spec; by destruct (Z.testbit u i), (Z.testbit v i), (Z.testbit 0x8408 i).
Qed.

Lemma fcs_bits_lxor n x y : Nat.iter n fcs_bit (Z.lxor x y) = Z.lxor (Nat.iter n fcs_bit x) (Nat.iter n fcs_bit y).
Proof. induction n as [|n IH]; [done|]. cbn [Nat.iter nat_rect]. unfold Nat.iter in *. by rewrite IH, fcs_bit_lxor. Qed.

(** Eight bits at once: the low byte selects what the high byte is combined with. *)
Lemma fcs_tab x : is_fcs x -> Nat.iter 8 fcs_bit x = Z.lxor (Z.shiftr x 8) (tab (Z.land x 0xff)).
Proof.
  intros Hx. assert (x = Z.lxor (Z.shiftl (Z.shiftr x 8) 8) (Z.land x 0xff)) as E.
  { apply Z.bits_inj'. intros i Hi. change 0xff with (Z.ones 8). rewrite Z.lxor_spec, Z.land_spec, Z.shiftl_spec by lia. destruct (Z.ltb_spec i 8).
    - rewrite Z.ones_spec_low, andb_true_r, (Z.testbit_neg_r _ (i - 8)) by lia. by rewrite xorb_false_l.
    - rewrite Z.ones_spec_high, andb_false_r, xorb_false_r, Z.shiftr_spec by lia. f_equal. lia. }
  rewrite E at 1. rewrite fcs_bits_lxor. f_equal.
  - assert (forallb (fun h => Nat.iter 8 fcs_bit (Z.shiftl h 8) =? h) (zrange 256 0) = true) as H by (vm_compute; reflexivity).
    apply Z.eqb_eq, (all_range 256 _ _ H), (high_byte x Hx).
  - assert (forallb (fun l => Nat.iter 8 fcs_bit l =? tab l) (zrange 256 0) = true) as H by (vm_compute; reflexivity).
    apply Z.eqb_eq, (all_range 256 _ _ H), (low_byte x).
Qed.

(** the table of the check sequence is right: PPP_FCS is the division by the polynomial
    of RFC 1662, bit by bit. *)
Theorem ppp_fcs_rfc1662 fcs c : is_fcs fcs -> is_byte c -> PPP_FCS fcs c = rfc1662_fcs fcs c.
Proof.
  intros Hf Hc. unfold rfc1662_fcs. pose proof (lxor_bound 16 fcs c ltac:(lia) Hf ltac:(unfold is_byte in Hc; change (2 ^ 16) with 65536; lia)) as Hx.
  rewrite fcs_tab by exact Hx. unfold PPP_FCS, tab. f_equal.
  rewrite Z.shiftr_lxor. rewrite (Z.shiftr_eq_0 c 8), Z.lxor_0_r; [done|unfold is_byte in Hc; lia|]. unfold is_byte in Hc. destruct (decide (c = 0)) as [->|]; [done|].
  apply Z.log2_lt_pow2; [lia|]. change (2 ^ 8) with 256. lia.
Qed.

(** The next value tells the high byte of the last one and the index. *)
Lemma tab_high i j : is_byte i -> is_byte j -> Z.shiftr (tab i) 8 = Z.shiftr (tab j) 8 -> i = j.
Proof.
  intros Hi Hj E. assert (forallb (fun i => forallb (fun j => implb (Z.shiftr (tab i) 8 =? Z.shiftr (tab j) 8) (i =? j)) (zrange 256 0)) (zrange 256 0) = true) as H by (vm_compute; reflexivity).
  apply (all_range 256 _ i) in H; [|exact Hi]. apply (all_range 256 _ j) in H; [|exact Hj]. cbv beta in H. rewrite (proj2 (Z.eqb_eq _ _) E) in H. by apply Z.eqb_eq.
Qed.

Lemma fcs_inv f c f' c' : is_fcs f -> is_fcs f' -> PPP_FCS f c = PPP_FCS f' c' ->
  Z.shiftr f 8 = Z.shiftr f' 8 /\ Z.land (Z.lxor f c) 0xff = Z.land (Z.lxor f' c') 0xff.
Proof.
  intros Hf Hf' E. assert (forall f c, is_fcs f -> Z.shiftr (PPP_FCS f c) 8 = Z.shiftr (tab (Z.land (Z.lxor f c) 0xff)) 8) as Hh.
  { intros g d Hg. unfold PPP_FCS. rewrite Z.shiftr_lxor, Z.shiftr_shiftr by lia. fold (tab (Z.land (Z.lxor g d) 0xff)).
    rewrite (Z.shiftr_div_pow2 g), (Z.div_small g) by (unfold is_fcs in Hg; change (2 ^ (8 + 8)) with 65536; lia). apply Z.lxor_0_l. }
  assert (Z.land (Z.lxor f c) 0xff = Z.land (Z.lxor f' c') 0xff) as Ei by (apply tab_high; try apply low_byte; rewrite <- !Hh by done; by rewrite E).
  split; [|done]. unfold PPP_FCS in E. rewrite Ei in E. apply (f_equal (fun x => Z.lxor x (tab (Z.land (Z.lxor f' c') 0xff)))) in E.
  unfold tab in E. by rewrite !Z.lxor_assoc, Z.lxor_nilpotent, !Z.lxor_0_r in E.
Qed.

Lemma byte_lxor f c c' : is_byte c -> is_byte c' -> Z.land (Z.lxor f c) 0xff = Z.land (Z.lxor f c') 0xff -> c = c'.
Proof.
  intros Hc Hc' E. apply (f_equal (Z.lxor (Z.land f 0xff))) in E.
  assert (forall d, is_byte d -> Z.lxor (Z.land f 0xff) (Z.land (Z.lxor f d) 0xff) = d) as H; [|by rewrite !H in E].
  intros d Hd. rewrite <- (Z.mod_small d 256) at 2 by exact Hd. change 256 with (2 ^ 8). rewrite <- Z.land_ones by lia. change (Z.ones 8) with 0xff.
  apply Z.bits_inj'. intros i Hi. rewrite Z.lxor_spec, !Z.land_spec, Z.lxor_spec. by destruct (Z.testbit f i), (Z.testbit d i), (Z.testbit 0xff i).
Qed.

Lemma fcs_inj_byte f c c' : is_fcs f -> is_byte c -> is_byte c' -> PPP_FCS f c = PPP_FCS f c' -> c = c'.
Proof. intros Hf Hc Hc' E. apply fcs_inv in E as [_ E]; [|done..]. by apply byte_lxor in E. Qed.

Lemma fcs_inj f f' c : is_fcs f -> is_fcs f' -> PPP_FCS f c = PPP_FCS f' c -> f = f'.
Proof.
  intros Hf Hf' E. apply fcs_inv in E as [E1 E2]; [|done..]. apply high_low; try done. apply (f_equal (fun x => Z.lxor x (Z.land c 0xff))) in E2.
  assert (forall g, Z.lxor (Z.land (Z.lxor g c) 0xff) (Z.land c 0xff) = Z.land g 0xff) as H; [|by rewrite !H in E2].
  intros g. apply Z.bits_inj'. intros i Hi. rewrite Z.lxor_spec, !Z.land_spec, Z.lxor_spec. by destruct (Z.testbit g i), (Z.testbit c i), (Z.testbit 0xff i).
Qed.

(** The check sequence over some bytes. *)
Definition fcs_of (f : Z) (bs : list Z) : Z := foldl PPP_FCS f bs.

Lemma fcs_of_app f a b : fcs_of f (a ++ b) = fcs_of (fcs_of f a) b.
Proof. apply foldl_app. Qed.

Lemma fcs_of_range f bs : is_fcs f -> is_fcs (fcs_of f bs).
Proof. revert f. induction bs as [|c bs IH]; intros f Hf; [done|]. by apply IH, fcs_range. Qed.

Lemma fcs_of_inj bs f f' : is_fcs f -> is_fcs f' -> fcs_of f bs = fcs_of f' bs -> f = f'.
Proof. revert f f'. induction bs as [|c bs IH]; intros f f' Hf Hf' E; [done|]. apply IH in E; [|by apply fcs_range..]. by eapply fcs_inj. Qed.

(** What end_frame appends makes the value good. *)
Lemma fcs_good f : is_fcs f -> PPP_FCS (PPP_FCS f (Z.land (Z.lnot f) 0xff)) (Z.land (Z.shiftr (Z.lnot f) 8) 0xff) = PPP_GOODFCS.
Proof.
  intros Hf. assert (PPP_FCS f (Z.land (Z.lnot f) 0xff) = Z.lxor (Z.shiftr f 8) (tab 255)) as ->.
  { unfold PPP_FCS. fold (tab (Z.land (Z.lxor f (Z.land (Z.lnot f) 0xff)) 0xff)). do 2 f_equal. change 255 with (Z.land 0xff 0xff) at 3.
    apply Z.bits_inj'. intros i Hi. rewrite !Z.land_spec, Z.lxor_spec, Z.land_spec, Z.lnot_spec by done. by destruct (Z.testbit f i), (Z.testbit 0xff i). }
  change (tab 255) with 0x0f78. unfold PPP_FCS. rewrite Z.shiftr_lxor, Z.shiftr_shiftr by lia. change (8 + 8) with 16.
  rewrite (Z.shiftr_div_pow2 f 16), (Z.div_small f) by (unfold is_fcs in Hf; change (2 ^ 16) with 65536; lia).
  assert (Z.land (Z.lxor (Z.lxor (Z.shiftr f 8) 0x0f78) (Z.land (Z.shiftr (Z.lnot f) 8) 0xff)) 0xff = Z.land (Z.lxor 0x0f78 0xff) 0xff) as ->; [|reflexivity].
  apply Z.bits_inj'. intros i Hi. rewrite !Z.land_spec, !Z.lxor_spec, Z.land_spec, !Z.shiftr_spec, Z.lnot_spec by lia.
  by destruct (Z.testbit f (i + 8)), (Z.testbit 0xff i), (Z.testbit 0x0f78 i).
Qed.

Definition fcs_field (bs : list Z) : list Z :=
  let f := fcs_of PPP_INITFCS bs in [Z.land (Z.lnot f) 0xff; Z.land (Z.shiftr (Z.lnot f) 8) 0xff].

Lemma init_fcs : is_fcs PPP_INITFCS.
Proof. done. Qed.

Lemma fcs_field_good bs : fcs_of PPP_INITFCS (bs ++ fcs_field bs) = PPP_GOODFCS.
Proof. unfold fcs_of. rewrite foldl_app. cbn. apply fcs_good, fcs_of_range, init_fcs. Qed.

Lemma fcs_field_bytes bs : Forall is_byte (fcs_field bs).
Proof. repeat constructor; apply low_byte. Qed.

(** Frames that differ in two adjacent bytes at most. *)
Lemma burst_detected a x y x' y' b : is_byte x -> is_byte y -> is_byte x' -> is_byte y' ->
  fcs_of PPP_INITFCS (a ++ [x; y] ++ b) = fcs_of PPP_INITFCS (a ++ [x'; y'] ++ b) -> x = x' /\ y = y'.
Proof.
  intros Hx Hy Hx' Hy'. unfold fcs_of. rewrite !foldl_app. set (f := foldl PPP_FCS PPP_INITFCS a). assert (is_fcs f) as Hf by apply (fcs_of_range _ a init_fcs).
  intros E. apply (fcs_of_inj b) in E; [|by apply fcs_range, fcs_range..]. cbn in E. pose proof (fcs_inv _ _ _ _ (fcs_range _ _ Hf) (fcs_range _ _ Hf) E) as [E1 _].
  assert (x = x') as ->; [|split; [done|]; apply fcs_inj_byte in E; [done|by apply fcs_range|done|done]].
  assert (PPP_FCS f x = PPP_FCS f x') as Ex; [|by apply fcs_inj_byte in Ex].
  unfold PPP_FCS in *. fold (tab (Z.land (Z.lxor f x) 0xff)) (tab (Z.land (Z.lxor f x') 0xff)) in *.
  rewrite !Z.shiftr_lxor, !Z.shiftr_shiftr in E1 by lia. apply (f_equal (Z.lxor (Z.shiftr f (8 + 8)))) in E1.
  rewrite <- !Z.lxor_assoc, Z.lxor_nilpotent, !Z.lxor_0_l in E1. apply tab_high in E1; [by rewrite E1|apply low_byte..].
Qed.

(** ** Escapes *)

(** The receiver's special characters are escaped by the sender, and not by one another. *)
Record accm_ok (i o : list Z) : Prop := {
  ac_flag : ESCAPE_P i PPP_FLAG = true; ac_esc : ESCAPE_P i PPP_ESCAPE = true;
  ac_sub : forall c, is_byte c -> ESCAPE_P i c = true -> ESCAPE_P o c = true;
  ac_trans : forall c, is_byte c -> ESCAPE_P o c = true -> ESCAPE_P i (Z.lxor c PPP_TRANS) = false }.

Definition stuff (o : list Z) (bs : list Z) : list Z := concat ((fun c => put_char c (Some o) []) <$> bs).

Lemma stuff_app o a b : stuff o (a ++ b) = stuff o a ++ stuff o b.
Proof. unfold stuff. by rewrite fmap_app, concat_app. Qed.

Section Receive.
Context {V : Type} `{!Compression V}.
Implicit Type p : ppp V.

Lemma inproc_app pd s t p w : pppInProc pd p w (s ++ t) = '(p, w) ← pppInProc pd p w s; pppInProc pd p w t.
Proof.
  revert p w. induction s as [|c s IH]; intros p w; [done|]. cbn. destruct (in_char pd p w c) as [[p' w']| | |]; cbn; [apply IH|done..].
Qed.

Lemma in_escape pd p w : ESCAPE_P (inACCM p) PPP_ESCAPE = true -> in_char pd p w PPP_ESCAPE = Ok (set_in p (inBufs p) (inState p) true (inProtocol p) (inFCS p), w).
Proof. intros E. unfold in_char. by rewrite E. Qed.

Lemma in_stuffed pd p w o c : accm_ok (inACCM p) o -> is_byte c -> inEscaped p = false -> pppInProc pd p w (stuff o [c]) = in_plain pd p w c.
Proof.
  intros Ha Hc He. unfold stuff, put_char. cbn [fmap list_fmap concat app]. destruct (ESCAPE_P o c) eqn:Eo; cbn [app pppInProc].
  - rewrite in_escape by apply Ha. cbn [mbind outcome_bind]. unfold in_char. cbn [inACCM set_in]. rewrite (ac_trans _ _ Ha c Hc Eo).
    unfold in_plain. cbn [inEscaped set_in inState inBufs inProtocol inFCS]. rewrite He, Z.lxor_assoc, Z.lxor_nilpotent, Z.lxor_0_r.
    unfold in_data. cbn [inBufs set_in inProtocol]. destruct (inState p); cbn [mbind outcome_bind]; try (by destruct (c =? _)); try done.
    destruct (if match inBufs p with Some (_, t) => _ | None => true end then _ else _) as [[[b|] w1]| | |]; done.
  - unfold in_char. destruct (ESCAPE_P (inACCM p) c) eqn:Ei; [by rewrite (ac_sub _ _ Ha c Hc Ei) in Eo|]. destruct (in_plain pd p w c) as [[p' w']| | |]; done.
Qed.

(** Characters the line inserts are not seen. *)
Definition inserted (i : list Z) (c : Z) : bool := ESCAPE_P i c && negb (c =? PPP_ESCAPE) && negb (c =? PPP_FLAG).

Definition line_clean (i : list Z) (bs : list Z) : list Z := List.filter (fun c => negb (inserted i c)) bs.

Lemma in_inserted pd p w c : inserted (inACCM p) c = true -> in_char pd p w c = Ok (p, w).
Proof. unfold inserted, in_char. intros [[-> He]%andb_true_iff Hf]%andb_true_iff. by rewrite (proj1 (negb_true_iff _) He), (proj1 (negb_true_iff _) Hf). Qed.

(** ** The bytes of a packet *)

(** What the buffers hold, with the header that the first one will have. *)
Definition held (pd proto : Z) (b : option (list (list Z) * list Z)) : list Z :=
  match b with None => pppInputHeader pd proto | Some (l, t) => concat l ++ t end.

Definition bufs_ok (b : option (list (list Z) * list Z)) : Prop :=
  match b with
  | None => True
  | Some (l, t) => Forall (fun x => length x = 128%nat) l /\ (1 <= length t <= 128)%nat /\ (l = [] -> 9 <= length t)%nat
  end.

(** There are buffers; nothing but their number changes. *)
Definition plenty (w : penv) : Prop := Forall (eq true) (pool w).
Definition same_env (w w' : penv) : Prop := (jiffies w', sio w', cbs w', wire w', handed w') = (jiffies w, sio w, cbs w, wire w, handed w).

Lemma take_plenty w : plenty w -> exists w', take_buf w = (true, w') /\ plenty w' /\ same_env w w'.
Proof.
  intros H. unfold take_buf. destruct H as [|b l <- H]; cbn [head tail default]; eexists; (split; [reflexivity|]); split; try done; constructor.
Qed.

Lemma data_step pd p w c : inState p = PDDATA -> inEscaped p = false -> bufs_ok (inBufs p) -> plenty w ->
  exists b w', in_plain pd p w c = Ok (set_in p (Some b) PDDATA false (inProtocol p) (PPP_FCS (inFCS p) c), w') /\
    bufs_ok (Some b) /\ held pd (inProtocol p) (Some b) = held pd (inProtocol p) (inBufs p) ++ [c] /\ plenty w' /\ same_env w w'.
Proof.
  intros Hs He Hb Hw. unfold in_plain. rewrite Hs, He. unfold in_data. destruct (take_plenty w Hw) as (w' & Et & Hw' & Hsame). rewrite Et.
  destruct (inBufs p) as [[l t]|].
  - destruct Hb as (Hl & Ht & H9). destruct (Z.eqb_spec (Z.of_nat (length t)) POOL_BUFSIZE) as [E|E]; cbn [mbind outcome_bind].
    + eexists _, w'. split; [reflexivity|]. unfold POOL_BUFSIZE in E. split; [|split; [|done]].
      * split; [apply Forall_app; split; [done|]; constructor; [lia|done]|]. split; [cbn; lia|]. by destruct l.
      * cbn. by rewrite concat_app; cbn; rewrite app_nil_r.
    + eexists _, w. split; [reflexivity|]. unfold POOL_BUFSIZE in E. split; [|split; [|done]].
      * split; [done|]. rewrite length_app. cbn [length]. split; [lia|]. intros ->. specialize (H9 eq_refl). lia.
      * cbn. by rewrite app_assoc.
  - cbn [mbind outcome_bind]. eexists _, w'. split; [reflexivity|]. split; [|done]. split; [constructor|]. cbn. lia.
Qed.

Lemma ppp_eta p : p = set_in p (inBufs p) (inState p) (inEscaped p) (inProtocol p) (inFCS p).
Proof. by destruct p. Qed.

Lemma feed_data pd o data p w : accm_ok (inACCM p) o -> Forall is_byte data -> inState p = PDDATA -> inEscaped p = false -> bufs_ok (inBufs p) -> plenty w ->
  exists b w', pppInProc pd p w (stuff o data) = Ok (set_in p b PDDATA false (inProtocol p) (fcs_of (inFCS p) data), w') /\
    bufs_ok b /\ held pd (inProtocol p) b = held pd (inProtocol p) (inBufs p) ++ data /\ (data <> [] -> b <> None) /\ plenty w' /\ same_env w w'.
Proof.
  intros Ha Hd. revert p w Ha. induction Hd as [|c data Hc Hd IH]; intros p w Ha Hs He Hb Hw.
  - exists (inBufs p), w. cbn. rewrite app_nil_r. split; [|done]. rewrite (ppp_eta p) at 1. by rewrite Hs, He.
  - change (c :: data) with ([c] ++ data). rewrite stuff_app, inproc_app, (in_stuffed pd p w o c Ha Hc He).
    destruct (data_step pd p w c Hs He Hb Hw) as (b & w1 & E & Hb1 & Hh & Hw1 & Hsame). rewrite E. cbn [mbind outcome_bind].
    destruct (IH (set_in p (Some b) PDDATA false (inProtocol p) (PPP_FCS (inFCS p) c)) w1) as (b2 & w2 & E2 & Hb2 & Hh2 & Hn2 & Hw2 & Hsame2); try done.
    exists b2, w2. rewrite E2. split; [done|]. split; [done|]. cbn [inBufs inProtocol set_in] in Hh2. rewrite Hh2, Hh, <- app_assoc. split; [done|].
    split; [|split; [done|unfold same_env in *; congruence]]. intros _. destruct data; [cbn in E2; injection E2 as <- _; done|by apply Hn2].
Qed.

(** ** The fields before the data *)

Definition proto_field (l : list Z) (proto : Z) : Prop :=
  (exists c, l = [c] /\ Z.odd c = true /\ proto = c) \/ (exists a c, l = [a; c] /\ Z.odd a = false /\ proto = Z.lor (Z.shiftl a 8) c).

(** Address and control may be missing if the protocol cannot be taken for them. *)
Definition hdr_field (h : list Z) (proto : Z) : Prop := exists l, proto_field l proto /\
  (h = [PPP_ALLSTATIONS; PPP_UI] ++ l \/ h = l /\ hd 0 l <> PPP_ALLSTATIONS /\ hd 0 l <> PPP_UI).

Definition ready p : Prop := inState p = PDADDRESS /\ inEscaped p = false /\ inFCS p = PPP_INITFCS /\ inBufs p = None.

Lemma feed_proto pd o l proto p w (st : PPPDevStates) x f : accm_ok (inACCM p) o -> Forall is_byte l -> proto_field l proto ->
  st = PDPROTOCOL1 \/ st = PDADDRESS /\ hd 0 l <> PPP_ALLSTATIONS /\ hd 0 l <> PPP_UI ->
  pppInProc pd (set_in p None st false x f) w (stuff o l) = Ok (set_in p None PDDATA false proto (fcs_of f l), w).
Proof.
  intros Ha Hl Hp Hst. assert (forall c, is_byte c -> hd 0 l = c -> in_plain pd (set_in p None st false x f) w c =
    Ok (set_in p None (after_protocol1 c).1 false (after_protocol1 c).2 (PPP_FCS f c), w)) as Hfirst.
  { intros c Hc <-. destruct Hst as [->|(-> & H1 & H2)]; [done|]. unfold in_plain. cbn [inState set_in inEscaped inProtocol inFCS inBufs].
    unfold after_address, after_control. by rewrite (proj2 (Z.eqb_neq _ _) H1), (proj2 (Z.eqb_neq _ _) H2). }
  destruct Hp as [(c & -> & Hodd & ->)|(a & c & -> & Hodd & ->)].
  - inversion_clear Hl as [|? ? Hc _]. rewrite (in_stuffed pd _ w o c) by done. rewrite Hfirst by done. unfold after_protocol1. by rewrite Hodd.
  - inversion_clear Hl as [|? ? Hc Hl']. inversion_clear Hl' as [|? ? Hc' _]. change [a; c] with ([a] ++ [c]). rewrite stuff_app, inproc_app, (in_stuffed pd _ w o a), Hfirst by done.
    cbn [mbind outcome_bind]. unfold after_protocol1. rewrite Hodd. cbn [fst snd]. by rewrite (in_stuffed pd _ w o c).
Qed.

Lemma feed_hdr pd o h proto p w : accm_ok (inACCM p) o -> Forall is_byte h -> hdr_field h proto -> ready p ->
  pppInProc pd p w (stuff o h) = Ok (set_in p None PDDATA false proto (fcs_of PPP_INITFCS h), w).
Proof.
  intros Ha Hh (l & Hp & Hl) (Hs & He & Hf & Hb). rewrite (ppp_eta p) at 1. rewrite Hs, He, Hf, Hb. destruct Hl as [->|(-> & H1 & H2)].
  - apply Forall_app in Hh as [Hpre Hl]. rewrite stuff_app, inproc_app. change [PPP_ALLSTATIONS; PPP_UI] with ([PPP_ALLSTATIONS] ++ [PPP_UI]).
    rewrite stuff_app, inproc_app, (in_stuffed pd _ w o PPP_ALLSTATIONS) by done. cbn [mbind outcome_bind in_plain inState set_in inEscaped inProtocol inFCS inBufs].
    change (after_address PPP_ALLSTATIONS (inProtocol p)) with (PDCONTROL, inProtocol p). cbn [fst snd]. rewrite (in_stuffed pd _ w o PPP_UI) by done.
    cbn [mbind outcome_bind in_plain inState set_in inEscaped inProtocol inFCS inBufs]. change (after_control PPP_UI (inProtocol p)) with (PDPROTOCOL1, inProtocol p).
    cbn [fst snd]. by apply (feed_proto pd o l proto p w PDPROTOCOL1); [..|left].
  - apply (feed_proto pd o l proto p w PDADDRESS); [done..|]. by right.
Qed.
(** ** A whole frame *)

(** The first buffer holds 120 bytes, or everything. *)
Definition fits (b : list Z) (r : list (list Z)) : Prop := (120 <= length b)%nat \/ concat r = [].

(** The packet handed over: the header of the link, then the data. *)
Definition is_packet (pd proto : Z) (data : list Z) (nb : list (list Z)) : Prop :=
  exists b r, nb = b :: r /\ (8 <= length b)%nat /\ take 8 b = pppInputHeader pd proto /\ concat (drop 8 b :: r) = data /\ fits (drop 8 b) r.

Lemma trim_fcs_concat l t x y bs : Forall (fun x => length x = 128%nat) l -> (1 <= length t)%nat -> (l = [] -> 9 <= length t)%nat ->
  concat l ++ t = bs ++ [x; y] -> concat (trim_fcs l t) = bs.
Proof.
  intros Hl Ht H9 E. unfold trim_fcs. destruct (Z.leb_spec 2 (Z.of_nat (length t))).
  - rewrite concat_app. cbn. rewrite app_nil_r. rewrite <- (take_drop (length t - 2) t), app_assoc in E.
    apply app_inj_2 in E as [E _]; [done|]. rewrite length_drop. cbn. lia.
  - destruct (exists_last (l:=l)) as (l' & b & ->); [intros ->; specialize (H9 eq_refl); lia|]. rewrite removelast_last, List.last_last, concat_app. cbn. rewrite app_nil_r.
    apply Forall_app in Hl as [_ Hb]. inversion_clear Hb as [|? ? Hb' _]. destruct (exists_last (l:=b)) as (b' & z & ->); [by intros ->|]. rewrite removelast_last.
    rewrite concat_app in E. cbn in E. rewrite app_nil_r in E. assert (length t = 1%nat) as L by lia. destruct t as [|u [|? ?]]; try done.
    rewrite <- !app_assoc, app_assoc in E. cbn in E. by apply app_inj_2 in E as [E _].
Qed.

Lemma trim_fcs_packet pd proto l t x y data : bufs_ok (Some (l, t)) -> concat l ++ t = pppInputHeader pd proto ++ data ++ [x; y] ->
  is_packet pd proto data (trim_fcs l t).
Proof.
  intros (Hl & Ht & H9) E. rewrite app_assoc in E. pose proof (trim_fcs_concat l t x y _ Hl (proj1 Ht) H9 E) as Ec.
  assert (exists b r, trim_fcs l t = b :: r /\ (8 <= length b)%nat /\ fits (drop 8 b) r) as (b & r & Eb & Hb & Hfit).
  { unfold trim_fcs. destruct l as [|b l].
    - specialize (H9 eq_refl). apply (f_equal length) in E. rewrite !length_app in E. cbn [concat length pppInputHeader] in E. rewrite (proj2 (Z.leb_le 2 _)) by lia.
      eexists _, _. split; [reflexivity|]. rewrite length_take. split; [lia|]. by right.
    - inversion_clear Hl as [|? ? Hb Hl']. case_match; [eexists _, _; split; [reflexivity|]; split; [lia|]; left; rewrite length_drop; lia|]. destruct l as [|b2 l].
      + eexists _, _. split; [reflexivity|]. cbn [List.last]. destruct (exists_last (l:=b)) as (b' & z & ->); [by intros ->|]. rewrite removelast_last.
        rewrite length_app in Hb. cbn in Hb. split; [lia|by right].
      + eexists b, _. split; [reflexivity|]. split; [lia|]. left. rewrite length_drop. lia. }
  exists b, r. split; [done|]. split; [done|]. rewrite Eb in Ec. cbn [concat] in Ec. rewrite <- (take_drop 8 b), <- app_assoc in Ec.
  apply app_inj_1 in Ec as [E1 E2]; [|rewrite length_take; change (length (pppInputHeader pd proto)) with 8%nat; lia]. done.
Qed.

Lemma receive_frame pd p w o h proto data : ready p -> accm_ok (inACCM p) o -> Forall is_byte h -> Forall is_byte data -> hdr_field h proto -> plenty w ->
  default true (head (cbs w)) = true ->
  exists nb w', pppInProc pd p w (stuff o (h ++ data ++ fcs_field (h ++ data)) ++ [PPP_FLAG]) = Ok (set_in p None PDADDRESS false proto PPP_INITFCS, w') /\
    handed w' = handed w ++ [nb] /\ is_packet pd proto data nb /\ plenty w' /\ (jiffies w', sio w', cbs w', wire w') = (jiffies w, sio w, tail (cbs w), wire w).
Proof.
  intros Hr Ha Hh Hd Hf Hw Hc. rewrite stuff_app, <- app_assoc, inproc_app, (feed_hdr pd o h proto p w Ha Hh Hf Hr). cbn [mbind outcome_bind]. rewrite inproc_app.
  destruct (feed_data pd o (data ++ fcs_field (h ++ data)) (set_in p None PDDATA false proto (fcs_of PPP_INITFCS h)) w) as (b & w1 & E & Hb & Hh1 & Hn & Hw1 & Hs); try done.
  { apply Forall_app. split; [done|]. apply fcs_field_bytes. }
  rewrite E. cbn [mbind outcome_bind pppInProc]. unfold in_char. cbn [inACCM set_in]. rewrite (ac_flag _ _ Ha). change (PPP_FLAG =? PPP_ESCAPE) with false.
  rewrite Z.eqb_refl. unfold in_flag. cbn [inState set_in inFCS inBufs inProtocol]. 
  rewrite <- fcs_of_app, app_assoc, fcs_field_good, Z.eqb_refl. cbn [negb]. destruct b as [[l t]|]; [|exfalso; apply Hn; [by destruct data|done]].
  cbn [mbind outcome_bind set_in]. exists (trim_fcs l t), (hand_over w1 (trim_fcs l t)). split; [done|]. unfold same_env in Hs. injection Hs as E1 E2 E3 E4 E5.
  unfold hand_over. cbn [handed pool jiffies sio cbs wire]. rewrite E3, Hc, E5. split; [done|]. split; [|split; [done|by rewrite E1, E2, E4]].
  by eapply trim_fcs_packet.
Qed.

(** pppInput finds the protocol and the data again. *)
Lemma input_packet enabled phase p w pd proto data nb : is_packet pd proto data nb -> is_fcs proto -> PHASE_AUTHENTICATE < phase ->
  exists b r, let q := b :: r in concat q = data /\ fits b r /\
  pppInput enabled phase p w nb =
    if proto =? PPP_VJC_COMP then let '(o, v) := c_expand (vjComp p) q in Ok (match o with Some q => ToIp q | None => Dropped end, set_vj p v, w)
    else if proto =? PPP_VJC_UNCOMP then let '(o, v) := c_store (vjComp p) q in Ok (match o with Some q => ToIp q | None => Dropped end, set_vj p v, w)
    else if proto =? PPP_IP then Ok (ToIp q, p, w)
    else if enabled proto then let '(x, w) := pppSingleBuf w q in Ok (ToProtocol proto x, p, w)
    else Ok (Reject (Z.shiftr proto 8 :: u8 proto :: hd [] q), p, w).
Proof.
  intros (b & r & -> & Hb & Eh & Ed & Hfit) Hp Hph. exists (drop 8 b), r. cbv zeta. split; [done|]. split; [done|]. unfold pppInput. rewrite (proj2 (Z.ltb_ge _ 8)) by lia. cbv zeta.
  assert (Z.lor (nth 4 b 0) (Z.shiftl (nth 5 b 0) 8) = proto) as ->.
  { assert (forall i, (i < 8)%nat -> nth i b 0 = nth i (pppInputHeader pd proto) 0) as Hn.
    { intros i Hi. rewrite <- Eh. rewrite <- (take_drop 8 b) at 1. apply app_nth1. rewrite length_take. lia. }
    rewrite !Hn by lia. cbn. pose proof (high_byte proto Hp) as Hh. unfold is_byte in Hh. rewrite (u8_small (Z.shiftr proto 8)) by (change (2 ^ 8) with 256; lia).
    unfold u8. rewrite Z.lor_comm, <- Z.land_ones, Z.lor_land_distr_r by lia.
    apply Z.bits_inj'. intros i Hi. change 0xff with (Z.ones 8). rewrite Z.land_spec, !Z.lor_spec, Z.shiftl_spec by lia. destruct (Z.ltb_spec i 8).
    - rewrite Z.ones_spec_low, (Z.testbit_neg_r _ (i - 8)) by lia. cbn. by rewrite andb_true_r.
    - rewrite Z.ones_spec_high, Z.shiftr_spec by lia. replace (i - 8 + 8) with i by lia. by destruct (Z.testbit proto i). }
  rewrite (proj2 (Z.leb_gt phase PHASE_AUTHENTICATE)) by done. reflexivity.
Qed.
(** ** Damage *)

(** In a frame: [f] is the check sequence of the bytes so far. *)
Record in_frame (f : Z) p : Prop := {
  if_state : inState p <> PDIDLE /\ inState p <> PDSTART; if_esc : inEscaped p = false; if_fcs : inFCS p = f;
  if_bufs : bufs_ok (inBufs p); if_none : inState p <> PDDATA -> inBufs p = None }.

Definition started (st : PPPDevStates) : Prop := st <> PDIDLE /\ st <> PDSTART.

Lemma after_started c x : started (after_protocol1 c).1 /\ started (after_control c x).1 /\ started (after_address c x).1.
Proof.
  unfold after_address, after_control, after_protocol1. destruct (c =? PPP_ALLSTATIONS), (c =? PPP_UI), (Z.odd c); cbn; done.
Qed.

Lemma in_frame_step pd p w c f : in_frame f p -> plenty w ->
  exists p' w', in_plain pd p w c = Ok (p', w') /\ in_frame (PPP_FCS f c) p' /\ inACCM p' = inACCM p /\ plenty w' /\ same_env w w'.
Proof.
  intros [[Hs1 Hs2] He Hf Hb Hn] Hw. destruct (decide (inState p = PDDATA)) as [Hd|Hd].
  - destruct (data_step pd p w c Hd He Hb Hw) as (b & w' & E & Hb' & _ & Hw' & Hsame). eexists _, w'. split; [exact E|]. by rewrite Hf.
  - specialize (Hn Hd). destruct (after_started c (inProtocol p)) as (A1 & A2 & A3).
    assert (exists st x, started st /\ in_plain pd p w c = Ok (set_in p None st false x (PPP_FCS f c), w)) as (st & x & Hst & E).
    { unfold in_plain. rewrite He, Hf, Hn. destruct (inState p); try congruence; eexists _, _; (split; [|reflexivity]); first [exact A1|exact A2|exact A3|by split]. }
    eexists _, w. split; [exact E|]. split; [by split|]. by split_and!.
Qed.

Lemma feed_frame pd o bs p w f : accm_ok (inACCM p) o -> Forall is_byte bs -> in_frame f p -> plenty w ->
  exists p' w', pppInProc pd p w (stuff o bs) = Ok (p', w') /\ in_frame (fcs_of f bs) p' /\ inACCM p' = inACCM p /\ plenty w' /\ same_env w w'.
Proof.
  intros Ha Hb. revert p w f Ha. induction Hb as [|c bs Hc _ IH]; intros p w f Ha Hp Hw; [by exists p, w|].
  change (c :: bs) with ([c] ++ bs). rewrite stuff_app, inproc_app, (in_stuffed pd p w o c Ha Hc (if_esc _ _ Hp)).
  destruct (in_frame_step pd p w c f Hp Hw) as (p1 & w1 & E1 & Hp1 & Ha1 & Hw1 & Hs1). rewrite E1. cbn [mbind outcome_bind].
  destruct (IH p1 w1 (PPP_FCS f c)) as (p2 & w2 & E2 & Hp2 & Ha2 & Hw2 & Hs2); [by rewrite Ha1|done..|]. exists p2, w2. split; [done|]. split; [done|].
  unfold same_env in *. by split_and!; try congruence.
Qed.

(** C21: a damaged frame is not taken for a packet.  If a frame with a good check sequence
    arrives with one byte or two adjacent bytes of its contents changed, in the header, the data
    or the check sequence itself, pppInProc hands nothing over, and is ready for the next
    frame.  The contents are the bytes before escaping: the frame still ends where it did, and
    nothing is said of damage on the line that makes or unmakes a flag or an escape character.
    The receiver is between frames when this one begins, and gets the buffers it asks for. *)
Theorem ppp_damage_dropped pd o p w a x y x' y' b : accm_ok (inACCM p) o -> ready p -> plenty w ->
  Forall is_byte (a ++ [x; y] ++ b) -> is_byte x' -> is_byte y' -> fcs_of PPP_INITFCS (a ++ [x; y] ++ b) = PPP_GOODFCS -> (x', y') <> (x, y) ->
  exists p' w', pppInProc pd p w (stuff o (a ++ [x'; y'] ++ b) ++ [PPP_FLAG]) = Ok (p', w') /\ ready p' /\ handed w' = handed w.
Proof.
  intros Ha (Hs & He & Hf & Hn) Hw Hb Hx' Hy' Hg Hne. apply Forall_app in Hb as [Hba Hb]. apply Forall_app in Hb as [Hxy Hb]. inversion_clear Hxy as [|? ? Hx Hxy']. inversion_clear Hxy' as [|? ? Hy _].
  rewrite inproc_app. destruct (feed_frame pd o (a ++ [x'; y'] ++ b) p w PPP_INITFCS) as (p1 & w1 & -> & [[H1 H2] He1 Hf1 Hb1 Hn1] & Ha1 & Hw1 & Hs1); [done| |split; try done; rewrite Hs || rewrite Hn; done|done|].
  { apply Forall_app. split; [done|]. apply Forall_app. split; [|done]. do 2 (apply Forall_cons_2; [done|]). apply Forall_nil_2. }
  cbn [mbind outcome_bind pppInProc]. unfold in_char. rewrite Ha1, (ac_flag _ _ Ha). change (PPP_FLAG =? PPP_ESCAPE) with false. change (PPP_FLAG =? PPP_FLAG) with true. cbv iota.
  assert (inFCS p1 <> PPP_GOODFCS) as Hbad. { rewrite Hf1, <- Hg. intros E. symmetry in E. apply burst_detected in E as [-> ->]; done. }
  exists (set_in (if decide (inState p1 = PDADDRESS) then p1 else pppDrop p1) None PDADDRESS false (inProtocol p1) PPP_INITFCS), w1. split; [|split; [done|by unfold same_env in Hs1; injection Hs1]].
  unfold in_flag. rewrite (proj2 (Z.eqb_neq _ _) Hbad). destruct (inState p1) eqn:Es; try done; cbn [mbind outcome_bind negb decide]; try done.
  cbn. rewrite Hn1 by done. reflexivity.
Qed.
End Receive.

(** ** Sending *)

Section Send.
Context {V : Type} `{!Compression V}.
Implicit Type p : ppp V.

Definition chain (nb : option (list (list Z) * list Z)) : option (list Z) := match nb with Some (l, b) => Some (concat l ++ b) | None => None end.

Lemma put_char_app c m b : put_char c m b = b ++ put_char c m [].
Proof. unfold put_char. destruct m; [|done]. by destruct (ESCAPE_P _ _). Qed.

Lemma append_ok c nb m w x : chain nb = Some x -> plenty w ->
  exists nb' w', pppAppend c nb m w = (nb', w') /\ chain nb' = Some (x ++ put_char c m []) /\ plenty w' /\ same_env w w'.
Proof.
  destruct nb as [[l b]|]; [|done]. intros [= <-] Hw. unfold pppAppend. destruct (take_plenty w Hw) as (w' & -> & Hw' & Hs).
  destruct (_ <? 2); eexists _, _; (split; [reflexivity|]); cbn [chain]; [|rewrite put_char_app, app_assoc; done].
  rewrite concat_app. cbn [concat]. rewrite app_nil_r. done.
Qed.

Lemma load_ok m bs f nb w x : chain nb = Some x -> plenty w ->
  exists nb' w', load_bytes bs f nb m w = (fcs_of f bs, nb', w') /\ chain nb' = Some (x ++ stuff m bs) /\ plenty w' /\ same_env w w'.
Proof.
  revert f nb w x. induction bs as [|c bs IH]; intros f nb w x Hn Hw; [exists nb, w; by rewrite app_nil_r|]. cbn [load_bytes].
  destruct (append_ok c nb (Some m) w x Hn Hw) as (nb1 & w1 & -> & Hn1 & Hw1 & Hs1). destruct (IH (PPP_FCS f c) nb1 w1 _ Hn1 Hw1) as (nb2 & w2 & E & Hn2 & Hw2 & Hs2).
  exists nb2, w2. rewrite E, Hn2. split; [done|]. rewrite <- app_assoc. split; [done|]. split; [done|]. unfold same_env in *. congruence.
Qed.

Lemma finish_ok m bs nb w x : chain nb = Some x -> plenty w ->
  exists nb' w', end_frame (fcs_of PPP_INITFCS bs) nb m w = (nb', w') /\ chain nb' = Some (x ++ stuff m (fcs_field bs) ++ [PPP_FLAG]) /\ plenty w' /\ same_env w w'.
Proof.
  intros Hn Hw. unfold end_frame, fcs_field. cbv zeta. set (f := fcs_of PPP_INITFCS bs).
  destruct (append_ok (Z.land (Z.lnot f) 0xff) nb (Some m) w x Hn Hw) as (nb1 & w1 & -> & Hn1 & Hw1 & Hs1).
  destruct (append_ok (Z.land (Z.shiftr (Z.lnot f) 8) 0xff) nb1 (Some m) w1 _ Hn1 Hw1) as (nb2 & w2 & -> & Hn2 & Hw2 & Hs2).
  destruct (append_ok PPP_FLAG nb2 None w2 _ Hn2 Hw2) as (nb3 & w3 & E & Hn3 & Hw3 & Hs3). exists nb3, w3. rewrite E, Hn3. split; [done|].
  unfold stuff. cbn [fmap list_fmap concat]. rewrite app_nil_r, <- !app_assoc. split; [done|]. split; [done|]. unfold same_env in *. congruence.
Qed.

Definition write_all (w : penv) (x : list Z) : penv := MkEnv (jiffies w) (pool w) (sio w) (cbs w) (wire w ++ x) (handed w).

Lemma nPut_ok p w bs : sio w = [] -> nPut p w bs = (p, write_all w (concat bs)).
Proof.
  revert w. induction bs as [|b bs IH]; intros w Hs; cbn [nPut].
  - destruct w. unfold write_all. cbn. by rewrite app_nil_r.
  - unfold sio_write. rewrite Hs. cbn [head default tail]. rewrite Z.eqb_refl, Nat2Z.id, take_ge, IH by done. unfold write_all. cbn. rewrite Hs, <- app_assoc. done.
Qed.

(** The bytes of a frame; a flag comes first if the line was idle. *)
Definition frame (o : list Z) (bs : list Z) : list Z := stuff o (bs ++ fcs_field bs) ++ [PPP_FLAG].

Lemma send_frame_ok idle p w bs : plenty w -> sio w = [] ->
  exists w', send_frame idle p w bs = (true, set_xmit p (jiffies w), w') /\ plenty w' /\ sio w' = [] /\ handed w' = handed w /\
    wire w' = wire w ++ (if idle <=? u32 (jiffies w - lastXMit p) then [PPP_FLAG] else []) ++ frame (outACCM p) bs.
Proof.
  intros Hw Hs. unfold send_frame, start_frame. set (fl := if idle <=? _ then [PPP_FLAG] else []).
  assert (exists nb w1, (if idle <=? u32 (jiffies w - lastXMit p) then pppAppend PPP_FLAG (Some ([], [])) None w else (Some ([], []), w)) = (nb, w1) /\
    chain nb = Some fl /\ plenty w1 /\ same_env w w1) as (nb & w1 & -> & Hn & Hw1 & Hs1).
  { subst fl. destruct (idle <=? _); [|by eexists _, _]. by apply (append_ok PPP_FLAG (Some ([], [])) None w []). }
  cbn [outACCM set_xmit]. destruct (load_ok (outACCM p) bs PPP_INITFCS nb w1 fl Hn Hw1) as (nb2 & w2 & -> & Hn2 & Hw2 & Hs2).
  destruct (finish_ok (outACCM p) bs nb2 w2 _ Hn2 Hw2) as (nb3 & w3 & -> & Hn3 & Hw3 & Hs3). destruct nb3 as [[l b]|]; [|done]. injection Hn3 as Hn3.
  unfold same_env in *. injection Hs1 as J1 S1 C1 W1 H1. injection Hs2 as J2 S2 C2 W2 H2. injection Hs3 as J3 S3 C3 W3 H3.
  rewrite nPut_ok by congruence. exists (write_all w3 (concat (l ++ [b]))). rewrite J1. split; [done|]. split; [done|]. split; [cbn; congruence|]. split; [cbn; congruence|].
  cbn [wire write_all]. rewrite concat_app. cbn [concat]. rewrite app_nil_r, Hn3, W3, W2, W1. unfold frame. rewrite stuff_app, <- !app_assoc. done.
Qed.
End Send.

(** ** From one end of the link to the other *)

(** What the header compression promises: the two ends stay in step, and what the one
    compresses the other restores from the buffers a frame arrives in.  [good]: the packets it
    is for. *)
Class Lossless (V : Type) `{!Compression V} (R : V -> V -> Prop) (good : list Z -> Prop) : Prop :=
  lossless : forall s r pb, R s r -> good (concat pb) -> exists t pb' s', c_compress s pb = (t, pb', s') /\ Forall is_byte (concat pb') /\
    (t = TYPE_IP /\ concat pb' = concat pb /\ R s' r \/
     t = TYPE_COMPRESSED_TCP /\ (forall b l, concat (b :: l) = concat pb' -> fits b l -> exists q' r', c_expand r (b :: l) = (Some q', r') /\ concat q' = concat pb /\ R s' r') \/
     t = TYPE_UNCOMPRESSED_TCP /\ (forall b l, concat (b :: l) = concat pb' -> fits b l -> exists q' r', c_store r (b :: l) = (Some q', r') /\ concat q' = concat pb /\ R s' r')).

Section Link.
Context {V : Type} `{!Compression V} (R : V -> V -> Prop) (good : list Z -> Prop) `{!Lossless V R good}.
Context (idle phase pd : Z) (enabled : Z -> bool) (line : list Z -> list Z).

(** The packets handed over, one after the other. *)
Fixpoint pass (r : ppp V) (w : penv) (nbs : list (list (list Z))) : outcome (list upcall * ppp V * penv) :=
  match nbs with
  | [] => Ok ([], r, w)
  | nb :: nbs => '(u, r, w) ← pppInput enabled phase r w nb; '(us, r, w) ← pass r w nbs; Ok (u :: us, r, w)
  end.

(** The sender sends a packet; [line] makes of its bytes what the receiver gets; the receiver
    processes it; then the next. *)
Fixpoint ppp_link (s : ppp V) (w1 : penv) (r : ppp V) (w2 : penv) (pbs : list (list (list Z))) : outcome (list upcall) :=
  match pbs with
  | [] => Ok []
  | pb :: pbs =>
      let '(_, s', w1') := pppifOutput idle phase s w1 pb in
      '(r1, w2') ← pppInProc pd r w2 (line (drop (length (wire w1)) (wire w1')));
      '(us, r', w2'') ← pass r1 w2' (drop (length (handed w2)) (handed w2'));
      rest ← ppp_link s' w1' r' w2'' pbs;
      Ok (us ++ rest)
  end.

(** The two ends between packets. *)
Record linked (s r : ppp V) : Prop := {
  li_open : openFlag s = true; li_accm : accm_ok (inACCM r) (outACCM s); li_ready : ready r; li_vj : R (vjComp s) (vjComp r) }.

Lemma inserted_skipped p w bs : pppInProc pd p w (line_clean (inACCM p) bs) = pppInProc pd p w bs.
Proof.
  assert (forall p w c p' w', in_char pd p w c = Ok (p', w') -> inACCM p' = inACCM p) as Hk.
  { clear. intros p w c p' w' E. unfold in_char in E. destruct (ESCAPE_P _ _).
    - destruct (_ =? _); [by injection E as <- <-|]. destruct (_ =? _); [|by injection E as <- <-]. unfold in_flag in E. apply bind_Ok_inv in E as ([q w1] & E1 & E).
      injection E as <- <-. cbn. destruct (inState p); try (injection E1 as <- <-; done). destruct (negb _); [by injection E1 as <- <-|].
      destruct (inBufs p) as [[? ?]|]; [|done]. by injection E1 as <- <-.
    - unfold in_plain in E. destruct (inState p); try (injection E as <- <-; try done; by destruct (_ =? _)).
      apply bind_Ok_inv in E as ([b w1] & _ & E). injection E as <- <-. by destruct b. }
  revert p w. induction bs as [|c bs IH]; intros p w; [done|]. unfold line_clean in *. cbn [List.filter]. destruct (inserted (inACCM p) c) eqn:Ei; cbn [negb].
  - cbn [pppInProc]. rewrite (in_inserted pd p w c Ei). cbn [mbind outcome_bind]. apply IH.
  - cbn [pppInProc]. destruct (in_char pd p w c) as [[p' w']| | |] eqn:E; try done. cbn [mbind outcome_bind]. rewrite <- (Hk _ _ _ _ _ E). apply IH.
Qed.

(** A flag between frames changes nothing. *)
Lemma extra_flag p w bs : ready p -> ESCAPE_P (inACCM p) PPP_FLAG = true -> pppInProc pd p w (PPP_FLAG :: bs) = pppInProc pd p w bs.
Proof.
  intros (Hs & He & Hf & Hb) Ha. cbn [pppInProc]. unfold in_char. rewrite Ha. change (PPP_FLAG =? PPP_ESCAPE) with false. rewrite Z.eqb_refl. unfold in_flag. rewrite Hs.
  cbn [mbind outcome_bind]. f_equal. rewrite <- Hs, <- He, <- Hf. symmetry. apply ppp_eta.
Qed.

(** The header pppifOutput writes for the three protocols. *)
Lemma ppp_hdr_fields (p : ppp V) proto : proto = PPP_IP \/ proto = PPP_VJC_COMP \/ proto = PPP_VJC_UNCOMP ->
  hdr_field (ppp_hdr p proto) proto /\ Forall is_byte (ppp_hdr p proto) /\ is_fcs proto.
Proof.
  intros H. unfold ppp_hdr. split; [|split; [|destruct H as [->|[->| ->]]; done]].
  - assert (0xff <? proto = false /\ Z.odd proto = true /\ proto <> PPP_ALLSTATIONS /\ proto <> PPP_UI /\ Z.land proto 0xff = proto /\ Z.land (Z.shiftr proto 8) 0xff = 0)
      as (-> & Hodd & H1 & H2 & -> & ->) by (destruct H as [->|[->| ->]]; done).
    rewrite orb_false_r. exists (if pcomp p then [proto] else [0; proto]). split.
    + destruct (pcomp p); [left; by exists proto|right; by exists 0, proto].
    + destruct (accomp p), (pcomp p); cbn; [by right|by right|by left|by left].
  - destruct (accomp p), (pcomp p); destruct H as [->|[->| ->]]; cbn; repeat (apply Forall_cons_2; [done|]); apply Forall_nil_2.
Qed.

(** One packet. *)
Lemma link_packet s w1 r w2 pb : linked s r -> good (concat pb) -> Forall is_byte (concat pb) -> PHASE_AUTHENTICATE < phase ->
  plenty w1 -> sio w1 = [] -> plenty w2 -> cbs w2 = [] ->
  (forall bs, line_clean (inACCM r) (line bs) = line_clean (inACCM r) bs) ->
  exists e s' w1' r1 w2' nb q r', pppifOutput idle phase s w1 pb = (e, s', w1') /\
    pppInProc pd r w2 (line (drop (length (wire w1)) (wire w1'))) = Ok (r1, w2') /\ handed w2' = handed w2 ++ [nb] /\
    pppInput enabled phase r1 w2' nb = Ok (ToIp q, r', w2') /\ concat q = concat pb /\ linked s' r' /\ inACCM r' = inACCM r /\
    plenty w1' /\ sio w1' = [] /\ plenty w2' /\ cbs w2' = [].
Proof.
  intros [Ho Ha Hr HR] Hg Hby Hph Hw1 Hs1 Hw2 Hc2 Hline. unfold pppifOutput. rewrite Ho. cbn [negb]. rewrite (proj2 (Z.eqb_neq phase PHASE_DEAD)) by (unfold PHASE_DEAD, PHASE_AUTHENTICATE in *; lia).
  destruct (take_plenty w1 Hw1) as (w1a & -> & Hw1a & Hsa). cbn [negb].
  assert (exists t pb' s1, (if vjEnabled s then let '(t, pb, v) := c_compress (vjComp s) pb in (t, pb, set_vj s v) else (TYPE_IP, pb, s)) = (t, pb', s1) /\
    openFlag s1 = true /\ outACCM s1 = outACCM s /\ Forall is_byte (concat pb') /\
    (t = TYPE_IP /\ concat pb' = concat pb /\ R (vjComp s1) (vjComp r) \/
     t = TYPE_COMPRESSED_TCP /\ (forall b l, concat (b :: l) = concat pb' -> fits b l -> exists q' r', c_expand (vjComp r) (b :: l) = (Some q', r') /\ concat q' = concat pb /\ R (vjComp s1) r') \/
     t = TYPE_UNCOMPRESSED_TCP /\ (forall b l, concat (b :: l) = concat pb' -> fits b l -> exists q' r', c_store (vjComp r) (b :: l) = (Some q', r') /\ concat q' = concat pb /\ R (vjComp s1) r')))
    as (t & pb' & s1 & -> & Ho1 & Ha1 & Hb1 & Hcase).
  { destruct (vjEnabled s); [|exists TYPE_IP, pb, s; split_and!; try done; by left]. destruct (lossless (vjComp s) (vjComp r) pb HR Hg) as (t & pb' & v & -> & Hb & Hcase).
    by exists t, pb', (set_vj s v). }
  assert (exists proto, (if t =? TYPE_IP then Some PPP_IP else if t =? TYPE_COMPRESSED_TCP then Some PPP_VJC_COMP else if t =? TYPE_UNCOMPRESSED_TCP then Some PPP_VJC_UNCOMP else None) = Some proto /\
    (proto = PPP_IP /\ t = TYPE_IP \/ proto = PPP_VJC_COMP /\ t = TYPE_COMPRESSED_TCP \/ proto = PPP_VJC_UNCOMP /\ t = TYPE_UNCOMPRESSED_TCP)) as (proto & -> & Hproto).
  { destruct Hcase as [(-> & _)|[(-> & _)|(-> & _)]]; eexists; (split; [reflexivity|]); auto. }
  destruct (ppp_hdr_fields s1 proto ltac:(destruct Hproto as [[-> _]|[[-> _]|[-> _]]]; auto)) as (Hf & Hfb & Hpf).
  unfold same_env in Hsa. injection Hsa as Ja Sa Ca Wa Ha'.
  destruct (send_frame_ok idle s1 w1a (ppp_hdr s1 proto ++ concat pb') Hw1a ltac:(congruence)) as (w1' & E1 & Hw1' & Hs1' & _ & Hwire).
  rewrite E1. set (bs := ppp_hdr s1 proto ++ concat pb') in *.
  destruct (receive_frame pd r w2 (outACCM s) (ppp_hdr s1 proto) proto (concat pb') Hr Ha Hfb Hb1 Hf Hw2 ltac:(by rewrite Hc2)) as (nb & w2' & E2 & Hh & Hpk & Hw2' & Henv).
  injection Henv as _ _ Hcb _. rewrite Hc2 in Hcb. exists ERR_OK, (set_xmit s1 (jiffies w1a)), w1', (set_in r None PDADDRESS false proto PPP_INITFCS), w2', nb. assert (inACCM r = inACCM (set_in r None PDADDRESS false proto PPP_INITFCS)) as Hacc by done.
  destruct (input_packet enabled phase (set_in r None PDADDRESS false proto PPP_INITFCS) w2' pd proto (concat pb') nb Hpk Hpf Hph) as (b & l & Eq & Hfit & Ein). set (q := b :: l) in *.
  assert (pppInProc pd r w2 (line (drop (length (wire w1)) (wire w1'))) = Ok (set_in r None PDADDRESS false proto PPP_INITFCS, w2')) as Erec.
  { rewrite Hwire, Wa, drop_app_length. rewrite <- inserted_skipped, Hline, inserted_skipped, Ha1. unfold frame, bs. rewrite <- app_assoc. destruct (idle <=? _); [|exact E2].
    cbn [app]. rewrite extra_flag; [exact E2|done|by apply Ha]. }
  assert (forall v, R (vjComp s1) v -> linked (set_xmit s1 (jiffies w1a)) (set_vj (set_in r None PDADDRESS false proto PPP_INITFCS) v)) as Hlink.
  { intros v Hv. split; cbn; [done|by rewrite Ha1|done|done]. }
  destruct Hproto as [(-> & ->)|[(-> & ->)|(-> & ->)]]; destruct Hcase as [(Et & Hd & Hv)|[(Et & Hd)|(Et & Hd)]]; try done.
  - exists q, (set_vj (set_in r None PDADDRESS false PPP_IP PPP_INITFCS) (vjComp r)). split; [reflexivity|]. split; [exact Erec|]. split; [done|]. split; [exact Ein|].
    split; [congruence|]. split; [by apply Hlink|]. done.
  - destruct (Hd b l Eq Hfit) as (q' & v' & Ex & Ec & Hv). fold q in Ex. eexists q', _. split; [reflexivity|]. split; [exact Erec|]. split; [done|].
    split; [rewrite Ein; change (PPP_VJC_COMP =? PPP_VJC_COMP) with true; cbv iota; cbn [vjComp set_in]; rewrite Ex; reflexivity|]. split; [done|]. split; [by apply Hlink|]. done.
  - destruct (Hd b l Eq Hfit) as (q' & v' & Ex & Ec & Hv). fold q in Ex. eexists q', _. split; [reflexivity|]. split; [exact Erec|]. split; [done|].
    split; [rewrite Ein; change (PPP_VJC_UNCOMP =? PPP_VJC_COMP) with false; change (PPP_VJC_UNCOMP =? PPP_VJC_UNCOMP) with true; cbv iota; cbn [vjComp set_in]; rewrite Ex; reflexivity|].
    split; [done|]. split; [by apply Hlink|]. done.
Qed.

Definition ip_bytes (u : upcall) : option (list Z) := match u with ToIp q => Some (concat q) | _ => None end.

(** C6: PPP carries IP packets.  Between two ends whose character maps fit, with address,
    protocol and header compression on or off, packets of any length given to pppifOutput
    come out of pppInput of the other end for IP, byte for byte and in order, when the link
    is past authentication, there are buffers and the device takes what is written.  The packets
    are ones that the compressor in use restores: for the one of vj.c, those of its TCP
    segments that are compressed have well-formed headers with a correct IP checksum, no urgent
    data and reserved bits 0.  Control characters that the line inserts do no harm if they are
    among those the receiver's map names; others may not be inserted. *)
Theorem ppp_link_lossless s w1 r w2 pbs : linked s r -> Forall (fun pb => good (concat pb) /\ Forall is_byte (concat pb)) pbs -> PHASE_AUTHENTICATE < phase ->
  plenty w1 -> sio w1 = [] -> plenty w2 -> cbs w2 = [] ->
  (forall bs, line_clean (inACCM r) (line bs) = line_clean (inACCM r) bs) ->
  exists us, ppp_link s w1 r w2 pbs = Ok us /\ ip_bytes <$> us = (fun pb => Some (concat pb)) <$> pbs.
Proof.
  intros Hli Hps Hph. revert s w1 r w2 Hli. induction Hps as [|pb pbs (Hg & Hb) _ IH]; intros s w1 r w2 Hli Hw1 Hs1 Hw2 Hc2 Hline; [by exists []|].
  destruct (link_packet s w1 r w2 pb Hli Hg Hb Hph Hw1 Hs1 Hw2 Hc2 Hline) as (e & s' & w1' & r1 & w2' & nb & q & r' & E1 & E2 & Hh & E3 & Eq & Hli' & Ha & Hw1' & Hs1' & Hw2' & Hc2').
  destruct (IH s' w1' r' w2' Hli' Hw1' Hs1' Hw2' Hc2') as (us & E4 & Eus); [by rewrite Ha|]. exists (ToIp q :: us). cbn [ppp_link]. rewrite E1, E2. cbn [mbind outcome_bind].
  rewrite Hh, drop_app_length. cbn [pass]. rewrite E3. cbn [mbind outcome_bind]. rewrite E4. cbn [mbind outcome_bind app]. split; [done|]. cbn. by rewrite Eus, Eq.
Qed.
End Link.

Lemma ppp_fcs_rfc1662_witness : PPP_FCS 0xffff 0x41 = rfc1662_fcs 0xffff 0x41.
Proof. apply (ppp_fcs_rfc1662 0xffff 0x41); split; lia. Defined.

(** ** Character maps as LCP negotiates them *)

Definition open_accm : list Z := replicate 15 0 ++ [0x60] ++ replicate 16 0.

Lemma escape_bit x j : 0 <= j < 8 -> negb (Z.land x (nth (Z.to_nat j) pppACCMMask 0) =? 0) = Z.testbit x j.
Proof.
  intros Hj. assert (nth (Z.to_nat j) pppACCMMask 0 = 2 ^ j) as ->.
  { assert (forallb (fun j => nth (Z.to_nat j) pppACCMMask 0 =? 2 ^ j) (zrange 8 0) = true) as H by reflexivity. apply Z.eqb_eq, (all_range 8 _ _ H), Hj. }
  destruct (Z.eqb_spec (Z.land x (2 ^ j)) 0) as [E|E]; cbn [negb].
  - symmetry. apply (f_equal (fun z => Z.testbit z j)) in E. by rewrite Z.land_spec, Z.pow2_bits_true, andb_true_r, Z.bits_0 in E by lia.
  - destruct (Z.testbit x j) eqn:Ej; [done|]. destruct E. apply Z.bits_inj'. intros i Hi. rewrite Z.land_spec, Z.bits_0, Z.pow2_bits_eqb by lia.
    destruct (Z.eqb_spec j i) as [<-|]; [by rewrite Ej|by rewrite andb_false_r].
Qed.

Lemma escape_low accm m c : 0 <= c < 32 -> ESCAPE_P (load_accm accm m) c = Z.testbit m c.
Proof.
  intros Hc. unfold ESCAPE_P. change 7 with (Z.ones 3). rewrite Z.land_ones, Z.shiftr_div_pow2 by lia. change (2 ^ 3) with 8.
  pose proof (Z.mod_pos_bound c 8 ltac:(lia)) as Hm. pose proof (Z.div_mod c 8 ltac:(lia)) as E. rewrite escape_bit by done. set (j := c mod 8) in *. set (i := c / 8) in *.
  assert (forall k, 0 <= k -> Z.testbit (u8 (Z.shiftr m k)) j = Z.testbit m (j + k)) as Hk.
  { intros k H0. unfold u8. rewrite Z.mod_pow2_bits_low, Z.shiftr_spec by lia. done. }
  assert (0 <= i) as Hi0 by (apply Z.div_pos; lia). transitivity (Z.testbit (u8 (Z.shiftr m (8 * i))) j); [|rewrite Hk by lia; f_equal; lia].
  assert (i = 0 \/ i = 1 \/ i = 2 \/ i = 3) as [ -> | [ -> | [ -> | -> ]]] by lia; reflexivity.
Qed.

Lemma escape_high accm m c : (4 <= length accm)%nat -> 32 <= c -> ESCAPE_P (load_accm accm m) c = ESCAPE_P accm c.
Proof.
  intros Hl Hc. unfold ESCAPE_P. rewrite Z.shiftr_div_pow2 by lia. change (2 ^ 3) with 8. assert (4 <= c / 8) as H4 by (apply Z.div_le_lower_bound; lia).
  do 3 f_equal. unfold load_accm. destruct accm as [|a0 [|a1 [|a2 [|a3 accm]]]]; cbn [length] in Hl; try lia.
  destruct (Z.to_nat (c / 8)) as [|[|[|[|k]]]] eqn:Ek; try lia. done.
Qed.

(** If the sender escapes what the receiver asked for, the maps fit. *)
Lemma accm_negotiated m m' : (forall c, 0 <= c < 32 -> Z.testbit m' c = true -> Z.testbit m c = true) ->
  accm_ok (load_accm open_accm m') (load_accm open_accm m).
Proof.
  intros Hsub. assert (forall c, is_byte c -> 32 <= c -> ESCAPE_P open_accm c = true -> c = PPP_ESCAPE \/ c = PPP_FLAG) as Hopen.
  { intros c Hc H32 E. assert (forallb (fun c => implb (ESCAPE_P open_accm c) ((c =? PPP_ESCAPE) || (c =? PPP_FLAG))) (zrange 256 0) = true) as H by (vm_compute; reflexivity).
    apply (all_range 256 _ c) in H; [|exact Hc]. cbv beta in H. rewrite E in H. cbn [implb] in H. by apply orb_true_iff in H as [H%Z.eqb_eq|H%Z.eqb_eq]; [left|right]. }
  split.
  - rewrite escape_high; [done|cbn; lia|done].
  - rewrite escape_high; [done|cbn; lia|done].
  - intros c Hc E. destruct (Z.ltb_spec c 32) as [H|H].
    + assert (0 <= c < 32) as Hc' by (unfold is_byte in Hc; lia). rewrite escape_low in E |- * by exact Hc'. by apply Hsub.
    + rewrite escape_high in E |- * by (exact H || (cbn; lia)). exact E.
  - intros c Hc E. destruct (Z.ltb_spec c 32) as [H|H].
    + assert (c = c mod 2 ^ 5) as -> by (symmetry; apply Z.mod_small; unfold is_byte in Hc; lia).
      assert (forallb (fun c => (32 <=? Z.lxor c PPP_TRANS) && negb (ESCAPE_P open_accm (Z.lxor c PPP_TRANS))) (zrange 32 0) = true) as H0 by (vm_compute; reflexivity).
      apply (all_range 32 _ (c mod 2 ^ 5)) in H0; [|apply Z.mod_pos_bound; lia]. apply andb_true_iff in H0 as [H1%Z.leb_le H2%negb_true_iff]. rewrite escape_high; [done|cbn; lia|done].
    + rewrite escape_high in E by (exact H || (cbn; lia)). destruct (Hopen c Hc H E) as [ -> | -> ]; (rewrite escape_high; [done|cbn; lia|done]).
Qed.

(** The ends of a link after pppOpen, once the options are agreed on and a flag has come. *)
Lemma configured_linked {V} `{!Compression V} (R : V -> V -> Prop) (p q : ppp V) v v' m m' mru pc ac pd w :
  (forall c, 0 <= c < 32 -> Z.testbit m' c = true -> Z.testbit m c = true) -> R v v' ->
  exists r, pppInProc pd (ppp_recv_config (pppOpen q v') m') w [PPP_FLAG] = Ok (r, w) /\ linked R (ppp_send_config (pppOpen p v) mru m pc ac) r.
Proof.
  intros Hsub HR. pose proof (accm_negotiated m m' Hsub) as Ha. eexists. split.
  - cbn [pppInProc]. unfold in_char. change (inACCM (ppp_recv_config (pppOpen q v') m')) with (load_accm open_accm m'). rewrite (ac_flag _ _ Ha). reflexivity.
  - split; [done|exact Ha|done|exact HR].
Qed.
