(* ===== verification/PppVj.v ===== *)
(** * The header compression on a PPP link

    [Vj] has headers as records; here they are the bytes of packets, and [Vj] becomes the
    compression that [Ppp] asks for. *)

From S2P Require Import Prelude Inet Vj Ppp PppFrame.

(** ** Headers as bytes *)

Definition be16 (x : Z) : list Z := [x / 256 mod 256; x mod 256].
Definition be32 (x : Z) : list Z := be16 (x / 65536) ++ be16 x.
Definition rd16 (a b : Z) : Z := 256 * a + b.
Definition rd32 (a b c d : Z) : Z := 65536 * rd16 a b + rd16 c d.

(** The structures ip and tcphdr of vjbsdhdr.h in network order, and their options. *)
Definition ip_image (i : iphdr) : list Z :=
  [16 * ip_v i + ip_hl i; ip_tos i] ++ be16 (ip_len i) ++ be16 (ip_id i) ++ be16 (ip_off i) ++ [ip_ttl i; ip_p i] ++ be16 (ip_sum i) ++
  be32 (ip_src i) ++ be32 (ip_dst i) ++ concat (be32 <$> ip_opt i).
Definition tcp_image (t : tcphdr) : list Z :=
  be16 (th_sport t) ++ be16 (th_dport t) ++ be32 (th_seq t) ++ be32 (th_ack t) ++ [16 * th_off t + th_x2 t; th_flags t] ++ be16 (th_win t) ++
  be16 (th_sum t) ++ be16 (th_urp t) ++ concat (be32 <$> th_opt t).
Definition hdr_image (h : hdr) : list Z := ip_image (hip h) ++ tcp_image (hth h).

Fixpoint words (n : nat) (bs : list Z) : option (list Z * list Z) :=
  match n, bs with
  | O, _ => Some ([], bs)
  | S n, a :: b :: c :: d :: bs => '(l, r) ← words n bs; Some (rd32 a b c d :: l, r)
  | _, _ => None
  end.

Definition read_ip (bs : list Z) : option (iphdr * list Z) :=
  match bs with
  | vh :: tos :: l1 :: l2 :: i1 :: i2 :: o1 :: o2 :: ttl :: p :: c1 :: c2 :: s1 :: s2 :: s3 :: s4 :: d1 :: d2 :: d3 :: d4 :: bs =>
      '(opt, r) ← words (Z.to_nat (vh mod 16 - 5)) bs;
      Some (MkIp (vh / 16) (vh mod 16) tos (rd16 l1 l2) (rd16 i1 i2) (rd16 o1 o2) ttl p (rd16 c1 c2) (rd32 s1 s2 s3 s4) (rd32 d1 d2 d3 d4) opt, r)
  | _ => None
  end.

Definition read_tcp (bs : list Z) : option (tcphdr * list Z) :=
  match bs with
  | p1 :: p2 :: q1 :: q2 :: s1 :: s2 :: s3 :: s4 :: a1 :: a2 :: a3 :: a4 :: ox :: f :: w1 :: w2 :: c1 :: c2 :: u1 :: u2 :: bs =>
      '(opt, r) ← words (Z.to_nat (ox / 16 - 5)) bs;
      Some (MkTh (rd16 p1 p2) (rd16 q1 q2) (rd32 s1 s2 s3 s4) (rd32 a1 a2 a3 a4) (ox mod 16) (ox / 16) f (rd16 w1 w2) (rd16 c1 c2) (rd16 u1 u2) opt, r)
  | _ => None
  end.

Definition read_hdrs (bs : list Z) : option (hdr * list Z) :=
  '(i, r) ← read_ip bs; '(t, r) ← read_tcp r; Some (MkHdr i t, r).

Definition is16 (x : Z) : Prop := 0 <= x < 65536.
Definition is32 (x : Z) : Prop := 0 <= x < 2 ^ 32.

(** Every field is of its width. *)
Record hdr_wide (h : hdr) : Prop := {
  hw_v : 0 <= ip_v (hip h) < 16; hw_hl : ip_hl (hip h) = 5 + Z.of_nat (length (ip_opt (hip h))) /\ ip_hl (hip h) < 16;
  hw_bytes : is_byte (ip_tos (hip h)) /\ is_byte (ip_ttl (hip h)) /\ is_byte (ip_p (hip h)) /\ is_byte (th_flags (hth h));
  hw_ip : is16 (ip_len (hip h)) /\ is16 (ip_id (hip h)) /\ is16 (ip_off (hip h)) /\ is16 (ip_sum (hip h)) /\ is32 (ip_src (hip h)) /\ is32 (ip_dst (hip h));
  hw_tcp : is16 (th_sport (hth h)) /\ is16 (th_dport (hth h)) /\ is32 (th_seq (hth h)) /\ is32 (th_ack (hth h)) /\
    is16 (th_win (hth h)) /\ is16 (th_sum (hth h)) /\ is16 (th_urp (hth h));
  hw_off : th_off (hth h) = 5 + Z.of_nat (length (th_opt (hth h))) /\ th_off (hth h) < 16 /\ 0 <= th_x2 (hth h) < 16;
  hw_opts : Forall is32 (ip_opt (hip h)) /\ Forall is32 (th_opt (hth h)) }.

Lemma rd16_be x : is16 x -> rd16 (x / 256 mod 256) (x mod 256) = x.
Proof. unfold is16, rd16. intros H. rewrite (Z.mod_small (x / 256)) by (split; [apply Z.div_pos; lia|apply Z.div_lt_upper_bound; lia]). symmetry. apply Z.div_mod. lia. Qed.

Lemma rd32_be x : is32 x -> rd32 (x / 65536 / 256 mod 256) (x / 65536 mod 256) (x / 256 mod 256) (x mod 256) = x.
Proof.
  unfold is32, rd32. intros H. rewrite rd16_be by (split; [apply Z.div_pos; lia|apply Z.div_lt_upper_bound; lia]).
  assert (rd16 (x / 256 mod 256) (x mod 256) = x mod 65536) as ->; [|symmetry; apply Z.div_mod; lia]. unfold rd16.
  change 65536 with (256 * 256). rewrite Z.rem_mul_r by lia. lia.
Qed.

Lemma be16_bytes x : Forall is_byte (be16 x).
Proof. repeat constructor; apply Z.mod_pos_bound; lia. Qed.
Lemma be32_bytes x : Forall is_byte (be32 x).
Proof. apply Forall_app. split; apply be16_bytes. Qed.

Lemma words_be ws r : Forall is32 ws -> words (length ws) (concat (be32 <$> ws) ++ r) = Some (ws, r).
Proof.
  induction 1 as [|x ws Hx _ IH]; [done|]. cbn [length fmap list_fmap concat]. rewrite <- app_assoc. unfold be32 at 1, be16. cbn [app words]. rewrite IH. cbn.
  by rewrite rd32_be.
Qed.

Lemma read_hdrs_bytes h d : hdr_wide h -> read_hdrs (hdr_image h ++ d) = Some (h, d).
Proof.
  destruct h as [i t]. intros [Hv [Hhl Hhl'] _ (I1 & I2 & I3 & I4 & I5 & I6) (T1 & T2 & T3 & T4 & T5 & T6 & T7) (Ho & Ho' & Hx) [Hoi Hot]]. cbn [hip hth] in *.
  unfold read_hdrs, hdr_image. cbn [hip hth]. rewrite <- app_assoc. unfold ip_image at 1, be32 at 1 2, be16. rewrite <- !app_assoc. cbn [app read_ip].
  assert ((16 * ip_v i + ip_hl i) mod 16 = ip_hl i /\ (16 * ip_v i + ip_hl i) / 16 = ip_v i) as [-> ->].
  { rewrite Z.mul_comm, Z.add_comm, Z.mod_add, Z.div_add, Z.mod_small, Z.div_small by lia. lia. }
  replace (Z.to_nat (ip_hl i - 5)) with (length (ip_opt i)) by lia. rewrite words_be by done. cbn [mbind option_bind].
  unfold tcp_image, be32 at 1 2, be16. rewrite <- !app_assoc. cbn [app read_tcp].
  assert ((16 * th_off t + th_x2 t) mod 16 = th_x2 t /\ (16 * th_off t + th_x2 t) / 16 = th_off t) as [-> ->].
  { rewrite (Z.mul_comm 16), Z.add_comm, Z.mod_add, Z.div_add, Z.mod_small, Z.div_small by lia. lia. }
  replace (Z.to_nat (th_off t - 5)) with (length (th_opt t)) by lia. rewrite words_be by done. cbn [mbind option_bind].
  rewrite !rd16_be, !rd32_be by done. by destruct i, t.
Qed.

(** ** The compression of the link *)

(** A TCP packet whose headers are cut off is not sent; memory behind a buffer is not read. *)
#[export] Instance vj_compression : Compression vjcompress := {|
  c_compress v pb :=
    let bs := concat pb in
    if negb (nth 9 bs 0 =? IPPROTO_TCP) || (Z.of_nat (length bs) <? 40) then (Ppp.TYPE_IP, pb, v)
    else
      match read_hdrs bs with
      | None => (0, pb, v)
      | Some (h, d) =>
          match vj_compress_tcp v (MkPkt h d (Z.of_nat (length (hd [] pb)))) with
          | Ok (VIp _, v) => (Ppp.TYPE_IP, pb, v)
          | Ok (VUncompressed q, v) => (Ppp.TYPE_UNCOMPRESSED_TCP, [hdr_image (phdr q) ++ pdata q], v)
          | Ok (VCompressed f, v) => (Ppp.TYPE_COMPRESSED_TCP, [fbytes f; frest f], v)
          | _ => (0, pb, v)
          end
      end;
  c_expand v q :=
    match vj_uncompress_tcp v (MkFrame (hd [] q) [] (concat (tail q))) true with
    | Ok (_, o, v) => ((fun '(h, d) => [hdr_image h ++ d]) <$> o, v)
    | _ => (None, v)
    end;
  c_store v q :=
    match read_hdrs (concat q) with
    | None => (None, vj_uncompress_err v)
    | Some (h, d) =>
        match vj_uncompress_uncomp v (MkPkt h d (Z.of_nat (length (hd [] q)))) with
        | Ok (res, q, v) => (if res =? 0 then Some [hdr_image (phdr q) ++ pdata q] else None, v)
        | _ => (None, v)
        end
    end;
  c_error := vj_uncompress_err |}.

(** Packets of other protocols, and TCP segments whose headers the compression can carry. *)
Definition vj_good (bs : list Z) : Prop :=
  Forall is_byte bs /\ (nth 9 bs 0 <> IPPROTO_TCP \/ exists h d, bs = hdr_image h ++ d /\ hdr_wide h /\ forall pl, pkt_ok (MkPkt h d pl)).

Lemma length_hdr_image h : hdr_wide h -> Z.of_nat (length (hdr_image h)) = hdr_bytes h.
Proof.
  intros [_ [Hhl _] _ _ _ (Ho & _) _]. unfold hdr_image, ip_image, tcp_image, hdr_bytes.
  assert (forall ws, length (concat (be32 <$> ws)) = (4 * length ws)%nat) as Hw by (induction ws as [|x ws IH]; [done|]; cbn in *; lia).
  rewrite !length_app, !Hw, Z.shiftl_mul_pow2 by lia. cbn [length be16 be32 app]. change (2 ^ 2) with 4. lia.
Qed.

Lemma u8_byte x : is_byte (u8 x).
Proof. apply u8_range. Qed.

Lemma ENCODE_bytes n : Forall is_byte (ENCODE n) /\ Forall is_byte (ENCODEZ n).
Proof.
  unfold ENCODE, ENCODEZ, long_form. split; destruct (_ : bool); repeat (apply Forall_cons_2; [try apply u8_byte; done|]); apply Forall_nil_2.
Qed.

Lemma vj_encode_bytes h o cp ch : vj_encode h o = Some (cp, ch) -> Forall is_byte cp.
Proof.
  unfold vj_encode. destruct (negb _); [done|]. destruct (vj_changes h o) as [[[[cp0 ch0] ds] da]|] eqn:Ec; [|done].
  assert (Forall is_byte cp0) as H0.
  { unfold vj_changes in Ec. destruct (if negb _ then _ else _) as [[bu mu]|] eqn:Eu in Ec; [|done]. cbv zeta in Ec.
    assert (Forall is_byte bu) as Hu.
    { destruct (negb _) in Eu; [injection Eu as <- _; apply ENCODE_bytes|]. destruct (negb _) in Eu; [done|]. injection Eu as <- _. constructor. }
    destruct (_ <? _) in Ec; [by repeat case_match|].
    repeat (case_match; try done); simplify_eq; repeat (apply Forall_app; split); try done; try (repeat case_match; simplify_eq; try apply ENCODE_bytes; constructor). }
  destruct (vj_special h o cp0 ch0 ds da) as [[cp2 ch2]|] eqn:Es; [|done].
  assert (Forall is_byte cp2) as H2 by (unfold vj_special in Es; cbv zeta in Es; repeat case_match; simplify_eq; try done; constructor).
  cbv zeta. destruct (negb _); intros E; injection E as <- _; [|done]. apply Forall_app. split; [done|apply ENCODE_bytes].
Qed.

Lemma vj_compress_bytes c p f c' : vj_compress_tcp c p = Ok (VCompressed f, c') -> Forall is_byte (pdata p) -> Forall is_byte (fbytes f ++ frest f).
Proof.
  unfold vj_compress_tcp. intros E Hd. do 3 (destruct (_ : bool) in E; [done|]). apply bind_Ok_inv in E as ([[found cs] c1] & _ & E). destruct (_ <? _) in E; [done|].
  assert (forall o c2, vj_send_uncompressed c1 p cs = Ok (o, c2) -> o <> VCompressed f) as Hun.
  { intros o c2 Eo. unfold vj_send_uncompressed in Eo. apply bind_Ok_inv in Eo as (x & _ & Eo). by injection Eo as <- _. }
  destruct (negb found); [by apply Hun in E|]. apply bind_Ok_inv in E as (x & _ & E). destruct (vj_encode _ _) as [[cp ch]|] eqn:He; [|by apply Hun in E].
  unfold vj_send_compressed in E. apply bind_Ok_inv in E as (y & _ & E). apply vj_encode_bytes in He.
  destruct (if _ || _ then _ else _) as [bs c2] eqn:Eb in E. injection E as <- _. cbn [fbytes frest]. rewrite <- app_assoc, take_drop.
  assert (Forall is_byte bs) as Hbs by (destruct (_ || _) in Eb; injection Eb as <- _; repeat (apply Forall_cons_2; [apply u8_byte|]); apply Forall_nil_2).
  apply Forall_app. split; [|done]. apply Forall_app. split; [done|]. do 2 (apply Forall_cons_2; [apply u8_byte|]). done.
Qed.

Lemma wide_bytes h : hdr_wide h -> Forall is_byte (hdr_image h).
Proof.
  intros [Hv [Hhl0 Hhl] (B1 & B2 & B3 & B4) _ _ (Ho & Ho' & Hx) _]. assert (forall ws, Forall is_byte (concat (be32 <$> ws))) as Hw.
  { induction ws as [|x ws IH]; [constructor|]. apply Forall_app. split; [apply be32_bytes|done]. }
  unfold hdr_image, ip_image, tcp_image. repeat (apply Forall_app; split); try apply be16_bytes; try apply be32_bytes; try apply Hw;
    repeat (apply Forall_cons_2; [try done; unfold is_byte; lia|]); apply Forall_nil_2.
Qed.

Lemma wide_slot h cs : hdr_wide h -> 0 <= cs < MAX_SLOTS -> hdr_wide (set_ip_p h cs).
Proof. intros [A1 A2 (B1 & B2 & B3 & B4) A4 A5 A6 A7] Hcs. unfold MAX_SLOTS in Hcs. split; cbn; try done. split_and!; try done; unfold is_byte; lia. Qed.

Lemma image_slot h d : nth 9 (hdr_image h ++ d) 0 = ip_p (hip h).
Proof. done. Qed.

(** The compressor and decompressor of vj.c restore every packet from the buffers it arrives
    in: what [ppp_link_lossless] asks of a compression. *)
#[export] Instance vj_restores : Lossless vjcompress sync vj_good.
Proof.
  intros s r pb Hsy (Hb & Hg). cbn [c_compress vj_compression]. destruct (negb (nth 9 (concat pb) 0 =? IPPROTO_TCP) || (Z.of_nat (length (concat pb)) <? 40)) eqn:E0;
    [exists Ppp.TYPE_IP, pb, s; split_and!; try done; by left|].
  apply orb_false_iff in E0 as [E0%negb_false_iff%Z.eqb_eq _]. destruct Hg as [Hg|(h & d & Ed & Hw & Hp)]; [done|].
  rewrite Ed, read_hdrs_bytes by done. set (p := MkPkt h d (Z.of_nat (length (hd [] pb)))). assert (Forall is_byte d) as Hd by (rewrite Ed in Hb; by apply Forall_app in Hb as [_ Hd]).
  destruct (vj_compress_ok s r p Hsy (Hp _)) as (o & s' & Ec & Ho). rewrite Ec. destruct o as [q|q|f].
  - destruct Ho as [_ Hsy']. exists Ppp.TYPE_IP, pb, s'. rewrite <- Ed. split_and!; try done. by left.
  - destruct Ho as (cs & r' & -> & Hcs & Hsy' & Hcomp & _ & Hany). destruct (Hp _ Hcomp) as [_ Hok]. destruct (hdr_bytes_bounds _ _ Hok) as [[_ H120] _]. cbn [phdr pdata p] in *.
    pose proof (wide_slot h cs Hw Hcs) as Hw'. eexists _, _, s'. split; [reflexivity|]. cbn [concat]. rewrite app_nil_r. split; [apply Forall_app; split; [by apply wide_bytes|done]|].
    right. right. split; [done|]. intros b l E Hfit. cbn [c_store vj_compression concat hd]. rewrite E, read_hdrs_bytes by done. cbn [hd]. rewrite Hany.
    + eexists _, r'. split; [reflexivity|]. cbn [phdr pdata concat]. by rewrite app_nil_r.
    + pose proof (length_hdr_image _ Hw') as Hl. change (hdr_bytes (set_ip_p h cs)) with (hdr_bytes h) in Hl. destruct Hfit as [Hfit|Hfit]; [lia|].
      rewrite Hfit, app_nil_r in E. rewrite E, length_app. lia.
  - destruct Ho as (r' & m & Hsy' & Hbe & Hm & H19 & Hany). eexists _, _, s'. split; [reflexivity|]. cbn [concat]. rewrite app_nil_r.
    split; [by eapply vj_compress_bytes|]. right. left. split; [done|]. intros b l E Hfit. cbn [c_expand vj_compression hd tail]. destruct (Hany (MkFrame b [] (concat l))) as (n & En); [done|exact E| |].
    { cbn [fbytes]. destruct Hfit as [Hfit|Hfit]; [lia|]. rewrite Hfit, app_nil_r in E. rewrite E, length_app. lia. }
    rewrite En. eexists _, r'. split; [reflexivity|]. cbn. by rewrite app_nil_r.
Qed.

(** ** Configuration of the compression (ppp.c) *)

Definition set_slots (c : vjcompress) (slot maxslot : Z) : vjcompress :=
  MkVj (last_cs c) (last_recv c) (last_xmit c) (vflags c) maxslot slot (tstate c) (rstate c).

Definition sifvjcomp (p : ppp vjcompress) (vjcomp : bool) (cidcomp maxcid : Z) : ppp vjcompress :=
  let p := set_vj p (set_slots (vjComp p) (u8 cidcomp) (u8 maxcid)) in
  MkPpp (openFlag p) (if_up p) (errCode p) (inBufs p) (inState p) (inEscaped p) (inProtocol p) (inFCS p) (mtu p) (pcomp p) (accomp p)
    (lastXMit p) (inACCM p) (outACCM p) vjcomp (vjComp p) (our_ipaddr p) (his_ipaddr p) (netmask p) (dns1 p) (dns2 p).

(** The options of the compression are the sender's alone: the ends stay in step. *)
Lemma sifvjcomp_linked s r on cid maxcid : linked sync s r -> linked sync (sifvjcomp s on cid maxcid) r /\ linked sync s (sifvjcomp r on cid maxcid).
Proof. intros [Ho Ha Hr [H1 H2 H3 H4]]. split; (split; [done..|]); by split. Qed.

(** ** Examples *)

(** A unit after pppOpen. *)
Definition unit_open : ppp vjcompress :=
  pppOpen (MkPpp false false 0 None PDIDLE false 0 0 1500 false false 0 [] [] false (vj_compress_init zero_vj) 0 0 0 0 0) (vj_compress_init zero_vj).

Definition quiet : penv := MkEnv 0 [] [] [] [] [].

(** XON and XOFF are escaped; fields and headers are compressed. *)
Definition unit_send : ppp vjcompress := sifvjcomp (ppp_send_config unit_open 1500 0x000a0000 true true) true 1 15.
Definition unit_recv : ppp vjcompress :=
  set_in (ppp_recv_config unit_open 0x000a0000) None PDADDRESS false 0 PPP_INITFCS.

(** Two segments of a connection, and a packet of another protocol in two buffers. *)
Definition packets : list (list (list Z)) :=
  ((fun p => [hdr_image (phdr p) ++ pdata p]) <$> two_segments) ++ [[[0x45; 0; 0; 28; 0; 1; 0; 0; 64; 17; 0; 0; 192; 168; 1; 1; 192; 168; 1; 2]; [0x7d; 0x7e; 0x11; 0; 0; 8; 0; 0]]].

(** A line on which XOFF comes before every byte. *)
Definition xoff_line (bs : list Z) : list Z := concat ((fun c => [0x13; c]) <$> bs).

Lemma unit_linked : linked sync unit_send unit_recv.
Proof.
  apply sifvjcomp_linked. split; [done| |done|exact (init_sync 0)]. apply (accm_negotiated 0x000a0000 0x000a0000). done.
Qed.

Lemma segment_good id seq ack flags n : hdr_wide (phdr (segment id seq ack flags n)) -> (forall pl, pkt_ok (MkPkt (phdr (segment id seq ack flags n)) (pdata (segment id seq ack flags n)) pl)) ->
  vj_good (hdr_image (phdr (segment id seq ack flags n)) ++ pdata (segment id seq ack flags n)).
Proof.
  intros Hw Hp. split.
  - apply Forall_app. split; [by apply wide_bytes|]. apply Forall_forall. intros x Hx. apply list_elem_of_In, repeat_spec in Hx as ->. split; lia.
  - right. by eexists _, _.
Qed.

Lemma packets_good : Forall (fun pb => vj_good (concat pb) /\ Forall is_byte (concat pb)) packets.
Proof.
  assert (forall pb, vj_good (concat pb) -> vj_good (concat pb) /\ Forall is_byte (concat pb)) as Hboth by (intros pb [Hb Hg]; done).
  repeat (apply Forall_cons_2; [apply Hboth|]); [| | |apply Forall_nil_2].
  - apply (segment_good 7 1000 500 16 3); [|intros pl _]; split; repeat constructor; cbv; try congruence; try tauto.
  - apply (segment_good 8 1003 500 24 2); [|intros pl _]; split; repeat constructor; cbv; try congruence; try tauto.
  - split; [|left; done]. repeat (apply Forall_cons_2; [split; lia|]). apply Forall_nil_2.
Qed.

Lemma ppp_link_lossless_witness :
  exists us, ppp_link 100 PHASE_NETWORK 0 (fun _ => false) xoff_line unit_send quiet unit_recv quiet packets = Ok us /\
    ip_bytes <$> us = (fun pb => Some (concat pb)) <$> packets.
Proof.
  apply (ppp_link_lossless sync vj_good 100 PHASE_NETWORK 0 (fun _ => false) xoff_line unit_send quiet unit_recv quiet packets);
    [apply unit_linked|apply packets_good|done|constructor|done|constructor|done|].
  induction bs as [|c bs IH]; [done|]. unfold xoff_line, line_clean in *. cbn [fmap list_fmap concat app List.filter].
  change (inserted (inACCM unit_recv) 0x13) with true. cbn [negb]. destruct (negb _); by rewrite <- IH.
Defined.

(** A frame of IP whose last data byte and first check byte are changed. *)
Lemma ppp_damage_dropped_witness :
  let a := [0x21; 0x45; 0; 0] in let f := fcs_field (a ++ [0x14]) in
  exists p' w', pppInProc 0 unit_recv quiet (stuff (outACCM unit_send) (a ++ [0x15; Z.lxor (nth 0 f 0) 1] ++ [nth 1 f 0]) ++ [PPP_FLAG]) = Ok (p', w') /\
    ready p' /\ handed w' = handed quiet.
Proof.
  intros a f. apply (ppp_damage_dropped 0 (outACCM unit_send) unit_recv quiet a 0x14 (nth 0 f 0) 0x15 (Z.lxor (nth 0 f 0) 1) [nth 1 f 0]).
  - apply unit_linked.
  - by split_and!.
  - constructor.
  - repeat (apply Forall_cons_2; [vm_compute; split; congruence|]). apply Forall_nil_2.
  - split; lia.
  - vm_compute; split; congruence.
  - vm_compute; reflexivity.
  - vm_compute; congruence.
Defined.

(** ** Deviations *)

(** The shortest frame with a good check sequence is two zeros: they are taken for a
    protocol, and the flag finds no buffer to trim. *)
Lemma ppp_empty_frame_faults : pppInProc 0 unit_recv quiet [PPP_FLAG; 0; 0; PPP_FLAG] = Fault.
Proof. vm_compute. reflexivity. Qed.

(** A frame of one byte and its check sequence: trimming cuts into the header of the
    link, which pppInput then takes off. *)
Lemma ppp_short_frame_faults :
  ('(p, w) ← pppInProc 0 unit_recv quiet ([0x20] ++ fcs_field [0x20] ++ [PPP_FLAG]);
   match handed w with [nb] => '(u, _, _) ← pppInput (fun _ => false) PHASE_NETWORK p w nb; Ok (Some (u, length (concat nb))) | _ => Ok None end) = Fault /\
  ('(_, w) ← pppInProc 0 unit_recv quiet ([0x20] ++ fcs_field [0x20] ++ [PPP_FLAG]); Ok ((fun nb => length (concat nb)) <$> handed w)) = Ok [7%nat].
Proof. split; vm_compute; reflexivity. Qed.

(** When the third buffer of a packet is missing, the second one is released twice. *)
Lemma ppp_no_buffer_faults :
  pppInProc 0 unit_recv (MkEnv 0 [true; true; false] [] [] [] []) ([0x21] ++ replicate 249 0x41) = Fault /\
  (exists p w, pppInProc 0 unit_recv (MkEnv 0 [true; true] [] [] [] []) ([0x21] ++ replicate 249 0x41) = Ok (p, w) /\ length (concat (from_option fst [] (inBufs p))) = 256%nat).
Proof. split; [vm_compute; reflexivity|]. eexists _, _. split; vm_compute; reflexivity. Qed.

(** After a packet was dropped for want of a buffer, the rest of it is read as a new frame
    without waiting for a flag: a packet inside a packet comes out. *)
Lemma ppp_no_buffer_resumes :
  let inner := [0x21; 0x45] ++ fcs_field [0x21; 0x45] in
  ('(_, w) ← pppInProc 0 unit_recv (MkEnv 0 [false; true] [] [] [] []) ([0x21; 0x00] ++ inner ++ [PPP_FLAG]); Ok ((fun nb => drop 8 (concat nb)) <$> handed w)) = Ok [[0x45]].
Proof. vm_compute. reflexivity. Qed.
