(* ===== verification/Inflate.v ===== *)
(** * The decompressor (core/inflate.c, gunzip.c)

    The kernel unpacks modules and images in gzip format.  Decoding tables are objects of
    a small heap, the window and the bit buffer are fields of the state, and the bytes
    written to the destination are a list.  gzip_mark and gzip_release are empty, and
    messages are left out. *)

From S2P Require Import Prelude.

(** ** Tables *)

(** The union v: a value, or the next table. *)
Inductive hval := Vn (n : Z) | Vt (t : Z).
Record huft := Huft { he : Z; hb : Z; hv : hval }.

#[export] Instance hval_eq_dec : EqDecision hval.
Proof. solve_decision. Defined.
#[export] Instance huft_eq_dec : EqDecision huft.
Proof. solve_decision. Defined.

Definition border : list Z := [16; 17; 18; 0; 8; 7; 9; 6; 10; 5; 11; 4; 12; 3; 13; 2; 14; 1; 15].
Definition cplens : list Z :=
  [3; 4; 5; 6; 7; 8; 9; 10; 11; 13; 15; 17; 19; 23; 27; 31;
   35; 43; 51; 59; 67; 83; 99; 115; 131; 163; 195; 227; 258; 0; 0].
Definition cplext : list Z :=
  [0; 0; 0; 0; 0; 0; 0; 0; 1; 1; 1; 1; 2; 2; 2; 2;
   3; 3; 3; 3; 4; 4; 4; 4; 5; 5; 5; 5; 0; 99; 99].
Definition cpdist : list Z :=
  [1; 2; 3; 4; 5; 7; 9; 13; 17; 25; 33; 49; 65; 97; 129; 193;
   257; 385; 513; 769; 1025; 1537; 2049; 3073; 4097; 6145; 8193; 12289; 16385; 24577].
Definition cpdext : list Z :=
  [0; 0; 0; 0; 1; 1; 2; 2; 3; 3; 4; 4; 5; 5; 6; 6; 7; 7; 8; 8; 9; 9; 10; 10; 11; 11; 12; 12; 13; 13].
Definition mask_bits : list Z :=
  [0x0000; 0x0001; 0x0003; 0x0007; 0x000f; 0x001f; 0x003f; 0x007f; 0x00ff;
   0x01ff; 0x03ff; 0x07ff; 0x0fff; 0x1fff; 0x3fff; 0x7fff; 0xffff].
Definition lbits : Z := 9.
Definition dbits : Z := 6.
Definition BMAX : Z := 16.
Definition N_MAX : Z := 288.
Definition WSIZE : Z := 0x8000.

Definition at_ {A} (l : list A) (i : Z) : outcome A := if i <? 0 then Fault else from_opt (l !! Z.to_nat i).
Definition put {A} (l : list A) (i : Z) (x : A) : outcome (list A) :=
  if (0 <=? i) && (i <? Z.of_nat (length l)) then Ok (<[Z.to_nat i := x]> l) else Fault.

(** The tables in memory: the link in the entry before the table, and the table.  [answers]:
    whether the next requests for memory are granted; all later ones are. *)
Record hmem := MkHm { tabs : gmap Z (Z * list huft); nexttab : Z; answers : list bool; hufts : Z }.

Definition zero_huft : huft := Huft 0 0 (Vn 0).

(** malloc, which is kcalloc, of a table with [z] entries and the link. *)
Definition new_tab (m : hmem) (z : Z) : option Z * hmem :=
  if default true (head (answers m)) then
    (Some (nexttab m), MkHm (<[nexttab m := (NULL, replicate (Z.to_nat z) zero_huft)]> (tabs m)) (nexttab m + 1) (tail (answers m)) (u32 (hufts m + z + 1)))
  else (None, MkHm (tabs m) (nexttab m) (tail (answers m)) (hufts m)).

Definition set_tabs (m : hmem) (t : gmap Z (Z * list huft)) : hmem := MkHm t (nexttab m) (answers m) (hufts m).

(** [link] is the address t of the link to set: the caller's variable or the link of a table. *)
Definition set_link (m : hmem) (link : option Z) (q : Z) (root : Z) : outcome (hmem * Z) :=
  match link with
  | None => Ok (m, q)
  | Some t => '(_, es) ← from_opt (tabs m !! t); Ok (set_tabs m (<[t := (q, es)]> (tabs m)), root)
  end.

Definition set_entry (m : hmem) (t i : Z) (r : huft) : outcome hmem :=
  '(k, es) ← from_opt (tabs m !! t); es ← put es i r; Ok (set_tabs m (<[t := (k, es)]> (tabs m))).

Fixpoint huft_free_loop (fuel : nat) (m : hmem) (p : Z) : outcome hmem :=
  match fuel with
  | O => OutOfFuel
  | S fuel => if p =? NULL then Ok m else '(q, _) ← from_opt (tabs m !! p); huft_free_loop fuel (set_tabs m (delete p (tabs m))) q
  end.
Definition huft_free (m : hmem) (t : Z) : outcome hmem := huft_free_loop (S (size (tabs m))) m t.

(** ** huft_build *)

(** How many codes have each length. *)
Fixpoint counts (c b : list Z) : outcome (list Z) :=
  match b with
  | [] => Ok c
  | p :: b => n ← at_ c p; c ← put c p (n + 1); counts c b
  end.

Fixpoint min_len (fuel : nat) (c : list Z) (j : Z) : Z :=
  match fuel with O => j | S fuel => if nth (Z.to_nat j) c 0 =? 0 then min_len fuel c (j + 1) else j end.
Fixpoint max_len (n : nat) (c : list Z) : Z :=
  match n with O => 0 | S n' => if nth n c 0 =? 0 then max_len n' c else Z.of_nat n end.

(** The patterns of [j] bits that are left; None: more codes than patterns. *)
Fixpoint spare (fuel : nat) (c : list Z) (y j i : Z) : option Z :=
  match fuel with
  | O => None
  | S fuel =>
      let y := y - nth (Z.to_nat j) c 0 in
      if y <? 0 then None else if j <? i then spare fuel c (2 * y) (j + 1) i else Some y
  end.

(** Where in the table of values the codes of each length start. *)
Fixpoint offsets (c x : list Z) (n : nat) (p xp j : Z) : outcome (list Z) :=
  match n with
  | O => Ok x
  | S n => let j := j + nth (Z.to_nat p) c 0 in x ← put x xp j; offsets c x n (p + 1) (xp + 1) j
  end.

(** The values in order of bit lengths. *)
Fixpoint values (b x v : list Z) (i : Z) : outcome (list Z * list Z) :=
  match b with
  | [] => Ok (x, v)
  | j :: b =>
      if j =? 0 then values b x v (i + 1)
      else o ← at_ x j; v ← put v o i; x ← put x j (o + 1); values b x v (i + 1)
  end.

(** The smallest table, of at most [z] bits, that the next codes fill. *)
Fixpoint widen (fuel : nat) (c : list Z) (f j xp z : Z) : Z :=
  match fuel with
  | O => j
  | S fuel =>
      let j := j + 1 in
      if j <? z then
        let f := 2 * f in let cx := nth (Z.to_nat (xp + 1)) c 0 in
        if f <=? cx then j else widen fuel c (f - cx) j (xp + 1) z
      else j
  end.
Definition table_bits (c : list Z) (k w a1 z : Z) : Z :=
  let j := k - w in let f := Z.shiftl 1 j in
  if a1 <? f then widen 17 c (f - a1) j k z else j.

(** The variables of the loop over the codes. *)
Record hst := MkHst { sm : hmem; si : Z; sh : Z; sw : Z; sz : Z; sq : Z; su : list Z; sx : list Z; sp : Z; slink : option Z; sroot : Z; sr : hval }.

(** A new table for the code; [inr]: there was no memory. *)
Definition new_level (c : list Z) (g l k a1 : Z) (st : hst) : outcome (hst + hmem) :=
  let h := sh st + 1 in
  let w := sw st + l in
  let z := if l <? g - w then l else g - w in
  let j := table_bits c k w a1 z in
  let z := Z.shiftl 1 j in
  match new_tab (sm st) z with
  | (None, m) => if h =? 0 then Ok (inr m) else u0 ← at_ (su st) 0; m ← huft_free m u0; Ok (inr m)
  | (Some q, m) =>
      '(m, root) ← set_link m (slink st) q (sroot st);
      u ← put (su st) h q;
      if h =? 0 then Ok (inl (MkHst m (si st) h w z q u (sx st) (sp st) (Some q) root (sr st)))
      else
        x ← put (sx st) h (si st);
        q' ← at_ u (h - 1);
        m ← set_entry m q' (Z.shiftr (si st) (w - l)) (Huft (u8 (16 + j)) (u8 l) (Vt q));
        Ok (inl (MkHst m (si st) h w z q u x (sp st) (Some q) root (Vt q)))
  end.

Fixpoint new_levels (fuel : nat) (c : list Z) (g l k a1 : Z) (st : hst) : outcome (hst + hmem) :=
  match fuel with
  | O => OutOfFuel
  | S fuel =>
      if sw st + l <? k then
        r ← new_level c g l k a1 st;
        match r with inl st => new_levels fuel c g l k a1 st | inr m => Ok (inr m) end
      else Ok (inl st)
  end.

(** The entry of the code: e and v, and the index of the next value. *)
Definition entry_of (n s : Z) (d e v : list Z) (p : Z) (r : hval) : outcome (Z * hval * Z) :=
  if n <=? p then Ok (99, r, p)
  else
    x ← at_ v p;
    if x <? s then Ok (if x <? 256 then 16 else 15, Vn (u16 x), p + 1)
    else e ← at_ e (x - s); d ← at_ d (x - s); Ok (u8 e, Vn d, p + 1).

Fixpoint fill (fuel : nat) (es : list huft) (j z f : Z) (r : huft) : outcome (list huft) :=
  match fuel with
  | O => OutOfFuel
  | S fuel => if j <? z then es ← put es j r; fill fuel es (j + f) z f r else Ok es
  end.

(** The next code: [i] is read backwards. *)
Fixpoint increment (fuel : nat) (i j : Z) : Z :=
  match fuel with
  | O => i
  | S fuel => if Z.land i j =? 0 then Z.lxor i j else increment fuel (Z.lxor i j) (Z.shiftr j 1)
  end.

(** Tables that the next code is not in are finished. *)
Fixpoint backup (fuel : nat) (i l : Z) (x : list Z) (h w : Z) : outcome (Z * Z) :=
  match fuel with
  | O => OutOfFuel
  | S fuel => y ← at_ x h; if Z.land i (Z.shiftl 1 w - 1) =? y then Ok (h, w) else backup fuel i l x (h - 1) (w - l)
  end.

(** One code of [k] bits; [a1] are left with it. *)
Definition one_code (c v d e : list Z) (n s g l k a1 : Z) (st : hst) : outcome (hst + hmem) :=
  r ← new_levels 17 c g l k a1 st;
  match r with
  | inr m => Ok (inr m)
  | inl st =>
      let w := sw st in
      '(re, rv, p) ← entry_of n s d e v (sp st) (sr st);
      let r := Huft re (u8 (k - w)) rv in
      '(lk, es) ← from_opt (tabs (sm st) !! sq st);
      es ← fill (S (Z.to_nat (sz st))) es (Z.shiftr (si st) w) (sz st) (Z.shiftl 1 (k - w)) r;
      let i := increment (S (Z.to_nat k)) (si st) (Z.shiftl 1 (k - 1)) in
      '(h, w) ← backup 17 i l (sx st) (sh st) w;
      Ok (inl (MkHst (set_tabs (sm st) (<[sq st := (lk, es)]> (tabs (sm st)))) i h w (sz st) (sq st) (su st) (sx st) p (slink st) (sroot st) rv))
  end.

Fixpoint codes_of (c v d e : list Z) (n s g l k : Z) (a : nat) (st : hst) : outcome (hst + hmem) :=
  match a with
  | O => Ok (inl st)
  | S a' =>
      r ← one_code c v d e n s g l k (Z.of_nat a) st;
      match r with inl st => codes_of c v d e n s g l k a' st | inr m => Ok (inr m) end
  end.

Fixpoint all_codes (c v d e : list Z) (n s g l k : Z) (lens : nat) (st : hst) : outcome (hst + hmem) :=
  match lens with
  | O => Ok (inl st)
  | S lens =>
      r ← codes_of c v d e n s g l k (Z.to_nat (nth (Z.to_nat k) c 0)) st;
      match r with inl st => all_codes c v d e n s g l (k + 1) lens st | inr m => Ok (inr m) end
  end.

(** The result, *t, *m and the memory; [t0]: what *t was, also given back with the error 3,
    after which it is not used; [junk]: what the 288 elements of v happen to be. *)
Definition huft_build (junk : list Z) (b : list Z) (s : Z) (d e : list Z) (t0 m : Z) (hm : hmem) : outcome (Z * Z * Z * hmem) :=
  let n := Z.of_nat (length b) in
  c ← counts (replicate 17 0) b;
  if nth 0 c 0 =? n then Ok (0, NULL, 0, hm)
  else
    let k := min_len 16 c 1 in
    let l := if m <? k then k else m in
    let g := max_len 16 c in
    let l := if g <? l then g else l in
    match spare 17 c (Z.shiftl 1 k) k g with
    | None => Ok (2, t0, l, hm)
    | Some y =>
        let c := <[Z.to_nat g := nth (Z.to_nat g) c 0 + y]> c in
        x ← offsets c (replicate 17 0) (Z.to_nat (g - 1)) 1 2 0;
        '(x, v) ← values b x junk 0;
        r ← all_codes c v d e n s g l k (Z.to_nat (g - k + 1))
              (MkHst hm 0 (-1) (- l) 0 NULL (replicate 16 NULL) (<[0%nat := 0]> x) 0 None t0 (Vn 0));
        match r with
        | inr hm => Ok (3, t0, l, hm)
        | inl st => Ok (if negb (y =? 0) && negb (g =? 1) then 1 else 0, sroot st, l, sm st)
        end
    end.

(** ** Input, output and the bit buffer *)

(** The window of WSIZE bytes; those that were never written are 0. *)
Definition win_at (win : gmap Z Z) (i : Z) : outcome Z := if (0 <=? i) && (i <? WSIZE) then Ok (default 0 (win !! i)) else Fault.
Definition win_put (win : gmap Z Z) (i x : Z) : outcome (gmap Z Z) := if (0 <=? i) && (i <? WSIZE) then Ok (<[i := x]> win) else Fault.
Definition win_bytes (win : gmap Z Z) (d : Z) (n : nat) : list Z := (fun i => default 0 (win !! (d + Z.of_nat i))) <$> seq 0 n.
Fixpoint win_write (win : gmap Z Z) (w : Z) (l : list Z) : gmap Z Z :=
  match l with [] => win | x :: l => win_write (<[w := x]> win) (w + 1) l end.

(** The static variables; [room]: how many bytes the destination has, [output]: those written.
    fill_inbuf starts again at the first byte when the input is used up. *)
Record gz := MkGz {
  inbuf : list Z; insize : Z; inptr : Z; input_data : list Z; input_len : Z; bb : Z; bk : Z; window : gmap Z Z; outcnt : Z;
  bytes_out : Z; output : list Z; room : Z; hm : hmem }.

Definition set_inp (s : gz) (b : list Z) (n p : Z) : gz :=
  MkGz b n p (input_data s) (input_len s) (bb s) (bk s) (window s) (outcnt s) (bytes_out s) (output s) (room s) (hm s).
Definition set_bits (s : gz) (b k : Z) : gz :=
  MkGz (inbuf s) (insize s) (inptr s) (input_data s) (input_len s) b k (window s) (outcnt s) (bytes_out s) (output s) (room s) (hm s).
Definition set_win (s : gz) (w : gmap Z Z) : gz :=
  MkGz (inbuf s) (insize s) (inptr s) (input_data s) (input_len s) (bb s) (bk s) w (outcnt s) (bytes_out s) (output s) (room s) (hm s).
Definition set_wp (s : gz) (w : Z) : gz :=
  MkGz (inbuf s) (insize s) (inptr s) (input_data s) (input_len s) (bb s) (bk s) (window s) w (bytes_out s) (output s) (room s) (hm s).
Definition set_out (s : gz) (w n : Z) (o : list Z) : gz :=
  MkGz (inbuf s) (insize s) (inptr s) (input_data s) (input_len s) (bb s) (bk s) (window s) w n o (room s) (hm s).
Definition set_hm (s : gz) (m : hmem) : gz :=
  MkGz (inbuf s) (insize s) (inptr s) (input_data s) (input_len s) (bb s) (bk s) (window s) (outcnt s) (bytes_out s) (output s) (room s) m.

Definition fill_inbuf (s : gz) : outcome (Z * gz) :=
  x ← at_ (input_data s) 0; Ok (x, set_inp s (input_data s) (input_len s) 1).
Definition get_byte (s : gz) : outcome (Z * gz) :=
  if inptr s <? insize s then x ← at_ (inbuf s) (inptr s); Ok (x, set_inp s (inbuf s) (insize s) (inptr s + 1)) else fill_inbuf s.

(** The first outcnt bytes of the window go to the destination. *)
Definition flush_window (s : gz) : outcome gz :=
  if room s <? Z.of_nat (length (output s)) + outcnt s then Fault
  else Ok (set_out s 0 (s32 (bytes_out s + outcnt s)) (output s ++ win_bytes (window s) 0 (Z.to_nat (outcnt s)))).
Definition flush_output (s : gz) (w : Z) : outcome gz := flush_window (set_wp s w).

Fixpoint needbits (fuel : nat) (n : Z) (s : gz) (b k : Z) : outcome (gz * Z * Z) :=
  match fuel with
  | O => OutOfFuel
  | S fuel => if k <? n then '(c, s) ← get_byte s; needbits fuel n s (Z.lor b (u32 (Z.shiftl (u8 c) k))) (k + 8) else Ok (s, b, k)
  end.
Definition NEEDBITS (n : Z) (s : gz) (b k : Z) : outcome (gz * Z * Z) := needbits 4 n s b k.
Definition DUMPBITS (n b k : Z) : Z * Z := (Z.shiftr b n, k - n).

(** The [n] next bits. *)
Definition GETBITS (n : Z) (s : gz) (b k : Z) : outcome (Z * gz * Z * Z) :=
  '(s, b, k) ← NEEDBITS n s b k; let '(b', k) := DUMPBITS n b k in Ok (Z.land b (Z.shiftl 1 n - 1), s, b', k).

(** ** Decoding *)

Definition entry (s : gz) (t i : Z) : outcome huft := '(_, es) ← from_opt (tabs (hm s) !! t); at_ es i.
Definition table_of (r : huft) : outcome Z := match hv r with Vt t => Ok t | Vn _ => Fault end.
Definition value_of (r : huft) : outcome Z := match hv r with Vn n => Ok n | Vt _ => Fault end.

(** Through the tables; None: an unused code. *)
Fixpoint descend (fuel : nat) (r : huft) (s : gz) (b k : Z) : outcome (option huft * gz * Z * Z) :=
  match fuel with
  | O => OutOfFuel
  | S fuel =>
      if 16 <? he r then
        if he r =? 99 then Ok (None, s, b, k)
        else
          let '(b, k) := DUMPBITS (hb r) b k in
          let e := he r - 16 in
          '(s, b, k) ← NEEDBITS e s b k;
          t ← table_of r; m ← at_ mask_bits e;
          r ← entry s t (Z.land b m);
          descend fuel r s b k
      else let '(b, k) := DUMPBITS (hb r) b k in Ok (Some r, s, b, k)
  end.

(** A code of the table [t], of which [bits] bits are looked up first. *)
Definition decode (t bits : Z) (s : gz) (b k : Z) : outcome (option huft * gz * Z * Z) :=
  '(s, b, k) ← NEEDBITS bits s b k;
  m ← at_ mask_bits bits;
  r ← entry s t (Z.land b m);
  descend 17 r s b k.

(** A byte of output. *)
Definition put_byte (s : gz) (w c : Z) : outcome (gz * Z) :=
  win ← win_put (window s) w (u8 c);
  let s := set_win s win in
  if w + 1 =? WSIZE then s ← flush_output s (w + 1); Ok (s, 0) else Ok (s, w + 1).

(** memcpy within the window: the ranges are apart, or the destination is before the source. *)
Definition copy_block (win : gmap Z Z) (w d e : Z) : outcome (gmap Z Z) :=
  if (0 <=? w) && (w + e <=? WSIZE) && (0 <=? d) && (d + e <=? WSIZE) then Ok (win_write win w (win_bytes win d (Z.to_nat e))) else Fault.
Fixpoint copy_bytes (n : nat) (win : gmap Z Z) (w d : Z) : outcome (gmap Z Z) :=
  match n with O => Ok win | S n => x ← win_at win d; win ← win_put win w x; copy_bytes n win (w + 1) (d + 1) end.

(** The copy of [n] bytes from position [d] of the window to [w]. *)
Fixpoint copy (fuel : nat) (n : Z) (s : gz) (w d : Z) : outcome (gz * Z) :=
  match fuel with
  | O => OutOfFuel
  | S fuel =>
      let d := Z.land d (WSIZE - 1) in
      let e := WSIZE - (if w <? d then d else w) in
      let e := if n <? e then n else e in
      let n := n - e in
      win ← (if e <=? u32 (w - d) then copy_block (window s) w d e else copy_bytes (Z.to_nat e) (window s) w d);
      let s := set_win s win in
      '(s, w) ← (if w + e =? WSIZE then s ← flush_output s (w + e); Ok (s, 0) else Ok (s, w + e));
      if n =? 0 then Ok (s, w) else copy fuel n s w (d + e)
  end.

(** The result; the globals are written back at the end only. *)
Fixpoint codes_loop (fuel : nat) (tl td bl bd : Z) (s : gz) (b k w : Z) : outcome (Z * gz) :=
  match fuel with
  | O => OutOfFuel
  | S fuel =>
      '(o, s, b, k) ← decode tl bl s b k;
      match o with
      | None => Ok (1, s)
      | Some r =>
          if he r =? 16 then
            n ← value_of r; '(s, w) ← put_byte s w n; codes_loop fuel tl td bl bd s b k w
          else if he r =? 15 then Ok (0, set_wp (set_bits s b k) w)
          else
            '(s, b, k) ← NEEDBITS (he r) s b k;
            m ← at_ mask_bits (he r); n ← value_of r;
            let n := n + Z.land b m in
            let '(b, k) := DUMPBITS (he r) b k in
            '(o, s, b, k) ← decode td bd s b k;
            match o with
            | None => Ok (1, s)
            | Some r =>
                '(s, b, k) ← NEEDBITS (he r) s b k;
                m ← at_ mask_bits (he r); x ← value_of r;
                let d := u32 (w - x - Z.land b m) in
                let '(b, k) := DUMPBITS (he r) b k in
                '(s, w) ← copy (S (Z.to_nat n)) n s w d;
                codes_loop fuel tl td bl bd s b k w
            end
      end
  end.
Definition inflate_codes (fuel : nat) (tl td bl bd : Z) (s : gz) : outcome (Z * gz) :=
  codes_loop fuel tl td bl bd s (bb s) (bk s) (outcnt s).

Fixpoint stored_loop (n : nat) (s : gz) (b k w : Z) : outcome (gz * Z * Z * Z) :=
  match n with
  | O => Ok (s, b, k, w)
  | S n =>
      '(s, b, k) ← NEEDBITS 8 s b k;
      '(s, w) ← put_byte s w b;
      let '(b, k) := DUMPBITS 8 b k in stored_loop n s b k w
  end.
Definition inflate_stored (s : gz) : outcome (Z * gz) :=
  let '(b, k) := DUMPBITS (Z.land (bk s) 7) (bb s) (bk s) in
  '(n, s, b, k) ← GETBITS 16 s b k;
  '(s, b, k) ← NEEDBITS 16 s b k;
  if negb (n =? Z.land (Z.lnot b) 0xffff) then Ok (1, s)
  else
    let '(b, k) := DUMPBITS 16 b k in
    '(s, b, k, w) ← stored_loop (Z.to_nat n) s b k (outcnt s);
    Ok (0, set_wp (set_bits s b k) w).

(** ** Blocks *)

(** [junk]: what the stack holds where huft_build has its table of values. *)
Section Blocks.
Context (junk : list Z).

Definition fixed_lengths : list Z := replicate 144 8 ++ replicate 112 9 ++ replicate 24 7 ++ replicate 8 8.

Definition inflate_fixed (fuel : nat) (s : gz) : outcome (Z * gz) :=
  '(i, tl, bl, m) ← huft_build junk fixed_lengths 257 cplens cplext NULL 7 (hm s);
  let s := set_hm s m in
  if negb (i =? 0) then Ok (i, s)
  else
    '(i, td, bd, m) ← huft_build junk (replicate 30 5) 0 cpdist cpdext NULL 5 (hm s);
    if 1 <? i then m ← huft_free m tl; Ok (i, set_hm s m)
    else
      '(r, s) ← inflate_codes fuel tl td bl bd (set_hm s m);
      if negb (r =? 0) then Ok (1, s)
      else m ← huft_free (hm s) tl; m ← huft_free m td; Ok (0, set_hm s m).

(** The lengths of the code for the lengths, in the order of [border]. *)
Fixpoint read_bl (o : list Z) (nb : nat) (ll : list Z) (s : gz) (b k : Z) : outcome (list Z * gz * Z * Z) :=
  match o with
  | [] => Ok (ll, s, b, k)
  | j :: o =>
      match nb with
      | O => ll ← put ll j 0; read_bl o O ll s b k
      | S nb => '(x, s, b, k) ← GETBITS 3 s b k; ll ← put ll j x; read_bl o nb ll s b k
      end
  end.

Fixpoint put_run (j : nat) (ll : list Z) (i x : Z) : outcome (list Z) :=
  match j with O => Ok ll | S j => ll ← put ll i x; put_run j ll (i + 1) x end.

(** The lengths of the two codes; None: a repetition goes too far. *)
Fixpoint read_lens (fuel : nat) (tl bl n : Z) (ll : list Z) (i l : Z) (s : gz) (b k : Z) : outcome (option (list Z) * gz * Z * Z) :=
  match fuel with
  | O => OutOfFuel
  | S fuel =>
      if i <? n then
        '(s, b, k) ← NEEDBITS bl s b k;
        m ← at_ mask_bits bl;
        r ← entry s tl (Z.land b m);
        let '(b, k) := DUMPBITS (hb r) b k in
        j ← value_of r;
        if j <? 16 then ll ← put ll i j; read_lens fuel tl bl n ll (i + 1) j s b k
        else
          '(x, s, b, k) ← GETBITS (if j =? 16 then 2 else if j =? 17 then 3 else 7) s b k;
          let x := (if j =? 18 then 11 else if (j =? 16) || (j =? 17) then 3 else 11) + x in
          if n <? i + x then Ok (None, s, b, k)
          else
            let v := if j =? 16 then l else 0 in
            ll ← put_run (Z.to_nat x) ll i v;
            read_lens fuel tl bl n ll (i + x) v s b k
      else Ok (Some ll, s, b, k)
  end.

(** What follows the lengths. *)
Definition dynamic_codes (fuel : nat) (nl nd : Z) (ll : list Z) (s : gz) : outcome (Z * gz) :=
  '(i, tl, bl, m) ← huft_build junk (take (Z.to_nat nl) ll) 257 cplens cplext NULL lbits (hm s);
  if negb (i =? 0) then m ← (if i =? 1 then huft_free m tl else Ok m); Ok (i, set_hm s m)
  else
    '(i, td, bd, m) ← huft_build junk (take (Z.to_nat nd) (drop (Z.to_nat nl) ll)) 0 cpdist cpdext NULL dbits m;
    if negb (i =? 0) then m ← (if i =? 1 then huft_free m td else Ok m); m ← huft_free m tl; Ok (i, set_hm s m)
    else
      '(r, s) ← inflate_codes fuel tl td bl bd (set_hm s m);
      if negb (r =? 0) then Ok (1, s)
      else m ← huft_free (hm s) tl; m ← huft_free m td; Ok (0, set_hm s m).

Definition inflate_dynamic (fuel : nat) (s : gz) : outcome (Z * gz) :=
  '(x, s, b, k) ← GETBITS 5 s (bb s) (bk s); let nl := 257 + x in
  '(x, s, b, k) ← GETBITS 5 s b k; let nd := 1 + x in
  '(x, s, b, k) ← GETBITS 4 s b k; let nb := 4 + x in
  if (286 <? nl) || (30 <? nd) then Ok (1, s)
  else
    '(ll, s, b, k) ← read_bl border (Z.to_nat nb) (replicate 316 0) s b k;
    '(i, tl, bl, m) ← huft_build junk (take 19 ll) 19 [] [] NULL 7 (hm s);
    let s := set_hm s m in
    if negb (i =? 0) then m ← (if i =? 1 then huft_free m tl else Ok m); Ok (i, set_hm s m)
    else
      '(o, s, b, k) ← read_lens (S (Z.to_nat (nl + nd))) tl bl (nl + nd) ll 0 0 s b k;
      match o with
      | None => Ok (1, s)
      | Some ll => m ← huft_free (hm s) tl; dynamic_codes fuel nl nd ll (set_bits (set_hm s m) b k)
      end.

(** The result and the flag of the last block. *)
Definition inflate_block (fuel : nat) (s : gz) : outcome (Z * Z * gz) :=
  '(e, s, b, k) ← GETBITS 1 s (bb s) (bk s);
  '(t, s, b, k) ← GETBITS 2 s b k;
  let s := set_bits s b k in
  '(r, s) ← (if t =? 2 then inflate_dynamic fuel s else if t =? 0 then inflate_stored s else if t =? 1 then inflate_fixed fuel s else Ok (2, s));
  Ok (r, e, s).

Definition set_hufts (m : hmem) : hmem := MkHm (tabs m) (nexttab m) (answers m) 0.

Fixpoint blocks (n fuel : nat) (s : gz) : outcome (Z * gz) :=
  match n with
  | O => OutOfFuel
  | S n =>
      '(r, e, s) ← inflate_block fuel (set_hm s (set_hufts (hm s)));
      if negb (r =? 0) then Ok (r, s) else if e =? 0 then blocks n fuel s else Ok (0, s)
  end.

(** Whole bytes of the bit buffer go back to the input. *)
Fixpoint unread (n : nat) (s : gz) : gz :=
  match n with
  | O => s
  | S n => if 8 <=? bk s then unread n (set_bits (set_inp s (inbuf s) (insize s) (inptr s - 1)) (bb s) (bk s - 8)) else s
  end.

(** [fuel]: a bound on the blocks, and on the codes of a block. *)
Definition inflate (fuel : nat) (s : gz) : outcome (Z * gz) :=
  '(r, s) ← blocks fuel fuel (set_wp (set_bits s 0 0) 0);
  if negb (r =? 0) then Ok (r, s)
  else let s := unread 4 s in s ← flush_output s (outcnt s); Ok (0, s).

(** ** gzip files *)

Fixpoint skip_bytes (n : nat) (s : gz) : outcome gz :=
  match n with O => Ok s | S n => '(_, s) ← get_byte s; skip_bytes n s end.
Fixpoint skip_name (fuel : nat) (s : gz) : outcome gz :=
  match fuel with O => OutOfFuel | S fuel => '(c, s) ← get_byte s; if c =? 0 then Ok s else skip_name fuel s end.
Definition get_long (s : gz) : outcome (Z * gz) :=
  '(a, s) ← get_byte s; '(b, s) ← get_byte s; '(c, s) ← get_byte s; '(d, s) ← get_byte s;
  Ok (Z.lor (Z.lor (Z.lor a (Z.shiftl b 8)) (Z.shiftl c 16)) (u32 (Z.shiftl d 24)), s).

Definition gunzip (fuel : nat) (s : gz) : outcome (Z * gz) :=
  '(m0, s) ← get_byte s; '(m1, s) ← get_byte s; '(method, s) ← get_byte s;
  if negb (m0 =? 0x1f) || (negb (m1 =? 0x8b) && negb (m1 =? 0x9e)) then Ok (-1, s)
  else if negb (method =? 8) then Ok (-1, s)
  else
    '(flags, s) ← get_byte s;
    if negb (Z.land flags 0x20 =? 0) then Ok (-1, s)
    else if negb (Z.land flags 0x02 =? 0) then Ok (-1, s)
    else if negb (Z.land flags 0xC0 =? 0) then Ok (-1, s)
    else
      s ← skip_bytes 6 s;
      s ← (if Z.land flags 0x04 =? 0 then Ok s
           else '(a, s) ← get_byte s; '(b, s) ← get_byte s; skip_bytes (Z.to_nat (Z.lor a (Z.shiftl b 8))) s);
      s ← (if Z.land flags 0x08 =? 0 then Ok s else skip_name fuel s);
      s ← (if Z.land flags 0x10 =? 0 then Ok s else skip_name fuel s);
      '(res, s) ← inflate fuel s;
      if negb (res =? 0) then Ok (-1, s)
      else
        '(_, s) ← get_long s;
        '(orig_len, s) ← get_long s;
        if negb (orig_len =? u32 (bytes_out s)) then Ok (-1, s) else Ok (0, s).

(** The destination has [n] bytes. *)
Definition do_gunzip (fuel : nat) (s : gz) (n : Z) (src : list Z) : outcome (Z * gz) :=
  '(_, s) ← gunzip fuel (MkGz (inbuf s) (insize s) (inptr s) src (Z.of_nat (length src)) (bb s) (bk s) (window s) (outcnt s) 0 [] n (hm s));
  Ok (bytes_out s, s).

Definition gzip_ran_init (s : gz) : gz := set_wp (set_inp s (inbuf s) 0 0) 0.

Definition is_gzip_format_file (magic : list Z) : outcome bool :=
  m0 ← at_ magic 0; m1 ← at_ magic 1; Ok ((m0 =? 0x1f) && ((m1 =? 0x8b) || (m1 =? 0x9e))).

Definition gzip_orig_length (magic : list Z) (len : Z) : outcome Z :=
  a ← at_ magic (len - 4); b ← at_ magic (len - 3); c ← at_ magic (len - 2); d ← at_ magic (len - 1);
  Ok (a + 2 ^ 8 * b + 2 ^ 16 * c + 2 ^ 24 * d).

(** The result, and *len with the bytes of *outbuf, which kcalloc cleared.  When kcalloc
    refuses, the destination is NULL and has room for nothing. *)
Definition gzip_file (fuel : nat) (s : gz) (inb : list Z) : outcome (Z * option (Z * list Z) * gz) :=
  length_ ← gzip_orig_length inb (Z.of_nat (length inb));
  if length_ =? 0 then Ok (-1, None, s)
  else
    let granted := default true (head (answers (hm s))) in
    let s := set_hm (gzip_ran_init s) (MkHm (tabs (hm s)) (nexttab (hm s)) (tail (answers (hm s))) (hufts (hm s))) in
    '(bytes, s) ← do_gunzip fuel s (if granted then length_ else 0) inb;
    if bytes <=? 0 then Ok (-2, None, s)
    else Ok (0, Some (length_, output s ++ replicate (Z.to_nat length_ - length (output s)) 0), s).
End Blocks.
