(* ===== verification/InflateHuft.v ===== *)
(** * The tables of the decompressor

    huft_build numbers the codes of a canonical Huffman code in the order of their lengths
    and enters each of them, read backwards, into a tree of tables.  Here: every code is
    found again through the tables, whatever bits follow it. *)

From S2P Require Import Prelude Inflate.

(** ** Bits backwards *)

Fixpoint rv (n : nat) (x : Z) : Z := match n with O => 0 | S n => (x mod 2) * 2 ^ Z.of_nat n + rv n (x / 2) end.
Definition rev (n x : Z) : Z := rv (Z.to_nat n) x.

Lemma rv_range n x : 0 <= rv n x < 2 ^ Z.of_nat n.
Proof.
  revert x. induction n as [|n IH]; intros x; [done|]. cbn [rv]. specialize (IH (x / 2)). pose proof (Z.mod_pos_bound x 2 ltac:(lia)).
  rewrite Nat2Z.inj_succ, Z.pow_succ_r by lia. nia.
Qed.

Lemma rev_range n x : 0 <= n -> 0 <= rev n x < 2 ^ n.
Proof. intros Hn. pose proof (rv_range (Z.to_nat n) x) as H. by rewrite Z2Nat.id in H. Qed.

Lemma rev_0 x : rev 0 x = 0.
Proof. done. Qed.

Lemma rev_succ n x : 0 <= n -> rev (n + 1) x = (x mod 2) * 2 ^ n + rev n (x / 2).
Proof. intros Hn. unfold rev. rewrite Z2Nat.inj_add by lia. change (Z.to_nat 1) with 1%nat. rewrite Nat.add_1_r. cbn [rv]. by rewrite Z2Nat.id. Qed.

Lemma rev_even n x : 0 <= n -> rev (n + 1) (2 * x) = rev n x.
Proof. intros Hn. rewrite rev_succ by done. rewrite (Z.mul_comm 2 x), Z.mod_mul, Z.div_mul by lia. lia. Qed.

Lemma rev_shift k m x : 0 <= k -> 0 <= m -> rev (k + m) (x * 2 ^ m) = rev k x.
Proof.
  intros Hk Hm. revert x. pattern m. apply natlike_ind; [|clear m Hm; intros m Hm IH x|done].
  - intros x. by rewrite Z.add_0_r, Z.mul_1_r.
  - rewrite Z.pow_succ_r by done. replace (k + Z.succ m) with (k + m + 1) by lia. replace (x * (2 * 2 ^ m)) with (2 * (x * 2 ^ m)) by lia.
    rewrite rev_even by lia. apply IH.
Qed.

(** The low bits of the reversed number come from the high bits. *)
Lemma rev_low w m x : 0 <= w -> 0 <= m -> rev (w + m) x mod 2 ^ w = rev w (x / 2 ^ m).
Proof.
  intros Hw Hm. revert x. pattern m. apply natlike_ind; [|clear m Hm; intros m Hm IH x|done].
  - intros x. rewrite Z.add_0_r, Z.div_1_r. apply Z.mod_small, rev_range, Hw.
  - replace (w + Z.succ m) with (w + m + 1) by lia. rewrite rev_succ by lia. rewrite Z.pow_add_r by lia.
    replace (x mod 2 * (2 ^ w * 2 ^ m) + rev (w + m) (x / 2)) with (rev (w + m) (x / 2) + (x mod 2 * 2 ^ m) * 2 ^ w) by lia.
    rewrite Z.mod_add by (apply Z.pow_nonzero; lia). rewrite IH, Z.div_div by lia. by rewrite Z.pow_succ_r.
Qed.

Lemma rev_inj n x y : 0 <= n -> 0 <= x < 2 ^ n -> 0 <= y < 2 ^ n -> rev n x = rev n y -> x = y.
Proof.
  intros Hn. revert x y. pattern n. apply natlike_ind; [|clear n Hn; intros n Hn IH|done].
  - intros x y. cbn. lia.
  - intros x y. rewrite Z.pow_succ_r by done. change (Z.succ n) with (n + 1). rewrite !rev_succ by done. intros Hx Hy E.
    pose proof (Z.mod_pos_bound x 2 ltac:(lia)). pose proof (Z.mod_pos_bound y 2 ltac:(lia)).
    pose proof (rev_range n (x / 2) Hn). pose proof (rev_range n (y / 2) Hn).
    assert (x mod 2 = y mod 2) as Em by nia. assert (x / 2 = y / 2) as Ed; [|pose proof (Z.div_mod x 2 ltac:(lia)); pose proof (Z.div_mod y 2 ltac:(lia)); lia].
    apply IH; [| |nia]; (split; [apply Z.div_pos; lia|apply Z.div_lt_upper_bound; lia]).
Qed.

(** ** The next code *)

Lemma land_pow2 i n : 0 <= n -> Z.land i (2 ^ n) = (if Z.testbit i n then 2 ^ n else 0).
Proof.
  intros Hn. apply Z.bits_inj'. intros j Hj. rewrite Z.land_spec, Z.pow2_bits_eqb by done. destruct (Z.eqb_spec n j) as [<-|Hne].
  - destruct (Z.testbit i n); [by rewrite Z.pow2_bits_true|by rewrite Z.bits_0].
  - rewrite andb_false_r. destruct (Z.testbit i n); [by rewrite Z.pow2_bits_false|by rewrite Z.bits_0].
Qed.

Lemma lxor_high i n : 0 <= n -> 0 <= i < 2 ^ n -> Z.lxor i (2 ^ n) = i + 2 ^ n /\ Z.lxor (i + 2 ^ n) (2 ^ n) = i /\ Z.testbit i n = false /\ Z.testbit (i + 2 ^ n) n = true.
Proof.
  intros Hn Hi. assert (Z.land i (2 ^ n) = 0) as E.
  { rewrite land_pow2 by done. rewrite <- (Z.mod_small i (2 ^ n)) by done. by rewrite Z.mod_pow2_bits_high by lia. }
  assert (Z.lxor i (2 ^ n) = i + 2 ^ n) as Ex by (symmetry; by apply Z.add_nocarry_lxor).
  split; [done|]. assert (Z.testbit i n = false) as Hb by (rewrite <- (Z.mod_small i (2 ^ n)) by done; by rewrite Z.mod_pow2_bits_high by lia).
  rewrite <- Ex. rewrite Z.lxor_assoc, Z.lxor_nilpotent, Z.lxor_0_r. split; [done|]. split; [done|].
  by rewrite Z.lxor_spec, Hb, Z.pow2_bits_true.
Qed.

Lemma increment_rev k c fuel : 1 <= k -> 0 <= c < 2 ^ k -> (Z.to_nat k < fuel)%nat ->
  increment fuel (rev k c) (2 ^ (k - 1)) = rev k ((c + 1) mod 2 ^ k).
Proof.
  intros Hk. replace k with (k - 1 + 1) at 1 2 3 5 6 by lia. assert (0 <= k - 1) as Hn by lia. revert Hn. generalize (k - 1). clear k Hk.
  intros n Hn. revert c fuel. pattern n. apply natlike_ind; [|clear n Hn; intros n Hn IH|done].
  - intros c fuel Hc Hf. destruct fuel as [|[|fuel]]; [lia|lia|]. cbn in Hc. assert (c = 0 \/ c = 1) as [-> | ->] by lia; reflexivity.
  - intros c fuel Hc Hf. destruct fuel as [|fuel]; [lia|]. set (n1 := Z.succ n) in *. rewrite Z.pow_add_r in Hc |- * by lia. change (2 ^ 1) with 2 in *.
    pose proof (Z.div_mod c 2 ltac:(lia)) as E. pose proof (Z.mod_pos_bound c 2 ltac:(lia)) as Hm.
    assert (0 <= c / 2 < 2 ^ n1) as Hd by (split; [apply Z.div_pos; lia|apply Z.div_lt_upper_bound; lia]).
    pose proof (rev_range n1 (c / 2) ltac:(lia)) as Hr. destruct (lxor_high (rev n1 (c / 2)) n1 ltac:(lia) Hr) as (X1 & X2 & B1 & B2).
    assert (0 < 2 ^ n1) as Hpos by (apply Z.pow_pos_nonneg; lia). cbn [increment]. rewrite (rev_succ n1 c) by lia. destruct (Z.eq_dec (c mod 2) 0) as [E0|E0].
    + rewrite E0. replace (0 * 2 ^ n1 + rev n1 (c / 2)) with (rev n1 (c / 2)) by lia. rewrite land_pow2, B1 by lia. cbn. rewrite X1, (Z.mod_small (c + 1)) by lia.
      rewrite rev_succ by lia. replace (c + 1) with (1 + (c / 2) * 2) by lia. rewrite Z.mod_add, Z.div_add by lia. change (1 mod 2) with 1. change (1 / 2) with 0. rewrite Z.add_0_l. lia.
    + assert (c mod 2 = 1) as E1 by lia. rewrite E1. replace (1 * 2 ^ n1 + rev n1 (c / 2)) with (rev n1 (c / 2) + 2 ^ n1) by lia. rewrite land_pow2, B2 by lia. rewrite (proj2 (Z.eqb_neq _ _)) by lia.
      rewrite X2. rewrite Z.shiftr_div_pow2 by lia. change (2 ^ 1) with 2. assert (2 ^ n1 / 2 = 2 ^ n) as -> by (unfold n1; rewrite Z.pow_succ_r, Z.mul_comm, Z.div_mul by lia; done).
      unfold n1 in *. change (Z.succ n) with (n + 1) in *. rewrite (IH (c / 2) fuel) by lia.
      rewrite <- (rev_even (n + 1)) by lia. f_equal. replace (c + 1) with ((c / 2 + 1) * 2) by lia. rewrite Z.mul_mod_distr_r by lia. lia.
Qed.

(** ** Looking up *)

Definition cell (t : gmap Z (Z * list huft)) (T i : Z) : option huft := '(_, es) ← t !! T; es !! Z.to_nat i.

Definition is_ptr (r : huft) : bool := (16 <? he r) && negb (he r =? 99).

(** What the decoder finds for the bits [b], of which there are enough, and how many it uses:
    in each table at most those that were looked up, and all of them before the next table. *)
Fixpoint walk (fuel : nat) (t : gmap Z (Z * list huft)) (T L b : Z) : option (huft * Z) :=
  match fuel with
  | O => None
  | S fuel =>
      r ← cell t T (b mod 2 ^ L);
      if (1 <=? hb r) && (hb r <=? L) then
        if is_ptr r then
          match hv r with
          | Vt T' => if (he r <=? 32) && (hb r =? L) then '(r', n) ← walk fuel t T' (he r - 16) (b / 2 ^ hb r); Some (r', hb r + n) else None
          | Vn _ => None
          end
        else Some (r, hb r)
      else None
  end.

Section Tables.
Context (l : Z) (Hl : 1 <= l).

(** [O]: for each table, how many bits lead to it, which, and how many are looked up in it. *)
Definition owned (O : gmap Z (Z * Z * Z)) (t : gmap Z (Z * list huft)) : Prop :=
  forall T w p L, O !! T = Some (w, p, L) -> 0 <= w /\ 0 <= L /\ forall i, 0 <= i < 2 ^ L -> exists r, cell t T i = Some r /\
    (is_ptr r = true -> hb r = l /\ L = l /\ exists T', hv r = Vt T' /\ O !! T' = Some (w + l, p + i * 2 ^ w, he r - 16)).

Lemma mod_split B w m : 0 <= w -> 0 <= m -> B mod 2 ^ (w + m) = B mod 2 ^ w + (B / 2 ^ w) mod 2 ^ m * 2 ^ w.
Proof. intros Hw Hm. rewrite Z.pow_add_r by lia. rewrite Z.rem_mul_r by (try apply Z.pow_nonzero; try apply Z.pow_pos_nonneg; lia). lia. Qed.

Lemma div_pow_add B w m : 0 <= w -> 0 <= m -> B / 2 ^ w / 2 ^ m = B / 2 ^ (w + m).
Proof. intros Hw Hm. rewrite Z.div_div, <- Z.pow_add_r by (try apply Z.pow_nonzero; try apply Z.pow_pos_nonneg; lia). done. Qed.

(** Only the cells on the way of the bits matter. *)
Lemma walk_agree O t t' B : owned O t -> 
  (forall T w p L, O !! T = Some (w, p, L) -> B mod 2 ^ w = p -> cell t' T ((B / 2 ^ w) mod 2 ^ L) = cell t T ((B / 2 ^ w) mod 2 ^ L)) ->
  forall fuel T w p L, O !! T = Some (w, p, L) -> B mod 2 ^ w = p -> walk fuel t' T L (B / 2 ^ w) = walk fuel t T L (B / 2 ^ w).
Proof.
  intros HO Hag. induction fuel as [|fuel IH]; intros T w p L HT Hp; [done|]. cbn [walk]. rewrite (Hag T w p L HT Hp).
  destruct (HO T w p L HT) as (Hw & HL & Hc). destruct (Hc ((B / 2 ^ w) mod 2 ^ L)) as (r & -> & Hr); [apply Z.mod_pos_bound, Z.pow_pos_nonneg; lia|].
  cbn [mbind option_bind]. destruct (_ && _); [|done]. destruct (is_ptr r) eqn:Ep; [|done]. destruct (Hr eq_refl) as (Hb & -> & T' & -> & HT').
  rewrite Hb, !div_pow_add by lia. destruct (_ && _); [|done]. rewrite (IH T' (w + l) _ _ HT'); [done|]. rewrite mod_split by lia. by rewrite Hp.
Qed.
End Tables.

(** ** Codes in order *)

(** The codes of a complete set share out the numbers below [2 ^ g]: a code of [q] bits gets
    [2 ^ (g - q)] of them.  [qend m]: where the codes of at most [m] bits end. *)
Fixpoint qend_ (c : list Z) (g : Z) (m : nat) : Z :=
  match m with O => 0 | S m' => qend_ c g m' + nth m c 0 * 2 ^ (g - Z.of_nat m) end.
Fixpoint total_ (c : list Z) (m : nat) : Z := match m with O => 0 | S m' => total_ c m' + nth m c 0 end.
Definition qend (c : list Z) (g m : Z) : Z := qend_ c g (Z.to_nat m).
Definition total (c : list Z) (m : Z) : Z := total_ c (Z.to_nat m).

Section Codes.
Context (c : list Z) (g : Z) (Hc : Forall (Z.le 0) c).

Lemma count_nonneg q : 0 <= nth q c 0.
Proof. destruct (nth_in_or_default q c 0) as [H| ->]; [|done]. by eapply (proj1 (List.Forall_forall _ _) Hc). Qed.

Lemma qend_succ m : 1 <= m -> qend c g m = qend c g (m - 1) + nth (Z.to_nat m) c 0 * 2 ^ (g - m).
Proof. intros Hm. unfold qend. replace (Z.to_nat m) with (S (Z.to_nat (m - 1))) by lia. cbn [qend_]. do 3 f_equal. lia. Qed.
Lemma total_succ m : 1 <= m -> total c m = total c (m - 1) + nth (Z.to_nat m) c 0.
Proof. intros Hm. unfold total. by replace (Z.to_nat m) with (S (Z.to_nat (m - 1))) by lia. Qed.

Lemma qend_le m m' : 0 <= m <= m' -> m' <= g -> qend c g m <= qend c g m'.
Proof.
  intros Hm Hg. replace m' with (m + (m' - m)) in * by lia. assert (0 <= m' - m) as Hd by lia. revert Hd Hg. generalize (m' - m). intros d Hd. assert (0 <= m) as H0 by lia. clear Hm m'.
  pattern d. apply natlike_ind; [|clear d Hd; intros d Hd IH|done]; intros Hg; [rewrite Z.add_0_r; lia|].
  rewrite (qend_succ (m + Z.succ d)) by lia. replace (m + Z.succ d - 1) with (m + d) by lia. pose proof (count_nonneg (Z.to_nat (m + Z.succ d))).
  assert (0 <= 2 ^ (g - (m + Z.succ d))) by (apply Z.pow_nonneg; lia). specialize (IH ltac:(lia)). nia.
Qed.

Lemma qend_divide m : 0 <= m <= g -> (2 ^ (g - m) | qend c g m).
Proof.
  intros Hm. assert (0 <= m) as H0 by lia. revert Hm. pattern m. apply natlike_ind; [|clear m H0; intros m Hm IH|done]; intros Hg; [apply Z.divide_0_r|].
  rewrite qend_succ by lia. replace (Z.succ m - 1) with m by lia. apply Z.divide_add_r; [|by apply Z.divide_mul_r].
  eapply Z.divide_trans; [|apply IH; lia]. exists 2. replace (g - m) with (Z.succ (g - Z.succ m)) by lia. rewrite Z.pow_succ_r; lia.
Qed.

(** Longer codes get less. *)
Lemma qend_total m m' : 0 <= m <= m' -> m' <= g -> qend c g m' - qend c g m <= (total c m' - total c m) * 2 ^ (g - m).
Proof.
  intros Hm Hg. replace m' with (m + (m' - m)) in * by lia. assert (0 <= m' - m) as Hd by lia. revert Hd Hg. generalize (m' - m). intros d Hd. assert (0 <= m) as H0 by lia. clear Hm m'.
  pattern d. apply natlike_ind; [|clear d Hd; intros d Hd IH|done]; intros Hg; [rewrite Z.add_0_r; lia|].
  rewrite (qend_succ (m + Z.succ d)), (total_succ (m + Z.succ d)) by lia. replace (m + Z.succ d - 1) with (m + d) by lia. specialize (IH ltac:(lia)).
  pose proof (count_nonneg (Z.to_nat (m + Z.succ d))) as Hn. assert (2 ^ (g - (m + Z.succ d)) <= 2 ^ (g - m)) by (apply Z.pow_le_mono_r; lia). nia.
Qed.
End Codes.

Lemma count_total c (Hc : Forall (Z.le 0) c) k m : 1 <= k <= m -> nth (Z.to_nat k) c 0 <= total c m.
Proof.
  intros Hk. assert (forall n, 0 <= total_ c n) as H0 by (induction n as [|n IH]; [done|]; cbn [total_]; pose proof (count_nonneg c Hc (S n)); lia).
  replace m with (k + (m - k)) by lia. assert (0 <= m - k) as Hd by lia. revert Hd. generalize (m - k). intros d Hd. pattern d. apply natlike_ind; [|clear d Hd; intros d Hd IH|done].
  - rewrite Z.add_0_r, total_succ by lia. specialize (H0 (Z.to_nat (k - 1))). unfold total. lia.
  - rewrite total_succ by lia. replace (k + Z.succ d - 1) with (k + d) by lia. pose proof (count_nonneg c Hc (Z.to_nat (k + Z.succ d))). lia.
Qed.

(** The next multiple is not beyond the end. *)
Lemma divide_next g w x : 0 <= w <= g -> (2 ^ (g - w) | x) -> x < 2 ^ g -> x + 2 ^ (g - w) <= 2 ^ g.
Proof.
  intros Hw [y ->] Hx. assert (0 < 2 ^ (g - w)) as Hp by (apply Z.pow_pos_nonneg; lia).
  assert (2 ^ g = 2 ^ w * 2 ^ (g - w)) as E by (rewrite <- Z.pow_add_r by lia; f_equal; lia). rewrite E in *. apply Z.mul_lt_mono_pos_r in Hx; [|done]. nia.
Qed.

(** ** The size of a table *)

Section Build.
Context (c : list Z) (g l : Z).

(** What huft_build establishes before the loop over the codes: the counts, filled up, of a
    complete set.  The last condition excludes tables inside of tables for sets with many
    long codes; both kinds of sets that inflate.c builds tables for have it. *)
Record complete : Prop := {
  co_c : Forall (Z.le 0) c; co_l : 1 <= l <= g; co_g : g <= 16; co_full : qend c g g = 2 ^ g; co_max : 0 < nth (Z.to_nat g) c 0;
  co_small : g <= 2 * l \/ total c g < 2 ^ l }.
Context (Hco : complete).

Lemma pow_half n : 1 <= n -> 2 ^ n = 2 * 2 ^ (n - 1).
Proof. intros. replace n with (Z.succ (n - 1)) at 1 by lia. by rewrite Z.pow_succ_r by lia. Qed.

(** The position of a code of [k] bits when [a] are left of them. *)
Definition pos (k a : Z) : Z := qend c g k - a * 2 ^ (g - k).

Lemma pos_bounds k a : 1 <= k <= g -> 0 <= a <= nth (Z.to_nat k) c 0 ->
  0 <= qend c g (k - 1) <= pos k a /\ (2 ^ (g - k) | pos k a) /\ pos k a + a * 2 ^ (g - k) <= 2 ^ g.
Proof.
  intros Hk Ha. destruct Hco as [Hc Hl Hg Hf Hm Hs]. unfold pos. pose proof (qend_succ c g k ltac:(lia)) as E. assert (0 < 2 ^ (g - k)) by (apply Z.pow_pos_nonneg; lia).
  pose proof (qend_le c g Hc 0 (k - 1) ltac:(lia) ltac:(lia)) as H0. change (qend c g 0) with 0 in H0. split; [split; [done|nia]|]. split.
  - apply Z.divide_sub_r; [by apply qend_divide; lia|by apply Z.divide_mul_r].
  - pose proof (qend_le c g Hc k g ltac:(lia) ltac:(lia)). lia.
Qed.

Lemma widen_ok fuel f j z w e : 0 <= w -> 0 <= j < z -> z <= g - w -> f * 2 ^ (g - (w + j)) = e - qend c g (w + j) -> 0 < f -> (Z.to_nat (z - j) <= fuel)%nat ->
  let j' := widen fuel c f j (w + j) z in j < j' <= z /\ (j' = z \/ e <= qend c g (w + j')).
Proof.
  intros Hw. revert f j. induction fuel as [|fuel IH]; intros f j Hj Hz Hf Hf0 Hfu; [lia|]. cbn [widen]. destruct (Z.ltb_spec (j + 1) z) as [H|H]; [|cbv zeta; lia].
  rewrite <- (Z.add_assoc w j 1). pose proof (qend_succ c g (w + (j + 1)) ltac:(lia)) as E. replace (w + (j + 1) - 1) with (w + j) in E by lia.
  rewrite (pow_half (g - (w + j))) in Hf by lia. replace (g - (w + j) - 1) with (g - (w + (j + 1))) in Hf by lia.
  assert (0 < 2 ^ (g - (w + (j + 1)))) by (apply Z.pow_pos_nonneg; lia). destruct (Z.leb_spec (2 * f) (nth (Z.to_nat (w + (j + 1))) c 0)) as [Hle|Hgt].
  - split; [lia|]. right. nia.
  - destruct (IH (2 * f - nth (Z.to_nat (w + (j + 1))) c 0) (j + 1)) as [H1 H2]; [lia|lia|nia|lia|lia|]. split; [lia|exact H2].
Qed.

(** A code that starts a table of level 1 or more: the table has room for it, and for all the
    codes that begin like it, or it is of the full size. *)
Lemma table_bits_sub k a w : l <= w < k -> k <= g -> 1 <= a <= nth (Z.to_nat k) c 0 -> (2 ^ (g - w) | pos k a) ->
  let j := table_bits c k w a (if l <? g - w then l else g - w) in
  k - w <= j <= l /\ (j = l \/ pos k a + 2 ^ (g - w) <= qend c g (w + j)).
Proof.
  intros Hw Hk Ha Hd. pose proof Hco as [Hc Hl Hg Hf Hm Hs]. destruct (pos_bounds k a ltac:(lia) ltac:(lia)) as (H1 & _ & H2).
  assert (0 < 2 ^ (g - k)) as Hp by (apply Z.pow_pos_nonneg; lia). assert (2 ^ (g - w) = 2 ^ (k - w) * 2 ^ (g - k)) as Epow by (rewrite <- Z.pow_add_r by lia; f_equal; lia).
  assert (pos k a + 2 ^ (g - w) <= 2 ^ g) as Hend.
  { apply (divide_next g w); [lia|done|]. nia. }
  set (z := if l <? g - w then l else g - w). assert (z <= l /\ z <= g - w /\ (z = l \/ z = g - w)) as (Hz1 & Hz2 & Hz3) by (unfold z; destruct (Z.ltb_spec l (g - w)); lia).
  unfold table_bits. rewrite Z.shiftl_1_l. destruct (Z.ltb_spec a (2 ^ (k - w))) as [Hlt|Hge].
  - destruct (Z.ltb_spec (k - w) z) as [Hkz|Hkz].
    + destruct (widen_ok 17 (2 ^ (k - w) - a) (k - w) z w (pos k a + 2 ^ (g - w))) as [R1 R2]; [lia|lia|lia| |lia|lia|].
      { replace (w + (k - w)) with k by lia. unfold pos. nia. }
      replace (w + (k - w)) with k in R1, R2 by lia. split; [lia|]. destruct R2 as [R2|R2]; [|by right]. destruct Hz3 as [Hz3|Hz3]; [left; lia|].
      right. rewrite R2, Hz3. replace (w + (g - w)) with g by lia. lia.
    + exfalso. destruct Hz3 as [Hz3|Hz3].
      * destruct Hs as [Hs|Hs]; [assert (k = g) as -> by lia; unfold pos in *; replace (g - g) with 0 in * by lia; change (2 ^ 0) with 1 in *; nia|].
        pose proof (qend_total c g Hc k g ltac:(lia) ltac:(lia)) as Ht. assert (2 ^ l <= 2 ^ (k - w)) as Hll by (apply Z.pow_le_mono_r; lia).
        pose proof (count_total c Hc k k ltac:(lia)) as Hak.
        unfold pos in *. nia.
      * assert (k = g) as -> by lia. unfold pos in *. replace (g - g) with 0 in * by lia. change (2 ^ 0) with 1 in *. nia.
  - assert (pos k a + 2 ^ (g - w) <= qend c g k) as He by (unfold pos; nia). split; [|right; by replace (w + (k - w)) with k by lia].
    split; [lia|]. destruct (Z.leb_spec (k - w) l) as [|Hgt]; [done|]. exfalso. destruct Hs as [Hs|Hs]; [lia|].
    assert (2 ^ l <= 2 ^ (k - w)) by (apply Z.pow_le_mono_r; lia).
    pose proof (count_total c Hc k g ltac:(lia)). lia.
Qed.

(** The first table has at least the [l] bits that are looked up in it. *)
Lemma table_bits_root k a : 1 <= k <= l -> 1 <= a -> pos k a = 0 ->
  l <= table_bits c k 0 a (if l <? g - 0 then l else g - 0) <= l + 1.
Proof.
  intros Hk Ha H0. pose proof Hco as [Hc Hl Hg Hf Hm Hs].
  assert ((if l <? g - 0 then l else g - 0) = l) as -> by (destruct (Z.ltb_spec l (g - 0)); lia). unfold table_bits. rewrite Z.shiftl_1_l, Z.sub_0_r.
  assert (0 < 2 ^ (g - k)) as Hp by (apply Z.pow_pos_nonneg; lia). assert (2 ^ g = 2 ^ k * 2 ^ (g - k)) as Epow by (rewrite <- Z.pow_add_r by lia; f_equal; lia).
  assert (forall j, 0 <= j < g -> qend c g j < 2 ^ g) as Hlt.
  { intros j Hj. pose proof (qend_succ c g g ltac:(lia)) as E. pose proof (qend_le c g Hc j (g - 1) ltac:(lia) ltac:(lia)). replace (g - g) with 0 in E by lia. change (2 ^ 0) with 1 in E. lia. }
  unfold pos in H0. destruct (Z.ltb_spec a (2 ^ k)) as [Ha'|Ha'].
  - destruct (Z.ltb_spec k l) as [Hkl|Hkl]; [|cbn [widen]; destruct (Z.ltb_spec (k + 1) l); lia].
    destruct (widen_ok 17 (2 ^ k - a) k l 0 (2 ^ g)) as [R1 R2]; [lia|lia|lia|rewrite Z.add_0_l; nia|lia|lia|]. rewrite Z.add_0_l in R1, R2.
    destruct R2 as [->|R2]; [lia|]. rewrite Z.add_0_l in R2. destruct (Z.ltb_spec (widen 17 c (2 ^ k - a) k k l) g) as [Hg'|Hg']; [|lia].
    specialize (Hlt (widen 17 c (2 ^ k - a) k k l) ltac:(lia)). lia.
  - destruct (Z.ltb_spec k g) as [Hkg|Hkg]; [specialize (Hlt k ltac:(lia)); nia|lia].
Qed.
End Build.
