(* ===== verification/InflateTree.v ===== *)
(** * The loop of huft_build over the codes

    Its invariant, and that the tables it leaves hold every code. *)

From S2P Require Import Prelude Inflate InflateHuft.

Lemma rev_mod n x : 0 <= n -> rev n (x mod 2 ^ n) = rev n x.
Proof.
  intros Hn. revert x. pattern n. apply natlike_ind; [|clear n Hn; intros n Hn IH|done]; intros x; [done|]. change (Z.succ n) with (n + 1). rewrite !rev_succ by done.
  rewrite Z.pow_add_r by lia. change (2 ^ 1) with 2. rewrite (Z.mul_comm (2 ^ n) 2). assert (0 < 2 ^ n) by (apply Z.pow_pos_nonneg; lia).
  rewrite Z.rem_mul_r by lia. rewrite (Z.mul_comm 2 ((x / 2) mod 2 ^ n)), Z.mod_add, Z.div_add, Z.mod_mod by lia. rewrite (Z.div_small (x mod 2)), Z.add_0_l, IH by (apply Z.mod_pos_bound; lia). done.
Qed.

Lemma rev_next w r : 1 <= w -> 0 <= r < 2 ^ w -> rev w (r + 1) <> rev w r.
Proof.
  intros Hw Hr E. rewrite <- (rev_mod w (r + 1)) in E by lia. apply rev_inj in E; [|lia|apply Z.mod_pos_bound; lia|done].
  assert (2 <= 2 ^ w) by (rewrite <- (Z.pow_1_r 2) at 1; apply Z.pow_le_mono_r; lia).
  destruct (Z.eq_dec (r + 1) (2 ^ w)) as [E1|E1]; [rewrite E1, Z.mod_same in E by lia|rewrite Z.mod_small in E by lia]; lia.
Qed.

Lemma pow_divide a b : 0 <= a <= b -> (2 ^ a | 2 ^ b).
Proof. intros H. exists (2 ^ (b - a)). rewrite <- Z.pow_add_r by lia. f_equal. lia. Qed.

Lemma cell_insert t T lk es T' i : cell (<[T := (lk, es)]> t) T' i = if decide (T' = T) then es !! Z.to_nat i else cell t T' i.
Proof. unfold cell. destruct (decide (T' = T)) as [->|Hne]; [by rewrite lookup_insert_eq|by rewrite lookup_insert_ne]. Qed.

Lemma put_ok {A} (xs : list A) i x : 0 <= i < Z.of_nat (length xs) -> put xs i x = Ok (<[Z.to_nat i := x]> xs).
Proof. intros Hi. unfold put. by rewrite (proj2 (Z.leb_le 0 i)), (proj2 (Z.ltb_lt _ _)) by lia. Qed.

Lemma at_ok {A} (xs : list A) i x : 0 <= i -> xs !! Z.to_nat i = Some x -> at_ xs i = Ok x.
Proof. intros Hi H. unfold at_. by rewrite (proj2 (Z.ltb_ge i 0)), H by lia. Qed.

Lemma total_le c (Hc : Forall (Z.le 0) c) m m' : 0 <= m <= m' -> total c m <= total c m'.
Proof.
  intros Hm. replace m' with (m + (m' - m)) by lia. assert (0 <= m' - m) as Hd by lia. revert Hd. generalize (m' - m). intros d Hd. pattern d. apply natlike_ind; [|clear d Hd; intros d Hd IH|done].
  - rewrite Z.add_0_r. lia.
  - rewrite (total_succ c (m + Z.succ d)) by lia. replace (m + Z.succ d - 1) with (m + d) by lia. pose proof (count_nonneg c Hc (Z.to_nat (m + Z.succ d))). lia.
Qed.

(** ** Filling a table *)

Lemma fill_ok fuel es j z f r : 0 <= j -> 1 <= f -> z = Z.of_nat (length es) -> (Z.to_nat (z - j) < fuel)%nat ->
  exists es', fill fuel es j z f r = Ok es' /\ length es' = length es /\
    forall i, 0 <= i < z -> es' !! Z.to_nat i = if (j <=? i) && ((i - j) mod f =? 0) then Some r else es !! Z.to_nat i.
Proof.
  revert es j. induction fuel as [|fuel IH]; intros es j Hj Hf Hz Hfu; [lia|]. cbn [fill]. destruct (Z.ltb_spec j z) as [H|H].
  - rewrite put_ok by lia. cbn [mbind outcome_bind]. destruct (IH (<[Z.to_nat j := r]> es) (j + f)) as (es' & -> & Hl & He); [lia|lia|by rewrite length_insert|lia|].
    exists es'. rewrite Hl, length_insert. split; [done|]. split; [done|]. intros i Hi. rewrite (He i Hi). destruct (Z.eq_dec i j) as [->|Hne].
    + rewrite (proj2 (Z.leb_gt (j + f) j)), (proj2 (Z.leb_le j j)), Z.sub_diag, Z.mod_0_l by lia. cbn [andb]. by rewrite list_lookup_insert_eq by lia.
    + rewrite list_lookup_insert_ne by lia. destruct (Z.leb_spec (j + f) i) as [H1|H1].
      * rewrite (proj2 (Z.leb_le j i)) by lia. cbn [andb]. replace (i - (j + f)) with (i - j + (-1) * f) by lia. by rewrite Z.mod_add by lia.
      * cbn [andb]. destruct (Z.leb_spec j i) as [H2|H2]; [|done]. rewrite Z.mod_small by lia. by rewrite (proj2 (Z.eqb_neq (i - j) 0)) by lia.
  - exists es. split; [done|]. split; [done|]. intros i Hi. by rewrite (proj2 (Z.leb_gt j i)) by lia.
Qed.

(** ** The invariant *)

Section Loop.
Context (c : list Z) (g l : Z) (Hco : complete c g l).
Context (t0 : gmap Z (Z * list huft)) (n0 : Z) (Hn0 : 0 < n0) (Ht0 : forall T, n0 <= T -> t0 !! T = None).

(** The bits that lead to the table of level [i] for the code at position [P]. *)
Definition pfx (P i : Z) : Z := rev (l * i) (P / 2 ^ (g - l * i)).

(** The tables on the stack. *)
Record levels (O : gmap Z (Z * Z * Z)) (t : gmap Z (Z * list huft)) (P h : Z) (u x : list Z) : Prop := {
  lv_len : length u = 16%nat /\ length x = 17%nat /\ 0 <= h;
  lv_at : forall i, 0 <= i <= h -> exists T L, u !! Z.to_nat i = Some T /\ x !! Z.to_nat i = Some (pfx P i) /\ O !! T = Some (l * i, pfx P i, L) /\ 1 <= L <= l /\
    (L = l \/ 0 < i /\ (P / 2 ^ (g - l * i) + 1) * 2 ^ (g - l * i) <= qend c g (l * i + L));
  lv_link : forall i, 0 <= i < h -> exists T T' L, u !! Z.to_nat i = Some T /\ u !! Z.to_nat (i + 1) = Some T' /\ O !! T = Some (l * i, pfx P i, l) /\
    O !! T' = Some (l * (i + 1), pfx P (i + 1), L) /\ cell t T (pfx P (i + 1) / 2 ^ (l * i)) = Some (Huft (16 + L) l (Vt T')) }.

(** The tables in the order of their links. *)
Record linked_tabs (m : hmem) (ts : list Z) : Prop := {
  lt_dup : NoDup ts; lt_new : forall T, T ∈ ts -> n0 <= T < nexttab m; lt_next : n0 <= nexttab m;
  lt_link : forall i T, ts !! i = Some T -> exists es, tabs m !! T = Some (default NULL (ts !! S i), es);
  lt_old : forall T, T ∉ ts -> tabs m !! T = t0 !! T; lt_answers : Forall (eq true) (answers m) }.

(** A code that is in the tables: where it starts, its length, and its entry. *)
Definition found (t : gmap Z (Z * list huft)) (T P : Z) (x : Z * Z * Z * hval) : Prop :=
  let '(p, k, re, v) := x in
  1 <= k <= g /\ 0 <= p /\ (2 ^ (g - k) | p) /\ p + 2 ^ (g - k) <= P /\
  forall B, 0 <= B -> B mod 2 ^ k = rev k (p / 2 ^ (g - k)) -> exists r, walk 17 t T l B = Some (r, k) /\ he r = re /\ hv r = v.

Record inv (k a : Z) (st : hst) (O : gmap Z (Z * Z * Z)) (D : list (Z * Z * Z * hval)) (ts : list Z) : Prop := {
  in_k : 1 <= k <= g; in_a : 0 <= a <= nth (Z.to_nat k) c 0;
  in_i : si st = rev g (pos c g k a); in_w : sw st = l * sh st; in_wk : sw st < k;
  in_levels : levels O (tabs (sm st)) (pos c g k a) (sh st) (su st) (sx st);
  in_align : (2 ^ (g - Z.min g (l * (sh st + 1))) | pos c g k a);
  in_cur : sw st + l < k \/ su st !! Z.to_nat (sh st) = Some (sq st) /\ exists lk es, tabs (sm st) !! sq st = Some (lk, es) /\ sz st = Z.of_nat (length es) /\
    forall w p L, O !! sq st = Some (w, p, L) -> 2 ^ L <= sz st;
  in_own : owned l O (tabs (sm st)); in_dom : forall T, is_Some (O !! T) <-> T ∈ ts;
  in_root : O !! sroot st = Some (0, 0, l) /\ su st !! 0%nat = Some (sroot st) /\ head ts = Some (sroot st);
  in_mem : linked_tabs (sm st) ts; in_last : slink st = last ts;
  in_done : Forall (found (tabs (sm st)) (sroot st) (pos c g k a)) D;
  in_short : forall x, x ∈ D -> (let '(_, k', _, _) := x in k' <= k) }.

Lemma pos_lt k a : 1 <= k <= g -> 1 <= a <= nth (Z.to_nat k) c 0 -> 0 <= pos c g k a /\ pos c g k a + 2 ^ (g - k) <= 2 ^ g /\ 0 < 2 ^ (g - k).
Proof.
  intros Hk Ha. destruct (pos_bounds c g l Hco k a Hk ltac:(lia)) as (HP & _ & Hend). assert (0 < 2 ^ (g - k)) by (apply Z.pow_pos_nonneg; lia). nia.
Qed.

Lemma level_bound h k : 0 <= h -> l * h < k -> k <= 16 -> h < 16 /\ 0 <= l * h.
Proof. intros. destruct Hco. nia. Qed.

Lemma pow_div a b x : 0 <= a -> 0 <= b -> x / 2 ^ a / 2 ^ b = x / 2 ^ (a + b).
Proof. apply div_pow_add. Qed.

Lemma rev_prefix P w : 0 <= w <= g -> rev g P mod 2 ^ w = rev w (P / 2 ^ (g - w)).
Proof. intros Hw. replace g with (w + (g - w)) at 1 by lia. apply rev_low; lia. Qed.

Lemma pfx_low P i h : 0 <= i <= h -> l * h <= g -> pfx P h mod 2 ^ (l * i) = pfx P i.
Proof.
  intros Hi Hh. destruct Hco as [_ Hl _ _ _ _]. unfold pfx. replace (l * h) with (l * i + l * (h - i)) at 1 by lia. rewrite rev_low by nia.
  rewrite pow_div by nia. do 3 f_equal. lia.
Qed.

Lemma pfx_step P i : 0 <= i -> l * (i + 1) <= g -> pfx P (i + 1) = pfx P i + pfx P (i + 1) / 2 ^ (l * i) * 2 ^ (l * i) /\ pfx P (i + 1) / 2 ^ (l * i) < 2 ^ l.
Proof.
  intros Hi Hg. destruct Hco as [_ Hl _ _ _ _]. pose proof (pfx_low P i (i + 1) ltac:(lia) Hg) as E. assert (0 < 2 ^ (l * i)) by (apply Z.pow_pos_nonneg; nia).
  split; [rewrite (Z.div_mod (pfx P (i + 1)) (2 ^ (l * i))) at 1 by lia; rewrite E; lia|].
  apply Z.div_lt_upper_bound; [done|]. rewrite <- Z.pow_add_r by nia. replace (l * i + l) with (l * (i + 1)) by lia. apply rev_range. nia.
Qed.

(** The bits of a code lead to the top of the stack. *)
Lemma reach O t P h u x T0 T L B n : levels O t P h u x -> l * h <= g -> u !! 0%nat = Some T0 -> u !! Z.to_nat h = Some T -> O !! T = Some (l * h, pfx P h, L) ->
  B mod 2 ^ (l * h) = pfx P h -> walk (n + Z.to_nat h) t T0 l B = '(r, b) ← walk n t T L (B / 2 ^ (l * h)); Some (r, l * h + b).
Proof.
  intros [(_ & _ & Hh) Hat Hlk] Hg H0 HT HO HB. pose proof Hco as [_ Hl Hg16 _ _ _].
  assert (forall j, (j <= Z.to_nat h)%nat -> forall n T L, u !! j = Some T -> O !! T = Some (l * Z.of_nat j, pfx P (Z.of_nat j), L) ->
    walk (n + j) t T0 l B = '(r, b) ← walk n t T L (B / 2 ^ (l * Z.of_nat j)); Some (r, l * Z.of_nat j + b)) as Hind;
    [|rewrite (Hind (Z.to_nat h) ltac:(lia) n T L HT); rewrite Z2Nat.id by lia; done].
  clear n T L HT HO. induction j as [|j IH]; intros Hj n T L HT HO.
  - rewrite Nat.add_0_r. destruct (Hat 0 ltac:(lia)) as (T1 & L1 & Hu & _ & HO1 & _ & [->|[? _]]); [|lia]. rewrite HT in H0. injection H0 as ->.
    change (Z.to_nat 0) with 0%nat in Hu. rewrite HT in Hu. injection Hu as ->. change (Z.of_nat 0) with 0 in *. rewrite Z.mul_0_r in *. rewrite HO1 in HO. injection HO as <-.
    change (2 ^ 0) with 1. rewrite Z.div_1_r. destruct (walk n t T1 l B) as [[r b]|]; done.
  - destruct (Hlk (Z.of_nat j) ltac:(lia)) as (T1 & T2 & L2 & Hu1 & Hu2 & HO1 & HO2 & Hc). rewrite Nat2Z.id in Hu1. replace (Z.to_nat (Z.of_nat j + 1)) with (S j) in Hu2 by lia.
    rewrite HT in Hu2. injection Hu2 as ->. replace (Z.of_nat (S j)) with (Z.of_nat j + 1) in * by lia. rewrite HO2 in HO. injection HO as ->.
    rewrite Nat.add_succ_r. change (S (n + j)) with (S n + j)%nat. rewrite (IH ltac:(lia) (S n) T1 l Hu1 HO1). cbn [walk].
    assert ((B / 2 ^ (l * Z.of_nat j)) mod 2 ^ l = pfx P (Z.of_nat j + 1) / 2 ^ (l * Z.of_nat j)) as ->.
    { rewrite <- (pfx_low P (Z.of_nat j + 1) h ltac:(lia) Hg), <- HB. replace (l * (Z.of_nat j + 1)) with (l * Z.of_nat j + l) by lia.
      assert (2 ^ (l * h) = 2 ^ (l * h - (l * Z.of_nat j + l)) * 2 ^ (l * Z.of_nat j + l)) as E by (rewrite <- Z.pow_add_r by nia; f_equal; lia).
      rewrite <- Znumtheory.Zmod_div_mod; [|apply Z.pow_pos_nonneg; nia|apply Z.pow_pos_nonneg; nia|by eexists].
      rewrite mod_split by nia. rewrite Z.div_add by (apply Z.pow_nonzero; nia). rewrite (Z.div_small (B mod _)); [lia|]. apply Z.mod_pos_bound, Z.pow_pos_nonneg; nia. }
    rewrite Hc. cbn [mbind option_bind he hb hv]. destruct (Hat (Z.of_nat j + 1) ltac:(lia)) as (T3 & L3 & Hu3 & _ & HO3 & HL3 & _).
    replace (Z.to_nat (Z.of_nat j + 1)) with (S j) in Hu3 by lia. rewrite HT in Hu3. injection Hu3 as <-. rewrite HO2 in HO3. injection HO3 as <-.
    rewrite (proj2 (Z.leb_le 1 l)), (proj2 (Z.leb_le l l)), Z.eqb_refl by lia. unfold is_ptr. cbn [he]. rewrite (proj2 (Z.ltb_lt 16 (16 + L))) by lia. rewrite (proj2 (Z.eqb_neq (16 + L) 99)), (proj2 (Z.leb_le (16 + L) 32)) by lia. cbn [andb negb]. replace (16 + L - 16) with L by lia.
    rewrite pow_div by nia. replace (l * Z.of_nat j + l) with (l * (Z.of_nat j + 1)) by lia. destruct (walk n t T2 L _) as [[r b]|]; [|done]. cbn. do 2 f_equal. lia.
Qed.

(** The cells that [fill] writes are those that bits with the code [i] lead to. *)
Lemma cell_hit B w k L i : 0 <= w < k -> k - w <= L -> 0 <= i < 2 ^ k -> B mod 2 ^ w = i mod 2 ^ w ->
  (i / 2 ^ w <=? (B / 2 ^ w) mod 2 ^ L) && (((B / 2 ^ w) mod 2 ^ L - i / 2 ^ w) mod 2 ^ (k - w) =? 0) = (B mod 2 ^ k =? i).
Proof.
  intros Hw HL Hi HB. set (f := 2 ^ (k - w)). set (j := i / 2 ^ w). assert (0 < 2 ^ w) as Hpw by (apply Z.pow_pos_nonneg; lia). assert (0 < f) as Hf by (apply Z.pow_pos_nonneg; lia).
  assert (2 ^ k = 2 ^ w * f) as Ek by (unfold f; rewrite <- Z.pow_add_r by lia; f_equal; lia).
  assert (0 <= j < f) as Hj by (split; [apply Z.div_pos; lia|apply Z.div_lt_upper_bound; lia]).
  assert (B mod 2 ^ k = B mod 2 ^ w + (B / 2 ^ w) mod f * 2 ^ w) as EB by (unfold f; rewrite <- mod_split by lia; do 2 f_equal; lia).
  assert (i = i mod 2 ^ w + j * 2 ^ w) as Ei by (unfold j; rewrite (Z.div_mod i (2 ^ w)) at 1 by lia; lia).
  assert ((B / 2 ^ w) mod f = ((B / 2 ^ w) mod 2 ^ L) mod f) as Em.
  { apply Znumtheory.Zmod_div_mod; [done|apply Z.pow_pos_nonneg; lia|]. exists (2 ^ (L - (k - w))). unfold f. rewrite <- Z.pow_add_r by lia. f_equal. lia. }
  rewrite Em in EB. set (idx := (B / 2 ^ w) mod 2 ^ L) in *. assert (0 <= idx) as Hidx by (apply Z.mod_pos_bound, Z.pow_pos_nonneg; lia).
  destruct (Z.eqb_spec (B mod 2 ^ k) i) as [E|E].
  - assert (idx mod f = j) as Ej by nia. pose proof (Z.mod_le idx f ltac:(lia) ltac:(lia)). rewrite (proj2 (Z.leb_le j idx)) by lia. cbn [andb]. apply Z.eqb_eq.
    rewrite <- Ej. rewrite (Z.div_mod idx f) at 1 by lia. replace (f * (idx / f) + idx mod f - idx mod f) with (idx / f * f) by lia. apply Z.mod_mul. lia.
  - apply andb_false_iff. destruct (Z.leb_spec j idx) as [Hle|]; [right|by left]. apply Z.eqb_neq. intros E0. apply E. rewrite EB, Ei, HB. f_equal. f_equal.
    rewrite <- (Z.mod_small j f) by lia. replace idx with (idx - j + j) by lia. rewrite Z.add_mod, E0, Z.add_0_l, Z.mod_mod by lia. done.
Qed.

(** The next code is in the same region, or at the start of the next one. *)
Lemma next_region P w k : 0 <= w < k -> k <= g -> (2 ^ (g - k) | P) -> let P' := P + 2 ^ (g - k) in
  P' / 2 ^ (g - w) = P / 2 ^ (g - w) \/ P' / 2 ^ (g - w) = P / 2 ^ (g - w) + 1 /\ (2 ^ (g - w) | P').
Proof.
  intros Hw Hk [q ->]. cbv zeta. set (D := 2 ^ (g - k)). set (M := 2 ^ (k - w)). assert (0 < D) as HD by (apply Z.pow_pos_nonneg; lia).
  assert (0 < M) as HM by (apply Z.pow_pos_nonneg; lia). assert (2 ^ (g - w) = M * D) as -> by (unfold M, D; rewrite <- Z.pow_add_r by lia; f_equal; lia).
  replace (q * D + D) with ((q + 1) * D) by lia. rewrite !Z.div_mul_cancel_r by lia. pose proof (Z.div_mod q M ltac:(lia)) as E. pose proof (Z.mod_pos_bound q M HM) as Hm.
  destruct (Z.eq_dec (q mod M) (M - 1)) as [Em|Em].
  - right. assert (q + 1 = (q / M + 1) * M) as E1 by lia. rewrite E1, Z.div_mul by lia. split; [done|]. exists (q / M + 1). lia.
  - left. symmetry. apply (Z.div_unique _ _ _ (q mod M + 1)); lia.
Qed.

Lemma levels_next O t P P' h h' u x : levels O t P h u x -> 0 <= h' <= h -> l * h' <= g -> pfx P' h' = pfx P h' ->
  (forall i, 0 < i <= h' -> P' / 2 ^ (g - l * i) = P / 2 ^ (g - l * i)) -> levels O t P' h' u x.
Proof.
  intros [(Hu & Hx & Hh) Hat Hlk] Hh' Hg Hp Hr. assert (forall i, 0 <= i <= h' -> pfx P' i = pfx P i) as Hpi by (intros i Hi; by rewrite <- !(fun Q => pfx_low Q i h' Hi Hg), Hp).
  split; [split_and!; try done; lia| |].
  - intros i Hi. destruct (Hat i ltac:(lia)) as (T & L & H1 & H2 & H3 & H4 & H5). exists T, L. rewrite Hpi by done. split_and!; try done; try lia.
    destruct H5 as [->|[H5 H6]]; [by left|right]. split; [done|]. by rewrite (Hr i ltac:(lia)).
  - intros i Hi. destruct (Hlk i ltac:(lia)) as (T & T' & L & H1 & H2 & H3 & H4 & H5). exists T, T', L. rewrite !Hpi by lia. done.
Qed.

Lemma backup_ok O t P k h u x fuel : levels O t P h u x -> 0 <= P < 2 ^ g -> l * h < k <= l * h + l -> k <= g -> (2 ^ (g - k) | P) -> (Z.to_nat h < fuel)%nat ->
  let P' := P + 2 ^ (g - k) in exists h', backup fuel (rev g P') l x h (l * h) = Ok (h', l * h') /\ 0 <= h' <= h /\ levels O t P' h' u x /\
    (2 ^ (g - Z.min g (l * (h' + 1))) | P') /\ (h' = h \/ l * h' + l < k).
Proof.
  intros Hlv HP Hk Hkg Hd Hfu. cbv zeta. set (P' := P + 2 ^ (g - k)). pose proof Hco as [_ Hl _ _ _ _]. pose proof (lv_len _ _ _ _ _ _ Hlv) as (_ & _ & Hh).
  assert (forall n fuel, (n <= Z.to_nat h)%nat -> (n < fuel)%nat -> (n = Z.to_nat h \/ (2 ^ (g - l * (Z.of_nat n + 1)) | P') /\ l * (Z.of_nat n + 1) < k) ->
    exists h', backup fuel (rev g P') l x (Z.of_nat n) (l * Z.of_nat n) = Ok (h', l * h') /\ 0 <= h' <= h /\ levels O t P' h' u x /\
      (2 ^ (g - Z.min g (l * (h' + 1))) | P') /\ (h' = h \/ l * h' + l < k)) as Hind; [|destruct (Hind (Z.to_nat h) fuel) as (h' & E & H); [lia|lia|by left|]; rewrite Z2Nat.id in E by lia; by exists h'].
  clear fuel Hfu. assert (forall i fuel, 0 <= i <= h -> backup (S fuel) (rev g P') l x i (l * i) =
    if rev (l * i) (P' / 2 ^ (g - l * i)) =? pfx P i then Ok (i, l * i) else backup fuel (rev g P') l x (i - 1) (l * i - l)) as Hstep.
  { intros i fuel Hi. cbn [backup]. destruct (lv_at _ _ _ _ _ _ Hlv i Hi) as (T & L & _ & Hx & _). rewrite (at_ok x i (pfx P i)) by (done || lia). cbn [mbind outcome_bind].
    rewrite Z.shiftl_1_l. replace (2 ^ (l * i) - 1) with (Z.ones (l * i)) by (rewrite Z.ones_equiv; lia). rewrite Z.land_ones by nia. by rewrite rev_prefix by nia. }
  induction n as [|n IH]; intros fuel Hn Hfu Hal; (destruct fuel as [|fuel]; [lia|]); rewrite Hstep by lia.
  - exists 0. change (Z.of_nat 0) with 0. unfold pfx. rewrite Z.mul_0_r. split; [done|]. split; [lia|]. split; [apply (levels_next O t P P' h 0 u x Hlv); [lia|lia|unfold pfx; by rewrite Z.mul_0_r|intros; lia]|].
    rewrite Z.add_0_l, Z.mul_1_r. change (Z.of_nat 0) with 0 in Hal. destruct Hal as [Hal|[Hal1 Hal2]].
    + assert (h = 0) as -> by lia. split; [|by left]. eapply Z.divide_trans; [|apply Z.divide_add_r; [exact Hd|apply Z.divide_refl]]. apply pow_divide. lia.
    + split; [|right; lia]. by replace (Z.min g l) with (l * (0 + 1)) by lia.
  - set (i := Z.of_nat (S n)) in *. assert (0 < i <= h) as Hi by lia. destruct (next_region P (l * i) k ltac:(nia) Hkg Hd) as [Er|[Er Ha]]; fold P' in Er.
    + rewrite Er. unfold pfx at 1. rewrite Z.eqb_refl. exists i. split; [done|]. split; [lia|]. split.
      { apply (levels_next O t P P' h i u x Hlv); [lia|nia|unfold pfx; by rewrite Er|]. intros j Hj. destruct (next_region P (l * j) k ltac:(nia) Hkg Hd) as [E|[E _]]; [done|]. exfalso.
        fold P' in E. assert (P' / 2 ^ (g - l * i) / 2 ^ (l * i - l * j) = P / 2 ^ (g - l * i) / 2 ^ (l * i - l * j)) as E2 by (by rewrite Er).
        rewrite !pow_div in E2 by (pose proof (Z.mul_le_mono_nonneg_l j i l); lia). replace (g - l * i + (l * i - l * j)) with (g - l * j) in E2 by lia. lia. }
      destruct Hal as [Hal|[Hal1 Hal2]].
      * assert (i = h) as -> by lia. split; [|by left]. eapply Z.divide_trans; [|apply Z.divide_add_r; [exact Hd|apply Z.divide_refl]]. apply pow_divide. lia.
      * split; [|right; lia]. by replace (Z.min g (l * (i + 1))) with (l * (i + 1)) by lia.
    + unfold pfx at 1. rewrite Er. rewrite (proj2 (Z.eqb_neq _ _)).
      * replace (i - 1) with (Z.of_nat n) by lia. replace (l * i - l) with (l * Z.of_nat n) by lia. apply IH; [lia|lia|]. right. replace (Z.of_nat n + 1) with i by lia. split; [done|nia].
      * apply rev_next; [nia|]. split; [apply Z.div_pos; [lia|apply Z.pow_pos_nonneg; nia]|]. apply Z.div_lt_upper_bound; [apply Z.pow_pos_nonneg; nia|]. rewrite <- Z.pow_add_r by nia. replace (g - l * i + l * i) with g by lia. lia.
Qed.

Lemma mod_rev B k m x : 0 <= m <= k -> B mod 2 ^ k = rev k x -> B mod 2 ^ m = rev m (x / 2 ^ (k - m)).
Proof.
  intros Hm E. rewrite <- rev_low by lia. replace (m + (k - m)) with k by lia. rewrite <- E. apply Znumtheory.Zmod_div_mod; [apply Z.pow_pos_nonneg; lia|apply Z.pow_pos_nonneg; lia|apply pow_divide; lia].
Qed.

Lemma div_range x m : 0 <= x < 2 ^ g -> 0 <= m <= g -> 0 <= x / 2 ^ (g - m) < 2 ^ m.
Proof.
  intros Hx Hm. assert (0 < 2 ^ (g - m)) by (apply Z.pow_pos_nonneg; lia). split; [apply Z.div_pos; lia|]. apply Z.div_lt_upper_bound; [done|].
  rewrite <- Z.pow_add_r by lia. replace (g - m + m) with g by lia. lia.
Qed.

(** No bits begin with a code that is in the tables and with a later one. *)
Lemma codes_apart B p k m P : 0 <= k <= g -> 0 <= m <= g -> 0 <= p -> P < 2 ^ g -> (2 ^ (g - k) | p) -> (2 ^ (g - m) | P) -> p + 2 ^ (g - k) <= P ->
  B mod 2 ^ k = rev k (p / 2 ^ (g - k)) -> B mod 2 ^ m = rev m (P / 2 ^ (g - m)) -> False.
Proof.
  intros Hk Hm Hp HP [y Hy] [z Hz] Hle E1 E2. assert (0 < 2 ^ (g - k)) by (apply Z.pow_pos_nonneg; lia). assert (0 < 2 ^ (g - m)) by (apply Z.pow_pos_nonneg; lia).
  set (q := Z.min k m). pose proof (mod_rev B k q _ ltac:(lia) E1) as F1. pose proof (mod_rev B m q _ ltac:(lia) E2) as F2. rewrite pow_div in F1, F2 by lia.
  replace (g - k + (k - q)) with (g - q) in F1 by lia. replace (g - m + (m - q)) with (g - q) in F2 by lia. rewrite F1 in F2.
  apply rev_inj in F2; [|lia|apply div_range; lia|apply div_range; lia]. unfold q in F2. destruct (Z.le_ge_cases k m).
  - replace (Z.min k m) with k in F2 by lia. rewrite Hy, Z.div_mul in F2 by lia. pose proof (Z.div_le_mono ((y + 1) * 2 ^ (g - k)) P (2 ^ (g - k)) ltac:(lia) ltac:(lia)) as Hy2. rewrite Z.div_mul in Hy2 by lia. lia.
  - replace (Z.min k m) with m in F2 by lia. rewrite Hz, Z.div_mul in F2 by lia. pose proof (Z.div_lt_upper_bound p (2 ^ (g - m)) z ltac:(lia) ltac:(lia)). lia.
Qed.

(** What is written for the code at [P] does not touch the codes before it. *)
Lemma found_agree O t t' T P m x : owned l O t -> O !! T = Some (0, 0, l) -> P < 2 ^ g -> 0 <= m <= g -> (2 ^ (g - m) | P) ->
  (forall B T w p L, 0 <= B -> O !! T = Some (w, p, L) -> B mod 2 ^ w = p -> B mod 2 ^ m <> rev m (P / 2 ^ (g - m)) -> cell t' T ((B / 2 ^ w) mod 2 ^ L) = cell t T ((B / 2 ^ w) mod 2 ^ L)) ->
  found t T P x -> found t' T P x.
Proof.
  intros HO HT HP Hm Hd Hag. destruct x as [[[p k] re] v]. intros (Hk & Hp & Hpd & Hle & Hf). split_and!; try done; try lia. intros B HB E.
  destruct (Hf B HB E) as (r & Hw & Hr). exists r. split; [|done]. rewrite <- Hw. rewrite <- (Z.div_1_r B). change 1 with (2 ^ 0).
  apply (walk_agree l ltac:(destruct Hco; lia) O t t' B HO) with (p := 0); [|done|apply Z.mod_1_r]. intros T1 w p1 L H1 H2. apply (Hag B T1 w p1 L HB H1 H2).
  intros E2. apply (codes_apart B p k m P); (done || lia).
Qed.

(** ** A new table *)

(** The table of a level has room for the code, or it has the full size. *)
Lemma level_room O t k a h u x i : levels O t (pos c g k a) h u x -> 1 <= k <= g -> 1 <= a <= nth (Z.to_nat k) c 0 -> 0 <= i <= h -> l * i <= g ->
  exists T L, u !! Z.to_nat i = Some T /\ x !! Z.to_nat i = Some (pfx (pos c g k a) i) /\ O !! T = Some (l * i, pfx (pos c g k a) i, L) /\ 1 <= L <= l /\ (L = l \/ k <= l * i + L).
Proof.
  intros Hlv Hk Ha Hi Hg. destruct (lv_at _ _ _ _ _ _ Hlv i Hi) as (T & L & H1 & H2 & H3 & H4 & H5). exists T, L. split_and!; try done; try lia. destruct H5 as [->|[_ H5]]; [by left|right].
  destruct (Z.le_gt_cases k (l * i + L)) as [|Hgt]; [done|exfalso]. destruct (pos_bounds c g l Hco k a ltac:(lia) ltac:(lia)) as ([_ Hq] & _ & _). pose proof Hco as [Hc Hl _ _ _ _].
  pose proof (qend_le c g Hc (l * i + L) (k - 1) ltac:(nia) ltac:(lia)). assert (0 < 2 ^ (g - l * i)) as Hp by (apply Z.pow_pos_nonneg; lia).
  pose proof (Z.div_mod (pos c g k a) (2 ^ (g - l * i)) ltac:(lia)). pose proof (Z.mod_pos_bound (pos c g k a) (2 ^ (g - l * i)) Hp). nia.
Qed.

(** The table [q] with [n] entries is new, linked from [tl]; the entry [i] of [tp] points to it. *)
Definition grown (t : gmap Z (Z * list huft)) (q tl tp i n : Z) (r : huft) (t' : gmap Z (Z * list huft)) : Prop :=
  t' !! q = Some (NULL, replicate (Z.to_nat n) zero_huft) /\
  (forall T, T <> q -> fst <$> t' !! T = if decide (T = tl) then Some q else fst <$> t !! T) /\
  (forall T, T <> q -> snd <$> t' !! T = if decide (T = tp) then (fun es => <[Z.to_nat i := r]> es) <$> (snd <$> t !! T) else snd <$> t !! T).

Lemma grown_ok t q tl tp i n r : q <> tl -> q <> tp -> is_Some (t !! tl) -> (exists lk es, t !! tp = Some (lk, es) /\ 0 <= i < Z.of_nat (length es)) -> 0 <= i ->
  exists lk es lk2 es2, (<[q := (NULL, replicate (Z.to_nat n) zero_huft)]> t) !! tl = Some (lk, es) /\
    (<[tl := (q, es)]> (<[q := (NULL, replicate (Z.to_nat n) zero_huft)]> t)) !! tp = Some (lk2, es2) /\ put es2 i r = Ok (<[Z.to_nat i := r]> es2) /\
    grown t q tl tp i n r (<[tp := (lk2, <[Z.to_nat i := r]> es2)]> (<[tl := (q, es)]> (<[q := (NULL, replicate (Z.to_nat n) zero_huft)]> t))).
Proof.
  intros Hql Hqp [[lk es] Htl] (lkp & esp & Htp & Hi) Hi0. exists lk, es, (if decide (tp = tl) then q else lkp), esp. rewrite lookup_insert_ne by done. split; [done|].
  assert ((<[tl := (q, es)]> (<[q := (NULL, replicate (Z.to_nat n) zero_huft)]> t)) !! tp = Some (if decide (tp = tl) then q else lkp, esp)) as E.
  { destruct (decide (tp = tl)) as [->|Hne]; [rewrite lookup_insert_eq; congruence|by rewrite !lookup_insert_ne]. }
  split; [done|]. split; [by apply put_ok|]. split; [rewrite (lookup_insert_ne _ tp q) by done; rewrite (lookup_insert_ne _ tl q) by done; apply lookup_insert_eq|]. split; intros T HT.
  - destruct (decide (T = tp)) as [->|Hp]; [rewrite lookup_insert_eq; cbn; destruct (decide (tp = tl)); [done|by rewrite Htp]|]. rewrite lookup_insert_ne by done.
    destruct (decide (T = tl)) as [->|Hl']; [by rewrite lookup_insert_eq|by rewrite !lookup_insert_ne].
  - destruct (decide (T = tp)) as [->|Hp]; [rewrite lookup_insert_eq, Htp; done|]. rewrite lookup_insert_ne by done.
    destruct (decide (T = tl)) as [->|Hl']; [rewrite lookup_insert_eq, Htl; done|by rewrite !lookup_insert_ne].
Qed.

Lemma grown_cell t q tl tp i n r t' T j : grown t q tl tp i n r t' -> T <> q -> 0 <= i -> 0 <= j -> is_Some (cell t T j) ->
  cell t' T j = if decide (T = tp /\ j = i) then Some r else cell t T j.
Proof.
  intros (_ & _ & Hs) HT Hi Hj Hc. specialize (Hs T HT). unfold cell in *. destruct (t !! T) as [[lk es]|] eqn:Et; [|by destruct Hc]. cbn in Hc, Hs |- *.
  destruct (t' !! T) as [[lk' es']|]; [|by destruct (decide (T = tp))]. cbn in Hs |- *. destruct (decide (T = tp)) as [->|Hp].
  - injection Hs as ->. destruct (decide (j = i)) as [->|Hne].
    + rewrite decide_True by done. apply list_lookup_insert_eq. by apply lookup_lt_is_Some.
    + rewrite decide_False by tauto. rewrite list_lookup_insert_ne by lia. done.
  - injection Hs as ->. rewrite decide_False by tauto. done.
Qed.

Lemma zero_cell t q n j : t !! q = Some (NULL, replicate (Z.to_nat n) zero_huft) -> 0 <= j < n -> cell t q j = Some zero_huft.
Proof. intros E Hj. unfold cell. rewrite E. cbn. apply lookup_replicate_2. lia. Qed.

Lemma owned_grown O t t' q tl tp i n j wp pp : owned l O t -> O !! q = None -> O !! tp = Some (wp, pp, l) -> 0 <= i < 2 ^ l -> 1 <= j <= 16 -> 2 ^ j <= n ->
  grown t q tl tp i n (Huft (16 + j) l (Vt q)) t' -> owned l (<[q := (wp + l, pp + i * 2 ^ wp, j)]> O) t'.
Proof.
  intros HO Hq Htp Hi Hj Hn Hgr T w p L HT. pose proof (proj1 Hgr) as Eq. assert (0 <= l) as Hl0 by (destruct Hco; lia). destruct (decide (T = q)) as [->|Hne].
  - rewrite lookup_insert_eq in HT. injection HT as <- <- <-. destruct (HO _ _ _ _ Htp) as (? & _). split_and!; try lia. intros x Hx. exists zero_huft. split; [apply (zero_cell _ _ n); [done|lia]|done].
  - rewrite lookup_insert_ne in HT by done. destruct (HO T w p L HT) as (Hw & HL & Hc). split_and!; try done. intros x Hx. destruct (Hc x Hx) as (r & Hr & Hptr).
    rewrite (grown_cell t q tl tp i n _ t' T x Hgr Hne ltac:(lia) ltac:(lia)) by (by rewrite Hr). destruct (decide (T = tp /\ x = i)) as [[-> ->]|Hn2].
    + eexists. split; [reflexivity|]. intros _. cbn. rewrite Htp in HT. injection HT as <- <- <-. split; [done|]. split; [done|]. exists q. split; [done|].
      rewrite lookup_insert_eq. do 2 f_equal. lia.
    + exists r. split; [done|]. intros Hp. destruct (Hptr Hp) as (H1 & H2 & T' & H3 & H4). split; [done|]. split; [done|]. exists T'. split; [done|].
      rewrite lookup_insert_ne; [done|congruence].
Qed.

Lemma levels_grown O t t' P h u x q tl tp n j : levels O t P h u x -> O !! q = None -> owned l O t -> l * (h + 1) < g -> 1 <= j <= l ->
  u !! Z.to_nat h = Some tp -> O !! tp = Some (l * h, pfx P h, l) ->
  (j = l \/ (P / 2 ^ (g - l * (h + 1)) + 1) * 2 ^ (g - l * (h + 1)) <= qend c g (l * (h + 1) + j)) ->
  grown t q tl tp (pfx P (h + 1) / 2 ^ (l * h)) n (Huft (16 + j) l (Vt q)) t' ->
  levels (<[q := (l * (h + 1), pfx P (h + 1), j)]> O) t' P (h + 1) (<[Z.to_nat (h + 1) := q]> u) (<[Z.to_nat (h + 1) := pfx P (h + 1)]> x).
Proof.
  intros [(Hu & Hx & Hh) Hat Hlk] Hq HO Hg Hj Htp HOtp Hcap Hgr. pose proof Hco as [_ Hl Hg16 _ _ _].
  assert (forall T, is_Some (O !! T) -> T <> q) as Hnq by (intros T [y HT] ->; congruence). split; [rewrite !length_insert; split_and!; try done; lia| |].
  - intros i Hi. destruct (Z.eq_dec i (h + 1)) as [->|Hne].
    + exists q, j. rewrite !list_lookup_insert_eq, lookup_insert_eq by nia. split_and!; try done; try lia.
    + destruct (Hat i ltac:(lia)) as (T & L & H1 & H2 & H3 & H4). exists T, L. rewrite !list_lookup_insert_ne by lia. rewrite lookup_insert_ne by (symmetry; apply Hnq; eauto). done.
  - intros i Hi. destruct (Z.eq_dec i h) as [->|Hne].
    + exists tp, q, j. rewrite list_lookup_insert_ne, list_lookup_insert_eq, lookup_insert_ne, lookup_insert_eq by (try (symmetry; apply Hnq; eauto); nia). split_and!; try done.
      destruct (HO _ _ _ _ HOtp) as (Hw & _ & Hc). destruct (pfx_step P h Hh ltac:(lia)) as [_ Hlt].
      assert (0 <= pfx P (h + 1) / 2 ^ (l * h)) as Hge by (apply Z.div_pos; [apply rev_range; nia|apply Z.pow_pos_nonneg; lia]).
      destruct (Hc _ (conj Hge Hlt)) as (r & Hr & _). rewrite (grown_cell _ _ _ _ _ _ _ _ tp _ Hgr) by (try (apply Hnq; eauto); try lia; by rewrite Hr). by rewrite decide_True.
    + destruct (Hlk i ltac:(lia)) as (T & T' & L & H1 & H2 & H3 & H4 & H5). exists T, T', L. rewrite !list_lookup_insert_ne by lia. rewrite !lookup_insert_ne by (symmetry; apply Hnq; eauto). split_and!; try done.
      assert (0 <= pfx P (i + 1) / 2 ^ (l * i)) as Hge by (apply Z.div_pos; [apply rev_range; nia|apply Z.pow_pos_nonneg; nia]).
      assert (0 <= pfx P (h + 1) / 2 ^ (l * h)) as Hge2 by (apply Z.div_pos; [apply rev_range; nia|apply Z.pow_pos_nonneg; nia]).
      rewrite (grown_cell _ _ _ _ _ _ _ _ T _ Hgr) by (try (apply Hnq; eauto); try lia; by rewrite H5). rewrite decide_False; [done|]. intros [-> _]. rewrite HOtp in H3. injection H3 as E. nia.
Qed.

Lemma linked_grown m ts tl tp i n r t' hu : linked_tabs m ts -> last ts = Some tl -> tp ∈ ts -> grown (tabs m) (nexttab m) tl tp i n r t' ->
  linked_tabs (MkHm t' (nexttab m + 1) (tail (answers m)) hu) (ts ++ [nexttab m]).
Proof.
  intros [Hd Hn Hnx Hlk Hold Hans] Hlast Htp (Hq & Hf & Hs). assert (nexttab m ∉ ts) as Hfresh by (intros H; specialize (Hn _ H); lia). split; cbn.
  - apply NoDup_app. split; [done|]. split; [|apply NoDup_singleton]. intros x Hx ->%list_elem_of_singleton. done.
  - intros T [H|H%list_elem_of_singleton]%elem_of_app; [specialize (Hn _ H); lia|lia].
  - lia.
  - intros k T [H|[Hk H]]%lookup_app_Some.
    + assert (T <> nexttab m) as Hne by (intros ->; by apply list_elem_of_lookup_2 in H). destruct (Hlk k T H) as (es & E). specialize (Hf T Hne). specialize (Hs T Hne). rewrite E in Hf, Hs. cbn in Hf, Hs.
      destruct (t' !! T) as [[lk es']|]; [|by destruct (decide (T = tl))]. exists es'. cbn in Hf. f_equal. f_equal. destruct (decide (T = tl)) as [->|Hl'].
      * injection Hf as ->. assert (k = (length ts - 1)%nat) as ->.
        { rewrite last_lookup in Hlast. eapply (NoDup_lookup ts); [done|exact H|]. by replace (length ts - 1)%nat with (pred (length ts)) by lia. }
        apply lookup_lt_Some in H. rewrite lookup_app_r by lia. by replace (S (length ts - 1) - length ts)%nat with 0%nat by lia.
      * injection Hf as ->. f_equal. apply lookup_lt_Some in H as Hlt. destruct (decide (S k < length ts)%nat); [by rewrite lookup_app_l|]. exfalso. apply Hl'.
        rewrite last_lookup in Hlast. replace (pred (length ts)) with k in Hlast by lia. congruence.
    + apply list_lookup_singleton_Some in H as [H <-]. rewrite lookup_ge_None_2 by (rewrite length_app; cbn; lia). by eexists.
  - intros T HT. rewrite not_elem_of_app, list_elem_of_singleton in HT. destruct HT as [HT Hne]. rewrite <- (Hold T HT). specialize (Hf T Hne). specialize (Hs T Hne).
    assert (T <> tl) as H1 by (intros ->; apply HT; by apply last_Some_elem_of). rewrite decide_False in Hf by done. rewrite decide_False in Hs by (intros ->; done).
    destruct (t' !! T) as [[? ?]|], (tabs m !! T) as [[? ?]|]; cbn in *; congruence.
  - destruct Hans; [constructor|done].
Qed.

Lemma pfx_aligned P h : 0 <= h -> l * h <= g -> (2 ^ (g - l * h) | P) -> rev g P = pfx P h.
Proof.
  intros Hh Hg [y ->]. destruct Hco as [_ Hl _ _ _ _]. unfold pfx. rewrite Z.div_mul by (apply Z.pow_nonzero; lia). replace g with (l * h + (g - l * h)) at 1 by lia. apply rev_shift; nia.
Qed.

Lemma inv_grown k a st O D ts tl tp j t' hu v : inv k a st O D ts -> 1 <= a -> sw st + l < k -> k - l * (sh st + 1) <= j <= l ->
  let P := pos c g k a in let h := sh st in let q := nexttab (sm st) in
  (j = l \/ P + 2 ^ (g - l * (h + 1)) <= qend c g (l * (h + 1) + j)) -> O !! q = None -> last ts = Some tl -> su st !! Z.to_nat h = Some tp -> O !! tp = Some (l * h, pfx P h, l) ->
  grown (tabs (sm st)) q tl tp (pfx P (h + 1) / 2 ^ (l * h)) (2 ^ j) (Huft (16 + j) l (Vt q)) t' ->
  inv k a (MkHst (MkHm t' (q + 1) (tail (answers (sm st))) hu) (pfx P (h + 1)) (h + 1) (l * (h + 1)) (2 ^ j) q (<[Z.to_nat (h + 1) := q]> (su st))
    (<[Z.to_nat (h + 1) := pfx P (h + 1)]> (sx st)) (sp st) (Some q) (sroot st) v) (<[q := (l * (h + 1), pfx P (h + 1), j)]> O) D (ts ++ [q]).
Proof.
  intros [Hk Ha Hi Hw Hwk Hlv Hal Hcur HO Hdom (HR1 & HR2 & HR3) Hm Hlast Hdone Hshort] Ha1 Hlt Hj P h q Hcap Hq Hl1 Htp HOtp Hgr. fold P h in Hlv, Hw, Hal, Hdone, Hi, Hj. pose proof Hco as [Hc Hl Hg16 Hfull _ _].
  pose proof (lv_len _ _ _ _ _ _ Hlv) as (Hu & Hx & Hh). assert (l * (h + 1) < k) as Hlk by lia. replace (Z.min g (l * (h + 1))) with (l * (h + 1)) in Hal by lia.
  destruct (pfx_step P h Hh ltac:(lia)) as [Ep Hidx]. assert (0 <= pfx P (h + 1) / 2 ^ (l * h)) as Hge by (apply Z.div_pos; [apply rev_range; nia|apply Z.pow_pos_nonneg; lia]).
  assert (forall T, is_Some (O !! T) -> T <> q) as Hnq by (intros T [y HT] ->; congruence). assert (0 < 2 ^ (g - l * (h + 1))) as Hpp by (apply Z.pow_pos_nonneg; lia).
  split; cbn; try done; fold P.
  - by rewrite (pfx_aligned P (h + 1) ltac:(lia) ltac:(lia) Hal).
  - apply (levels_grown O (tabs (sm st)) t' P h (su st) (sx st) q tl tp (2 ^ j) j); try done; try lia. destruct Hal as [y Hy]. rewrite Hy, Z.div_mul by lia. rewrite Hy in Hcap. destruct Hcap; [by left|right; lia].
  - eapply Z.divide_trans; [|exact Hal]. apply pow_divide. nia.
  - right. split; [apply list_lookup_insert_eq; nia|]. eexists _, _. split; [exact (proj1 Hgr)|]. rewrite length_replicate. split; [rewrite Z2Nat.id; [done|apply Z.pow_nonneg; lia]|].
    intros w p L. rewrite lookup_insert_eq. intros [= <- <- <-]. lia.
  - pose proof (owned_grown O (tabs (sm st)) t' q tl tp _ (2 ^ j) j _ _ HO Hq HOtp (conj Hge Hidx) ltac:(lia) ltac:(lia) Hgr) as H. rewrite <- Ep in H. by replace (l * h + l) with (l * (h + 1)) in H by lia.
  - intros T. rewrite elem_of_app, list_elem_of_singleton, <- Hdom. destruct (decide (T = q)) as [->|Hne]; [rewrite lookup_insert_eq; split; [by right|done]|rewrite lookup_insert_ne by done].
    split; [by left|]. intros [|]; done.
  - rewrite lookup_insert_ne by (symmetry; apply Hnq; eauto). rewrite list_lookup_insert_ne by lia. split_and!; try done. by destruct ts.
  - by eapply linked_grown; [exact Hm|exact Hl1|apply Hdom; rewrite HOtp|exact Hgr].
  - by rewrite last_snoc.
  - eapply Forall_impl; [exact Hdone|]. intros x Hf. destruct (pos_lt k a ltac:(lia) ltac:(lia)) as (HP0 & HPend & Hpk). fold P in HP0, HPend.
    apply (found_agree O (tabs (sm st)) t' (sroot st) P (l * (h + 1)) x); try done; try lia. intros B T w p L HB HT Hp Hne. destruct (HO T w p L HT) as (Hw0 & HL0 & Hcells).
    destruct (Hcells ((B / 2 ^ w) mod 2 ^ L)) as (r & Hr & _); [apply Z.mod_pos_bound, Z.pow_pos_nonneg; lia|].
    rewrite (grown_cell _ _ _ _ _ _ _ _ T _ Hgr) by (try (apply Hnq; eauto); try (apply Z.mod_pos_bound, Z.pow_pos_nonneg; lia); try lia; by rewrite Hr).
    rewrite decide_False; [done|]. intros [-> Hcell]. rewrite HOtp in HT. injection HT as <- <- <-. apply Hne. change (B mod 2 ^ (l * (h + 1)) = pfx P (h + 1)).
    replace (l * (h + 1)) with (l * h + l) by lia. rewrite mod_split by lia. rewrite Hcell, Hp. lia.
Qed.

Lemma new_level_sub k a st O D ts : inv k a st O D ts -> 1 <= a -> sw st + l < k ->
  exists st' O' ts', new_level c g l k a st = Ok (inl st') /\ inv k a st' O' D ts' /\ k <= sw st' + l /\ sp st' = sp st /\ sroot st' = sroot st.
Proof.
  intros Hinv Ha1 Hlt. pose proof Hinv as [Hk Ha Hi Hw Hwk Hlv Hal Hcur HO Hdom (HR1 & HR2 & HR3) Hm Hlast Hdone Hshort]. pose proof Hco as [Hc Hl Hg16 _ _ _]. set (P := pos c g k a) in *. set (h := sh st) in *.
  pose proof (lv_len _ _ _ _ _ _ Hlv) as (Hu & Hx & Hh). assert (l * (h + 1) < k) as Hlk by lia. assert (h + 1 < 16) as H16 by nia.
  destruct (level_room O (tabs (sm st)) k a h (su st) (sx st) h Hlv Hk ltac:(lia) ltac:(lia) ltac:(lia)) as (tp & L & Htp & _ & HOtp & HL & [->|Hroom]); [|lia].
  fold P in HOtp. replace (Z.min g (l * (h + 1))) with (l * (h + 1)) in Hal by lia. pose proof (pfx_aligned P (h + 1) ltac:(lia) ltac:(lia) Hal) as Epfx.
  destruct (table_bits_sub c g l Hco k a (l * (h + 1)) ltac:(nia) ltac:(lia) ltac:(lia) Hal) as [Hj1 Hj2]. fold P in Hj2.
  unfold new_level. fold h. replace (sw st + l) with (l * (h + 1)) by lia. set (j := table_bits c k (l * (h + 1)) a _) in *.
  destruct (pfx_step P h Hh ltac:(lia)) as [Ep Hidx]. assert (0 <= pfx P (h + 1) / 2 ^ (l * h)) as Hge by (apply Z.div_pos; [apply rev_range; nia|apply Z.pow_pos_nonneg; lia]).
  set (idx := pfx P (h + 1) / 2 ^ (l * h)) in *. pose proof Hm as [_ Hnew _ Hlnk _ Hans]. assert (O !! nexttab (sm st) = None) as Hq.
  { destruct (O !! nexttab (sm st)) eqn:E; [|done]. assert (nexttab (sm st) ∈ ts) as H by (apply Hdom; by rewrite E). specialize (Hnew _ H). lia. }
  destruct (last ts) as [tl|] eqn:El; [|by destruct ts; [done|rewrite last_cons in El; destruct (last ts)]]. assert (tl ∈ ts) as Htl by (by apply last_Some_elem_of).
  assert (tp ∈ ts) as Htpts by (apply Hdom; by rewrite HOtp).
  destruct (grown_ok (tabs (sm st)) (nexttab (sm st)) tl tp idx (2 ^ j) (Huft (16 + j) l (Vt (nexttab (sm st))))) as (lk & es & lk2 & es2 & E1 & E2 & E3 & Hgr).
  { intros E. specialize (Hnew _ Htl). lia. } { intros E. specialize (Hnew _ Htpts). lia. }
  { apply list_elem_of_lookup in Htl as [i Ei]. destruct (Hlnk i tl Ei) as [es E]. by rewrite E. }
  { apply list_elem_of_lookup in Htpts as [i Ei]. destruct (Hlnk i tp Ei) as [es E]. eexists _, es. split; [exact E|]. split; [done|].
    destruct (HO _ _ _ _ HOtp) as (_ & _ & Hcells). destruct (Hcells idx ltac:(lia)) as (r & Hr & _). unfold cell in Hr. rewrite E in Hr. cbn in Hr. apply lookup_lt_Some in Hr. lia. }
  { done. }
  unfold new_tab. assert (default true (head (answers (sm st))) = true) as -> by (destruct Hans as [|? ? <- _]; done). cbv iota beta. rewrite Hlast. cbn [set_link tabs]. rewrite Z.shiftl_1_l, E1. cbn [from_opt mbind outcome_bind].
  rewrite put_ok by lia. cbn [mbind outcome_bind]. rewrite (proj2 (Z.eqb_neq (h + 1) 0)) by lia. rewrite put_ok by lia. cbn [mbind outcome_bind].
  rewrite (at_ok _ (h + 1 - 1) tp) by (try lia; rewrite list_lookup_insert_ne by lia; by replace (h + 1 - 1) with h by lia). cbn [mbind outcome_bind].
  replace (l * (h + 1) - l) with (l * h) by lia. rewrite Hi, Epfx, Z.shiftr_div_pow2 by nia. fold idx. rewrite !u8_small by lia. unfold set_entry, set_tabs. cbn [tabs nexttab answers hufts]. rewrite E2. cbn [from_opt mbind outcome_bind].
  rewrite E3. cbn [mbind outcome_bind]. eexists _, _, _. split; [reflexivity|]. cbn [sw sp sroot]. split; [|split; [lia|done]].
  by apply (inv_grown k a st O D ts tl tp j).
Qed.

(** ** One code *)

Lemma levels_fill O t t' P h u x q : levels O t P h u x -> u !! Z.to_nat h = Some q -> (forall T i, T <> q -> cell t' T i = cell t T i) -> levels O t' P h u x.
Proof.
  intros [Hlen Hat Hlk] Hq Hc. split; [done..|]. intros i Hi. destruct (Hlk i Hi) as (T & T' & L & H1 & H2 & H3 & H4 & H5). exists T, T', L. split_and!; try done. rewrite Hc; [done|].
  intros ->. destruct (Hat h ltac:(lia)) as (T1 & L1 & Hu1 & _ & HO1 & _). rewrite Hq in Hu1. injection Hu1 as <-. rewrite H3 in HO1. injection HO1 as E. destruct Hco. nia.
Qed.

Lemma owned_fill O t t' q w p L r : owned l O t -> O !! q = Some (w, p, L) -> is_ptr r = false -> (forall T i, T <> q -> cell t' T i = cell t T i) ->
  (forall i, 0 <= i < 2 ^ L -> cell t' q i = Some r \/ cell t' q i = cell t q i) -> owned l O t'.
Proof.
  intros HO Hq Hr Hc Hf T w' p' L' HT. destruct (HO T w' p' L' HT) as (H1 & H2 & H3). split_and!; try done. intros i Hi. destruct (decide (T = q)) as [->|Hne]; [|rewrite Hc by done; by apply H3].
  rewrite Hq in HT. injection HT as <- <- <-. destruct (Hf i Hi) as [->| ->]; [|by apply H3]. exists r. split; [done|]. by rewrite Hr.
Qed.

Lemma linked_fill m ts q lk es es' : linked_tabs m ts -> q ∈ ts -> tabs m !! q = Some (lk, es) -> linked_tabs (set_tabs m (<[q := (lk, es')]> (tabs m))) ts.
Proof.
  intros [Hd Hn Hnx Hlk Hold Hans] Hq E. split; cbn; try done.
  - intros i T HT. destruct (Hlk i T HT) as (es1 & E1). destruct (decide (T = q)) as [->|Hne]; [|rewrite lookup_insert_ne by done; by exists es1].
    rewrite lookup_insert_eq. rewrite E in E1. injection E1 as -> ->. by eexists.
  - intros T HT. rewrite lookup_insert_ne; [by apply Hold|]. by intros ->.
Qed.

Lemma found_mono t T P P' x : P <= P' -> found t T P x -> found t T P' x.
Proof. destruct x as [[[p k] re] v]. intros HP (H1 & H2 & H3 & H4 & H5). split_and!; try done; lia. Qed.

(** The bits of the code at [P], of [k] bits. *)
Lemma rev_code P k : 0 <= k <= g -> (2 ^ (g - k) | P) -> rev g P = rev k (P / 2 ^ (g - k)).
Proof. intros Hk [y ->]. rewrite Z.div_mul by (apply Z.pow_nonzero; lia). replace g with (k + (g - k)) at 1 by lia. apply rev_shift; lia. Qed.

Lemma increment_code P k : 1 <= k <= g -> 0 <= P -> P + 2 ^ (g - k) <= 2 ^ g -> (2 ^ (g - k) | P) ->
  increment (S (Z.to_nat k)) (rev g P) (Z.shiftl 1 (k - 1)) = rev g (P + 2 ^ (g - k)).
Proof.
  intros Hk HP Hend Hd. assert (0 < 2 ^ (g - k)) by (apply Z.pow_pos_nonneg; lia). rewrite Z.shiftl_1_l, (rev_code P k) by (done || lia). rewrite increment_rev; [|lia|apply div_range; lia|lia].
  rewrite rev_mod by lia. rewrite (rev_code (P + _) k) by (try lia; by apply Z.divide_add_r). f_equal. rewrite <- (Z.mul_1_l (2 ^ (g - k))) at 2. by rewrite Z.div_add by lia.
Qed.

Lemma new_levels_ok k a st O D ts : inv k a st O D ts -> 1 <= a ->
  exists st' O' ts', new_levels 17 c g l k a st = Ok (inl st') /\ inv k a st' O' D ts' /\ k <= sw st' + l /\ sp st' = sp st /\ sroot st' = sroot st.
Proof.
  intros Hinv Ha. cbn [new_levels]. destruct (Z.ltb_spec (sw st + l) k) as [Hlt|Hge]; [|exists st, O, ts; done].
  destruct (new_level_sub k a st O D ts Hinv Ha Hlt) as (st' & O' & ts' & E & Hi' & Hk & Hp). rewrite E. cbn [mbind outcome_bind].
  rewrite (proj2 (Z.ltb_ge (sw st' + l) k)) by lia. by exists st', O', ts'.
Qed.

(** The cells of the current table after [fill]. *)
Lemma fill_cells k a st O D ts lk es re v : inv k a st O D ts -> 1 <= a -> k <= sw st + l -> su st !! Z.to_nat (sh st) = Some (sq st) -> tabs (sm st) !! sq st = Some (lk, es) -> sz st = Z.of_nat (length es) ->
  (forall w p L, O !! sq st = Some (w, p, L) -> 2 ^ L <= sz st) ->
  let P := pos c g k a in let r := Huft re (k - sw st) v in
  exists es' p L, fill (S (Z.to_nat (sz st))) es (Z.shiftr (si st) (sw st)) (sz st) (Z.shiftl 1 (k - sw st)) r = Ok es' /\ length es' = length es /\
    O !! sq st = Some (sw st, p, L) /\ p = pfx P (sh st) /\ k - sw st <= L /\
    (forall i, 0 <= i < 2 ^ L -> <[sq st := (lk, es')]> (tabs (sm st)) !! sq st = Some (lk, es') /\
       (cell (<[sq st := (lk, es')]> (tabs (sm st))) (sq st) i = Some r \/ cell (<[sq st := (lk, es')]> (tabs (sm st))) (sq st) i = cell (tabs (sm st)) (sq st) i)) /\
    forall B, B mod 2 ^ sw st = p -> cell (<[sq st := (lk, es')]> (tabs (sm st))) (sq st) ((B / 2 ^ sw st) mod 2 ^ L) =
      if B mod 2 ^ k =? rev k (P / 2 ^ (g - k)) then Some r else cell (tabs (sm st)) (sq st) ((B / 2 ^ sw st) mod 2 ^ L).
Proof.
  intros Hinv Ha1 Hcap Hu Htab Hsz HL2 P r. pose proof Hinv as [Hk Ha Hi Hw Hwk Hlv Hal _ HO _ _ _ _ _ _]. fold P in Hi, Hlv. pose proof (lv_len _ _ _ _ _ _ Hlv) as (_ & _ & Hh). pose proof Hco as [_ Hl _ _ _ _].
  destruct (level_room O (tabs (sm st)) k a (sh st) (su st) (sx st) (sh st) Hlv Hk ltac:(lia) ltac:(lia) ltac:(lia)) as (T & L & Hu' & _ & HOT & HL & Hroom). fold P in HOT.
  rewrite Hu in Hu'. injection Hu' as <-. rewrite <- Hw in HOT, Hroom. specialize (HL2 _ _ _ HOT). assert (k - sw st <= L) as HkL by lia.
  destruct (pos_bounds c g l Hco k a ltac:(lia) ltac:(lia)) as (HP & Hd & Hend). fold P in HP, Hd, Hend. assert (0 < 2 ^ (g - k)) by (apply Z.pow_pos_nonneg; lia).
  rewrite Hi, (rev_code P k), Z.shiftr_div_pow2, Z.shiftl_1_l by (done || nia). set (i := rev k (P / 2 ^ (g - k))). pose proof (rev_range k (P / 2 ^ (g - k)) ltac:(lia)) as Hir. fold i in Hir.
  assert (0 < 2 ^ sw st) by (apply Z.pow_pos_nonneg; nia). assert (1 <= 2 ^ (k - sw st)) by (assert (0 < 2 ^ (k - sw st)) by (apply Z.pow_pos_nonneg; lia); lia).
  destruct (fill_ok (S (Z.to_nat (sz st))) es (i / 2 ^ sw st) (sz st) (2 ^ (k - sw st)) r) as (es' & Ef & Hlen & Hcells); [apply Z.div_pos; lia|lia|done|pose proof (Z.div_pos i (2 ^ sw st) ltac:(lia) ltac:(lia)); lia|].
  exists es', (pfx P (sh st)), L. split; [done|]. split; [done|]. split; [done|]. split; [done|]. split; [done|]. split.
  - intros x Hx. split; [apply lookup_insert_eq|]. rewrite cell_insert, decide_True by done. rewrite (Hcells x ltac:(lia)). unfold cell. rewrite Htab. cbn. destruct (_ && _); [by left|by right].
  - intros B HB. rewrite cell_insert, decide_True by done. assert (0 <= (B / 2 ^ sw st) mod 2 ^ L < 2 ^ L) as Hx by (apply Z.mod_pos_bound, Z.pow_pos_nonneg; lia). rewrite (Hcells ((B / 2 ^ sw st) mod 2 ^ L)) by lia.
    rewrite (cell_hit B (sw st) k L i); [unfold cell; rewrite Htab; done|nia|done|done|]. rewrite HB, Hw. unfold pfx, i. rewrite <- (Z2Nat.id (sh st)) at 1 by lia. rewrite Z2Nat.id by lia.
    rewrite <- (rev_code P k) by (done || lia). rewrite rev_prefix by nia. done.
Qed.

Lemma enter_code k a st O D ts lk es re v p' : inv k a st O D ts -> 1 <= a -> k <= sw st + l -> su st !! Z.to_nat (sh st) = Some (sq st) -> tabs (sm st) !! sq st = Some (lk, es) -> sz st = Z.of_nat (length es) ->
  (forall w p L, O !! sq st = Some (w, p, L) -> 2 ^ L <= sz st) -> re <= 16 \/ re = 99 ->
  exists es' h', fill (S (Z.to_nat (sz st))) es (Z.shiftr (si st) (sw st)) (sz st) (Z.shiftl 1 (k - sw st)) (Huft re (k - sw st) v) = Ok es' /\
    backup 17 (rev g (pos c g k (a - 1))) l (sx st) (sh st) (sw st) = Ok (h', l * h') /\
    inv k (a - 1) (MkHst (set_tabs (sm st) (<[sq st := (lk, es')]> (tabs (sm st)))) (rev g (pos c g k (a - 1))) h' (l * h') (sz st) (sq st) (su st) (sx st) p' (slink st) (sroot st) v)
      O (D ++ [(pos c g k a, k, re, v)]) ts.
Proof.
  intros Hinv Ha1 Hcap Hu Htab Hsz HL2 Hre. destruct (fill_cells k a st O D ts lk es re v Hinv Ha1 Hcap Hu Htab Hsz HL2) as (es' & p & L & Ef & Hlen & HOq & Hp & HkL & Hc1 & Hc2).
  pose proof Hinv as [Hk Ha Hi Hw Hwk Hlv Hal _ HO Hdom (HR1 & HR2 & HR3) Hm Hlast Hdone Hshort]. set (P := pos c g k a) in *. pose proof (lv_len _ _ _ _ _ _ Hlv) as (_ & _ & Hh). pose proof Hco as [_ Hl Hg16 _ _ _]. destruct (level_bound (sh st) k Hh ltac:(lia) ltac:(lia)) as [H16 Hw0].
  destruct (pos_bounds c g l Hco k a ltac:(lia) ltac:(lia)) as (HP & Hd & Hend). fold P in HP, Hd, Hend. destruct (pos_lt k a ltac:(lia) ltac:(lia)) as (HP0 & HPend & Hpk). fold P in HP0, HPend.
  assert (pos c g k (a - 1) = P + 2 ^ (g - k)) as EP by (unfold P, pos; lia). rewrite EP.
  set (t' := <[sq st := (lk, es')]> (tabs (sm st))) in *. assert (forall T i, T <> sq st -> cell t' T i = cell (tabs (sm st)) T i) as Hne by (intros T i HT; unfold t'; by rewrite cell_insert, decide_False).
  assert (levels O t' P (sh st) (su st) (sx st)) as Hlv' by (by eapply levels_fill).
  destruct (backup_ok O t' P k (sh st) (su st) (sx st) 17 Hlv' ltac:(lia) ltac:(lia) ltac:(lia) Hd ltac:(lia)) as (h' & Eb & Hh' & Hlv2 & Hal2 & Hcur2).
  exists es', h'. rewrite <- Hw in Eb. split; [done|]. split; [done|].
  split; cbn [si sh sw sz sq su sx sp slink sroot sr sm set_tabs tabs nexttab answers]; rewrite ?EP; fold t'; try done; try lia.
  - destruct Hcur2 as [->|Hcur2]; [right|by left]. split; [done|]. exists lk, es'. unfold t'. rewrite lookup_insert_eq. split; [done|]. split; [lia|done].
  - apply (owned_fill O (tabs (sm st)) t' (sq st) (sw st) p L (Huft re (k - sw st) v)); try done; [|by intros i Hx; destruct (Hc1 i Hx)].
    unfold is_ptr. cbn. destruct Hre as [Hre| ->]; [by rewrite (proj2 (Z.ltb_ge 16 re))|done].
  - eapply linked_fill; [done| |exact Htab]. apply Hdom. by rewrite HOq.
  - apply Forall_app. split; [|apply Forall_singleton].
    + eapply Forall_impl; [exact Hdone|]. intros x Hf. apply (found_mono t' (sroot st) P); [lia|]. apply (found_agree O (tabs (sm st)) t' (sroot st) P k x); try done; try lia.
      intros B T w p1 L1 HB HT Hp1 Hne1. destruct (decide (T = sq st)) as [->|HT1]; [|by apply Hne]. rewrite HOq in HT. injection HT as <- <- <-. rewrite (Hc2 B Hp1). by rewrite (proj2 (Z.eqb_neq _ _) Hne1).
    + split_and!; try done; try lia. intros B HB E. assert (B mod 2 ^ (l * sh st) = pfx P (sh st)) as HBp.
      { rewrite <- Hw. rewrite (mod_rev B k (sw st) _ ltac:(lia) E). rewrite pow_div by lia. unfold pfx. rewrite <- Hw. do 3 f_equal. lia. }
      rewrite Hp in HOq. rewrite Hw in HOq. pose proof (reach O t' P (sh st) (su st) (sx st) (sroot st) (sq st) L B (17 - Z.to_nat (sh st)) Hlv' ltac:(lia) HR2 Hu HOq HBp) as Hreach.
      replace (17 - Z.to_nat (sh st) + Z.to_nat (sh st))%nat with 17%nat in Hreach by lia. rewrite Hreach. assert (exists f, (17 - Z.to_nat (sh st))%nat = S f) as (f & ->) by (exists (16 - Z.to_nat (sh st))%nat; lia).
      cbn [walk]. rewrite <- Hw in HBp |- *. rewrite (Hc2 B ltac:(congruence)). rewrite (proj2 (Z.eqb_eq _ _) E). cbn [mbind option_bind he hb hv].
      rewrite (proj2 (Z.leb_le 1 (k - sw st))), (proj2 (Z.leb_le (k - sw st) L)) by lia. unfold is_ptr. cbn [andb he].
      assert ((16 <? re) && negb (re =? 99) = false) as -> by (destruct Hre as [Hre| ->]; [by rewrite (proj2 (Z.ltb_ge 16 re))|done]). eexists. split; [cbn [mbind option_bind]; rewrite Zplus_minus; reflexivity|done].
  - intros x [Hx|Hx%list_elem_of_singleton]%elem_of_app; [by apply Hshort|]. subst x. lia.
Qed.

Section Entries.
Context (v d e : list Z) (n s nv : Z) (ent : Z -> Z * hval).

(** [nv] of the [n] values have a code; if the set was filled up, all of them have. *)
Record entries : Prop := {
  en_nv : 0 <= nv <= n; en_all : nv = n \/ total c g <= nv;
  en_ok : forall p r, 0 <= p < nv -> entry_of n s d e v p r = Ok (ent p, p + 1); en_e : forall p, 0 <= p < nv -> (ent p).1 <= 16 \/ (ent p).1 = 99 }.
Context (Hen : entries).

(** The codes that are in the tables, by their number. *)
Definition numbered (k a : Z) (D : list (Z * Z * Z * hval)) : Prop :=
  Z.of_nat (length D) = total c (k - 1) + nth (Z.to_nat k) c 0 - a /\
  forall k' a', 1 <= k' <= k -> 1 <= a' <= nth (Z.to_nat k') c 0 -> (k' = k -> a < a') -> let t := total c (k' - 1) + nth (Z.to_nat k') c 0 - a' in
    t < nv -> D !! Z.to_nat t = Some (pos c g k' a', k', (ent t).1, (ent t).2).

Lemma entry_at t r : 0 <= t < total c g -> exists re rv p, entry_of n s d e v (Z.min t n) r = Ok (re, rv, p) /\ p = Z.min (t + 1) n /\ (re <= 16 \/ re = 99) /\ (t < nv -> (re, rv) = ent t).
Proof.
  intros Ht. destruct Hen as [Hnv Hall Hok He]. destruct (Z.ltb_spec t nv) as [H|H].
  - rewrite Z.min_l by lia. rewrite (Hok t r ltac:(lia)). exists (ent t).1, (ent t).2, (t + 1). split; [by destruct (ent t)|]. split; [lia|]. split; [apply He; lia|]. intros _. by destruct (ent t).
  - destruct Hall as [->|]; [|lia]. rewrite Z.min_r by lia. unfold entry_of. rewrite (proj2 (Z.leb_le n n)) by lia. eexists _, _, _. split; [reflexivity|]. split; [lia|]. split; [by right|lia].
Qed.

Lemma one_code_ok k a st O D ts : inv k a st O D ts -> numbered k a D -> sp st = Z.min (Z.of_nat (length D)) n -> 1 <= a ->
  exists st' O' D' ts', one_code c v d e n s g l k a st = Ok (inl st') /\ inv k (a - 1) st' O' D' ts' /\ numbered k (a - 1) D' /\ sp st' = Z.min (Z.of_nat (length D')) n.
Proof.
  intros Hinv [Hlen Hnum] Hsp Ha. unfold one_code. pose proof Hco as [Hc _ _ _ _ _].
  destruct (new_levels_ok k a st O D ts Hinv Ha) as (st1 & O1 & ts1 & -> & Hinv1 & Hcap & Hsp1 & _). cbn [mbind outcome_bind]. rewrite Hsp1, Hsp.
  pose proof Hinv1 as [Hk Ha' Hi Hw Hwk Hlv _ [Hcur|(Hu & lk & es & Htab & Hsz & HL)] _ _ _ _ _ _ _]; [lia|]. pose proof (lv_len _ _ _ _ _ _ Hlv) as (_ & _ & Hh).
  assert (0 <= Z.of_nat (length D) < total c g) as Ht.
  { split; [lia|]. rewrite Hlen. pose proof (count_total c Hc k k ltac:(lia)). pose proof (total_succ c k ltac:(lia)). pose proof (total_le c Hc k g ltac:(lia)). lia. }
  destruct (entry_at (Z.of_nat (length D)) (sr st1) Ht) as (re & rv' & p & -> & Hp & Hre & Hent). cbn [mbind outcome_bind].
  rewrite u8_small by (destruct Hco; change (2 ^ 8) with 256; nia). rewrite Htab. cbn [from_opt mbind outcome_bind].
  destruct (enter_code k a st1 O1 D ts1 lk es re rv' p Hinv1 Ha Hcap Hu Htab Hsz HL Hre) as (es' & h' & -> & Eb & Hinv2). cbn [mbind outcome_bind].
  destruct (pos_lt k a Hk ltac:(lia)) as (HP0 & HPe & _). destruct (pos_bounds c g l Hco k a Hk ltac:(lia)) as (_ & Hd & _). assert (pos c g k (a - 1) = pos c g k a + 2 ^ (g - k)) as EP by (unfold pos; lia).
  rewrite Hi, increment_code by done. rewrite <- EP, Eb. cbn [mbind outcome_bind]. eexists _, _, _, _. split; [reflexivity|]. split; [exact Hinv2|].
  assert (Z.of_nat (length (D ++ [(pos c g k a, k, re, rv')])) = Z.of_nat (length D) + 1) as EL by (rewrite length_app; cbn; lia). split; [split|cbn; lia].
  - lia.
  - intros k' a' Hk' Ha1 Hlt t Htn. destruct (decide (k' = k /\ a' = a)) as [[-> ->]|Hne].
    + assert (t = Z.of_nat (length D)) as Et by lia. rewrite Et in Htn. specialize (Hent Htn). rewrite Et, Nat2Z.id, lookup_app_r, Nat.sub_diag by lia. cbn. by rewrite <- Hent.
    + rewrite lookup_app_l_Some with (x := (pos c g k' a', k', (ent t).1, (ent t).2)); [done|]. apply Hnum; [done|done|lia|done].
Qed.

Lemma codes_of_ok k a st O D ts : inv k (Z.of_nat a) st O D ts -> numbered k (Z.of_nat a) D -> sp st = Z.min (Z.of_nat (length D)) n ->
  exists st' O' D' ts', codes_of c v d e n s g l k a st = Ok (inl st') /\ inv k 0 st' O' D' ts' /\ numbered k 0 D' /\ sp st' = Z.min (Z.of_nat (length D')) n.
Proof.
  revert st O D ts. induction a as [|a IH]; intros st O D ts Hinv Hnum Hsp; [exists st, O, D, ts; done|]. cbn [codes_of].
  destruct (one_code_ok k (Z.of_nat (S a)) st O D ts Hinv Hnum Hsp ltac:(lia)) as (st1 & O1 & D1 & ts1 & -> & Hinv1 & Hnum1 & Hsp1). cbn [mbind outcome_bind].
  replace (Z.of_nat (S a) - 1) with (Z.of_nat a) in * by lia. by apply (IH st1 O1 D1 ts1).
Qed.

(** Longer codes go on where the shorter ones end. *)
Lemma inv_next k st O D ts : inv k 0 st O D ts -> k < g -> inv (k + 1) (nth (Z.to_nat (k + 1)) c 0) st O D ts.
Proof.
  intros [Hk Ha Hi Hw Hwk Hlv Hal Hcur HO Hdom HR Hm Hlast Hdone Hshort] Hkg.
  assert (pos c g (k + 1) (nth (Z.to_nat (k + 1)) c 0) = pos c g k 0) as EP by (unfold pos; rewrite (qend_succ c g (k + 1)) by lia; replace (k + 1 - 1) with k by lia; lia).
  pose proof Hco as [Hc _ _ _ _ _]. pose proof (count_nonneg c Hc (Z.to_nat (k + 1))). split; rewrite ?EP; try done; try lia.
  - destruct Hcur as [Hcur|Hcur]; [left; lia|by right].
  - intros [[[p k'] re] w] Hx. specialize (Hshort _ Hx). cbn in Hshort. lia.
Qed.

Lemma numbered_next k D : numbered k 0 D -> 1 <= k -> numbered (k + 1) (nth (Z.to_nat (k + 1)) c 0) D.
Proof.
  intros [Hlen Hnum] Hk. split; [replace (k + 1 - 1) with k by lia; pose proof (total_succ c k ltac:(lia)); lia|]. intros k' a' Hk' Ha' Hlt t Ht. apply Hnum; [|done| |done].
  - destruct (decide (k' = k + 1)) as [->|]; [specialize (Hlt eq_refl); lia|lia].
  - lia.
Qed.

Lemma all_codes_ok m k st O D ts : Z.of_nat m = g - k -> inv k (nth (Z.to_nat k) c 0) st O D ts -> numbered k (nth (Z.to_nat k) c 0) D -> sp st = Z.min (Z.of_nat (length D)) n ->
  exists st' O' D' ts', all_codes c v d e n s g l k (S m) st = Ok (inl st') /\ inv g 0 st' O' D' ts' /\ numbered g 0 D'.
Proof.
  pose proof Hco as [Hc _ _ _ _ _]. revert k st O D ts. induction m as [|m IH]; intros k st O D ts Hm Hinv Hnum Hsp; cbn [all_codes].
  all: destruct (codes_of_ok k (Z.to_nat (nth (Z.to_nat k) c 0)) st O D ts) as (st1 & O1 & D1 & ts1 & -> & Hinv1 & Hnum1 & Hsp1);
    [rewrite Z2Nat.id by apply (count_nonneg c Hc); done|rewrite Z2Nat.id by apply (count_nonneg c Hc); done|done|]; cbn [mbind outcome_bind].
  - assert (k = g) as -> by lia. exists st1, O1, D1, ts1. done.
  - change (all_codes c v d e n s g l (k + 1) (S m) st1) with (all_codes c v d e n s g l (k + 1) (S m) st1). pose proof (in_k _ _ _ _ _ _ Hinv1) as Hk.
    apply (IH (k + 1) st1 O1 D1 ts1); [lia|apply inv_next; [done|lia]|apply numbered_next; [done|lia]|done].
Qed.
End Entries.

(** ** The first table *)

Definition start (m : hmem) (x : list Z) (tr : Z) : hst := MkHst m 0 (-1) (- l) 0 NULL (replicate 16 NULL) x 0 None tr (Vn 0).

Lemma rev_zero k : 0 <= k -> rev k 0 = 0.
Proof. intros Hk. pose proof (rev_shift 0 k 0 ltac:(lia) Hk) as H. rewrite Z.add_0_l, Z.mul_0_l in H. exact H. Qed.

Lemma new_level_root m x tr k a : tabs m = t0 -> nexttab m = n0 -> Forall (eq true) (answers m) -> length x = 17%nat -> x !! 0%nat = Some 0 -> 1 <= k <= l -> 1 <= a <= nth (Z.to_nat k) c 0 -> pos c g k a = 0 ->
  exists st O ts, new_level c g l k a (start m x tr) = Ok (inl st) /\ inv k a st O [] ts /\ sw st = 0 /\ sp st = 0.
Proof.
  intros Htabs Hnext Hans Hlx Hx0 Hk Ha HP. pose proof Hco as [Hc Hl Hg16 _ _ _]. pose proof (table_bits_root c g l Hco k a Hk ltac:(lia) HP) as Hj.
  unfold new_level, start. cbn [sh sw sm su slink sroot si sx sp sr]. change (-1 + 1) with 0. replace (- l + l) with 0 by lia. set (j := table_bits c k 0 a _) in *.
  unfold new_tab. assert (default true (head (answers m)) = true) as -> by (destruct Hans as [|? ? <- _]; done). cbn [set_link mbind outcome_bind]. rewrite Z.shiftl_1_l.
  rewrite put_ok by (cbn; lia). cbn [mbind outcome_bind]. rewrite Z.eqb_refl. rewrite Htabs, Hnext.
  eexists _, {[n0 := (0, 0, l)]}, [n0]. split; [reflexivity|]. split; [|done]. set (t := <[n0 := (NULL, replicate (Z.to_nat (2 ^ j)) zero_huft)]> t0).
  assert (pfx 0 0 = 0) as Ep by (unfold pfx; by rewrite Z.mul_0_r). assert (forall T w p L, ({[n0 := (0, 0, l)]} : gmap Z (Z * Z * Z)) !! T = Some (w, p, L) -> T = n0 /\ w = 0 /\ p = 0 /\ L = l) as HO.
  { intros T w p L H. apply lookup_singleton_Some in H as [-> [= <- <- <-]]. done. }
  assert (2 ^ l <= 2 ^ j) as Hpow by (apply Z.pow_le_mono_r; lia). split; cbn [si sh sw sz sq su sx sp slink sroot sr sm tabs nexttab answers]; rewrite ?HP; try done; try lia.
  - by rewrite rev_zero by lia.
  - split; [rewrite length_insert, length_replicate; done| |intros; lia]. intros i Hi. assert (i = 0) as -> by lia. exists n0, l. rewrite Ep, Z.mul_0_r, lookup_singleton_eq. split_and!; try done; try lia.
  - apply Z.divide_0_r.
  - right. split; [done|]. eexists _, _. split; [apply lookup_insert_eq|]. rewrite length_replicate. split; [rewrite Z2Nat.id; [done|apply Z.pow_nonneg; lia]|]. intros w p L (_ & _ & _ & ->)%HO. done.
  - intros T w p L (-> & -> & -> & ->)%HO. split_and!; try lia. intros i Hi. exists zero_huft. split; [|done]. apply (zero_cell _ _ (2 ^ j)); [apply lookup_insert_eq|lia].
  - intros T. rewrite list_elem_of_singleton. split; [intros [[[w p] L] (-> & _)%HO]; done|intros ->; by rewrite lookup_singleton_eq].
  - by rewrite lookup_singleton_eq.
  - split; cbn; try done; try lia.
    + apply NoDup_singleton.
    + intros T ->%list_elem_of_singleton. lia.
    + intros [|i] T H; [|done]. injection H as <-. unfold t. rewrite lookup_insert_eq. by eexists.
    + intros T HT. unfold t. rewrite lookup_insert_ne; [done|]. intros ->. apply HT. by left.
    + by destruct Hans.
  - intros x' Hx'. by apply elem_of_nil in Hx'.
Qed.
End Loop.
