(* ===== verification/InflateBuild.v ===== *)
(** * huft_build as a whole

    From the lengths of the codes to tables in which each canonical code is found. *)

From S2P Require Import Prelude Inflate InflateHuft InflateTree.

(** ** Canonical codes (RFC 1951, 3.2.2) *)

Definition cnt (q : Z) (b : list Z) : Z := Z.of_nat (length (filter (eq q) b)).

(** The smallest code of each length. *)
Fixpoint first_code_ (b : list Z) (q : nat) : Z :=
  match q with O => 0 | S O => 0 | S q' => 2 * (first_code_ b q' + cnt (Z.of_nat q') b) end.
Definition first_code (b : list Z) (k : Z) : Z := first_code_ b (Z.to_nat k).

(** The code of the symbol [i]: symbols with codes of the same length get consecutive ones. *)
Definition code_of (b : list Z) (i : nat) : Z := let k := nth i b 0 in first_code b k + cnt k (take i b).

(** How much of the code space is used, in units of [2 ^ -16]. *)
Definition kraft (b : list Z) : Z := foldr (fun x a => (if x =? 0 then 0 else 2 ^ (16 - x)) + a) 0 b.

Lemma cnt_app q a b : cnt q (a ++ b) = cnt q a + cnt q b.
Proof. unfold cnt. rewrite filter_app, length_app. lia. Qed.
Lemma cnt_cons q x b : cnt q (x :: b) = (if decide (q = x) then 1 else 0) + cnt q b.
Proof. unfold cnt. rewrite filter_cons. destruct (decide (q = x)); cbn [length]; lia. Qed.
Lemma cnt_nonneg q b : 0 <= cnt q b.
Proof. unfold cnt. lia. Qed.
Lemma cnt_take q i b : cnt q (take i b) <= cnt q b.
Proof. rewrite <- (take_drop i b) at 2. rewrite cnt_app. pose proof (cnt_nonneg q (drop i b)). lia. Qed.

Lemma cnt_lt b i k : b !! i = Some k -> cnt k (take i b) < cnt k b.
Proof.
  intros H. rewrite <- (take_drop i b) at 2. rewrite cnt_app. rewrite (drop_S b k i H), cnt_cons, decide_True by done. pose proof (cnt_nonneg k (drop (S i) b)). lia.
Qed.

Lemma nth_occurrence q (xs : list Z) r : 0 <= r < cnt q xs -> exists i, xs !! i = Some q /\ cnt q (take i xs) = r.
Proof.
  revert r. induction xs as [|x xs IH]; intros r Hr; [unfold cnt in Hr; cbn in Hr; lia|]. rewrite cnt_cons in Hr. destruct (decide (q = x)) as [<-|Hne].
  - destruct (Z.eq_dec r 0) as [->|Hr0]; [exists O; done|]. destruct (IH (r - 1) ltac:(lia)) as (i & H1 & H2). exists (S i). split; [done|]. cbn [take]. rewrite cnt_cons, decide_True by done. lia.
  - destruct (IH r ltac:(lia)) as (i & H1 & H2). exists (S i). split; [done|]. cbn [take]. by rewrite cnt_cons, decide_False.
Qed.

(** ** Counting *)


Lemma nth_insert (xs : list Z) i j x : (i < length xs)%nat -> nth j (<[i := x]> xs) 0 = if decide (j = i) then x else nth j xs 0.
Proof.
  intros Hi. rewrite !nth_lookup. destruct (decide (j = i)) as [->|Hne]; [by rewrite list_lookup_insert_eq|by rewrite list_lookup_insert_ne].
Qed.

Lemma at_nth (xs : list Z) i : 0 <= i < Z.of_nat (length xs) -> at_ xs i = Ok (nth (Z.to_nat i) xs 0).
Proof. intros Hi. apply at_ok; [lia|]. destruct (lookup_lt_is_Some_2 xs (Z.to_nat i) ltac:(lia)) as [y Hy]. by rewrite (nth_lookup_Some _ _ _ _ Hy). Qed.

Lemma counts_ok b c : Forall (fun x => 0 <= x <= 16) b -> length c = 17%nat ->
  exists c', counts c b = Ok c' /\ length c' = 17%nat /\ forall q, (q <= 16)%nat -> nth q c' 0 = nth q c 0 + cnt (Z.of_nat q) b.
Proof.
  intros Hb. revert c. induction Hb as [|x b Hx _ IH]; intros c Hc; [exists c; split_and!; try done; intros q _; unfold cnt; cbn; lia|]. cbn [counts].
  rewrite at_nth by lia. cbn [mbind outcome_bind]. rewrite put_ok by lia. cbn [mbind outcome_bind].
  destruct (IH (<[Z.to_nat x := nth (Z.to_nat x) c 0 + 1]> c)) as (c' & -> & Hl & Hn); [by rewrite length_insert|]. exists c'. split_and!; try done.
  intros q Hq. rewrite (Hn q Hq), nth_insert, cnt_cons by lia. destruct (decide (q = Z.to_nat x)) as [->|Hne]; [rewrite decide_True by lia; lia|]. rewrite decide_False by lia. lia.
Qed.

Lemma min_len_ok c f j : (exists q, (Z.to_nat j <= q < Z.to_nat j + f)%nat /\ nth q c 0 <> 0) -> 0 <= j ->
  let k := min_len f c j in j <= k < j + Z.of_nat f /\ nth (Z.to_nat k) c 0 <> 0 /\ forall q, (Z.to_nat j <= q)%nat -> Z.of_nat q < k -> nth q c 0 = 0.
Proof.
  revert j. induction f as [|f IH]; intros j (q & Hq & Hn) Hj; [lia|]. cbn [min_len]. destruct (Z.eqb_spec (nth (Z.to_nat j) c 0) 0) as [E|E]; [|split; [lia|]; split; [done|lia]].
  destruct (IH (j + 1)) as (H1 & H2 & H3); [exists q; split; [|done]; assert (q <> Z.to_nat j) by congruence; lia|lia|]. split; [lia|]. split; [done|].
  intros q' Hq' Hlt. destruct (decide (q' = Z.to_nat j)) as [->|]; [done|apply H3; [lia|done]].
Qed.

Lemma max_len_ok c f : (exists q, (1 <= q <= f)%nat /\ nth q c 0 <> 0) ->
  let g := max_len f c in 1 <= g <= Z.of_nat f /\ nth (Z.to_nat g) c 0 <> 0 /\ forall q, (q <= f)%nat -> g < Z.of_nat q -> nth q c 0 = 0.
Proof.
  induction f as [|f IH]; intros (q & Hq & Hn); [lia|]. cbn [max_len]. destruct (Z.eqb_spec (nth (S f) c 0) 0) as [E|E].
  - destruct IH as (H1 & H2 & H3); [exists q; split; [|done]; assert (q <> S f) by congruence; lia|]. split; [lia|]. split; [done|]. intros q' Hq' Hlt. destruct (decide (q' = S f)) as [->|]; [done|apply H3; lia].
  - split; [lia|]. rewrite Nat2Z.id. split; [done|lia].
Qed.

(** The check of the lengths. *)
Lemma spare_ok c g k f y : Forall (Z.le 0) c -> 1 <= k <= g -> y * 2 ^ (g - k) = 2 ^ g - qend c g (k - 1) -> (Z.to_nat (g - k) < f)%nat ->
  spare f c y k g = if qend c g g <=? 2 ^ g then Some (2 ^ g - qend c g g) else None.
Proof.
  intros Hc. revert k y. induction f as [|f IH]; intros k y Hk Hy Hf; [lia|]. cbn [spare]. pose proof (qend_succ c g k ltac:(lia)) as E. assert (0 < 2 ^ (g - k)) as Hp by (apply Z.pow_pos_nonneg; lia).
  destruct (Z.ltb_spec (y - nth (Z.to_nat k) c 0) 0) as [Hneg|Hpos].
  - pose proof (qend_le c g Hc k g ltac:(lia) ltac:(lia)). rewrite (proj2 (Z.leb_gt _ _)); [done|]. nia.
  - destruct (Z.ltb_spec k g) as [Hkg|Hkg].
    + apply IH; [lia| |lia]. replace (k + 1 - 1) with k by lia. rewrite E. rewrite (pow_half (g - k)) in * by lia. replace (g - k - 1) with (g - (k + 1)) in * by lia. nia.
    + assert (k = g) as -> by lia. rewrite Z.sub_diag in *. change (2 ^ 0) with 1 in *. rewrite (proj2 (Z.leb_le _ _)) by nia. f_equal. nia.
Qed.

Lemma offsets_ok c x n p xp j : length x = 17%nat -> 1 <= p -> xp = p + 1 -> p + Z.of_nat n <= 16 -> j = total c (p - 1) ->
  exists x', offsets c x n p xp j = Ok x' /\ length x' = 17%nat /\ (forall m, p + 1 <= m <= p + Z.of_nat n -> nth (Z.to_nat m) x' 0 = total c (m - 1)) /\
    forall m, (Z.of_nat m <= p) -> nth m x' 0 = nth m x 0.
Proof.
  intros Hx Hp -> Hn. revert x p j Hx Hp Hn. induction n as [|n IH]; intros x p j Hx Hp Hn Hj; cbn [offsets]; [exists x; split_and!; try done; intros; lia|].
  rewrite put_ok by lia. cbn [mbind outcome_bind]. destruct (IH (<[Z.to_nat (p + 1) := j + nth (Z.to_nat p) c 0]> x) (p + 1) (j + nth (Z.to_nat p) c 0)) as (x' & -> & Hl & Hm & Hsame);
    [by rewrite length_insert|lia|lia|rewrite Hj; replace (p + 1 - 1) with p by lia; rewrite (total_succ c p) by lia; lia|]. exists x'. split_and!; try done.
  - intros m Hm'. destruct (Z.eq_dec m (p + 1)) as [->|Hne]; [|apply Hm; lia]. rewrite Hsame by lia. rewrite nth_insert, decide_True by lia. replace (p + 1 - 1) with p by lia. rewrite (total_succ c p) by lia. lia.
  - intros m Hm'. rewrite Hsame by lia. rewrite nth_insert by lia. by rewrite decide_False by lia.
Qed.

(** Sums over the lengths. *)
Fixpoint sumq (f : Z -> Z) (m : nat) (b : list Z) : Z := match m with O => 0 | S m' => sumq f m' b + cnt (Z.of_nat m) b * f (Z.of_nat m) end.

Lemma sumq_cons f m x b : sumq f m (x :: b) = sumq f m b + if (1 <=? x) && (x <=? Z.of_nat m) then f x else 0.
Proof.
  induction m as [|m IH]; cbn [sumq]; [destruct (Z.leb_spec 1 x), (Z.leb_spec x (Z.of_nat 0)); cbn; lia|]. rewrite IH, cnt_cons. destruct (decide (Z.of_nat (S m) = x)) as [<-|Hne].
  - rewrite (proj2 (Z.leb_le 1 (Z.of_nat (S m)))), (proj2 (Z.leb_gt (Z.of_nat (S m)) (Z.of_nat m))), (proj2 (Z.leb_le (Z.of_nat (S m)) (Z.of_nat (S m)))) by lia. cbn [andb]. lia.
  - destruct (Z.leb_spec 1 x), (Z.leb_spec x (Z.of_nat m)), (Z.leb_spec x (Z.of_nat (S m))); cbn [andb]; lia.
Qed.

Lemma sumq_nil f m : sumq f m [] = 0.
Proof. induction m as [|m IH]; [done|]. cbn [sumq]. rewrite IH. done. Qed.

Section Lengths.
Context (b c : list Z) (g : Z) (Hb : Forall (fun x => 0 <= x <= g) b) (Hg : 1 <= g <= 16) (Hlen : length c = 17%nat) (Hc : forall q, (q <= 16)%nat -> nth q c 0 = cnt (Z.of_nat q) b).

Lemma counts_nonneg : Forall (Z.le 0) c.
Proof. apply Forall_lookup. intros i x H. rewrite <- (nth_lookup_Some _ _ 0 _ H), Hc by (apply lookup_lt_Some in H; lia). apply cnt_nonneg. Qed.

Lemma total_sum m : (m <= 16)%nat -> total_ c m = sumq (fun _ => 1) m b.
Proof. induction m as [|m IH]; intros Hm; [done|]. cbn [total_ sumq]. rewrite IH, Hc by lia. lia. Qed.
Lemma qend_sum m : (m <= 16)%nat -> qend_ c g m = sumq (fun q => 2 ^ (g - q)) m b.
Proof. induction m as [|m IH]; intros Hm; [done|]. cbn [qend_ sumq]. rewrite IH, Hc by lia. done. Qed.

Lemma total_used : total c g = Z.of_nat (length b) - cnt 0 b.
Proof.
  unfold total. rewrite total_sum by lia. clear Hc. induction Hb as [|x b' Hx Hb' IH]; [by rewrite sumq_nil|]. specialize (IH Hb').
  rewrite sumq_cons, IH, cnt_cons, Z2Nat.id by lia. cbn [length]. rewrite (proj2 (Z.leb_le x g)) by lia. destruct (decide (0 = x)) as [<-|]; [cbn; lia|]. rewrite (proj2 (Z.leb_le 1 x)) by lia. cbn. lia.
Qed.

Lemma kraft_qend : kraft b = 2 ^ (16 - g) * qend c g g.
Proof.
  unfold qend. rewrite qend_sum by lia. clear Hc. induction Hb as [|x b' Hx Hb' IH]; [by rewrite sumq_nil, Z.mul_0_r|]. specialize (IH Hb').
  rewrite sumq_cons. cbn [kraft foldr]. fold (kraft b'). rewrite IH, Z2Nat.id by lia. rewrite (proj2 (Z.leb_le x g)) by lia. destruct (Z.eqb_spec x 0) as [->|]; [cbn; lia|].
  rewrite (proj2 (Z.leb_le 1 x)) by lia. cbn [andb]. rewrite Z.mul_add_distr_l, <- Z.pow_add_r by lia. replace (16 - g + (g - x)) with (16 - x) by lia. lia.
Qed.

(** The codes of each length start where the shorter ones end. *)
Lemma first_code_qend k : 1 <= k <= g -> qend c g (k - 1) = first_code b k * 2 ^ (g - k).
Proof.
  intros Hk. unfold first_code. assert (exists m, k = Z.of_nat (S m)) as (m & ->) by (exists (Z.to_nat (k - 1)); lia). rewrite Nat2Z.id. induction m as [|m IH]; [reflexivity|].
  specialize (IH ltac:(lia)). replace (Z.of_nat (S (S m)) - 1) with (Z.of_nat (S m)) by lia. rewrite qend_succ by lia. rewrite IH, Nat2Z.id, Hc by lia.
  change (first_code_ b (S (S m))) with (2 * (first_code_ b (S m) + cnt (Z.of_nat (S m)) b)). rewrite (pow_half (g - Z.of_nat (S m))) by lia. replace (g - Z.of_nat (S m) - 1) with (g - Z.of_nat (S (S m))) by lia. lia.
Qed.

(** ** The values in order *)

Definition slot_of (i : nat) : Z := let k := nth i b 0 in total c (k - 1) + cnt k (take i b).

Lemma slot_range i k : b !! i = Some k -> 1 <= k -> total c (k - 1) <= slot_of i < total c k /\ slot_of i < total c g.
Proof.
  intros H Hk. unfold slot_of. rewrite (nth_lookup_Some _ _ _ _ H). pose proof (cnt_lt b i k H). pose proof (cnt_nonneg k (take i b)). assert (k <= g) as Hkg by (apply (proj1 (Forall_lookup _ _) Hb) in H; lia).
  pose proof (total_succ c k ltac:(lia)) as E. rewrite Hc, Z2Nat.id in E by lia. pose proof (total_le c counts_nonneg k g ltac:(lia)). lia.
Qed.

Lemma slot_inj i i' k k' : b !! i = Some k -> b !! i' = Some k' -> 1 <= k -> 1 <= k' -> (i < i')%nat -> slot_of i <> slot_of i'.
Proof.
  intros H H' Hk Hk' Hlt E. destruct (slot_range i k H Hk) as [H1 _]. destruct (slot_range i' k' H' Hk') as [H1' _].
  assert (k <= g /\ k' <= g) as [Hkg Hkg'] by (apply (proj1 (Forall_lookup _ _) Hb) in H; apply (proj1 (Forall_lookup _ _) Hb) in H'; lia).
  destruct (Z.lt_trichotomy k k') as [Hc1|[->|Hc1]]; [pose proof (total_le c counts_nonneg k (k' - 1) ltac:(lia)); lia| |pose proof (total_le c counts_nonneg k' (k - 1) ltac:(lia)); lia].
  unfold slot_of in E. rewrite (nth_lookup_Some _ _ _ _ H), (nth_lookup_Some _ _ _ _ H') in E. assert (cnt k' (take i b) < cnt k' (take i' b)); [|lia].
  rewrite <- (take_drop i (take i' b)), take_take, cnt_app. rewrite Nat.min_l by lia. rewrite (drop_S (take i' b) k' i) by (by rewrite lookup_take_lt). rewrite cnt_cons, decide_True by done. pose proof (cnt_nonneg k' (drop (S i) (take i' b))). lia.
Qed.

Lemma values_ok j m x v : (m + j = length b)%nat -> total c g <= Z.of_nat (length v) -> length x = 17%nat -> (forall k, 1 <= k <= g -> nth (Z.to_nat k) x 0 = total c (k - 1) + cnt k (take m b)) ->
  (forall i k, (i < m)%nat -> b !! i = Some k -> 1 <= k -> v !! Z.to_nat (slot_of i) = Some (Z.of_nat i)) ->
  exists x' v', values (drop m b) x v (Z.of_nat m) = Ok (x', v') /\ length x' = 17%nat /\ length v' = length v /\
    forall i k, b !! i = Some k -> 1 <= k -> v' !! Z.to_nat (slot_of i) = Some (Z.of_nat i).
Proof.
  revert m x v. induction j as [|j IH]; intros m x v Hm Hv Hx Hk Hi.
  - rewrite drop_ge by lia. exists x, v. split_and!; try done. intros i k H. apply (Hi i k); [|done]. apply lookup_lt_Some in H. lia.
  - destruct (lookup_lt_is_Some_2 b m ltac:(lia)) as [k Hbm]. assert (0 <= k <= g) as Hkr by (by apply (proj1 (Forall_lookup _ _) Hb) in Hbm).
    rewrite (drop_S b k m Hbm). cbn [values]. replace (Z.of_nat m + 1) with (Z.of_nat (S m)) by lia.
    assert (forall q, cnt q (take (S m) b) = cnt q (take m b) + if decide (q = k) then 1 else 0) as Hcnt by (intros q; rewrite (take_S_r b m k Hbm), cnt_app, cnt_cons; unfold cnt at 2; cbn; lia).
    destruct (Z.eqb_spec k 0) as [->|Hk0].
    + apply IH; [lia|done|done| |].
      * intros q Hq. rewrite (Hk q Hq), Hcnt, decide_False by lia. lia.
      * intros i k' Hlt H Hk'. apply (Hi i k'); [|done..]. assert (i <> m) by (intros ->; rewrite Hbm in H; injection H as <-; lia). lia.
    + assert (nth (Z.to_nat k) x 0 = slot_of m) as Eo by (rewrite (Hk k ltac:(lia)); unfold slot_of; by rewrite (nth_lookup_Some _ _ _ _ Hbm)).
      destruct (slot_range m k Hbm ltac:(lia)) as [Hs1 Hs2]. assert (0 <= total c (k - 1)) as H0 by (apply (total_le c counts_nonneg 0 (k - 1)); lia).
      rewrite at_nth, Eo by lia. cbn [mbind outcome_bind]. rewrite put_ok by lia. cbn [mbind outcome_bind]. rewrite put_ok by lia. cbn [mbind outcome_bind].
      destruct (IH (S m) (<[Z.to_nat k := slot_of m + 1]> x) (<[Z.to_nat (slot_of m) := Z.of_nat m]> v)) as (x' & v' & E & Hl & Hlv & Hall).
      * lia. * by rewrite length_insert. * by rewrite length_insert.
      * intros q Hq. rewrite nth_insert, Hcnt by lia. destruct (decide (q = k)) as [->|Hne]; [rewrite decide_True by done; unfold slot_of; rewrite (nth_lookup_Some _ _ _ _ Hbm); lia|]. rewrite decide_False by lia. rewrite (Hk q Hq). lia.
      * intros i k' Hlt H Hk'. destruct (decide (i = m)) as [->|Hne]; [apply list_lookup_insert_eq; lia|]. assert (i < m)%nat as Him by lia.
        pose proof (slot_inj i m k' k H Hbm Hk' ltac:(lia) Him). destruct (slot_range i k' H Hk') as [? _]. assert (0 <= total c (k' - 1)) by (apply (total_le c counts_nonneg 0 (k' - 1)); lia).
        rewrite list_lookup_insert_ne by lia. by apply (Hi i k').
      * exists x', v'. rewrite length_insert in Hlv. done.
Qed.

(** Every place is some symbol's. *)
Lemma slot_surj t : 0 <= t < total c g -> exists i k, b !! i = Some k /\ 1 <= k <= g /\ slot_of i = t.
Proof.
  intros Ht. assert (exists k, 1 <= k <= g /\ total c (k - 1) <= t < total c k) as (k & Hk & Htk).
  { destruct Hg as [Hg1 _]. clear - Ht Hg1. assert (0 <= g) as H0 by lia. revert Ht Hg1. pattern g. apply natlike_ind; [|clear g H0; intros g H0 IH|done]; intros Ht Hg1; [lia|].
    destruct (Z.ltb_spec t (total c g)) as [H|H]; [|exists (Z.succ g); replace (Z.succ g - 1) with g by lia; lia]. destruct (Z.eq_dec g 0) as [->|Hne]; [change (total c 0) with 0 in H; lia|].
    destruct (IH ltac:(lia) ltac:(lia)) as (k & Hk & Hkt). exists k. lia. }
  pose proof (total_succ c k ltac:(lia)) as E. rewrite Hc, Z2Nat.id in E by lia. destruct (nth_occurrence k b (t - total c (k - 1)) ltac:(lia)) as (i & H1 & H2).
  exists i, k. split; [done|]. split; [done|]. unfold slot_of. rewrite (nth_lookup_Some _ _ _ _ H1), H2. lia.
Qed.

(** ** The set filled up *)

Definition filled (y : Z) : list Z := <[Z.to_nat g := nth (Z.to_nat g) c 0 + y]> c.

Lemma filled_nth y q : nth q (filled y) 0 = if decide (q = Z.to_nat g) then nth (Z.to_nat g) c 0 + y else nth q c 0.
Proof. unfold filled. apply nth_insert. lia. Qed.

Lemma filled_total y m : 0 <= m < g -> total (filled y) m = total c m.
Proof.
  intros Hm. unfold total. assert (Z.to_nat m < Z.to_nat g)%nat as Hlt by lia. revert Hlt. generalize (Z.to_nat m). intros n. induction n as [|n IH]; intros Hlt; [done|]. cbn [total_]. rewrite IH by lia. rewrite filled_nth, decide_False by lia. done.
Qed.
Lemma filled_qend y m : 0 <= m < g -> qend (filled y) g m = qend c g m.
Proof.
  intros Hm. unfold qend. assert (Z.to_nat m < Z.to_nat g)%nat as Hlt by lia. revert Hlt. generalize (Z.to_nat m). intros n. induction n as [|n IH]; intros Hlt; [done|]. cbn [qend_]. rewrite IH by lia. rewrite filled_nth, decide_False by lia. done.
Qed.

Lemma filled_full y : qend (filled y) g g = qend c g g + y /\ total (filled y) g = total c g + y.
Proof.
  rewrite (qend_succ _ g g), (total_succ _ g), (qend_succ c g g), (total_succ c g) by lia. rewrite filled_qend, filled_total by lia. rewrite filled_nth, decide_True by done. rewrite Z.sub_diag. change (2 ^ 0) with 1. lia.
Qed.

Lemma filled_complete y l : y = 2 ^ g - qend c g g -> 0 <= y -> 1 <= l <= g -> nth (Z.to_nat g) c 0 <> 0 -> g <= 2 * l \/ total c g + y < 2 ^ l -> complete (filled y) g l.
Proof.
  intros Hy Hy0 Hl Hmax Hsm. destruct (filled_full y) as [E1 E2]. pose proof counts_nonneg as Hnn. pose proof (count_nonneg c Hnn (Z.to_nat g)). split; try done; try lia.
  - apply Forall_lookup. intros i x Hx. rewrite <- (nth_lookup_Some _ _ 0 _ Hx), filled_nth. destruct (decide _); [lia|]. by apply count_nonneg.
  - rewrite filled_nth, decide_True by done. lia.
Qed.

(** The place of a symbol's code among all positions. *)
Lemma symbol_pos y i k : b !! i = Some k -> 1 <= k -> 0 <= y ->
  let a := nth (Z.to_nat k) (filled y) 0 - cnt k (take i b) in
  1 <= k <= g /\ 1 <= a <= nth (Z.to_nat k) (filled y) 0 /\ total (filled y) (k - 1) + nth (Z.to_nat k) (filled y) 0 - a = slot_of i /\ pos (filled y) g k a = code_of b i * 2 ^ (g - k).
Proof.
  intros H Hk Hy. assert (0 <= k <= g) as Hkg by (by apply (proj1 (Forall_lookup _ _) Hb) in H). pose proof (cnt_lt b i k H) as Hlt. pose proof (cnt_nonneg k (take i b)). 
  assert (cnt k b <= nth (Z.to_nat k) (filled y) 0) as Hle by (rewrite filled_nth; destruct (decide _) as [E|E]; [rewrite <- E, Hc, Z2Nat.id by lia; lia|rewrite Hc, Z2Nat.id by lia; lia]).
  cbv zeta. split; [lia|]. split; [lia|]. split; [rewrite filled_total by lia; unfold slot_of; rewrite (nth_lookup_Some _ _ _ _ H); lia|].
  unfold pos, code_of. rewrite (nth_lookup_Some _ _ _ _ H), (qend_succ _ g k) by lia. rewrite filled_qend by lia. rewrite (first_code_qend k) by lia. lia.
Qed.
End Lengths.

(** ** The theorem *)

(** What is found for the symbol [x]. *)
Definition sym_entry (s : Z) (d e : list Z) (x : Z) : Z * hval :=
  if x <? s then (if x <? 256 then 16 else 15, Vn x) else (nth (Z.to_nat (x - s)) e 0, Vn (nth (Z.to_nat (x - s)) d 0)).

(** The table [T], of which [l] bits are looked up first, decodes the canonical code with the lengths [b]. *)
Definition table_ok (t : gmap Z (Z * list huft)) (T l : Z) (b : list Z) (s : Z) (d e : list Z) : Prop :=
  forall i k, b !! i = Some k -> 1 <= k -> forall B, 0 <= B -> B mod 2 ^ k = rev k (code_of b i) ->
    exists r, walk 17 t T l B = Some (r, k) /\ (he r, hv r) = sym_entry s d e (Z.of_nat i).

(** The lengths, and the limits of the routine. *)
Record buildable (b : list Z) (s : Z) (d e : list Z) (m : Z) : Prop := {
  bu_len : (length b <= 288)%nat; bu_range : Forall (fun x => 0 <= x <= 16) b; bu_some : exists i k, b !! i = Some k /\ 1 <= k;
  bu_kraft : kraft b <= 2 ^ 16; bu_full : kraft b = 2 ^ 16 \/ cnt 0 b = 0; bu_m : 1 <= m <= 16;
  bu_small : Forall (fun x => x <= 2 * m) b \/ kraft b = 2 ^ 16 /\ Z.of_nat (length b) < 2 ^ m;
  bu_vals : forall i k, b !! i = Some k -> 1 <= k -> s <= Z.of_nat i ->
    Z.of_nat i - s < Z.of_nat (length d) /\ exists x, e !! Z.to_nat (Z.of_nat i - s) = Some x /\ (0 <= x <= 13 \/ x = 99) }.

Definition heap_ok (m : hmem) : Prop := 0 < nexttab m /\ (forall T, nexttab m <= T -> tabs m !! T = None) /\ Forall (eq true) (answers m).

Lemma clamp_ok b c g k m s d e : buildable b s d e m -> Forall (fun x => 0 <= x <= g) b -> 1 <= k <= g -> g <= 16 -> (exists i, b !! i = Some g) -> length c = 17%nat -> (forall q, (q <= 16)%nat -> nth q c 0 = cnt (Z.of_nat q) b) ->
  let l0 := if m <? k then k else m in let l := if g <? l0 then g else l0 in
  1 <= l <= g /\ k <= l /\ (g <= 2 * l \/ total c g + (2 ^ g - qend c g g) < 2 ^ l).
Proof.
  intros Hbu Hb Hk Hg [i Hi] Hlen Hc. destruct Hbu as [_ _ _ _ _ Hm Hsm _]. cbv zeta.
  assert (1 <= (if g <? (if m <? k then k else m) then g else if m <? k then k else m) <= g /\ k <= (if g <? (if m <? k then k else m) then g else if m <? k then k else m) /\
    ((if g <? (if m <? k then k else m) then g else if m <? k then k else m) = g \/ m <= (if g <? (if m <? k then k else m) then g else if m <? k then k else m))) as (H1 & H2 & H3)
    by (destruct (Z.ltb_spec m k); [destruct (Z.ltb_spec g k); lia|destruct (Z.ltb_spec g m); lia]).
  revert H1 H2 H3. generalize (if g <? (if m <? k then k else m) then g else if m <? k then k else m). intros l H1 H2 H3. split; [done|]. split; [done|].
  destruct H3 as [->|H3]; [left; lia|]. destruct Hsm as [Hsm|[Hsm1 Hsm2]].
  - apply (proj1 (Forall_lookup _ _) Hsm) in Hi. left. lia.
  - right. rewrite (total_used b c g Hb ltac:(lia) Hlen Hc). pose proof (kraft_qend b c g Hb ltac:(lia) Hlen Hc) as Ek. rewrite Hsm1 in Ek.
    assert (2 ^ 16 = 2 ^ (16 - g) * 2 ^ g) as E2 by (rewrite <- Z.pow_add_r by lia; f_equal; lia). assert (0 < 2 ^ (16 - g)) by (apply Z.pow_pos_nonneg; lia).
    assert (qend c g g = 2 ^ g) as -> by nia. pose proof (cnt_nonneg 0 b). assert (2 ^ m <= 2 ^ l) by (apply Z.pow_le_mono_r; lia). lia.
Qed.

Lemma clamp_max b g k m : Forall (fun x => 0 <= x <= g) b -> Forall (fun x => x <= m) b ->
  let l0 := if m <? k then k else m in let l := if g <? l0 then g else l0 in Forall (fun x => x <= l) b.
Proof. intros Hg Hm. cbv zeta. eapply Forall_impl; [apply Forall_and; split; [exact Hg|exact Hm]|]. cbv beta. intros x [H1 H2]. destruct (Z.ltb_spec m k); [destruct (Z.ltb_spec g k)|destruct (Z.ltb_spec g m)]; lia. Qed.

Lemma sym_entries b c g y s d e m v n : buildable b s d e m -> Forall (fun x => 0 <= x <= g) b -> 1 <= g <= 16 -> length c = 17%nat -> (forall q, (q <= 16)%nat -> nth q c 0 = cnt (Z.of_nat q) b) ->
  n = Z.of_nat (length b) -> y = 2 ^ g - qend c g g -> (forall i k, b !! i = Some k -> 1 <= k -> v !! Z.to_nat (slot_of b c i) = Some (Z.of_nat i)) ->
  entries (filled c g y) g v d e n s (total c g) (fun t => sym_entry s d e (nth (Z.to_nat t) v 0)).
Proof.
  intros Hbu Hb Hg Hlen Hc -> Hy Hv. destruct Hbu as [H288 _ _ _ Hfull _ _ Hvals]. pose proof (total_used b c g Hb Hg Hlen Hc) as Hu. pose proof (cnt_nonneg 0 b) as H0. pose proof (kraft_qend b c g Hb Hg Hlen Hc) as Ek.
  assert (0 <= total c g) as Ht0 by (apply (total_le c (counts_nonneg b c Hlen Hc) 0 g); lia).
  assert (forall p, 0 <= p < total c g -> exists i k, b !! i = Some k /\ 1 <= k /\ v !! Z.to_nat p = Some (Z.of_nat i) /\ (i < length b)%nat) as Hsurj.
  { intros p Hp. destruct (slot_surj b c g Hg Hlen Hc p Hp) as (i & k & H1 & H2 & <-). exists i, k. split_and!; try done; try lia; [by apply (Hv i k); [|lia]|by apply lookup_lt_Some in H1]. }
  split.
  - lia.
  - destruct Hfull as [Hfull|Hfull]; [right|left; lia]. rewrite (proj2 (filled_full c g Hg Hlen y)). assert (2 ^ 16 = 2 ^ (16 - g) * 2 ^ g) as E2 by (rewrite <- Z.pow_add_r by lia; f_equal; lia). assert (0 < 2 ^ (16 - g)) by (apply Z.pow_pos_nonneg; lia). nia.
  - intros p r Hp. destruct (Hsurj p Hp) as (i & k & H1 & H2 & H3 & H4). unfold entry_of. rewrite (proj2 (Z.leb_gt _ _)) by lia. rewrite (at_ok v p (Z.of_nat i)) by (done || lia). cbn [mbind outcome_bind].
    rewrite (nth_lookup_Some _ _ _ _ H3). unfold sym_entry. destruct (Z.ltb_spec (Z.of_nat i) s) as [Hs|Hs]; [by rewrite u16_small by lia|].
    destruct (Hvals i k H1 H2 Hs) as (Hd & x & He & Hx). rewrite (at_ok e _ x) by (done || lia). cbn [mbind outcome_bind]. rewrite (at_nth d) by lia. cbn [mbind outcome_bind].
    rewrite (nth_lookup_Some _ _ _ _ He), u8_small by lia. done.
  - intros p Hp. destruct (Hsurj p Hp) as (i & k & H1 & H2 & H3 & H4). rewrite (nth_lookup_Some _ _ _ _ H3). unfold sym_entry. destruct (Z.ltb_spec (Z.of_nat i) s) as [Hs|Hs]; [cbn; left; destruct (_ <? 256); lia|].
    destruct (Hvals i k H1 H2 Hs) as (Hd & x & He & Hx). rewrite (nth_lookup_Some _ _ _ _ He). cbn. lia.
Qed.

Lemma all_codes_start c g l v d e n s nv ent hm x tr k : complete c g l -> entries c g v d e n s nv ent -> heap_ok hm -> length x = 17%nat -> x !! 0%nat = Some 0 -> 1 <= k <= l ->
  nth (Z.to_nat k) c 0 <> 0 -> qend c g (k - 1) = 0 -> total c (k - 1) = 0 ->
  exists st O D ts, all_codes c v d e n s g l k (Z.to_nat (g - k + 1)) (start l hm x tr) = Ok (inl st) /\ inv c g l (tabs hm) (nexttab hm) g 0 st O D ts /\ numbered c g nv ent g 0 D.
Proof.
  intros Hco Hen (Hnx & Hfresh & Hans) Hlx Hx0 Hk Hck Hq Ht. pose proof Hco as [Hc Hl _ _ _ _]. pose proof (count_nonneg c Hc (Z.to_nat k)) as Hcn.
  destruct (new_level_root c g l Hco (tabs hm) (nexttab hm) Hnx Hfresh hm x tr k (nth (Z.to_nat k) c 0)) as (st1 & O & ts & E1 & Hinv & Hw1 & Hp1); try done; [lia|unfold pos; rewrite (qend_succ c g k) by lia; lia|].
  replace (Z.to_nat (g - k + 1)) with (S (Z.to_nat (g - k))) by lia.
  assert (all_codes c v d e n s g l k (S (Z.to_nat (g - k))) (start l hm x tr) = all_codes c v d e n s g l k (S (Z.to_nat (g - k))) st1) as ->.
  { cbn [all_codes]. destruct (Z.to_nat (nth (Z.to_nat k) c 0)) as [|a] eqn:Ea; [lia|]. cbn [codes_of]. replace (Z.of_nat (S a)) with (nth (Z.to_nat k) c 0) by lia.
    assert (one_code c v d e n s g l k (nth (Z.to_nat k) c 0) (start l hm x tr) = one_code c v d e n s g l k (nth (Z.to_nat k) c 0) st1) as ->; [|done]. unfold one_code.
    assert (new_levels 17 c g l k (nth (Z.to_nat k) c 0) (start l hm x tr) = new_levels 17 c g l k (nth (Z.to_nat k) c 0) st1) as ->; [|done].
    cbn [new_levels]. rewrite E1. cbn [mbind outcome_bind sw start]. rewrite Hw1. rewrite (proj2 (Z.ltb_lt (- l + l) k)), (proj2 (Z.ltb_ge (0 + l) k)) by lia. done. }
  destruct (all_codes_ok c g l Hco (tabs hm) (nexttab hm) v d e n s nv ent Hen (Z.to_nat (g - k)) k st1 O [] ts) as (st & O' & D & ts' & E & Hi & Hn); [lia|done| | |].
  - split; [cbn; lia|]. intros k' a' Hk' Ha' Hlt t Htn. exfalso. destruct (Z.eq_dec k' k) as [->|Hne]; [specialize (Hlt eq_refl); lia|].
    pose proof (count_total c Hc k' (k - 1) ltac:(lia)). lia.
  - rewrite Hp1. cbn. destruct Hen. lia.
  - exists st, O', D, ts'. done.
Qed.

(** What is known after the lengths were counted. *)
Lemma scan_lengths b : Forall (fun x => 0 <= x <= 16) b -> (exists i k, b !! i = Some k /\ 1 <= k) -> exists c, counts (replicate 17 0) b = Ok c /\ length c = 17%nat /\ (forall q, (q <= 16)%nat -> nth q c 0 = cnt (Z.of_nat q) b) /\ nth 0 c 0 <> Z.of_nat (length b) /\
  let k := min_len 16 c 1 in let g := max_len 16 c in 1 <= k <= g /\ g <= 16 /\ Forall (fun x => 0 <= x <= g) b /\ (exists i, b !! i = Some g) /\ nth (Z.to_nat k) c 0 <> 0 /\ nth (Z.to_nat g) c 0 <> 0 /\
    qend c g (k - 1) = 0 /\ total c (k - 1) = 0.
Proof.
  intros Hr (i & k0 & Hi & Hk0). destruct (counts_ok b (replicate 17 0) Hr eq_refl) as (c & -> & Hlen & Hc0). assert (forall q, (q <= 16)%nat -> nth q c 0 = cnt (Z.of_nat q) b) as Hc.
  { intros q Hq. rewrite Hc0 by done. rewrite nth_lookup, lookup_replicate_2 by lia. done. }
  exists c. split; [done|]. split; [done|]. split; [done|]. pose proof (proj1 (Forall_lookup _ _) Hr i k0 Hi) as Hk0r. cbn in Hk0r.
  assert (forall i x, b !! i = Some x -> 0 < cnt x b) as Hpos by (intros j x Hj; pose proof (cnt_lt b j x Hj); pose proof (cnt_nonneg x (take j b)); lia).
  assert (exists q, (1 <= q <= 16)%nat /\ nth q c 0 <> 0) as Hex by (exists (Z.to_nat k0); split; [lia|]; rewrite Hc, Z2Nat.id by lia; specialize (Hpos i k0 Hi); lia).
  split.
  { rewrite Hc by lia. change (Z.of_nat 0) with 0. intros E. assert (cnt 0 b < Z.of_nat (length b)); [|lia]. clear - Hi Hk0. unfold cnt. revert i Hi. induction b as [|x b IH]; intros i Hi; [done|].
    rewrite filter_cons. cbn [length]. pose proof (length_filter (eq 0) b). destruct i as [|i]; [injection Hi as ->; rewrite decide_False by lia; lia|]. specialize (IH i Hi). destruct (decide (0 = x)); cbn [length]; lia. }
  cbv zeta. destruct (max_len_ok c 16 Hex) as (G1 & G2 & G3). destruct (min_len_ok c 16 1) as (K1 & K2 & K3); [destruct Hex as (q & Hq & Hn); exists q; split; [lia|done]|lia|]. set (g := max_len 16 c) in *. set (k := min_len 16 c 1) in *.
  assert (k <= g) as Hkg by (destruct (Z.le_gt_cases k g) as [|Hgt]; [done|]; specialize (G3 (Z.to_nat k) ltac:(lia) ltac:(lia)); done).
  assert (forall q, 1 <= q < k -> nth (Z.to_nat q) c 0 = 0) as Hzero by (intros q Hq; apply K3; lia).
  split_and!; try done; try lia.
  - apply Forall_lookup. intros j x Hx. pose proof (proj1 (Forall_lookup _ _) Hr j x Hx) as Hxr. cbn in Hxr. split; [lia|]. destruct (Z.le_gt_cases x g) as [|Hgt]; [done|exfalso].
    specialize (G3 (Z.to_nat x) ltac:(lia) ltac:(lia)). rewrite Hc, Z2Nat.id in G3 by lia. specialize (Hpos j x Hx). lia.
  - destruct (nth_occurrence g b 0) as (j & Hj & _); [|by exists j]. rewrite Hc, Z2Nat.id in G2 by lia. pose proof (cnt_nonneg g b). lia.
  - unfold qend. assert (Z.to_nat (k - 1) < Z.to_nat k)%nat as Hlt by lia. revert Hlt. generalize (Z.to_nat (k - 1)). intros q. induction q as [|q IH]; intros Hlt; [done|]. cbn [qend_]. rewrite IH by lia.
    specialize (Hzero (Z.of_nat (S q)) ltac:(lia)). rewrite Nat2Z.id in Hzero. rewrite Hzero. lia.
  - unfold total. assert (Z.to_nat (k - 1) < Z.to_nat k)%nat as Hlt by lia. revert Hlt. generalize (Z.to_nat (k - 1)). intros q. induction q as [|q IH]; intros Hlt; [done|]. cbn [total_]. rewrite IH by lia.
    specialize (Hzero (Z.of_nat (S q)) ltac:(lia)). rewrite Nat2Z.id in Hzero. rewrite Hzero. lia.
Qed.

(** huft_build makes tables in which every canonical code is found, and nothing else changes.
    It says so if the set is not complete. *)
Lemma huft_build_ok junk b s d e tr m hm : buildable b s d e m -> length junk = 288%nat -> heap_ok hm ->
  exists T l hm' ts, huft_build junk b s d e tr m hm = Ok (if (kraft b <? 2 ^ 16) && existsb (fun x => 1 <? x) b then 1 else 0, T, l, hm') /\
    1 <= l <= 16 /\ (Forall (fun x => x <= m) b -> Forall (fun x => x <= l) b) /\ table_ok (tabs hm') T l b s d e /\ linked_tabs (tabs hm) (nexttab hm) hm' ts /\ head ts = Some T.
Proof.
  intros Hbu Hjunk Hheap. destruct (scan_lengths b (bu_range _ _ _ _ _ Hbu) (bu_some _ _ _ _ _ Hbu)) as (c & Ec & Hlen & Hc & Hn0 & Hk & Hg & Hb & Hgi & Hkc & Hgc & Hq & Ht). set (k := min_len 16 c 1) in *. set (g := max_len 16 c) in *.
  destruct (clamp_ok b c g k m s d e Hbu Hb Hk Hg Hgi Hlen Hc) as (Hl & Hkl & Hsm). pose proof (counts_nonneg b c Hlen Hc) as Hnn. pose proof (kraft_qend b c g Hb ltac:(lia) Hlen Hc) as Ek.
  assert (2 ^ 16 = 2 ^ (16 - g) * 2 ^ g) as E16 by (rewrite <- Z.pow_add_r by lia; f_equal; lia). assert (0 < 2 ^ (16 - g)) as Hp16 by (apply Z.pow_pos_nonneg; lia).
  assert (qend c g g <= 2 ^ g) as Hqle by (pose proof (bu_kraft _ _ _ _ _ Hbu); nia). unfold huft_build. rewrite Ec. cbn [mbind outcome_bind]. rewrite (proj2 (Z.eqb_neq _ _) Hn0). fold k g.
  set (l := if g <? (if m <? k then k else m) then g else if m <? k then k else m) in *. rewrite Z.shiftl_1_l.
  rewrite (spare_ok c g k 17 (2 ^ k)); [|done|lia|rewrite Hq, <- Z.pow_add_r, Z.sub_0_r by lia; f_equal; lia|lia]. rewrite (proj2 (Z.leb_le _ _) Hqle). set (y := 2 ^ g - qend c g g). fold (filled c g y).
  destruct (offsets_ok (filled c g y) (replicate 17 0) (Z.to_nat (g - 1)) 1 2 0) as (x & -> & Hxl & Hx1 & Hx2); [done|lia|lia|lia|done|]. cbn [mbind outcome_bind].
  destruct (values_ok b c g Hb ltac:(lia) Hlen Hc (length b) 0 x junk) as (x' & v & Ev & Hx'l & Hvl & Hv); [lia| |done| |intros; lia|].
  { rewrite (total_used b c g Hb ltac:(lia) Hlen Hc). pose proof (cnt_nonneg 0 b). destruct Hbu. lia. }
  { intros q Hqr. change (cnt q (take 0 b)) with 0. destruct (Z.eq_dec q 1) as [->|Hne]; [rewrite Hx2 by lia; done|]. rewrite (Hx1 q ltac:(lia)), (filled_total c g ltac:(lia) Hlen) by lia. lia. }
  change (drop 0 b) with b in Ev. change (Z.of_nat 0) with 0 in Ev. rewrite Ev. cbn [mbind outcome_bind].
  pose proof (filled_complete b c g ltac:(lia) Hlen Hc y l eq_refl ltac:(lia) Hl Hgc Hsm) as Hco. pose proof (sym_entries b c g y s d e m v _ Hbu Hb ltac:(lia) Hlen Hc eq_refl eq_refl Hv) as Hen.
  destruct (all_codes_start (filled c g y) g l v d e _ s _ _ hm (<[0%nat := 0]> x') tr k Hco Hen Hheap) as (st & O & D & ts & E & Hinv & Hnum).
  { by rewrite length_insert. } { apply list_lookup_insert_eq. lia. } { lia. }
  { rewrite filled_nth by lia. destruct (decide _) as [Eg|]; [|done]. pose proof (count_nonneg c Hnn (Z.to_nat g)). lia. }
  { destruct (Z.eq_dec (k - 1) 0) as [->|]; [done|]. by rewrite filled_qend by lia. } { by rewrite filled_total by lia. }
  unfold start in E. rewrite E. cbn [mbind outcome_bind]. exists (sroot st), l, (sm st), ts. split; [|split; [lia|split; [exact (clamp_max b g k m Hb)|]]].
  - do 4 f_equal. assert (negb (y =? 0) = (kraft b <? 2 ^ 16)) as -> by (unfold y; destruct (Z.eqb_spec (2 ^ g - qend c g g) 0), (Z.ltb_spec (kraft b) (2 ^ 16)); cbn; try done; nia).
    assert (negb (g =? 1) = existsb (fun x => 1 <? x) b) as ->; [|done]. destruct (Z.eqb_spec g 1) as [Eg|Eg]; cbn [negb]; symmetry.
    + apply not_true_iff_false. intros (z & Hz & Hz1)%existsb_exists. apply list_elem_of_In, list_elem_of_lookup in Hz as [j Hj]. apply (proj1 (Forall_lookup _ _) Hb) in Hj. apply Z.ltb_lt in Hz1. lia.
    + apply existsb_exists. destruct Hgi as [j Hj]. exists g. split; [apply list_elem_of_In; by eapply list_elem_of_lookup_2|apply Z.ltb_lt; lia].
  - pose proof Hinv as [_ _ _ _ _ _ _ _ _ _ (_ & _ & Hhd) Hmem _ Hdone _]. split; [|done]. intros i kk Hi Hkk B HB EB. destruct (symbol_pos b c g Hb ltac:(lia) Hlen Hc y i kk Hi Hkk ltac:(lia)) as (Hkg & Ha & Eslot & Epos).
    destruct Hnum as [_ Hnum]. specialize (Hnum kk _ Hkg Ha ltac:(lia)). cbv zeta in Hnum. rewrite Eslot in Hnum. destruct (slot_range b c g Hb ltac:(lia) Hlen Hc i kk Hi Hkk) as [_ Hs]. specialize (Hnum Hs).
    apply (proj1 (Forall_lookup _ _) Hdone) in Hnum. unfold found in Hnum. cbv beta iota zeta in Hnum. destruct Hnum as (_ & _ & _ & _ & Hf). destruct (Hf B HB) as (r & Hw & He & Hv2).
    { rewrite EB, Epos, Z.div_mul; [done|apply Z.pow_nonzero; lia]. }
    exists r. split; [exact Hw|]. rewrite (nth_lookup_Some _ _ _ _ (Hv i kk Hi Hkk)) in He, Hv2. rewrite He, Hv2. by destruct (sym_entry s d e (Z.of_nat i)).
Qed.

(** ** The tables of two codes, and their end *)

Lemma walk_mono t t' : (forall T x, t !! T = Some x -> t' !! T = Some x) -> forall fuel T L B r, walk fuel t T L B = Some r -> walk fuel t' T L B = Some r.
Proof.
  intros Ht. induction fuel as [|fuel IH]; intros T L B r; [done|]. cbn [walk]. unfold cell. destruct (t !! T) as [[lk es]|] eqn:E; [|done]. rewrite (Ht T _ E). cbn [mbind option_bind].
  destruct (es !! _) as [x|]; [|done]. cbn [mbind option_bind]. destruct (_ && _); [|done]. destruct (is_ptr x); [|done]. destruct (hv x) as [|T']; [done|]. destruct (_ && _); [|done].
  destruct (walk fuel t T' _ _) as [[r' n]|] eqn:Ew; [|done]. by rewrite (IH _ _ _ _ Ew).
Qed.

Lemma table_ok_mono t t' T l b s d e : (forall T x, t !! T = Some x -> t' !! T = Some x) -> table_ok t T l b s d e -> table_ok t' T l b s d e.
Proof. intros Ht H i k Hi Hk B HB E. destruct (H i k Hi Hk B HB E) as (r & Hw & Hr). exists r. split; [|done]. by apply (walk_mono t). Qed.

(** The tables [ts], each with the link to the next one. *)
Definition chained (t : gmap Z (Z * list huft)) (ts : list Z) : Prop :=
  NoDup ts /\ Forall (Z.lt 0) ts /\ forall i T, ts !! i = Some T -> exists es, t !! T = Some (default NULL (ts !! S i), es).
Definition without (t : gmap Z (Z * list huft)) (ts : list Z) : gmap Z (Z * list huft) := foldr delete t ts.

Lemma lookup_without t ts T : without t ts !! T = if decide (T ∈ ts) then None else t !! T.
Proof.
  induction ts as [|x ts IH]; [by rewrite decide_False by apply not_elem_of_nil|]. cbn [without foldr]. fold (without t ts). destruct (decide (T = x)) as [->|Hne].
  - rewrite lookup_delete_eq, decide_True; [done|apply list_elem_of_here].
  - rewrite lookup_delete_ne by done. rewrite IH. apply decide_ext. rewrite elem_of_cons. naive_solver.
Qed.

Lemma chained_delete t T ts : chained t (T :: ts) -> chained (delete T t) ts.
Proof.
  intros ([Hni Hnd]%NoDup_cons & [_ Hp]%Forall_cons & Hl). split; [done|]. split; [done|]. intros i T' Hi. destruct (Hl (S i) T' Hi) as [es E]. exists es. rewrite lookup_delete_ne; [done|].
  intros ->. apply Hni. by eapply list_elem_of_lookup_2.
Qed.

Lemma chained_size ts : forall t, chained t ts -> (length ts <= size t)%nat.
Proof.
  induction ts as [|T ts IH]; intros t Hc; [cbn; lia|]. pose proof (IH _ (chained_delete t T ts Hc)) as H. destruct Hc as (_ & _ & Hl). destruct (Hl 0%nat T eq_refl) as [es E].
  rewrite map_size_delete_Some in H by (by eexists). assert (size t <> 0%nat) by (intros E0; apply map_size_empty_iff in E0; subst t; done). cbn [length]. lia.
Qed.

Lemma without_delete t T ts : without (delete T t) ts = without t (T :: ts).
Proof. apply map_eq. intros x. rewrite !lookup_without. destruct (decide (x = T)) as [->|Hne]; [rewrite lookup_delete_eq, (decide_True (P := T ∈ T :: ts)) by apply list_elem_of_here; by destruct (decide _)|].
  rewrite lookup_delete_ne by done. apply decide_ext. rewrite elem_of_cons. naive_solver. Qed.

(** huft_free gives all tables of the code back, and no other. *)
Lemma huft_free_ok m ts : chained (tabs m) ts -> huft_free m (default NULL (head ts)) = Ok (set_tabs m (without (tabs m) ts)).
Proof.
  intros Hc. unfold huft_free. pose proof (chained_size ts _ Hc) as Hsz. revert Hsz. generalize (size (tabs m)). intros f. revert m f Hc. induction ts as [|T ts IH]; intros m f Hc Hf; [by destruct m|]. destruct f as [|f]; [cbn in Hf; lia|].
  pose proof Hc as (_ & [Hp _]%Forall_cons & Hl). destruct (Hl 0%nat T eq_refl) as [es E]. change (default NULL (head (T :: ts))) with T.
  change (huft_free_loop (S (S f)) m T) with (if T =? NULL then Ok m else '(q, _) ← from_opt (tabs m !! T); huft_free_loop (S f) (set_tabs m (delete T (tabs m))) q).
  assert (T =? NULL = false) as -> by (apply Z.eqb_neq; unfold NULL; lia). rewrite E. cbn [from_opt mbind outcome_bind]. replace ((T :: ts) !! 1%nat) with (head ts) by (by destruct ts).
  rewrite IH; [|by apply chained_delete|cbn in Hf; lia]. cbn [set_tabs tabs]. unfold set_tabs. cbn [tabs nexttab answers hufts]. by rewrite without_delete.
Qed.

Lemma linked_chained t0 n0 m ts : 0 < n0 -> linked_tabs t0 n0 m ts -> chained (tabs m) ts.
Proof. intros Hn [H1 H2 _ H4 _ _]. split; [done|]. split; [|done]. apply Forall_forall. intros T HT. specialize (H2 T HT). lia. Qed.

Lemma linked_extends hm m ts : heap_ok hm -> linked_tabs (tabs hm) (nexttab hm) m ts -> heap_ok m /\ (forall T x, tabs hm !! T = Some x -> tabs m !! T = Some x).
Proof.
  intros (H1 & H2 & H3) [L1 L2 L3 L4 L5 L6]. split.
  - split; [lia|]. split; [|done]. intros T HT. rewrite L5 by (intros Hin; specialize (L2 T Hin); lia). apply H2. lia.
  - intros T x E. rewrite L5; [done|]. intros Hin. specialize (L2 T Hin). rewrite H2 in E by lia. done.
Qed.

(** Without the tables of both codes the memory is as it was. *)
Lemma linked_undone hm m1 m2 t1 t2 : heap_ok hm -> linked_tabs (tabs hm) (nexttab hm) m1 t1 -> linked_tabs (tabs m1) (nexttab m1) m2 t2 ->
  chained (tabs m2) t1 /\ chained (without (tabs m2) t1) t2 /\ without (without (tabs m2) t1) t2 = tabs hm.
Proof.
  intros Hh L1 L2. pose proof Hh as (H1 & H2 & H3). pose proof (linked_extends hm m1 t1 Hh L1) as [Hh1 _]. pose proof (linked_extends m1 m2 t2 Hh1 L2) as [Hh2 Hm2].
  destruct (linked_chained _ _ _ _ H1 L1) as (C1 & C2 & C3). destruct L1 as [_ N1 X1 _ O1 _]. destruct (linked_chained _ _ _ _ (proj1 Hh1) L2) as (D1 & D2 & D3). destruct L2 as [_ N2 X2 _ O2 _].
  assert (forall T, T ∈ t1 -> T ∈ t2 -> False) as Hdis by (intros T Ha Hb; specialize (N1 T Ha); specialize (N2 T Hb); lia).
  split; [|split].
  - split; [done|]. split; [done|]. intros i T Hi. destruct (C3 i T Hi) as [es E]. exists es. by apply Hm2.
  - split; [done|]. split; [done|]. intros i T Hi. destruct (D3 i T Hi) as [es E]. exists es. rewrite lookup_without, decide_False; [done|]. intros Hin. apply (Hdis T Hin). by eapply list_elem_of_lookup_2.
  - apply map_eq. intros T. rewrite !lookup_without. destruct (decide (T ∈ t2)) as [Hb|Hb]; [symmetry; apply H2; specialize (N2 T Hb); lia|]. destruct (decide (T ∈ t1)) as [Ha|Ha]; [symmetry; apply H2; specialize (N1 T Ha); lia|].
    rewrite O2, O1 by done. done.
Qed.
