(* ===== verification/InflateSpec.v ===== *)
(** * The compressed format (RFC 1951, RFC 1952)

    A stream as a list of blocks: how it is written as bits, and what data it stands for.
    Nothing here is taken from the decompressor; the decoding theorems start from
    [enc_stream] and end with [expand_stream]. *)

From S2P Require Import Prelude Inflate InflateHuft InflateTree InflateBuild.

(** ** Bits *)

(** A number in [n] bits, the least significant one first. *)
Fixpoint lsb (n : nat) (x : Z) : list bool := match n with O => [] | S n => Z.odd x :: lsb n (x / 2) end.
Definition num (bs : list bool) : Z := foldr (fun b a => Z.b2z b + 2 * a) 0 bs.
Definition bits_of (bytes : list Z) : list bool := bytes ≫= lsb 8.

(** The code of a symbol, the most significant bit first. *)
Definition code_bits (b : list Z) (i : Z) : list bool := reverse (lsb (Z.to_nat (nth (Z.to_nat i) b 0)) (code_of b (Z.to_nat i))).
Definition has_code (b : list Z) (i : Z) : bool := (0 <=? i) && (1 <=? nth (Z.to_nat i) b 0).

(** ** Literals and copies *)

(** The symbols for lengths are 257 to 285, those for distances 0 to 29 (3.2.5). *)
Definition length_extra (s : Z) : Z := if (s <? 265) || (s =? 285) then 0 else (s - 261) / 4.
Definition length_base (s : Z) : Z := if s <? 265 then s - 254 else if s =? 285 then 258 else (4 + (s - 261) mod 4) * 2 ^ length_extra s + 3.
Definition dist_extra (s : Z) : Z := if s <? 4 then 0 else s / 2 - 1.
Definition dist_base (s : Z) : Z := if s <? 4 then s + 1 else (2 + s mod 2) * 2 ^ dist_extra s + 1.

(** A copy has a symbol and extra bits for its length, and for its distance. *)
Inductive item := Lit (c : Z) | Copy (ls le ds de : Z).

Definition item_ok (lb db : list Z) (i : item) : bool :=
  match i with
  | Lit c => (c <? 256) && has_code lb c
  | Copy ls le ds de =>
      (257 <=? ls) && (ls <=? 285) && has_code lb ls && (0 <=? le) && (le <? 2 ^ length_extra ls) &&
      (ds <=? 29) && has_code db ds && (0 <=? de) && (de <? 2 ^ dist_extra ds)
  end.

Definition enc_item (lb db : list Z) (i : item) : list bool :=
  match i with
  | Lit c => code_bits lb c
  | Copy ls le ds de =>
      code_bits lb ls ++ lsb (Z.to_nat (length_extra ls)) le ++ code_bits db ds ++ lsb (Z.to_nat (dist_extra ds)) de
  end.

(** All items of a block, and the symbol 256 for its end. *)
Definition enc_items (lb db : list Z) (its : list item) : list bool := (its ≫= enc_item lb db) ++ code_bits lb 256.

(** [n] bytes more, each the one [dist] back. *)
Fixpoint again (n : nat) (dist : nat) (out : list Z) : list Z :=
  match n with O => out | S n => again n dist (out ++ [nth (length out - dist) out 0]) end.

(** The data after the item; None: the distance goes back too far. *)
Definition expand_item (out : list Z) (i : item) : option (list Z) :=
  match i with
  | Lit c => Some (out ++ [c])
  | Copy ls le ds de =>
      let dist := dist_base ds + de in
      if dist <=? Z.of_nat (length out) then Some (again (Z.to_nat (length_base ls + le)) (Z.to_nat dist) out) else None
  end.
Fixpoint expand_items (out : list Z) (its : list item) : option (list Z) :=
  match its with [] => Some out | i :: its => out ← expand_item out i; expand_items out its end.

(** ** The codes of a block *)

(** The lengths as they are written: one, the last one again, or zeros (3.2.7). *)
Inductive run := Len (x : Z) | Same (n : Z) | Zeros (n : Z) | ManyZeros (n : Z).

Definition run_ok (cl : list Z) (r : run) : bool :=
  match r with
  | Len x => (x <=? 15) && has_code cl x
  | Same n => (3 <=? n) && (n <=? 6) && has_code cl 16
  | Zeros n => (3 <=? n) && (n <=? 10) && has_code cl 17
  | ManyZeros n => (11 <=? n) && (n <=? 138) && has_code cl 18
  end.
Definition enc_run (cl : list Z) (r : run) : list bool :=
  match r with
  | Len x => code_bits cl x
  | Same n => code_bits cl 16 ++ lsb 2 (n - 3)
  | Zeros n => code_bits cl 17 ++ lsb 3 (n - 3)
  | ManyZeros n => code_bits cl 18 ++ lsb 7 (n - 11)
  end.
Fixpoint expand_runs (last : Z) (rs : list run) : list Z :=
  match rs with
  | [] => []
  | Len x :: rs => x :: expand_runs x rs
  | Same n :: rs => replicate (Z.to_nat n) last ++ expand_runs last rs
  | Zeros n :: rs | ManyZeros n :: rs => replicate (Z.to_nat n) 0 ++ expand_runs 0 rs
  end.

(** The head of a block with codes of its own: how many lengths, those of the code for the
    lengths, of which the first [h_nb] are written, and the lengths of the two codes. *)
Record header := Header { h_nl : Z; h_nd : Z; h_nb : Z; h_cl : list Z; h_runs : list run }.

(** The order in which the lengths of the code for the lengths are written. *)
Definition cl_order : list Z := [16; 17; 18; 0; 8; 7; 9; 6; 10; 5; 11; 4; 12; 3; 13; 2; 14; 1; 15].

Definition h_lens (h : header) : list Z := expand_runs 0 (h_runs h).
Definition h_lit (h : header) : list Z := take (Z.to_nat (h_nl h)) (h_lens h).
Definition h_dist (h : header) : list Z := drop (Z.to_nat (h_nl h)) (h_lens h).

(** The codes are complete.  A code for distances may also be absent, or be the only one. *)
Definition full (b : list Z) : bool := kraft b =? 2 ^ 16.
Definition header_ok (h : header) : bool :=
  (257 <=? h_nl h) && (h_nl h <=? 286) && (1 <=? h_nd h) && (h_nd h <=? 30) && (4 <=? h_nb h) && (h_nb h <=? 19) &&
  (Z.of_nat (length (h_cl h)) =? 19) && forallb (fun x => (0 <=? x) && (x <=? 7)) (h_cl h) && full (h_cl h) &&
  forallb (fun i => nth (Z.to_nat i) (h_cl h) 0 =? 0) (drop (Z.to_nat (h_nb h)) cl_order) &&
  forallb (run_ok (h_cl h)) (h_runs h) && (Z.of_nat (length (h_lens h)) =? h_nl h + h_nd h) &&
  full (h_lit h) && has_code (h_lit h) 256 &&
  (full (h_dist h) || bool_decide (h_dist h = [1]) || forallb (Z.eqb 0) (h_dist h)).

Definition enc_header (h : header) : list bool :=
  lsb 5 (h_nl h - 257) ++ lsb 5 (h_nd h - 1) ++ lsb 4 (h_nb h - 4) ++
  (take (Z.to_nat (h_nb h)) cl_order ≫= fun i => lsb 3 (nth (Z.to_nat i) (h_cl h) 0)) ++ (h_runs h ≫= enc_run (h_cl h)).

(** The codes of a block with the fixed ones (3.2.6). *)
Definition fixed_lit : list Z := replicate 144 8 ++ replicate 112 9 ++ replicate 24 7 ++ replicate 8 8.
Definition fixed_dist : list Z := replicate 30 5.

(** ** Blocks and streams *)

(** The data of a stored block starts at a byte; [pad]: the bits before it. *)
Inductive block := Stored (pad : list bool) (data : list Z) | Fixed (its : list item) | Dynamic (h : header) (its : list item).

Definition is_byte (x : Z) : bool := (0 <=? x) && (x <? 256).

(** [pos]: the bits before the block. *)
Definition block_ok (pos : Z) (b : block) : bool :=
  match b with
  | Stored pad data => (Z.of_nat (length pad) <? 8) && ((pos + 3 + Z.of_nat (length pad)) mod 8 =? 0) && (Z.of_nat (length data) <? 2 ^ 16) && forallb is_byte data
  | Fixed its => forallb (item_ok fixed_lit fixed_dist) its
  | Dynamic h its => header_ok h && forallb (item_ok (h_lit h) (h_dist h)) its
  end.

Definition enc_block (b : block) : list bool :=
  match b with
  | Stored pad data => lsb 2 0 ++ pad ++ lsb 16 (Z.of_nat (length data)) ++ lsb 16 (0xffff - Z.of_nat (length data)) ++ bits_of data
  | Fixed its => lsb 2 1 ++ enc_items fixed_lit fixed_dist its
  | Dynamic h its => lsb 2 2 ++ enc_header h ++ enc_items (h_lit h) (h_dist h) its
  end.

Definition expand_block (out : list Z) (b : block) : option (list Z) :=
  match b with Stored _ data => Some (out ++ data) | Fixed its | Dynamic _ its => expand_items out its end.

(** The first bit of a block says whether it is the last one. *)
Fixpoint enc_stream (bl : list block) : list bool :=
  match bl with
  | [] => []
  | b :: bl => (match bl with [] => true | _ => false end) :: enc_block b ++ enc_stream bl
  end.
Fixpoint stream_ok (pos : Z) (bl : list block) : bool :=
  match bl with [] => true | b :: bl => block_ok pos b && stream_ok (pos + 1 + Z.of_nat (length (enc_block b))) bl end.
Fixpoint expand_stream (out : list Z) (bl : list block) : option (list Z) :=
  match bl with [] => Some out | b :: bl => out ← expand_block out b; expand_stream out bl end.

(** ** Files *)

(** A member of a gzip file.  [g_six]: the time, the flags of the compressor and the system. *)
Record member := Member {
  g_text : bool; g_six : list Z; g_extra : option (list Z); g_name : option (list Z); g_comment : option (list Z);
  g_blocks : list block; g_pad : list bool; g_crc : list Z }.

Definition le_bytes (n : nat) (x : Z) : list Z := (fun i => (x / 2 ^ (8 * Z.of_nat i)) mod 256) <$> seq 0 n.
Definition flag {A} (o : option A) (x : Z) : Z := match o with Some _ => x | None => 0 end.
Definition g_flags (g : member) : Z := Z.b2z (g_text g) + flag (g_extra g) 4 + flag (g_name g) 8 + flag (g_comment g) 16.
Definition zstring (o : option (list Z)) : list Z := match o with Some l => l ++ [0] | None => [] end.
Definition zstring_ok (o : option (list Z)) : bool := match o with Some l => forallb (fun x => (0 <? x) && (x <? 256)) l | None => true end.

Definition g_head (g : member) : list Z :=
  [0x1f; 0x8b; 8; g_flags g] ++ g_six g ++
  match g_extra g with Some l => le_bytes 2 (Z.of_nat (length l)) ++ l | None => [] end ++ zstring (g_name g) ++ zstring (g_comment g).

Definition member_ok (g : member) : bool :=
  (Z.of_nat (length (g_six g)) =? 6) && forallb is_byte (g_six g) &&
  match g_extra g with Some l => (Z.of_nat (length l) <? 2 ^ 16) && forallb is_byte l | None => true end &&
  zstring_ok (g_name g) && zstring_ok (g_comment g) &&
  match g_blocks g with [] => false | bl => stream_ok 0 bl end &&
  (Z.of_nat (length (g_crc g)) =? 4) && forallb is_byte (g_crc g) &&
  (Z.of_nat (length (g_pad g)) <? 8) && (Z.of_nat (length (enc_stream (g_blocks g) ++ g_pad g)) mod 8 =? 0).

(** Bits as bytes. *)
Fixpoint pack_bits (n : nat) (bs : list bool) : list Z :=
  match n with O => [] | S n => num (take 8 bs) :: pack_bits n (drop 8 bs) end.
Definition g_body (g : member) : list Z := let bs := enc_stream (g_blocks g) ++ g_pad g in pack_bits (length bs / 8)%nat bs.
Definition enc_member (g : member) (data : list Z) : list Z :=
  g_head g ++ g_body g ++ g_crc g ++ le_bytes 4 (Z.of_nat (length data)).
