(* ===== verification/InflateBits.v ===== *)
(** * The bit buffer

    What is left of the input as a list of bits: those in the buffer, then those of the
    bytes that were not read.  One lemma per primitive, each about an encoding followed by
    any rest. *)

From S2P Require Import Prelude Inflate InflateHuft InflateTree InflateBuild InflateSpec.

(** ** Numbers as bits *)

Lemma length_lsb n x : length (lsb n x) = n.
Proof. revert x. induction n as [|n IH]; intros x; [done|]. cbn [lsb length]. by rewrite IH. Qed.

Lemma num_app a b : num (a ++ b) = num a + 2 ^ Z.of_nat (length a) * num b.
Proof.
  induction a as [|x a IH]; [cbn [app length]; change (num []) with 0; change (2 ^ Z.of_nat 0) with 1; lia|].
  cbn [app length]. change (num (x :: a ++ b)) with (Z.b2z x + 2 * num (a ++ b)). change (num (x :: a)) with (Z.b2z x + 2 * num a). rewrite IH, Nat2Z.inj_succ, Z.pow_succ_r by lia. lia.
Qed.

Lemma num_range bs : 0 <= num bs < 2 ^ Z.of_nat (length bs).
Proof.
  induction bs as [|x bs IH]; [done|]. cbn [length]. change (num (x :: bs)) with (Z.b2z x + 2 * num bs). rewrite Nat2Z.inj_succ, Z.pow_succ_r by lia. destruct x; cbn [Z.b2z]; lia.
Qed.

Lemma lsb_app m n x : lsb (m + n) x = lsb m x ++ lsb n (x / 2 ^ Z.of_nat m).
Proof.
  revert x. induction m as [|m IH]; intros x; [cbn [Nat.add lsb app]; change (2 ^ Z.of_nat 0) with 1; by rewrite Z.div_1_r|].
  cbn [Nat.add lsb app]. rewrite IH. do 3 f_equal. rewrite Z.div_div by (try apply Z.pow_nonzero; lia). f_equal. rewrite Nat2Z.inj_succ, Z.pow_succ_r by lia. lia.
Qed.

Lemma num_lsb n x : num (lsb n x) = x mod 2 ^ Z.of_nat n.
Proof.
  revert x. induction n as [|n IH]; intros x; [by rewrite Z.mod_1_r|]. cbn [lsb]. change (num (Z.odd x :: lsb n (x / 2))) with (Z.b2z (Z.odd x) + 2 * num (lsb n (x / 2))). rewrite IH.
  rewrite Nat2Z.inj_succ, Z.pow_succ_r by lia. rewrite (Z.rem_mul_r x 2) by (try apply Z.pow_pos_nonneg; lia). by rewrite Zmod_odd; destruct (Z.odd x).
Qed.

Lemma lsb_num bs : lsb (length bs) (num bs) = bs.
Proof.
  induction bs as [|x bs IH]; [done|]. cbn [length lsb]. change (num (x :: bs)) with (Z.b2z x + 2 * num bs). f_equal.
  - rewrite Z.odd_add, Z.odd_mul. by destruct x.
  - replace ((Z.b2z x + 2 * num bs) / 2) with (num bs); [done|]. destruct x; cbn [Z.b2z]; [|rewrite Z.add_0_l, Z.mul_comm, Z.div_mul by lia; done].
    rewrite Z.add_comm, Z.mul_comm, Z.div_add_l by lia. change (1 / 2) with 0. lia.
Qed.

Lemma num_inj a b : length a = length b -> num a = num b -> a = b.
Proof. intros Hl E. by rewrite <- (lsb_num a), <- (lsb_num b), Hl, E. Qed.

Lemma lsb_add k b c n : 0 <= b < 2 ^ Z.of_nat k -> lsb (k + n) (b + c * 2 ^ Z.of_nat k) = lsb k b ++ lsb n c.
Proof.
  intros Hb. assert (0 < 2 ^ Z.of_nat k) by lia. rewrite lsb_app. rewrite Z.div_add, (Z.div_small b), Z.add_0_l by lia. f_equal. apply num_inj; [by rewrite !length_lsb|]. rewrite !num_lsb. rewrite Z.mod_add by lia. done.
Qed.

(** The bits of a number read backwards. *)
Lemma num_reverse n x : num (reverse (lsb n x)) = rv n x.
Proof.
  revert x. induction n as [|n IH]; intros x; [done|]. cbn [lsb rv]. rewrite reverse_cons, num_app, length_reverse, length_lsb, IH. change (num [Z.odd x]) with (Z.b2z (Z.odd x) + 2 * 0).
  rewrite Zmod_odd. destruct (Z.odd x); cbn [Z.b2z]; lia.
Qed.

Lemma bits_of_cons x l : bits_of (x :: l) = lsb 8 x ++ bits_of l.
Proof. done. Qed.
Lemma bits_of_app a b : bits_of (a ++ b) = bits_of a ++ bits_of b.
Proof. unfold bits_of. by rewrite bind_app. Qed.
Lemma length_bits_of l : length (bits_of l) = (8 * length l)%nat.
Proof. induction l as [|x l IH]; [done|]. rewrite bits_of_cons, length_app, length_lsb, IH. cbn [length]. lia. Qed.

(** ** What is left *)

Record reader (s : gz) (b k : Z) (bs : list bool) : Prop := {
  rd_ptr : 0 <= inptr s <= insize s; rd_size : insize s = Z.of_nat (length (inbuf s)); rd_bytes : Forall (fun x => 0 <= x < 256) (inbuf s);
  rd_k : 0 <= k <= 23; rd_b : 0 <= b < 2 ^ k; rd_bits : bs = lsb (Z.to_nat k) b ++ bits_of (drop (Z.to_nat (inptr s)) (inbuf s)) }.

(** Only the place in the input has changed. *)
Definition advanced (s s' : gz) : Prop := s' = set_inp s (inbuf s) (insize s) (inptr s').

Lemma advanced_refl s : advanced s s.
Proof. unfold advanced. by destruct s. Qed.
Lemma advanced_trans s s' s'' : advanced s s' -> advanced s' s'' -> advanced s s''.
Proof. unfold advanced. intros -> ->. by destruct s. Qed.
#[export] Hint Resolve advanced_refl : core.

(** The position in the input, in bits: bits are never lost. *)
Definition bit_pos (s : gz) (k : Z) : Z := 8 * inptr s - k.

Lemma reader_length s b k bs : reader s b k bs -> Z.of_nat (length bs) = 8 * insize s - bit_pos s k.
Proof. intros [H1 H2 _ H4 _ ->]. unfold bit_pos. rewrite length_app, length_lsb, length_bits_of, length_drop. lia. Qed.

Lemma reader_set s s' b k bs : reader s b k bs -> inbuf s' = inbuf s -> insize s' = insize s -> inptr s' = inptr s -> reader s' b k bs.
Proof. intros [H1 H2 H3 H4 H5 H6] E1 E2 E3. split; rewrite ?E1, ?E2, ?E3; done. Qed.

(** The buffer holds the first bits. *)
Lemma reader_num s b k bs n : reader s b k bs -> 0 <= n <= k -> b mod 2 ^ n = num (take (Z.to_nat n) bs).
Proof.
  intros [_ _ _ H4 H5 ->] Hn. rewrite take_app_le by (rewrite length_lsb; lia). replace (Z.to_nat k) with (Z.to_nat n + Z.to_nat (k - n))%nat by lia.
  rewrite lsb_app, take_app_le by (rewrite length_lsb; lia). rewrite take_ge by (rewrite length_lsb; lia). by rewrite num_lsb, Z2Nat.id by lia.
Qed.

Lemma reader_mod s b k bs n : reader s b k bs -> 0 <= n <= k -> b mod 2 ^ n = num bs mod 2 ^ n.
Proof.
  intros H Hn. pose proof (reader_length _ _ _ _ H) as Hl. rewrite (reader_num s b k bs n H Hn). rewrite <- (take_drop (Z.to_nat n) bs) at 2. rewrite num_app.
  assert (length (take (Z.to_nat n) bs) = Z.to_nat n) as E by (rewrite length_take; destruct H; unfold bit_pos in *; lia). rewrite E, Z2Nat.id by lia. rewrite (Z.mul_comm (2 ^ n)), Z.mod_add by (apply Z.pow_nonzero; lia).
  symmetry. apply Z.mod_small. pose proof (num_range (take (Z.to_nat n) bs)) as Hr. by rewrite E, Z2Nat.id in Hr by lia.
Qed.

Lemma num_drop n bs : (n <= length bs)%nat -> num (drop n bs) = num bs / 2 ^ Z.of_nat n.
Proof.
  intros Hn. rewrite <- (take_drop n bs) at 2. rewrite num_app. assert (length (take n bs) = n) as E by (rewrite length_take; lia). pose proof (num_range (take n bs)) as Hr. rewrite E in *.
  rewrite Z.mul_comm, Z.div_add, Z.div_small by lia. lia.
Qed.

(** ** The primitives *)

Lemma reader_byte s b k bs : reader s b k bs -> k < Z.of_nat (length bs) -> exists c, get_byte s = Ok (c, set_inp s (inbuf s) (insize s) (inptr s + 1)) /\ 0 <= c < 256 /\
  drop (Z.to_nat (inptr s)) (inbuf s) = c :: drop (Z.to_nat (inptr s + 1)) (inbuf s) /\ inptr s < insize s.
Proof.
  intros H Hl. pose proof (reader_length _ _ _ _ H) as E. unfold bit_pos in E. destruct H as [H1 H2 H3 _ _ _]. assert (inptr s < insize s) as Hlt by lia.
  destruct (lookup_lt_is_Some_2 (inbuf s) (Z.to_nat (inptr s))) as [c Hc]; [lia|]. exists c. split; [|split; [by apply (proj1 (Forall_lookup _ _) H3) in Hc|split; [|done]]].
  - unfold get_byte. rewrite (proj2 (Z.ltb_lt _ _) Hlt). by rewrite (at_ok _ _ c) by (done || lia).
  - rewrite (drop_S _ c _ Hc). do 2 f_equal. lia.
Qed.

Lemma lor_above b c k : 0 <= k -> 0 <= b < 2 ^ k -> 0 <= c -> Z.lor b (Z.shiftl c k) = b + c * 2 ^ k.
Proof.
  intros Hk Hb Hc. rewrite Z.shiftl_mul_pow2 by done. rewrite <- Z.add_lor_land.
  replace (Z.land b (c * 2 ^ k)) with 0; [lia|]. symmetry. apply Z.bits_inj'. intros i Hi. rewrite Z.land_spec, Z.bits_0. destruct (Z.lt_ge_cases i k) as [Hik|Hik].
  - rewrite Z.mul_pow2_bits_low by done. apply andb_false_r.
  - destruct (Z.eq_dec b 0) as [->|Hb0]; [by rewrite Z.bits_0|]. rewrite Z.bits_above_log2; [done|lia|]. apply Z.log2_lt_pow2; [lia|]. assert (2 ^ k <= 2 ^ i) by (apply Z.pow_le_mono_r; lia). lia.
Qed.

Lemma needbits_ok bs n : 0 <= n <= 16 -> n <= Z.of_nat (length bs) -> forall fuel s b k, reader s b k bs -> n - k <= 8 * Z.of_nat fuel ->
  exists s' b' k', needbits (S fuel) n s b k = Ok (s', b', k') /\ advanced s s' /\ reader s' b' k' bs /\ n <= k' /\ bit_pos s' k' = bit_pos s k.
Proof.
  intros Hn Hl. induction fuel as [|fuel IH]; intros s b k H Hf; cbn [needbits]; (destruct (Z.ltb_spec k n) as [Hkn|Hkn]; [|exists s, b, k; done]); [lia|].
  destruct (reader_byte s b k bs H ltac:(lia)) as (c & -> & Hc & Hd & Hlt). cbn [mbind outcome_bind]. pose proof H as [H1 H2 H3 H4 H5 H6].
  assert (2 ^ k <= 2 ^ 15) by (apply Z.pow_le_mono_r; lia). assert (0 < 2 ^ k) by (apply Z.pow_pos_nonneg; lia).
  assert (Z.lor b (u32 (Z.shiftl (u8 c) k)) = b + c * 2 ^ k) as ->.
  { rewrite u8_small by lia. rewrite u32_small; [apply lor_above; lia|]. rewrite Z.shiftl_mul_pow2 by lia. nia. }
  assert (2 ^ (k + 8) = 2 ^ k * 256) as E8 by (rewrite Z.pow_add_r by lia; done).
  destruct (IH (set_inp s (inbuf s) (insize s) (inptr s + 1)) (b + c * 2 ^ k) (k + 8)) as (s' & b' & k' & E & Ha & Hr & Hk & Hp); [|lia|].
  - split; cbn [inptr insize inbuf set_inp]; try done; try lia; [rewrite E8; nia|]. rewrite H6, Hd, bits_of_cons, app_assoc. f_equal. replace (Z.to_nat (k + 8)) with (Z.to_nat k + 8)%nat by lia.
    pose proof (lsb_add (Z.to_nat k) b c 8) as L. rewrite Z2Nat.id in L by lia. by rewrite L.
  - exists s', b', k'. split; [done|]. split; [|split; [done|split; [done|unfold bit_pos in *; cbn [inptr set_inp] in Hp; lia]]]. unfold advanced in *. rewrite Ha at 1. done.
Qed.

Lemma NEEDBITS_ok s b k bs n : reader s b k bs -> 0 <= n <= 16 -> n <= Z.of_nat (length bs) ->
  exists s' b' k', NEEDBITS n s b k = Ok (s', b', k') /\ advanced s s' /\ reader s' b' k' bs /\ n <= k' /\ bit_pos s' k' = bit_pos s k.
Proof. intros H Hn Hl. apply (needbits_ok bs n Hn Hl 3 s b k H). destruct H. lia. Qed.

Lemma DUMPBITS_ok s b k bs n : reader s b k bs -> 0 <= n <= k -> reader s (Z.shiftr b n) (k - n) (drop (Z.to_nat n) bs).
Proof.
  intros [H1 H2 H3 H4 H5 ->] Hn. assert (2 ^ k = 2 ^ n * 2 ^ (k - n)) as E by (rewrite <- Z.pow_add_r by lia; f_equal; lia). assert (0 < 2 ^ n) by (apply Z.pow_pos_nonneg; lia). rewrite Z.shiftr_div_pow2 by lia.
  split; try done; try lia.
  - split; [apply Z.div_pos; lia|]. apply Z.div_lt_upper_bound; lia.
  - rewrite drop_app_le by (rewrite length_lsb; lia). f_equal. replace (Z.to_nat k) with (Z.to_nat n + Z.to_nat (k - n))%nat by lia. rewrite lsb_app, Z2Nat.id by lia.
    rewrite drop_app_le by (rewrite length_lsb; lia). rewrite drop_ge by (rewrite length_lsb; lia). done.
Qed.

Lemma mask_ok e : 0 <= e <= 16 -> at_ mask_bits e = Ok (2 ^ e - 1).
Proof. intros He. assert (e ∈ seqZ 0 17) as Hin by (apply elem_of_seqZ; lia). revert Hin. clear He. revert e. apply Forall_forall. vm_compute. repeat constructor. Qed.

Lemma land_bits b n : 0 <= n -> Z.land b (2 ^ n - 1) = b mod 2 ^ n.
Proof. intros Hn. replace (2 ^ n - 1) with (Z.ones n) by (rewrite Z.ones_equiv; lia). by apply Z.land_ones. Qed.

(** The first bits, dropped: [x] is their value. *)
Lemma reader_take s b k n x rest : reader s b k (lsb (Z.to_nat n) x ++ rest) -> 0 <= n <= k -> 0 <= x < 2 ^ n -> Z.land b (2 ^ n - 1) = x /\ reader s (Z.shiftr b n) (k - n) rest.
Proof.
  intros H Hn Hx. split.
  - rewrite land_bits by lia. rewrite (reader_num _ _ _ _ n H Hn), take_app_le by (rewrite length_lsb; lia). rewrite take_ge by (rewrite length_lsb; lia). rewrite num_lsb, Z2Nat.id by lia. by apply Z.mod_small.
  - pose proof (DUMPBITS_ok _ _ _ _ n H Hn) as Hd. by rewrite drop_app_length' in Hd by (by rewrite length_lsb).
Qed.

Lemma GETBITS_ok s b k n x rest : reader s b k (lsb (Z.to_nat n) x ++ rest) -> 0 <= n <= 16 -> 0 <= x < 2 ^ n ->
  exists s' b' k', GETBITS n s b k = Ok (x, s', b', k') /\ advanced s s' /\ reader s' b' k' rest /\ bit_pos s' k' = bit_pos s k + n.
Proof.
  intros H Hn Hx. destruct (NEEDBITS_ok s b k _ n H Hn) as (s' & b' & k' & E & Ha & Hr & Hk & Hp); [rewrite length_app, length_lsb; lia|]. destruct (reader_take s' b' k' n x rest Hr ltac:(lia) Hx) as [E1 Hr1].
  exists s', (Z.shiftr b' n), (k' - n). unfold GETBITS. rewrite E. cbn [mbind outcome_bind]. unfold DUMPBITS. rewrite Z.shiftl_1_l, E1. split; [done|]. split; [done|]. split; [done|]. unfold bit_pos in *. lia.
Qed.
