(* ===== verification/InflateCodes.v ===== *)
(** * Literals and copies

    inflate_codes on the encoding of a list of items: the tables find each symbol, and the
    window, which wraps around and is written out when it is full, gives back what a copy
    refers to. *)

From S2P Require Import Prelude Inflate InflateHuft InflateTree InflateBuild InflateSpec InflateBits.

(** ** Symbols *)

Lemma walk_used fuel : forall t T L B r n, walk fuel t T L B = Some (r, n) -> 1 <= n.
Proof.
  induction fuel as [|fuel IH]; intros t T L B r n; [done|]. cbn [walk]. destruct (cell _ _ _) as [x|]; [|done]. cbn [mbind option_bind]. destruct ((1 <=? hb x) && (hb x <=? L)) eqn:Ec; [|done].
  apply andb_true_iff in Ec as [Ec _]. apply Z.leb_le in Ec. destruct (is_ptr x); [|intros [= <- <-]; lia]. destruct (hv x) as [|T']; [done|]. destruct (_ && _); [|done].
  destruct (walk fuel t T' _ _) as [[r' n']|] eqn:E; [|done]. cbn [mbind option_bind]. intros [= <- <-]. apply IH in E. lia.
Qed.

Lemma entry_cell s t i r : cell (tabs (hm s)) t i = Some r -> 0 <= i -> entry s t i = Ok r.
Proof. unfold cell, entry. destruct (tabs (hm s) !! t) as [[lk es]|]; [|done]. cbn [mbind option_bind outcome_bind from_opt]. intros E Hi. by apply at_ok. Qed.

Lemma walk_S fuel t T L B : walk (S fuel) t T L B =
  (r ← cell t T (B mod 2 ^ L);
   if (1 <=? hb r) && (hb r <=? L) then
     if is_ptr r then
       match hv r with
       | Vt T' => if (he r <=? 32) && (hb r =? L) then '(r', n) ← walk fuel t T' (he r - 16) (B / 2 ^ hb r); Some (r', hb r + n) else None
       | Vn _ => None
       end
     else Some (r, hb r)
   else None).
Proof. done. Qed.

(** A code that is not longer than the first table is in it. *)
Lemma walk_direct fuel t T L B r n : walk (S fuel) t T L B = Some (r, n) -> n <= L -> cell t T (B mod 2 ^ L) = Some r /\ hb r = n.
Proof.
  rewrite walk_S. destruct (cell _ _ _) as [x|]; [|done]. cbn [mbind option_bind]. destruct (_ && _); [|done]. destruct (is_ptr x); [|by intros [= <- <-]]. destruct (hv x) as [|T']; [done|].
  destruct ((he x <=? 32) && (hb x =? L)) eqn:E; [|done]. apply andb_true_iff in E as [_ E%Z.eqb_eq]. destruct (walk fuel t T' _ _) as [[r' n']|] eqn:Ew; [|done]. cbn [mbind option_bind]. intros [= <- <-]. apply walk_used in Ew. lia.
Qed.

Lemma descend_ok fuel : forall s b k bs T L r n, reader s b k bs -> walk (S fuel) (tabs (hm s)) T L (num bs) = Some (r, n) -> 0 <= L <= k -> n + 16 <= Z.of_nat (length bs) -> he r <= 16 ->
  exists r0, entry s T (num bs mod 2 ^ L) = Ok r0 /\ exists s' b' k', descend (S fuel) r0 s b k = Ok (Some r, s', b', k') /\ advanced s s' /\ reader s' b' k' (drop (Z.to_nat n) bs).
Proof.
  induction fuel as [|fuel IH]; intros s b k bs T L r n H Hw HL Hn Hr; rewrite walk_S in Hw; (destruct (cell _ _ _) as [r0|] eqn:Ec; [|done]); cbn [mbind option_bind] in Hw;
    (destruct ((1 <=? hb r0) && (hb r0 <=? L)) eqn:Eb; [|done]); (apply andb_true_iff in Eb as [Eb1%Z.leb_le Eb2%Z.leb_le]); exists r0;
    (split; [by apply entry_cell; [|apply Z.mod_pos_bound, Z.pow_pos_nonneg; lia]|]); destruct (is_ptr r0) eqn:Ep.
  1: destruct (hv r0); [done|]; by destruct (_ && _).
  1,3: injection Hw as -> <-; cbn [descend]; rewrite (proj2 (Z.ltb_ge 16 (he r))) by lia; unfold DUMPBITS; exists s, (Z.shiftr b (hb r)), (k - hb r); (split; [done|]); (split; [done|]); apply DUMPBITS_ok; [done|lia].
  destruct (hv r0) as [|T'] eqn:Ev; [done|]. destruct ((he r0 <=? 32) && (hb r0 =? L)) eqn:E32; [|done]. apply andb_true_iff in E32 as [H32%Z.leb_le _]. destruct (walk (S fuel) _ T' _ _) as [[r' n']|] eqn:Ew; [|done]. cbn [mbind option_bind] in Hw. injection Hw as -> <-.
  pose proof (walk_used _ _ _ _ _ _ _ Ew) as Hn'. unfold is_ptr in Ep. apply andb_true_iff in Ep as [E16 E99]. pose proof (proj1 (Z.ltb_lt _ _) E16) as H16. apply negb_true_iff in E99.
  change (descend (S (S fuel)) r0 s b k) with (if 16 <? he r0 then if he r0 =? 99 then Ok (None, s, b, k) else let '(b, k) := DUMPBITS (hb r0) b k in
    '(s, b, k) ← NEEDBITS (he r0 - 16) s b k; t ← table_of r0; m ← at_ mask_bits (he r0 - 16); r ← entry s t (Z.land b m); descend (S fuel) r s b k else let '(b, k) := DUMPBITS (hb r0) b k in Ok (Some r0, s, b, k)).
  rewrite E16, E99. unfold DUMPBITS. pose proof (DUMPBITS_ok s b k bs (hb r0) H ltac:(lia)) as Hd.
  destruct (NEEDBITS_ok _ _ _ _ (he r0 - 16) Hd) as (s1 & b1 & k1 & -> & Ha & H1 & Hk1 & _); [lia|rewrite length_drop; lia|]. cbn [mbind outcome_bind]. unfold table_of. rewrite Ev, mask_ok by lia. cbn [mbind outcome_bind].
  rewrite land_bits, (reader_mod _ _ _ _ (he r0 - 16) H1) by lia. assert (hm s1 = hm s) as Em by (by rewrite Ha).
  destruct (IH s1 b1 k1 (drop (Z.to_nat (hb r0)) bs) T' (he r0 - 16) r n' H1) as (r1 & -> & s2 & b2 & k2 & E2 & Ha2 & H2).
  { rewrite Em, num_drop, Z2Nat.id by lia. done. } { lia. } { rewrite length_drop. lia. } { done. }
  cbn [mbind outcome_bind]. exists s2, b2, k2. split; [done|]. split; [by eapply advanced_trans|]. rewrite drop_drop in H2. by replace (Z.to_nat (hb r0 + n')) with (Z.to_nat (hb r0) + Z.to_nat n')%nat by lia.
Qed.

Lemma length_code_bits b i : 0 <= nth (Z.to_nat i) b 0 -> Z.of_nat (length (code_bits b i)) = nth (Z.to_nat i) b 0.
Proof. intros H. unfold code_bits. rewrite length_reverse, length_lsb. lia. Qed.

(** The tables have the code that comes first. *)
Lemma symbol_walk t T l lens i sx d e rest : table_ok t T l lens sx d e -> has_code lens i = true ->
  exists r, walk 17 t T l (num (code_bits lens i ++ rest)) = Some (r, nth (Z.to_nat i) lens 0) /\ (he r, hv r) = sym_entry sx d e i /\ length (code_bits lens i) = Z.to_nat (nth (Z.to_nat i) lens 0) /\ 0 <= i /\ 1 <= nth (Z.to_nat i) lens 0.
Proof.
  intros Ht Hc. apply andb_true_iff in Hc as [Hi%Z.leb_le Hk%Z.leb_le]. set (c := nth (Z.to_nat i) lens 0) in *.
  assert (lens !! Z.to_nat i = Some c) as El by (unfold c in *; rewrite nth_lookup in *; destruct (lens !! Z.to_nat i); cbn in *; [done|lia]). set (bs := code_bits lens i ++ rest) in *.
  assert (length (code_bits lens i) = Z.to_nat c) as Ecl by (unfold code_bits; by rewrite length_reverse, length_lsb).
  assert (num bs mod 2 ^ c = rev c (code_of lens (Z.to_nat i))) as EB.
  { unfold bs. rewrite num_app, Ecl, Z2Nat.id, Z.mul_comm, Z.mod_add by (try apply Z.pow_nonzero; lia). unfold code_bits. fold c. rewrite num_reverse. fold (rev c (code_of lens (Z.to_nat i))). apply Z.mod_small, rev_range. lia. }
  destruct (Ht (Z.to_nat i) c El Hk (num bs) ltac:(apply num_range) EB) as (r & Hw & Er). rewrite Z2Nat.id in Er by lia. by exists r.
Qed.

(** A symbol's code, and at least 16 bits more. *)
Lemma decode_ok s b k T l lens i sx d e rest : table_ok (tabs (hm s)) T l lens sx d e -> 1 <= l <= 16 -> has_code lens i = true ->
  reader s b k (code_bits lens i ++ rest) -> 16 <= Z.of_nat (length rest) -> fst (sym_entry sx d e i) <= 16 ->
  exists r s' b' k', decode T l s b k = Ok (Some r, s', b', k') /\ (he r, hv r) = sym_entry sx d e i /\ advanced s s' /\ reader s' b' k' rest.
Proof.
  intros Ht Hl Hc H Hrest He. destruct (symbol_walk _ _ _ _ _ _ _ _ rest Ht Hc) as (r & Hw & Er & Ecl & Hi & Hk). set (c := nth (Z.to_nat i) lens 0) in *. set (bs := code_bits lens i ++ rest) in *.
  assert (c + 16 <= Z.of_nat (length bs)) as Hlen by (unfold bs; rewrite length_app; lia).
  destruct (NEEDBITS_ok s b k bs l H) as (s1 & b1 & k1 & E1 & Ha & H1 & Hk1 & _); [lia|lia|]. assert (hm s1 = hm s) as Em by (by rewrite Ha). rewrite <- Em in Hw.
  destruct (descend_ok 16 s1 b1 k1 bs T l r c H1 Hw) as (r0 & E0 & s2 & b2 & k2 & E2 & Ha2 & H2); [lia|lia|by rewrite <- Er in He|].
  exists r, s2, b2, k2. split; [|split; [done|split; [by eapply advanced_trans|unfold bs in H2; by rewrite drop_app_length' in H2]]].
  unfold decode. rewrite E1. cbn [mbind outcome_bind]. rewrite mask_ok by lia. cbn [mbind outcome_bind]. rewrite land_bits, (reader_mod _ _ _ _ l H1), E0 by lia. cbn [mbind outcome_bind]. exact E2.
Qed.

(** The same where the first table has all codes. *)
Lemma lookup_ok s b k T l lens i sx d e rest : table_ok (tabs (hm s)) T l lens sx d e -> 1 <= l <= 16 -> Forall (fun x => x <= l) lens -> has_code lens i = true ->
  reader s b k (code_bits lens i ++ rest) -> 16 <= Z.of_nat (length rest) ->
  exists r s' b' k', NEEDBITS l s b k = Ok (s', b', k') /\ entry s' T (Z.land b' (2 ^ l - 1)) = Ok r /\ (he r, hv r) = sym_entry sx d e i /\ advanced s s' /\ reader s' (Z.shiftr b' (hb r)) (k' - hb r) rest.
Proof.
  intros Ht Hl Hle Hc H Hrest. destruct (symbol_walk _ _ _ _ _ _ _ _ rest Ht Hc) as (r & Hw & Er & Ecl & Hi & Hk). set (c := nth (Z.to_nat i) lens 0) in *. set (bs := code_bits lens i ++ rest) in *.
  assert (c <= l) as Hcl by (unfold c in *; rewrite nth_lookup in *; destruct (lens !! Z.to_nat i) eqn:E; cbn in *; [by apply (proj1 (Forall_lookup _ _) Hle) in E|lia]).
  destruct (NEEDBITS_ok s b k bs l H) as (s1 & b1 & k1 & E1 & Ha & H1 & Hk1 & _); [lia|unfold bs; rewrite length_app; lia|]. assert (hm s1 = hm s) as Em by (by rewrite Ha). rewrite <- Em in Hw.
  destruct (walk_direct _ _ _ _ _ _ _ Hw Hcl) as [Ec Eh]. exists r, s1, b1, k1. split; [done|]. split; [|split; [done|split; [done|]]].
  - rewrite land_bits, (reader_mod _ _ _ _ l H1) by lia. apply entry_cell; [done|]. apply Z.mod_pos_bound, Z.pow_pos_nonneg; lia.
  - rewrite Eh. pose proof (DUMPBITS_ok _ _ _ _ c H1 ltac:(lia)) as H2. unfold bs in H2. by rewrite drop_app_length' in H2.
Qed.

(** ** The window *)

(** The last 32768 bytes of the output are in the window. *)
Definition winv (win : gmap Z Z) (O : list Z) : Prop :=
  forall p x, O !! p = Some x -> Z.of_nat (length O) - WSIZE <= Z.of_nat p -> win !! (Z.of_nat p mod WSIZE) = Some x.

Lemma winv_put win O x : winv win O -> winv (<[Z.of_nat (length O) mod WSIZE := x]> win) (O ++ [x]).
Proof.
  intros H p y Hp Hl. rewrite length_app in Hl. cbn [length] in Hl. apply lookup_app_Some in Hp as [Hp|[Hge Hp]].
  - pose proof (lookup_lt_Some _ _ _ Hp). rewrite lookup_insert_ne; [apply H; [done|lia]|]. intros E.
    assert ((Z.of_nat (length O) - Z.of_nat p) mod WSIZE = 0) as Em by (rewrite Zminus_mod, E, Z.sub_diag; done). apply Z.mod_divide in Em as [q Hq]; [|done]. unfold WSIZE in *. lia.
  - apply list_lookup_singleton_Some in Hp as [Hp ->]. replace p with (length O) by lia. apply lookup_insert_eq.
Qed.

Lemma length_again n dist O : length (again n dist O) = (length O + n)%nat.
Proof. revert O. induction n as [|n IH]; intros O; cbn [again]; [lia|]. rewrite IH, length_app. cbn [length]. lia. Qed.
Lemma again_add m n dist O : again (m + n) dist O = again n dist (again m dist O).
Proof. revert O. induction m as [|m IH]; intros O; [done|]. cbn [Nat.add again]. apply IH. Qed.
Lemma again_prefix n dist O : O `prefix_of` again n dist O.
Proof. revert O. induction n as [|n IH]; intros O; cbn [again]; [done|]. etrans; [|apply IH]. by apply prefix_app_r. Qed.

Lemma copy_bytes_ok n : forall win w d O dist, winv win O -> w = Z.of_nat (length O) mod WSIZE -> d = (Z.of_nat (length O) - dist) mod WSIZE -> 1 <= dist <= WSIZE -> dist <= Z.of_nat (length O) ->
  w + Z.of_nat n <= WSIZE -> d + Z.of_nat n <= WSIZE -> exists win', copy_bytes n win w d = Ok win' /\ winv win' (again n (Z.to_nat dist) O).
Proof.
  induction n as [|n IH]; intros win w d O dist H Hw Hd Hdi Hlen Hwn Hdn; [by exists win|]. cbn [copy_bytes again]. rewrite Nat2Z.inj_succ in *.
  pose proof (Z.mod_pos_bound (Z.of_nat (length O)) WSIZE ltac:(done)) as Bw. pose proof (Z.mod_pos_bound (Z.of_nat (length O) - dist) WSIZE ltac:(done)) as Bd.
  set (x := nth (length O - Z.to_nat dist) O 0). assert (O !! (length O - Z.to_nat dist)%nat = Some x) as Hx.
  { destruct (lookup_lt_is_Some_2 O (length O - Z.to_nat dist)) as [y Hy]; [lia|]. unfold x. by rewrite (nth_lookup_Some _ _ _ _ Hy). }
  assert (win_at win d = Ok x) as ->.
  { unfold win_at. rewrite (proj2 (Z.leb_le 0 d)), (proj2 (Z.ltb_lt d WSIZE)) by lia. cbn [andb]. specialize (H _ _ Hx ltac:(lia)). replace (Z.of_nat (length O - Z.to_nat dist)) with (Z.of_nat (length O) - dist) in H by lia. rewrite <- Hd in H. by rewrite H. }
  cbn [mbind outcome_bind]. unfold win_put. rewrite (proj2 (Z.leb_le 0 w)), (proj2 (Z.ltb_lt w WSIZE)) by lia. cbn [andb mbind outcome_bind].
  destruct n as [|n]; [cbn [copy_bytes again]; exists (<[w:=x]> win); split; [done|]; rewrite Hw; by apply winv_put|].
  assert (forall y, y mod WSIZE + 1 < WSIZE -> (y + 1) mod WSIZE = y mod WSIZE + 1) as Hstep by (intros y Hy; rewrite <- Zplus_mod_idemp_l; apply Z.mod_small; pose proof (Z.mod_pos_bound y WSIZE ltac:(done)); lia).
  apply IH; rewrite ?length_app; cbn [length]; rewrite ?Nat2Z.inj_add; change (Z.of_nat 1) with 1; try lia.
  - rewrite Hw. by apply winv_put.
  - rewrite Hstep by lia. lia.
  - replace (Z.of_nat (length O) + 1 - dist) with (Z.of_nat (length O) - dist + 1) by lia. rewrite Hstep by lia. lia.
Qed.

(** memcpy is only used where it does the same as the loop. *)
Lemma copy_block_bytes n : forall win win' w d, (forall i, d <= i < d + Z.of_nat n -> win' !! i = win !! i) -> 0 <= w -> 0 <= d -> w + Z.of_nat n <= WSIZE -> d + Z.of_nat n <= WSIZE -> w <= d \/ d + Z.of_nat n <= w ->
  copy_bytes n win' w d = Ok (win_write win' w (win_bytes win d n)).
Proof.
  induction n as [|n IH]; intros win win' w d Hag Hw Hd Hwn Hdn Hdis; [done|]. rewrite Nat2Z.inj_succ in *. cbn [copy_bytes]. unfold win_at. rewrite (proj2 (Z.leb_le 0 d)), (proj2 (Z.ltb_lt d WSIZE)) by lia. cbn [andb mbind outcome_bind].
  unfold win_put. rewrite (proj2 (Z.leb_le 0 w)), (proj2 (Z.ltb_lt w WSIZE)) by lia. cbn [andb mbind outcome_bind].
  assert (win_bytes win d (S n) = default 0 (win' !! d) :: win_bytes win (d + 1) n) as ->.
  { unfold win_bytes. cbn [seq fmap list_fmap]. f_equal; [rewrite Z.add_0_r, Hag by lia; done|]. rewrite <- fmap_S_seq, <- list_fmap_compose. apply list_fmap_ext. intros i j _. cbn. do 2 f_equal. lia. }
  cbn [win_write]. apply IH; try lia. intros i Hi. rewrite lookup_insert_ne by lia. apply Hag. lia.
Qed.

(** ** Output *)

(** [O] is all the data so far: what was written out, and [w] bytes of the window. *)
Record produced (s : gz) (w : Z) (O : list Z) : Prop := {
  pr_w : 0 <= w <= WSIZE; pr_out : exists l, O = output s ++ l /\ Z.of_nat (length l) = w; pr_cnt : bytes_out s = s32 (Z.of_nat (length (output s)));
  pr_div : (WSIZE | Z.of_nat (length (output s))); pr_win : winv (window s) O }.

Lemma produced_pos s w O : produced s w O -> (Z.of_nat (length O) - w) mod WSIZE = 0.
Proof. intros [_ (l & -> & Hl) _ Hd _]. rewrite length_app. replace (Z.of_nat (length (output s) + length l) - w) with (Z.of_nat (length (output s))) by lia. by apply Z.mod_divide. Qed.

Lemma produced_w s w O : produced s w O -> w < WSIZE -> w = Z.of_nat (length O) mod WSIZE.
Proof.
  intros H Hw. pose proof (produced_pos s w O H) as E. destruct H as [Hr _ _ _ _]. apply Z.mod_divide in E as [q Hq]; [|done]. replace (Z.of_nat (length O)) with (w + q * WSIZE) by lia. rewrite Z.mod_add by done. symmetry. apply Z.mod_small. lia.
Qed.

(** The bytes of the window that were not written out are the last ones. *)
Lemma win_tail s w O : produced s w O -> output s ++ win_bytes (window s) 0 (Z.to_nat w) = O.
Proof.
  intros [Hr (l & -> & Hl) _ [q Hq] Hwin]. f_equal. apply list_eq. intros i. unfold win_bytes. rewrite list_lookup_fmap. destruct (decide (i < Z.to_nat w)%nat) as [Hi|Hi].
  - rewrite lookup_seq_lt by done. cbn [fmap option_fmap option_map]. destruct (lookup_lt_is_Some_2 l i ltac:(lia)) as [x Hx]. rewrite Hx. f_equal.
    specialize (Hwin (length (output s) + i)%nat x). rewrite lookup_app_r in Hwin by lia. replace (length (output s) + i - length (output s))%nat with i in Hwin by lia.
    rewrite length_app in Hwin. specialize (Hwin Hx ltac:(lia)). replace (Z.of_nat (length (output s) + i)) with (Z.of_nat i + q * WSIZE) in Hwin by lia. rewrite Z.mod_add, Z.mod_small in Hwin by (done || lia). rewrite !Z.add_0_l, Nat.add_0_l. by rewrite Hwin.
  - rewrite lookup_seq_ge by lia. cbn. symmetry. apply lookup_ge_None_2. lia.
Qed.

(** Not the input, the room, or the tables. *)
Definition stable (s s' : gz) : Prop :=
  inbuf s' = inbuf s /\ insize s' = insize s /\ room s' = room s /\ hm s' = hm s /\ input_data s' = input_data s /\ input_len s' = input_len s.
Definition written (s s' : gz) : Prop := stable s s' /\ inptr s' = inptr s.

Lemma stable_refl s : stable s s.
Proof. done. Qed.
Lemma stable_trans s s' s'' : stable s s' -> stable s' s'' -> stable s s''.
Proof. unfold stable. naive_solver congruence. Qed.
Lemma written_trans s s' s'' : written s s' -> written s' s'' -> written s s''.
Proof. intros [H1 E1] [H2 E2]. split; [by eapply stable_trans|congruence]. Qed.
Lemma advanced_stable s s' : advanced s s' -> stable s s'.
Proof. unfold advanced. by intros ->. Qed.
Lemma advanced_produced s s' w O : advanced s s' -> produced s w O -> produced s' w O.
Proof. unfold advanced. intros ->. intros []. by split. Qed.
Lemma written_reader s s' b k bs : written s s' -> reader s b k bs -> reader s' b k bs.
Proof. intros [(E1 & E2 & _) E3] H. by apply (reader_set s). Qed.
#[export] Hint Resolve stable_refl : core.

Lemma flush_ok s w O : produced s w O -> Z.of_nat (length O) <= room s -> exists s', flush_output s w = Ok s' /\ written s s' /\ output s' = O /\ bytes_out s' = s32 (Z.of_nat (length O)) /\ window s' = window s.
Proof.
  intros H Hr. pose proof (win_tail s w O H) as Et. destruct H as [Hw (l & E & Hl) Hc _ _]. assert (Z.of_nat (length (output s)) + w = Z.of_nat (length O)) as En by (rewrite E, length_app; lia).
  unfold flush_output, flush_window. cbn [room bytes_out outcnt output set_wp]. rewrite (proj2 (Z.ltb_ge _ _)) by lia. eexists. split; [done|]. cbn [output bytes_out window set_out set_wp]. split; [done|]. by rewrite Et, Hc, s32_add_s32, En.
Qed.

(** After a byte or a copy: the window is written out when it is full. *)
Lemma wrap_ok s w O : produced s w O -> Z.of_nat (length O) <= room s ->
  exists s' w', (if w =? WSIZE then s ← flush_output s w; Ok (s, 0) else Ok (s, w)) = Ok (s', w') /\ written s s' /\ produced s' w' O /\ w' < WSIZE.
Proof.
  intros H Hr. pose proof H as [Hw (l & E & Hl) Hc Hd Hwin]. destruct (Z.eqb_spec w WSIZE) as [->|Hne]; [|exists s, w; split; [done|]; split; [done|]; split; [done|lia]].
  destruct (flush_ok s WSIZE O H Hr) as (s' & -> & Hwr & Eo & Eb & Ew). cbn [mbind outcome_bind]. exists s', 0. split; [done|]. split; [done|]. split; [|done]. split; rewrite ?Eo, ?Ew; try done.
  - exists []. rewrite app_nil_r. done.
  - rewrite E, length_app, Nat2Z.inj_add, Hl. apply Z.divide_add_r; [done|apply Z.divide_refl].
Qed.

Lemma put_byte_ok s w O c : produced s w O -> w < WSIZE -> 0 <= c < 256 -> Z.of_nat (length O) + 1 <= room s ->
  exists s' w', put_byte s w c = Ok (s', w') /\ written s s' /\ produced s' w' (O ++ [c]) /\ w' < WSIZE.
Proof.
  intros H Hw Hc Hr. pose proof (produced_w s w O H Hw) as Ew. pose proof H as [Hw0 (l & E & Hl) Hcnt Hd Hwin]. unfold put_byte, win_put. rewrite (proj2 (Z.leb_le 0 w)), (proj2 (Z.ltb_lt w WSIZE)) by lia. cbn [andb mbind outcome_bind]. rewrite u8_small by done.
  destruct (wrap_ok (set_win s (<[w:=c]> (window s))) (w + 1) (O ++ [c])) as (s' & w' & E1 & Hwr & Hp & Hlt); [|rewrite length_app; cbn [length room set_win]; lia|].
  - split; cbn [output bytes_out window set_win]; try done; try lia; [|rewrite Ew; by apply winv_put]. exists (l ++ [c]). rewrite E, app_assoc, length_app. cbn [length]. split; [done|lia].
  - exists s', w'. rewrite E1. done.
Qed.

(** ** Copies *)

(** One turn of the loop: [e] bytes that reach the end of the window neither where they are read
    nor where they are written. *)
Lemma chunk_ok s w O d dist e : produced s w O -> w < WSIZE -> d = (Z.of_nat (length O) - dist) mod WSIZE -> 1 <= dist <= WSIZE -> dist <= Z.of_nat (length O) -> 1 <= e -> w + e <= WSIZE -> d + e <= WSIZE ->
  exists win, (if e <=? u32 (w - d) then copy_block (window s) w d e else copy_bytes (Z.to_nat e) (window s) w d) = Ok win /\ produced (set_win s win) (w + e) (again (Z.to_nat e) (Z.to_nat dist) O).
Proof.
  intros H Hw Hd Hdi Hlen He Hwe Hde. pose proof (produced_w s w O H Hw) as Ew. pose proof H as [Hw0 (l & E & Hl) Hcnt Hdv Hwin]. pose proof (Z.mod_pos_bound (Z.of_nat (length O) - dist) WSIZE ltac:(done)) as Bd. rewrite <- Hd in Bd.
  destruct (copy_bytes_ok (Z.to_nat e) (window s) w d O dist Hwin Ew Hd Hdi Hlen ltac:(lia) ltac:(lia)) as (win & Ec & Hwin'). exists win. split.
  - destruct (Z.leb_spec e (u32 (w - d))) as [Hle|]; [|done]. unfold copy_block. rewrite !(proj2 (Z.leb_le _ _)) by lia. cbn [andb]. rewrite (copy_block_bytes (Z.to_nat e) (window s) (window s) w d) in Ec; [done|done|lia|lia|lia|lia|].
    destruct (Z.le_gt_cases w d) as [|Hgt]; [by left|]. right. rewrite u32_small in Hle by (unfold WSIZE in *; lia). lia.
  - split; cbn [output bytes_out window set_win]; try done; try lia. destruct (again_prefix (Z.to_nat e) (Z.to_nat dist) O) as [l' El']. pose proof (length_again (Z.to_nat e) (Z.to_nat dist) O) as Ela. rewrite El', length_app in Ela.
    exists (l ++ l'). rewrite El', E, app_assoc, length_app. split; [done|lia].
Qed.

Lemma copy_ok dist fuel : 1 <= dist <= WSIZE -> forall n s w O d, produced s w O -> w < WSIZE -> d mod WSIZE = (Z.of_nat (length O) - dist) mod WSIZE -> dist <= Z.of_nat (length O) -> 1 <= n <= Z.of_nat fuel -> Z.of_nat (length O) + n <= room s ->
  exists s' w', copy fuel n s w d = Ok (s', w') /\ written s s' /\ produced s' w' (again (Z.to_nat n) (Z.to_nat dist) O) /\ w' < WSIZE.
Proof.
  intros Hdi. induction fuel as [|fuel IH]; intros n s w O d H Hw Hd Hlen Hn Hr; [lia|]. cbn [copy]. change (WSIZE - 1) with (2 ^ 15 - 1). rewrite land_bits by lia. change (2 ^ 15) with WSIZE. rewrite Hd.
  set (d1 := (Z.of_nat (length O) - dist) mod WSIZE). pose proof (Z.mod_pos_bound (Z.of_nat (length O) - dist) WSIZE ltac:(done)) as Bd. fold d1 in Bd. pose proof H as [Hw0 _ _ _ _].
  set (e := if n <? WSIZE - (if w <? d1 then d1 else w) then n else WSIZE - (if w <? d1 then d1 else w)).
  assert (1 <= e <= n /\ w + e <= WSIZE /\ d1 + e <= WSIZE) as (He & Hwe & Hde) by (unfold e; destruct (Z.ltb_spec w d1), (Z.ltb_spec n (WSIZE - d1)), (Z.ltb_spec n (WSIZE - w)); lia).
  destruct (chunk_ok s w O d1 dist e H Hw eq_refl Hdi Hlen ltac:(lia) Hwe Hde) as (win & -> & Hp). cbn [mbind outcome_bind]. pose proof (length_again (Z.to_nat e) (Z.to_nat dist) O) as Ela.
  destruct (wrap_ok (set_win s win) (w + e) _ Hp) as (s1 & w1 & E1 & Hwr1 & Hp1 & Hw1); [cbn [room set_win]; lia|]. rewrite E1. cbn [mbind outcome_bind]. assert (written s s1) as Hws by done.
  destruct (Z.eqb_spec (n - e) 0) as [E0|Hne]; [exists s1, w1; replace n with e by lia; done|].
  destruct (IH (n - e) s1 w1 (again (Z.to_nat e) (Z.to_nat dist) O) (d1 + e) Hp1 Hw1) as (s2 & w2 & E2 & Hwr2 & Hp2 & Hw2).
  { rewrite Ela. unfold d1. rewrite Zplus_mod_idemp_l. f_equal. lia. } { lia. } { lia. } { destruct Hws as [(_ & _ & Er & _) _]. rewrite Er. lia. }
  exists s2, w2. split; [done|]. split; [by eapply written_trans|]. split; [|done]. rewrite <- again_add in Hp2. by replace (Z.to_nat n) with (Z.to_nat e + Z.to_nat (n - e))%nat by lia.
Qed.

(** ** The symbols of the format *)

Lemma lit_symbol c : 0 <= c < 256 -> sym_entry 257 cplens cplext c = (16, Vn c).
Proof. intros Hc. unfold sym_entry. by rewrite !(proj2 (Z.ltb_lt c _)) by lia. Qed.

Definition symbol_sound (f : Z -> Z * hval) (extra base : Z -> Z) (hi x : Z) : bool :=
  bool_decide (f x = (extra x, Vn (base x))) && (0 <=? extra x) && (extra x <=? 13) && (1 <=? base x) && (base x + 2 ^ extra x <=? hi).

Lemma symbols_sound f extra base hi lo n : forallb (symbol_sound f extra base hi) (seqZ lo n) = true -> forall x, lo <= x < lo + n ->
  f x = (extra x, Vn (base x)) /\ 0 <= extra x <= 13 /\ 1 <= base x /\ base x + 2 ^ extra x <= hi.
Proof.
  intros H x Hx. rewrite forallb_forall in H. specialize (H x). rewrite <- list_elem_of_In, elem_of_seqZ in H. specialize (H Hx). unfold symbol_sound in H. rewrite !andb_true_iff in H.
  destruct H as [[[[H1%bool_decide_eq_true H2%Z.leb_le] H3%Z.leb_le] H4%Z.leb_le] H5%Z.leb_le]. done.
Qed.

(** The tables of the code are those of the format. *)
Lemma length_symbol x : 257 <= x <= 285 -> sym_entry 257 cplens cplext x = (length_extra x, Vn (length_base x)) /\ 0 <= length_extra x <= 13 /\ 1 <= length_base x /\ length_base x + 2 ^ length_extra x <= 259.
Proof. intros Hx. apply (symbols_sound (sym_entry 257 cplens cplext) length_extra length_base 259 257 29); [by vm_compute|lia]. Qed.
Lemma dist_symbol x : 0 <= x <= 29 -> sym_entry 0 cpdist cpdext x = (dist_extra x, Vn (dist_base x)) /\ 0 <= dist_extra x <= 13 /\ 1 <= dist_base x /\ dist_base x + 2 ^ dist_extra x <= WSIZE + 1.
Proof. intros Hx. apply (symbols_sound (sym_entry 0 cpdist cpdext) dist_extra dist_base (WSIZE + 1) 0 30); [by vm_compute|lia]. Qed.

Lemma expand_item_grows O i O' : expand_item O i = Some O' -> (length O <= length O')%nat.
Proof. destruct i as [c|ls le ds de]; cbn [expand_item]; [intros [= <-]; rewrite length_app; lia|]. destruct (_ <=? _); [|done]. intros [= <-]. rewrite length_again. lia. Qed.
Lemma expand_items_grow its : forall O O', expand_items O its = Some O' -> (length O <= length O')%nat.
Proof.
  induction its as [|i its IH]; intros O O'; cbn [expand_items]; [by intros [= <-]|]. destruct (expand_item O i) as [O1|] eqn:E; [|done]. cbn [mbind option_bind]. intros H%IH. apply expand_item_grows in E. lia.
Qed.

(** ** inflate_codes *)

(** The codes of a block are in the tables. *)
Record codes_ready (m : hmem) (tl td bl bd : Z) (lb db : list Z) : Prop := {
  cr_lit : table_ok (tabs m) tl bl lb 257 cplens cplext; cr_bl : 1 <= bl <= 16; cr_end : has_code lb 256 = true;
  cr_dist : table_ok (tabs m) td bd db 0 cpdist cpdext; cr_bd : (exists i, has_code db i = true) -> 1 <= bd <= 16 }.

(** Extra bits. *)
Lemma extra_ok s b k n x rest : reader s b k (lsb (Z.to_nat n) x ++ rest) -> 0 <= n <= 13 -> 0 <= x < 2 ^ n ->
  exists s' b' k', NEEDBITS n s b k = Ok (s', b', k') /\ at_ mask_bits n = Ok (2 ^ n - 1) /\ Z.land b' (2 ^ n - 1) = x /\ advanced s s' /\ reader s' (Z.shiftr b' n) (k' - n) rest.
Proof.
  intros H Hn Hx. destruct (NEEDBITS_ok s b k _ n H) as (s' & b' & k' & E & Ha & Hr & Hk & _); [lia|rewrite length_app, length_lsb; lia|].
  destruct (reader_take s' b' k' n x rest Hr ltac:(lia) Hx) as [E1 Hr1]. exists s', b', k'. rewrite mask_ok by lia. done.
Qed.

Section Codes.
Context (tl td bl bd : Z) (lb db : list Z).

(** The state between two symbols. *)
Definition at_symbol (s : gz) (b k w : Z) (bs : list bool) (O : list Z) : Prop := codes_ready (hm s) tl td bl bd lb db /\ reader s b k bs /\ produced s w O /\ w < WSIZE.

Lemma literal_step fuel s b k w rest O c : at_symbol s b k w (code_bits lb c ++ rest) O -> item_ok lb db (Lit c) = true -> 16 <= Z.of_nat (length rest) -> Z.of_nat (length O) + 1 <= room s ->
  exists s' b' k' w', codes_loop (S fuel) tl td bl bd s b k w = codes_loop fuel tl td bl bd s' b' k' w' /\ stable s s' /\ at_symbol s' b' k' w' rest (O ++ [c]).
Proof.
  intros (Hc & Hr & Hp & Hw) Hi Hl Hroom. pose proof Hc as [C1 C2 _ _ _]. apply andb_true_iff in Hi as [Hi1%Z.ltb_lt Hi2]. pose proof (proj1 (andb_prop _ _ Hi2)) as H0%Z.leb_le. pose proof (lit_symbol c ltac:(lia)) as Es.
  destruct (decode_ok s b k tl bl lb c _ _ _ rest C1 C2 Hi2 Hr Hl) as (r & s1 & b1 & k1 & Ed & Er & Ha & H1); [by rewrite Es|]. rewrite Es in Er. injection Er as Ee Ev.
  destruct (put_byte_ok s1 w O c) as (s2 & w2 & Eb & Hwr & Hp2 & Hw2); [by eapply advanced_produced|done|lia|destruct (advanced_stable _ _ Ha) as (_ & _ & -> & _); lia|].
  exists s2, b1, k1, w2. cbn [codes_loop]. rewrite Ed. cbn [mbind outcome_bind]. rewrite Ee. change (16 =? 16) with true. cbv iota. unfold value_of. rewrite Ev. cbn [mbind outcome_bind]. rewrite Eb. cbn [mbind outcome_bind].
  split; [done|]. assert (stable s s2) as Hst by (eapply stable_trans; [by apply advanced_stable|apply Hwr]). split; [done|]. split; [by destruct Hst as (_ & _ & _ & -> & _)|]. split; [by eapply written_reader|done].
Qed.

Lemma end_step fuel s b k w rest O : at_symbol s b k w (code_bits lb 256 ++ rest) O -> 16 <= Z.of_nat (length rest) ->
  exists s' b' k', codes_loop (S fuel) tl td bl bd s b k w = Ok (0, set_wp (set_bits s' b' k') w) /\ advanced s s' /\ at_symbol s' b' k' w rest O.
Proof.
  intros (Hc & Hr & Hp & Hw) Hl. pose proof Hc as [C1 C2 C3 _ _]. destruct (decode_ok s b k tl bl lb 256 _ _ _ rest C1 C2 C3 Hr Hl) as (r & s1 & b1 & k1 & Ed & Er & Ha & H1); [done|].
  change (sym_entry 257 cplens cplext 256) with (15, Vn 256) in Er. injection Er as Ee Ev. exists s1, b1, k1. cbn [codes_loop]. rewrite Ed. cbn [mbind outcome_bind]. rewrite Ee. split; [done|]. split; [done|].
  split; [by destruct (advanced_stable _ _ Ha) as (_ & _ & _ & -> & _)|]. split; [done|]. split; [by eapply advanced_produced|done].
Qed.

(** The conditions on a copy, as propositions. *)
Lemma copy_item_ok ls le ds de : item_ok lb db (Copy ls le ds de) = true ->
  257 <= ls <= 285 /\ has_code lb ls = true /\ 0 <= le < 2 ^ length_extra ls /\ 0 <= ds <= 29 /\ has_code db ds = true /\ 0 <= de < 2 ^ dist_extra ds.
Proof.
  cbn [item_ok]. rewrite !andb_true_iff. intros [[[[[[[[H1%Z.leb_le H2%Z.leb_le] H3] H4%Z.leb_le] H5%Z.ltb_lt] H6%Z.leb_le] H7] H8%Z.leb_le] H9%Z.ltb_lt].
  pose proof (proj1 (andb_prop _ _ H7)) as H0%Z.leb_le. done.
Qed.

Lemma copy_step fuel s b k w rest O ls le ds de O' : at_symbol s b k w (enc_item lb db (Copy ls le ds de) ++ rest) O -> item_ok lb db (Copy ls le ds de) = true -> expand_item O (Copy ls le ds de) = Some O' ->
  16 <= Z.of_nat (length rest) -> Z.of_nat (length O') <= room s ->
  exists s' b' k' w', codes_loop (S fuel) tl td bl bd s b k w = codes_loop fuel tl td bl bd s' b' k' w' /\ stable s s' /\ at_symbol s' b' k' w' rest O'.
Proof.
  intros (Hc & Hr & Hp & Hw) (Hls & Hcl & Hle & Hds & Hcd & Hde)%copy_item_ok Hx Hl Hroom. pose proof Hc as [C1 C2 _ C4 C5]. specialize (C5 (ex_intro _ ds Hcd)).
  destruct (length_symbol ls Hls) as (Es & Hle1 & Hle2 & _). destruct (dist_symbol ds Hds) as (Eds & Hde1 & Hde2 & Hde3). cbn [enc_item] in Hr. rewrite <- !app_assoc in Hr.
  cbn [expand_item] in Hx. destruct (Z.leb_spec (dist_base ds + de) (Z.of_nat (length O))) as [Hdist|]; [|done]. injection Hx as <-. rewrite length_again in Hroom.
  destruct (decode_ok s b k tl bl lb ls _ _ _ _ C1 C2 Hcl Hr) as (r & s1 & b1 & k1 & Ed & Er & Ha & H1); [rewrite !length_app; lia|rewrite Es; cbn; lia|]. rewrite Es in Er. injection Er as Ee Ev.
  destruct (extra_ok _ _ _ _ _ _ H1 Hle1 Hle) as (s2 & b2 & k2 & En & Em & Ex & Ha2 & H2).
  assert (stable s s2) as Hst2 by (eapply stable_trans; by apply advanced_stable). pose proof Hst2 as (_ & _ & _ & Ehm & _). rewrite <- Ehm in C4.
  destruct (decode_ok s2 _ _ td bd db ds _ _ _ _ C4 C5 Hcd H2) as (r' & s3 & b3 & k3 & Ed' & Er' & Ha3 & H3); [rewrite !length_app; lia|rewrite Eds; cbn; lia|]. rewrite Eds in Er'. injection Er' as Ee' Ev'.
  destruct (extra_ok _ _ _ _ _ _ H3 Hde1 Hde) as (s4 & b4 & k4 & En' & Em' & Ex' & Ha4 & H4).
  assert (advanced s s4) as Ha' by (do 3 (eapply advanced_trans; [eassumption|]); done). pose proof (advanced_stable _ _ Ha') as Hst4. pose proof (advanced_produced _ _ _ _ Ha' Hp) as Hp4.
  set (dist := dist_base ds + de) in *. pose proof (produced_w s4 w O Hp4 Hw) as Ew.
  destruct (copy_ok dist (S (Z.to_nat (length_base ls + le))) ltac:(lia) (length_base ls + le) s4 w O (u32 (w - dist_base ds - de)) Hp4 Hw) as (s5 & w5 & Ec & Hwr & Hp5 & Hw5).
  { replace (w - dist_base ds - de) with (w - dist) by lia. unfold u32. change (2 ^ 32) with (2 ^ 17 * WSIZE). rewrite <- Znumtheory.Zmod_div_mod by (done || (by exists (2 ^ 17))). rewrite Ew, Zminus_mod_idemp_l. done. }
  { lia. } { lia. } { destruct Hst4 as (_ & _ & -> & _). lia. }
  exists s5, (Z.shiftr b4 (dist_extra ds)), (k4 - dist_extra ds), w5. cbn [codes_loop]. rewrite Ed. cbn [mbind outcome_bind]. rewrite Ee. rewrite (proj2 (Z.eqb_neq (length_extra ls) 16)), (proj2 (Z.eqb_neq (length_extra ls) 15)) by lia.
  rewrite En. cbn [mbind outcome_bind]. rewrite Em. cbn [mbind outcome_bind]. assert (value_of r = Ok (length_base ls)) as -> by (unfold value_of; by rewrite Ev). cbn [mbind outcome_bind]. rewrite Ex. unfold DUMPBITS. rewrite Ed'. cbn [mbind outcome_bind]. rewrite Ee', En'. cbn [mbind outcome_bind]. rewrite Em'. cbn [mbind outcome_bind].
  assert (value_of r' = Ok (dist_base ds)) as -> by (unfold value_of; by rewrite Ev'). cbn [mbind outcome_bind]. rewrite Ex', Ec. cbn [mbind outcome_bind]. split; [done|]. assert (stable s s5) as Hst by (eapply stable_trans; [exact Hst4|apply Hwr]). split; [done|].
  split; [by destruct Hst as (_ & _ & _ & -> & _)|]. split; [by eapply written_reader|done].
Qed.

(** Each code is at least one bit, so the items are at most as many as the bits. *)
Lemma codes_loop_ok its : forall fuel s b k w rest O O', at_symbol s b k w (enc_items lb db its ++ rest) O -> forallb (item_ok lb db) its = true -> expand_items O its = Some O' ->
  16 <= Z.of_nat (length rest) -> Z.of_nat (length O') <= room s -> (length its < fuel)%nat ->
  exists s' b' k' w', codes_loop fuel tl td bl bd s b k w = Ok (0, set_wp (set_bits s' b' k') w') /\ stable s s' /\ at_symbol s' b' k' w' rest O'.
Proof.
  induction its as [|i its IH]; intros fuel s b k w rest O O' Hat Hok Hx Hl Hroom Hf; (destruct fuel as [|fuel]; [lia|]).
  - injection Hx as <-. destruct (end_step fuel s b k w rest O Hat Hl) as (s' & b' & k' & E & Ha & Hat'). exists s', b', k', w. split; [done|]. split; [by apply advanced_stable|done].
  - cbn [forallb] in Hok. apply andb_true_iff in Hok as [Hi Hok]. cbn [expand_items] in Hx. destruct (expand_item O i) as [O1|] eqn:E1; [|done]. cbn [mbind option_bind] in Hx. cbn [length] in Hf.
    pose proof (expand_items_grow its O1 O' Hx) as Hg. assert (enc_items lb db (i :: its) ++ rest = enc_item lb db i ++ (enc_items lb db its ++ rest)) as Ee by (unfold enc_items; rewrite bind_cons, !app_assoc; done). rewrite Ee in Hat. assert (16 <= Z.of_nat (length (enc_items lb db its ++ rest))) as Hl' by (rewrite length_app; lia).
    assert (exists s' b' k' w', codes_loop (S fuel) tl td bl bd s b k w = codes_loop fuel tl td bl bd s' b' k' w' /\ stable s s' /\ at_symbol s' b' k' w' (enc_items lb db its ++ rest) O1) as (s1 & b1 & k1 & w1 & -> & Hst & Hat1).
    { destruct i as [c|ls le ds de]; [|by apply (copy_step fuel s b k w _ O ls le ds de O1); [..|lia]]. injection E1 as <-. apply (literal_step fuel s b k w _ O c Hat Hi Hl'). rewrite length_app in Hg. cbn [length] in Hg. lia. }
    destruct (IH fuel s1 b1 k1 w1 rest O1 O' Hat1 Hok Hx Hl) as (s2 & b2 & k2 & w2 & E2 & Hst2 & Hat2); [by destruct Hst as (_ & _ & -> & _)|lia|]. exists s2, b2, k2, w2. split; [done|]. split; [by eapply stable_trans|done].
Qed.
End Codes.

(** ** The copy as the decoder calls it *)

(** C23: A copy from the window appends to the data, byte by byte, the byte that far back, also
    where it overlaps what it writes, where either end of it wraps around in the window, and
    where the window is full and is written out on the way. *)
Theorem copy_repeats (s : gz) (w n dist : Z) (data : list Z)
  (Hp : produced s w data) (Hw : w < WSIZE) (Hd : 1 <= dist <= WSIZE) (Hback : dist <= Z.of_nat (length data)) (Hn : 1 <= n) (Hroom : Z.of_nat (length data) + n <= room s) :
  exists s' w', copy (S (Z.to_nat n)) n s w (u32 (w - dist)) = Ok (s', w') /\ written s s' /\ produced s' w' (again (Z.to_nat n) (Z.to_nat dist) data) /\ w' < WSIZE.
Proof.
  apply copy_ok; try done; [|lia]. pose proof (produced_w s w data Hp Hw) as Ew. unfold u32. change (2 ^ 32) with (2 ^ 17 * WSIZE). rewrite <- Znumtheory.Zmod_div_mod by (done || (by exists (2 ^ 17))). by rewrite Ew, Zminus_mod_idemp_l.
Qed.

(** A copy that overlaps itself. *)
Lemma copy_repeats_witness : let s := MkGz [] 0 0 [] 0 0 0 {[0 := 7; 1 := 8]} 2 0 [] 100 (MkHm ∅ 1 [] 0) in
  exists s' w', copy 6 5 s 2 (u32 (2 - 2)) = Ok (s', w') /\ written s s' /\ produced s' w' [7; 8; 7; 8; 7; 8; 7] /\ w' < WSIZE.
Proof.
  intros s. apply (copy_repeats s 2 5 2 [7; 8]); [|reflexivity|split; discriminate|discriminate|discriminate|discriminate].
  split; [split; discriminate|exists [7; 8]; split; reflexivity|reflexivity|exists 0; reflexivity|]. intros p x Hx Hl. destruct p as [|[|p]]; [injection Hx as <-; reflexivity|injection Hx as <-; reflexivity|discriminate].
Defined.
