(* ===== verification/InflateRun.v ===== *)
(** * Blocks and streams

    inflate on the encoding of a stream: each kind of block gives the data it stands for,
    the tables that were made for it are given back, and the input ends with the stream. *)

From S2P Require Import Prelude Inflate InflateHuft InflateTree InflateBuild InflateSpec InflateBits InflateCodes.

(** ** Between blocks *)

Definition byte (x : Z) : Prop := 0 <= x < 256.

Lemma is_byte_true x : is_byte x = true <-> byte x.
Proof. unfold is_byte, byte. rewrite andb_true_iff, Z.leb_le, Z.ltb_lt. done. Qed.

(** [bs]: the bits that are left, [O]: the data so far. *)
Record ready (s : gz) (bs : list bool) (O : list Z) : Prop := {
  re_bits : reader s (bb s) (bk s) bs; re_out : produced s (outcnt s) O; re_w : outcnt s < WSIZE; re_heap : heap_ok (hm s) }.

(** What a block leaves as it is. *)
Definition kept (s s' : gz) : Prop :=
  inbuf s' = inbuf s /\ insize s' = insize s /\ room s' = room s /\ tabs (hm s') = tabs (hm s) /\ input_data s' = input_data s /\ input_len s' = input_len s.

Lemma kept_refl s : kept s s.
Proof. done. Qed.
Lemma kept_trans s s' s'' : kept s s' -> kept s' s'' -> kept s s''.
Proof. unfold kept. naive_solver congruence. Qed.
Lemma stable_kept s s' : stable s s' -> kept s s'.
Proof. unfold stable, kept. intros (-> & -> & -> & -> & -> & ->). done. Qed.

Lemma advanced_ready s s' b k bs bs' O : ready s bs O -> advanced s s' -> reader s' b k bs' -> ready (set_bits s' b k) bs' O.
Proof.
  intros [H1 H2 H3 H4] Ha Hr. split; cbn [bb bk outcnt hm set_bits].
  - by apply (reader_set s').
  - rewrite Ha. destruct H2. by split.
  - by rewrite Ha.
  - by rewrite Ha.
Qed.

(** ** Stored blocks *)

Lemma put_byte_u8 s w c : put_byte s w c = put_byte s w (u8 c).
Proof. unfold put_byte. by replace (u8 (u8 c)) with (u8 c) by (unfold u8; by rewrite Z.mod_mod). Qed.

Lemma stored_loop_ok data : forall s b k w rest O, Forall byte data -> reader s b k (bits_of data ++ rest) -> produced s w O -> w < WSIZE -> Z.of_nat (length O + length data) <= room s ->
  exists s' b' k' w', stored_loop (length data) s b k w = Ok (s', b', k', w') /\ stable s s' /\ reader s' b' k' rest /\ produced s' w' (O ++ data) /\ w' < WSIZE.
Proof.
  induction data as [|x data IH]; intros s b k w rest O Hb Hr Hp Hw Hroom; cbn [length stored_loop].
  - exists s, b, k, w. by rewrite app_nil_r.
  - apply Forall_cons in Hb as [Hx Hb]. rewrite bits_of_cons, <- app_assoc in Hr. destruct (NEEDBITS_ok s b k _ 8 Hr) as (s1 & b1 & k1 & -> & Ha & H1 & Hk1 & _); [lia|rewrite length_app, length_lsb; lia|]. cbn [mbind outcome_bind].
    destruct (reader_take s1 b1 k1 8 x (bits_of data ++ rest) H1 ltac:(lia) Hx) as [E1 H2]. rewrite land_bits in E1 by lia. pose proof (advanced_stable _ _ Ha) as Hst. pose proof Hst as (_ & _ & Er & _).
    assert (put_byte s1 w b1 = put_byte s1 w x) as -> by (rewrite put_byte_u8; unfold u8; by rewrite E1).
    destruct (put_byte_ok s1 w O x) as (s2 & w2 & -> & Hwr & Hp2 & Hw2); [by eapply advanced_produced|done|done|rewrite Er; cbn [length] in Hroom; lia|]. cbn [mbind outcome_bind]. unfold DUMPBITS.
    destruct (IH s2 (Z.shiftr b1 8) (k1 - 8) w2 rest (O ++ [x]) Hb) as (s3 & b3 & k3 & w3 & E3 & Hst3 & Hr3 & Hp3 & Hw3); [by eapply written_reader|done|done|destruct Hwr as [(_ & _ & -> & _) _]; rewrite Er, length_app; cbn [length] in *; lia|].
    exists s3, b3, k3, w3. split; [done|]. split; [eapply stable_trans; [exact Hst|eapply stable_trans; [apply Hwr|exact Hst3]]|]. rewrite <- app_assoc in Hp3. done.
Qed.

Lemma lnot_low b n x : 0 <= n -> Z.land b (2 ^ n - 1) = x -> Z.land (Z.lnot b) (2 ^ n - 1) = 2 ^ n - 1 - x.
Proof.
  intros Hn <-. rewrite !land_bits by done. assert (0 < 2 ^ n) by (apply Z.pow_pos_nonneg; lia). pose proof (Z.mod_pos_bound b (2 ^ n) ltac:(lia)). unfold Z.lnot.
  symmetry. apply (Z.mod_unique _ _ (- (b / 2 ^ n) - 1)); [lia|]. pose proof (Z.div_mod b (2 ^ n) ltac:(lia)). lia.
Qed.

(** The bits up to the next byte are skipped: [bs] bits are left at a place where all bytes
    are whole. *)
Lemma inflate_stored_ok s pad data rest O : ready s (pad ++ lsb 16 (Z.of_nat (length data)) ++ lsb 16 (0xffff - Z.of_nat (length data)) ++ bits_of data ++ rest) O ->
  (length pad < 8)%nat -> Z.of_nat (length rest) mod 8 = 0 -> Z.of_nat (length data) < 2 ^ 16 -> Forall byte data -> Z.of_nat (length O + length data) <= room s ->
  exists s', inflate_stored s = Ok (0, s') /\ kept s s' /\ ready s' rest (O ++ data).
Proof.
  intros [Hr Hp Hw Hh] Hpad Hal Hn Hb Hroom. set (n := Z.of_nat (length data)) in *. set (bs := lsb 16 n ++ lsb 16 (0xffff - n) ++ bits_of data ++ rest) in *.
  assert (Z.land (bk s) 7 = Z.of_nat (length pad)) as Ek.
  { change 7 with (2 ^ 3 - 1). rewrite land_bits by lia. change (2 ^ 3) with 8. pose proof (reader_length _ _ _ _ Hr) as El. unfold bs, bit_pos in El. rewrite !length_app, !length_lsb, length_bits_of in El.
    apply Z.mod_divide in Hal as [q Hq]; [|done]. replace (bk s) with (Z.of_nat (length pad) + (4 + Z.of_nat (length data) + q - insize s + inptr s) * 8) by lia. rewrite Z.mod_add by lia. apply Z.mod_small. lia. }
  assert (Z.of_nat (length pad) <= bk s) as Hle by (rewrite <- Ek; change 7 with (2 ^ 3 - 1); rewrite land_bits by lia; apply Z.mod_le; [apply (rd_k _ _ _ _ Hr)|lia]).
  pose proof (DUMPBITS_ok _ _ _ _ (Z.of_nat (length pad)) Hr ltac:(lia)) as H1. rewrite Nat2Z.id, drop_app_length in H1. unfold inflate_stored. rewrite Ek. unfold DUMPBITS.
  destruct (GETBITS_ok _ _ _ 16 n _ H1) as (s2 & b2 & k2 & -> & Ha2 & H2 & _); [lia|lia|]. cbn [mbind outcome_bind].
  destruct (NEEDBITS_ok _ _ _ _ 16 H2) as (s3 & b3 & k3 & -> & Ha3 & H3 & Hk3 & _); [lia|rewrite length_app, length_lsb; lia|]. cbn [mbind outcome_bind].
  destruct (reader_take s3 b3 k3 16 (0xffff - n) _ H3 ltac:(lia) ltac:(lia)) as [E3 H4]. pose proof (lnot_low b3 16 _ ltac:(lia) E3) as E5. change (2 ^ 16 - 1) with 0xffff in E5. rewrite E5. replace (0xffff - (0xffff - n)) with n by lia. rewrite Z.eqb_refl. cbn [negb].
  pose proof (advanced_trans _ _ _ Ha2 Ha3) as Ha. replace (Z.to_nat n) with (length data) by lia. assert (outcnt s3 = outcnt s) as -> by (by rewrite Ha).
  pose proof (advanced_stable _ _ Ha) as Hst. destruct (stored_loop_ok data s3 (Z.shiftr b3 16) (k3 - 16) (outcnt s) rest O Hb H4) as (s6 & b6 & k6 & w6 & -> & Hst6 & Hr6 & Hp6 & Hw6); [by eapply advanced_produced|done|destruct Hst as (_ & _ & -> & _); done|].
  cbn [mbind outcome_bind]. eexists. split; [done|]. pose proof (stable_trans _ _ _ Hst Hst6) as Hs. split; [apply (stable_kept _ _ Hs)|]. split; cbn [bb bk outcnt hm set_bits set_wp].
  - by apply (reader_set s6).
  - destruct Hp6. by split.
  - done.
  - by destruct Hs as (_ & _ & _ & -> & _).
Qed.

(** ** Blocks with codes *)

(** The end of inflate_fixed and inflate_dynamic, with the tables of both codes made. *)
Lemma codes_block_ok fuel s m m1 t1 t2 tl bl bd lb db its rest O O' : ready s (enc_items lb db its ++ rest) O -> heap_ok m ->
  linked_tabs (tabs m) (nexttab m) m1 t1 -> head t1 = Some tl -> linked_tabs (tabs m1) (nexttab m1) (hm s) t2 -> codes_ready (hm s) tl (default NULL (head t2)) bl bd lb db ->
  forallb (item_ok lb db) its = true -> expand_items O its = Some O' -> 16 <= Z.of_nat (length rest) -> Z.of_nat (length O') <= room s -> (length its < fuel)%nat ->
  exists s', ('(r, s) ← inflate_codes fuel tl (default NULL (head t2)) bl bd s;
      if negb (r =? 0) then Ok (1, s) else m ← huft_free (hm s) tl; m ← huft_free m (default NULL (head t2)); Ok (0, set_hm s m)) = Ok (0, s') /\
    kept (set_hm s m) s' /\ ready s' rest O'.
Proof.
  intros [Hr Hp Hw Hh] Hm L1 Ht1 L2 Hc Hok Hx Hl Hroom Hf. unfold inflate_codes.
  destruct (codes_loop_ok tl (default NULL (head t2)) bl bd lb db its fuel s (bb s) (bk s) (outcnt s) rest O O') as (s1 & b1 & k1 & w1 & -> & Hst & _ & Hr1 & Hp1 & Hw1); [done..|]. cbn [mbind outcome_bind]. change (negb (0 =? 0)) with false. cbv iota. cbn [hm set_wp set_bits].
  pose proof Hst as (E1 & E2 & E3 & E4 & E5 & E6). rewrite E4. destruct (linked_undone m m1 (hm s) t1 t2 Hm L1 L2) as (D1 & D2 & D3).
  replace tl with (default NULL (head t1)) by (by rewrite Ht1). rewrite (huft_free_ok (hm s) t1 D1). cbn [mbind outcome_bind]. rewrite huft_free_ok by done. cbn [mbind outcome_bind tabs set_tabs]. rewrite D3.
  eexists. split; [done|]. split; [done|]. destruct (linked_extends m m1 t1 Hm L1) as [Hm1 _]. destruct L1 as [_ _ X1 _ _ _], L2 as [_ _ X2 _ _ A2]. destruct Hm as (M1 & M2 & _).
  split; cbn [bb bk outcnt hm set_hm set_wp set_bits]; [by apply (reader_set s1)|destruct Hp1; by split|done|].
  split; cbn [nexttab tabs answers set_tabs]; [lia|]. split; [|done]. intros T HT. apply M2. lia.
Qed.

Lemma full_true b : full b = true <-> kraft b = 2 ^ 16.
Proof. unfold full. apply Z.eqb_eq. Qed.

Lemma kraft_some b : Forall (Z.le 0) b -> 0 < kraft b -> exists i k, b !! i = Some k /\ 1 <= k.
Proof.
  induction 1 as [|x b Hx Hb IH]; [by cbn|]. change (kraft (x :: b)) with ((if x =? 0 then 0 else 2 ^ (16 - x)) + kraft b). intros H. destruct (Z.eqb_spec x 0) as [->|Hne].
  - destruct (IH ltac:(lia)) as (i & k & Hi & Hk). by exists (S i), k.
  - exists 0%nat, x. split; [done|lia].
Qed.

(** The values that the first [n] symbols need are in the tables. *)
Definition vals_ok (n s : Z) (d e : list Z) : bool :=
  forallb (fun i => (i <? s) || ((i - s <? Z.of_nat (length d)) && match e !! Z.to_nat (i - s) with Some x => ((0 <=? x) && (x <=? 13)) || (x =? 99) | None => false end)) (seqZ 0 n).

Lemma vals_ok_true n b s d e : vals_ok n s d e = true -> Z.of_nat (length b) <= n -> forall i k, b !! i = Some k -> 1 <= k -> s <= Z.of_nat i ->
  Z.of_nat i - s < Z.of_nat (length d) /\ exists x, e !! Z.to_nat (Z.of_nat i - s) = Some x /\ (0 <= x <= 13 \/ x = 99).
Proof.
  intros H Hn i k Hi _ Hs. unfold vals_ok in H. rewrite forallb_forall in H. specialize (H (Z.of_nat i)). rewrite <- list_elem_of_In, elem_of_seqZ in H. apply lookup_lt_Some in Hi. specialize (H ltac:(lia)).
  rewrite (proj2 (Z.ltb_ge _ _)) in H by lia. cbn [orb] in H. apply andb_true_iff in H as [H1%Z.ltb_lt H2]. split; [done|]. destruct (e !! Z.to_nat (Z.of_nat i - s)) as [x|]; [|done]. exists x. split; [done|].
  rewrite orb_true_iff, andb_true_iff, !Z.leb_le, Z.eqb_eq in H2. lia.
Qed.

(** Complete codes can be built if all lengths are at most [2 * m], or the symbols are few. *)
Lemma full_buildable n b s d e m : vals_ok n s d e = true -> Z.of_nat (length b) <= n -> n <= 288 -> Forall (fun x => 0 <= x <= 15) b -> full b = true -> 1 <= m <= 16 ->
  Forall (fun x => x <= 2 * m) b \/ Z.of_nat (length b) < 2 ^ m -> buildable b s d e m.
Proof.
  intros Hv Hl Hn Hb Hf%full_true Hm Hs. split; try done; try lia.
  - eapply Forall_impl; [exact Hb|]. cbv beta. lia.
  - apply kraft_some; [|lia]. eapply Forall_impl; [exact Hb|]. cbv beta. lia.
  - destruct Hs as [Hs|Hs]; [by left|by right].
  - by apply (vals_ok_true n).
Qed.

Lemma Forall_check {A} (f : A -> bool) (P : A -> Prop) l : (forall x, f x = true -> P x) -> forallb f l = true -> Forall P l.
Proof. intros Hf H. apply Forall_forall. intros x Hx. apply Hf. rewrite forallb_forall in H. apply H. by apply list_elem_of_In. Qed.

Lemma range_check lo hi l : forallb (fun x => (lo <=? x) && (x <=? hi)) l = true -> Forall (fun x => lo <= x <= hi) l.
Proof. apply Forall_check. intros x. by rewrite andb_true_iff, !Z.leb_le. Qed.

(** ** The fixed codes *)

Lemma fixed_buildable : buildable fixed_lit 257 cplens cplext 7.
Proof.
  apply (full_buildable 288); try (by vm_compute); [apply range_check; by vm_compute|]. left. apply (Forall_check (fun x => x <=? 14)); [intros x; apply Z.leb_le|by vm_compute].
Qed.

Lemma fixed_dist_buildable : buildable fixed_dist 0 cpdist cpdext 5.
Proof.
  split; try (by vm_compute).
  - cbn. lia.
  - eapply Forall_impl; [apply (range_check 5 5); by vm_compute|]. cbv beta. lia.
  - exists 0%nat, 5. split; [done|lia].
  - right. by vm_compute.
  - left. eapply Forall_impl; [apply (range_check 5 5); by vm_compute|]. cbv beta. lia.
  - apply (vals_ok_true 30); by vm_compute.
Qed.

(** ** The lengths of the codes *)

Lemma put_nth (l : list Z) i x : 0 <= i < Z.of_nat (length l) -> put l i x = Ok (<[Z.to_nat i := x]> l).
Proof. intros H. by apply put_ok. Qed.

Lemma take_put (l : list Z) i x : 0 <= i < Z.of_nat (length l) -> take (Z.to_nat (i + 1)) (<[Z.to_nat i := x]> l) = take (Z.to_nat i) l ++ [x].
Proof.
  intros H. replace (Z.to_nat (i + 1)) with (S (Z.to_nat i)) by lia. rewrite (take_S_r _ _ x) by (apply list_lookup_insert_eq; lia). by rewrite take_insert_ge by lia.
Qed.

Lemma put_run_ok j : forall ll i x, 0 <= i -> i + Z.of_nat j <= Z.of_nat (length ll) ->
  exists ll', put_run j ll i x = Ok ll' /\ length ll' = length ll /\ take (Z.to_nat (i + Z.of_nat j)) ll' = take (Z.to_nat i) ll ++ replicate j x.
Proof.
  induction j as [|j IH]; intros ll i x Hi Hl; cbn [put_run]; [exists ll; rewrite Z.add_0_r, app_nil_r; done|]. rewrite put_nth by lia. cbn [mbind outcome_bind].
  destruct (IH (<[Z.to_nat i := x]> ll) (i + 1) x) as (ll' & -> & El & Et); [lia|rewrite length_insert; lia|]. exists ll'. split; [done|]. rewrite length_insert in El. split; [done|].
  replace (i + Z.of_nat (S j)) with (i + 1 + Z.of_nat j) by lia. rewrite Et, take_put by lia. by rewrite <- app_assoc.
Qed.

Lemma read_bl_ok cl o : forall nb ll s b k rest, Forall (fun x => 0 <= x <= 7) cl -> Forall (fun i => 0 <= i < 19) o -> length ll = 316%nat ->
  forallb (fun i => nth (Z.to_nat i) cl 0 =? 0) (drop nb o) = true -> reader s b k ((take nb o ≫= fun i => lsb 3 (nth (Z.to_nat i) cl 0)) ++ rest) ->
  exists ll' s' b' k', read_bl o nb ll s b k = Ok (ll', s', b', k') /\ advanced s s' /\ reader s' b' k' rest /\ length ll' = 316%nat /\
    forall j, Z.of_nat j ∈ o \/ ll !! j = Some (nth j cl 0) -> ll' !! j = Some (nth j cl 0).
Proof.
  intros nb ll s b k rest Hcl. revert nb ll s b k rest. induction o as [|i o IH]; intros nb ll s b k rest Ho Hl Hz H; cbn [read_bl].
  - exists ll, s, b, k. rewrite take_nil in H. split; [done|]. split; [done|]. split; [done|]. split; [done|]. intros j [Hj|Hj]; [by apply not_elem_of_nil in Hj|done].
  - apply Forall_cons in Ho as [Hi Ho].
    assert (forall (ll' : list Z) j, (forall j, Z.of_nat j ∈ o \/ <[Z.to_nat i := nth (Z.to_nat i) cl 0]> ll !! j = Some (nth j cl 0) -> ll' !! j = Some (nth j cl 0)) -> Z.of_nat j ∈ i :: o \/ ll !! j = Some (nth j cl 0) -> ll' !! j = Some (nth j cl 0)) as Hput.
    { intros ll' j Hall Hj. apply Hall. destruct (decide (j = Z.to_nat i)) as [->|Hne]; [right; apply list_lookup_insert_eq; lia|]. rewrite list_lookup_insert_ne by done. rewrite elem_of_cons in Hj. destruct Hj as [[Hj|Hj]|Hj]; [lia|by left|by right]. }
    destruct nb as [|nb].
    + cbn [drop forallb] in Hz. apply andb_true_iff in Hz as [Hz0%Z.eqb_eq Hz]. rewrite put_nth by lia. cbn [mbind outcome_bind]. rewrite Hz0 in Hput.
      destruct (IH O (<[Z.to_nat i := 0]> ll) s b k rest Ho) as (ll' & s' & b' & k' & E & Ha & Hr & El & Hall); [by rewrite length_insert|done|by rewrite take_0|]. exists ll', s', b', k'. split_and!; try done. intros j. by apply Hput.
    + cbn [drop] in Hz. cbn [take] in H. rewrite bind_cons, <- app_assoc in H. assert (0 <= nth (Z.to_nat i) cl 0 <= 7) as Hx by (rewrite nth_lookup; destruct (cl !! Z.to_nat i) eqn:E; cbn; [by apply (proj1 (Forall_lookup _ _) Hcl) in E|lia]).
      destruct (GETBITS_ok s b k 3 _ _ H) as (s1 & b1 & k1 & -> & Ha1 & H1 & _); [lia|lia|]. cbn [mbind outcome_bind]. rewrite put_nth by lia. cbn [mbind outcome_bind].
      destruct (IH nb (<[Z.to_nat i := nth (Z.to_nat i) cl 0]> ll) s1 b1 k1 rest Ho) as (ll' & s' & b' & k' & E & Ha & Hr & El & Hall); [by rewrite length_insert|done|done|]. exists ll', s', b', k'. split; [done|]. split; [by eapply advanced_trans|]. split_and!; try done. intros j. by apply Hput.
Qed.

(** The lengths of the code for the lengths come back. *)
Lemma read_cl_ok cl nb s b k rest : length cl = 19%nat -> Forall (fun x => 0 <= x <= 7) cl -> forallb (fun i => nth (Z.to_nat i) cl 0 =? 0) (drop nb cl_order) = true ->
  reader s b k ((take nb cl_order ≫= fun i => lsb 3 (nth (Z.to_nat i) cl 0)) ++ rest) ->
  exists ll s' b' k', read_bl border nb (replicate 316 0) s b k = Ok (ll, s', b', k') /\ advanced s s' /\ reader s' b' k' rest /\ length ll = 316%nat /\ take 19 ll = cl.
Proof.
  intros Hl Hcl Hz H. destruct (read_bl_ok cl cl_order nb (replicate 316 0) s b k rest Hcl) as (ll & s' & b' & k' & E & Ha & Hr & El & Hall); [|by rewrite length_replicate|done|done|].
  { eapply Forall_impl; [apply (range_check 0 18); by vm_compute|]. cbv beta. lia. }
  exists ll, s', b', k'. split; [done|]. split; [done|]. split; [done|]. split; [done|]. apply list_eq_same_length with 19%nat; [done|rewrite length_take; lia|].
  intros i x y Hi Hx Hy. rewrite lookup_take_lt in Hx by done. rewrite Hall in Hx; [rewrite nth_lookup, Hy in Hx; by injection Hx|]. left. assert (Z.of_nat i ∈ seqZ 0 19) as Hin by (apply elem_of_seqZ; lia). revert Hin. generalize (Z.of_nat i).
  apply Forall_forall. apply (Forall_check (fun z => bool_decide (z ∈ cl_order))); [intros z; apply bool_decide_eq_true|by vm_compute].
Qed.

(** How many lengths a run is, and which symbol it is written with. *)
Definition run_len (r : run) : Z := match r with Len _ => 1 | Same n | Zeros n | ManyZeros n => n end.
Definition run_last (last : Z) (r : run) : Z := match r with Len x => x | Same _ => last | _ => 0 end.

Lemma expand_runs_cons last r rs : 0 <= run_len r -> expand_runs last (r :: rs) = replicate (Z.to_nat (run_len r)) (run_last last r) ++ expand_runs (run_last last r) rs.
Proof. by destruct r. Qed.

Lemma run_ok_len cl r : run_ok cl r = true -> 1 <= run_len r.
Proof. destruct r; cbn [run_ok run_len]; rewrite ?andb_true_iff, ?Z.leb_le; lia. Qed.

Lemma expand_runs_range cl rs : forall last, forallb (run_ok cl) rs = true -> 0 <= last <= 15 -> Forall (fun x => 0 <= x <= 15) (expand_runs last rs).
Proof.
  induction rs as [|r rs IH]; intros last H Hl; [done|]. cbn [forallb] in H. apply andb_true_iff in H as [Hr H]. pose proof (run_ok_len cl r Hr) as Hlen.
  assert (0 <= run_last last r <= 15) as Hlast.
  { destruct r as [x|n|n|n]; cbn [run_last]; [|lia..]. cbn [run_ok] in Hr. unfold has_code in Hr. rewrite !andb_true_iff, !Z.leb_le in Hr. lia. }
  rewrite expand_runs_cons by lia. apply Forall_app_2; [by apply Forall_replicate|by apply IH].
Qed.

Section Lengths.
Context (m : hmem) (cl : list Z) (tl bl n : Z).
Context (Ht : table_ok (tabs m) tl bl cl 19 [] []) (Hbl : 1 <= bl <= 16) (Hle : Forall (fun x => x <= bl) cl) (Hn : n <= 316).

Lemma cl_symbol j : 0 <= j < 19 -> sym_entry 19 [] [] j = (16, Vn j).
Proof. intros Hj. unfold sym_entry. by rewrite !(proj2 (Z.ltb_lt j _)) by lia. Qed.

(** One turn: a run is read, and its lengths are stored. *)
Lemma read_run_ok fuel r ll i last s b k rest : hm s = m -> run_ok cl r = true -> reader s b k (enc_run cl r ++ rest) -> 16 <= Z.of_nat (length rest) -> 0 <= i -> i + run_len r <= n -> length ll = 316%nat ->
  exists ll' s' b' k', read_lens (S fuel) tl bl n ll i last s b k = read_lens fuel tl bl n ll' (i + run_len r) (run_last last r) s' b' k' /\ advanced s s' /\ reader s' b' k' rest /\ length ll' = 316%nat /\
    take (Z.to_nat (i + run_len r)) ll' = take (Z.to_nat i) ll ++ replicate (Z.to_nat (run_len r)) (run_last last r).
Proof.
  intros Hm Hr H Hl Hi Hin Hll. pose proof (run_ok_len cl r Hr) as Hlen. rewrite <- Hm in Ht. cbn [read_lens]. rewrite (proj2 (Z.ltb_lt i n)) by lia.
  assert (exists j x w, enc_run cl r = code_bits cl j ++ lsb (Z.to_nat w) x /\ has_code cl j = true /\ 0 <= j < 19 /\ 0 <= x < 2 ^ w /\
     ((j < 16 /\ r = Len j /\ w = 0) \/ (16 <= j /\ w = (if j =? 16 then 2 else if j =? 17 then 3 else 7) /\ run_len r = (if j =? 18 then 11 else if (j =? 16) || (j =? 17) then 3 else 11) + x /\ run_last last r = if j =? 16 then last else 0))) as (j & x & w & Ee & Hc & Hj & Hx & Hcase).
  { destruct r as [y|y|y|y]; cbn [run_ok] in Hr; rewrite !andb_true_iff, !Z.leb_le in Hr.
    - exists y, 0, 0. cbn [enc_run lsb Z.to_nat]. rewrite app_nil_r. destruct Hr as [Hy Hc]. pose proof (proj1 (andb_prop _ _ Hc)) as H0%Z.leb_le. split_and!; try done; try lia. left. split_and!; [lia|done|done].
    - exists 16, (y - 3), 2. split_and!; try done; try apply Hr; try lia. right. split_and!; try done. cbn. lia.
    - exists 17, (y - 3), 3. split_and!; try done; try apply Hr; try lia. right. split_and!; try done. cbn. lia.
    - exists 18, (y - 11), 7. split_and!; try done; try apply Hr; try lia. right. split_and!; try done. cbn. lia. }
  rewrite Ee, <- app_assoc in H. destruct (lookup_ok s b k tl bl cl j 19 [] [] _ Ht Hbl Hle Hc H) as (e & s1 & b1 & k1 & -> & E1 & Er & Ha1 & H1); [rewrite length_app; lia|]. cbn [mbind outcome_bind]. rewrite mask_ok by lia. cbn [mbind outcome_bind]. rewrite E1. cbn [mbind outcome_bind].
  rewrite cl_symbol in Er by lia. injection Er as _ Ev. unfold DUMPBITS at 1. assert (value_of e = Ok j) as -> by (unfold value_of; by rewrite Ev). cbn [mbind outcome_bind].
  destruct Hcase as [(Hj16 & -> & ->)|(Hj16 & Ew & El & Ela)].
  - rewrite (proj2 (Z.ltb_lt j 16)) by lia. cbn [run_len run_last] in *. rewrite put_nth by lia. cbn [mbind outcome_bind]. eexists _, s1, _, _. split; [done|]. split; [done|]. split; [done|]. split; [by rewrite length_insert|]. by apply take_put; lia.
  - rewrite (proj2 (Z.ltb_ge j 16)) by lia. rewrite <- Ew. destruct (GETBITS_ok s1 _ _ w x rest H1) as (s2 & b2 & k2 & -> & Ha2 & H2 & _); [rewrite Ew; destruct (j =? 16), (j =? 17); lia|done|]. cbn [mbind outcome_bind]. rewrite <- El, <- Ela. rewrite (proj2 (Z.ltb_ge n _)) by lia.
    destruct (put_run_ok (Z.to_nat (run_len r)) ll i (run_last last r)) as (ll' & -> & El' & Et'); [lia|lia|]. cbn [mbind outcome_bind]. rewrite Z2Nat.id in Et' by lia. exists ll', s2, b2, k2. split; [done|]. split; [by eapply advanced_trans|]. split; [done|]. split; [lia|done].
Qed.

Lemma read_lens_ok rs : forall fuel ll i last s b k rest D, hm s = m -> forallb (run_ok cl) rs = true -> reader s b k ((rs ≫= enc_run cl) ++ rest) -> 16 <= Z.of_nat (length rest) -> 0 <= i ->
  i + Z.of_nat (length (expand_runs last rs)) = n -> length ll = 316%nat -> take (Z.to_nat i) ll = D -> (length rs < fuel)%nat ->
  exists ll' s' b' k', read_lens fuel tl bl n ll i last s b k = Ok (Some ll', s', b', k') /\ advanced s s' /\ reader s' b' k' rest /\ length ll' = 316%nat /\ take (Z.to_nat n) ll' = D ++ expand_runs last rs.
Proof.
  induction rs as [|r rs IH]; intros fuel ll i last s b k rest D Hm Hok H Hl Hi Hin Hll HD Hf; (destruct fuel as [|fuel]; [lia|]).
  - cbn [expand_runs length] in Hin. cbn [read_lens]. rewrite (proj2 (Z.ltb_ge i n)) by lia. exists ll, s, b, k. cbn [expand_runs]. rewrite app_nil_r. replace n with i by lia. done.
  - cbn [forallb] in Hok. apply andb_true_iff in Hok as [Hr Hok]. pose proof (run_ok_len cl r Hr) as Hlen. rewrite expand_runs_cons in Hin by lia. rewrite length_app, length_replicate in Hin. rewrite bind_cons, <- app_assoc in H. cbn [length] in Hf.
    destruct (read_run_ok fuel r ll i last s b k _ Hm Hr H) as (ll1 & s1 & b1 & k1 & -> & Ha1 & H1 & El1 & Et1); [rewrite length_app; lia|lia|lia|done|].
    destruct (IH fuel ll1 (i + run_len r) (run_last last r) s1 b1 k1 rest (D ++ replicate (Z.to_nat (run_len r)) (run_last last r))) as (ll2 & s2 & b2 & k2 & E & Ha2 & H2 & El2 & Et2); try done; try lia.
    { by rewrite Ha1. } { by rewrite Et1, HD. }
    exists ll2, s2, b2, k2. split; [done|]. split; [by eapply advanced_trans|]. split; [done|]. split; [done|]. rewrite expand_runs_cons by lia. by rewrite Et2, <- app_assoc.
Qed.
End Lengths.

Lemma linked_nil m : heap_ok m -> linked_tabs (tabs m) (nexttab m) m [].
Proof. intros (_ & _ & Hm). split; [constructor|intros T HT; by apply not_elem_of_nil in HT|lia|done|done|done]. Qed.

(** The tables of one code are made, used, and given back. *)
Lemma free_one m m1 t1 : heap_ok m -> linked_tabs (tabs m) (nexttab m) m1 t1 -> exists m', huft_free m1 (default NULL (head t1)) = Ok m' /\ tabs m' = tabs m /\ heap_ok m'.
Proof.
  intros Hm L1. destruct (linked_extends _ _ _ Hm L1) as [Hm1 _]. destruct (linked_undone m m1 m1 t1 [] Hm L1 (linked_nil m1 Hm1)) as (D1 & _ & D3). rewrite (huft_free_ok m1 t1 D1). eexists. split; [done|]. cbn [without foldr] in D3. cbn [tabs set_tabs]. split; [done|].
  destruct Hm as (M1 & M2 & _), L1 as [_ _ X1 _ _ A1]. split; cbn [nexttab tabs answers set_tabs]; [lia|]. split; [|done]. intros T HT. unfold without in *. rewrite D3. apply M2. lia.
Qed.

Section Blocks.
Context (junk : list Z) (Hjunk : length junk = 288%nat).

Lemma inflate_fixed_ok fuel s its rest O O' : ready s (enc_items fixed_lit fixed_dist its ++ rest) O -> forallb (item_ok fixed_lit fixed_dist) its = true -> expand_items O its = Some O' ->
  16 <= Z.of_nat (length rest) -> Z.of_nat (length O') <= room s -> (length its < fuel)%nat -> exists s', inflate_fixed junk fuel s = Ok (0, s') /\ kept s s' /\ ready s' rest O'.
Proof.
  intros [Hr Hp Hw Hh] Hok Hx Hl Hroom Hf. unfold inflate_fixed. change fixed_lengths with fixed_lit.
  destruct (huft_build_ok junk fixed_lit 257 cplens cplext NULL 7 (hm s) fixed_buildable Hjunk Hh) as (tl & bl & m1 & t1 & -> & Hbl & _ & Ht1 & L1 & Hd1). cbn [mbind outcome_bind].
  assert ((kraft fixed_lit <? 2 ^ 16) = false) as -> by (by vm_compute). cbn [andb]. change (negb (0 =? 0)) with false. cbv iota. cbn [hm set_hm]. destruct (linked_extends _ _ _ Hh L1) as [Hh1 _].
  destruct (huft_build_ok junk fixed_dist 0 cpdist cpdext NULL 5 m1 fixed_dist_buildable Hjunk Hh1) as (td & bd & m2 & t2 & E2 & Hbd & _ & Ht2 & L2 & Hd2). change (replicate 30 5) with fixed_dist. rewrite E2. cbn [mbind outcome_bind].
  assert ((kraft fixed_dist <? 2 ^ 16) && existsb (fun x => 1 <? x) fixed_dist = true) as -> by (by vm_compute). change (1 <? 1) with false. cbv iota. change (set_hm (set_hm s m1) m2) with (set_hm s m2).
  assert (td = default NULL (head t2)) as -> by (by rewrite Hd2). destruct (linked_extends _ _ _ Hh1 L2) as [Hh2 Hmono].
  assert (ready (set_hm s m2) (enc_items fixed_lit fixed_dist its ++ rest) O) as Hre0 by (split; [by apply (reader_set s)|destruct Hp; by split|exact Hw|exact Hh2]).
  assert (codes_ready m2 tl (default NULL (head t2)) bl bd fixed_lit fixed_dist) as Hcr by (split; [by apply (table_ok_mono (tabs m1))|exact Hbl|by vm_compute|exact Ht2|intros _; exact Hbd]).
  destruct (codes_block_ok fuel (set_hm s m2) (hm s) m1 t1 t2 tl bl bd fixed_lit fixed_dist its rest O O' Hre0 Hh L1 Hd1 L2 Hcr Hok Hx Hl Hroom Hf) as (s' & E & Hk & Hre).
  exists s'. split; [exact E|]. split; [|exact Hre]. by destruct s.
Qed.

(** ** Codes of the block's own *)

(** The conditions on the head of a block. *)
Record header_sound (h : header) : Prop := {
  hs_nl : 257 <= h_nl h <= 286; hs_nd : 1 <= h_nd h <= 30; hs_nb : 4 <= h_nb h <= 19; hs_cl : length (h_cl h) = 19%nat; hs_range : Forall (fun x => 0 <= x <= 7) (h_cl h); hs_full : full (h_cl h) = true;
  hs_zero : forallb (fun i => nth (Z.to_nat i) (h_cl h) 0 =? 0) (drop (Z.to_nat (h_nb h)) cl_order) = true; hs_runs : forallb (run_ok (h_cl h)) (h_runs h) = true;
  hs_len : Z.of_nat (length (h_lens h)) = h_nl h + h_nd h; hs_lit : full (h_lit h) = true; hs_end : has_code (h_lit h) 256 = true;
  hs_dist : full (h_dist h) || bool_decide (h_dist h = [1]) || forallb (Z.eqb 0) (h_dist h) = true }.

Lemma header_ok_sound h : header_ok h = true -> header_sound h.
Proof.
  unfold header_ok. rewrite !andb_true_iff. intros [[[[[[[[[[[[[[H1%Z.leb_le H2%Z.leb_le] H3%Z.leb_le] H4%Z.leb_le] H5%Z.leb_le] H6%Z.leb_le] H7%Z.eqb_eq] H8] H9] H10] H11] H12%Z.eqb_eq] H13] H14] H15].
  split; try done; try lia. by apply range_check.
Qed.

Lemma header_lengths h : header_sound h -> Z.of_nat (length (h_lit h)) = h_nl h /\ Z.of_nat (length (h_dist h)) = h_nd h /\ h_lit h ++ h_dist h = h_lens h /\ Forall (fun x => 0 <= x <= 15) (h_lens h).
Proof.
  intros []. unfold h_lit, h_dist. rewrite length_take, length_drop. split; [lia|]. split; [lia|]. split; [apply take_drop|]. unfold h_lens. by apply (expand_runs_range (h_cl h)).
Qed.

Lemma length_runs cl rs : forall last, forallb (run_ok cl) rs = true -> (length rs <= length (expand_runs last rs))%nat.
Proof.
  induction rs as [|r rs IH]; intros last H; [done|]. cbn [forallb] in H. apply andb_true_iff in H as [Hr H]. pose proof (run_ok_len cl r Hr). rewrite expand_runs_cons by lia. rewrite length_app, length_replicate. specialize (IH (run_last last r) H). cbn [length]. lia.
Qed.

Lemma huft_build_none b sx d e tr m hm : forallb (Z.eqb 0) b = true -> huft_build junk b sx d e tr m hm = Ok (0, NULL, 0, hm).
Proof.
  intros Hz. assert (Forall (fun x => x = 0) b) as Hb by (revert Hz; apply Forall_check; intros x E%Z.eqb_eq; done). unfold huft_build. destruct (counts_ok b (replicate 17 0)) as (c & -> & Hl & Hc); [eapply Forall_impl; [exact Hb|]; cbv beta; lia|done|]. cbn [mbind outcome_bind].
  rewrite Hc by lia. assert (cnt (Z.of_nat 0) b = Z.of_nat (length b)) as -> by (clear - Hb; induction Hb as [|x b -> Hb IH]; [done|]; rewrite cnt_cons, decide_True by done; cbn [length]; lia).
  change (nth 0 (replicate 17 0) 0 + Z.of_nat (length b)) with (0 + Z.of_nat (length b)). rewrite Z.add_0_l, Z.eqb_refl. done.
Qed.

(** The code for the distances, which may be missing. *)
Lemma dist_build_ok db m1 : heap_ok m1 -> (length db <= 30)%nat -> Forall (fun x => 0 <= x <= 15) db -> full db || bool_decide (db = [1]) || forallb (Z.eqb 0) db = true ->
  exists bd m2 t2, huft_build junk db 0 cpdist cpdext NULL dbits m1 = Ok (0, default NULL (head t2), bd, m2) /\ linked_tabs (tabs m1) (nexttab m1) m2 t2 /\
    table_ok (tabs m2) (default NULL (head t2)) bd db 0 cpdist cpdext /\ ((exists i, has_code db i = true) -> 1 <= bd <= 16).
Proof.
  intros Hh Hl Hb Hd. rewrite !orb_true_iff in Hd.
  assert (buildable db 0 cpdist cpdext dbits /\ (kraft db <? 2 ^ 16) && existsb (fun x => 1 <? x) db = false \/ forallb (Z.eqb 0) db = true) as [[Hbu Ek]|Hz].
  { destruct Hd as [[Hf|H1%bool_decide_eq_true]|Hz]; [left|left|by right].
    - split; [apply (full_buildable 30); try done; try lia; right; unfold dbits; change (2 ^ 6) with 64; lia|]. apply full_true in Hf. by rewrite (proj2 (Z.ltb_ge _ _)) by lia.
    - subst db. split; [|done]. split; try (by vm_compute); [cbn; lia|constructor; [lia|constructor]|exists 0%nat, 1; split; [done|lia]|right; by vm_compute|left; constructor; [by vm_compute|constructor]|apply (vals_ok_true 30); by vm_compute]. }
  - destruct (huft_build_ok junk db 0 cpdist cpdext NULL dbits m1 Hbu Hjunk Hh) as (td & bd & m2 & t2 & E & Hbd & _ & Ht & L & Hhd). rewrite Ek in E. exists bd, m2, t2. rewrite Hhd. cbn [default from_option id]. done.
  - exists 0, m1, []. rewrite huft_build_none by done. split; [done|]. assert (forall i k, db !! i = Some k -> k = 0) as H0.
    { intros i k Hi. rewrite forallb_forall in Hz. specialize (Hz k). apply Z.eqb_eq in Hz; [done|]. apply list_elem_of_In. by eapply list_elem_of_lookup_2. }
    split; [|split].
    + by apply linked_nil.
    + intros i k Hi Hk. apply H0 in Hi. lia.
    + intros [i Hi]. unfold has_code in Hi. apply andb_true_iff in Hi as [_ Hi%Z.leb_le]. rewrite nth_lookup in Hi. destruct (db !! Z.to_nat i) as [k|] eqn:E; cbn in Hi; [apply H0 in E|]; lia.
Qed.

Lemma dynamic_codes_ok fuel s lb db ll its rest O O' : ready s (enc_items lb db its ++ rest) O -> (length lb <= 286)%nat -> (length db <= 30)%nat -> Forall (fun x => 0 <= x <= 15) lb -> Forall (fun x => 0 <= x <= 15) db ->
  full lb = true -> has_code lb 256 = true -> full db || bool_decide (db = [1]) || forallb (Z.eqb 0) db = true -> take (length lb + length db) ll = lb ++ db ->
  forallb (item_ok lb db) its = true -> expand_items O its = Some O' -> 16 <= Z.of_nat (length rest) -> Z.of_nat (length O') <= room s -> (length its < fuel)%nat ->
  exists s', dynamic_codes junk fuel (Z.of_nat (length lb)) (Z.of_nat (length db)) ll s = Ok (0, s') /\ kept s s' /\ ready s' rest O'.
Proof.
  intros [Hr Hp Hw Hh] Hll Hld Hlb Hdb Hfull Hend Hdist Hll' Hok Hx Hl Hroom Hf. unfold dynamic_codes. rewrite !Nat2Z.id.
  assert (take (length lb) ll = lb) as -> by (replace (take (length lb) ll) with (take (length lb) (take (length lb + length db) ll)) by (rewrite take_take; f_equal; lia); by rewrite Hll', take_app_length).
  assert (take (length db) (drop (length lb) ll) = db) as -> by (rewrite take_drop_commute, Hll', drop_app_length; done).
  destruct (huft_build_ok junk lb 257 cplens cplext NULL lbits (hm s)) as (tl & bl & m1 & t1 & -> & Hbl & _ & Ht1 & L1 & Hd1); [|done|done|].
  { apply (full_buildable 286); try done; try lia. left. eapply Forall_impl; [exact Hlb|]. cbv beta. unfold lbits. lia. }
  cbn [mbind outcome_bind]. rewrite (proj2 (Z.ltb_ge (kraft lb) (2 ^ 16))) by (apply full_true in Hfull; lia). cbn [andb]. change (negb (0 =? 0)) with false. cbv iota. destruct (linked_extends _ _ _ Hh L1) as [Hh1 _].
  destruct (dist_build_ok db m1 Hh1 Hld Hdb Hdist) as (bd & m2 & t2 & -> & L2 & Ht2 & Hbd). cbn [mbind outcome_bind]. change (negb (0 =? 0)) with false. cbv iota. destruct (linked_extends _ _ _ Hh1 L2) as [Hh2 Hmono].
  assert (ready (set_hm s m2) (enc_items lb db its ++ rest) O) as Hre0 by (split; [by apply (reader_set s)|destruct Hp; by split|exact Hw|exact Hh2]).
  assert (codes_ready m2 tl (default NULL (head t2)) bl bd lb db) as Hcr by (split; [by apply (table_ok_mono (tabs m1))|exact Hbl|exact Hend|exact Ht2|exact Hbd]).
  destruct (codes_block_ok fuel (set_hm s m2) (hm s) m1 t1 t2 tl bl bd lb db its rest O O' Hre0 Hh L1 Hd1 L2 Hcr Hok Hx Hl Hroom Hf) as (s' & E & Hk & Hre).
  exists s'. split; [exact E|]. split; [|exact Hre]. by destruct s.
Qed.

Lemma inflate_dynamic_ok fuel s h its rest O O' : ready s (enc_header h ++ enc_items (h_lit h) (h_dist h) its ++ rest) O -> header_sound h -> forallb (item_ok (h_lit h) (h_dist h)) its = true -> expand_items O its = Some O' ->
  16 <= Z.of_nat (length rest) -> Z.of_nat (length O') <= room s -> (length its < fuel)%nat -> exists s', inflate_dynamic junk fuel s = Ok (0, s') /\ kept s s' /\ ready s' rest O'.
Proof.
  intros Hre Hs Hok Hx Hl Hroom Hf. pose proof Hre as [Hr Hp Hw Hh]. pose proof Hs as [S1 S2 S3 S4 S5 S6 S7 S8 S9 S10 S11 S12]. destruct (header_lengths h Hs) as (El & Ed & Eld & Hrange). unfold enc_header in Hr. rewrite <- !app_assoc in Hr. unfold inflate_dynamic.
  destruct (GETBITS_ok _ _ _ 5 _ _ Hr) as (s1 & b1 & k1 & -> & Ha1 & H1 & _); [lia|lia|]. cbn [mbind outcome_bind]. replace (257 + (h_nl h - 257)) with (h_nl h) by lia.
  destruct (GETBITS_ok _ _ _ 5 _ _ H1) as (s2 & b2 & k2 & -> & Ha2 & H2 & _); [lia|lia|]. cbn [mbind outcome_bind]. replace (1 + (h_nd h - 1)) with (h_nd h) by lia.
  destruct (GETBITS_ok _ _ _ 4 _ _ H2) as (s3 & b3 & k3 & -> & Ha3 & H3 & _); [lia|lia|]. cbn [mbind outcome_bind]. replace (4 + (h_nb h - 4)) with (h_nb h) by lia. rewrite (proj2 (Z.ltb_ge 286 _)), (proj2 (Z.ltb_ge 30 _)) by lia. cbn [orb].
  destruct (read_cl_ok (h_cl h) _ _ _ _ _ S4 S5 S7 H3) as (ll & s4 & b4 & k4 & -> & Ha4 & H4 & Ell & Ecl). cbn [mbind outcome_bind]. rewrite Ecl.
  assert (advanced s s4) as Ha by (do 3 (eapply advanced_trans; [eassumption|]); done). pose proof (advanced_stable _ _ Ha) as Hst. assert (hm s4 = hm s) as Ehm by apply Hst. rewrite Ehm.
  destruct (huft_build_ok junk (h_cl h) 19 [] [] NULL 7 (hm s)) as (tl & bl & m1 & t1 & -> & Hbl & Hle & Ht1 & L1 & Hd1); [|done|done|].
  { apply (full_buildable 19); try done; try lia. eapply Forall_impl; [exact S5|]. cbv beta. lia. }
  cbn [mbind outcome_bind]. rewrite (proj2 (Z.ltb_ge (kraft (h_cl h)) (2 ^ 16))) by (apply full_true in S6; lia). cbn [andb]. change (negb (0 =? 0)) with false. cbv iota.
  assert (Forall (fun x => x <= bl) (h_cl h)) as Hle' by (apply Hle; eapply Forall_impl; [exact S5|]; cbv beta; lia). pose proof (length_runs _ _ 0 S8) as Hlr. fold (h_lens h) in Hlr.
  destruct (read_lens_ok m1 (h_cl h) tl bl (h_nl h + h_nd h) Ht1 Hbl Hle' ltac:(lia) (h_runs h) (S (Z.to_nat (h_nl h + h_nd h))) ll 0 0 (set_hm s4 m1) b4 k4 (enc_items (h_lit h) (h_dist h) its ++ rest) [])
    as (ll' & s5 & b5 & k5 & -> & Ha5 & H5 & Ell' & Et); [done|done|by apply (reader_set s4)|rewrite length_app; lia|lia|exact S9|done|done|lia|]. cbn [mbind outcome_bind].
  assert (hm s5 = m1) as -> by (by rewrite Ha5). replace tl with (default NULL (head t1)) by (by rewrite Hd1). destruct (free_one (hm s) m1 t1 Hh L1) as (m' & -> & Etm & Hhm'). cbn [mbind outcome_bind].
  assert (stable (set_hm s4 m1) s5) as Hst5 by (by apply advanced_stable). assert (produced s5 (outcnt s) O) as Hp5 by (apply (advanced_produced (set_hm s4 m1)); [done|]; pose proof (advanced_produced _ _ _ _ Ha Hp) as []; by split).
  assert (outcnt s5 = outcnt s) as Eo by (rewrite Ha5; cbn [outcnt set_inp set_hm]; by rewrite Ha).
  assert (ready (set_bits (set_hm s5 m') b5 k5) (enc_items (h_lit h) (h_dist h) its ++ rest) O) as Hre5 by (split; cbn [bb bk outcnt hm set_bits set_hm]; rewrite ?Eo; [by apply (reader_set s5)|destruct Hp5; by split|done|done]).
  assert (kept s (set_bits (set_hm s5 m') b5 k5)) as Hk by (destruct Hst as (Q1 & Q2 & Q3 & Q4 & Q5 & Q6), Hst5 as (R1 & R2 & R3 & R4 & R5 & R6); cbn [inbuf insize room input_data input_len set_hm] in *; unfold kept; cbn [inbuf insize room hm input_data input_len set_bits set_hm]; rewrite R1, R2, R3, R5, R6; done).
  rewrite <- El, <- Ed. rewrite <- Eld in Hrange. apply Forall_app in Hrange as [Hr1 Hr2].
  destruct (dynamic_codes_ok fuel _ (h_lit h) (h_dist h) ll' its rest O O' Hre5) as (s6 & -> & Hk6 & Hre6); [lia|lia|done|done|done|done|done| |done|done|done| |done|].
  { rewrite Eld. unfold h_lens. rewrite app_nil_l in Et. rewrite <- Et. f_equal. lia. } { destruct Hk as (_ & _ & -> & _). done. }
  exists s6. split; [done|]. split; [by eapply kept_trans|done].
Qed.

(** ** Streams *)

(** Every item takes at least one bit, and so does the end. *)
Lemma items_bits lb db its : has_code lb 256 = true -> forallb (item_ok lb db) its = true -> (length its < length (enc_items lb db its))%nat.
Proof.
  intros H256 Hok. assert (forall i, has_code lb i = true -> (1 <= length (code_bits lb i))%nat) as Hc.
  { intros i Hi. unfold has_code in Hi. rewrite andb_true_iff, !Z.leb_le in Hi. pose proof (length_code_bits lb i ltac:(lia)). lia. }
  unfold enc_items. rewrite length_app. pose proof (Hc 256 H256). enough (length its <= length (its ≫= enc_item lb db))%nat by lia. induction its as [|i its IH]; [done|]. cbn [forallb] in Hok. apply andb_true_iff in Hok as [Hi Hok]. specialize (IH Hok).
  rewrite bind_cons, length_app. cbn [length]. enough (1 <= length (enc_item lb db i))%nat by lia. destruct i as [c|ls le ds de]; cbn [enc_item].
  - apply Hc. by apply andb_true_iff in Hi as [_ Hi].
  - rewrite length_app. destruct (copy_item_ok lb db _ _ _ _ Hi) as (_ & Hls & _). specialize (Hc ls Hls). lia.
Qed.

Lemma inflate_block_ok fuel s f blk rest O O' pos : ready s (f :: enc_block blk ++ rest) O -> block_ok pos blk = true -> (pos + Z.of_nat (length (f :: enc_block blk ++ rest))) mod 8 = 0 -> expand_block O blk = Some O' ->
  16 <= Z.of_nat (length rest) -> Z.of_nat (length O') <= room s -> (length (enc_block blk) <= fuel)%nat -> exists s', inflate_block junk fuel s = Ok (0, Z.b2z f, s') /\ kept s s' /\ ready s' rest O'.
Proof.
  intros Hre Hok Hpos Hx Hl Hroom Hf. pose proof (re_bits _ _ _ Hre) as Hr. change (f :: enc_block blk ++ rest) with ([f] ++ enc_block blk ++ rest) in Hr. replace [f] with (lsb (Z.to_nat 1) (Z.b2z f)) in Hr by (by destruct f). unfold inflate_block.
  destruct (GETBITS_ok _ _ _ 1 _ _ Hr) as (s1 & b1 & k1 & -> & Ha1 & H1 & _); [lia|destruct f; cbn; lia|]. cbn [mbind outcome_bind].
  assert (exists t body, enc_block blk = lsb (Z.to_nat 2) t ++ body /\ 0 <= t < 4 /\ t = match blk with Stored _ _ => 0 | Fixed _ => 1 | Dynamic _ _ => 2 end) as (t & body & Eb & Ht & Et) by (destruct blk; cbn [enc_block]; eexists _, _; (split; [reflexivity|]); split; [lia|done|lia|done|lia|done]).
  rewrite Eb, <- app_assoc in H1. destruct (GETBITS_ok _ _ _ 2 _ _ H1) as (s2 & b2 & k2 & -> & Ha2 & H2 & _); [lia|lia|]. cbn [mbind outcome_bind].
  pose proof (advanced_trans _ _ _ Ha1 Ha2) as Ha. pose proof (advanced_ready _ _ _ _ _ _ _ Hre Ha H2) as Hre2. assert (kept s (set_bits s2 b2 k2)) as Hk2 by (rewrite Ha; done).
  assert (Z.of_nat (length O') <= room (set_bits s2 b2 k2)) as Hroom2 by (by destruct Hk2 as (_ & _ & -> & _)).
  enough (exists s', (if t =? 2 then inflate_dynamic junk fuel (set_bits s2 b2 k2) else if t =? 0 then inflate_stored (set_bits s2 b2 k2) else if t =? 1 then inflate_fixed junk fuel (set_bits s2 b2 k2) else Ok (2, set_bits s2 b2 k2)) = Ok (0, s') /\ kept (set_bits s2 b2 k2) s' /\ ready s' rest O') as (s' & -> & Hk' & Hre') by (cbn [mbind outcome_bind]; exists s'; split; [done|]; split; [by eapply kept_trans|done]).
  destruct blk as [pad data|its|h its]; subst t; cbn [enc_block] in Eb; apply app_inj_1 in Eb as [_ <-]; try done; cbn [block_ok] in Hok; cbn [expand_block] in Hx; cbn [Z.eqb Pos.eqb].
  - rewrite !andb_true_iff, !Z.ltb_lt, Z.eqb_eq in Hok. destruct Hok as [[[Hp1 Hp2] Hd1] Hd2]. injection Hx as <-. rewrite <- !app_assoc in Hre2. apply inflate_stored_ok with pad; try done; [lia| | |by rewrite length_app in Hroom2].
    + cbn [length] in Hpos. rewrite length_app in Hpos. cbn [enc_block] in Hpos. rewrite !length_app, !length_lsb, length_bits_of in Hpos. apply Z.mod_divide in Hpos as [q Hq]; [|done]. apply Z.mod_divide in Hp2 as [q' Hq']; [|done].
      replace (Z.of_nat (length rest)) with ((q - q' - 4 - Z.of_nat (length data)) * 8) by lia. apply Z.mod_mul. done.
    + revert Hd2. apply Forall_check. intros x. by apply is_byte_true.
  - apply (inflate_fixed_ok fuel _ its rest O O'); try done. pose proof (items_bits fixed_lit fixed_dist its ltac:(by vm_compute) Hok). cbn [enc_block] in Hf. rewrite length_app in Hf. lia.
  - apply andb_true_iff in Hok as [Hh%header_ok_sound Hok]. rewrite <- app_assoc in Hre2. apply (inflate_dynamic_ok fuel _ h its rest O O'); try done. pose proof (items_bits _ _ its (hs_end _ Hh) Hok). cbn [enc_block] in Hf. rewrite !length_app in Hf. lia.
Qed.

Lemma expand_block_grows O b O' : expand_block O b = Some O' -> (length O <= length O')%nat.
Proof. destruct b; cbn [expand_block]; [intros [= <-]; rewrite length_app; lia|apply expand_items_grow|apply expand_items_grow]. Qed.
Lemma expand_stream_grows bl : forall O O', expand_stream O bl = Some O' -> (length O <= length O')%nat.
Proof.
  induction bl as [|b bl IH]; intros O O'; cbn [expand_stream]; [by intros [= <-]|]. destruct (expand_block O b) as [O1|] eqn:E; [|done]. cbn [mbind option_bind]. intros H%IH. apply expand_block_grows in E. lia.
Qed.

Lemma blocks_ok fuel bl : forall n s rest O O' pos, bl <> [] -> ready s (enc_stream bl ++ rest) O -> stream_ok pos bl = true -> (pos + Z.of_nat (length (enc_stream bl ++ rest))) mod 8 = 0 -> expand_stream O bl = Some O' ->
  16 <= Z.of_nat (length rest) -> Z.of_nat (length O') <= room s -> (length (enc_stream bl) <= fuel)%nat -> (length bl <= n)%nat -> exists s', blocks junk n fuel s = Ok (0, s') /\ kept s s' /\ ready s' rest O'.
Proof.
  induction bl as [|b bl IH]; intros n s rest O O' pos Hne Hre Hok Hpos Hx Hl Hroom Hf Hn; [done|]. destruct n as [|n]; [cbn in Hn; lia|]. cbn [stream_ok] in Hok. apply andb_true_iff in Hok as [Hb Hok].
  cbn [expand_stream] in Hx. destruct (expand_block O b) as [O1|] eqn:E1; [|done]. cbn [mbind option_bind] in Hx. pose proof (expand_stream_grows _ _ _ Hx) as Hg. cbn [enc_stream] in *. set (f := match bl with [] => true | _ => false end) in *.
  assert ((f :: enc_block b ++ enc_stream bl) ++ rest = f :: enc_block b ++ (enc_stream bl ++ rest)) as Ee by (cbn [app]; by rewrite <- app_assoc). rewrite Ee in Hre, Hpos. cbn [length] in Hf. rewrite length_app in Hf.
  assert (ready (set_hm s (set_hufts (hm s))) (f :: enc_block b ++ enc_stream bl ++ rest) O) as Hre1 by (destruct Hre as [R1 R2 R3 R4]; split; [by apply (reader_set s)|destruct R2; by split|done|done]).
  destruct (inflate_block_ok fuel _ f b (enc_stream bl ++ rest) O O1 pos Hre1 Hb Hpos E1) as (s1 & E & Hk1 & Hre2); [rewrite length_app; lia|cbn [room set_hm]; lia|lia|]. assert (kept s s1) as Hk by (revert Hk1; by destruct s).
  cbn [blocks]. rewrite E. cbn [mbind outcome_bind]. change (negb (0 =? 0)) with false. cbv iota. destruct bl as [|b' bl'].
  - cbn [f Z.b2z Z.eqb]. cbn [expand_stream] in Hx. injection Hx as <-. exists s1. done.
  - cbn [f Z.b2z Z.eqb]. destruct (IH n s1 rest O1 O' (pos + 1 + Z.of_nat (length (enc_block b)))) as (s2 & E2 & Hk2 & Hre3); try done.
    + rewrite <- Hpos. f_equal. cbn [length]. rewrite !length_app. lia.
    + by destruct Hk as (_ & _ & -> & _).
    + lia.
    + cbn [length] in *. lia.
    + exists s2. split; [done|]. split; [by eapply kept_trans|done].
Qed.

Lemma unread_ok n : forall s, 0 <= bk s < 8 * Z.of_nat (S n) -> unread n s = set_bits (set_inp s (inbuf s) (insize s) (inptr s - bk s / 8)) (bb s) (bk s mod 8).
Proof.
  induction n as [|n IH]; intros s Hk.
  - cbn [unread]. rewrite Z.div_small, Z.mod_small by lia. destruct s. cbn. unfold set_bits, set_inp. cbn. f_equal. lia.
  - cbn [unread]. destruct (Z.leb_spec 8 (bk s)) as [H8|H8]; [|rewrite Z.div_small, Z.mod_small by lia; destruct s; cbn; unfold set_bits, set_inp; cbn; f_equal; lia].
    rewrite IH by (cbn [bk set_bits set_inp]; lia). cbn [bk bb inbuf insize inptr set_bits set_inp]. assert (bk s / 8 = (bk s - 8) / 8 + 1) as -> by (rewrite <- Z.div_add by lia; f_equal; lia). assert (bk s mod 8 = (bk s - 8) mod 8) as -> by (rewrite <- (Z.mod_add (bk s - 8) 1) by lia; f_equal; lia). unfold set_bits, set_inp. cbn. f_equal. lia.
Qed.

Lemma blocks_bits bl : (length bl <= length (enc_stream bl))%nat.
Proof. induction bl as [|b bl IH]; [done|]. cbn [enc_stream length]. rewrite length_app. lia. Qed.

(** The stream, the bits up to the next byte, and at least two bytes more. *)
Lemma inflate_ok fuel s bl pad body trail O : bl <> [] -> stream_ok 0 bl = true -> expand_stream [] bl = Some O -> Forall byte (inbuf s) -> insize s = Z.of_nat (length (inbuf s)) -> 0 <= inptr s ->
  drop (Z.to_nat (inptr s)) (inbuf s) = body ++ trail -> bits_of body = enc_stream bl ++ pad -> (length pad < 8)%nat -> (2 <= length trail)%nat -> heap_ok (hm s) -> output s = [] -> bytes_out s = 0 ->
  Z.of_nat (length O) <= room s -> (length (enc_stream bl) <= fuel)%nat ->
  exists s', inflate junk fuel s = Ok (0, s') /\ kept s s' /\ inptr s' = insize s - Z.of_nat (length trail) /\ output s' = O /\ bytes_out s' = s32 (Z.of_nat (length O)) /\ heap_ok (hm s').
Proof.
  intros Hne Hok Hx Hby Hsz Hp0 Hd Hb Hpad Htr Hh Ho Hbo Hroom Hf. pose proof (f_equal length Hd) as Hdl. rewrite length_drop, length_app in Hdl. pose proof (f_equal length Hb) as Hbl. rewrite length_bits_of, length_app in Hbl.
  set (s0 := set_wp (set_bits s 0 0) 0). assert (ready s0 (enc_stream bl ++ pad ++ bits_of trail) []) as Hre.
  { split; [|split; cbn [window output bytes_out s0 set_wp set_bits]|done|done].
    - split; cbn [inptr insize inbuf bk bb s0 set_wp set_bits]; try done; try lia. rewrite Hd, bits_of_app, Hb. cbn [Z.to_nat lsb app]. by rewrite <- app_assoc.
    - done.
    - exists []. by rewrite Ho.
    - by rewrite Ho.
    - rewrite Ho. apply Z.divide_0_r.
    - intros p x Hp. done. }
  destruct (blocks_ok fuel bl fuel s0 (pad ++ bits_of trail) [] O 0 Hne Hre Hok) as (s1 & E1 & Hk1 & [R1 R2 R3 R4]); try done.
  { rewrite !length_app, length_bits_of. replace (0 + Z.of_nat (length (enc_stream bl) + (length pad + 8 * length trail))) with ((Z.of_nat (length body) + Z.of_nat (length trail)) * 8) by lia. by apply Z.mod_mul. }
  { rewrite length_app, length_bits_of. lia. } { pose proof (blocks_bits bl). lia. }
  unfold inflate. fold s0. rewrite E1. cbn [mbind outcome_bind]. change (negb (0 =? 0)) with false. cbv iota. pose proof (reader_length _ _ _ _ R1) as El. pose proof (rd_k _ _ _ _ R1) as Hk23. rewrite unread_ok by lia. set (s2 := set_bits _ _ _).
  destruct (flush_ok s2 (outcnt s2) O) as (s3 & -> & [Hst Hip] & E2 & E3 & _); [destruct R2; by split|cbn [room s2 set_bits set_inp]; by destruct Hk1 as (_ & _ & -> & _)|]. cbn [mbind outcome_bind]. exists s3. split; [done|].
  assert (kept s s2) as Hk2 by exact Hk1. split; [eapply kept_trans; [exact Hk2|by apply stable_kept]|]. split; [|split; [done|split; [done|by destruct Hst as (_ & _ & _ & -> & _)]]].
  rewrite Hip. cbn [inptr s2 set_bits set_inp]. unfold bit_pos in El. rewrite length_app, length_bits_of in El. destruct Hk1 as (_ & Esz & _). rewrite Esz in El. cbn [insize s0 set_wp set_bits] in El.
  assert (bk s1 / 8 = inptr s1 - insize s + Z.of_nat (length trail)) as ->; [|lia]. symmetry. apply (Z.div_unique_pos _ _ _ (Z.of_nat (length pad))); lia.
Qed.
End Blocks.

(** ** Theorems *)

(** With the code of a symbol next in the input, and 16 bits after it, [decode] gives the entry of
    the symbol and takes exactly the code. *)
Definition decodes (h : hmem) (T l : Z) (b : list Z) (s : Z) (d e : list Z) : Prop :=
  forall st bb k i rest, hm st = h -> has_code b i = true -> reader st bb k (code_bits b i ++ rest) -> 16 <= Z.of_nat (length rest) -> fst (sym_entry s d e i) <= 16 ->
    exists r st' bb' k', decode T l st bb k = Ok (Some r, st', bb', k') /\ (he r, hv r) = sym_entry s d e i /\ advanced st st' /\ reader st' bb' k' rest.

(** C22: For the code lengths of [buildable], huft_build makes tables in which decode finds
    every symbol: with the canonical code of the symbol next in the input, and 16 bits after it,
    it gives the entry of the symbol and takes exactly the code.  The result tells complete sets
    from incomplete ones, and huft_free gives all the memory back.  There are at most 288 lengths
    of at most 16 bits, not all 0 and not too many for a code; the set is complete or has no
    symbol without a code; no length is more than twice the bits [m] of the first table, or the
    set is complete with fewer than 2^m symbols; every symbol with a code has an entry in [d] and
    [e]; and all memory asked for is granted. *)
Theorem huft_build_decodes (junk b : list Z) (s : Z) (d e : list Z) (t0 m : Z) (h : hmem)
  (Hjunk : length junk = 288%nat) (Hb : buildable b s d e m) (Hheap : heap_ok h) :
  exists T l h', huft_build junk b s d e t0 m h = Ok (if (kraft b <? 2 ^ 16) && existsb (fun x => 1 <? x) b then 1 else 0, T, l, h') /\
    decodes h' T l b s d e /\
    exists h'', huft_free h' T = Ok h'' /\ tabs h'' = tabs h.
Proof.
  destruct (huft_build_ok junk b s d e t0 m h Hb Hjunk Hheap) as (T & l & h' & ts & E & Hl & _ & Ht & L & Hd). exists T, l, h'. split; [exact E|]. split.
  - intros st bb k i rest <- Hi Hr Hlen He. by apply (decode_ok st bb k T l b i s d e rest).
  - destruct (free_one h h' ts Hheap L) as (h'' & Ef & Et & _). rewrite Hd in Ef. by exists h''.
Qed.

Lemma huft_build_decodes_witness : exists T l h', huft_build (replicate 288 9) fixed_lit 257 cplens cplext NULL 7 (MkHm ∅ 1 [] 0) = Ok (0, T, l, h') /\
    decodes h' T l fixed_lit 257 cplens cplext /\
    exists h'', huft_free h' T = Ok h'' /\ tabs h'' = ∅.
Proof.
  assert (((kraft fixed_lit <? 2 ^ 16) && existsb (fun x => 1 <? x) fixed_lit) = false) as E by (vm_compute; reflexivity).
  pose proof (huft_build_decodes (replicate 288 9) fixed_lit 257 cplens cplext NULL 7 (MkHm ∅ 1 [] 0) (length_replicate 288 9) fixed_buildable) as H. rewrite E in H. apply H. split; [done|]. split; [intros T _; apply lookup_empty|constructor].
Defined.

(** A set with more codes than patterns is refused with the result 2, before any table is made. *)
Theorem huft_build_oversubscribed (junk b : list Z) (s : Z) (d e : list Z) (t0 m : Z) (h : hmem)
  (Hr : Forall (fun x => 0 <= x <= 16) b) (Hk : 2 ^ 16 < kraft b) :
  exists l, huft_build junk b s d e t0 m h = Ok (2, t0, l, h).
Proof.
  assert (exists i k, b !! i = Some k /\ 1 <= k) as Hs by (apply kraft_some; [eapply Forall_impl; [exact Hr|]; cbv beta; lia|lia]). destruct (scan_lengths b Hr Hs) as (c & Ec & Hlen & Hc & Hn0 & Hkg & Hg & Hb & _ & _ & _ & Hq & _).
  set (k := min_len 16 c 1) in *. set (g := max_len 16 c) in *. pose proof (kraft_qend b c g Hb ltac:(lia) Hlen Hc) as Ek. unfold huft_build. rewrite Ec. cbn [mbind outcome_bind]. rewrite (proj2 (Z.eqb_neq _ _) Hn0). fold k g. rewrite Z.shiftl_1_l.
  rewrite (spare_ok c g k 17 (2 ^ k)); [|by apply (counts_nonneg b)|lia|rewrite Hq, <- Z.pow_add_r, Z.sub_0_r by lia; f_equal; lia|lia].
  assert (2 ^ 16 = 2 ^ (16 - g) * 2 ^ g) as E16 by (rewrite <- Z.pow_add_r by lia; f_equal; lia). assert (0 < 2 ^ (16 - g)) by (apply Z.pow_pos_nonneg; lia). rewrite (proj2 (Z.leb_gt _ _)) by nia. by eexists.
Qed.

Lemma huft_build_oversubscribed_witness : exists l, huft_build (replicate 288 9) [1; 2; 2; 2] 0 cpdist cpdext NULL 6 (MkHm ∅ 1 [] 0) = Ok (2, NULL, l, MkHm ∅ 1 [] 0).
Proof.
  apply (huft_build_oversubscribed (replicate 288 9) [1; 2; 2; 2] 0 cpdist cpdext NULL 6 (MkHm ∅ 1 [] 0)); [repeat constructor; discriminate|vm_compute; reflexivity].
Defined.
