(* ===== verification/Gunzip.v ===== *)
(** * gzip files

    gunzip, do_gunzip and gzip_file on a member in the format of RFC 1952, and what goes
    wrong on other input. *)

From S2P Require Import Prelude Inflate InflateHuft InflateTree InflateBuild InflateSpec InflateBits InflateCodes InflateRun.

(** ** Reading bytes *)

(** The bytes [l] are left in the input. *)
Record bytes_left (s : gz) (l : list Z) : Prop := {
  bl_ptr : 0 <= inptr s; bl_size : insize s = Z.of_nat (length (inbuf s)); bl_bytes : Forall byte (inbuf s); bl_rest : drop (Z.to_nat (inptr s)) (inbuf s) = l }.

Lemma get_byte_ok s x l : bytes_left s (x :: l) -> exists s', get_byte s = Ok (x, s') /\ advanced s s' /\ bytes_left s' l.
Proof.
  intros [H1 H2 H3 H4]. pose proof (f_equal length H4) as El. rewrite length_drop in El. cbn [length] in El. assert (inbuf s !! Z.to_nat (inptr s) = Some x) as Hx by (rewrite <- (Nat.add_0_r (Z.to_nat (inptr s))), <- lookup_drop, H4; done).
  unfold get_byte. rewrite (proj2 (Z.ltb_lt _ _)) by lia. rewrite (at_ok _ _ x) by (done || lia). cbn [mbind outcome_bind]. eexists. split; [done|]. split; [done|]. split; cbn [inptr insize inbuf set_inp]; try done; [lia|].
  replace (Z.to_nat (inptr s + 1)) with (S (Z.to_nat (inptr s))) by lia. pose proof (drop_S _ _ _ Hx) as E. rewrite H4 in E. by injection E as ->.
Qed.

Lemma bytes_left_byte s x l : bytes_left s (x :: l) -> byte x.
Proof. intros [_ _ H3 H4]. apply (Forall_drop _ (Z.to_nat (inptr s))) in H3. rewrite H4 in H3. by apply Forall_cons in H3 as [H _]. Qed.

Lemma skip_bytes_ok a : forall s l, bytes_left s (a ++ l) -> exists s', skip_bytes (length a) s = Ok s' /\ advanced s s' /\ bytes_left s' l.
Proof.
  induction a as [|x a IH]; intros s l H; cbn [length skip_bytes]; [by exists s|]. destruct (get_byte_ok s x (a ++ l) H) as (s1 & -> & Ha1 & H1). cbn [mbind outcome_bind]. destruct (IH s1 l H1) as (s2 & -> & Ha2 & H2). exists s2. split; [done|]. split; [by eapply advanced_trans|done].
Qed.

Lemma skip_name_ok a : forall fuel s l, bytes_left s (a ++ 0 :: l) -> Forall (fun x => x <> 0) a -> (length a < fuel)%nat -> exists s', skip_name fuel s = Ok s' /\ advanced s s' /\ bytes_left s' l.
Proof.
  induction a as [|x a IH]; intros fuel s l H Ha Hf; (destruct fuel as [|fuel]; [lia|]); cbn [skip_name].
  - destruct (get_byte_ok s 0 l H) as (s1 & -> & Ha1 & H1). cbn [mbind outcome_bind]. change (0 =? 0) with true. by exists s1.
  - apply Forall_cons in Ha as [Hx Ha]. destruct (get_byte_ok s x (a ++ 0 :: l) H) as (s1 & -> & Ha1 & H1). cbn [mbind outcome_bind]. rewrite (proj2 (Z.eqb_neq x 0)) by done. cbn [length] in Hf.
    destruct (IH fuel s1 l H1 Ha ltac:(lia)) as (s2 & -> & Ha2 & H2). exists s2. split; [done|]. split; [by eapply advanced_trans|done].
Qed.

Lemma get_long_ok s a b c d l : bytes_left s (a :: b :: c :: d :: l) -> exists s', get_long s = Ok (a + b * 2 ^ 8 + c * 2 ^ 16 + d * 2 ^ 24, s') /\ advanced s s' /\ bytes_left s' l.
Proof.
  intros H. unfold get_long. pose proof (bytes_left_byte _ _ _ H) as Ba. destruct (get_byte_ok _ _ _ H) as (s1 & -> & Ha1 & H1). cbn [mbind outcome_bind]. pose proof (bytes_left_byte _ _ _ H1) as Bb. destruct (get_byte_ok _ _ _ H1) as (s2 & -> & Ha2 & H2). cbn [mbind outcome_bind].
  pose proof (bytes_left_byte _ _ _ H2) as Bc. destruct (get_byte_ok _ _ _ H2) as (s3 & -> & Ha3 & H3). cbn [mbind outcome_bind]. pose proof (bytes_left_byte _ _ _ H3) as Bd. destruct (get_byte_ok _ _ _ H3) as (s4 & -> & Ha4 & H4). cbn [mbind outcome_bind]. unfold byte in *.
  exists s4. split; [|split; [do 3 (eapply advanced_trans; [eassumption|]); done|done]]. rewrite u32_small by (rewrite Z.shiftl_mul_pow2 by lia; lia). rewrite (lor_above a b 8) by lia. rewrite (lor_above _ c 16) by lia. rewrite (lor_above _ d 24) by lia. done.
Qed.

(** ** The bytes of the format *)

Lemma bits_of_pack n : forall bs, length bs = (8 * n)%nat -> bits_of (pack_bits n bs) = bs /\ Forall byte (pack_bits n bs).
Proof.
  induction n as [|n IH]; intros bs Hl; [by destruct bs|]. cbn [pack_bits]. destruct (IH (drop 8 bs)) as [E F]; [rewrite length_drop; lia|]. assert (length (take 8 bs) = 8%nat) as E8 by (rewrite length_take; lia). split.
  - rewrite bits_of_cons, E. rewrite <- E8 at 1. rewrite lsb_num. apply take_drop.
  - constructor; [|done]. pose proof (num_range (take 8 bs)) as Hr. by rewrite E8 in Hr.
Qed.

Lemma le_bytes_4 x : le_bytes 4 x = [x mod 256; (x / 2 ^ 8) mod 256; (x / 2 ^ 16) mod 256; (x / 2 ^ 24) mod 256].
Proof. unfold le_bytes. cbn. by rewrite Z.div_1_r. Qed.

Lemma le_value x : 0 <= x -> x mod 256 + (x / 2 ^ 8) mod 256 * 2 ^ 8 + (x / 2 ^ 16) mod 256 * 2 ^ 16 + (x / 2 ^ 24) mod 256 * 2 ^ 24 = u32 x.
Proof.
  intros Hx. unfold u32. change 256 with (2 ^ 8). rewrite <- (mod_split x 8 8) by lia. change (8 + 8) with 16. rewrite <- (mod_split x 16 8) by lia. change (16 + 8) with 24. rewrite <- (mod_split x 24 8) by lia. done.
Qed.

Lemma le_bytes_byte n x : Forall byte (le_bytes n x).
Proof. unfold le_bytes. apply Forall_fmap, Forall_true. intros i. cbn. apply Z.mod_pos_bound. lia. Qed.

Record member_sound (g : member) : Prop := {
  ms_six : length (g_six g) = 6%nat /\ Forall byte (g_six g);
  ms_extra : forall l, g_extra g = Some l -> Z.of_nat (length l) < 2 ^ 16 /\ Forall byte l;
  ms_name : forall l, g_name g = Some l -> Forall (fun x => 0 < x < 256) l; ms_comment : forall l, g_comment g = Some l -> Forall (fun x => 0 < x < 256) l;
  ms_blocks : g_blocks g <> [] /\ stream_ok 0 (g_blocks g) = true; ms_crc : length (g_crc g) = 4%nat /\ Forall byte (g_crc g);
  ms_pad : (length (g_pad g) < 8)%nat; ms_whole : Z.of_nat (length (enc_stream (g_blocks g) ++ g_pad g)) mod 8 = 0 }.

Lemma bytes_check l : forallb is_byte l = true -> Forall byte l.
Proof. apply Forall_check. intros x. by apply is_byte_true. Qed.
Lemma zstring_check l : zstring_ok (Some l) = true -> Forall (fun x => 0 < x < 256) l.
Proof. apply Forall_check. intros x. by rewrite andb_true_iff, !Z.ltb_lt. Qed.

Lemma member_ok_sound g : member_ok g = true -> member_sound g.
Proof.
  unfold member_ok. rewrite !andb_true_iff. intros [[[[[[[[[H1%Z.eqb_eq H2%bytes_check] H3] H4] H5] H6] H7%Z.eqb_eq] H8%bytes_check] H9%Z.ltb_lt] H10%Z.eqb_eq]. split; try done; try lia.
  - split; [lia|done].
  - intros l E. rewrite E in H3. apply andb_true_iff in H3 as [A%Z.ltb_lt B%bytes_check]. done.
  - intros l E. rewrite E in H4. by apply zstring_check.
  - intros l E. rewrite E in H5. by apply zstring_check.
  - by destruct (g_blocks g).
  - split; [lia|done].
Qed.

Lemma member_bytes g data : member_sound g -> Forall byte (enc_member g data) /\ bits_of (g_body g) = enc_stream (g_blocks g) ++ g_pad g.
Proof.
  intros [[_ S1] S2 S3 S4 _ [_ S5] _ S6]. apply Z.mod_divide in S6 as [q Hq]; [|done]. set (bs := enc_stream (g_blocks g) ++ g_pad g) in *.
  destruct (bits_of_pack (length bs / 8) bs) as [E F]; [replace (length bs) with (Z.to_nat q * 8)%nat at 2 by lia; rewrite Nat.div_mul by done; lia|]. split; [|exact E].
  assert (forall o, (forall l, o = Some l -> Forall (fun x => 0 < x < 256) l) -> Forall byte (zstring o)) as Hz.
  { intros [l|] Hl; [|constructor]. cbn [zstring]. apply Forall_app_2; [|by repeat constructor]. eapply Forall_impl; [exact (Hl l eq_refl)|]. unfold byte. lia. }
  unfold enc_member, g_head. rewrite <- !app_assoc. repeat apply Forall_app_2; try done; [|destruct (g_extra g) as [l|]; [|constructor]|by apply Hz|by apply Hz|apply le_bytes_byte].
  - repeat (constructor; [unfold byte; lia|]). constructor; [|constructor]. unfold byte, g_flags, flag. destruct (g_text g), (g_extra g), (g_name g), (g_comment g); cbn; lia.
  - apply Forall_app_2; [apply le_bytes_byte|by apply (S2 l)].
Qed.

(** ** gunzip *)

Definition absent {A} (o : option A) : bool := match o with Some _ => false | None => true end.

Lemma flags_ok g : (Z.land (g_flags g) 0x20 =? 0) = true /\ (Z.land (g_flags g) 0x02 =? 0) = true /\ (Z.land (g_flags g) 0xC0 =? 0) = true /\
  (Z.land (g_flags g) 0x04 =? 0) = absent (g_extra g) /\ (Z.land (g_flags g) 0x08 =? 0) = absent (g_name g) /\ (Z.land (g_flags g) 0x10 =? 0) = absent (g_comment g).
Proof. unfold g_flags, flag. by destruct (g_text g), (g_extra g), (g_name g), (g_comment g). Qed.

Lemma extra_skip s o l : bytes_left s (match o with Some e => le_bytes 2 (Z.of_nat (length e)) ++ e | None => [] end ++ l) -> (forall e, o = Some e -> Z.of_nat (length e) < 2 ^ 16) ->
  exists s', (if absent o then Ok s else '(a, s) ← get_byte s; '(b, s) ← get_byte s; skip_bytes (Z.to_nat (Z.lor a (Z.shiftl b 8))) s) = Ok s' /\ advanced s s' /\ bytes_left s' l.
Proof.
  intros H Hl. destruct o as [e|]; cbn [absent]; [|by exists s]. specialize (Hl e eq_refl). set (n := Z.of_nat (length e)) in *. assert (le_bytes 2 n = [n mod 256; (n / 2 ^ 8) mod 256]) as E by (unfold le_bytes; cbn; by rewrite Z.div_1_r). rewrite E in H. cbn [app] in H.
  destruct (get_byte_ok _ _ _ H) as (s1 & -> & Ha1 & H1). cbn [mbind outcome_bind]. destruct (get_byte_ok _ _ _ H1) as (s2 & -> & Ha2 & H2). cbn [mbind outcome_bind].
  pose proof (Z.mod_pos_bound n 256 ltac:(lia)) as M1. pose proof (Z.mod_pos_bound (n / 2 ^ 8) 256 ltac:(lia)) as M2. rewrite lor_above by lia. change 256 with (2 ^ 8). rewrite <- (mod_split n 8 8), Z.mod_small by lia. unfold n at 1. rewrite Nat2Z.id.
  destruct (skip_bytes_ok e s2 l H2) as (s3 & -> & Ha3 & H3). exists s3. split; [done|]. split; [do 2 (eapply advanced_trans; [eassumption|]); done|done].
Qed.

Lemma name_skip fuel s o l : bytes_left s (zstring o ++ l) -> (forall e, o = Some e -> Forall (fun x => 0 < x < 256) e /\ (length e < fuel)%nat) ->
  exists s', (if absent o then Ok s else skip_name fuel s) = Ok s' /\ advanced s s' /\ bytes_left s' l.
Proof.
  intros H Hl. destruct o as [e|]; cbn [absent]; [|by exists s]. destruct (Hl e eq_refl) as [Hb Hf]. cbn [zstring] in H. rewrite <- app_assoc in H. apply (skip_name_ok e fuel s l H); [|done]. eapply Forall_impl; [exact Hb|]. cbv beta. lia.
Qed.

(** The first byte: the buffer is empty, and is set up. *)
Lemma first_byte_ok s x l : insize s <= inptr s -> input_data s = x :: l -> input_len s = Z.of_nat (length (x :: l)) -> Forall byte (x :: l) ->
  exists s', get_byte s = Ok (x, s') /\ s' = set_inp s (x :: l) (input_len s) 1 /\ bytes_left s' l.
Proof.
  intros Hp Hd Hl Hb. unfold get_byte. rewrite (proj2 (Z.ltb_ge _ _)) by lia. unfold fill_inbuf. rewrite Hd. cbn [mbind outcome_bind]. eexists. split; [done|]. split; [done|]. split; cbn [inptr insize inbuf set_inp]; [lia|done|done|done].
Qed.

Lemma length_le_bytes n x : length (le_bytes n x) = n.
Proof. unfold le_bytes. by rewrite length_fmap, length_seq. Qed.

(** The length at the end of the file. *)
Lemma orig_length_ok g O : gzip_orig_length (enc_member g O) (Z.of_nat (length (enc_member g O))) = Ok (u32 (Z.of_nat (length O))).
Proof.
  unfold gzip_orig_length. set (a := g_head g ++ g_body g ++ g_crc g). set (n := Z.of_nat (length O)).
  assert (enc_member g O = a ++ le_bytes 4 n) as E by (unfold enc_member, a; by rewrite <- !app_assoc). rewrite E, length_app, length_le_bytes, le_bytes_4.
  assert (forall i x, [n mod 256; (n / 2 ^ 8) mod 256; (n / 2 ^ 16) mod 256; (n / 2 ^ 24) mod 256] !! i = Some x -> at_ (a ++ [n mod 256; (n / 2 ^ 8) mod 256; (n / 2 ^ 16) mod 256; (n / 2 ^ 24) mod 256]) (Z.of_nat (length a + i)) = Ok x) as Hat.
  { intros i x Hx. apply at_ok; [lia|]. rewrite Nat2Z.id, lookup_app_r by lia. by replace (length a + i - length a)%nat with i by lia. }
  replace (Z.of_nat (length a + 4) - 4) with (Z.of_nat (length a + 0)) by lia. replace (Z.of_nat (length a + 4) - 3) with (Z.of_nat (length a + 1)) by lia. replace (Z.of_nat (length a + 4) - 2) with (Z.of_nat (length a + 2)) by lia. replace (Z.of_nat (length a + 4) - 1) with (Z.of_nat (length a + 3)) by lia.
  rewrite (Hat 0%nat _ eq_refl). cbn [mbind outcome_bind]. rewrite (Hat 1%nat _ eq_refl). cbn [mbind outcome_bind]. rewrite (Hat 2%nat _ eq_refl). cbn [mbind outcome_bind]. rewrite (Hat 3%nat _ eq_refl). cbn [mbind outcome_bind]. f_equal. rewrite <- le_value by lia. lia.
Qed.

Section Files.
Context (junk : list Z) (Hjunk : length junk = 288%nat).

(** A member in the source gives its data; the tables are given back. *)
Lemma gunzip_ok fuel s g O : insize s <= inptr s -> input_data s = enc_member g O -> input_len s = Z.of_nat (length (enc_member g O)) -> member_sound g -> expand_stream [] (g_blocks g) = Some O ->
  heap_ok (hm s) -> output s = [] -> bytes_out s = 0 -> Z.of_nat (length O) <= room s -> (8 * length (enc_member g O) <= fuel)%nat ->
  exists s', gunzip junk fuel s = Ok (0, s') /\ output s' = O /\ bytes_out s' = s32 (Z.of_nat (length O)) /\ tabs (hm s') = tabs (hm s) /\ heap_ok (hm s').
Proof.
  intros Hp Hin Hlen Hg Hx Hh Ho Hb Hroom Hf. destruct (member_bytes g O Hg) as [Hby Ebody]. pose proof Hg as [[G1 _] G2 G3 G4 [G5 G6] [G7 _] G8 _]. pose proof (f_equal length Ebody) as Hbl. rewrite length_bits_of in Hbl.
  set (file := enc_member g O) in *. assert (file = 0x1f :: 0x8b :: 8 :: g_flags g :: g_six g ++ match g_extra g with Some l => le_bytes 2 (Z.of_nat (length l)) ++ l | None => [] end ++ zstring (g_name g) ++ zstring (g_comment g) ++ g_body g ++ g_crc g ++ le_bytes 4 (Z.of_nat (length O))) as Efile
    by (unfold file, enc_member, g_head; cbn [app]; rewrite <- !app_assoc; done).
  assert (forall e, g_name g = Some e \/ g_comment g = Some e -> (length e < fuel)%nat) as Hname.
  { intros e He. rewrite Efile in Hf. cbn [length] in Hf. rewrite !length_app in Hf. destruct He as [He|He]; rewrite He in Hf; cbn [zstring] in Hf; rewrite length_app in Hf; cbn [length] in Hf; lia. }
  assert (length (enc_stream (g_blocks g)) <= fuel)%nat as Hfs by (rewrite length_app in Hbl; rewrite Efile in Hf; cbn [length] in Hf; rewrite !length_app in Hf; lia).
  rewrite Efile in Hin, Hlen, Hby. unfold gunzip. destruct (first_byte_ok s _ _ Hp Hin Hlen Hby) as (s0 & -> & Es0 & H0). cbn [mbind outcome_bind].
  destruct (get_byte_ok _ _ _ H0) as (s1 & -> & Ha1 & H1). cbn [mbind outcome_bind]. destruct (get_byte_ok _ _ _ H1) as (s2 & -> & Ha2 & H2). cbn [mbind outcome_bind]. cbn [Z.eqb Pos.eqb negb andb orb].
  destruct (get_byte_ok _ _ _ H2) as (s3 & -> & Ha3 & H3). cbn [mbind outcome_bind]. destruct (flags_ok g) as (-> & -> & -> & -> & -> & ->). cbn [negb]. rewrite <- G1.
  destruct (skip_bytes_ok _ _ _ H3) as (s4 & -> & Ha4 & H4). cbn [mbind outcome_bind]. destruct (extra_skip _ _ _ H4) as (s5 & -> & Ha5 & H5); [intros e He; by apply G2|]. cbn [mbind outcome_bind].
  destruct (name_skip fuel _ _ _ H5) as (s6 & -> & Ha6 & H6); [intros e He; split; [by apply G3|apply Hname; by left]|]. cbn [mbind outcome_bind]. destruct (name_skip fuel _ _ _ H6) as (s7 & -> & Ha7 & H7); [intros e He; split; [by apply G4|apply Hname; by right]|]. cbn [mbind outcome_bind].
  assert (advanced s0 s7) as Ha by (do 6 (eapply advanced_trans; [eassumption|]); done). pose proof (f_equal output Ha) as Eo. pose proof (f_equal bytes_out Ha) as Ebo. pose proof (f_equal room Ha) as Er. pose proof (f_equal hm Ha) as Ehm.
  rewrite Es0 in Eo, Ebo, Er, Ehm. cbn [output bytes_out room hm set_inp] in Eo, Ebo, Er, Ehm. pose proof H7 as [B1 B2 B3 B4].
  destruct (inflate_ok junk Hjunk fuel s7 (g_blocks g) (g_pad g) (g_body g) (g_crc g ++ le_bytes 4 (Z.of_nat (length O))) O) as (s8 & -> & Hk8 & Ep8 & Eo8 & Eb8 & Hh8); try done; try congruence; [rewrite length_app; lia|].
  cbn [mbind outcome_bind]. change (negb (0 =? 0)) with false. cbv iota. destruct Hk8 as (K1 & K2 & K3 & K4 & _).
  assert (bytes_left s8 (g_crc g ++ le_bytes 4 (Z.of_nat (length O)))) as H8.
  { pose proof (f_equal length B4) as Hl4. rewrite length_drop, !length_app in Hl4. split; [rewrite Ep8, length_app; lia|by rewrite K2, K1|by rewrite K1|]. rewrite K1, Ep8, B2. rewrite <- (take_drop (Z.to_nat (inptr s7)) (inbuf s7)), B4.
    rewrite (app_assoc _ (g_body g)). rewrite drop_app_length'; [done|]. rewrite !length_app, length_take. lia. }
  destruct (g_crc g) as [|c0 [|c1 [|c2 [|c3 [|]]]]]; try done. cbn [app] in H8. destruct (get_long_ok _ _ _ _ _ _ H8) as (s9 & -> & Ha9 & H9). cbn [mbind outcome_bind]. rewrite le_bytes_4 in H9. destruct (get_long_ok _ _ _ _ _ _ H9) as (s10 & -> & Ha10 & H10). cbn [mbind outcome_bind].
  rewrite le_value by lia. pose proof (advanced_trans _ _ _ Ha9 Ha10) as Hal. assert (bytes_out s10 = s32 (Z.of_nat (length O))) as Eb10 by (by rewrite Hal). rewrite Eb10, u32_of_s32, Z.eqb_refl. cbn [negb]. exists s10. split; [done|]. rewrite Hal. cbn [output bytes_out hm set_inp]. rewrite K4, Ehm. done.
Qed.
End Files.

(** ** Theorems *)

(** The member is well formed, and its blocks stand for [data]. *)
Definition holds (g : member) (data : list Z) : Prop := member_ok g = true /\ expand_stream [] (g_blocks g) = Some data.

(** What do_gunzip gives for a member in a destination that is large enough. *)
Lemma unpack_ok junk fuel s g data : length junk = 288%nat -> heap_ok (hm s) -> holds g data -> 0 < Z.of_nat (length data) < 2 ^ 32 ->
  (8 * length (enc_member g data) <= fuel)%nat ->
  exists s', gzip_file junk fuel s (enc_member g data) =
      Ok (if s32 (Z.of_nat (length data)) <=? 0 then (-2, None, s') else (0, Some (Z.of_nat (length data), data), s')) /\
    tabs (hm s') = tabs (hm s) /\ heap_ok (hm s').
Proof.
  intros Hjunk (H1 & H2 & H3) [Hok Hdata] Hlen Hfuel. unfold gzip_file. rewrite orig_length_ok. cbn [mbind outcome_bind]. rewrite u32_small by lia. rewrite (proj2 (Z.eqb_neq _ 0)) by lia.
  assert (default true (head (answers (hm s))) = true) as -> by (destruct (answers (hm s)); [done|by apply Forall_cons in H3 as [<- _]]). unfold do_gunzip. set (s0 := MkGz _ _ _ _ _ _ _ _ _ _ _ _ _).
  destruct (gunzip_ok junk Hjunk fuel s0 g data) as (s' & -> & Eo & Eb & Et & Hh); try done; [by apply member_ok_sound| |].
  { split_and!; [done..|]. cbn. destruct (answers (hm s)); [constructor|by apply Forall_cons in H3 as [_ H3]]. }
  cbn [mbind outcome_bind]. rewrite Eb. exists s'. split; [|done]. destruct (_ <=? 0); [done|]. rewrite Eo. rewrite Nat2Z.id, Nat.sub_diag. cbn [replicate]. by rewrite app_nil_r.
Qed.

(** C7: A file of one member in the format of RFC 1952 is unpacked: gzip_file gives back 0 and
    exactly the data, in a buffer of its length, and all decoding tables are freed.  The header
    has no checksum of its own; the extra field, name and comment may be there.  The data has
    from 1 to 2^31 - 1 bytes, and the length at the end of the file is right; the CRC is not
    looked at.  Blocks are stored, have the fixed codes, or bring codes of their own: complete
    ones for the lengths and for the literals, and for the distances a complete one, none at all,
    or the single code of a set of one symbol.  All memory asked for is granted. *)
Theorem gzip_file_roundtrip (junk : list Z) (fuel : nat) (s : gz) (g : member) (data : list Z)
  (Hjunk : length junk = 288%nat) (Hheap : heap_ok (hm s)) (Hg : holds g data)
  (Hlen : 0 < Z.of_nat (length data) < 2 ^ 31) (Hfuel : (8 * length (enc_member g data) <= fuel)%nat) :
  exists s', gzip_file junk fuel s (enc_member g data) = Ok (0, Some (Z.of_nat (length data), data), s') /\ tabs (hm s') = tabs (hm s) /\ heap_ok (hm s').
Proof.
  destruct (unpack_ok junk fuel s g data) as (s' & E & H); try done; [lia|]. exists s'. split; [|exact H]. rewrite E, s32_small by lia. by rewrite (proj2 (Z.leb_gt _ 0)) by lia.
Qed.

(** The count of bytes is an int: from 2^31 bytes on the data is unpacked and refused. *)
Lemma gzip_file_large_refused junk fuel s g data : length junk = 288%nat -> heap_ok (hm s) -> holds g data ->
  2 ^ 31 <= Z.of_nat (length data) < 2 ^ 32 -> (8 * length (enc_member g data) <= fuel)%nat ->
  exists s', gzip_file junk fuel s (enc_member g data) = Ok (-2, None, s').
Proof.
  intros Hj Hh Hg Hl Hf. destruct (unpack_ok junk fuel s g data) as (s' & E & _); try done; [lia|]. exists s'. rewrite E. unfold s32. rewrite Z.mod_small by lia.
  rewrite (proj2 (Z.ltb_ge _ _)) by lia. by rewrite (proj2 (Z.leb_le _ 0)) by lia.
Qed.

(** Three blocks: literals and a copy that overlaps itself, codes of its own with one code for
    distances, and stored bytes. *)
Definition demo_header : header :=
  Header 260 1 18 [2; 2; 2; 0; 0; 0; 0; 0; 0; 0; 0; 0; 0; 0; 0; 0; 0; 0; 2]
    [ManyZeros 97; Len 1; ManyZeros 138; ManyZeros 20; Len 2; Len 0; Len 0; Len 2; Len 1].
Definition demo : member :=
  Member true [0; 0; 0; 0; 0; 3] (Some [1; 2; 3]) (Some [107; 46; 116]) None
    [Fixed [Lit 104; Lit 105; Copy 259 0 1 0; Lit 200]; Dynamic demo_header [Lit 97; Copy 259 0 0 0]; Stored [true; false] [1; 2; 255]] [] [0; 0; 0; 0].
Definition demo_data : list Z := [104; 105; 104; 105; 104; 105; 104; 200; 97; 97; 97; 97; 97; 97; 1; 2; 255].
Definition idle_gz : gz := MkGz [] 0 0 [] 0 0 0 ∅ 0 0 [] 0 (MkHm ∅ 1 [] 0).

Lemma idle_heap : heap_ok (hm idle_gz).
Proof. split; [done|]. split; [intros T _; apply lookup_empty|constructor]. Qed.

Lemma gzip_file_roundtrip_witness : exists s', gzip_file (replicate 288 7) 1000 idle_gz (enc_member demo demo_data) = Ok (0, Some (17, demo_data), s') /\ tabs (hm s') = ∅ /\ heap_ok (hm s').
Proof.
  apply (gzip_file_roundtrip (replicate 288 7) 1000 idle_gz demo demo_data).
  - apply length_replicate.
  - exact idle_heap.
  - split; vm_compute; reflexivity.
  - vm_compute. split; reflexivity.
  - apply Nat.leb_le. vm_compute. reflexivity.
Defined.

(** ** The file of gzip_test *)

Definition agzipfile : list Z :=
  [31; 139; 8; 8; 124; 58; 156; 67; 0; 11; 107; 46; 116; 120; 116; 0; 43; 201; 200; 44; 86; 0; 162; 68; 133; 244; 170; 204; 2; 133; 146; 212; 138; 18;
   133; 180; 204; 156; 84; 69; 94; 174; 140; 212; 156; 156; 124; 133; 242; 252; 162; 156; 20; 32; 143; 151; 171; 132; 120; 165; 0; 41; 201; 121; 102;
   86; 0; 0; 0].

(** What gzip_test prints, and how many tables are left. *)
Definition fate {A B} (f : A -> gz -> B) (o : outcome (A * gz)) : outcome B :=
  match o with Ok (x, s) => Ok (f x s) | Panic => Panic | Fault => Fault | OutOfFuel => OutOfFuel end.

Lemma gzip_test_unpacks : fate (fun n s => (n, output s, size (tabs (hm s)))) (do_gunzip (replicate 288 0) 200 (gzip_ran_init idle_gz) 512 agzipfile) = Ok (86,
  [116; 104; 105; 115; 32; 105; 115; 32; 97; 32; 103; 122; 105; 112; 32; 116; 101; 120; 116; 32; 102; 105; 108; 101; 33; 13; 10; 104; 101; 108; 108;
   111; 32; 119; 111; 114; 108; 100; 33; 13; 10; 13; 10; 116; 104; 105; 115; 32; 105; 115; 32; 97; 32; 103; 122; 105; 112; 32; 116; 101; 120; 116; 32;
   102; 105; 108; 101; 33; 13; 10; 104; 101; 108; 108; 111; 32; 119; 111; 114; 108; 100; 33; 13; 10; 13; 10], 0%nat).
Proof. vm_compute. reflexivity. Qed.

(** ** Input that is not as it should be *)

(** The bits of blocks as a file that claims [n] bytes of data. *)
Definition of_bits (bs : list bool) : list Z := let bs := bs ++ replicate (7 - (length bs + 7) mod 8)%nat false in pack_bits (length bs / 8)%nat bs.
Definition raw_file (bs : list bool) (n : Z) : list Z := [0x1f; 0x8b; 8; 0; 0; 0; 0; 0; 0; 3] ++ of_bits bs ++ [0; 0; 0; 0] ++ le_bytes 4 n.
Definition unpack (file : list Z) : outcome (Z * option (Z * list Z) * nat) := fate (fun x s => (x, size (tabs (hm s)))) (gzip_file (replicate 288 0) 500 idle_gz file).

(** When the input is used up it is read again from its first byte. *)
Lemma get_byte_restarts s x l : insize s <= inptr s -> input_data s = x :: l -> get_byte s = Ok (x, set_inp s (x :: l) (input_len s) 1).
Proof. intros Hp Hd. unfold get_byte. rewrite (proj2 (Z.ltb_ge _ _)) by lia. unfold fill_inbuf. by rewrite Hd. Qed.

(** The length at the end is wrong, and the data is accepted with that length. *)
Lemma gzip_wrong_length_accepted : unpack (raw_file (enc_stream [Stored (replicate 5 false) [1; 2; 3]]) 10) = Ok (0, Some (10, [1; 2; 3; 0; 0; 0; 0; 0; 0; 0]), 0%nat).
Proof. vm_compute. reflexivity. Qed.

(** kcalloc refuses the buffer: the data is written to the addresses from 0 on. *)
Lemma gzip_no_memory_faults :
  gzip_file (replicate 288 0) 500 (set_hm idle_gz (MkHm ∅ 1 [false] 0)) (raw_file (enc_stream [Stored (replicate 5 false) [1; 2; 3]]) 3) = Fault.
Proof. vm_compute. reflexivity. Qed.

(** A length that is too small: the data is written past the end of the buffer. *)
Lemma gzip_short_length_overflows : unpack (raw_file (enc_stream [Stored (replicate 5 false) [1; 2; 3]]) 1) = Fault.
Proof. vm_compute. reflexivity. Qed.

(** A distance that goes back before the first byte is not noticed. *)
Lemma gzip_early_distance_accepted : expand_stream [] [Dynamic demo_header [Copy 259 0 0 0]] = None /\
  unpack (raw_file (enc_stream [Dynamic demo_header [Copy 259 0 0 0]]) 5) = Ok (0, Some (5, [0; 0; 0; 0; 0]), 0%nat).
Proof. split; vm_compute; reflexivity. Qed.

(** A block without a code for distances, in which a copy follows: the table is NULL. *)
Definition no_distances : header :=
  Header 260 1 18 (h_cl demo_header) [ManyZeros 97; Len 1; ManyZeros 138; ManyZeros 20; Len 2; Len 0; Len 0; Len 2; Len 0].
Lemma gzip_no_distance_table_faults : header_ok no_distances = true /\ unpack (raw_file (enc_stream [Dynamic no_distances [Lit 97; Copy 259 0 0 0]]) 6) = Fault.
Proof. split; vm_compute; reflexivity. Qed.

(** An unused code ends the block with an error, and the tables stay in memory. *)
Lemma gzip_error_leaks_tables :
  unpack (raw_file (true :: lsb 2 2 ++ enc_header demo_header ++ code_bits (h_lit demo_header) 97 ++ code_bits (h_lit demo_header) 259 ++ [true]) 5) = Ok (-2, None, 2%nat).
Proof. vm_compute. reflexivity. Qed.

(** One distance code, and symbols without a code: what is left of the table is filled with
    what v happens to hold, here an index far outside of cpdext. *)
Lemma huft_build_reads_junk : huft_build (replicate 288 100000) [0; 0; 1] 0 cpdist cpdext NULL dbits (MkHm ∅ 1 [] 0) = Fault.
Proof. vm_compute. reflexivity. Qed.

(** A complete set with many codes longer than the first table: huft_build reports success, and
    most codes are decoded as an empty entry. *)
Definition wide_set : list Z := 1 :: replicate 16 5.
Definition decodes_to (i : Z) : outcome (option huft) :=
  '(_, T, l, m) ← huft_build (replicate 288 0) wide_set 0 cpdist cpdext NULL 1 (MkHm ∅ 1 [] 0);
  let src := of_bits (code_bits wide_set i ++ replicate 40 false) in
  '(o, _, _, _) ← decode T l (MkGz src (Z.of_nat (length src)) 0 src (Z.of_nat (length src)) 0 0 ∅ 0 0 [] 0 m) 0 0; Ok o.
Lemma huft_build_wide_set : full wide_set = true /\ sym_entry 0 cpdist cpdext 2 = (0, Vn 3) /\ decodes_to 2 = Ok (Some (Huft 0 0 (Vn 0))).
Proof. split_and!; vm_compute; reflexivity. Qed.
